(* ===== verification/_CoqProject ===== *)
-Q . S2P
Prelude.v
Sync.v
KState.v
Coremap.v
PageTable.v
Stats.v
Tlb.v
Swapfile.v
AddrSpace.v
Kmalloc.v
KernelHeap.v
Bitmap.v
Lib.v
CString.v
Copy.v
Stream.v
UioStream.v
Lhd.v
SfsBlock.v
SfsFile.v
SfsTrunc.v
SfsDir.v
Vnode.v
Proc.v
Files.v
Syscall.v
LoadElf.v
Threads.v
SfsFs.v
SfsMount.v
SfsInv.v
SfsNames.v
SfsRun.v
Printf.v
VfsList.v
VfsLookup.v
Sched.v
Semfs.v
