(* ===== verification/Prelude.v ===== *)
(** * A verification library for the OS/161 kernel with the C1 virtual memory

    The program is the kernel under [src/os161-base-2.0.2/kern], OS/161 2.0.2
    in the configuration [conf/PROJECTC1] (options sfs, semfs, syscalls,
    waitpid, fork, file, projectc1; synch and dumbvm are off), with the part of
    [common/libc] that is linked into it.  Project C1 replaces the virtual
    memory system: a frame allocator, an inverted page table with FIFO
    replacement, demand loading of executables, a swap file and software TLB
    management.  This library models that system, the kernel heap, locks,
    threads and the scheduler, the disk driver, the file systems SFS and semfs,
    the VFS layer, and the process, file and loading code.

    ** Parts of the kernel, and the files that model them

    Locks and threads
    - [Sync.v]: [thread/spl.c] (interrupt levels) and [thread/spinlock.c];
      [Module Spl] and [Module Spinlock] for one CPU, [Module SyncOps] for
      sequences of operations, [Module Smp] for any number of CPUs stepping
      through the test-and-set protocol with its assertions (a step relation).
    - [Threads.v]: [thread/threadlist.c] ([Module ThreadList]) and the semaphores
      of [thread/synch.c] ([Module Sem], a step relation).
    - [Sched.v]: [thread/thread.c] and [thread/clock.c]; threads, run queues,
      wait channels, migration and interprocessor interrupts on any number of
      CPUs, one step for each critical section.

    Virtual memory
    - [KState.v]: the record [kst] of the global variables of the files below,
      and the interfaces [Vnops] (reading and writing files, and whether that
      sleeps) and [FrameAllocator] (what paging needs of the coremap).
    - [Coremap.v]: [arch/mips/vm/ram.c] ([Module Ram]) and [vm/coremap.c]
      ([Module Cm]).  [PageTable.v]: [vm/pt.c].  [Stats.v]: [vm/vm_stats.c].
      [Tlb.v]: [vm/vm_tlb.c].  [Swapfile.v]: [vm/swapfile.c].
    - [AddrSpace.v]: [vm/addrspace.c]; [vm_fault] calls everything above.
    - [Kmalloc.v]: [vm/kmalloc.c], on pages from the interface [Kpages];
      [KernelHeap.v] runs it on [alloc_kpages] and [free_kpages].

    Libraries
    - [Bitmap.v]: [lib/bitmap.c].  [Lib.v]: [lib/array.c], [lib/bswap.c],
      [lib/time.c], [arch/mips/vm/free_bitmap.c].  [CString.v]:
      [common/libc/string] and [atoi].  [Printf.v]: [common/libc/printf].
    - [Copy.v]: [vm/copyinout.c] and [lib/uio.c]; [Stream.v] is the view of a
      uio that the file systems have, [UioStream.v] the refinement between them.

    Disk and file systems
    - [Lhd.v]: [dev/lamebus/lhd.c]; the disk is the class [Lhdhw].
    - [SfsBlock.v]: on-disk structures, block I/O and block allocation;
      [SfsFile.v] and [SfsTrunc.v]: block mapping, file I/O and truncation
      ([sfs_io.c], [sfs_bmap.c]); [SfsDir.v]: [sfs_dir.c]; [SfsFs.v]:
      [sfs_inode.c] and [sfs_vnops.c]; [SfsMount.v]: [sfs_fsops.c].  [SfsInv.v],
      [SfsNames.v] and [SfsRun.v] prove the consistency of the whole file system.
    - [Semfs.v]: [fs/semfs].
    - [Vnode.v]: [vfs/vnode.c] and [vfs/vfspath.c]; [VfsList.v]:
      [vfs/vfslist.c], [vfs/device.c], [vfs/devnull.c]; [VfsLookup.v]:
      [vfs/vfslookup.c] and [vfs/vfscwd.c].

    Processes and system calls
    - [Proc.v]: [proc/proc.c] and [syscall/proc_syscalls.c]; [Files.v]:
      [syscall/file_syscalls.c]; [Syscall.v]: [arch/mips/syscall/syscall.c] and
      [syscall/time_syscalls.c]; [LoadElf.v]: [syscall/loadelf.c] and
      [syscall/runprogram.c].

    ** How code becomes definitions

    A routine is a function of the state monad [M] below: it returns a value
    and a new state, or it panics ([panic()], a failed [KASSERT]), or it has no
    meaning in C (an index outside its array, a NULL dereference), or it waits
    for ever.  A component's state is a record of its global variables, and a
    routine of another component is run on its part of the state with [zoom].
    Critical sections call the spinlock routines of [Sync.v], so that a lock
    taken twice is a panic and a lock forgotten stays visible in the state.
    Integers are [Z] with the wrap-around of their C type written out.  A
    function that is called through a pointer, and hardware, is a method of a
    type class ([Vnops], [Reclaim], [Vfsops], [Fsops], [Fileio], [Kpages],
    [Lhdhw]) with its laws in a second class ([VnopsOk], [FsopsOk], ...), each
    with an instance; the outcome of a memory allocation is an argument.
    Concurrency is a step relation whose steps are critical sections.

    ** What the theorems show, and under which conditions

    - [Sync.v]: interrupts are on exactly when nothing raises them; mutual
      exclusion, and no failing assertion, for every interleaving of CPUs.
    - [Threads.v]: linked lists with sentinels behave as lists; semaphores
      conserve their count and lose no wakeup.
    - [Sched.v]: in every interleaving each thread is in one place, no two CPUs
      use one stack, an idle CPU with work has an interrupt pending, yielding is
      round robin.  A caller of [wchan_sleep] that breaks its assertions panics;
      the steps of all others return.  [as_activate] only records the process
      here, and [lru_update_cnt] is assumed to return.
    - [Coremap.v]: the coremap represents a set of live blocks, disjoint, inside
      RAM and above the kernel, in every reachable state; RAM ends below 2^32.
    - [PageTable.v]: the entries of a process form a queue; add, remove and
      replacement are the queue operations, so pages leave in the order in which
      they came, between two ticks of the clock ([lru_update_cnt] destroys the
      positions).
    - [Tlb.v]: insertion takes the lowest free slot, then round robin.
    - [Swapfile.v]: a page comes back from the swap file unchanged when the
      device does not sleep, and swapping out panics when it does.
    - [AddrSpace.v]: which bytes of a segment a page gets; the outcomes of
      [vm_fault] for resident, loadable and stack pages and for errors.  Pids of
      64 and more do not fit into a TLB entry.
    - [Kmalloc.v]: in every reachable state the live blocks are disjoint and the
      page lists and free lists are intact; [kmalloc] and [kfree] are exact on
      this state.
    - [Copy.v], [UioStream.v]: user pointers cannot reach kernel memory; transfers
      deliver the bytes in order, account for them and end.
    - [CString.v], [Printf.v]: the optimised routines agree with byte-wise
      references; the output of a format is the text it denotes.
    - [Lhd.v], [SfsBlock.v]: block I/O with its retries, on sound and on failing
      disks; a failed write is reported as done ([sfs_write_errors_lost]).
    - [SfsFile.v], [SfsTrunc.v], [SfsDir.v], [SfsMount.v], [SfsInv.v],
      [SfsNames.v], [SfsRun.v]: files, directories and volumes are read back as
      they were written; in every reachable state blocks have one owner, the free
      map marks exactly the owned and the reserved blocks, link counts are the
      numbers of names.  The definitions have every error path; these theorems
      ask, in [vol_ok], for a disk that reports no I/O error and for at most 2^23
      blocks.  [rename_panics] shows a failing disk.
    - [Semfs.v]: the tables of semaphores and vnodes stay consistent; reading the
      directory and unmounting after a removal dereference NULL.
    - [VfsList.v], [VfsLookup.v], [Vnode.v]: the device table keeps its names
      unique, a path is parsed as documented, and references are counted exactly,
      given the laws [FsopsOk] and [VfsopsOk] of the file systems below.
    - [Proc.v], [Files.v], [Syscall.v], [LoadElf.v]: pid allocation; open, close,
      read and write; the return convention; the layout of a loaded program and
      the rejected files.
    - Theorems that describe what the code does where it does not do what it
      should: pages entered into the page table with exchanged arguments
      ([vm_fault_forgets_page], [swap_in_loses_mapping]), the size of a last page
      ([demand_page_last_short]), locks taken twice
      ([page_table_remove_on_pids_panics], [reset_tlb_pid_different_panics],
      [swap_in_at_limit]), [_exit] ([exit_panics]), unchecked console pointers
      ([console_unchecked]), and others next to the routine they are about.

    ** Bounds and fuel

    Loops over arrays are structural on the array or on a list of indices, and
    need no fuel; loops over linked lists of the heap have the number of pagerefs
    plus one ([chain_fuel]).  [proc_init_waitpid] searches with fuel 101, one more
    than there are pids; [find_free_spec] proves that it ends before that when the
    last pid is in range.  [uiomove] has fuel [n] plus the number of blocks, which
    every round reduces; [uiomove_spec] proves that it returns.
    [array_preallocate] has fuel 33: a 32-bit size is reached within 30 doublings
    or never, and [array_grow_diverges] shows the loop that does not end.  The
    conversion of a number has fuel 64, and 22 digits are enough for 64 bits in
    base 8 ([number_fits]).  The loops of [thread_consider_migration] have the
    number of threads still to send, which every turn reduces.

    ** What is not modelled

    [arch/mips/vm/dumbvm.c] is not part of the configuration.  Not modelled are
    trap entry and the other assembly routines, the switch of registers, drivers
    other than [lhd] (console, [emu], timers, network), the boot sequence, the
    menu and the tests, [lib/kprintf.c], [lib/kgets.c] and [lib/misc.c] (console
    output), [clocksleep], [cpu_hatch] and [thread_start_cpus], routines that only
    free memory, and user programs.  Locks and condition variables of
    [thread/synch.c] are empty without option synch, and modelled as such.

    This file holds what all components share: outcomes, the monad and the
    tactics that step through a routine, machine integers, pages, arrays with C
    bounds, and the error numbers. *)

From Stdlib Require Export ZArith Lia Bool.
From stdpp Require Export base option list gmap strings numbers countable relations.

#[global] Set Default Goal Selector "!".

(** [lia] reasons about quotients and remainders by constants. *)
Ltac Zify.zify_post_hook ::= Z.to_euclidean_division_equations.

Declare Scope kern_scope.
Delimit Scope kern_scope with kern.
#[global] Open Scope Z_scope.

(** ** Outcomes of a kernel routine

    [Ret] is a normal return.  [Panic] is a call of [panic()] or a failed
    [KASSERT]: the machine halts.  [Undef] is a C expression without a meaning
    (an index outside its array, a NULL dereference, an uninitialised local).
    [Spin] is a wait that the running CPU alone cannot end: it spins on a lock
    another CPU holds. *)
Inductive outcome (A : Type) : Type :=
| Ret (a : A)
| Panic (why : string)
| Undef (why : string)
| Spin.
Arguments Ret {A} a.
Arguments Panic {A} why.
Arguments Undef {A} why.
Arguments Spin {A}.

#[export] Instance outcome_eq_dec {A} `{EqDecision A} : EqDecision (outcome A).
Proof. solve_decision. Defined.

Definition is_ret {A} (o : outcome A) : bool :=
  match o with Ret _ => true | _ => false end.

(** ** The state and outcome monad *)
Definition M (S A : Type) : Type := S -> outcome (A * S).

#[export] Instance M_ret S : MRet (M S) := fun A a s => Ret (a, s).
#[export] Instance M_bind S : MBind (M S) := fun A B k c s =>
  match c s with
  | Ret (a, s') => k a s'
  | Panic why => Panic why
  | Undef why => Undef why
  | Spin => Spin
  end.

Section Primitives.
Context {S : Type}.

Definition get : M S S := fun s => Ret (s, s).
Definition gets {A} (f : S -> A) : M S A := fun s => Ret (f s, s).
Definition modify (f : S -> S) : M S unit := fun s => Ret (tt, f s).
Definition panic {A} (why : string) : M S A := fun _ => Panic why.
Definition undef {A} (why : string) : M S A := fun _ => Undef why.
Definition kassert (b : bool) (why : string) : M S unit :=
  fun s => if b then Ret (tt, s) else Panic why.

(** The value behind a pointer or an index that C requires to be valid. *)
Definition valid {A} (o : option A) (why : string) : M S A :=
  fun s => match o with Some a => Ret (a, s) | None => Undef why end.

(** A component's routine run on its own part of a larger state. *)
Definition zoom {T A} (g : S -> T) (p : T -> S -> S) (c : M T A) : M S A :=
  fun s => match c (g s) with
           | Ret (a, t) => Ret (a, p t s)
           | Panic why => Panic why
           | Undef why => Undef why
           | Spin => Spin
           end.

(** [for (x in l) body(x)] *)
Fixpoint for_each {A} (l : list A) (body : A -> M S unit) : M S unit :=
  match l with
  | [] => mret tt
  | x :: l' => body x ≫= fun _ => for_each l' body
  end.
End Primitives.

(** ** Run lemmas, and the tactic that steps a routine *)
Section Run.
Context {S A B : Type}.
Implicit Types (s : S).

Lemma Ret_inj (a b : A) s s' : Ret (a, s) = Ret (b, s') -> a = b /\ s = s'.
Proof. by intros [= -> ->]. Qed.

Lemma bind_run (c : M S A) (k : A -> M S B) s a s' :
  c s = Ret (a, s') -> mbind k c s = k a s'.
Proof. unfold mbind, M_bind. by intros ->. Qed.

Lemma bind_panic (c : M S A) (k : A -> M S B) s why :
  c s = Panic why -> mbind k c s = Panic why.
Proof. unfold mbind, M_bind. by intros ->. Qed.

Lemma bind_undef (c : M S A) (k : A -> M S B) s why :
  c s = Undef why -> mbind k c s = Undef why.
Proof. unfold mbind, M_bind. by intros ->. Qed.

Lemma bind_Ret_inv (c : M S A) (k : A -> M S B) s r :
  mbind k c s = Ret r -> exists a s', c s = Ret (a, s') /\ k a s' = Ret r.
Proof.
  unfold mbind, M_bind. destruct (c s) as [[a s']| | |]; try done. eauto.
Qed.

Lemma bind_ret (a : A) (k : A -> M S B) s : mbind k (mret a) s = k a s.
Proof. done. Qed.

Lemma bind_gets {C} (f : S -> C) (k : C -> M S B) s :
  mbind k (gets f) s = k (f s) s.
Proof. done. Qed.

Lemma bind_get (k : S -> M S B) s : mbind k get s = k s s.
Proof. done. Qed.

Lemma bind_modify (f : S -> S) (k : unit -> M S B) s :
  mbind k (modify f) s = k tt (f s).
Proof. done. Qed.

Lemma bind_kassert (b : bool) why (k : unit -> M S B) s :
  b = true -> mbind k (kassert b why) s = k tt s.
Proof. by intros ->. Qed.

Lemma bind_valid (o : option A) why (k : A -> M S B) s a :
  o = Some a -> mbind k (valid o why) s = k a s.
Proof. by intros ->. Qed.

Lemma bind_assoc {C} (c : M S A) (k : A -> M S B) (h : B -> M S C) s :
  mbind h (mbind k c) s = mbind (fun a => mbind h (k a)) c s.
Proof. unfold mbind, M_bind. by destruct (c s) as [[? ?]| | |]. Qed.

Lemma zoom_Ret {T} (g : S -> T) (p : T -> S -> S) (c : M T A) s a t :
  c (g s) = Ret (a, t) -> zoom g p c s = Ret (a, p t s).
Proof. unfold zoom. by intros ->. Qed.
End Run.

(** ** Total correctness

    [wp m s Q]: started in [s], [m] returns, and [Q] holds of its result. *)
Section Wp.
Context {S : Type}.
Implicit Types (s : S).

Definition wp {A} (m : M S A) s (Q : A -> S -> Prop) : Prop := exists a s', m s = Ret (a, s') /\ Q a s'.

Lemma wp_ret {A} (a : A) s (Q : A -> S -> Prop) : Q a s -> wp (mret a) s Q.
Proof. intros. by exists a, s. Qed.

Lemma wp_bind {A B} (m : M S A) (f : A -> M S B) s (Q : B -> S -> Prop) :
  wp m s (fun a s' => wp (f a) s' Q) -> wp (mbind f m) s Q.
Proof.
  intros (a & s1 & Hm & b & s2 & Hf & HQ). exists b, s2. split; [|done]. by rewrite (bind_run _ _ _ _ _ Hm).
Qed.

Lemma wp_mono {A} (m : M S A) s (P Q : A -> S -> Prop) : wp m s P -> (forall a s', P a s' -> Q a s') -> wp m s Q.
Proof. intros (a & s' & ? & ?) HPQ. exists a, s'. auto. Qed.

Lemma wp_get s (Q : S -> S -> Prop) : Q s s -> wp get s Q.
Proof. intros. by exists s, s. Qed.

Lemma wp_modify (f : S -> S) s (Q : unit -> S -> Prop) : Q tt (f s) -> wp (modify f) s Q.
Proof. intros. by exists tt, (f s). Qed.

Lemma wp_kassert (b : bool) why s (Q : unit -> S -> Prop) : b = true -> Q tt s -> wp (kassert b why) s Q.
Proof. intros -> ?. by exists tt, s. Qed.

Lemma wp_valid {A} (o : option A) why a s (Q : A -> S -> Prop) : o = Some a -> Q a s -> wp (valid o why) s Q.
Proof. intros -> ?. by exists a, s. Qed.

Lemma wp_zoom {T A} (g : S -> T) (p : T -> S -> S) (c : M T A) s a t (Q : A -> S -> Prop) :
  c (g s) = Ret (a, t) -> Q a (p t s) -> wp (zoom g p c) s Q.
Proof. intros Hc HQ. exists a, (p t s). split; [|done]. by apply zoom_Ret. Qed.

Lemma wp_run {A} (m : M S A) s a s' (Q : A -> S -> Prop) : m s = Ret (a, s') -> Q a s' -> wp m s Q.
Proof. intros. by exists a, s'. Qed.

Lemma wp_Ret {A} (m : M S A) s (Q : A -> S -> Prop) a s' : wp m s Q -> m s = Ret (a, s') -> Q a s'.
Proof. intros (a1 & s1 & H1 & HQ) H2. rewrite H1 in H2. by simplify_eq. Qed.
End Wp.

(** The rule of the first command of a routine. *)
Ltac wp_step :=
  lazymatch goal with
  | |- wp (mbind _ _) _ _ => apply wp_bind; wp_step
  | |- wp get _ _ => apply wp_get
  | |- wp (@mret _ _ _ _) _ _ => apply wp_ret
  | |- wp (modify _) _ _ => apply wp_modify
  | |- wp (kassert _ _) _ _ => apply wp_kassert
  | |- wp (valid _ _) _ _ => eapply wp_valid
  | |- _ => idtac
  end; cbv beta.


Create HintDb kern.
Create Rewrite HintDb kern.
#[export] Hint Rewrite @bind_ret @bind_gets @bind_get @bind_modify @bind_assoc : kern.

(** [mrun] performs the steps that need no side condition; [mrun using tac]
    also discharges assertions and pointer validity with [tac]. *)
Ltac mrun1 := first [ rewrite bind_ret | rewrite bind_gets | rewrite bind_get
                    | rewrite bind_modify | rewrite bind_assoc ].
Ltac mrun := repeat (mrun1; cbv beta).
Ltac mrun_in H := repeat (first [ rewrite bind_ret in H | rewrite bind_gets in H
  | rewrite bind_get in H | rewrite bind_modify in H | rewrite bind_assoc in H ]; cbv beta in H).
Tactic Notation "mrun" "using" tactic3(tac) :=
  repeat (first [ mrun1
                | rewrite bind_kassert by tac
                | erewrite bind_valid by tac ]; cbv beta).

(** Step over a call whose run is known. *)
Ltac mcall H := mrun; rewrite (bind_run _ _ _ _ _ H); cbv beta; mrun.

(** ** Machine integers

    The target is 32-bit MIPS: [int], [long], [unsigned], [size_t], [vaddr_t]
    and [paddr_t] have 32 bits, [off_t] has 64.  A value of such a type is a [Z]
    in its range; arithmetic that can leave the range is wrapped explicitly. *)
Definition u8 (x : Z) : Z := x mod 2 ^ 8.
Definition u16 (x : Z) : Z := x mod 2 ^ 16.
Definition u32 (x : Z) : Z := x mod 2 ^ 32.
Definition u64 (x : Z) : Z := x mod 2 ^ 64.
Definition s32 (x : Z) : Z :=
  let y := x mod 2 ^ 32 in if y <? 2 ^ 31 then y else y - 2 ^ 32.

Lemma u8_range x : 0 <= u8 x < 2 ^ 8.
Proof. apply Z.mod_pos_bound; lia. Qed.

Lemma u32_range x : 0 <= u32 x < 2 ^ 32.
Proof. apply Z.mod_pos_bound; lia. Qed.

Lemma u8_id x : 0 <= x < 2 ^ 8 -> u8 x = x.
Proof. apply Z.mod_small. Qed.

Lemma u32_id x : 0 <= x < 2 ^ 32 -> u32 x = x.
Proof. apply Z.mod_small. Qed.

Lemma u64_id x : 0 <= x < 2 ^ 64 -> u64 x = x.
Proof. apply Z.mod_small. Qed.

Lemma s32_id x : - 2 ^ 31 <= x < 2 ^ 31 -> s32 x = x.
Proof.
  intros Hx. unfold s32. destruct (Z.ltb_spec (x mod 2 ^ 32) (2 ^ 31)) as [H|H].
  - destruct (decide (0 <= x)); [by apply Z.mod_small; lia|].
    rewrite <- (Z_mod_plus_full x 1 (2 ^ 32)), Z.mod_small in H by lia. lia.
  - destruct (decide (0 <= x)); [rewrite Z.mod_small in H by lia; lia|].
    rewrite <- (Z_mod_plus_full x 1 (2 ^ 32)), Z.mod_small by lia. lia.
Qed.

Lemma s32_range x : - 2 ^ 31 <= s32 x < 2 ^ 31.
Proof.
  unfold s32. pose proof (Z.mod_pos_bound x (2 ^ 32) ltac:(lia)).
  destruct (Z.ltb_spec (x mod 2 ^ 32) (2 ^ 31)); lia.
Qed.

Lemma s32_u32 x : s32 (u32 x) = s32 x.
Proof. unfold s32, u32. by rewrite Z.mod_mod by lia. Qed.

Lemma u32_s32 x : u32 (s32 x) = u32 x.
Proof.
  unfold s32, u32. destruct (_ <? _); [by rewrite Z.mod_mod by lia|].
  replace (x mod 2 ^ 32 - 2 ^ 32) with (x mod 2 ^ 32 + (-1) * 2 ^ 32) by lia.
  by rewrite Z_mod_plus_full, Z.mod_mod by lia.
Qed.

#[export] Hint Rewrite s32_u32 u32_s32 : kern.

(** ** Error numbers of [kern/include/kern/errno.h] *)
Definition ENOSYS : Z := 1.
Definition ENOMEM : Z := 3.
Definition EAGAIN : Z := 4.
Definition EFAULT : Z := 6.
Definition ENAMETOOLONG : Z := 7.
Definition EINVAL : Z := 8.
Definition ENOEXEC : Z := 13.
Definition ENOTDIR : Z := 17.
Definition EISDIR : Z := 18.
Definition ENOENT : Z := 19.
Definition EEXIST : Z := 22.
Definition EXDEV : Z := 24.
Definition ENODEV : Z := 25.
Definition ENXIO : Z := 26.
Definition EBUSY : Z := 27.
Definition EMFILE : Z := 28.
Definition ENFILE : Z := 29.
Definition EIOCTL : Z := 31.
Definition EIO : Z := 32.
Definition ENOSPC : Z := 36.
Definition EFBIG : Z := 38.

(** ** Pages ([kern/arch/mips/include/vm.h]) *)
Definition PAGE_SIZE : Z := 4096.
Definition PAGE_FRAME : Z := 0xfffff000.
Definition MIPS_KSEG0 : Z := 0x80000000.
Definition USERSTACK : Z := MIPS_KSEG0.
Definition PADDR_TO_KVADDR (paddr : Z) : Z := u32 (paddr + MIPS_KSEG0).

(** Arithmetic about pages. *)
Ltac plia := unfold PAGE_SIZE in *; lia.

(** C's [~] on a 32-bit unsigned value. *)
Definition not32 (x : Z) : Z := u32 (Z.lnot x).

Lemma testbit_high x n i : 0 <= x < 2 ^ n -> 0 <= n <= i -> Z.testbit x i = false.
Proof.
  intros Hx Hi. rewrite <- (Z.mod_small x (2 ^ n)) by done.
  apply Z.mod_pow2_bits_high; lia.
Qed.

Lemma bits_range x n :
  0 <= n -> 0 <= x -> (forall i, n <= i -> Z.testbit x i = false) -> 0 <= x < 2 ^ n.
Proof.
  intros Hn Hx Hb. split; [done|]. destruct (decide (x < 2 ^ n)) as [|Hge]; [done|].
  pose proof (Z.pow_pos_nonneg 2 n). exfalso. pose proof (Z.bit_log2 x ltac:(lia)) as Hbit.
  rewrite Hb in Hbit; [done|]. apply Z.log2_le_pow2; lia.
Qed.

(** Single bits of a word. *)
Lemma land_mask w o : 0 <= o -> (Z.land w (2 ^ o) =? 0) = negb (Z.testbit w o).
Proof.
  intros Ho. destruct (Z.testbit w o) eqn:E; simpl.
  - apply Z.eqb_neq. intros H0. assert (Z.testbit (Z.land w (2 ^ o)) o = false) as Hf by (by rewrite H0, Z.bits_0).
    rewrite Z.land_spec, E, Z.pow2_bits_true in Hf by lia. done.
  - apply Z.eqb_eq, Z.bits_inj'. intros j Hj. rewrite Z.land_spec, Z.bits_0.
    destruct (decide (j = o)) as [->|]; [by rewrite E|].
    by rewrite Z.pow2_bits_false, andb_false_r by lia.
Qed.

Lemma testbit_lor w o j : 0 <= o -> Z.testbit (Z.lor w (2 ^ o)) j = Z.testbit w j || (j =? o).
Proof.
  intros Ho. rewrite Z.lor_spec. destruct (Z.eqb_spec j o) as [->|].
  - by rewrite Z.pow2_bits_true.
  - by rewrite Z.pow2_bits_false.
Qed.

Lemma testbit_clear w o j :
  0 <= o -> 0 <= j -> Z.testbit (Z.land w (Z.lnot (2 ^ o))) j = Z.testbit w j && negb (j =? o).
Proof.
  intros Ho Hj. rewrite Z.land_spec, Z.lnot_spec by done. destruct (Z.eqb_spec j o) as [->|].
  - by rewrite Z.pow2_bits_true.
  - by rewrite Z.pow2_bits_false.
Qed.

Lemma lor_pow2_range w o n : 0 <= w < 2 ^ n -> 0 <= o < n -> 0 <= Z.lor w (2 ^ o) < 2 ^ n.
Proof.
  intros Hw Ho. apply bits_range; [lia|..].
  - apply Z.lor_nonneg. split; [lia|]. pose proof (Z.pow_pos_nonneg 2 o). lia.
  - intros j Hj. rewrite Z.lor_spec, (testbit_high w n), Z.pow2_bits_false by lia. done.
Qed.

Lemma land_lnot_range w m n : 0 <= n -> 0 <= w < 2 ^ n -> 0 <= Z.land w (Z.lnot m) < 2 ^ n.
Proof.
  intros Hn Hw. apply bits_range; [done|..].
  - apply Z.land_nonneg. lia.
  - intros j Hj. rewrite Z.land_spec, (testbit_high w n) by lia. done.
Qed.

Lemma land_not32 w m : 0 <= w < 2 ^ 32 -> Z.land w (not32 m) = Z.land w (Z.lnot m).
Proof.
  intros Hw. apply Z.bits_inj'. intros j Hj. rewrite !Z.land_spec. unfold not32, u32.
  destruct (decide (j < 32)); [by rewrite Z.mod_pow2_bits_low by lia|].
  by rewrite (testbit_high w 32) by lia.
Qed.

Lemma all_bits w n : 0 <= n -> 0 <= w < 2 ^ n -> (forall j, 0 <= j < n -> Z.testbit w j = true) -> w = Z.ones n.
Proof.
  intros Hn Hw Hb. apply Z.bits_inj'. intros j Hj. destruct (decide (j < n)).
  - rewrite Hb, Z.ones_spec_low by lia. done.
  - rewrite (testbit_high w n), Z.ones_spec_high by lia. done.
Qed.

Lemma land_PAGE_FRAME_shift x :
  0 <= x < 2 ^ 32 -> Z.land x PAGE_FRAME = Z.shiftl (Z.shiftr x 12) 12.
Proof.
  intros Hx. change PAGE_FRAME with (Z.shiftl (Z.ones 20) 12).
  apply Z.bits_inj'. intros i Hi. rewrite Z.land_spec, !Z.shiftl_spec by lia.
  destruct (decide (i < 12)).
  { rewrite !(Z.testbit_neg_r _ (i - 12)) by lia. by rewrite andb_false_r. }
  rewrite Z.shiftr_spec by lia. replace (i - 12 + 12) with i by lia.
  destruct (decide (i < 32)).
  - rewrite Z.ones_spec_low, andb_true_r by lia. done.
  - rewrite (testbit_high x 32) by lia. done.
Qed.

Lemma land_PAGE_FRAME x : 0 <= x < 2 ^ 32 -> Z.land x PAGE_FRAME = x - x mod PAGE_SIZE.
Proof.
  intros Hx. rewrite land_PAGE_FRAME_shift by done.
  rewrite Z.shiftl_mul_pow2, Z.shiftr_div_pow2 by lia.
  change (2 ^ 12) with PAGE_SIZE. pose proof (Z.div_mod x PAGE_SIZE). unfold PAGE_SIZE in *. lia.
Qed.

Lemma land_not_PAGE_FRAME x : Z.land x (not32 PAGE_FRAME) = x mod PAGE_SIZE.
Proof.
  change (not32 PAGE_FRAME) with (Z.ones 12). by rewrite Z.land_ones.
Qed.

Lemma page_aligned_mod x :
  0 <= x < 2 ^ 32 -> Z.land x PAGE_FRAME = x <-> x mod PAGE_SIZE = 0.
Proof. intros Hx. rewrite land_PAGE_FRAME by done. lia. Qed.

(** ** Arrays indexed by a C integer *)
Section Arrays.
Context {A : Type}.
Implicit Types (l : list A) (i j : Z).

Definition arr_get l i : option A := if 0 <=? i then l !! Z.to_nat i else None.
Definition arr_set l i (x : A) : list A := <[Z.to_nat i := x]> l.

Lemma arr_get_Some l i x :
  arr_get l i = Some x <-> 0 <= i /\ l !! Z.to_nat i = Some x.
Proof. unfold arr_get. destruct (Z.leb_spec 0 i); split; intros; try tauto; done || lia. Qed.

Lemma arr_get_is_Some l i :
  is_Some (arr_get l i) <-> 0 <= i < Z.of_nat (length l).
Proof.
  unfold arr_get. destruct (Z.leb_spec 0 i) as [Hi|Hi].
  - rewrite lookup_lt_is_Some. lia.
  - split; [by intros [? ?]|lia].
Qed.

Lemma arr_get_None l i :
  arr_get l i = None <-> i < 0 \/ Z.of_nat (length l) <= i.
Proof. rewrite eq_None_not_Some, arr_get_is_Some. lia. Qed.

Lemma arr_get_nat l (n : nat) : arr_get l (Z.of_nat n) = l !! n.
Proof. unfold arr_get. rewrite (proj2 (Z.leb_le _ _)) by lia. by rewrite Nat2Z.id. Qed.

Lemma arr_set_length l i x : length (arr_set l i x) = length l.
Proof. apply length_insert. Qed.

Lemma arr_get_set_eq l i x :
  0 <= i < Z.of_nat (length l) -> arr_get (arr_set l i x) i = Some x.
Proof.
  intros Hi. unfold arr_get, arr_set. rewrite (proj2 (Z.leb_le _ _)) by lia.
  apply list_lookup_insert_eq. lia.
Qed.

Lemma arr_get_set_ne l i j x :
  0 <= i -> i <> j -> arr_get (arr_set l i x) j = arr_get l j.
Proof.
  intros Hi Hne. unfold arr_get, arr_set. destruct (Z.leb_spec 0 j); [|done].
  apply list_lookup_insert_ne. lia.
Qed.

Lemma arr_set_twice l i x y : arr_set (arr_set l i x) i y = arr_set l i y.
Proof. apply list_insert_insert_eq. Qed.

Lemma arr_set_same l i x : arr_get l i = Some x -> arr_set l i x = l.
Proof. intros [_ Hx]%arr_get_Some. by apply list_insert_id. Qed.
End Arrays.

#[export] Hint Rewrite @arr_set_length @arr_get_nat : kern.

(** [for (i = first; i < first+n; i++) l[i] = x;], [None] when it leaves [l]. *)
Fixpoint arr_fill {A} (l : list A) (first : Z) (n : nat) (x : A) : option (list A) :=
  match n with
  | O => Some l
  | S n' =>
      if (0 <=? first) && (first <? Z.of_nat (length l))
      then arr_fill (arr_set l first x) (first + 1) n' x else None
  end.

Section ArrFill.
Context {A : Type}.
Implicit Types (l : list A).

Lemma arr_fill_spec l first n x :
  0 <= first -> first + Z.of_nat n <= Z.of_nat (length l) ->
  exists l', arr_fill l first n x = Some l' /\ length l' = length l /\
    forall i, arr_get l' i =
      if (first <=? i) && (i <? first + Z.of_nat n) then Some x else arr_get l i.
Proof.
  revert l first. induction n as [|n IH]; intros l first Hf Hn; cbn [arr_fill].
  - exists l. split_and!; [done..|]. intros i.
    destruct (Z.leb_spec first i), (Z.ltb_spec i (first + Z.of_nat 0)); simpl; done || lia.
  - rewrite (proj2 (Z.leb_le _ _)), (proj2 (Z.ltb_lt _ _)) by lia. simpl.
    destruct (IH (arr_set l first x) (first + 1)) as (l' & -> & Hlen & Hget);
      [lia|rewrite arr_set_length; lia|].
    exists l'. rewrite arr_set_length in Hlen. split_and!; [done..|]. intros i.
    rewrite Hget.
    destruct (Z.leb_spec (first + 1) i), (Z.ltb_spec i (first + 1 + Z.of_nat n)),
      (Z.leb_spec first i), (Z.ltb_spec i (first + Z.of_nat (S n))); simpl; try lia; try done.
    + apply arr_get_set_ne; lia.
    + assert (first = i) as -> by lia. apply arr_get_set_eq. lia.
    + apply arr_get_set_ne; lia.
Qed.
End ArrFill.
