(* ===== verification/Sync.v ===== *)
(** * Interrupt priority levels and spinlocks

    Models [kern/thread/spl.c] and [kern/thread/spinlock.c].  [Module Spl] and
    [Module Spinlock] give the routines as the running CPU executes them, on a
    state [sync] that holds the CPU and thread fields they touch and every
    spinlock of the modelled kernel by name.  [Module Smp] gives the same
    spinlock as a step relation of any number of CPUs that interleave at the
    machine's atomic operations, and proves mutual exclusion. *)

From S2P Require Import Prelude.

Definition IPL_NONE : Z := 0.
Definition IPL_HIGH : Z := 1.

(** The fields of [struct cpu] and of [curthread] that the code uses;
    [cpu_exists] is [CURCPU_EXISTS()].  The counters are plain counts: they
    are bounded by the number of locks. *)
Record cpu := Cpu {
  cpu_exists : bool;
  c_self : Z;
  c_spinlocks : Z;
  t_curspl : Z;
  t_iplhigh_count : Z;
  t_in_interrupt : bool;
  irq_on : bool;
}.

Record spinlock := MkSpinlock { splk_lock : Z; splk_holder : option Z }.

Definition SPINLOCK_INITIALIZER : spinlock := MkSpinlock 0 None.

(** The spinlocks of the modelled kernel, by the variable that holds them. *)
Inductive lock_id :=
| freemem_lock            (* coremap.c *)
| stealmem_lock           (* coremap.c *)
| table_lock              (* pt.c: page_table->table_lock *)
| swap_slock              (* swapfile.c: slock *)
| tlb_slock               (* vm_tlb.c: slock *)
| vm_slock                (* addrspace.c: slock *)
| bitmap_lock             (* free_bitmap.c *)
| proctable_lock          (* proc.c: processTable.lk *)
| p_lock (p : Z)          (* proc.c: proc->p_lock *)
| vn_countlock (v : Z)    (* vnode.c: vn->vn_countlock *)
| kmalloc_spinlock.       (* kmalloc.c *)

#[export] Instance lock_id_eq_dec : EqDecision lock_id.
Proof. solve_decision. Defined.

#[export] Instance lock_id_countable : Countable lock_id.
Proof.
  refine (inj_countable'
    (fun l => match l with
              | freemem_lock => (0, 0) | stealmem_lock => (1, 0)
              | table_lock => (2, 0) | swap_slock => (3, 0)
              | tlb_slock => (4, 0) | vm_slock => (5, 0)
              | bitmap_lock => (6, 0) | proctable_lock => (7, 0)
              | p_lock p => (8, p) | vn_countlock v => (9, v)
              | kmalloc_spinlock => (10, 0)
              end)
    (fun c => match c with
              | (0, _) => freemem_lock | (1, _) => stealmem_lock
              | (2, _) => table_lock | (3, _) => swap_slock
              | (4, _) => tlb_slock | (5, _) => vm_slock
              | (6, _) => bitmap_lock | (7, _) => proctable_lock
              | (8, p) => p_lock p | (9, v) => vn_countlock v
              | _ => kmalloc_spinlock
              end) _).
  by intros [].
Defined.

(** A lock that is not in the map is one nobody has touched since it was
    initialised statically. *)
Record sync := MkSync { y_cpu : cpu; y_locks : gmap lock_id spinlock }.

Definition lock_of (l : lock_id) (y : sync) : spinlock :=
  default SPINLOCK_INITIALIZER (y_locks y !! l).

Definition set_cpu (f : cpu -> cpu) (y : sync) : sync := MkSync (f (y_cpu y)) (y_locks y).

Definition set_lock (l : lock_id) (k : spinlock) (y : sync) : sync :=
  MkSync (y_cpu y) (<[l := k]> (y_locks y)).

Definition with_c_spinlocks (n : Z) (c : cpu) : cpu :=
  Cpu (cpu_exists c) (c_self c) n (t_curspl c) (t_iplhigh_count c)
      (t_in_interrupt c) (irq_on c).
Definition with_curspl (n : Z) (c : cpu) : cpu :=
  Cpu (cpu_exists c) (c_self c) (c_spinlocks c) n (t_iplhigh_count c)
      (t_in_interrupt c) (irq_on c).
Definition with_iplhigh (n : Z) (c : cpu) : cpu :=
  Cpu (cpu_exists c) (c_self c) (c_spinlocks c) (t_curspl c) n
      (t_in_interrupt c) (irq_on c).
Definition with_irq (b : bool) (c : cpu) : cpu :=
  Cpu (cpu_exists c) (c_self c) (c_spinlocks c) (t_curspl c) (t_iplhigh_count c)
      (t_in_interrupt c) b.

Module Spl.

Definition splraise (oldspl newspl : Z) : M sync unit :=
  kassert (oldspl =? IPL_NONE) "oldspl == IPL_NONE";;
  kassert (newspl =? IPL_HIGH) "newspl == IPL_HIGH";;
  cur ← gets y_cpu;
  if negb (cpu_exists cur) then mret tt
  else
    (if t_iplhigh_count cur =? 0 then modify (set_cpu (with_irq false)) else mret tt);;
    modify (set_cpu (fun c => with_iplhigh (t_iplhigh_count c + 1) c)).

Definition spllower (oldspl newspl : Z) : M sync unit :=
  kassert (oldspl =? IPL_HIGH) "oldspl == IPL_HIGH";;
  kassert (newspl =? IPL_NONE) "newspl == IPL_NONE";;
  cur ← gets y_cpu;
  if negb (cpu_exists cur) then mret tt
  else
    modify (set_cpu (fun c => with_iplhigh (t_iplhigh_count c - 1) c));;
    cur ← gets y_cpu;
    if t_iplhigh_count cur =? 0 then modify (set_cpu (with_irq true)) else mret tt.

Definition splx (spl : Z) : M sync Z :=
  cur ← gets y_cpu;
  if negb (cpu_exists cur) then mret spl
  else if t_curspl cur <? spl then
    splraise (t_curspl cur) spl;;
    ret ← gets (fun y => t_curspl (y_cpu y));
    modify (set_cpu (with_curspl spl));;
    mret ret
  else if spl <? t_curspl cur then
    ret ← gets (fun y => t_curspl (y_cpu y));
    modify (set_cpu (with_curspl spl));;
    spllower ret spl;;
    mret ret
  else mret spl.

Definition splhigh : M sync Z := splx IPL_HIGH.
Definition spl0 : M sync Z := splx IPL_NONE.

End Spl.

Module Spinlock.
Import Spl.

Definition spinlock_init (l : lock_id) : M sync unit :=
  modify (set_lock l (MkSpinlock 0 None)).

Definition spinlock_cleanup (l : lock_id) : M sync unit :=
  k ← gets (lock_of l);
  kassert (bool_decide (splk_holder k = None)) "splk_holder == NULL";;
  kassert (splk_lock k =? 0) "splk_lock == 0".

(** The [while (1)] loop leaves as soon as it reads a zero lock word; when the
    word is set, this CPU alone repeats the test for ever. *)
Definition spinlock_acquire (l : lock_id) : M sync unit :=
  splraise IPL_NONE IPL_HIGH;;
  c ← gets y_cpu;
  k ← gets (lock_of l);
  mycpu ←
    (if cpu_exists c then
       (if bool_decide (splk_holder k = Some (c_self c))
        then panic "Deadlock on spinlock" else mret tt);;
       modify (set_cpu (fun c => with_c_spinlocks (c_spinlocks c + 1) c));;
       mret (Some (c_self c))
     else mret None);
  if splk_lock k =? 0
  then modify (set_lock l (MkSpinlock 1 mycpu))
  else fun _ => Spin.

Definition spinlock_release (l : lock_id) : M sync unit :=
  c ← gets y_cpu;
  k ← gets (lock_of l);
  (if cpu_exists c then
     kassert (bool_decide (splk_holder k = Some (c_self c))) "splk_holder == curcpu";;
     kassert (0 <? c_spinlocks c) "c_spinlocks > 0";;
     modify (set_cpu (fun c => with_c_spinlocks (c_spinlocks c - 1) c))
   else mret tt);;
  modify (set_lock l (MkSpinlock 0 None));;
  spllower IPL_HIGH IPL_NONE.

Definition spinlock_do_i_hold (l : lock_id) : M sync bool :=
  c ← gets y_cpu;
  k ← gets (lock_of l);
  if negb (cpu_exists c) then mret true
  else mret (bool_decide (splk_holder k = Some (c_self c))).

End Spinlock.

(** ** The running CPU's view *)
Section Uniprocessor.
Import Spl Spinlock.

Definition raised (c : cpu) : cpu :=
  Cpu (cpu_exists c) (c_self c) (c_spinlocks c) (t_curspl c) (t_iplhigh_count c + 1)
      (t_in_interrupt c) (if t_iplhigh_count c =? 0 then false else irq_on c).

(** The lock exists and nobody holds it. *)
Definition lock_free (l : lock_id) (y : sync) : Prop :=
  y_locks y !! l = Some SPINLOCK_INITIALIZER.

(** The CPU is past start-up, its counters are counts, and interrupts are
    enabled exactly when no level is raised. *)
Definition cpu_ok (c : cpu) : Prop :=
  cpu_exists c = true /\ 0 <= c_spinlocks c /\ 0 <= t_iplhigh_count c /\
  irq_on c = (t_iplhigh_count c =? 0).

(** The state in which this CPU has taken [l]. *)
Definition held (l : lock_id) (y : sync) : sync :=
  MkSync (with_c_spinlocks (c_spinlocks (y_cpu y) + 1) (raised (y_cpu y)))
         (<[l := MkSpinlock 1 (Some (c_self (y_cpu y)))]> (y_locks y)).

Lemma cpu_ok_held l y : cpu_ok (y_cpu y) -> cpu_ok (y_cpu (held l y)).
Proof.
  destruct y as [[e s n p h i q] ls]. unfold cpu_ok, held; simpl.
  intros (-> & Hn & Hh & ->). repeat split; try lia.
  destruct (Z.eqb_spec h 0), (Z.eqb_spec (h + 1) 0); try done; lia.
Qed.

Lemma lock_free_held l l' y : l <> l' -> lock_free l' (held l y) <-> lock_free l' y.
Proof. intros Hne. unfold lock_free, held; simpl. by rewrite lookup_insert_ne. Qed.

Lemma held_holder l y :
  splk_holder (lock_of l (held l y)) = Some (c_self (y_cpu (held l y))).
Proof. unfold lock_of, held; simpl. by rewrite lookup_insert_eq. Qed.

Lemma acquire_run l y :
  cpu_ok (y_cpu y) -> lock_free l y -> spinlock_acquire l y = Ret (tt, held l y).
Proof.
  destruct y as [[e s n p h i q] ls]. intros (He & _) Hf. simpl in He; subst e.
  unfold lock_free in Hf; simpl in Hf.
  unfold spinlock_acquire, splraise, held, lock_of, raised; simpl.
  unfold mbind, M_bind, kassert, gets, modify, mret, M_ret; simpl.
  destruct (h =? 0); simpl; unfold lock_of; simpl; rewrite Hf; simpl;
    unfold mbind, M_bind, mret, M_ret, modify; simpl; done.
Qed.

Lemma release_run l y :
  cpu_ok (y_cpu y) -> lock_free l y -> spinlock_release l (held l y) = Ret (tt, y).
Proof.
  destruct y as [[e s n p h i q] ls]. intros (He & Hn & Hh & Hq) Hf. simpl in *; subst e.
  unfold lock_free in Hf; simpl in Hf.
  unfold spinlock_release, spllower, held, lock_of, raised; simpl.
  unfold mbind, M_bind, kassert, gets, modify, mret, M_ret; simpl.
  rewrite lookup_insert_eq; simpl. rewrite bool_decide_true by done.
  destruct (Z.ltb_spec 0 (n + 1)); [|lia].
  unfold set_cpu, set_lock; simpl. rewrite insert_insert_eq, insert_id by done.
  rewrite !Z.add_simpl_r. subst q. destruct (h =? 0); done.
Qed.

(** A second acquisition by the CPU that holds the lock panics. *)
Lemma reacquire_panics l y :
  cpu_exists (y_cpu y) = true ->
  splk_holder (lock_of l y) = Some (c_self (y_cpu y)) ->
  spinlock_acquire l y = Panic "Deadlock on spinlock".
Proof.
  destruct y as [[e s n p h i q] ls]. simpl. intros -> Hh.
  unfold spinlock_acquire, splraise; simpl.
  unfold mbind, M_bind, kassert, gets, modify, mret, M_ret, lock_of in *; simpl in *.
  destruct (h =? 0); simpl; rewrite Hh; simpl; by rewrite bool_decide_true.
Qed.

Lemma acquire_held_panics l y :
  cpu_ok (y_cpu y) -> spinlock_acquire l (held l y) = Panic "Deadlock on spinlock".
Proof.
  intros Hok. apply reacquire_panics; [apply (cpu_ok_held l y Hok)|apply held_holder].
Qed.

End Uniprocessor.

#[export] Hint Resolve cpu_ok_held : kern.

(** ** Interrupt state under arbitrary sequences of operations *)
Module SyncOps.
Import Spl Spinlock.

Inductive op := Acquire (l : lock_id) | Release (l : lock_id) | Splx (spl : Z).

Definition run_op (o : op) : M sync unit :=
  match o with
  | Acquire l => spinlock_acquire l
  | Release l => spinlock_release l
  | Splx spl => splx spl;; mret tt
  end.

Definition run (os : list op) : M sync unit := for_each os run_op.

(** The locks this CPU holds. *)
Definition mine (y : sync) : gmap lock_id spinlock :=
  filter (fun p => splk_holder p.2 = Some (c_self (y_cpu y))) (y_locks y).

(** [t_iplhigh_count] counts the spinlocks held plus the thread's own level,
    and interrupts are on exactly when it is zero. *)
Definition inv (y : sync) : Prop :=
  let c := y_cpu y in
  cpu_exists c = true /\ c_spinlocks c = Z.of_nat (size (mine y)) /\
  (t_curspl c = IPL_NONE \/ t_curspl c = IPL_HIGH) /\
  t_iplhigh_count c = c_spinlocks c + t_curspl c /\
  irq_on c = (t_iplhigh_count c =? 0).

Lemma size_mine_insert_held (m : gmap lock_id spinlock) l s w :
  splk_holder (default SPINLOCK_INITIALIZER (m !! l)) <> Some s ->
  size (filter (fun p : lock_id * spinlock => splk_holder p.2 = Some s)
          (<[l := MkSpinlock w (Some s)]> m)) =
  S (size (filter (fun p : lock_id * spinlock => splk_holder p.2 = Some s) m)).
Proof.
  intros Hne. rewrite map_filter_insert_True by done.
  apply map_size_insert_None, map_lookup_filter_None.
  destruct (m !! l) as [k|]; simpl in *; [right|by left].
  intros ? [= <-]. done.
Qed.

Lemma size_mine_insert_free (m : gmap lock_id spinlock) l s w :
  splk_holder (default SPINLOCK_INITIALIZER (m !! l)) = Some s ->
  S (size (filter (fun p : lock_id * spinlock => splk_holder p.2 = Some s)
          (<[l := MkSpinlock w None]> m))) =
  size (filter (fun p : lock_id * spinlock => splk_holder p.2 = Some s) m).
Proof.
  intros Hs. destruct (m !! l) as [k|] eqn:Hl; simpl in Hs; [|done].
  rewrite map_filter_insert_False by done. rewrite map_filter_delete.
  rewrite map_size_delete_Some.
  - assert (size (filter (fun p : lock_id * spinlock => splk_holder p.2 = Some s) m) <> 0%nat);
      [|lia].
    intros Hz%map_size_empty_inv.
    assert (filter (fun p : lock_id * spinlock => splk_holder p.2 = Some s) m !! l = Some k)
      by (by apply map_lookup_filter_Some).
    rewrite Hz in *. done.
  - exists k. by apply map_lookup_filter_Some.
Qed.

Ltac munfold := unfold mbind, M_bind, mret, M_ret, kassert, gets, modify, panic in *.

Lemma splx_inv spl y y' r : inv y -> splx spl y = Ret (r, y') -> inv y'.
Proof.
  destruct y as [[e s n p h i q] ls]. intros (He & Hn & Hp & Hh & Hq). simpl in *. subst e.
  unfold splx, splraise, spllower; munfold; simpl.
  destruct (Z.ltb_spec p spl) as [Hlt|Hge].
  - destruct (Z.eqb_spec p IPL_NONE) as [->|]; [|done].
    destruct (Z.eqb_spec spl IPL_HIGH) as [->|]; [|done]. simpl.
    destruct (Z.eqb_spec h 0); simpl; intros [= <- <-];
      unfold inv, IPL_NONE, IPL_HIGH in *; simpl; repeat split; auto; try lia.
    all: subst q; destruct (Z.eqb_spec h 0), (Z.eqb_spec (h + 1) 0); try done; lia.
  - destruct (Z.ltb_spec spl p) as [Hlt|Hge'].
    + simpl. destruct (Z.eqb_spec p IPL_HIGH) as [->|]; [|done].
      destruct (Z.eqb_spec spl IPL_NONE) as [->|]; [|done]. simpl.
      destruct (Z.eqb_spec (h - 1) 0); simpl; intros [= <- <-];
        unfold inv, IPL_NONE, IPL_HIGH in *; simpl; repeat split; auto; try lia.
      all: subst q; destruct (Z.eqb_spec h 0), (Z.eqb_spec (h - 1) 0); try done; lia.
    + intros [= <- <-]. by repeat split.
Qed.

Lemma acquire_inv l y y' : inv y -> spinlock_acquire l y = Ret (tt, y') -> inv y'.
Proof.
  destruct y as [[e s n p h i q] ls]. intros (He & Hn & Hp & Hh & Hq). simpl in *. subst e.
  unfold mine in Hn; simpl in Hn.
  assert (0 <= h) by (unfold IPL_NONE, IPL_HIGH in *; lia).
  unfold spinlock_acquire, splraise, lock_of; munfold; simpl.
  destruct (Z.eqb_spec h 0) as [Hz|Hz]; simpl;
    case_bool_decide as Hd; simpl; try done; destruct (_ =? 0); try done;
    intros [= <-]; unfold inv, mine; simpl; rewrite size_mine_insert_held by done;
    repeat split; auto; try lia.
  all: subst q; destruct (Z.eqb_spec h 0), (Z.eqb_spec (h + 1) 0); try done; lia.
Qed.

Lemma release_inv l y y' : inv y -> spinlock_release l y = Ret (tt, y') -> inv y'.
Proof.
  destruct y as [[e s n p h i q] ls]. intros (He & Hn & Hp & Hh & Hq). simpl in *. subst e.
  unfold mine in Hn; simpl in Hn.
  unfold spinlock_release, spllower, lock_of; munfold; simpl.
  case_bool_decide as Hd; [|done]. destruct (Z.ltb_spec 0 n); [|done]. simpl.
  pose proof (size_mine_insert_free ls l s 0 Hd) as Hsz.
  assert (0 < h) by (unfold IPL_NONE, IPL_HIGH in *; lia).
  destruct (Z.eqb_spec (h - 1) 0) as [Hz|Hz]; simpl; intros [= <-];
    unfold inv, mine; simpl; repeat split; auto; try lia.
  all: subst q; destruct (Z.eqb_spec h 0), (Z.eqb_spec (h - 1) 0); try done; lia.
Qed.

Lemma run_op_inv o y y' : inv y -> run_op o y = Ret (tt, y') -> inv y'.
Proof.
  destruct o as [l|l|spl]; simpl; [apply acquire_inv|apply release_inv|].
  intros Hi H.
  apply bind_Ret_inv in H as (r & y1 & H1 & [= <-]). by eapply splx_inv.
Qed.

Lemma run_inv os y y' : inv y -> run os y = Ret (tt, y') -> inv y'.
Proof.
  unfold run. revert y. induction os as [|o os IH]; simpl; intros y Hi H.
  - by injection H as <-.
  - apply bind_Ret_inv in H as ([] & y1 & H1 & H2). eauto using run_op_inv.
Qed.

(** spl_irq_invariant. Whatever sequence of [spinlock_acquire],
    [spinlock_release] and [splx] a CPU runs, from a consistent state, if it
    does not panic then interrupts are on afterwards exactly when the CPU holds
    no spinlock and the thread's own interrupt level is zero. *)
Theorem spl_irq_invariant os y y' :
  inv y -> run os y = Ret (tt, y') ->
  (irq_on (y_cpu y') = true <-> mine y' = ∅ /\ t_curspl (y_cpu y') = IPL_NONE).
Proof.
  intros Hi Hr. destruct (run_inv _ _ _ Hi Hr) as (_ & Hsp & Hcur & Hcnt & ->).
  rewrite Z.eqb_eq, Hcnt, Hsp. rewrite <- map_size_empty_iff. unfold IPL_NONE, IPL_HIGH in *. lia.
Qed.

Definition sample_y : sync := MkSync (Cpu true 0 0 IPL_NONE 0 false true) ∅.

Lemma sample_y_inv : inv sample_y.
Proof. unfold inv, mine. simpl. split_and!; [done|by rewrite map_filter_empty, map_size_empty|by left|done..]. Qed.

Lemma spl_irq_invariant_witness :
  exists y', run [Acquire table_lock; Splx IPL_HIGH; Release table_lock] sample_y = Ret (tt, y') /\
    (irq_on (y_cpu y') = true <-> mine y' = ∅ /\ t_curspl (y_cpu y') = IPL_NONE).
Proof.
  eexists. split; [by vm_compute|].
  apply (spl_irq_invariant [Acquire table_lock; Splx IPL_HIGH; Release table_lock] sample_y);
    [apply sample_y_inv|by vm_compute].
Defined.

End SyncOps.

(** ** Spinlocks among several CPUs

    Each CPU runs [spinlock_acquire], its critical section and
    [spinlock_release] for ever; the steps are the reads and writes of the two
    words of the lock, in program order, and any CPU may take the next one. *)
Module Smp.

Inductive pc :=
| Outside        (* not in the spinlock code *)
| Get            (* at [spinlock_data_get] in the loop *)
| TestAndSet     (* at [spinlock_data_testandset] *)
| SetHolder      (* at [splk->splk_holder = mycpu] *)
| Critical       (* [spinlock_acquire] has returned *)
| ClearHolder    (* at [splk->splk_holder = NULL] *)
| ClearWord      (* at [spinlock_data_set(&splk->splk_lock, 0)] *)
| Panicked.      (* a panic or a failed assertion *)

#[export] Instance pc_eq_dec : EqDecision pc.
Proof. solve_decision. Defined.

(** [c_spinlocks] of each CPU counts this lock. *)
Record smp := MkSmp { word : Z; holder : option nat; c_spinlocks : nat -> Z; at_ : nat -> pc }.

Definition move {A} (c : nat) (p : A) (f : nat -> A) : nat -> A :=
  fun d => if decide (d = c) then p else f d.

Inductive step : smp -> smp -> Prop :=
| step_enter c w h k f :
    f c = Outside ->
    step (MkSmp w h k f)
      (if decide (h = Some c) then MkSmp w h k (move c Panicked f) else MkSmp w h (move c (u32 (k c + 1)) k) (move c Get f))
| step_get c w h k f :
    f c = Get ->
    step (MkSmp w h k f) (MkSmp w h k (move c (if w =? 0 then TestAndSet else Get) f))
| step_testandset c w h k f :
    f c = TestAndSet ->
    step (MkSmp w h k f) (MkSmp 1 h k (move c (if w =? 0 then SetHolder else Get) f))
| step_setholder c w h k f :
    f c = SetHolder -> step (MkSmp w h k f) (MkSmp w (Some c) k (move c Critical f))
| step_leave c w h k f :
    f c = Critical ->
    step (MkSmp w h k f)
      (if decide (h = Some c /\ 0 < k c) then MkSmp w h (move c (u32 (k c - 1)) k) (move c ClearHolder f)
       else MkSmp w h k (move c Panicked f))
| step_clearholder c w h k f :
    f c = ClearHolder -> step (MkSmp w h k f) (MkSmp w None k (move c ClearWord f))
| step_clearword c w h k f :
    f c = ClearWord -> step (MkSmp w h k f) (MkSmp 0 h k (move c Outside f)).

Definition init : smp := MkSmp 0 None (fun _ => 0) (fun _ => Outside).

(** The CPU is between the successful test-and-set and the final store. *)
Definition owns (p : pc) : bool :=
  match p with SetHolder | Critical | ClearHolder | ClearWord => true | _ => false end.

(** The CPU is where the holder field must name it. *)
Definition named (p : pc) : bool :=
  match p with Critical | ClearHolder => true | _ => false end.

(** The CPU counts the lock: from the increment in [spinlock_acquire] to the
    decrement in [spinlock_release]. *)
Definition counted (p : pc) : Z :=
  match p with Get | TestAndSet | SetHolder | Critical => 1 | _ => 0 end.

Definition inv (s : smp) : Prop :=
  (word s = 0 \/ word s = 1) /\
  (forall c, owns (at_ s c) = true -> word s = 1) /\
  (forall c d, owns (at_ s c) = true -> owns (at_ s d) = true -> c = d) /\
  (forall c, holder s = Some c <-> named (at_ s c) = true) /\
  (forall c, at_ s c <> Panicked) /\
  (forall c, c_spinlocks s c = counted (at_ s c)).

Lemma named_owns p : named p = true -> owns p = true.
Proof. by destruct p. Qed.

(** What a step must establish when CPU [c] moves to [p]. *)
Lemma inv_move w h k f w' h' k' c p :
  inv (MkSmp w h k f) ->
  (w' = 0 \/ w' = 1) ->
  (owns p = true -> w' = 1 /\ forall d, d <> c -> owns (f d) = false) ->
  (forall d, d <> c -> owns (f d) = true -> w' = 1) ->
  (h' = Some c <-> named p = true) ->
  (forall d, d <> c -> h' = Some d <-> named (f d) = true) ->
  p <> Panicked -> k' c = counted p -> (forall d, d <> c -> k' d = k d) ->
  inv (MkSmp w' h' k' (move c p f)).
Proof.
  intros (_ & _ & Hun & _ & Hpa & Hk) Hw Hp Hd Hh Hhd Hnp Hkc Hkd. unfold inv, move; simpl in *.
  repeat split; try done.
  - intros d. case_decide; subst; [|by apply Hd]. intros [? _]%Hp. done.
  - intros d e. repeat case_decide; subst; try done; [| |apply Hun].
    + intros [_ Ho]%Hp. by rewrite Ho.
    + intros He [_ Ho]%Hp. by rewrite Ho in He.
  - intros ->. case_decide; subst; [by apply Hh|by apply Hhd].
  - case_decide; subst; [by apply Hh|by apply Hhd].
  - intros d. case_decide; [done|apply Hpa].
  - intros d. case_decide; subst; [done|]. rewrite Hkd by done. apply Hk.
Qed.

Lemma move_same {A} c (p : A) f : move c p f c = p.
Proof. unfold move. by case_decide. Qed.

Lemma move_other {A} c (p : A) f d : d <> c -> move c p f d = f d.
Proof. unfold move. by case_decide. Qed.

Lemma step_inv s s' : inv s -> step s s' -> inv s'.
Proof.
  intros Hi Hst. pose proof Hi as (Hw & How & Hun & Hho & Hpa & Hk).
  destruct Hst as [c w h k f Hc|c w h k f Hc|c w h k f Hc|c w h k f Hc|c w h k f Hc|c w h k f Hc|c w h k f Hc];
    simpl in *; pose proof (How c) as Howc; pose proof (Hho c) as Hhoc; pose proof (Hk c) as Hkc;
    rewrite Hc in Howc, Hhoc, Hkc; simpl in Howc, Hhoc, Hkc;
    assert (forall d, owns (f c) = true -> d <> c -> owns (f d) = false) as Hother
      by (intros d Ho Hne; destruct (owns (f d)) eqn:E; [by destruct Hne; auto|done]);
    rewrite Hc in Hother; simpl in Hother; rewrite ?Hkc.
  - destruct (decide (h = Some c)) as [He|He]; [by apply Hhoc in He|].
    eapply (inv_move _ _ _ _ _ _ _ _ _ Hi); simpl; try done; eauto using move_same, move_other.
  - eapply (inv_move _ _ _ _ _ _ _ _ _ Hi); try done; eauto; by destruct (w =? 0).
  - eapply (inv_move _ _ _ _ _ _ _ _ _ Hi); try done; eauto; try (by destruct (w =? 0)).
    destruct (Z.eqb_spec w 0) as [->|]; [|done]. intros _. split; [done|].
    intros d _. destruct (owns (f d)) eqn:E; [|done]. by apply How in E.
  - eapply (inv_move _ _ _ _ _ _ _ _ _ Hi); try done; eauto. intros d Hne. split; [by intros [= ?]; subst|].
    intros Hn%named_owns. by rewrite (Hother d) in Hn.
  - rewrite decide_True by (split; [by apply Hhoc|lia]).
    eapply (inv_move _ _ _ _ _ _ _ _ _ Hi); simpl; try done; eauto using move_same, move_other.
  - eapply (inv_move _ _ _ _ _ _ _ _ _ Hi); try done; eauto.
    intros d Hne. split; [done|]. intros Hn%named_owns. by rewrite (Hother d) in Hn.
  - eapply (inv_move _ _ _ _ _ _ _ _ _ Hi); try done; eauto.
    intros d Hne Ho. by rewrite (Hother d) in Ho.
Qed.

Lemma reachable_inv s : rtc step init s -> inv s.
Proof.
  assert (inv init) as Hi by (unfold inv, init; simpl; naive_solver).
  intros Hr. revert Hi. induction Hr; eauto using step_inv.
Qed.

(** C14 smp_mutual_exclusion. In every interleaving of the CPUs, whether or not
    one of them is in its critical section, no CPU ever panics (there is no false
    deadlock report, and the assertions of [spinlock_release] on the holder and on
    [c_spinlocks] hold); at most one CPU is in its critical section, and the lock
    then names it as its holder. *)
Theorem smp_mutual_exclusion s :
  rtc step init s ->
  (forall e, at_ s e <> Panicked) /\
  (forall c d, at_ s c = Critical -> at_ s d = Critical -> c = d) /\
  (forall c, at_ s c = Critical -> holder s = Some c).
Proof.
  intros (_ & _ & Hun & Hho & Hpa & _)%reachable_inv. split_and!; [done| |].
  - intros c d Hc Hd. apply Hun; [by rewrite Hc|by rewrite Hd].
  - intros c Hc. apply Hho. by rewrite Hc.
Qed.

(** CPU 2 takes the lock while the others stay outside. *)
Definition sample_smp : smp :=
  MkSmp 1 (Some 2%nat) (move 2 1 (fun _ => 0)) (move 2 Critical (move 2 SetHolder (move 2 TestAndSet
    (move 2 Get (fun _ => Outside))))).

Lemma sample_smp_reachable : rtc step init sample_smp.
Proof.
  eapply rtc_l; [by apply (step_enter 2)|]. eapply rtc_l; [by apply (step_get 2)|].
  eapply rtc_l; [by apply (step_testandset 2)|]. eapply rtc_l; [by apply (step_setholder 2)|].
  apply rtc_refl.
Qed.

Lemma smp_mutual_exclusion_witness :
  (forall e, at_ sample_smp e <> Panicked) /\ at_ sample_smp 2%nat = Critical /\ holder sample_smp = Some 2%nat.
Proof.
  destruct (smp_mutual_exclusion sample_smp sample_smp_reachable) as (Hp & _ & Hh).
  split_and!; [exact Hp|reflexivity|exact (Hh 2%nat eq_refl)].
Defined.

End Smp.
