(* ===== verification/KState.v ===== *)
(** * The state of the virtual memory system

    The structures and global variables of [pt.c], [coremap.c], [ram.c],
    [swapfile.c], [vm_tlb.c], [vm_stats.c] and [addrspace.c] (headers under
    [kern/include/]), collected in one record [kst]; the interface [Vnops]
    through which the code reads and writes files; and the lemmas that run a
    critical section. *)

From S2P Require Import Prelude Sync.

(** ** Page table entries ([kern/include/pt.h]) *)
Inductive permission_t := READ_ONLY | READ_WRITE.

#[export] Instance permission_eq_dec : EqDecision permission_t.
Proof. solve_decision. Defined.

(** The integer an enumeration constant converts to. *)
Definition permission_Z (p : permission_t) : Z :=
  match p with READ_ONLY => 0 | READ_WRITE => 1 end.

Record entry := Entry {
  e_vaddr : Z;
  e_pid : Z;
  e_status : Z;
  e_permission_flag : permission_t;
  e_position_fifo : Z;
}.

#[export] Instance entry_eq_dec : EqDecision entry.
Proof. solve_decision. Defined.

(** [struct table]: the array [next_entry]; its [length] field is the number of
    elements it was allocated with and never changes. *)
Record table := Table { next_entry : list entry }.

Definition t_length (t : table) : Z := Z.of_nat (length (next_entry t)).

(** ** Physical memory ([ram.c], [coremap.c]) *)
Record ram := Ram { firstfree : Z; firstpaddr : Z; lastpaddr : Z }.

Record coremap := Coremap {
  freeRamFrames : option (list Z);
  allocSize : option (list Z);
  nRamFrames : Z;
  allocTableActive : Z;
}.

(** The bytes of RAM, by physical address. *)
Definition pmem : Type := Z -> Z.

Definition mem_write (a : Z) (bs : list Z) (m : pmem) : pmem :=
  fun x => if (a <=? x) && (x <? a + Z.of_nat (length bs))
           then default 0 (bs !! Z.to_nat (x - a)) else m x.

Definition mem_zero (a len : Z) (m : pmem) : pmem :=
  fun x => if (a <=? x) && (x <? a + len) then 0 else m x.

Definition mem_read (a : Z) (len : Z) (m : pmem) : list Z :=
  (fun i => m (a + Z.of_nat i)) <$> seq 0 (Z.to_nat len).

(** ** Swap table ([swapfile.c]) *)
Record swap_track := Track {
  st_permission_flag : permission_t;
  st_pid : Z;
  st_vaddr : Z;
  st_valid : Z;
}.

(** ** TLB ([vm_tlb.c], [kern/arch/mips/include/tlb.h])

    [tlb_hw] is the processor's table of (EntryHi, EntryLo) pairs. *)
Record tlb_state := Tlb {
  tlb_bitmap : list Z;
  tlb_hw : list (Z * Z);
  next_victim : Z;
}.

(** ** Statistics ([vm_stats.c]) *)
Record stats := Stats {
  tlb_faults : Z;
  tlb_faults_free : Z;
  tlb_faults_replace : Z;
  tlb_invalidations : Z;
  tlb_reloads : Z;
  page_faults_zeroed : Z;
  page_faults_disk : Z;
  page_faults_elf : Z;
  page_faults_swapin : Z;
  page_faults_swapout : Z;
  swapfile_writes : Z;
}.

(** ** Address spaces ([kern/include/addrspace.h], option [projectc1]) *)
Record file_info := FileInfo {
  code_offset : Z;
  code_sz : Z;
  data_offset : Z;
  data_sz : Z;
  fi_v : Z;
}.

Record addrspace := Addrspace {
  as_vbase1 : Z;
  as_npages1 : Z;
  as_vbase2 : Z;
  as_npages2 : Z;
  as_stackpbase : Z;
  allocated_pages : Z;
  as_fi : file_info;
}.

(** The fields of [struct proc] the VM system reads: the [pid] added by option
    [projectc1], which no routine of the kernel assigns, and the address space.
    [vp_id] names its [p_lock]. *)
Record vmproc := Vmproc { vp_id : Z; vp_pid : Z; vp_addrspace : option addrspace }.

(** ** Files *)
Record vfile := Vfile { vf_size : Z; vf_data : Z -> Z }.

(** ** The whole state *)
Record kst := Kst {
  k_sync : sync;
  k_ram : ram;
  k_cm : coremap;
  k_pt : option table;
  k_track : list swap_track;
  k_swap_vnode : Z;
  k_vnodes : gmap Z vfile;
  k_tlb : tlb_state;
  k_stats : stats;
  k_mem : pmem;
  k_cur : option vmproc;
}.

Abbreviation K := (M kst).

Definition set_sync (x : sync) (s : kst) : kst :=
  Kst x (k_ram s) (k_cm s) (k_pt s) (k_track s) (k_swap_vnode s) (k_vnodes s) (k_tlb s) (k_stats s) (k_mem s) (k_cur s).

Definition set_ram (x : ram) (s : kst) : kst :=
  Kst (k_sync s) x (k_cm s) (k_pt s) (k_track s) (k_swap_vnode s) (k_vnodes s) (k_tlb s) (k_stats s) (k_mem s) (k_cur s).

Definition set_cm (x : coremap) (s : kst) : kst :=
  Kst (k_sync s) (k_ram s) x (k_pt s) (k_track s) (k_swap_vnode s) (k_vnodes s) (k_tlb s) (k_stats s) (k_mem s) (k_cur s).

Definition set_pt (x : option table) (s : kst) : kst :=
  Kst (k_sync s) (k_ram s) (k_cm s) x (k_track s) (k_swap_vnode s) (k_vnodes s) (k_tlb s) (k_stats s) (k_mem s) (k_cur s).

Definition set_track (x : list swap_track) (s : kst) : kst :=
  Kst (k_sync s) (k_ram s) (k_cm s) (k_pt s) x (k_swap_vnode s) (k_vnodes s) (k_tlb s) (k_stats s) (k_mem s) (k_cur s).

Definition set_swap_vnode (x : Z) (s : kst) : kst :=
  Kst (k_sync s) (k_ram s) (k_cm s) (k_pt s) (k_track s) x (k_vnodes s) (k_tlb s) (k_stats s) (k_mem s) (k_cur s).

Definition set_vnodes (x : gmap Z vfile) (s : kst) : kst :=
  Kst (k_sync s) (k_ram s) (k_cm s) (k_pt s) (k_track s) (k_swap_vnode s) x (k_tlb s) (k_stats s) (k_mem s) (k_cur s).

Definition set_tlb (x : tlb_state) (s : kst) : kst :=
  Kst (k_sync s) (k_ram s) (k_cm s) (k_pt s) (k_track s) (k_swap_vnode s) (k_vnodes s) x (k_stats s) (k_mem s) (k_cur s).

Definition set_stats (x : stats) (s : kst) : kst :=
  Kst (k_sync s) (k_ram s) (k_cm s) (k_pt s) (k_track s) (k_swap_vnode s) (k_vnodes s) (k_tlb s) x (k_mem s) (k_cur s).

Definition set_mem (x : pmem) (s : kst) : kst :=
  Kst (k_sync s) (k_ram s) (k_cm s) (k_pt s) (k_track s) (k_swap_vnode s) (k_vnodes s) (k_tlb s) (k_stats s) x (k_cur s).

Definition set_cur (x : option vmproc) (s : kst) : kst :=
  Kst (k_sync s) (k_ram s) (k_cm s) (k_pt s) (k_track s) (k_swap_vnode s) (k_vnodes s) (k_tlb s) (k_stats s) (k_mem s) x.

(** ** Critical sections *)
Definition k_acquire (l : lock_id) : K unit :=
  zoom k_sync set_sync (Spinlock.spinlock_acquire l).
Definition k_release (l : lock_id) : K unit :=
  zoom k_sync set_sync (Spinlock.spinlock_release l).

(** The CPU is past start-up and its counters are consistent. *)
Definition quiet (s : kst) : Prop := cpu_ok (y_cpu (k_sync s)).

Definition free (l : lock_id) (s : kst) : Prop := lock_free l (k_sync s).

Definition hold (l : lock_id) (s : kst) : kst := set_sync (held l (k_sync s)) s.

Lemma k_acquire_run l s : quiet s -> free l s -> k_acquire l s = Ret (tt, hold l s).
Proof. intros Hq Hf. unfold hold. by apply zoom_Ret, acquire_run. Qed.

Lemma k_release_run l s y :
  cpu_ok (y_cpu y) -> lock_free l y -> k_sync s = held l y ->
  k_release l s = Ret (tt, set_sync y s).
Proof.
  intros Hq Hf Hs. unfold k_release. apply zoom_Ret. rewrite Hs. by apply release_run.
Qed.

Lemma bind_acquire {A} l (k : unit -> K A) s :
  quiet s -> free l s -> mbind k (k_acquire l) s = k tt (hold l s).
Proof. intros Hq Hf. by rewrite (bind_run _ _ _ _ _ (k_acquire_run l s Hq Hf)). Qed.

Lemma bind_release {A} l (k : unit -> K A) s y :
  cpu_ok (y_cpu y) -> lock_free l y -> k_sync s = held l y ->
  mbind k (k_release l) s = k tt (set_sync y s).
Proof. intros Hq Hf Hs. by rewrite (bind_run _ _ _ _ _ (k_release_run l s y Hq Hf Hs)). Qed.

Lemma bind_acquire_held {A} l (k : unit -> K A) s y :
  cpu_ok (y_cpu y) -> k_sync s = held l y ->
  mbind k (k_acquire l) s = Panic "Deadlock on spinlock".
Proof.
  intros Hq Hs. apply bind_panic. unfold k_acquire, zoom.
  by rewrite Hs, acquire_held_panics.
Qed.

Lemma quiet_hold l s : quiet s -> quiet (hold l s).
Proof. apply cpu_ok_held. Qed.

Lemma free_hold l l' s : l <> l' -> free l' s -> free l' (hold l s).
Proof. intros Hne. by apply lock_free_held. Qed.

Lemma set_sync_hold l s : set_sync (k_sync s) (hold l s) = s.
Proof. by destruct s. Qed.

#[export] Hint Resolve quiet_hold : kern.

(** Enter and leave a critical section whose hypotheses are in the context. *)
Ltac enter := mrun; rewrite bind_acquire by (eauto with kern); mrun.
Ltac leave := mrun; erewrite bind_release; [|eassumption|eassumption|reflexivity]; mrun.

(** ** Files behind vnodes

    [VOP_READ] and [VOP_WRITE] call the file system the vnode belongs to; the
    routines here use them only through this interface ([kern/include/vnode.h]).
    [vop_read f off len] is the error code and the bytes transferred, so that
    [uio_resid] becomes [len] minus their number; [vop_write f off bs] is the
    error code, the residue and the file afterwards.  [vop_sleeps f] says whether
    the device below makes its caller sleep on a semaphore until the transfer is
    done, as [emu_waitdone] and [lhd_io] do. *)
Class Vnops := {
  vop_sleeps : vfile -> bool;
  vop_read : vfile -> Z -> Z -> Z * list Z;
  vop_write : vfile -> Z -> list Z -> Z * Z * vfile;
}.

(** What the swap code relies on: a complete write is read back, and does not
    disturb other parts of the file. *)
Class VnopsOk `{Vnops} : Prop := {
  vop_read_len f off len bs :
    vop_read f off len = (0, bs) -> Z.of_nat (length bs) <= Z.max 0 len;
  vop_write_read f f' off bs :
    0 <= off -> vop_write f off bs = (0, 0, f') ->
    vop_read f' off (Z.of_nat (length bs)) = (0, bs);
  vop_write_other f f' off bs off' len :
    0 <= off -> 0 <= off' -> 0 <= len -> off' + len <= vf_size f ->
    (off' + len <= off \/ off + Z.of_nat (length bs) <= off') ->
    vop_write f off bs = (0, 0, f') ->
    vop_read f' off' len = vop_read f off' len;
  vop_write_size f f' off bs :
    0 <= off -> vop_write f off bs = (0, 0, f') ->
    vf_size f' = Z.max (vf_size f) (off + Z.of_nat (length bs));
  vop_write_sleeps f f' off bs rc resid :
    vop_write f off bs = (rc, resid, f') -> vop_sleeps f' = vop_sleeps f;
}.

(** The CPU may sleep: no spinlock held, not in an interrupt handler. *)
Definition can_sleep (s : kst) : Prop :=
  let c := y_cpu (k_sync s) in c_spinlocks c = 0 /\ t_in_interrupt c = false.

(** What sleeping on a semaphore asserts, in [P] and in [wchan_sleep] (thread.c:1000
    and 1005): [P] has acquired the spinlock of the semaphore, and there may be no
    other. *)
Definition device_wait : K unit :=
  c ← gets (fun s => y_cpu (k_sync s));
  kassert (negb (t_in_interrupt c)) "curthread->t_in_interrupt == false";;
  kassert (c_spinlocks c + 1 =? 1) "curcpu->c_spinlocks == 1".

Lemma device_wait_run s : can_sleep s -> device_wait s = Ret (tt, s).
Proof. intros [H1 H2]. unfold device_wait. mrun. rewrite bind_kassert by (by rewrite H2). by rewrite H1. Qed.

Lemma device_wait_locked s :
  t_in_interrupt (y_cpu (k_sync s)) = false -> 0 < c_spinlocks (y_cpu (k_sync s)) ->
  device_wait s = Panic "curcpu->c_spinlocks == 1".
Proof.
  intros H1 H2. unfold device_wait. mrun. rewrite bind_kassert by (by rewrite H1). unfold kassert.
  by rewrite (proj2 (Z.eqb_neq _ _)) by lia.
Qed.

(** A file kept in memory satisfies the interface. *)
Section MemFile.

Definition memfile_read (f : vfile) (off len : Z) : Z * list Z :=
  (0, mem_read off (Z.min len (vf_size f - off)) (vf_data f)).

Definition memfile_write (f : vfile) (off : Z) (bs : list Z) : Z * Z * vfile :=
  (0, 0, Vfile (Z.max (vf_size f) (off + Z.of_nat (length bs)))
               (mem_write off bs (vf_data f))).

End MemFile.

#[export] Instance memfile_vnops : Vnops :=
  { vop_sleeps _ := false; vop_read := memfile_read; vop_write := memfile_write }.

Lemma mem_read_length a len m : length (mem_read a len m) = Z.to_nat len.
Proof. unfold mem_read. by rewrite length_fmap, length_seq. Qed.

Lemma mem_read_lookup a len m i :
  0 <= i < len -> mem_read a len m !! Z.to_nat i = Some (m (a + i)).
Proof.
  intros Hi. unfold mem_read. rewrite list_lookup_fmap, lookup_seq_lt by lia. simpl.
  by rewrite Z2Nat.id by lia.
Qed.

Lemma mem_read_ext a a' len m m' :
  (forall i, 0 <= i < len -> m (a + i) = m' (a' + i)) ->
  mem_read a len m = mem_read a' len m'.
Proof.
  intros Heq. apply list_fmap_ext. intros i x [-> Hi]%lookup_seq. apply Heq. lia.
Qed.

Lemma mem_write_in a bs m i x :
  bs !! i = Some x -> mem_write a bs m (a + Z.of_nat i) = x.
Proof.
  intros Hi. pose proof (lookup_lt_Some _ _ _ Hi). unfold mem_write.
  rewrite (proj2 (Z.leb_le _ _)), (proj2 (Z.ltb_lt _ _)) by lia. simpl.
  replace (Z.to_nat (a + Z.of_nat i - a)) with i by lia. by rewrite Hi.
Qed.

Lemma mem_write_out a bs m x :
  x < a \/ a + Z.of_nat (length bs) <= x -> mem_write a bs m x = m x.
Proof.
  intros Hx. unfold mem_write.
  destruct (Z.leb_spec a x), (Z.ltb_spec x (a + Z.of_nat (length bs))); try done; lia.
Qed.

Lemma mem_read_write a bs m : mem_read a (Z.of_nat (length bs)) (mem_write a bs m) = bs.
Proof.
  apply list_eq. intros i. destruct (bs !! i) as [x|] eqn:Hi.
  - pose proof (lookup_lt_Some _ _ _ Hi).
    rewrite <- (Nat2Z.id i) at 1. rewrite mem_read_lookup by lia.
    by rewrite (mem_write_in _ _ _ _ _ Hi).
  - apply lookup_ge_None in Hi. apply lookup_ge_None. rewrite mem_read_length. lia.
Qed.

Lemma mem_write_read a a' len m m' x :
  0 <= len -> a <= x < a + len ->
  mem_write a (mem_read a' len m') m x = m' (a' + (x - a)).
Proof.
  intros Hl Hx. pose proof (mem_read_lookup a' len m' (x - a)) as Hlk.
  replace x with (a + Z.of_nat (Z.to_nat (x - a))) at 1 by lia.
  rewrite (mem_write_in _ _ _ _ _ (Hlk ltac:(lia))). done.
Qed.

#[export] Instance memfile_ok : VnopsOk.
Proof.
  split; simpl; unfold memfile_read, memfile_write.
  - intros f off len bs [= <-]. rewrite mem_read_length. lia.
  - intros f f' off bs Hoff [= <-]. simpl. f_equal.
    rewrite Z.min_l by lia. apply mem_read_write.
  - intros f f' off bs off' len Hoff Hoff' Hlen Hsz Hdis [= <-]. simpl. f_equal.
    rewrite !Z.min_l by lia. apply mem_read_ext. intros i Hi.
    apply mem_write_out. lia.
  - by intros f f' off bs Hoff [= <-].
  - done.
Qed.

(** ** What the paging code relies on of the frame allocator

    [inv] is the allocator's invariant.  An allocation of one frame returns,
    touches nothing but the coremap and the RAM bounds, and gives 0 or an
    aligned frame inside RAM; the invariant depends only on these parts of the
    state and on the allocator's two locks. *)
Class FrameAllocator (alloc : Z -> K Z) (inv : kst -> Prop) : Prop := {
  alloc_one s : inv s -> exists pa s',
    alloc 1 s = Ret (pa, s') /\ inv s' /\
    s' = set_cm (k_cm s') (set_ram (k_ram s') s) /\
    lastpaddr (k_ram s') = lastpaddr (k_ram s) /\
    (pa = 0 \/ 0 < pa /\ pa mod PAGE_SIZE = 0 /\
       pa + PAGE_SIZE <= lastpaddr (k_ram s) /\ lastpaddr (k_ram s) <= 2 ^ 29);
  alloc_inv_local s s' :
    k_cm s' = k_cm s -> k_ram s' = k_ram s -> quiet s' ->
    free freemem_lock s' -> free stealmem_lock s' -> inv s -> inv s';
  alloc_inv_locks s : inv s -> quiet s /\ free freemem_lock s /\ free stealmem_lock s;
}.

(** ** A small machine, for concrete runs

    Sixteen frames of RAM, the first four holding the kernel. *)
Definition sample_cpu : cpu := Cpu true 0 0 IPL_NONE 0 false true.

Definition sample_sync : sync :=
  MkSync sample_cpu
    (list_to_map ((fun l => (l, SPINLOCK_INITIALIZER)) <$>
       [freemem_lock; stealmem_lock; table_lock; swap_slock; tlb_slock; vm_slock;
        bitmap_lock; proctable_lock; p_lock 1; kmalloc_spinlock])).


Definition zero_stats : stats := Stats 0 0 0 0 0 0 0 0 0 0 0.

Definition sample : kst :=
  Kst sample_sync (Ram (MIPS_KSEG0 + 4 * PAGE_SIZE) (4 * PAGE_SIZE) (16 * PAGE_SIZE))
    (Coremap None None 0 0) None [] 0 ∅
    (Tlb (replicate 64 0) (replicate 64 (0, 0)) 0) zero_stats (fun _ => 0) None.

Definition all_free (ls : list lock_id) (s : kst) : Prop := quiet s /\ Forall (fun l => free l s) ls.
