(* ===== verification/Coremap.v ===== *)
(** * Physical memory: [ram.c] and [coremap.c]

    [Module Ram] is the early allocator that hands out memory above the kernel
    image; [Module Cm] is the frame allocator built on it: a first-fit search
    of recycled frames, then [ram_stealmem]. *)

From S2P Require Import Prelude Sync KState.

Module Ram.

Definition RAM_LIMIT : Z := 512 * 1024 * 1024.

(** [mainbus_ramsize] is what the bus reports. *)
Definition ram_bootstrap (mainbus_ramsize : Z) : K unit :=
  r ← gets k_ram;
  let ramsize := if RAM_LIMIT <? mainbus_ramsize then RAM_LIMIT else mainbus_ramsize in
  modify (set_ram (Ram (firstfree r) (u32 (firstfree r - MIPS_KSEG0)) ramsize)).

Definition ram_stealmem (npages : Z) : K Z :=
  r ← gets k_ram;
  let size := u32 (npages * PAGE_SIZE) in
  if lastpaddr r <? u32 (firstpaddr r + size) then mret 0
  else
    let paddr := firstpaddr r in
    modify (set_ram (Ram (firstfree r) (u32 (firstpaddr r + size)) (lastpaddr r)));;
    mret paddr.

Definition ram_getsize : K Z := gets (fun s => lastpaddr (k_ram s)).

Definition ram_getfirstfree : K Z :=
  r ← gets k_ram;
  let ret := firstpaddr r in
  modify (set_ram (Ram (firstfree r) 0 0));;
  mret ret.

End Ram.

Module Cm.
Import Ram.

Definition with_frames (l : list Z) (c : coremap) : coremap :=
  Coremap (Some l) (allocSize c) (nRamFrames c) (allocTableActive c).
Definition with_sizes (l : list Z) (c : coremap) : coremap :=
  Coremap (freeRamFrames c) (Some l) (nRamFrames c) (allocTableActive c).
Definition with_active (a : Z) (c : coremap) : coremap :=
  Coremap (freeRamFrames c) (allocSize c) (nRamFrames c) a.

Definition upd_cm (f : coremap -> coremap) : K unit :=
  modify (fun s => set_cm (f (k_cm s)) s).

(** [ok1] and [ok2] tell whether the two [kmalloc] calls succeed; both arrays
    are overwritten in full. *)
Definition coremap_bootstrap (ok1 ok2 : bool) : K unit :=
  size ← ram_getsize;
  let n := Z.quot (s32 size) PAGE_SIZE in
  upd_cm (fun c => Coremap (freeRamFrames c) (allocSize c) n (allocTableActive c));;
  if negb ok1 || negb ok2 then
    upd_cm (fun c => Coremap None None (nRamFrames c) (allocTableActive c));;
    panic "error creating freeRamFrames or allocSize"
  else
    upd_cm (fun c => Coremap (Some (replicate (Z.to_nat n) 0))
                             (Some (replicate (Z.to_nat n) 0))
                             (nRamFrames c) (allocTableActive c));;
    k_acquire freemem_lock;;
    upd_cm (with_active 1);;
    k_release freemem_lock.

Definition isTableActive : K Z :=
  k_acquire freemem_lock;;
  active ← gets (fun s => allocTableActive (k_cm s));
  k_release freemem_lock;;
  mret active.

(** The search loop of [getfreeppages] from index [i] on: [prev] is whether
    [freeRamFrames[i-1]] is nonzero, [first] the loop's variable. *)
Fixpoint scan (frames : list Z) (i : Z) (prev : bool) (first np : Z) : Z :=
  match frames with
  | [] => -1
  | f :: frames' =>
      if negb (f =? 0) then
        let first := if (i =? 0) || negb prev then i else first in
        if np <=? i - first + 1 then first
        else scan frames' (i + 1) true first np
      else scan frames' (i + 1) false first np
  end.

Definition getfreeppages (npages : Z) : K Z :=
  let np := s32 npages in
  active ← isTableActive;
  if active =? 0 then mret 0
  else
    k_acquire freemem_lock;;
    c ← gets k_cm;
    frames ← valid (freeRamFrames c) "freeRamFrames";
    let found := scan (take (Z.to_nat (nRamFrames c)) frames) 0 false (-1) np in
    addr ←
      (if 0 <=? found then
         frames' ← valid (arr_fill frames found (Z.to_nat np) 0) "freeRamFrames[i]";
         upd_cm (with_frames frames');;
         sizes ← valid (allocSize c) "allocSize";
         _ ← valid (arr_get sizes found) "allocSize[found]";
         upd_cm (with_sizes (arr_set sizes found (u32 np)));;
         mret (u32 (found * PAGE_SIZE))
       else mret 0);
    k_release freemem_lock;;
    mret addr.

Definition freeppages (addr : Z) : K Z :=
  active ← isTableActive;
  if active =? 0 then mret 0
  else
    let first := addr / PAGE_SIZE in
    c ← gets k_cm;
    kassert (bool_decide (is_Some (allocSize c))) "allocSize != NULL";;
    kassert (first <? nRamFrames c) "nRamFrames > first";;
    sizes ← valid (allocSize c) "allocSize";
    np ← valid (arr_get sizes first) "allocSize[first]";
    k_acquire freemem_lock;;
    frames ← valid (freeRamFrames c) "freeRamFrames";
    frames' ← valid (arr_fill frames first (Z.to_nat (s32 np)) 1) "freeRamFrames[i]";
    upd_cm (with_frames frames');;
    k_release freemem_lock;;
    mret 1.

(** The end of [getppages]: [if (addr != 0 && isTableActive()) ...]. *)
Definition note_alloc (addr npages : Z) : K unit :=
  if addr =? 0 then mret tt
  else
    active ← isTableActive;
    if active =? 0 then mret tt
    else
      k_acquire freemem_lock;;
      c ← gets k_cm;
      sizes ← valid (allocSize c) "allocSize";
      _ ← valid (arr_get sizes (addr / PAGE_SIZE)) "allocSize[addr/PAGE_SIZE]";
      upd_cm (with_sizes (arr_set sizes (addr / PAGE_SIZE) npages));;
      k_release freemem_lock.

Definition getppages (npages : Z) : K Z :=
  addr ← getfreeppages npages;
  addr ←
    (if addr =? 0 then
       k_acquire stealmem_lock;;
       addr ← ram_stealmem npages;
       k_release stealmem_lock;;
       mret addr
     else mret addr);
  note_alloc addr npages;;
  mret addr.

(** ** The first-fit search *)

(** [n] consecutive free frames from [a] on. *)
Definition is_run (fr : list Z) (a n : Z) : Prop :=
  forall j, a <= j < a + n -> exists x, arr_get fr j = Some x /\ x <> 0.

Lemma is_run_sub fr a n b m :
  is_run fr a n -> a <= b -> b + m <= a + n -> is_run fr b m.
Proof. intros Hr Hb Hm j Hj. apply Hr. lia. Qed.

Lemma is_run_bound fr a n : is_run fr a n -> 0 < n -> a + n <= Z.of_nat (length fr).
Proof.
  intros Hr Hn. destruct (Hr (a + n - 1)) as (x & Hx & _); [lia|].
  assert (is_Some (arr_get fr (a + n - 1))) as Hs by eauto.
  apply arr_get_is_Some in Hs. lia.
Qed.

(** The loop's variables at index [i]: [start] begins the run that ends just
    before [i], and no run of [np] frames lies below [i]. *)
Definition scan_at (fr : list Z) (np i start : Z) : Prop :=
  0 <= start <= i /\ is_run fr start (i - start) /\
  (forall a, 0 <= a < start -> ~ is_run fr a (i - a)) /\
  (forall a, 0 <= a -> is_run fr a np -> i < a + np).

Lemma scan_at_hit fr np i start f :
  1 <= np -> scan_at fr np i start -> arr_get fr i = Some f -> f <> 0 ->
  np <= i - start + 1 ->
  is_run fr start np /\ forall a, 0 <= a < start -> ~ is_run fr a np.
Proof.
  intros Hnp (Hs & Hr & Hmax & Hno) Hf Hnz Hle.
  assert (is_run fr start (i + 1 - start)) as Hr'.
  { intros j Hj. destruct (decide (j = i)) as [->|]; [eauto|apply Hr; lia]. }
  split; [eapply is_run_sub; [exact Hr'|lia..]|].
  intros a Ha Hra. pose proof (Hno a ltac:(lia) Hra). apply (Hmax a Ha).
  eapply is_run_sub; [exact Hra|lia..].
Qed.

Lemma scan_at_free fr np i start f :
  1 <= np -> scan_at fr np i start -> arr_get fr i = Some f -> f <> 0 ->
  i - start + 1 < np -> scan_at fr np (i + 1) start.
Proof.
  intros Hnp (Hs & Hr & Hmax & Hno) Hf Hnz Hlt. repeat split; [lia..| | |].
  - intros j Hj. destruct (decide (j = i)) as [->|]; [eauto|apply Hr; lia].
  - intros a Ha Hra. apply (Hmax a Ha). eapply is_run_sub; [exact Hra|lia..].
  - intros a Ha Hra. pose proof (Hno a Ha Hra).
    destruct (decide (a < start)); [|lia].
    destruct (Hmax a); [lia|]. eapply is_run_sub; [exact Hra|lia..].
Qed.

Lemma scan_at_busy fr np i start :
  1 <= np -> scan_at fr np i start -> arr_get fr i = Some 0 ->
  scan_at fr np (i + 1) (i + 1).
Proof.
  intros Hnp (Hs & Hr & Hmax & Hno) Hf. repeat split; [lia..| | |].
  - intros j Hj. lia.
  - intros a Ha Hra. destruct (Hra i) as (x & Hx & Hnz); [lia|]. by simplify_eq.
  - intros a Ha Hra. pose proof (Hno a Ha Hra).
    destruct (decide (i + 1 = a + np)); [|lia].
    destruct (Hra i) as (x & Hx & Hnz); [lia|]. by simplify_eq.
Qed.

Definition first_fit (fr : list Z) (np r : Z) : Prop :=
  (r = -1 /\ forall a, 0 <= a -> ~ is_run fr a np) \/
  (0 <= r /\ is_run fr r np /\ forall a, 0 <= a < r -> ~ is_run fr a np).

Lemma scan_correct fr np l1 l2 prev first :
  1 <= np -> fr = l1 ++ l2 ->
  (Z.of_nat (length l1) = 0 -> prev = false) ->
  scan_at fr np (Z.of_nat (length l1)) (if prev then first else Z.of_nat (length l1)) ->
  first_fit fr np (scan l2 (Z.of_nat (length l1)) prev first np).
Proof.
  intros Hnp. revert l1 prev first. induction l2 as [|f l2 IH]; intros l1 prev first Hfr H0 Hat.
  - left. split; [done|]. intros a Ha Hra. destruct Hat as (_ & _ & _ & Hno).
    pose proof (Hno a Ha Hra). pose proof (is_run_bound _ _ _ Hra ltac:(lia)).
    subst fr. rewrite length_app in *. simpl in *. lia.
  - assert (arr_get fr (Z.of_nat (length l1)) = Some f) as Hf.
    { rewrite arr_get_nat. subst fr. by apply list_lookup_middle. }
    assert (Z.of_nat (length l1) + 1 = Z.of_nat (length (l1 ++ [f]))) as Hlen
      by (rewrite length_app; simpl; lia).
    set (i := Z.of_nat (length l1)) in *. cbn [scan].
    assert ((if (i =? 0) || negb prev then i else first) = if prev then first else i) as Hst.
    { destruct (Z.eqb_spec i 0) as [Hi|], prev; simpl; try done. by specialize (H0 Hi). }
    destruct (Z.eqb_spec f 0) as [->|Hnz]; cbn [negb].
    + rewrite Hlen. apply IH; [by rewrite <- app_assoc|lia|].
      rewrite <- Hlen. simpl. by eapply scan_at_busy.
    + rewrite Hst. destruct (Z.leb_spec np (i - (if prev then first else i) + 1)).
      * right. pose proof Hat as (? & _). split; [lia|]. by eapply scan_at_hit.
      * rewrite Hlen. apply IH; [by rewrite <- app_assoc|lia|].
        rewrite <- Hlen. by eapply scan_at_free.
Qed.

Lemma scan_first_fit fr np : 1 <= np -> first_fit fr np (scan fr 0 false (-1) np).
Proof.
  intros Hnp. apply (scan_correct fr np [] fr false (-1)); [done..|].
  repeat split; simpl; try lia. intros j Hj. lia.
Qed.

(** ** Runs of the monadic routines *)

Definition ready (s : kst) : Prop :=
  quiet s /\ free freemem_lock s /\ free stealmem_lock s.

(** The coremap is active over the arrays [fr] and [sz]. *)
Definition cm_wf (c : coremap) (fr sz : list Z) : Prop :=
  c = Coremap (Some fr) (Some sz) (Z.of_nat (length fr)) 1 /\
  length sz = length fr /\ Z.of_nat (length fr) <= 2 ^ 17.

Lemma isTableActive_run s :
  quiet s -> free freemem_lock s -> isTableActive s = Ret (allocTableActive (k_cm s), s).
Proof.
  intros Hq Hf. unfold isTableActive. enter. mrun. leave. by rewrite set_sync_hold.
Qed.

Lemma bind_isTableActive {A} (k : Z -> K A) s :
  quiet s -> free freemem_lock s ->
  mbind k isTableActive s = k (allocTableActive (k_cm s)) s.
Proof. intros Hq Hf. by rewrite (bind_run _ _ _ _ _ (isTableActive_run s Hq Hf)). Qed.

(** The state after frames [r .. r+np-1] have been taken from the recycled ones. *)
Definition taken (fr' sz : list Z) (r np : Z) (s : kst) : kst :=
  set_cm (Coremap (Some fr') (Some (arr_set sz r np)) (Z.of_nat (length sz)) 1) s.

Lemma getfreeppages_run s fr sz np :
  ready s -> cm_wf (k_cm s) fr sz -> 1 <= np < 2 ^ 31 ->
  let r := scan fr 0 false (-1) np in
  (r = -1 /\ getfreeppages np s = Ret (0, s)) \/
  (0 <= r /\ exists fr', arr_fill fr r (Z.to_nat np) 0 = Some fr' /\
     getfreeppages np s = Ret (r * PAGE_SIZE, taken fr' sz r np s)).
Proof.
  intros (Hq & Hf & Hst) (Hcm & Hlen & Hmax) Hnp r.
  pose proof (scan_first_fit fr np ltac:(lia)) as Hff. fold r in Hff.
  assert (s32 np = np) as Hs by (apply s32_id; lia).
  unfold getfreeppages. rewrite Hs, bind_isTableActive by done.
  rewrite Hcm. cbn [allocTableActive Z.eqb]. enter. mrun.
  replace (k_cm (hold freemem_lock s)) with (k_cm s) by done. rewrite Hcm.
  erewrite bind_valid by done.
  cbn [nRamFrames freeRamFrames]. rewrite Nat2Z.id, take_ge by done. fold r.
  destruct Hff as [[Hr Hno]|(Hr & Hrun & _)].
  - left. split; [done|]. rewrite Hr. cbn [Z.leb Z.compare]. mrun. leave.
    by rewrite set_sync_hold.
  - right. split; [done|]. pose proof (is_run_bound _ _ _ Hrun ltac:(lia)).
    destruct (arr_fill_spec fr r (Z.to_nat np) 0) as (fr' & Hfill & Hl' & _); [lia..|].
    exists fr'. split; [done|]. rewrite (proj2 (Z.leb_le _ _)) by done.
    rewrite bind_assoc. erewrite bind_valid by done. unfold upd_cm. mrun.
    cbn [allocSize]. erewrite bind_valid by done. mrun.
    destruct (proj2 (arr_get_is_Some sz r)) as [x Hx]; [lia|].
    rewrite (bind_valid _ _ _ _ _ Hx). mrun. leave.
    rewrite !u32_id by (plia).
    unfold mret, M_ret, taken, set_cm, set_sync, with_sizes, with_frames; simpl.
    by rewrite Hcm, Hlen.
Qed.

(** [getppages] falls back on [ram_stealmem] when no recycled run fits. *)
Definition stolen (sz : list Z) (np : Z) (s : kst) : kst :=
  let r := k_ram s in
  set_cm (Coremap (freeRamFrames (k_cm s))
            (Some (arr_set sz (firstpaddr r / PAGE_SIZE) np))
            (nRamFrames (k_cm s)) (allocTableActive (k_cm s)))
    (set_ram (Ram (firstfree r) (firstpaddr r + np * PAGE_SIZE) (lastpaddr r)) s).

(** The RAM bounds agree with the coremap. *)
Definition ram_wf (r : ram) (n : Z) : Prop :=
  0 < firstpaddr r <= lastpaddr r /\ firstpaddr r mod PAGE_SIZE = 0 /\
  lastpaddr r = n * PAGE_SIZE.

Lemma ram_stealmem_run s np n :
  ram_wf (k_ram s) n -> 1 <= np -> firstpaddr (k_ram s) + np * PAGE_SIZE < 2 ^ 32 ->
  let r := k_ram s in
  ram_stealmem np s =
    if lastpaddr r <? firstpaddr r + np * PAGE_SIZE then Ret (0, s)
    else Ret (firstpaddr r,
              set_ram (Ram (firstfree r) (firstpaddr r + np * PAGE_SIZE) (lastpaddr r)) s).
Proof.
  intros (Hr & _) Hnp Hw r. unfold ram_stealmem. mrun.
  rewrite (u32_id (np * PAGE_SIZE)), u32_id by (plia).
  fold r. by destruct (_ <? _).
Qed.

Lemma note_alloc_run s fr sz addr np :
  quiet s -> free freemem_lock s -> cm_wf (k_cm s) fr sz ->
  0 < addr < Z.of_nat (length fr) * PAGE_SIZE ->
  note_alloc addr np s =
    Ret (tt, set_cm (Coremap (Some fr) (Some (arr_set sz (addr / PAGE_SIZE) np))
                       (Z.of_nat (length fr)) 1) s).
Proof.
  intros Hq Hf (Hc & Hlen & Hmax) Ha. unfold note_alloc.
  rewrite (proj2 (Z.eqb_neq _ _)) by lia.
  rewrite bind_isTableActive, Hc by done. cbn [allocTableActive Z.eqb]. enter.
  replace (k_cm (hold freemem_lock s)) with (k_cm s) by done. rewrite Hc.
  erewrite bind_valid by done.
  destruct (proj2 (arr_get_is_Some sz (addr / PAGE_SIZE))) as [x Hx];
    [plia|].
  rewrite (bind_valid _ _ _ _ _ Hx). unfold upd_cm. mrun.
  rewrite (k_release_run _ _ (k_sync s)) by done.
  unfold set_cm, set_sync, with_sizes; simpl. by rewrite Hc.
Qed.

Lemma getppages_run s fr sz np :
  ready s -> cm_wf (k_cm s) fr sz -> ram_wf (k_ram s) (Z.of_nat (length fr)) ->
  (forall i x, arr_get fr i = Some x -> x <> 0 -> 0 < i) ->
  1 <= np -> firstpaddr (k_ram s) + np * PAGE_SIZE < 2 ^ 32 ->
  let r := scan fr 0 false (-1) np in
  (0 <= r /\ exists fr', arr_fill fr r (Z.to_nat np) 0 = Some fr' /\
     getppages np s = Ret (r * PAGE_SIZE, taken fr' sz r np s)) \/
  (r = -1 /\ firstpaddr (k_ram s) + np * PAGE_SIZE <= lastpaddr (k_ram s) /\
     getppages np s = Ret (firstpaddr (k_ram s), stolen sz np s)) \/
  (r = -1 /\ lastpaddr (k_ram s) < firstpaddr (k_ram s) + np * PAGE_SIZE /\
     getppages np s = Ret (0, s)).
Proof.
  intros Hrd Hcm Hram Hpos Hnp Hw r. pose proof Hrd as (Hq & Hf & Hst).
  pose proof Hcm as (Hc & Hlen & Hmax). pose proof Hram as (Hbnd & Hal & Hlast).
  pose proof (scan_first_fit fr np Hnp) as Hff. fold r in Hff.
  destruct (getfreeppages_run s fr sz np Hrd Hcm) as [[Hr Hrun]|(Hr & fr' & Hfill & Hrun)];
    [plia| |]; fold r in Hr, Hrun |- *; try fold r in Hfill.
  - right. unfold getppages. mcall Hrun. cbn [Z.eqb]. enter.
    pose proof (ram_stealmem_run (hold stealmem_lock s) np _ Hram Hnp Hw) as Hsm.
    cbv zeta in Hsm. cbn [k_ram hold set_sync] in Hsm.
    destruct (Z.ltb_spec (lastpaddr (k_ram s)) (firstpaddr (k_ram s) + np * PAGE_SIZE)) as [Hlt|Hge].
    + right. split_and!; [done..|]. mcall Hsm. leave. by rewrite set_sync_hold.
    + left. split_and!; [done..|]. mcall Hsm. leave.
      erewrite bind_run; [|eapply (note_alloc_run _ fr sz); try done; plia].
      unfold mret, M_ret, stolen, set_cm, set_ram, set_sync; simpl. by rewrite Hc.
  - left. split; [done|]. exists fr'. split; [done|]. unfold getppages. mcall Hrun.
    destruct Hff as [[? _]|(_ & Hisr & _)]; [lia|].
    pose proof (is_run_bound _ _ _ Hisr ltac:(lia)).
    destruct (Hisr r) as (x & Hx & Hxnz); [lia|]. pose proof (Hpos _ _ Hx Hxnz).
    rewrite (proj2 (Z.eqb_neq _ _)) by (plia). mrun.
    destruct (arr_fill_spec fr r (Z.to_nat np) 0) as (fr2 & Hfill2 & Hl2 & _); [lia..|].
    rewrite Hfill in Hfill2. injection Hfill2 as <-.
    erewrite bind_run; [|eapply (note_alloc_run _ fr' (arr_set sz r np)); try done].
    + unfold mret, M_ret, taken, set_cm; simpl. rewrite Z.div_mul by done.
      unfold arr_set. rewrite list_insert_insert_eq. by rewrite Hl2, Hlen.
    + split_and!; rewrite ?arr_set_length; [|lia..]. simpl. by rewrite Hl2, Hlen.
    + rewrite Hl2. unfold PAGE_SIZE. lia.
Qed.

Lemma freeppages_run s fr sz addr np :
  ready s -> cm_wf (k_cm s) fr sz -> 0 <= addr -> arr_get sz (addr / PAGE_SIZE) = Some np ->
  0 <= np -> addr / PAGE_SIZE + np <= Z.of_nat (length fr) ->
  exists fr', arr_fill fr (addr / PAGE_SIZE) (Z.to_nat np) 1 = Some fr' /\
    freeppages addr s =
      Ret (1, set_cm (Coremap (Some fr') (Some sz) (Z.of_nat (length fr)) 1) s).
Proof.
  intros Hrd (Hc & Hlen & Hmax) Ha Hsz Hnp Hbd. pose proof Hrd as (Hq & Hf & Hst).
  assert (0 <= addr / PAGE_SIZE) by (plia).
  destruct (arr_fill_spec fr (addr / PAGE_SIZE) (Z.to_nat np) 1) as (fr' & Hfill & Hl' & _); [lia..|].
  exists fr'. split; [done|]. unfold freeppages. rewrite bind_isTableActive, Hc by done.
  cbn [allocTableActive Z.eqb]. mrun. rewrite Hc. cbn [allocSize nRamFrames freeRamFrames].
  assert (is_Some (arr_get sz (addr / PAGE_SIZE))) as Hlt by eauto.
  apply arr_get_is_Some in Hlt.
  rewrite bind_kassert by (apply bool_decide_eq_true; eauto).
  rewrite bind_kassert by (apply Z.ltb_lt; lia).
  erewrite bind_valid by done. rewrite (bind_valid _ _ _ _ _ Hsz). enter.
  erewrite bind_valid by done. rewrite s32_id by lia.
  rewrite (bind_valid _ _ _ _ _ Hfill). unfold upd_cm. mrun. leave.
  unfold mret, M_ret, set_cm, set_sync, with_frames; simpl. by rewrite Hc.
Qed.

(** ** The allocator as a set of live blocks

    [A] maps the first frame of every block handed out and not yet freed to its
    number of frames. *)

Definition apart (A : gmap Z Z) (st n : Z) : Prop :=
  forall st' n', A !! st' = Some n' -> st + n <= st' \/ st' + n' <= st.

Definition rep (base : Z) (s : kst) (A : gmap Z Z) : Prop :=
  exists fr sz,
    cm_wf (k_cm s) fr sz /\ ram_wf (k_ram s) (Z.of_nat (length fr)) /\
    0 < base <= firstpaddr (k_ram s) / PAGE_SIZE /\
    (forall i x, arr_get fr i = Some x -> x <> 0 ->
       base <= i < firstpaddr (k_ram s) / PAGE_SIZE) /\
    (forall st n, A !! st = Some n ->
       1 <= n /\ base <= st /\ st + n <= firstpaddr (k_ram s) / PAGE_SIZE /\
       arr_get sz st = Some n /\ forall j, st <= j < st + n -> arr_get fr j = Some 0) /\
    (forall st n, A !! st = Some n -> apart (delete st A) st n).

Lemma apart_busy base s A fr st n :
  (forall st n, A !! st = Some n ->
     1 <= n /\ base <= st /\ st + n <= firstpaddr (k_ram s) / PAGE_SIZE /\
     forall j, st <= j < st + n -> arr_get fr j = Some 0) ->
  1 <= n -> is_run fr st n -> apart A st n.
Proof.
  intros HA Hn Hr st' n' Hst'. destruct (HA _ _ Hst') as (Hn' & _ & _ & Hz).
  destruct (decide (st + n <= st')); [by left|].
  destruct (decide (st' + n' <= st)); [by right|].
  destruct (Hr (Z.max st st')) as (x & Hx & Hnz); [lia|].
  rewrite Hz in Hx by lia. by simplify_eq.
Qed.

Lemma apart_insert (A : gmap Z Z) st n st0 n0 :
  (forall st n, A !! st = Some n -> apart (delete st A) st n) ->
  A !! st0 = None -> apart A st0 n0 -> <[st0 := n0]> A !! st = Some n ->
  apart (delete st (<[st0 := n0]> A)) st n.
Proof.
  intros HA H0 Hap Hst st' n'. destruct (decide (st = st0)) as [->|Hne].
  - rewrite lookup_insert_eq in Hst. simplify_eq. rewrite delete_insert_id by done. apply Hap.
  - rewrite lookup_insert_ne in Hst by done. rewrite lookup_delete_Some.
    intros [Hne' Hst']. destruct (decide (st' = st0)) as [->|].
    + rewrite lookup_insert_eq in Hst'. simplify_eq.
      destruct (Hap _ _ Hst); [by right|by left].
    + rewrite lookup_insert_ne in Hst' by done. apply (HA _ _ Hst).
      by apply lookup_delete_Some.
Qed.

Lemma apart_self_None (A : gmap Z Z) st n : 1 <= n ->
  (forall st n, A !! st = Some n -> 1 <= n) -> apart A st n -> A !! st = None.
Proof.
  intros Hn Hpos Hap. destruct (A !! st) as [m|] eqn:E; [|done].
  pose proof (Hpos _ _ E). destruct (Hap _ _ E); lia.
Qed.

Lemma rep_live_pos base s A st n : rep base s A -> A !! st = Some n -> 1 <= n.
Proof. intros (fr & sz & _ & _ & _ & _ & HA & _) Hst. by apply (HA _ _ Hst). Qed.

Lemma rep_taken base s A np fr sz fr' :
  let r := scan fr 0 false (-1) np in
  rep base s A -> cm_wf (k_cm s) fr sz -> 1 <= np -> 0 <= r ->
  arr_fill fr r (Z.to_nat np) 0 = Some fr' ->
  base <= r /\ r + np <= firstpaddr (k_ram s) / PAGE_SIZE /\ apart A r np /\
  rep base (taken fr' sz r np s) (<[r := np]> A).
Proof.
  intros r (fr0 & sz0 & Hcm0 & Hram & [Hb0 Hb1] & Hfree & HA & Hap) Hcm Hnp Hr Hfill.
  pose proof Hcm as (Hc & Hlen & Hmax). destruct Hcm0 as (Hc0 & _ & _).
  rewrite Hc in Hc0. simplify_eq.
  pose proof (scan_first_fit fr0 np Hnp) as [[? _]|(_ & Hrun & _)]; [lia|].
  fold r in Hrun. pose proof (is_run_bound _ _ _ Hrun ltac:(lia)) as Hbd.
  destruct (Hrun r ltac:(lia)) as (x1 & Hx1 & Hnz1).
  destruct (Hrun (r + np - 1) ltac:(lia)) as (x2 & Hx2 & Hnz2).
  pose proof (Hfree _ _ Hx1 Hnz1). pose proof (Hfree _ _ Hx2 Hnz2).
  assert (apart A r np) as Hapr.
  { eapply (apart_busy base s A fr0); [|done..]. intros st n Hst.
    destruct (HA _ _ Hst) as (?&?&?&?&?). done. }
  split_and!; [lia..|done|].
  destruct (arr_fill_spec fr0 r (Z.to_nat np) 0) as (fr2 & Hfill2 & Hl2 & Hget); [lia..|].
  rewrite Hfill in Hfill2. injection Hfill2 as <-.
  exists fr', (arr_set sz0 r np). rewrite Hl2. split_and!; try done.
  - split_and!; rewrite ?arr_set_length; [|lia..]. unfold taken; simpl. by rewrite Hl2, Hlen.
  - intros i x Hx Hnz. rewrite Hget in Hx.
    destruct ((r <=? i) && (i <? r + Z.of_nat (Z.to_nat np))) eqn:E; [by simplify_eq|].
    by apply (Hfree _ _ Hx).
  - intros st n. destruct (decide (st = r)) as [->|Hne].
    + rewrite lookup_insert_eq. intros [= <-]. split_and!; [done|lia|simpl; lia| |].
      * apply arr_get_set_eq. lia.
      * intros j Hj. rewrite Hget, (proj2 (Z.leb_le _ _)), (proj2 (Z.ltb_lt _ _)) by lia. done.
    + rewrite lookup_insert_ne by done. intros Hst.
      destruct (HA _ _ Hst) as (Hn & Hbs & Hbd' & Hsz & Hz). split_and!; [done..| |].
      * rewrite arr_get_set_ne by done. done.
      * intros j Hj. rewrite Hget. destruct (_ && _); [done|by apply Hz].
  - intros st n Hst. eapply apart_insert; try done.
    eapply apart_self_None; [done| |done]. intros ?? Hl. by apply (HA _ _ Hl).
Qed.

Lemma rep_stolen base s A np fr sz :
  rep base s A -> cm_wf (k_cm s) fr sz -> 1 <= np ->
  firstpaddr (k_ram s) + np * PAGE_SIZE <= lastpaddr (k_ram s) ->
  let st := firstpaddr (k_ram s) / PAGE_SIZE in
  apart A st np /\ rep base (stolen sz np s) (<[st := np]> A).
Proof.
  intros (fr0 & sz0 & Hcm0 & Hram & [Hb0 Hb1] & Hfree & HA & Hap) Hcm Hnp Hle st.
  pose proof Hcm as (Hc & Hlen & Hmax). destruct Hcm0 as (Hc0 & _ & _).
  rewrite Hc in Hc0. simplify_eq. pose proof Hram as (Hbnd & Hal & Hlast).
  assert (apart A st np) as Hapr.
  { intros st' n' Hst'. destruct (HA _ _ Hst') as (?&?&?&?&?). right. unfold st. done. }
  assert ((firstpaddr (k_ram s) + np * PAGE_SIZE) / PAGE_SIZE = st + np) as Hdiv
    by (unfold st, PAGE_SIZE; lia).
  assert (st + np <= Z.of_nat (length fr0)) as Hstn by (unfold st, PAGE_SIZE in *; lia).
  assert (forall j, st <= j < Z.of_nat (length fr0) -> arr_get fr0 j = Some 0) as Hzero.
  { intros j Hj. destruct (proj2 (arr_get_is_Some fr0 j)) as [x Hx]; [lia|].
    destruct (decide (x = 0)) as [->|Hnz]; [done|]. pose proof (Hfree _ _ Hx Hnz). lia. }
  split; [done|]. exists fr0, (arr_set sz0 st np).
  unfold stolen; simpl. rewrite Hc, Hdiv; simpl. split_and!; try done.
  - split_and!; rewrite ?arr_set_length; done.
  - unfold ram_wf; simpl. unfold PAGE_SIZE in *. split_and!; lia.
  - fold st in Hb1. lia.
  - intros i x Hx Hnz. pose proof (Hfree _ _ Hx Hnz). fold st in H. lia.
  - intros st1 n. destruct (decide (st1 = st)) as [->|Hne].
    + rewrite lookup_insert_eq. intros [= <-]. fold st in Hb1. split_and!; [lia..| |].
      * apply arr_get_set_eq. unfold st, PAGE_SIZE in *. lia.
      * intros j Hj. apply Hzero. fold st. lia.
    + rewrite lookup_insert_ne by done. intros Hst.
      destruct (HA _ _ Hst) as (Hn & Hbs & Hbd' & Hsz & Hz). fold st in Hbd'.
      split_and!; [lia|done|lia| |done].
      rewrite arr_get_set_ne by (done || unfold st, PAGE_SIZE in *; lia). done.
  - intros st1 n Hst. eapply apart_insert; try done.
    eapply apart_self_None; [done| |done]. intros ?? Hl. by apply (HA _ _ Hl).
Qed.

Lemma rep_freed base s A fr sz fr' st n :
  rep base s A -> cm_wf (k_cm s) fr sz -> A !! st = Some n ->
  arr_fill fr st (Z.to_nat n) 1 = Some fr' ->
  rep base (set_cm (Coremap (Some fr') (Some sz) (Z.of_nat (length fr)) 1) s) (delete st A).
Proof.
  intros (fr0 & sz0 & Hcm0 & Hram & [Hb0 Hb1] & Hfree & HA & Hap) Hcm Hst Hfill.
  pose proof Hcm as (Hc & Hlen & Hmax). destruct Hcm0 as (Hc0 & _ & _).
  rewrite Hc in Hc0. simplify_eq. pose proof Hram as (Hbnd & Hal & Hlast).
  destruct (HA _ _ Hst) as (Hn & Hbs & Hbd & Hsz & Hz).
  destruct (arr_fill_spec fr0 st (Z.to_nat n) 1) as (fr2 & Hfill2 & Hl2 & Hget);
    [lia|plia|].
  rewrite Hfill in Hfill2. injection Hfill2 as <-.
  exists fr', sz0. rewrite Hl2. split_and!; try done.
  - split_and!; [by rewrite Hl2|lia..].
  - simpl. intros i x Hx Hnz. rewrite Hget in Hx.
    destruct ((st <=? i) && (i <? st + Z.of_nat (Z.to_nat n))) eqn:E;
      [|by apply (Hfree _ _ Hx)].
    apply andb_prop in E as [?%Z.leb_le ?%Z.ltb_lt]. lia.
  - simpl. intros st1 n1 Hst1. pose proof (Hap _ _ Hst _ _ Hst1) as Hdis.
    apply lookup_delete_Some in Hst1 as [Hne Hst1].
    destruct (HA _ _ Hst1) as (Hn1 & Hbs1 & Hbd1 & Hsz1 & Hz1). split_and!; [done..|].
    intros j Hj. rewrite Hget.
    destruct (Z.leb_spec st j), (Z.ltb_spec j (st + Z.of_nat (Z.to_nat n))); simpl;
      try lia; by apply Hz1.
  - intros st1 n1 Hst1 st2 n2 Hst2.
    apply lookup_delete_Some in Hst1 as [? Hst1].
    apply lookup_delete_Some in Hst2 as [? Hst2].
    apply lookup_delete_Some in Hst2 as [? Hst2].
    apply (Hap _ _ Hst1). by apply lookup_delete_Some.
Qed.

(** ** Correctness of the frame allocator *)

Lemma rep_view base s A :
  rep base s A -> exists fr sz, cm_wf (k_cm s) fr sz /\
    ram_wf (k_ram s) (Z.of_nat (length fr)) /\
    forall i x, arr_get fr i = Some x -> x <> 0 -> 0 < i.
Proof.
  intros (fr & sz & Hcm & Hram & Hb & Hfree & _). exists fr, sz. split_and!; [done..|].
  intros i x Hx Hnz. pose proof (Hfree _ _ Hx Hnz). lia.
Qed.

Lemma getppages_rep base s A np :
  ready s -> rep base s A -> 1 <= np -> firstpaddr (k_ram s) + np * PAGE_SIZE < 2 ^ 32 ->
  exists fr addr s',
    freeRamFrames (k_cm s) = Some fr /\ getppages np s = Ret (addr, s') /\ ready s' /\
    ((addr = 0 /\ s' = s /\ (forall a, 0 <= a -> ~ is_run fr a np) /\
      lastpaddr (k_ram s) < firstpaddr (k_ram s) + np * PAGE_SIZE) \/
     (0 < addr /\ addr mod PAGE_SIZE = 0 /\
      addr + np * PAGE_SIZE <= lastpaddr (k_ram s) /\
      apart A (addr / PAGE_SIZE) np /\
      rep base s' (<[addr / PAGE_SIZE := np]> A))).
Proof.
  intros Hrd Hrep Hnp Hw. destruct (rep_view _ _ _ Hrep) as (fr & sz & Hcm & Hram & Hpos).
  pose proof Hram as (Hbnd & Hal & Hlast). pose proof Hcm as (Hc & _ & _).
  exists fr. rewrite Hc. pose proof (scan_first_fit fr np Hnp) as Hff.
  destruct (getppages_run s fr sz np Hrd Hcm Hram Hpos Hnp Hw)
    as [(Hr & fr' & Hfill & Hrun)|[(Hr & Hle & Hrun)|(Hr & Hlt & Hrun)]].
  - destruct (rep_taken base s A np fr sz fr' Hrep Hcm Hnp Hr Hfill) as (Hb & Hbd & Hap & Hrep').
    destruct Hrep as (_ & _ & _ & _ & Hbase & _).
    exists (scan fr 0 false (-1) np * PAGE_SIZE). eexists. split_and!; [done..|].
    right. rewrite Z.div_mul by done. unfold PAGE_SIZE in *. split_and!; [lia..|done|done].
  - destruct (rep_stolen base s A np fr sz Hrep Hcm Hnp Hle) as (Hap & Hrep').
    exists (firstpaddr (k_ram s)). eexists. split_and!; [done..|]. right.
    split_and!; [lia|done|lia|done|done].
  - exists 0, s. split_and!; [done..|]. left. split_and!; [done..| |done].
    destruct Hff as [[_ ?]|[? _]]; [done|lia].
Qed.

(** The allocator touches nothing but the coremap and the RAM bounds. *)
Lemma getppages_frame base s A np addr s' :
  ready s -> rep base s A -> 1 <= np -> firstpaddr (k_ram s) + np * PAGE_SIZE < 2 ^ 32 ->
  getppages np s = Ret (addr, s') ->
  s' = set_cm (k_cm s') (set_ram (k_ram s') s) /\ lastpaddr (k_ram s') = lastpaddr (k_ram s).
Proof.
  intros Hrd Hrep Hnp Hw Hrun. destruct (rep_view _ _ _ Hrep) as (fr & sz & Hcm & Hram & Hpos).
  destruct (getppages_run s fr sz np Hrd Hcm Hram Hpos Hnp Hw) as [(_ & fr2 & _ & Hr)|[(_ & _ & Hr)|(_ & _ & Hr)]];
    rewrite Hrun in Hr; apply Ret_inj in Hr as [_ ->]; by destruct s as [? [] ? ? ? ? ? ? ? ? ?].
Qed.

Lemma freeppages_frame base s A addr n s' :
  ready s -> rep base s A -> 0 <= addr -> A !! (addr / PAGE_SIZE) = Some n ->
  freeppages addr s = Ret (1, s') -> s' = set_cm (k_cm s') s.
Proof.
  intros Hrd (fr & sz & Hcm & Hram & Hb & Hfree & HA & Hap) Ha Hst Hrun.
  destruct (HA _ _ Hst) as (Hn & Hbs & Hbd & Hsz & Hz). pose proof Hram as (Hbnd & Hal & Hlast).
  destruct (freeppages_run s fr sz addr n Hrd Hcm Ha Hsz) as (fr' & _ & Hr); [lia|plia|].
  rewrite Hrun in Hr. by apply Ret_inj in Hr as [_ ->].
Qed.

Lemma freeppages_rep base s A addr n :
  ready s -> rep base s A -> 0 <= addr -> A !! (addr / PAGE_SIZE) = Some n ->
  exists s', freeppages addr s = Ret (1, s') /\ ready s' /\
    rep base s' (delete (addr / PAGE_SIZE) A).
Proof.
  intros Hrd Hrep Ha Hst. pose proof Hrep as (fr & sz & Hcm & Hram & Hb & Hfree & HA & Hap).
  destruct (HA _ _ Hst) as (Hn & Hbs & Hbd & Hsz & Hz). pose proof Hram as (Hbnd & Hal & Hlast).
  destruct (freeppages_run s fr sz addr n Hrd Hcm Ha Hsz) as (fr' & Hfill & Hrun);
    [lia|plia|].
  eexists. split_and!; [done..|]. by eapply rep_freed.
Qed.

(** ** Reachable states of the allocator *)

(** The states that [getppages] and [freeppages] of a live block can produce
    from the one the kernel boots into. *)
Inductive reach (s0 : kst) : kst -> gmap Z Z -> Prop :=
| reach_boot : reach s0 s0 ∅
| reach_alloc s A np addr s' :
    reach s0 s A -> 1 <= np -> np <= 2 ^ 17 ->
    getppages np s = Ret (addr, s') ->
    reach s0 s' (if addr =? 0 then A else <[addr / PAGE_SIZE := np]> A)
| reach_free s A addr n s' :
    reach s0 s A -> 0 <= addr -> A !! (addr / PAGE_SIZE) = Some n ->
    freeppages addr s = Ret (1, s') ->
    reach s0 s' (delete (addr / PAGE_SIZE) A).

Lemma rep_ram_bound base s A : rep base s A -> firstpaddr (k_ram s) <= 2 ^ 29.
Proof.
  intros (fr & sz & (_ & _ & Hmax) & (Hbnd & _ & Hlast) & _). unfold PAGE_SIZE in *. lia.
Qed.

Lemma reach_rep base s0 s A :
  ready s0 -> rep base s0 ∅ -> reach s0 s A -> ready s /\ rep base s A /\ lastpaddr (k_ram s) = lastpaddr (k_ram s0).
Proof.
  intros Hrd0 Hrep0. induction 1 as [|s A np addr s' _ (Hrd & Hrep & Hlast) Hnp Hmax Hrun
    |s A addr n s' _ (Hrd & Hrep & Hlast) Ha Hst Hrun]; [done| |].
  - assert (firstpaddr (k_ram s) + np * PAGE_SIZE < 2 ^ 32) as Hw.
    { pose proof (rep_ram_bound _ _ _ Hrep). unfold PAGE_SIZE. lia. }
    destruct (getppages_rep base s A np Hrd Hrep Hnp Hw) as (fr & addr' & s'' & _ & Hrun' & Hrd' & Hres).
    destruct (getppages_frame base s A np addr s' Hrd Hrep Hnp Hw Hrun) as [_ Hl].
    rewrite Hrun in Hrun'. simplify_eq. split; [done|]. split; [|congruence].
    destruct Hres as [(-> & -> & _)|(Hpos & _ & _ & _ & Hr)]; [done|].
    by rewrite (proj2 (Z.eqb_neq _ _)) by lia.
  - destruct (freeppages_rep base s A addr n Hrd Hrep Ha Hst) as (s'' & Hrun' & Hrd' & Hrep').
    pose proof (freeppages_frame base s A addr n s' Hrd Hrep Ha Hst Hrun) as Hs.
    rewrite Hrun in Hrun'. apply Ret_inj in Hrun' as [_ <-]. split_and!; [done|done|]. by rewrite Hs.
Qed.

Lemma coremap_bootstrap_rep base s :
  ready s -> firstpaddr (k_ram s) mod PAGE_SIZE = 0 -> lastpaddr (k_ram s) mod PAGE_SIZE = 0 ->
  PAGE_SIZE <= firstpaddr (k_ram s) <= lastpaddr (k_ram s) ->
  lastpaddr (k_ram s) <= RAM_LIMIT -> 0 < base <= firstpaddr (k_ram s) / PAGE_SIZE ->
  exists s', coremap_bootstrap true true s = Ret (tt, s') /\ ready s' /\ rep base s' ∅ /\ k_ram s' = k_ram s.
Proof.
  intros (Hq & Hf & Hst) Hal Hal' Hfp Hlp Hbase. unfold RAM_LIMIT in *.
  unfold coremap_bootstrap, ram_getsize, upd_cm. mrun. cbn [negb orb].
  set (n := Z.quot _ _).
  assert (n = lastpaddr (k_ram s) / PAGE_SIZE) as Hn.
  { unfold n. rewrite s32_id by plia. apply Z.quot_div_nonneg; plia. }
  mrun. enter. rewrite (k_release_run _ _ (k_sync s)) by done.
  eexists. split; [done|]. split; [done|]. split; [|done]. exists (replicate (Z.to_nat n) 0), (replicate (Z.to_nat n) 0).
  assert (0 <= n <= 2 ^ 17) by (plia).
  rewrite !length_replicate, Z2Nat.id by lia. split_and!; try done.
  - split_and!; simpl; rewrite ?length_replicate, ?Z2Nat.id by lia; [done|done|lia].
  - unfold ram_wf; simpl. unfold PAGE_SIZE in *. split_and!; lia.
  - simpl. lia.
  - simpl. lia.
  - intros i x Hx Hnz. apply arr_get_Some in Hx as [_ [-> _]%lookup_replicate]. done.
Qed.

Lemma is_run_filled fr fr' st n :
  arr_fill fr st (Z.to_nat n) 1 = Some fr' -> 0 <= st -> 0 <= n ->
  st + n <= Z.of_nat (length fr) -> is_run fr' st n.
Proof.
  intros Hfill Hst Hn Hbd j Hj.
  destruct (arr_fill_spec fr st (Z.to_nat n) 1) as (fr2 & Hfill2 & _ & Hget); [lia..|].
  rewrite Hfill in Hfill2. injection Hfill2 as <-. exists 1. split; [|done].
  rewrite Hget, (proj2 (Z.leb_le _ _)), (proj2 (Z.ltb_lt _ _)) by lia. done.
Qed.

(** C19 getppages_spec. On a consistent coremap, for a request of at least one page
    whose size does not wrap ([firstpaddr] plus the requested bytes is below 2^32;
    [ram_stealmem_wraps] shows what happens otherwise), [getppages] returns (it
    neither panics nor leaves its arrays); it fails, changing nothing, only when no run
    of [np] recycled frames exists and the untouched memory is too small; and
    otherwise it returns a page-aligned block inside RAM that overlaps no live
    block, which is live afterwards. *)
Theorem getppages_spec base s A np :
  ready s -> rep base s A -> 1 <= np -> firstpaddr (k_ram s) + np * PAGE_SIZE < 2 ^ 32 ->
  exists fr addr s',
    freeRamFrames (k_cm s) = Some fr /\ getppages np s = Ret (addr, s') /\ ready s' /\
    ((addr = 0 /\ s' = s /\ (forall a, 0 <= a -> ~ is_run fr a np) /\
      lastpaddr (k_ram s) < firstpaddr (k_ram s) + np * PAGE_SIZE) \/
     (0 < addr /\ addr mod PAGE_SIZE = 0 /\
      addr + np * PAGE_SIZE <= lastpaddr (k_ram s) /\
      apart A (addr / PAGE_SIZE) np /\
      rep base s' (<[addr / PAGE_SIZE := np]> A))).
Proof. apply getppages_rep. Qed.

(** freeppages_spec. [freeppages] of a live block returns 1 and the block is
    no longer live; the other blocks keep their frames. *)
Theorem freeppages_spec base s A addr n :
  ready s -> rep base s A -> 0 <= addr -> A !! (addr / PAGE_SIZE) = Some n ->
  exists s', freeppages addr s = Ret (1, s') /\ ready s' /\
    rep base s' (delete (addr / PAGE_SIZE) A).
Proof. apply freeppages_rep. Qed.

(** C1 allocator_reachable. From the state [coremap_bootstrap] leaves, under every
    sequence of allocations of at most 2^17 pages (all of RAM) and of frees of
    live blocks, every live block lies inside RAM and above the frames that the
    kernel occupied at boot (those below [firstpaddr]), and no two live blocks
    overlap. *)
Theorem allocator_reachable s0 s1 s A st n :
  ready s0 -> firstpaddr (k_ram s0) mod PAGE_SIZE = 0 -> lastpaddr (k_ram s0) mod PAGE_SIZE = 0 ->
  PAGE_SIZE <= firstpaddr (k_ram s0) <= lastpaddr (k_ram s0) ->
  lastpaddr (k_ram s0) <= RAM_LIMIT ->
  coremap_bootstrap true true s0 = Ret (tt, s1) ->
  reach s1 s A -> A !! st = Some n ->
  1 <= n /\ firstpaddr (k_ram s0) <= st * PAGE_SIZE /\ (st + n) * PAGE_SIZE <= lastpaddr (k_ram s0) /\
  forall st' n', A !! st' = Some n' -> st' <> st -> st + n <= st' \/ st' + n' <= st.
Proof.
  intros Hrd Hal Hal' Hfp Hlp Hboot Hreach Hst.
  destruct (coremap_bootstrap_rep (firstpaddr (k_ram s0) / PAGE_SIZE) s0 Hrd Hal Hal' Hfp Hlp) as (s1' & Hboot' & Hrd1 & Hrep1 & Hram);
    [plia|]. rewrite Hboot in Hboot'. injection Hboot' as <-.
  destruct (reach_rep _ _ _ _ Hrd1 Hrep1 Hreach) as (_ & (fr & sz & _ & (Hb & Ha & _) & _ & _ & HA & Hap) & Hlast).
  rewrite Hram in Hlast. destruct (HA _ _ Hst) as (Hn & Hbs & Hbd & _). split_and!; [done|plia|plia|].
  intros st' n' Hst' Hne. apply (Hap _ _ Hst). by apply lookup_delete_Some.
Qed.

(** freed_block_reusable. What [freeppages] gives back can be allocated
    again: a request for as many pages right after succeeds. *)
Theorem freed_block_reusable base s A addr n :
  ready s -> rep base s A -> 0 <= addr -> A !! (addr / PAGE_SIZE) = Some n ->
  exists s1 addr2 s2,
    freeppages addr s = Ret (1, s1) /\ getppages n s1 = Ret (addr2, s2) /\ addr2 <> 0.
Proof.
  intros Hrd Hrep Ha Hst. pose proof Hrep as (fr & sz & Hcm & Hram & Hb & Hfree & HA & Hap).
  destruct (HA _ _ Hst) as (Hn & Hbs & Hbd & Hsz & Hz). pose proof Hram as (Hbnd & Hal & Hlast).
  destruct (freeppages_run s fr sz addr n Hrd Hcm Ha Hsz) as (fr' & Hfill & Hrun); [lia|plia|].
  pose proof (rep_freed base s A fr sz fr' _ n Hrep Hcm Hst Hfill) as Hrep'.
  pose proof (is_run_filled _ _ _ _ Hfill ltac:(lia) ltac:(lia) ltac:(plia)) as Hir.
  set (s1 := set_cm _ s) in *.
  destruct (getppages_rep base s1 _ n Hrd Hrep' Hn) as (fr2 & addr2 & s2 & Hfr2 & Hrun2 & _ & Hres).
  { pose proof (rep_ram_bound _ _ _ Hrep). destruct Hcm as (_ & _ & ?). simpl. plia. }
  simpl in Hfr2. injection Hfr2 as <-. eexists _, addr2, s2. split_and!; [done..|].
  destruct Hres as [(_ & _ & Hno & _)|[? _]]; [|lia]. by destruct (Hno (addr / PAGE_SIZE)); [lia|].
Qed.

(** ram_stealmem_wraps. The byte count [npages * PAGE_SIZE] is computed in 32
    bits: a request for 2^20 pages (4 GB) has size 0, so [ram_stealmem]
    answers with an address without reserving anything. *)
Theorem ram_stealmem_wraps s :
  0 < firstpaddr (k_ram s) <= lastpaddr (k_ram s) -> lastpaddr (k_ram s) <= RAM_LIMIT ->
  exists s', ram_stealmem (2 ^ 20) s = Ret (firstpaddr (k_ram s), s') /\
    firstpaddr (k_ram s') = firstpaddr (k_ram s).
Proof.
  intros Hb Hl. unfold RAM_LIMIT in Hl. unfold ram_stealmem. mrun.
  change (u32 (2 ^ 20 * PAGE_SIZE)) with 0. rewrite Z.add_0_r, u32_id by lia.
  rewrite (proj2 (Z.ltb_ge _ _)) by lia. mrun. by eexists.
Qed.

(** *** Concrete runs *)

Definition sample_boot : kst :=
  match coremap_bootstrap true true sample with Ret (_, s) => s | _ => sample end.

Definition sample_one : kst :=
  match getppages 3 sample_boot with Ret (_, s) => s | _ => sample end.

Lemma sample_boot_ready : ready sample_boot.
Proof. by vm_compute. Qed.

Lemma sample_boot_rep : rep 1 sample_boot ∅.
Proof.
  destruct (coremap_bootstrap_rep 1 sample) as (s' & Hrun & _ & Hrep & _);
    [by vm_compute|done|done|by vm_compute|by vm_compute|by vm_compute|].
  unfold sample_boot. by rewrite Hrun.
Qed.

Lemma sample_one_run : getppages 3 sample_boot = Ret (4 * PAGE_SIZE, sample_one).
Proof. by vm_compute. Qed.

Lemma sample_one_ok : ready sample_one /\ rep 1 sample_one (<[4 := 3]> ∅).
Proof.
  destruct (getppages_rep 1 sample_boot ∅ 3 sample_boot_ready sample_boot_rep)
    as (fr & addr & s' & _ & Hrun & Hrd & Hres); [done|by vm_compute|].
  rewrite sample_one_run in Hrun. apply Ret_inj in Hrun as [<- <-]. split; [exact Hrd|].
  by destruct Hres as [(? & _)|(_ & _ & _ & _ & Hrep)].
Qed.

Definition sample_two : kst :=
  match getppages 2 sample_one with Ret (_, s) => s | _ => sample end.

Lemma sample_two_run : getppages 2 sample_one = Ret (7 * PAGE_SIZE, sample_two).
Proof. by vm_compute. Qed.

Lemma getppages_spec_witness :
  exists addr s', getppages 3 sample_boot = Ret (addr, s') /\ 0 < addr.
Proof.
  destruct (getppages_spec 1 sample_boot ∅ 3 sample_boot_ready sample_boot_rep)
    as (fr & addr & s' & _ & Hrun & _ & [(_ & _ & _ & Hlt)|(Hpos & _)]);
    [done|by vm_compute| |].
  - exfalso. by vm_compute in Hlt.
  - exists addr, s'. split; [exact Hrun|exact Hpos].
Defined.

Lemma freeppages_spec_witness :
  exists s', freeppages (4 * PAGE_SIZE) sample_one = Ret (1, s') /\ ready s' /\
    rep 1 s' (delete 4 (<[4 := 3]> ∅)).
Proof.
  exact (freeppages_spec 1 sample_one (<[4 := 3]> ∅) (4 * PAGE_SIZE) 3
           (proj1 sample_one_ok) (proj2 sample_one_ok) ltac:(done) ltac:(by vm_compute)).
Defined.

Lemma allocator_reachable_witness :
  1 <= 3 /\ firstpaddr (k_ram sample) <= 4 * PAGE_SIZE /\ (4 + 3) * PAGE_SIZE <= lastpaddr (k_ram sample) /\ (4 + 3 <= 7 \/ 7 + 2 <= 4).
Proof.
  assert (reach sample_boot sample_one (<[4 := 3]> ∅)) as H1.
  { exact (reach_alloc sample_boot sample_boot ∅ 3 _ _ (reach_boot _)
             ltac:(done) ltac:(done) sample_one_run). }
  assert (reach sample_boot sample_two (<[7 := 2]> (<[4 := 3]> ∅))) as H2.
  { exact (reach_alloc sample_boot sample_one _ 2 _ _ H1
             ltac:(done) ltac:(done) sample_two_run). }
  destruct (allocator_reachable sample sample_boot sample_two _ 4 3 ltac:(by vm_compute) eq_refl eq_refl
    ltac:(by vm_compute) ltac:(by vm_compute) ltac:(by vm_compute) H2 ltac:(by vm_compute)) as (Hn & Hlo & Hhi & Hap).
  split_and!; [exact Hn|exact Hlo|exact Hhi|exact (Hap 7 2 ltac:(by vm_compute) ltac:(done))].
Defined.

Lemma freed_block_reusable_witness :
  exists s1 addr2 s2, freeppages (4 * PAGE_SIZE) sample_one = Ret (1, s1) /\
    getppages 3 s1 = Ret (addr2, s2) /\ addr2 <> 0.
Proof.
  exact (freed_block_reusable 1 sample_one (<[4 := 3]> ∅) (4 * PAGE_SIZE) 3
           (proj1 sample_one_ok) (proj2 sample_one_ok) ltac:(done) ltac:(by vm_compute)).
Defined.

Lemma ram_stealmem_wraps_witness :
  exists s', ram_stealmem (2 ^ 20) sample = Ret (4 * PAGE_SIZE, s') /\
    firstpaddr (k_ram s') = 4 * PAGE_SIZE.
Proof. apply (ram_stealmem_wraps sample); by vm_compute. Defined.

End Cm.

(** ** The allocator meets the interface of its clients *)

Definition alloc_inv (s : kst) : Prop := Cm.ready s /\ exists A, Cm.rep 1 s A.

#[export] Instance getppages_allocator : FrameAllocator Cm.getppages alloc_inv.
Proof.
  split.
  - intros s [Hrd [A Hrep]].
    destruct (Cm.getppages_rep 1 s A 1 Hrd Hrep) as (fr & pa & s' & _ & Hrun & Hrd' & Hres);
      [done|pose proof (Cm.rep_ram_bound _ _ _ Hrep); plia|].
    pose proof (Cm.rep_view _ _ _ Hrep) as (fr' & sz & Hcm & Hram & Hpos).
    destruct (Cm.getppages_frame 1 s A 1 pa s' Hrd Hrep) as [Hs' Hl'];
      [done|pose proof (Cm.rep_ram_bound _ _ _ Hrep); plia|done|].
    exists pa, s'. destruct Hres as [(-> & -> & _)|(H0 & Hal & Hle & _ & Hrep')].
    + split_and!; [done|by split; eauto|done..|by left].
    + split_and!; [done|by split; eauto|done..|]. right. split_and!; [done..|lia|].
      destruct Hcm as (_ & _ & Hmax). destruct Hram as (_ & _ & ->). plia.
  - intros s s' Hc Hr Hq Hf Hst [Hrd [A Hrep]]. split; [by split_and!|]. exists A.
    unfold Cm.rep in *. by rewrite Hc, Hr.
  - intros s [Hrd _]. exact Hrd.
Qed.
