(* ===== verification/PageTable.v ===== *)
(** * The inverted page table: [pt.c]

    One entry per physical frame.  [Module Pt] gives the routines of
    [kern/vm/pt.c]; the theorems relate the [position_fifo] fields of a
    process's entries to a queue of frames, on which [page_table_add_entry],
    [page_table_reset_entry] and [page_table_replacement] are enqueue, delete
    and front. *)

From S2P Require Import Prelude Sync KState Coremap.

Module Pt.

(** [page_table->...]: the pointer is NULL until [page_table_init]. *)
Definition deref : K table := s ← get; valid (k_pt s) "page_table".

Definition put_entries (es : list entry) : K unit := modify (set_pt (Some (Table es))).

Definition with_position (n : Z) (e : entry) : entry :=
  Entry (e_vaddr e) (e_pid e) (e_status e) (e_permission_flag e) n.
Definition with_status (n : Z) (e : entry) : entry :=
  Entry (e_vaddr e) (e_pid e) n (e_permission_flag e) (e_position_fifo e).

(** The loop bodies, on the array. *)
Definition bump (es : list entry) : list entry :=
  (fun e => if negb (e_pid e =? -1) then with_position (s32 (e_position_fifo e + 1)) e else e)
    <$> es.

Definition last_position (pid : Z) (es : list entry) : Z :=
  fold_left (fun last e => if (pid =? e_pid e) && (last <? e_position_fifo e)
                           then e_position_fifo e else last) es (-1).

Definition close_gap (pid pos : Z) (es : list entry) : list entry :=
  (fun e => if (pid =? e_pid e) && (pos <? e_position_fifo e)
            then with_position (s32 (e_position_fifo e - 1)) e else e) <$> es.

(** The last index of an entry for [pid] and [vaddr], as the loop of
    [page_table_get_paddr_entry] leaves it in [last]. *)
Definition last_match (pid vaddr : Z) (es : list entry) : option nat :=
  fold_left (fun last ie => if (e_pid ie.2 =? pid) && (e_vaddr ie.2 =? vaddr)
                            then Some ie.1 else last) (imap pair es) None.

(** The first index whose entry is the oldest of [pid]. *)
Fixpoint first_oldest (pid : Z) (es : list entry) (i : nat) : option (nat * entry) :=
  match es with
  | [] => None
  | e :: es' => if (e_position_fifo e =? 0) && (e_pid e =? pid) then Some (i, e)
                else first_oldest pid es' (S i)
  end.

Definition lru_update_cnt : K unit :=
  s ← get;
  match k_pt s with
  | None => mret tt
  | Some _ =>
      k_acquire table_lock;;
      t ← deref;
      put_entries (bump (next_entry t));;
      k_release table_lock
  end.

(** [mem] is what the second [kmalloc] returns: NULL, or an array of
    [length] uninitialised entries. *)
Definition page_table_init (ok : bool) (mem : option (list entry)) : K unit :=
  size ← Ram.ram_getsize;
  let length := u32 (size / PAGE_SIZE) in
  if negb ok then panic "error to allocate page table"
  else match mem with
  | None => panic "error to allocate next entry in page table"
  | Some mem =>
      put_entries (take (Z.to_nat length) mem);;
      zoom k_sync set_sync (Spinlock.spinlock_init table_lock);;
      k_acquire table_lock;;
      t ← deref;
      put_entries ((fun e => Entry 0 (-1) 0 (e_permission_flag e) 0) <$> next_entry t);;
      k_release table_lock
  end.

Definition page_table_add_entry (pid vaddr paddr status : Z) : K unit :=
  t ← deref;
  let frame_index := u32 (Z.shiftr (s32 paddr) 12) in
  kassert (frame_index <? t_length t) "frame_index < page_table->length";;
  k_acquire table_lock;;
  t ← deref;
  let last_position_fifo := last_position pid (next_entry t) in
  e ← valid (arr_get (next_entry t) frame_index) "next_entry[frame_index]";
  put_entries (arr_set (next_entry t) frame_index
    (Entry vaddr pid status (e_permission_flag e) (s32 (last_position_fifo + 1))));;
  k_release table_lock.

(** [None] is the result 0; [Some (paddr, status)] the result 1 with the two
    values stored through the pointers. *)
Definition page_table_get_paddr_entry (pid vaddr : Z) : K (option (Z * Z)) :=
  _ ← deref;
  k_acquire table_lock;;
  t ← deref;
  let last := last_match pid vaddr (next_entry t) in
  k_release table_lock;;
  match last with
  | None => mret None
  | Some i =>
      t ← deref;
      e ← valid (next_entry t !! i) "next_entry[last]";
      mret (Some (u32 (Z.of_nat i * PAGE_SIZE), e_status e))
  end.

(** The index found, or -1, and the entry copied out. *)
Definition page_table_replacement (pid : Z) : K (Z * option entry) :=
  t ← deref;
  mret (match first_oldest pid (next_entry t) 0 with
        | Some (i, e) => (Z.of_nat i, Some e)
        | None => (-1, None)
        end).

Definition page_table_reset_entry (index : Z) : K unit :=
  t ← deref;
  e ← valid (arr_get (next_entry t) index) "next_entry[index]";
  let pid := e_pid e in
  let position_fifo := e_position_fifo e in
  k_acquire table_lock;;
  t ← deref;
  e ← valid (arr_get (next_entry t) index) "next_entry[index]";
  put_entries (close_gap pid position_fifo
    (arr_set (next_entry t) index (Entry 0 (-1) 0 (e_permission_flag e) 0)));;
  k_release table_lock.

Definition page_table_remove_on_pids (pid : Z) : K unit :=
  (if pid <? 0 then panic "error on pid: it is invalid" else mret tt);;
  t ← deref;
  k_acquire table_lock;;
  for_each (seq 0 (length (next_entry t))) (fun i =>
    t ← deref;
    e ← valid (next_entry t !! i) "next_entry[i]";
    if e_pid e =? pid then
      page_table_reset_entry (Z.of_nat i);;
      Cm.freeppages (u32 (Z.of_nat i * PAGE_SIZE));;
      mret tt
    else mret tt);;
  k_release table_lock.

Definition page_table_get_Status_on_Index (index : Z) : K Z :=
  t ← deref;
  e ← valid (arr_get (next_entry t) index) "next_entry[index]";
  mret (u8 (e_status e)).

(** [val] is an [unsigned char]. *)
Definition page_table_set_status_at_index (index val : Z) : K unit :=
  t ← deref;
  e ← valid (arr_get (next_entry t) index) "next_entry[index]";
  put_entries (arr_set (next_entry t) index (with_status (Z.lor (e_status e) (u8 val)) e)).

(** ** The queue a process's entries form *)

(** [q] lists the frames of [pid], oldest first: the entry of the [k]-th frame
    has position [k], and every entry of [pid] is in [q] at its position. *)
Definition fifo (pid : Z) (es : list entry) (q : list nat) : Prop :=
  (forall i e, es !! i = Some e -> e_pid e = pid ->
     0 <= e_position_fifo e /\ q !! Z.to_nat (e_position_fifo e) = Some i) /\
  (forall k i, q !! k = Some i ->
     exists e, es !! i = Some e /\ e_pid e = pid /\ e_position_fifo e = Z.of_nat k).

Lemma fifo_NoDup pid es q : fifo pid es q -> NoDup q.
Proof.
  intros [_ Hq]. apply NoDup_alt. intros k k' i Hk Hk'.
  destruct (Hq _ _ Hk) as (e & He & _ & Hp). destruct (Hq _ _ Hk') as (e' & He' & _ & Hp').
  simplify_eq. lia.
Qed.

Lemma fifo_length pid es q : fifo pid es q -> (length q <= length es)%nat.
Proof.
  intros Hf. rewrite <- (length_seq (length es) 0). apply submseteq_length, NoDup_submseteq.
  - by eapply fifo_NoDup.
  - intros i [k Hk]%list_elem_of_lookup. destruct Hf as [_ Hq].
    destruct (Hq _ _ Hk) as (e & He & _). apply elem_of_seq.
    apply lookup_lt_Some in He. lia.
Qed.

Lemma fifo_position pid es q i e :
  fifo pid es q -> es !! i = Some e -> e_pid e = pid ->
  0 <= e_position_fifo e < Z.of_nat (length q).
Proof.
  intros [He _] Hi Hp. destruct (He _ _ Hi Hp) as [H0 Hl%lookup_lt_Some]. lia.
Qed.

Definition max_step (pid : Z) (last : Z) (e : entry) : Z :=
  if (pid =? e_pid e) && (last <? e_position_fifo e) then e_position_fifo e else last.

Lemma fold_max_spec pid es acc :
  let r := fold_left (max_step pid) es acc in
  acc <= r /\ (forall e, e ∈ es -> e_pid e = pid -> e_position_fifo e <= r) /\
  (r = acc \/ exists e, e ∈ es /\ e_pid e = pid /\ e_position_fifo e = r).
Proof.
  revert acc. induction es as [|e es IH]; intros acc; cbn [fold_left].
  - split_and!; [lia| |by left]. intros e He. by apply not_elem_of_nil in He.
  - destruct (IH (max_step pid acc e)) as (H1 & H2 & H3).
    assert (acc <= max_step pid acc e /\ (e_pid e = pid -> e_position_fifo e <= max_step pid acc e) /\
            (max_step pid acc e = acc \/
             e_pid e = pid /\ e_position_fifo e = max_step pid acc e)) as (Ha & Hb & Hc).
    { unfold max_step. destruct (Z.eqb_spec pid (e_pid e)), (Z.ltb_spec acc (e_position_fifo e));
        simpl; split_and!; intros; try lia; auto; by subst. }
    split_and!; [lia| |].
    + intros e' [->|He']%elem_of_cons Hp; [specialize (Hb Hp); lia|by apply H2].
    + destruct H3 as [->|(e' & He' & Hp & Hr)].
      * destruct Hc as [->|[Hp Hr]]; [by left|]. right. exists e. rewrite elem_of_cons. auto.
      * right. exists e'. rewrite elem_of_cons. auto.
Qed.

Lemma last_position_fifo pid es q :
  fifo pid es q -> last_position pid es = Z.of_nat (length q) - 1.
Proof.
  intros Hf. destruct (fold_max_spec pid es (-1)) as (H1 & H2 & H3).
  change (fold_left (max_step pid) es (-1)) with (last_position pid es) in *.
  set (r := last_position pid es) in *. pose proof Hf as [_ Hq].
  assert (r < Z.of_nat (length q)) as Hlt.
  { destruct H3 as [->|(e & [i He]%list_elem_of_lookup & Hp & <-)]; [lia|].
    pose proof (fifo_position _ _ _ _ _ Hf He Hp). lia. }
  destruct (decide (length q = 0%nat)); [lia|].
  destruct (lookup_lt_is_Some_2 q (length q - 1)) as [i Hi]; [lia|].
  destruct (Hq _ _ Hi) as (e & He & Hp & Hpos).
  pose proof (H2 e ltac:(apply list_elem_of_lookup; eauto) Hp). lia.
Qed.

Lemma fifo_enqueue pid es q i e v st perm :
  fifo pid es q -> es !! i = Some e -> e_pid e <> pid ->
  fifo pid (<[i := Entry v pid st perm (Z.of_nat (length q))]> es) (q ++ [i]).
Proof.
  intros [He Hq] Hi Hne. pose proof (lookup_lt_Some _ _ _ Hi) as Hlt. split.
  - intros j e' Hj Hp. destruct (decide (i = j)) as [<-|Hij].
    + rewrite list_lookup_insert_eq in Hj by done. injection Hj as <-. simpl. split; [lia|].
      rewrite Nat2Z.id. by apply list_lookup_middle.
    + rewrite list_lookup_insert_ne in Hj by done. destruct (He _ _ Hj Hp) as [H0 Hk].
      split; [done|]. by apply lookup_app_l_Some.
  - intros k j [Hk|[Hk Hkj]]%lookup_app_Some.
    + destruct (Hq _ _ Hk) as (e' & Hj & Hp & Hpos). exists e'. split; [|done].
      rewrite list_lookup_insert_ne; [done|]. intros ->. by simplify_eq.
    + apply list_lookup_singleton_Some in Hkj as [Hk0 <-].
      eexists. split; [by apply list_lookup_insert_eq|]. simpl. split; [done|lia].
Qed.

Lemma fifo_insert_other pid es q i e e' :
  fifo pid es q -> es !! i = Some e -> e_pid e <> pid -> e_pid e' <> pid ->
  fifo pid (<[i := e']> es) q.
Proof.
  intros [He Hq] Hi Hne Hne'. pose proof (lookup_lt_Some _ _ _ Hi) as Hlt. split.
  - intros j d Hj Hp. destruct (decide (i = j)) as [<-|Hij].
    + rewrite list_lookup_insert_eq in Hj by done. by simplify_eq.
    + rewrite list_lookup_insert_ne in Hj by done. by apply He.
  - intros k j Hk. destruct (Hq _ _ Hk) as (d & Hj & Hp & Hpos). exists d. split; [|done].
    rewrite list_lookup_insert_ne; [done|]. intros ->. by simplify_eq.
Qed.

Definition gap_step (pid pos : Z) (e : entry) : entry :=
  if (pid =? e_pid e) && (pos <? e_position_fifo e)
  then with_position (s32 (e_position_fifo e - 1)) e else e.

Lemma gap_step_pid pid pos e : e_pid (gap_step pid pos e) = e_pid e.
Proof. unfold gap_step. by destruct (_ && _). Qed.

Lemma gap_step_position pid pos e :
  e_pid e = pid -> 0 <= e_position_fifo e < 2 ^ 31 ->
  e_position_fifo (gap_step pid pos e) =
    if pos <? e_position_fifo e then e_position_fifo e - 1 else e_position_fifo e.
Proof.
  intros <- He. unfold gap_step. rewrite Z.eqb_refl. simpl.
  destruct (_ <? _); [|done]. simpl. apply s32_id. lia.
Qed.

Lemma close_gap_lookup pid pos es i :
  close_gap pid pos es !! i = gap_step pid pos <$> es !! i.
Proof. apply list_lookup_fmap. Qed.

Lemma close_gap_other pid pid' pos es q :
  pid <> pid' -> fifo pid' es q -> fifo pid' (close_gap pid pos es) q.
Proof.
  intros Hne [He Hq]. assert (forall e, e_pid e = pid' -> gap_step pid pos e = e) as Hid.
  { intros e He'. unfold gap_step. by rewrite (proj2 (Z.eqb_neq _ _)) by congruence. }
  split.
  - intros i e. rewrite close_gap_lookup. intros (d & Hd & ->)%fmap_Some Hp.
    rewrite gap_step_pid in Hp. rewrite Hid by done. by apply He.
  - intros k i Hk. destruct (Hq _ _ Hk) as (e & Hi & Hp & Hpos). exists e.
    by rewrite close_gap_lookup, Hi; simpl; rewrite Hid.
Qed.

Lemma lookup_delete_middle {A} (q1 q2 : list A) (x y : A) (k : nat) :
  (q1 ++ q2) !! k = Some y <->
  (q1 ++ x :: q2) !! (if decide (k < length q1)%nat then k else S k) = Some y.
Proof.
  case_decide.
  - by rewrite !lookup_app_l by lia.
  - rewrite !lookup_app_r by lia. by replace (S k - length q1)%nat with (S (k - length q1)) by lia.
Qed.

Lemma fifo_delete pid es q1 q2 i perm :
  pid <> -1 -> Z.of_nat (length es) < 2 ^ 31 -> fifo pid es (q1 ++ i :: q2) ->
  fifo pid (close_gap pid (Z.of_nat (length q1)) (<[i := Entry 0 (-1) 0 perm 0]> es)) (q1 ++ q2).
Proof.
  intros Hpid Hmax Hf. pose proof Hf as [He Hq]. pose proof (fifo_length _ _ _ Hf) as Hlen.
  destruct (Hq (length q1) i) as (ei & Hi & Hpi & Hposi); [by apply list_lookup_middle|].
  pose proof (lookup_lt_Some _ _ _ Hi) as Hlt. split.
  - intros j e. rewrite close_gap_lookup. intros (d & Hd & ->)%fmap_Some Hp.
    rewrite gap_step_pid in Hp. destruct (decide (i = j)) as [<-|Hij].
    { rewrite list_lookup_insert_eq in Hd by done. injection Hd as <-. by simpl in Hp. }
    rewrite list_lookup_insert_ne in Hd by done.
    destruct (He _ _ Hd Hp) as [H0 Hk]. pose proof (fifo_position _ _ _ _ _ Hf Hd Hp).
    assert (e_position_fifo d <> Z.of_nat (length q1)).
    { intros Heq. rewrite Heq, Nat2Z.id, list_lookup_middle in Hk by done. by simplify_eq. }
    rewrite gap_step_position by (done || lia).
    destruct (Z.ltb_spec (Z.of_nat (length q1)) (e_position_fifo d)); (split; [lia|]);
      rewrite (lookup_delete_middle _ _ i); case_decide; try lia; [|done].
    by replace (S (Z.to_nat (e_position_fifo d - 1))) with (Z.to_nat (e_position_fifo d)) by lia.
  - intros k j Hk. rewrite (lookup_delete_middle _ _ i) in Hk.
    destruct (Hq _ _ Hk) as (e & Hj & Hp & Hpos).
    assert (i <> j). { intros <-. simplify_eq. case_decide; lia. }
    exists (gap_step pid (Z.of_nat (length q1)) e).
    rewrite close_gap_lookup, list_lookup_insert_ne, Hj, gap_step_pid by done.
    pose proof (fifo_position _ _ _ _ _ Hf Hj Hp). rewrite gap_step_position by (done || lia).
    split_and!; [done..|]. case_decide; destruct (Z.ltb_spec (Z.of_nat (length q1)) (e_position_fifo e)); lia.
Qed.

Lemma first_oldest_spec pid es i :
  match first_oldest pid es i with
  | Some (j, e) => (i <= j)%nat /\ es !! (j - i)%nat = Some e /\ e_pid e = pid /\ e_position_fifo e = 0
  | None => forall k e, es !! k = Some e -> e_pid e = pid -> e_position_fifo e <> 0
  end.
Proof.
  revert i. induction es as [|e es IH]; intros i; cbn [first_oldest]; [done|].
  destruct (Z.eqb_spec (e_position_fifo e) 0), (Z.eqb_spec (e_pid e) pid); cbn [andb].
  1: by rewrite Nat.sub_diag.
  all: specialize (IH (S i)); destruct (first_oldest pid es (S i)) as [[j d]|].
  1,3,5: destruct IH as (Hle & Hj & ?); split_and!; [lia| |tauto..];
    by replace (j - i)%nat with (S (j - S i)) by lia.
  all: intros [|k] d; simpl; [intros [= <-]; by auto|apply IH].
Qed.

Lemma fifo_front pid es q :
  fifo pid es q ->
  match first_oldest pid es 0 with
  | Some (i, e) => head q = Some i /\ es !! i = Some e
  | None => q = []
  end.
Proof.
  intros [He Hq]. pose proof (first_oldest_spec pid es 0) as Hfo.
  destruct (first_oldest pid es 0) as [[i e]|].
  - destruct Hfo as (_ & Hi & Hp & Hpos). rewrite Nat.sub_0_r in Hi. split; [|done].
    destruct (He _ _ Hi Hp) as [_ Hk]. rewrite Hpos in Hk. by destruct q.
  - destruct q as [|i q]; [done|]. destruct (Hq 0%nat i) as (e & Hi & Hp & Hpos); [done|].
    by destruct (Hfo _ _ Hi Hp).
Qed.

(** ** Runs of the routines *)

(** The table is initialised with entries [es] and its lock is free. *)
Definition ready (s : kst) (es : list entry) : Prop :=
  quiet s /\ free table_lock s /\ k_pt s = Some (Table es) /\ Z.of_nat (length es) <= 2 ^ 17.

Definition with_entries (es : list entry) (s : kst) : kst := set_pt (Some (Table es)) s.

Lemma bind_deref {A} (k : table -> K A) s es :
  k_pt s = Some (Table es) -> mbind k deref s = k (Table es) s.
Proof. intros Hs. unfold deref. mrun. by rewrite Hs. Qed.

Lemma ready_with_entries s es es' :
  ready s es -> length es' = length es -> ready (with_entries es' s) es'.
Proof. intros (Hq & Hf & Hpt & Hlen) Heq. split_and!; try done. lia. Qed.

Lemma ready_inside l s s' es :
  ready s es -> l <> table_lock -> k_sync s' = held l (k_sync s) -> k_pt s' = k_pt s ->
  ready s' es.
Proof.
  intros (Hq & Hf & Hpt & Hlen) Hl Hs Hp. unfold ready, quiet, free. rewrite Hs, Hp.
  split_and!; [by apply cpu_ok_held|by apply lock_free_held|done..].
Qed.

Lemma frame_index_eq paddr :
  0 <= paddr < 2 ^ 31 -> u32 (Z.shiftr (s32 paddr) 12) = paddr / PAGE_SIZE.
Proof.
  intros Hp. rewrite s32_id, Z.shiftr_div_pow2 by lia. apply u32_id.
  change (2 ^ 12) with 4096. unfold PAGE_SIZE. lia.
Qed.

Lemma add_entry_run s es pid vaddr paddr st i e :
  ready s es -> 0 <= paddr < 2 ^ 31 -> i = Z.to_nat (paddr / PAGE_SIZE) -> es !! i = Some e ->
  page_table_add_entry pid vaddr paddr st s =
    Ret (tt, with_entries (<[i := Entry vaddr pid st (e_permission_flag e)
                                    (s32 (last_position pid es + 1))]> es) s).
Proof.
  intros (Hq & Hf & Hpt & Hlen) Hp -> He. pose proof (lookup_lt_Some _ _ _ He) as Hlt.
  unfold page_table_add_entry. rewrite (bind_deref _ _ _ Hpt), frame_index_eq by done.
  rewrite bind_kassert by (apply Z.ltb_lt; unfold t_length; simpl; plia). enter.
  rewrite (bind_deref _ _ es) by done. cbn [next_entry].
  rewrite (bind_valid _ _ _ _ e) by (apply arr_get_Some; split; [plia|done]).
  unfold put_entries. mrun. by rewrite (k_release_run _ _ (k_sync s)).
Qed.

Lemma reset_entry_run s es (i : nat) e :
  ready s es -> es !! i = Some e ->
  page_table_reset_entry (Z.of_nat i) s =
    Ret (tt, with_entries (close_gap (e_pid e) (e_position_fifo e)
               (<[i := Entry 0 (-1) 0 (e_permission_flag e) 0]> es)) s).
Proof.
  intros (Hq & Hf & Hpt & Hlen) He. unfold page_table_reset_entry.
  rewrite (bind_deref _ _ _ Hpt), (bind_valid _ _ _ _ e) by (cbn; by rewrite arr_get_nat).
  enter. rewrite (bind_deref _ _ es), (bind_valid _ _ _ _ e) by (done || cbn; by rewrite arr_get_nat).
  unfold put_entries. mrun. rewrite (k_release_run _ _ (k_sync s)) by done.
  unfold arr_set. by rewrite Nat2Z.id.
Qed.

Lemma last_match_app pid vaddr es e :
  last_match pid vaddr (es ++ [e]) =
    if (e_pid e =? pid) && (e_vaddr e =? vaddr) then Some (length es) else last_match pid vaddr es.
Proof.
  unfold last_match. rewrite imap_app, fold_left_app. simpl. by rewrite Nat.add_0_r.
Qed.

Lemma last_match_spec pid vaddr es :
  match last_match pid vaddr es with
  | Some i => exists e, es !! i = Some e /\ e_pid e = pid /\ e_vaddr e = vaddr
  | None => forall i e, es !! i = Some e -> ~ (e_pid e = pid /\ e_vaddr e = vaddr)
  end.
Proof.
  induction es as [|e es IH] using rev_ind; [by intros i e|]. rewrite last_match_app.
  destruct (Z.eqb_spec (e_pid e) pid), (Z.eqb_spec (e_vaddr e) vaddr); cbn [andb].
  1: exists e; by rewrite list_lookup_middle.
  all: destruct (last_match pid vaddr es) as [i|];
    [destruct IH as (d & Hd & ?); exists d; split; [by apply lookup_app_l_Some|done]|].
  all: intros i d [Hd|[_ Hd]]%lookup_app_Some; [by apply (IH i)|];
    apply list_lookup_singleton_Some in Hd as [_ <-]; tauto.
Qed.

Lemma get_paddr_entry_run s es pid vaddr :
  ready s es ->
  page_table_get_paddr_entry pid vaddr s =
    Ret (match last_match pid vaddr es with
         | Some i => Some (Z.of_nat i * PAGE_SIZE, default 0 (e_status <$> es !! i))
         | None => None
         end, s).
Proof.
  intros (Hq & Hf & Hpt & Hlen). unfold page_table_get_paddr_entry.
  rewrite (bind_deref _ _ _ Hpt). enter. rewrite (bind_deref _ _ es) by done. leave.
  rewrite set_sync_hold. cbn [next_entry].
  pose proof (last_match_spec pid vaddr es) as Hl. destruct (last_match pid vaddr es) as [i|]; [|done].
  destruct Hl as (e & He & _). rewrite (bind_deref _ _ _ Hpt), (bind_valid _ _ _ _ e) by done.
  rewrite He. simpl. apply lookup_lt_Some in He. rewrite u32_id by plia. done.
Qed.

(** ** The page table as a family of queues *)

(** [Q pid] is the queue of every process; the pid -1 marks a free frame. *)
Definition rep (es : list entry) (Q : Z -> list nat) : Prop :=
  forall pid, pid <> -1 -> fifo pid es (Q pid).

Definition upd {A} (Q : Z -> A) (pid : Z) (q : A) : Z -> A :=
  fun p => if p =? pid then q else Q p.

Lemma rep_add es Q i e pid v st :
  rep es Q -> Z.of_nat (length es) <= 2 ^ 17 -> pid <> -1 ->
  es !! i = Some e -> e_pid e = -1 ->
  rep (<[i := Entry v pid st (e_permission_flag e) (s32 (last_position pid es + 1))]> es)
      (upd Q pid (Q pid ++ [i])).
Proof.
  intros Hrep Hlen Hpid Hi He p Hp. unfold upd. destruct (Z.eqb_spec p pid) as [->|Hne].
  - pose proof (fifo_length _ _ _ (Hrep pid Hpid)).
    rewrite (last_position_fifo _ _ _ (Hrep pid Hpid)), s32_id by lia.
    rewrite Z.sub_add. apply (fifo_enqueue _ _ _ _ e); [by apply Hrep|done|congruence].
  - apply (fifo_insert_other _ _ _ _ e); [by apply Hrep|done|congruence|by simpl].
Qed.

Lemma rep_reset es Q i e :
  rep es Q -> Z.of_nat (length es) <= 2 ^ 17 -> es !! i = Some e -> e_pid e <> -1 ->
  exists q1 q2, Q (e_pid e) = q1 ++ i :: q2 /\
    rep (close_gap (e_pid e) (e_position_fifo e)
           (<[i := Entry 0 (-1) 0 (e_permission_flag e) 0]> es))
        (upd Q (e_pid e) (q1 ++ q2)).
Proof.
  intros Hrep Hlen Hi He. destruct (Hrep _ He) as [He1 He2].
  destruct (He1 _ _ Hi eq_refl) as [H0 Hk].
  pose proof (list_elem_of_split_length _ _ _ Hk) as (q1 & q2 & Hq & Hl1). exists q1, q2.
  split; [done|]. intros p Hp. unfold upd. destruct (Z.eqb_spec p (e_pid e)) as [->|Hne].
  - assert (e_position_fifo e = Z.of_nat (length q1)) as -> by lia.
    apply fifo_delete; [done|lia|]. rewrite <- Hq. by apply Hrep.
  - apply close_gap_other; [done|].
    apply (fifo_insert_other _ _ _ _ e); [by apply Hrep|done|congruence|by simpl].
Qed.

Lemma replacement_run s es Q pid :
  ready s es -> rep es Q -> pid <> -1 ->
  page_table_replacement pid s =
    Ret (match Q pid with
         | i :: _ => (Z.of_nat i, es !! i)
         | [] => (-1, None)
         end, s).
Proof.
  intros (_ & _ & Hpt & _) Hrep Hpid. unfold page_table_replacement.
  rewrite (bind_deref _ _ _ Hpt). cbn [next_entry]. pose proof (fifo_front _ _ _ (Hrep _ Hpid)) as Hfr.
  destruct (first_oldest pid es 0) as [[i e]|]; [|by rewrite Hfr].
  destruct Hfr as [Hh He]. destruct (Q pid); simplify_eq/=. by rewrite He.
Qed.

Lemma last_match_insert_new pid vaddr es i e :
  last_match pid vaddr es = None -> (i < length es)%nat -> e_pid e = pid -> e_vaddr e = vaddr ->
  last_match pid vaddr (<[i := e]> es) = Some i.
Proof.
  intros Hn Hi Hp Hv. pose proof (last_match_spec pid vaddr es) as Hno. rewrite Hn in Hno.
  pose proof (last_match_spec pid vaddr (<[i := e]> es)) as Hs.
  destruct (last_match pid vaddr (<[i := e]> es)) as [j|].
  - destruct Hs as (d & Hd & Hpd & Hvd). destruct (decide (i = j)) as [->|Hne]; [done|].
    rewrite list_lookup_insert_ne in Hd by done. by destruct (Hno _ _ Hd).
  - by destruct (Hs i e); [apply list_lookup_insert_eq|].
Qed.

(** The victim selection of [swap_in] and [vm_fault]: pick, then reset. *)
Definition evict (pid : Z) : K Z :=
  r ← page_table_replacement pid;
  page_table_reset_entry r.1;;
  mret r.1.

Fixpoint evict_n (n : nat) (pid : Z) : K (list Z) :=
  match n with
  | O => mret []
  | S n' => i ← evict pid; l ← evict_n n' pid; mret (i :: l)
  end.

Lemma evict_run s es Q pid i q :
  ready s es -> rep es Q -> pid <> -1 -> Q pid = i :: q ->
  exists es', evict pid s = Ret (Z.of_nat i, with_entries es' s) /\
    ready (with_entries es' s) es' /\ rep es' (upd Q pid q).
Proof.
  intros Hrd Hrep Hpid HQ. pose proof Hrd as (_ & _ & _ & Hlen).
  pose proof (Hrep pid Hpid) as Hff. pose proof Hff as [_ Hq].
  destruct (Hq 0%nat i) as (e & He & Hp & Hpos); [by rewrite HQ|]. subst pid.
  destruct (rep_reset es Q i e Hrep Hlen He Hpid) as (q1 & q2 & Hsplit & Hrep').
  assert (q1 = [] /\ q2 = q) as [-> ->].
  { rewrite HQ in Hsplit. destruct q1 as [|j q1]; [by simplify_eq/=|]. exfalso. simplify_eq/=.
    pose proof (fifo_NoDup _ _ _ Hff) as Hnd. rewrite HQ in Hnd.
    apply NoDup_cons in Hnd as [Hni _]. set_solver. }
  eexists. unfold evict. rewrite (bind_run _ _ _ _ _ (replacement_run _ _ _ _ Hrd Hrep Hpid)), HQ.
  simpl. rewrite (bind_run _ _ _ _ _ (reset_entry_run _ _ _ _ Hrd He)).
  split_and!; [done| |done].
  apply (ready_with_entries _ es); [done|]. unfold close_gap. by rewrite length_fmap, length_insert.
Qed.

Lemma evict_n_run n s es Q pid :
  ready s es -> rep es Q -> pid <> -1 -> (n <= length (Q pid))%nat ->
  exists es', evict_n n pid s = Ret (Z.of_nat <$> take n (Q pid), with_entries es' s) /\
    rep es' (upd Q pid (drop n (Q pid))).
Proof.
  revert s es Q. induction n as [|n IH]; intros s es Q Hrd Hrep Hpid Hn.
  - exists es. split; [destruct Hrd as (_ & _ & Hpt & _); by destruct s; simpl in Hpt; subst|].
    intros p Hp. unfold upd. destruct (Z.eqb_spec p pid) as [->|]; by apply Hrep.
  - destruct (Q pid) as [|i q] eqn:HQ; [simpl in Hn; lia|].
    destruct (evict_run _ _ _ _ _ _ Hrd Hrep Hpid HQ) as (es1 & Hrun & Hrd1 & Hrep1).
    destruct (IH _ _ _ Hrd1 Hrep1 Hpid) as (es2 & Hrun2 & Hrep2).
    { unfold upd. rewrite Z.eqb_refl. simpl in Hn. lia. }
    exists es2. cbn [evict_n]. rewrite (bind_run _ _ _ _ _ Hrun), (bind_run _ _ _ _ _ Hrun2).
    unfold upd in Hrep2 |- *. rewrite Z.eqb_refl in *. split; [done|].
    intros p Hp. specialize (Hrep2 p Hp). cbv beta in Hrep2. by destruct (p =? pid).
Qed.

Lemma hold_ready_panics l s es i e :
  l = table_lock -> ready s es -> es !! i = Some e ->
  page_table_reset_entry (Z.of_nat i) (hold l s) = Panic "Deadlock on spinlock".
Proof.
  intros -> (Hq & Hf & Hpt & _) He. unfold page_table_reset_entry.
  rewrite (bind_deref _ _ es) by done.
  rewrite (bind_valid _ _ _ _ e) by (cbn; by rewrite arr_get_nat).
  by rewrite (bind_acquire_held _ _ _ (k_sync s)).
Qed.

(** ** Correctness of the page table *)

(** page_table_add_entry_spec. Recording a page of a process in a free frame
    returns, appends the frame to the process's queue, leaves the queues of the
    other processes alone, and makes a lookup of that page find the frame and
    the status. *)
Theorem page_table_add_entry_spec s es Q pid vaddr paddr st i e :
  ready s es -> rep es Q -> pid <> -1 ->
  0 <= paddr < 2 ^ 31 -> paddr mod PAGE_SIZE = 0 -> i = Z.to_nat (paddr / PAGE_SIZE) ->
  es !! i = Some e -> e_pid e = -1 ->
  page_table_get_paddr_entry pid vaddr s = Ret (None, s) ->
  exists s' es',
    page_table_add_entry pid vaddr paddr st s = Ret (tt, s') /\
    ready s' es' /\ rep es' (upd Q pid (Q pid ++ [i])) /\
    page_table_get_paddr_entry pid vaddr s' = Ret (Some (paddr, st), s').
Proof.
  intros Hrd Hrep Hpid Hp Hal -> He Hfree Hnone. pose proof Hrd as (_ & _ & _ & Hlen).
  pose proof (lookup_lt_Some _ _ _ He) as Hlt.
  assert (last_match pid vaddr es = None) as Hno.
  { rewrite (get_paddr_entry_run _ _ _ _ Hrd) in Hnone.
    by destruct (last_match pid vaddr es); simplify_eq. }
  eexists _, _. rewrite (add_entry_run _ _ _ _ _ _ _ e Hrd Hp eq_refl He).
  split_and!; [done| |by apply rep_add|]; [|erewrite get_paddr_entry_run].
  1,3: apply (ready_with_entries _ es); [done|]; by rewrite length_insert.
  rewrite last_match_insert_new by done. rewrite list_lookup_insert_eq by done. simpl.
  repeat f_equal. plia.
Qed.

(** page_table_reset_entry_spec. Resetting the entry of an occupied frame
    returns, deletes the frame from its owner's queue keeping the order of the
    others, and leaves the other processes' queues alone. *)
Theorem page_table_reset_entry_spec s es Q (i : nat) e :
  ready s es -> rep es Q -> es !! i = Some e -> e_pid e <> -1 ->
  exists s' es' q1 q2,
    page_table_reset_entry (Z.of_nat i) s = Ret (tt, s') /\ ready s' es' /\
    Q (e_pid e) = q1 ++ i :: q2 /\ rep es' (upd Q (e_pid e) (q1 ++ q2)) /\
    e_pid <$> es' !! i = Some (-1).
Proof.
  intros Hrd Hrep He Hpid. pose proof Hrd as (_ & _ & _ & Hlen).
  destruct (rep_reset es Q i e Hrep Hlen He Hpid) as (q1 & q2 & Hq & Hrep').
  eexists _, _, q1, q2. rewrite (reset_entry_run _ _ _ _ Hrd He). split_and!; [done| |done..|].
  - apply (ready_with_entries _ es); [done|]. unfold close_gap. by rewrite length_fmap, length_insert.
  - rewrite close_gap_lookup, list_lookup_insert_eq by (by eapply lookup_lt_Some).
    simpl. by rewrite gap_step_pid.
Qed.

(** page_table_replacement_spec. The victim is the oldest page of the
    process, the front of its queue, and its entry is copied out; the answer is
    -1 exactly when the process has no page in memory. *)
Theorem page_table_replacement_spec s es Q pid :
  ready s es -> rep es Q -> pid <> -1 ->
  page_table_replacement pid s =
    Ret (match Q pid with
         | i :: _ => (Z.of_nat i, es !! i)
         | [] => (-1, None)
         end, s).
Proof. apply replacement_run. Qed.

(** ** Histories

    The states of the page table after [page_table_init] under additions to free
    frames and resets of occupied ones, with the frames each process was given, in
    the order of the calls of [page_table_add_entry].  A clock tick is not part of a
    history: [lru_update_cnt_disables_replacement]. *)
Inductive history : kst -> (Z -> list nat) -> Prop :=
| hist_init s0 mem s :
    quiet s0 -> Z.of_nat (length mem) <= 2 ^ 17 -> page_table_init true (Some mem) s0 = Ret (tt, s) ->
    history s (fun _ => [])
| hist_add s H pid vaddr paddr st s' :
    history s H -> pid <> -1 -> 0 <= paddr < 2 ^ 31 ->
    (forall p, p <> -1 -> Z.to_nat (paddr / PAGE_SIZE) ∉ H p) ->
    page_table_add_entry pid vaddr paddr st s = Ret (tt, s') ->
    history s' (upd H pid (H pid ++ [Z.to_nat (paddr / PAGE_SIZE)]))
| hist_reset s H pid q1 i q2 s' :
    history s H -> pid <> -1 -> H pid = q1 ++ i :: q2 -> page_table_reset_entry (Z.of_nat i) s = Ret (tt, s') ->
    history s' (upd H pid (q1 ++ q2)).

Lemma init_ready s0 mem s :
  quiet s0 -> Z.of_nat (length mem) <= 2 ^ 17 -> page_table_init true (Some mem) s0 = Ret (tt, s) ->
  exists es, ready s es /\ Forall (fun e => e_pid e = -1) es.
Proof.
  intros Hq Hlen. unfold page_table_init, Ram.ram_getsize, put_entries. mrun. cbn [negb].
  set (es := take _ mem). set (f := fun e : entry => _).
  set (y := set_lock table_lock (MkSpinlock 0 None) (k_sync s0)).
  mrun. rewrite (bind_run _ _ _ tt (set_sync y (set_pt (Some (Table es)) s0))) by done.
  assert (lock_free table_lock y) as Hf by (unfold lock_free, y; simpl; by rewrite lookup_insert_eq).
  rewrite bind_acquire by done. rewrite (bind_deref _ _ es) by done. mrun.
  rewrite (k_release_run _ _ y) by done. intros [= <-]. exists (f <$> es). split.
  - split_and!; [done..|]. unfold es. rewrite length_fmap, length_take. lia.
  - apply Forall_fmap, Forall_true. done.
Qed.

Lemma add_inside s es pid vaddr paddr st s' :
  ready s es -> 0 <= paddr < 2 ^ 31 -> page_table_add_entry pid vaddr paddr st s = Ret (tt, s') ->
  is_Some (es !! Z.to_nat (paddr / PAGE_SIZE)).
Proof.
  intros (_ & _ & Hpt & _) Hp. unfold page_table_add_entry. rewrite (bind_deref _ _ _ Hpt), frame_index_eq by done.
  intros (? & ? & Hk & _)%bind_Ret_inv. apply lookup_lt_is_Some.
  unfold kassert, t_length in Hk. simpl in Hk. destruct (Z.ltb_spec (paddr / PAGE_SIZE) (Z.of_nat (length es))); [plia|done].
Qed.

Lemma history_rep s H : history s H -> exists es, ready s es /\ rep es H.
Proof.
  induction 1 as [s0 mem s Hq Hlen Hrun|s H pid vaddr paddr st s' _ (es & Hrd & Hrep) Hpid Hp Hnew Hrun
    |s H pid q1 i q2 s' _ (es & Hrd & Hrep) Hpid HQ Hrun].
  - destruct (init_ready _ _ _ Hq Hlen Hrun) as (es & Hrd & Hall). exists es. split; [done|].
    intros pid Hpid. split; [|done]. intros i e Hi He. by rewrite (Forall_lookup_1 _ _ _ _ Hall Hi) in He.
  - destruct (add_inside _ _ _ _ _ _ _ Hrd Hp Hrun) as [e He].
    rewrite (add_entry_run _ _ _ _ _ _ _ e Hrd Hp eq_refl He) in Hrun. apply Ret_inj in Hrun as [_ <-].
    eexists. split; [apply (ready_with_entries _ es); [done|by rewrite length_insert]|].
    apply rep_add; [done|apply Hrd|done|done|]. destruct (decide (e_pid e = -1)) as [|Hne]; [done|].
    destruct (Hrep _ Hne) as [Hq _]. destruct (Hq _ _ He eq_refl) as [_ Hin]. destruct (Hnew _ Hne). by eapply list_elem_of_lookup_2.
  - destruct (Hrep _ Hpid) as [_ Hq]. destruct (Hq (length q1) i) as (e & He & Hpe & _); [by rewrite HQ, list_lookup_middle|].
    subst pid. destruct (rep_reset es H i e Hrep) as (q1' & q2' & Hq' & Hrep'); [apply Hrd|done|done|].
    rewrite (reset_entry_run _ _ _ _ Hrd He) in Hrun. apply Ret_inj in Hrun as [_ <-].
    assert (NoDup (q1 ++ i :: q2)) as Hnd by (rewrite <- HQ; eapply fifo_NoDup, (Hrep _ Hpid)).
    assert (q1' ++ q2' = q1 ++ q2) as <-.
    { rewrite HQ in Hq'. apply NoDup_app in Hnd as (_ & Hn1 & [Hn2 _]%NoDup_cons).
      apply app_eq_inv in Hq' as [(k & -> & Hk)|(k & -> & Hk)]; destruct k as [|x k]; simplify_eq/=; rewrite ?app_nil_r; try done.
      - exfalso. eapply Hn1; [|apply list_elem_of_here]. set_solver.
      - exfalso. apply Hn2. set_solver. }
    eexists. split; [|exact Hrep']. apply (ready_with_entries _ es); [done|]. unfold close_gap. by rewrite length_fmap, length_insert.
Qed.

(** C16 page_table_evicts_in_order. After any sequence of additions to free frames
    and of resets, starting from the table [page_table_init] leaves, evicting [n]
    times in a row, by choosing a victim and resetting its entry, yields the [n]
    frames of the process that were added first, in the order of the calls of
    [page_table_add_entry].  This is so as long as no clock tick comes in between:
    [hardclock] calls [lru_update_cnt], which moves every position
    ([lru_update_cnt_disables_replacement]). *)
Theorem page_table_evicts_in_order n s H pid :
  history s H -> pid <> -1 -> (n <= length (H pid))%nat ->
  exists s', evict_n n pid s = Ret (Z.of_nat <$> take n (H pid), s').
Proof.
  intros (es & Hrd & Hrep)%history_rep Hpid Hn. destruct (evict_n_run n s es H pid Hrd Hrep Hpid Hn) as (es' & Hrun & _). by eexists.
Qed.

(** page_table_remove_on_pids_panics. [page_table_remove_on_pids] calls
    [page_table_reset_entry] with [table_lock] held, which acquires it again:
    the call panics for every process that has a page in memory. *)
Theorem page_table_remove_on_pids_panics s es pid i e :
  ready s es -> 0 <= pid -> es !! i = Some e -> e_pid e = pid ->
  page_table_remove_on_pids pid s = Panic "Deadlock on spinlock".
Proof.
  intros Hrd Hpid Hi He. pose proof Hrd as (Hq & Hf & Hpt & _).
  unfold page_table_remove_on_pids. rewrite (proj2 (Z.ltb_ge _ _)) by done. mrun.
  rewrite (bind_deref _ _ _ Hpt). enter. apply bind_panic. cbn [next_entry].
  assert (i ∈ seq 0 (length es)) as Hin by (apply elem_of_seq; apply lookup_lt_Some in Hi; lia).
  assert (Forall (fun j => (j < length es)%nat) (seq 0 (length es))) as Hall
    by (apply Forall_forall; intros j ?%elem_of_seq; lia).
  induction (seq 0 (length es)) as [|j js IH]; [by apply not_elem_of_nil in Hin|].
  apply Forall_cons in Hall as [Hj Hall]. apply lookup_lt_is_Some in Hj as [d Hd].
  cbn [for_each]. rewrite bind_assoc, (bind_deref _ _ es), bind_assoc, (bind_valid _ _ _ _ d) by done.
  destruct (Z.eqb_spec (e_pid d) pid) as [_|Hne].
  - rewrite bind_assoc. apply bind_panic. by eapply hold_ready_panics.
  - mrun. apply IH; [|done]. apply elem_of_cons in Hin as [->|]; [|done]. by simplify_eq.
Qed.

(** lru_update_cnt_disables_replacement. After one call of [lru_update_cnt]
    (from [hardclock]) no page is at position 0 any more, so
    [page_table_replacement] finds no victim for any process. *)
Theorem lru_update_cnt_disables_replacement s es Q pid :
  ready s es -> rep es Q -> pid <> -1 ->
  exists s', lru_update_cnt s = Ret (tt, s') /\
    page_table_replacement pid s' = Ret ((-1, None), s').
Proof.
  intros (Hq & Hf & Hpt & Hlen) Hrep Hpid. unfold lru_update_cnt. mrun. rewrite Hpt. enter.
  rewrite (bind_deref _ _ es) by done. unfold put_entries. mrun.
  rewrite (k_release_run _ _ (k_sync s)) by done. eexists. split; [done|].
  unfold page_table_replacement. erewrite bind_deref by done. cbn [next_entry].
  pose proof (first_oldest_spec pid (bump es) 0) as Hfo.
  destruct (first_oldest pid (bump es) 0) as [[i e]|]; [|done]. exfalso.
  destruct Hfo as (_ & Hi & Hp & Hpos). rewrite Nat.sub_0_r in Hi. unfold bump in Hi.
  rewrite list_lookup_fmap in Hi. apply fmap_Some in Hi as (d & Hd & ->).
  destruct (Z.eqb_spec (e_pid d) (-1)) as [Heq|Hne]; cbn [negb] in *; [congruence|]. simpl in *.
  pose proof (fifo_position _ _ _ _ _ (Hrep pid Hpid) Hd Hp).
  pose proof (fifo_length _ _ _ (Hrep pid Hpid)). rewrite s32_id in Hpos by lia. lia.
Qed.

(** *** Concrete runs *)

(** Sixteen frames; process 7 has frames 9 and 5, in this order. *)
Definition empty_entry : entry := Entry 0 (-1) 0 READ_ONLY 0.
Definition sample_entries : list entry :=
  <[5%nat := Entry 0x401000 7 0 READ_ONLY 1]>
    (<[9%nat := Entry 0x400000 7 0 READ_ONLY 0]> (replicate 16 empty_entry)).
Definition sample_pt : kst := set_pt (Some (Table sample_entries)) sample.
Definition sample_Q : Z -> list nat := fun p => if p =? 7 then [9%nat; 5%nat] else [].

Lemma sample_pt_ready : ready sample_pt sample_entries.
Proof. by vm_compute. Qed.

Lemma sample_pt_rep : rep sample_entries sample_Q.
Proof.
  intros pid Hpid. assert (Forall (fun ie => e_pid ie.2 = -1 \/
    e_pid ie.2 = 7 /\ 0 <= e_position_fifo ie.2 /\
      sample_Q 7 !! Z.to_nat (e_position_fifo ie.2) = Some ie.1) (imap pair sample_entries)) as Hall.
  { apply (bool_decide_unpack _). by vm_compute. }
  split.
  - intros i e Hi Hp. rewrite Forall_forall in Hall.
    destruct (Hall (i, e)) as [|(H7 & H0 & Hk)]; cbn [fst snd] in *; [|congruence|].
    + apply list_elem_of_lookup. exists i. by rewrite list_lookup_imap, Hi.
    + assert (pid = 7) as -> by congruence. done.
  - intros k i. unfold sample_Q. destruct (Z.eqb_spec pid 7) as [->|]; [|by destruct k].
    destruct k as [|[|k]]; intros; simplify_eq/=; [|]; eexists; by split_and!.
Qed.

Lemma page_table_add_entry_spec_witness :
  exists s' es',
    page_table_add_entry 7 0x402000 (6 * PAGE_SIZE) 1 sample_pt = Ret (tt, s') /\
    ready s' es' /\ rep es' (upd sample_Q 7 (sample_Q 7 ++ [6%nat])) /\
    page_table_get_paddr_entry 7 0x402000 s' = Ret (Some (6 * PAGE_SIZE, 1), s').
Proof.
  apply (page_table_add_entry_spec sample_pt sample_entries sample_Q 7 0x402000 (6 * PAGE_SIZE) 1
           6 empty_entry sample_pt_ready sample_pt_rep); by vm_compute.
Defined.

Lemma page_table_reset_entry_spec_witness :
  exists s' es' q1 q2,
    page_table_reset_entry 9 sample_pt = Ret (tt, s') /\ ready s' es' /\
    sample_Q 7 = q1 ++ 9%nat :: q2 /\ rep es' (upd sample_Q 7 (q1 ++ q2)) /\
    e_pid <$> es' !! 9%nat = Some (-1).
Proof.
  exact (page_table_reset_entry_spec sample_pt sample_entries sample_Q 9
           (Entry 0x400000 7 0 READ_ONLY 0) sample_pt_ready sample_pt_rep eq_refl ltac:(done)).
Defined.

Lemma page_table_replacement_spec_witness :
  page_table_replacement 7 sample_pt = Ret ((9, sample_entries !! 9%nat), sample_pt).
Proof.
  exact (page_table_replacement_spec sample_pt sample_entries sample_Q 7
           sample_pt_ready sample_pt_rep ltac:(done)).
Defined.

(** A table of 16 frames to which frame 9 and then frame 5 are added for process 7. *)
Definition result {A} (c : K A) (s : kst) : kst := match c s with Ret (_, s') => s' | _ => s end.

Definition sample_init : kst := result (page_table_init true (Some (replicate 16 empty_entry))) sample.
Definition sample_added1 : kst := result (page_table_add_entry 7 0x400000 (9 * PAGE_SIZE) 0) sample_init.
Definition sample_added2 : kst := result (page_table_add_entry 7 0x401000 (5 * PAGE_SIZE) 0) sample_added1.

Lemma sample_init_run : page_table_init true (Some (replicate 16 empty_entry)) sample = Ret (tt, sample_init).
Proof. by vm_compute. Qed.

Lemma sample_added1_run : page_table_add_entry 7 0x400000 (9 * PAGE_SIZE) 0 sample_init = Ret (tt, sample_added1).
Proof. by vm_compute. Qed.

Lemma sample_added2_run : page_table_add_entry 7 0x401000 (5 * PAGE_SIZE) 0 sample_added1 = Ret (tt, sample_added2).
Proof. by vm_compute. Qed.

Lemma sample_history : exists H, history sample_added2 H /\ H 7 = [9%nat; 5%nat].
Proof.
  assert (history sample_init (fun _ => [])) as H0.
  { apply (hist_init sample (replicate 16 empty_entry)); [by vm_compute|by rewrite length_replicate|apply sample_init_run]. }
  eapply hist_add in H0; [|..|exact sample_added1_run]; [|done|done|set_solver].
  eapply hist_add in H0; [|..|exact sample_added2_run]; [|done|done|].
  - eexists. split; [exact H0|done].
  - intros p _. unfold upd. destruct (p =? 7); [|set_solver]. apply not_elem_of_cons. split; [done|set_solver].
Qed.

Lemma page_table_evicts_in_order_witness : exists s', evict_n 2 7 sample_added2 = Ret ([9; 5], s').
Proof.
  destruct sample_history as (H & Hh & H7).
  destruct (page_table_evicts_in_order 2 sample_added2 H 7 Hh ltac:(done) ltac:(rewrite H7; simpl; lia)) as (s' & Hrun).
  exists s'. rewrite Hrun, H7. reflexivity.
Defined.

Lemma page_table_remove_on_pids_panics_witness :
  page_table_remove_on_pids 7 sample_pt = Panic "Deadlock on spinlock".
Proof.
  exact (page_table_remove_on_pids_panics sample_pt sample_entries 7 9
           (Entry 0x400000 7 0 READ_ONLY 0) sample_pt_ready ltac:(done) eq_refl eq_refl).
Defined.

Lemma lru_update_cnt_disables_replacement_witness :
  exists s', lru_update_cnt sample_pt = Ret (tt, s') /\
    page_table_replacement 7 s' = Ret ((-1, None), s').
Proof.
  exact (lru_update_cnt_disables_replacement sample_pt sample_entries sample_Q 7
           sample_pt_ready sample_pt_rep ltac:(done)).
Defined.

End Pt.
