(* ===== verification/Stats.v ===== *)
(** * Counters of the virtual memory system: [vm_stats.c] *)

From S2P Require Import Prelude Sync KState.

Module VmStats.

(** The counters are C [int]s. *)
Definition inc (x : Z) : Z := s32 (x + 1).

Definition upd_stats (f : stats -> stats) : K unit :=
  modify (fun s => set_stats (f (k_stats s)) s).

Definition init_stats : K unit := upd_stats (fun _ => Stats 0 0 0 0 0 0 0 0 0 0 0).

Definition increment_tlb_faults : K unit := upd_stats (fun t =>
  Stats (inc (tlb_faults t)) (tlb_faults_free t) (tlb_faults_replace t) (tlb_invalidations t)
    (tlb_reloads t) (page_faults_zeroed t) (page_faults_disk t) (page_faults_elf t)
    (page_faults_swapin t) (page_faults_swapout t) (swapfile_writes t)).

Definition increment_tlb_faults_free : K unit := upd_stats (fun t =>
  Stats (tlb_faults t) (inc (tlb_faults_free t)) (tlb_faults_replace t) (tlb_invalidations t)
    (tlb_reloads t) (page_faults_zeroed t) (page_faults_disk t) (page_faults_elf t)
    (page_faults_swapin t) (page_faults_swapout t) (swapfile_writes t)).

Definition increment_tlb_faults_replace : K unit := upd_stats (fun t =>
  Stats (tlb_faults t) (tlb_faults_free t) (inc (tlb_faults_replace t)) (tlb_invalidations t)
    (tlb_reloads t) (page_faults_zeroed t) (page_faults_disk t) (page_faults_elf t)
    (page_faults_swapin t) (page_faults_swapout t) (swapfile_writes t)).

Definition increment_tlb_invalidations : K unit := upd_stats (fun t =>
  Stats (tlb_faults t) (tlb_faults_free t) (tlb_faults_replace t) (inc (tlb_invalidations t))
    (tlb_reloads t) (page_faults_zeroed t) (page_faults_disk t) (page_faults_elf t)
    (page_faults_swapin t) (page_faults_swapout t) (swapfile_writes t)).

Definition increment_tlb_reloads : K unit := upd_stats (fun t =>
  Stats (tlb_faults t) (tlb_faults_free t) (tlb_faults_replace t) (tlb_invalidations t)
    (inc (tlb_reloads t)) (page_faults_zeroed t) (page_faults_disk t) (page_faults_elf t)
    (page_faults_swapin t) (page_faults_swapout t) (swapfile_writes t)).

Definition increment_page_faults_zeroed : K unit := upd_stats (fun t =>
  Stats (tlb_faults t) (tlb_faults_free t) (tlb_faults_replace t) (tlb_invalidations t)
    (tlb_reloads t) (inc (page_faults_zeroed t)) (page_faults_disk t) (page_faults_elf t)
    (page_faults_swapin t) (page_faults_swapout t) (swapfile_writes t)).

Definition increment_page_faults_disk : K unit := upd_stats (fun t =>
  Stats (tlb_faults t) (tlb_faults_free t) (tlb_faults_replace t) (tlb_invalidations t)
    (tlb_reloads t) (page_faults_zeroed t) (inc (page_faults_disk t)) (page_faults_elf t)
    (page_faults_swapin t) (page_faults_swapout t) (swapfile_writes t)).

Definition increment_page_faults_elf : K unit := upd_stats (fun t =>
  Stats (tlb_faults t) (tlb_faults_free t) (tlb_faults_replace t) (tlb_invalidations t)
    (tlb_reloads t) (page_faults_zeroed t) (page_faults_disk t) (inc (page_faults_elf t))
    (page_faults_swapin t) (page_faults_swapout t) (swapfile_writes t)).

Definition increment_page_faults_swapin : K unit := upd_stats (fun t =>
  Stats (tlb_faults t) (tlb_faults_free t) (tlb_faults_replace t) (tlb_invalidations t)
    (tlb_reloads t) (page_faults_zeroed t) (page_faults_disk t) (page_faults_elf t)
    (inc (page_faults_swapin t)) (page_faults_swapout t) (swapfile_writes t)).

Definition increment_page_faults_swapout : K unit := upd_stats (fun t =>
  Stats (tlb_faults t) (tlb_faults_free t) (tlb_faults_replace t) (tlb_invalidations t)
    (tlb_reloads t) (page_faults_zeroed t) (page_faults_disk t) (page_faults_elf t)
    (page_faults_swapin t) (inc (page_faults_swapout t)) (swapfile_writes t)).

Definition increment_swapfile_writes : K unit := upd_stats (fun t =>
  Stats (tlb_faults t) (tlb_faults_free t) (tlb_faults_replace t) (tlb_invalidations t)
    (tlb_reloads t) (page_faults_zeroed t) (page_faults_disk t) (page_faults_elf t)
    (page_faults_swapin t) (page_faults_swapout t) (inc (swapfile_writes t))).

(** The warnings the routine prints after the counters themselves. *)
Definition print_all_statistics : K (list string) :=
  t ← gets k_stats;
  mret ((if negb (s32 (tlb_faults_free t + tlb_faults_replace t) =? tlb_faults t)
         then ["Warning: TLB FAULTS with Free + TLB Faults with Replace is NOT equal to TLB Faults"]
         else []) ++
        (if negb (s32 (s32 (tlb_reloads t + page_faults_disk t) + page_faults_zeroed t)
                  =? tlb_faults t)
         then ["Warning: TLB reloads + PF Disk + PF Zeroed is NOT equal to TLB Faults"]
         else []) ++
        (if negb (s32 (s32 (page_faults_elf t + page_faults_swapin t) + page_faults_swapout t)
                  =? page_faults_disk t)
         then ["Warning: PF from ELF + PF from Swapfile is NOT equal to PF Disk"]
         else [])).

End VmStats.
