(* ===== verification/Tlb.v ===== *)
(** * The software side of the TLB: [vm_tlb.c]

    [tlb_write] and [tlb_read] ([kern/arch/mips/vm/tlb-mips161.S]) write and
    read one slot of the processor's table; [tlb_probe] is the processor's
    search, a parameter of [read_entry].  The theorems describe the choice of
    slots (first free, then round robin), invalidation, and the two routines
    that misuse [slock]. *)

From S2P Require Import Prelude Sync KState Stats.

Module Vtlb.
Import VmStats.

Definition NUM_TLB : Z := 64.
Definition TLBHI_PID : Z := 0x00000fc0.
Definition TLBLO_DIRTY : Z := 0x00000400.
Definition TLBLO_VALID : Z := 0x00000200.
Definition TLBHI_INVALID (entryno : Z) : Z := u32 ((0x80000 + entryno) * 2 ^ 12).
Definition TLBLO_INVALID : Z := 0.

Definition upd_tlb (f : tlb_state -> tlb_state) : K unit :=
  modify (fun s => set_tlb (f (k_tlb s)) s).

(** [bitmap[index] = b] *)
Definition set_bitmap (index b : Z) : K unit :=
  t ← gets k_tlb;
  _ ← valid (arr_get (tlb_bitmap t) index) "bitmap[index]";
  upd_tlb (fun t => Tlb (arr_set (tlb_bitmap t) index b) (tlb_hw t) (next_victim t)).

Definition tlb_write (entryhi entrylo index : Z) : K unit :=
  t ← gets k_tlb;
  _ ← valid (arr_get (tlb_hw t) index) "TLB slot";
  upd_tlb (fun t => Tlb (tlb_bitmap t) (arr_set (tlb_hw t) index (entryhi, entrylo)) (next_victim t)).

(** The assembly stores through both pointers; [hi_ok] is whether the first one
    is not NULL. *)
Definition tlb_read (hi_ok : bool) (index : Z) : K (Z * Z) :=
  t ← gets k_tlb;
  e ← valid (arr_get (tlb_hw t) index) "TLB slot";
  (if hi_ok then mret tt else undef "store through NULL");;
  mret e.

Definition tlb_bootstrap : K unit :=
  for_each (seqZ 0 NUM_TLB) (fun index => set_bitmap index 0).

Definition tlb_get_rr_victim : K Z :=
  victim ← gets (fun s => next_victim (k_tlb s));
  upd_tlb (fun t => Tlb (tlb_bitmap t) (tlb_hw t) (u32 (victim + 1) mod NUM_TLB));;
  mret victim.

Definition write_entry (index vaddr_no_offset_with_pid paddr_with_flags : Z) : K unit :=
  set_bitmap index 1;;
  tlb_write vaddr_no_offset_with_pid paddr_with_flags index.

(** The first index below [NUM_TLB] whose byte is 0, or [NUM_TLB]. *)
Fixpoint first_zero (bitmap : list Z) (index : Z) : Z :=
  match bitmap with
  | [] => index
  | b :: bitmap' => if b =? 0 then index else first_zero bitmap' (index + 1)
  end.

(** The result is what the routine stores in [*index_tlb].  When [*index_tlb]
    is not -1 on entry the local [index] is never assigned. *)
Definition add_entry (index_tlb vaddr_no_offset_with_pid paddr_with_flags : Z) : K Z :=
  k_acquire tlb_slock;;
  index ←
    (if index_tlb =? -1 then
       t ← gets k_tlb;
       let index := first_zero (tlb_bitmap t) 0 in
       (if negb (index =? NUM_TLB) then increment_tlb_faults_free else mret tt);;
       if index =? NUM_TLB then
         increment_tlb_faults_replace;;
         tlb_get_rr_victim
       else mret index
     else
       increment_tlb_faults_free;;
       undef "index");
  write_entry index vaddr_no_offset_with_pid paddr_with_flags;;
  increment_tlb_faults;;
  k_release tlb_slock;;
  mret index.

(** [probe hw hi] is the slot [tlbp] finds, or a negative number.  The result is
    the return value and the value stored through [paddr]. *)
Definition read_entry (probe : list (Z * Z) -> Z -> Z) (vaddr : Z) : K (Z * option Z) :=
  k_acquire tlb_slock;;
  let vaddr_no_offset := Z.land vaddr PAGE_FRAME in
  let offset := Z.land vaddr (not32 PAGE_FRAME) in
  t ← gets k_tlb;
  let index := probe (tlb_hw t) vaddr_no_offset in
  if index <? 0 then mret (-1, None)
  else
    e ← tlb_read false index;
    k_release tlb_slock;;
    mret (0, Some (Z.lor e.2 offset)).

Definition reset_one_entry_by_index (index : Z) : K unit :=
  k_acquire tlb_slock;;
  set_bitmap index 0;;
  tlb_write (TLBHI_INVALID index) TLBLO_INVALID index;;
  k_release tlb_slock.

Definition reset_tlb : K unit :=
  k_acquire tlb_slock;;
  for_each (seqZ 0 NUM_TLB) (fun index =>
    set_bitmap index 0;;
    tlb_write (TLBHI_INVALID index) TLBLO_INVALID index);;
  increment_tlb_invalidations;;
  k_release tlb_slock.

(** The loop, with [every_entry_has_pid_different] as accumulator. *)
Fixpoint reset_different (indices : list Z) (current_pid : Z) (different : bool) : K bool :=
  match indices with
  | [] => mret different
  | index :: indices' =>
      e ← tlb_read true index;
      let tmp_pid_tlb := Z.shiftr (Z.land e.1 TLBHI_PID) 6 in
      if tmp_pid_tlb =? current_pid then reset_different indices' current_pid false
      else reset_one_entry_by_index index;; reset_different indices' current_pid different
  end.

Definition reset_tlb_pid_different (current_pid : Z) : K unit :=
  k_acquire tlb_slock;;
  different ← reset_different (seqZ 0 NUM_TLB) current_pid true;
  (if (different : bool) then increment_tlb_invalidations else mret tt);;
  k_release tlb_slock.

(** ** Slots *)

Definition tlb_wf (t : tlb_state) : Prop :=
  length (tlb_bitmap t) = 64%nat /\ length (tlb_hw t) = 64%nat /\ 0 <= next_victim t < NUM_TLB.

Definition ready (s : kst) : Prop := quiet s /\ free tlb_slock s /\ tlb_wf (k_tlb s).

(** The slot the next [add_entry] uses. *)
Definition next_slot (t : tlb_state) : Z :=
  let i := first_zero (tlb_bitmap t) 0 in if i =? NUM_TLB then next_victim t else i.

Definition added (hi lo : Z) (t : tlb_state) : tlb_state :=
  let i := next_slot t in
  Tlb (arr_set (tlb_bitmap t) i 1) (arr_set (tlb_hw t) i (hi, lo))
      (if first_zero (tlb_bitmap t) 0 =? NUM_TLB then (next_victim t + 1) mod NUM_TLB
       else next_victim t).

Lemma first_zero_spec l i :
  i <= first_zero l i <= i + Z.of_nat (length l) /\
  (forall j, (Z.of_nat j < first_zero l i - i) -> exists b, l !! j = Some b /\ b <> 0) /\
  (first_zero l i < i + Z.of_nat (length l) -> l !! Z.to_nat (first_zero l i - i) = Some 0).
Proof.
  revert i. induction l as [|b l IH]; intros i; cbn [first_zero length].
  - split_and!; [lia..|]. intros. lia.
  - destruct (Z.eqb_spec b 0) as [->|Hb].
    + rewrite Z.sub_diag. split_and!; [lia|lia|intros; lia|done].
    + destruct (IH (i + 1)) as (H1 & H2 & H3). split_and!; [lia|lia| |].
      * intros [|j] Hj; [by exists b|]. apply H2. lia.
      * intros Hlt. replace (Z.to_nat (first_zero l (i + 1) - i))
          with (S (Z.to_nat (first_zero l (i + 1) - (i + 1)))) by lia. apply H3. lia.
Qed.

Lemma next_slot_range t : tlb_wf t -> 0 <= next_slot t < NUM_TLB.
Proof.
  intros (Hb & _ & Hv). unfold next_slot. destruct (first_zero_spec (tlb_bitmap t) 0) as (H1 & _).
  rewrite Hb in H1. unfold NUM_TLB in *.
  destruct (Z.eqb_spec (first_zero (tlb_bitmap t) 0) 64); lia.
Qed.

Lemma added_wf hi lo t : tlb_wf t -> tlb_wf (added hi lo t).
Proof.
  intros Hwf. pose proof Hwf as (Hb & Hh & Hv). unfold added, tlb_wf; simpl.
  rewrite !arr_set_length. unfold NUM_TLB in *. destruct (_ =? _); split_and!; done || lia.
Qed.

Lemma set_bitmap_run s index b :
  0 <= index < Z.of_nat (length (tlb_bitmap (k_tlb s))) ->
  set_bitmap index b s =
    Ret (tt, set_tlb (Tlb (arr_set (tlb_bitmap (k_tlb s)) index b) (tlb_hw (k_tlb s))
                          (next_victim (k_tlb s))) s).
Proof.
  intros Hi. unfold set_bitmap. mrun. apply arr_get_is_Some in Hi as [x Hx].
  by rewrite (bind_valid _ _ _ _ _ Hx).
Qed.

Lemma tlb_write_run s hi lo index :
  0 <= index < Z.of_nat (length (tlb_hw (k_tlb s))) ->
  tlb_write hi lo index s =
    Ret (tt, set_tlb (Tlb (tlb_bitmap (k_tlb s)) (arr_set (tlb_hw (k_tlb s)) index (hi, lo))
                          (next_victim (k_tlb s))) s).
Proof.
  intros Hi. unfold tlb_write. mrun. apply arr_get_is_Some in Hi as [x Hx].
  by rewrite (bind_valid _ _ _ _ _ Hx).
Qed.

Definition counted (full : bool) (t : stats) : stats :=
  Stats (inc (tlb_faults t)) (if full then tlb_faults_free t else inc (tlb_faults_free t))
    (if full then inc (tlb_faults_replace t) else tlb_faults_replace t) (tlb_invalidations t)
    (tlb_reloads t) (page_faults_zeroed t) (page_faults_disk t) (page_faults_elf t)
    (page_faults_swapin t) (page_faults_swapout t) (swapfile_writes t).

Definition full (t : tlb_state) : bool := first_zero (tlb_bitmap t) 0 =? NUM_TLB.

Definition after_add (hi lo : Z) (s : kst) : kst :=
  set_stats (counted (full (k_tlb s)) (k_stats s)) (set_tlb (added hi lo (k_tlb s)) s).

Lemma write_entry_run s index hi lo :
  tlb_wf (k_tlb s) -> 0 <= index < NUM_TLB ->
  write_entry index hi lo s =
    Ret (tt, set_tlb (Tlb (arr_set (tlb_bitmap (k_tlb s)) index 1)
                          (arr_set (tlb_hw (k_tlb s)) index (hi, lo)) (next_victim (k_tlb s))) s).
Proof.
  intros (Hb & Hh & _) Hi. unfold NUM_TLB in Hi. unfold write_entry.
  rewrite (bind_run _ _ _ _ _ (set_bitmap_run s index 1 ltac:(lia))).
  by rewrite tlb_write_run by (simpl; lia).
Qed.

Lemma tlb_add_entry_run s hi lo :
  ready s -> add_entry (-1) hi lo s = Ret (next_slot (k_tlb s), after_add hi lo s).
Proof.
  intros (Hq & Hf & Hwf). pose proof (next_slot_range _ Hwf) as Hr. pose proof Hwf as (_ & _ & Hv).
  unfold add_entry. enter. cbn [Z.eqb Pos.eqb]. mrun.
  unfold after_add, full, added, next_slot in *.
  change (k_tlb (hold tlb_slock s)) with (k_tlb s).
  destruct (first_zero (tlb_bitmap (k_tlb s)) 0 =? NUM_TLB); cbn [negb];
    unfold increment_tlb_faults_replace, increment_tlb_faults_free, tlb_get_rr_victim,
      increment_tlb_faults, upd_stats, upd_tlb; mrun;
    (erewrite bind_run; [|apply write_entry_run; [|exact Hr]];
     [|split_and!; simpl; try apply Hwf; unfold NUM_TLB in *; lia]); mrun; leave.
  - cbn. unfold NUM_TLB in *. by rewrite u32_id by lia.
  - done.
Qed.

Lemma after_add_ready hi lo s : ready s -> ready (after_add hi lo s).
Proof. intros (Hq & Hf & Hwf). split_and!; [done..|]. by apply added_wf. Qed.

(** A sequence of faults, each adding its translation. *)
Fixpoint add_all (es : list (Z * Z)) : K (list Z) :=
  match es with
  | [] => mret []
  | e :: es' => i ← add_entry (-1) e.1 e.2; l ← add_all es'; mret (i :: l)
  end.

(** The TLB when [k] slots have been used since the last reset. *)
Definition filled (k v0 : Z) (t : tlb_state) : Prop :=
  (k <= NUM_TLB /\ tlb_bitmap t = replicate (Z.to_nat k) 1 ++ replicate (Z.to_nat (NUM_TLB - k)) 0 /\
   next_victim t = v0) \/
  (NUM_TLB < k /\ tlb_bitmap t = replicate 64 1 /\ next_victim t = (v0 + (k - NUM_TLB)) mod NUM_TLB).

Definition slot (k v0 : Z) : Z := if k <? NUM_TLB then k else (v0 + (k - NUM_TLB)) mod NUM_TLB.

Lemma first_zero_ones n l i :
  first_zero (replicate n 1 ++ l) i = first_zero l (i + Z.of_nat n).
Proof.
  revert i. induction n as [|n IH]; intros i; simpl; [by rewrite Z.add_0_r|].
  rewrite IH. f_equal. lia.
Qed.

Lemma arr_set_ones (n : nat) m i :
  i = Z.of_nat n -> (0 < m)%nat ->
  arr_set (replicate n 1 ++ replicate m 0) i 1 = replicate (S n) 1 ++ replicate (pred m) 0.
Proof.
  intros -> Hm. unfold arr_set. rewrite Nat2Z.id.
  rewrite <- (Nat.add_0_r n) at 1. rewrite <- (length_replicate n 1) at 1.
  rewrite insert_app_r. destruct m as [|m]; [lia|].
  change (replicate (S n) 1) with (1 :: replicate n 1).
  by rewrite replicate_cons_app, <- app_assoc.
Qed.

Lemma filled_step k v0 t hi lo :
  0 <= k -> 0 <= v0 < NUM_TLB -> filled k v0 t ->
  next_slot t = slot k v0 /\ filled (k + 1) v0 (added hi lo t).
Proof.
  intros Hk Hv Hfl. unfold filled, added, next_slot, slot, NUM_TLB in *.
  destruct (decide (k < 64)) as [Hlt|Hge].
  - destruct Hfl as [(_ & Hb & Hnv)|[? _]]; [|lia].
    assert (first_zero (tlb_bitmap t) 0 = k) as ->.
    { rewrite Hb, first_zero_ones. destruct (Z.to_nat (64 - k)) eqn:?; [lia|]. simpl. lia. }
    rewrite (proj2 (Z.eqb_neq _ _)), (proj2 (Z.ltb_lt _ _)) by lia. split; [done|].
    left. split_and!; [lia| |done]. simpl. rewrite Hb, arr_set_ones by lia.
    f_equal; f_equal; lia.
  - assert (tlb_bitmap t = replicate 64 1 /\ next_victim t = (v0 + (k - 64)) mod 64) as [Hb Hnv].
    { destruct Hfl as [(Hle & Hb & Hnv)|(_ & Hb & Hnv)]; [|done]. assert (k = 64) as -> by lia.
      split; [done|]. rewrite Hnv, Z.add_0_r, Z.mod_small by lia. done. }
    rewrite Hb. change (first_zero (replicate 64 1) 0) with 64. simpl (64 =? 64).
    rewrite (proj2 (Z.ltb_ge _ _)) by lia. split; [done|]. right. split_and!; [lia| |].
    + cbn [tlb_bitmap]. unfold arr_set. apply insert_replicate.
    + cbn [next_victim]. rewrite Hnv, Zplus_mod_idemp_l. f_equal. lia.
Qed.

Lemma add_all_run es s k v0 :
  ready s -> 0 <= k -> 0 <= v0 < NUM_TLB -> filled k v0 (k_tlb s) ->
  exists s', add_all es s =
    Ret ((fun i => slot (k + i) v0) <$> seqZ 0 (Z.of_nat (length es)), s').
Proof.
  intros Hrd Hk Hv Hfl. revert s k Hrd Hk Hfl. induction es as [|e es IH]; intros s k Hrd Hk Hfl.
  - by eexists.
  - destruct (filled_step k v0 _ e.1 e.2 Hk Hv Hfl) as [Hslot Hfl'].
    destruct (IH (after_add e.1 e.2 s) (k + 1)) as [s' Hrun]; [by apply after_add_ready|lia|done|].
    exists s'. cbn [add_all].
    rewrite (bind_run _ _ _ _ _ (tlb_add_entry_run s e.1 e.2 Hrd)), (bind_run _ _ _ _ _ Hrun), Hslot.
    cbn [length]. rewrite Nat2Z.inj_succ, (seqZ_cons 0 (Z.succ _)) by lia.
    rewrite Z.pred_succ. change (Z.succ 0) with (1 + 0). rewrite <- fmap_add_seqZ.
    rewrite fmap_cons, Z.add_0_r. unfold mret, M_ret. do 3 f_equal.
    rewrite <- list_fmap_compose. apply list_fmap_ext. intros ? x _. simpl. f_equal. lia.
Qed.

(** ** Invalidation *)

Definition invalid_slot (t : tlb_state) (i : Z) : Prop :=
  arr_get (tlb_bitmap t) i = Some 0 /\ arr_get (tlb_hw t) i = Some (TLBHI_INVALID i, TLBLO_INVALID).

Definition reset_slot (i : Z) (t : tlb_state) : tlb_state :=
  Tlb (arr_set (tlb_bitmap t) i 0) (arr_set (tlb_hw t) i (TLBHI_INVALID i, TLBLO_INVALID))
      (next_victim t).

Lemma reset_slots_run l s :
  tlb_wf (k_tlb s) -> Forall (fun i => 0 <= i < NUM_TLB) l ->
  exists t, for_each l (fun index =>
      set_bitmap index 0;; tlb_write (TLBHI_INVALID index) TLBLO_INVALID index) s =
    Ret (tt, set_tlb t s) /\ tlb_wf t /\
    (forall i, i ∈ l \/ invalid_slot (k_tlb s) i -> 0 <= i < NUM_TLB -> invalid_slot t i).
Proof.
  intros Hwf Hl. revert s Hwf. induction Hl as [|i l Hi Hl IH]; intros s Hwf.
  - exists (k_tlb s). split_and!; [by destruct s|done|].
    intros i [Hi|Hi] _; [by apply not_elem_of_nil in Hi|done].
  - pose proof Hwf as (Hb & Hh & Hv). unfold NUM_TLB in Hi. cbn [for_each]. rewrite bind_assoc.
    rewrite (bind_run _ _ _ _ _ (set_bitmap_run s i 0 ltac:(lia))).
    erewrite bind_run; [|apply tlb_write_run; simpl; lia].
    destruct (IH (set_tlb (reset_slot i (k_tlb s)) s)) as (t & Hrun & Hwf' & Hinv).
    { unfold reset_slot, tlb_wf; simpl. by rewrite !arr_set_length. }
    exists t. split_and!; [|done|].
    + etrans; [|etrans; [exact Hrun|]]; by destruct s.
    + intros j Hj Hr. apply Hinv; [|done]. destruct (decide (j = i)) as [->|Hne].
      * right. split; apply arr_get_set_eq; lia.
      * destruct Hj as [[->|Hj]%elem_of_cons|[H1 H2]]; [done|by left|]. right.
        split; simpl; rewrite arr_get_set_ne by lia; done.
Qed.

(** tlb_add_entry_spec. [add_entry] with [*index_tlb = -1] returns a slot of
    the TLB; the slot then holds the given words and every other slot is as it
    was; the slot is the lowest one marked free if there is one and the
    round-robin victim otherwise; [tlb_faults] and exactly one of
    [tlb_faults_free], [tlb_faults_replace] are incremented. *)
Theorem tlb_add_entry_spec s hi lo :
  ready s ->
  exists i s', add_entry (-1) hi lo s = Ret (i, s') /\ ready s' /\ 0 <= i < NUM_TLB /\
    arr_get (tlb_hw (k_tlb s')) i = Some (hi, lo) /\
    arr_get (tlb_bitmap (k_tlb s')) i = Some 1 /\
    (forall j, j <> i -> arr_get (tlb_hw (k_tlb s')) j = arr_get (tlb_hw (k_tlb s)) j) /\
    (forall j, arr_get (tlb_bitmap (k_tlb s)) j = Some 0 ->
       arr_get (tlb_bitmap (k_tlb s)) i = Some 0 /\ i <= j) /\
    (full (k_tlb s) = true -> i = next_victim (k_tlb s)) /\
    k_stats s' = counted (full (k_tlb s)) (k_stats s).
Proof.
  intros Hrd. pose proof Hrd as (_ & _ & Hwf). pose proof Hwf as (Hb & Hh & Hv).
  pose proof (next_slot_range _ Hwf) as Hr. exists (next_slot (k_tlb s)), (after_add hi lo s).
  unfold NUM_TLB in *. split_and!; [by apply tlb_add_entry_run|by apply after_add_ready|lia|lia|..].
  - apply arr_get_set_eq. lia.
  - apply arr_get_set_eq. lia.
  - intros j Hj. apply arr_get_set_ne; [lia|done].
  - intros j Hj. destruct (first_zero_spec (tlb_bitmap (k_tlb s)) 0) as (H1 & H2 & H3).
    apply arr_get_Some in Hj as [Hj0 Hj]. pose proof (lookup_lt_Some _ _ _ Hj).
    assert (first_zero (tlb_bitmap (k_tlb s)) 0 <= j) as Hle.
    { destruct (decide (first_zero (tlb_bitmap (k_tlb s)) 0 <= j)) as [|Hgt]; [done|].
      destruct (H2 (Z.to_nat j)) as (b & Hb' & Hnz); [lia|]. by simplify_eq. }
    unfold next_slot. unfold NUM_TLB. rewrite (proj2 (Z.eqb_neq _ _)) by lia.
    split; [|done]. apply arr_get_Some. split; [lia|].
    rewrite <- (Z.sub_0_r (first_zero _ _)). apply H3. lia.
  - unfold full, next_slot. by intros ->.
  - done.
Qed.

(** tlb_slots_round_robin. After an invalidation, the translations of a
    sequence of faults of any length go to slots 0, 1, ..., 63 and then round
    and round the table, starting from the round-robin pointer. *)
Theorem tlb_slots_round_robin es s s1 :
  ready s -> reset_tlb s = Ret (tt, s1) ->
  exists s2, add_all es s1 =
    Ret ((fun k => slot k (next_victim (k_tlb s1))) <$> seqZ 0 (Z.of_nat (length es)), s2).
Proof.
  intros (Hq & Hf & Hwf) Hrun. unfold reset_tlb in Hrun. revert Hrun. enter.
  destruct (reset_slots_run (seqZ 0 NUM_TLB) (hold tlb_slock s)) as (t & Hfor & Hwft & Hinv);
    [done|apply Forall_seqZ; intros; unfold NUM_TLB in *; lia|].
  rewrite (bind_run _ _ _ _ _ Hfor). unfold increment_tlb_invalidations, upd_stats. mrun.
  rewrite (k_release_run _ _ (k_sync s)) by done. intros [= <-].
  apply (add_all_run es _ 0); [by split_and!|lia|apply Hwft|]. left. split_and!; [done| |done].
  simpl. destruct Hwft as (Hlen & _). apply list_eq_same_length with 64%nat; [done..|].
  intros i x y Hi Hx Hy. destruct (Hinv (Z.of_nat i)) as [Hb _].
  - left. apply elem_of_seqZ. unfold NUM_TLB. lia.
  - unfold NUM_TLB. lia.
  - rewrite arr_get_nat in Hb. assert (x = 0) as -> by congruence.
    change (replicate 64 0 !! i = Some y) in Hy. by apply lookup_replicate in Hy as [-> _].
Qed.

(** reset_tlb_spec. [reset_tlb] returns; every slot is then free and holds
    the invalid entry of its own index, whose virtual page lies in the
    unmapped kernel segment, and no two slots hold the same entry. *)
Theorem reset_tlb_spec s :
  ready s ->
  exists s', reset_tlb s = Ret (tt, s') /\ ready s' /\
    (forall i, 0 <= i < NUM_TLB -> invalid_slot (k_tlb s') i /\
       MIPS_KSEG0 <= TLBHI_INVALID i < 2 ^ 32) /\
    (forall i j, 0 <= i < NUM_TLB -> 0 <= j < NUM_TLB ->
       TLBHI_INVALID i = TLBHI_INVALID j -> i = j) /\
    tlb_invalidations (k_stats s') = inc (tlb_invalidations (k_stats s)).
Proof.
  intros (Hq & Hf & Hwf). unfold reset_tlb. enter.
  destruct (reset_slots_run (seqZ 0 NUM_TLB) (hold tlb_slock s)) as (t & Hfor & Hwft & Hinv);
    [done|apply Forall_seqZ; intros; unfold NUM_TLB in *; lia|].
  rewrite (bind_run _ _ _ _ _ Hfor). unfold increment_tlb_invalidations, upd_stats. mrun.
  rewrite (k_release_run _ _ (k_sync s)) by done. eexists. split; [done|].
  assert (forall i, 0 <= i < NUM_TLB -> TLBHI_INVALID i = MIPS_KSEG0 + i * 4096) as Hhi.
  { intros i Hi. unfold NUM_TLB in Hi. unfold TLBHI_INVALID. rewrite u32_id by lia.
    unfold MIPS_KSEG0. lia. }
  split_and!; [done..| | |done].
  - intros i Hi. split; [|rewrite Hhi by done; unfold MIPS_KSEG0, NUM_TLB in *; lia].
    apply Hinv; [left; apply elem_of_seqZ; unfold NUM_TLB in *; lia|done].
  - intros i j Hi Hj. rewrite !Hhi by done. lia.
Qed.

(** reset_tlb_pid_different_panics. [reset_tlb_pid_different] holds [slock]
    while it calls [reset_one_entry_by_index], which acquires it again: the
    routine (hence [as_activate]) panics as soon as one slot carries another
    process identifier. *)
Theorem reset_tlb_pid_different_panics s pid i hi lo :
  ready s -> arr_get (tlb_hw (k_tlb s)) i = Some (hi, lo) ->
  Z.shiftr (Z.land hi TLBHI_PID) 6 <> pid ->
  reset_tlb_pid_different pid s = Panic "Deadlock on spinlock".
Proof.
  intros (Hq & Hf & Hwf) Hi Hne. unfold reset_tlb_pid_different. enter. apply bind_panic.
  assert (i ∈ seqZ 0 NUM_TLB) as Hin.
  { destruct Hwf as (_ & Hh & _). assert (is_Some (arr_get (tlb_hw (k_tlb s)) i)) as Hs by eauto.
    apply arr_get_is_Some in Hs. apply elem_of_seqZ. unfold NUM_TLB. lia. }
  assert (Forall (fun j => 0 <= j < NUM_TLB) (seqZ 0 NUM_TLB)) as Hall
    by (apply Forall_seqZ; intros; unfold NUM_TLB in *; lia).
  enough (forall d, reset_different (seqZ 0 NUM_TLB) pid d (hold tlb_slock s) =
    Panic "Deadlock on spinlock") as Hd by apply Hd.
  induction (seqZ 0 NUM_TLB) as [|j js IH]; intros d.
  { by apply not_elem_of_nil in Hin. }
  apply Forall_cons in Hall as [Hj Hall]. cbn [reset_different]. unfold tlb_read. mrun.
  destruct (proj2 (arr_get_is_Some (tlb_hw (k_tlb s)) j)) as [[h l] Hg].
  { destruct Hwf as (_ & Hh & _). unfold NUM_TLB in Hj. lia. }
  rewrite (bind_valid _ _ _ _ (h, l)) by done. mrun. cbn [fst].
  destruct (Z.eqb_spec (Z.shiftr (Z.land h TLBHI_PID) 6) pid) as [Heq|_].
  - apply IH; [|done]. apply elem_of_cons in Hin as [->|]; [|done]. congruence.
  - apply bind_panic. unfold reset_one_entry_by_index.
    by rewrite (bind_acquire_held _ _ _ (k_sync s)).
Qed.

(** read_entry_never_succeeds. [read_entry] never delivers a translation:
    when the page is not in the TLB it returns -1 still holding [slock], so
    that the next [add_entry] panics; when it is, [tlb_read] stores the high
    word through the NULL pointer it is given. *)
Theorem read_entry_never_succeeds probe vaddr s :
  ready s -> probe (tlb_hw (k_tlb s)) (Z.land vaddr PAGE_FRAME) < NUM_TLB ->
  read_entry probe vaddr s = Undef "store through NULL" \/
  exists s', read_entry probe vaddr s = Ret ((-1, None), s') /\
    forall hi lo, add_entry (-1) hi lo s' = Panic "Deadlock on spinlock".
Proof.
  intros (Hq & Hf & Hwf) Hp. unfold read_entry. enter.
  change (k_tlb (hold tlb_slock s)) with (k_tlb s).
  destruct (Z.ltb_spec (probe (tlb_hw (k_tlb s)) (Z.land vaddr PAGE_FRAME)) 0) as [Hneg|Hpos].
  - right. eexists. split; [done|]. intros hi lo. unfold add_entry.
    by rewrite (bind_acquire_held _ _ _ (k_sync s)).
  - left. apply bind_undef. unfold tlb_read. mrun. destruct Hwf as (_ & Hh & _). unfold NUM_TLB in Hp.
    destruct (proj2 (arr_get_is_Some (tlb_hw (k_tlb s)) (probe (tlb_hw (k_tlb s)) (Z.land vaddr PAGE_FRAME))))
      as [e He]; [lia|]. by rewrite (bind_valid _ _ _ _ e).
Qed.

(** *** Concrete runs *)

Lemma sample_ready : ready sample.
Proof. by vm_compute. Qed.

Lemma tlb_add_entry_spec_witness :
  exists i s', add_entry (-1) 0x400040 0x5600 sample = Ret (i, s') /\
    arr_get (tlb_hw (k_tlb s')) i = Some (0x400040, 0x5600).
Proof.
  destruct (tlb_add_entry_spec sample 0x400040 0x5600 sample_ready)
    as (i & s' & Hrun & _ & _ & Hhw & _). by exists i, s'.
Defined.

Lemma tlb_slots_round_robin_witness :
  exists s1 s2, add_all (replicate 66 (0, 0)) s1 =
    Ret ((fun k => slot k (next_victim (k_tlb s1))) <$> seqZ 0 66, s2).
Proof.
  pose (s1 := match reset_tlb sample with Ret (_, s) => s | _ => sample end).
  destruct (tlb_slots_round_robin (replicate 66 (0, 0)) sample s1 sample_ready) as [s2 Hrun].
  { by vm_compute. }
  by exists s1, s2.
Defined.

Lemma reset_tlb_spec_witness :
  exists s', reset_tlb sample = Ret (tt, s') /\ invalid_slot (k_tlb s') 63.
Proof.
  destruct (reset_tlb_spec sample sample_ready) as (s' & Hrun & _ & Hinv & _).
  exists s'. split; [exact Hrun|]. apply Hinv. unfold NUM_TLB. lia.
Defined.

Lemma reset_tlb_pid_different_panics_witness :
  reset_tlb_pid_different 7 sample = Panic "Deadlock on spinlock".
Proof.
  apply (reset_tlb_pid_different_panics sample 7 0 0 0 sample_ready); by vm_compute.
Defined.

Lemma read_entry_never_succeeds_witness :
  read_entry (fun _ _ => 3) 0x400123 sample = Undef "store through NULL" \/
  exists s', read_entry (fun _ _ => 3) 0x400123 sample = Ret ((-1, None), s') /\
    forall hi lo, add_entry (-1) hi lo s' = Panic "Deadlock on spinlock".
Proof. apply (read_entry_never_succeeds _ 0x400123 sample sample_ready); by vm_compute. Defined.

End Vtlb.
