(* ===== verification/Swapfile.v ===== *)
(** * The swap file: [swapfile.c]

    [Module Swap] gives the routines of [kern/vm/swapfile.c].  Files are used
    through the interface [Vnops], frames through [FrameAllocator].  The main
    theorems say that a page that is swapped out and swapped in again comes
    back with its contents, and in which situations the routines panic. *)

From S2P Require Import Prelude Sync KState Coremap PageTable Stats.

Module Swap.
Import VmStats.

Definition FILESIZE : Z := 9437184.
Definition NUMBERENTRIES : Z := FILESIZE / PAGE_SIZE.
Definition MAX_ALLOCATED_PAGES : Z := 50.

Section Routines.
Context `{Vnops}.

(** [VOP_WRITE] and [VOP_READ] on a vnode, with the uio that [uio_kinit] builds
    for [length bs] (respectively [len]) bytes at [off]. *)
Definition vn_write (v off : Z) (bs : list Z) : K (Z * Z) :=
  fs ← gets k_vnodes;
  f ← valid (fs !! v) "vnode";
  (if vop_sleeps f then device_wait else mret tt);;
  let '(err, resid, f') := vop_write f off bs in
  modify (fun s => set_vnodes (<[v := f']> (k_vnodes s)) s);;
  mret (err, resid).

Definition vn_read (v off len : Z) : K (Z * list Z) :=
  fs ← gets k_vnodes;
  f ← valid (fs !! v) "vnode";
  (if vop_sleeps f then device_wait else mret tt);;
  mret (vop_read f off len).

Definition vn_size (v : Z) : K Z :=
  fs ← gets k_vnodes;
  f ← valid (fs !! v) "vnode";
  mret (vf_size f).

(** The fields of the current process's address space, [*as] in [swap_in] and
    [vm_fault]. *)
Definition deref_as : K addrspace :=
  s ← get;
  p ← valid (k_cur s) "curproc";
  valid (vp_addrspace p) "as".

Definition with_allocated (n : Z) (a : addrspace) : addrspace :=
  Addrspace (as_vbase1 a) (as_npages1 a) (as_vbase2 a) (as_npages2 a) (as_stackpbase a) n (as_fi a).

(** [as->allocated_pages += d] *)
Definition add_allocated (d : Z) : K unit :=
  a ← deref_as;
  modify (fun s => set_cur
    ((fun p => Vmproc (vp_id p) (vp_pid p)
                 (Some (with_allocated (s32 (allocated_pages a + d)) a))) <$> k_cur s) s).

(** [as_zero_region] of [addrspace.c]. *)
Definition as_zero_region (paddr npages : Z) : K unit :=
  modify (fun s => set_mem (mem_zero paddr (u32 (npages * PAGE_SIZE)) (k_mem s)) s).

Definition free_track : swap_track := Track READ_ONLY (-1) 0 0.

(** [opened] is the result of [vfs_open]: an error code or the vnode; [junk] is
    the first byte of the uninitialised array [buf]. *)
Definition swap_bootstrap (opened : Z + Z) (junk : Z) : K unit :=
  match opened with
  | inl err => panic "error opening swapfile"
  | inr v =>
      modify (set_swap_vnode v);;
      st_size ← vn_size v;
      (if st_size <? FILESIZE then
         let kb := 1024 in
         let kb_in_FILESIZE := FILESIZE / kb in
         for_each (seqZ 0 (kb_in_FILESIZE + 1)) (fun i =>
           r ← vn_write v (kb * i) [junk];
           if negb (r.1 =? 0) then panic "write error" else mret tt);;
         st_size ← vn_size v;
         if st_size <? FILESIZE then panic "swapfile size" else mret tt
       else mret tt);;
      modify (set_track (replicate (Z.to_nat NUMBERENTRIES) free_track))
  end.

(** The first index whose entry satisfies the test, or the number of entries. *)
Fixpoint first_index (p : swap_track -> bool) (l : list swap_track) (i : Z) : Z :=
  match l with
  | [] => i
  | t :: l' => if p t then i else first_index p l' (i + 1)
  end.

Definition is_free (t : swap_track) : bool := st_valid t =? 0.
Definition is_page (pid vaddr : Z) (t : swap_track) : bool :=
  (st_pid t =? pid) && (st_vaddr t =? vaddr) && (st_valid t =? 1).

Definition swap_out (pid vaddr : Z) (permission_flag : permission_t) (paddr : Z) : K unit :=
  (if MIPS_KSEG0 <=? vaddr then panic "vaddr cannot be greater than MIPS_KSEG0" else mret tt);;
  k_acquire swap_slock;;
  track ← gets k_track;
  let i := first_index is_free track 0 in
  (if i =? NUMBERENTRIES then panic "out of swap space" else mret tt);;
  s ← get;
  r ← vn_write (k_swap_vnode s) (i * PAGE_SIZE) (mem_read paddr PAGE_SIZE (k_mem s));
  (if negb (r.1 =? 0) then panic "write error" else mret tt);;
  modify (set_track (arr_set track i (Track permission_flag pid vaddr 1)));;
  k_release swap_slock;;
  Pt.page_table_reset_entry (paddr / PAGE_SIZE);;
  increment_page_faults_swapout.

(** The body of the loop of [swap_in] for the entry [i] that matches; the result
    is the return value and [*paddr]. *)
Definition swap_in_entry (pid vaddr i : Z) : K (Z * option Z) :=
  a ← deref_as;
  got ← (if allocated_pages a =? MAX_ALLOCATED_PAGES then mret 0 else Cm.getppages 1);
  paddr ←
    (if got =? 0 then
       r ← Pt.page_table_replacement pid;
       match r with
       | (index_page_to_replace, Some e) =>
           swap_out pid (e_vaddr e) (e_permission_flag e) (u32 (index_page_to_replace * PAGE_SIZE));;
           add_allocated (-1);;
           mret (Some (u32 (index_page_to_replace * PAGE_SIZE)))
       | (_, None) => mret None
       end
     else mret (Some got));
  match paddr with
  | None => mret (0, None)      (* return 0, with slock held *)
  | Some paddr =>
      add_allocated 1;;
      as_zero_region paddr 1;;
      increment_page_faults_zeroed;;
      v ← gets k_swap_vnode;
      r ← vn_read v (i * PAGE_SIZE) PAGE_SIZE;
      modify (fun s => set_mem (mem_write paddr r.2 (k_mem s)) s);;
      (if negb (r.1 =? 0) then panic "read error" else mret tt);;
      (if negb (PAGE_SIZE - Z.of_nat (length r.2) =? 0) then panic "uio_resid != 0" else mret tt);;
      track ← gets k_track;
      t ← valid (arr_get track i) "track[i]";
      modify (set_track (arr_set track i (Track (st_permission_flag t) (-1) (st_vaddr t) 0)));;
      track ← gets k_track;
      t ← valid (arr_get track (paddr / PAGE_SIZE)) "track[*paddr/PAGE_SIZE]";
      Pt.page_table_add_entry (s32 vaddr) paddr (u32 pid) (permission_Z (st_permission_flag t));;
      increment_page_faults_swapin;;
      k_release swap_slock;;
      mret (1, Some paddr)
  end.

Definition swap_in (pid vaddr : Z) : K (Z * option Z) :=
  k_acquire swap_slock;;
  track ← gets k_track;
  let i := first_index (is_page pid vaddr) track 0 in
  if i <? Z.of_nat (length track) then swap_in_entry pid vaddr i
  else k_release swap_slock;; mret (0, None).

Definition swap_remove_pid (pid : Z) : K unit :=
  modify (fun s => set_track
    ((fun t => if (st_pid t =? pid) && (st_valid t =? 1)
               then Track (st_permission_flag t) (-1) (st_vaddr t) 0 else t) <$> k_track s) s).

(** [vfs_close] drops the reference to the vnode. *)
Definition swap_destroy : K unit :=
  zoom k_sync set_sync (Spinlock.spinlock_cleanup swap_slock).

End Routines.

(** ** Runs of the routines *)

Lemma first_index_spec p l i :
  i <= first_index p l i <= i + Z.of_nat (length l) /\
  (forall j t, l !! j = Some t -> Z.of_nat j < first_index p l i - i -> p t = false) /\
  (first_index p l i < i + Z.of_nat (length l) ->
     exists t, l !! Z.to_nat (first_index p l i - i) = Some t /\ p t = true).
Proof.
  revert i. induction l as [|t l IH]; intros i; cbn [first_index length].
  - split_and!; [lia..|done|]. intros. lia.
  - destruct (p t) eqn:Hp.
    + rewrite Z.sub_diag. split_and!; [lia|lia|intros; lia|by exists t].
    + destruct (IH (i + 1)) as (H1 & H2 & H3). split_and!; [lia|lia| |].
      * intros [|j] u Hj Hlt; [by simplify_eq/=|]. apply (H2 j); [done|lia].
      * intros Hlt. replace (Z.to_nat (first_index p l (i + 1) - i))
          with (S (Z.to_nat (first_index p l (i + 1) - (i + 1)))) by lia. apply H3. lia.
Qed.

(** The index found is determined by what the specification says of it. *)
Lemma first_index_unique p l i t :
  0 <= i -> arr_get l i = Some t -> p t = true ->
  (forall j u, j < i -> arr_get l j = Some u -> p u = false) ->
  first_index p l 0 = i.
Proof.
  intros Hi Hg Hp Hno. destruct (first_index_spec p l 0) as (H1 & H2 & H3).
  apply arr_get_Some in Hg as [_ Hg]. pose proof (lookup_lt_Some _ _ _ Hg).
  destruct (Z.lt_trichotomy (first_index p l 0) i) as [Hlt|[?|Hgt]]; [|done|].
  - destruct H3 as (u & Hu & Hpu); [lia|]. rewrite Z.sub_0_r in Hu.
    rewrite (Hno (first_index p l 0) u) in Hpu; [done|done|apply arr_get_Some; split; [lia|done]].
  - rewrite (H2 _ _ Hg) in Hp; [done|]. lia.
Qed.

Definition ready (s : kst) : Prop :=
  quiet s /\ free swap_slock s /\ Z.of_nat (length (k_track s)) = NUMBERENTRIES.

Section Runs.
Context `{Vnops}.

(** The file behind [v] is [f], and if its device sleeps the caller may. *)
Definition opened (s : kst) (v : Z) (f : vfile) : Prop :=
  k_vnodes s !! v = Some f /\ (vop_sleeps f = true -> can_sleep s).

Lemma bind_wait {A} (k : unit -> K A) s v f :
  opened s v f -> mbind k (if vop_sleeps f then device_wait else mret tt) s = k tt s.
Proof.
  intros [_ Hw]. destruct (vop_sleeps f); [|done]. by rewrite (bind_run _ _ _ _ _ (device_wait_run s (Hw eq_refl))).
Qed.

Lemma vn_write_run s v off bs f err resid f' :
  opened s v f -> vop_write f off bs = (err, resid, f') ->
  vn_write v off bs s = Ret ((err, resid), set_vnodes (<[v := f']> (k_vnodes s)) s).
Proof.
  intros Hf Hw. unfold vn_write. mrun. rewrite (bind_valid _ _ _ _ _ (proj1 Hf)), (bind_wait _ _ _ _ Hf), Hw. by mrun.
Qed.

Lemma vn_read_run s v off len f :
  opened s v f -> vn_read v off len s = Ret (vop_read f off len, s).
Proof. intros Hf. unfold vn_read. mrun. by rewrite (bind_valid _ _ _ _ _ (proj1 Hf)), (bind_wait _ _ _ _ Hf). Qed.

(** The state [swap_out] leaves. *)
Definition swapped_out (i pid vaddr : Z) (perm : permission_t) (f' : vfile) (es' : list entry)
    (s : kst) : kst :=
  let t := k_stats s in
  set_stats (Stats (tlb_faults t) (tlb_faults_free t) (tlb_faults_replace t) (tlb_invalidations t)
      (tlb_reloads t) (page_faults_zeroed t) (page_faults_disk t) (page_faults_elf t)
      (page_faults_swapin t) (inc (page_faults_swapout t)) (swapfile_writes t))
    (Pt.with_entries es'
      (set_track (arr_set (k_track s) i (Track perm pid vaddr 1))
        (set_vnodes (<[k_swap_vnode s := f']> (k_vnodes s)) s))).

Lemma swap_out_run s es pid vaddr perm (n : nat) e f resid f' i :
  ready s -> Pt.ready s es -> vaddr < MIPS_KSEG0 ->
  i = first_index is_free (k_track s) 0 -> i <> NUMBERENTRIES ->
  k_vnodes s !! k_swap_vnode s = Some f -> vop_sleeps f = false ->
  vop_write f (i * PAGE_SIZE) (mem_read (Z.of_nat n * PAGE_SIZE) PAGE_SIZE (k_mem s)) =
    (0, resid, f') ->
  es !! n = Some e ->
  swap_out pid vaddr perm (Z.of_nat n * PAGE_SIZE) s =
    Ret (tt, swapped_out i pid vaddr perm f'
      (Pt.close_gap (e_pid e) (e_position_fifo e)
         (<[n := Entry 0 (-1) 0 (e_permission_flag e) 0]> es)) s).
Proof.
  intros (Hq & Hf & Hlen) Hpt Hva -> Hi Hv Hns Hw He. unfold swap_out.
  assert (opened (hold swap_slock s) (k_swap_vnode s) f) as Hop by (split; [done|congruence]).
  rewrite (proj2 (Z.leb_gt _ _)) by done. enter.
  change (k_track (hold swap_slock s)) with (k_track s).
  rewrite (proj2 (Z.eqb_neq _ _)) by done. mrun.
  rewrite (bind_run _ _ _ _ _ (vn_write_run (hold swap_slock s) _ _ _ _ _ _ _ Hop Hw)).
  cbn [fst Z.eqb negb]. mrun. leave. rewrite Z.div_mul by done.
  erewrite bind_run; [|apply (Pt.reset_entry_run _ es); [exact Hpt|exact He]]. done.
Qed.

Lemma swapped_out_fields i pid vaddr perm f' es' s :
  let s' := swapped_out i pid vaddr perm f' es' s in
  k_sync s' = k_sync s /\ k_ram s' = k_ram s /\ k_cm s' = k_cm s /\ k_cur s' = k_cur s /\
  k_mem s' = k_mem s /\ k_swap_vnode s' = k_swap_vnode s /\ k_pt s' = Some (Table es').
Proof. done. Qed.
End Runs.

Lemma bind_deref_as {A} (k : addrspace -> K A) s p a :
  k_cur s = Some p -> vp_addrspace p = Some a -> mbind k deref_as s = k a s.
Proof. intros Hp Ha. unfold deref_as. mrun. by rewrite Hp, (bind_valid _ _ _ _ p), Ha. Qed.

Lemma add_allocated_run d s p a :
  k_cur s = Some p -> vp_addrspace p = Some a ->
  add_allocated d s =
    Ret (tt, set_cur (Some (Vmproc (vp_id p) (vp_pid p)
           (Some (with_allocated (s32 (allocated_pages a + d)) a)))) s).
Proof.
  intros Hp Ha. unfold add_allocated. rewrite (bind_deref_as _ _ _ _ Hp Ha).
  unfold modify. by rewrite Hp.
Qed.

Section SwapIn.
Context `{Vnops} (inv : kst -> Prop) `{!FrameAllocator Cm.getppages inv}.

Lemma inv_hold s l :
  l <> freemem_lock -> l <> stealmem_lock -> inv s -> inv (hold l s).
Proof.
  intros Hl1 Hl2 Hinv. destruct (alloc_inv_locks s Hinv) as (Hq & Hf & Hst).
  apply (alloc_inv_local s); try done; [by apply quiet_hold|by apply free_hold..].
Qed.

(** A run that finds the page and gets a fresh frame [pa]. *)
Lemma swap_in_run s es pid va i t0 p a f bs pa s1 n0 e0 :
  ready s -> Pt.ready s es -> inv s ->
  i = first_index (is_page pid va) (k_track s) 0 -> arr_get (k_track s) i = Some t0 ->
  k_cur s = Some p -> vp_addrspace p = Some a -> allocated_pages a < MAX_ALLOCATED_PAGES ->
  k_vnodes s !! k_swap_vnode s = Some f -> vop_sleeps f = false -> vop_read f (i * PAGE_SIZE) PAGE_SIZE = (0, bs) ->
  Z.of_nat (length bs) = PAGE_SIZE ->
  Cm.getppages 1 (hold swap_slock s) = Ret (pa, s1) -> pa <> 0 ->
  lastpaddr (k_ram s) <= FILESIZE ->
  0 <= pid < 2 ^ 31 -> n0 = Z.to_nat (pid / PAGE_SIZE) -> es !! n0 = Some e0 ->
  exists s2 st, swap_in pid va s = Ret ((1, Some pa), s2) /\
    k_mem s2 = mem_write pa bs (mem_zero pa PAGE_SIZE (k_mem s)) /\
    k_pt s2 = Some (Table (<[n0 := Entry pa (s32 va) st (e_permission_flag e0)
                                     (s32 (Pt.last_position (s32 va) es + 1))]> es)) /\
    k_track s2 = arr_set (k_track s) i (Track (st_permission_flag t0) (-1) (st_vaddr t0) 0) /\
    k_sync s2 = k_sync s.
Proof.
  intros (Hq & Hf & Hlen) Hpt Hinv Hi Ht0 Hp Ha Hal Hv Hns Hrd Hbs Hget Hpa Hram Hpid Hn0 He0.
  pose proof Hpt as (_ & Hft & Hpts & Hesl).
  destruct (alloc_one (hold swap_slock s)) as (pa' & s1' & Hget' & _ & Hs1 & Hlast & Hb);
    [by apply inv_hold|].
  rewrite Hget in Hget'. apply Ret_inj in Hget' as [<- <-].
  destruct Hb as [?|(Hpos & Hmod & Hle & Hmax)]; [done|]. cbn [k_ram hold set_sync] in Hle, Hmax.
  assert (i < Z.of_nat (length (k_track s))) as Hil.
  { assert (is_Some (arr_get (k_track s) i)) as Hs by eauto. apply arr_get_is_Some in Hs. lia. }
  unfold swap_in. enter. change (k_track (hold swap_slock s)) with (k_track s).
  rewrite <- Hi, (proj2 (Z.ltb_lt _ _)) by done. unfold swap_in_entry.
  rewrite (bind_deref_as _ (hold swap_slock s) p a Hp Ha), (proj2 (Z.eqb_neq _ _)) by lia.
  rewrite (bind_run _ _ _ _ _ Hget), (proj2 (Z.eqb_neq pa 0)) by done. mrun.
  assert (k_cur s1 = Some p) as Hp1 by (rewrite Hs1; done).
  rewrite (bind_run _ _ _ _ _ (add_allocated_run 1 s1 p a Hp1 Ha)).
  unfold as_zero_region, increment_page_faults_zeroed, upd_stats. mrun.
  erewrite bind_run; [|apply vn_read_run; split; [rewrite Hs1; exact Hv|congruence]].
  rewrite Hrd. cbn [fst snd Z.eqb negb]. mrun. rewrite Hbs, Z.sub_diag. cbn [Z.eqb negb]. mrun.
  rewrite (bind_valid _ _ _ _ t0) by (rewrite Hs1; exact Ht0). mrun.
  destruct (proj2 (arr_get_is_Some (arr_set (k_track s) i
    (Track (st_permission_flag t0) (-1) (st_vaddr t0) 0)) (pa / PAGE_SIZE))) as [t1 Ht1].
  { rewrite arr_set_length, Hlen. unfold NUMBERENTRIES, FILESIZE in *. plia. }
  rewrite (bind_valid _ _ _ _ t1) by (rewrite Hs1; exact Ht1).
  erewrite bind_run; [|eapply (Pt.add_entry_run _ es); [|rewrite u32_id; lia
    |rewrite u32_id by lia; exact Hn0|exact He0];
    apply (Pt.ready_inside swap_slock s); [exact Hpt|done|rewrite Hs1; done..]].
  unfold increment_page_faults_swapin, upd_stats. mrun.
  erewrite bind_release; [|exact Hq|exact Hf|rewrite Hs1; done].
  eexists _, _. split; [reflexivity|]. rewrite Hs1. by split_and!.
Qed.
End SwapIn.

(** ** Correctness of the swap file *)

Section Claims.
Context `{VnopsOk} (inv : kst -> Prop) `{!FrameAllocator Cm.getppages inv}.

(** The situation in which a page of process [pid] is swapped out: frame [n]
    holds it, slot [i] is the first free one, and writing the page to the swap
    file completes. *)
Record can_swap_out (s : kst) (es : list entry) (pid va : Z) (n : nat) (e : entry)
    (i : Z) (f f' : vfile) : Prop := {
  cso_ready : ready s;
  cso_pt : Pt.ready s es;
  cso_va : 0 <= va < MIPS_KSEG0;
  cso_frame : es !! n = Some e;
  cso_slot : i = first_index is_free (k_track s) 0;
  cso_space : i <> NUMBERENTRIES;
  cso_file : k_vnodes s !! k_swap_vnode s = Some f;
  cso_awake : vop_sleeps f = false;
  cso_write : vop_write f (i * PAGE_SIZE)
                (mem_read (Z.of_nat n * PAGE_SIZE) PAGE_SIZE (k_mem s)) = (0, 0, f');
}.

Lemma swap_out_fresh s es pid va perm n e i f f' :
  can_swap_out s es pid va n e i f f' ->
  Forall (fun t => is_page pid va t = false) (k_track s) ->
  first_index (is_page pid va) (arr_set (k_track s) i (Track perm pid va 1)) 0 = i /\
  arr_get (arr_set (k_track s) i (Track perm pid va 1)) i = Some (Track perm pid va 1).
Proof.
  intros [(_ & _ & Hlen) _ _ _ Hi Hsp _ _ _] Hno.
  destruct (first_index_spec is_free (k_track s) 0) as (Hr & _). rewrite <- Hi in Hr.
  assert (arr_get (arr_set (k_track s) i (Track perm pid va 1)) i = Some (Track perm pid va 1))
    as Hg by (apply arr_get_set_eq; lia).
  split; [|done]. eapply first_index_unique; [lia|exact Hg| |].
  - unfold is_page. simpl. by rewrite !Z.eqb_refl.
  - intros j u Hj Hu. rewrite arr_get_set_ne in Hu by lia. apply arr_get_Some in Hu as [_ Hu].
    exact (Forall_lookup_1 _ _ _ _ Hno Hu).
Qed.

Lemma swap_out_in s es pid va perm n e i f f' p a pa s3 n0 e0 :
  can_swap_out s es pid va n e i f f' -> inv s ->
  Forall (fun t => is_page pid va t = false) (k_track s) ->
  k_cur s = Some p -> vp_addrspace p = Some a -> allocated_pages a < MAX_ALLOCATED_PAGES ->
  lastpaddr (k_ram s) <= FILESIZE ->
  0 <= pid < 2 ^ 31 -> n0 = Z.to_nat (pid / PAGE_SIZE) -> es !! n0 = Some e0 ->
  exists s1, swap_out pid va perm (Z.of_nat n * PAGE_SIZE) s = Ret (tt, s1) /\
    (Cm.getppages 1 (hold swap_slock s1) = Ret (pa, s3) -> pa <> 0 ->
     exists s2 e1 st, swap_in pid va s1 = Ret ((1, Some pa), s2) /\
       mem_read pa PAGE_SIZE (k_mem s2) = mem_read (Z.of_nat n * PAGE_SIZE) PAGE_SIZE (k_mem s) /\
       Forall (fun t => is_page pid va t = false) (k_track s2) /\
       k_pt s2 = Some (Table (<[n0 := Entry pa (s32 va) st (e_permission_flag e1)
         (s32 (Pt.last_position (s32 va) (Pt.close_gap (e_pid e) (e_position_fifo e)
            (<[n := Entry 0 (-1) 0 (e_permission_flag e) 0]> es)) + 1))]>
         (Pt.close_gap (e_pid e) (e_position_fifo e)
            (<[n := Entry 0 (-1) 0 (e_permission_flag e) 0]> es)))) /\
       k_sync s2 = k_sync s).
Proof.
  intros Hc Hinv Hno Hp Ha Hal Hram Hpid Hn0 He0. pose proof Hc as [Hrd Hpt Hva He Hi Hsp Hv Hns Hw].
  pose proof (swap_out_fresh s es pid va perm n e i f f' Hc Hno) as [Hfirst Hget].
  eexists. split; [eapply swap_out_run; try done; lia|]. intros Hgp Hpa.
  set (es' := Pt.close_gap _ _ _) in *. set (s1 := swapped_out _ _ _ _ _ _ _) in *.
  assert (length es' = length es) as Hles
    by (unfold es', Pt.close_gap; by rewrite length_fmap, length_insert).
  destruct (lookup_lt_is_Some_2 es' n0) as [e1 He1]; [rewrite Hles; by eapply lookup_lt_Some|].
  pose proof (vop_write_read f f' (i * PAGE_SIZE) _ ltac:(destruct (first_index_spec is_free (k_track s) 0);
    unfold PAGE_SIZE; lia) Hw) as Hback.
  rewrite mem_read_length in Hback. change (Z.of_nat (Z.to_nat PAGE_SIZE)) with PAGE_SIZE in Hback.
  destruct (swap_in_run inv s1 es' pid va i (Track perm pid va 1) p a f'
    (mem_read (Z.of_nat n * PAGE_SIZE) PAGE_SIZE (k_mem s)) pa s3 n0 e1) as (s2 & st & Hrun & Hmem & Hpt2 & Htr & Hsy);
    try done.
  - destruct Hrd as (Hq & Hf & Hlen). split_and!; [done..|]. simpl. by rewrite arr_set_length.
  - destruct Hpt as (? & ? & _ & ?). split_and!; try done. by rewrite Hles.
  - destruct (alloc_inv_locks s Hinv) as (? & ? & ?). by apply (alloc_inv_local s).
  - simpl. by rewrite lookup_insert_eq.
  - by rewrite (vop_write_sleeps _ _ _ _ _ _ Hw).
  - exists s2, e1, st. split_and!; [done| | |done|done].
    + rewrite Hmem. erewrite <- mem_read_write. by rewrite mem_read_length.
    + rewrite Htr. simpl. unfold arr_set. rewrite list_insert_insert_eq.
      apply Forall_insert; [done|]. unfold is_page. simpl. by rewrite andb_false_r.
Qed.

(** On a device that makes its caller sleep, [swap_out] panics: it writes the page
    with [slock] held. *)
Lemma swap_out_sleeps_run s pid va perm pa f :
  ready s -> va < MIPS_KSEG0 -> first_index is_free (k_track s) 0 <> NUMBERENTRIES ->
  k_vnodes s !! k_swap_vnode s = Some f -> vop_sleeps f = true -> t_in_interrupt (y_cpu (k_sync s)) = false ->
  swap_out pid va perm pa s = Panic "curcpu->c_spinlocks == 1".
Proof.
  intros (Hq & Hf & _) Hva Hsp Hv Hsl Hint. unfold swap_out. rewrite (proj2 (Z.leb_gt _ _)) by done. enter.
  change (k_track (hold swap_slock s)) with (k_track s). rewrite (proj2 (Z.eqb_neq _ _)) by done. mrun.
  apply bind_panic. unfold vn_write. mrun. rewrite (bind_valid _ _ _ _ f) by done. rewrite Hsl. apply bind_panic.
  apply device_wait_locked; [done|]. destruct Hq as (_ & Hn & _). simpl. lia.
Qed.


(** swap_in_loses_mapping. [swap_in] calls [page_table_add_entry] with the
    virtual address as pid, the frame as virtual address and the pid as frame:
    after a successful [swap_in] of a user page the page table still has no
    entry for it, so that the next TLB miss on the page fails to find it. *)
Theorem swap_in_loses_mapping s es pid va perm n e i f f' p a pa s3 e0 :
  can_swap_out s es pid va n e i f f' -> inv s ->
  Forall (fun t => is_page pid va t = false) (k_track s) ->
  k_cur s = Some p -> vp_addrspace p = Some a -> allocated_pages a < MAX_ALLOCATED_PAGES ->
  lastpaddr (k_ram s) <= FILESIZE ->
  0 <= pid < PAGE_SIZE -> PAGE_SIZE <= va -> es !! 0%nat = Some e0 ->
  (forall j d, es !! j = Some d -> e_pid d = pid -> e_vaddr d = va -> j = n) ->
  exists s1, swap_out pid va perm (Z.of_nat n * PAGE_SIZE) s = Ret (tt, s1) /\
    (Cm.getppages 1 (hold swap_slock s1) = Ret (pa, s3) -> pa <> 0 ->
     exists s2, swap_in pid va s1 = Ret ((1, Some pa), s2) /\
       Pt.page_table_get_paddr_entry pid va s2 = Ret (None, s2)).
Proof.
  intros Hc Hinv Hno Hp Ha Hal Hram Hpid Hva He0 Huniq. pose proof Hc as [_ Hpt Hv He _ _ _ _ _].
  unfold MIPS_KSEG0 in Hv.
  destruct (swap_out_in s es pid va perm n e i f f' p a pa s3 0 e0)
    as (s1 & Hout & Hin); try done; [plia|rewrite Z.div_small by lia; done|].
  exists s1. split; [done|]. intros Hg Hpa.
  destruct (Hin Hg Hpa) as (s2 & e1 & st & Hrun & _ & _ & Hpt2 & Hsy). exists s2. split; [done|].
  erewrite Pt.get_paddr_entry_run; cycle 1.
  { destruct Hpt as (Hq & Hf & _ & Hlen). unfold Pt.ready, quiet, free. rewrite Hsy.
    split_and!; [done|done|done|]. unfold Pt.close_gap. by rewrite length_insert, length_fmap, length_insert. }
  match goal with |- context [Pt.last_match pid va ?l] =>
    pose proof (Pt.last_match_spec pid va l) as Hl; destruct (Pt.last_match pid va l) as [j|] end; [|done].
  exfalso. destruct Hl as (d & Hd & Hdp & Hdv). apply list_lookup_insert_Some in Hd as [(_ & <- & _)|[Hj Hd]].
  { simpl in Hdp. rewrite s32_id in Hdp by lia. lia. }
  rewrite Pt.close_gap_lookup in Hd. apply fmap_Some in Hd as (d' & Hd & ->).
  rewrite Pt.gap_step_pid in Hdp. apply list_lookup_insert_Some in Hd as [(_ & <- & _)|[Hjn Hd]].
  { simpl in Hdp. lia. }
  apply Hjn. symmetry. apply (Huniq j d'); [done|done|].
  rewrite <- Hdv. unfold Pt.gap_step. by destruct (_ && _).
Qed.
End Claims.

Section Limits.
Context `{Vnops}.

(** swap_in_at_limit. When the process is at its limit of pages, [swap_in] of
    a page that is in the swap file never succeeds: with a victim it calls
    [swap_out], which acquires the [slock] that is already held and panics;
    without one it returns 0 and leaves [slock] held, so that every later
    swap operation panics. *)
Theorem swap_in_at_limit s es Q pid va t0 p a :
  ready s -> Pt.ready s es -> Pt.rep es Q -> pid <> -1 ->
  arr_get (k_track s) (first_index (is_page pid va) (k_track s) 0) = Some t0 ->
  k_cur s = Some p -> vp_addrspace p = Some a -> allocated_pages a = MAX_ALLOCATED_PAGES ->
  Forall (fun e => e_vaddr e < MIPS_KSEG0) es ->
  match Q pid with
  | _ :: _ => swap_in pid va s = Panic "Deadlock on spinlock"
  | [] => exists s', swap_in pid va s = Ret ((0, None), s') /\
      forall pid' va', swap_in pid' va' s' = Panic "Deadlock on spinlock"
  end.
Proof.
  intros (Hq & Hf & Hlen) Hpt HQ Hpid Ht Hp Ha Hal Hes.
  assert (is_Some (arr_get (k_track s) (first_index (is_page pid va) (k_track s) 0))) as Hs by eauto.
  apply arr_get_is_Some in Hs. assert (Pt.ready (hold swap_slock s) es) as Hpt'
    by (apply (Pt.ready_inside swap_slock s); done).
  pose proof (Pt.replacement_run _ _ _ _ Hpt' HQ Hpid) as Hrep. unfold swap_in. enter.
  change (k_track (hold swap_slock s)) with (k_track s).
  rewrite (proj2 (Z.ltb_lt _ _)) by lia. unfold swap_in_entry.
  rewrite (bind_deref_as _ (hold swap_slock s) p a Hp Ha), Hal, Z.eqb_refl. mrun. cbn [Z.eqb].
  rewrite bind_assoc, (bind_run _ _ _ _ _ Hrep). destruct (HQ pid Hpid) as [_ Hfq].
  destruct (Q pid) as [|j q].
  - eexists. split; [done|]. intros pid' va'. by rewrite (bind_acquire_held _ _ _ (k_sync s)).
  - destruct (Hfq 0%nat j) as (e & He & _); [done|]. rewrite He. rewrite bind_assoc. apply bind_panic.
    unfold swap_out. rewrite (proj2 (Z.leb_gt _ _)) by exact (Forall_lookup_1 _ _ _ _ Hes He).
    mrun. by rewrite (bind_acquire_held _ _ _ (k_sync s)).
Qed.

(** swap_remove_pid_spec. After [swap_remove_pid] no page of the process is
    in the swap file, its slots are free, and the slots of the other processes
    are untouched. *)
Theorem swap_remove_pid_spec pid s :
  exists s', swap_remove_pid pid s = Ret (tt, s') /\
    length (k_track s') = length (k_track s) /\
    forall i t, k_track s !! i = Some t -> exists t', k_track s' !! i = Some t' /\
      (forall va, pid <> -1 -> is_page pid va t' = false) /\
      (st_pid t = pid -> st_valid t = 1 -> is_free t' = true) /\
      (st_pid t <> pid -> t' = t).
Proof.
  eexists. split; [done|]. simpl. rewrite length_fmap. split; [done|]. intros i t Ht.
  rewrite list_lookup_fmap, Ht. simpl. eexists. split; [done|]. unfold is_page, is_free.
  destruct (Z.eqb_spec (st_pid t) pid) as [Hp|Hp], (Z.eqb_spec (st_valid t) 1) as [Hv|Hv]; simpl;
    split_and!; try done; intros; rewrite ?andb_false_r; try done.
  all: destruct (Z.eqb_spec (st_pid t) pid), (Z.eqb_spec (st_valid t) 1); simpl; try done;
    by rewrite andb_false_r.
Qed.

Lemma bootstrap_writes ks junk s v f :
  VnopsOk -> (forall f off, exists f', vop_write f off [junk] = (0, 0, f')) ->
  Forall (fun k => 0 <= k) ks -> opened s v f ->
  exists f', for_each ks (fun i =>
      r ← vn_write v (1024 * i) [junk];
      if negb (r.1 =? 0) then panic "write error" else mret tt) s =
    Ret (tt, set_vnodes (<[v := f']> (k_vnodes s)) s) /\
    vf_size f <= vf_size f' /\ (forall k, k ∈ ks -> 1024 * k + 1 <= vf_size f').
Proof.
  intros Hok Hw Hks. revert s f. induction Hks as [|k ks Hk Hks IH]; intros s f Hf.
  - exists f. split_and!; [|lia|by intros k Hk%not_elem_of_nil].
    rewrite insert_id by apply Hf. by destruct s.
  - destruct (Hw f (1024 * k)) as [f1 Hf1]. cbn [for_each]. rewrite bind_assoc.
    rewrite (bind_run _ _ _ _ _ (vn_write_run s v _ _ f 0 0 f1 Hf Hf1)). cbn [fst Z.eqb negb]. mrun.
    destruct (IH (set_vnodes (<[v := f1]> (k_vnodes s)) s) f1) as (f' & Hrun & Hsz & Hall).
    { split; [simpl; apply lookup_insert_eq|]. rewrite (vop_write_sleeps _ _ _ _ _ _ Hf1). apply Hf. }
    pose proof (vop_write_size f f1 (1024 * k) [junk] ltac:(lia) Hf1) as Hs1. simpl in Hs1.
    exists f'. split_and!; [| lia |].
    + rewrite Hrun. simpl. rewrite insert_insert_eq. by destruct s.
    + intros j [->|Hj]%elem_of_cons; [lia|by apply Hall].
Qed.

(** swap_bootstrap_spec. With a file system that completes one-byte writes,
    [swap_bootstrap] returns on a file of any size: the file then has at least
    [FILESIZE] bytes, room for the 2304 pages, and every slot is free. *)
Theorem swap_bootstrap_spec v junk s f :
  VnopsOk -> (forall f off, exists f', vop_write f off [junk] = (0, 0, f')) ->
  opened s v f ->
  exists s' f', swap_bootstrap (inr v) junk s = Ret (tt, s') /\
    k_swap_vnode s' = v /\ k_vnodes s' !! v = Some f' /\
    NUMBERENTRIES * PAGE_SIZE <= vf_size f' /\
    k_track s' = replicate (Z.to_nat NUMBERENTRIES) free_track.
Proof.
  intros Hok Hw Hf. unfold swap_bootstrap, vn_size. mrun. rewrite (bind_valid _ _ _ _ f) by apply Hf. mrun.
  change (NUMBERENTRIES * PAGE_SIZE) with FILESIZE.
  destruct (Z.ltb_spec (vf_size f) FILESIZE) as [Hlt|Hge].
  - destruct (bootstrap_writes (seqZ 0 (FILESIZE / 1024 + 1)) junk (set_swap_vnode v s) v f)
      as (f' & Hrun & Hsz & Hall); [done|done|apply Forall_seqZ; intros; lia|done|].
    assert (FILESIZE <= vf_size f') as Hbig.
    { specialize (Hall 9216 ltac:(apply elem_of_seqZ; unfold FILESIZE; lia)). unfold FILESIZE. lia. }
    mrun. rewrite (bind_run _ _ _ _ _ Hrun). mrun. rewrite (bind_valid _ _ _ _ f'); cycle 1.
    { simpl. apply lookup_insert_eq. }
    mrun. rewrite (proj2 (Z.ltb_ge _ _)) by done. mrun.
    eexists _, f'. split_and!; [reflexivity|done| |done|done]. simpl. apply lookup_insert_eq.
  - mrun. eexists _, f. split_and!; [done|done|apply Hf|done|done].
Qed.
End Limits.

(** *** Concrete runs *)

Definition sample_as (n : Z) : addrspace :=
  Addrspace 0x400000 2 0x10000000 1 0 n (FileInfo 0 0x1800 0x2000 0x100 2).

(** The sixteen-frame machine with two pages of process 7 in memory, an empty
    swap file behind vnode 1, and [n] pages accounted to the process. *)
Definition sample_swap (n : Z) : kst :=
  set_cur (Some (Vmproc 1 7 (Some (sample_as n))))
    (set_track (replicate (Z.to_nat NUMBERENTRIES) free_track)
      (set_vnodes (<[1 := Vfile FILESIZE (fun _ => 0)]> ∅)
        (set_swap_vnode 1 (set_pt (Some (Table Pt.sample_entries)) Cm.sample_boot)))).

Definition sample_page : entry := Entry 0x400000 7 0 READ_ONLY 0.

Definition sample_file : vfile :=
  match vop_write (Vfile FILESIZE (fun _ => 0)) 0 (mem_read (9 * PAGE_SIZE) PAGE_SIZE (fun _ => 0)) with
  | (_, _, f) => f
  end.

Lemma sample_can : can_swap_out (sample_swap 2) Pt.sample_entries 7 0x400000 9 sample_page 0
  (Vfile FILESIZE (fun _ => 0)) sample_file.
Proof. split; by vm_compute. Qed.

Lemma sample_swap_inv n : alloc_inv (sample_swap n).
Proof.
  apply (alloc_inv_local Cm.sample_boot); [done..|by vm_compute|by vm_compute|by vm_compute|].
  split; [apply Cm.sample_boot_ready|]. exists ∅. apply Cm.sample_boot_rep.
Qed.

Lemma sample_swap_none : Forall (fun t => is_page 7 0x400000 t = false) (k_track (sample_swap 2)).
Proof. apply Forall_replicate. done. Qed.

Definition sample_out : kst :=
  match swap_out 7 0x400000 READ_ONLY (9 * PAGE_SIZE) (sample_swap 2) with
  | Ret (_, s) => s | _ => sample end.

Lemma sample_out_run :
  swap_out 7 0x400000 READ_ONLY (Z.of_nat 9 * PAGE_SIZE) (sample_swap 2) = Ret (tt, sample_out).
Proof. by vm_compute. Qed.

Definition sample_got : kst :=
  match Cm.getppages 1 (hold swap_slock sample_out) with Ret (_, s) => s | _ => sample end.

Lemma sample_got_run :
  Cm.getppages 1 (hold swap_slock sample_out) = Ret (4 * PAGE_SIZE, sample_got).
Proof. by vm_compute. Qed.


Lemma swap_in_loses_mapping_witness :
  exists s2, swap_in 7 0x400000 sample_out = Ret ((1, Some (4 * PAGE_SIZE)), s2) /\
    Pt.page_table_get_paddr_entry 7 0x400000 s2 = Ret (None, s2).
Proof.
  destruct (swap_in_loses_mapping alloc_inv (sample_swap 2) Pt.sample_entries 7 0x400000 READ_ONLY 9
    sample_page 0 (Vfile FILESIZE (fun _ => 0)) sample_file (Vmproc 1 7 (Some (sample_as 2)))
    (sample_as 2) (4 * PAGE_SIZE) sample_got Pt.empty_entry sample_can (sample_swap_inv 2)
    sample_swap_none eq_refl eq_refl eq_refl ltac:(by vm_compute) ltac:(plia) ltac:(plia) eq_refl)
    as (s1 & Hout & Hin).
  - intros j d Hd Hp Hv. do 16 (destruct j as [|j]; [by simplify_eq/=|]). done.
  - rewrite sample_out_run in Hout. apply Ret_inj in Hout as [_ <-].
    destruct (Hin sample_got_run) as (s2 & Hrun & Hpt); [plia|].
    exists s2. split; [exact Hrun|exact Hpt].
Defined.

(** The page is in slot 0 and the process has used up its pages. *)
Definition sample_limit : kst :=
  set_track (<[0%nat := Track READ_ONLY 7 0x403000 1]> (k_track (sample_swap 50))) (sample_swap 50).

Lemma sample_limit_ready : ready sample_limit /\ Pt.ready sample_limit Pt.sample_entries.
Proof. by vm_compute. Qed.

Lemma sample_vaddrs : Forall (fun e => e_vaddr e < MIPS_KSEG0) Pt.sample_entries.
Proof. apply (bool_decide_unpack _). by vm_compute. Qed.

Lemma swap_in_at_limit_witness : swap_in 7 0x403000 sample_limit = Panic "Deadlock on spinlock".
Proof.
  assert (Pt.sample_Q 7 = [9%nat; 5%nat]) as HQ by done.
  pose proof (swap_in_at_limit sample_limit Pt.sample_entries Pt.sample_Q 7 0x403000
    (Track READ_ONLY 7 0x403000 1) (Vmproc 1 7 (Some (sample_as 50))) (sample_as 50)
    (proj1 sample_limit_ready) (proj2 sample_limit_ready) Pt.sample_pt_rep ltac:(done)
    ltac:(by vm_compute) eq_refl eq_refl eq_refl sample_vaddrs) as Hw.
  rewrite HQ in Hw. exact Hw.
Defined.

Lemma swap_remove_pid_spec_witness :
  exists s', swap_remove_pid 7 sample_limit = Ret (tt, s') /\
    length (k_track s') = length (k_track sample_limit).
Proof.
  destruct (swap_remove_pid_spec 7 sample_limit) as (s' & Hrun & Hlen & _).
  exists s'. split; [exact Hrun|exact Hlen].
Defined.

Lemma swap_bootstrap_spec_witness :
  exists s' f', swap_bootstrap (inr 1) 0 (set_vnodes {[1 := Vfile 0 (fun _ => 0)]} sample) = Ret (tt, s') /\
    k_vnodes s' !! 1 = Some f' /\ NUMBERENTRIES * PAGE_SIZE <= vf_size f'.
Proof.
  destruct (swap_bootstrap_spec 1 0 (set_vnodes {[1 := Vfile 0 (fun _ => 0)]} sample)
    (Vfile 0 (fun _ => 0)) memfile_ok ltac:(by eexists) ltac:(by split)) as (s' & f' & Hrun & _ & Hf & Hsz & _).
  exists s', f'. split; [exact Hrun|]. split; [exact Hf|exact Hsz].
Defined.

End Swap.
