(* ===== verification/AddrSpace.v ===== *)
(** * Address spaces and the page fault handler: [addrspace.c]

    [Module As] gives the routines of [kern/vm/addrspace.c] (option
    [projectc1]) and [proc_getas]/[proc_setas] of [kern/proc/proc.c], which
    they use.  [vm_fault] is composed of one definition per branch.  The
    theorems describe every outcome of a fault: bad faults, a page that is in
    memory, a page loaded on demand from the executable compared with the
    contents the segment prescribes, and a fault that needs a victim. *)

From S2P Require Import Prelude Sync KState Coremap PageTable Stats Tlb Swapfile.

Module As.
Import VmStats Swap.

Definition DUMBVM_STACKPAGES : Z := 18.
Definition VM_FAULT_READ : Z := 0.
Definition VM_FAULT_WRITE : Z := 1.
Definition VM_FAULT_READONLY : Z := 2.

(** ** [proc_getas] and [proc_setas] *)

Definition proc_getas : K (option addrspace) :=
  cur ← gets k_cur;
  match cur with
  | None => mret None
  | Some proc =>
      k_acquire (p_lock (vp_id proc));;
      cur ← gets k_cur;
      let as_ := cur ≫= vp_addrspace in
      k_release (p_lock (vp_id proc));;
      mret as_
  end.

Definition proc_setas (newas : option addrspace) : K (option addrspace) :=
  cur ← gets k_cur;
  kassert (bool_decide (is_Some cur)) "proc != NULL";;
  proc ← valid cur "proc";
  k_acquire (p_lock (vp_id proc));;
  modify (set_cur (Some (Vmproc (vp_id proc) (vp_pid proc) newas)));;
  k_release (p_lock (vp_id proc));;
  mret (vp_addrspace proc).

Definition curproc_pid : K Z :=
  cur ← gets k_cur;
  p ← valid cur "curproc";
  mret (vp_pid p).

Section Routines.
Context `{Vnops}.

(** The file-static variables of [addrspace.c] that [vm_bootstrap] sets and no
    other routine reads; they are the result of the definition. *)
Record vm_static := VmStatic {
  vs_nRamFrames : Z;
  vs_freeRamFrames : option (list Z);
  vs_allocSize : option (list Z);
  vs_allocTableActive : Z;
}.

(** [ok1], [ok2]: whether the two [kmalloc] calls succeed; the other arguments
    are those of the routines called. *)
Definition vm_bootstrap (ok1 ok2 : bool) (opened : Z + Z) (junk : Z)
    (ptok : bool) (ptmem : option (list entry)) (cmok1 cmok2 : bool) : K vm_static :=
  size ← Ram.ram_getsize;
  let n := Z.quot (s32 size) PAGE_SIZE in
  if negb ok1 then mret (VmStatic n None None 0)
  else if negb ok2 then mret (VmStatic n None None 0)
  else
    k_acquire vm_slock;;
    k_release vm_slock;;
    swap_bootstrap opened junk;;
    Pt.page_table_init ptok ptmem;;
    Cm.coremap_bootstrap cmok1 cmok2;;
    Vtlb.tlb_bootstrap;;
    init_stats;;
    mret (VmStatic n (Some (replicate (Z.to_nat n) 0)) (Some (replicate (Z.to_nat n) 0)) 1).

Definition vm_can_sleep : K unit :=
  c ← gets (fun s => y_cpu (k_sync s));
  if cpu_exists c then
    kassert (c_spinlocks c =? 0) "curcpu->c_spinlocks == 0";;
    kassert (negb (t_in_interrupt c)) "curthread->t_in_interrupt == 0"
  else mret tt.

Definition alloc_kpages (npages : Z) : K Z :=
  vm_can_sleep;;
  pa ← Cm.getppages npages;
  if pa =? 0 then mret 0 else mret (PADDR_TO_KVADDR pa).

Definition free_kpages (addr : Z) : K unit :=
  active ← Cm.isTableActive;
  if active =? 0 then mret tt
  else
    let paddr := u32 (addr - MIPS_KSEG0) in
    Cm.freeppages paddr;;
    mret tt.

(** [ok]: whether [kmalloc] succeeds; [junk]: the field [fi], not initialised. *)
Definition as_create (ok : bool) (junk : file_info) : option addrspace :=
  if ok then Some (Addrspace 0 0 0 0 0 0 junk) else None.

Definition as_copy (ok : bool) (junk : file_info) (old : option addrspace) : Z * option addrspace :=
  match as_create ok junk with
  | None => (ENOMEM, None)
  | Some newas => (0, Some newas)
  end.

Definition as_destroy : K unit :=
  pid ← curproc_pid;
  Pt.page_table_remove_on_pids pid;;
  pid ← curproc_pid;
  swap_remove_pid pid.

Definition as_activate : K unit :=
  as_ ← proc_getas;
  match as_ with
  | None => mret tt
  | Some _ => pid ← curproc_pid; Vtlb.reset_tlb_pid_different pid
  end.

Definition as_deactivate : K unit := mret tt.

Definition as_define_region (a : addrspace) (vaddr sz offset readable writeable executable : Z) :
    K (Z * addrspace) :=
  let sz2 := sz in
  vm_can_sleep;;
  let sz := u32 (sz + Z.land vaddr (not32 PAGE_FRAME)) in
  let vaddr := Z.land vaddr PAGE_FRAME in
  let sz := Z.land (u32 (sz + PAGE_SIZE - 1)) PAGE_FRAME in
  let npages := sz / PAGE_SIZE in
  let fi := as_fi a in
  mret (if as_vbase1 a =? 0 then
    (0, Addrspace vaddr npages (as_vbase2 a) (as_npages2 a) (as_stackpbase a) (allocated_pages a)
          (FileInfo offset sz2 (data_offset fi) (data_sz fi) (fi_v fi)))
  else if as_vbase2 a =? 0 then
    (0, Addrspace (as_vbase1 a) (as_npages1 a) vaddr npages (as_stackpbase a) (allocated_pages a)
          (FileInfo (code_offset fi) (code_sz fi) offset sz2 (fi_v fi)))
  else (ENOSYS, a)).

Definition as_prepare_load (a : addrspace) : Z := 0.
Definition as_complete_load (a : addrspace) : Z := 0.

(** The return value and [*stackptr]. *)
Definition as_define_stack (a : addrspace) : Z * Z := (0, USERSTACK).

Definition vm_tlbshootdown : K unit := panic "vm tried to do tlb shootdown?!".

Definition read_elf_page (v_node destPhAdd len offset : Z) : K Z :=
  r ← vn_read v_node offset len;
  modify (fun s => set_mem (mem_write destPhAdd r.2 (k_mem s)) s);;
  if negb (r.1 =? 0) then mret r.1
  else if negb (len - Z.of_nat (length r.2) =? 0) then mret ENOEXEC
  else mret r.1.

(** ** [vm_fault] *)

(** Where a page of the process is put: the physical address and [index_tlb],
    or [None] for the early [return 0]. *)
Definition get_frame (pid : Z) : K (option (Z * Z)) :=
  a ← deref_as;
  got ← (if MAX_ALLOCATED_PAGES <=? allocated_pages a then mret 0 else Cm.getppages 1);
  if got =? 0 then
    r ← Pt.page_table_replacement pid;
    index_tlb ← Pt.page_table_get_Status_on_Index r.1;
    match r with
    | (index_page_to_replace, Some e) =>
        swap_out pid (e_vaddr e) (e_permission_flag e) (u32 (index_page_to_replace * PAGE_SIZE));;
        add_allocated (-1);;
        mret (Some (u32 (index_page_to_replace * PAGE_SIZE), index_tlb))
    | (_, None) => mret None
    end
  else mret (Some (got, -1)).

(** How much of a segment of [npages] pages from [vbase] to [vtop], with [sz]
    bytes at [offset] in the file, the page at [faultaddress] gets. *)
Definition page_size_to_read (faultaddress vbase vtop npages sz offset : Z) : Z :=
  let d := Z.land offset (not32 PAGE_FRAME) in
  if faultaddress =? vbase then
    if sz <? PAGE_SIZE - d then sz else u32 (PAGE_SIZE - d)
  else if faultaddress =? u32 (vtop - PAGE_SIZE) then
    let size_to_read := u32 (sz - u32 (u32 (npages - 1) * PAGE_SIZE)) in
    if negb (d =? 0) then u32 (size_to_read - d) else size_to_read
  else PAGE_SIZE.

Definition page_dest (faultaddress vbase offset paddr : Z) : Z :=
  u32 (paddr + (if faultaddress =? vbase then Z.land offset (not32 PAGE_FRAME) else 0)).

Definition page_offset (faultaddress vbase offset : Z) : Z :=
  if faultaddress =? vbase then offset else Z.land offset PAGE_FRAME + faultaddress - vbase.

Definition status_with (status index_tlb : Z) : Z :=
  if negb (index_tlb =? -1) then Z.lor status (u32 (index_tlb * 4)) else status.

(** Code and data segments (lines 428-486 and 488-544): [status0] is the status
    before the TLB index is added. *)
Definition segment_fault (pid faultaddress vbase vtop npages sz offset status0 : Z) :
    K (Z + Z * Z) :=
  fr ← get_frame pid;
  match fr with
  | None => mret (inl 0)
  | Some (paddr, index_tlb) =>
      add_allocated 1;;
      increment_page_faults_zeroed;;
      as_zero_region paddr 1;;
      a ← deref_as;
      result ← read_elf_page (fi_v (as_fi a)) (page_dest faultaddress vbase offset paddr)
                 (page_size_to_read faultaddress vbase vtop npages sz offset)
                 (page_offset faultaddress vbase offset);
      increment_page_faults_disk;;
      increment_page_faults_elf;;
      Pt.page_table_add_entry (s32 faultaddress) paddr (u32 pid) (status_with status0 index_tlb);;
      mret (inr (paddr, index_tlb))
  end.

(** The stack (lines 546-577). *)
Definition stack_fault (pid faultaddress status0 : Z) : K (Z + Z * Z) :=
  fr ← get_frame pid;
  match fr with
  | None => mret (inl 0)
  | Some (paddr, index_tlb) =>
      add_allocated 1;;
      increment_page_faults_zeroed;;
      as_zero_region paddr 1;;
      Pt.page_table_add_entry (s32 faultaddress) paddr (u32 pid) (status_with status0 index_tlb);;
      mret (inr (paddr, index_tlb))
  end.

(** The search for the page (lines 394-581): [inl rc] is a [return rc]. *)
Definition locate_page (a : addrspace) (pid faultaddress : Z) : K (Z + Z * Z) :=
  let vbase1 := as_vbase1 a in
  let vtop1 := u32 (vbase1 + u32 (as_npages1 a * PAGE_SIZE)) in
  let vbase2 := as_vbase2 a in
  let vtop2 := u32 (vbase2 + u32 (as_npages2 a * PAGE_SIZE)) in
  let stackbase := USERSTACK - DUMBVM_STACKPAGES * PAGE_SIZE in
  let stacktop := USERSTACK in
  found ← Pt.page_table_get_paddr_entry pid faultaddress;
  match found with
  | Some (paddr, status) =>
      increment_tlb_reloads;;
      mret (inr (paddr, -1))
  | None =>
      r ← swap_in pid faultaddress;
      match r with
      | (1, Some paddr) =>
          status ← Pt.page_table_get_Status_on_Index (Z.shiftr paddr 12);
          increment_page_faults_disk;;
          mret (inr (paddr, -1))
      | _ =>
          if (vbase1 <=? faultaddress) && (faultaddress <? vtop1) then
            segment_fault pid faultaddress vbase1 vtop1 (as_npages1 a)
              (code_sz (as_fi a)) (code_offset (as_fi a)) 0x01
          else if (vbase2 <=? faultaddress) && (faultaddress <? vtop2) then
            segment_fault pid faultaddress vbase2 vtop2 (as_npages2 a)
              (data_sz (as_fi a)) (data_offset (as_fi a)) 0
          else if (stackbase <=? faultaddress) && (faultaddress <? stacktop) then
            stack_fault pid faultaddress 0
          else mret (inl EFAULT)
      end
  end.

(** The end of the routine (lines 583-593). *)
Definition load_tlb (pid faultaddress paddr index_tlb : Z) : K Z :=
  kassert (Z.land paddr PAGE_FRAME =? paddr) "(paddr & PAGE_FRAME) == paddr";;
  let ehi := Z.lor faultaddress (u32 (pid * 2 ^ 6)) in
  let elo := Z.lor (Z.lor paddr Vtlb.TLBLO_DIRTY) Vtlb.TLBLO_VALID in
  index_tlb ← Vtlb.add_entry index_tlb ehi elo;
  kassert (negb (index_tlb =? -1)) "index_tlb != -1";;
  Pt.page_table_set_status_at_index (Z.shiftr paddr 12) (index_tlb * 4);;
  mret 0.

Inductive fault_result := Returned (rc : Z) | ThreadExit.

Definition vm_fault (faulttype faultaddress : Z) : K fault_result :=
  let faultaddress := Z.land faultaddress PAGE_FRAME in
  if faulttype =? VM_FAULT_READONLY then
    _ ← proc_getas;
    as_destroy;;
    mret ThreadExit
  else if (faulttype =? VM_FAULT_READ) || (faulttype =? VM_FAULT_WRITE) then
    increment_tlb_faults;;
    cur ← gets k_cur;
    match cur with
    | None => mret (Returned EFAULT)
    | Some p =>
        as_ ← proc_getas;
        match as_ with
        | None => mret (Returned EFAULT)
        | Some a =>
            kassert (negb (as_vbase1 a =? 0)) "as->as_vbase1 != 0";;
            kassert (negb (as_npages1 a =? 0)) "as->as_npages1 != 0";;
            kassert (negb (as_vbase2 a =? 0)) "as->as_vbase2 != 0";;
            kassert (negb (as_npages2 a =? 0)) "as->as_npages2 != 0";;
            kassert (Z.land (as_vbase1 a) PAGE_FRAME =? as_vbase1 a) "as_vbase1 aligned";;
            kassert (Z.land (as_vbase2 a) PAGE_FRAME =? as_vbase2 a) "as_vbase2 aligned";;
            kassert (Z.land (as_stackpbase a) PAGE_FRAME =? as_stackpbase a) "as_stackpbase aligned";;
            r ← locate_page a (vp_pid p) faultaddress;
            match r with
            | inl rc => mret (Returned rc)
            | inr (paddr, index_tlb) =>
                rc ← load_tlb (vp_pid p) faultaddress paddr index_tlb;
                mret (Returned rc)
            end
        end
    end
  else mret (Returned EINVAL).

End Routines.

(** ** Which bytes of a segment a page gets *)

Section Pages.

(** The number of pages [as_define_region] gives a segment of [sz] bytes that
    starts [d] bytes into its first page. *)
Definition region_pages (d sz : Z) : Z := (d + sz + PAGE_SIZE - 1) / PAGE_SIZE.

Context (vbase sz offset paddr : Z).
Let d := offset mod PAGE_SIZE.
Let npages := region_pages d sz.
Let vtop := vbase + npages * PAGE_SIZE.
Hypothesis vbase_aligned : vbase mod PAGE_SIZE = 0.
Hypothesis vbase_pos : 0 < vbase.
Hypothesis sz_pos : 0 < sz.
Hypothesis top_ok : vbase + d + sz + PAGE_SIZE <= 2 ^ 31.
Hypothesis offset_ok : 0 <= offset < 2 ^ 31.

Lemma npages_bounds : (npages - 1) * PAGE_SIZE < d + sz <= npages * PAGE_SIZE /\ 1 <= npages.
Proof. unfold npages, region_pages, d in *. plia. Qed.

Lemma vtop_bound : vtop < 2 ^ 31 + PAGE_SIZE.
Proof. pose proof npages_bounds. unfold vtop. unfold d in *. plia. Qed.

Lemma page_dest_first : 0 <= paddr < 2 ^ 30 -> page_dest vbase vbase offset paddr = paddr + d.
Proof.
  intros Hp. unfold page_dest. rewrite Z.eqb_refl, land_not_PAGE_FRAME.
  apply u32_id. unfold d, PAGE_SIZE. lia.
Qed.

Lemma page_dest_other k :
  0 < k -> 0 <= paddr < 2 ^ 30 -> page_dest (vbase + k * PAGE_SIZE) vbase offset paddr = paddr.
Proof.
  intros Hk Hp. unfold page_dest. rewrite (proj2 (Z.eqb_neq _ _)) by plia.
  rewrite Z.add_0_r. apply u32_id. lia.
Qed.

Lemma page_offset_k k :
  0 <= k -> page_offset (vbase + k * PAGE_SIZE) vbase offset =
    if k =? 0 then offset else offset - d + k * PAGE_SIZE.
Proof.
  intros Hk. unfold page_offset. destruct (Z.eqb_spec k 0) as [->|Hne].
  - rewrite (proj2 (Z.eqb_eq _ _)) by lia. done.
  - rewrite (proj2 (Z.eqb_neq _ _)) by plia. rewrite land_PAGE_FRAME by lia. unfold d. lia.
Qed.

(** The bytes of the segment that lie in page [k]. *)
Definition bytes_in_page (k : Z) : Z :=
  Z.min (d + sz) ((k + 1) * PAGE_SIZE) - Z.max d (k * PAGE_SIZE).

Lemma page_size_to_read_k k :
  0 <= k < npages ->
  page_size_to_read (vbase + k * PAGE_SIZE) vbase vtop npages sz offset =
    if (k =? npages - 1) && negb (k =? 0) then u32 (bytes_in_page k - 2 * d)
    else bytes_in_page k.
Proof.
  intros Hk. pose proof npages_bounds as [Hn Hn1]. pose proof vtop_bound.
  assert (0 <= d < PAGE_SIZE) as Hd by (unfold d; plia).
  unfold page_size_to_read, bytes_in_page. rewrite land_not_PAGE_FRAME. fold d.
  destruct (Z.eqb_spec k 0) as [->|Hk0].
  - rewrite (proj2 (Z.eqb_eq _ _)), andb_false_r by lia.
    destruct (Z.ltb_spec sz (PAGE_SIZE - d)); [|rewrite u32_id]; plia.
  - rewrite (proj2 (Z.eqb_neq _ _)) by plia. rewrite (u32_id (vtop - PAGE_SIZE)) by (unfold vtop in *; plia).
    destruct (Z.eqb_spec k (npages - 1)) as [Hlast|Hmid].
    + rewrite (proj2 (Z.eqb_eq _ _)) by (unfold vtop; plia). cbn [andb negb].
      rewrite (u32_id (npages - 1)), (u32_id ((npages - 1) * PAGE_SIZE)) by plia.
      replace (Z.min (d + sz) ((k + 1) * PAGE_SIZE)) with (d + sz) by plia.
      replace (Z.max d (k * PAGE_SIZE)) with (k * PAGE_SIZE) by plia.
      destruct (Z.eqb_spec d 0) as [Hd0|_]; cbn [negb].
      * f_equal. rewrite Hlast, Hd0. lia.
      * unfold u32. rewrite Zminus_mod_idemp_l. f_equal. rewrite Hlast. lia.
    + rewrite (proj2 (Z.eqb_neq _ _)) by (unfold vtop; plia). cbn [andb]. plia.
Qed.
End Pages.

Lemma demand_page vbase sz offset paddr k :
  let d := offset mod PAGE_SIZE in
  let npages := region_pages d sz in
  let vtop := vbase + npages * PAGE_SIZE in
  let first := Z.max d (k * PAGE_SIZE) in
  vbase mod PAGE_SIZE = 0 -> 0 < vbase -> 0 < sz -> vbase + d + sz + PAGE_SIZE <= 2 ^ 31 ->
  0 <= offset < 2 ^ 31 -> 0 <= paddr < 2 ^ 30 ->
  0 <= k < npages -> (d = 0 \/ k = 0 \/ k < npages - 1) ->
  page_dest (vbase + k * PAGE_SIZE) vbase offset paddr = paddr + (first - k * PAGE_SIZE) /\
  page_offset (vbase + k * PAGE_SIZE) vbase offset = offset + (first - d) /\
  page_size_to_read (vbase + k * PAGE_SIZE) vbase vtop npages sz offset =
    Z.min (d + sz) ((k + 1) * PAGE_SIZE) - first.
Proof.
  intros d npages vtop first Hal Hvb Hsz Htop Hoff Hp Hk Hcase.
  assert (0 <= d < PAGE_SIZE) as Hd by (unfold d; plia). split_and!.
  - destruct (decide (k = 0)) as [->|Hk0].
    + rewrite Z.mul_0_l, Z.add_0_r, (page_dest_first vbase sz) by done. unfold first, d in *. lia.
    + rewrite (page_dest_other vbase sz) by lia. unfold first. plia.
  - rewrite (page_offset_k vbase sz) by (done || lia). fold d.
    destruct (Z.eqb_spec k 0); unfold first; plia.
  - unfold vtop, npages, d. rewrite page_size_to_read_k by done. fold d npages. unfold bytes_in_page. fold d first.
    destruct (Z.eqb_spec k (npages - 1)), (Z.eqb_spec k 0); cbn [andb negb]; try done.
    pose proof (npages_bounds vbase sz offset Hsz Hoff) as [Hnb _]. fold d npages in Hnb.
    replace (2 * d) with 0 by lia. rewrite Z.sub_0_r. apply u32_id. unfold first. plia.
Qed.

(** C33 demand_page_exact. For a segment of [sz] bytes at [offset] in the file,
    mapped from [vbase + offset mod 4096], the page number [k] of the segment is
    filled exactly with the bytes of the segment that lie in it: from the right
    place of the file, at the right place of the frame, and as many as there
    are; for every page if [offset] is page aligned, and for every page but the
    last one otherwise. *)
Theorem demand_page_exact vbase sz offset paddr k :
  let d := offset mod PAGE_SIZE in
  let npages := region_pages d sz in
  let vtop := vbase + npages * PAGE_SIZE in
  let first := Z.max d (k * PAGE_SIZE) in
  vbase mod PAGE_SIZE = 0 -> 0 < vbase -> 0 < sz -> vbase + d + sz + PAGE_SIZE <= 2 ^ 31 ->
  0 <= offset < 2 ^ 31 -> 0 <= paddr < 2 ^ 30 ->
  0 <= k < npages -> (d = 0 \/ k = 0 \/ k < npages - 1) ->
  page_dest (vbase + k * PAGE_SIZE) vbase offset paddr = paddr + (first - k * PAGE_SIZE) /\
  page_offset (vbase + k * PAGE_SIZE) vbase offset = offset + (first - d) /\
  page_size_to_read (vbase + k * PAGE_SIZE) vbase vtop npages sz offset =
    Z.min (d + sz) ((k + 1) * PAGE_SIZE) - first.
Proof. apply demand_page. Qed.

(** demand_page_last_short. When the segment does not start on a page
    boundary and has more than one page, the size computed for its last page is
    too small by twice the offset within the page (the code subtracts the
    offset where it has to be added); if the last page has fewer bytes than
    that, the 32-bit subtraction wraps and the read is given a size of nearly
    4 GB. *)
Theorem demand_page_last_short vbase sz offset :
  let d := offset mod PAGE_SIZE in
  let npages := region_pages d sz in
  let vtop := vbase + npages * PAGE_SIZE in
  let right := d + sz - (npages - 1) * PAGE_SIZE in
  vbase mod PAGE_SIZE = 0 -> 0 < vbase -> 0 < sz -> vbase + d + sz + PAGE_SIZE <= 2 ^ 31 ->
  0 <= offset < 2 ^ 31 -> 1 < npages -> 0 < d ->
  let got := page_size_to_read (vtop - PAGE_SIZE) vbase vtop npages sz offset in
  (2 * d <= right -> got = right - 2 * d) /\ (right < 2 * d -> 2 ^ 32 - 2 * PAGE_SIZE < got).
Proof.
  intros d npages vtop right Hal Hvb Hsz Htop Hoff Hn Hd0 got.
  assert (0 <= d < PAGE_SIZE) as Hd by (unfold d; plia).
  pose proof (npages_bounds vbase sz offset Hsz Hoff) as [Hnb _]. fold d npages in Hnb.
  assert (got = u32 (right - 2 * d)) as ->.
  { unfold got. replace (vtop - PAGE_SIZE) with (vbase + (npages - 1) * PAGE_SIZE) by (unfold vtop; lia).
    unfold vtop, npages, d. rewrite page_size_to_read_k by (done || fold d npages; lia). fold d npages.
    rewrite Z.eqb_refl, (proj2 (Z.eqb_neq _ _)) by lia. cbn [andb negb].
    unfold bytes_in_page. fold d. f_equal. unfold right. plia. }
  assert (0 < right <= PAGE_SIZE) as Hr by (unfold right; plia). clearbody right d.
  split; intros Hc.
  - apply u32_id. plia.
  - assert (u32 (right - 2 * d) = right - 2 * d + 2 ^ 32) as ->; [|plia].
    symmetry. apply (Z.mod_unique _ _ (-1)); plia.
Qed.

(** ** Runs of the fault handler *)

Definition as_ok (a : addrspace) : Prop :=
  as_vbase1 a <> 0 /\ as_npages1 a <> 0 /\ as_vbase2 a <> 0 /\ as_npages2 a <> 0 /\
  Z.land (as_vbase1 a) PAGE_FRAME = as_vbase1 a /\ Z.land (as_vbase2 a) PAGE_FRAME = as_vbase2 a /\
  Z.land (as_stackpbase a) PAGE_FRAME = as_stackpbase a.

(** The VM system is initialised, its locks are free, and process [p] with the
    address space [a] is running. *)
Record vm_ready (s : kst) (es : list entry) (p : vmproc) (a : addrspace) : Prop := {
  vr_quiet : quiet s;
  vr_plock : free (p_lock (vp_id p)) s;
  vr_pt : Pt.ready s es;
  vr_swap : Swap.ready s;
  vr_tlb : Vtlb.ready s;
  vr_cur : k_cur s = Some p;
  vr_as : vp_addrspace p = Some a;
  vr_ok : as_ok a;
}.

(** The state after [increment_tlb_faults]. *)
Definition tick (s : kst) : kst :=
  let t := k_stats s in
  set_stats (Stats (inc (tlb_faults t)) (tlb_faults_free t) (tlb_faults_replace t)
    (tlb_invalidations t) (tlb_reloads t) (page_faults_zeroed t) (page_faults_disk t)
    (page_faults_elf t) (page_faults_swapin t) (page_faults_swapout t) (swapfile_writes t)) s.

Lemma vm_ready_tick s es p a : vm_ready s es p a -> vm_ready (tick s) es p a.
Proof. intros [? ? ? ? ? ? ? ?]. by split. Qed.

Lemma proc_getas_run s p :
  quiet s -> free (p_lock (vp_id p)) s -> k_cur s = Some p ->
  proc_getas s = Ret (vp_addrspace p, s).
Proof.
  intros Hq Hf Hp. unfold proc_getas. mrun. rewrite Hp. enter.
  change (k_cur (hold _ s)) with (k_cur s). rewrite Hp. leave. by rewrite set_sync_hold.
Qed.

Definition is_access (ft : Z) : Prop := ft = VM_FAULT_READ \/ ft = VM_FAULT_WRITE.

Section Fault.
Context `{Vnops}.

Lemma vm_fault_enter s es p a ft va :
  vm_ready s es p a -> is_access ft ->
  vm_fault ft va s =
    (r ← locate_page a (vp_pid p) (Z.land va PAGE_FRAME);
     match r with
     | inl rc => mret (Returned rc)
     | inr (paddr, index_tlb) =>
         rc ← load_tlb (vp_pid p) (Z.land va PAGE_FRAME) paddr index_tlb;
         mret (Returned rc)
     end) (tick s).
Proof.
  intros [Hq Hpl Hpt Hsw Ht Hc Ha (H1 & H2 & H3 & H4 & H5 & H6 & H7)] Hft. unfold vm_fault.
  rewrite (proj2 (Z.eqb_neq ft VM_FAULT_READONLY)) by (destruct Hft; subst; done).
  replace ((ft =? VM_FAULT_READ) || (ft =? VM_FAULT_WRITE)) with true
    by (destruct Hft; subst; done).
  unfold increment_tlb_faults, upd_stats. mrun. fold (tick s).
  change (k_cur (tick s)) with (k_cur s). rewrite Hc.
  rewrite (bind_run _ _ _ _ _ (proc_getas_run (tick s) p Hq Hpl Hc)), Ha.
  rewrite !bind_kassert by (rewrite ?H5, ?H6, ?H7, ?Z.eqb_refl; try done; by apply negb_true_iff, Z.eqb_neq).
  done.
Qed.

(** The words loaded into the TLB for a page at frame [i]. *)
Definition tlb_hi (pid fa : Z) : Z := Z.lor fa (u32 (pid * 2 ^ 6)).
Definition tlb_lo (i : nat) : Z :=
  Z.lor (Z.lor (Z.of_nat i * PAGE_SIZE) Vtlb.TLBLO_DIRTY) Vtlb.TLBLO_VALID.

Lemma load_tlb_run s es pid fa i e :
  Pt.ready s es -> Vtlb.ready s -> es !! i = Some e ->
  exists slot, 0 <= slot < Vtlb.NUM_TLB /\
    load_tlb pid fa (Z.of_nat i * PAGE_SIZE) (-1) s =
      Ret (0, Pt.with_entries
                (<[i := Pt.with_status (Z.lor (e_status e) (u8 (slot * 4))) e]> es)
                (Vtlb.after_add (tlb_hi pid fa) (tlb_lo i) s)) /\
    arr_get (tlb_hw (k_tlb (Vtlb.after_add (tlb_hi pid fa) (tlb_lo i) s))) slot =
      Some (tlb_hi pid fa, tlb_lo i).
Proof.
  intros (Hq & Hf & Hpt & Hlen) Ht He. pose proof (lookup_lt_Some _ _ _ He) as Hlt.
  pose proof Ht as (_ & _ & Hwf). pose proof (Vtlb.next_slot_range _ Hwf) as Hr.
  exists (Vtlb.next_slot (k_tlb s)). split; [done|]. split.
  - unfold load_tlb. rewrite bind_kassert.
    2:{ apply Z.eqb_eq. apply page_aligned_mod; [plia|]. by rewrite Z.mod_mul. }
    rewrite (bind_run _ _ _ _ _ (Vtlb.tlb_add_entry_run _ _ _ Ht)).
    rewrite bind_kassert by (apply negb_true_iff, Z.eqb_neq; lia).
    unfold Pt.page_table_set_status_at_index. mrun. rewrite (Pt.bind_deref _ _ es) by done.
    rewrite Z.shiftr_div_pow2 by lia. change (2 ^ 12) with PAGE_SIZE. rewrite Z.div_mul by done.
    mrun. rewrite (bind_valid _ _ _ _ e) by (cbn; by rewrite arr_get_nat).
    unfold Pt.put_entries, arr_set. mrun. cbn [next_entry]. by rewrite Nat2Z.id.
  - destruct Hwf as (_ & Hh & _). apply arr_get_set_eq. unfold Vtlb.NUM_TLB in Hr. lia.
Qed.

Lemma swap_in_absent s pid va :
  Swap.ready s -> Forall (fun t => is_page pid va t = false) (k_track s) ->
  swap_in pid va s = Ret ((0, None), s).
Proof.
  intros (Hq & Hf & Hlen) Hno. unfold swap_in. enter.
  change (k_track (hold swap_slock s)) with (k_track s).
  destruct (Z.ltb_spec (first_index (is_page pid va) (k_track s) 0) (Z.of_nat (length (k_track s)))) as [Hlt|Hge].
  - destruct (first_index_spec (is_page pid va) (k_track s) 0) as (_ & _ & H3).
    destruct (H3 ltac:(lia)) as (t & Ht & Hp). rewrite (Forall_lookup_1 _ _ _ _ Hno Ht) in Hp. done.
  - leave. by rewrite set_sync_hold.
Qed.

(** The page is neither in memory nor in the swap file. *)
Definition absent (s : kst) (es : list entry) (pid fa : Z) : Prop :=
  Pt.last_match pid fa es = None /\ Forall (fun t => is_page pid fa t = false) (k_track s).

(** The branches of [locate_page] for an absent page. *)
Definition by_segment (a : addrspace) (pid fa : Z) : K (Z + Z * Z) :=
  let vtop1 := u32 (as_vbase1 a + u32 (as_npages1 a * PAGE_SIZE)) in
  let vtop2 := u32 (as_vbase2 a + u32 (as_npages2 a * PAGE_SIZE)) in
  if (as_vbase1 a <=? fa) && (fa <? vtop1) then
    segment_fault pid fa (as_vbase1 a) vtop1 (as_npages1 a) (code_sz (as_fi a)) (code_offset (as_fi a)) 1
  else if (as_vbase2 a <=? fa) && (fa <? vtop2) then
    segment_fault pid fa (as_vbase2 a) vtop2 (as_npages2 a) (data_sz (as_fi a)) (data_offset (as_fi a)) 0
  else if (USERSTACK - DUMBVM_STACKPAGES * PAGE_SIZE <=? fa) && (fa <? USERSTACK) then
    stack_fault pid fa 0
  else mret (inl EFAULT).

Lemma locate_absent s es p a fa :
  vm_ready s es p a -> absent s es (vp_pid p) fa ->
  locate_page a (vp_pid p) fa s = by_segment a (vp_pid p) fa s.
Proof.
  intros Hr [Hno Htr]. unfold locate_page.
  rewrite (bind_run _ _ _ _ _ (Pt.get_paddr_entry_run _ _ _ _ (vr_pt _ _ _ _ Hr))), Hno.
  by rewrite (bind_run _ _ _ _ _ (swap_in_absent _ _ _ (vr_swap _ _ _ _ Hr) Htr)).
Qed.

(** C35 vm_fault_errors. Four kinds of fault are reported by a return value: an
    unknown fault type gives [EINVAL], a fault without a process or without an
    address space [EFAULT], and so does a page that is nowhere and lies outside
    code, data and stack; nothing but the count of TLB faults changes.  (Other
    faults that cannot be resolved are not reported: [vm_fault_at_limit] and
    [vm_fault_code_page] for a page the process may not have and for a failed
    read.) *)
Theorem vm_fault_errors s ft va :
  (ft <> VM_FAULT_READ -> ft <> VM_FAULT_WRITE -> ft <> VM_FAULT_READONLY ->
     vm_fault ft va s = Ret (Returned EINVAL, s)) /\
  (is_access ft -> k_cur s = None -> vm_fault ft va s = Ret (Returned EFAULT, tick s)) /\
  (forall p, is_access ft -> quiet s -> free (p_lock (vp_id p)) s ->
     k_cur s = Some p -> vp_addrspace p = None ->
     vm_fault ft va s = Ret (Returned EFAULT, tick s)) /\
  (forall es p a, let fa := Z.land va PAGE_FRAME in
     is_access ft -> vm_ready s es p a -> absent s es (vp_pid p) fa ->
     (fa < as_vbase1 a \/ u32 (as_vbase1 a + u32 (as_npages1 a * PAGE_SIZE)) <= fa) ->
     (fa < as_vbase2 a \/ u32 (as_vbase2 a + u32 (as_npages2 a * PAGE_SIZE)) <= fa) ->
     (fa < USERSTACK - DUMBVM_STACKPAGES * PAGE_SIZE \/ USERSTACK <= fa) ->
     vm_fault ft va s = Ret (Returned EFAULT, tick s)).
Proof.
  split_and!.
  - intros H0 H1 H2. unfold vm_fault. by rewrite !(proj2 (Z.eqb_neq _ _)) by done.
  - intros [->| ->] Hc; unfold vm_fault; cbn [Z.eqb orb VM_FAULT_READ VM_FAULT_WRITE VM_FAULT_READONLY Pos.eqb];
      unfold increment_tlb_faults, upd_stats; mrun; simpl; by rewrite Hc.
  - intros p [->| ->] Hq Hf Hc Ha; unfold vm_fault;
      cbn [Z.eqb orb VM_FAULT_READ VM_FAULT_WRITE VM_FAULT_READONLY Pos.eqb];
      unfold increment_tlb_faults, upd_stats; mrun; fold (tick s);
      change (k_cur (tick s)) with (k_cur s); rewrite Hc;
      by rewrite (bind_run _ _ _ _ _ (proc_getas_run (tick s) p Hq Hf Hc)), Ha.
  - intros es p a fa Hft Hr Hab H1 H2 H3. rewrite (vm_fault_enter _ _ _ _ _ _ Hr Hft). fold fa.
    assert (locate_page a (vp_pid p) fa (tick s) = Ret (inl EFAULT, tick s)) as Hl.
    { rewrite (locate_absent _ es p a fa (vm_ready_tick _ _ _ _ Hr) Hab). unfold by_segment.
      repeat (case_match; [exfalso; lia|]). done. }
    by rewrite (bind_run _ _ _ _ _ Hl).
Qed.

(** vm_fault_resident. A fault on a page that is in memory returns 0: a slot
    of the TLB then maps the page, for this process, to its frame, writable
    and valid; memory, coremap, swap and the page table (but for the status of
    the page) are unchanged and no lock is left held. *)
Theorem vm_fault_resident s es p a ft va i e :
  let fa := Z.land va PAGE_FRAME in
  vm_ready s es p a -> is_access ft ->
  Pt.last_match (vp_pid p) fa es = Some i -> es !! i = Some e ->
  exists s' slot st, vm_fault ft va s = Ret (Returned 0, s') /\
    0 <= slot < Vtlb.NUM_TLB /\
    arr_get (tlb_hw (k_tlb s')) slot = Some (tlb_hi (vp_pid p) fa, tlb_lo i) /\
    k_mem s' = k_mem s /\ k_cm s' = k_cm s /\ k_track s' = k_track s /\ k_sync s' = k_sync s /\
    k_pt s' = Some (Table (<[i := Pt.with_status st e]> es)).
Proof.
  intros fa Hr Hft Hm He. rewrite (vm_fault_enter _ _ _ _ _ _ Hr Hft). fold fa.
  pose proof (vm_ready_tick _ _ _ _ Hr) as [_ _ Hpt _ Ht _ _ _].
  assert (locate_page a (vp_pid p) fa (tick s) =
    (increment_tlb_reloads;; mret (inr (Z.of_nat i * PAGE_SIZE, -1))) (tick s)) as Hl.
  { unfold locate_page. by rewrite (bind_run _ _ _ _ _ (Pt.get_paddr_entry_run _ _ _ _ Hpt)), Hm. }
  unfold increment_tlb_reloads, upd_stats in Hl. rewrite bind_modify in Hl.
  rewrite (bind_run _ _ _ _ _ Hl).
  match goal with |- context [mbind _ (load_tlb _ _ _ _) ?st] =>
    destruct (load_tlb_run st es (vp_pid p) fa i e Hpt Ht He) as (slot & Hs & Hrun & Hg) end.
  rewrite (bind_run _ _ _ _ _ Hrun).
  eexists _, slot, _. split_and!; [reflexivity|lia|lia|exact Hg|done..].
Qed.

(** ** Loading on demand *)

Context (inv : kst -> Prop) `{!FrameAllocator Cm.getppages inv}.

Lemma get_frame_fresh s p a pid pa s1 :
  k_cur s = Some p -> vp_addrspace p = Some a -> allocated_pages a < MAX_ALLOCATED_PAGES ->
  Cm.getppages 1 s = Ret (pa, s1) -> pa <> 0 ->
  get_frame pid s = Ret (Some (pa, -1), s1).
Proof.
  intros Hc Ha Hal Hg Hpa. unfold get_frame. rewrite (bind_deref_as _ _ _ _ Hc Ha).
  rewrite (proj2 (Z.leb_gt _ _)) by done. rewrite (bind_run _ _ _ _ _ Hg).
  by rewrite (proj2 (Z.eqb_neq _ _)).
Qed.

(** A process whose page can get the fresh frame [pa]. *)
Record fresh (s : kst) (es : list entry) (p : vmproc) (a : addrspace) (pa : Z) (s1 : kst)
    (n0 : nat) (e0 : entry) : Prop := {
  fr_vm : vm_ready s es p a;
  fr_inv : inv s;
  fr_below : allocated_pages a < MAX_ALLOCATED_PAGES;
  fr_alloc : Cm.getppages 1 s = Ret (pa, s1);
  fr_some : pa <> 0;
  fr_covers : lastpaddr (k_ram s) <= Z.of_nat (length es) * PAGE_SIZE;
  fr_pid : 0 <= vp_pid p < 2 ^ 31;
  fr_index : n0 = Z.to_nat (vp_pid p / PAGE_SIZE);
  fr_entry : es !! n0 = Some e0;
}.

Lemma fresh_alloc s es p a pa s1 n0 e0 :
  fresh s es p a pa s1 n0 e0 ->
  s1 = set_cm (k_cm s1) (set_ram (k_ram s1) s) /\ 0 < pa < 2 ^ 30 /\
  pa = Z.of_nat (Z.to_nat (pa / PAGE_SIZE)) * PAGE_SIZE /\
  (Z.to_nat (pa / PAGE_SIZE) < length es)%nat.
Proof.
  intros [_ Hinv _ Hg Hpa Hcov _ _ _].
  destruct (alloc_one s Hinv) as (pa' & s1' & Hg' & _ & Hs1 & _ & Hb).
  rewrite Hg in Hg'. apply Ret_inj in Hg' as [<- <-].
  destruct Hb as [?|(Hpos & Hmod & Hle & Hmax)]; [done|]. split_and!; [done|plia..].
Qed.

(** What a resolved demand fault leaves before the TLB is loaded. *)
Definition loaded (s s' : kst) (es : list entry) (a : addrspace) (p : vmproc) (pa fa st : Z)
    (n0 : nat) (e0 : entry) (m : pmem) : Prop :=
  k_mem s' = m /\ k_sync s' = k_sync s /\ k_tlb s' = k_tlb s /\ k_track s' = k_track s /\
  k_pt s' = Some (Table (<[n0 := Entry pa (s32 fa) st (e_permission_flag e0)
                                   (s32 (Pt.last_position (s32 fa) es + 1))]> es)).

Lemma segment_fault_run s es p a pa s1 n0 e0 fa vbase vtop npages sz offset st f r :
  fresh s es p a pa s1 n0 e0 ->
  opened s (fi_v (as_fi a)) f ->
  vop_read f (page_offset fa vbase offset) (page_size_to_read fa vbase vtop npages sz offset) = r ->
  exists s', segment_fault (vp_pid p) fa vbase vtop npages sz offset st s = Ret (inr (pa, -1), s') /\
    loaded s s' es a p pa fa st n0 e0
      (mem_write (page_dest fa vbase offset pa) r.2 (mem_zero pa PAGE_SIZE (k_mem s))).
Proof.
  intros Hfr Hf Hr. destruct (fresh_alloc _ _ _ _ _ _ _ _ Hfr) as (Hs1 & Hpa & _).
  destruct Hfr as [[Hq Hpl Hpt Hsw Ht Hc Ha Hok] _ Hal Hg Hne _ Hpid Hn0 He0]. unfold segment_fault.
  rewrite (bind_run _ _ _ _ _ (get_frame_fresh s p a _ pa s1 Hc Ha Hal Hg Hne)).
  assert (k_cur s1 = Some p) as Hc1 by (by rewrite Hs1).
  rewrite (bind_run _ _ _ _ _ (add_allocated_run 1 s1 p a Hc1 Ha)).
  unfold increment_page_faults_zeroed, as_zero_region, upd_stats. mrun.
  erewrite bind_deref_as by (simpl; done). unfold read_elf_page. mrun.
  erewrite bind_run; [|apply vn_read_run; rewrite Hs1; exact Hf]. rewrite Hr. mrun.
  match goal with |- context [mbind ?k (if ?b then ?x else ?y) ?st] =>
    assert (exists v, (if b then x else y) st = Ret (v, st)) as [v Hv]
      by (by repeat destruct (negb _); eexists) end.
  rewrite (bind_run _ _ _ _ _ Hv). unfold increment_page_faults_disk, increment_page_faults_elf, upd_stats. mrun.
  erewrite bind_run; [|eapply (Pt.add_entry_run _ es); [|rewrite u32_id; lia
    |rewrite u32_id by lia; exact Hn0|exact He0]; rewrite Hs1; exact Hpt].
  eexists. split; [reflexivity|]. rewrite Hs1. by split_and!.
Qed.

Lemma stack_fault_run s es p a pa s1 n0 e0 fa st :
  fresh s es p a pa s1 n0 e0 ->
  exists s', stack_fault (vp_pid p) fa st s = Ret (inr (pa, -1), s') /\
    loaded s s' es a p pa fa st n0 e0 (mem_zero pa PAGE_SIZE (k_mem s)).
Proof.
  intros Hfr. destruct (fresh_alloc _ _ _ _ _ _ _ _ Hfr) as (Hs1 & Hpa & _).
  destruct Hfr as [[Hq Hpl Hpt Hsw Ht Hc Ha Hok] _ Hal Hg Hne _ Hpid Hn0 He0]. unfold stack_fault.
  rewrite (bind_run _ _ _ _ _ (get_frame_fresh s p a _ pa s1 Hc Ha Hal Hg Hne)).
  assert (k_cur s1 = Some p) as Hc1 by (by rewrite Hs1).
  rewrite (bind_run _ _ _ _ _ (add_allocated_run 1 s1 p a Hc1 Ha)).
  unfold increment_page_faults_zeroed, as_zero_region, upd_stats. mrun.
  erewrite bind_run; [|eapply (Pt.add_entry_run _ es); [|rewrite u32_id; lia
    |rewrite u32_id by lia; exact Hn0|exact He0]; rewrite Hs1; exact Hpt].
  eexists. split; [reflexivity|]. rewrite Hs1. by split_and!.
Qed.

Lemma vm_ready_frame s s' es : Pt.ready s es -> Vtlb.ready s ->
  k_sync s' = k_sync s -> k_tlb s' = k_tlb s ->
  Vtlb.ready s' /\ forall es', k_pt s' = Some (Table es') -> length es' = length es -> Pt.ready s' es'.
Proof.
  intros (Hq & Hf & _ & Hlen) (_ & Hf' & Hwf) Hs Ht. unfold Vtlb.ready, Pt.ready, quiet, free.
  rewrite Hs, Ht. split; [done|]. intros es' Hpt Hl. split_and!; [done..|lia].
Qed.

(** From a located fresh page to the end of the handler. *)
Lemma finish_fault s s' es p a pa s1 n0 e0 fa st m :
  fresh s es p a pa s1 n0 e0 -> loaded s s' es a p pa fa st n0 e0 m ->
  exists s2 slot es2 i, load_tlb (vp_pid p) fa pa (-1) s' = Ret (0, s2) /\
    pa = Z.of_nat i * PAGE_SIZE /\ 0 <= slot < Vtlb.NUM_TLB /\
    arr_get (tlb_hw (k_tlb s2)) slot = Some (tlb_hi (vp_pid p) fa, tlb_lo i) /\
    k_mem s2 = m /\ k_sync s2 = k_sync s /\ k_track s2 = k_track s /\ Pt.ready s2 es2 /\
    (forall j d, es2 !! j = Some d -> exists d0, e_pid d0 = e_pid d /\ e_vaddr d0 = e_vaddr d /\
       (es !! j = Some d0 \/ e_pid d0 = s32 fa)).
Proof.
  intros Hfr (Hm & Hsy & Htl & Htr & Hpt').
  destruct (fresh_alloc _ _ _ _ _ _ _ _ Hfr) as (_ & _ & Hpa & Hlt).
  set (i := Z.to_nat (pa / PAGE_SIZE)) in *. set (es' := <[n0 := _]> es) in *.
  destruct Hfr as [[_ _ Hpt _ Ht _ _ _] _ _ _ _ _ _ _ He0].
  destruct (vm_ready_frame s s' es Hpt Ht Hsy Htl) as [Ht' Hpts].
  assert (length es' = length es) as Hl by (apply length_insert). specialize (Hpts es' Hpt' Hl).
  destruct (lookup_lt_is_Some_2 es' i) as [e He]; [by rewrite Hl|].
  destruct (load_tlb_run s' es' (vp_pid p) fa i e Hpts Ht' He) as (slot & Hs & Hrun & Hg).
  eexists _, slot, _, i. split_and!; [rewrite Hpa; exact Hrun|done|lia|lia|exact Hg|exact Hm|exact Hsy|exact Htr| |].
  - destruct Hpts as (Hq & Hf & _ & Hlen). split_and!; [exact Hq|exact Hf|done|]. by rewrite length_insert.
  - intros j d. intros [(-> & <- & _)|[Hne Hj]]%list_lookup_insert_Some.
    + exists e. split_and!; [done..|]. apply list_lookup_insert_Some in He as [(_ & <- & _)|[_ He]]; auto.
    + exists d. split_and!; [done..|]. apply list_lookup_insert_Some in Hj as [(_ & <- & _)|[_ Hj]]; auto.
Qed.

Lemma tick_fresh s es p a pa s1 n0 e0 :
  fresh (tick s) es p a pa s1 n0 e0 -> is_access VM_FAULT_READ -> vm_ready s es p a.
Proof. intros [[? ? ? ? ? ? ? ?] _ _ _ _ _ _ _ _] _. by split. Qed.

Lemma bits_beyond x n k : 0 <= x < 2 ^ k -> k <= n -> Z.testbit x n = false.
Proof.
  intros Hx Hk. destruct (decide (x = 0)) as [->|]; [apply Z.bits_0|]. destruct (decide (k < 0)); [rewrite Z.pow_neg_r in Hx; lia|].
  apply Z.bits_above_log2; [lia|]. apply Z.log2_lt_pow2; [lia|]. apply Z.lt_le_trans with (2 ^ k); [lia|]. apply Z.pow_le_mono_r; lia.
Qed.

(** A page number over a page offset. *)
Lemma page_part k y : 0 <= k < 2 ^ 20 -> 0 <= y < 2 ^ 12 -> Z.land (Z.lor (k * PAGE_SIZE) y) 0xfffff000 = k * PAGE_SIZE.
Proof.
  intros Hk Hy. unfold PAGE_SIZE. change 4096 with (2 ^ 12). rewrite <- Z.shiftl_mul_pow2 by lia.
  apply Z.bits_inj'. intros n Hn. rewrite Z.land_spec, Z.lor_spec. change 0xfffff000 with (Z.shiftl (Z.ones 20) 12).
  rewrite !Z.shiftl_spec by lia. destruct (decide (n < 12)); [rewrite !(Z.testbit_neg_r _ (n - 12)) by lia; by rewrite andb_false_r|].
  rewrite (bits_beyond y n 12), orb_false_r by lia. destruct (decide (n < 32)).
  - rewrite Z.ones_spec_low by lia. by rewrite andb_true_r.
  - by rewrite (bits_beyond k _ 20) by lia.
Qed.

Lemma offset_part k y m : 0 <= k -> 0 <= m < 2 ^ 12 -> Z.land (Z.lor (k * PAGE_SIZE) y) m = Z.land y m.
Proof.
  intros Hk Hm. rewrite Z.land_lor_distr_l. unfold PAGE_SIZE. change 4096 with (2 ^ 12). rewrite <- Z.shiftl_mul_pow2 by lia.
  assert (Z.land (Z.shiftl k 12) m = 0) as ->; [|apply Z.lor_0_l].
  apply Z.bits_inj'. intros n Hn. rewrite Z.land_spec, Z.bits_0, Z.shiftl_spec by lia.
  destruct (decide (n < 12)); [by rewrite Z.testbit_neg_r by lia|]. by rewrite (bits_beyond m n 12), andb_false_r by lia.
Qed.

(** The entry maps the page [fa] of process [pid] to the frame at [pa], for reading and writing. *)
Definition tlb_maps (e : Z * Z) (pid fa pa : Z) : Prop :=
  Z.land e.1 0xfffff000 = fa /\ Z.shiftr (Z.land e.1 Vtlb.TLBHI_PID) 6 = pid /\ Z.land e.2 0xfffff000 = pa /\
  Z.land e.2 Vtlb.TLBLO_VALID = Vtlb.TLBLO_VALID /\ Z.land e.2 Vtlb.TLBLO_DIRTY = Vtlb.TLBLO_DIRTY.

(** What [vm_fault] writes, for a pid that fits in the field of the TLB. *)
Lemma tlb_entry_maps pid fa i :
  0 <= pid < 64 -> fa mod PAGE_SIZE = 0 -> 0 <= fa < 2 ^ 32 -> Z.of_nat i * PAGE_SIZE < 2 ^ 32 ->
  tlb_maps (tlb_hi pid fa, tlb_lo i) pid fa (Z.of_nat i * PAGE_SIZE).
Proof.
  intros Hp Hfa Hr Hi. unfold tlb_maps, tlb_hi, tlb_lo. cbn [fst snd].
  assert (exists k, fa = k * PAGE_SIZE /\ 0 <= k < 2 ^ 20) as (k & -> & Hk) by (exists (fa / PAGE_SIZE); plia).
  rewrite (u32_id (pid * 2 ^ 6)) by lia. rewrite <- !Z.lor_assoc.
  rewrite !page_part, !offset_part by first [done|lia|plia]. split_and!; try done.
  rewrite <- (Z.shiftl_mul_pow2 pid) by lia. change Vtlb.TLBHI_PID with (Z.shiftl (Z.ones 6) 6).
  rewrite <- Z.shiftl_land, Z.shiftr_shiftl_l, Z.shiftl_0_r, Z.land_ones by lia. apply Z.mod_small. lia.
Qed.

(** C10 vm_fault_code_page. A fault on a page of a page-aligned code segment that
    is nowhere yet, by a process with a pid below 64 (the width of the field in
    the TLB), with a frame available, returns 0: a valid and writable entry of the
    TLB maps this page of this process to the fresh frame, and the frame holds the
    bytes that reading the executable delivered, followed by zeros.  When the read
    is complete these are the bytes of the segment that belong to the page; a read
    that fails or is short goes unnoticed, as its result is ignored.  Memory outside
    the frame is unchanged and no lock is left held. *)
Theorem vm_fault_code_page s es p a ft va pa s1 n0 e0 f rc bs k :
  let fa := Z.land va PAGE_FRAME in
  let sz := code_sz (as_fi a) in
  let offset := code_offset (as_fi a) in
  fresh (tick s) es p a pa s1 n0 e0 -> is_access ft -> absent s es (vp_pid p) fa ->
  offset mod PAGE_SIZE = 0 -> 0 <= offset < 2 ^ 31 -> 0 < sz ->
  as_npages1 a = region_pages 0 sz -> as_vbase1 a mod PAGE_SIZE = 0 -> 0 < as_vbase1 a ->
  as_vbase1 a + sz + PAGE_SIZE <= 2 ^ 31 ->
  fa = as_vbase1 a + k * PAGE_SIZE -> 0 <= k < as_npages1 a ->
  vp_pid p < 64 -> opened s (fi_v (as_fi a)) f ->
  vop_read f (offset + k * PAGE_SIZE) (Z.min sz ((k + 1) * PAGE_SIZE) - k * PAGE_SIZE) = (rc, bs) ->
  Z.of_nat (length bs) <= Z.min sz ((k + 1) * PAGE_SIZE) - k * PAGE_SIZE ->
  exists s' slot e, vm_fault ft va s = Ret (Returned 0, s') /\
    0 <= slot < Vtlb.NUM_TLB /\ arr_get (tlb_hw (k_tlb s')) slot = Some e /\ tlb_maps e (vp_pid p) fa pa /\
    (forall j, 0 <= j < PAGE_SIZE -> k_mem s' (pa + j) = default 0 (bs !! Z.to_nat j)) /\
    (forall x, x < pa \/ pa + PAGE_SIZE <= x -> k_mem s' x = k_mem s x) /\
    k_sync s' = k_sync s.
Proof.
  intros fa sz offset Hfr Hft Hab Hal Hoff Hsz Hnp Hva Hvp Htop Hfa Hk Hpid Hf Hrd Hlen.
  pose proof (tick_fresh _ _ _ _ _ _ _ _ Hfr ltac:(by left)) as Hr.
  destruct (fresh_alloc _ _ _ _ _ _ _ _ Hfr) as (_ & Hpa & _).
  rewrite (vm_fault_enter _ _ _ _ _ _ Hr Hft). fold fa.
  pose proof (npages_bounds (as_vbase1 a) sz offset Hsz Hoff) as [Hnb Hn1].
  rewrite Hal, <- Hnp in Hnb, Hn1. rewrite Z.add_0_l in Hnb.
  assert (u32 (as_vbase1 a + u32 (as_npages1 a * PAGE_SIZE)) = as_vbase1 a + as_npages1 a * PAGE_SIZE) as Hvt.
  { rewrite (u32_id (as_npages1 a * PAGE_SIZE)), u32_id by plia. done. }
  destruct (demand_page (as_vbase1 a) sz offset pa k) as (Hd1 & Hd2 & Hd3);
    rewrite ?Hal, <- ?Hnp; try done; try lia.
  rewrite Hal, <- Hnp, <- Hfa, ?Z.add_0_l, ?Z.max_r, ?Z.sub_0_r in * by plia.
  destruct (segment_fault_run (tick s) es p a pa s1 n0 e0 fa (as_vbase1 a)
    (as_vbase1 a + as_npages1 a * PAGE_SIZE) (as_npages1 a) sz offset 1 f (rc, bs) Hfr Hf)
    as (s' & Hseg & Hld); [by rewrite Hd2, Hd3|].
  destruct (finish_fault _ _ _ _ _ _ _ _ _ _ _ _ Hfr Hld)
    as (s2 & slot & es2 & i & Hrun & Hi & Hslot & Hg & Hm & Hsy & _).
  assert (locate_page a (vp_pid p) fa (tick s) = Ret (inr (pa, -1), s')) as Hl.
  { rewrite (locate_absent _ es p a fa (vm_ready_tick _ _ _ _ Hr) Hab). unfold by_segment.
    rewrite Hvt, (proj2 (Z.leb_le _ _)), (proj2 (Z.ltb_lt _ _)) by plia. exact Hseg. }
  rewrite (bind_run _ _ _ _ _ Hl), (bind_run _ _ _ _ _ Hrun).
  assert (tlb_maps (tlb_hi (vp_pid p) fa, tlb_lo i) (vp_pid p) fa pa) as Hmaps.
  { rewrite Hi. apply tlb_entry_maps; [pose proof (fr_pid _ _ _ _ _ _ _ _ Hfr); lia| |plia|plia].
    rewrite Hfa, Z.mod_add by (unfold PAGE_SIZE; lia). exact Hva. }
  exists s2, slot, (tlb_hi (vp_pid p) fa, tlb_lo i). split_and!; [done|lia|lia|done|done| | |done].
  - intros j Hj. rewrite Hm, Hd1, Z.sub_diag, Z.add_0_r. cbn [snd].
    destruct (bs !! Z.to_nat j) as [b|] eqn:Hb; simpl.
    + rewrite <- (mem_write_in pa bs (mem_zero pa PAGE_SIZE (k_mem (tick s))) _ _ Hb).
      by rewrite Z2Nat.id by lia.
    + apply lookup_ge_None in Hb. rewrite mem_write_out by lia. unfold mem_zero.
      by rewrite (proj2 (Z.leb_le _ _)), (proj2 (Z.ltb_lt _ _)) by lia.
  - intros x Hx. rewrite Hm, Hd1, Z.sub_diag, Z.add_0_r. cbn [snd].
    rewrite mem_write_out by plia. unfold mem_zero.
    destruct (Z.leb_spec pa x), (Z.ltb_spec x (pa + PAGE_SIZE)); try done; lia.
Qed.

(** An address in the stack and in neither segment. *)
Definition in_stack (a : addrspace) (fa : Z) : Prop :=
  USERSTACK - DUMBVM_STACKPAGES * PAGE_SIZE <= fa < USERSTACK /\
  u32 (as_vbase1 a + u32 (as_npages1 a * PAGE_SIZE)) <= fa /\
  u32 (as_vbase2 a + u32 (as_npages2 a * PAGE_SIZE)) <= fa.

Lemma locate_stack s es p a fa :
  vm_ready s es p a -> absent s es (vp_pid p) fa -> in_stack a fa ->
  locate_page a (vp_pid p) fa s = stack_fault (vp_pid p) fa 0 s.
Proof.
  intros Hr Hab (Hst & H1 & H2). rewrite (locate_absent _ es p a fa Hr Hab). unfold by_segment.
  rewrite !(proj2 (Z.ltb_ge _ _)) by lia. rewrite !andb_false_r.
  by rewrite (proj2 (Z.leb_le _ _)), (proj2 (Z.ltb_lt _ _)) by lia.
Qed.

(** vm_fault_forgets_page. A first fault on a stack page, with a frame
    available, returns 0 with the page mapped in the TLB and zero-filled, but
    the arguments of [page_table_add_entry] are in the wrong order: the page
    table has no entry for the page afterwards, so that the next miss on it is
    treated as a first fault again and the contents are lost. *)
Theorem vm_fault_forgets_page s es p a ft va pa s1 n0 e0 :
  let fa := Z.land va PAGE_FRAME in
  fresh (tick s) es p a pa s1 n0 e0 -> is_access ft -> absent s es (vp_pid p) fa -> in_stack a fa ->
  vp_pid p < PAGE_SIZE ->
  exists s' slot i, vm_fault ft va s = Ret (Returned 0, s') /\
    pa = Z.of_nat i * PAGE_SIZE /\
    arr_get (tlb_hw (k_tlb s')) slot = Some (tlb_hi (vp_pid p) fa, tlb_lo i) /\
    (forall j, 0 <= j < PAGE_SIZE -> k_mem s' (pa + j) = 0) /\
    Pt.page_table_get_paddr_entry (vp_pid p) fa s' = Ret (None, s') /\
    Forall (fun t => is_page (vp_pid p) fa t = false) (k_track s').
Proof.
  intros fa Hfr Hft Hab Hst Hpid. pose proof (tick_fresh _ _ _ _ _ _ _ _ Hfr ltac:(by left)) as Hr.
  rewrite (vm_fault_enter _ _ _ _ _ _ Hr Hft). fold fa.
  destruct (stack_fault_run (tick s) es p a pa s1 n0 e0 fa 0 Hfr) as (s' & Hseg & Hld).
  destruct (finish_fault _ _ _ _ _ _ _ _ _ _ _ _ Hfr Hld)
    as (s2 & slot & es2 & i & Hrun & Hi & Hslot & Hg & Hm & Hsy & Htr & Hpt2 & Hes2).
  rewrite <- (locate_stack _ es _ a _ (vm_ready_tick _ _ _ _ Hr) Hab Hst) in Hseg.
  rewrite (bind_run _ _ _ _ _ Hseg), (bind_run _ _ _ _ _ Hrun).
  exists s2, slot, i. split_and!; [done|done|done| | |].
  - intros j Hj. rewrite Hm. unfold mem_zero.
    by rewrite (proj2 (Z.leb_le _ _)), (proj2 (Z.ltb_lt _ _)) by lia.
  - rewrite (Pt.get_paddr_entry_run _ _ _ _ Hpt2). pose proof (Pt.last_match_spec (vp_pid p) fa es2) as Hls.
    destruct (Pt.last_match (vp_pid p) fa es2) as [j|]; [|done]. exfalso.
    destruct Hls as (d & Hd & Hdp & Hdv). destruct (Hes2 _ _ Hd) as (d0 & Hp0 & Hv0 & [He|He]).
    + destruct Hab as [Hno _]. pose proof (Pt.last_match_spec (vp_pid p) fa es) as Hls. rewrite Hno in Hls.
      destruct (Hls _ _ He). split; congruence.
    + destruct Hst as (Hst & _). unfold USERSTACK, MIPS_KSEG0, DUMBVM_STACKPAGES in Hst.
      rewrite s32_id in He by plia. plia.
  - rewrite Htr. apply Hab.
Qed.

(** vm_fault_at_limit. When the process already has its 50 pages, a fault on a
    new stack page has no defined outcome: without a victim the status of page
    table entry -1 is read; with a victim, once it is swapped out, the TLB index
    taken from its status makes [add_entry] use its uninitialised variable. *)
Theorem vm_fault_at_limit s es Q p a ft va n0 e0 :
  let fa := Z.land va PAGE_FRAME in
  vm_ready s es p a -> Pt.rep es Q -> is_access ft -> absent s es (vp_pid p) fa -> in_stack a fa ->
  MAX_ALLOCATED_PAGES <= allocated_pages a -> 0 <= vp_pid p < 2 ^ 31 ->
  n0 = Z.to_nat (vp_pid p / PAGE_SIZE) -> es !! n0 = Some e0 ->
  match Q (vp_pid p) with
  | [] => vm_fault ft va s = Undef "next_entry[index]"
  | n :: _ => forall e i f f',
      can_swap_out (tick s) es (vp_pid p) (e_vaddr e) n e i f f' ->
      vm_fault ft va s = Undef "index"
  end.
Proof.
  intros fa Hr HQ Hft Hab Hst Hlim Hpid Hn0 He0. rewrite (vm_fault_enter _ _ _ _ _ _ Hr Hft). fold fa.
  pose proof (vm_ready_tick _ _ _ _ Hr) as Hr'. pose proof Hr' as [Hq Hpl Hpt Hsw Ht Hc Ha Hok].
  pose proof (locate_stack _ es p a fa Hr' Hab Hst) as Hl. unfold stack_fault, get_frame in Hl.
  rewrite bind_assoc, (bind_deref_as _ _ _ _ Hc Ha), (proj2 (Z.leb_le _ _)) in Hl by done.
  rewrite bind_assoc, bind_ret in Hl. cbn [Z.eqb] in Hl.
  assert (vp_pid p <> -1) as Hneg by lia.
  pose proof (Pt.replacement_run _ _ _ _ Hpt HQ (Hneg : vp_pid p <> -1)) as Hrep.
  rewrite bind_assoc, (bind_run _ _ _ _ _ Hrep) in Hl. clear Hrep.
  pose proof Hpt as (Hq' & Hf' & Hpts & Hlen).
  destruct (Q (vp_pid p)) as [|n q] eqn:HQp.
  - apply bind_undef. rewrite Hl. cbn [fst]. rewrite !bind_assoc. apply bind_undef.
    unfold Pt.page_table_get_Status_on_Index.
    by rewrite (Pt.bind_deref _ _ es).
  - intros e i f f' [_ _ Hva He Hi Hsp Hv Hns Hw]. cbn [fst snd] in Hl.
    rewrite He in Hl. unfold Pt.page_table_get_Status_on_Index in Hl. mrun_in Hl.
    pose proof (lookup_lt_Some _ _ _ He) as Hlt.
    rewrite (Pt.bind_deref _ _ es) in Hl by done. mrun_in Hl.
    cbn [next_entry] in Hl. rewrite arr_get_nat in Hl.
    rewrite (bind_valid _ _ _ _ e) in Hl by done. mrun_in Hl.
    rewrite (u32_id (Z.of_nat n * PAGE_SIZE)) in Hl by plia.
    rewrite (bind_run _ _ _ _ _ (swap_out_run (tick s) es _ _ _ n e f 0 f' i Hsw Hpt
      (proj2 Hva) Hi Hsp Hv Hns Hw He)) in Hl.
    set (es' := Pt.close_gap _ _ _) in *. set (s1 := swapped_out _ _ _ _ _ _ _) in *.
    assert (length es' = length es) as Hles
      by (unfold es', Pt.close_gap; by rewrite length_fmap, length_insert).
    mrun_in Hl. rewrite (bind_run _ _ _ _ _ (add_allocated_run (-1) s1 p a Hc Ha)) in Hl. mrun_in Hl.
    erewrite bind_run in Hl; [|apply add_allocated_run; simpl; done].
    unfold increment_page_faults_zeroed, as_zero_region, upd_stats in Hl. mrun_in Hl.
    destruct (lookup_lt_is_Some_2 es' n0) as [e1 He1]; [rewrite Hles; by eapply lookup_lt_Some|].
    erewrite bind_run in Hl; [|eapply (Pt.add_entry_run _ es'); [|rewrite u32_id; lia
      |rewrite u32_id by lia; exact Hn0|exact He1]; split_and!; [exact Hq'|exact Hf'|done|by rewrite Hles]].
    rewrite (bind_run _ _ _ _ _ Hl). apply bind_undef. unfold load_tlb.
    rewrite bind_kassert by (apply Z.eqb_eq, page_aligned_mod; [plia|by rewrite Z.mod_mul]).
    apply bind_undef. unfold Vtlb.add_entry. destruct Ht as (_ & Hft' & _).
    rewrite bind_acquire by done.
    rewrite (proj2 (Z.eqb_neq _ _)) by (pose proof (u8_range (e_status e)); lia).
    done.
Qed.
End Fault.

(** ** Regions and kernel pages *)

Lemma vm_can_sleep_run s : can_sleep s -> vm_can_sleep s = Ret (tt, s).
Proof.
  intros [H1 H2]. unfold vm_can_sleep. mrun. destruct (cpu_exists _); [|done].
  rewrite bind_kassert by (by rewrite H1). by rewrite H2.
Qed.

Lemma define_region_run s a vaddr sz offset r w x :
  can_sleep s -> 0 <= vaddr -> 0 <= sz -> vaddr + sz + 2 * PAGE_SIZE < 2 ^ 32 ->
  exists rc a', as_define_region a vaddr sz offset r w x s = Ret ((rc, a'), s) /\
    let base := vaddr - vaddr mod PAGE_SIZE in
    let n := region_pages (vaddr mod PAGE_SIZE) sz in
    base <= vaddr /\ vaddr + sz <= base + n * PAGE_SIZE /\ base + n * PAGE_SIZE < vaddr + sz + PAGE_SIZE /\
    if as_vbase1 a =? 0 then
      rc = 0 /\ as_vbase1 a' = base /\ as_npages1 a' = n /\
      code_offset (as_fi a') = offset /\ code_sz (as_fi a') = sz /\
      as_vbase2 a' = as_vbase2 a /\ as_npages2 a' = as_npages2 a
    else if as_vbase2 a =? 0 then
      rc = 0 /\ as_vbase2 a' = base /\ as_npages2 a' = n /\
      data_offset (as_fi a') = offset /\ data_sz (as_fi a') = sz /\
      as_vbase1 a' = as_vbase1 a /\ as_npages1 a' = as_npages1 a
    else rc = ENOSYS /\ a' = a.
Proof.
  intros Hs Hv Hsz Hb. unfold as_define_region. rewrite (bind_run _ _ _ _ _ (vm_can_sleep_run s Hs)).
  rewrite land_not_PAGE_FRAME, (land_PAGE_FRAME vaddr) by plia.
  rewrite (u32_id (sz + vaddr mod PAGE_SIZE)) by plia.
  rewrite (u32_id (sz + vaddr mod PAGE_SIZE + PAGE_SIZE - 1)) by plia.
  rewrite land_PAGE_FRAME by plia.
  replace ((sz + vaddr mod PAGE_SIZE + PAGE_SIZE - 1 -
      (sz + vaddr mod PAGE_SIZE + PAGE_SIZE - 1) mod PAGE_SIZE) / PAGE_SIZE)
    with (region_pages (vaddr mod PAGE_SIZE) sz) by (unfold region_pages; plia).
  unfold region_pages.
  destruct (as_vbase1 a =? 0); [|destruct (as_vbase2 a =? 0)]; eexists _, _;
    (split; [reflexivity|]); split_and!; try done; plia.
Qed.

(** as_define_region_spec. [as_define_region] records the first region as
    code and the second as data: the region recorded starts at the page of
    [vaddr], has the least number of pages that covers
    [vaddr .. vaddr+sz-1], and keeps the file offset and size; a third region
    is refused with [ENOSYS] and changes nothing. *)
Theorem as_define_region_spec s a vaddr sz offset r w x :
  can_sleep s -> 0 <= vaddr -> 0 <= sz -> vaddr + sz + 2 * PAGE_SIZE < 2 ^ 32 ->
  exists rc a', as_define_region a vaddr sz offset r w x s = Ret ((rc, a'), s) /\
    let base := vaddr - vaddr mod PAGE_SIZE in
    let n := region_pages (vaddr mod PAGE_SIZE) sz in
    base <= vaddr /\ vaddr + sz <= base + n * PAGE_SIZE /\ base + n * PAGE_SIZE < vaddr + sz + PAGE_SIZE /\
    if as_vbase1 a =? 0 then
      rc = 0 /\ as_vbase1 a' = base /\ as_npages1 a' = n /\
      code_offset (as_fi a') = offset /\ code_sz (as_fi a') = sz /\
      as_vbase2 a' = as_vbase2 a /\ as_npages2 a' = as_npages2 a
    else if as_vbase2 a =? 0 then
      rc = 0 /\ as_vbase2 a' = base /\ as_npages2 a' = n /\
      data_offset (as_fi a') = offset /\ data_sz (as_fi a') = sz /\
      as_vbase1 a' = as_vbase1 a /\ as_npages1 a' = as_npages1 a
    else rc = ENOSYS /\ a' = a.
Proof. apply define_region_run. Qed.

(** kpages_round_trip. [alloc_kpages] answers 0 and changes nothing, or gives
    a kernel address in the direct-mapped segment; giving that address back to
    [free_kpages] restores the set of live blocks. *)
Theorem kpages_round_trip base s A np :
  Cm.ready s -> Cm.rep base s A -> can_sleep s -> 1 <= np ->
  firstpaddr (k_ram s) + np * PAGE_SIZE < 2 ^ 32 ->
  alloc_kpages np s = Ret (0, s) \/
  exists va s1 s2, alloc_kpages np s = Ret (va, s1) /\
    MIPS_KSEG0 < va < 2 ^ 32 /\ va mod PAGE_SIZE = 0 /\
    Cm.rep base s1 (<[(va - MIPS_KSEG0) / PAGE_SIZE := np]> A) /\
    free_kpages va s1 = Ret (tt, s2) /\ Cm.ready s2 /\ Cm.rep base s2 A.
Proof.
  intros Hrd Hrep Hcs Hnp Hw.
  destruct (Cm.getppages_rep base s A np Hrd Hrep Hnp Hw)
    as (fr & pa & s1 & _ & Hrun & Hrd1 & Hres).
  unfold alloc_kpages. rewrite (bind_run _ _ _ _ _ (vm_can_sleep_run s Hcs)), (bind_run _ _ _ _ _ Hrun).
  destruct Hres as [(-> & -> & _)|(Hpos & Hmod & Hle & Hap & Hrep1)]; [by left|]. right.
  rewrite (proj2 (Z.eqb_neq _ _)) by lia.
  pose proof (Cm.rep_view _ _ _ Hrep) as (fr' & sz & (_ & _ & Hmax) & (_ & _ & Hlast) & _).
  assert (PADDR_TO_KVADDR pa = pa + MIPS_KSEG0) as Hva
    by (apply u32_id; unfold MIPS_KSEG0; plia).
  exists (PADDR_TO_KVADDR pa), s1. rewrite Hva, Z.add_simpl_r.
  assert (A !! (pa / PAGE_SIZE) = None) as Hnone by (apply (Cm.apart_self_None _ _ np); [done|intros st n Hst; exact (Cm.rep_live_pos _ _ _ _ _ Hrep Hst)|done]).
  destruct (Cm.freeppages_rep base s1 _ pa np Hrd1 Hrep1) as (s2 & Hfree & Hrd2 & Hrep2);
    [lia|by rewrite lookup_insert_eq|].
  rewrite delete_insert_id in Hrep2 by done. exists s2. unfold MIPS_KSEG0 in *.
  split_and!; [done|plia|plia|plia|done| |done|done].
  unfold free_kpages. destruct Hrd1 as (Hq & Hf & _). rewrite Cm.bind_isTableActive by done.
  destruct Hrep1 as (fr1 & sz1 & (-> & _) & _). cbn [allocTableActive Z.eqb].
  unfold MIPS_KSEG0. rewrite Z.add_simpl_r, u32_id by plia. by rewrite (bind_run _ _ _ _ _ Hfree).
Qed.

(** *** Concrete runs *)

(** The machine of [Swapfile.v] with the executable behind vnode 2, the page
    table entries [es] and [n] pages accounted to process 7. *)
Definition sample_elf : vfile := Vfile 0x3000 (fun x => x mod 251).
Definition sample_vm (es : list entry) (n : Z) : kst :=
  set_pt (Some (Table es))
    (set_vnodes (<[2 := sample_elf]> (<[1 := Vfile FILESIZE (fun _ => 0)]> ∅)) (sample_swap n)).
Definition sample_proc (n : Z) : vmproc := Vmproc 1 7 (Some (sample_as n)).
Definition no_entries : list entry := replicate 16 Pt.empty_entry.

Lemma sample_vm_ready n : vm_ready (sample_vm no_entries n) no_entries (sample_proc n) (sample_as n).
Proof. split; by vm_compute. Qed.

Lemma sample_vm_ready' n :
  vm_ready (sample_vm Pt.sample_entries n) Pt.sample_entries (sample_proc n) (sample_as n).
Proof. split; by vm_compute. Qed.

Definition sample_frame : kst :=
  match Cm.getppages 1 (tick (sample_vm no_entries 2)) with Ret (_, s) => s | _ => sample end.

Lemma sample_fresh :
  fresh alloc_inv (tick (sample_vm no_entries 2)) no_entries (sample_proc 2) (sample_as 2)
    (4 * PAGE_SIZE) sample_frame 0 Pt.empty_entry.
Proof.
  split; [apply vm_ready_tick, sample_vm_ready| |by vm_compute..].
  apply (alloc_inv_local Cm.sample_boot); [done..|by vm_compute|by vm_compute|by vm_compute|].
  split; [apply Cm.sample_boot_ready|]. exists ∅. apply Cm.sample_boot_rep.
Qed.

Lemma sample_absent es fa n :
  Pt.last_match 7 fa es = None -> absent (sample_vm es n) es 7 fa.
Proof. intros Hm. split; [done|]. by apply Forall_replicate. Qed.

Lemma demand_page_exact_witness :
  page_dest (0x400000 + 1 * PAGE_SIZE) 0x400000 0x1000 0x9000 = 0x9000 + (Z.max 0 (1 * PAGE_SIZE) - 1 * PAGE_SIZE) /\
  page_offset (0x400000 + 1 * PAGE_SIZE) 0x400000 0x1000 = 0x1000 + (Z.max 0 (1 * PAGE_SIZE) - 0) /\
  page_size_to_read (0x400000 + 1 * PAGE_SIZE) 0x400000 (0x400000 + 2 * PAGE_SIZE) 2 0x1800 0x1000 =
    Z.min (0 + 0x1800) ((1 + 1) * PAGE_SIZE) - Z.max 0 (1 * PAGE_SIZE).
Proof. apply (demand_page_exact 0x400000 0x1800 0x1000 0x9000 1); first [by vm_compute | by left]. Defined.

Lemma demand_page_last_short_witness :
  2 ^ 32 - 2 * PAGE_SIZE <
  page_size_to_read (0x400000 + 2 * PAGE_SIZE - PAGE_SIZE) 0x400000 (0x400000 + 2 * PAGE_SIZE) 2 0x1000 0x40.
Proof. apply (demand_page_last_short 0x400000 0x1000 0x40); by vm_compute. Defined.

Definition sample_no_as : kst := set_cur (Some (Vmproc 1 7 None)) (sample_vm no_entries 2).

Lemma vm_fault_errors_witness :
  vm_fault 3 0 sample = Ret (Returned EINVAL, sample) /\
  vm_fault 0 0 sample = Ret (Returned EFAULT, tick sample) /\
  vm_fault 0 0 sample_no_as = Ret (Returned EFAULT, tick sample_no_as) /\
  vm_fault 0 0x20000004 (sample_vm no_entries 2) = Ret (Returned EFAULT, tick (sample_vm no_entries 2)).
Proof.
  assert (is_access 0) as Hacc by (by left). split_and!.
  - by apply (proj1 (vm_fault_errors sample 3 0)).
  - by apply (proj1 (proj2 (vm_fault_errors sample 0 0))).
  - apply (proj1 (proj2 (proj2 (vm_fault_errors sample_no_as 0 0))) (Vmproc 1 7 None)); first [exact Hacc|by vm_compute].
  - apply (proj2 (proj2 (proj2 (vm_fault_errors (sample_vm no_entries 2) 0 0x20000004))) no_entries (sample_proc 2) (sample_as 2));
      [exact Hacc|apply sample_vm_ready|by apply sample_absent|right; by vm_compute|right; by vm_compute|left; by vm_compute].
Defined.

Lemma vm_fault_resident_witness :
  exists s' slot, vm_fault VM_FAULT_READ 0x400123 (sample_vm Pt.sample_entries 2) = Ret (Returned 0, s') /\
    arr_get (tlb_hw (k_tlb s')) slot = Some (tlb_hi 7 0x400000, tlb_lo 9).
Proof.
  destruct (vm_fault_resident (sample_vm Pt.sample_entries 2) Pt.sample_entries (sample_proc 2)
    (sample_as 2) VM_FAULT_READ 0x400123 9 sample_page (sample_vm_ready' 2) (or_introl eq_refl)
    ltac:(by vm_compute) ltac:(by vm_compute)) as (s' & slot & st & Hrun & _ & Hg & _).
  exists s', slot. split; [exact Hrun|exact Hg].
Defined.

Lemma vm_fault_code_page_witness :
  exists s', vm_fault VM_FAULT_READ 0x401004 (sample_vm no_entries 2) = Ret (Returned 0, s') /\
    k_mem s' (4 * PAGE_SIZE + 0x123) = (0x1123) mod 251 /\
    k_mem s' (4 * PAGE_SIZE + 0x900) = 0.
Proof.
  destruct (vm_fault_code_page alloc_inv (sample_vm no_entries 2) no_entries (sample_proc 2) (sample_as 2)
    VM_FAULT_READ 0x401004 (4 * PAGE_SIZE) sample_frame 0 Pt.empty_entry sample_elf
    0 (mem_read 0x1000 0x800 (fun x => x mod 251)) 1 sample_fresh (or_introl eq_refl))
    as (s' & slot & e & Hrun & _ & _ & _ & Hmem & _);
    [by apply sample_absent|by vm_compute..|].
  exists s'. split; [exact Hrun|]. split; (rewrite Hmem; [by vm_compute|plia]).
Defined.

Lemma vm_fault_forgets_page_witness :
  exists s', vm_fault VM_FAULT_WRITE 0x7ffffff0 (sample_vm no_entries 2) = Ret (Returned 0, s') /\
    Pt.page_table_get_paddr_entry 7 0x7ffff000 s' = Ret (None, s').
Proof.
  destruct (vm_fault_forgets_page alloc_inv (sample_vm no_entries 2) no_entries (sample_proc 2) (sample_as 2)
    VM_FAULT_WRITE 0x7ffffff0 (4 * PAGE_SIZE) sample_frame 0 Pt.empty_entry sample_fresh (or_intror eq_refl))
    as (s' & slot & i & Hrun & _ & _ & _ & Hl & _); [by apply sample_absent|by vm_compute|by vm_compute|].
  exists s'. split; [exact Hrun|exact Hl].
Defined.

Lemma sample_can_limit :
  can_swap_out (tick (sample_vm Pt.sample_entries 50)) Pt.sample_entries 7 0x400000 9 sample_page 0
    (Vfile FILESIZE (fun _ => 0)) sample_file.
Proof. split; by vm_compute. Qed.

Lemma vm_fault_at_limit_witness :
  vm_fault VM_FAULT_WRITE 0x7ffffff0 (sample_vm Pt.sample_entries 50) = Undef "index".
Proof.
  assert (Pt.sample_Q 7 = [9%nat; 5%nat]) as HQ by done.
  pose proof (vm_fault_at_limit (sample_vm Pt.sample_entries 50) Pt.sample_entries Pt.sample_Q
    (sample_proc 50) (sample_as 50) VM_FAULT_WRITE 0x7ffffff0 0 Pt.empty_entry (sample_vm_ready' 50)
    Pt.sample_pt_rep (or_intror eq_refl) (sample_absent Pt.sample_entries 0x7ffff000 50 eq_refl) ltac:(by vm_compute)
    ltac:(by vm_compute) ltac:(by vm_compute) eq_refl eq_refl) as Hw.
  change (vp_pid (sample_proc 50)) with 7 in Hw. rewrite HQ in Hw.
  exact (Hw sample_page 0 _ _ sample_can_limit).
Defined.

Lemma as_define_region_spec_witness :
  exists rc a', as_define_region (Addrspace 0 0 0 0 0 0 (FileInfo 0 0 0 0 0)) 0x400010 0x1000 0x10 1 0 1 sample =
    Ret ((rc, a'), sample) /\ rc = 0 /\ as_npages1 a' = 2.
Proof.
  destruct (as_define_region_spec sample (Addrspace 0 0 0 0 0 0 (FileInfo 0 0 0 0 0))
    0x400010 0x1000 0x10 1 0 1) as (rc & a' & Hrun & _ & _ & _ & Hrc & _ & Hn & _);
    [by vm_compute..|].
  exists rc, a'. split; [exact Hrun|]. split; [exact Hrc|exact Hn].
Defined.

Lemma kpages_round_trip_witness :
  alloc_kpages 3 Cm.sample_boot = Ret (0, Cm.sample_boot) \/
  exists va s1 s2, alloc_kpages 3 Cm.sample_boot = Ret (va, s1) /\ free_kpages va s1 = Ret (tt, s2) /\
    Cm.rep 1 s2 ∅.
Proof.
  destruct (kpages_round_trip 1 Cm.sample_boot ∅ 3 Cm.sample_boot_ready Cm.sample_boot_rep)
    as [Hz|(va & s1 & s2 & Hrun & _ & _ & _ & Hfree & _ & Hrep)];
    [by vm_compute|done|by vm_compute|left; exact Hz|right].
  exists va, s1, s2. split; [exact Hrun|]. split; [exact Hfree|exact Hrep].
Defined.

End As.
