(* ===== verification/Kmalloc.v ===== *)
(** * The kernel heap: [kern/vm/kmalloc.c]

    [kmalloc] serves requests below 2048 bytes from pages cut into blocks of
    one of eight sizes; larger ones take whole pages.  Every heap page has a
    [struct pageref] on two linked lists (the pages of its block size, all
    pages) and a free list threaded through the first word of its free blocks;
    the pagerefs live in pages of their own, whose entries are tracked by
    [kheaproots].  The debugging modes ([SLOW], [GUARDS], [LABELS], ...) are
    undefined in the source and not modelled.

    Whole pages come from [alloc_kpages] and [free_kpages], used through the
    interface [Kpages]; [KernelHeap.v] runs the heap on the kernel's own
    implementation. *)

From S2P Require Import Prelude Sync KState.

(** ** Pages of kernel memory

    [pages s A]: the blocks handed out by [alloc_kpages] and not yet given back,
    from the kernel address of the first page to the number of pages. *)
Class Kpages := {
  alloc_kpages : Z -> K Z;
  free_kpages : Z -> K unit;
}.

Class KpagesOk `{Kpages} (pages : kst -> gmap Z Z -> Prop) : Prop := {
  pages_quiet s A : pages s A -> quiet s;
  pages_range s A va n : pages s A -> A !! va = Some n ->
    1 <= n /\ va mod PAGE_SIZE = 0 /\ MIPS_KSEG0 < va /\ va + n * PAGE_SIZE <= MIPS_KSEG0 + 2 ^ 29;
  pages_apart s A va n va' n' : pages s A -> A !! va = Some n -> A !! va' = Some n' -> va <> va' ->
    va + n * PAGE_SIZE <= va' \/ va' + n' * PAGE_SIZE <= va;
  pages_local s s' A : k_cm s' = k_cm s -> k_ram s' = k_ram s -> k_sync s' = k_sync s ->
    pages s A -> pages s' A;
  pages_alloc s A np : pages s A -> 1 <= np <= 2 ^ 19 -> exists va s',
    alloc_kpages np s = Ret (va, s') /\ k_mem s' = k_mem s /\ k_sync s' = k_sync s /\
    ((va = 0 /\ s' = s) \/ (va <> 0 /\ A !! va = None /\ pages s' (<[va := np]> A)));
  pages_free s A va n : pages s A -> A !! va = Some n -> exists s',
    free_kpages va s = Ret (tt, s') /\ k_mem s' = k_mem s /\ k_sync s' = k_sync s /\
    pages s' (delete va A);
}.

Module Kheap.

(** ** Data *)
Definition NSIZES : Z := 8.
Definition sizes : list Z := [16; 32; 64; 128; 256; 512; 1024; 2048].
Definition SMALLEST_SUBPAGE_SIZE : Z := 16.
Definition LARGEST_SUBPAGE_SIZE : Z := 2048.
Definition INVALID_OFFSET : Z := 0xffff.
Definition GUARD_OVERHEAD : Z := 0.
Definition LABEL_OVERHEAD : Z := 0.

Record pageref := Pageref {
  next_samesize : Z;
  next_all : Z;
  pageaddr_and_blocktype : Z;
  freelist_offset : Z;
  nfree : Z;
}.

Definition sizeof_pageref : Z := 16.

Definition PR_PAGEADDR (pr : pageref) : Z := Z.land (pageaddr_and_blocktype pr) PAGE_FRAME.
Definition PR_BLOCKTYPE (pr : pageref) : Z := Z.land (pageaddr_and_blocktype pr) (not32 PAGE_FRAME).
Definition MKPAB (pa blk : Z) : Z := Z.lor (Z.land pa PAGE_FRAME) (Z.land blk (not32 PAGE_FRAME)).

Definition NPAGEREFS_PER_PAGE : Z := PAGE_SIZE / sizeof_pageref.
Definition INUSE_WORDS : Z := NPAGEREFS_PER_PAGE / 32.
Definition NUM_PAGEREFPAGES : Z := 16.

Record kheap_root := Root {
  rt_page : Z;
  pagerefs_inuse : list Z;
  numinuse : Z;
}.

(** The globals of the file, the pagerefs by their address (an address that is
    absent has not been written yet), and the rest of the kernel, which holds
    the memory the free lists are threaded through. *)
Record heap := Heap {
  h_k : kst;
  kheaproots : list kheap_root;
  h_refs : gmap Z pageref;
  sizebases : list Z;
  allbase : Z;
}.

Abbreviation H := (M heap).

Definition set_k (k : kst) (h : heap) : heap := Heap k (kheaproots h) (h_refs h) (sizebases h) (allbase h).
Definition set_roots (r : list kheap_root) (h : heap) : heap := Heap (h_k h) r (h_refs h) (sizebases h) (allbase h).
Definition set_refs (r : gmap Z pageref) (h : heap) : heap := Heap (h_k h) (kheaproots h) r (sizebases h) (allbase h).
Definition set_bases (b : list Z) (h : heap) : heap := Heap (h_k h) (kheaproots h) (h_refs h) b (allbase h).
Definition set_allbase (a : Z) (h : heap) : heap := Heap (h_k h) (kheaproots h) (h_refs h) (sizebases h) a.

Definition on_k {A} (c : K A) : H A := zoom h_k set_k c.

Definition lock : H unit := on_k (k_acquire kmalloc_spinlock).
Definition unlock : H unit := on_k (k_release kmalloc_spinlock).

(** The words of kernel memory, big-endian, at addresses of the direct-mapped
    segment. *)
Definition word_bytes (w : Z) : list Z :=
  [Z.shiftr w 24 mod 256; Z.shiftr w 16 mod 256; Z.shiftr w 8 mod 256; w mod 256].
Definition word_at (m : pmem) (va : Z) : Z :=
  let pa := va - MIPS_KSEG0 in
  ((m pa * 256 + m (pa + 1)) * 256 + m (pa + 2)) * 256 + m (pa + 3).
Definition put_word (va w : Z) (m : pmem) : pmem := mem_write (va - MIPS_KSEG0) (word_bytes w) m.

Definition upd_mem (f : pmem -> pmem) : H unit :=
  modify (fun h => set_k (set_mem (f (k_mem (h_k h))) (h_k h)) h).
Definition load32 (va : Z) : H Z := gets (fun h => word_at (k_mem (h_k h)) va).
Definition store32 (va w : Z) : H unit := upd_mem (put_word va w).

Definition get_ref (pr : Z) : H pageref :=
  h ← get; valid (h_refs h !! pr) "pageref".

Definition blank : pageref := Pageref 0 0 0 0 0.

(** Assignment to a field of a pageref. *)
Definition upd_ref (pr : Z) (f : pageref -> pageref) : H unit :=
  modify (fun h => set_refs (<[pr := f (default blank (h_refs h !! pr))]> (h_refs h)) h).

Definition with_same (x : Z) (p : pageref) : pageref :=
  Pageref x (next_all p) (pageaddr_and_blocktype p) (freelist_offset p) (nfree p).
Definition with_all (x : Z) (p : pageref) : pageref :=
  Pageref (next_samesize p) x (pageaddr_and_blocktype p) (freelist_offset p) (nfree p).
Definition with_pab (x : Z) (p : pageref) : pageref :=
  Pageref (next_samesize p) (next_all p) x (freelist_offset p) (nfree p).
Definition with_offset (x : Z) (p : pageref) : pageref :=
  Pageref (next_samesize p) (next_all p) (pageaddr_and_blocktype p) (u16 x) (nfree p).
Definition with_nfree (x : Z) (p : pageref) : pageref :=
  Pageref (next_samesize p) (next_all p) (pageaddr_and_blocktype p) (freelist_offset p) (u16 x).

Definition get_root (w : Z) : H kheap_root :=
  h ← get; valid (arr_get (kheaproots h) w) "kheaproots[whichroot]".
Definition put_root (w : Z) (r : kheap_root) : H unit :=
  modify (fun h => set_roots (arr_set (kheaproots h) w r) h).

(** A loop that follows a list of pagerefs needs no more rounds than there are
    pagerefs; a longer walk is going round in a circle. *)
Definition fuel (h : heap) : nat := S (size (h_refs h)).
Definition circle {A} : H A := fun _ => Spin.

Definition block_size (blktype : Z) : H Z := valid (arr_get sizes blktype) "sizes[blktype]".

Section Ops.
Context `{Kpages}.

(** ** Operations *)

(** [fill_deadbeef]; [len] is a multiple of the word size. *)
Definition fill_deadbeef (vptr len : Z) : H unit :=
  for_each (seqZ 0 (len / 4)) (fun i => store32 (vptr + 4 * i) 0xdeadbeef).

(** [root] is [&kheaproots[w]]. *)
Definition allocpagerefpage (w : Z) : H unit :=
  root ← get_root w;
  kassert (rt_page root =? 0) "root->page == NULL";;
  unlock;;
  va ← on_k (alloc_kpages 1);
  lock;;
  if va =? 0 then mret tt
  else
    kassert (va mod PAGE_SIZE =? 0) "va % PAGE_SIZE == 0";;
    root ← get_root w;
    if negb (rt_page root =? 0) then
      unlock;;
      on_k (free_kpages va);;
      lock;;
      root ← get_root w;
      kassert (negb (rt_page root =? 0)) "root->page != NULL"
    else put_root w (Root va (pagerefs_inuse root) (numinuse root)).

(** [for (k=1,j=0; k!=0; k<<=1,j++)]: the first clear bit of a word. *)
Fixpoint clear_bit (n : nat) (k j word : Z) : option (Z * Z) :=
  match n with
  | O => None
  | S n' =>
      if k =? 0 then None
      else if Z.land word k =? 0 then Some (k, j)
      else clear_bit n' (u32 (Z.shiftl k 1)) (j + 1) word
  end.

(** [for (i=0; i<INUSE_WORDS; i++)]: the index of the first word that is not
    full, with the mask and the number of its first clear bit. *)
Fixpoint clear_word (ws : list Z) (i : Z) : H (option (Z * Z * Z)) :=
  match ws with
  | [] => mret None
  | word :: ws' =>
      if word =? 0xffffffff then clear_word ws' (i + 1)
      else match clear_bit 33 1 0 word with
           | Some (k, j) => mret (Some (i, k, j))
           | None => panic "0"
           end
  end.

(** The body of the loop over the roots once a free entry has been found. *)
Definition take_entry (w i k j : Z) : H Z :=
  root ← get_root w;
  let ws := pagerefs_inuse root in
  word ← valid (arr_get ws i) "pagerefs_inuse[i]";
  put_root w (Root (rt_page root) (arr_set ws i (Z.lor word k)) (u32 (numinuse root + 1)));;
  root ← get_root w;
  (if rt_page root =? 0 then allocpagerefpage w else mret tt);;
  root ← get_root w;
  if rt_page root =? 0 then mret 0
  else mret (rt_page root + sizeof_pageref * (i * 32 + j)).

Fixpoint allocpageref_from (ws : list Z) : H Z :=
  match ws with
  | [] => mret 0
  | w :: ws' =>
      root ← get_root w;
      if NPAGEREFS_PER_PAGE <=? numinuse root then allocpageref_from ws'
      else
        found ← clear_word (pagerefs_inuse root) 0;
        match found with
        | Some (i, k, j) => take_entry w i k j
        | None => allocpageref_from ws'
        end
  end.

Definition allocpageref : H Z := allocpageref_from (seqZ 0 NUM_PAGEREFPAGES).

(** [p - page->refs] as a [size_t]. *)
Definition entry_index (p page : Z) : Z := u32 (Z.shiftr (s32 (p - page)) 4).

Fixpoint freepageref_from (ws : list Z) (p : Z) : H unit :=
  match ws with
  | [] => panic "0"
  | w :: ws' =>
      root ← get_root w;
      if rt_page root =? 0 then
        kassert (numinuse root =? 0) "root->numinuse == 0";;
        freepageref_from ws' p
      else
        let j := entry_index p (rt_page root) in
        if j <? NPAGEREFS_PER_PAGE then
          let i := j / 32 in
          let k := Z.shiftl 1 (j mod 32) in
          word ← valid (arr_get (pagerefs_inuse root) i) "pagerefs_inuse[i]";
          kassert (negb (Z.land word k =? 0)) "(root->pagerefs_inuse[i] & k) != 0";;
          kassert (0 <? numinuse root) "root->numinuse > 0";;
          put_root w (Root (rt_page root) (arr_set (pagerefs_inuse root) i (Z.land word (not32 k)))
                           (numinuse root - 1))
        else freepageref_from ws' p
  end.

Definition freepageref (p : Z) : H unit := freepageref_from (seqZ 0 NUM_PAGEREFPAGES) p.

(** The two lists a pageref is on, and the variable a [struct pageref **] of
    [remove_lists] points at: the head of the list or a field of a pageref. *)
Inductive which := SameSize (blktype : Z) | All.

Definition load_link (l : which) (guy : option Z) : H Z :=
  match guy, l with
  | None, SameSize t => h ← get; valid (arr_get (sizebases h) t) "sizebases[blktype]"
  | None, All => gets allbase
  | Some a, SameSize _ => p ← get_ref a; mret (next_samesize p)
  | Some a, All => p ← get_ref a; mret (next_all p)
  end.

Definition store_link (l : which) (guy : option Z) (x : Z) : H unit :=
  match guy, l with
  | None, SameSize t => modify (fun h => set_bases (arr_set (sizebases h) t x) h)
  | None, All => modify (set_allbase x)
  | Some a, SameSize _ => upd_ref a (with_same x)
  | Some a, All => upd_ref a (with_all x)
  end.

Fixpoint remove_from (n : nat) (l : which) (guy : option Z) (pr : Z) : H unit :=
  match n with
  | O => circle
  | S n' =>
      x ← load_link l guy;
      if x =? 0 then mret tt
      else if x =? pr then next ← load_link l (Some pr); store_link l guy next
      else remove_from n' l (Some x) pr
  end.

Definition remove_lists (pr blktype : Z) : H unit :=
  kassert ((0 <=? blktype) && (blktype <? NSIZES)) "blktype>=0 && blktype<NSIZES";;
  h ← get;
  remove_from (fuel h) (SameSize blktype) None pr;;
  remove_from (fuel h) All None pr.

Fixpoint blocktype_from (l : list Z) (i clientsz : Z) : H Z :=
  match l with
  | [] => panic "Subpage allocator cannot handle allocation"
  | sz :: l' => if clientsz <=? sz then mret i else blocktype_from l' (i + 1) clientsz
  end.

Definition blocktype (clientsz : Z) : H Z := blocktype_from sizes 0 clientsz.

(** The search of [subpage_kmalloc] for a page with a free block; 0 is NULL. *)
Fixpoint find_page (n : nat) (blktype pr : Z) : H Z :=
  if pr =? 0 then mret 0
  else match n with
  | O => circle
  | S n' =>
      p ← get_ref pr;
      kassert (PR_BLOCKTYPE p =? blktype) "PR_BLOCKTYPE(pr) == blktype";;
      if 0 <? nfree p then mret pr else find_page n' blktype (next_samesize p)
  end.

(** Label [doalloc]: take the first block of the free list. *)
Definition doalloc (pr : Z) : H Z :=
  p ← get_ref pr;
  kassert (freelist_offset p <? PAGE_SIZE) "pr->freelist_offset < PAGE_SIZE";;
  let prpage := PR_PAGEADDR p in
  let fla := u32 (prpage + freelist_offset p) in
  let retptr := fla in
  fl ← load32 fla;
  upd_ref pr (with_nfree (nfree p - 1));;
  p ← get_ref pr;
  (if negb (fl =? 0) then
     kassert (0 <? nfree p) "pr->nfree > 0";;
     kassert (u32 (fl - prpage) <? PAGE_SIZE) "fla - prpage < PAGE_SIZE";;
     upd_ref pr (with_offset (fl - prpage))
   else
     kassert (nfree p =? 0) "pr->nfree == 0";;
     upd_ref pr (with_offset INVALID_OFFSET));;
  unlock;;
  mret retptr.

(** The loop that threads the free list of a new page; the last [fl] is the
    result. *)
Definition thread_blocks (prpage sz n : Z) : H Z :=
  store32 prpage 0;;
  for_each (seqZ 1 (n - 1)) (fun i =>
    let fl := prpage + i * sz in
    store32 fl (prpage + (i - 1) * sz);;
    kassert (negb (fl =? prpage + (i - 1) * sz)) "fl != fl->next");;
  mret (prpage + (n - 1) * sz).

(** The set-up of a new page. *)
Definition setup_page (pr prpage blktype : Z) : H unit :=
  upd_ref pr (with_pab (MKPAB prpage blktype));;
  sz ← block_size blktype;
  upd_ref pr (with_nfree (PAGE_SIZE / sz));;
  p ← get_ref pr;
  fla ← thread_blocks prpage sz (nfree p);
  upd_ref pr (with_offset (fla - prpage));;
  p ← get_ref pr;
  kassert (freelist_offset p =? (nfree p - 1) * sz) "pr->freelist_offset == (pr->nfree-1)*sizes[blktype]";;
  h ← get;
  base ← valid (arr_get (sizebases h) blktype) "sizebases[blktype]";
  upd_ref pr (with_same base);;
  modify (fun h => set_bases (arr_set (sizebases h) blktype pr) h);;
  h ← get;
  upd_ref pr (with_all (allbase h));;
  modify (set_allbase pr).

(** The end of [subpage_kmalloc], with a fresh page. *)
Definition use_page (prpage blktype : Z) : H Z :=
  pr ← allocpageref;
  if pr =? 0 then
    unlock;;
    on_k (free_kpages prpage);;
    mret 0
  else
    setup_page pr prpage blktype;;
    doalloc pr.

Definition subpage_kmalloc (sz : Z) : H Z :=
  blktype ← blocktype sz;
  lock;;
  h ← get;
  base ← valid (arr_get (sizebases h) blktype) "sizebases[blktype]";
  pr ← find_page (fuel h) blktype base;
  if negb (pr =? 0) then doalloc pr
  else
    unlock;;
    prpage ← on_k (alloc_kpages 1);
    if prpage =? 0 then mret 0
    else
      kassert (prpage mod PAGE_SIZE =? 0) "prpage % PAGE_SIZE == 0";;
      lock;;
      use_page prpage blktype.

(** The search of [subpage_kfree]: the page that holds [ptraddr]. *)
Fixpoint find_owner (n : nat) (ptraddr pr : Z) : H Z :=
  if pr =? 0 then mret 0
  else match n with
  | O => circle
  | S n' =>
      p ← get_ref pr;
      let prpage := PR_PAGEADDR p in
      let blktype := PR_BLOCKTYPE p in
      kassert ((0 <=? blktype) && (blktype <? NSIZES)) "blktype >= 0 && blktype < NSIZES";;
      if (prpage <=? ptraddr) && (ptraddr <? u32 (prpage + PAGE_SIZE)) then mret pr
      else find_owner n' ptraddr (next_all p)
  end.

(** The part of [subpage_kfree] that puts the block on the free list. *)
Definition push_block (pr : Z) (p : pageref) (ptraddr prpage offset sz : Z) : H unit :=
  fill_deadbeef ptraddr sz;;
  let fl := prpage + offset in
  (if freelist_offset p =? INVALID_OFFSET then store32 fl 0
   else
     let next := prpage + freelist_offset p in
     store32 fl next;;
     kassert (negb (fl =? next)) "fl != fl->next");;
  upd_ref pr (with_offset offset);;
  upd_ref pr (with_nfree (nfree p + 1)).

Definition subpage_kfree (ptr : Z) : H Z :=
  let ptraddr := ptr in
  lock;;
  h ← get;
  pr ← find_owner (fuel h) ptraddr (allbase h);
  if pr =? 0 then unlock;; mret (-1)
  else
    p ← get_ref pr;
    let prpage := PR_PAGEADDR p in
    let blktype := PR_BLOCKTYPE p in
    let offset := u32 (ptraddr - prpage) in
    sz ← block_size blktype;
    if (PAGE_SIZE <=? offset) || negb (offset mod sz =? 0)
    then panic "kfree: subpage free of invalid addr"
    else
      push_block pr p ptraddr prpage offset sz;;
      p ← get_ref pr;
      kassert (nfree p <=? PAGE_SIZE / sz) "pr->nfree <= PAGE_SIZE / sizes[blktype]";;
      (if nfree p =? PAGE_SIZE / sz then
         remove_lists pr blktype;;
         freepageref pr;;
         unlock;;
         on_k (free_kpages prpage)
       else unlock);;
      mret 0.

Definition kmalloc (sz : Z) : H Z :=
  let checksz := u32 (sz + GUARD_OVERHEAD + LABEL_OVERHEAD) in
  if LARGEST_SUBPAGE_SIZE <=? checksz then
    let npages := u32 (sz + PAGE_SIZE - 1) / PAGE_SIZE in
    address ← on_k (alloc_kpages npages);
    if address =? 0 then mret 0
    else
      kassert (address mod PAGE_SIZE =? 0) "address % PAGE_SIZE == 0";;
      mret address
  else subpage_kmalloc sz.

Definition kfree (ptr : Z) : H unit :=
  if ptr =? 0 then mret tt
  else
    r ← subpage_kfree ptr;
    if negb (r =? 0) then
      kassert (ptr mod PAGE_SIZE =? 0) "(vaddr_t)ptr%PAGE_SIZE==0";;
      on_k (free_kpages ptr)
    else mret tt.

(** What [subpage_stats] prints of a page: its address, block size, number of
    free blocks and of blocks, and for every block whether it is free ('.') or
    not ('*'). *)
Record page_stats := PageStats { ps_page : Z; ps_size : Z; ps_nfree : Z; ps_n : Z; ps_map : list bool }.

(** The loop that marks the blocks of the free list in [freemap]. *)
Fixpoint mark_free (fuel : nat) (prpage sz n fl : Z) (freemap : list Z) : H (list Z) :=
  if fl =? 0 then mret freemap
  else match fuel with
  | O => circle
  | S fuel' =>
      let index := u32 (fl - prpage) / sz in
      kassert (index <? n) "index<n";;
      word ← valid (arr_get freemap (index / 32)) "freemap[index/32]";
      next ← load32 fl;
      mark_free fuel' prpage sz n next (arr_set freemap (index / 32) (Z.lor word (Z.shiftl 1 (index mod 32))))
  end.

Definition FREEMAP_WORDS : Z := PAGE_SIZE / (SMALLEST_SUBPAGE_SIZE * 32).

Definition subpage_stats (pr : Z) : H page_stats :=
  p ← get_ref pr;
  let prpage := PR_PAGEADDR p in
  let blktype := PR_BLOCKTYPE p in
  kassert ((0 <=? blktype) && (blktype <? NSIZES)) "blktype >= 0 && blktype < NSIZES";;
  sz ← block_size blktype;
  let n := PAGE_SIZE / sz in
  kassert (n <=? 32 * FREEMAP_WORDS) "n <= 32 * ARRAYCOUNT(freemap)";;
  let zero := replicate (Z.to_nat FREEMAP_WORDS) 0 in
  freemap ← (if negb (freelist_offset p =? INVALID_OFFSET)
             then mark_free (S (Z.to_nat n)) prpage sz n (prpage + freelist_offset p) zero
             else mret zero);
  mret (PageStats prpage sz (nfree p) n
    ((fun i => match arr_get freemap (i / 32) with
               | Some word => negb (Z.land word (Z.shiftl 1 (i mod 32)) =? 0)
               | None => false
               end) <$> seqZ 0 n)).

Fixpoint printstats_from (fuel : nat) (pr : Z) : H (list page_stats) :=
  if pr =? 0 then mret []
  else match fuel with
  | O => circle
  | S fuel' =>
      st ← subpage_stats pr;
      p ← get_ref pr;
      l ← printstats_from fuel' (next_all p);
      mret (st :: l)
  end.

Definition kheap_printstats : H (list page_stats) :=
  lock;;
  h ← get;
  l ← printstats_from (fuel h) (allbase h);
  unlock;;
  mret l.

End Ops.

(** ** Words of memory *)

Definition set_hmem (m : pmem) (h : heap) : heap := set_k (set_mem m (h_k h)) h.

Lemma word_bytes_length w : length (word_bytes w) = 4%nat.
Proof. done. Qed.

Lemma word_of_bytes w : 0 <= w < 2 ^ 32 ->
  ((Z.shiftr w 24 mod 256 * 256 + Z.shiftr w 16 mod 256) * 256 + Z.shiftr w 8 mod 256) * 256 + w mod 256 = w.
Proof. intros Hw. rewrite !Z.shiftr_div_pow2 by lia. change (2 ^ 24) with 16777216. change (2 ^ 16) with 65536. change (2 ^ 8) with 256. lia. Qed.

Lemma word_at_put va w m : 0 <= w < 2 ^ 32 -> word_at (put_word va w m) va = w.
Proof.
  intros Hw. unfold word_at, put_word. set (pa := va - MIPS_KSEG0).
  pose proof (mem_write_in pa (word_bytes w) m 0 _ eq_refl) as E0. rewrite Z.add_0_r in E0.
  pose proof (mem_write_in pa (word_bytes w) m 1 _ eq_refl) as E1.
  pose proof (mem_write_in pa (word_bytes w) m 2 _ eq_refl) as E2.
  pose proof (mem_write_in pa (word_bytes w) m 3 _ eq_refl) as E3.
  change (Z.of_nat 1) with 1 in E1. change (Z.of_nat 2) with 2 in E2. change (Z.of_nat 3) with 3 in E3.
  rewrite E0, E1, E2, E3. by apply word_of_bytes.
Qed.

(** Two memories agree on the kernel addresses from [lo] to [hi]. *)
Definition same_on (m m' : pmem) (lo hi : Z) : Prop :=
  forall va, lo <= va < hi -> m' (va - MIPS_KSEG0) = m (va - MIPS_KSEG0).

(** They agree outside [lo .. hi-1]. *)
Definition same_off (m m' : pmem) (lo hi : Z) : Prop :=
  forall va, va < lo \/ hi <= va -> m' (va - MIPS_KSEG0) = m (va - MIPS_KSEG0).

Lemma same_off_refl m lo hi : same_off m m lo hi.
Proof. done. Qed.

Lemma same_off_trans m1 m2 m3 lo hi : same_off m1 m2 lo hi -> same_off m2 m3 lo hi -> same_off m1 m3 lo hi.
Proof. intros H1 H2 va Hva. by rewrite H2, H1. Qed.

Lemma same_off_weaken m m' lo hi lo' hi' : same_off m m' lo hi -> lo' <= lo -> hi <= hi' -> same_off m m' lo' hi'.
Proof. intros Hs H1 H2 va Hva. apply Hs. lia. Qed.

Lemma same_off_on m m' lo hi lo' hi' : same_off m m' lo hi -> hi' <= lo \/ hi <= lo' -> same_on m m' lo' hi'.
Proof. intros Hs Hd va Hva. apply Hs. lia. Qed.

Lemma same_off_put va w m : same_off m (put_word va w m) va (va + 4).
Proof. intros x Hx. apply mem_write_out. rewrite word_bytes_length. lia. Qed.

Lemma word_at_same m m' va : same_on m m' va (va + 4) -> word_at m' va = word_at m va.
Proof.
  intros Hs. unfold word_at.
  pose proof (Hs va ltac:(lia)) as E0. pose proof (Hs (va + 1) ltac:(lia)) as E1.
  pose proof (Hs (va + 2) ltac:(lia)) as E2. pose proof (Hs (va + 3) ltac:(lia)) as E3.
  replace (va + 1 - MIPS_KSEG0) with (va - MIPS_KSEG0 + 1) in E1 by lia.
  replace (va + 2 - MIPS_KSEG0) with (va - MIPS_KSEG0 + 2) in E2 by lia.
  replace (va + 3 - MIPS_KSEG0) with (va - MIPS_KSEG0 + 3) in E3 by lia.
  by rewrite E0, E1, E2, E3.
Qed.

Lemma set_hmem_twice m m' h : set_hmem m (set_hmem m' h) = set_hmem m h.
Proof. done. Qed.

Lemma store32_run va w h : store32 va w h = Ret (tt, set_hmem (put_word va w (k_mem (h_k h))) h).
Proof. done. Qed.

(** A loop whose body only stores inside a range. *)
Lemma stores_run (f : Z -> Z -> Z) l h lo hi :
  (forall i, i ∈ l -> lo <= f i 0 /\ f i 0 + 4 <= hi) ->
  exists m', for_each l (fun i => store32 (f i 0) (f i 1)) h = Ret (tt, set_hmem m' h) /\
    same_off (k_mem (h_k h)) m' lo hi.
Proof.
  revert h. induction l as [|i l IH]; intros h Hin; cbn [for_each].
  - exists (k_mem (h_k h)). split; [|apply same_off_refl]. by destruct h as [[]].
  - destruct (IH (set_hmem (put_word (f i 0) (f i 1) (k_mem (h_k h))) h)) as (m' & Hrun & Hs).
    { intros j Hj. apply Hin, elem_of_cons. by right. }
    exists m'. rewrite (bind_run _ _ _ _ _ (store32_run _ _ _)), Hrun. split; [done|].
    eapply same_off_trans; [|exact Hs].
    destruct (Hin i) as [H1 H2]; [apply elem_of_cons; by left|].
    eapply same_off_weaken; [apply same_off_put|lia..].
Qed.

Lemma fill_deadbeef_run ptr len h : 0 <= len ->
  exists m', fill_deadbeef ptr len h = Ret (tt, set_hmem m' h) /\
    same_off (k_mem (h_k h)) m' ptr (ptr + len).
Proof.
  intros Hl. apply (stores_run (fun i k => if k =? 0 then ptr + 4 * i else 0xdeadbeef)).
  intros i Hi. apply elem_of_seqZ in Hi. simpl. lia.
Qed.

(** ** Block sizes *)

Definition bsize (t : Z) : Z := default 0 (arr_get sizes t).
Definition nblk (t : Z) : Z := PAGE_SIZE / bsize t.

Lemma bsize_facts t : 0 <= t < 8 ->
  arr_get sizes t = Some (bsize t) /\ 16 <= bsize t <= 2048 /\ nblk t * bsize t = PAGE_SIZE /\ 2 <= nblk t <= 256.
Proof.
  intros Ht. assert (t = 0 \/ t = 1 \/ t = 2 \/ t = 3 \/ t = 4 \/ t = 5 \/ t = 6 \/ t = 7) as Hc by lia.
  repeat (destruct Hc as [->|Hc]; [vm_compute; intuition congruence|]). subst. vm_compute. intuition congruence.
Qed.

Lemma blocktype_run sz h : 0 <= sz < 2048 ->
  exists t, blocktype sz h = Ret (t, h) /\ 0 <= t < 8 /\ sz <= bsize t /\
    (t = 0 \/ bsize (t - 1) < sz).
Proof.
  intros Hsz. unfold blocktype, sizes. cbn [blocktype_from].
  repeat match goal with |- context [?a <=? ?b] => destruct (Z.leb_spec a b) end;
    try lia; eexists; (split; [reflexivity|]); vm_compute bsize; lia.
Qed.

(** ** Free lists *)

(** The free blocks [l] of a page at [addr], threaded through their first words. *)
Fixpoint threaded (m : pmem) (addr sz : Z) (l : list Z) : Prop :=
  match l with
  | [] => True
  | i :: l' =>
      word_at m (addr + i * sz) = match l' with [] => 0 | j :: _ => addr + j * sz end /\
      threaded m addr sz l'
  end.

Lemma threaded_same m m' addr sz l :
  (forall i, i ∈ l -> same_on m m' (addr + i * sz) (addr + i * sz + 4)) ->
  threaded m addr sz l -> threaded m' addr sz l.
Proof.
  induction l as [|i l IH]; intros Hs; [done|]. intros [Hw Ht]. split.
  - rewrite <- Hw. apply word_at_same, Hs, elem_of_cons. by left.
  - apply IH; [|done]. intros j Hj. apply Hs, elem_of_cons. by right.
Qed.

Lemma threaded_push m addr sz i l :
  16 <= sz -> i ∉ l -> (forall j, j ∈ l -> 0 <= j) -> 0 <= i ->
  0 <= addr + match l with [] => 0 | j :: _ => j * sz end < 2 ^ 32 ->
  threaded m addr sz l ->
  threaded (put_word (addr + i * sz) (match l with [] => 0 | j :: _ => addr + j * sz end) m) addr sz (i :: l).
Proof.
  intros Hsz Hni Hpos Hi Hr Ht. split.
  - apply word_at_put. destruct l; lia.
  - eapply threaded_same; [|exact Ht]. intros j Hj. eapply same_off_on; [apply same_off_put|].
    pose proof (Hpos j Hj). assert (i <> j) by (intros ->; done). nia.
Qed.

Lemma rev_seqZ_S n : (0 <= n)%Z -> rev (seqZ 0 (n + 1)) = n :: rev (seqZ 0 n).
Proof.
  intros Hn. rewrite seqZ_app by lia. rewrite rev_app_distr. f_equal.
Qed.

Lemma elem_of_rev_seqZ i n : i ∈ rev (seqZ 0 n) <-> 0 <= i < n.
Proof. rewrite list_elem_of_In, <- in_rev, <- list_elem_of_In, elem_of_seqZ. lia. Qed.

(** The loop of [thread_blocks] from block [k] on, for [j] more blocks. *)
Lemma thread_loop_run addr sz (j : nat) k h :
  16 <= sz -> 1 <= k -> 0 <= addr -> addr + (k + Z.of_nat j) * sz < 2 ^ 32 ->
  threaded (k_mem (h_k h)) addr sz (rev (seqZ 0 k)) ->
  exists m', for_each (seqZ k (Z.of_nat j)) (fun i =>
      store32 (addr + i * sz) (addr + (i - 1) * sz);;
      kassert (negb (addr + i * sz =? addr + (i - 1) * sz)) "fl != fl->next") h
    = Ret (tt, set_hmem m' h) /\
    threaded m' addr sz (rev (seqZ 0 (k + Z.of_nat j))) /\
    same_off (k_mem (h_k h)) m' addr (addr + (k + Z.of_nat j) * sz).
Proof.
  intros Hsz Hk Ha. revert k h Hk. induction j as [|j IH]; intros k h Hk Hr Ht.
  - exists (k_mem (h_k h)). cbn [Z.of_nat] in *. rewrite Z.add_0_r in *. split; [by destruct h as [[]]|].
    split; [done|apply same_off_refl].
  - rewrite seqZ_cons by lia. cbn [for_each]. set (h1 := set_hmem (put_word (addr + k * sz) (addr + (k - 1) * sz) (k_mem (h_k h))) h).
    destruct (IH (k + 1) h1) as (m' & Hrun & Ht' & Hs); [lia|nia| |].
    + rewrite rev_seqZ_S by lia. unfold h1; cbn [set_hmem set_k h_k set_mem k_mem].
      replace (addr + (k - 1) * sz) with
        (match rev (seqZ 0 k) with [] => 0 | j :: _ => addr + j * sz end).
      * apply threaded_push; [lia| | |lia| |done].
        -- intros Hin%elem_of_rev_seqZ. lia.
        -- intros x Hx%elem_of_rev_seqZ. lia.
        -- replace k with (k - 1 + 1) by lia. rewrite rev_seqZ_S by lia. nia.
      * replace (seqZ 0 k) with (seqZ 0 (k - 1 + 1)) by (f_equal; lia). by rewrite rev_seqZ_S by lia.
    + exists m'. mrun. rewrite (bind_run _ _ _ _ _ (store32_run _ _ _)). fold h1.
      rewrite bind_kassert by (destruct (Z.eqb_spec (addr + k * sz) (addr + (k - 1) * sz)); [nia|done]).
      replace (Z.of_nat (S j) - 1) with (Z.of_nat j) by lia. replace (Z.pred (Z.of_nat (S j))) with (Z.of_nat j) by lia.
      replace (Z.succ k) with (k + 1) by lia. rewrite Hrun.
      replace (k + Z.of_nat (S j)) with (k + 1 + Z.of_nat j) by lia. split; [done|]. split; [done|].
      eapply same_off_trans; [|exact Hs]. eapply same_off_weaken; [apply same_off_put|nia..].
Qed.

Lemma thread_blocks_run addr sz n h :
  16 <= sz -> 1 <= n -> 0 <= addr -> addr + n * sz < 2 ^ 32 ->
  exists m', thread_blocks addr sz n h = Ret (addr + (n - 1) * sz, set_hmem m' h) /\
    threaded m' addr sz (rev (seqZ 0 n)) /\ same_off (k_mem (h_k h)) m' addr (addr + n * sz).
Proof.
  intros Hsz Hn Ha Hr. unfold thread_blocks. rewrite (bind_run _ _ _ _ _ (store32_run _ _ _)).
  set (h1 := set_hmem _ h).
  destruct (thread_loop_run addr sz (Z.to_nat (n - 1)) 1 h1) as (m' & Hrun & Ht & Hs);
    [lia..|rewrite Z2Nat.id by lia; by replace (1 + (n - 1)) with n by lia| |].
  { change (rev (seqZ 0 1)) with ([0]). unfold h1; cbn [set_hmem set_k h_k set_mem k_mem].
    split; [|done]. rewrite Z.mul_0_l, Z.add_0_r. by apply word_at_put. }
  exists m'. rewrite Z2Nat.id in Hrun by lia. rewrite (bind_run _ _ _ _ _ Hrun).
  rewrite Z2Nat.id in Ht, Hs by lia. replace (1 + (n - 1)) with n in Ht, Hs by lia.
  split; [done|]. split; [done|]. eapply same_off_trans; [|exact Hs].
  eapply same_off_weaken; [apply same_off_put|nia..].
Qed.

(** ** Lists of pagerefs *)

(** The pagerefs [xs], linked by [next] from the pointer [p] to NULL. *)
Fixpoint chain (next : pageref -> Z) (refs : gmap Z pageref) (p : Z) (xs : list Z) : Prop :=
  match xs with
  | [] => p = 0
  | x :: xs' => p = x /\ x <> 0 /\ exists r, refs !! x = Some r /\ chain next refs (next r) xs'
  end.

Lemma chain_agree next refs refs' p xs :
  (forall x r, x ∈ xs -> refs !! x = Some r -> exists r', refs' !! x = Some r' /\ next r' = next r) ->
  chain next refs p xs -> chain next refs' p xs.
Proof.
  revert p. induction xs as [|x xs IH]; intros p Hag; [done|]. intros (-> & Hx & r & Hr & Hc).
  split; [done|]. split; [done|]. destruct (Hag x r) as (r' & Hr' & Hn); [apply elem_of_cons; by left|done|].
  exists r'. split; [done|]. rewrite Hn. apply IH; [|done]. intros y s Hy. apply Hag, elem_of_cons. by right.
Qed.

Lemma chain_insert next refs p xs x r :
  x ∉ xs -> chain next refs p xs -> chain next (<[x := r]> refs) p xs.
Proof.
  intros Hx. apply chain_agree. intros y s Hy Hs. exists s.
  rewrite lookup_insert_ne by (intros ->; done). done.
Qed.

Lemma chain_elem next refs p xs x : chain next refs p xs -> x ∈ xs -> x <> 0 /\ is_Some (refs !! x).
Proof.
  revert p. induction xs as [|y xs IH]; intros p; [by intros _ ?%elem_of_nil|].
  intros (-> & Hy & r & Hr & Hc) [->|Hin]%elem_of_cons; [eauto|by eapply IH].
Qed.

Lemma chain_fuel next refs p xs : chain next refs p xs -> NoDup xs -> (length xs <= size refs)%nat.
Proof.
  intros Hc Hnd. rewrite <- size_dom. rewrite <- (size_list_to_set (C:=gset Z) xs Hnd).
  apply subseteq_size. intros x Hx%elem_of_list_to_set.
  apply elem_of_dom. by apply (chain_elem next refs p xs x).
Qed.

Definition next_of (l : which) : pageref -> Z :=
  match l with SameSize _ => next_samesize | All => next_all end.
Definition with_next (l : which) : Z -> pageref -> pageref :=
  match l with SameSize _ => with_same | All => with_all end.

Lemma next_with_next l x r : next_of l (with_next l x r) = x.
Proof. by destruct l. Qed.

Lemma load_field_run l a h r : h_refs h !! a = Some r -> load_link l (Some a) h = Ret (next_of l r, h).
Proof. intros Hr. unfold load_link, get_ref. destruct l; mrun; by rewrite (bind_valid _ _ _ _ _ Hr). Qed.

Lemma store_field_run l a x h r : h_refs h !! a = Some r ->
  store_link l (Some a) x h = Ret (tt, set_refs (<[a := with_next l x r]> (h_refs h)) h).
Proof. intros Hr. unfold store_link, upd_ref, modify. destruct l; by rewrite Hr. Qed.

(** [remove_from] stores the successor of [x] in the link that points to it. *)
Lemma remove_from_run l xs1 x xs2 n guy p h r :
  load_link l guy h = Ret (p, h) -> chain (next_of l) (h_refs h) p (xs1 ++ x :: xs2) ->
  NoDup (xs1 ++ x :: xs2) -> h_refs h !! x = Some r -> (length xs1 < n)%nat ->
  remove_from n l guy x h =
    store_link l (match last xs1 with Some y => Some y | None => guy end) (next_of l r) h.
Proof.
  revert n guy p. induction xs1 as [|y xs1 IH]; intros n guy p Hl Hc Hnd Hr Hn.
  - destruct n as [|n]; [simpl in Hn; lia|]. cbn [remove_from].
    destruct Hc as (-> & Hx & _). rewrite (bind_run _ _ _ _ _ Hl).
    rewrite (proj2 (Z.eqb_neq _ _)) by done. rewrite Z.eqb_refl.
    by rewrite (bind_run _ _ _ _ _ (load_field_run l x h r Hr)).
  - destruct n as [|n]; [simpl in Hn; lia|]. cbn [remove_from].
    destruct Hc as (-> & Hy & ry & Hry & Hc). rewrite (bind_run _ _ _ _ _ Hl).
    rewrite (proj2 (Z.eqb_neq _ _)) by done. cbn [app] in Hnd.
    apply NoDup_cons in Hnd as [Hyn Hnd].
    rewrite (proj2 (Z.eqb_neq y x)) by (intros ->; apply Hyn, elem_of_app; right; apply elem_of_cons; by left).
    rewrite (IH n (Some y) (next_of l ry)); [|by apply load_field_run|done..|simpl in Hn; lia].
    f_equal. destruct xs1 as [|z xs1]; [done|]. cbn [last]. by destruct (last (z :: xs1)) eqn:E; [|by apply last_None in E].
Qed.

(** The chain once a field has been redirected past [x]. *)
Lemma chain_unlink l refs p xs1 y ry x xs2 r :
  chain (next_of l) refs p (xs1 ++ y :: x :: xs2) -> NoDup (xs1 ++ y :: x :: xs2) ->
  refs !! x = Some r -> refs !! y = Some ry ->
  chain (next_of l) (<[y := with_next l (next_of l r) ry]> refs) p (xs1 ++ y :: xs2).
Proof.
  revert p. induction xs1 as [|z xs1 IH]; intros p Hc Hnd Hr Hry; cbn [app] in *.
  - destruct Hc as (-> & Hy & ry' & Hry' & (_ & _ & r' & Hr' & Hc)).
    rewrite Hr in Hr'. injection Hr' as <-.
    apply NoDup_cons in Hnd as [Hyn _]. split; [done|]. split; [done|].
    eexists. split; [apply lookup_insert_eq|]. rewrite next_with_next. apply chain_insert; [|done].
    intros Hin. apply Hyn, elem_of_cons. by right.
  - destruct Hc as (-> & Hz & rz & Hrz & Hc). apply NoDup_cons in Hnd as [Hzn Hnd].
    split; [done|]. split; [done|]. exists rz. split; [|by apply IH].
    rewrite lookup_insert_ne; [done|]. intros ->. apply Hzn, elem_of_app. right. apply elem_of_cons. by left.
Qed.

(** ** Heap pages *)

(** A page of the heap: its pageref, its address, its block type and its free
    blocks in the order of the free list. *)
Record pg := Pg { pg_ref : Z; pg_addr : Z; pg_type : Z; pg_free : list Z }.

Definition first_off (sz : Z) (l : list Z) : Z :=
  match l with [] => INVALID_OFFSET | i :: _ => i * sz end.

Record page_ok (m : pmem) (refs : gmap Z pageref) (g : pg) : Prop := PageOk {
  po_type : 0 <= pg_type g < 8;
  po_align : pg_addr g mod PAGE_SIZE = 0;
  po_range : MIPS_KSEG0 < pg_addr g /\ pg_addr g + PAGE_SIZE <= MIPS_KSEG0 + 2 ^ 29;
  po_ref : exists p, refs !! pg_ref g = Some p /\
    pageaddr_and_blocktype p = pg_addr g + pg_type g /\
    nfree p = Z.of_nat (length (pg_free g)) /\
    freelist_offset p = first_off (bsize (pg_type g)) (pg_free g);
  po_nodup : NoDup (pg_free g);
  po_in : forall i, i ∈ pg_free g -> 0 <= i < nblk (pg_type g);
  po_threaded : threaded m (pg_addr g) (bsize (pg_type g)) (pg_free g);
}.

Lemma pab_parts addr t p :
  addr mod PAGE_SIZE = 0 -> MIPS_KSEG0 < addr /\ addr + PAGE_SIZE <= MIPS_KSEG0 + 2 ^ 29 -> 0 <= t < 8 ->
  pageaddr_and_blocktype p = addr + t -> PR_PAGEADDR p = addr /\ PR_BLOCKTYPE p = t.
Proof.
  unfold PR_PAGEADDR, PR_BLOCKTYPE, MIPS_KSEG0. intros Ha Hr Ht ->.
  rewrite land_PAGE_FRAME, land_not_PAGE_FRAME by plia. plia.
Qed.

Lemma MKPAB_eq addr t : addr mod PAGE_SIZE = 0 -> 0 <= addr < 2 ^ 32 -> 0 <= t < 8 -> MKPAB addr t = addr + t.
Proof.
  intros Ha Hr Ht. unfold MKPAB. rewrite land_PAGE_FRAME, land_not_PAGE_FRAME by plia.
  rewrite Ha, Z.sub_0_r. rewrite (Z.mod_small t) by plia.
  assert (Z.land addr t = 0) as Hl.
  { apply Z.bits_inj'. intros i Hi. rewrite Z.land_spec, Z.bits_0.
    destruct (decide (i < 12)).
    - rewrite <- (Z.mod_pow2_bits_low addr 12 i) by lia. change (2 ^ 12) with PAGE_SIZE.
      by rewrite Ha, Z.bits_0.
    - rewrite (testbit_high t 12 i) by lia. apply andb_false_r. }
  by rewrite <- Z.lxor_lor, <- Z.add_nocarry_lxor by done.
Qed.

Lemma NoDup_bounded (l : list Z) n : NoDup l -> (forall i, i ∈ l -> 0 <= i < n) -> Z.of_nat (length l) <= Z.max 0 n.
Proof.
  intros Hnd Hin. assert (l ⊆+ seqZ 0 n) as Hs.
  { apply NoDup_submseteq; [done|]. intros i Hi. apply elem_of_seqZ. pose proof (Hin i Hi). lia. }
  apply submseteq_length in Hs. rewrite length_seqZ in Hs. lia.
Qed.

Lemma page_free_bound m refs g : page_ok m refs g -> Z.of_nat (length (pg_free g)) <= nblk (pg_type g) <= 256.
Proof.
  intros Hg. destruct (bsize_facts _ (po_type _ _ _ Hg)) as (_ & _ & _ & Hn).
  pose proof (NoDup_bounded _ _ (po_nodup _ _ _ Hg) (po_in _ _ _ Hg)). lia.
Qed.

(** Blocks lie inside their page, apart from one another. *)
Lemma block_inside t i : 0 <= t < 8 -> 0 <= i < nblk t -> 0 <= i * bsize t /\ i * bsize t + bsize t <= PAGE_SIZE.
Proof. intros Ht Hi. destruct (bsize_facts t Ht) as (_ & Hb & Hn & _). nia. Qed.

Lemma page_ok_frame m m' refs refs' g :
  page_ok m refs g ->
  (forall i, i ∈ pg_free g -> same_on m m' (pg_addr g + i * bsize (pg_type g)) (pg_addr g + i * bsize (pg_type g) + 4)) ->
  (forall p, refs !! pg_ref g = Some p -> exists p', refs' !! pg_ref g = Some p' /\
     pageaddr_and_blocktype p' = pageaddr_and_blocktype p /\ nfree p' = nfree p /\
     freelist_offset p' = freelist_offset p) ->
  page_ok m' refs' g.
Proof.
  intros [? ? ? (p & Hp & H1 & H2 & H3) ? ? Ht] Hm Hr. split; [done..| |done|done|].
  - destruct (Hr p Hp) as (p' & Hp' & E1 & E2 & E3). exists p'. split; [done|]. by rewrite E1, E2, E3.
  - by eapply threaded_same.
Qed.

Lemma page_ok_off m m' refs refs' g lo hi :
  page_ok m refs g -> same_off m m' lo hi -> hi <= pg_addr g \/ pg_addr g + PAGE_SIZE <= lo ->
  (forall p, refs !! pg_ref g = Some p -> exists p', refs' !! pg_ref g = Some p' /\
     pageaddr_and_blocktype p' = pageaddr_and_blocktype p /\ nfree p' = nfree p /\
     freelist_offset p' = freelist_offset p) ->
  page_ok m' refs' g.
Proof.
  intros Hg Hs Hd. apply (page_ok_frame m); [done|]. intros i Hi. eapply same_off_on; [exact Hs|].
  pose proof (block_inside _ _ (po_type _ _ _ Hg) (po_in _ _ _ Hg i Hi)).
  pose proof (bsize_facts _ (po_type _ _ _ Hg)). lia.
Qed.

(** *** Taking a block *)

Definition popped (p : pageref) (sz : Z) (l : list Z) : pageref :=
  Pageref (next_samesize p) (next_all p) (pageaddr_and_blocktype p) (first_off sz l) (Z.of_nat (length l)).

Lemma u16_id x : 0 <= x < 2 ^ 16 -> u16 x = x.
Proof. apply Z.mod_small. Qed.

Definition unlocked (y : sync) (h : heap) : heap := set_k (set_sync y (h_k h)) h.

Lemma unlock_run h y :
  cpu_ok (y_cpu y) -> lock_free kmalloc_spinlock y -> k_sync (h_k h) = held kmalloc_spinlock y ->
  unlock h = Ret (tt, unlocked y h).
Proof. intros H1 H2 H3. unfold unlock, on_k, unlocked. apply (zoom_Ret h_k set_k). by apply k_release_run. Qed.

Lemma lock_run h :
  quiet (h_k h) -> free kmalloc_spinlock (h_k h) -> lock h = Ret (tt, set_k (hold kmalloc_spinlock (h_k h)) h).
Proof. intros H1 H2. unfold lock, on_k. apply (zoom_Ret h_k set_k). by apply k_acquire_run. Qed.

Lemma upd_ref_run a f h r : h_refs h !! a = Some r ->
  upd_ref a f h = Ret (tt, set_refs (<[a := f r]> (h_refs h)) h).
Proof. intros Hr. unfold upd_ref, modify. by rewrite Hr. Qed.

Lemma get_ref_run a h r : h_refs h !! a = Some r -> get_ref a h = Ret (r, h).
Proof. intros Hr. unfold get_ref. mrun. unfold valid. by rewrite Hr. Qed.

Lemma set_refs_twice r r' h : set_refs r (set_refs r' h) = set_refs r h.
Proof. done. Qed.

Lemma doalloc_run h g i l p y :
  page_ok (k_mem (h_k h)) (h_refs h) g -> pg_free g = i :: l -> h_refs h !! pg_ref g = Some p ->
  cpu_ok (y_cpu y) -> lock_free kmalloc_spinlock y -> k_sync (h_k h) = held kmalloc_spinlock y ->
  doalloc (pg_ref g) h = Ret (pg_addr g + i * bsize (pg_type g),
    unlocked y (set_refs (<[pg_ref g := popped p (bsize (pg_type g)) l]> (h_refs h)) h)).
Proof.
  intros Hg Hfr Hp Hy1 Hy2 Hy3. pose proof (po_type _ _ _ Hg) as Ht. pose proof (po_range _ _ _ Hg) as Hrg.
  pose proof (page_free_bound _ _ _ Hg) as Hlen.
  destruct (po_ref _ _ _ Hg) as (p' & Hp' & Hpab & Hnf & Hoff). rewrite Hp in Hp'. injection Hp' as <-.
  destruct (pab_parts _ _ p (po_align _ _ _ Hg) Hrg Ht Hpab) as [Hpa Hbt].
  pose proof (po_threaded _ _ _ Hg) as Hth. rewrite Hfr in Hth, Hnf, Hoff, Hlen. destruct Hth as [Hw Hth].
  cbn [first_off length] in Hnf, Hoff, Hlen.
  assert (0 <= i < nblk (pg_type g)) as Hi by (apply (po_in _ _ _ Hg); rewrite Hfr; apply elem_of_cons; by left).
  pose proof (block_inside _ _ Ht Hi) as Hbi. pose proof (bsize_facts _ Ht) as (_ & Hbs & _ & _).
  unfold MIPS_KSEG0 in Hrg.
  unfold doalloc. rewrite (bind_run _ _ _ _ _ (get_ref_run _ _ _ Hp)).
  rewrite bind_kassert by (apply Z.ltb_lt; lia). rewrite Hpa, Hoff, u32_id by plia.
  unfold load32. mrun. rewrite Hw. rewrite (bind_run _ _ _ _ _ (upd_ref_run _ _ _ _ Hp)).
  rewrite (bind_run _ _ _ _ _ (get_ref_run _ _ (with_nfree (nfree p - 1) p) (lookup_insert_eq _ _ _))).
  set (p1 := with_nfree (nfree p - 1) p).
  assert (nfree p1 = Z.of_nat (length l)) as Hn1 by (unfold p1, with_nfree; cbn [nfree]; rewrite u16_id; lia).
  destruct l as [|j l].
  - cbn [Z.eqb negb length] in *. mrun. rewrite bind_kassert by (rewrite Hn1; done).
    rewrite (bind_run _ _ _ _ _ (upd_ref_run _ _ _ p1 (lookup_insert_eq _ _ _))).
    rewrite set_refs_twice. rewrite (bind_run _ _ _ _ _ (unlock_run (set_refs _ h) y Hy1 Hy2 Hy3)). cbn [set_refs h_refs].
    rewrite insert_insert_eq. unfold mret, M_ret, with_offset, popped. rewrite Hn1.
    unfold p1, with_nfree; cbn [next_samesize next_all pageaddr_and_blocktype first_off length].
    by rewrite (u16_id INVALID_OFFSET).
  - assert (0 <= j < nblk (pg_type g)) as Hj.
    { apply (po_in _ _ _ Hg). rewrite Hfr. apply elem_of_cons. right. apply elem_of_cons. by left. }
    pose proof (block_inside _ _ Ht Hj) as Hbj.
    rewrite (proj2 (Z.eqb_neq _ _)) by lia. cbn [negb]. mrun.
    rewrite bind_kassert by (apply Z.ltb_lt; rewrite Hn1; cbn [length]; lia).
    replace (pg_addr g + j * bsize (pg_type g) - pg_addr g) with (j * bsize (pg_type g)) by lia.
    mrun. rewrite bind_kassert by (apply Z.ltb_lt; rewrite u32_id by plia; lia).
    mrun. rewrite (bind_run _ _ _ _ _ (upd_ref_run _ _ _ p1 (lookup_insert_eq _ _ _))).
    rewrite set_refs_twice. rewrite (bind_run _ _ _ _ _ (unlock_run (set_refs _ h) y Hy1 Hy2 Hy3)). cbn [set_refs h_refs].
    rewrite insert_insert_eq. unfold mret, M_ret, with_offset, popped. rewrite Hn1.
    unfold p1, with_nfree; cbn [next_samesize next_all pageaddr_and_blocktype first_off].
    by rewrite (u16_id (j * bsize (pg_type g))) by plia.
Qed.

Lemma page_ok_popped m refs g i l p :
  page_ok m refs g -> pg_free g = i :: l -> refs !! pg_ref g = Some p ->
  page_ok m (<[pg_ref g := popped p (bsize (pg_type g)) l]> refs) (Pg (pg_ref g) (pg_addr g) (pg_type g) l).
Proof.
  intros [? ? ? (p' & Hp' & H1 & H2 & H3) Hnd Hin Hth] Hfr Hp. rewrite Hp in Hp'. injection Hp' as <-.
  rewrite Hfr in Hnd, Hin, Hth. apply NoDup_cons in Hnd as [Hni Hnd].
  split; cbn [pg_ref pg_addr pg_type pg_free]; [done..| |done| |by destruct Hth].
  - eexists. split; [apply lookup_insert_eq|]. done.
  - intros j Hj. apply Hin, elem_of_cons. by right.
Qed.

(** *** Searching the lists *)

Lemma find_page_run t Q n pr h :
  (forall g, g ∈ Q -> page_ok (k_mem (h_k h)) (h_refs h) g /\ pg_type g = t) ->
  chain next_samesize (h_refs h) pr (pg_ref <$> Q) -> (length Q <= n)%nat ->
  exists pr', find_page n t pr h = Ret (pr', h) /\
    ((pr' = 0 /\ forall g, g ∈ Q -> pg_free g = []) \/
     (pr' <> 0 /\ exists g, g ∈ Q /\ pr' = pg_ref g /\ pg_free g <> [])).
Proof.
  revert n pr. induction Q as [|g Q IH]; intros n pr Hok Hc Hn.
  - cbn in Hc. subst pr. exists 0. split; [by destruct n|]. left. split; [done|]. by intros g ?%elem_of_nil.
  - cbn [fmap list_fmap chain] in Hc. destruct Hc as (-> & Hne & p & Hp & Hc).
    destruct n as [|n]; [simpl in Hn; lia|]. cbn [find_page].
    rewrite (proj2 (Z.eqb_neq _ _)) by done. rewrite (bind_run _ _ _ _ _ (get_ref_run _ _ _ Hp)).
    destruct (Hok g) as [Hg <-]; [apply elem_of_cons; by left|].
    destruct (po_ref _ _ _ Hg) as (p' & Hp' & Hpab & Hnf & _). rewrite Hp in Hp'. injection Hp' as <-.
    destruct (pab_parts _ _ p (po_align _ _ _ Hg) (po_range _ _ _ Hg) (po_type _ _ _ Hg) Hpab) as [_ Hbt].
    rewrite bind_kassert by (apply Z.eqb_eq; done).
    destruct (Z.ltb_spec 0 (nfree p)) as [Hlt|Hge].
    + exists (pg_ref g). split; [done|]. right. split; [done|]. exists g. split; [apply elem_of_cons; by left|].
      split; [done|]. intros E. rewrite E in Hnf. simpl in Hnf. lia.
    + destruct (IH n (next_samesize p)) as (pr' & Hrun & Hres); [|done|simpl in Hn; lia|].
      { intros g' Hg'. apply Hok, elem_of_cons. by right. }
      exists pr'. split; [done|]. destruct Hres as [[-> Hall]|(Hz & g' & Hin & He & Hf)].
      * left. split; [done|]. intros g' [->|Hg']%elem_of_cons; [|by apply Hall].
        destruct (pg_free g); [done|]. simpl in Hnf. lia.
      * right. split; [done|]. exists g'. split; [apply elem_of_cons; by right|]. done.
Qed.

(** [va] is an address of the page. *)
Definition on_page (va : Z) (g : pg) : Prop := pg_addr g <= va < pg_addr g + PAGE_SIZE.

Lemma find_owner_run va Q n pr h :
  (forall g, g ∈ Q -> page_ok (k_mem (h_k h)) (h_refs h) g) ->
  chain next_all (h_refs h) pr (pg_ref <$> Q) -> (length Q <= n)%nat ->
  exists pr', find_owner n va pr h = Ret (pr', h) /\
    ((pr' = 0 /\ forall g, g ∈ Q -> ~ on_page va g) \/
     (pr' <> 0 /\ exists g, g ∈ Q /\ pr' = pg_ref g /\ on_page va g)).
Proof.
  revert n pr. induction Q as [|g Q IH]; intros n pr Hok Hc Hn.
  - cbn in Hc. subst pr. exists 0. split; [by destruct n|]. left. split; [done|]. by intros g ?%elem_of_nil.
  - cbn [fmap list_fmap chain] in Hc. destruct Hc as (-> & Hne & p & Hp & Hc).
    destruct n as [|n]; [simpl in Hn; lia|]. cbn [find_owner].
    rewrite (proj2 (Z.eqb_neq _ _)) by done. rewrite (bind_run _ _ _ _ _ (get_ref_run _ _ _ Hp)).
    assert (page_ok (k_mem (h_k h)) (h_refs h) g) as Hg by (apply Hok, elem_of_cons; by left).
    destruct (po_ref _ _ _ Hg) as (p' & Hp' & Hpab & Hnf & _). rewrite Hp in Hp'. injection Hp' as <-.
    destruct (pab_parts _ _ p (po_align _ _ _ Hg) (po_range _ _ _ Hg) (po_type _ _ _ Hg) Hpab) as [Hpa Hbt].
    pose proof (po_type _ _ _ Hg) as Ht. pose proof (po_range _ _ _ Hg) as Hr. unfold MIPS_KSEG0 in Hr.
    rewrite Hbt, Hpa. rewrite bind_kassert by (apply andb_true_intro; split; [apply Z.leb_le|apply Z.ltb_lt]; unfold NSIZES; lia).
    rewrite (u32_id (pg_addr g + PAGE_SIZE)) by plia.
    destruct (Z.leb_spec (pg_addr g) va), (Z.ltb_spec va (pg_addr g + PAGE_SIZE)); cbn [andb].
    1: { exists (pg_ref g). split; [done|]. right. split; [done|]. exists g. split; [apply elem_of_cons; by left|done]. }
    all: destruct (IH n (next_all p)) as (pr' & Hrun & Hres);
      [intros g' Hg'; apply Hok, elem_of_cons; by right|done|simpl in Hn; lia|];
      exists pr'; (split; [done|]); destruct Hres as [[-> Hall]|(Hz & g' & Hin & He & Hf)];
      [left; split; [done|]; intros g' [->|Hg']%elem_of_cons; [unfold on_page; lia|by apply Hall]
      |right; split; [done|]; exists g'; split; [apply elem_of_cons; by right|done]].
Qed.

(** *** The two lists *)

Definition of_type (t : Z) (P : list pg) : list pg := filter (fun g => pg_type g = t) P.

Record lists_ok (refs : gmap Z pageref) (bases : list Z) (all : Z) (P : list pg) : Prop := ListsOk {
  lo_len : length bases = 8%nat;
  lo_all : chain next_all refs all (pg_ref <$> P);
  lo_same : forall t, 0 <= t < 8 -> exists b, arr_get bases t = Some b /\
    chain next_samesize refs b (pg_ref <$> of_type t P);
  lo_nodup : NoDup (pg_ref <$> P);
}.

Lemma elem_of_type g t P : g ∈ of_type t P <-> pg_type g = t /\ g ∈ P.
Proof. unfold of_type. by rewrite list_elem_of_filter. Qed.

Lemma of_type_ref x t P : x ∈ pg_ref <$> of_type t P -> x ∈ pg_ref <$> P.
Proof.
  intros (g & -> & [_ Hg]%elem_of_type)%list_elem_of_fmap. apply list_elem_of_fmap. eauto.
Qed.

Lemma NoDup_of_type t P : NoDup (pg_ref <$> P) -> NoDup (pg_ref <$> of_type t P).
Proof.
  unfold of_type. induction P as [|g P IH]; [done|]. cbn [fmap list_fmap]. intros [Hn Hnd]%NoDup_cons.
  rewrite filter_cons. case_decide; [|by apply IH]. cbn [fmap list_fmap]. apply NoDup_cons. split; [|by apply IH].
  intros Hin. by apply Hn, (of_type_ref _ t).
Qed.

(** The page [g] replaced by one with the same pageref and type. *)
Definition repl (g g' : pg) (P : list pg) : list pg :=
  (fun x => if decide (pg_ref x = pg_ref g) then g' else x) <$> P.

Lemma repl_refs g g' P : pg_ref g' = pg_ref g -> pg_ref <$> repl g g' P = pg_ref <$> P.
Proof.
  intros He. unfold repl. rewrite <- list_fmap_compose. apply list_fmap_ext. intros i x _. simpl.
  case_decide; congruence.
Qed.

Lemma refs_inj P g g' : NoDup (pg_ref <$> P) -> g ∈ P -> g' ∈ P -> pg_ref g = pg_ref g' -> g = g'.
Proof.
  intros Hnd [i Hi]%list_elem_of_lookup [j Hj]%list_elem_of_lookup He.
  assert (i = j) as <-; [|rewrite Hi in Hj; by injection Hj].
  eapply NoDup_lookup; [exact Hnd|rewrite list_lookup_fmap, Hi; done|rewrite list_lookup_fmap, Hj; simpl; by rewrite He].
Qed.

Lemma repl_of_type g g' t P : pg_type g' = pg_type g -> g ∈ P -> NoDup (pg_ref <$> P) ->
  of_type t (repl g g' P) = repl g g' (of_type t P).
Proof.
  intros Ht Hg Hnd. unfold of_type, repl.
  assert (forall x, x ∈ P -> pg_ref x = pg_ref g -> x = g) as Hinj.
  { intros x Hx Hr. by apply (refs_inj P). }
  clear Hnd Hg. induction P as [|x P IH]; [done|]. cbn [fmap list_fmap].
  assert (pg_type (if decide (pg_ref x = pg_ref g) then g' else x) = pg_type x) as E.
  { case_decide as Hx; [|done]. rewrite Ht. f_equal. symmetry. apply Hinj; [apply elem_of_cons; by left|done]. }
  assert (forall y, y ∈ P -> pg_ref y = pg_ref g -> y = g) as Hinj' by (intros y Hy; apply Hinj, elem_of_cons; by right).
  rewrite !filter_cons, (IH Hinj'), E. by destruct (decide (pg_type x = t)).
Qed.

Lemma elem_of_repl x g g' P : x ∈ repl g g' P -> x = g' \/ (x ∈ P /\ pg_ref x <> pg_ref g).
Proof. intros (y & -> & Hy)%list_elem_of_fmap. case_decide; [by left|right]. done. Qed.

(** Prefix a new page. *)
Lemma lists_push refs bases all P g p b :
  lists_ok refs bases all P -> pg_ref g ∉ pg_ref <$> P -> pg_ref g <> 0 -> 0 <= pg_type g < 8 ->
  arr_get bases (pg_type g) = Some b -> next_samesize p = b -> next_all p = all ->
  lists_ok (<[pg_ref g := p]> refs) (arr_set bases (pg_type g) (pg_ref g)) (pg_ref g) (g :: P).
Proof.
  intros [Hl Ha Hs Hnd] Hni Hne Ht Hb Hp1 Hp2. split.
  - by rewrite arr_set_length.
  - cbn [fmap list_fmap chain]. split; [done|]. split; [done|]. exists p. split; [apply lookup_insert_eq|].
    rewrite Hp2. by apply chain_insert.
  - intros t Ht'. unfold of_type. rewrite filter_cons. destruct (decide (pg_type g = t)) as [<-|Hne'].
    + exists (pg_ref g). split; [apply arr_get_set_eq; lia|]. cbn [fmap list_fmap chain]. split; [done|].
      split; [done|]. exists p. split; [apply lookup_insert_eq|]. rewrite Hp1.
      destruct (Hs (pg_type g) Ht) as (b' & Hb' & Hc). rewrite Hb in Hb'. injection Hb' as <-.
      apply chain_insert; [|exact Hc]. intros Hin. by apply Hni, (of_type_ref _ (pg_type g)).
    + destruct (Hs t Ht') as (b' & Hb' & Hc). exists b'. split; [by rewrite arr_get_set_ne by lia|].
      apply chain_insert; [|exact Hc]. intros Hin. by apply Hni, (of_type_ref _ t).
  - cbn [fmap list_fmap]. by apply NoDup_cons.
Qed.

(** Changing the counters of a page leaves the lists alone. *)
Lemma lists_repl refs bases all P g g' p p' :
  lists_ok refs bases all P -> g ∈ P -> pg_ref g' = pg_ref g -> pg_type g' = pg_type g ->
  refs !! pg_ref g = Some p -> next_samesize p' = next_samesize p -> next_all p' = next_all p ->
  lists_ok (<[pg_ref g := p']> refs) bases all (repl g g' P).
Proof.
  intros [Hl Ha Hs Hnd] Hg Hr Ht Hp H1 H2.
  assert (forall f, f p' = f p -> forall x r, refs !! x = Some r -> exists r', <[pg_ref g := p']> refs !! x = Some r' /\ (f r' : Z) = f r) as Hag.
  { intros f Hf x r Hx. destruct (decide (x = pg_ref g)) as [->|Hne].
    - exists p'. rewrite lookup_insert_eq. split; [done|]. rewrite Hp in Hx. by injection Hx as <-.
    - exists r. by rewrite lookup_insert_ne. }
  split.
  - done.
  - rewrite repl_refs by done. eapply chain_agree; [|exact Ha]. intros x r _. by apply Hag.
  - intros t Ht'. destruct (Hs t Ht') as (b & Hb & Hc). exists b. split; [done|].
    rewrite repl_of_type, repl_refs by done. eapply chain_agree; [|exact Hc]. intros x r _. by apply Hag.
  - by rewrite repl_refs.
Qed.

(** *** Unlinking a page *)

(** [r'] is [r] up to the link of list [l]. *)
Definition eq_but (l : which) (r r' : pageref) : Prop := exists x, r' = with_next l x r.

Definition base_of (l : which) (h : heap) : option Z :=
  match l with SameSize t => arr_get (sizebases h) t | All => Some (allbase h) end.

(** [h'] is [h] up to the links and the head of list [l]. *)
Record relinked (l : which) (h h' : heap) : Prop := Relinked {
  rl_k : h_k h' = h_k h;
  rl_roots : kheaproots h' = kheaproots h;
  rl_refs : forall a r, h_refs h !! a = Some r -> exists r', h_refs h' !! a = Some r' /\ eq_but l r r';
  rl_bases : length (sizebases h') = length (sizebases h);
  rl_other : forall l', l' <> l -> base_of l' h' = base_of l' h;
}.

Lemma relinked_field l a r x h :
  h_refs h !! a = Some r -> relinked l h (set_refs (<[a := with_next l x r]> (h_refs h)) h).
Proof.
  intros Ha. split; try done. intros b s Hb. cbn [set_refs h_refs].
  destruct (decide (a = b)) as [->|Hne].
  - rewrite lookup_insert_eq. rewrite Ha in Hb. injection Hb as <-. eexists. split; [done|]. by exists x.
  - rewrite lookup_insert_ne by done. exists s. split; [done|]. exists (next_of l s). by destruct l, s.
Qed.

Lemma store_base_run l x h b :
  base_of l h = Some b -> exists h', store_link l None x h = Ret (tt, h') /\ relinked l h h' /\
    h_refs h' = h_refs h /\ base_of l h' = Some x.
Proof.
  intros Hb. assert (forall a r, h_refs h !! a = Some r -> exists r', h_refs h !! a = Some r' /\ eq_but l r r') as Hself.
  { intros a r Hr. exists r. split; [done|]. exists (next_of l r). by destruct l, r. }
  destruct l as [t|].
  - exists (set_bases (arr_set (sizebases h) t x) h). split; [done|]. cbn in Hb.
    assert (0 <= t < Z.of_nat (length (sizebases h))) as Ht by (apply arr_get_is_Some; eauto).
    split; [|split; [done|by apply arr_get_set_eq]]. split; try done.
    + cbn [set_bases sizebases]. by rewrite arr_set_length.
    + intros [t'|] Hne; [|done]. cbn [base_of set_bases sizebases]. apply arr_get_set_ne; [lia|congruence].
  - exists (set_allbase x h). split; [done|]. split; [|done]. split; try done. by intros [t'|].
Qed.

Lemma load_base_run l h b : base_of l h = Some b -> load_link l None h = Ret (b, h).
Proof. intros Hb. unfold load_link. destruct l; mrun; cbn [base_of] in Hb; [unfold valid; by rewrite Hb|by injection Hb as <-]. Qed.

Lemma remove_base_run l xs1 x xs2 n h b :
  base_of l h = Some b -> chain (next_of l) (h_refs h) b (xs1 ++ x :: xs2) -> NoDup (xs1 ++ x :: xs2) ->
  (length xs1 < n)%nat ->
  exists h' b', remove_from n l None x h = Ret (tt, h') /\ relinked l h h' /\
    base_of l h' = Some b' /\ chain (next_of l) (h_refs h') b' (xs1 ++ xs2) /\
    forall a, a ∉ xs1 -> h_refs h' !! a = h_refs h !! a.
Proof.
  intros Hb Hc Hnd Hn.
  destruct (chain_elem _ _ _ _ x Hc) as [_ [r Hr]]; [apply elem_of_app; right; apply elem_of_cons; by left|].
  rewrite (remove_from_run l xs1 x xs2 n None b h r (load_base_run l h b Hb) Hc Hnd Hr Hn).
  destruct (last xs1) as [y|] eqn:El.
  - apply last_Some in El as [xs0 ->]. rewrite <- app_assoc in Hc, Hnd |- *. cbn [app] in Hc, Hnd |- *.
    destruct (chain_elem _ _ _ _ y Hc) as [_ [ry Hry]]; [apply elem_of_app; right; apply elem_of_cons; by left|].
    rewrite (store_field_run l y _ h ry Hry). eexists _, b. split; [done|]. split; [by apply relinked_field|].
    split; [by destruct l|]. cbn [set_refs h_refs]. split; [by apply (chain_unlink l _ _ xs0 y ry x)|].
    intros a Hna. rewrite lookup_insert_ne; [done|]. intros ->. apply Hna, elem_of_app. right. apply elem_of_cons. by left.
  - apply last_None in El as ->. destruct (store_base_run l (next_of l r) h b Hb) as (h' & Hrun & Hrl & Hrf & Hb').
    exists h', (next_of l r). split; [done|]. split; [done|]. split; [done|]. rewrite Hrf.
    destruct Hc as (_ & _ & r' & Hr' & Hc). rewrite Hr in Hr'. injection Hr' as <-. done.
Qed.

Lemma of_type_split t P1 g P2 : of_type t (P1 ++ g :: P2) =
  of_type t P1 ++ (if decide (pg_type g = t) then g :: of_type t P2 else of_type t P2).
Proof. unfold of_type. by rewrite filter_app, filter_cons. Qed.

Lemma relinked_chain l l' h h' b xs : relinked l h h' ->
  (forall x r, next_of l' (with_next l x r) = next_of l' r) ->
  chain (next_of l') (h_refs h) b xs -> chain (next_of l') (h_refs h') b xs.
Proof.
  intros Hrl Hd. apply chain_agree. intros x r _ Hr. destruct (rl_refs _ _ _ Hrl x r Hr) as (r' & Hr' & y & ->).
  eexists. split; [done|]. apply Hd.
Qed.

Lemma relinked_ref l h h' a p : relinked l h h' -> h_refs h !! a = Some p ->
  exists p', h_refs h' !! a = Some p' /\ pageaddr_and_blocktype p' = pageaddr_and_blocktype p /\
    nfree p' = nfree p /\ freelist_offset p' = freelist_offset p.
Proof.
  intros Hrl Hp. destruct (rl_refs _ _ _ Hrl a p Hp) as (p' & Hp' & y & ->). eexists. split; [done|]. by destruct l.
Qed.

Lemma types_apart t t' P1 g P2 x : NoDup (pg_ref <$> P1 ++ g :: P2) -> t' <> t ->
  x ∈ pg_ref <$> of_type t (P1 ++ P2) -> x ∈ pg_ref <$> of_type t' P1 -> False.
Proof.
  intros Hnd Hne (g1 & -> & [Ht1 Hg1]%elem_of_type)%list_elem_of_fmap (g2 & He & [Ht2 Hg2]%elem_of_type)%list_elem_of_fmap.
  assert (g1 = g2) as ->; [|congruence]. apply (refs_inj (P1 ++ g :: P2)); [done| | |done].
  - apply elem_of_app in Hg1 as [?|?]; apply elem_of_app; [by left|right; apply elem_of_cons; by right].
  - apply elem_of_app. by left.
Qed.

Lemma remove_lists_run h P1 g P2 :
  lists_ok (h_refs h) (sizebases h) (allbase h) (P1 ++ g :: P2) -> 0 <= pg_type g < 8 ->
  exists h', remove_lists (pg_ref g) (pg_type g) h = Ret (tt, h') /\
    h_k h' = h_k h /\ kheaproots h' = kheaproots h /\
    lists_ok (h_refs h') (sizebases h') (allbase h') (P1 ++ P2) /\
    forall a p, h_refs h !! a = Some p -> exists p', h_refs h' !! a = Some p' /\
      pageaddr_and_blocktype p' = pageaddr_and_blocktype p /\ nfree p' = nfree p /\
      freelist_offset p' = freelist_offset p.
Proof.
  intros [Hl Ha Hs Hnd] Ht. unfold remove_lists.
  rewrite bind_kassert by (apply andb_true_intro; split; [apply Z.leb_le|apply Z.ltb_lt]; unfold NSIZES; lia).
  mrun. destruct (Hs _ Ht) as (b & Hb & Hc). pose proof (NoDup_of_type (pg_type g) _ Hnd) as Hnd1.
  rewrite of_type_split, decide_True, fmap_app, fmap_cons in Hc, Hnd1 by done.
  pose proof (chain_fuel _ _ _ _ Hc Hnd1) as Hf1. pose proof (chain_fuel _ _ _ _ Ha Hnd) as Hf2.
  rewrite fmap_app, fmap_cons in Ha, Hnd, Hf2. rewrite length_app, length_cons in Hf1, Hf2.
  destruct (remove_base_run (SameSize (pg_type g)) _ _ _ (fuel h) h b Hb Hc Hnd1) as (h1 & b1 & Hr1 & Hrl1 & Hb1 & Hc1 & Hout1);
    [unfold fuel; lia|].
  rewrite (bind_run _ _ _ _ _ Hr1).
  assert (chain next_all (h_refs h1) (allbase h) (pg_ref <$> P1 ++ g :: P2)) as Ha1.
  { rewrite fmap_app, fmap_cons. apply (relinked_chain (SameSize (pg_type g)) All h h1); [done..|exact Ha]. }
  rewrite fmap_app, fmap_cons in Ha1.
  assert (base_of All h1 = Some (allbase h)) as Hba by (by rewrite (rl_other _ _ _ Hrl1)).
  destruct (remove_base_run All _ _ _ (fuel h) h1 _ Hba Ha1 Hnd) as (h2 & b2 & Hr2 & Hrl2 & Hb2 & Hc2 & _); [unfold fuel; lia|].
  exists h2. rewrite Hr2. split; [done|]. split; [by rewrite (rl_k _ _ _ Hrl2), (rl_k _ _ _ Hrl1)|].
  split; [by rewrite (rl_roots _ _ _ Hrl2), (rl_roots _ _ _ Hrl1)|]. split.
  - split.
    + by rewrite (rl_bases _ _ _ Hrl2), (rl_bases _ _ _ Hrl1).
    + cbn in Hb2. injection Hb2 as ->. by rewrite fmap_app.
    + intros t Ht'. destruct (decide (pg_type g = t)) as [<-|Hne].
      * exists b1. split; [exact (eq_trans (rl_other _ _ _ Hrl2 (SameSize (pg_type g)) ltac:(done)) Hb1)|].
        unfold of_type. rewrite filter_app, fmap_app. apply (relinked_chain All (SameSize 0) h1 h2); [done..|].
        exact Hc1.
      * destruct (Hs t Ht') as (bt & Hbt & Hct). exists bt. split.
        { refine (eq_trans (rl_other _ _ _ Hrl2 (SameSize t) ltac:(done)) _).
          by rewrite (rl_other _ _ _ Hrl1 (SameSize t)) by congruence. }
        rewrite of_type_split, decide_False in Hct by done. unfold of_type in *. rewrite filter_app.
        apply (relinked_chain All (SameSize 0) h1 h2); [done..|].
        eapply chain_agree; [|exact Hct]. intros x r Hx Hr.
        exists r. split; [|done]. rewrite Hout1; [done|]. intros Hx1.
        rewrite <- filter_app in Hx. change (filter _ (P1 ++ P2)) with (of_type t (P1 ++ P2)) in Hx.
        apply (types_apart t (pg_type g) P1 g P2 x); [by rewrite fmap_app, fmap_cons|done..].
    + rewrite fmap_app. apply NoDup_app. apply NoDup_app in Hnd as (H1 & H2 & H3). apply NoDup_cons in H3 as [H3 H4].
      split; [done|]. split; [|done]. intros x Hx Hx'. apply (H2 x Hx), elem_of_cons. by right.
  - intros a p Hp. destruct (relinked_ref _ _ _ _ _ Hrl1 Hp) as (p1 & Hp1 & E1 & E2 & E3).
    destruct (relinked_ref _ _ _ _ _ Hrl2 Hp1) as (p2 & Hp2 & F1 & F2 & F3). exists p2. split; [done|].
    by rewrite F1, F2, F3, E1, E2, E3.
Qed.

(** ** The table of pagerefs *)

(** Entry [j] of a page of pagerefs is in use. *)
Definition rbit (ws : list Z) (j : Z) : bool := Z.testbit (default 0 (arr_get ws (j / 32))) (j mod 32).

Definition nset (ws : list Z) : Z := Z.of_nat (length (filter (fun j => rbit ws j = true) (seqZ 0 256))).

Definition words_ok (ws : list Z) : Prop :=
  length ws = 8%nat /\ forall i w, arr_get ws i = Some w -> 0 <= w < 2 ^ 32.

Definition root_ok (r : kheap_root) : Prop :=
  words_ok (pagerefs_inuse r) /\ numinuse r = nset (pagerefs_inuse r).

Lemma filter_ext_in (f g : Z -> bool) (l : list Z) : (forall i, i ∈ l -> f i = g i) ->
  filter (fun i => f i = true) l = filter (fun i => g i = true) l.
Proof.
  induction l as [|x l IH]; intros Hfg; [done|]. rewrite !filter_cons, IH by (intros i Hi; apply Hfg, elem_of_cons; by right).
  by rewrite (Hfg x) by (apply elem_of_cons; by left).
Qed.

(** Two counts that differ in one element. *)
Lemma filter_flip (f g : Z -> bool) j (l : list Z) :
  NoDup l -> j ∈ l -> (forall i, i ∈ l -> i <> j -> f i = g i) -> f j = false -> g j = true ->
  length (filter (fun i => g i = true) l) = S (length (filter (fun i => f i = true) l)).
Proof.
  intros Hnd Hj Hfg Hf Hg. induction l as [|x l IH]; [by apply elem_of_nil in Hj|].
  apply NoDup_cons in Hnd as [Hx Hnd]. rewrite !filter_cons.
  assert (forall i, i ∈ l -> i <> j -> f i = g i) as Hfg' by (intros i Hi; apply Hfg, elem_of_cons; by right).
  apply elem_of_cons in Hj as [->|Hj].
  - rewrite decide_True, decide_False by congruence. cbn [length]. do 2 f_equal.
    apply filter_ext_in. intros y Hy. symmetry. apply Hfg'; [done|]. by intros ->.
  - assert (f x = g x) as E by (apply Hfg; [apply elem_of_cons; by left|]; intros ->; done). rewrite E.
    destruct (decide (g x = true)); cbn [length]; by rewrite IH.
Qed.

Lemma rbit_set ws i w w' j : words_ok ws -> arr_get ws i = Some w -> 0 <= j ->
  rbit (arr_set ws i w') j = if j / 32 =? i then Z.testbit w' (j mod 32) else rbit ws j.
Proof.
  intros [Hl _] Hw Hj. assert (0 <= i < Z.of_nat (length ws)) as Hi by (apply arr_get_is_Some; eauto).
  unfold rbit. destruct (Z.eqb_spec (j / 32) i) as [->|Hne]; [by rewrite arr_get_set_eq|].
  by rewrite arr_get_set_ne by lia.
Qed.

Lemma rbit_get ws i w o : arr_get ws i = Some w -> 0 <= o < 32 -> rbit ws (i * 32 + o) = Z.testbit w o.
Proof.
  intros Hw Ho. unfold rbit. replace ((i * 32 + o) / 32) with i by lia. replace ((i * 32 + o) mod 32) with o by lia.
  by rewrite Hw.
Qed.

Lemma words_ok_set ws i w : words_ok ws -> 0 <= i -> 0 <= w < 2 ^ 32 -> words_ok (arr_set ws i w).
Proof.
  intros [Hl Hr] Hi Hw. split; [by rewrite arr_set_length|]. intros k x Hx.
  assert (0 <= k < Z.of_nat (length ws)) as Hk.
  { rewrite <- (arr_set_length ws i w). apply arr_get_is_Some. eauto. }
  destruct (decide (i = k)) as [->|Hne].
  - rewrite arr_get_set_eq in Hx by done. by injection Hx as <-.
  - rewrite arr_get_set_ne in Hx by done. by apply (Hr k).
Qed.

(** Setting and clearing the bit of an entry. *)
Lemma root_mark ws i w o : words_ok ws -> arr_get ws i = Some w -> 0 <= o < 32 -> rbit ws (i * 32 + o) = false ->
  let ws' := arr_set ws i (Z.lor w (2 ^ o)) in
  words_ok ws' /\ nset ws' = nset ws + 1 /\ forall j, 0 <= j -> rbit ws' j = rbit ws j || (j =? i * 32 + o).
Proof.
  intros Hok Hw Ho Hb ws'. pose proof Hok as [Hl Hr].
  assert (0 <= i < 8) as Hi by (assert (is_Some (arr_get ws i)) as Hs by eauto; apply arr_get_is_Some in Hs; lia).
  assert (forall j, 0 <= j -> rbit ws' j = rbit ws j || (j =? i * 32 + o)) as Hbit.
  { intros j Hj. unfold ws'. rewrite (rbit_set ws i w) by done. destruct (Z.eqb_spec (j / 32) i) as [He|Hne].
    - rewrite testbit_lor by lia. unfold rbit. rewrite He, Hw. cbn [default]. f_equal.
      destruct (Z.eqb_spec (j mod 32) o), (Z.eqb_spec j (i * 32 + o)); try done; lia.
    - destruct (Z.eqb_spec j (i * 32 + o)); [lia|]. by rewrite orb_false_r. }
  split; [apply words_ok_set; [done|lia|]; apply lor_pow2_range; [by apply (Hr i)|lia]|]. split; [|done].
  unfold nset. rewrite (filter_flip (rbit ws) (rbit ws') (i * 32 + o)); [lia|apply NoDup_seqZ|apply elem_of_seqZ; lia| |done|].
  - intros j Hj%elem_of_seqZ Hne. rewrite Hbit by lia. rewrite (proj2 (Z.eqb_neq _ _)) by done. by rewrite orb_false_r.
  - rewrite Hbit by lia. by rewrite Z.eqb_refl, orb_true_r.
Qed.

Lemma root_unmark ws i w o : words_ok ws -> arr_get ws i = Some w -> 0 <= o < 32 -> rbit ws (i * 32 + o) = true ->
  let ws' := arr_set ws i (Z.land w (not32 (2 ^ o))) in
  words_ok ws' /\ nset ws = nset ws' + 1 /\ forall j, 0 <= j -> rbit ws' j = rbit ws j && negb (j =? i * 32 + o).
Proof.
  intros Hok Hw Ho Hb ws'. pose proof Hok as [Hl Hr].
  assert (0 <= i < 8) as Hi by (assert (is_Some (arr_get ws i)) as Hs by eauto; apply arr_get_is_Some in Hs; lia).
  pose proof (Hr i w Hw) as Hwr. unfold ws'. rewrite land_not32 by done. clear ws'. set (ws' := arr_set _ _ _).
  assert (forall j, 0 <= j -> rbit ws' j = rbit ws j && negb (j =? i * 32 + o)) as Hbit.
  { intros j Hj. unfold ws'. rewrite (rbit_set ws i w) by done. destruct (Z.eqb_spec (j / 32) i) as [He|Hne].
    - rewrite testbit_clear by lia. unfold rbit. rewrite He, Hw. cbn [default]. f_equal.
      destruct (Z.eqb_spec (j mod 32) o), (Z.eqb_spec j (i * 32 + o)); try done; lia.
    - destruct (Z.eqb_spec j (i * 32 + o)); [lia|]. by rewrite andb_true_r. }
  split; [apply words_ok_set; [done|lia|]; by apply land_lnot_range|]. split; [|done].
  unfold nset. rewrite (filter_flip (rbit ws') (rbit ws) (i * 32 + o)); [lia|apply NoDup_seqZ|apply elem_of_seqZ; lia| | |done].
  - intros j Hj%elem_of_seqZ Hne. rewrite Hbit by lia. rewrite (proj2 (Z.eqb_neq _ _)) by done. by rewrite andb_true_r.
  - rewrite Hbit by lia. by rewrite Z.eqb_refl, andb_false_r.
Qed.

Lemma nset_bound ws : 0 <= nset ws <= 256.
Proof.
  unfold nset. pose proof (length_filter (fun j => rbit ws j = true) (seqZ 0 256)) as Hl.
  rewrite length_seqZ in Hl. lia.
Qed.

(** *** Finding a free entry *)

Lemma clear_bit_run word n j : 0 <= word < 2 ^ 32 -> 0 <= j -> Z.of_nat n = 33 - j ->
  (forall i, 0 <= i < j -> Z.testbit word i = true) -> word <> 0xffffffff ->
  exists o, clear_bit n (u32 (2 ^ j)) j word = Some (2 ^ o, o) /\ 0 <= o < 32 /\ Z.testbit word o = false.
Proof.
  intros Hw. revert j. induction n as [|n IH]; intros j Hj Hn Hset Hne.
  - assert (word = Z.ones 32) as E by (apply all_bits; [done..|]; intros i Hi; apply Hset; lia). done.
  - cbn [clear_bit]. destruct (decide (j = 32)) as [->|Hj'].
    { assert (word = Z.ones 32) as E by (by apply all_bits). done. }
    pose proof (Z.pow_lt_mono_r 2 j 32 ltac:(lia) ltac:(lia) ltac:(lia)).
    pose proof (Z.pow_pos_nonneg 2 j ltac:(lia) Hj). rewrite u32_id by lia.
    rewrite (proj2 (Z.eqb_neq _ _)) by lia. rewrite land_mask by done.
    destruct (Z.testbit word j) eqn:E; cbn [negb].
    + rewrite Z.shiftl_mul_pow2 by lia. rewrite <- Z.pow_add_r by lia. apply IH; [lia..| |done].
      intros i Hi. destruct (decide (i = j)) as [->|]; [done|]. apply Hset. lia.
    + exists j. split; [done|]. split; [lia|done].
Qed.

Lemma clear_word_run ws h : words_ok ws -> nset ws < 256 ->
  exists i o, clear_word ws 0 h = Ret (Some (i, 2 ^ o, o), h) /\ 0 <= i < 8 /\ 0 <= o < 32 /\ rbit ws (i * 32 + o) = false.
Proof.
  intros Hok Hlt.
  assert (forall l1 l2, ws = l1 ++ l2 -> (forall x, x ∈ l1 -> x = 0xffffffff) ->
    exists i o, clear_word l2 (Z.of_nat (length l1)) h = Ret (Some (i, 2 ^ o, o), h) /\ 0 <= i < 8 /\ 0 <= o < 32 /\ rbit ws (i * 32 + o) = false) as Hgen.
  { intros l1 l2. revert l1. induction l2 as [|x l2 IH]; intros l1 He Hfull.
    - exfalso. rewrite app_nil_r in He. subst l1.
      assert (nset ws = 256); [|lia]. unfold nset.
      assert (filter (fun j => rbit ws j = true) (seqZ 0 256) = filter (fun j => true = true) (seqZ 0 256)) as ->; [|by vm_compute].
      apply (filter_ext_in _ (fun _ => true)). intros j Hj%elem_of_seqZ. destruct Hok as [Hl _]. unfold rbit.
      destruct (proj2 (arr_get_is_Some ws (j / 32))) as [x Hx]; [lia|]. rewrite Hx. cbn [default].
      rewrite (Hfull x) by (apply arr_get_Some in Hx as [_ Hx]; by apply list_elem_of_lookup_2 in Hx).
      change 0xffffffff with (Z.ones 32). apply Z.ones_spec_low. lia.
    - assert (arr_get ws (Z.of_nat (length l1)) = Some x) as Hx by (rewrite arr_get_nat, He; by apply list_lookup_middle).
      cbn [clear_word]. destruct (Z.eqb_spec x 0xffffffff) as [->|Hne].
      + replace (Z.of_nat (length l1) + 1) with (Z.of_nat (length (l1 ++ [0xffffffff]))) by (rewrite length_app; simpl; lia).
        apply IH; [by rewrite <- app_assoc|]. intros y [Hy|Hy%list_elem_of_singleton]%elem_of_app; [by apply Hfull|done].
      + destruct (clear_bit_run x 33 0) as (o & Hcb & Ho & Hb); [by apply (proj2 Hok _ _ Hx)|lia|lia|lia|done|].
        change (u32 (2 ^ 0)) with 1 in Hcb. exists (Z.of_nat (length l1)), o. rewrite Hcb. split; [done|].
        assert (is_Some (arr_get ws (Z.of_nat (length l1)))) as Hs by eauto. apply arr_get_is_Some in Hs.
        destruct Hok as [Hl _]. split; [lia|]. split; [done|]. by rewrite (rbit_get _ _ _ _ Hx). }
  apply (Hgen [] ws); [done|]. by intros x ?%elem_of_nil.
Qed.

(** *** The roots *)

(** [p] is the address of an entry in use. *)
Definition entry (roots : list kheap_root) (p : Z) : Prop :=
  exists w r j, arr_get roots w = Some r /\ rt_page r <> 0 /\ 0 <= j < 256 /\
    p = rt_page r + 16 * j /\ rbit (pagerefs_inuse r) j = true.

Definition is_root_page (roots : list kheap_root) (a : Z) : Prop :=
  a <> 0 /\ exists w r, arr_get roots w = Some r /\ rt_page r = a.

(** The roots are filled in order.  Only a failure to get a page of pagerefs
    leaves entries marked in a root without a page; [leaks] bounds their
    number. *)
Record roots_ok (roots : list kheap_root) (leaks : Z) (A : gmap Z Z) : Prop := RootsOk {
  ro_len : length roots = 16%nat;
  ro_root : forall w r, arr_get roots w = Some r -> root_ok r;
  ro_null : forall w r, arr_get roots w = Some r -> rt_page r = 0 -> numinuse r <= leaks /\
    forall w' r', w < w' -> arr_get roots w' = Some r' -> rt_page r' = 0 /\ numinuse r' = 0;
  ro_own : forall a, is_root_page roots a -> A !! a = Some 1;
  ro_inj : forall w w' r r', arr_get roots w = Some r -> arr_get roots w' = Some r' ->
    rt_page r = rt_page r' -> rt_page r <> 0 -> w = w';
}.

(** Root [w] replaced by one with at least the entries of the old one. *)
Lemma entry_grow roots w r r' p :
  arr_get roots w = Some r -> (rt_page r <> 0 -> rt_page r' = rt_page r) ->
  (forall j, 0 <= j < 256 -> rbit (pagerefs_inuse r) j = true -> rbit (pagerefs_inuse r') j = true) ->
  entry roots p -> entry (arr_set roots w r') p.
Proof.
  intros Hr Hp Hb (w1 & r1 & j & Hr1 & Hp1 & Hj & He & Hbit).
  assert (0 <= w < Z.of_nat (length roots)) as Hw by (apply arr_get_is_Some; eauto).
  destruct (decide (w = w1)) as [->|Hne].
  - rewrite Hr in Hr1. injection Hr1 as <-. exists w1, r', j. rewrite arr_get_set_eq by done.
    rewrite Hp by done. split_and!; try done; [lia..|by apply Hb].
  - exists w1, r1, j. rewrite arr_get_set_ne by lia. done.
Qed.

Lemma arr_set_cases {B} (l : list B) w x k y :
  0 <= w -> arr_get (arr_set l w x) k = Some y -> (k = w /\ y = x) \/ (k <> w /\ arr_get l k = Some y).
Proof.
  intros Hw Hy. destruct (decide (w = k)) as [->|Hne].
  - left. split; [done|]. assert (is_Some (arr_get (arr_set l k x) k)) as Hs by eauto.
    apply arr_get_is_Some in Hs. rewrite arr_set_length in Hs. rewrite arr_get_set_eq in Hy by done. by injection Hy.
  - right. split; [done|]. by rewrite arr_get_set_ne in Hy.
Qed.

(** The roots once entry [j] of root [w], the first one that is not full, has
    been marked and the page of the root is [page]. *)
Lemma roots_ok_mark roots leaks leaks' A A' w r r' :
  roots_ok roots leaks A -> arr_get roots w = Some r -> leaks < 256 -> leaks <= leaks' ->
  (forall k x, 0 <= k < w -> arr_get roots k = Some x -> 256 <= numinuse x) ->
  root_ok r' -> (forall a, A !! a = Some 1 -> A' !! a = Some 1) ->
  (rt_page r <> 0 -> rt_page r' = rt_page r) -> (rt_page r' = 0 -> numinuse r' <= leaks') ->
  (rt_page r' <> 0 -> rt_page r' = rt_page r \/ A !! rt_page r' = None /\ A' !! rt_page r' = Some 1) ->
  roots_ok (arr_set roots w r') leaks' A'.
Proof.
  intros [Hl Hro Hnull Hown Hinj] Hr Hlk Hlk' Hfull Hr' HA Hpg Hz Hnz.
  assert (0 <= w < Z.of_nat (length roots)) as Hw by (apply arr_get_is_Some; eauto).
  assert (forall a, is_root_page (arr_set roots w r') a -> is_root_page roots a \/ (a = rt_page r' /\ A !! a = None /\ A' !! a = Some 1)) as Hpages.
  { intros a (Ha & k & x & Hk & Hx). apply arr_set_cases in Hk as [[-> ->]|[Hne Hk]]; [| |lia].
    - rewrite <- Hx in Ha. destruct (Hnz Ha) as [E|[E1 E2]]; [left|right; by rewrite <- Hx].
      split; [congruence|]. exists w, r. split; [done|congruence].
    - left. split; [done|]. eauto. }
  assert (forall k x, k <> w -> arr_get roots k = Some x -> rt_page x = rt_page r' -> rt_page x <> 0 -> False) as Hdist.
  { intros k x Hne Hk He Hx. destruct (Hnz ltac:(congruence)) as [E|[E _]].
    - apply Hne. eapply (Hinj k w x r); [done..|congruence|done].
    - rewrite <- He, (Hown (rt_page x)) in E; [done|]. split; [done|]. eauto. }
  split.
  - by rewrite arr_set_length.
  - intros k x Hk. apply arr_set_cases in Hk as [[-> ->]|[Hne Hk]]; [done|by apply (Hro k)|lia].
  - intros k x Hk Hx. apply arr_set_cases in Hk as [[-> ->]|[Hne Hk]]; [| |lia].
    + split; [by apply Hz|]. intros w' x' Hlt Hx'. apply arr_set_cases in Hx' as [[-> _]|[_ Hx']]; [lia| |lia].
      assert (rt_page r = 0) as Hr0 by (destruct (decide (rt_page r = 0)); [done|]; rewrite Hpg in Hx; done).
      destruct (Hnull w r Hr Hr0) as [_ Hafter]. by apply (Hafter w').
    + destruct (Hnull k x Hk Hx) as [Hle Hafter]. split; [lia|]. intros w' x' Hlt Hx'.
      apply arr_set_cases in Hx' as [[-> ->]|[_ Hx']]; [|by apply (Hafter w')|lia].
      assert (0 <= k) as Hk0 by (apply arr_get_Some in Hk; tauto).
      pose proof (Hfull k x ltac:(lia) Hk). lia.
  - intros a Ha. destruct (Hpages a Ha) as [Ha'|(_ & _ & Ha')]; [by apply HA, Hown|done].
  - intros k k' x x' Hk Hk' He Hx. apply arr_set_cases in Hk as [[-> ->]|[Hne Hk]]; [| |lia];
      apply arr_set_cases in Hk' as [[-> ->]|[Hne' Hk']]; try lia.
    + exfalso. apply (Hdist k' x'); [done..|congruence|congruence].
    + exfalso. apply (Hdist k x); [done..|congruence|congruence].
    + by apply (Hinj k k' x x').
Qed.

(** ** Statistics *)

Definition stats_of (g : pg) : page_stats :=
  PageStats (pg_addr g) (bsize (pg_type g)) (Z.of_nat (length (pg_free g))) (nblk (pg_type g))
    ((fun i => bool_decide (i ∈ pg_free g)) <$> seqZ 0 (nblk (pg_type g))).

Lemma mark_free_run g l fuel ws h :
  (forall i, i ∈ l -> 0 <= i < nblk (pg_type g)) -> 0 <= pg_type g < 8 -> 
  MIPS_KSEG0 < pg_addr g /\ pg_addr g + PAGE_SIZE <= MIPS_KSEG0 + 2 ^ 29 ->
  threaded (k_mem (h_k h)) (pg_addr g) (bsize (pg_type g)) l -> words_ok ws -> (length l <= fuel)%nat ->
  exists ws', mark_free fuel (pg_addr g) (bsize (pg_type g)) (nblk (pg_type g))
      (match l with [] => 0 | i :: _ => pg_addr g + i * bsize (pg_type g) end) ws h = Ret (ws', h) /\
    words_ok ws' /\ forall j, 0 <= j -> rbit ws' j = rbit ws j || bool_decide (j ∈ l).
Proof.
  intros Hin Ht Hrg. destruct (bsize_facts _ Ht) as (_ & Hb & _ & Hn). unfold MIPS_KSEG0 in Hrg.
  revert fuel ws. induction l as [|i l IH]; intros fuel ws Hth Hws Hfu.
  - exists ws. split; [by destruct fuel|]. split; [done|]. intros j _.
    rewrite bool_decide_false by (by intros ?%elem_of_nil). by rewrite orb_false_r.
  - destruct fuel as [|fuel]; [simpl in Hfu; lia|]. cbn [mark_free]. destruct Hth as [Hw Hth].
    assert (0 <= i < nblk (pg_type g)) as Hi by (apply Hin, elem_of_cons; by left). pose proof (block_inside _ _ Ht Hi).
    rewrite (proj2 (Z.eqb_neq _ _)) by lia.
    replace (pg_addr g + i * bsize (pg_type g) - pg_addr g) with (i * bsize (pg_type g)) by lia.
    rewrite (u32_id (i * bsize (pg_type g))) by plia. rewrite Z.div_mul by lia.
    rewrite bind_kassert by (apply Z.ltb_lt; lia). pose proof Hws as [Hwl Hwr].
    destruct (proj2 (arr_get_is_Some ws (i / 32))) as [word Hword]; [lia|]. rewrite (bind_valid _ _ _ _ _ Hword).
    unfold load32. mrun. rewrite Hw, Z.shiftl_1_l.
    destruct (IH ltac:(intros j Hj; apply Hin, elem_of_cons; by right) fuel (arr_set ws (i / 32) (Z.lor word (2 ^ (i mod 32))))) as (ws' & Hrun & Hok & Hbit);
      [done| |simpl in Hfu; lia|].
    { apply words_ok_set; [done|lia|]. apply lor_pow2_range; [by apply (Hwr (i / 32))|lia]. }
    exists ws'. split; [exact Hrun|]. split; [done|]. intros j Hj. rewrite Hbit by done. rewrite (rbit_set ws _ word) by done.
    rewrite (bool_decide_ext (j ∈ i :: l) (j = i \/ j ∈ l)) by apply elem_of_cons. rewrite bool_decide_or, orb_assoc. f_equal.
    destruct (Z.eqb_spec (j / 32) (i / 32)) as [E|Hne].
    + rewrite testbit_lor by lia. unfold rbit. rewrite E, Hword. simpl. f_equal.
      destruct (Z.eqb_spec (j mod 32) (i mod 32)); [rewrite bool_decide_true by lia; done|rewrite bool_decide_false by lia; done].
    + rewrite (bool_decide_false (j = i)) by lia. by rewrite orb_false_r.
Qed.

Lemma subpage_stats_run g h : page_ok (k_mem (h_k h)) (h_refs h) g -> subpage_stats (pg_ref g) h = Ret (stats_of g, h).
Proof.
  intros Hg. pose proof (po_type _ _ _ Hg) as Ht. destruct (bsize_facts _ Ht) as (Hsz & Hb & _ & Hn).
  destruct (po_ref _ _ _ Hg) as (p & Hp & Hpab & Hnf & Hoff).
  destruct (pab_parts _ _ p (po_align _ _ _ Hg) (po_range _ _ _ Hg) Ht Hpab) as [Hpa Hbt].
  unfold subpage_stats. rewrite (bind_run _ _ _ _ _ (get_ref_run _ _ _ Hp)). rewrite Hbt, Hpa.
  rewrite bind_kassert by (apply andb_true_intro; split; [apply Z.leb_le|apply Z.ltb_lt]; unfold NSIZES; lia).
  unfold block_size. rewrite (bind_valid _ _ _ _ _ Hsz). fold (nblk (pg_type g)).
  change FREEMAP_WORDS with 8. rewrite bind_kassert by (apply Z.leb_le; lia).
  set (zero := replicate (Z.to_nat 8) 0).
  assert (words_ok zero) as Hz.
  { split; [done|]. intros i w [_ Hw]%arr_get_Some. apply lookup_replicate in Hw as [-> _]. lia. }
  assert (forall j, rbit zero j = false) as Hz0.
  { intros j. unfold rbit. destruct (arr_get zero (j / 32)) as [w|] eqn:E; simpl; [|by rewrite Z.bits_0].
    apply arr_get_Some in E as [_ E]. apply lookup_replicate in E as [-> _]. by rewrite Z.bits_0. }
  destruct (mark_free_run g (pg_free g) (S (Z.to_nat (nblk (pg_type g)))) zero h) as (ws & Hrun & Hok & Hbit);
    [apply Hg|done|apply Hg|apply Hg|done|pose proof (page_free_bound _ _ _ Hg); lia|].
  assert ((if negb (freelist_offset p =? INVALID_OFFSET)
     then mark_free (S (Z.to_nat (nblk (pg_type g)))) (pg_addr g) (bsize (pg_type g)) (nblk (pg_type g)) (pg_addr g + freelist_offset p) zero
     else mret zero) h = Ret (ws, h)) as Hmap.
  { rewrite Hoff. destruct (pg_free g) as [|i l] eqn:Hfr; [exact Hrun|]. cbn [first_off].
    assert (0 <= i < nblk (pg_type g)) as Hi by (apply (po_in _ _ _ Hg); rewrite Hfr; apply elem_of_cons; by left).
    pose proof (block_inside _ _ Ht Hi). rewrite (proj2 (Z.eqb_neq _ _)) by (unfold INVALID_OFFSET; plia). exact Hrun. }
  rewrite (bind_run _ _ _ _ _ Hmap). unfold mret, M_ret, stats_of. rewrite Hnf. do 3 f_equal.
  apply list_fmap_ext. intros k i Hk. apply lookup_seqZ in Hk as [-> Hk]. set (i := 0 + Z.of_nat k).
  pose proof (Hbit i ltac:(lia)) as Hb1. rewrite Hz0 in Hb1. cbn [orb] in Hb1. rewrite <- Hb1. unfold rbit.
  destruct Hok as [Hwl _]. destruct (proj2 (arr_get_is_Some ws (i / 32))) as [w Hw]; [lia|]. rewrite Hw. simpl.
  rewrite Z.shiftl_1_l, land_mask by lia. by destruct (Z.testbit w (i mod 32)).
Qed.

Lemma printstats_from_run P fuel pr h :
  (forall g, g ∈ P -> page_ok (k_mem (h_k h)) (h_refs h) g) ->
  chain next_all (h_refs h) pr (pg_ref <$> P) -> (length P <= fuel)%nat ->
  printstats_from fuel pr h = Ret (stats_of <$> P, h).
Proof.
  revert fuel pr. induction P as [|g P IH]; intros fuel pr Hok Hc Hfu.
  - cbn in Hc. subst pr. by destruct fuel.
  - cbn [fmap list_fmap chain] in Hc. destruct Hc as (-> & Hne & p & Hp & Hc).
    destruct fuel as [|fuel]; [simpl in Hfu; lia|]. cbn [printstats_from].
    rewrite (proj2 (Z.eqb_neq _ _)) by done.
    rewrite (bind_run _ _ _ _ _ (subpage_stats_run g h (Hok g ltac:(apply elem_of_cons; by left)))).
    rewrite (bind_run _ _ _ _ _ (get_ref_run _ _ _ Hp)).
    rewrite (bind_run _ _ _ _ _ (IH fuel (next_all p) ltac:(intros x Hx; apply Hok, elem_of_cons; by right) Hc ltac:(simpl in Hfu; lia))). done.
Qed.

Section HeapProofs.
Context `{Hkp : KpagesOk}.

(** This CPU holds [kmalloc_spinlock]; [y] is the state to which releasing it
    returns, in which the blocks [A] are allocated. *)
Record locked (y : sync) (A : gmap Z Z) (h : heap) : Prop := Locked {
  lk_cpu : cpu_ok (y_cpu y);
  lk_free : lock_free kmalloc_spinlock y;
  lk_held : k_sync (h_k h) = held kmalloc_spinlock y;
  lk_pages : pages (set_sync y (h_k h)) A;
}.

Lemma locked_local y A h h' :
  locked y A h -> k_cm (h_k h') = k_cm (h_k h) -> k_ram (h_k h') = k_ram (h_k h) ->
  k_sync (h_k h') = k_sync (h_k h) -> locked y A h'.
Proof.
  intros [? ? ? Hp] H1 H2 H3. split; [done..|by rewrite H3|].
  by apply (pages_local (set_sync y (h_k h))).
Qed.

Lemma locked_unlock y A h : locked y A h -> unlock h = Ret (tt, unlocked y h).
Proof. intros [? ? ? _]. by apply unlock_run. Qed.

Lemma page_facts s A va n : pages s A -> A !! va = Some n ->
  va mod PAGE_SIZE = 0 /\ MIPS_KSEG0 < va /\ va + PAGE_SIZE <= MIPS_KSEG0 + 2 ^ 29.
Proof. intros Hp Hva. destruct (pages_range s A va n Hp Hva) as (? & ? & ? & ?). split; [done|]. split; [done|]. plia. Qed.

(** [alloc_kpages] between a release and an acquisition of the lock. *)
Lemma unlock_alloc {B} y A h (f : Z -> H B) :
  locked y A h -> exists va k A',
    (unlock;; va ← on_k (alloc_kpages 1); f va) h = f va (set_k k h) /\
    pages k A' /\ k_sync k = y /\ k_mem k = k_mem (h_k h) /\
    ((va = 0 /\ A' = A) \/ (va <> 0 /\ A !! va = None /\ A' = <[va := 1]> A)).
Proof.
  intros Hl. pose proof Hl as [Hc Hf Hh Hp].
  destruct (pages_alloc _ A 1 Hp ltac:(lia)) as (va & s' & Hrun & Hm & Hs & Hres).
  rewrite (bind_run _ _ _ _ _ (locked_unlock y A h Hl)).
  assert (on_k (alloc_kpages 1) (unlocked y h) = Ret (va, set_k s' h)) as Hrun'.
  { unfold on_k. by rewrite (zoom_Ret h_k set_k _ (unlocked y h) va s' Hrun). }
  rewrite (bind_run _ _ _ _ _ Hrun'). exists va, s'.
  destruct Hres as [[-> ->]|(Hne & Hnone & Hp')]; eexists; (split; [done|]); (split; [done|]).
  - split; [done|]. split; [done|by left].
  - split; [done|]. split; [done|by right].
Qed.

Lemma lock_locked y A h :
  pages (h_k h) A -> k_sync (h_k h) = y -> lock_free kmalloc_spinlock y ->
  lock h = Ret (tt, set_k (hold kmalloc_spinlock (h_k h)) h) /\
  locked y A (set_k (hold kmalloc_spinlock (h_k h)) h).
Proof.
  intros Hp Hs Hf. pose proof (pages_quiet _ _ Hp) as Hq. split.
  - apply lock_run; [done|]. unfold free. by rewrite Hs.
  - unfold quiet in Hq. rewrite Hs in Hq. split; [done..| |].
    + cbn [set_k h_k hold set_sync k_sync]. by rewrite Hs.
    + by apply (pages_local (h_k h)).
Qed.

Lemma relock_alloc {B} y A h (f : Z -> H B) :
  locked y A h -> exists va k A',
    (unlock;; va ← on_k (alloc_kpages 1); lock;; f va) h = f va (set_k k h) /\
    locked y A' (set_k k h) /\ k_mem k = k_mem (h_k h) /\
    ((va = 0 /\ A' = A) \/ (va <> 0 /\ A !! va = None /\ A' = <[va := 1]> A)).
Proof.
  intros Hl. destruct (unlock_alloc y A h (fun va => lock;; f va) Hl) as (va & k & A' & Hrun & Hp & Hs & Hm & Hres).
  destruct (lock_locked y A' (set_k k h) Hp Hs (lk_free _ _ _ Hl)) as [Hrun' Hl'].
  exists va, (hold kmalloc_spinlock k), A'. rewrite Hrun, (bind_run _ _ _ _ _ Hrun'). done.
Qed.

Lemma get_root_run w r h : arr_get (kheaproots h) w = Some r -> get_root w h = Ret (r, h).
Proof. intros Hr. unfold get_root. mrun. unfold valid. by rewrite Hr. Qed.

Lemma allocpagerefpage_run y A w r h :
  locked y A h -> arr_get (kheaproots h) w = Some r -> rt_page r = 0 ->
  exists va k A', allocpagerefpage w h =
      Ret (tt, set_k k (set_roots (arr_set (kheaproots h) w (Root va (pagerefs_inuse r) (numinuse r))) h)) /\
    locked y A' (set_k k h) /\ k_mem k = k_mem (h_k h) /\
    ((va = 0 /\ A' = A) \/ (va <> 0 /\ A !! va = None /\ A' = <[va := 1]> A)).
Proof.
  intros Hl Hr Hz. unfold allocpagerefpage. rewrite (bind_run _ _ _ _ _ (get_root_run w r h Hr)).
  rewrite bind_kassert by (by rewrite Hz).
  destruct (relock_alloc y A h (fun va => if va =? 0 then mret tt
    else
      kassert (va mod PAGE_SIZE =? 0) "va % PAGE_SIZE == 0";;
      root ← get_root w;
      if negb (rt_page root =? 0) then
        unlock;;
        on_k (free_kpages va);;
        lock;;
        root ← get_root w;
        kassert (negb (rt_page root =? 0)) "root->page != NULL"
      else put_root w (Root va (pagerefs_inuse root) (numinuse root))) Hl) as (va & k & A' & Hrun & Hl' & Hm & Hres).
  rewrite Hrun. exists va, k, A'. split; [|done]. destruct Hres as [[-> ->]|(Hne & Hnone & ->)].
  - cbn [Z.eqb]. unfold mret, M_ret. destruct r as [pg ws n]. cbn [rt_page] in Hz. subst pg. cbn [pagerefs_inuse numinuse].
    rewrite arr_set_same by done. by destruct h.
  - rewrite (proj2 (Z.eqb_neq _ _)) by done.
    destruct (page_facts _ _ va 1 (lk_pages _ _ _ Hl') (lookup_insert_eq _ _ _)) as (Hmod & _).
    rewrite bind_kassert by (by rewrite Hmod). rewrite (bind_run _ _ _ _ _ (get_root_run w r (set_k k h) Hr)).
    rewrite Hz. done.
Qed.

(** What allocating an entry does to the heap. *)
Record new_entry (y : sync) (A : gmap Z Z) (leaks : Z) (h : heap) (p : Z) (h' : heap) (A' : gmap Z Z) (leaks' : Z) : Prop := NewEntry {
  ne_state : exists k roots, h' = set_k k (set_roots roots h) /\ k_mem k = k_mem (h_k h);
  ne_locked : locked y A' h';
  ne_roots : roots_ok (kheaproots h') leaks' A';
  ne_old : forall e, entry (kheaproots h) e -> entry (kheaproots h') e;
  ne_pages : forall a, is_root_page (kheaproots h') a -> is_root_page (kheaproots h) a \/ A !! a = None;
  ne_res : (p = 0 /\ A' = A /\ leaks <= leaks' <= leaks + 1) \/
    (p <> 0 /\ leaks' = leaks /\ entry (kheaproots h') p /\ ~ entry (kheaproots h) p /\
     (A' = A \/ exists a, A !! a = None /\ A' = <[a := 1]> A));
}.

Lemma root_page_range y A leaks h w r : locked y A h -> roots_ok (kheaproots h) leaks A ->
  arr_get (kheaproots h) w = Some r -> rt_page r <> 0 ->
  A !! rt_page r = Some 1 /\ rt_page r mod PAGE_SIZE = 0 /\ MIPS_KSEG0 < rt_page r.
Proof.
  intros Hl Hro Hr Hnz. assert (A !! rt_page r = Some 1) as HA by (apply (ro_own _ _ _ Hro); split; [done|eauto]).
  split; [done|]. by destruct (page_facts _ _ _ _ (lk_pages _ _ _ Hl) HA) as (? & ? & _).
Qed.

(** An address on an entry page determines the page and the entry. *)
Lemma entry_unique a b i j : a mod PAGE_SIZE = 0 -> b mod PAGE_SIZE = 0 -> 0 <= i < 256 -> 0 <= j < 256 ->
  a + 16 * i = b + 16 * j -> a = b /\ i = j.
Proof. intros Ha Hb Hi Hj He. plia. Qed.

Lemma take_entry_run y A leaks w i o h r :
  locked y A h -> roots_ok (kheaproots h) leaks A -> arr_get (kheaproots h) w = Some r -> 0 <= leaks < 256 ->
  (forall k x, 0 <= k < w -> arr_get (kheaproots h) k = Some x -> 256 <= numinuse x) ->
  numinuse r < 256 -> 0 <= i < 8 -> 0 <= o < 32 -> rbit (pagerefs_inuse r) (i * 32 + o) = false ->
  exists p h' A' leaks', take_entry w i (2 ^ o) o h = Ret (p, h') /\ new_entry y A leaks h p h' A' leaks'.
Proof.
  intros Hl Hro Hr Hlk Hfull Hnum Hi Ho Hb.
  destruct (ro_root _ _ _ Hro w r Hr) as [Hws Hns]. pose proof Hws as [Hwl Hwr].
  destruct (proj2 (arr_get_is_Some (pagerefs_inuse r) i)) as [word Hword]; [lia|].
  destruct (root_mark _ _ _ _ Hws Hword Ho Hb) as (Hws' & Hns' & Hbits).
  pose proof (nset_bound (pagerefs_inuse r)).
  assert (0 <= w < Z.of_nat (length (kheaproots h))) as Hw by (apply arr_get_is_Some; eauto).
  set (ws' := arr_set (pagerefs_inuse r) i (Z.lor word (2 ^ o))) in *.
  assert (forall pg, root_ok (Root pg ws' (numinuse r + 1))) as Hrok by (intros pg; split; [done|]; cbn [numinuse pagerefs_inuse]; lia).
  assert (forall pg e, (rt_page r <> 0 -> pg = rt_page r) -> entry (kheaproots h) e ->
    entry (arr_set (kheaproots h) w (Root pg ws' (numinuse r + 1))) e) as Hgrow.
  { intros pg e Hpg. apply (entry_grow _ w r); [done..|]. intros j Hj Hbj. cbn [pagerefs_inuse]. by rewrite Hbits, Hbj by lia. }
  set (r1 := Root (rt_page r) ws' (numinuse r + 1)).
  unfold take_entry. rewrite (bind_run _ _ _ _ _ (get_root_run w r h Hr)).
  rewrite (bind_valid _ _ _ _ _ Hword). fold ws'. unfold put_root. mrun. rewrite u32_id by lia. fold r1.
  set (h1 := set_roots (arr_set (kheaproots h) w r1) h).
  assert (arr_get (kheaproots h1) w = Some r1) as Hr1 by (by apply arr_get_set_eq).
  rewrite (bind_run _ _ _ _ _ (get_root_run w r1 h1 Hr1)). cbn [rt_page r1].
  destruct (Z.eqb_spec (rt_page r) 0) as [Hz|Hnz].
  - assert (locked y A h1) as Hl1 by (by apply (locked_local y A h)).
    destruct (allocpagerefpage_run y A w r1 h1 Hl1 Hr1 Hz) as (va & k & A' & Hrun & Hl' & Hm & Hres).
    rewrite (bind_run _ _ _ _ _ Hrun). cbn [kheaproots set_roots h1 pagerefs_inuse numinuse r1]. rewrite arr_set_twice.
    set (r2 := Root va ws' (numinuse r + 1)). set (h2 := set_k k (set_roots (arr_set (kheaproots h) w r2) h)).
    change (set_k k (set_roots (arr_set (kheaproots h) w r2) h1)) with h2.
    assert (arr_get (kheaproots h2) w = Some r2) as Hr2 by (by apply arr_get_set_eq).
    rewrite (bind_run _ _ _ _ _ (get_root_run w r2 h2 Hr2)). cbn [rt_page r2].
    assert (locked y A' h2) as Hl2 by (by apply (locked_local y A' (set_k k h1))).
    assert (forall a, is_root_page (kheaproots h2) a -> is_root_page (kheaproots h) a \/ a = va) as Hpages.
    { intros a (Ha & w' & x & Hx & Hpx). apply arr_set_cases in Hx as [[-> ->]|[_ Hx]]; [by right| |lia].
      left. split; [done|]. eauto. }
    destruct Hres as [[-> ->]|(Hne & Hnone & ->)].
    + cbn [Z.eqb]. exists 0, h2, A, (leaks + 1). split; [done|]. destruct (ro_null _ _ _ Hro w r Hr Hz) as [Hle _]. split.
      * by exists k, (arr_set (kheaproots h) w r2).
      * done.
      * apply (roots_ok_mark _ leaks _ A A w r r2); try done; try lia; [apply Hrok|intros _; cbn [numinuse r2]; lia].
      * intros e. by apply Hgrow.
      * intros a Ha. destruct (Hpages a Ha) as [?| ->]; [by left|]. by destruct Ha.
      * left. split_and!; [done..|lia|lia].
    + rewrite (proj2 (Z.eqb_neq _ _)) by done. exists (va + sizeof_pageref * (i * 32 + o)), h2, (<[va := 1]> A), leaks.
      split; [done|].
      destruct (page_facts _ _ va 1 (lk_pages _ _ _ Hl') (lookup_insert_eq _ _ _)) as (Hva1 & Hva2 & _).
      unfold MIPS_KSEG0 in Hva2. split.
      * by exists k, (arr_set (kheaproots h) w r2).
      * done.
      * apply (roots_ok_mark _ leaks _ A _ w r r2); try done; [lia|apply Hrok|..].
        -- intros a Ha. rewrite lookup_insert_ne; [done|]. intros ->. by rewrite Hnone in Ha.
        -- intros _. right. split; [done|]. apply lookup_insert_eq.
      * intros e. by apply Hgrow.
      * intros a Ha. destruct (Hpages a Ha) as [?| ->]; [by left|by right].
      * right. unfold sizeof_pageref. split; [lia|]. split; [done|]. split; [|split].
        -- exists w, r2, (i * 32 + o). split; [done|]. split; [done|]. split; [lia|]. split; [done|].
           cbn [pagerefs_inuse r2]. rewrite Hbits by lia. by rewrite Z.eqb_refl, orb_true_r.
        -- intros (w' & x & j & Hx & Hxp & Hj & He & _).
           destruct (root_page_range _ _ _ _ _ _ Hl Hro Hx Hxp) as (HA & Hxm & _).
           destruct (entry_unique va (rt_page x) (i * 32 + o) j) as [E _]; [done..|lia|lia|lia|]. subst va. by rewrite Hnone in HA.
        -- right. by exists va.
  - rewrite bind_ret. rewrite (bind_run _ _ _ _ _ (get_root_run w r1 h1 Hr1)). cbn [rt_page r1].
    rewrite (proj2 (Z.eqb_neq _ _)) by done. exists (rt_page r + sizeof_pageref * (i * 32 + o)), h1, A, leaks.
    split; [done|]. destruct (root_page_range _ _ _ _ _ _ Hl Hro Hr Hnz) as (HA & Hpm & Hpr). unfold MIPS_KSEG0 in Hpr. split.
    + exists (h_k h), (arr_set (kheaproots h) w r1). split; [|done]. by destruct h.
    + by apply (locked_local y A h).
    + apply (roots_ok_mark _ leaks _ A A w r r1); try done; [lia|apply Hrok|by left].
    + intros e. by apply Hgrow.
    + intros a (Ha & w' & x & Hx & Hpx). left. apply arr_set_cases in Hx as [[-> ->]|[_ Hx]]; [| |lia].
      * split; [done|]. by exists w, r.
      * split; [done|]. eauto.
    + right. unfold sizeof_pageref. split; [lia|]. split; [done|]. split; [|split; [|by left]].
      * exists w, r1, (i * 32 + o). split; [done|]. split; [done|]. split; [lia|]. split; [done|].
        cbn [pagerefs_inuse r1]. rewrite Hbits by lia. by rewrite Z.eqb_refl, orb_true_r.
      * intros (w' & x & j & Hx & Hxp & Hj & He & Hbx).
        destruct (root_page_range _ _ _ _ _ _ Hl Hro Hx Hxp) as (_ & Hxm & _).
        destruct (entry_unique (rt_page r) (rt_page x) (i * 32 + o) j) as [E1 E2]; [done..|lia|lia|lia|].
        rewrite <- E2 in Hbx. assert (w = w') as <- by (by apply (ro_inj _ _ _ Hro w w' r x)).
        rewrite Hr in Hx. injection Hx as <-. by rewrite Hb in Hbx.
Qed.

Lemma allocpageref_from_run y A leaks h n w :
  locked y A h -> roots_ok (kheaproots h) leaks A -> 0 <= leaks < 256 -> 0 <= w -> w + Z.of_nat n = 16 ->
  (forall k x, 0 <= k < w -> arr_get (kheaproots h) k = Some x -> 256 <= numinuse x) ->
  exists p h' A' leaks', allocpageref_from (seqZ w (Z.of_nat n)) h = Ret (p, h') /\ new_entry y A leaks h p h' A' leaks'.
Proof.
  intros Hl Hro Hlk. revert w. induction n as [|n IH]; intros w Hw Hn Hfull.
  - exists 0, h, A, leaks. split; [done|]. split; try done.
    + exists (h_k h), (kheaproots h). by destruct h.
    + intros a Ha. by left.
    + left. split_and!; [done..|lia|lia].
  - rewrite seqZ_cons by lia. cbn [allocpageref_from].
    replace (Z.pred (Z.of_nat (S n))) with (Z.of_nat n) by lia. replace (Z.succ w) with (w + 1) by lia.
    destruct (proj2 (arr_get_is_Some (kheaproots h) w)) as [r Hr]; [rewrite (ro_len _ _ _ Hro); lia|].
    rewrite (bind_run _ _ _ _ _ (get_root_run w r h Hr)). change NPAGEREFS_PER_PAGE with 256.
    destruct (Z.leb_spec 256 (numinuse r)) as [Hge|Hlt].
    + apply IH; [lia..|]. intros k x Hk Hx. destruct (decide (k = w)) as [->|]; [rewrite Hr in Hx; by injection Hx as <-|].
      apply (Hfull k); [lia|done].
    + destruct (ro_root _ _ _ Hro w r Hr) as [Hws Hns].
      destruct (clear_word_run (pagerefs_inuse r) h Hws ltac:(lia)) as (i & o & Hcw & Hi & Ho & Hb).
      rewrite (bind_run _ _ _ _ _ Hcw). by apply (take_entry_run y A leaks w i o h r).
Qed.

Lemma allocpageref_run y A leaks h :
  locked y A h -> roots_ok (kheaproots h) leaks A -> 0 <= leaks < 256 ->
  exists p h' A' leaks', allocpageref h = Ret (p, h') /\ new_entry y A leaks h p h' A' leaks'.
Proof. intros Hl Hro Hlk. apply (allocpageref_from_run y A leaks h 16 0); [done..|]. intros k x Hk. lia. Qed.

(** *** Releasing an entry *)

Lemma entry_index_other p a b j :
  a mod PAGE_SIZE = 0 -> b mod PAGE_SIZE = 0 -> a <> b -> MIPS_KSEG0 < a /\ a + PAGE_SIZE <= MIPS_KSEG0 + 2 ^ 29 ->
  MIPS_KSEG0 < b /\ b + PAGE_SIZE <= MIPS_KSEG0 + 2 ^ 29 -> 0 <= j < 256 -> p = a + 16 * j ->
  256 <= entry_index p b.
Proof.
  unfold MIPS_KSEG0. intros Ha Hb Hne Hra Hrb Hj ->. unfold entry_index. rewrite s32_id by plia.
  rewrite Z.shiftr_div_pow2 by lia. change (2 ^ 4) with 16. unfold u32.
  destruct (decide (b <= a)).
  - rewrite Z.mod_small by plia. plia.
  - rewrite <- (Z_mod_plus_full _ 1). rewrite Z.mod_small by plia. plia.
Qed.

Lemma entry_index_same a j : 0 <= j < 256 -> entry_index (a + 16 * j) a = j.
Proof.
  intros Hj. unfold entry_index. replace (a + 16 * j - a) with (16 * j) by lia. rewrite s32_id by lia.
  rewrite Z.shiftr_div_pow2 by lia. change (2 ^ 4) with 16. rewrite u32_id by lia. lia.
Qed.

Lemma roots_ok_unmark roots leaks A w r r' :
  roots_ok roots leaks A -> arr_get roots w = Some r -> rt_page r <> 0 -> rt_page r' = rt_page r -> root_ok r' ->
  roots_ok (arr_set roots w r') leaks A /\ forall a, is_root_page (arr_set roots w r') a <-> is_root_page roots a.
Proof.
  intros [Hl Hro Hnull Hown Hinj] Hr Hnz Hp Hr'.
  assert (0 <= w < Z.of_nat (length roots)) as Hw by (apply arr_get_is_Some; eauto).
  assert (forall k x, arr_get (arr_set roots w r') k = Some x -> exists x', arr_get roots k = Some x' /\ rt_page x' = rt_page x /\ (k <> w -> x' = x)) as Hback.
  { intros k x Hk. apply arr_set_cases in Hk as [[-> ->]|[Hne Hk]]; [exists r|exists x|lia]; done. }
  assert (forall a, is_root_page (arr_set roots w r') a <-> is_root_page roots a) as Hpg.
  { intros a. split; intros (Ha & k & x & Hk & Hx); (split; [done|]).
    - destruct (Hback k x Hk) as (x' & Hx' & E & _). exists k, x'. split; [done|congruence].
    - destruct (decide (w = k)) as [->|Hne].
      + exists k, r'. rewrite arr_get_set_eq by done. rewrite Hr in Hk. injection Hk as <-. split; [done|congruence].
      + exists k, x. by rewrite arr_get_set_ne by lia. }
  split; [|done]. split.
  - by rewrite arr_set_length.
  - intros k x Hk. apply arr_set_cases in Hk as [[-> ->]|[Hne Hk]]; [done|by apply (Hro k)|lia].
  - intros k x Hk Hx. destruct (Hback k x Hk) as (x' & Hx' & E & Hs).
    assert (k <> w) as Hkw by (intros ->; rewrite Hr in Hx'; injection Hx' as <-; congruence).
    rewrite (Hs Hkw) in Hx'. destruct (Hnull k x Hx' Hx) as [Hle Hafter]. split; [done|].
    intros w' y Hlt Hy. destruct (Hback w' y Hy) as (y' & Hy' & E' & Hs').
    destruct (Hafter w' y' Hlt Hy') as [E1 E2]. destruct (decide (w' = w)) as [->|Hne]; [|by rewrite <- Hs'].
    rewrite Hr in Hy'. by injection Hy' as <-.
  - intros a Ha%Hpg. by apply Hown.
  - intros k k' x x' Hk Hk' He Hx. destruct (Hback k x Hk) as (z & Hz & Ez & _). destruct (Hback k' x' Hk') as (z' & Hz' & Ez' & _).
    apply (Hinj k k' z z'); [done..|congruence|congruence].
Qed.

Lemma freepageref_run y A leaks h p :
  locked y A h -> roots_ok (kheaproots h) leaks A -> entry (kheaproots h) p ->
  exists roots, freepageref p h = Ret (tt, set_roots roots h) /\ roots_ok roots leaks A /\
    (forall a, is_root_page roots a <-> is_root_page (kheaproots h) a) /\
    (forall e, entry (kheaproots h) e -> e <> p -> entry roots e).
Proof.
  intros Hl Hro (w0 & r0 & j & Hr0 & Hnz & Hj & Hp & Hb).
  assert (0 <= w0 < 16) as Hw0 by (pose proof (ro_len _ _ _ Hro); assert (is_Some (arr_get (kheaproots h) w0)) as Hs by eauto; apply arr_get_is_Some in Hs; lia).
  assert (forall a, is_root_page (kheaproots h) a -> a mod PAGE_SIZE = 0 /\ MIPS_KSEG0 < a /\ a + PAGE_SIZE <= MIPS_KSEG0 + 2 ^ 29) as Hrange.
  { intros a Ha. by apply (page_facts _ A a 1 (lk_pages _ _ _ Hl)), (ro_own _ _ _ Hro). }
  destruct (Hrange (rt_page r0)) as [Hm0 Hrg0]; [split; [done|eauto]|].
  destruct (ro_root _ _ _ Hro w0 r0 Hr0) as [Hws Hns]. pose proof Hws as [Hwl Hwr].
  destruct (proj2 (arr_get_is_Some (pagerefs_inuse r0) (j / 32))) as [word Hword]; [lia|].
  assert (rbit (pagerefs_inuse r0) (j / 32 * 32 + j mod 32) = true) as Hb' by (by replace (j / 32 * 32 + j mod 32) with j by lia).
  destruct (root_unmark _ _ _ (j mod 32) Hws Hword ltac:(lia) Hb') as (Hws' & Hns' & Hbits).
  replace (j / 32 * 32 + j mod 32) with j in Hbits by lia.
  set (r1 := Root (rt_page r0) (arr_set (pagerefs_inuse r0) (j / 32) (Z.land word (not32 (2 ^ (j mod 32))))) (numinuse r0 - 1)).
  destruct (roots_ok_unmark _ leaks A w0 r0 r1 Hro Hr0 Hnz eq_refl) as [Hro1 Hpg1]; [split; [done|]; cbn [numinuse r1 pagerefs_inuse]; lia|].
  exists (arr_set (kheaproots h) w0 r1). split.
  2: { split; [done|]. split; [done|]. intros e (w & x & i & Hx & Hxn & Hi & He & Hbx) Hne.
       destruct (decide (w0 = w)) as [->|Hww].
       - rewrite Hr0 in Hx. injection Hx as <-. exists w, r1, i. rewrite arr_get_set_eq by (rewrite (ro_len _ _ _ Hro); lia).
         split; [done|]. split; [done|]. split; [done|]. split; [done|]. cbn [pagerefs_inuse r1]. rewrite Hbits by lia.
         rewrite Hbx. destruct (Z.eqb_spec i j); [|done]. congruence.
       - exists w, x, i. by rewrite arr_get_set_ne by lia. }
  unfold freepageref.
  assert (forall n w, 0 <= w <= w0 -> w + Z.of_nat n = 16 ->
    freepageref_from (seqZ w (Z.of_nat n)) p h = Ret (tt, set_roots (arr_set (kheaproots h) w0 r1) h)) as Hgen.
  2: { apply (Hgen 16%nat 0); lia. }
  induction n as [|n IH]; intros w Hw Hn; [lia|]. rewrite seqZ_cons by lia. cbn [freepageref_from].
  replace (Z.pred (Z.of_nat (S n))) with (Z.of_nat n) by lia. replace (Z.succ w) with (w + 1) by lia.
  destruct (decide (w = w0)) as [->|Hne].
  - rewrite (bind_run _ _ _ _ _ (get_root_run w0 r0 h Hr0)). rewrite (proj2 (Z.eqb_neq _ _)) by done.
    rewrite Hp, entry_index_same by done. change NPAGEREFS_PER_PAGE with 256. rewrite (proj2 (Z.ltb_lt _ _)) by lia.
    rewrite (bind_valid _ _ _ _ _ Hword). rewrite Z.shiftl_1_l.
    rewrite bind_kassert by (rewrite land_mask by lia; unfold rbit in Hb; rewrite Hword in Hb; simpl in Hb; by rewrite Hb).
    pose proof (nset_bound (arr_set (pagerefs_inuse r0) (j / 32) (Z.land word (not32 (2 ^ (j mod 32)))))).
    by rewrite bind_kassert by (apply Z.ltb_lt; lia).
  - destruct (proj2 (arr_get_is_Some (kheaproots h) w)) as [r Hr]; [rewrite (ro_len _ _ _ Hro); lia|].
    rewrite (bind_run _ _ _ _ _ (get_root_run w r h Hr)).
    assert (rt_page r <> 0) as Hrnz.
    { intros Hz. destruct (ro_null _ _ _ Hro w r Hr Hz) as [_ Haft]. by destruct (Haft w0 r0 ltac:(lia) Hr0). }
    rewrite (proj2 (Z.eqb_neq _ _)) by done. change NPAGEREFS_PER_PAGE with 256.
    destruct (Hrange (rt_page r)) as [Hm Hrg]; [split; [done|eauto]|].
    assert (rt_page r0 <> rt_page r) as Hpp by (intros E; apply Hne; symmetry; by apply (ro_inj _ _ _ Hro w0 w r0 r)).
    rewrite (proj2 (Z.ltb_ge _ _)) by (by apply (entry_index_other p (rt_page r0) (rt_page r) j)).
    apply IH; lia.
Qed.

(** ** The invariant of the heap *)

Record core (leaks : Z) (A : gmap Z Z) (P : list pg) (h : heap) : Prop := Core {
  co_roots : roots_ok (kheaproots h) leaks A;
  co_lists : lists_ok (h_refs h) (sizebases h) (allbase h) P;
  co_page : forall g, g ∈ P -> page_ok (k_mem (h_k h)) (h_refs h) g;
  co_entry : forall g, g ∈ P -> entry (kheaproots h) (pg_ref g);
  co_own : forall g, g ∈ P -> A !! pg_addr g = Some 1 /\ ~ is_root_page (kheaproots h) (pg_addr g);
  co_inj : forall g g', g ∈ P -> g' ∈ P -> pg_addr g = pg_addr g' -> g = g';
}.

(** Between operations, the lock is free and no page is entirely free. *)
Record heap_rep (leaks : Z) (h : heap) (A : gmap Z Z) (P : list pg) : Prop := HeapRep {
  hr_core : core leaks A P h;
  hr_pages : pages (h_k h) A;
  hr_lock : free kmalloc_spinlock (h_k h);
  hr_used : forall g, g ∈ P -> Z.of_nat (length (pg_free g)) < nblk (pg_type g);
}.

(** [a] is the address of a block of [n] bytes that is allocated. *)
Definition live (P : list pg) (a n : Z) : Prop :=
  exists g i, g ∈ P /\ 0 <= i < nblk (pg_type g) /\ (i ∉ pg_free g) /\
    a = pg_addr g + i * bsize (pg_type g) /\ n = bsize (pg_type g).

Lemma core_ext leaks A P h h' :
  core leaks A P h -> kheaproots h' = kheaproots h -> h_refs h' = h_refs h -> sizebases h' = sizebases h ->
  allbase h' = allbase h -> k_mem (h_k h') = k_mem (h_k h) -> core leaks A P h'.
Proof. intros [? ? ? ? ? ?] E1 E2 E3 E4 E5. split; by rewrite ?E1, ?E2, ?E3, ?E4, ?E5. Qed.

(** Pages of distinct addresses do not overlap. *)
Lemma pages_disjoint leaks A P h g g' :
  core leaks A P h -> g ∈ P -> g' ∈ P -> pg_addr g <> pg_addr g' ->
  pg_addr g + PAGE_SIZE <= pg_addr g' \/ pg_addr g' + PAGE_SIZE <= pg_addr g.
Proof.
  intros Hc Hg Hg' Hne. pose proof (po_align _ _ _ (co_page _ _ _ _ Hc g Hg)).
  pose proof (po_align _ _ _ (co_page _ _ _ _ Hc g' Hg')). plia.
Qed.

Lemma live_page leaks A P h a n : core leaks A P h -> live P a n ->
  exists g, g ∈ P /\ pg_addr g <= a /\ a + n <= pg_addr g + PAGE_SIZE /\ 16 <= n.
Proof.
  intros Hc (g & i & Hg & Hi & _ & -> & ->). exists g.
  pose proof (po_type _ _ _ (co_page _ _ _ _ Hc g Hg)) as Ht.
  pose proof (block_inside _ _ Ht Hi). pose proof (bsize_facts _ Ht). split; [done|]. lia.
Qed.

(** The blocks that are allocated do not overlap. *)
Lemma live_apart leaks A P h a n a' n' : core leaks A P h -> live P a n -> live P a' n' -> a <> a' ->
  a + n <= a' \/ a' + n' <= a.
Proof.
  intros Hc (g & i & Hg & Hi & _ & -> & ->) (g' & i' & Hg' & Hi' & _ & -> & ->) Hne.
  pose proof (po_type _ _ _ (co_page _ _ _ _ Hc g Hg)) as Ht.
  pose proof (po_type _ _ _ (co_page _ _ _ _ Hc g' Hg')) as Ht'.
  destruct (decide (pg_addr g = pg_addr g')) as [E|Hd].
  - rewrite (co_inj _ _ _ _ Hc g g' Hg Hg' E) in *. destruct (bsize_facts _ Ht) as (_ & Hb & _).
    assert (i <> i') by (intros ->; done). nia.
  - pose proof (block_inside _ _ Ht Hi). pose proof (block_inside _ _ Ht' Hi').
    destruct (pages_disjoint _ _ _ _ g g' Hc Hg Hg' Hd); lia.
Qed.

(** *** Taking a block from a page of the heap *)

Lemma core_pop leaks A P h g i l p y :
  core leaks A P h -> g ∈ P -> pg_free g = i :: l -> h_refs h !! pg_ref g = Some p ->
  core leaks A (repl g (Pg (pg_ref g) (pg_addr g) (pg_type g) l) P)
    (unlocked y (set_refs (<[pg_ref g := popped p (bsize (pg_type g)) l]> (h_refs h)) h)).
Proof.
  intros Hc Hg Hfr Hp. set (g' := Pg (pg_ref g) (pg_addr g) (pg_type g) l).
  assert (forall x, x ∈ repl g g' P -> exists z, z ∈ P /\ pg_ref x = pg_ref z /\ pg_addr x = pg_addr z) as Hsame.
  { intros x [->|[Hx _]]%elem_of_repl; [exists g|exists x]; done. }
  split; cbn [unlocked set_refs set_k kheaproots h_refs sizebases allbase h_k set_sync k_mem].
  - apply Hc.
  - apply (lists_repl _ _ _ _ g g' p); [apply Hc|done..].
  - intros x [->|[Hx Hne]]%elem_of_repl.
    + apply (page_ok_popped _ _ _ i); [by apply (co_page _ _ _ _ Hc)|done..].
    + apply (page_ok_frame (k_mem (h_k h)) _ (h_refs h)); [by apply (co_page _ _ _ _ Hc)|done|].
      intros q Hq. exists q. by rewrite lookup_insert_ne.
  - intros x Hx. destruct (Hsame x Hx) as (z & Hz & -> & _). by apply (co_entry _ _ _ _ Hc).
  - intros x Hx. destruct (Hsame x Hx) as (z & Hz & _ & ->). by apply (co_own _ _ _ _ Hc).
  - intros x x' [->|[Hx Hne]]%elem_of_repl [->|[Hx' Hne']]%elem_of_repl He; [done| | |].
    + by destruct Hne'; rewrite (co_inj _ _ _ _ Hc g x' Hg Hx' He).
    + by destruct Hne; rewrite (co_inj _ _ _ _ Hc x g Hx Hg He).
    + by apply (co_inj _ _ _ _ Hc).
Qed.

Lemma repl_elem g g' P : g ∈ P -> g' ∈ repl g g' P.
Proof. intros Hg. apply list_elem_of_fmap. exists g. by rewrite decide_True. Qed.

Lemma repl_keep g g' P x : x ∈ P -> pg_ref x <> pg_ref g -> x ∈ repl g g' P.
Proof. intros Hx Hne. apply list_elem_of_fmap. exists x. by rewrite decide_False. Qed.

Lemma live_pop leaks A P h g i l :
  core leaks A P h -> g ∈ P -> pg_free g = i :: l -> forall a n,
  live (repl g (Pg (pg_ref g) (pg_addr g) (pg_type g) l) P) a n <->
  live P a n \/ (a = pg_addr g + i * bsize (pg_type g) /\ n = bsize (pg_type g)).
Proof.
  intros Hc Hg Hfr a n. pose proof (lo_nodup _ _ _ _ (co_lists _ _ _ _ Hc)) as Hnd.
  pose proof (po_nodup _ _ _ (co_page _ _ _ _ Hc g Hg)) as Hfn. rewrite Hfr in Hfn. apply NoDup_cons in Hfn as [Hil _].
  assert (0 <= i < nblk (pg_type g)) as Hi by (apply (po_in _ _ _ (co_page _ _ _ _ Hc g Hg)); rewrite Hfr; apply elem_of_cons; by left).
  set (g' := Pg (pg_ref g) (pg_addr g) (pg_type g) l). split.
  - intros (x & j & [->|[Hx Hne]]%elem_of_repl & Hj & Hnj & -> & ->); cbn [pg_type pg_addr pg_free g'] in *.
    + destruct (decide (j = i)) as [->|Hji]; [by right|]. left. exists g, j. rewrite Hfr, not_elem_of_cons. done.
    + left. by exists x, j.
  - intros [(x & j & Hx & Hj & Hnj & -> & ->)|[-> ->]].
    + destruct (decide (pg_ref x = pg_ref g)) as [E|Hne].
      * rewrite (refs_inj P x g Hnd Hx Hg E) in *. exists g', j. rewrite Hfr in Hnj. apply not_elem_of_cons in Hnj as [_ Hnj].
        split; [by apply repl_elem|done].
      * exists x, j. split; [by apply repl_keep|done].
    + exists g', i. split; [by apply repl_elem|done].
Qed.

(** *** A new page *)

Definition new_page (pr prpage t : Z) : pg := Pg pr prpage t (rev (seqZ 0 (nblk t))).

Lemma length_new_page pr prpage t : 0 <= t < 8 -> Z.of_nat (length (pg_free (new_page pr prpage t))) = nblk t.
Proof.
  intros Ht. destruct (bsize_facts t Ht) as (_ & _ & _ & Hn). cbn [pg_free new_page].
  rewrite length_rev, length_seqZ. lia.
Qed.

Lemma NoDup_rev_seqZ n : NoDup (rev (seqZ 0 n)).
Proof. apply NoDup_ListNoDup, NoDup_rev, NoDup_ListNoDup, NoDup_seqZ. Qed.

Lemma first_off_new pr prpage t : 0 <= t < 8 ->
  first_off (bsize t) (pg_free (new_page pr prpage t)) = (nblk t - 1) * bsize t.
Proof.
  intros Ht. destruct (bsize_facts t Ht) as (_ & _ & _ & Hn). cbn [pg_free new_page].
  replace (seqZ 0 (nblk t)) with (seqZ 0 (nblk t - 1 + 1)) by (f_equal; lia). by rewrite rev_seqZ_S by lia.
Qed.

Lemma upd_ref_eq a f h : upd_ref a f h = Ret (tt, set_refs (<[a := f (default blank (h_refs h !! a))]> (h_refs h)) h).
Proof. done. Qed.

Lemma setup_page_run leaks A P h pr prpage t :
  core leaks A P h -> entry (kheaproots h) pr -> pr ∉ pg_ref <$> P -> pr <> 0 -> 0 <= t < 8 ->
  prpage mod PAGE_SIZE = 0 -> MIPS_KSEG0 < prpage /\ prpage + PAGE_SIZE <= MIPS_KSEG0 + 2 ^ 29 ->
  A !! prpage = Some 1 -> ~ is_root_page (kheaproots h) prpage -> (forall g, g ∈ P -> pg_addr g <> prpage) ->
  exists m refs bases all, 
    setup_page pr prpage t h = Ret (tt, set_hmem m (Heap (h_k h) (kheaproots h) refs bases all)) /\
    core leaks A (new_page pr prpage t :: P) (set_hmem m (Heap (h_k h) (kheaproots h) refs bases all)) /\
    same_off (k_mem (h_k h)) m prpage (prpage + PAGE_SIZE).
Proof.
  intros Hc Hent Hni Hnz Ht Hal Hrg Hown Hnr Hdist.
  destruct (bsize_facts t Ht) as (Hsz & Hb & Hnb & Hn). pose proof Hrg as Hrg'. unfold MIPS_KSEG0 in Hrg'.
  destruct (lo_same _ _ _ _ (co_lists _ _ _ _ Hc) t Ht) as (base & Hbase & _).
  unfold setup_page, block_size. rewrite (bind_run _ _ _ _ _ (upd_ref_eq _ _ _)).
  rewrite (bind_valid _ _ _ _ _ Hsz). fold (nblk t).
  set (p0 := default blank (h_refs h !! pr)).
  rewrite (bind_run _ _ _ _ _ (upd_ref_run _ _ _ _ (lookup_insert_eq _ _ _))). cbn [set_refs h_refs h_k kheaproots sizebases allbase].
  rewrite (bind_run _ _ _ _ _ (get_ref_run _ _ _ (lookup_insert_eq _ _ _))).
  rewrite insert_insert_eq. set (p1 := with_nfree (nblk t) (with_pab (MKPAB prpage t) p0)).
  assert (nfree p1 = nblk t) as Hnf by (unfold p1; cbn [with_nfree nfree]; apply u16_id; lia). rewrite Hnf.
  set (h1 := Heap (h_k h) (kheaproots h) (<[pr := p1]> (h_refs h)) (sizebases h) (allbase h)).
  destruct (thread_blocks_run prpage (bsize t) (nblk t) h1) as (m & Hrun & Hth & Hs); [lia..|rewrite Hnb; plia|].
  rewrite (bind_run _ _ _ _ _ Hrun). rewrite Hnb in Hs. replace (prpage + (nblk t - 1) * bsize t - prpage) with ((nblk t - 1) * bsize t) by lia.
  rewrite (bind_run _ _ _ _ _ (upd_ref_run pr _ (set_hmem m h1) p1 (lookup_insert_eq _ _ _))).
  cbn [set_hmem set_k set_refs h_refs h_k kheaproots sizebases allbase h1 set_mem]. rewrite insert_insert_eq.
  rewrite (bind_run _ _ _ _ _ (get_ref_run _ _ _ (lookup_insert_eq _ _ _))).
  set (p2 := with_offset ((nblk t - 1) * bsize t) p1).
  assert (freelist_offset p2 = (nblk t - 1) * bsize t) as Hoff by (unfold p2; cbn [with_offset freelist_offset]; apply u16_id; plia).
  assert (nfree p2 = nblk t) as Hnf2 by done.
  rewrite bind_kassert by (apply Z.eqb_eq; by rewrite Hoff, Hnf2).
  mrun. cbn [sizebases]. rewrite (bind_valid _ _ _ _ _ Hbase).
  rewrite (bind_run _ _ _ _ _ (upd_ref_run _ _ _ _ (lookup_insert_eq _ _ _))). mrun.
  cbn [set_refs set_bases h_refs h_k kheaproots sizebases allbase].
  rewrite (bind_run _ _ _ _ _ (upd_ref_run _ _ _ _ (lookup_insert_eq _ _ _))).
  cbn [set_refs set_bases h_refs h_k kheaproots sizebases allbase]. rewrite !insert_insert_eq.
  set (p3 := with_all (allbase h) (with_same base p2)).
  exists m, (<[pr := p3]> (h_refs h)), (arr_set (sizebases h) t pr), pr. split; [done|]. split; [|exact Hs].
  pose proof Hc as [Hro Hli Hpg Hen Hoc Hin].
  assert (forall g, g ∈ P -> pg_ref g <> pr) as Hne by (intros g Hg <-; apply Hni, list_elem_of_fmap; eauto).
  split; cbn [set_hmem set_k kheaproots h_refs sizebases allbase h_k set_mem k_mem].
  - done.
  - by apply (lists_push _ _ (allbase h) P (new_page pr prpage t) p3 base).
  - intros g [->|Hg]%elem_of_cons.
    + split; cbn [pg_type pg_addr pg_ref new_page]; [done..| | | |done].
      * exists p3. rewrite lookup_insert_eq. split; [done|]. rewrite length_new_page, first_off_new by done.
        split; [|split; [exact Hnf2|exact Hoff]]. apply MKPAB_eq; [done|plia|done].
      * apply NoDup_rev_seqZ.
      * cbn [pg_free new_page]. intros i Hi%elem_of_rev_seqZ. done.
    + apply (page_ok_off (k_mem (h_k h)) _ (h_refs h) _ _ prpage (prpage + PAGE_SIZE)); [by apply Hpg|done| |].
      * pose proof (po_align _ _ _ (Hpg g Hg)). pose proof (Hdist g Hg). plia.
      * intros q Hq. exists q. rewrite lookup_insert_ne by (symmetry; by apply Hne). done.
  - intros g [->|Hg]%elem_of_cons; [done|by apply Hen].
  - intros g [->|Hg]%elem_of_cons; [done|by apply Hoc].
  - intros g g' [->|Hg]%elem_of_cons [->|Hg']%elem_of_cons He; [done| | |by apply Hin].
    + by destruct (Hdist g' Hg').
    + by destruct (Hdist g Hg).
Qed.

Lemma live_new P pr prpage t a n : 0 <= t < 8 -> live (new_page pr prpage t :: P) a n <-> live P a n.
Proof.
  intros Ht. split.
  - intros (g & i & [->|Hg]%elem_of_cons & Hi & Hni & -> & ->); [|by exists g, i].
    destruct Hni. by apply elem_of_rev_seqZ.
  - intros (g & i & Hg & Hi & Hni & -> & ->). exists g, i. split; [apply elem_of_cons; by right|done].
Qed.

(** ** [kmalloc] *)

(** What an allocation of [sz] bytes below the page size promises: NULL, or a
    block of at least [sz] bytes, aligned to its size, that was not allocated
    before.  The contents of the pages that were allocated stay. *)
Record malloc_post (leaks : Z) (h : heap) (A : gmap Z Z) (P : list pg) (sz r : Z)
    (h' : heap) (A' : gmap Z Z) (P' : list pg) (leaks' : Z) : Prop := MallocPost {
  mp_rep : heap_rep leaks' h' A' P';
  mp_leaks : leaks <= leaks' <= leaks + 1;
  mp_grown : forall va n, A !! va = Some n -> A' !! va = Some n;
  mp_kept : forall va n, A !! va = Some n -> same_on (k_mem (h_k h)) (k_mem (h_k h')) va (va + n * PAGE_SIZE);
  mp_res : (r = 0 /\ P' = P) \/
    (MIPS_KSEG0 < r /\ leaks' = leaks /\ exists n, n ∈ sizes /\ sz <= n /\ r mod n = 0 /\
      (forall m, ~ live P r m) /\ forall a m, live P' a m <-> live P a m \/ (a = r /\ m = n));
}.

Lemma alloc_from_page leaks A P h y g :
  locked y A h -> core leaks A P h -> g ∈ P -> pg_free g <> [] ->
  (forall x, x ∈ P -> pg_ref x <> pg_ref g -> Z.of_nat (length (pg_free x)) < nblk (pg_type x)) ->
  exists i l h', pg_free g = i :: l /\
    doalloc (pg_ref g) h = Ret (pg_addr g + i * bsize (pg_type g), h') /\
    heap_rep leaks h' A (repl g (Pg (pg_ref g) (pg_addr g) (pg_type g) l) P) /\ k_mem (h_k h') = k_mem (h_k h).
Proof.
  intros Hl Hc Hg Hne Hu. destruct (pg_free g) as [|i l] eqn:Hfr; [done|].
  pose proof (co_page _ _ _ _ Hc g Hg) as Hpg. destruct (po_ref _ _ _ Hpg) as (p & Hp & _).
  exists i, l. eexists. split; [done|].
  rewrite (doalloc_run h g i l p y Hpg Hfr Hp (lk_cpu _ _ _ Hl) (lk_free _ _ _ Hl) (lk_held _ _ _ Hl)). split; [done|].
  split; [|done]. split.
  - by apply (core_pop leaks A P h g i l p).
  - apply (pages_local (set_sync y (h_k h))); [done..|]. apply Hl.
  - apply Hl.
  - intros x [->|[Hx Hxn]]%elem_of_repl; [|by apply Hu]. cbn [pg_free pg_type].
    pose proof (page_free_bound _ _ _ Hpg) as Hb. rewrite Hfr in Hb. cbn [length] in Hb. lia.
Qed.

Lemma block_mod addr t i : 0 <= t < 8 -> addr mod PAGE_SIZE = 0 -> (addr + i * bsize t) mod bsize t = 0.
Proof.
  intros Ht Ha. destruct (bsize_facts t Ht) as (_ & Hb & Hn & _).
  rewrite Z_mod_plus_full. apply Z.mod_divide; [lia|]. apply Z.mod_divide in Ha as [q ->]; [|plia].
  exists (q * nblk t). rewrite <- Hn. lia.
Qed.

Lemma bsize_in t : 0 <= t < 8 -> bsize t ∈ sizes.
Proof. intros Ht. destruct (bsize_facts t Ht) as ([_ Hs]%arr_get_Some & _). by apply list_elem_of_lookup_2 in Hs. Qed.

(** A free block is not live. *)
Lemma free_not_live leaks A P h g i m : core leaks A P h -> g ∈ P -> i ∈ pg_free g ->
  ~ live P (pg_addr g + i * bsize (pg_type g)) m.
Proof.
  intros Hc Hg Hi (g' & i' & Hg' & Hi' & Hni & He & _). pose proof (co_page _ _ _ _ Hc g Hg) as Hpg.
  pose proof (co_page _ _ _ _ Hc g' Hg') as Hpg'.
  pose proof (block_inside _ _ (po_type _ _ _ Hpg) (po_in _ _ _ Hpg i Hi)).
  pose proof (block_inside _ _ (po_type _ _ _ Hpg') Hi').
  pose proof (bsize_facts _ (po_type _ _ _ Hpg)) as (_ & Hb & _). pose proof (bsize_facts _ (po_type _ _ _ Hpg')) as (_ & Hb' & _).
  destruct (decide (pg_addr g = pg_addr g')) as [E|Hd]; [|destruct (pages_disjoint _ _ _ _ g g' Hc Hg Hg' Hd); lia].
  rewrite (co_inj _ _ _ _ Hc g g' Hg Hg' E) in *. assert (i = i') as -> by nia. done.
Qed.

(** The post-condition once a block has been taken from page [g]. *)
Lemma malloc_post_pop leaks h A P sz A1 P1 g i l h1 h' y :
  core leaks A1 P1 h1 -> locked y A1 h1 -> g ∈ P1 -> pg_free g = i :: l -> sz <= bsize (pg_type g) ->
  heap_rep leaks h' A1 (repl g (Pg (pg_ref g) (pg_addr g) (pg_type g) l) P1) ->
  (forall va n, A !! va = Some n -> A1 !! va = Some n) ->
  (forall va n, A !! va = Some n -> same_on (k_mem (h_k h)) (k_mem (h_k h')) va (va + n * PAGE_SIZE)) ->
  (forall a m, live P1 a m <-> live P a m) ->
  malloc_post leaks h A P sz (pg_addr g + i * bsize (pg_type g)) h' A1 (repl g (Pg (pg_ref g) (pg_addr g) (pg_type g) l) P1) leaks.
Proof.
  intros Hc Hl Hg Hfr Hsz Hrep Hgr Hk Hlive. pose proof (co_page _ _ _ _ Hc g Hg) as Hpg.
  assert (i ∈ pg_free g) as Hi by (rewrite Hfr; apply elem_of_cons; by left).
  pose proof (block_inside _ _ (po_type _ _ _ Hpg) (po_in _ _ _ Hpg i Hi)). pose proof (po_range _ _ _ Hpg).
  split; [done|lia|done|done|]. right. split; [lia|]. split; [done|]. exists (bsize (pg_type g)).
  split; [apply bsize_in, Hpg|]. split; [done|]. split; [apply block_mod; apply Hpg|]. split.
  - intros m Hm%Hlive. by apply (free_not_live leaks A1 P1 h1 g i m).
  - intros a m. rewrite (live_pop leaks A1 P1 h1 g i l Hc Hg Hfr). by rewrite Hlive.
Qed.

Lemma core_roots_change leaks leaks' A A' P h h' :
  core leaks A P h -> roots_ok (kheaproots h') leaks' A' ->
  (forall e, entry (kheaproots h) e -> entry (kheaproots h') e) ->
  (forall g, g ∈ P -> A' !! pg_addr g = Some 1 /\ ~ is_root_page (kheaproots h') (pg_addr g)) ->
  h_refs h' = h_refs h -> sizebases h' = sizebases h -> allbase h' = allbase h -> k_mem (h_k h') = k_mem (h_k h) ->
  core leaks' A' P h'.
Proof.
  intros [? ? ? Hen ? ?] Hro Hent Hown E1 E2 E3 E4. split; rewrite ?E1, ?E2, ?E3, ?E4; [done..| |done|done].
  intros g Hg. by apply Hent, Hen.
Qed.

(** A fresh page, with the lock held: the page goes back when there is no
    pageref for it, and gets its first block taken otherwise. *)
Lemma use_page_run leaks A P h h2 prpage t sz y :
  core leaks A P h -> (forall g, g ∈ P -> Z.of_nat (length (pg_free g)) < nblk (pg_type g)) ->
  0 <= leaks < 256 -> 0 <= t < 8 -> sz <= bsize t -> pages (h_k h) A ->
  A !! prpage = None -> locked y (<[prpage := 1]> A) h2 ->
  kheaproots h2 = kheaproots h -> h_refs h2 = h_refs h -> sizebases h2 = sizebases h -> allbase h2 = allbase h ->
  k_mem (h_k h2) = k_mem (h_k h) ->
  exists r h' A' P' leaks', use_page prpage t h2 = Ret (r, h') /\ malloc_post leaks h A P sz r h' A' P' leaks'.
Proof.
  intros Hc Hu Hlk Ht Hszt Hp Hpnone Hl2 E1 E2 E3 E4 E5.
  destruct (page_facts _ _ prpage 1 (lk_pages _ _ _ Hl2) (lookup_insert_eq _ _ _)) as (Hpal & Hprg).
  assert (forall a n, A !! a = Some n -> <[prpage := 1]> A !! a = Some n) as Hgrow1.
  { intros a n Ha. rewrite lookup_insert_ne; [done|]. intros ->. by rewrite Hpnone in Ha. }
  assert (roots_ok (kheaproots h2) leaks (<[prpage := 1]> A)) as Hro2.
  { rewrite E1. pose proof (co_roots _ _ _ _ Hc) as [? ? ? Hown ?]. split; [done..| |done]. intros a Ha. by apply Hgrow1, Hown. }
  destruct (allocpageref_run _ _ leaks h2 Hl2 Hro2 Hlk) as (pr & h3 & A3 & leaks3 & Hrun3 & [(k3 & roots3 & -> & Hm3) Hl3 Hro3 Hold Hpgs Hres3]). rewrite E1 in Hold, Hpgs, Hres3.
  unfold use_page. rewrite (bind_run _ _ _ _ _ Hrun3). set (h3 := set_k k3 (set_roots roots3 h2)) in *.
  assert (k_mem k3 = k_mem (h_k h)) as Hmem by (by rewrite Hm3).
  assert (forall a n, <[prpage := 1]> A !! a = Some n -> ~ (is_root_page (kheaproots h) a) -> ~ is_root_page (kheaproots h3) a) as Hnroot.
  { intros a n Ha Hn Hr. destruct (Hpgs a Hr) as [Hr'|Hr']; [by apply Hn|]. by rewrite Ha in Hr'. }
  destruct Hres3 as [(-> & -> & Hlk3)|(Hprnz & -> & Hent & Hnent & HA3)].
  - cbn [Z.eqb]. rewrite (bind_run _ _ _ _ _ (locked_unlock _ _ _ Hl3)).
    destruct (pages_free _ _ prpage 1 (lk_pages _ _ _ Hl3) (lookup_insert_eq _ _ _)) as (s & Hfree & Hsm & Hss & Hsp).
    rewrite delete_insert_id in Hsp by done.
    rewrite (bind_run _ _ _ _ _ (zoom_Ret h_k set_k _ (unlocked _ h3) tt s Hfree)).
    exists 0, (set_k s h3), A, P, leaks3. split; [done|]. split; [|done|done| |by left].
    + split; [|done| |done].
      * apply (core_roots_change leaks leaks3 A A P h); [done| |done| |done..|].
        -- destruct Hro3 as [? ? ? Hown ?]. split; [done..| |done]. intros a Ha.
           destruct (Hpgs a Ha) as [Ha'|Ha']; [by apply (ro_own _ _ _ (co_roots _ _ _ _ Hc))|].
           by rewrite (Hown a Ha) in Ha'.
        -- intros g Hg. destruct (co_own _ _ _ _ Hc g Hg) as [HAg Hng]. split; [done|].
           apply (Hnroot _ 1); [by apply Hgrow1|done].
        -- cbn [set_k h_k]. rewrite Hsm. exact Hmem.
      * unfold free; cbn [set_k h_k]. rewrite Hss. apply Hl2.
    + intros va n _ x _. cbn [set_k h_k]. rewrite Hsm. exact (f_equal (fun m => m (x - MIPS_KSEG0)) Hmem).
  - rewrite (proj2 (Z.eqb_neq pr 0)) by done.
    assert (forall a n, <[prpage := 1]> A !! a = Some n -> A3 !! a = Some n) as Hgrow3.
    { destruct HA3 as [-> |(a' & Hna & ->)]; [done|]. intros a n Ha. rewrite lookup_insert_ne; [done|].
      intros ->. by rewrite Hna in Ha. }
    assert (core leaks A3 P h3) as Hc3.
    { apply (core_roots_change leaks leaks A A3 P h); [done..| |done|done|done|exact Hmem].
      intros g Hg. destruct (co_own _ _ _ _ Hc g Hg) as [HAg Hng]. split; [by apply Hgrow3, Hgrow1|].
      apply (Hnroot _ 1); [by apply Hgrow1|done]. }
    assert (forall g, g ∈ P -> pg_addr g <> prpage) as Hdist.
    { intros g Hg <-. destruct (co_own _ _ _ _ Hc g Hg) as [HAg _]. by rewrite Hpnone in HAg. }
    destruct (setup_page_run leaks A3 P h3 pr prpage t Hc3 Hent) as (m4 & refs4 & bases4 & all4 & Hrun4 & Hc4 & Hs4); [|done..| | |done|].
    { intros (g & -> & Hg)%list_elem_of_fmap. by apply Hnent, (co_entry _ _ _ _ Hc). }
    { apply Hgrow3, lookup_insert_eq. }
    { apply (Hnroot _ 1); [apply lookup_insert_eq|]. intros Hr. apply (ro_own _ _ _ (co_roots _ _ _ _ Hc)) in Hr. by rewrite Hpnone in Hr. }
    rewrite (bind_run _ _ _ _ _ Hrun4).
    set (h4 := set_hmem m4 (Heap (h_k h3) (kheaproots h3) refs4 bases4 all4)) in *. set (g := new_page pr prpage t).
    assert (locked y A3 h4) as Hl4 by (by apply (locked_local _ _ h3)).
    pose proof (length_new_page pr prpage t Ht) as Hlen. pose proof (bsize_facts t Ht) as (_ & _ & _ & Hnb).
    destruct (alloc_from_page leaks A3 (g :: P) h4 _ g Hl4 Hc4) as (i & l & h5 & Hfr & Hrun5 & Hrep5 & Hm5).
    { apply elem_of_cons. by left. }
    { intros E. change (pg_free (new_page pr prpage t)) with (pg_free g) in Hlen. rewrite E in Hlen. simpl in Hlen. lia. }
    { intros x [->|Hx]%elem_of_cons Hne; [done|by apply Hu]. }
    do 5 eexists. split; [exact Hrun5|].
    apply (malloc_post_pop leaks h A P sz A3 (g :: P) g i l h4 h5 _ Hc4 Hl4); [apply elem_of_cons; by left|done|done|done|..].
    + intros va n Hva. by apply Hgrow3, Hgrow1.
    + intros va n Hva x Hx. rewrite Hm5. cbn [h4 set_hmem set_k h_k set_mem k_mem].
      destruct (pages_range _ _ va n Hp Hva) as (Hn1 & _).
      destruct (pages_apart _ _ va n prpage 1 (lk_pages _ _ _ Hl2) (Hgrow1 _ _ Hva) (lookup_insert_eq _ _ _)) as [Hd|Hd];
        [intros ->; by rewrite Hpnone in Hva|..]; (rewrite Hs4; [exact (f_equal (fun m => m (x - MIPS_KSEG0)) Hmem)|lia]).
    + intros a m. by apply live_new.
Qed.

Lemma subpage_kmalloc_run leaks h A P sz :
  heap_rep leaks h A P -> 0 <= leaks < 256 -> 0 <= sz < 2048 ->
  exists r h' A' P' leaks', subpage_kmalloc sz h = Ret (r, h') /\ malloc_post leaks h A P sz r h' A' P' leaks'.
Proof.
  intros [Hc Hp Hf Hu] Hlk Hsz. unfold subpage_kmalloc.
  destruct (blocktype_run sz h Hsz) as (t & Hbt & Ht & Hszt & _). rewrite (bind_run _ _ _ _ _ Hbt).
  destruct (lock_locked (k_sync (h_k h)) A h Hp eq_refl Hf) as [Hlock Hl]. rewrite (bind_run _ _ _ _ _ Hlock).
  set (h1 := set_k (hold kmalloc_spinlock (h_k h)) h) in *.
  assert (core leaks A P h1) as Hc1 by (by apply (core_ext leaks A P h)).
  mrun. pose proof (co_lists _ _ _ _ Hc1) as Hli.
  destruct (lo_same _ _ _ _ Hli t Ht) as (base & Hbase & Hchain). rewrite (bind_valid _ _ _ _ _ Hbase).
  destruct (find_page_run t (of_type t P) (fuel h1) base h1) as (pr & Hfind & Hres); [|done| |].
  { intros g [Htg Hg]%elem_of_type. split; [by apply (co_page _ _ _ _ Hc1)|done]. }
  { pose proof (chain_fuel _ _ _ _ Hchain (NoDup_of_type t P (lo_nodup _ _ _ _ Hli))) as Hfu. rewrite length_fmap in Hfu. unfold fuel. lia. }
  rewrite (bind_run _ _ _ _ _ Hfind).
  destruct Hres as [[-> Hnone]|(Hprnz & g & [Htg Hg]%elem_of_type & -> & Hfree)].
  2: { rewrite (proj2 (Z.eqb_neq _ _)) by done. cbn [negb].
       destruct (alloc_from_page leaks A P h1 _ g Hl Hc1 Hg Hfree) as (i & l & h' & Hfr & Hrun & Hrep & Hm); [by intros x Hx _; apply Hu|].
       do 5 eexists. split; [exact Hrun|]. apply (malloc_post_pop leaks h A P sz A P g i l h1 h' _ Hc1 Hl Hg Hfr); [by rewrite Htg|done..| |done].
       intros va n _ x _. by rewrite Hm. }
  cbn [Z.eqb negb].
  destruct (unlock_alloc _ A h1 (fun prpage => if prpage =? 0 then mret 0
    else
      kassert (prpage mod PAGE_SIZE =? 0) "prpage % PAGE_SIZE == 0";;
      lock;;
      use_page prpage t) Hl) as (prpage & k & A1 & Hrun & Hp1 & Hs1 & Hm1 & Hres1).
  rewrite Hrun. clear Hrun Hfind. destruct Hres1 as [[-> ->]|(Hpn & Hpnone & ->)].
  { exists 0, (set_k k h1), A, P, leaks. split; [done|]. split; [|lia|done| |by left].
    - split; [by apply (core_ext leaks A P h1)|done| |done]. unfold free; cbn [set_k h_k]. rewrite Hs1. exact Hf.
    - intros va n _ x _. cbn [set_k h_k]. by rewrite Hm1. }
  rewrite (proj2 (Z.eqb_neq _ _)) by done.
  destruct (page_facts _ _ prpage 1 Hp1 (lookup_insert_eq _ _ _)) as (Hpal & _).
  rewrite bind_kassert by (by rewrite Hpal).
  destruct (lock_locked _ _ (set_k k h1) Hp1 Hs1 (lk_free _ _ _ Hl)) as [Hlock2 Hl2]. rewrite (bind_run _ _ _ _ _ Hlock2).
  set (h2 := set_k (hold kmalloc_spinlock k) h1) in *. cbn [h_k set_k] in Hl2. change (set_k _ (set_k k h1)) with h2 in Hl2 |- *.
  by apply (use_page_run leaks A P h h2 prpage t sz (k_sync (h_k h))).
Qed.

(** ** [kfree] *)

Lemma push_block_run m0 refs g p i h :
  page_ok m0 refs g -> m0 = k_mem (h_k h) -> refs = h_refs h -> refs !! pg_ref g = Some p ->
  0 <= i < nblk (pg_type g) -> i ∉ pg_free g ->
  let a := pg_addr g + i * bsize (pg_type g) in
  let g' := Pg (pg_ref g) (pg_addr g) (pg_type g) (i :: pg_free g) in
  let refs' := <[pg_ref g := popped p (bsize (pg_type g)) (i :: pg_free g)]> refs in
  exists m, push_block (pg_ref g) p a (pg_addr g) (i * bsize (pg_type g)) (bsize (pg_type g)) h =
      Ret (tt, set_hmem m (set_refs refs' h)) /\
    same_off m0 m a (a + bsize (pg_type g)) /\ page_ok m refs' g'.
Proof.
  intros Hg -> -> Hp Hi Hni a g' refs'. pose proof (po_type _ _ _ Hg) as Ht. pose proof (po_range _ _ _ Hg) as Hrg.
  unfold MIPS_KSEG0 in Hrg. pose proof (page_free_bound _ _ _ Hg) as Hlen.
  destruct (bsize_facts _ Ht) as (_ & Hb & Hnb & Hn). pose proof (block_inside _ _ Ht Hi) as Hbi.
  destruct (po_ref _ _ _ Hg) as (p' & Hp' & Hpab & Hnf & Hoff). rewrite Hp in Hp'. injection Hp' as <-.
  assert (forall j, j ∈ pg_free g -> 0 <= j * bsize (pg_type g) /\ j * bsize (pg_type g) + bsize (pg_type g) <= PAGE_SIZE) as Hin
    by (intros j Hj; apply block_inside; [done|by apply (po_in _ _ _ Hg)]).
  destruct (fill_deadbeef_run a (bsize (pg_type g)) h) as (m1 & Hfill & Hs1); [lia|].
  set (nx := match pg_free g with [] => 0 | j :: _ => pg_addr g + j * bsize (pg_type g) end).
  set (m2 := put_word a nx m1).
  assert (0 <= nx < 2 ^ 32 /\ 0 <= pg_addr g + match pg_free g with [] => 0 | j :: _ => j * bsize (pg_type g) end < 2 ^ 32) as [Hnx Hnx'].
  { unfold nx. destruct (pg_free g) as [|j l]; [plia|]. pose proof (Hin j ltac:(apply elem_of_cons; by left)). plia. }
  assert (threaded m2 (pg_addr g) (bsize (pg_type g)) (i :: pg_free g)) as Hth.
  { apply threaded_push; [lia|done|intros j Hj; apply (po_in _ _ _ Hg j Hj)|lia|done|].
    eapply threaded_same; [|apply (po_threaded _ _ _ Hg)]. intros j Hj. eapply same_off_on; [exact Hs1|].
    pose proof (Hin j Hj). assert (i <> j) by (intros ->; done). unfold a. nia. }
  assert (same_off (k_mem (h_k h)) m2 a (a + bsize (pg_type g))) as Hs2.
  { eapply same_off_trans; [exact Hs1|]. eapply same_off_weaken; [apply same_off_put|lia..]. }
  exists m2. split.
  - unfold push_block. rewrite (bind_run _ _ _ _ _ Hfill). fold a.
    assert ((if freelist_offset p =? INVALID_OFFSET then store32 a 0
     else
       store32 a (pg_addr g + freelist_offset p);;
       kassert (negb (a =? pg_addr g + freelist_offset p)) "fl != fl->next") (set_hmem m1 h) = Ret (tt, set_hmem m2 h)) as Hpush.
    { unfold m2, nx. rewrite Hoff. destruct (pg_free g) as [|j l] eqn:Hfr; [done|]. cbn [first_off].
      pose proof (Hin j ltac:(apply elem_of_cons; by left)) as Hj. rewrite (proj2 (Z.eqb_neq _ _)) by (unfold INVALID_OFFSET; plia).
      rewrite (bind_run _ _ _ _ _ (store32_run _ _ _)).
      assert (i <> j) by (intros ->; apply Hni, elem_of_cons; by left).
      unfold kassert. rewrite (proj2 (Z.eqb_neq _ _)) by (unfold a; nia). done. }
    rewrite (bind_run _ _ _ _ _ Hpush).
    rewrite (bind_run _ _ _ _ _ (upd_ref_run _ _ (set_hmem m2 h) p Hp)).
    rewrite (upd_ref_run _ _ _ _ (lookup_insert_eq _ _ _)). cbn [set_refs set_hmem set_k h_refs h_k kheaproots sizebases allbase].
    rewrite insert_insert_eq. unfold refs', popped, with_nfree, with_offset.
    cbn [next_samesize next_all pageaddr_and_blocktype freelist_offset nfree first_off length].
    assert (Z.of_nat (length (pg_free g)) < 2 ^ 15) by lia.
    rewrite (u16_id (i * bsize (pg_type g))), (u16_id (nfree p + 1)) by plia.
    rewrite Hnf. by replace (Z.of_nat (length (pg_free g)) + 1) with (Z.of_nat (S (length (pg_free g)))) by lia.
  - split; [done|]. split; cbn [pg_type pg_addr pg_ref pg_free g']; [done|apply Hg|apply Hg| | | |done].
    + eexists. split; [apply lookup_insert_eq|]. done.
    + apply NoDup_cons. split; [done|apply Hg].
    + intros j [->|Hj]%elem_of_cons; [done|by apply (po_in _ _ _ Hg)].
Qed.

Lemma core_push leaks A P h g p i m :
  core leaks A P h -> g ∈ P -> h_refs h !! pg_ref g = Some p -> 0 <= i < nblk (pg_type g) ->
  let a := pg_addr g + i * bsize (pg_type g) in
  let g' := Pg (pg_ref g) (pg_addr g) (pg_type g) (i :: pg_free g) in
  let refs' := <[pg_ref g := popped p (bsize (pg_type g)) (i :: pg_free g)]> (h_refs h) in
  same_off (k_mem (h_k h)) m a (a + bsize (pg_type g)) -> page_ok m refs' g' ->
  core leaks A (repl g g' P) (set_hmem m (set_refs refs' h)).
Proof.
  intros Hc Hg Hp Hi a g' refs' Hs Hok.
  pose proof (block_inside _ _ (po_type _ _ _ (co_page _ _ _ _ Hc g Hg)) Hi) as Hbi.
  assert (forall x, x ∈ repl g g' P -> exists z, z ∈ P /\ pg_ref x = pg_ref z /\ pg_addr x = pg_addr z) as Hsame.
  { intros x [->|[Hx _]]%elem_of_repl; [exists g|exists x]; done. }
  split; cbn [set_hmem set_refs set_k kheaproots h_refs sizebases allbase h_k set_mem k_mem].
  - apply Hc.
  - apply (lists_repl _ _ _ _ g g' p); [apply Hc|done..].
  - intros x [->|[Hx Hne]]%elem_of_repl; [done|].
    apply (page_ok_off (k_mem (h_k h)) _ (h_refs h) _ _ a (a + bsize (pg_type g))); [by apply (co_page _ _ _ _ Hc)|done| |].
    + assert (pg_addr x <> pg_addr g) as Hd by (intros E; by rewrite (co_inj _ _ _ _ Hc x g Hx Hg E) in Hne).
      destruct (pages_disjoint _ _ _ _ x g Hc Hx Hg Hd); unfold a; lia.
    + intros q Hq. exists q. unfold refs'. by rewrite lookup_insert_ne.
  - intros x Hx. destruct (Hsame x Hx) as (z & Hz & -> & _). by apply (co_entry _ _ _ _ Hc).
  - intros x Hx. destruct (Hsame x Hx) as (z & Hz & _ & ->). by apply (co_own _ _ _ _ Hc).
  - intros x x' [->|[Hx Hne]]%elem_of_repl [->|[Hx' Hne']]%elem_of_repl He; [done| | |].
    + by destruct Hne'; rewrite (co_inj _ _ _ _ Hc g x' Hg Hx' He).
    + by destruct Hne; rewrite (co_inj _ _ _ _ Hc x g Hx Hg He).
    + by apply (co_inj _ _ _ _ Hc).
Qed.

Lemma live_push leaks A P h g i :
  core leaks A P h -> g ∈ P -> 0 <= i < nblk (pg_type g) -> i ∉ pg_free g -> forall a n,
  live (repl g (Pg (pg_ref g) (pg_addr g) (pg_type g) (i :: pg_free g)) P) a n <->
  live P a n /\ a <> pg_addr g + i * bsize (pg_type g).
Proof.
  intros Hc Hg Hi Hni a n. pose proof (lo_nodup _ _ _ _ (co_lists _ _ _ _ Hc)) as Hnd.
  assert (live P (pg_addr g + i * bsize (pg_type g)) (bsize (pg_type g))) as Hlv by (by exists g, i).
  destruct (bsize_facts _ (po_type _ _ _ (co_page _ _ _ _ Hc g Hg))) as (_ & Hb & _).
  set (g' := Pg (pg_ref g) (pg_addr g) (pg_type g) (i :: pg_free g)). split.
  - intros (x & j & [->|[Hx Hne]]%elem_of_repl & Hj & Hnj & -> & ->); cbn [pg_type pg_addr pg_free g'] in *.
    + apply not_elem_of_cons in Hnj as [Hji Hnj]. split; [by exists g, j|]. nia.
    + split; [by exists x, j|]. intros E.
      assert (pg_addr x <> pg_addr g) as Hd by (intros E'; by rewrite (co_inj _ _ _ _ Hc x g Hx Hg E') in Hne).
      pose proof (block_inside _ _ (po_type _ _ _ (co_page _ _ _ _ Hc g Hg)) Hi).
      pose proof (block_inside _ _ (po_type _ _ _ (co_page _ _ _ _ Hc x Hx)) Hj).
      pose proof (bsize_facts _ (po_type _ _ _ (co_page _ _ _ _ Hc x Hx))).
      destruct (pages_disjoint _ _ _ _ x g Hc Hx Hg Hd); lia.
  - intros [(x & j & Hx & Hj & Hnj & -> & ->) Hne]. destruct (decide (pg_ref x = pg_ref g)) as [E|Hner].
    + rewrite (refs_inj P x g Hnd Hx Hg E) in *. exists g', j. split; [by apply repl_elem|]. split; [done|].
      split; [|done]. apply not_elem_of_cons. split; [|done]. intros ->. done.
    + exists x, j. split; [by apply repl_keep|done].
Qed.

(** What freeing the block at [a] promises. *)
Record free_post (leaks : Z) (h : heap) (A : gmap Z Z) (P : list pg) (a n : Z)
    (h' : heap) (A' : gmap Z Z) (P' : list pg) : Prop := FreePost {
  fp_rep : heap_rep leaks h' A' P';
  fp_mem : same_off (k_mem (h_k h)) (k_mem (h_k h')) a (a + n);
  fp_live : forall b m, live P' b m <-> live P b m /\ b <> a;
  fp_pages : exists g, g ∈ P /\ on_page a g /\
    ((exists b m, live P' b m /\ on_page b g) /\ A' = A \/
     (forall b m, live P b m -> on_page b g -> b = a) /\ A' = delete (pg_addr g) A);
}.

Lemma all_free_in (l : list Z) n i : NoDup l -> (forall j, j ∈ l -> 0 <= j < n) -> Z.of_nat (length l) = n ->
  0 <= i < n -> i ∈ l.
Proof.
  intros Hnd Hin Hlen Hi. assert (l ≡ₚ seqZ 0 n) as Hp.
  { apply submseteq_length_Permutation; [|rewrite length_seqZ; lia].
    apply NoDup_submseteq; [done|]. intros j Hj. apply elem_of_seqZ. pose proof (Hin j Hj). lia. }
  rewrite Hp. apply elem_of_seqZ. lia.
Qed.

Lemma some_used (l : list Z) n : Z.of_nat (length l) < n -> exists i, 0 <= i < n /\ (i ∉ l).
Proof.
  intros Hlt. destruct (decide (Forall (fun i => i ∈ l) (seqZ 0 n))) as [Hall|Hex].
  - exfalso. assert (seqZ 0 n ⊆+ l) as Hs.
    { apply NoDup_submseteq; [apply NoDup_seqZ|]. intros i Hi. rewrite Forall_forall in Hall. by apply Hall. }
    apply submseteq_length in Hs. rewrite length_seqZ in Hs. lia.
  - apply not_Forall_Exists in Hex; [|apply _]. apply Exists_exists in Hex as (i & Hi%elem_of_seqZ & Hni). exists i. split; [lia|done].
Qed.

(** Giving back a page all of whose blocks are free. *)
Lemma release_page_run leaks A P1 g P2 h y :
  core leaks A (P1 ++ g :: P2) h -> locked y A h ->
  (forall x, x ∈ P1 ++ P2 -> Z.of_nat (length (pg_free x)) < nblk (pg_type x)) ->
  exists h', (remove_lists (pg_ref g) (pg_type g);; freepageref (pg_ref g);; unlock;; on_k (free_kpages (pg_addr g))) h = Ret (tt, h') /\
    heap_rep leaks h' (delete (pg_addr g) A) (P1 ++ P2) /\ k_mem (h_k h') = k_mem (h_k h).
Proof.
  intros [Hro Hli Hpg Hen Hown Hinj] Hl Hu.
  assert (g ∈ P1 ++ g :: P2) as Hg by (apply elem_of_app; right; apply elem_of_cons; by left).
  assert (forall x, x ∈ P1 ++ P2 -> x ∈ P1 ++ g :: P2) as Hsub.
  { intros x [Hx|Hx]%elem_of_app; apply elem_of_app; [by left|right; apply elem_of_cons; by right]. }
  assert (forall x, x ∈ P1 ++ P2 -> pg_ref x <> pg_ref g) as Hne.
  { pose proof (lo_nodup _ _ _ _ Hli) as Hnd. rewrite fmap_app, fmap_cons in Hnd.
    apply NoDup_app in Hnd as (_ & Hd & Hnd). apply NoDup_cons in Hnd as [Hd2 _].
    intros x [Hx|Hx]%elem_of_app E.
    - apply (Hd (pg_ref x)); [apply list_elem_of_fmap; eauto|]. rewrite E. apply elem_of_cons. by left.
    - apply Hd2. rewrite <- E. apply list_elem_of_fmap. eauto. }
  destruct (remove_lists_run h P1 g P2 Hli (po_type _ _ _ (Hpg g Hg))) as (h1 & Hrun1 & Hk1 & Hr1 & Hli1 & Hrefs1).
  rewrite (bind_run _ _ _ _ _ Hrun1).
  assert (locked y A h1) as Hl1 by (apply (locked_local y A h); by rewrite ?Hk1).
  destruct (freepageref_run y A leaks h1 (pg_ref g) Hl1) as (roots & Hrun2 & Hro2 & Hpages2 & Hent2);
    [by rewrite Hr1|rewrite Hr1; by apply Hen|].
  rewrite (bind_run _ _ _ _ _ Hrun2). set (h2 := set_roots roots h1) in *.
  assert (locked y A h2) as Hl2 by (by apply (locked_local y A h1)).
  rewrite (bind_run _ _ _ _ _ (locked_unlock y A h2 Hl2)).
  destruct (Hown g Hg) as [HAg Hnrg].
  destruct (pages_free _ _ (pg_addr g) 1 (lk_pages _ _ _ Hl2) HAg) as (s & Hfree & Hsm & Hss & Hsp).
  exists (set_k s h2). split; [exact (zoom_Ret h_k set_k _ (unlocked y h2) tt s Hfree)|].
  assert (k_mem s = k_mem (h_k h)) as Hmem by (by rewrite Hsm, <- Hk1).
  split; [|exact Hmem]. split; [|exact Hsp|unfold free; cbn [set_k h_k]; rewrite Hss; apply Hl|done].
  rewrite Hr1 in Hpages2, Hent2.
  split; cbn [set_k h2 set_roots kheaproots h_refs sizebases allbase h_k]; rewrite ?Hmem.
  - destruct Hro2 as [? ? ? Hown2 ?]. split; [done..| |done]. intros a Ha.
    rewrite lookup_delete_ne; [by apply Hown2|]. intros <-. by apply Hnrg, Hpages2.
  - done.
  - intros x Hx. apply (page_ok_frame (k_mem (h_k h)) _ (h_refs h)); [by apply Hpg, Hsub|done|]. apply Hrefs1.
  - intros x Hx. apply Hent2; [by apply Hen, Hsub|by apply Hne].
  - intros x Hx. destruct (Hown x (Hsub x Hx)) as [HAx Hnrx]. split.
    + rewrite lookup_delete_ne; [done|]. intros E. apply (Hne x Hx). by rewrite (Hinj g x Hg (Hsub x Hx) E).
    + intros Hr%Hpages2. done.
  - intros x x' Hx Hx'. apply Hinj; by apply Hsub.
Qed.

Lemma live_release P1 g P2 a n :
  (forall i, 0 <= i < nblk (pg_type g) -> i ∈ pg_free g) -> live (P1 ++ g :: P2) a n <-> live (P1 ++ P2) a n.
Proof.
  intros Hall. split; intros (x & i & Hx & Hi & Hni & -> & ->); exists x, i; (split; [|done]).
  - apply elem_of_app. apply elem_of_app in Hx as [Hx|[->|Hx]%elem_of_cons]; [by left| |by right]. by destruct Hni; apply Hall.
  - apply elem_of_app. apply elem_of_app in Hx as [Hx|Hx]; [by left|right; apply elem_of_cons; by right].
Qed.

Lemma subpage_kfree_run leaks h A P a n :
  heap_rep leaks h A P -> live P a n ->
  exists h' A' P', subpage_kfree a h = Ret (0, h') /\ free_post leaks h A P a n h' A' P'.
Proof.
  intros [Hc Hp Hf Hu] Hlive. unfold subpage_kfree.
  destruct (lock_locked (k_sync (h_k h)) A h Hp eq_refl Hf) as [Hlock Hl]. rewrite (bind_run _ _ _ _ _ Hlock).
  set (h1 := set_k (hold kmalloc_spinlock (h_k h)) h) in *.
  assert (core leaks A P h1) as Hc1 by (by apply (core_ext leaks A P h)). pose proof (co_lists _ _ _ _ Hc1) as Hli.
  mrun. destruct (find_owner_run a P (fuel h1) (allbase h1) h1) as (pr & Hfind & Hres);
    [apply (co_page _ _ _ _ Hc1)|apply Hli| |].
  { pose proof (chain_fuel _ _ _ _ (lo_all _ _ _ _ Hli) (lo_nodup _ _ _ _ Hli)) as Hfu. rewrite length_fmap in Hfu. unfold fuel. lia. }
  rewrite (bind_run _ _ _ _ _ Hfind). destruct Hlive as (g & i & Hg & Hi & Hni & -> & Hn). pose proof (co_page _ _ _ _ Hc1 g Hg) as Hpg.
  pose proof (po_type _ _ _ Hpg) as Ht. pose proof (block_inside _ _ Ht Hi) as Hbi. destruct (bsize_facts _ Ht) as (Hsz & Hb & Hnb & _).
  assert (on_page (pg_addr g + i * bsize (pg_type g)) g) as Hon by (unfold on_page; lia).
  destruct Hres as [[_ Hno]|(Hprnz & g0 & Hg0 & -> & Hon0)]; [by destruct (Hno g Hg)|].
  assert (forall x va, x ∈ P -> on_page va x -> on_page va g -> x = g) as Hsame.
  { intros x va Hx Hvx Hvg. destruct (decide (pg_addr x = pg_addr g)) as [E|Hd]; [by apply (co_inj _ _ _ _ Hc1)|].
    unfold on_page in *. destruct (pages_disjoint _ _ _ _ x g Hc1 Hx Hg Hd); lia. }
  assert (g0 = g) as -> by (by eapply Hsame). clear Hg0 Hon0. rewrite (proj2 (Z.eqb_neq _ _)) by done.
  destruct (po_ref _ _ _ Hpg) as (p & Hpr & Hpab & Hnf & Hoff). rewrite (bind_run _ _ _ _ _ (get_ref_run _ _ _ Hpr)).
  destruct (pab_parts _ _ p (po_align _ _ _ Hpg) (po_range _ _ _ Hpg) Ht Hpab) as [Hpa Hbt]. rewrite Hpa, Hbt.
  unfold block_size. rewrite (bind_valid _ _ _ _ _ Hsz).
  replace (pg_addr g + i * bsize (pg_type g) - pg_addr g) with (i * bsize (pg_type g)) by lia.
  rewrite (u32_id (i * bsize (pg_type g))) by plia. rewrite (proj2 (Z.leb_gt _ _)) by lia.
  rewrite Z.mod_mul by lia. cbn [Z.eqb negb orb].
  destruct (push_block_run _ _ g p i h1 Hpg eq_refl eq_refl Hpr Hi Hni) as (m & Hrun & Hs & Hok).
  pose proof (core_push leaks A P h1 g p i m Hc1 Hg Hpr Hi Hs Hok) as Hc2.
  pose proof (live_push leaks A P h1 g i Hc1 Hg Hi Hni) as Hlv. rewrite (bind_run _ _ _ _ _ Hrun).
  set (g' := Pg (pg_ref g) (pg_addr g) (pg_type g) (i :: pg_free g)) in *. set (h2 := set_hmem m _) in *.
  assert (locked (k_sync (h_k h)) A h2) as Hl2 by (by apply (locked_local _ A h1)).
  rewrite (bind_run _ _ _ _ _ (get_ref_run (pg_ref g) h2 _ (lookup_insert_eq _ _ _))). cbn [popped nfree].
  pose proof (page_free_bound _ _ _ Hok) as Hlen. cbn [pg_free pg_type g'] in Hlen. fold (nblk (pg_type g)).
  rewrite bind_kassert by (apply Z.leb_le; lia).
  assert (forall x, x ∈ repl g g' P -> x <> g' -> Z.of_nat (length (pg_free x)) < nblk (pg_type x)) as Hu2.
  { intros x [->|[Hx _]]%elem_of_repl Hne; [done|by apply Hu]. }
  destruct (Z.eqb_spec (Z.of_nat (length (i :: pg_free g))) (nblk (pg_type g))) as [Hfull|Hpart].
  - destruct (list_elem_of_split _ _ (repl_elem g g' P Hg)) as (P1 & P2 & HP). rewrite HP in *.
    pose proof (lo_nodup _ _ _ _ (co_lists _ _ _ _ Hc2)) as Hnd.
    destruct (release_page_run leaks A P1 g' P2 h2 _ Hc2 Hl2) as (h3 & Hrun3 & Hrep3 & Hm3).
    { intros x Hx. apply Hu2; [apply elem_of_app; apply elem_of_app in Hx as [?|?]; [by left|right; apply elem_of_cons; by right]|].
      intros ->. rewrite fmap_app, fmap_cons in Hnd. apply NoDup_app in Hnd as (_ & Hd & [Hd2 _]%NoDup_cons).
      apply elem_of_app in Hx as [Hx|Hx].
      - apply (Hd (pg_ref g')); [apply list_elem_of_fmap; eauto|apply elem_of_cons; by left].
      - apply Hd2, list_elem_of_fmap. eauto. }
    exists h3, (delete (pg_addr g) A), (P1 ++ P2). split.
    { pose proof Hrun3 as Hr3. cbn [pg_ref pg_type pg_addr g'] in Hr3. by rewrite (bind_run _ _ _ _ _ Hr3). }
    split; [exact Hrep3|rewrite Hm3, Hn; exact Hs| |exists g; split; [done|]; split; [done|]; right; split; [|done]].
    2: { intros b k (x & j & Hx & Hj & Hnj & -> & _) Hbo.
      pose proof (block_inside _ _ (po_type _ _ _ (co_page _ _ _ _ Hc1 x Hx)) Hj) as Hbj.
      destruct (bsize_facts _ (po_type _ _ _ (co_page _ _ _ _ Hc1 x Hx))) as (_ & Hbx & _).
      assert (x = g) as -> by (eapply Hsame; [done| |exact Hbo]; unfold on_page; lia).
      assert (j ∈ i :: pg_free g) as [->|]%elem_of_cons; [|done..].
      apply (all_free_in _ (nblk (pg_type g))); [apply Hok|apply Hok|exact Hfull|exact Hj]. }
    intros b k. rewrite <- Hlv. rewrite (live_release P1 g' P2); [done|]. intros j Hj.
    apply (all_free_in _ (nblk (pg_type g))); [apply Hok|apply Hok|exact Hfull|exact Hj].
  - rewrite (bind_run _ _ _ _ _ (locked_unlock _ _ _ Hl2)). exists (unlocked (k_sync (h_k h)) h2), A, (repl g g' P).
    split; [done|]. split; [|rewrite Hn; exact Hs|exact Hlv|].
    2: { exists g. split; [done|]. split; [done|]. left. split; [|done].
      destruct (some_used (i :: pg_free g) (nblk (pg_type g))) as (j & Hj & Hnj); [lia|].
      pose proof (block_inside _ _ Ht Hj) as Hbj. exists (pg_addr g + j * bsize (pg_type g)), (bsize (pg_type g)).
      split; [|unfold on_page; lia]. exists g', j. split; [by apply repl_elem|done]. }
    split.
    + by apply (core_ext leaks A (repl g g' P) h2).
    + apply Hl2.
    + exact Hf.
    + intros x Hx. destruct (decide (pg_ref x = pg_ref g)) as [E|Hne].
      * apply elem_of_repl in Hx as [->|[_ Hx]]; [|done]. cbn [pg_free pg_type g']. lia.
      * apply Hu2; [done|]. intros ->. done.
Qed.

(** *** Whole pages *)

Lemma heap_rep_pages leaks h A A' P k :
  heap_rep leaks h A P -> pages k A' -> k_mem k = k_mem (h_k h) -> k_sync k = k_sync (h_k h) ->
  (forall a, is_root_page (kheaproots h) a -> A !! a = Some 1 -> A' !! a = Some 1) ->
  (forall g, g ∈ P -> A !! pg_addr g = Some 1 -> A' !! pg_addr g = Some 1) ->
  heap_rep leaks (set_k k h) A' P.
Proof.
  intros [[Hro Hli Hpg Hen Hown Hinj] Hp Hf Hu] Hp' Hm Hs H1 H2.
  split; [|done|by unfold free; cbn [set_k h_k]; rewrite Hs|done].
  split; cbn [set_k h_k kheaproots h_refs sizebases allbase]; rewrite ?Hm; [|done..| |done].
  - destruct Hro as [? ? ? Hown' ?]. split; [done..| |done]. intros a Ha. apply H1; [done|by apply Hown'].
  - intros g Hg. destruct (Hown g Hg). split; [by apply H2|done].
Qed.

Lemma kmalloc_large_run leaks h A P sz :
  heap_rep leaks h A P -> 2048 <= sz <= 2 ^ 31 ->
  exists r h', kmalloc sz h = Ret (r, h') /\
    ((r = 0 /\ h' = h) \/
     (r <> 0 /\ exists n, A !! r = None /\ sz <= n * PAGE_SIZE < sz + PAGE_SIZE /\
        heap_rep leaks h' (<[r := n]> A) P /\ k_mem (h_k h') = k_mem (h_k h))).
Proof.
  intros Hr Hsz. unfold kmalloc, GUARD_OVERHEAD, LABEL_OVERHEAD, LARGEST_SUBPAGE_SIZE.
  rewrite !Z.add_0_r, u32_id by lia. rewrite (proj2 (Z.leb_le _ _)) by lia. rewrite u32_id by plia.
  set (n := (sz + PAGE_SIZE - 1) / PAGE_SIZE). assert (1 <= n <= 2 ^ 19) as Hn by (unfold n; plia).
  destruct (pages_alloc _ A n (hr_pages _ _ _ _ Hr) Hn) as (va & s & Hrun & Hm & Hs & Hres).
  rewrite (bind_run _ _ _ _ _ (zoom_Ret h_k set_k _ h va s Hrun)).
  destruct Hres as [[-> ->]|(Hne & Hnone & Hp)].
  - exists 0, h. split; [by destruct h|by left].
  - rewrite (proj2 (Z.eqb_neq _ _)) by done.
    destruct (page_facts _ _ va n Hp (lookup_insert_eq _ _ _)) as (Hal & _). rewrite bind_kassert by (by rewrite Hal).
    exists va, (set_k s h). split; [done|]. right. split; [done|]. exists n. split; [done|].
    split; [unfold n; plia|]. split; [|done].
    apply (heap_rep_pages leaks h A); [done..| |]; intros a _ Ha; (rewrite lookup_insert_ne; [done|]);
      intros ->; by rewrite Hnone in Ha.
Qed.

Lemma kfree_large_run leaks h A P a n :
  heap_rep leaks h A P -> A !! a = Some n -> (forall g, g ∈ P -> pg_addr g <> a) ->
  ~ is_root_page (kheaproots h) a ->
  exists h', kfree a h = Ret (tt, h') /\ heap_rep leaks h' (delete a A) P /\ k_mem (h_k h') = k_mem (h_k h).
Proof.
  intros Hr Ha Hg Hnr. pose proof Hr as [Hc Hp Hf Hu].
  destruct (pages_range _ _ a n Hp Ha) as (Hn & Hal & Hlo & Hhi). unfold MIPS_KSEG0 in Hlo.
  unfold kfree. rewrite (proj2 (Z.eqb_neq _ _)) by lia. unfold subpage_kfree.
  destruct (lock_locked (k_sync (h_k h)) A h Hp eq_refl Hf) as [Hlock Hl]. rewrite bind_assoc, (bind_run _ _ _ _ _ Hlock).
  set (h1 := set_k (hold kmalloc_spinlock (h_k h)) h) in *.
  assert (core leaks A P h1) as Hc1 by (by apply (core_ext leaks A P h)). pose proof (co_lists _ _ _ _ Hc1) as Hli.
  mrun. destruct (find_owner_run a P (fuel h1) (allbase h1) h1) as (pr & Hfind & Hres);
    [apply (co_page _ _ _ _ Hc1)|apply Hli| |].
  { pose proof (chain_fuel _ _ _ _ (lo_all _ _ _ _ Hli) (lo_nodup _ _ _ _ Hli)) as Hfu. rewrite length_fmap in Hfu. unfold fuel. lia. }
  rewrite (bind_run _ _ _ _ _ Hfind).
  destruct Hres as [[-> _]|(_ & g & Hgin & _ & Hon)].
  2: { destruct (co_own _ _ _ _ Hc g Hgin) as [HAg _]. destruct (pages_apart _ _ a n (pg_addr g) 1 Hp Ha HAg) as [Hd|Hd];
       [intros E; by apply (Hg g)|..]; unfold on_page in Hon; plia. }
  cbn [Z.eqb]. mrun. rewrite (bind_run _ _ _ _ _ (locked_unlock _ _ _ Hl)). mrun. cbn [Z.eqb negb].
  rewrite bind_kassert by (by rewrite Hal).
  destruct (pages_free _ _ a n (lk_pages _ _ _ Hl) Ha) as (s & Hfree & Hsm & Hss & Hsp).
  unfold on_k. rewrite (zoom_Ret h_k set_k _ (unlocked _ h1) tt s Hfree). exists (set_k s h). split; [done|].
  split; [|exact Hsm]. apply (heap_rep_pages leaks h A); [done..| |].
  - intros b Hb Hbb. rewrite lookup_delete_ne; [done|]. intros <-. done.
  - intros g Hgin Hgg. rewrite lookup_delete_ne; [done|]. intros E. by apply (Hg g).
Qed.

Lemma kmalloc_small_run leaks h A P sz :
  heap_rep leaks h A P -> 0 <= leaks < 256 -> 0 <= sz < 2048 ->
  exists r h' A' P' leaks', kmalloc sz h = Ret (r, h') /\ malloc_post leaks h A P sz r h' A' P' leaks'.
Proof.
  intros Hr Hlk Hsz. unfold kmalloc, GUARD_OVERHEAD, LABEL_OVERHEAD, LARGEST_SUBPAGE_SIZE.
  rewrite !Z.add_0_r, u32_id by lia. rewrite (proj2 (Z.leb_gt _ _)) by lia. by apply subpage_kmalloc_run.
Qed.

Lemma kfree_small_run leaks h A P a n :
  heap_rep leaks h A P -> live P a n ->
  exists h' A' P', kfree a h = Ret (tt, h') /\ free_post leaks h A P a n h' A' P'.
Proof.
  intros Hr Hlv. destruct (live_page _ _ _ _ _ _ (hr_core _ _ _ _ Hr) Hlv) as (g & Hg & Hlo & _).
  pose proof (po_range _ _ _ (co_page _ _ _ _ (hr_core _ _ _ _ Hr) g Hg)) as Hrg. unfold MIPS_KSEG0 in Hrg.
  destruct (subpage_kfree_run leaks h A P a n Hr Hlv) as (h' & A' & P' & Hrun & Hpost).
  exists h', A', P'. split; [|done]. unfold kfree. rewrite (proj2 (Z.eqb_neq _ _)) by lia.
  by rewrite (bind_run _ _ _ _ _ Hrun).
Qed.

(** ** Runs of the heap *)

(** The heap before the first allocation. *)
Definition boot_heap (k : kst) : heap :=
  Heap k (replicate 16 (Root 0 (replicate 8 0) 0)) ∅ (replicate 8 0) 0.

(** Allocations, frees of allocated blocks and writes of clients to blocks they
    own.  [L] maps the allocated blocks to the sizes asked for; [f] counts the
    allocations that returned NULL. *)
Inductive heap_run (k : kst) : heap -> gmap Z Z -> Z -> Prop :=
| run_boot : heap_run k (boot_heap k) ∅ 0
| run_malloc h L f sz r h' : heap_run k h L f -> 0 <= sz < 2048 -> kmalloc sz h = Ret (r, h') ->
    heap_run k h' (if r =? 0 then L else <[r := sz]> L) (if r =? 0 then f + 1 else f)
| run_free h L f a n h' : heap_run k h L f -> L !! a = Some n -> kfree a h = Ret (tt, h') ->
    heap_run k h' (delete a L) f
| run_write h L f a n m : heap_run k h L f -> L !! a = Some n -> same_off (k_mem (h_k h)) m a (a + n) ->
    heap_run k (set_hmem m h) L f.

(** The pages [P] implement the blocks [L]. *)
Definition implements (P : list pg) (L : gmap Z Z) : Prop :=
  (forall a, is_Some (L !! a) <-> exists n, live P a n) /\
  (forall a n m, L !! a = Some n -> live P a m -> n <= m).

(** A client that stays inside its block does not disturb the heap. *)
Lemma heap_rep_write leaks h A P a n m :
  heap_rep leaks h A P -> live P a n -> same_off (k_mem (h_k h)) m a (a + n) -> heap_rep leaks (set_hmem m h) A P.
Proof.
  intros [Hc Hp Hf Hu] (g & i & Hg & Hi & Hni & -> & ->) Hs. split; [|by apply (pages_local (h_k h))|done|done].
  pose proof Hc as [Hro Hli Hpg Hen Hown Hinj].
  split; cbn [set_hmem set_k kheaproots h_refs sizebases allbase h_k set_mem k_mem]; [done..| |done|done|done].
  intros x Hx. apply (page_ok_frame (k_mem (h_k h)) _ (h_refs h)); [by apply Hpg| |by eauto].
  intros j Hj. eapply same_off_on; [exact Hs|].
  pose proof (block_inside _ _ (po_type _ _ _ (Hpg g Hg)) Hi). pose proof (po_in _ _ _ (Hpg x Hx) j Hj) as Hjr.
  pose proof (block_inside _ _ (po_type _ _ _ (Hpg x Hx)) Hjr).
  pose proof (bsize_facts _ (po_type _ _ _ (Hpg x Hx))) as (_ & Hb & _).
  destruct (decide (pg_addr x = pg_addr g)) as [E|Hd].
  - rewrite (Hinj x g Hx Hg E) in *. assert (i <> j) by (intros ->; done). nia.
  - destruct (pages_disjoint _ _ _ _ x g Hc Hx Hg Hd); lia.
Qed.

Lemma boot_rep k A : pages k A -> free kmalloc_spinlock k -> heap_rep 0 (boot_heap k) A [].
Proof.
  intros Hp Hf. assert (forall w r, arr_get (kheaproots (boot_heap k)) w = Some r -> r = Root 0 (replicate 8 0) 0) as Hr.
  { intros w r [_ Hr]%arr_get_Some. by apply lookup_replicate in Hr as [-> _]. }
  split; [|done|done|by intros g ?%elem_of_nil]. split; try (intros; by match goal with H : _ ∈ [] |- _ => apply elem_of_nil in H end).
  - split; [done|..].
    + intros w r ->%Hr. split; [|by vm_compute]. split; [done|]. intros i x [_ Hx]%arr_get_Some.
      cbn [pagerefs_inuse] in Hx. apply lookup_replicate in Hx as [-> _]. lia.
    + intros w r ->%Hr _. split; [done|]. intros w' r' _ ->%Hr. done.
    + intros a (Ha & w & r & ->%Hr & E). by destruct Ha.
    + intros w w' r r' ->%Hr _ _ E. done.
  - split; [done|done| |by constructor]. intros t Ht. exists 0. split; [|done]. apply arr_get_Some. split; [lia|].
    cbn [boot_heap sizebases]. apply lookup_replicate. split; [done|lia].
Qed.

Lemma heap_run_rep k A0 h L f : pages k A0 -> free kmalloc_spinlock k -> heap_run k h L f -> f < 256 ->
  0 <= f /\ exists A P leaks, heap_rep leaks h A P /\ 0 <= leaks <= f /\ implements P L.
Proof.
  intros Hp0 Hf0. induction 1 as [|h L f sz r h' _ IH Hsz Hrun|h L f a n h' _ IH Ha Hrun|h L f a n m _ IH Ha Hs]; intros Hle.
  - split; [done|]. exists A0, [], 0. split; [by apply boot_rep|]. split; [done|]. split.
    + intros a. rewrite lookup_empty. split; [by intros [? ?]|]. by intros (n & g & i & Hg%elem_of_nil & _).
    + intros a n m. by rewrite lookup_empty.
  - assert (0 <= f /\ exists A P leaks, heap_rep leaks h A P /\ 0 <= leaks <= f /\ implements P L) as (Hf & A & P & leaks & Hr & Hlk & HL1 & HL2)
      by (apply IH; destruct (r =? 0); lia).
    destruct (kmalloc_small_run leaks h A P sz Hr ltac:(destruct (r =? 0); lia) Hsz) as (r' & h'' & A' & P' & leaks' & Hrun' & [Hrep Hlks _ _ Hres]).
    rewrite Hrun in Hrun'. apply Ret_inj in Hrun' as [<- <-].
    destruct Hres as [[-> ->]|(Hr0 & -> & n & Hn & Hszn & _ & Hnl & Hlv)].
    + cbn [Z.eqb] in *. split; [lia|]. exists A', P, leaks'. split; [done|]. split; [lia|done].
    + unfold MIPS_KSEG0 in Hr0. rewrite (proj2 (Z.eqb_neq _ _)) by lia. split; [done|]. exists A', P', leaks. split; [done|]. split; [done|]. split.
      * intros a. destruct (decide (r = a)) as [->|Hne].
        -- rewrite lookup_insert_eq. split; [|by eauto]. intros _. exists n. apply Hlv. by right.
        -- rewrite lookup_insert_ne, HL1 by done. split; intros (m & Hm); exists m; apply Hlv in Hm || apply Hlv; [by left|].
           by destruct Hm as [?|[-> _]].
      * intros a x m. destruct (decide (r = a)) as [->|Hne].
        -- rewrite lookup_insert_eq. intros [= <-] [Hm|[_ ->]]%Hlv; [by destruct (Hnl m)|done].
        -- rewrite lookup_insert_ne by done. intros Hx [Hm|[-> _]]%Hlv; [by apply (HL2 a)|done].
  - destruct (IH Hle) as (Hf & A & P & leaks & Hr & Hlk & HL1 & HL2). split; [done|].
    destruct (proj1 (HL1 a)) as (m & Hm); [by eauto|].
    destruct (kfree_small_run leaks h A P a m Hr Hm) as (h'' & A' & P' & Hrun' & [Hrep _ Hlv _]).
    rewrite Hrun in Hrun'. apply Ret_inj in Hrun' as [_ <-]. exists A', P', leaks. split; [done|]. split; [done|]. split.
    + intros b. destruct (decide (a = b)) as [->|Hne].
      * rewrite lookup_delete_eq. split; [by intros [? ?]|]. by intros (x & [_ ?]%Hlv).
      * rewrite lookup_delete_ne, HL1 by done. split; intros (x & Hx); exists x; apply Hlv in Hx || apply Hlv; [done|by destruct Hx].
    + intros b x y [Hne Hx]%lookup_delete_Some [Hy _]%Hlv. by apply (HL2 b).
  - destruct (IH Hle) as (Hf & A & P & leaks & Hr & Hlk & HL1 & HL2). split; [done|]. exists A, P, leaks. split; [|done].
    destruct (proj1 (HL1 a)) as (x & Hx); [by eauto|]. apply (heap_rep_write leaks h A P a x); [done..|].
    eapply same_off_weaken; [exact Hs|lia|]. pose proof (HL2 a n x Ha Hx). lia.
Qed.

Lemma block_16 addr t i : 0 <= t < 8 -> addr mod PAGE_SIZE = 0 -> (addr + i * bsize t) mod 16 = 0.
Proof.
  intros Ht Ha. assert (bsize t mod 16 = 0) as Hb.
  { assert (t = 0 \/ t = 1 \/ t = 2 \/ t = 3 \/ t = 4 \/ t = 5 \/ t = 6 \/ t = 7) as Hc by lia.
    repeat (destruct Hc as [->|Hc]; [done|]). by subst. }
  apply Z.mod_divide; [lia|]. apply Z.divide_add_r.
  - apply Z.mod_divide; [lia|]. plia.
  - apply Z.divide_mul_r. by apply Z.mod_divide; [lia|].
Qed.

(** A page of the heap has an allocated block. *)
Lemma page_has_live leaks h A P g : heap_rep leaks h A P -> g ∈ P -> exists a n, live P a n.
Proof.
  intros Hr Hg. destruct (some_used (pg_free g) (nblk (pg_type g)) (hr_used _ _ _ _ Hr g Hg)) as (i & Hi & Hni).
  by exists (pg_addr g + i * bsize (pg_type g)), (bsize (pg_type g)), g, i.
Qed.

Lemma kmalloc_large_roots sz h r h' : 2048 <= sz <= 2 ^ 31 -> kmalloc sz h = Ret (r, h') -> kheaproots h' = kheaproots h.
Proof.
  intros Hsz. unfold kmalloc, GUARD_OVERHEAD, LABEL_OVERHEAD, LARGEST_SUBPAGE_SIZE.
  rewrite !Z.add_0_r, u32_id by lia. rewrite (proj2 (Z.leb_le _ _)) by lia.
  intros (va & h1 & Hrun & Hrest)%bind_Ret_inv. assert (kheaproots h1 = kheaproots h) as E.
  { unfold on_k, zoom in Hrun. destruct (alloc_kpages _ (h_k h)) as [[? ?]| | |]; try done. by apply Ret_inj in Hrun as [_ <-]. }
  destruct (va =? 0); [by apply Ret_inj in Hrest as [_ <-]|].
  apply bind_Ret_inv in Hrest as ([] & h2 & Hk & Hret). unfold kassert in Hk. destruct (_ =? 0); [|done].
  apply Ret_inj in Hk as [_ <-]. by apply Ret_inj in Hret as [_ <-].
Qed.

(** ** Correctness of the heap *)

(** C23 kmalloc_spec. On a consistent heap a request below 2048 bytes returns (it
    neither panics, nor follows a bad pointer, nor loops): NULL, or a block of
    at least the size asked for, aligned to its size, that was not allocated;
    every other block and every page that was in use keeps its contents. *)
Theorem kmalloc_spec leaks h A P sz :
  heap_rep leaks h A P -> 0 <= leaks < 256 -> 0 <= sz < 2048 ->
  exists r h' A' P' leaks', kmalloc sz h = Ret (r, h') /\ malloc_post leaks h A P sz r h' A' P' leaks'.
Proof. apply kmalloc_small_run. Qed.

(** C24 kfree_spec. Freeing an allocated block returns; the block, and only it, is
    no longer allocated, and only its bytes change.  When it was the last allocated
    block of its page, the page goes back to the page allocator; otherwise the
    page, which has another allocated block, stays. *)
Theorem kfree_spec leaks h A P a n :
  heap_rep leaks h A P -> live P a n ->
  exists h' A' P', kfree a h = Ret (tt, h') /\ free_post leaks h A P a n h' A' P'.
Proof. apply kfree_small_run. Qed.

(** C5 kheap_reachable. From boot, under every sequence of allocations of less than
    2048 bytes (those the sub-page allocator serves), frees of allocated blocks and writes of clients inside their blocks, with fewer than
    256 failed allocations: the allocated blocks do not overlap, are aligned
    to 16 bytes and lie in the direct-mapped segment; every further [kmalloc] of less than 2048 bytes
    and every [kfree] of an allocated block returns; and once all blocks have
    been freed the heap holds no page. *)
Theorem kheap_reachable k A0 h L f :
  pages k A0 -> free kmalloc_spinlock k -> heap_run k h L f -> f < 256 ->
  (forall a n, L !! a = Some n -> MIPS_KSEG0 < a /\ a + n <= MIPS_KSEG0 + 2 ^ 29 /\ a mod 16 = 0) /\
  (forall a n a' n', L !! a = Some n -> L !! a' = Some n' -> a <> a' -> a + n <= a' \/ a' + n' <= a) /\
  (forall sz, 0 <= sz < 2048 -> exists r h', kmalloc sz h = Ret (r, h')) /\
  (forall a n, L !! a = Some n -> exists h', kfree a h = Ret (tt, h')) /\
  (L = ∅ -> allbase h = 0 /\ forall b, b ∈ sizebases h -> b = 0).
Proof.
  intros Hp Hf Hrun Hlt. destruct (heap_run_rep k A0 h L f Hp Hf Hrun Hlt) as (Hf0 & A & P & leaks & Hr & Hlk & HL1 & HL2).
  pose proof (hr_core _ _ _ _ Hr) as Hc.
  assert (forall a n, L !! a = Some n -> exists m, live P a m /\ n <= m) as Hlive.
  { intros a n Ha. destruct (proj1 (HL1 a)) as (m & Hm); [by eauto|]. exists m. split; [done|by apply (HL2 a)]. }
  split; [|split; [|split; [|split]]].
  - intros a n Ha. destruct (Hlive a n Ha) as (m & (g & i & Hg & Hi & _ & -> & Hm) & Hnm).
    pose proof (co_page _ _ _ _ Hc g Hg) as Hpg. pose proof (po_range _ _ _ Hpg).
    pose proof (block_inside _ _ (po_type _ _ _ Hpg) Hi). split; [lia|]. split; [lia|].
    apply block_16; apply Hpg.
  - intros a n a' n' Ha Ha' Hne. destruct (Hlive a n Ha) as (m & Hm & Hnm), (Hlive a' n' Ha') as (m' & Hm' & Hnm').
    destruct (live_apart leaks A P h a m a' m' Hc Hm Hm' Hne); [left|right]; lia.
  - intros sz Hsz. destruct (kmalloc_small_run leaks h A P sz Hr ltac:(lia) Hsz) as (r & h' & _ & _ & _ & Hk & _). eauto.
  - intros a n Ha. destruct (Hlive a n Ha) as (m & Hm & _).
    destruct (kfree_small_run leaks h A P a m Hr Hm) as (h' & _ & _ & Hk & _). eauto.
  - intros ->. assert (P = []) as ->.
    { destruct P as [|g P]; [done|]. exfalso. assert (g ∈ g :: P) as Hg by (apply elem_of_cons; by left).
      destruct (page_has_live leaks h A (g :: P) g Hr Hg) as (a & n & Hlv).
      assert (is_Some ((∅ : gmap Z Z) !! a)) as [x Hx] by (apply HL1; eauto). by rewrite lookup_empty in Hx. }
    destruct (co_lists _ _ _ _ Hc) as [Hl Ha Hs _]. split; [exact Ha|]. intros b [j Hj]%list_elem_of_lookup.
    pose proof (lookup_lt_Some _ _ _ Hj). destruct (Hs (Z.of_nat j)) as (b' & Hb' & Hch); [lia|].
    rewrite arr_get_nat, Hj in Hb'. by injection Hb' as ->.
Qed.

(** kmalloc_pages_round_trip. A request of 2048 bytes or more takes the least
    number of whole pages that holds it, a block that was not in use; [kfree]
    of that block restores the set of blocks in use. *)
Theorem kmalloc_pages_round_trip leaks h A P sz :
  heap_rep leaks h A P -> 2048 <= sz <= 2 ^ 31 ->
  (kmalloc sz h = Ret (0, h)) \/
  exists r h1 h2 n, kmalloc sz h = Ret (r, h1) /\ r mod PAGE_SIZE = 0 /\ A !! r = None /\
    sz <= n * PAGE_SIZE < sz + PAGE_SIZE /\ heap_rep leaks h1 (<[r := n]> A) P /\
    kfree r h1 = Ret (tt, h2) /\ heap_rep leaks h2 A P.
Proof.
  intros Hr Hsz. destruct (kmalloc_large_run leaks h A P sz Hr Hsz) as (r & h1 & Hrun & [[-> ->]|(Hne & n & Hnone & Hn & Hr1 & Hm)]); [by left|right].
  destruct (page_facts _ _ r n (hr_pages _ _ _ _ Hr1) (lookup_insert_eq _ _ _)) as (Hal & _).
  destruct (kfree_large_run leaks h1 (<[r := n]> A) P r n Hr1 (lookup_insert_eq _ _ _)) as (h2 & Hrun2 & Hr2 & _).
  - intros g Hg E. destruct (co_own _ _ _ _ (hr_core _ _ _ _ Hr) g Hg) as [HA _]. rewrite E, Hnone in HA. done.
  - intros Hrp. assert (kheaproots h1 = kheaproots h) as E by (by apply (kmalloc_large_roots sz h r h1)).
    rewrite E in Hrp. apply (ro_own _ _ _ (co_roots _ _ _ _ (hr_core _ _ _ _ Hr))) in Hrp. by rewrite Hnone in Hrp.
  - rewrite delete_insert_id in Hr2 by done. exists r, h1, h2, n. done.
Qed.

(** kheap_printstats_spec. The statistics list every page of the heap with its
    free blocks marked, and printing them changes nothing. *)
Theorem kheap_printstats_spec leaks h A P :
  heap_rep leaks h A P -> kheap_printstats h = Ret (stats_of <$> P, h).
Proof.
  intros [Hc Hp Hf Hu]. unfold kheap_printstats.
  destruct (lock_locked (k_sync (h_k h)) A h Hp eq_refl Hf) as [Hlock Hl]. rewrite (bind_run _ _ _ _ _ Hlock).
  set (h1 := set_k (hold kmalloc_spinlock (h_k h)) h) in *.
  assert (core leaks A P h1) as Hc1 by (by apply (core_ext leaks A P h)). pose proof (co_lists _ _ _ _ Hc1) as Hli. mrun.
  rewrite (bind_run _ _ _ _ _ (printstats_from_run P (fuel h1) _ h1 (co_page _ _ _ _ Hc1) (lo_all _ _ _ _ Hli)
    ltac:(pose proof (chain_fuel _ _ _ _ (lo_all _ _ _ _ Hli) (lo_nodup _ _ _ _ Hli)) as Hfu; rewrite length_fmap in Hfu; unfold fuel; lia))).
  rewrite (bind_run _ _ _ _ _ (locked_unlock _ _ _ Hl)). unfold mret, M_ret. by destruct h as [[]].
Qed.

End HeapProofs.

End Kheap.
