(* ===== verification/KernelHeap.v ===== *)
(** * The kernel heap on the kernel's page allocator

    [alloc_kpages] and [free_kpages] of [vm/addrspace.c] meet the interface
    [Kpages] of the heap; the concrete runs of the heap, and two behaviours of
    [kmalloc] that its callers do not expect. *)

From S2P Require Import Prelude Sync KState Coremap AddrSpace Kmalloc.

#[export] Instance kernel_pages : Kpages :=
  { alloc_kpages := As.alloc_kpages; free_kpages := As.free_kpages }.

(** The kernel address of a frame. *)
Definition kva (f : Z) : Z := MIPS_KSEG0 + f * PAGE_SIZE.

#[export] Instance kva_inj : Inj (=) (=) kva.
Proof. intros x y. unfold kva. plia. Qed.

Definition kpages_held (s : kst) (A : gmap Z Z) : Prop :=
  Cm.ready s /\ can_sleep s /\ exists F, Cm.rep 1 s F /\ A = kmap kva F.

Lemma kva_frame va : va mod PAGE_SIZE = 0 -> kva ((va - MIPS_KSEG0) / PAGE_SIZE) = va.
Proof. unfold kva, MIPS_KSEG0. plia. Qed.

Lemma rep_block s F f n : Cm.rep 1 s F -> F !! f = Some n ->
  1 <= n /\ 1 <= f /\ (f + n) * PAGE_SIZE <= 2 ^ 29.
Proof.
  intros (fr & sz & (_ & _ & Hmax) & (Hb & Hal & Hlast) & _ & _ & HF & _) Hf.
  destruct (HF f n Hf) as (H1 & H2 & H3 & _). plia.
Qed.

#[export] Instance kernel_pages_ok : KpagesOk kpages_held.
Proof.
  split.
  - by intros s A [(Hq & _) _].
  - intros s A va n (_ & _ & F & Hrep & ->) (f & -> & Hf)%lookup_kmap_Some; [|apply _].
    destruct (rep_block s F f n Hrep Hf) as (H1 & H2 & H3). unfold kva, MIPS_KSEG0. plia.
  - intros s A va n va' n' (_ & _ & F & (fr & sz & _ & _ & _ & _ & _ & Hap) & ->)
      (f & -> & Hf)%lookup_kmap_Some (f' & -> & Hf')%lookup_kmap_Some Hne; [|apply _..].
    destruct (Hap f n Hf f' n') as [Hd|Hd]; [apply lookup_delete_Some; split; [congruence|done]|..]; unfold kva; plia.
  - intros s s' A Hc Hr Hs (Hrd & Hcs & F & Hrep & ->). split; [|split].
    + unfold Cm.ready, quiet, free in *. by rewrite Hs.
    + unfold can_sleep in *. by rewrite Hs.
    + exists F. split; [|done]. unfold Cm.rep in *. by rewrite Hc, Hr.
  - intros s A np (Hrd & Hcs & F & Hrep & ->) Hnp.
    assert (firstpaddr (k_ram s) + np * PAGE_SIZE < 2 ^ 32) as Hw by (pose proof (Cm.rep_ram_bound _ _ _ Hrep); plia).
    destruct (Cm.getppages_rep 1 s F np Hrd Hrep ltac:(lia) Hw) as (fr & pa & s' & _ & Hrun & Hrd' & Hres).
    destruct (Cm.getppages_frame 1 s F np pa s' Hrd Hrep ltac:(lia) Hw Hrun) as [Hs' _].
    cbn [alloc_kpages kernel_pages]. unfold As.alloc_kpages.
    rewrite (bind_run _ _ _ _ _ (As.vm_can_sleep_run s Hcs)), (bind_run _ _ _ _ _ Hrun).
    assert (k_mem s' = k_mem s /\ k_sync s' = k_sync s) as [Hm Hsy] by (by rewrite Hs').
    destruct Hres as [(-> & -> & _)|(Hpos & Hmod & Hle & Hap & Hrep')].
    + exists 0, s. do 3 (split; [done|]). by left.
    + rewrite (proj2 (Z.eqb_neq _ _)) by lia.
      destruct (rep_block s' _ _ _ Hrep' (lookup_insert_eq _ _ _)) as (_ & _ & Hb).
      assert (PADDR_TO_KVADDR pa = kva (pa / PAGE_SIZE)) as Hva.
      { unfold PADDR_TO_KVADDR, kva, MIPS_KSEG0. rewrite u32_id by plia. plia. }
      exists (kva (pa / PAGE_SIZE)), s'. rewrite Hva. do 3 (split; [done|]). right. split; [unfold kva, MIPS_KSEG0; plia|].
      split.
      * rewrite lookup_kmap by apply _. apply (Cm.apart_self_None _ _ np); [lia| |done].
        intros st n Hst. exact (Cm.rep_live_pos _ _ _ _ _ Hrep Hst).
      * split; [done|]. split; [unfold can_sleep in *; by rewrite Hsy|]. eexists. split; [exact Hrep'|].
        by rewrite kmap_insert by apply _.
  - intros s A va n (Hrd & Hcs & F & Hrep & ->) (f & -> & Hf)%lookup_kmap_Some; [|apply _].
    destruct (rep_block s F f n Hrep Hf) as (H1 & H2 & H3).
    assert (f * PAGE_SIZE / PAGE_SIZE = f) as Hdiv by (apply Z.div_mul; done).
    destruct (Cm.freeppages_rep 1 s F (f * PAGE_SIZE) n Hrd Hrep) as (s' & Hrun & Hrd' & Hrep'); [plia|by rewrite Hdiv|].
    pose proof (Cm.freeppages_frame 1 s F (f * PAGE_SIZE) n s' Hrd Hrep ltac:(plia) ltac:(by rewrite Hdiv) Hrun) as Hs'.
    exists s'. cbn [free_kpages kernel_pages]. unfold As.free_kpages. destruct Hrd as (Hq & Hfr & _).
    rewrite Cm.bind_isTableActive by done. pose proof Hrep as (fr1 & sz1 & (Hcm & _) & _). rewrite Hcm. cbn [allocTableActive Z.eqb].
    replace (kva f - MIPS_KSEG0) with (f * PAGE_SIZE) by (unfold kva; lia). rewrite u32_id by plia.
    rewrite (bind_run _ _ _ _ _ Hrun).
    assert (k_mem s' = k_mem s /\ k_sync s' = k_sync s) as [Hm Hsy] by (by rewrite Hs').
    do 3 (split; [done|]). split; [done|]. split; [unfold can_sleep in *; by rewrite Hsy|].
    rewrite Hdiv in Hrep'. eexists. split; [exact Hrep'|]. by rewrite kmap_delete by apply _.
Qed.

Module HeapRuns.
Import Kheap.

(** ** Concrete runs

    The machine of [KState.v] after [coremap_bootstrap]: twelve free frames. *)
Definition sample_heap : heap := boot_heap Cm.sample_boot.

Lemma sample_pages : kpages_held Cm.sample_boot ∅.
Proof.
  split; [apply Cm.sample_boot_ready|]. split; [by vm_compute|]. exists ∅. split; [apply Cm.sample_boot_rep|].
  by rewrite kmap_empty.
Qed.

Lemma sample_heap_rep : heap_rep (pages := kpages_held) 0 sample_heap ∅ [].
Proof. apply boot_rep; [apply sample_pages|by vm_compute]. Qed.

Definition result {A} (o : outcome (A * heap)) : option A :=
  match o with Ret (a, _) => Some a | _ => None end.

Lemma result_run {A} (o : outcome (A * heap)) a b h : o = Ret (a, h) -> result o = Some b -> a = b.
Proof. intros -> [= ->]. done. Qed.

Definition sample_block : Z := 0x80004f80.

Lemma sample_first : exists h1 A1 P1, kmalloc 100 sample_heap = Ret (sample_block, h1) /\
  malloc_post (pages := kpages_held) 0 sample_heap ∅ [] 100 sample_block h1 A1 P1 0.
Proof.
  destruct (kmalloc_small_run 0 sample_heap ∅ [] 100 sample_heap_rep ltac:(done) ltac:(done)) as (r & h1 & A1 & P1 & lk & Hrun & Hpost).
  assert (r = sample_block) as -> by (apply (result_run _ _ _ _ Hrun); by vm_compute).
  exists h1, A1, P1. split; [exact Hrun|]. pose proof Hpost as [_ _ _ _ [[E _]|(_ & -> & _)]]; [discriminate E|exact Hpost].
Qed.

(** A first block of 128 bytes for a request of 100. *)
Lemma kmalloc_spec_witness :
  exists h1 P1, kmalloc 100 sample_heap = Ret (sample_block, h1) /\ exists n, 100 <= n /\ live P1 sample_block n.
Proof.
  destruct (kmalloc_spec 0 sample_heap ∅ [] 100 sample_heap_rep) as (r & h1 & A1 & P1 & lk & Hrun & [_ _ _ _ Hres]); [done..|].
  assert (r = sample_block) as -> by (apply (result_run _ _ _ _ Hrun); by vm_compute).
  exists h1, P1. split; [exact Hrun|]. destruct Hres as [[E _]|(_ & _ & n & _ & Hn & _ & _ & Hl)]; [exfalso; discriminate E|].
  exists n. split; [exact Hn|]. apply Hl. right. split; reflexivity.
Defined.

Lemma kfree_spec_witness :
  exists h1 h2 P2, kmalloc 100 sample_heap = Ret (sample_block, h1) /\ kfree sample_block h1 = Ret (tt, h2) /\
    forall b m, ~ live P2 b m.
Proof.
  destruct sample_first as (h1 & A1 & P1 & Hrun & [Hrep _ _ _ [[E _]|(_ & _ & n & _ & _ & _ & _ & Hl)]]); [exfalso; discriminate E|].
  destruct (kfree_spec 0 h1 A1 P1 sample_block n Hrep) as (h2 & A2 & P2 & Hrun2 & [_ _ Hlv _]); [apply Hl; right; split; reflexivity|].
  exists h1, h2, P2. split; [exact Hrun|]. split; [exact Hrun2|].
  clear Hrun Hrun2. intros b m [Hb Hne]%Hlv. apply Hl in Hb as [(g & i & Hg%elem_of_nil & _)|[E _]]; [exact Hg|exact (Hne E)].
Defined.

Lemma kheap_reachable_witness :
  exists h1 h2, kmalloc 100 sample_heap = Ret (sample_block, h1) /\ kfree sample_block h1 = Ret (tt, h2) /\ allbase h2 = 0.
Proof.
  assert (0 <= 100 < 2048) as Hsz by lia. assert (0 < 256) as Hlt by lia.
  assert (free kmalloc_spinlock Cm.sample_boot) as Hf by (by vm_compute).
  destruct sample_first as (h1 & A1 & P1 & Hrun & _). exists h1.
  pose proof (run_malloc _ _ _ _ 100 _ _ (run_boot Cm.sample_boot) Hsz Hrun) as Hr1. cbn [Z.eqb sample_block] in Hr1.
  destruct (kheap_reachable (pages := kpages_held) Cm.sample_boot ∅ h1 _ 0 sample_pages Hf Hr1 Hlt) as (_ & _ & _ & Hfree & _).
  destruct (Hfree sample_block 100 (lookup_insert_eq _ _ _)) as (h2 & Hrun2). exists h2. split; [exact Hrun|]. split; [exact Hrun2|].
  pose proof (run_free _ _ _ _ _ _ _ Hr1 (lookup_insert_eq _ _ _) Hrun2) as Hr2. rewrite delete_insert_id in Hr2 by reflexivity.
  destruct (kheap_reachable (pages := kpages_held) Cm.sample_boot ∅ h2 _ 0 sample_pages Hf Hr2 Hlt) as (_ & _ & _ & _ & Hempty).
  exact (proj1 (Hempty eq_refl)).
Defined.

Lemma kmalloc_pages_round_trip_witness :
  exists r h1 h2, kmalloc 5000 sample_heap = Ret (r, h1) /\ kfree r h1 = Ret (tt, h2) /\ heap_rep (pages := kpages_held) 0 h2 ∅ [].
Proof.
  destruct (kmalloc_pages_round_trip 0 sample_heap ∅ [] 5000 sample_heap_rep ltac:(lia))
    as [Hz|(r & h1 & h2 & n & Hrun & _ & _ & _ & _ & Hrun2 & Hrep)].
  - exfalso. assert (0 = 0x80004000) by (apply (result_run _ _ _ _ Hz); by vm_compute). lia.
  - exists r, h1, h2. split; [exact Hrun|]. split; [exact Hrun2|exact Hrep].
Defined.

Lemma kheap_printstats_spec_witness : kheap_printstats sample_heap = Ret ([], sample_heap).
Proof. exact (kheap_printstats_spec 0 sample_heap ∅ [] sample_heap_rep). Defined.

(** ** Unexpected behaviours *)

(** kmalloc_wraps. The round-up [sz + PAGE_SIZE - 1] is computed in 32 bits: a
    request for 2^32 - 1 bytes asks for no pages, returns an address that is
    not NULL, and the next request is given the same memory. *)
Theorem kmalloc_wraps : exists va h1 h2,
  kmalloc 0xffffffff sample_heap = Ret (va, h1) /\ va <> 0 /\ kmalloc PAGE_SIZE h1 = Ret (va, h2).
Proof.
  eexists _, _, _. split; [vm_compute; reflexivity|]. split; [discriminate|]. vm_compute. reflexivity.
Qed.

(** [n] requests of 100 bytes, while a large block leaves one page free. *)
Definition starve (n : Z) : H Z :=
  big ← kmalloc (11 * PAGE_SIZE);
  for_each (seqZ 0 n) (fun _ => kmalloc 100;; mret tt);;
  kfree big;;
  kmalloc 100.

(** Freeing the block that [o] returned panics. *)
Definition panics_with (why : string) (o : outcome (Z * heap)) : bool :=
  match o with
  | Ret (x, h) =>
      negb (x =? 0) && match kfree x h with Panic w => bool_decide (w = why) | _ => false end
  | _ => false
  end.

(** leaked_pagerefs_panic. When the page for a new table of pagerefs cannot be
    allocated, [allocpageref] has already marked the entry in use and does not
    unmark it.  After 256 such failures the first table is full although it has
    no page; a later allocation succeeds with the second table, and freeing
    that block fails the assertion [root->numinuse == 0] of [freepageref]. *)
Theorem leaked_pagerefs_panic : exists x h,
  starve 256 sample_heap = Ret (x, h) /\ x <> 0 /\ kfree x h = Panic "root->numinuse == 0".
Proof.
  assert (panics_with "root->numinuse == 0" (starve 256 sample_heap) = true) as Hb by (vm_compute; reflexivity).
  destruct (starve 256 sample_heap) as [[x h]| | |]; [|discriminate Hb..].
  exists x, h. cbn [panics_with] in Hb. destruct (Z.eqb_spec x 0); [discriminate Hb|].
  destruct (kfree x h) as [|w| |]; [discriminate Hb| |discriminate Hb..].
  cbn [negb andb] in Hb. apply bool_decide_eq_true in Hb as ->. split; [reflexivity|]. split; [assumption|reflexivity].
Qed.

End HeapRuns.
