(* ===== verification/Bitmap.v ===== *)
(** * Bitmaps: [kern/lib/bitmap.c]

    The bit array the file system uses for block allocation.  The theorems say
    that [bitmap_alloc] takes the least clear bit, that marking and unmarking
    change one bit and panic on a bit that already has the value, and that a
    new bitmap has exactly its first [nbits] bits clear. *)

From S2P Require Import Prelude.

Module Bitmap.

Definition BITS_PER_WORD : Z := 8.
Definition WORD_ALLBITS : Z := 0xff.
Definition DIVROUNDUP (a b : Z) : Z := u32 (u32 (a + b) - 1) / b.

Record bitmap := MkBitmap { nbits : Z; v : list Z }.

Definition put_v (l : list Z) : M bitmap unit := modify (fun b => MkBitmap (nbits b) l).

(** [for (j=overbits; j<BITS_PER_WORD; j++) w |= 1 << j] *)
Fixpoint mark_from (js : list Z) (w : Z) : Z :=
  match js with
  | [] => w
  | j :: js' => mark_from js' (u8 (Z.lor w (Z.shiftl 1 j)))
  end.

(** [ok1], [ok2]: whether the two [kmalloc] calls succeed. *)
Definition bitmap_create (ok1 ok2 : bool) (n : Z) : outcome (option bitmap) :=
  let words := DIVROUNDUP n BITS_PER_WORD in
  if negb ok1 then Ret None
  else if negb ok2 then Ret None
  else
    let v := replicate (Z.to_nat words) 0 in
    if n / BITS_PER_WORD <? words then
      let ix := u32 (words - 1) in
      let overbits := u32 (n - u32 (ix * BITS_PER_WORD)) in
      if negb (n / BITS_PER_WORD =? u32 (words - 1)) then Panic "nbits / BITS_PER_WORD == words-1"
      else if negb ((0 <? overbits) && (overbits <? BITS_PER_WORD)) then Panic "overbits"
      else match arr_get v ix with
           | None => Undef "v[ix]"
           | Some w => Ret (Some (MkBitmap n
               (arr_set v ix (mark_from (seqZ overbits (BITS_PER_WORD - overbits)) w))))
           end
    else Ret (Some (MkBitmap n v)).

Definition bitmap_getdata (b : bitmap) : list Z := v b.

(** The first word that is not full, with its index. *)
Fixpoint find_word (l : list Z) (ix : Z) : option (Z * Z) :=
  match l with
  | [] => None
  | w :: l' => if negb (w =? WORD_ALLBITS) then Some (ix, w) else find_word l' (ix + 1)
  end.

(** The first clear bit among the given offsets. *)
Fixpoint find_bit (w : Z) (offsets : list Z) : option Z :=
  match offsets with
  | [] => None
  | o :: os => if Z.land w (u8 (Z.shiftl 1 o)) =? 0 then Some o else find_bit w os
  end.

(** The result is the error code and the index stored. *)
Definition bitmap_alloc : M bitmap (Z * option Z) :=
  b ← get;
  let maxix := DIVROUNDUP (nbits b) BITS_PER_WORD in
  match find_word (take (Z.to_nat maxix) (v b)) 0 with
  | None => mret (ENOSPC, None)
  | Some (ix, w) =>
      match find_bit w (seqZ 0 BITS_PER_WORD) with
      | None => panic "0"
      | Some offset =>
          put_v (arr_set (v b) ix (u8 (Z.lor w (u8 (Z.shiftl 1 offset)))));;
          let index := u32 (u32 (ix * BITS_PER_WORD) + offset) in
          kassert (index <? nbits b) "*index < b->nbits";;
          mret (0, Some index)
      end
  end.

Definition bitmap_translate (bitno : Z) : Z * Z :=
  (bitno / BITS_PER_WORD, u8 (Z.shiftl 1 (bitno mod BITS_PER_WORD))).

Definition bitmap_mark (index : Z) : M bitmap unit :=
  b ← get;
  kassert (index <? nbits b) "index < b->nbits";;
  let '(ix, mask) := bitmap_translate index in
  w ← valid (arr_get (v b) ix) "v[ix]";
  kassert (Z.land w mask =? 0) "(b->v[ix] & mask)==0";;
  put_v (arr_set (v b) ix (u8 (Z.lor w mask))).

Definition bitmap_unmark (index : Z) : M bitmap unit :=
  b ← get;
  kassert (index <? nbits b) "index < b->nbits";;
  let '(ix, mask) := bitmap_translate index in
  w ← valid (arr_get (v b) ix) "v[ix]";
  kassert (negb (Z.land w mask =? 0)) "(b->v[ix] & mask)!=0";;
  put_v (arr_set (v b) ix (u8 (Z.land w (Z.lnot mask)))).

Definition bitmap_isset (index : Z) : M bitmap Z :=
  b ← get;
  let '(ix, mask) := bitmap_translate index in
  w ← valid (arr_get (v b) ix) "v[ix]";
  mret (Z.land w mask).

(** ** Bits *)

(** Bit [i] of the bitmap; bits outside the words are counted as set. *)
Definition marked (b : bitmap) (i : Z) : bool :=
  match arr_get (v b) (i / 8) with Some w => Z.testbit w (i mod 8) | None => true end.

(** The number of words fits, every word is a byte and the leftover bits of the
    last word are in use. *)
Definition wf (b : bitmap) : Prop :=
  0 <= nbits b < 2 ^ 31 /\ Z.of_nat (length (v b)) = (nbits b + 7) / 8 /\
  (forall i w, arr_get (v b) i = Some w -> 0 <= w < 2 ^ 8) /\
  (forall i, nbits b <= i -> marked b i = true).

Lemma DIVROUNDUP_8 n : 0 <= n < 2 ^ 31 -> DIVROUNDUP n BITS_PER_WORD = (n + 7) / 8.
Proof.
  intros Hn. unfold DIVROUNDUP, BITS_PER_WORD. rewrite !u32_id by (lia || rewrite ?u32_id; lia). f_equal. lia.
Qed.

Lemma mask_eq o : 0 <= o < 8 -> u8 (Z.shiftl 1 o) = 2 ^ o.
Proof.
  intros Ho. rewrite Z.shiftl_1_l. apply u8_id. split; [by apply Z.pow_nonneg|]. apply Z.pow_lt_mono_r; lia.
Qed.

Lemma lor_byte w o : 0 <= w < 2 ^ 8 -> 0 <= o < 8 -> 0 <= Z.lor w (2 ^ o) < 2 ^ 8.
Proof. by apply lor_pow2_range. Qed.

Lemma ldiff_byte w m : 0 <= w < 2 ^ 8 -> 0 <= Z.land w (Z.lnot m) < 2 ^ 8.
Proof. by apply land_lnot_range. Qed.

Lemma all_ones w : 0 <= w < 2 ^ 8 -> (forall j, 0 <= j < 8 -> Z.testbit w j = true) -> w = WORD_ALLBITS.
Proof. by apply (all_bits w 8). Qed.

Lemma byte_bits w o : 0 <= w < 2 ^ 8 -> 8 <= o -> Z.testbit w o = false.
Proof. intros Hw Ho. apply (testbit_high w 8); lia. Qed.

(** A word written at [ix] changes the bits of that word. *)
Lemma marked_set b ix w i :
  0 <= ix < Z.of_nat (length (v b)) ->
  marked (MkBitmap (nbits b) (arr_set (v b) ix w)) i =
    if i / 8 =? ix then Z.testbit w (i mod 8) else marked b i.
Proof.
  intros Hix. unfold marked. simpl. destruct (Z.eqb_spec (i / 8) ix) as [->|Hne].
  - by rewrite arr_get_set_eq.
  - by rewrite arr_get_set_ne by lia.
Qed.

Lemma wf_set b ix w :
  wf b -> 0 <= ix < Z.of_nat (length (v b)) -> 0 <= w < 2 ^ 8 ->
  (forall i, nbits b <= i -> i / 8 = ix -> Z.testbit w (i mod 8) = true) ->
  wf (MkBitmap (nbits b) (arr_set (v b) ix w)).
Proof.
  intros (Hn & Hlen & Hby & Hover) Hix Hw Hb. split_and!; simpl.
  - lia.
  - lia.
  - by rewrite arr_set_length.
  - intros i x. destruct (decide (ix = i)) as [<-|Hne].
    + rewrite arr_get_set_eq by done. by intros [= <-].
    + rewrite arr_get_set_ne by lia. apply Hby.
  - intros i Hi. rewrite marked_set by done. destruct (Z.eqb_spec (i / 8) ix); [by apply Hb|by apply Hover].
Qed.

(** ** The search *)

Lemma find_word_spec l ix :
  match find_word l ix with
  | Some (i, w) => ix <= i /\ l !! Z.to_nat (i - ix) = Some w /\ w <> WORD_ALLBITS /\
      (forall j, (j < Z.to_nat (i - ix))%nat -> l !! j = Some WORD_ALLBITS)
  | None => forall j w, l !! j = Some w -> w = WORD_ALLBITS
  end.
Proof.
  revert ix. induction l as [|w l IH]; intros ix; cbn [find_word]; [done|].
  destruct (Z.eqb_spec w WORD_ALLBITS) as [->|Hw]; cbn [negb].
  - specialize (IH (ix + 1)). destruct (find_word l (ix + 1)) as [[i u]|].
    + destruct IH as (Hle & Hl & Hu & Hall).
      replace (Z.to_nat (i - ix)) with (S (Z.to_nat (i - (ix + 1)))) by lia.
      split_and!; [lia|done|done|]. intros [|j] Hj; [done|]. apply Hall. lia.
    + intros [|j] u Hj; simpl in Hj; [congruence|by apply (IH j)].
  - rewrite Z.sub_diag. split_and!; [lia|done|done|]. intros j Hj. lia.
Qed.

Lemma find_bit_spec w n k :
  0 <= k -> 0 <= n -> k + n <= 8 ->
  match find_bit w (seqZ k n) with
  | Some o => k <= o < k + n /\ Z.testbit w o = false /\ forall j, k <= j < o -> Z.testbit w j = true
  | None => forall j, k <= j < k + n -> Z.testbit w j = true
  end.
Proof.
  intros Hk Hn. revert k Hk. pattern n. apply natlike_ind; [| |done].
  - intros k Hk _. simpl. intros j Hj. lia.
  - intros m Hm IH k Hk Hb. rewrite seqZ_cons by lia. cbn [find_bit].
    rewrite mask_eq, land_mask by lia. destruct (Z.testbit w k) eqn:E; cbn [negb].
    + rewrite Z.pred_succ. specialize (IH (Z.succ k) ltac:(lia) ltac:(lia)).
      destruct (find_bit w (seqZ (Z.succ k) m)) as [o|].
      * destruct IH as (Ho & Ht & Hall). split_and!; [lia|lia|done|]. intros j Hj.
        destruct (decide (j = k)) as [->|]; [done|]. apply Hall. lia.
      * intros j Hj. destruct (decide (j = k)) as [->|]; [done|]. apply IH. lia.
    + split_and!; [lia|lia|done|]. intros j Hj. lia.
Qed.

Lemma ALLBITS_bit j : 0 <= j < 8 -> Z.testbit WORD_ALLBITS j = true.
Proof. intros Hj. change WORD_ALLBITS with (Z.ones 8). by apply Z.ones_spec_low. Qed.

(** What [bitmap_alloc] does on a consistent bitmap. *)
Lemma bitmap_alloc_run b :
  wf b ->
  (bitmap_alloc b = Ret ((ENOSPC, None), b) /\ forall i, 0 <= i -> marked b i = true) \/
  exists i b', bitmap_alloc b = Ret ((0, Some i), b') /\ wf b' /\ nbits b' = nbits b /\
    0 <= i < nbits b /\ marked b i = false /\ (forall j, 0 <= j < i -> marked b j = true) /\
    forall j, marked b' j = marked b j || (j =? i).
Proof.
  intros Hwf. pose proof Hwf as (Hn & Hlen & Hby & Hover). unfold bitmap_alloc. mrun.
  rewrite DIVROUNDUP_8, take_ge by lia. pose proof (find_word_spec (v b) 0) as Hfw.
  destruct (find_word (v b) 0) as [[ix w]|].
  - destruct Hfw as (Hix & Hw & Hnf & Hfull). rewrite Z.sub_0_r in *.
    assert (arr_get (v b) ix = Some w) as Hg by (by apply arr_get_Some).
    pose proof (Hby _ _ Hg) as Hwb. pose proof (lookup_lt_Some _ _ _ Hw) as Hlt.
    pose proof (find_bit_spec w 8 0 ltac:(lia) ltac:(lia) ltac:(lia)) as Hfb.
    unfold BITS_PER_WORD in *. destruct (find_bit w (seqZ 0 8)) as [o|]; cycle 1.
    { destruct Hnf. apply all_ones; [done|]. intros j Hj. by apply Hfb. }
    destruct Hfb as (Ho & Hclear & Hbelow).
    assert (marked b (ix * 8 + o) = false) as Hfree.
    { unfold marked. rewrite Z.div_add_l, Z.div_small, Z.add_0_r, Hg by lia.
      by rewrite Z.add_comm, Z.mod_add, Z.mod_small by lia. }
    assert (ix * 8 + o < nbits b) as Hin.
    { destruct (decide (ix * 8 + o < nbits b)); [done|]. rewrite Hover in Hfree by lia. done. }
    rewrite mask_eq by lia. rewrite (u8_id (Z.lor w _)) by (by apply lor_byte).
    rewrite (u32_id (ix * 8)), u32_id by lia. unfold put_v. mrun.
    rewrite bind_kassert by (by apply Z.ltb_lt). right. exists (ix * 8 + o). eexists.
    split_and!; [reflexivity| |done|lia|done|done| |].
    + apply wf_set; [done|lia|by apply lor_byte|]. intros i Hi Hd. rewrite testbit_lor by lia.
      specialize (Hover i Hi). unfold marked in Hover. rewrite Hd, Hg in Hover. by rewrite Hover.
    + intros j Hj. unfold marked. destruct (decide (j / 8 = ix)) as [Heq|Hne].
      * rewrite Heq, Hg. apply Hbelow. lia.
      * assert (arr_get (v b) (j / 8) = Some WORD_ALLBITS) as ->.
        { apply arr_get_Some. split; [lia|]. apply Hfull. lia. }
        apply ALLBITS_bit. lia.
    + intros j. rewrite marked_set by lia. destruct (Z.eqb_spec (j / 8) ix) as [Hd|Hd].
      * rewrite testbit_lor by lia. unfold marked. rewrite Hd, Hg. f_equal.
        apply Bool.eq_iff_eq_true. rewrite !Z.eqb_eq. lia.
      * rewrite (proj2 (Z.eqb_neq _ _)), orb_false_r by lia. done.
  - left. split; [done|]. intros i Hi. unfold marked.
    destruct (arr_get (v b) (i / 8)) as [w|] eqn:Hg; [|done].
    apply arr_get_Some in Hg as [_ Hg]. rewrite (Hfw _ _ Hg). apply ALLBITS_bit. lia.
Qed.

(** bitmap_alloc_spec. On a consistent bitmap [bitmap_alloc] returns and never
    fails an assertion: [ENOSPC] with the bitmap unchanged when every bit below
    [nbits] is in use, and otherwise the least free bit, which is then in use
    while all other bits are as before. *)
Theorem bitmap_alloc_spec b :
  wf b ->
  (bitmap_alloc b = Ret ((ENOSPC, None), b) /\ forall i, 0 <= i -> marked b i = true) \/
  exists i b', bitmap_alloc b = Ret ((0, Some i), b') /\ wf b' /\ nbits b' = nbits b /\
    0 <= i < nbits b /\ marked b i = false /\ (forall j, 0 <= j < i -> marked b j = true) /\
    forall j, marked b' j = marked b j || (j =? i).
Proof. apply bitmap_alloc_run. Qed.

Lemma index_word b i :
  wf b -> 0 <= i < nbits b -> exists w, arr_get (v b) (i / 8) = Some w /\ 0 <= w < 2 ^ 8 /\
    0 <= i / 8 < Z.of_nat (length (v b)) /\ marked b i = Z.testbit w (i mod 8).
Proof.
  intros (Hn & Hlen & Hby & _) Hi. destruct (proj2 (arr_get_is_Some (v b) (i / 8))) as [w Hw]; [lia|].
  exists w. unfold marked. rewrite Hw. split_and!; [done|by apply (Hby _ _ Hw)..|lia|lia|done].
Qed.

Lemma same_bit i j : j / 8 = i / 8 -> (j mod 8 =? i mod 8) = (j =? i).
Proof. intros Hd. apply Bool.eq_iff_eq_true. rewrite !Z.eqb_eq. lia. Qed.

(** bitmap_mark_unmark_spec. For a bit below [nbits], [bitmap_mark] sets a
    clear bit and panics on a set one, [bitmap_unmark] clears a set bit and
    panics on a clear one, no other bit changes, and [bitmap_isset] is nonzero
    exactly when the bit is set. *)
Theorem bitmap_mark_unmark_spec b i :
  wf b -> 0 <= i < nbits b ->
  (if marked b i then bitmap_mark i b = Panic "(b->v[ix] & mask)==0"
   else exists b', bitmap_mark i b = Ret (tt, b') /\ wf b' /\ nbits b' = nbits b /\ forall j, marked b' j = marked b j || (j =? i)) /\
  (if marked b i
   then exists b', bitmap_unmark i b = Ret (tt, b') /\ wf b' /\ nbits b' = nbits b /\ forall j, marked b' j = marked b j && negb (j =? i)
   else bitmap_unmark i b = Panic "(b->v[ix] & mask)!=0") /\
  exists r, bitmap_isset i b = Ret (r, b) /\ (r <> 0 <-> marked b i = true).
Proof.
  intros Hwf Hi. destruct (index_word b i Hwf Hi) as (w & Hg & Hwb & Hix & Hm).
  unfold bitmap_mark, bitmap_unmark, bitmap_isset, bitmap_translate, BITS_PER_WORD.
  rewrite mask_eq by lia. mrun. rewrite !bind_kassert by (apply Z.ltb_lt; lia).
  rewrite !(bind_valid _ _ _ _ _ Hg). rewrite !land_mask by lia. rewrite Hm.
  split_and!.
  - destruct (Z.testbit w (i mod 8)) eqn:E; [done|]. rewrite bind_kassert by done. eexists.
    split; [reflexivity|]. rewrite u8_id by (by apply lor_byte; lia). split_and!.
    + apply wf_set; [done|lia|apply lor_byte; lia|]. intros k Hk Hd. rewrite testbit_lor by lia.
      pose proof Hwf as (_ & _ & _ & Hover). specialize (Hover k Hk). unfold marked in Hover.
      rewrite Hd, Hg in Hover. by rewrite Hover.
    + done.
    + intros j. rewrite marked_set by lia. destruct (Z.eqb_spec (j / 8) (i / 8)) as [Hd|Hd].
      * rewrite testbit_lor, same_bit by (done || lia). unfold marked. by rewrite Hd, Hg.
      * rewrite (proj2 (Z.eqb_neq j i)), orb_false_r by congruence. done.
  - destruct (Z.testbit w (i mod 8)) eqn:E; [|done]. rewrite bind_kassert by done. eexists.
    split; [reflexivity|]. rewrite u8_id by (by apply ldiff_byte). split_and!.
    + apply wf_set; [done|lia|by apply ldiff_byte|]. intros k Hk Hd. rewrite testbit_clear, same_bit by lia.
      pose proof Hwf as (_ & _ & _ & Hover). specialize (Hover k Hk). unfold marked in Hover.
      rewrite Hd, Hg in Hover. by rewrite Hover, (proj2 (Z.eqb_neq _ _)) by lia.
    + done.
    + intros j. rewrite marked_set by lia. destruct (Z.eqb_spec (j / 8) (i / 8)) as [Hd|Hd].
      * rewrite testbit_clear, same_bit by lia. unfold marked. by rewrite Hd, Hg.
      * rewrite (proj2 (Z.eqb_neq j i)), andb_true_r by congruence. done.
  - eexists. split; [done|]. rewrite <- Z.eqb_neq, land_mask by lia. by destruct (Z.testbit _ _).
Qed.

Lemma mark_from_spec js w :
  0 <= w < 2 ^ 8 -> Forall (fun j => 0 <= j < 8) js ->
  0 <= mark_from js w < 2 ^ 8 /\
  forall k, 0 <= k -> Z.testbit (mark_from js w) k = Z.testbit w k || bool_decide (k ∈ js).
Proof.
  intros Hw Hjs. revert w Hw. induction Hjs as [|j js Hj Hjs IH]; intros w Hw; cbn [mark_from].
  - split; [done|]. intros k Hk. rewrite bool_decide_false by apply not_elem_of_nil. by rewrite orb_false_r.
  - rewrite Z.shiftl_1_l, u8_id by (by apply lor_byte).
    destruct (IH (Z.lor w (2 ^ j))) as [Hr Hb]; [by apply lor_byte|]. split; [done|]. intros k Hk.
    rewrite Hb, testbit_lor, <- orb_assoc by lia. f_equal. apply Bool.eq_iff_eq_true.
    rewrite orb_true_iff, Z.eqb_eq, !bool_decide_eq_true, elem_of_cons. done.
Qed.

(** A zeroed array: the bits of its words are clear. *)
Lemma zero_marked n words i :
  0 <= words -> 0 <= i ->
  marked (MkBitmap n (replicate (Z.to_nat words) 0)) i = negb (i / 8 <? words).
Proof.
  intros Hw Hi. unfold marked. simpl.
  destruct (arr_get (replicate (Z.to_nat words) 0) (i / 8)) as [w|] eqn:Hg.
  - apply arr_get_Some in Hg as [_ [-> Hlt]%lookup_replicate].
    rewrite Z.bits_0, (proj2 (Z.ltb_lt _ _)) by lia. done.
  - apply arr_get_None in Hg. rewrite length_replicate in Hg.
    rewrite (proj2 (Z.ltb_ge _ _)) by lia. done.
Qed.

(** A bitmap whose words are bytes and whose clear bits are the first [n]. *)
Lemma wf_intro n l :
  0 <= n < 2 ^ 31 -> Z.of_nat (length l) = (n + 7) / 8 ->
  (forall i w, arr_get l i = Some w -> 0 <= w < 2 ^ 8) ->
  (forall i, 0 <= i -> marked (MkBitmap n l) i = negb (i <? n)) ->
  wf (MkBitmap n l).
Proof.
  intros Hn Hl Hb Hm. split_and!; simpl; [lia|lia|done|done|].
  intros i Hi. rewrite Hm by lia. by rewrite (proj2 (Z.ltb_ge _ _)).
Qed.

Lemma zero_bytes n i w : arr_get (replicate n 0) i = Some w -> 0 <= w < 2 ^ 8.
Proof. intros [_ [-> _]%lookup_replicate]%arr_get_Some. lia. Qed.

Lemma create_run n :
  0 <= n < 2 ^ 31 ->
  exists b, bitmap_create true true n = Ret (Some b) /\ wf b /\ nbits b = n /\
    forall i, 0 <= i -> marked b i = negb (i <? n).
Proof.
  intros Hn. unfold bitmap_create. rewrite DIVROUNDUP_8 by done. unfold BITS_PER_WORD. cbn [negb].
  set (words := (n + 7) / 8). assert (0 <= words) by (unfold words; lia).
  set (z := replicate (Z.to_nat words) 0).
  assert (Z.of_nat (length z) = words) as Hlz by (unfold z; rewrite length_replicate; lia).
  destruct (Z.ltb_spec (n / 8) words) as [Hlt|Hge].
  - assert (n / 8 = words - 1) as Hq by (unfold words in *; lia).
    rewrite (u32_id (words - 1)), (u32_id ((words - 1) * 8)), (u32_id (n - (words - 1) * 8)) by lia.
    set (o := n - (words - 1) * 8). assert (0 < o < 8) as Ho by (unfold o, words in *; lia).
    rewrite (proj2 (Z.eqb_eq _ _)), !(proj2 (Z.ltb_lt _ _)) by lia. cbn [andb negb].
    destruct (proj2 (arr_get_is_Some z (words - 1))) as [w Hw]; [lia|]. rewrite Hw.
    assert (w = 0) as -> by (by apply arr_get_Some in Hw as [_ [-> _]%lookup_replicate]).
    destruct (mark_from_spec (seqZ o (8 - o)) 0) as [Hr Hb]; [lia|apply Forall_seqZ; lia|].
    assert (forall i, 0 <= i -> marked (MkBitmap n (arr_set z (words - 1) (mark_from (seqZ o (8 - o)) 0))) i =
      negb (i <? n)) as Hmk.
    { intros i Hi. rewrite (marked_set (MkBitmap n z)) by (simpl; lia).
      destruct (Z.eqb_spec (i / 8) (words - 1)) as [Hd|Hd].
      - rewrite Hb, Z.bits_0 by lia. apply Bool.eq_iff_eq_true. simpl.
        rewrite bool_decide_eq_true, elem_of_seqZ, negb_true_iff, Z.ltb_ge. unfold o. lia.
      - unfold z. rewrite zero_marked by lia. f_equal. apply Bool.eq_iff_eq_true. rewrite !Z.ltb_lt. lia. }
    eexists. split; [reflexivity|]. split; [|done]. apply wf_intro; [done|rewrite arr_set_length; done| |done].
    intros i w. destruct (decide (words - 1 = i)) as [<-|Hne].
    + rewrite arr_get_set_eq by lia. by intros [= <-].
    + rewrite arr_get_set_ne by lia. apply zero_bytes.
  - assert (n = words * 8) as Hnw by (unfold words in *; lia).
    assert (forall i, 0 <= i -> marked (MkBitmap n z) i = negb (i <? n)) as Hmk.
    { intros i Hi. unfold z. rewrite zero_marked by lia. f_equal.
      apply Bool.eq_iff_eq_true. rewrite !Z.ltb_lt. lia. }
    eexists. split; [reflexivity|]. split; [|done].
    apply wf_intro; [done|done|apply zero_bytes|done].
Qed.

(** bitmap_create_spec. Without memory [bitmap_create] returns NULL; otherwise
    it returns a consistent bitmap, passing its assertions, whose first [nbits]
    bits are clear and whose leftover bits are in use. *)
Theorem bitmap_create_spec n :
  0 <= n < 2 ^ 31 ->
  bitmap_create false true n = Ret None /\ bitmap_create true false n = Ret None /\
  exists b, bitmap_create true true n = Ret (Some b) /\ wf b /\ nbits b = n /\
    forall i, 0 <= i -> marked b i = negb (i <? n).
Proof. intros Hn. split_and!; [done..|]. by apply create_run. Qed.

(** *** Concrete runs *)

Definition sample_bitmap : bitmap :=
  match bitmap_create true true 10 with Ret (Some b) => b | _ => MkBitmap 0 [] end.

Lemma sample_bitmap_wf : wf sample_bitmap.
Proof.
  destruct (create_run 10 ltac:(lia)) as (b & Hb & Hwf & _). unfold sample_bitmap. by rewrite Hb.
Qed.

Lemma bitmap_create_spec_witness :
  exists b, bitmap_create true true 10 = Ret (Some b) /\ wf b /\ nbits b = 10.
Proof.
  destruct (bitmap_create_spec 10 ltac:(lia)) as (_ & _ & b & Hb & Hwf & Hn & _). by exists b.
Defined.

Lemma bitmap_alloc_spec_witness :
  (bitmap_alloc sample_bitmap = Ret ((ENOSPC, None), sample_bitmap) /\
   forall i, 0 <= i -> marked sample_bitmap i = true) \/
  exists i b', bitmap_alloc sample_bitmap = Ret ((0, Some i), b') /\ wf b'.
Proof.
  destruct (bitmap_alloc_spec sample_bitmap sample_bitmap_wf) as [Hfull|(i & b' & Hrun & Hwf & _)];
    [left; exact Hfull|right]. exists i, b'. split; [exact Hrun|exact Hwf].
Defined.

Lemma bitmap_mark_unmark_spec_witness :
  exists b', bitmap_mark 3 sample_bitmap = Ret (tt, b') /\ wf b'.
Proof.
  destruct (bitmap_mark_unmark_spec sample_bitmap 3 sample_bitmap_wf ltac:(by vm_compute)) as (Hm & _).
  destruct Hm as (b' & Hrun & Hwf & _). exists b'. split; [exact Hrun|exact Hwf].
Defined.

End Bitmap.
