(* ===== verification/Lib.v ===== *)
(** * Small libraries of the kernel

    [Module Array] ([kern/lib/array.c]), [Module Bswap] ([kern/lib/bswap.c]),
    [Module Timespec] ([kern/lib/time.c]) and [Module FreeBitmap]
    ([kern/arch/mips/vm/free_bitmap.c]). *)

From S2P Require Import Prelude Sync.

(** ** Resizable arrays of pointers *)
Module Array.

(** [v] has [max] elements, of which the first [num] are in use. *)
Record array := MkArray { num : Z; max : Z; v : list Z }.

Definition array_init : array := MkArray 0 0 [].

Definition array_create (ok : bool) : option array := if ok then Some array_init else None.

Definition array_cleanup (a : array) : outcome unit :=
  if num a =? 0 then Ret tt else Panic "a->num == 0".

Definition array_destroy (a : array) : outcome unit := array_cleanup a.

(** The loop [while (num > newmax) newmax = newmax ? newmax*2 : 4;] cut off after
    [fuel] rounds. *)
Fixpoint grow (fuel : nat) (n newmax : Z) : option Z :=
  if newmax <? n then
    match fuel with
    | O => None
    | S fuel' => grow fuel' n (if newmax =? 0 then 4 else u32 (newmax * 2))
    end
  else Some newmax.

(** [mem bytes] is what [kmalloc] returns: NULL or the contents of a new block.
    [Spin] is the endless loop. *)
Definition array_preallocate (mem : Z -> option (list Z)) (n : Z) (a : array) : outcome (Z * array) :=
  if max a <? n then
    match grow 33 n (max a) with
    | None => Spin
    | Some newmax =>
        match mem (u32 (newmax * 4)) with
        | None => Ret (ENOMEM, a)
        | Some m =>
            if Z.of_nat (length m) <? num a then Undef "memcpy"
            else Ret (0, MkArray (num a) newmax
                   (take (Z.to_nat (num a)) (v a) ++ drop (Z.to_nat (num a)) m))
        end
    end
  else Ret (0, a).

Definition array_setsize (mem : Z -> option (list Z)) (n : Z) (a : array) : outcome (Z * array) :=
  match array_preallocate mem n a with
  | Ret (0, a') => Ret (0, MkArray n (max a') (v a'))
  | o => o
  end.

Definition array_remove (index : Z) (a : array) : outcome array :=
  if negb (num a <=? max a) then Panic "a->num <= a->max"
  else if negb (index <? num a) then Panic "index < a->num"
  else
    let num_to_move := num a - (index + 1) in
    let i := Z.to_nat index in
    Ret (MkArray (num a - 1) (max a)
      (take i (v a) ++ take (Z.to_nat num_to_move) (drop (S i) (v a)) ++
       drop (i + Z.to_nat num_to_move) (v a))).

(** The elements in use. *)
Definition elems (a : array) : list Z := take (Z.to_nat (num a)) (v a).

Definition wf (a : array) : Prop :=
  0 <= num a <= max a /\ max a < 2 ^ 32 /\ Z.of_nat (length (v a)) = max a.

Lemma grow_mono fuel n m r : grow fuel n m = Some r -> n <= r.
Proof.
  revert m. induction fuel as [|fuel IH]; intros m; cbn [grow];
    destruct (Z.ltb_spec m n); try done; try (intros [= <-]; lia). apply IH.
Qed.

Lemma grow_step fuel n m :
  grow (S fuel) n m = if m <? n then grow fuel n (if m =? 0 then 4 else u32 (m * 2)) else Some m.
Proof. done. Qed.

(** Up to 2^31 elements the loop ends within 32 rounds. *)
Lemma grow_double k fuel n m :
  2 ^ (31 - Z.of_nat k) <= m < 2 ^ 32 -> n <= 2 ^ 31 -> (k <= 31)%nat -> (k <= fuel)%nat ->
  exists r, grow fuel n m = Some r /\ n <= r < 2 ^ 32 /\ (r = m \/ r < 2 * n).
Proof.
  revert fuel m. induction k as [|k IH]; intros fuel m Hm Hn Hk Hf.
  - change (2 ^ (31 - Z.of_nat 0)) with (2 ^ 31) in Hm.
    destruct fuel; cbn [grow]; rewrite (proj2 (Z.ltb_ge _ _)) by lia; exists m; split_and!; auto; lia.
  - destruct fuel as [|fuel]; [lia|]. cbn [grow].
    destruct (Z.ltb_spec m n) as [Hlt|Hge]; [|exists m; split_and!; auto; lia].
    assert (0 < 2 ^ (31 - Z.of_nat (S k))) by (apply Z.pow_pos_nonneg; lia).
    rewrite (proj2 (Z.eqb_neq _ _)), u32_id by lia.
    destruct (IH fuel (m * 2)) as (r & Hr & Hb & Hc); [|lia|lia|lia|].
    { replace (31 - Z.of_nat k) with (Z.succ (31 - Z.of_nat (S k))) by lia.
      rewrite Z.pow_succ_r by lia. lia. }
    exists r. split_and!; [done|lia|lia|right; lia].
Qed.

Lemma grow_terminates n m :
  0 <= m < 2 ^ 32 -> m = 0 \/ 4 <= m -> 0 <= n <= 2 ^ 31 ->
  exists r, grow 33 n m = Some r /\ n <= r < 2 ^ 32 /\ (r = m \/ r = 4 \/ r < 2 * n).
Proof.
  intros Hm H0 Hn. destruct H0 as [->|H4].
  - rewrite grow_step. destruct (Z.ltb_spec 0 n); [|exists 0; split_and!; auto; lia].
    destruct (grow_double 29 32 n 4) as (r & Hr & Hb & Hc); [done|lia|lia|lia|].
    exists r. simpl (0 =? 0). cbv iota. split_and!; [done|lia|lia|tauto].
  - destruct (grow_double 29 33 n m) as (r & Hr & Hb & Hc); [change (2 ^ (31 - Z.of_nat 29)) with 4; lia|lia|lia|lia|].
    exists r. split_and!; [done|lia|lia|tauto].
Qed.

(** array_grow_diverges. [array_preallocate] of an empty array for more than
    2^31 elements never ends: the doubled size wraps to 0 and starts again. *)
Theorem array_grow_diverges fuel n k :
  2 ^ 31 < n < 2 ^ 32 -> 2 <= k <= 31 -> grow fuel n 0 = None /\ grow fuel n (2 ^ k) = None.
Proof.
  intros Hn. revert k. induction fuel as [|fuel IH]; intros k Hk.
  - assert (2 ^ k <= 2 ^ 31) by (apply Z.pow_le_mono_r; lia). cbn [grow].
    by rewrite !(proj2 (Z.ltb_lt _ _)) by lia.
  - assert (2 ^ k <= 2 ^ 31) by (apply Z.pow_le_mono_r; lia).
    assert (0 < 2 ^ k) by (apply Z.pow_pos_nonneg; lia). cbn [grow].
    rewrite !(proj2 (Z.ltb_lt _ _)), (proj2 (Z.eqb_neq (2 ^ k) 0)) by lia. simpl (0 =? 0). cbv iota.
    split; [apply (IH 2); lia|]. destruct (decide (k = 31)) as [->|Hne].
    + change (u32 (2 ^ 31 * 2)) with 0. apply (IH 2). lia.
    + rewrite u32_id, Z.mul_comm, <- Z.pow_succ_r; [|lia|].
      * apply IH. lia.
      * assert (2 ^ k <= 2 ^ 30) by (apply Z.pow_le_mono_r; lia). lia.
Qed.

(** array_setsize_spec. [array_setsize] to at most 2^29 elements returns: with
    [ENOMEM] and the array unchanged, or with 0, the new size, and all elements
    in use before that fit still in place. *)
Theorem array_setsize_spec a n mem :
  wf a -> max a = 0 \/ 4 <= max a -> 0 <= n <= 2 ^ 29 ->
  (forall b m, mem b = Some m -> Z.of_nat (length m) = b / 4) ->
  array_setsize mem n a = Ret (ENOMEM, a) \/
  exists a', array_setsize mem n a = Ret (0, a') /\ wf a' /\ num a' = n /\
    take (Z.to_nat (Z.min n (num a))) (elems a') = take (Z.to_nat (Z.min n (num a))) (elems a).
Proof.
  intros (Hnum & Hmax & Hlen) H0 Hn Hmem. unfold array_setsize, array_preallocate.
  destruct (Z.ltb_spec (max a) n) as [Hlt|Hge].
  - destruct (grow_terminates n (max a)) as (r & -> & Hr & Hr2); [lia|done|lia|].
    rewrite u32_id by lia. destruct (mem (r * 4)) as [m|] eqn:Hm; [right|by left].
    specialize (Hmem _ _ Hm). rewrite Z.div_mul in Hmem by done.
    rewrite (proj2 (Z.ltb_ge _ _)) by lia. eexists. split; [reflexivity|].
    assert (length (take (Z.to_nat (num a)) (v a)) = Z.to_nat (num a)) as Ht
      by (rewrite length_take; lia).
    split; [|split; [done|]].
    + split_and!; simpl; [lia..|]. rewrite length_app, Ht, length_drop. lia.
    + unfold elems. simpl. rewrite !take_take, Z.min_r by lia.
      rewrite !Nat.min_l by lia. rewrite take_app_le by lia. by rewrite take_take, Nat.min_l by lia.
  - right. eexists. split; [reflexivity|]. split; [|split; [done|]].
    + split_and!; simpl; lia.
    + unfold elems. simpl. rewrite !take_take. f_equal. lia.
Qed.

(** array_remove_spec. [array_remove] deletes the element at an index in use
    and keeps the order of the others; for any other index it panics. *)
Theorem array_remove_spec a i :
  wf a -> 0 <= i ->
  (i < num a -> exists a', array_remove i a = Ret a' /\ wf a' /\
     elems a' = delete (Z.to_nat i) (elems a)) /\
  (num a <= i -> array_remove i a = Panic "index < a->num").
Proof.
  intros (Hnum & Hmax & Hlen) Hi. unfold array_remove. rewrite (proj2 (Z.leb_le _ _)) by lia. cbn [negb].
  split; intros Hlt.
  - rewrite (proj2 (Z.ltb_lt _ _)) by done. cbn [negb]. eexists. split; [reflexivity|].
    assert (length (take (Z.to_nat i) (v a)) = Z.to_nat i) as H1 by (rewrite length_take; lia).
    assert (length (take (Z.to_nat (num a - (i + 1))) (drop (S (Z.to_nat i)) (v a))) =
            Z.to_nat (num a - (i + 1))) as H2 by (rewrite length_take, length_drop; lia).
    split.
    + split_and!; simpl; [lia..|]. rewrite !length_app, H1, H2, length_drop. lia.
    + unfold elems. simpl. rewrite app_assoc, take_app_le by (rewrite length_app; lia).
      rewrite take_ge by (rewrite length_app; lia). rewrite delete_take_drop.
      rewrite take_take, Nat.min_l by lia. f_equal.
      rewrite skipn_firstn_comm. f_equal. lia.
  - by rewrite (proj2 (Z.ltb_ge _ _)) by done.
Qed.

Definition sample_array : array := MkArray 3 4 [10; 20; 30; 0].

Lemma sample_array_wf : wf sample_array.
Proof. by vm_compute. Qed.

Lemma array_grow_diverges_witness : grow 100 (2 ^ 31 + 1) 0 = None.
Proof. apply (array_grow_diverges 100 (2 ^ 31 + 1) 2); lia. Defined.

Lemma array_setsize_spec_witness :
  array_setsize (fun _ => None) 9 sample_array = Ret (ENOMEM, sample_array) \/
  exists a', array_setsize (fun _ => None) 9 sample_array = Ret (0, a') /\ num a' = 9.
Proof.
  destruct (array_setsize_spec sample_array 9 (fun _ => None) sample_array_wf) as [H|(a' & H & _ & Hn & _)];
    [by right|lia|done|left; exact H|right; exists a'; split; [exact H|exact Hn]].
Defined.

Lemma array_remove_spec_witness :
  exists a', array_remove 1 sample_array = Ret a' /\ elems a' = [10; 30].
Proof.
  destruct (proj1 (array_remove_spec sample_array 1 sample_array_wf ltac:(lia)) ltac:(by vm_compute))
    as (a' & Hrun & _ & He). exists a'. split; [exact Hrun|exact He].
Defined.

End Array.

(** ** Byte order *)
Module Bswap.

Definition bswap16 (val : Z) : Z :=
  u16 (Z.lor (Z.shiftl (Z.land val 0x00ff) 8) (Z.shiftr (Z.land val 0xff00) 8)).

Definition bswap32 (val : Z) : Z :=
  Z.lor (Z.lor (Z.lor
    (u32 (Z.shiftl (Z.land val 0x000000ff) 24))
    (u32 (Z.shiftl (Z.land val 0x0000ff00) 8)))
    (Z.shiftr (Z.land val 0x00ff0000) 8))
    (Z.shiftr (Z.land val 0xff000000) 24).

Definition bswap64 (val : Z) : Z :=
  Z.lor (Z.lor (Z.lor (Z.lor (Z.lor (Z.lor (Z.lor
    (u64 (Z.shiftl (Z.land val 0x00000000000000ff) 56))
    (u64 (Z.shiftl (Z.land val 0x000000000000ff00) 40)))
    (u64 (Z.shiftl (Z.land val 0x0000000000ff0000) 24)))
    (u64 (Z.shiftl (Z.land val 0x00000000ff000000) 8)))
    (u64 (Z.shiftl (Z.land val 0x000000ff00000000) 8)))
    (u64 (Z.shiftl (Z.land val 0x0000ff0000000000) 24)))
    (Z.shiftr (Z.land val 0x00ff000000000000) 40))
    (Z.shiftr (Z.land val 0xff00000000000000) 56).

(** The machine is big-endian. *)
Definition ntohs (val : Z) : Z := val.
Definition htons (val : Z) : Z := val.
Definition ntohl (val : Z) : Z := val.
Definition htonl (val : Z) : Z := val.
Definition ntohll (val : Z) : Z := val.
Definition htonll (val : Z) : Z := val.

Definition join32to64 (x1 x2 : Z) : Z := Z.lor (u64 (Z.shiftl x1 32)) x2.

Definition split64to32 (x : Z) : Z * Z := (u32 (Z.shiftr x 32), Z.land x 0xffffffff).

(** Bit [i] of a byte-swapped value of [n] bytes is bit [swap_index n i] of the
    value: the same bit of the mirrored byte. *)
Definition swap_index (n i : Z) : Z := 8 * (n - 1 - i / 8) + i mod 8.

Lemma u_bits n x i : 0 <= n -> 0 <= i -> Z.testbit (x mod 2 ^ n) i = (i <? n) && Z.testbit x i.
Proof.
  intros Hn Hi. destruct (Z.ltb_spec i n).
  - by rewrite Z.mod_pow2_bits_low by lia.
  - by rewrite Z.mod_pow2_bits_high by lia.
Qed.

Lemma mask_bits m k w i : 0 <= k -> 0 <= w -> 0 <= i -> m = Z.shiftl (Z.ones w) k ->
  Z.testbit m i = (k <=? i) && (i <? k + w).
Proof.
  intros Hk Hw Hi ->. rewrite Z.shiftl_spec by done.
  destruct (Z.leb_spec k i); [|by rewrite Z.testbit_neg_r by lia].
  destruct (Z.ltb_spec i (k + w)); [by rewrite Z.ones_spec_low by lia|by rewrite Z.ones_spec_high by lia].
Qed.

(** Bits of the parts [(val & mask) << s] and [(val & mask) >> s]. *)
Lemma left_part val m k s i : 0 <= k -> 0 <= s -> 0 <= i -> m = Z.shiftl (Z.ones 8) k ->
  Z.testbit (Z.shiftl (Z.land val m) s) i =
    Z.testbit val (i - s) && ((k + s <=? i) && (i <? k + s + 8)).
Proof.
  intros Hk Hs Hi Hm. rewrite Z.shiftl_spec by done.
  destruct (Z.leb_spec s i).
  - rewrite Z.land_spec, (mask_bits m k 8) by (done || lia). f_equal.
    f_equal; apply Bool.eq_iff_eq_true; rewrite ?Z.leb_le, ?Z.ltb_lt; lia.
  - rewrite !Z.testbit_neg_r by lia. done.
Qed.

Lemma right_part val m k s i : 0 <= s <= k -> 0 <= i -> m = Z.shiftl (Z.ones 8) k ->
  Z.testbit (Z.shiftr (Z.land val m) s) i =
    Z.testbit val (i + s) && ((k - s <=? i) && (i <? k - s + 8)).
Proof.
  intros Hk Hi Hm. rewrite Z.shiftr_spec, Z.land_spec, (mask_bits m k 8) by (done || lia). f_equal.
  f_equal; apply Bool.eq_iff_eq_true; rewrite ?Z.leb_le, ?Z.ltb_lt; lia.
Qed.

(** Decide the range tests at a bit of a known byte. *)
Ltac ranges := repeat (first
  [ rewrite (proj2 (Z.leb_le _ _)) by lia | rewrite (proj2 (Z.ltb_lt _ _)) by lia
  | rewrite (proj2 (Z.leb_gt _ _)) by lia | rewrite (proj2 (Z.ltb_ge _ _)) by lia ]);
  cbn [andb orb]; rewrite ?andb_false_r, ?andb_true_r, ?orb_false_r; cbn [andb orb].

Lemma bswap32_bit val i :
  0 <= val < 2 ^ 32 -> 0 <= i < 32 -> Z.testbit (bswap32 val) i = Z.testbit val (swap_index 4 i).
Proof.
  intros Hv Hi. unfold bswap32, u32. rewrite !Z.lor_spec, !u_bits by lia.
  rewrite (left_part _ _ 0), (left_part _ _ 8), (right_part _ _ 16), (right_part _ _ 24) by (done || lia).
  unfold swap_index.
  assert (i / 8 = 0 \/ i / 8 = 1 \/ i / 8 = 2 \/ i / 8 = 3) as [H|[H|[H|H]]] by lia;
    ranges; f_equal; lia.
Qed.

Lemma bswap32_range val : 0 <= val < 2 ^ 32 -> 0 <= bswap32 val < 2 ^ 32.
Proof.
  intros Hv. apply bits_range; [done| |].
  - unfold bswap32. rewrite !Z.lor_nonneg. pose proof (u32_range (Z.shiftl (Z.land val 0x000000ff) 24)).
    pose proof (u32_range (Z.shiftl (Z.land val 0x0000ff00) 8)).
    rewrite !Z.shiftr_nonneg, !Z.land_nonneg. lia.
  - intros i Hi. unfold bswap32, u32. rewrite !Z.lor_spec, !u_bits by lia.
    rewrite (right_part _ _ 16), (right_part _ _ 24) by (done || lia). ranges. done.
Qed.

(** bswap32_spec. [bswap32] reverses the four bytes of its argument, stays in
    32 bits, and undoes itself. *)
Theorem bswap32_spec val :
  0 <= val < 2 ^ 32 ->
  0 <= bswap32 val < 2 ^ 32 /\
  (forall i, 0 <= i < 32 -> Z.testbit (bswap32 val) i = Z.testbit val (swap_index 4 i)) /\
  bswap32 (bswap32 val) = val.
Proof.
  intros Hv. pose proof (bswap32_range val Hv) as Hr. split_and!; [lia|lia|intros; by apply bswap32_bit|].
  apply Z.bits_inj'. intros i Hi. destruct (decide (i < 32)).
  - rewrite !bswap32_bit by (done || unfold swap_index; lia). f_equal. unfold swap_index. lia.
  - rewrite !(testbit_high _ 32) by (done || lia || by apply bswap32_range). done.
Qed.

(** bswap64_loses_bytes. [bswap64] does not reverse bytes: the parts for bytes
    4 and 5 are shifted left instead of right, so bytes 2 and 3 of the result
    are zero whatever the argument is. *)
Theorem bswap64_loses_bytes val i :
  0 <= val < 2 ^ 64 -> 16 <= i < 32 -> Z.testbit (bswap64 val) i = false.
Proof.
  intros Hv Hi. unfold bswap64, u64. rewrite !Z.lor_spec, !u_bits by lia.
  rewrite (left_part _ _ 0), (left_part _ _ 8), (left_part _ _ 16), (left_part _ _ 24),
    (left_part _ _ 32), (left_part _ _ 40), (right_part _ _ 48), (right_part _ _ 56) by (done || lia).
  ranges. done.
Qed.

(** split_join. [split64to32] and [join32to64] are inverse to each other. *)
Theorem split_join x x1 x2 :
  0 <= x < 2 ^ 64 -> 0 <= x1 < 2 ^ 32 -> 0 <= x2 < 2 ^ 32 ->
  join32to64 (split64to32 x).1 (split64to32 x).2 = x /\ split64to32 (join32to64 x1 x2) = (x1, x2).
Proof.
  intros Hx H1 H2. unfold join32to64, split64to32, u64, u32. cbn [fst snd].
  change 0xffffffff with (Z.ones 32). rewrite !Z.land_ones by lia.
  split; [|f_equal]; apply Z.bits_inj'; intros i Hi.
  - rewrite Z.lor_spec, !u_bits, Z.shiftl_spec by lia. destruct (Z.leb_spec 32 i).
    + rewrite u_bits, Z.shiftr_spec by lia.
      replace (i - 32 + 32) with i by lia. destruct (decide (i < 64)); ranges; [done|].
      by rewrite (testbit_high _ 64) by lia.
    + rewrite (Z.testbit_neg_r _ (i - 32)) by lia. by ranges.
  - rewrite u_bits, Z.shiftr_spec, Z.lor_spec, u_bits, Z.shiftl_spec by lia.
    replace (i + 32 - 32) with i by lia. rewrite (testbit_high x2 32) by lia.
    destruct (decide (i < 32)); ranges; [done|]. by rewrite (testbit_high _ 32) by lia.
  - rewrite u_bits, Z.lor_spec, u_bits, Z.shiftl_spec by lia.
    destruct (decide (i < 32)); [rewrite (Z.testbit_neg_r _ (i - 32)) by lia; by ranges|].
    ranges. by rewrite (testbit_high _ 32) by lia.
Qed.

Lemma bswap32_spec_witness : 0 <= bswap32 0x12345678 < 2 ^ 32 /\ bswap32 (bswap32 0x12345678) = 0x12345678.
Proof. destruct (bswap32_spec 0x12345678 ltac:(lia)) as (H1 & _ & H3). split; [exact H1|exact H3]. Defined.

Lemma bswap64_loses_bytes_witness : Z.testbit (bswap64 0x0102030405060708) 16 = false.
Proof. apply (bswap64_loses_bytes 0x0102030405060708 16); lia. Defined.

Lemma split_join_witness :
  join32to64 (split64to32 0x0102030405060708).1 (split64to32 0x0102030405060708).2 = 0x0102030405060708 /\
  split64to32 (join32to64 7 8) = (7, 8).
Proof. apply (split_join 0x0102030405060708 7 8); lia. Defined.

End Bswap.

(** ** Time *)
Module Timespec.

(** [time_t] has 64 bits, [tv_nsec] 32. *)
Record timespec := MkTimespec { tv_sec : Z; tv_nsec : Z }.

Definition s64 (x : Z) : Z := let y := x mod 2 ^ 64 in if y <? 2 ^ 63 then y else y - 2 ^ 64.

Definition timespec_add (ts1 ts2 : timespec) : timespec :=
  let nsec := s32 (tv_nsec ts1 + tv_nsec ts2) in
  let sec := s64 (tv_sec ts1 + tv_sec ts2) in
  if 1000000000 <=? nsec then MkTimespec (s64 (sec + 1)) (s32 (nsec - 1000000000))
  else MkTimespec sec nsec.

Definition timespec_sub (ts1 ts2 : timespec) : timespec :=
  let r := if tv_nsec ts1 <? tv_nsec ts2
           then MkTimespec (s64 (tv_sec ts1 - 1)) (s32 (tv_nsec ts1 + 1000000000))
           else ts1 in
  MkTimespec (s64 (tv_sec r - tv_sec ts2)) (s32 (tv_nsec r - tv_nsec ts2)).

(** Nanoseconds since the epoch; a normal time has less than a second of them
    in [tv_nsec]. *)
Definition nanos (t : timespec) : Z := tv_sec t * 1000000000 + tv_nsec t.
Definition normal (t : timespec) : Prop :=
  0 <= tv_nsec t < 1000000000 /\ - 2 ^ 61 <= tv_sec t < 2 ^ 61.

Lemma s64_id x : - 2 ^ 63 <= x < 2 ^ 63 -> s64 x = x.
Proof.
  intros Hx. unfold s64. destruct (decide (0 <= x)).
  - rewrite Z.mod_small, (proj2 (Z.ltb_lt _ _)) by lia. done.
  - rewrite <- (Z_mod_plus_full x 1), Z.mod_small, (proj2 (Z.ltb_ge _ _)) by lia. lia.
Qed.

(** timespec_arith. On normal times [timespec_add] and [timespec_sub] are
    addition and subtraction of nanoseconds, with a normal result, and
    subtracting what was added gives the first time back. *)
Theorem timespec_arith t1 t2 :
  normal t1 -> normal t2 ->
  nanos (timespec_add t1 t2) = nanos t1 + nanos t2 /\
  0 <= tv_nsec (timespec_add t1 t2) < 1000000000 /\
  nanos (timespec_sub t1 t2) = nanos t1 - nanos t2 /\
  0 <= tv_nsec (timespec_sub t1 t2) < 1000000000 /\
  timespec_sub (timespec_add t1 t2) t2 = t1.
Proof.
  destruct t1 as [s1 n1], t2 as [s2 n2]. unfold normal, nanos, timespec_add, timespec_sub; simpl.
  intros [Hn1 Hs1] [Hn2 Hs2]. rewrite (s32_id (n1 + n2)), (s64_id (s1 + s2)) by lia.
  destruct (Z.leb_spec 1000000000 (n1 + n2)); destruct (Z.ltb_spec n1 n2); simpl;
    rewrite ?(s32_id (n1 + n2 - 1000000000)), ?(s64_id (s1 + s2 + 1)), ?(s64_id (s1 - 1)),
      ?(s32_id (n1 + 1000000000)) by lia.
  all: repeat (match goal with |- context [?a <? ?b] => destruct (Z.ltb_spec a b) end; simpl; try lia).
  all: rewrite ?(s64_id (s1 - 1 - s2)), ?(s64_id (s1 - s2)), ?(s32_id (n1 - n2)),
    ?(s32_id (n1 + 1000000000 - n2)), ?(s64_id (s1 + s2 + 1 - 1)), ?(s64_id (s1 + s2 - s2)),
    ?(s32_id (n1 + n2 - n2)), ?(s32_id (n1 + n2 - 1000000000 + 1000000000)) by lia;
    split_and!; try lia; f_equal; rewrite ?s64_id, ?s32_id by lia; lia.
Qed.

Lemma timespec_arith_witness :
  timespec_sub (timespec_add (MkTimespec 5 900000000) (MkTimespec 1 200000000)) (MkTimespec 1 200000000) =
    MkTimespec 5 900000000.
Proof.
  apply (timespec_arith (MkTimespec 5 900000000) (MkTimespec 1 200000000)); unfold normal; simpl; lia.
Defined.

End Timespec.

(** ** The bitmap of free frames *)
Module FreeBitmap.

Inductive state_t := FREE | BUSY.

#[export] Instance state_t_eq_dec : EqDecision state_t.
Proof. solve_decision. Defined.

(** [bits] is None before [bitmap_init]. *)
Record fb := MkFb { y : sync; bits : option (list state_t) }.

Definition lock : M fb unit :=
  zoom y (fun x s => MkFb x (bits s)) (Spinlock.spinlock_acquire bitmap_lock).
Definition unlock : M fb unit :=
  zoom y (fun x s => MkFb x (bits s)) (Spinlock.spinlock_release bitmap_lock).
Definition next_bit : M fb (list state_t) := s ← get; valid (bits s) "free_pmem_bitmap".
Definition put_bits (l : list state_t) : M fb unit := modify (fun s => MkFb (y s) (Some l)).

(** The results of the two [kmalloc] calls are not tested: they have to succeed. *)
Definition bitmap_init (ok : bool) (length : Z) : M fb unit :=
  (if ok then mret tt else undef "free_pmem_bitmap->next_bit");;
  put_bits (replicate (Z.to_nat length) BUSY);;
  zoom y (fun x s => MkFb x (bits s)) (Spinlock.spinlock_init bitmap_lock);;
  lock;;
  put_bits (replicate (Z.to_nat length) FREE);;
  unlock.

Definition bitmap_set_free (i : Z) : M fb unit :=
  lock;;
  l ← next_bit;
  _ ← valid (arr_get l i) "next_bit[i]";
  put_bits (arr_set l i FREE);;
  unlock.

Definition bitmap_set_busy (i : Z) : M fb unit :=
  lock;;
  l ← next_bit;
  _ ← valid (arr_get l i) "next_bit[i]";
  put_bits (arr_set l i BUSY);;
  unlock.

(** The loop does not stop at the first match: the variable keeps the last. *)
Fixpoint last_free (l : list state_t) (i : Z) (r : option Z) : option Z :=
  match l with
  | [] => r
  | b :: l' => last_free l' (i + 1) (if decide (b = FREE) then Some i else r)
  end.

(** The result and the value stored through [first_free]. *)
Definition bitmap_find_first_free : M fb (Z * option Z) :=
  lock;;
  l ← next_bit;
  let r := last_free l 0 None in
  unlock;;
  mret (match r with Some i => (0, Some i) | None => (-1, None) end).

Lemma last_free_spec l i r :
  match last_free l i r with
  | Some k => (r = Some k /\ FREE ∉ l) \/
      (i <= k /\ l !! Z.to_nat (k - i) = Some FREE /\
       forall j, k - i < Z.of_nat j -> l !! j <> Some FREE)
  | None => r = None /\ FREE ∉ l
  end.
Proof.
  revert i r. induction l as [|b l IH]; intros i r; cbn [last_free].
  { destruct r; [left|]; (split; [done|apply not_elem_of_nil]). }
  specialize (IH (i + 1) (if decide (b = FREE) then Some i else r)).
  destruct (last_free l (i + 1) _) as [k|].
  - destruct IH as [[Hr Hno]|(Hle & Hk & Hlast)].
    + case_decide as Hb; [|left; split; [done|rewrite not_elem_of_cons; auto]].
      right. simplify_eq. rewrite Z.sub_diag. split_and!; [lia|done|].
      intros [|j] Hj; [simpl in Hj; lia|]. simpl. intros Hl. apply Hno. by eapply list_elem_of_lookup_2.
    + right. replace (Z.to_nat (k - i)) with (S (Z.to_nat (k - (i + 1)))) by lia.
      split_and!; [lia|done|]. intros [|j] Hj; [lia|]. simpl. apply Hlast. lia.
  - destruct IH as [Hr Hno]. case_decide; [done|]. split; [done|]. rewrite not_elem_of_cons; auto.
Qed.

(** find_first_free_is_last. Despite its name, [bitmap_find_first_free] returns
    the last free index (and -1 exactly when none is free). *)
Theorem find_first_free_is_last s l :
  cpu_ok (y_cpu (y s)) -> lock_free bitmap_lock (y s) -> bits s = Some l ->
  (bitmap_find_first_free s = Ret ((-1, None), s) /\ FREE ∉ l) \/
  exists k, bitmap_find_first_free s = Ret ((0, Some k), s) /\ 0 <= k /\
    l !! Z.to_nat k = Some FREE /\ forall j, k < Z.of_nat j -> l !! j <> Some FREE.
Proof.
  intros Hq Hf Hl. unfold bitmap_find_first_free, lock, unlock, next_bit.
  rewrite (bind_run _ _ _ _ _ (zoom_Ret _ _ _ s _ _ (acquire_run _ _ Hq Hf))). mrun. simpl bits. rewrite Hl.
  rewrite (bind_valid _ _ _ _ l) by done.
  rewrite (bind_run _ _ _ _ _ (zoom_Ret y _ _ (MkFb (held bitmap_lock (y s)) (Some l)) _ _
    (release_run _ _ Hq Hf))). simpl bits. rewrite <- Hl.
  pose proof (last_free_spec l 0 None) as Hs. destruct (last_free l 0 None) as [k|].
  - destruct Hs as [[? _]|(H0 & Hk & Hlast)]; [done|]. right. exists k. rewrite Z.sub_0_r in *.
    split_and!; [by destruct s|done..].
  - left. split; [by destruct s|apply Hs].
Qed.

Definition sample_fb : fb :=
  MkFb (MkSync (Cpu true 0 0 IPL_NONE 0 false true) {[ bitmap_lock := SPINLOCK_INITIALIZER ]})
    (Some [FREE; BUSY; FREE; BUSY]).

Lemma find_first_free_is_last_witness :
  exists k, bitmap_find_first_free sample_fb = Ret ((0, Some k), sample_fb) /\ k = 2.
Proof.
  destruct (find_first_free_is_last sample_fb [FREE; BUSY; FREE; BUSY]) as [[H _]|(k & H & _)];
    [by vm_compute..|exfalso; by vm_compute in H|].
  exists k. split; [exact H|]. vm_compute in H. congruence.
Defined.

End FreeBitmap.
