(* ===== verification/CString.v ===== *)
(** * The C library routines of the kernel: [common/libc/string] and [atoi]

    [Module Mem] has [bzero], [memcpy], [memmove] and [memset] on memory, a
    function from addresses to bytes; a [long] is four bytes.  [Module Str] has
    the string routines: a [char *] is the list of bytes from the pointer to the
    end of the object it points into, and running off the end is undefined.
    The theorems say that the word-at-a-time copies do the same as a byte copy,
    also for overlapping blocks, and that the string routines agree with their
    definitions on lists. *)

From S2P Require Import Prelude.

Module Mem.

Abbreviation mem := (Z -> Z).

Definition put (m : mem) (a b : Z) : mem := fun x => if x =? a then b else m x.

(** [*(long * )d = *(const long * )s]: all four bytes are read first. *)
Definition copy_long (m : mem) (d s : Z) : mem :=
  fun x => if (d <=? x) && (x <? d + 4) then m (s + (x - d)) else m x.

(** [for (i = ...; i < ...; i++)], [n] rounds left. *)
Fixpoint bytes_up (m : mem) (d s i : Z) (n : nat) : mem :=
  match n with
  | O => m
  | S n' => bytes_up (put m (d + i) (m (s + i))) d s (i + 1) n'
  end.

Fixpoint longs_up (m : mem) (d s i : Z) (n : nat) : mem :=
  match n with
  | O => m
  | S n' => longs_up (copy_long m (d + 4 * i) (s + 4 * i)) d s (i + 1) n'
  end.

(** [for (i = n; i > 0; i--)] *)
Fixpoint bytes_down (m : mem) (d s : Z) (i : nat) : mem :=
  match i with
  | O => m
  | S i' => bytes_down (put m (d + Z.of_nat i') (m (s + Z.of_nat i'))) d s i'
  end.

Fixpoint longs_down (m : mem) (d s : Z) (i : nat) : mem :=
  match i with
  | O => m
  | S i' => longs_down (copy_long m (d + 4 * Z.of_nat i') (s + 4 * Z.of_nat i')) d s i'
  end.

Fixpoint zeros_up (m : mem) (d i : Z) (n : nat) : mem :=
  match n with
  | O => m
  | S n' => zeros_up (put m (d + i) 0) d (i + 1) n'
  end.

(** [lb[i] = 0] *)
Definition zero_long (m : mem) (d : Z) : mem := fun x => if (d <=? x) && (x <? d + 4) then 0 else m x.

Fixpoint zero_longs_up (m : mem) (d i : Z) (n : nat) : mem :=
  match n with
  | O => m
  | S n' => zero_longs_up (zero_long m (d + 4 * i)) d (i + 1) n'
  end.

Definition bzero (m : mem) (block len : Z) : mem :=
  if (block mod 4 =? 0) && (len mod 4 =? 0) then zero_longs_up m block 0 (Z.to_nat (len / 4))
  else zeros_up m block 0 (Z.to_nat len).

Definition memcpy (m : mem) (dst src len : Z) : mem :=
  if (dst mod 4 =? 0) && (src mod 4 =? 0) && (len mod 4 =? 0)
  then longs_up m dst src 0 (Z.to_nat (len / 4))
  else bytes_up m dst src 0 (Z.to_nat len).

Definition memmove (m : mem) (dst src len : Z) : mem :=
  if dst <? src then memcpy m dst src len
  else if (dst mod 4 =? 0) && (src mod 4 =? 0) && (len mod 4 =? 0)
  then longs_down m dst src (Z.to_nat (len / 4))
  else bytes_down m dst src (Z.to_nat len).

Fixpoint memset_loop (m : mem) (p ch i : Z) (n : nat) : mem :=
  match n with
  | O => m
  | S n' => memset_loop (put m (p + i) (u8 ch)) p ch (i + 1) n'
  end.

Definition memset (m : mem) (ptr ch len : Z) : mem := memset_loop m ptr ch 0 (Z.to_nat len).

(** ** The reference: all bytes at once *)

Definition block_copy (m : mem) (d s n : Z) : mem :=
  fun x => if (d <=? x) && (x <? d + n) then m (s + (x - d)) else m x.

Definition block_set (m : mem) (d n b : Z) : mem := fun x => if (d <=? x) && (x <? d + n) then b else m x.

(** Case analysis on the comparisons of a memory at one address. *)
Ltac at_address :=
  repeat match goal with
  | |- context [?a <=? ?b] => destruct (Z.leb_spec a b)
  | |- context [?a <? ?b] => destruct (Z.ltb_spec a b)
  | |- context [?a =? ?b] => destruct (Z.eqb_spec a b)
  end; cbn [andb]; try done; try lia; try (f_equal; lia).

Lemma bytes_up_spec n m d s i :
  d <= s \/ s + i + Z.of_nat n <= d + i -> forall x, bytes_up m d s i n x = block_copy m (d + i) (s + i) (Z.of_nat n) x.
Proof.
  revert m i. induction n as [|n IH]; intros m i Hd x; cbn [bytes_up].
  - unfold block_copy. at_address.
  - rewrite IH by lia. unfold block_copy, put. at_address.
Qed.

Lemma longs_up_spec n m d s i :
  d <= s - 4 \/ d = s \/ s + 4 * i + 4 * Z.of_nat n <= d + 4 * i ->
  forall x, longs_up m d s i n x = block_copy m (d + 4 * i) (s + 4 * i) (4 * Z.of_nat n) x.
Proof.
  revert m i. induction n as [|n IH]; intros m i Hd x; cbn [longs_up].
  - unfold block_copy. at_address.
  - rewrite IH by lia. unfold block_copy, copy_long. at_address.
Qed.

Lemma bytes_down_spec n m d s :
  s <= d -> forall x, bytes_down m d s n x = block_copy m d s (Z.of_nat n) x.
Proof.
  revert m. induction n as [|n IH]; intros m Hd x; cbn [bytes_down].
  - unfold block_copy. at_address.
  - rewrite IH by lia. unfold block_copy, put. at_address.
Qed.

Lemma longs_down_spec n m d s :
  s <= d - 4 \/ s = d -> forall x, longs_down m d s n x = block_copy m d s (4 * Z.of_nat n) x.
Proof.
  revert m. induction n as [|n IH]; intros m Hd x; cbn [longs_down].
  - unfold block_copy. at_address.
  - rewrite IH by lia. unfold block_copy, copy_long. at_address.
Qed.

Lemma zeros_up_spec n m d i x : zeros_up m d i n x = block_set m (d + i) (Z.of_nat n) 0 x.
Proof.
  revert m i. induction n as [|n IH]; intros m i; cbn [zeros_up].
  - unfold block_set. at_address.
  - rewrite IH by lia. unfold block_set, put. at_address.
Qed.

Lemma zero_longs_up_spec n m d i x : zero_longs_up m d i n x = block_set m (d + 4 * i) (4 * Z.of_nat n) 0 x.
Proof.
  revert m i. induction n as [|n IH]; intros m i; cbn [zero_longs_up].
  - unfold block_set. at_address.
  - rewrite IH by lia. unfold block_set, zero_long. at_address.
Qed.

Lemma memset_loop_spec n m p ch i x : memset_loop m p ch i n x = block_set m (p + i) (Z.of_nat n) (u8 ch) x.
Proof.
  revert m i. induction n as [|n IH]; intros m i; cbn [memset_loop].
  - unfold block_set. at_address.
  - rewrite IH by lia. unfold block_set, put. at_address.
Qed.

Lemma memcpy_reference m dst src len :
  0 <= len -> dst <= src \/ src + len <= dst -> forall x, memcpy m dst src len x = block_copy m dst src len x.
Proof.
  intros Hl Hd x. unfold memcpy.
  destruct (Z.eqb_spec (dst mod 4) 0), (Z.eqb_spec (src mod 4) 0), (Z.eqb_spec (len mod 4) 0); cbn [andb];
    rewrite ?longs_up_spec, ?bytes_up_spec, ?Z.add_0_r, ?Z2Nat.id by lia; try done.
  by replace (4 * (len / 4)) with len by lia.
Qed.

Lemma memmove_run m dst src len :
  0 <= len -> forall x, memmove m dst src len x = block_copy m dst src len x.
Proof.
  intros Hl x. unfold memmove. destruct (Z.ltb_spec dst src) as [H|H]; [apply memcpy_reference; lia|].
  destruct (Z.eqb_spec (dst mod 4) 0), (Z.eqb_spec (src mod 4) 0), (Z.eqb_spec (len mod 4) 0); cbn [andb];
    rewrite ?longs_down_spec, ?bytes_down_spec, ?Z2Nat.id by lia; try done.
  by replace (4 * (len / 4)) with len by lia.
Qed.

(** C27 memmove_reference. [memmove] of any number of bytes between any two blocks,
    overlapping or not, aligned or not, leaves exactly what copying all bytes at
    once would: the destination holds what the source held before, and nothing
    else changes.  [memcpy] does the same unless the destination starts after the
    start of the source block and inside it. *)
Theorem memmove_reference m dst src len :
  0 <= len ->
  (forall x, memmove m dst src len x = block_copy m dst src len x) /\
  (dst <= src \/ src + len <= dst -> forall x, memcpy m dst src len x = block_copy m dst src len x).
Proof. intros Hl. split; [by apply memmove_run|by apply memcpy_reference]. Qed.

Lemma memmove_reference_witness :
  memmove (fun a => a) 0x1004 0x1000 16 0x1013 = 0x100f /\ memcpy (fun a => a) 0x1000 0x1004 16 0x100f = 0x1013.
Proof.
  destruct (memmove_reference (fun a => a) 0x1004 0x1000 16 ltac:(lia)) as [H1 _].
  destruct (memmove_reference (fun a => a) 0x1000 0x1004 16 ltac:(lia)) as [_ H2].
  split; [rewrite H1; reflexivity|rewrite H2 by lia; reflexivity].
Defined.

(** [bzero] and [memset] with 0 are the same. *)
Lemma bzero_memset m block len x : 0 <= len -> bzero m block len x = memset m block 0 len x.
Proof.
  intros Hl. unfold bzero, memset. rewrite memset_loop_spec. change (u8 0) with 0.
  destruct (Z.eqb_spec (block mod 4) 0), (Z.eqb_spec (len mod 4) 0); cbn [andb];
    rewrite ?zero_longs_up_spec, ?zeros_up_spec, ?Z2Nat.id, ?Z.add_0_r by lia; try done.
  by replace (4 * (len / 4)) with len by lia.
Qed.

End Mem.

Module Str.

Definition is_ch (c : Z) (x : Z) : bool := x =? c.

Fixpoint strlen (str : list Z) : outcome Z :=
  match str with
  | [] => Undef "str[ret]"
  | c :: str' =>
      if c =? 0 then Ret 0
      else match strlen str' with Ret n => Ret (n + 1) | o => o end
  end.

Fixpoint strcmp (a b : list Z) : outcome Z :=
  match a, b with
  | x :: a', y :: b' =>
      if negb (x =? 0) && (x =? y) then strcmp a' b'
      else if y <? x then Ret 1
      else if x =? y then Ret 0
      else Ret (-1)
  | _, _ => Undef "a[i], b[i]"
  end.

(** [dest] is the buffer before, the result the buffer after. *)
Fixpoint strcpy (dest src : list Z) : outcome (list Z) :=
  match src, dest with
  | c :: src', _ :: dest' =>
      if c =? 0 then Ret (0 :: dest')
      else match strcpy dest' src' with Ret r => Ret (c :: r) | o => o end
  | _, _ => Undef "dest[i], src[i]"
  end.

Definition strcat (dest src : list Z) : outcome (list Z) :=
  match strlen dest with
  | Ret offset =>
      match strcpy (drop (Z.to_nat offset) dest) src with
      | Ret r => Ret (take (Z.to_nat offset) dest ++ r)
      | o => o
      end
  | Panic w => Panic w
  | Undef w => Undef w
  | Spin => Spin
  end.

(** The index of the first [ch], [None] for NULL. *)
Fixpoint strchr_from (i : Z) (s : list Z) (ch : Z) : outcome (option Z) :=
  match s with
  | [] => Undef "*s"
  | c :: s' =>
      if c =? 0 then Ret (if c =? ch then Some i else None)
      else if c =? ch then Ret (Some i)
      else strchr_from (i + 1) s' ch
  end.

(** [ch = ch_arg] keeps the low byte. *)
Definition strchr (s : list Z) (ch_arg : Z) : outcome (option Z) := strchr_from 0 s (u8 ch_arg).

Fixpoint strrchr_loop (s : list Z) (ch : Z) (i : nat) : option Z :=
  match i with
  | O => None
  | S i' => if bool_decide (s !! i' = Some ch) then Some (Z.of_nat i') else strrchr_loop s ch i'
  end.

Definition strrchr (s : list Z) (ch_arg : Z) : outcome (option Z) :=
  match strlen s with
  | Ret n => Ret (strrchr_loop s (u8 ch_arg) (Z.to_nat (n + 1)))
  | Panic w => Panic w
  | Undef w => Undef w
  | Spin => Spin
  end.

(** [while (p of *head) head++]: how many bytes are skipped, [stop] telling where
    to end. *)
Fixpoint skip (seps : list Z) (inside : bool) (s : list Z) : outcome Z :=
  match s with
  | [] => Undef "*head"
  | c :: s' =>
      if c =? 0 then Ret 0
      else match strchr seps c with
           | Ret o =>
               if eqb (bool_decide (o = None)) inside then
                 match skip seps inside s' with Ret n => Ret (n + 1) | o => o end
               else Ret 0
           | _ => Undef "strchr"
           end
  end.

(** A pure routine among stateful ones. *)
Definition lift {S A} (o : outcome A) : M S A := fun s =>
  match o with Ret a => Ret (a, s) | Panic w => Panic w | Undef w => Undef w | Spin => Spin end.

(** The state is the buffer and [*context]; pointers are offsets into the
    buffer. *)
Definition strtok_r (string : option Z) (seps : list Z) : M (list Z * option Z) (option Z) :=
  (match string with Some p => modify (fun s => (fst s, Some p)) | None => mret tt end);;
  s ← get;
  match snd s with
  | None => mret None
  | Some head =>
      n ← lift (skip seps false (drop (Z.to_nat head) (fst s)));
      let head := head + n in
      c ← valid (arr_get (fst s) head) "*head";
      if c =? 0 then modify (fun s => (fst s, None));; mret None
      else
        n ← lift (skip seps true (drop (Z.to_nat head) (fst s)));
        let tail := head + n in
        c ← valid (arr_get (fst s) tail) "*tail";
        (if c =? 0 then modify (fun s => (fst s, None))
         else modify (fun s => (arr_set (fst s) tail 0, Some (tail + 1))));;
        mret (Some head)
  end.

(** [while ( *s==' ' || *s=='\t') s++] *)
Fixpoint skip_blanks (s : list Z) : list Z :=
  match s with
  | c :: s' => if (c =? 32) || (c =? 9) then skip_blanks s' else s
  | [] => []
  end.

(** "0123456789" with its terminator. *)
Definition digits : list Z := [48; 49; 50; 51; 52; 53; 54; 55; 56; 57; 0].

Fixpoint atoi_digits (val : Z) (s : list Z) : outcome Z :=
  match s with
  | [] => Undef "*s"
  | c :: s' =>
      if c =? 0 then Ret val
      else match strchr digits c with
           | Ret None => Ret val
           | Ret (Some digit) => atoi_digits (u32 (u32 (val * 10) + digit)) s'
           | _ => Undef "strchr"
           end
  end.

Definition atoi (s : list Z) : outcome Z :=
  match skip_blanks s with
  | [] => Undef "*s"
  | c :: s' =>
      let neg := c =? 45 in
      match atoi_digits 0 (if neg || (c =? 43) then s' else c :: s') with
      | Ret val => Ret (s32 (if neg then u32 (- val) else val))
      | o => o
      end
  end.

(** ** C strings as lists *)

(** The string that starts at the pointer. *)
Fixpoint cstr (s : list Z) : list Z :=
  match s with
  | [] => []
  | c :: s' => if c =? 0 then [] else c :: cstr s'
  end.

(** A terminator is inside the object. *)
Definition terminated (s : list Z) : Prop := 0 ∈ s.

Definition clean (l : list Z) : Prop := Forall (fun c => c <> 0) l.

Lemma cstr_clean s : clean (cstr s).
Proof. induction s as [|c s IH]; simpl; [constructor|]. destruct (Z.eqb_spec c 0); constructor; done. Qed.

Lemma cstr_app l rest : clean l -> cstr (l ++ 0 :: rest) = l.
Proof. induction 1 as [|c l Hc _ IH]; simpl; [done|]. by rewrite (proj2 (Z.eqb_neq _ _) Hc), IH. Qed.

Lemma terminated_cons c s : terminated (c :: s) <-> c = 0 \/ terminated s.
Proof. unfold terminated. rewrite elem_of_cons. split; (intros [?|?]; [by left|by right]). Qed.

Lemma terminated_inv s : terminated s -> exists rest, s = cstr s ++ 0 :: rest.
Proof.
  induction s as [|c s IH]; intros Ht; [by apply elem_of_nil in Ht|]. simpl. destruct (Z.eqb_spec c 0) as [->|Hc]; [by exists s|].
  apply terminated_cons in Ht as [?|Ht]; [done|]. destruct (IH Ht) as [rest Hr]. exists rest. by rewrite Hr at 1.
Qed.

Lemma strlen_spec s : terminated s -> strlen s = Ret (Z.of_nat (length (cstr s))).
Proof.
  induction s as [|c s IH]; intros Ht; [by apply elem_of_nil in Ht|]. simpl. destruct (Z.eqb_spec c 0) as [->|Hc]; [done|].
  apply terminated_cons in Ht as [?|Ht]; [done|]. rewrite (IH Ht). simpl. f_equal. lia.
Qed.

(** Lexicographic order of unsigned bytes. *)
Fixpoint lex (a b : list Z) : Z :=
  match a, b with
  | [], [] => 0
  | [], _ => -1
  | _, [] => 1
  | x :: a', y :: b' => if x =? y then lex a' b' else if y <? x then 1 else -1
  end.

(** strcmp_spec. On two C strings [strcmp] returns -1, 0 or 1 according to the
    lexicographic order of their unsigned bytes, without reading past either
    terminator; 0 exactly when the strings are equal. *)
Theorem strcmp_spec a b :
  terminated a -> terminated b -> Forall (fun c => 0 <= c < 256) a -> Forall (fun c => 0 <= c < 256) b ->
  strcmp a b = Ret (lex (cstr a) (cstr b)) /\ (strcmp a b = Ret 0 <-> cstr a = cstr b).
Proof.
  intros Ha Hb Ra Rb.
  assert (strcmp a b = Ret (lex (cstr a) (cstr b))) as ->.
  { revert b Hb Rb. induction a as [|x a IH]; intros b Hb Rb; [by apply elem_of_nil in Ha|].
    destruct b as [|y b]; [by apply elem_of_nil in Hb|]. apply Forall_cons in Ra as [Rx Ra], Rb as [Ry Rb]. simpl.
    apply terminated_cons in Ha, Hb.
    destruct (Z.eqb_spec x 0) as [->|Hx], (Z.eqb_spec y 0) as [->|Hy]; cbn [negb andb].
    - done.
    - rewrite (proj2 (Z.ltb_ge _ _)), (proj2 (Z.eqb_neq 0 y)) by lia. done.
    - rewrite (proj2 (Z.eqb_neq x 0)), (proj2 (Z.ltb_lt _ _)) by lia. done.
    - destruct (Z.eqb_spec x y) as [->|Hxy].
      + simpl. rewrite Z.eqb_refl. apply IH; tauto.
      + simpl. rewrite (proj2 (Z.eqb_neq x y)) by lia. by destruct (y <? x). }
  split; [done|]. clear. split; [intros [= H]; revert H|by intros ->; f_equal; induction (cstr b) as [|y l IH]; simpl; rewrite ?Z.eqb_refl].
  generalize (cstr a) as l, (cstr b) as r. induction l as [|x l IH]; intros [|y r]; simpl; try done.
  destruct (Z.eqb_spec x y) as [->|]; [intros H; f_equal; auto|]. by destruct (y <? x).
Qed.

Lemma strcmp_spec_witness :
  strcmp [97; 98; 0; 7] [97; 98; 0] = Ret (lex [97; 98] [97; 98]).
Proof.
  apply (proj1 (strcmp_spec [97; 98; 0; 7] [97; 98; 0] ltac:(unfold terminated; set_solver) ltac:(unfold terminated; set_solver)
    ltac:(repeat (apply Forall_cons; split; [lia|]); done) ltac:(repeat (apply Forall_cons; split; [lia|]); done))).
Defined.

Lemma strcpy_spec dest src :
  terminated src -> (length (cstr src) < length dest)%nat ->
  strcpy dest src = Ret (cstr src ++ 0 :: drop (S (length (cstr src))) dest).
Proof.
  revert dest. induction src as [|c src IH]; intros dest Ht Hl; [by apply elem_of_nil in Ht|].
  destruct dest as [|d dest]; [simpl in Hl; lia|]. simpl in *. destruct (Z.eqb_spec c 0) as [->|Hc]; [done|].
  apply terminated_cons in Ht as [?|Ht]; [done|]. simpl in *. rewrite IH by (done || lia). done.
Qed.

(** A copy that does not fit runs off the end of the buffer. *)
Lemma strcpy_overflow dest src :
  terminated src -> (length dest <= length (cstr src))%nat -> exists w, strcpy dest src = Undef w.
Proof.
  revert dest. induction src as [|c src IH]; intros dest Ht Hl; [by apply elem_of_nil in Ht|].
  destruct dest as [|d dest]; [by eexists|]. simpl in *. destruct (Z.eqb_spec c 0) as [->|Hc]; simpl in *; [lia|].
  apply terminated_cons in Ht as [?|Ht]; [done|]. destruct (IH dest Ht ltac:(lia)) as [w ->]. by eexists.
Qed.

Lemma strcat_spec dest src :
  terminated dest -> terminated src -> (length (cstr dest) + length (cstr src) < length dest)%nat ->
  exists r, strcat dest src = Ret r /\ cstr r = cstr dest ++ cstr src /\ terminated r /\ length r = length dest.
Proof.
  intros Hd Hs Hl. unfold strcat. rewrite strlen_spec, Nat2Z.id by done.
  rewrite strcpy_spec by (rewrite ?length_drop; done || lia). eexists. split; [reflexivity|].
  destruct (terminated_inv dest Hd) as [rest Hr].
  assert (take (length (cstr dest)) dest = cstr dest) as Ht by (rewrite Hr at 2; by rewrite take_app_length).
  rewrite Ht. split_and!.
  - rewrite app_assoc. apply cstr_app, Forall_app. split; apply cstr_clean.
  - unfold terminated. rewrite !elem_of_app, elem_of_cons. tauto.
  - rewrite !length_app. simpl. rewrite !length_drop. lia.
Qed.

Lemma strchr_from_spec i s ch :
  terminated s -> 0 <= ch ->
  exists o, strchr_from i s ch = Ret o /\
    match o with
    | Some j => exists k, j = i + Z.of_nat k /\ (cstr s ++ [0]) !! k = Some ch /\ ch ∉ take k (cstr s)
    | None => ch ∉ cstr s ++ [0]
    end.
Proof.
  revert i. induction s as [|c s IH]; intros i Ht Hch; [by apply elem_of_nil in Ht|]. simpl. apply terminated_cons in Ht.
  destruct (Z.eqb_spec c 0) as [->|Hc].
  - destruct (Z.eqb_spec 0 ch) as [<-|Hn]; (eexists; split; [reflexivity|]); simpl.
    + exists 0%nat. split_and!; [lia|done|by intros ?%elem_of_nil].
    + rewrite elem_of_cons. intros [?|?%elem_of_nil]; congruence.
  - destruct Ht as [?|Ht]; [done|]. destruct (Z.eqb_spec c ch) as [->|Hn].
    + eexists. split; [reflexivity|]. exists 0%nat. split_and!; [lia|done|by intros ?%elem_of_nil].
    + destruct (IH (i + 1) Ht Hch) as (o & Hr & Ho). exists o. split; [done|]. destruct o as [j|].
      * destruct Ho as (k & -> & Hk & Hno). exists (S k). split_and!; [lia|done|]. simpl. rewrite elem_of_cons. intros [?|?]; congruence.
      * simpl. rewrite elem_of_cons. intros [?|?]; congruence.
Qed.

(** ** Digits *)

Lemma strchr_digit d : 0 <= d < 10 -> strchr digits (48 + d) = Ret (Some d).
Proof.
  intros Hd. assert (d = 0 \/ d = 1 \/ d = 2 \/ d = 3 \/ d = 4 \/ d = 5 \/ d = 6 \/ d = 7 \/ d = 8 \/ d = 9) as Hcase by lia.
  repeat (destruct Hcase as [->|Hcase]; [reflexivity|]). subst. reflexivity.
Qed.

(** The value of a list of decimal digits after [val]. *)
Definition value (val : Z) (ds : list Z) : Z := foldl (fun v d => 10 * v + d) val ds.

Definition digit (d : Z) : Prop := 0 <= d < 10.

Lemma value_nonneg val ds : 0 <= val -> Forall digit ds -> val <= value val ds.
Proof.
  intros Hv Hd. revert val Hv. induction Hd as [|d ds Hd _ IH]; intros val Hv; simpl; [lia|]. unfold digit in Hd.
  specialize (IH (10 * val + d) ltac:(lia)). unfold value in *. simpl. lia.
Qed.

Lemma atoi_digits_spec val ds rest :
  0 <= val -> Forall digit ds -> value val ds < 2 ^ 32 ->
  atoi_digits val (((fun d => 48 + d) <$> ds) ++ 0 :: rest) = Ret (value val ds).
Proof.
  intros Hv Hd. revert val Hv. induction Hd as [|d ds Hd Hds IH]; intros val Hv Hr; simpl; [done|]. unfold digit in Hd.
  pose proof (value_nonneg (10 * val + d) ds ltac:(lia) Hds) as Hn. unfold value in *. simpl in *.
  rewrite (proj2 (Z.eqb_neq _ _)), (strchr_digit d) by lia. rewrite !(u32_id (val * 10)), u32_id by lia.
  replace (val * 10 + d) with (10 * val + d) by lia. apply IH; [lia|done].
Qed.

(** atoi_spec. [atoi] of the decimal digits of a number, with or without a sign,
    returns that number as long as it fits an [int]; leading blanks are
    skipped and reading stops at the terminator. *)
Theorem atoi_spec blanks (neg : bool) ds rest :
  Forall (fun c => c = 32 \/ c = 9) blanks -> Forall digit ds -> ds <> [] -> value 0 ds < 2 ^ 31 ->
  atoi (blanks ++ (if neg then [45] else []) ++ ((fun d => 48 + d) <$> ds) ++ 0 :: rest) =
  Ret (if neg then - value 0 ds else value 0 ds).
Proof.
  intros Hb Hd Hne Hv. unfold atoi. pose proof (value_nonneg 0 ds ltac:(lia) Hd) as Hn.
  set (body := (if neg then [45] else []) ++ _).
  assert (skip_blanks (blanks ++ body) = body) as ->.
  { assert (skip_blanks body = body) as Hbody.
    { unfold body. destruct neg; [done|]. destruct Hd as [|d ds Hd Hds]; [done|]. unfold digit in Hd. simpl.
      rewrite !(proj2 (Z.eqb_neq _ _)) by lia. done. }
    induction Hb as [|c l Hc _ IH]; simpl; [done|]. by destruct Hc as [-> | ->]. }
  unfold body. destruct neg; cbn [app].
  - change (45 =? 45) with true. cbn [orb]. rewrite atoi_digits_spec by (done || lia). f_equal.
    destruct (decide (value 0 ds = 0)) as [->|]; [done|]. rewrite s32_u32. apply s32_id. lia.
  - destruct ds as [|d ds]; [done|]. pose proof (Forall_inv Hd) as Hd0. unfold digit in Hd0. cbn [fmap list_fmap app].
    rewrite (proj2 (Z.eqb_neq (48 + d) 45)), (proj2 (Z.eqb_neq (48 + d) 43)) by lia. cbn [orb].
    match goal with |- context [atoi_digits 0 ?l] => change l with (((fun d => 48 + d) <$> (d :: ds)) ++ 0 :: rest) end.
    rewrite atoi_digits_spec by (done || lia). f_equal. apply s32_id. lia.
Qed.

Lemma atoi_spec_witness : atoi [32; 9; 45; 52; 50; 0] = Ret (-42).
Proof.
  apply (atoi_spec [32; 9] true [4; 2] []).
  - repeat (apply Forall_cons; split; [tauto|]); done.
  - repeat (apply Forall_cons; split; [unfold digit; lia|]); done.
  - discriminate.
  - reflexivity.
Defined.

(** ** Tokens *)

Fixpoint takewhile (p : Z -> bool) (l : list Z) : list Z :=
  match l with
  | c :: l' => if p c then c :: takewhile p l' else []
  | [] => []
  end.

Definition sep (seps : list Z) (c : Z) : bool := bool_decide (c ∈ cstr seps).

Lemma skip_spec seps inside s :
  terminated seps -> terminated s -> Forall (fun c => 0 <= c < 256) s ->
  skip seps inside s = Ret (Z.of_nat (length (takewhile (fun c => eqb (negb (sep seps c)) inside) (cstr s)))).
Proof.
  intros Hs Ht Hb. induction Hb as [|c s Hc Hb IH]; [by apply elem_of_nil in Ht|]. cbn [skip cstr].
  apply terminated_cons in Ht. destruct (Z.eqb_spec c 0) as [->|Hnz]; [done|]. destruct Ht as [?|Ht]; [done|].
  unfold strchr. rewrite u8_id by lia. destruct (strchr_from_spec 0 seps c Hs ltac:(lia)) as (o & -> & Ho).
  assert (bool_decide (o = None) = negb (sep seps c)) as ->.
  { unfold sep. destruct o as [j|].
    - destruct Ho as (k & _ & Hk & _). rewrite bool_decide_false, bool_decide_true; [done| |done].
      apply list_elem_of_lookup_2, elem_of_app in Hk as [?|[->|?%elem_of_nil]%elem_of_cons]; done.
    - rewrite bool_decide_true, bool_decide_false; [done| |done]. intros Hin. apply Ho, elem_of_app. by left. }
  cbn [takewhile]. destruct (eqb _ _); [|done]. rewrite IH by done. simpl. f_equal. lia.
Qed.

Lemma takewhile_split p l :
  exists rest, l = takewhile p l ++ rest /\ match rest with c :: _ => p c = false | [] => True end.
Proof.
  induction l as [|c l (rest & E & Hr)]; simpl; [by exists []|]. destruct (p c) eqn:Hp.
  - exists rest. split; [|done]. simpl. by rewrite <- E.
  - by exists (c :: l).
Qed.

(** strtok_r_spec. One call of [strtok_r] with the context at [head]: after the
    leading separators it returns the longest word without separators, as a
    terminated string, and leaves the context behind the separator that ended
    it; it returns NULL when only separators are left.  Nothing but that one
    separator is overwritten. *)
Theorem strtok_r_spec buf head seps :
  0 <= head -> terminated seps -> terminated (drop (Z.to_nat head) buf) -> Forall (fun c => 0 <= c < 256) buf ->
  let str := cstr (drop (Z.to_nat head) buf) in
  let blank := takewhile (sep seps) str in
  let word := takewhile (fun c => negb (sep seps c)) (drop (length blank) str) in
  let start := head + Z.of_nat (length blank) in
  (word = [] -> strtok_r None seps (buf, Some head) = Ret (None, (buf, None))) /\
  (word <> [] -> exists buf' ctx, strtok_r None seps (buf, Some head) = Ret (Some start, (buf', ctx)) /\
      cstr (drop (Z.to_nat start) buf') = word /\
      (if bool_decide (length blank + length word = length str)%nat then ctx = None /\ buf' = buf
       else let stop := start + Z.of_nat (length word) in ctx = Some (stop + 1) /\ buf' = arr_set buf stop 0)).
Proof.
  intros Hh Hseps Ht Hb str blank word start. unfold strtok_r. mrun. cbn [fst snd].
  destruct (terminated_inv _ Ht) as [after Hafter]. fold str in Hafter.
  set (s := drop (Z.to_nat head) buf) in *. assert (Forall (fun c => 0 <= c < 256) s) as Hbs by (by apply Forall_drop).
  assert (blank = takewhile (fun c => eqb (negb (sep seps c)) false) str) as Eblank.
  { unfold blank. clear. induction str as [|c l IH]; [done|]. cbn [takewhile]. rewrite IH. by destruct (sep seps c). }
  assert (skip seps false s = Ret (Z.of_nat (length blank))) as Hskip1 by (rewrite skip_spec by done; by rewrite Eblank).
  destruct (takewhile_split (sep seps) str) as (rest & Estr & Hrest). fold blank in Estr.
  assert (drop (length blank) str = rest) as Erest by (rewrite Estr at 1; apply drop_app_length).
  assert (word = takewhile (fun c => negb (sep seps c)) rest) as Eword by (unfold word; by rewrite Erest).
  assert (drop (Z.to_nat start) buf = rest ++ 0 :: after) as Edrop.
  { unfold start. replace (Z.to_nat (head + Z.of_nat (length blank))) with (Z.to_nat head + length blank)%nat by lia.
    rewrite <- drop_drop. fold s. rewrite Hafter, Estr, <- app_assoc. apply drop_app_length. }
  assert (forall k, arr_get buf (start + Z.of_nat k) = (rest ++ 0 :: after) !! k) as Hget.
  { intros k. rewrite <- Edrop, lookup_drop. unfold arr_get. rewrite (proj2 (Z.leb_le _ _)) by (unfold start; lia). f_equal. unfold start; lia. }
  assert (clean rest) as Hcl.
  { pose proof (cstr_clean s) as H. fold str in H. rewrite Estr in H. apply Forall_app in H. apply H. }
  rewrite Hskip1. rewrite (bind_run _ _ _ (Z.of_nat (length blank)) (buf, Some head)) by done. fold start.
  pose proof (Hget 0%nat) as H0. rewrite Z.add_0_r in H0. rewrite H0. destruct rest as [|c rest].
  { rewrite (bind_valid _ _ _ _ 0) by done. rewrite Eword. done. }
  rewrite (bind_valid _ _ _ _ c) by done. apply Forall_cons in Hcl as [Hc Hcl]. rewrite (proj2 (Z.eqb_neq _ _) Hc).
  set (r := c :: rest) in *. assert (cstr (r ++ 0 :: after) = r) as Ecr by (apply cstr_app; by constructor).
  assert (word = takewhile (fun c => eqb (negb (sep seps c)) true) r) as Eword'.
  { rewrite Eword. clear. induction r as [|x l IH]; [done|]. cbn [takewhile]. rewrite IH. by destruct (sep seps x). }
  assert (skip seps true (r ++ 0 :: after) = Ret (Z.of_nat (length word))) as Hskip.
  { rewrite skip_spec, Ecr, Eword'; [done|done| |].
    - unfold terminated. rewrite elem_of_app, elem_of_cons. tauto.
    - rewrite <- Edrop. by apply Forall_drop. }
  rewrite (bind_run _ _ _ (Z.of_nat (length word)) (buf, Some head)) by (rewrite Edrop, Hskip; done).
  destruct (takewhile_split (fun c => negb (sep seps c)) r) as (rest2 & Er & Hrest2). rewrite <- Eword in Er.
  assert (length str = (length blank + length word + length rest2)%nat) as Hlen.
  { rewrite Estr, length_app. fold r. rewrite Er at 1. rewrite length_app. lia. }
  assert (word <> []) as Hne.
  { intros E. unfold word in E. rewrite Erest in E. unfold r in E. simpl in E. simpl in Hrest. by rewrite Hrest in E. }
  split; [done|intros _].
  rewrite Hget. destruct rest2 as [|x rest2].
  - rewrite app_nil_r in Er. rewrite (bind_valid _ _ _ _ 0) by (rewrite <- Er, list_lookup_middle; done). mrun.
    exists buf, None. split; [done|]. rewrite Edrop, Ecr. split; [done|]. by rewrite bool_decide_true by (simpl in Hlen; lia).
  - rewrite (bind_valid _ _ _ _ x) by (rewrite Er, <- app_assoc; simpl; by rewrite list_lookup_middle).
    assert (x <> 0) as Hx.
    { assert (clean r) as Hr by (by constructor). rewrite Er in Hr. apply Forall_app in Hr as [_ Hr]. by apply Forall_inv in Hr. }
    rewrite (proj2 (Z.eqb_neq _ _) Hx). mrun. eexists _, _. split; [reflexivity|]. cbn [fst].
    rewrite bool_decide_false by (simpl in Hlen; lia). split; [|done]. unfold arr_set.
    replace (Z.to_nat (start + Z.of_nat (length word))) with (Z.to_nat start + length word)%nat by (unfold start; lia).
    rewrite drop_insert_ge by lia. rewrite Edrop, Er, <- app_assoc. simpl.
    replace (Z.to_nat start + length word - Z.to_nat start)%nat with (length word) by lia.
    rewrite insert_app_r_alt, Nat.sub_diag by lia. simpl. apply cstr_app.
    assert (clean r) as Hr by (by constructor). rewrite Er in Hr. by apply Forall_app in Hr as [? _].
Qed.

Lemma strtok_r_spec_witness :
  exists buf' ctx, strtok_r None [32; 0] ([32; 97; 98; 32; 99; 0], Some 0) = Ret (Some 1, (buf', ctx)) /\
    cstr (drop 1 buf') = [97; 98] /\ ctx = Some 4.
Proof.
  destruct (strtok_r_spec [32; 97; 98; 32; 99; 0] 0 [32; 0]) as [_ Hword].
  - lia.
  - unfold terminated. set_solver.
  - unfold terminated. simpl. set_solver.
  - repeat (apply Forall_cons; split; [lia|]). done.
  - destruct Hword as (buf' & ctx & Hrun & Hw & Hc & _); [discriminate|].
    exists buf', ctx. split; [exact Hrun|]. split; [exact Hw|exact Hc].
Defined.


End Str.
