(* ===== verification/Copy.v ===== *)
(** * Moving data: [copyinout.c] and [uio.c]

    [Module Copyinout] models the protected copies between user and kernel
    memory, [Module Uio] the scatter/gather transfers built on them.  The
    kernel sees user and kernel memory through one map of virtual addresses;
    [bad a] is whether an access to user address [a] ends in a fatal fault.
    The theorems say that user pointers cannot make the kernel touch its own
    memory, and that [uiomove] moves as many bytes as it accounts for and
    always ends. *)

From S2P Require Import Prelude.

Definition USERSPACETOP : Z := MIPS_KSEG0.

(** [badfaultfunc]: whether [tm_badfaultfunc] is [copyfail] (or NULL). *)
Record vas := Vas { vmem : Z -> Z; bad : Z -> bool; badfaultfunc : bool }.

Module Copyinout.

Definition set_vmem (m : Z -> Z) (s : vas) : vas := Vas m (bad s) (badfaultfunc s).
Definition set_badfaultfunc (b : bool) (s : vas) : vas := Vas (vmem s) (bad s) b.

(** The return value and [*stoplen]. *)
Definition copycheck (userptr len : Z) : Z * Z :=
  let bot := userptr in
  let top := u32 (bot + len - 1) in
  if top <? bot then (EFAULT, len)
  else if USERSPACETOP <=? bot then (EFAULT, len)
  else if USERSPACETOP <=? top then (0, USERSPACETOP - bot)
  else (0, len).

(** A fatal fault at a user address while [tm_badfaultfunc] is set resumes in
    [copyfail], which jumps back; without it the kernel panics. *)
Definition faults (a : Z) (s : vas) : bool := (a <? USERSPACETOP) && bad s a.

(** [memcpy] of [n] bytes; the result is whether it was cut short by a fault. *)
Fixpoint memcpy (dest src : Z) (n : nat) : M vas bool :=
  match n with
  | O => mret false
  | S n' =>
      s ← get;
      if faults src s || faults dest s then
        if badfaultfunc s then mret true else panic "fatal fault in kernel mode"
      else
        modify (set_vmem (fun x => if x =? dest then vmem s src else vmem s x));;
        memcpy (dest + 1) (src + 1) n'
  end.

Definition copyin (usersrc dest len : Z) : M vas Z :=
  let '(result, stoplen) := copycheck usersrc len in
  if negb (result =? 0) then mret result
  else if negb (stoplen =? len) then mret EFAULT
  else
    modify (set_badfaultfunc true);;
    failed ← memcpy dest usersrc (Z.to_nat len);
    modify (set_badfaultfunc false);;
    mret (if (failed : bool) then EFAULT else 0).

Definition copyout (src userdest len : Z) : M vas Z :=
  let '(result, stoplen) := copycheck userdest len in
  if negb (result =? 0) then mret result
  else if negb (stoplen =? len) then mret EFAULT
  else
    modify (set_badfaultfunc true);;
    failed ← memcpy userdest src (Z.to_nat len);
    modify (set_badfaultfunc false);;
    mret (if (failed : bool) then EFAULT else 0).

(** The loop of [copystr] for the bytes [i ..] below [n]: [None] when it was cut
    short by a fault, [Some None] when it ended without a NUL, and
    [Some (Some gotlen)] otherwise. *)
Fixpoint copystr_loop (dest src i : Z) (n : nat) : M vas (option (option Z)) :=
  match n with
  | O => mret (Some None)
  | S n' =>
      failed ← memcpy (dest + i) (src + i) 1;
      if (failed : bool) then mret None
      else
        s ← get;
        if vmem s (src + i) =? 0 then mret (Some (Some (i + 1)))
        else copystr_loop dest src (i + 1) n'
  end.

(** The return value ([None] for a fault) and [*gotlen]. *)
Definition copystr (dest src maxlen stoplen : Z) : M vas (option (Z * option Z)) :=
  r ← copystr_loop dest src 0 (Z.to_nat (Z.min maxlen stoplen));
  mret (match r with
        | None => None
        | Some (Some gotlen) => Some (0, Some gotlen)
        | Some None => if stoplen <? maxlen then Some (EFAULT, None) else Some (ENAMETOOLONG, None)
        end).

Definition copyinstr (usersrc dest len : Z) : M vas (Z * option Z) :=
  let '(result, stoplen) := copycheck usersrc len in
  if negb (result =? 0) then mret (result, None)
  else
    modify (set_badfaultfunc true);;
    r ← copystr dest usersrc len stoplen;
    modify (set_badfaultfunc false);;
    mret (match r with None => (EFAULT, None) | Some x => x end).

Definition copyoutstr (src userdest len : Z) : M vas (Z * option Z) :=
  let '(result, stoplen) := copycheck userdest len in
  if negb (result =? 0) then mret (result, None)
  else
    modify (set_badfaultfunc true);;
    r ← copystr userdest src len stoplen;
    modify (set_badfaultfunc false);;
    mret (match r with None => (EFAULT, None) | Some x => x end).

(** ** Correctness *)

Lemma copycheck_spec userptr len :
  0 <= userptr < 2 ^ 32 -> 0 <= len < 2 ^ 32 ->
  copycheck userptr len = (0, len) <-> 0 < len /\ userptr + len <= USERSPACETOP.
Proof.
  intros Hp Hl. unfold copycheck, USERSPACETOP, MIPS_KSEG0, u32.
  destruct (Z.ltb_spec ((userptr + len - 1) mod 2 ^ 32) userptr) as [H1|H1];
    [split; [done|]; intros [? ?]; rewrite Z.mod_small in H1; lia|].
  destruct (Z.leb_spec 0x80000000 userptr) as [H2|H2]; [split; [done|lia]|].
  destruct (Z.leb_spec 0x80000000 ((userptr + len - 1) mod 2 ^ 32)) as [H3|H3].
  - split; [intros [= Hs]; exfalso|intros [? ?]; rewrite Z.mod_small in H3; lia].
    destruct (decide (len = 0)); [lia|]. rewrite Z.mod_small in H3 by lia. lia.
  - split; [intros _|done]. destruct (decide (len = 0)) as [->|].
    + destruct (decide (userptr = 0)) as [->|]; [by vm_compute in H3|].
      rewrite Z.mod_small in H1 by lia. lia.
    + split; [lia|]. destruct (decide (userptr + len - 1 < 2 ^ 32)).
      * rewrite Z.mod_small in H3 by lia. lia.
      * rewrite <- (Z_mod_plus_full _ (-1)), Z.mod_small in H1 by lia. lia.
Qed.

Lemma copycheck_cases userptr len :
  copycheck userptr len = (EFAULT, len) \/ copycheck userptr len = (0, len) \/
  exists stop, copycheck userptr len = (0, stop) /\ stop <> len /\ stop = USERSPACETOP - userptr.
Proof.
  unfold copycheck. repeat case_match; auto.
  destruct (decide (USERSPACETOP - userptr = len)) as [->|]; [by auto|]. right; right. eauto.
Qed.

(** What a run of [memcpy] does: it copies a prefix, all of it unless a fault
    stops it, and changes nothing else. *)
Lemma memcpy_run n dest src s :
  badfaultfunc s = true ->
  (dest + Z.of_nat n <= src \/ src + Z.of_nat n <= dest) ->
  exists failed k m, memcpy dest src n s = Ret (failed, set_vmem m s) /\ (k <= n)%nat /\
    (failed = false -> k = n) /\
    (forall i, 0 <= i < Z.of_nat k -> m (dest + i) = vmem s (src + i)) /\
    (forall x, x < dest \/ dest + Z.of_nat k <= x -> m x = vmem s x) /\
    (failed = false <-> forall i, 0 <= i < Z.of_nat n ->
       faults (src + i) s = false /\ faults (dest + i) s = false).
Proof.
  intros Hb. revert dest src s Hb. induction n as [|n IH]; intros dest src s Hb Hdis; cbn [memcpy].
  - exists false, 0%nat, (vmem s). split_and!; [by destruct s|lia|done|lia|done|]. split; [lia|done].
  - mrun. destruct (faults src s || faults dest s) eqn:Hf.
    + rewrite Hb. exists true, 0%nat, (vmem s). split_and!; [by destruct s|lia|done|lia|done|].
      split; [done|]. intros Hall. destruct (Hall 0 ltac:(lia)) as [H1 H2].
      rewrite Z.add_0_r in H1, H2. by rewrite H1, H2 in Hf.
    + mrun. set (m1 := fun x => if x =? dest then vmem s src else vmem s x).
      destruct (IH (dest + 1) (src + 1) (set_vmem m1 s)) as (fl & k & m & Hrun & Hk & Hfull & Hin & Hout & Hiff);
        [done|lia|].
      apply orb_false_iff in Hf as [Hf1 Hf2].
      exists fl, (S k), m. split_and!; [|lia|intros; f_equal; auto| | |].
      * rewrite Hrun. by destruct s.
      * intros i Hi. destruct (decide (i = 0)) as [->|Hne].
        -- rewrite Z.add_0_r, Z.add_0_r, Hout by lia. unfold m1. simpl. by rewrite Z.eqb_refl.
        -- replace (dest + i) with (dest + 1 + (i - 1)) by lia. rewrite Hin by lia. simpl. unfold m1.
           rewrite (proj2 (Z.eqb_neq _ _)) by lia. f_equal. lia.
      * intros x Hx. rewrite Hout by lia. simpl. unfold m1. by rewrite (proj2 (Z.eqb_neq _ _)) by lia.
      * rewrite Hiff. split.
        -- intros Hall i Hi. destruct (decide (i = 0)) as [->|Hne]; [by rewrite !Z.add_0_r|].
           specialize (Hall (i - 1) ltac:(lia)).
           replace (src + 1 + (i - 1)) with (src + i) in Hall by lia.
           by replace (dest + 1 + (i - 1)) with (dest + i) in Hall by lia.
        -- intros Hall i Hi. specialize (Hall (i + 1) ltac:(lia)).
           replace (src + (i + 1)) with (src + 1 + i) in Hall by lia.
           by replace (dest + (i + 1)) with (dest + 1 + i) in Hall by lia.
Qed.

(** The user range is nonempty, below [USERSPACETOP] and mapped. *)
Definition user_ok (s : vas) (ptr len : Z) : Prop :=
  0 < len /\ ptr + len <= USERSPACETOP /\ forall i, 0 <= i < len -> bad s (ptr + i) = false.

(** The part after [copycheck], common to both directions; [uptr] is the user
    address. *)
Lemma protected_copy s dest src len uptr :
  0 <= uptr < 2 ^ 32 -> 0 <= len < 2 ^ 32 -> (uptr = dest /\ USERSPACETOP <= src \/ uptr = src /\ USERSPACETOP <= dest) ->
  let body := (modify (set_badfaultfunc true);;
               failed ← memcpy dest src (Z.to_nat len);
               modify (set_badfaultfunc false);;
               mret (if (failed : bool) then EFAULT else 0)) in
  let c := let '(result, stoplen) := copycheck uptr len in
           if negb (result =? 0) then mret result
           else if negb (stoplen =? len) then mret EFAULT else body in
  badfaultfunc s = false ->
  exists rc s', c s = Ret (rc, s') /\ badfaultfunc s' = false /\ bad s' = bad s /\
    (rc = 0 \/ rc = EFAULT) /\ (rc = 0 <-> user_ok s uptr len) /\
    (rc = 0 -> forall i, 0 <= i < len -> vmem s' (dest + i) = vmem s (src + i)) /\
    (forall x, vmem s' x = vmem s x \/ dest <= x < dest + len /\ uptr + len <= USERSPACETOP).
Proof.
  intros Hu Hl Hside body c Hb. unfold c.
  destruct (copycheck_cases uptr len) as [Hc|[Hc|(stop & Hc & Hne & _)]]; rewrite Hc.
  - cbn. exists EFAULT, s. split_and!; [done|done|done|by right| |done|by left]. split; [done|]. intros (H0 & Htop & _).
    rewrite (proj2 (copycheck_spec uptr len Hu Hl)) in Hc by done. done.
  - rewrite (Z.eqb_refl len). cbn [Z.eqb negb]. apply copycheck_spec in Hc as [H0 Htop]; [|done..].
    unfold body. mrun.
    destruct (memcpy_run (Z.to_nat len) dest src (set_badfaultfunc true s))
      as (fl & k & m & Hrun & Hk & Hfull & Hin & Hout & Hiff); [done|lia|].
    rewrite (bind_run _ _ _ _ _ Hrun). mrun. eexists _, _. split; [reflexivity|]. split_and!; [done|done| | | |].
    + destruct fl; auto.
    + assert (fl = false <-> user_ok s uptr len) as Hok.
      { rewrite Hiff. unfold user_ok, faults. simpl. split.
        - intros Hall. split_and!; [done|done|]. intros i Hi. destruct (Hall i ltac:(lia)) as [H1 H2].
          destruct Hside as [[-> _]|[-> _]]; rewrite (proj2 (Z.ltb_lt _ _)) in * by lia; done.
        - intros (_ & _ & Hall) i Hi. specialize (Hall i ltac:(lia)).
          destruct Hside as [[-> Hk']|[-> Hk']]; rewrite Hall, ?andb_false_r;
            rewrite (proj2 (Z.ltb_ge _ _)) by lia; done. }
      destruct fl; rewrite <- Hok; split; done.
    + intros Hz i Hi. destruct fl; [done|]. rewrite (Hfull eq_refl) in Hin. simpl. apply Hin. lia.
    + intros x. simpl. destruct (decide (dest <= x < dest + Z.of_nat k)); [right; lia|left; apply Hout; lia].
  - rewrite (proj2 (Z.eqb_neq _ _) Hne). cbn [Z.eqb negb]. exists EFAULT, s.
    split_and!; [done|done|done|by right| |done|by left]. split; [done|]. intros (H0 & Htop & _).
    rewrite (proj2 (copycheck_spec uptr len Hu Hl)) in Hc by done. by simplify_eq.
Qed.

(** copyin_safe. Whatever pointer and length a user process passes, [copyin]
    into a kernel buffer returns 0 or [EFAULT]: 0 exactly when the whole user
    range is nonempty, below the kernel and mapped, and then the buffer holds
    the user bytes; only the buffer changes, and the fault handler is
    disarmed. *)
Theorem copyin_safe s usersrc dest len :
  badfaultfunc s = false -> 0 <= usersrc < 2 ^ 32 -> 0 <= len < 2 ^ 32 -> USERSPACETOP <= dest ->
  exists rc s', copyin usersrc dest len s = Ret (rc, s') /\ badfaultfunc s' = false /\
    (rc = 0 \/ rc = EFAULT) /\ (rc = 0 <-> user_ok s usersrc len) /\
    (rc = 0 -> forall i, 0 <= i < len -> vmem s' (dest + i) = vmem s (usersrc + i)) /\
    (forall x, x < dest \/ dest + len <= x -> vmem s' x = vmem s x).
Proof.
  intros Hb Hu Hl Hd.
  destruct (protected_copy s dest usersrc len usersrc Hu Hl ltac:(by right) Hb)
    as (rc & s' & Hrun & Hb' & _ & Hrc & Hok & Hin & Hout).
  exists rc, s'. split_and!; try done. intros x Hx. destruct (Hout x) as [|[? _]]; [done|lia].
Qed.

(** C39 copyout_safe. From a kernel buffer (at [USERSPACETOP] or above) and with
    the recovery handler disarmed, whatever 32-bit pointer and length a user
    process passes, [copyout] returns and the handler is disarmed again; the
    result is 0 or [EFAULT], 0 exactly when the whole user range is nonempty,
    below the kernel and free of fatal faults, and then the user range holds the
    bytes of the buffer.  Only bytes of the user range change, and never kernel
    memory, also when a fault cuts the copy short. *)
Theorem copyout_safe s src userdest len :
  badfaultfunc s = false -> 0 <= userdest < 2 ^ 32 -> 0 <= len < 2 ^ 32 -> USERSPACETOP <= src ->
  exists rc s', copyout src userdest len s = Ret (rc, s') /\ badfaultfunc s' = false /\
    (rc = 0 \/ rc = EFAULT) /\ (rc = 0 <-> user_ok s userdest len) /\
    (rc = 0 -> forall i, 0 <= i < len -> vmem s' (userdest + i) = vmem s (src + i)) /\
    (forall x, x < userdest \/ userdest + len <= x \/ USERSPACETOP <= x -> vmem s' x = vmem s x).
Proof.
  intros Hb Hu Hl Hd.
  destruct (protected_copy s userdest src len userdest Hu Hl ltac:(by left) Hb)
    as (rc & s' & Hrun & Hb' & _ & Hrc & Hok & Hin & Hout).
  exists rc, s'. split_and!; try done. intros x Hx. destruct (Hout x) as [|[? ?]]; [done|lia].
Qed.

Definition sample_vas : vas := Vas (fun x => x mod 256) (fun a => a <? 0x1000) false.

Lemma copyin_safe_witness :
  exists rc s', copyin 0x2000 0x80001000 3 sample_vas = Ret (rc, s') /\ (rc = 0 \/ rc = EFAULT).
Proof.
  destruct (copyin_safe sample_vas 0x2000 0x80001000 3) as (rc & s' & Hrun & _ & Hrc & _);
    [done|lia|lia|by vm_compute|].
  exists rc, s'. split; [exact Hrun|exact Hrc].
Defined.

(** Three bytes copied to a mapped user page. *)
Lemma copyout_safe_witness :
  exists s', copyout 0x80001005 0x2000 3 sample_vas = Ret (0, s') /\
    vmem s' 0x2000 = 5 /\ vmem s' 0x2002 = 7 /\ vmem s' 0x2003 = 3.
Proof.
  destruct (copyout_safe sample_vas 0x80001005 0x2000 3) as (rc & s' & Hrun & _ & _ & Hok & Hin & Hout);
    [done|lia|lia|by vm_compute|].
  destruct Hok as [_ Hok]. rewrite Hok in Hrun, Hin.
  2, 3: split_and!; [lia|by vm_compute|]; intros i Hi; simpl; apply Z.ltb_ge; lia.
  exists s'. split_and!; [exact Hrun| | |].
  - exact (Hin eq_refl 0 ltac:(lia)).
  - exact (Hin eq_refl 2 ltac:(lia)).
  - exact (Hout 0x2003 ltac:(lia)).
Defined.

End Copyinout.

Module Uio.
Import Copyinout.

Definition UIO_READ : Z := 0.
Definition UIO_WRITE : Z := 1.
Definition UIO_USERISPACE : Z := 0.
Definition UIO_USERSPACE : Z := 1.
Definition UIO_SYSSPACE : Z := 2.

(** [uio_iov] lists the [uio_iovcnt] remaining blocks (base, length);
    [uio_space] names an address space. *)
Record uio := MkUio {
  uio_iov : list (Z * Z);
  uio_offset : Z;
  uio_resid : Z;
  uio_segflg : Z;
  uio_rw : Z;
  uio_space : option Z;
}.

Record ust := MkUst { u_vas : vas; u_uio : uio }.

Definition upd_uio (f : uio -> uio) : M ust unit := modify (fun s => MkUst (u_vas s) (f (u_uio s))).
Definition in_vas {A} (c : M vas A) : M ust A := zoom u_vas (fun x s => MkUst x (u_uio s)) c.

Definition with_iov (l : list (Z * Z)) (u : uio) : uio :=
  MkUio l (uio_offset u) (uio_resid u) (uio_segflg u) (uio_rw u) (uio_space u).

(** [memmove] between kernel buffers. *)
Definition memmove (dest src size : Z) : M vas unit :=
  modify (fun s => set_vmem
    (fun x => if (dest <=? x) && (x <? dest + size) then vmem s (src + (x - dest)) else vmem s x) s).

(** The transfer of [size] bytes between [ptr] and the block at [base]. *)
Definition transfer (ptr base size : Z) (u : uio) : M vas Z :=
  if uio_segflg u =? UIO_SYSSPACE then
    (if uio_rw u =? UIO_READ then memmove base ptr size else memmove ptr base size);;
    mret 0
  else if (uio_segflg u =? UIO_USERSPACE) || (uio_segflg u =? UIO_USERISPACE) then
    if uio_rw u =? UIO_READ then copyout ptr base size else copyin base ptr size
  else panic "uiomove: Invalid uio_segflg".

(** The loop of [uiomove].  Every round shortens the list of blocks or the
    count, so [n] plus the number of blocks is enough fuel. *)
Fixpoint uiomove_loop (fuel : nat) (ptr n : Z) : M ust Z :=
  s ← get;
  let u := u_uio s in
  if (0 <? n) && (0 <? uio_resid u) then
    match fuel with
    | O => undef "out of fuel"
    | S fuel' =>
        match uio_iov u with
        | [] => undef "uio_iov"
        | (base, len) :: rest =>
            let size := if n <? len then n else len in
            if size =? 0 then
              upd_uio (with_iov rest);;
              match rest with
              | [] => panic "uiomove: ran out of buffers"
              | _ => uiomove_loop fuel' ptr n
              end
            else
              result ← in_vas (transfer ptr base size u);
              if negb (result =? 0) then mret result
              else
                upd_uio (fun u => MkUio ((base + size, len - size) :: rest)
                  (uio_offset u + size) (u32 (uio_resid u - size))
                  (uio_segflg u) (uio_rw u) (uio_space u));;
                uiomove_loop fuel' (ptr + size) (n - size)
        end
    end
  else mret 0.

(** [curas] is [proc_getas()]. *)
Definition uiomove (curas : option Z) (ptr n : Z) : M ust Z :=
  s ← get;
  let u := u_uio s in
  (if negb (uio_rw u =? UIO_READ) && negb (uio_rw u =? UIO_WRITE)
   then panic "uiomove: Invalid uio_rw" else mret tt);;
  (if uio_segflg u =? UIO_SYSSPACE
   then kassert (bool_decide (uio_space u = None)) "uio->uio_space == NULL"
   else kassert (bool_decide (uio_space u = curas)) "uio->uio_space == proc_getas()");;
  uiomove_loop (Z.to_nat n + length (uio_iov u)) ptr n.

(** The loop of [uiomovezeros]; [zeros] is the address of its 16 zero bytes. *)
Fixpoint zeros_loop (fuel : nat) (curas : option Z) (zeros n : Z) : M ust Z :=
  if 0 <? n then
    match fuel with
    | O => undef "out of fuel"
    | S fuel' =>
        let amt := if n <? 16 then n else 16 in
        result ← uiomove curas zeros amt;
        if negb (result =? 0) then mret result
        else zeros_loop fuel' curas zeros (n - amt)
    end
  else mret 0.

Definition uiomovezeros (curas : option Z) (zeros n : Z) : M ust Z :=
  s ← get;
  kassert (uio_rw (u_uio s) =? UIO_READ) "uio->uio_rw == UIO_READ";;
  zeros_loop (Z.to_nat n) curas zeros n.

Definition uio_kinit (kbuf len pos rw : Z) : uio :=
  MkUio [(kbuf, len)] pos len UIO_SYSSPACE rw None.

(** ** Correctness *)

Definition total (l : list (Z * Z)) : Z := foldr (fun b t => b.2 + t) 0 l.

(** [uio_resid] is the total length of the blocks. *)
Definition wf (u : uio) : Prop :=
  Forall (fun b => 0 <= b.1 < 2 ^ 32 /\ 0 <= b.2 < 2 ^ 32) (uio_iov u) /\
  uio_resid u = total (uio_iov u) /\ uio_resid u < 2 ^ 32.

Lemma total_nonneg l : Forall (fun b => 0 <= b.1 < 2 ^ 32 /\ 0 <= b.2 < 2 ^ 32) l -> 0 <= total l.
Proof. induction 1; simpl; lia. Qed.

(** A transfer returns: 0, or an error for user memory. *)
Lemma transfer_run ptr base size u s :
  0 <= uio_segflg u <= 2 -> badfaultfunc s = false -> 0 <= base < 2 ^ 32 -> 0 < size < 2 ^ 32 ->
  USERSPACETOP <= ptr ->
  exists rc s', transfer ptr base size u s = Ret (rc, s') /\ badfaultfunc s' = false /\
    (rc = 0 -> uio_segflg u <> UIO_SYSSPACE -> base + size <= USERSPACETOP).
Proof.
  intros Hseg Hb Hbase Hsize Hptr. unfold transfer.
  destruct (Z.eqb_spec (uio_segflg u) UIO_SYSSPACE) as [Hs|Hs].
  - exists 0. destruct (uio_rw u =? UIO_READ); eexists; (split_and!; [reflexivity|done|done]).
  - replace ((uio_segflg u =? UIO_USERSPACE) || (uio_segflg u =? UIO_USERISPACE)) with true.
    2:{ symmetry. apply orb_true_iff. rewrite !Z.eqb_eq. unfold UIO_SYSSPACE, UIO_USERSPACE, UIO_USERISPACE in *. lia. }
    destruct (uio_rw u =? UIO_READ).
    + destruct (protected_copy s base ptr size base ltac:(lia) ltac:(lia) ltac:(by left) Hb)
        as (rc & s' & Hrun & Hb' & _ & _ & Hok & _). exists rc, s'. split_and!; [exact Hrun|done|].
      intros Hz _. apply Hok in Hz. apply Hz.
    + destruct (protected_copy s ptr base size base ltac:(lia) ltac:(lia) ltac:(by right) Hb)
        as (rc & s' & Hrun & Hb' & _ & _ & Hok & _). exists rc, s'. split_and!; [exact Hrun|done|].
      intros Hz _. apply Hok in Hz. apply Hz.
Qed.

(** Blocks of kernel memory do not run past the end of the address space. *)
Definition fits (u : uio) : Prop := Forall (fun b => b.1 + b.2 < 2 ^ 32) (uio_iov u).

Lemma uiomove_loop_run fuel ptr n s :
  wf (u_uio s) -> fits (u_uio s) -> 0 <= uio_segflg (u_uio s) <= 2 -> badfaultfunc (u_vas s) = false ->
  USERSPACETOP <= ptr -> 0 <= n < 2 ^ 32 -> Z.of_nat fuel >= n + Z.of_nat (length (uio_iov (u_uio s))) ->
  exists rc s', uiomove_loop fuel ptr n s = Ret (rc, s') /\ wf (u_uio s') /\ fits (u_uio s') /\
    uio_offset (u_uio s') + uio_resid (u_uio s') = uio_offset (u_uio s) + uio_resid (u_uio s) /\
    uio_resid (u_uio s) - n <= uio_resid (u_uio s') <= uio_resid (u_uio s) /\
    uio_segflg (u_uio s') = uio_segflg (u_uio s) /\ uio_rw (u_uio s') = uio_rw (u_uio s) /\
    uio_space (u_uio s') = uio_space (u_uio s) /\ badfaultfunc (u_vas s') = false /\
    (rc = 0 -> uio_resid (u_uio s') = uio_resid (u_uio s) - Z.min n (uio_resid (u_uio s))).
Proof.
  revert ptr n s. induction fuel as [|fuel IH]; intros ptr n s Hwf Hfit Hseg Hb Hptr Hn Hfuel;
    cbn [uiomove_loop]; mrun; pose proof Hfit as Hfit0; pose proof Hwf as (Hall & Hres & Hmax); pose proof (total_nonneg _ Hall) as Hpos.
  all: destruct (Z.ltb_spec 0 n), (Z.ltb_spec 0 (uio_resid (u_uio s))); cbn [andb];
    try (exists 0, s; split_and!; done || lia).
  destruct (uio_iov (u_uio s)) as [|[base len] rest] eqn:Hiov; [simpl in Hres; lia|].
  apply Forall_cons in Hall as [[Hbase Hlen] Hrest]. unfold fits in Hfit. rewrite Hiov in Hfit.
  apply Forall_cons in Hfit as [Hf1 Hf2]. simpl in Hbase, Hlen, Hf1, Hres, Hfuel.
  pose proof (total_nonneg _ Hrest) as Hpos'.
  set (size := if n <? len then n else len).
  assert (0 <= size <= len /\ size <= n /\ (size = 0 -> len = 0)) as (Hs1 & Hs2 & Hs3)
    by (unfold size; destruct (Z.ltb_spec n len); lia).
  destruct (Z.eqb_spec size 0) as [Hz|Hnz].
  - unfold upd_uio. mrun. destruct rest as [|b rest]; [simpl in Hres; lia|].
    destruct (IH ptr n (MkUst (u_vas s) (with_iov (b :: rest) (u_uio s)))) as (rc & s' & Hrun & Hrest');
      try done; [split_and!; simpl; [done|simpl in *; lia|done]|simpl in *; lia|].
    exists rc, s'. split; [done|exact Hrest'].
  - destruct (transfer_run ptr base size (u_uio s) (u_vas s)) as (rc & v' & Ht & Hb' & Hok); try done; [lia|].
    rewrite (bind_run _ _ _ _ _ (zoom_Ret u_vas (fun x s => MkUst x (u_uio s)) _ s _ _ Ht)).
    destruct (Z.eqb_spec rc 0) as [->|Hrc]; cbn [negb].
    + unfold upd_uio. mrun. cbn [u_vas u_uio]. rewrite u32_id by lia.
      match goal with |- context [uiomove_loop fuel _ _ ?st] => destruct (IH (ptr + size) (n - size) st)
        as (rc & s' & Hrun & Hw & Hf & Hoff & Hr & Hsg & Hrw & Hsp & Hbf & Hmin) end.
      * split_and!; simpl; [|lia|lia]. apply Forall_cons. split; [simpl; lia|done].
      * unfold fits. simpl. apply Forall_cons. split; [simpl; lia|done].
      * done.
      * done.
      * lia.
      * lia.
      * simpl. lia.
      * exists rc, s'. simpl in *. split_and!; try done; try lia.
    + exists rc. eexists. split; [reflexivity|]. cbn [u_uio u_vas].
      split; [exact Hwf|]. split; [exact Hfit0|]. split_and!; try done; lia.
Qed.

(** A uio that may be used by the current process. *)
Definition usable (curas : option Z) (u : uio) : Prop :=
  (uio_rw u = UIO_READ \/ uio_rw u = UIO_WRITE) /\ 0 <= uio_segflg u <= 2 /\
  uio_space u = (if uio_segflg u =? UIO_SYSSPACE then None else curas).

Lemma uiomove_run curas ptr n s :
  wf (u_uio s) -> fits (u_uio s) -> usable curas (u_uio s) -> badfaultfunc (u_vas s) = false ->
  USERSPACETOP <= ptr -> 0 <= n < 2 ^ 32 ->
  exists rc s', uiomove curas ptr n s = Ret (rc, s') /\ wf (u_uio s') /\ fits (u_uio s') /\
    usable curas (u_uio s') /\ badfaultfunc (u_vas s') = false /\ uio_rw (u_uio s') = uio_rw (u_uio s) /\
    uio_offset (u_uio s') + uio_resid (u_uio s') = uio_offset (u_uio s) + uio_resid (u_uio s) /\
    uio_resid (u_uio s') <= uio_resid (u_uio s) /\
    (rc = 0 -> uio_resid (u_uio s') = uio_resid (u_uio s) - Z.min n (uio_resid (u_uio s))).
Proof.
  intros Hwf Hfit (Hrw & Hseg & Hsp) Hb Hptr Hn. unfold uiomove. mrun.
  replace (negb (uio_rw (u_uio s) =? UIO_READ) && negb (uio_rw (u_uio s) =? UIO_WRITE)) with false
    by (destruct Hrw as [->| ->]; done). mrun.
  match goal with |- context [mbind _ (if ?b then ?x else ?y) _] =>
    assert ((if b then x else y) s = Ret (tt, s)) as Hka
      by (destruct b; rewrite Hsp; by rewrite bool_decide_true) end.
  rewrite (bind_run _ _ _ _ _ Hka).
  destruct (uiomove_loop_run (Z.to_nat n + length (uio_iov (u_uio s))) ptr n s)
    as (rc & s' & Hrun & Hw & Hf & Hoff & Hr & Hsg & Hrw' & Hsp' & Hbf & Hmin); try done; [lia|].
  exists rc, s'. split_and!; try done; try lia.
  split_and!; rewrite ?Hrw', ?Hsg, ?Hsp'; try done; lia.
Qed.

(** uiomove_spec. For a consistent uio (kernel or user space, reading or
    writing) and any count, [uiomove] returns after finitely many rounds without
    panicking: [uio_offset] advances by exactly what [uio_resid] loses, the
    blocks stay consistent with the residue, and a result of 0 means that all
    that could be moved, [min(n, resid)] bytes, was moved. *)
Theorem uiomove_spec curas ptr n s :
  wf (u_uio s) -> fits (u_uio s) -> usable curas (u_uio s) -> badfaultfunc (u_vas s) = false ->
  USERSPACETOP <= ptr -> 0 <= n < 2 ^ 32 ->
  exists rc s', uiomove curas ptr n s = Ret (rc, s') /\ wf (u_uio s') /\ fits (u_uio s') /\
    usable curas (u_uio s') /\ badfaultfunc (u_vas s') = false /\ uio_rw (u_uio s') = uio_rw (u_uio s) /\
    uio_offset (u_uio s') + uio_resid (u_uio s') = uio_offset (u_uio s) + uio_resid (u_uio s) /\
    uio_resid (u_uio s') <= uio_resid (u_uio s) /\
    (rc = 0 -> uio_resid (u_uio s') = uio_resid (u_uio s) - Z.min n (uio_resid (u_uio s))).
Proof. apply uiomove_run. Qed.

(** uio_kinit_read. Through the uio that [uio_kinit] makes for reading into a
    kernel buffer, [uiomove] of [n] bytes from [ptr] returns 0 and puts exactly
    the first [min(n, len)] bytes at the start of the buffer. *)
Theorem uio_kinit_read m kbuf len pos ptr n :
  badfaultfunc m = false -> 0 <= kbuf -> kbuf + len < 2 ^ 32 -> 0 < len -> USERSPACETOP <= ptr -> 0 < n < 2 ^ 32 ->
  exists m' u', uiomove None ptr n (MkUst m (uio_kinit kbuf len pos UIO_READ)) = Ret (0, MkUst m' u') /\
    uio_resid u' = len - Z.min n len /\ uio_offset u' = pos + Z.min n len /\
    (forall i, 0 <= i < Z.min n len -> vmem m' (kbuf + i) = vmem m (ptr + i)) /\
    (forall x, x < kbuf \/ kbuf + Z.min n len <= x -> vmem m' x = vmem m x).
Proof.
  intros Hb Hk Hkl Hl Hptr Hn. unfold uiomove, uio_kinit. mrun. cbn [u_uio u_vas uio_kinit uio_rw uio_segflg uio_space Z.eqb negb
    andb UIO_READ UIO_SYSSPACE Pos.eqb]. mrun. rewrite bind_kassert by done. cbn [uio_iov length].
  replace (Z.to_nat n + 1)%nat with (S (S (Z.to_nat n - 1))) by lia. cbn [uiomove_loop]. mrun.
  cbn [u_uio u_vas uio_resid uio_iov]. rewrite !(proj2 (Z.ltb_lt _ _)) by lia. cbn [andb].
  set (size := if n <? len then n else len).
  assert (size = Z.min n len) as Hs by (unfold size; destruct (Z.ltb_spec n len); lia).
  rewrite (proj2 (Z.eqb_neq size 0)) by lia. unfold transfer, memmove, in_vas, upd_uio.
  cbn [uio_segflg uio_rw Z.eqb UIO_SYSSPACE UIO_READ Pos.eqb].
  erewrite bind_run; [|apply zoom_Ret; reflexivity]. cbn [Z.eqb negb]. mrun. cbn [u_uio u_vas uio_offset uio_resid uio_segflg uio_rw uio_space].
  rewrite u32_id by lia.
  match goal with |- context [(if ?b then _ else _) ?st] => assert (b = false) as -> end.
  { apply andb_false_iff. rewrite !Z.ltb_ge. lia. }
  eexists _, _. split; [reflexivity|]. cbn [uio_resid uio_offset vmem set_vmem]. split_and!; [lia|lia| |].
  - intros i Hi. rewrite (proj2 (Z.leb_le _ _)), (proj2 (Z.ltb_lt _ _)) by lia. cbn [andb]. f_equal. lia.
  - intros x Hx. destruct (Z.leb_spec kbuf x), (Z.ltb_spec x (kbuf + size)); cbn [andb]; try done; lia.
Qed.

Lemma zeros_loop_run fuel curas zeros n s :
  wf (u_uio s) -> fits (u_uio s) -> usable curas (u_uio s) -> badfaultfunc (u_vas s) = false ->
  USERSPACETOP <= zeros -> 0 <= n < 2 ^ 32 -> n <= Z.of_nat fuel ->
  exists rc s', zeros_loop fuel curas zeros n s = Ret (rc, s') /\
    uio_offset (u_uio s') + uio_resid (u_uio s') = uio_offset (u_uio s) + uio_resid (u_uio s) /\
    (rc = 0 -> uio_resid (u_uio s') = uio_resid (u_uio s) - Z.min n (uio_resid (u_uio s))).
Proof.
  revert n s. induction fuel as [|fuel IH]; intros n s Hwf Hfit Hus Hb Hz Hn Hf; cbn [zeros_loop];
    (destruct (Z.ltb_spec 0 n); [|exists 0, s; split_and!; [done|done|]; destruct Hwf as (H1 & H2 & _);
       pose proof (total_nonneg _ H1); lia]); [lia|].
  set (amt := if n <? 16 then n else 16).
  assert (0 < amt <= n) as Ha by (unfold amt; destruct (Z.ltb_spec n 16); lia).
  destruct (uiomove_run curas zeros amt s) as (rc & s1 & Hrun & Hwf1 & Hfit1 & Hus1 & Hb1 & _ & Hoff & Hle & Hmin);
    try done; [lia|].
  rewrite (bind_run _ _ _ _ _ Hrun). destruct (Z.eqb_spec rc 0) as [->|Hrc]; cbn [negb].
  - specialize (Hmin eq_refl). destruct (IH (n - amt) s1) as (rc & s2 & Hrun2 & Hoff2 & Hmin2); try done; [lia|lia|].
    exists rc, s2. split_and!; [done|lia|]. intros ->. specialize (Hmin2 eq_refl).
    destruct Hwf1 as (H1 & H2 & _). pose proof (total_nonneg _ H1). lia.
  - exists rc, s1. split_and!; [done|done|]. by intros ->.
Qed.

(** uiomovezeros_spec. [uiomovezeros] returns for every count, even one larger
    than the residue; 0 means that [min(n, resid)] zero bytes were moved. *)
Theorem uiomovezeros_spec curas zeros n s :
  wf (u_uio s) -> fits (u_uio s) -> usable curas (u_uio s) -> badfaultfunc (u_vas s) = false ->
  uio_rw (u_uio s) = UIO_READ -> USERSPACETOP <= zeros -> 0 <= n < 2 ^ 32 ->
  exists rc s', uiomovezeros curas zeros n s = Ret (rc, s') /\
    uio_offset (u_uio s') + uio_resid (u_uio s') = uio_offset (u_uio s) + uio_resid (u_uio s) /\
    (rc = 0 -> uio_resid (u_uio s') = uio_resid (u_uio s) - Z.min n (uio_resid (u_uio s))).
Proof.
  intros Hwf Hfit Hus Hb Hrw Hz Hn. unfold uiomovezeros. mrun. rewrite bind_kassert by (by rewrite Hrw).
  apply zeros_loop_run; done || lia.
Qed.

(** *** Concrete runs *)

Definition sample_u : ust :=
  MkUst Copyinout.sample_vas
    (MkUio [(0x80002000, 3); (0x80003000, 0); (0x80004000, 5)] 100 8 UIO_SYSSPACE UIO_READ None).

Lemma sample_u_ok : wf (u_uio sample_u) /\ fits (u_uio sample_u) /\ usable None (u_uio sample_u).
Proof.
  split; [split; [|split; [done|simpl; lia]]|split].
  - apply (bool_decide_unpack _). by vm_compute.
  - apply (bool_decide_unpack _). by vm_compute.
  - split; [by left|]. split; [simpl; unfold UIO_SYSSPACE; lia|done].
Qed.

Lemma uiomove_spec_witness :
  exists rc s', uiomove None 0x80001000 6 sample_u = Ret (rc, s') /\
    uio_offset (u_uio s') + uio_resid (u_uio s') = 108.
Proof.
  destruct sample_u_ok as (Hw & Hf & Hu).
  destruct (uiomove_spec None 0x80001000 6 sample_u Hw Hf Hu) as (rc & s' & Hrun & _ & _ & _ & _ & _ & Hoff & _);
    [done|by vm_compute|lia|].
  exists rc, s'. split; [exact Hrun|exact Hoff].
Defined.

Lemma uio_kinit_read_witness :
  exists m' u', uiomove None 0x80001000 6 (MkUst Copyinout.sample_vas (uio_kinit 0x80002000 4 0 UIO_READ)) =
    Ret (0, MkUst m' u') /\ uio_resid u' = 0.
Proof.
  destruct (uio_kinit_read Copyinout.sample_vas 0x80002000 4 0 0x80001000 6) as (m' & u' & Hrun & Hr & _);
    [done|lia|lia|lia|by vm_compute|lia|].
  exists m', u'. split; [exact Hrun|exact Hr].
Defined.

Lemma uiomovezeros_spec_witness :
  exists rc s', uiomovezeros None 0x80001000 40 sample_u = Ret (rc, s') /\
    uio_offset (u_uio s') + uio_resid (u_uio s') = 108.
Proof.
  destruct sample_u_ok as (Hw & Hf & Hu).
  destruct (uiomovezeros_spec None 0x80001000 40 sample_u Hw Hf Hu) as (rc & s' & Hrun & Hoff & _);
    [done|done|by vm_compute|lia|].
  exists rc, s'. split; [exact Hrun|exact Hoff].
Defined.

End Uio.
