(* ===== verification/Stream.v ===== *)
(** * Transfers seen from the kernel: an abstraction of [uio.c]

    A file system hands a [struct uio] down to the device driver and looks only
    at its offset, its residue and its direction.  Here the memory behind the
    blocks is part of the uio: a block is a list of cells, the byte and whether
    an access to it faults.  [uiomove] of [Copy.v] works on virtual memory;
    [UioStream.v] shows that it does exactly what
    the two functions of this file do. *)

From S2P Require Import Prelude Copy.

Module Stream.

Abbreviation cell := (Z * bool)%type.

(** [uio_out] collects the bytes delivered so far through a reading uio. *)
Record uio := MkUio {
  uio_iov : list (list cell);
  uio_offset : Z;
  uio_resid : Z;
  uio_rw : Z;
  uio_out : list Z;
}.

Definition with_iov (l : list (list cell)) (u : uio) : uio :=
  MkUio l (uio_offset u) (uio_resid u) (uio_rw u) (uio_out u).
Definition set_offset (o : Z) (u : uio) : uio :=
  MkUio (uio_iov u) o (uio_resid u) (uio_rw u) (uio_out u).
Definition set_resid (r : Z) (u : uio) : uio :=
  MkUio (uio_iov u) (uio_offset u) r (uio_rw u) (uio_out u).

(** One transfer between the kernel buffer and the first block. *)
Definition moved (size : nat) (blk : list cell) (rest : list (list cell)) (out : list Z) (u : uio) : uio :=
  MkUio (drop size blk :: rest) (uio_offset u + Z.of_nat size)
    (u32 (uio_resid u - Z.of_nat size)) (uio_rw u) (uio_out u ++ out).

(** The loop of [uiomove] for a reading uio; [data] is the rest of the kernel
    buffer. *)
Fixpoint out_loop (fuel : nat) (data : list Z) : M uio Z :=
  u ← get;
  if (0 <? Z.of_nat (length data)) && (0 <? uio_resid u) then
    match fuel with
    | O => undef "out of fuel"
    | S fuel' =>
        match uio_iov u with
        | [] => undef "uio_iov"
        | blk :: rest =>
            let size := Nat.min (length data) (length blk) in
            if bool_decide (size = 0%nat) then
              modify (with_iov rest);;
              match rest with
              | [] => panic "uiomove: ran out of buffers"
              | _ => out_loop fuel' data
              end
            else if existsb snd (take size blk) then mret EFAULT
            else
              modify (moved size blk rest (take size data));;
              out_loop fuel' (drop size data)
        end
    end
  else mret 0.

(** The loop for a writing uio; the result also lists the bytes that are put
    into the kernel buffer. *)
Fixpoint in_loop (fuel n : nat) : M uio (Z * list Z) :=
  u ← get;
  if (0 <? Z.of_nat n) && (0 <? uio_resid u) then
    match fuel with
    | O => undef "out of fuel"
    | S fuel' =>
        match uio_iov u with
        | [] => undef "uio_iov"
        | blk :: rest =>
            let size := Nat.min n (length blk) in
            if bool_decide (size = 0%nat) then
              modify (with_iov rest);;
              match rest with
              | [] => panic "uiomove: ran out of buffers"
              | _ => in_loop fuel' n
              end
            else if existsb snd (take size blk) then mret (EFAULT, [])
            else
              modify (moved size blk rest []);;
              '(rc, bs) ← in_loop fuel' (n - size);
              mret (rc, (take size blk).*1 ++ bs)
        end
    end
  else mret (0, []).

Definition uiomove_out (data : list Z) : M uio Z :=
  u ← get; out_loop (length data + length (uio_iov u)) data.

Definition uiomove_in (n : Z) : M uio (Z * list Z) :=
  u ← get; in_loop (Z.to_nat n + length (uio_iov u)) (Z.to_nat n).

Definition uiomovezeros (n : Z) : M uio Z := uiomove_out (replicate (Z.to_nat n) 0).

(** The uio that [uio_kinit] makes for a kernel buffer holding [kbuf]. *)
Definition uio_kinit (kbuf : list Z) (pos rw : Z) : uio :=
  MkUio [(fun b => (b, false)) <$> kbuf] pos (Z.of_nat (length kbuf)) rw [].

(** ** Transfers that cannot fault *)

Definition cells (u : uio) : list cell := concat (uio_iov u).

(** No cell faults and the blocks hold at least the residue. *)
Definition good (u : uio) : Prop :=
  Forall (fun c => snd c = false) (cells u) /\ 0 <= uio_resid u <= Z.of_nat (length (cells u)) /\
  uio_resid u < 2 ^ 32.

(** [u'] is [u] after [k] bytes, [out] of which were delivered. *)
Definition advanced (k : nat) (out : list Z) (u u' : uio) : Prop :=
  cells u' = drop k (cells u) /\ uio_offset u' = uio_offset u + Z.of_nat k /\
  uio_resid u' = uio_resid u - Z.of_nat k /\ uio_rw u' = uio_rw u /\ uio_out u' = uio_out u ++ out.

Lemma advanced_refl u : advanced 0 [] u u.
Proof. unfold advanced. rewrite app_nil_r. split_and!; (done || lia). Qed.

Lemma advanced_trans j k o p u1 u2 u3 :
  advanced j o u1 u2 -> advanced k p u2 u3 -> advanced (j + k) (o ++ p) u1 u3.
Proof.
  intros (Hc & Ho & Hr & Hw & Ht) (Hc' & Ho' & Hr' & Hw' & Ht'). unfold advanced.
  rewrite Hc', Hc, drop_drop, Ho', Ho, Hr', Hr, Hw', Hw, Ht', Ht, app_assoc. split_and!; try done; lia.
Qed.

Lemma advanced_good k o u u' : advanced k o u u' -> good u -> Z.of_nat k <= uio_resid u -> good u'.
Proof.
  intros (Hc & _ & Hr & _) (Hb & Hres & Hmax) Hk. unfold good. rewrite Hc, Hr, length_drop.
  split_and!; [|lia|lia|lia]. by apply Forall_drop.
Qed.

Lemma existsb_false_take (blk : list cell) n :
  Forall (fun c => snd c = false) blk -> existsb snd (take n blk) = false.
Proof.
  intros Hf. revert n. induction Hf as [|c blk Hc Hf IH]; intros [|n]; simpl; [done..|].
  by rewrite Hc, IH.
Qed.

Lemma with_iov_good u rest : good u -> uio_iov u = [] :: rest -> good (with_iov rest u) /\ cells (with_iov rest u) = cells u.
Proof. intros Hg Hi. assert (cells (with_iov rest u) = cells u) as E by (unfold cells; by rewrite Hi). unfold good. by rewrite E. Qed.

Lemma moved_advanced u blk rest size out :
  good u -> uio_iov u = blk :: rest -> (size <= length blk)%nat -> Z.of_nat size <= uio_resid u ->
  advanced size out u (moved size blk rest out u).
Proof.
  intros (_ & Hr & Hm) Hi Hs Hle. unfold advanced, moved, cells. rewrite Hi. simpl.
  rewrite drop_app_le by done. split_and!; try done. apply u32_id. lia.
Qed.

Lemma out_loop_run fuel data u :
  good u -> Z.of_nat (length data) <= uio_resid u -> (length data + length (uio_iov u) <= fuel)%nat ->
  exists u', out_loop fuel data u = Ret (0, u') /\ advanced (length data) data u u'.
Proof.
  revert data u. induction fuel as [|fuel IH]; intros data u Hg Hle Hf.
  - destruct data; [|simpl in Hf; lia]. exists u. split; [done|apply advanced_refl].
  - cbn [out_loop]. mrun. destruct (decide (length data = 0%nat)) as [Hz|Hnz].
    { destruct data; [|done]. simpl. exists u. split; [done|apply advanced_refl]. }
    rewrite (proj2 (Z.ltb_lt _ _)), (proj2 (Z.ltb_lt 0 (uio_resid u))) by lia. cbn [andb].
    pose proof Hg as (Hb & Hr & Hmax). unfold cells in Hb, Hr.
    destruct (uio_iov u) as [|blk rest] eqn:Hi; [simpl in Hr; lia|].
    case_bool_decide as Hs.
    + assert (blk = []) as -> by (destruct blk; [done|simpl in Hs; lia]). mrun.
      destruct (with_iov_good u rest Hg Hi) as [Hg' Hc'].
      destruct rest as [|b rest]; [simpl in Hr; lia|].
      destruct (IH data (with_iov (b :: rest) u) Hg') as (u' & Hrun & Hadv); [done|simpl in *; lia|].
      exists u'. split; [exact Hrun|]. unfold advanced in *. by rewrite Hc' in Hadv.
    + assert (Forall (fun c => snd c = false) blk) as Hblk by (simpl in Hb; by apply Forall_app in Hb as [? _]).
      rewrite existsb_false_take by done. mrun.
      set (size := Nat.min (length data) (length blk)) in *.
      assert (advanced size (take size data) u (moved size blk rest (take size data) u)) as H1
        by (apply moved_advanced; (done || lia)).
      assert (Z.of_nat size <= uio_resid u) as Hsz by lia.
      destruct (IH (drop size data) (moved size blk rest (take size data) u)) as (u' & Hrun & Hadv).
      * eapply advanced_good; done.
      * destruct H1 as (_ & _ & -> & _). rewrite length_drop. lia.
      * rewrite length_drop. simpl in *. lia.
      * exists u'. split; [exact Hrun|]. pose proof (advanced_trans _ _ _ _ _ _ _ H1 Hadv) as Ht.
        rewrite take_drop, length_drop in Ht. by replace (length data) with (size + (length data - size))%nat by lia.
Qed.

Lemma in_loop_run fuel n u :
  good u -> Z.of_nat n <= uio_resid u -> (n + length (uio_iov u) <= fuel)%nat ->
  exists u', in_loop fuel n u = Ret ((0, take n (cells u).*1), u') /\ advanced n [] u u'.
Proof.
  revert n u. induction fuel as [|fuel IH]; intros n u Hg Hle Hf.
  - destruct n; [|lia]. exists u. split; [done|apply advanced_refl].
  - cbn [in_loop]. mrun. destruct (decide (n = 0%nat)) as [->|Hn]; [exists u; split; [done|apply advanced_refl]|].
    rewrite (proj2 (Z.ltb_lt _ _)), (proj2 (Z.ltb_lt 0 (uio_resid u))) by lia. cbn [andb].
    pose proof Hg as (Hb & Hr & Hmax). unfold cells in Hb, Hr |- *.
    destruct (uio_iov u) as [|blk rest] eqn:Hi; [simpl in Hr; lia|].
    case_bool_decide as Hs.
    + assert (blk = []) as -> by (destruct blk; [done|simpl in Hs; lia]). mrun.
      destruct (with_iov_good u rest Hg Hi) as [Hg' Hc'].
      destruct rest as [|b rest]; [simpl in Hr; lia|].
      destruct (IH n (with_iov (b :: rest) u) Hg') as (u' & Hrun & Hadv); [done|simpl in *; lia|].
      exists u'. rewrite Hrun. split; [done|]. unfold advanced in *. by rewrite Hc' in Hadv.
    + assert (Forall (fun c => snd c = false) blk) as Hblk by (simpl in Hb; by apply Forall_app in Hb as [? _]).
      rewrite existsb_false_take by done. mrun.
      set (size := Nat.min n (length blk)) in *.
      assert (advanced size [] u (moved size blk rest [] u)) as H1 by (apply moved_advanced; (done || lia)).
      destruct (IH (n - size)%nat (moved size blk rest [] u)) as (u' & Hrun & Hadv).
      * eapply advanced_good; [done..|lia].
      * destruct H1 as (_ & _ & -> & _). lia.
      * simpl in *. lia.
      * rewrite (bind_run _ _ _ _ _ Hrun). exists u'. split.
        -- f_equal. f_equal. f_equal. destruct H1 as (-> & _). unfold cells. rewrite Hi. simpl.
           rewrite drop_app_le, !fmap_app, fmap_drop, fmap_take by lia.
           destruct (decide (n <= length blk)%nat).
           ++ replace size with n by lia. rewrite Nat.sub_diag, take_0, app_nil_r.
              rewrite take_app_le; [done|by rewrite length_fmap].
           ++ replace size with (length blk) by lia. rewrite drop_ge, app_nil_l, (take_ge (blk.*1)), take_app_ge, length_fmap
                by (rewrite ?length_fmap; lia). done.
        -- pose proof (advanced_trans _ _ _ _ _ _ _ H1 Hadv) as Ht.
           by replace n with (size + (n - size))%nat by lia.
Qed.

Lemma uiomove_out_run data u :
  good u -> Z.of_nat (length data) <= uio_resid u ->
  exists u', uiomove_out data u = Ret (0, u') /\ advanced (length data) data u u' /\ good u'.
Proof.
  intros Hg Hle. unfold uiomove_out. mrun. destruct (out_loop_run _ data u Hg Hle (Nat.le_refl _)) as (u' & Hrun & Ha).
  exists u'. split_and!; [done..|]. by eapply advanced_good.
Qed.

Lemma uiomove_in_run n u :
  good u -> 0 <= n <= uio_resid u ->
  exists u', uiomove_in n u = Ret ((0, take (Z.to_nat n) (cells u).*1), u') /\
    advanced (Z.to_nat n) [] u u' /\ good u'.
Proof.
  intros Hg Hle. unfold uiomove_in. mrun.
  destruct (in_loop_run _ (Z.to_nat n) u Hg ltac:(lia) (Nat.le_refl _)) as (u' & Hrun & Ha).
  exists u'. split_and!; [done..|]. eapply advanced_good; [done..|lia].
Qed.

Lemma kinit_good kbuf pos rw : Z.of_nat (length kbuf) < 2 ^ 32 -> good (uio_kinit kbuf pos rw).
Proof.
  intros Hl. unfold good, cells, uio_kinit. simpl. rewrite app_nil_r, length_fmap. split_and!; try lia.
  apply Forall_fmap, Forall_true. done.
Qed.

Lemma kinit_cells kbuf pos rw : (cells (uio_kinit kbuf pos rw)).*1 = kbuf.
Proof. unfold cells, uio_kinit. simpl. rewrite app_nil_r, <- list_fmap_compose. apply list_fmap_id. Qed.

End Stream.
