(* ===== verification/UioStream.v ===== *)
(** * [uiomove] refines the transfers of [Stream.v]

    [Copy.v] models [uiomove] of [lib/uio.c] on virtual memory, [Stream.v] on
    lists of cells.  [abs] reads the memory behind the blocks of a uio; the two
    theorems say that [uiomove] returns what the abstract transfer returns, leaves
    the uio that the abstract transfer leaves, and has moved the same bytes. *)

From S2P Require Import Prelude Copy Stream.

Module UioStream.
Import Copyinout Uio.

(** Whether an access to [a] through the uio fails. *)
Definition flag (v : vas) (seg a : Z) : bool :=
  negb (seg =? UIO_SYSSPACE) && ((USERSPACETOP <=? a) || bad v a).

Definition block (b : Z * Z) : list Z := seqZ b.1 b.2.
Definition addrs (u : uio) : list Z := concat (block <$> uio_iov u).

(** What is in a cell of a reading uio does not matter. *)
Definition abs_cell (v : vas) (u : uio) (a : Z) : Stream.cell :=
  (if uio_rw u =? UIO_READ then 0 else vmem v a, flag v (uio_segflg u) a).

Definition abs (out : list Z) (s : ust) : Stream.uio :=
  let u := u_uio s in
  Stream.MkUio ((fun b => abs_cell (u_vas s) u <$> block b) <$> uio_iov u)
    (uio_offset u) (uio_resid u) (uio_rw u) out.

Definition bytes (v : vas) (ptr n : Z) : list Z := vmem v <$> seqZ ptr n.

(** ** Lists of addresses *)

Lemma seqZ_split a n k : 0 <= k <= n -> seqZ a n = seqZ a k ++ seqZ (a + k) (n - k).
Proof. intros Hk. rewrite <- seqZ_app by lia. f_equal. lia. Qed.

Lemma take_seqZ a n k : 0 <= k <= n -> take (Z.to_nat k) (seqZ a n) = seqZ a k.
Proof. intros Hk. rewrite (seqZ_split a n k Hk). apply take_app_length'. by rewrite length_seqZ. Qed.

Lemma drop_seqZ a n k : 0 <= k <= n -> drop (Z.to_nat k) (seqZ a n) = seqZ (a + k) (n - k).
Proof. intros Hk. rewrite (seqZ_split a n k Hk). apply drop_app_length'. by rewrite length_seqZ. Qed.

Lemma bytes_ext v v' p n : (forall i, 0 <= i < n -> vmem v' (p + i) = vmem v (p + i)) -> bytes v' p n = bytes v p n.
Proof.
  intros Hi. unfold bytes. apply list_fmap_ext. intros i x [-> Hx]%lookup_seqZ. apply Hi. lia.
Qed.

Lemma existsb_flag v seg base size :
  0 < size -> seg <> UIO_SYSSPACE -> existsb (flag v seg) (seqZ base size) = false <-> user_ok v base size.
Proof.
  intros Hs Hseg. unfold user_ok.
  assert (forall a, flag v seg a = false <-> a < USERSPACETOP /\ bad v a = false) as Hf.
  { intros a. unfold flag. rewrite (proj2 (Z.eqb_neq _ _) Hseg). cbn [negb andb]. rewrite orb_false_iff, Z.leb_gt. done. }
  split.
  - intros Hall. assert (forall i, 0 <= i < size -> flag v seg (base + i) = false) as Hi.
    { intros i Hi. apply not_true_iff_false. intros Ht. assert (existsb (flag v seg) (seqZ base size) = true); [|congruence].
      apply existsb_exists. exists (base + i). split; [|done]. apply list_elem_of_In, elem_of_seqZ. lia. }
    split_and!; [done| |intros i Hir; by apply Hf, Hi].
    specialize (Hi (size - 1) ltac:(lia)). apply Hf in Hi. lia.
  - intros (_ & Htop & Hi). apply not_true_iff_false. intros (a & Ha & Ht)%existsb_exists.
    apply list_elem_of_In, elem_of_seqZ in Ha. assert (flag v seg a = false); [|congruence]. apply Hf. split; [lia|].
    specialize (Hi (a - base) ltac:(lia)). by replace (base + (a - base)) with a in Hi by lia.
Qed.

Lemma existsb_fmap {A B} (p : B -> bool) (g : A -> B) l : existsb p (g <$> l) = existsb (fun a => p (g a)) l.
Proof. induction l as [|a l IH]; [done|]. cbn [fmap list_fmap existsb]. f_equal. exact IH. Qed.

(** ** One transfer *)

Definition dest (u : uio) (ptr base : Z) : Z := if uio_rw u =? UIO_READ then base else ptr.
Definition source (u : uio) (ptr base : Z) : Z := if uio_rw u =? UIO_READ then ptr else base.

Lemma transfer_abs ptr base size u v :
  0 <= uio_segflg u <= 2 -> badfaultfunc v = false -> 0 <= base -> base + size < 2 ^ 32 -> 0 < size -> USERSPACETOP <= ptr ->
  exists v', transfer ptr base size u v =
      Ret (if existsb (flag v (uio_segflg u)) (seqZ base size) then EFAULT else 0, v') /\
    badfaultfunc v' = false /\ bad v' = bad v /\
    (existsb (flag v (uio_segflg u)) (seqZ base size) = false ->
     forall i, 0 <= i < size -> vmem v' (dest u ptr base + i) = vmem v (source u ptr base + i)) /\
    (forall x, ~ (dest u ptr base <= x < dest u ptr base + size) -> vmem v' x = vmem v x).
Proof.
  intros Hseg Hb Hbase Hmax Hs Hptr. unfold transfer. destruct (Z.eqb_spec (uio_segflg u) UIO_SYSSPACE) as [Hsys|Hsys].
  - assert (existsb (flag v (uio_segflg u)) (seqZ base size) = false) as ->.
    { apply not_true_iff_false. intros (a & _ & Ha)%existsb_exists. unfold flag in Ha. by rewrite Hsys in Ha. }
    unfold dest, source. destruct (uio_rw u =? UIO_READ); eexists; (split; [reflexivity|]); simpl; (split_and!; [done|done| |]).
    1,3: intros _ i Hi; rewrite (proj2 (Z.leb_le _ _)), (proj2 (Z.ltb_lt _ _)) by lia; cbn [andb]; f_equal; lia.
    all: intros x Hx; destruct (Z.leb_spec base x), (Z.leb_spec ptr x); cbn [andb]; try done;
      rewrite (proj2 (Z.ltb_ge _ _)) by lia; done.
  - replace ((uio_segflg u =? UIO_USERSPACE) || (uio_segflg u =? UIO_USERISPACE)) with true
      by (symmetry; apply orb_true_iff; rewrite !Z.eqb_eq; unfold UIO_SYSSPACE, UIO_USERSPACE, UIO_USERISPACE in *; lia).
    pose proof (existsb_flag v (uio_segflg u) base size Hs Hsys) as Hiff. set (fl := existsb _ _) in *. unfold dest, source.
    assert (forall rc, rc = 0 \/ rc = EFAULT -> rc = 0 <-> user_ok v base size -> rc = if fl then EFAULT else 0) as Hrc.
    { intros rc Hc Hok. destruct fl; [|by apply Hok, Hiff]. destruct Hc as [Hc|Hc]; [|done]. by apply Hok, Hiff in Hc. }
    destruct (uio_rw u =? UIO_READ);
      [destruct (protected_copy v base ptr size base) as (rc & v' & Hrun & Hb' & Hbad & Hc & Hok & Hin & Hout)
      |destruct (protected_copy v ptr base size base) as (rc & v' & Hrun & Hb' & Hbad & Hc & Hok & Hin & Hout)];
      try done; try lia; try (by left); try (by right);
      rewrite (Hrc rc Hc Hok) in *; exists v'; (split_and!; [exact Hrun|done|done| |]);
      try (intros Hz; apply Hin; by rewrite Hz); intros x Hx; by destruct (Hout x) as [|[? _]].
Qed.

(** ** The loops *)

Definition adv (base len size : Z) (rest : list (Z * Z)) (u : uio) : uio :=
  MkUio ((base + size, len - size) :: rest) (uio_offset u + size) (u32 (uio_resid u - size))
    (uio_segflg u) (uio_rw u) (uio_space u).

Lemma addrs_adv base len size rest u :
  uio_iov u = (base, len) :: rest -> 0 <= size <= len -> addrs u = seqZ base size ++ addrs (adv base len size rest u).
Proof.
  intros Hi Hs. unfold addrs, adv. rewrite Hi. simpl. unfold block; simpl. rewrite (seqZ_split base len size Hs).
  by rewrite app_assoc.
Qed.

Lemma in_block u b a : b ∈ uio_iov u -> a ∈ block b -> a ∈ addrs u.
Proof.
  intros Hb Ha. unfold addrs. apply list_elem_of_In, in_concat.
  exists (block b). split; apply list_elem_of_In; [|done]. apply list_elem_of_fmap. by exists b.
Qed.

(** The memory matters only where a writing uio reads it. *)
Lemma abs_ext out v v' u :
  bad v' = bad v -> (uio_rw u <> UIO_READ -> forall a, a ∈ addrs u -> vmem v' a = vmem v a) ->
  abs out (MkUst v' u) = abs out (MkUst v u).
Proof.
  intros Hbad Hv. unfold abs; cbn [u_uio u_vas]. f_equal. apply list_fmap_ext. intros i b Hb%list_elem_of_lookup_2.
  apply list_fmap_ext. intros j a Ha%list_elem_of_lookup_2. unfold abs_cell, flag. rewrite Hbad. f_equal.
  destruct (Z.eqb_spec (uio_rw u) UIO_READ); [done|]. apply Hv; [done|]. by eapply in_block.
Qed.

Lemma abs_moved out d s v' base len size rest :
  uio_iov (u_uio s) = (base, len) :: rest -> 0 <= size <= len -> bad v' = bad (u_vas s) ->
  (uio_rw (u_uio s) <> UIO_READ -> forall a, a ∈ addrs (u_uio s) -> vmem v' a = vmem (u_vas s) a) ->
  abs (out ++ d) (MkUst v' (adv base len size rest (u_uio s))) =
  Stream.moved (Z.to_nat size) (abs_cell (u_vas s) (u_uio s) <$> block (base, len))
    ((fun b => abs_cell (u_vas s) (u_uio s) <$> block b) <$> rest) d (abs out s).
Proof.
  intros Hi Hs Hbad Hv. rewrite (abs_ext _ (u_vas s)); [|done|].
  - unfold abs, Stream.moved. cbn [u_uio u_vas]. rewrite Z2Nat.id by lia. simpl. f_equal. f_equal.
    rewrite <- fmap_drop. unfold block; simpl. by rewrite drop_seqZ by done.
  - intros Hrw a Ha. apply Hv; [exact Hrw|]. rewrite (addrs_adv base len size rest _ Hi Hs). apply elem_of_app. by right.
Qed.

(** The hypotheses of both simulations. *)
Record ready (ptr n : Z) (s : ust) : Prop := {
  rd_wf : Uio.wf (u_uio s);
  rd_fits : fits (u_uio s);
  rd_seg : 0 <= uio_segflg (u_uio s) <= 2;
  rd_fault : badfaultfunc (u_vas s) = false;
  rd_kern : USERSPACETOP <= ptr;
  rd_n : 0 <= n < 2 ^ 32;
  rd_nodup : NoDup (addrs (u_uio s));
  rd_apart a : a ∈ addrs (u_uio s) -> a < ptr \/ ptr + n <= a;
}.

Lemma ready_skip ptr n s base rest :
  ready ptr n s -> uio_iov (u_uio s) = (base, 0) :: rest -> ready ptr n (MkUst (u_vas s) (Uio.with_iov rest (u_uio s))).
Proof.
  intros [(Hall & Hres & Hmax) Hfit ? ? ? ? Hnd Hap] Hi. unfold addrs, fits in *. rewrite Hi in *. simpl in *.
  apply Forall_cons in Hall as [_ ?], Hfit as [_ ?]. split; try done.
Qed.

Lemma ready_step ptr n s v' base len size rest :
  ready ptr n s -> uio_iov (u_uio s) = (base, len) :: rest -> 0 <= size <= len -> size <= n ->
  badfaultfunc v' = false -> ready (ptr + size) (n - size) (MkUst v' (adv base len size rest (u_uio s))).
Proof.
  intros [(Hall & Hres & Hmax) Hfit ? ? ? ? Hnd Hap] Hi Hs Hn Hb. pose proof (addrs_adv base len size rest (u_uio s) Hi Hs) as Ha.
  rewrite Ha in Hnd, Hap. apply NoDup_app in Hnd as (_ & _ & Hnd). unfold fits in *. rewrite Hi in *.
  apply Forall_cons in Hall as [[? ?] Hall], Hfit as [? ?]. simpl in *. pose proof (total_nonneg _ Hall).
  split; cbn [u_uio u_vas]; try done; try lia.
  - split_and!; simpl; rewrite ?u32_id by lia; [|lia|lia]. apply Forall_cons. split; [simpl; lia|done].
  - unfold fits. simpl. apply Forall_cons. split; [simpl; lia|done].
  - intros a Hin. specialize (Hap a ltac:(apply elem_of_app; by right)). lia.
Qed.

(** What is left of the list after the first block, and how far it goes. *)
Lemma out_sim fuel ptr n s out :
  ready ptr n s -> uio_rw (u_uio s) = UIO_READ -> (Z.to_nat n + length (uio_iov (u_uio s)) <= fuel)%nat ->
  exists rc s' d, uiomove_loop fuel ptr n s = Ret (rc, s') /\
    Stream.out_loop fuel (bytes (u_vas s) ptr n) (abs out s) = Ret (rc, abs (out ++ d) s') /\
    vmem (u_vas s') <$> take (length d) (addrs (u_uio s)) = d /\
    (forall x, x ∉ addrs (u_uio s) -> vmem (u_vas s') x = vmem (u_vas s) x).
Proof.
  revert ptr n s out. induction fuel as [|fuel IH]; intros ptr n s out Hrd Hrw Hf; pose proof Hrd as [(Hall & Hres & Hmax) Hfit Hseg Hb Hk Hn Hnd Hap].
  - replace n with 0 by lia. exists 0, s, []. simpl. rewrite app_nil_r. done.
  - cbn [uiomove_loop Stream.out_loop]. mrun. change (Stream.uio_resid (abs out s)) with (uio_resid (u_uio s)).
    assert (Z.of_nat (length (bytes (u_vas s) ptr n)) = n) as Hlen by (unfold bytes; rewrite length_fmap, length_seqZ; lia).
    rewrite Hlen. destruct ((0 <? n) && (0 <? uio_resid (u_uio s))) eqn:Hgo; cycle 1.
    { exists 0, s, []. simpl. rewrite app_nil_r. done. }
    apply andb_prop in Hgo as [Hn0%Z.ltb_lt Hr0%Z.ltb_lt].
    destruct (uio_iov (u_uio s)) as [|[base len] rest] eqn:Hi; [simpl in Hres; lia|].
    unfold abs at 1 2. cbn [Stream.uio_iov]. rewrite Hi. cbn [fmap list_fmap].
    pose proof Hall as [[Hbase Hl0] Hrest]%Forall_cons. pose proof Hfit as Hfit'. unfold fits in Hfit'. rewrite Hi in Hfit'.
    apply Forall_cons in Hfit' as [Hf1 _]. simpl in Hbase, Hl0, Hf1, Hf.
    set (size := if n <? len then n else len). assert (size = Z.min n len) as Hsz by (unfold size; destruct (Z.ltb_spec n len); lia). clearbody size.
    assert (Nat.min (length (bytes (u_vas s) ptr n)) (length (abs_cell (u_vas s) (u_uio s) <$> block (base, len))) = Z.to_nat size) as Hsz'
      by (rewrite length_fmap; unfold block; rewrite length_seqZ; simpl; lia).
    rewrite Hsz'. destruct (Z.eqb_spec size 0) as [Hz|Hnz].
    + rewrite bool_decide_true by lia. assert (len = 0) as -> by lia. unfold upd_uio. mrun.
      destruct rest as [|b rest]; [simpl in Hres; lia|].
      destruct (IH ptr n (MkUst (u_vas s) (Uio.with_iov (b :: rest) (u_uio s))) out) as (rc & s' & d & Hrun & Hrun' & Hd & Ho);
        [by eapply ready_skip|done|simpl in *; lia|].
      exists rc, s', d. split; [exact Hrun|]. split; [exact Hrun'|]. unfold addrs in *. rewrite Hi. exact (conj Hd Ho).
    + rewrite bool_decide_false by lia.
      destruct (transfer_abs ptr base size (u_uio s) (u_vas s)) as (v1 & Hrun & Hb1 & Hbad & Hin & Hout); try done; try lia.
      rewrite (bind_run _ _ _ _ _ (zoom_Ret u_vas (fun x s => MkUst x (u_uio s)) _ s _ _ Hrun)).
      assert (existsb snd (take (Z.to_nat size) (abs_cell (u_vas s) (u_uio s) <$> block (base, len))) =
              existsb (flag (u_vas s) (uio_segflg (u_uio s))) (seqZ base size)) as ->.
      { rewrite <- fmap_take. unfold block; simpl. rewrite take_seqZ by lia. by rewrite existsb_fmap. }
      destruct (existsb _ _) eqn:Hfl; cbn [Z.eqb negb EFAULT].
      { exists EFAULT. eexists _, []. split; [reflexivity|]. rewrite app_nil_r. split.
        - f_equal. f_equal. rewrite (abs_ext _ (u_vas s)) by done. unfold abs; cbn [u_uio u_vas]. rewrite Hi. done.
        - split; [done|]. intros x Hx. apply Hout. intros Hr. apply Hx.
          rewrite (addrs_adv base len size rest _ Hi) by lia. apply elem_of_app. left. apply elem_of_seqZ.
          unfold dest in Hr. by rewrite Hrw in Hr. }
      unfold upd_uio. mrun. cbn [u_uio u_vas].
      match goal with |- context [uiomove_loop fuel _ _ ?st] => change st with (MkUst v1 (adv base len size rest (u_uio s))) end.
      match goal with |- context [Stream.out_loop fuel _ ?st] =>
        replace st with (abs (out ++ bytes (u_vas s) ptr size) (MkUst v1 (adv base len size rest (u_uio s)))) end.
      2:{ rewrite (abs_moved _ _ s) by (done || lia). f_equal; [|unfold abs; by rewrite Hi].
          unfold bytes. rewrite <- fmap_take, take_seqZ by lia. done. }
      assert (drop (Z.to_nat size) (bytes (u_vas s) ptr n) = bytes v1 (ptr + size) (n - size)) as ->.
      { unfold bytes. rewrite <- fmap_drop, drop_seqZ by lia. symmetry. apply bytes_ext. intros i Hir. apply Hout. unfold dest. rewrite Hrw.
        intros Hr. specialize (Hap (ptr + size + i)). destruct Hap; [|lia..]. apply (in_block _ (base, len)); [rewrite Hi; apply list_elem_of_here|].
        apply elem_of_seqZ. simpl in *. lia. }
      destruct (IH (ptr + size) (n - size) (MkUst v1 (adv base len size rest (u_uio s))) (out ++ bytes (u_vas s) ptr size))
        as (rc & s' & d & Hrun1 & Hrun2 & Hd & Ho); [by eapply ready_step; [..|lia|]; (done || lia)|done|simpl in *; lia|].
      exists rc, s', (bytes (u_vas s) ptr size ++ d). split; [exact Hrun1|]. rewrite app_assoc. split; [exact Hrun2|].
      rewrite (addrs_adv base len size rest _ Hi) in * by lia. apply NoDup_app in Hnd as (_ & Hdis & _). cbn [u_uio u_vas] in *. split.
      * assert (length (bytes (u_vas s) ptr size) = length (seqZ base size)) as Hll by (unfold bytes; by rewrite length_fmap, !length_seqZ).
        rewrite length_app, Hll, take_app_add, fmap_app, Hd. f_equal. apply list_eq_same_length with (n := Z.to_nat size);
          [unfold bytes; by rewrite length_fmap, length_seqZ|by rewrite length_fmap, length_seqZ|].
        intros i x y Hir Hx Hy. apply list_lookup_fmap_Some in Hx as (a & -> & [-> Ha]%lookup_seqZ), Hy as (b & -> & [-> Hb']%lookup_seqZ).
        rewrite Ho by (apply Hdis, elem_of_seqZ; lia). unfold dest, source in *. rewrite Hrw in *. cbn [Z.eqb UIO_READ] in *. apply Hin; [done|lia].
      * intros x Hx. rewrite Ho by (intros Hin'; apply Hx, elem_of_app; by right). apply Hout. unfold dest. rewrite Hrw. intros Hr.
        apply Hx, elem_of_app. left. by apply elem_of_seqZ.
Qed.

(** The bytes already moved into the kernel buffer are left alone by the rest of
    the loop, and so are the blocks. *)
Lemma in_sim fuel ptr n s out :
  ready ptr n s -> uio_rw (u_uio s) = UIO_WRITE -> (Z.to_nat n + length (uio_iov (u_uio s)) <= fuel)%nat ->
  exists rc s' d, uiomove_loop fuel ptr n s = Ret (rc, s') /\
    Stream.in_loop fuel (Z.to_nat n) (abs out s) = Ret ((rc, d), abs out s') /\
    bytes (u_vas s') ptr (Z.of_nat (length d)) = d /\
    (forall x, ~ (ptr <= x < ptr + n) -> vmem (u_vas s') x = vmem (u_vas s) x).
Proof.
  revert ptr n s out. induction fuel as [|fuel IH]; intros ptr n s out Hrd Hrw Hf; pose proof Hrd as [(Hall & Hres & Hmax) Hfit Hseg Hb Hk Hn Hnd Hap].
  - replace n with 0 by lia. by exists 0, s, [].
  - cbn [uiomove_loop Stream.in_loop]. mrun. change (Stream.uio_resid (abs out s)) with (uio_resid (u_uio s)).
    rewrite Z2Nat.id by lia. destruct ((0 <? n) && (0 <? uio_resid (u_uio s))) eqn:Hgo; [|by exists 0, s, []].
    apply andb_prop in Hgo as [Hn0%Z.ltb_lt Hr0%Z.ltb_lt].
    destruct (uio_iov (u_uio s)) as [|[base len] rest] eqn:Hi; [simpl in Hres; lia|].
    unfold abs at 1 2. cbn [Stream.uio_iov]. rewrite Hi. cbn [fmap list_fmap].
    pose proof Hall as [[Hbase Hl0] Hrest]%Forall_cons. pose proof Hfit as Hfit'. unfold fits in Hfit'. rewrite Hi in Hfit'.
    apply Forall_cons in Hfit' as [Hf1 _]. simpl in Hbase, Hl0, Hf1, Hf.
    set (size := if n <? len then n else len). assert (size = Z.min n len) as Hsz by (unfold size; destruct (Z.ltb_spec n len); lia). clearbody size.
    assert (Nat.min (Z.to_nat n) (length (abs_cell (u_vas s) (u_uio s) <$> block (base, len))) = Z.to_nat size) as ->
      by (rewrite length_fmap; unfold block; rewrite length_seqZ; simpl; lia).
    destruct (Z.eqb_spec size 0) as [Hz|Hnz].
    + rewrite bool_decide_true by lia. assert (len = 0) as -> by lia. unfold upd_uio. mrun.
      destruct rest as [|b rest]; [simpl in Hres; lia|].
      destruct (IH ptr n (MkUst (u_vas s) (Uio.with_iov (b :: rest) (u_uio s))) out) as (rc & s' & d & Hrun & Hrun' & Hd);
        [by eapply ready_skip|done|simpl in *; lia|].
      exists rc, s', d. split; [exact Hrun|]. split; [exact Hrun'|done].
    + rewrite bool_decide_false by lia.
      destruct (transfer_abs ptr base size (u_uio s) (u_vas s)) as (v1 & Hrun & Hb1 & Hbad & Hin & Hout); try done; try lia.
      unfold dest, source in Hin, Hout. rewrite Hrw in Hin, Hout. change (UIO_WRITE =? UIO_READ) with false in Hin, Hout. cbv iota in Hin, Hout.
      assert (forall a, a ∈ addrs (u_uio s) -> vmem v1 a = vmem (u_vas s) a) as Hsame.
      { intros a Ha. apply Hout. destruct (Hap a Ha); lia. }
      rewrite (bind_run _ _ _ _ _ (zoom_Ret u_vas (fun x s => MkUst x (u_uio s)) _ s _ _ Hrun)).
      assert (existsb snd (take (Z.to_nat size) (abs_cell (u_vas s) (u_uio s) <$> block (base, len))) =
              existsb (flag (u_vas s) (uio_segflg (u_uio s))) (seqZ base size)) as ->.
      { rewrite <- fmap_take. unfold block; simpl. rewrite take_seqZ by lia. by rewrite existsb_fmap. }
      destruct (existsb _ _) eqn:Hfl; cbn [Z.eqb negb EFAULT].
      { exists EFAULT. eexists _, []. split; [reflexivity|]. split; [|split; [done|intros x Hx; apply Hout; lia]].
        f_equal. f_equal. rewrite (abs_ext _ (u_vas s)) by done. unfold abs; cbn [u_uio u_vas]. by rewrite Hi. }
      unfold upd_uio. mrun. cbn [u_uio u_vas].
      match goal with |- context [uiomove_loop fuel _ _ ?st] => change st with (MkUst v1 (adv base len size rest (u_uio s))) end.
      match goal with |- context [Stream.in_loop fuel _ ≫= _] =>
        match goal with |- context [(_ ≫= _) ?st] =>
        replace st with (abs (out ++ []) (MkUst v1 (adv base len size rest (u_uio s)))) end end.
      2:{ rewrite (abs_moved _ _ s) by (done || lia). unfold abs at 1. rewrite Hi. reflexivity. }
      rewrite app_nil_r. replace (Z.to_nat n - Z.to_nat size)%nat with (Z.to_nat (n - size)) by lia.
      destruct (IH (ptr + size) (n - size) (MkUst v1 (adv base len size rest (u_uio s))) out)
        as (rc & s' & d & Hrun1 & Hrun2 & Hd & Ho); [by eapply ready_step; [..|lia|]; (done || lia)|done|simpl in *; lia|].
      rewrite (bind_run _ _ _ _ _ Hrun2). cbn [u_vas] in Ho.
      assert ((take (Z.to_nat size) (abs_cell (u_vas s) (u_uio s) <$> block (base, len))).*1 = bytes (u_vas s') ptr size) as ->.
      { rewrite <- fmap_take. unfold block; simpl. rewrite take_seqZ by lia. rewrite <- list_fmap_compose. unfold bytes.
        apply list_eq_same_length with (n := Z.to_nat size); [by rewrite length_fmap, length_seqZ..|].
        intros i x y Hir Hx Hy. apply list_lookup_fmap_Some in Hx as (a & -> & [-> Ha]%lookup_seqZ), Hy as (b & -> & [-> Hb']%lookup_seqZ).
        unfold abs_cell; simpl. rewrite Hrw. rewrite Ho by lia. symmetry. apply Hin; [done|lia]. }
      exists rc, s', (bytes (u_vas s') ptr size ++ d). split; [exact Hrun1|]. split; [done|]. split.
      * rewrite length_app. unfold bytes at 2. rewrite length_fmap, length_seqZ. unfold bytes.
        rewrite (seqZ_split _ _ size), fmap_app by lia. f_equal. rewrite <- Hd at 2. unfold bytes. do 2 f_equal. lia.
      * intros x Hx. rewrite Ho by lia. apply Hout. lia.
Qed.

(** The checks at the start of [uiomove]. *)
Lemma uiomove_checked curas ptr n s :
  usable curas (u_uio s) -> uiomove curas ptr n s = uiomove_loop (Z.to_nat n + length (uio_iov (u_uio s))) ptr n s.
Proof.
  intros (Hrw & Hseg & Hsp). unfold uiomove. mrun.
  replace (negb (uio_rw (u_uio s) =? UIO_READ) && negb (uio_rw (u_uio s) =? UIO_WRITE)) with false
    by (destruct Hrw as [->| ->]; done). mrun.
  match goal with |- context [mbind _ (if ?b then ?x else ?y) _] =>
    assert ((if b then x else y) s = Ret (tt, s)) as Hka
      by (destruct b; rewrite Hsp; by rewrite bool_decide_true) end.
  by rewrite (bind_run _ _ _ _ _ Hka).
Qed.

(** C26 uiomove_out_refines. For a reading uio whose blocks are disjoint from each
    other and from the kernel buffer, [uiomove] does what [Stream.uiomove_out]
    does with the bytes of the buffer: it returns the same code and leaves the
    same uio, the bytes delivered are in the first cells of the blocks, in order,
    and no memory outside the blocks changes. *)
Theorem uiomove_out_refines curas ptr n s :
  ready ptr n s -> usable curas (u_uio s) -> uio_rw (u_uio s) = UIO_READ ->
  exists rc s' d, uiomove curas ptr n s = Ret (rc, s') /\
    Stream.uiomove_out (bytes (u_vas s) ptr n) (abs [] s) = Ret (rc, abs d s') /\
    vmem (u_vas s') <$> take (length d) (addrs (u_uio s)) = d /\
    (forall x, x ∉ addrs (u_uio s) -> vmem (u_vas s') x = vmem (u_vas s) x).
Proof.
  intros Hrd Hu Hrw. rewrite uiomove_checked by done. unfold Stream.uiomove_out. mrun. unfold abs at 1; simpl. rewrite length_fmap.
  unfold bytes at 1. rewrite length_fmap, length_seqZ.
  apply (out_sim (Z.to_nat n + length (uio_iov (u_uio s))) ptr n s []); [done|done|lia].
Qed.

(** uiomove_in_refines. For a writing uio [uiomove] does what [Stream.uiomove_in]
    does: the same code, the same uio, and the bytes taken from the blocks are in
    the kernel buffer; no other memory changes. *)
Theorem uiomove_in_refines curas ptr n s :
  ready ptr n s -> usable curas (u_uio s) -> uio_rw (u_uio s) = UIO_WRITE ->
  exists rc s' d, uiomove curas ptr n s = Ret (rc, s') /\
    Stream.uiomove_in n (abs [] s) = Ret ((rc, d), abs [] s') /\
    bytes (u_vas s') ptr (Z.of_nat (length d)) = d /\
    (forall x, ~ (ptr <= x < ptr + n) -> vmem (u_vas s') x = vmem (u_vas s) x).
Proof.
  intros Hrd Hu Hrw. rewrite uiomove_checked by done. unfold Stream.uiomove_in. mrun. unfold abs at 1; simpl. rewrite length_fmap.
  apply (in_sim (Z.to_nat n + length (uio_iov (u_uio s))) ptr n s []); [done|done|lia].
Qed.

(** Two user blocks, the second of which ends in unmapped memory. *)
Definition sample_ust (rw : Z) : ust :=
  MkUst (Vas (fun x => x mod 256) (fun a => 0x4000 <=? a) false)
    (MkUio [(0x2000, 3); (0x3ffe, 5)] 10 8 UIO_USERSPACE rw (Some 1)).

Lemma sample_ust_ready rw : ready 0x80001000 6 (sample_ust rw).
Proof.
  split.
  - split_and!; simpl; [|lia|lia]. repeat constructor; simpl; lia.
  - repeat constructor; simpl; lia.
  - simpl. unfold UIO_USERSPACE. lia.
  - done.
  - by vm_compute.
  - lia.
  - apply (bool_decide_unpack _). vm_compute. exact I.
  - intros a Ha. left. unfold addrs, sample_ust, block in Ha. cbn [u_uio uio_iov fmap list_fmap concat fst snd] in Ha.
    rewrite app_nil_r, elem_of_app, !elem_of_seqZ in Ha. lia.
Qed.

Lemma uiomove_out_refines_witness :
  exists rc s' d, uiomove (Some 1) 0x80001000 6 (sample_ust UIO_READ) = Ret (rc, s') /\ rc = EFAULT /\ length d = 3%nat /\
    vmem (u_vas s') <$> seqZ 0x2000 3 = d.
Proof.
  destruct (uiomove_out_refines (Some 1) 0x80001000 6 (sample_ust UIO_READ)) as (rc & s' & d & Hrun & Hrun' & Hd & _);
    [apply sample_ust_ready|split_and!; [by left|done|done|done]|done|].
  assert (match Stream.uiomove_out (bytes (u_vas (sample_ust UIO_READ)) 0x80001000 6) (abs [] (sample_ust UIO_READ)) with
          | Ret (rc, u) => rc = EFAULT /\ length (Stream.uio_out u) = 3%nat | _ => False end) as E by (by vm_compute).
  rewrite Hrun' in E. destruct E as [-> El]. change (length d = 3%nat) in El.
  exists EFAULT, s', d. rewrite El in Hd. by split_and!.
Defined.

Lemma uiomove_in_refines_witness :
  exists rc s' d, uiomove (Some 1) 0x80001000 5 (sample_ust UIO_WRITE) = Ret (rc, s') /\ rc = 0 /\
    bytes (u_vas s') 0x80001000 (Z.of_nat (length d)) = d /\ d = [0; 1; 2; 254; 255].
Proof.
  destruct (uiomove_in_refines (Some 1) 0x80001000 5 (sample_ust UIO_WRITE)) as (rc & s' & d & Hrun & Hrun' & Hd & _).
  - destruct (sample_ust_ready UIO_WRITE). split; try done. intros a Ha. specialize (rd_apart0 a Ha). lia.
  - split_and!; [by right|done|done|done].
  - done.
  - assert (match Stream.uiomove_in 5 (abs [] (sample_ust UIO_WRITE)) with
          | Ret ((rc, d), u) => rc = 0 /\ d = [0; 1; 2; 254; 255] | _ => False end) as E by (by vm_compute).
    rewrite Hrun' in E. destruct E as [-> ->]. exists 0, s', [0; 1; 2; 254; 255]. by split_and!.
Defined.

End UioStream.
