(* ===== verification/Lhd.v ===== *)
(** * The disk driver: [kern/dev/lamebus/lhd.c]

    [lhd_io] moves whole sectors between a uio and the disk through the buffer on
    the card: it sets the sector and status registers, waits on a semaphore for
    the interrupt handler [lhd_irq], and copies the data.  The disk itself is
    hardware, used through the class [Lhdhw]; [LhdhwOk] states what its
    documentation promises.  The theorems give the effect of a transfer on a
    sound disk and the rejected requests. *)

From S2P Require Import Prelude Copy Stream.

(** ** The hardware

    [hw_io iswrite sector buf d] performs an operation: the status code it
    leaves, the on-card buffer and the disk afterwards. *)
Class Lhdhw := {
  disk : Type;
  hw_nsect : disk -> Z;
  hw_io : bool -> Z -> list Z -> disk -> Z * list Z * disk;
}.

Module Lhd.
Import Stream.

Definition LHD_IDLE : Z := 0.
Definition LHD_WORKING : Z := 1.
Definition LHD_ISWRITE : Z := 2.
Definition LHD_OK : Z := 4.
Definition LHD_INVSECT : Z := 12.
Definition LHD_MEDIA : Z := 20.
Definition LHD_STATEMASK : Z := 0x1d.
Definition LHD_SECTSIZE : Z := 512.

Section Driver.
Context `{Lhdhw}.

(** [struct lhd_softc] with the device's registers; [lh_clear] and [lh_done] are
    the counts of the two semaphores. *)
Record lhd := MkLhd {
  lh_hw : disk;
  lh_buf : list Z;
  lh_reg_sect : Z;
  lh_reg_stat : Z;
  lh_result : Z;
  lh_clear : Z;
  lh_done : Z;
  d_blocks : Z;
}.

Definition with_reg_stat (x : Z) (l : lhd) : lhd :=
  MkLhd (lh_hw l) (lh_buf l) (lh_reg_sect l) x (lh_result l) (lh_clear l) (lh_done l) (d_blocks l).
Definition with_reg_sect (x : Z) (l : lhd) : lhd :=
  MkLhd (lh_hw l) (lh_buf l) x (lh_reg_stat l) (lh_result l) (lh_clear l) (lh_done l) (d_blocks l).
Definition with_buf (x : list Z) (l : lhd) : lhd :=
  MkLhd (lh_hw l) x (lh_reg_sect l) (lh_reg_stat l) (lh_result l) (lh_clear l) (lh_done l) (d_blocks l).
Definition with_result (x : Z) (l : lhd) : lhd :=
  MkLhd (lh_hw l) (lh_buf l) (lh_reg_sect l) (lh_reg_stat l) x (lh_clear l) (lh_done l) (d_blocks l).
Definition with_clear (x : Z) (l : lhd) : lhd :=
  MkLhd (lh_hw l) (lh_buf l) (lh_reg_sect l) (lh_reg_stat l) (lh_result l) x (lh_done l) (d_blocks l).
Definition with_done (x : Z) (l : lhd) : lhd :=
  MkLhd (lh_hw l) (lh_buf l) (lh_reg_sect l) (lh_reg_stat l) (lh_result l) (lh_clear l) x (d_blocks l).

Definition lhd_code_to_errno (code : Z) : Z :=
  let st := Z.land code LHD_STATEMASK in
  if st =? LHD_OK then 0
  else if st =? LHD_INVSECT then EINVAL
  else if st =? LHD_MEDIA then EIO
  else EAGAIN.

(** The store and [V(lh->lh_done)]. *)
Definition lhd_iodone (err : Z) : M lhd unit :=
  modify (with_result err);;
  modify (fun l => with_done (lh_done l + 1) l).

Definition lhd_irq : M lhd unit :=
  val ← gets lh_reg_stat;
  let st := Z.land val LHD_STATEMASK in
  if (st =? LHD_OK) || (st =? LHD_INVSECT) || (st =? LHD_MEDIA) then
    modify (with_reg_stat 0);;
    lhd_iodone (lhd_code_to_errno val)
  else mret tt.

(** The device works off the operation in its registers and interrupts. *)
Definition device_completes : M lhd unit :=
  l ← get;
  let '(code, buf, hw) := hw_io (Z.testbit (lh_reg_stat l) 1) (lh_reg_sect l) (lh_buf l) (lh_hw l) in
  modify (fun l => MkLhd hw buf (lh_reg_sect l) code (lh_result l) (lh_clear l) (lh_done l) (d_blocks l));;
  lhd_irq.

(** [P] on one of the two semaphores: nobody else can raise [lh_clear] while the
    only thread that uses the disk waits for it. *)
Definition P_clear : M lhd unit := fun l =>
  if 0 <? lh_clear l then Ret (tt, with_clear (lh_clear l - 1) l) else Spin.
Definition V_clear : M lhd unit := modify (fun l => with_clear (lh_clear l + 1) l).
Definition P_done : M lhd unit := fun l =>
  if 0 <? lh_done l then Ret (tt, with_done (lh_done l - 1) l) else Spin.

Abbreviation Dio := (M (lhd * uio)).

Definition on_lhd {A} (c : M lhd A) : Dio A := zoom fst (fun l s => (l, snd s)) c.
Definition on_uio {A} (c : M uio A) : Dio A := zoom snd (fun u s => (fst s, u)) c.

(** [uiomove(lh->lh_buf, LHD_SECTSIZE, uio)] *)
Definition move_buf : Dio Z :=
  s ← get;
  if uio_rw (snd s) =? Uio.UIO_READ then on_uio (uiomove_out (lh_buf (fst s)))
  else
    '(rc, bs) ← on_uio (uiomove_in LHD_SECTSIZE);
    on_lhd (modify (fun l => with_buf (bs ++ drop (length bs) (lh_buf l)) l));;
    mret rc.

(** One round of the loop. *)
Definition lhd_sector (sect statval : Z) : Dio Z :=
  on_lhd P_clear;;
  s ← get;
  let rw := uio_rw (snd s) in
  result ← (if rw =? Uio.UIO_WRITE then move_buf else mret 0);
  if negb (result =? 0) then on_lhd V_clear;; mret result
  else
    on_lhd (modify (with_reg_sect sect));;
    on_lhd (modify (with_reg_stat statval));;
    on_lhd device_completes;;
    on_lhd P_done;;
    s ← get;
    let result := lh_result (fst s) in
    result ← (if (result =? 0) && (rw =? Uio.UIO_READ) then move_buf else mret result);
    on_lhd V_clear;;
    mret result.

(** The rounds [i], ..., [i + n - 1]. *)
Fixpoint lhd_loop (n : nat) (sector i statval : Z) : Dio Z :=
  match n with
  | O => mret 0
  | S n' =>
      result ← lhd_sector (u32 (sector + i)) statval;
      if negb (result =? 0) then mret result
      else lhd_loop n' sector (i + 1) statval
  end.

Definition lhd_io : Dio Z :=
  s ← get;
  let u := snd s in
  let sector := u32 (Z.quot (uio_offset u) LHD_SECTSIZE) in
  let sectoff := u32 (Z.rem (uio_offset u) LHD_SECTSIZE) in
  let len := uio_resid u / LHD_SECTSIZE in
  let lenoff := uio_resid u mod LHD_SECTSIZE in
  if negb (sectoff =? 0) || negb (lenoff =? 0) then mret EINVAL
  else if d_blocks (fst s) <? u32 (sector + len) then mret EINVAL
  else
    let statval := if uio_rw u =? Uio.UIO_WRITE then Z.lor LHD_WORKING LHD_ISWRITE else LHD_WORKING in
    lhd_loop (Z.to_nat len) sector 0 statval.

Definition lhd_eachopen (openflags : Z) : M lhd Z := mret 0.
Definition lhd_ioctl (op data : Z) : M lhd Z := mret EIOCTL.

(** [ok1], [ok2]: whether [sem_create] succeeds. *)
Definition config_lhd (ok1 ok2 : bool) (vfs_adddev : Z) : M lhd Z :=
  if negb ok1 then mret ENOMEM
  else
    modify (with_clear 1);;
    if negb ok2 then modify (with_clear 0);; mret ENOMEM
    else
      modify (with_done 0);;
      modify (fun l => MkLhd (lh_hw l) (lh_buf l) (lh_reg_sect l) (lh_reg_stat l) (lh_result l)
                         (lh_clear l) (lh_done l) (hw_nsect (lh_hw l)));;
      mret vfs_adddev.

End Driver.

(** ** What the disk promises

    [sector d x] is what is stored in sector [x]; [healthy d] says that the medium
    will not fail.  A read leaves the disk as it was; a write changes one sector,
    even when it fails. *)
Definition is_block (bs : list Z) : Prop :=
  length bs = 512%nat /\ Forall (fun b => 0 <= b < 256) bs.

Class LhdhwOk `{Lhdhw} := {
  sector : disk -> Z -> list Z;
  healthy : disk -> Prop;
  sector_block d x : is_block (sector d x);
  hw_nsect_range d : 0 <= hw_nsect d < 2 ^ 31;
  hw_read d x buf code buf' d' :
    0 <= x < hw_nsect d -> hw_io false x buf d = (code, buf', d') ->
    hw_nsect d' = hw_nsect d /\ (forall y, sector d' y = sector d y) /\
    (code = LHD_OK /\ buf' = sector d x \/ code = LHD_MEDIA /\ is_block buf' /\ ~ healthy d) /\
    (healthy d -> healthy d');
  hw_write d x buf code buf' d' :
    0 <= x < hw_nsect d -> is_block buf -> hw_io true x buf d = (code, buf', d') ->
    hw_nsect d' = hw_nsect d /\ buf' = buf /\ (forall y, y <> x -> sector d' y = sector d y) /\
    (code = Z.lor LHD_OK LHD_ISWRITE /\ sector d' x = buf \/
     code = Z.lor LHD_MEDIA LHD_ISWRITE /\ ~ healthy d) /\
    (healthy d -> healthy d');
}.

Section Transfers.
Context `{HW : LhdhwOk}.

Abbreviation Dio := (M (lhd * uio)).

(** The driver between two requests. *)
Definition ready (l : lhd) : Prop :=
  lh_clear l = 1 /\ lh_done l = 0 /\ d_blocks l = hw_nsect (lh_hw l) /\ is_block (lh_buf l).

(** Same disk contents; a disk without faults stays one. *)
Definition same_disk (l l' : lhd) : Prop :=
  ready l' /\ d_blocks l' = d_blocks l /\ (healthy (lh_hw l) -> healthy (lh_hw l')) /\
  forall x, sector (lh_hw l') x = sector (lh_hw l) x.

(** The sectors from [s] on hold [bs]; the others are unchanged. *)
Definition written (s : Z) (bs : list Z) (l l' : lhd) : Prop :=
  ready l' /\ d_blocks l' = d_blocks l /\ (healthy (lh_hw l) -> healthy (lh_hw l')) /\
  (forall i, (i < length bs / 512)%nat ->
     sector (lh_hw l') (s + Z.of_nat i) = take 512 (drop (512 * i) bs)) /\
  forall x, x < s \/ s + Z.of_nat (length bs / 512) <= x -> sector (lh_hw l') x = sector (lh_hw l) x.

Lemma on_lhd_run {A} (c : M lhd A) l u a l' :
  c l = Ret (a, l') -> on_lhd c (l, u) = Ret (a, (l', u)).
Proof. intros Hc. unfold on_lhd, zoom. simpl. by rewrite Hc. Qed.

Lemma dio_uio_run {A} (c : M uio A) l u a u' :
  c u = Ret (a, u') -> on_uio c (l, u) = Ret (a, (l, u')).
Proof. intros Hc. unfold on_uio, zoom. simpl. by rewrite Hc. Qed.

(** What [device_completes] and [P_done] do with an operation that ends with
    [code]. *)
Lemma completes_run l code buf hw st :
  hw_io (Z.testbit (lh_reg_stat l) 1) (lh_reg_sect l) (lh_buf l) (lh_hw l) = (code, buf, hw) ->
  Z.land code LHD_STATEMASK = st -> st = LHD_OK \/ st = LHD_INVSECT \/ st = LHD_MEDIA -> lh_done l = 0 ->
  mbind (fun _ => P_done) device_completes l =
    Ret (tt, MkLhd hw buf (lh_reg_sect l) 0 (lhd_code_to_errno code) (lh_clear l) 0 (d_blocks l)).
Proof.
  intros Hio Hst Hcase Hd. unfold device_completes. mrun. rewrite Hio. mrun.
  unfold lhd_irq. mrun. cbn [lh_reg_stat]. rewrite Hst.
  replace ((st =? LHD_OK) || (st =? LHD_INVSECT) || (st =? LHD_MEDIA)) with true
    by (by destruct Hcase as [->|[->| ->]]).
  unfold lhd_iodone. mrun. unfold P_done. cbn [lh_done with_done with_result with_reg_stat].
  rewrite Hd. done.
Qed.

(** The part of a round between the two semaphore operations on [lh_clear]. *)
Lemma issue_run {A} l u x statval code buf hw (k : unit -> Dio A) :
  hw_io (Z.testbit statval 1) x (lh_buf l) (lh_hw l) = (code, buf, hw) ->
  (let st := Z.land code LHD_STATEMASK in st = LHD_OK \/ st = LHD_INVSECT \/ st = LHD_MEDIA) -> lh_done l = 0 ->
  (on_lhd (modify (with_reg_sect x));; on_lhd (modify (with_reg_stat statval));;
   on_lhd device_completes;; on_lhd P_done ≫= k) (l, u) =
  k tt (MkLhd hw buf x 0 (lhd_code_to_errno code) (lh_clear l) 0 (d_blocks l), u).
Proof.
  intros Hio Hst Hd.
  rewrite (bind_run _ _ _ _ _ (on_lhd_run _ l u _ _ eq_refl)).
  rewrite (bind_run _ _ _ _ _ (on_lhd_run _ _ u _ _ eq_refl)).
  set (l1 := with_reg_stat statval (with_reg_sect x l)).
  pose proof (completes_run l1 code buf hw _ Hio eq_refl Hst Hd) as Hc.
  apply bind_Ret_inv in Hc as ([] & l2 & H1 & H2).
  rewrite (bind_run _ _ _ _ _ (on_lhd_run _ l1 u _ _ H1)).
  by rewrite (bind_run _ _ _ _ _ (on_lhd_run _ l2 u _ _ H2)).
Qed.

Lemma P_clear_run l : ready l -> P_clear l = Ret (tt, with_clear 0 l).
Proof. intros (Hc & _). unfold P_clear. by rewrite Hc. Qed.

Lemma sector_read l u x :
  ready l -> good u -> uio_rw u = Uio.UIO_READ -> 512 <= uio_resid u -> 0 <= x < hw_nsect (lh_hw l) ->
  exists rc l' u', lhd_sector x LHD_WORKING (l, u) = Ret (rc, (l', u')) /\ same_disk l l' /\
    (rc = 0 /\ advanced 512 (sector (lh_hw l) x) u u' /\ good u' \/ rc = EIO /\ u' = u /\ ~ healthy (lh_hw l)).
Proof.
  intros Hrd Hg Hrw Hres Hx. unfold lhd_sector.
  rewrite (bind_run _ _ _ _ _ (on_lhd_run _ l u _ _ (P_clear_run l Hrd))). mrun. cbn [snd]. rewrite Hrw.
  change (Uio.UIO_READ =? Uio.UIO_WRITE) with false. change (Uio.UIO_READ =? Uio.UIO_READ) with true. cbn [negb]. mrun. cbn [Z.eqb negb].
  destruct (hw_io false x (lh_buf l) (lh_hw l)) as [[code buf] hw] eqn:Hio.
  destruct (hw_read _ _ _ _ _ _ Hx Hio) as (Hn & Hsec & Hres' & Hh). destruct Hrd as (Hc & Hd & Hb & Hblk).
  rewrite (issue_run (with_clear 0 l) u x LHD_WORKING code buf hw); [|exact Hio| |done].
  2:{ destruct Hres' as [[-> _]|[-> _]]; vm_compute; auto. }
  mrun. cbn [fst lh_result]. destruct Hres' as [[-> Hbuf]|(-> & Hbuf & Hnh)].
  - change (lhd_code_to_errno LHD_OK) with 0. cbn [Z.eqb andb]. unfold move_buf. mrun. cbn [fst snd]. rewrite Hrw.
    change (Uio.UIO_READ =? Uio.UIO_READ) with true. cbn [lh_buf]. rewrite Hbuf.
    pose proof (sector_block (lh_hw l) x) as [Hlen Hby].
    destruct (uiomove_out_run (sector (lh_hw l) x) u Hg ltac:(lia)) as (u' & Hrun & Hadv & Hg').
    rewrite (bind_run _ _ _ _ _ (dio_uio_run _ _ u _ _ Hrun)).
    rewrite (bind_run _ _ _ _ _ (on_lhd_run _ _ u' _ _ eq_refl)).
    eexists 0, _, u'. split; [reflexivity|]. rewrite Hlen in Hadv.
    split; [|by left]. unfold same_disk, ready.
    split_and!; cbn; try done; first [apply sector_block|congruence].
  - change (lhd_code_to_errno LHD_MEDIA) with EIO. cbn [Z.eqb andb EIO]. mrun.
    rewrite (bind_run _ _ _ _ _ (on_lhd_run _ _ u _ _ eq_refl)).
    eexists EIO, _, u. split; [reflexivity|]. split; [|by right]. unfold same_disk, ready.
    split_and!; cbn; try done; first [apply Hbuf|congruence].
Qed.

Lemma sector_write l u x :
  ready l -> good u -> uio_rw u = Uio.UIO_WRITE -> 512 <= uio_resid u -> 0 <= x < hw_nsect (lh_hw l) ->
  Forall (fun b => 0 <= b < 256) ((cells u).*1) ->
  exists rc l' u', lhd_sector x (Z.lor LHD_WORKING LHD_ISWRITE) (l, u) = Ret (rc, (l', u')) /\
    advanced 512 [] u u' /\ good u' /\ ready l' /\ d_blocks l' = d_blocks l /\
    (healthy (lh_hw l) -> healthy (lh_hw l')) /\
    (forall y, y <> x -> sector (lh_hw l') y = sector (lh_hw l) y) /\
    (rc = 0 /\ sector (lh_hw l') x = take 512 (cells u).*1 \/ rc = EIO /\ ~ healthy (lh_hw l)).
Proof.
  intros Hrd Hg Hrw Hres Hx Hby. unfold lhd_sector.
  rewrite (bind_run _ _ _ _ _ (on_lhd_run _ l u _ _ (P_clear_run l Hrd))). mrun. cbn [snd]. rewrite Hrw.
  change (Uio.UIO_WRITE =? Uio.UIO_READ) with false. change (Uio.UIO_WRITE =? Uio.UIO_WRITE) with true.
  unfold move_buf. mrun. cbn [fst snd]. rewrite Hrw. change (Uio.UIO_WRITE =? Uio.UIO_READ) with false. cbn [negb]. mrun.
  destruct (uiomove_in_run LHD_SECTSIZE u Hg ltac:(unfold LHD_SECTSIZE; lia)) as (u' & Hrun & Hadv & Hg').
  change (Z.to_nat LHD_SECTSIZE) with 512%nat in *.
  rewrite (bind_run _ _ _ _ _ (dio_uio_run _ _ u _ _ Hrun)). mrun.
  rewrite (bind_run _ _ _ _ _ (on_lhd_run _ _ u' _ _ eq_refl)). mrun. cbn [Z.eqb negb].
  destruct Hrd as (Hc & Hd & Hb & [Hblen Hbb]).
  assert (length (take 512 (cells u).*1) = 512%nat) as Hl512.
  { destruct Hg as (_ & Hr & _). rewrite length_take, length_fmap. lia. }
  set (bs := take 512 (cells u).*1) in *. cbn [with_clear with_buf lh_buf].
  replace (bs ++ drop (length bs) (lh_buf l)) with bs
    by (rewrite Hl512, drop_ge, app_nil_r; [done|lia]).
  assert (is_block bs) as Hblk by (split; [done|by apply Forall_take]).
  destruct (hw_io true x bs (lh_hw l)) as [[code buf] hw] eqn:Hio.
  destruct (hw_write _ _ _ _ _ _ Hx Hblk Hio) as (Hn & -> & Hother & Hres' & Hh).
  rewrite (issue_run (with_buf bs (with_clear 0 l)) u' x _ code bs hw); [|exact Hio| |done].
  2:{ destruct Hres' as [[-> _]|[-> _]]; vm_compute; auto. }
  mrun. cbn [fst lh_result]. rewrite andb_false_r. cbn [negb]. mrun.
  rewrite (bind_run _ _ _ _ _ (on_lhd_run _ _ u' _ _ eq_refl)).
  eexists _, _, u'. split; [reflexivity|]. split; [done|]. split; [done|].
  split; [unfold ready; split_and!; cbn; first [done|apply Hblk|congruence]|]. split; [done|]. split; [done|]. split; [done|].
  destruct Hres' as [[-> Hs]|[-> Hnh]]; [by left|by right].
Qed.

(** The contents of [n] sectors from [x] on. *)
Fixpoint sectors (d : disk) (x : Z) (n : nat) : list Z :=
  match n with O => [] | S n' => sector d x ++ sectors d (x + 1) n' end.

Lemma same_disk_trans l1 l2 l3 : same_disk l1 l2 -> same_disk l2 l3 -> same_disk l1 l3.
Proof.
  intros (_ & Hb & Hh & Hs) (Hr & Hb' & Hh' & Hs'). unfold same_disk. split_and!; [done|congruence|auto|].
  intros x. by rewrite Hs', Hs.
Qed.

Lemma sectors_ext d d' x n : (forall y, sector d' y = sector d y) -> sectors d' x n = sectors d x n.
Proof. intros Hs. revert x. induction n as [|n IH]; intros x; simpl; [done|]. by rewrite Hs, IH. Qed.

Lemma ready_blocks l : ready l -> hw_nsect (lh_hw l) = d_blocks l.
Proof. by intros (_ & _ & -> & _). Qed.

Lemma same_disk_refl l : ready l -> same_disk l l.
Proof. intros Hrd. unfold same_disk. by split_and!. Qed.

Lemma loop_read n s i l u :
  ready l -> healthy (lh_hw l) -> good u -> uio_rw u = Uio.UIO_READ -> 512 * Z.of_nat n <= uio_resid u ->
  0 <= s + i -> s + i + Z.of_nat n <= d_blocks l ->
  exists l' u', lhd_loop n s i LHD_WORKING (l, u) = Ret (0, (l', u')) /\ same_disk l l' /\
    advanced (512 * n) (sectors (lh_hw l) (s + i) n) u u' /\ good u'.
Proof.
  revert i l u. induction n as [|n IH]; intros i l u Hrd Hh Hg Hrw Hres H0 Hn; cbn [lhd_loop].
  - exists l, u. split_and!; [done|by apply same_disk_refl|apply advanced_refl|done].
  - pose proof (hw_nsect_range (lh_hw l)). pose proof (ready_blocks l Hrd) as Hb.
    rewrite u32_id by lia.
    destruct (sector_read l u (s + i)) as (rc & l1 & u1 & Hrun & Hsame & [(-> & Hadv & Hg1)|(_ & _ & [])]);
      try done; [lia..|].
    rewrite (bind_run _ _ _ _ _ Hrun). cbn [Z.eqb negb].
    pose proof Hsame as (Hrd1 & Hbl & Hh1 & Hs1). pose proof Hadv as (_ & _ & Hr1 & Hw1 & _).
    destruct (IH (i + 1) l1 u1) as (l' & u' & Hrun' & Hsame' & Hadv' & Hg'); try done; [by apply Hh1|congruence|lia..|].
    exists l', u'. split_and!; [exact Hrun'|by eapply same_disk_trans| |done].
    rewrite (sectors_ext _ _ _ _ Hs1) in Hadv'. replace (s + (i + 1)) with (s + i + 1) in Hadv' by lia.
    pose proof (advanced_trans _ _ _ _ _ _ _ Hadv Hadv') as Ht.
    by replace (512 * S n)%nat with (512 + 512 * n)%nat by lia.
Qed.

(** The checks at the start of [lhd_io] accept an aligned request inside the
    disk. *)
Lemma lhd_io_start l u s n :
  uio_offset u = 512 * s -> uio_resid u = 512 * n -> 0 <= s -> 0 <= n -> s + n <= d_blocks l -> d_blocks l < 2 ^ 31 ->
  lhd_io (l, u) = lhd_loop (Z.to_nat n) s 0
    (if uio_rw u =? Uio.UIO_WRITE then Z.lor LHD_WORKING LHD_ISWRITE else LHD_WORKING) (l, u).
Proof.
  intros Ho Hr Hs Hn Hle Hd. unfold lhd_io, LHD_SECTSIZE. mrun. cbn [fst snd]. rewrite Ho, Hr.
  rewrite Z.rem_mod_nonneg, Z.quot_div_nonneg by lia.
  replace (512 * s / 512) with s by lia. replace ((512 * s) mod 512) with 0 by (by rewrite Z.mul_comm, Z_mod_mult).
  replace (512 * n / 512) with n by lia. replace ((512 * n) mod 512) with 0 by (by rewrite Z.mul_comm, Z_mod_mult).
  rewrite (u32_id s), (u32_id 0), u32_id by lia. cbn [Z.eqb negb orb]. by rewrite (proj2 (Z.ltb_ge _ _)) by lia.
Qed.

(** lhd_io_read. A request for [n] sectors inside a sound disk returns 0 and
    delivers exactly their contents, in order; the disk is unchanged and the
    driver ready for the next request. *)
Theorem lhd_io_read l u s n :
  ready l -> healthy (lh_hw l) -> good u -> uio_rw u = Uio.UIO_READ ->
  uio_offset u = 512 * s -> uio_resid u = 512 * Z.of_nat n -> 0 <= s -> s + Z.of_nat n <= d_blocks l ->
  exists l' u', lhd_io (l, u) = Ret (0, (l', u')) /\ same_disk l l' /\
    advanced (512 * n) (sectors (lh_hw l) s n) u u'.
Proof.
  intros Hrd Hh Hg Hrw Ho Hr Hs Hle. pose proof (hw_nsect_range (lh_hw l)). pose proof (ready_blocks l Hrd).
  rewrite (lhd_io_start l u s (Z.of_nat n)), Hrw, Nat2Z.id by (done || lia).
  destruct (loop_read n s 0 l u) as (l' & u' & Hrun & Hsame & Hadv & _); try done; [lia..|].
  rewrite Z.add_0_r in Hadv. by exists l', u'.
Qed.

(** One sector, on a disk that may fail. *)
Lemma lhd_io_one_read l u s :
  ready l -> good u -> uio_rw u = Uio.UIO_READ -> uio_offset u = 512 * s -> uio_resid u = 512 ->
  0 <= s < d_blocks l ->
  exists rc l' u', lhd_io (l, u) = Ret (rc, (l', u')) /\ same_disk l l' /\
    (rc = 0 /\ advanced 512 (sector (lh_hw l) s) u u' \/ rc = EIO /\ u' = u /\ ~ healthy (lh_hw l)).
Proof.
  intros Hrd Hg Hrw Ho Hr Hs. pose proof (hw_nsect_range (lh_hw l)). pose proof (ready_blocks l Hrd).
  rewrite (lhd_io_start l u s 1), Hrw by (done || lia). change (Z.to_nat 1) with 1%nat. cbn [lhd_loop].
  rewrite u32_id, Z.add_0_r by lia.
  destruct (sector_read l u s) as (rc & l' & u' & Hrun & Hsame & Hcase); try done; [lia..|].
  change (Uio.UIO_READ =? Uio.UIO_WRITE) with false. cbv iota. rewrite (bind_run _ _ _ _ _ Hrun).
  exists rc, l', u'. split_and!; [|done|]; [by destruct (Z.eqb_spec rc 0) as [->|]|].
  destruct Hcase as [(-> & ? & _)|?]; [by left|by right].
Qed.

Lemma lhd_io_one_write l u s :
  ready l -> good u -> uio_rw u = Uio.UIO_WRITE -> uio_offset u = 512 * s -> uio_resid u = 512 ->
  0 <= s < d_blocks l -> Forall (fun b => 0 <= b < 256) (cells u).*1 ->
  exists rc l' u', lhd_io (l, u) = Ret (rc, (l', u')) /\ advanced 512 [] u u' /\ good u' /\
    ready l' /\ d_blocks l' = d_blocks l /\ (healthy (lh_hw l) -> healthy (lh_hw l')) /\
    (forall y, y <> s -> sector (lh_hw l') y = sector (lh_hw l) y) /\
    (rc = 0 /\ sector (lh_hw l') s = take 512 (cells u).*1 \/ rc = EIO /\ ~ healthy (lh_hw l)).
Proof.
  intros Hrd Hg Hrw Ho Hr Hs Hby. pose proof (hw_nsect_range (lh_hw l)). pose proof (ready_blocks l Hrd).
  rewrite (lhd_io_start l u s 1), Hrw by (done || lia). change (Z.to_nat 1) with 1%nat. cbn [lhd_loop].
  rewrite u32_id, Z.add_0_r by lia.
  destruct (sector_write l u s) as (rc & l' & u' & Hrun & Hrest); try done; [lia..|].
  change (Uio.UIO_WRITE =? Uio.UIO_WRITE) with true. cbv iota. rewrite (bind_run _ _ _ _ _ Hrun).
  exists rc, l', u'. split; [|done]. by destruct (Z.eqb_spec rc 0) as [->|].
Qed.

(** A request for no sectors succeeds without touching the disk. *)
Lemma lhd_io_none l u s :
  uio_offset u = 512 * s -> uio_resid u = 0 -> 0 <= s <= d_blocks l -> d_blocks l < 2 ^ 31 -> lhd_io (l, u) = Ret (0, (l, u)).
Proof. intros Ho Hr Hs Hd. by rewrite (lhd_io_start l u s 0) by (done || lia). Qed.

(** lhd_io_rejects. A request that is not a whole number of sectors at a sector
    boundary, or that ends beyond the disk, fails with [EINVAL] and has no
    effect. *)
Theorem lhd_io_rejects l u :
  0 <= uio_offset u < 2 ^ 40 -> 0 <= uio_resid u < 2 ^ 32 -> 0 <= d_blocks l < 2 ^ 31 ->
  uio_offset u mod 512 <> 0 \/ uio_resid u mod 512 <> 0 \/ 512 * d_blocks l < uio_offset u + uio_resid u ->
  lhd_io (l, u) = Ret (EINVAL, (l, u)).
Proof.
  intros Ho Hr Hd Hbad. unfold lhd_io, LHD_SECTSIZE. mrun. cbn [fst snd].
  rewrite Z.rem_mod_nonneg, Z.quot_div_nonneg by lia. rewrite (u32_id (uio_offset u mod 512)) by lia.
  destruct (Z.eqb_spec (uio_offset u mod 512) 0) as [E1|]; [|done].
  destruct (Z.eqb_spec (uio_resid u mod 512) 0) as [E2|]; [|done]. cbn [negb orb].
  destruct (Z.ltb_spec (d_blocks l) (u32 (u32 (uio_offset u / 512) + uio_resid u / 512))); [done|].
  exfalso. rewrite (u32_id (uio_offset u / 512)) in * by lia. rewrite u32_id in * by lia. lia.
Qed.

End Transfers.

(** ** A disk kept in memory

    [md_faults] lists, for the operations to come, whether the medium fails. *)
Record memdisk := Memdisk { md_nsect : Z; md_data : gmap Z (list Z); md_faults : list bool }.

Definition md_sector (d : memdisk) (x : Z) : list Z := u8 <$> resize 512 0 (default [] (md_data d !! x)).

Definition md_io (iswrite : bool) (x : Z) (buf : list Z) (d : memdisk) : Z * list Z * memdisk :=
  let failing := default false (head (md_faults d)) in
  let w := if iswrite then LHD_ISWRITE else 0 in
  if failing then (Z.lor LHD_MEDIA w, if iswrite then buf else md_sector d x,
                   Memdisk (md_nsect d) (md_data d) (tail (md_faults d)))
  else (Z.lor LHD_OK w, if iswrite then buf else md_sector d x,
        Memdisk (md_nsect d) (if iswrite then <[x := buf]> (md_data d) else md_data d) (tail (md_faults d))).

#[export] Instance memdisk_hw : Lhdhw :=
  { disk := memdisk; hw_nsect d := md_nsect d mod 2 ^ 31; hw_io := md_io }.

Lemma md_sector_block d x : is_block (md_sector d x).
Proof.
  unfold md_sector. split; [by rewrite length_fmap, length_resize|].
  apply Forall_fmap, Forall_true. intros b. apply u8_range.
Qed.

Lemma md_sector_insert n m x buf fs : is_block buf -> md_sector (Memdisk n (<[x := buf]> m) fs) x = buf.
Proof.
  intros [Hl Hb]. unfold md_sector. simpl. rewrite lookup_insert_eq. simpl. rewrite resize_all_alt by lia.
  rewrite <- (list_fmap_id buf) at 2. apply list_fmap_ext. intros i b Hi.
  apply u8_id. by apply (proj1 (Forall_lookup _ _) Hb i).
Qed.

Lemma faults_tail fs : Forall (eq false) fs -> Forall (eq false) (tail fs).
Proof. by destruct 1. Qed.

Lemma faults_head fs : Forall (eq false) fs -> default false (head fs) = false.
Proof. by destruct 1. Qed.

#[export] Instance memdisk_ok : LhdhwOk.
Proof.
  refine {| sector := md_sector; healthy d := Forall (eq false) (md_faults d) |}; simpl; unfold md_io.
  - apply md_sector_block.
  - intros d. apply Z.mod_pos_bound. lia.
  - intros d x buf code buf' d' _.
    destruct (default false (head (md_faults d))) eqn:Hf; intros [= <- <- <-]; simpl; (split_and!; [done|done| |apply faults_tail]).
    + right. split_and!; [done|apply md_sector_block|]. intros Hall%faults_head. congruence.
    + by left.
  - intros d x buf code buf' d' _ Hb.
    destruct (default false (head (md_faults d))) eqn:Hf; intros [= <- <- <-]; simpl;
      (split_and!; [done|done| | |apply faults_tail]); try done.
    + right. split; [done|]. intros Hall%faults_head. congruence.
    + intros y Hy. unfold md_sector. simpl. by rewrite lookup_insert_ne.
    + left. split; [done|by apply md_sector_insert].
Defined.

Definition sample_disk (faults : list bool) : memdisk :=
  Memdisk 64 (<[7 := replicate 512 9]> (<[8 := replicate 512 4]> ∅)) faults.

Definition sample_lhd (faults : list bool) : lhd :=
  MkLhd (H := memdisk_hw) (sample_disk faults) (replicate 512 0) 0 0 0 1 0 64.

Lemma sample_lhd_ready fs : ready (sample_lhd fs).
Proof. split_and!; try done. split; [done|]. by apply Forall_replicate. Qed.

Lemma lhd_io_read_witness :
  exists l' u', lhd_io (sample_lhd [], uio_kinit (replicate 1024 0) (512 * 7) Uio.UIO_READ) = Ret (0, (l', u')) /\
    uio_out u' = replicate 512 9 ++ replicate 512 4.
Proof.
  destruct (lhd_io_read (sample_lhd []) (uio_kinit (replicate 1024 0) (512 * 7) Uio.UIO_READ) 7 2)
    as (l' & u' & Hrun & _ & (_ & _ & _ & _ & Hout));
    [apply sample_lhd_ready|by constructor|by apply kinit_good|done|done|done|lia|done|].
  exists l', u'. split; [exact Hrun|]. rewrite Hout. vm_compute. reflexivity.
Defined.

Lemma lhd_io_rejects_witness :
  lhd_io (sample_lhd [], uio_kinit (replicate 512 0) (512 * 64) Uio.UIO_READ) =
  Ret (EINVAL, (sample_lhd [], uio_kinit (replicate 512 0) (512 * 64) Uio.UIO_READ)).
Proof. apply lhd_io_rejects; [cbn; lia..|]. right; right. by vm_compute. Defined.

End Lhd.
