(* ===== verification/SfsBlock.v ===== *)
(** * SFS on disk: block I/O and block allocation

    [Module Layout] holds the on-disk structures of [kern/include/kern/sfs.h] and
    their bytes (the machine is big-endian); [Module Blk] models the block-level
    routines of [fs/sfs/sfs_io.c] and [fs/sfs/sfs_balloc.c] on a volume: the disk
    driver, the superblock and the free block bitmap.  The theorems: structures
    are read back as they were written, a block that is allocated was free, is
    zeroed and belongs to nobody, and a write that the disk fails is reported as
    done. *)

From S2P Require Import Prelude Copy Stream Lhd Bitmap.

Module Layout.

Definition SFS_MAGIC : Z := 0xabadf001.
Definition SFS_BLOCKSIZE : Z := 512.
Definition SFS_VOLNAME_SIZE : Z := 32.
Definition SFS_NDIRECT : Z := 15.
Definition SFS_NINDIRECT : Z := 1.
Definition SFS_DBPERIDB : Z := 128.
Definition SFS_NAMELEN : Z := 60.
Definition SFS_SUPER_BLOCK : Z := 0.
Definition SFS_FREEMAP_START : Z := 2.
Definition SFS_NOINO : Z := 0.
Definition SFS_ROOTDIR_INO : Z := 1.
Definition SFS_BITSPERBLOCK : Z := SFS_BLOCKSIZE * 8.

(** The macros compute in 32-bit unsigned arithmetic. *)
Definition SFS_ROUNDUP (a b : Z) : Z := u32 (u32 (u32 (a + b) - 1) / b * b).
Definition SFS_FREEMAPBITS (nblocks : Z) : Z := SFS_ROUNDUP nblocks SFS_BITSPERBLOCK.
Definition SFS_FREEMAPBLOCKS (nblocks : Z) : Z := SFS_FREEMAPBITS nblocks / SFS_BITSPERBLOCK.

Definition SFS_TYPE_INVAL : Z := 0.
Definition SFS_TYPE_FILE : Z := 1.
Definition SFS_TYPE_DIR : Z := 2.

(** [sb_volname] is the 32 bytes, [sb_reserved] the 118 words. *)
Record sfs_superblock := Superblock {
  sb_magic : Z;
  sb_nblocks : Z;
  sb_volname : list Z;
  sb_reserved : list Z;
}.

Record sfs_dinode := Dinode {
  sfi_size : Z;
  sfi_type : Z;
  sfi_linkcount : Z;
  sfi_direct : list Z;
  sfi_indirect : Z;
  sfi_waste : list Z;
}.

Record sfs_direntry := Direntry { sfd_ino : Z; sfd_name : list Z }.

(** ** Bytes of a word, most significant first *)
Fixpoint be (n : nat) (x : Z) : list Z :=
  match n with O => [] | S n' => be n' (x / 256) ++ [x mod 256] end.

Definition unbe (bs : list Z) : Z := foldl (fun x b => 256 * x + b) 0 bs.

Definition words (xs : list Z) : list Z := concat (be 4 <$> xs).

Fixpoint unwords (n : nat) (bs : list Z) : list Z :=
  match n with O => [] | S n' => unbe (take 4 bs) :: unwords n' (drop 4 bs) end.

Definition dinode_bytes (i : sfs_dinode) : list Z :=
  be 4 (sfi_size i) ++ be 2 (sfi_type i) ++ be 2 (sfi_linkcount i) ++
  words (sfi_direct i) ++ be 4 (sfi_indirect i) ++ words (sfi_waste i).

Definition bytes_dinode (bs : list Z) : sfs_dinode :=
  Dinode (unbe (take 4 bs)) (unbe (take 2 (drop 4 bs))) (unbe (take 2 (drop 6 bs)))
    (unwords 15 (drop 8 bs)) (unbe (take 4 (drop 68 bs))) (unwords 110 (drop 72 bs)).

Definition superblock_bytes (sb : sfs_superblock) : list Z :=
  be 4 (sb_magic sb) ++ be 4 (sb_nblocks sb) ++ sb_volname sb ++ words (sb_reserved sb).

Definition bytes_superblock (bs : list Z) : sfs_superblock :=
  Superblock (unbe (take 4 bs)) (unbe (take 4 (drop 4 bs))) (take 32 (drop 8 bs)) (unwords 118 (drop 40 bs)).

Definition direntry_bytes (d : sfs_direntry) : list Z := be 4 (sfd_ino d) ++ sfd_name d.

Definition bytes_direntry (bs : list Z) : sfs_direntry :=
  Direntry (unbe (take 4 bs)) (take 60 (drop 4 bs)).

Abbreviation byte := (fun b : Z => 0 <= b < 256).
Abbreviation word := (fun x : Z => 0 <= x < 2 ^ 32).

(** ** Round trips *)

Lemma be_length n x : length (be n x) = n.
Proof. revert x. induction n as [|n IH]; intros x; simpl; [done|]. rewrite length_app, IH. simpl. lia. Qed.

Lemma be_bytes n x : Forall byte (be n x).
Proof.
  revert x. induction n as [|n IH]; intros x; simpl; [constructor|].
  apply Forall_app. split; [apply IH|]. constructor; [|constructor]. apply Z.mod_pos_bound. lia.
Qed.

Lemma unbe_app l b : unbe (l ++ [b]) = 256 * unbe l + b.
Proof. unfold unbe. by rewrite foldl_app. Qed.

Lemma unbe_be n x : 0 <= x < 256 ^ Z.of_nat n -> unbe (be n x) = x.
Proof.
  revert x. induction n as [|n IH]; intros x Hx; simpl; [unfold unbe; simpl; lia|].
  rewrite unbe_app, IH; [pose proof (Z.div_mod x 256); lia|].
  rewrite Nat2Z.inj_succ, Z.pow_succ_r in Hx by lia. split; [apply Z.div_pos; lia|].
  apply Z.div_lt_upper_bound; lia.
Qed.

Lemma be_unbe bs : Forall byte bs -> be (length bs) (unbe bs) = bs.
Proof.
  induction bs as [|b bs IH] using rev_ind; [done|]. intros [Hbs Hb]%Forall_app.
  rewrite length_app, unbe_app. simpl. rewrite Nat.add_1_r. cbn [be]. inversion Hb as [|? ? Hb' _]; subst.
  replace ((256 * unbe bs + b) / 256) with (unbe bs) by lia.
  replace ((256 * unbe bs + b) mod 256) with b by lia. by rewrite IH.
Qed.

Lemma unbe_range bs : Forall byte bs -> 0 <= unbe bs < 256 ^ Z.of_nat (length bs).
Proof.
  induction bs as [|b bs IH] using rev_ind; [by vm_compute|]. intros [Hbs Hb]%Forall_app.
  rewrite length_app, unbe_app. simpl. inversion Hb as [|? ? Hb' _]; subst.
  replace (Z.of_nat (length bs + 1)) with (Z.succ (Z.of_nat (length bs))) by lia.
  rewrite Z.pow_succ_r by lia. specialize (IH Hbs). lia.
Qed.

Lemma words_cons x xs : words (x :: xs) = be 4 x ++ words xs.
Proof. done. Qed.

Lemma words_length xs : length (words xs) = (4 * length xs)%nat.
Proof.
  induction xs as [|x xs IH]; [done|]. rewrite words_cons, length_app, be_length, IH. simpl. lia.
Qed.

Lemma words_bytes xs : Forall byte (words xs).
Proof.
  induction xs as [|x xs IH]; [constructor|]. rewrite words_cons. apply Forall_app. split; [apply be_bytes|exact IH].
Qed.

Lemma unwords_words xs rest : Forall word xs -> unwords (length xs) (words xs ++ rest) = xs.
Proof.
  induction 1 as [|x xs Hx Hxs IH]; [done|]. cbn [unwords length].
  rewrite words_cons, <- app_assoc, take_app_le, take_ge, drop_app_ge by (by rewrite be_length).
  rewrite be_length. cbn [Nat.sub drop]. rewrite unbe_be by (simpl; lia). f_equal. exact IH.
Qed.

Lemma unwords_lookup n bs i :
  (i < n)%nat -> unwords n bs !! i = Some (unbe (take 4 (drop (4 * i) bs))).
Proof.
  revert bs i. induction n as [|n IH]; intros bs i Hi; [lia|]. destruct i as [|i]; [done|].
  cbn [unwords lookup list_lookup]. rewrite IH by lia. rewrite drop_drop. by replace (4 * S i)%nat with (4 + 4 * i)%nat by lia.
Qed.

Lemma unwords_length n bs : length (unwords n bs) = n.
Proof. revert bs. induction n as [|n IH]; intros bs; simpl; [done|]. by rewrite IH. Qed.

Lemma words_unwords n bs : Forall byte bs -> length bs = (4 * n)%nat -> words (unwords n bs) = bs.
Proof.
  revert bs. induction n as [|n IH]; intros bs Hb Hl; [by destruct bs|].
  cbn [unwords]. rewrite words_cons.
  assert (length (take 4 bs) = 4%nat) as H4 by (rewrite length_take; lia).
  rewrite <- H4 at 1. rewrite be_unbe by (by apply Forall_take).
  rewrite IH; [by rewrite take_drop|by apply Forall_drop|rewrite length_drop; lia].
Qed.

Lemma unwords_word n bs : Forall byte bs -> length bs = (4 * n)%nat -> Forall word (unwords n bs).
Proof.
  revert bs. induction n as [|n IH]; intros bs Hb Hl; [constructor|]. cbn [unwords]. constructor.
  - pose proof (unbe_range (take 4 bs) (Forall_take _ _ _ Hb)) as Hr.
    rewrite length_take, Nat.min_l in Hr by lia. exact Hr.
  - apply IH; [by apply Forall_drop|rewrite length_drop; lia].
Qed.

(** Fields of a structure laid out one after the other. *)
Lemma take_field (a b : list Z) n : length a = n -> take n (a ++ b) = a.
Proof. intros <-. apply take_app_length. Qed.

Definition dinode_wf (i : sfs_dinode) : Prop :=
  word (sfi_size i) /\ 0 <= sfi_type i < 2 ^ 16 /\ 0 <= sfi_linkcount i < 2 ^ 16 /\
  length (sfi_direct i) = 15%nat /\ Forall word (sfi_direct i) /\ word (sfi_indirect i) /\
  length (sfi_waste i) = 110%nat /\ Forall word (sfi_waste i).

Lemma dinode_bytes_block i : dinode_wf i -> Lhd.is_block (dinode_bytes i).
Proof.
  intros (_ & _ & _ & Hd & _ & _ & Hw & _). unfold dinode_bytes. split.
  - rewrite !length_app, !be_length, !words_length, Hd, Hw. done.
  - rewrite !Forall_app. split_and!; first [apply be_bytes | apply words_bytes].
Qed.

Lemma dinode_round_trip i : dinode_wf i -> bytes_dinode (dinode_bytes i) = i.
Proof.
  intros (Hs & Ht & Hl & Hd & Hdw & Hi & Hw & Hww). destruct i as [sz ty ln dr ind wa]. simpl in *.
  unfold bytes_dinode, dinode_bytes. cbn [sfi_size sfi_type sfi_linkcount sfi_direct sfi_indirect sfi_waste].
  assert (length (words dr) = 60%nat) as L60 by (by rewrite words_length, Hd).
  rewrite (take_field (be 4 sz)) by apply be_length.
  repeat (rewrite drop_app_ge by (rewrite ?be_length, ?L60; lia); rewrite ?be_length, ?L60; cbn [Nat.sub]; rewrite ?drop_0).
  rewrite !(take_field (be _ _)), !unbe_be by (apply be_length || (simpl; lia)). f_equal.
  - pose proof (unwords_words dr (be 4 ind ++ words wa) Hdw) as E. by rewrite Hd in E.
  - pose proof (unwords_words wa [] Hww) as E. by rewrite Hw, app_nil_r in E.
Qed.

(** The bytes of a sector always decode to a well-formed inode. *)
Lemma bytes_dinode_wf bs : Lhd.is_block bs -> dinode_wf (bytes_dinode bs).
Proof.
  intros [Hl Hb]. unfold dinode_wf, bytes_dinode; cbn [sfi_size sfi_type sfi_linkcount sfi_direct sfi_indirect sfi_waste].
  assert (forall n k, (n + k <= 512)%nat -> 0 <= unbe (take n (drop k bs)) < 256 ^ Z.of_nat n) as Hr.
  { intros n k Hk. pose proof (unbe_range (take n (drop k bs)) (Forall_take _ _ _ (Forall_drop _ _ _ Hb))) as Hr.
    rewrite length_take, length_drop, Nat.min_l in Hr by lia. exact Hr. }
  assert (forall n k, (k + 4 * n <= 512)%nat -> Forall word (unwords n (drop k bs))) as Hw.
  { intros n. induction n as [|n IH]; intros k Hk; [constructor|]. cbn [unwords]. constructor.
    - apply (Hr 4%nat k). lia.
    - rewrite drop_drop. apply IH. lia. }
  pose proof (Hr 4%nat 0%nat) as H0. rewrite drop_0 in H0.
  split_and!; rewrite ?unwords_length; try done; try (apply H0 || apply (Hr 2%nat) || apply (Hr 4%nat) || apply Hw); lia.
Qed.

Definition superblock_wf (sb : sfs_superblock) : Prop :=
  word (sb_magic sb) /\ word (sb_nblocks sb) /\ length (sb_volname sb) = 32%nat /\ Forall byte (sb_volname sb) /\
  length (sb_reserved sb) = 118%nat /\ Forall word (sb_reserved sb).

Lemma superblock_bytes_block sb : superblock_wf sb -> Lhd.is_block (superblock_bytes sb).
Proof.
  intros (_ & _ & Hv & Hvb & Hr & _). unfold superblock_bytes. split.
  - rewrite !length_app, !be_length, words_length, Hv, Hr. done.
  - rewrite !Forall_app. split_and!; first [apply be_bytes | apply words_bytes | done].
Qed.

Lemma superblock_round_trip sb : superblock_wf sb -> bytes_superblock (superblock_bytes sb) = sb.
Proof.
  intros (Hm & Hn & Hv & _ & Hr & Hrw). destruct sb as [m n vn rs]. simpl in *.
  unfold bytes_superblock, superblock_bytes. cbn [sb_magic sb_nblocks sb_volname sb_reserved].
  rewrite (take_field (be 4 m)) by apply be_length.
  repeat (rewrite drop_app_ge by (rewrite ?be_length, ?Hv; lia); rewrite ?be_length, ?Hv; cbn [Nat.sub]; rewrite ?drop_0).
  rewrite !(take_field (be _ _)), !unbe_be, (take_field vn) by (apply be_length || done || (simpl; lia)). f_equal.
  pose proof (unwords_words rs [] Hrw) as E. by rewrite Hr, app_nil_r in E.
Qed.

Lemma direntry_round_trip d :
  word (sfd_ino d) -> length (sfd_name d) = 60%nat -> bytes_direntry (direntry_bytes d) = d.
Proof.
  intros Hi Hn. destruct d as [ino nm]. simpl in *. unfold bytes_direntry, direntry_bytes. simpl sfd_ino. simpl sfd_name.
  rewrite (take_field (be 4 ino)) by apply be_length.
  rewrite drop_app_ge, be_length by (rewrite be_length; lia). cbn [Nat.sub].
  rewrite drop_0, take_ge, unbe_be by (simpl; lia). done.
Qed.

#[global] Arguments unwords : simpl never.
#[global] Arguments be : simpl never.
#[global] Arguments words : simpl never.
#[global] Arguments unbe : simpl never.

End Layout.

Module Blk.
Import Stream Lhd Layout.

Section Volume.
Context `{Lhdhw}.

(** The block-level part of [struct sfs_fs], and the nesting depth of
    [vfs_biglock].  Without option [synch] sleep locks are empty, so that
    [lock_do_i_hold] is always true and the big lock is only this counter. *)
Record volume := MkVolume {
  sfs_device : lhd;
  sfs_sb : sfs_superblock;
  sfs_superdirty : bool;
  sfs_freemap : Bitmap.bitmap;
  sfs_freemapdirty : bool;
  vfs_biglock_depth : Z;
}.

Definition set_device (l : lhd) (v : volume) : volume :=
  MkVolume l (sfs_sb v) (sfs_superdirty v) (sfs_freemap v) (sfs_freemapdirty v) (vfs_biglock_depth v).
Definition set_superdirty (b : bool) (v : volume) : volume :=
  MkVolume (sfs_device v) (sfs_sb v) b (sfs_freemap v) (sfs_freemapdirty v) (vfs_biglock_depth v).
Definition set_freemap (b : Bitmap.bitmap) (v : volume) : volume :=
  MkVolume (sfs_device v) (sfs_sb v) (sfs_superdirty v) b (sfs_freemapdirty v) (vfs_biglock_depth v).
Definition set_freemapdirty (b : bool) (v : volume) : volume :=
  MkVolume (sfs_device v) (sfs_sb v) (sfs_superdirty v) (sfs_freemap v) b (vfs_biglock_depth v).
Definition set_depth (d : Z) (v : volume) : volume :=
  MkVolume (sfs_device v) (sfs_sb v) (sfs_superdirty v) (sfs_freemap v) (sfs_freemapdirty v) d.

Definition nblocks (v : volume) : Z := sb_nblocks (sfs_sb v).

Definition vfs_biglock_do_i_hold : bool := true.

Definition vfs_biglock_acquire : M volume unit :=
  modify (fun v => set_depth (u32 (vfs_biglock_depth v + 1)) v).

Definition vfs_biglock_release : M volume unit :=
  kassert vfs_biglock_do_i_hold "lock_do_i_hold(vfs_biglock)";;
  d ← gets vfs_biglock_depth;
  kassert (0 <? d) "vfs_biglock_depth > 0";;
  modify (set_depth (d - 1)).

(** The retries of [sfs_rwblock]: [left] is [10 - tries]. *)
Fixpoint retry (left : nat) : M (lhd * uio) Z :=
  result ← lhd_io;
  if result =? EINVAL then panic "sfs: DEVOP_IO returned EINVAL"
  else if result =? EIO then
    match left with
    | O => mret result
    | S left' => retry left'
    end
  else mret result.

Definition sfs_rwblock : M (volume * uio) Z :=
  kassert vfs_biglock_do_i_hold "vfs_biglock_do_i_hold()";;
  zoom (fun s => (sfs_device (fst s), snd s)) (fun d s => (set_device (fst d) (fst s), snd d)) (retry 10).

(** Run [c] with a local uio; the result includes the uio at the end. *)
Definition with_uio {S A} (u : uio) (c : M (S * uio) A) : M S (A * uio) := fun s =>
  match c (s, u) with
  | Ret (a, (s', u')) => Ret ((a, u'), s')
  | Panic why => Panic why
  | Undef why => Undef why
  | Spin => Spin
  end.

(** The error code and the block; [SFSUIO] multiplies in 64 bits. *)
Definition sfs_readblock (block : Z) : M volume (Z * list Z) :=
  '(rc, u) ← with_uio (uio_kinit (replicate 512 0) (block * SFS_BLOCKSIZE) Uio.UIO_READ) sfs_rwblock;
  mret (rc, uio_out u).

Definition sfs_writeblock (block : Z) (data : list Z) : M volume Z :=
  kassert (Z.of_nat (length data) =? SFS_BLOCKSIZE) "len == SFS_BLOCKSIZE";;
  '(rc, u) ← with_uio (uio_kinit data (block * SFS_BLOCKSIZE) Uio.UIO_WRITE) sfs_rwblock;
  mret rc.

Definition in_freemap {A} (c : M Bitmap.bitmap A) : M volume A := zoom sfs_freemap set_freemap c.

Definition sfs_clearblock (block : Z) : M volume Z := sfs_writeblock block (replicate 512 0).

(** The error code and [*diskblock]. *)
Definition sfs_balloc : M volume (Z * Z) :=
  '(result, index) ← in_freemap Bitmap.bitmap_alloc;
  if negb (result =? 0) then mret (result, 0)
  else
    diskblock ← valid index "*diskblock";
    modify (set_freemapdirty true);;
    n ← gets nblocks;
    (if n <=? diskblock then panic "sfs: balloc: invalid block" else mret tt);;
    result ← sfs_clearblock diskblock;
    (if negb (result =? 0) then in_freemap (Bitmap.bitmap_unmark diskblock) else mret tt);;
    mret (result, diskblock).

Definition sfs_bfree (diskblock : Z) : M volume unit :=
  in_freemap (Bitmap.bitmap_unmark diskblock);;
  modify (set_freemapdirty true).

Definition sfs_bused (diskblock : Z) : M volume Z :=
  n ← gets nblocks;
  (if n <=? diskblock then panic "sfs: sfs_bused called on out of range block" else mret tt);;
  in_freemap (Bitmap.bitmap_isset diskblock).

End Volume.

(** ** Volumes *)

(** A function changed at one place. *)
Definition upd {A} (f : Z -> A) (b : Z) (x : A) : Z -> A := fun y => if y =? b then x else f y.

Lemma upd_eq {A} (f : Z -> A) b x : upd f b x b = x.
Proof. unfold upd. by rewrite Z.eqb_refl. Qed.
Lemma upd_ne {A} (f : Z -> A) b x y : y <> b -> upd f b x y = f y.
Proof. intros Hne. unfold upd. by rewrite (proj2 (Z.eqb_neq _ _) Hne). Qed.

Definition zeros : list Z := replicate 512 0.
#[global] Arguments zeros : simpl never.

Lemma zeros_block : is_block zeros.
Proof. split; [done|]. by apply Forall_replicate. Qed.

Section VolumeProofs.
Context `{HW : LhdhwOk}.

(** The contents of a block, and whether it is in use. *)
Definition blk (v : volume) (b : Z) : list Z := sector (lh_hw (sfs_device v)) b.
Definition used (v : volume) (b : Z) : bool := Bitmap.marked (sfs_freemap v) b.

(** A mounted volume on a disk without faults: [vol_healthy] excludes every I/O
    error, so a theorem about such volumes says nothing of the [EIO] paths of
    [sfs_io.c] and their callers ([sfs_write_errors_lost] does).  The bits beyond
    the last block and that of the superblock are in use ([mksfs] marks them); a
    block address in bytes fits into 32 bits, which bounds the volume by 2^23
    blocks. *)
Record vol_ok (v : volume) : Prop := {
  vol_ready : ready (sfs_device v);
  vol_healthy : healthy (lh_hw (sfs_device v));
  vol_wf : Bitmap.wf (sfs_freemap v);
  vol_size : 2 <= nblocks v <= Bitmap.nbits (sfs_freemap v);
  vol_disk : nblocks v <= d_blocks (sfs_device v);
  vol_max : nblocks v <= 2 ^ 23;
  vol_tail i : nblocks v <= i -> used v i = true;
  vol_super : used v 0 = true;
}.

(** [v'] has the same superblock as [v], blocks with contents [B], of which those
    in [U] are in use. *)
Record evolves (v v' : volume) (U : Z -> bool) (B : Z -> list Z) : Prop := {
  ev_ok : vol_ok v';
  ev_sb : sfs_sb v' = sfs_sb v;
  ev_superdirty : sfs_superdirty v' = sfs_superdirty v;
  ev_depth : vfs_biglock_depth v' = vfs_biglock_depth v;
  ev_used x : 0 <= x -> used v' x = U x;
  ev_blk x : blk v' x = B x;
}.

Lemma evolves_refl v : vol_ok v -> evolves v v (used v) (blk v).
Proof. by split. Qed.

Lemma evolves_trans v1 v2 v3 U B U' B' :
  evolves v1 v2 U B -> evolves v2 v3 U' B' -> evolves v1 v3 U' B'.
Proof. intros [] []. split; congruence || done. Qed.

Lemma evolves_ext v v' U B U' B' :
  evolves v v' U B -> (forall x, 0 <= x -> U x = U' x) -> (forall x, B x = B' x) -> evolves v v' U' B'.
Proof. intros [] HU HB. split; try done; intros x; [intros Hx; rewrite <- HU; auto|rewrite <- HB; auto]. Qed.

Lemma evolves_nblocks v v' U B : evolves v v' U B -> nblocks v' = nblocks v.
Proof. intros []. unfold nblocks. congruence. Qed.

(** A new state of the driver, with its disk described by [B]. *)
Lemma set_device_evolves v l B :
  vol_ok v -> ready l -> d_blocks l = d_blocks (sfs_device v) -> healthy (lh_hw l) ->
  (forall x, sector (lh_hw l) x = B x) -> evolves v (set_device l v) (used v) B.
Proof. intros [] Hr Hd Hh HB. split; try done. split; try done. by rewrite <- Hd in *. Qed.

Lemma biglock_acquire_run v :
  0 <= vfs_biglock_depth v < 2 ^ 32 - 1 -> vfs_biglock_acquire v = Ret (tt, set_depth (vfs_biglock_depth v + 1) v).
Proof. intros Hd. unfold vfs_biglock_acquire, modify. by rewrite u32_id by lia. Qed.

Lemma biglock_release_run v d :
  vfs_biglock_depth v = d + 1 -> 0 <= d -> vfs_biglock_release v = Ret (tt, set_depth d v).
Proof.
  intros Hd Hr. unfold vfs_biglock_release. rewrite bind_kassert by done. mrun.
  rewrite Hd, bind_kassert by (apply Z.ltb_lt; lia). unfold modify. by replace (d + 1 - 1) with d by lia.
Qed.

Lemma rwblock_run v u rc l u' :
  retry 10 (sfs_device v, u) = Ret (rc, (l, u')) -> sfs_rwblock (v, u) = Ret (rc, (set_device l v, u')).
Proof. intros Hr. unfold sfs_rwblock. rewrite bind_kassert by done. unfold zoom. simpl fst. simpl snd. by rewrite Hr. Qed.

Lemma retry_once n (l l' : lhd) (u u' : uio) :
  lhd_io (l, u) = Ret (0, (l', u')) -> retry n (l, u) = Ret (0, (l', u')).
Proof. intros Hr. destruct n; cbn [retry]; by rewrite (bind_run _ _ _ _ _ Hr). Qed.

(** Reading or writing one block through any uio; used by [sfs_readblock] and by
    the whole-block transfers of files. *)
Lemma rwblock_read v u b :
  vol_ok v -> good u -> uio_rw u = Uio.UIO_READ -> uio_offset u = 512 * b -> uio_resid u = 512 -> 0 <= b < nblocks v ->
  exists v' u', sfs_rwblock (v, u) = Ret (0, (v', u')) /\ evolves v v' (used v) (blk v) /\ advanced 512 (blk v b) u u'.
Proof.
  intros Hok Hg Hrw Ho Hr Hb. pose proof Hok as [Hrd Hh _ _ Hd _ _ _].
  destruct (lhd_io_one_read (sfs_device v) u b) as (rc & l' & u' & Hrun & (Hr' & Hd' & Hh' & Hs) & [(-> & Hadv)|(_ & _ & [])]);
    try done; [lia|].
  exists (set_device l' v), u'. split_and!; [by apply rwblock_run, retry_once| |done].
  apply set_device_evolves; auto.
Qed.

Lemma rwblock_write v u b :
  vol_ok v -> good u -> uio_rw u = Uio.UIO_WRITE -> uio_offset u = 512 * b -> uio_resid u = 512 -> 0 <= b < nblocks v ->
  Forall (fun x => 0 <= x < 256) (cells u).*1 ->
  exists v' u', sfs_rwblock (v, u) = Ret (0, (v', u')) /\
    evolves v v' (used v) (upd (blk v) b (take 512 (cells u).*1)) /\ advanced 512 [] u u'.
Proof.
  intros Hok Hg Hrw Ho Hr Hb Hby. pose proof Hok as [Hrd Hh _ _ Hd _ _ _].
  destruct (lhd_io_one_write (sfs_device v) u b)
    as (rc & l' & u' & Hrun & Hadv & _ & Hr' & Hd' & Hh' & Hs & [(-> & Hw)|(_ & [])]); try done; [lia|].
  exists (set_device l' v), u'. split_and!; [by apply rwblock_run, retry_once| |done].
  apply set_device_evolves; auto. intros x. destruct (decide (x = b)) as [->|Hne].
  - by rewrite upd_eq.
  - rewrite upd_ne by done. by apply Hs.
Qed.

Lemma with_uio_run {S A} u (c : M (S * uio) A) s a s' u' :
  c (s, u) = Ret (a, (s', u')) -> with_uio u c s = Ret ((a, u'), s').
Proof. unfold with_uio. by intros ->. Qed.

Lemma readblock_run v b :
  vol_ok v -> 0 <= b < nblocks v ->
  exists v', sfs_readblock b v = Ret ((0, blk v b), v') /\ evolves v v' (used v) (blk v).
Proof.
  intros Hok Hb. unfold sfs_readblock.
  destruct (rwblock_read v (uio_kinit (replicate 512 0) (b * SFS_BLOCKSIZE) Uio.UIO_READ) b)
    as (v' & u' & Hrun & Hev & (_ & _ & _ & _ & Hout));
    [done|by apply kinit_good|done|unfold SFS_BLOCKSIZE; simpl; lia|done|done|].
  rewrite (bind_run _ _ _ _ _ (with_uio_run _ _ _ _ _ _ Hrun)). exists v'. by rewrite Hout.
Qed.

Lemma writeblock_run v b data :
  vol_ok v -> 0 <= b < nblocks v -> is_block data ->
  exists v', sfs_writeblock b data v = Ret (0, v') /\ evolves v v' (used v) (upd (blk v) b data).
Proof.
  intros Hok Hb [Hl Hby]. unfold sfs_writeblock. rewrite bind_kassert by (by rewrite Hl).
  destruct (rwblock_write v (uio_kinit data (b * SFS_BLOCKSIZE) Uio.UIO_WRITE) b)
    as (v' & u' & Hrun & Hev & _);
    [done|apply kinit_good; lia|done|unfold SFS_BLOCKSIZE; simpl; lia|simpl; lia|done|by rewrite kinit_cells|].
  rewrite (bind_run _ _ _ _ _ (with_uio_run _ _ _ _ _ _ Hrun)). exists v'.
  rewrite kinit_cells, take_ge in Hev by lia. done.
Qed.

(** A new free map: all that changes is which blocks are in use. *)
Lemma set_freemap_evolves v b d U :
  vol_ok v -> Bitmap.wf b -> Bitmap.nbits b = Bitmap.nbits (sfs_freemap v) ->
  (forall x, 0 <= x -> Bitmap.marked b x = U x) -> (forall x, nblocks v <= x -> U x = true) -> U 0 = true ->
  evolves v (set_freemapdirty d (set_freemap b v)) U (blk v).
Proof.
  intros [] Hwf Hn HU Htail H0. split; try done. split; try done.
  - change (2 <= nblocks v <= Bitmap.nbits b). by rewrite Hn.
  - intros i Hi. change (nblocks v <= i) in Hi. unfold used. simpl. rewrite HU by lia. auto.
  - unfold used. simpl. by rewrite HU.
Qed.

Lemma bused_run v b :
  vol_ok v -> 0 <= b < nblocks v -> exists r, sfs_bused b v = Ret (r, v) /\ (r = 0 <-> used v b = false).
Proof.
  intros [] Hb. unfold sfs_bused. mrun. rewrite (proj2 (Z.leb_gt _ _)) by lia. mrun.
  destruct (Bitmap.bitmap_mark_unmark_spec (sfs_freemap v) b) as (_ & _ & r & Hr & Hiff); [done|lia|].
  exists r. split; [unfold in_freemap; rewrite (zoom_Ret _ _ _ _ _ _ Hr); by destruct v|].
  unfold used. split; intros E.
  - destruct (Bitmap.marked (sfs_freemap v) b) eqn:Em; [by destruct (proj2 Hiff eq_refl)|done].
  - apply dec_stable. intros Hne. by rewrite (proj1 Hiff Hne) in E.
Qed.

Lemma bfree_run v b :
  vol_ok v -> 0 < b < nblocks v -> used v b = true ->
  exists v', sfs_bfree b v = Ret (tt, v') /\ evolves v v' (upd (used v) b false) (blk v).
Proof.
  intros Hok Hb Hu. pose proof Hok as []. unfold sfs_bfree.
  destruct (Bitmap.bitmap_mark_unmark_spec (sfs_freemap v) b) as (_ & Hun & _); [done|lia|].
  unfold used in Hu. rewrite Hu in Hun. destruct Hun as (m & Hrun & Hwf & Hn & Hm).
  unfold in_freemap. rewrite (bind_run _ _ _ _ _ (zoom_Ret _ set_freemap _ v _ _ Hrun)).
  eexists. split; [reflexivity|]. apply set_freemap_evolves; try done.
  - intros x _. rewrite Hm. unfold upd, used. destruct (Z.eqb_spec x b) as [->|]; [by rewrite andb_false_r|by rewrite andb_true_r].
  - intros x Hx. rewrite upd_ne by lia. auto.
  - rewrite upd_ne by lia. done.
Qed.

Lemma balloc_run v :
  vol_ok v ->
  (sfs_balloc v = Ret ((ENOSPC, 0), v) /\ forall x, 0 <= x -> used v x = true) \/
  exists b v', sfs_balloc v = Ret ((0, b), v') /\ 0 < b < nblocks v /\ used v b = false /\
    evolves v v' (upd (used v) b true) (upd (blk v) b zeros).
Proof.
  intros Hok. pose proof Hok as []. unfold sfs_balloc.
  destruct (Bitmap.bitmap_alloc_run (sfs_freemap v)) as [(Hrun & Hall)|(b & m & Hrun & Hwf & Hn & Hb & Hfree & _ & Hm)];
    [done|..]; rewrite (bind_run (in_freemap _) _ v _ _ (zoom_Ret _ set_freemap _ v _ _ Hrun)).
  - left. split; [by destruct v|exact Hall].
  - right. cbn [Z.eqb negb]. rewrite (bind_valid _ _ _ _ b) by done. mrun.
    change (nblocks (set_freemapdirty true (set_freemap m v))) with (nblocks v).
    assert (0 < b < nblocks v) as Hb'.
    { split.
      - destruct (decide (b = 0)) as [->|]; [|lia]. unfold used in *. congruence.
      - destruct (decide (b < nblocks v)); [done|]. specialize (vol_tail0 b ltac:(lia)). unfold used in *. congruence. }
    rewrite (proj2 (Z.leb_gt _ _)) by lia. mrun.
    assert (evolves v (set_freemapdirty true (set_freemap m v)) (upd (used v) b true) (blk v)) as Hev.
    { apply set_freemap_evolves; try done.
      - intros x _. rewrite Hm. unfold upd, used. destruct (Z.eqb_spec x b); [by rewrite orb_true_r|by rewrite orb_false_r].
      - intros x Hx. rewrite upd_ne by lia. auto.
      - rewrite upd_ne by lia. done. }
    unfold sfs_clearblock. destruct (writeblock_run _ b zeros (ev_ok _ _ _ _ Hev)) as (v' & Hw & Hev');
      [change (0 <= b < nblocks v); lia|apply zeros_block|].
    change (replicate 512 0) with zeros. rewrite (bind_run _ _ _ _ _ Hw). cbn [Z.eqb negb]. mrun.
    exists b, v'. split_and!; [done|lia|lia|done|]. eapply evolves_trans; [exact Hev|].
    eapply evolves_ext; [exact Hev'|apply Hev|]. intros x. unfold upd. by destruct (x =? b); [|apply Hev].
Qed.

(** sfs_balloc_spec. On a mounted volume [sfs_balloc] returns: [ENOSPC], with
    nothing changed, exactly when every block is in use, and otherwise a block
    inside the volume that was free; it is now in use and zeroed, and every other
    block keeps its contents and its state.  [sfs_bfree] of it makes it free
    again, so that the same blocks are in use as before. *)
Theorem sfs_balloc_spec v :
  vol_ok v ->
  (sfs_balloc v = Ret ((ENOSPC, 0), v) /\ forall x, 0 <= x -> used v x = true) \/
  exists b v', sfs_balloc v = Ret ((0, b), v') /\ 0 < b < nblocks v /\ used v b = false /\
    evolves v v' (upd (used v) b true) (upd (blk v) b zeros) /\
    exists v'', sfs_bfree b v' = Ret (tt, v'') /\ evolves v v'' (used v) (upd (blk v) b zeros).
Proof.
  intros Hok. destruct (balloc_run v Hok) as [?|(b & v' & Hrun & Hb & Hu & Hev)]; [by left|right].
  exists b, v'. do 4 (split; [done|]).
  destruct (bfree_run v' b) as (v'' & Hf & Hev').
  - apply Hev.
  - by rewrite (evolves_nblocks _ _ _ _ Hev).
  - rewrite (ev_used _ _ _ _ Hev) by lia. apply upd_eq.
  - exists v''. split; [done|]. eapply evolves_ext; [by eapply evolves_trans| |].
    + intros x Hx. unfold upd. rewrite (ev_used _ _ _ _ Hev) by done. unfold upd. by destruct (Z.eqb_spec x b) as [->|].
    + intros x. by rewrite (ev_blk _ _ _ _ Hev).
Qed.

Lemma readblock_dev v b :
  ready (sfs_device v) -> 0 <= b < d_blocks (sfs_device v) ->
  exists rc bs l, sfs_readblock b v = Ret ((rc, bs), set_device l v) /\
    same_disk (sfs_device v) l /\ (rc = 0 /\ bs = blk v b \/ rc = EIO /\ ~ healthy (lh_hw (sfs_device v))).
Proof.
  intros Hr Hb. unfold sfs_readblock. set (u := uio_kinit _ _ _).
  assert (forall n l, same_disk (sfs_device v) l -> exists rc l' u', retry n (l, u) = Ret (rc, (l', u')) /\ same_disk (sfs_device v) l' /\
    (rc = 0 /\ advanced 512 (blk v b) u u' \/ rc = EIO /\ ~ healthy (lh_hw (sfs_device v)))) as Hretry.
  { intros n. induction n as [|n IH]; intros l Hl; cbn [retry]; pose proof Hl as (Hrl & Hd & Hh & Hs);
      (destruct (lhd_io_one_read l u b) as (rc & l' & u' & Hrun & Hsame & Hcase);
       [done|by apply kinit_good|done|unfold u, SFS_BLOCKSIZE; simpl; lia|done|lia|]);
      rewrite (bind_run _ _ _ _ _ Hrun); pose proof (same_disk_trans _ _ _ Hl Hsame) as Hl';
      (destruct Hcase as [(-> & Hadv)|(-> & -> & Hnh)]; [exists 0, l', u'; rewrite Hs in Hadv; split_and!; [done..|by left]|]).
    - exists EIO, l', u. split_and!; [done..|right]. split; [done|]. tauto.
    - destruct (IH l' Hl') as (rc & l2 & u2 & Hr2 & Hs2 & Hc2). exists rc, l2, u2. by split_and!. }
  destruct (Hretry 10%nat (sfs_device v) (same_disk_refl _ Hr)) as (rc & l & u' & Hrun & Hsame & Hcase).
  rewrite (bind_run _ _ _ _ _ (with_uio_run _ _ _ _ _ _ (rwblock_run _ _ _ _ _ Hrun))).
  exists rc, (uio_out u'), l. split_and!; [done..|]. destruct Hcase as [(-> & _ & _ & _ & _ & ->)|?]; [by left|by right].
Qed.

(** sfs_read_block_spec. Whatever the disk does, [sfs_readblock] of a block of
    the volume returns after at most eleven attempts, either 0 with exactly the
    contents of the block or [EIO]; the volume is unchanged. *)
Theorem sfs_read_block_spec v b :
  ready (sfs_device v) -> 0 <= b < d_blocks (sfs_device v) ->
  exists rc bs l, sfs_readblock b v = Ret ((rc, bs), set_device l v) /\
    same_disk (sfs_device v) l /\ (rc = 0 /\ bs = blk v b \/ rc = EIO /\ ~ healthy (lh_hw (sfs_device v))).
Proof. apply readblock_dev. Qed.

(** sfs_write_errors_lost. [sfs_writeblock] of a block of the volume returns 0
    whatever the disk does: when the disk fails the write, the driver has already
    consumed the data, so that the retry asks for no sectors and succeeds. *)
Theorem sfs_write_errors_lost v b data :
  ready (sfs_device v) -> 0 <= b < d_blocks (sfs_device v) -> is_block data ->
  exists v', sfs_writeblock b data v = Ret (0, v') /\ forall x, x <> b -> blk v' x = blk v x.
Proof.
  intros Hr Hb [Hl Hby]. unfold sfs_writeblock. rewrite bind_kassert by (by rewrite Hl). set (u := uio_kinit _ _ _).
  destruct (lhd_io_one_write (sfs_device v) u b) as (rc & l' & u' & Hrun & (Hc & Ho & Hre & Hrw & _) & _ & Hr' & Hd & _ & Hs & Hcase);
    [done|apply kinit_good; lia|done|unfold u, SFS_BLOCKSIZE; simpl; lia|unfold u; simpl; lia|lia|unfold u; by rewrite kinit_cells|].
  assert (retry 10 (sfs_device v, u) = Ret (0, (l', u'))) as Hretry.
  { cbn [retry]. rewrite (bind_run _ _ _ _ _ Hrun). destruct Hcase as [(-> & _)|(-> & _)]; [done|].
    change (EIO =? EINVAL) with false. change (EIO =? EIO) with true. cbv iota.
    pose proof (hw_nsect_range (lh_hw l')). pose proof (ready_blocks l' Hr').
    rewrite (bind_run _ _ _ 0 (l', u')); [done|]. apply (lhd_io_none _ _ (b + 1)).
    - rewrite Ho. unfold u, SFS_BLOCKSIZE. simpl. lia.
    - rewrite Hre. unfold u. simpl. lia.
    - lia.
    - lia. }
  rewrite (bind_run _ _ _ _ _ (with_uio_run _ _ _ _ _ _ (rwblock_run _ _ _ _ _ Hretry))).
  eexists. split; [reflexivity|]. exact Hs.
Qed.

End VolumeProofs.

(** ** A small volume

    64 blocks, of which 0 to 7 are in use; blocks 4 to 7 hold a file that
    [SfsFile.v] describes.  [faults] is the fault schedule of its disk. *)
Definition sample_freemap : Bitmap.bitmap := Bitmap.MkBitmap 4096 ([255] ++ replicate 7 0 ++ replicate 504 255).

Definition sample_data : gmap Z (list Z) :=
  <[4 := replicate 512 1]> (<[5 := words ([6; 7] ++ replicate 126 0)]> (<[6 := replicate 512 2]> (<[7 := replicate 512 3]> ∅))).

Definition sample_volume (faults : list bool) : volume (H := memdisk_hw) :=
  MkVolume (MkLhd (H := memdisk_hw) (Memdisk 64 sample_data faults) (replicate 512 0) 0 0 0 1 0 64)
    (Superblock SFS_MAGIC 64 (replicate 32 0) (replicate 118 0)) false sample_freemap false 0.

Lemma sample_volume_ready fs : ready (sfs_device (sample_volume fs)).
Proof. split_and!; try done. split; [done|]. by apply Forall_replicate. Qed.

Lemma sample_tail : forallb (Bitmap.marked sample_freemap) (seqZ 64 4032) = true.
Proof. by vm_compute. Qed.

Lemma sample_marked i : 64 <= i -> Bitmap.marked sample_freemap i = true.
Proof.
  intros Hi. destruct (decide (i < 4096)).
  - apply (proj1 (forallb_forall _ _) sample_tail). apply list_elem_of_In, elem_of_seqZ. lia.
  - unfold Bitmap.marked, arr_get. rewrite (proj2 (Z.leb_le 0 _)) by lia. rewrite lookup_ge_None_2; [done|].
    change (512 <= Z.to_nat (i / 8))%nat. lia.
Qed.

Lemma sample_volume_ok : vol_ok (sample_volume []).
Proof.
  split; [apply sample_volume_ready|by constructor| |split; by vm_compute|by vm_compute|by vm_compute|apply sample_marked|by vm_compute].
  split_and!; [by vm_compute|by vm_compute|by vm_compute| |intros i Hi; apply sample_marked; simpl in Hi; lia].
  intros i w [_ Hw]%arr_get_Some. assert (Forall (fun w => 0 <= w < 256) (Bitmap.v sample_freemap)) as Hf.
  { unfold sample_freemap. cbn [Bitmap.v]. rewrite !Forall_app. split_and!; [by constructor|apply Forall_replicate; lia|apply Forall_replicate; lia]. }
  by apply (proj1 (Forall_lookup _ _) Hf _ _ Hw).
Qed.

Lemma sfs_balloc_spec_witness :
  vol_ok (sample_volume []) /\ exists v', sfs_balloc (sample_volume []) = Ret ((0, 8), v') /\ used v' 8 = true.
Proof.
  split; [apply sample_volume_ok|]. destruct (sfs_balloc_spec (sample_volume []) sample_volume_ok) as [[_ Hall]|(b & v' & Hrun & _ & _ & Hev & _)].
  - by specialize (Hall 8 ltac:(lia)).
  - assert (b = 8) as ->.
    { assert (match sfs_balloc (sample_volume []) with Ret ((_, b), _) => b | _ => 0 end = 8) as E by (by vm_compute). by rewrite Hrun in E. }
    exists v'. split; [done|]. rewrite (ev_used _ _ _ _ Hev) by lia. apply upd_eq.
Defined.

Lemma sfs_read_block_spec_witness :
  exists rc bs l, sfs_readblock 6 (sample_volume [true; true; false]) = Ret ((rc, bs), set_device l (sample_volume [true; true; false])) /\
    rc = 0 /\ bs = replicate 512 2.
Proof.
  destruct (sfs_read_block_spec (sample_volume [true; true; false]) 6) as (rc & bs & l & Hrun & _ & Hcase); [apply sample_volume_ready|done|].
  exists rc, bs, l. split; [done|].
  assert (match sfs_readblock 6 (sample_volume [true; true; false]) with Ret ((rc, _), _) => rc | _ => EIO end = 0) as E by (by vm_compute).
  rewrite Hrun in E. subst rc. clear Hrun. split; [reflexivity|]. destruct Hcase as [[_ ->]|[E _]]; [vm_compute; reflexivity|discriminate E].
Defined.

Lemma sfs_write_errors_lost_witness :
  exists v', sfs_writeblock 6 (replicate 512 9) (sample_volume [true]) = Ret (0, v') /\ blk v' 7 = replicate 512 3.
Proof.
  destruct (sfs_write_errors_lost (sample_volume [true]) 6 (replicate 512 9)) as (v' & Hrun & Hx);
    [apply sample_volume_ready|done|split; [done|by apply Forall_replicate]|].
  exists v'. split; [done|]. rewrite Hx by done. by vm_compute.
Defined.

(** The data is not on the disk, although the result is 0. *)
Example write_error_unreported :
  match (rc ← sfs_writeblock 6 (replicate 512 9); '(_, bs) ← sfs_readblock 6; mret (rc, bs)) (sample_volume [true]) with
  | Ret ((rc, bs), _) => rc = 0 /\ bs = replicate 512 2
  | _ => False
  end.
Proof. vm_compute. split; reflexivity. Qed.

End Blk.
