(* ===== verification/SfsFile.v ===== *)
(** * SFS files: block mapping and file I/O

    [fs/sfs/sfs_bmap.c] and the file-level part of [fs/sfs/sfs_io.c]: a file is an
    inode with fifteen direct blocks and one indirect block.  The abstract view
    of a file is the function [fbyte] from offsets to bytes, zero where no block
    is mapped.  The theorems say that [sfs_bmap] finds or adds blocks without
    changing the bytes of any file, that reading delivers the bytes of the file up
    to its end, that writing changes exactly the bytes written, and which blocks
    truncation gives back. *)

From S2P Require Import Prelude Copy Stream Lhd Bitmap SfsBlock.

Module File.
Import Stream Lhd Layout Blk.

Section Code.
Context `{Lhdhw}.

(** [struct sfs_vnode] without its abstract vnode, which [SfsInode.v] adds. *)
Record sfs_vnode := MkSv { sv_i : sfs_dinode; sv_ino : Z; sv_dirty : bool }.

(** A file: its vnode and the volume it is on. *)
Record file := MkFile { f_vol : volume; f_sv : sfs_vnode }.

Definition set_vol (v : volume) (f : file) : file := MkFile v (f_sv f).
Definition on_vol {A} (c : M volume A) : M file A := zoom f_vol set_vol c.
Definition dinode (f : file) : sfs_dinode := sv_i (f_sv f).

Definition with_size (n : Z) (i : sfs_dinode) : sfs_dinode :=
  Dinode n (sfi_type i) (sfi_linkcount i) (sfi_direct i) (sfi_indirect i) (sfi_waste i).
Definition with_direct (l : list Z) (i : sfs_dinode) : sfs_dinode :=
  Dinode (sfi_size i) (sfi_type i) (sfi_linkcount i) l (sfi_indirect i) (sfi_waste i).
Definition with_indirect (b : Z) (i : sfs_dinode) : sfs_dinode :=
  Dinode (sfi_size i) (sfi_type i) (sfi_linkcount i) (sfi_direct i) b (sfi_waste i).

(** [sv->sv_i.field = ...; sv->sv_dirty = true;] *)
Definition change_inode (g : sfs_dinode -> sfs_dinode) : M file unit :=
  modify (fun f => MkFile (f_vol f) (MkSv (g (dinode f)) (sv_ino (f_sv f)) true)).

Definition nz (result : Z) : bool := negb (result =? 0).

(** [if (block != 0 && !sfs_bused(sfs, block)) panic(...)] *)
Definition check_used (block : Z) : M file unit :=
  if nz block then
    r ← on_vol (sfs_bused block);
    if r =? 0 then panic "sfs: Data block marked free" else mret tt
  else mret tt.

(** The direct blocks: the error code and the block. *)
Definition bmap_direct (fileblock : Z) (doalloc : bool) : M file (Z * Z) :=
  f ← get;
  block ← valid (arr_get (sfi_direct (dinode f)) fileblock) "sfi_direct[fileblock]";
  '(result, block) ←
    (if (block =? 0) && doalloc then
       '(result, block) ← on_vol sfs_balloc;
       if nz result then mret (result, 0)
       else
         change_inode (fun i => with_direct (arr_set (sfi_direct i) fileblock block) i);;
         mret (0, block)
     else mret (0, block));
  if nz result then mret (result, 0)
  else check_used block;; mret (0, block).

(** The indirect block: the error code, its number and its contents [idbuf]. *)
Definition bmap_idblock : M file (Z * Z * list Z) :=
  f ← get;
  let idblock := sfi_indirect (dinode f) in
  if idblock =? 0 then
    '(result, idblock) ← on_vol sfs_balloc;
    if nz result then mret (result, 0, [])
    else
      change_inode (with_indirect idblock);;
      mret (0, idblock, replicate 128 0)
  else
    '(result, bs) ← on_vol (sfs_readblock idblock);
    mret (result, idblock, unwords 128 bs).

(** The block at [idoff] of the indirect block. *)
Definition bmap_entry (idblock : Z) (idbuf : list Z) (idoff : Z) (doalloc : bool) : M file (Z * Z) :=
  block ← valid (arr_get idbuf idoff) "idbuf[idoff]";
  '(result, block) ←
    (if (block =? 0) && doalloc then
       '(result, block) ← on_vol sfs_balloc;
       if nz result then mret (result, 0)
       else
         result ← on_vol (sfs_writeblock idblock (words (arr_set idbuf idoff block)));
         mret (result, block)
     else mret (0, block));
  if nz result then mret (result, 0)
  else check_used block;; mret (0, block).

(** The error code and [*diskblock]. *)
Definition sfs_bmap (fileblock : Z) (doalloc : bool) : M file (Z * Z) :=
  kassert vfs_biglock_do_i_hold "vfs_biglock_do_i_hold()";;
  if fileblock <? SFS_NDIRECT then bmap_direct fileblock doalloc
  else
    let fileblock := fileblock - SFS_NDIRECT in
    let idnum := fileblock / SFS_DBPERIDB in
    let idoff := fileblock mod SFS_DBPERIDB in
    if SFS_NINDIRECT <=? idnum then mret (EFBIG, 0)
    else
      f ← get;
      if (sfi_indirect (dinode f) =? 0) && negb doalloc then mret (0, 0)
      else
        '(result, idblock, idbuf) ← bmap_idblock;
        if nz result then mret (result, 0)
        else bmap_entry idblock idbuf idoff doalloc.

(** ** Truncation *)

(** The loop over the direct blocks, from [i] on. *)
Definition trunc_direct (blocklen i : Z) : M file unit :=
  f ← get;
  block ← valid (arr_get (sfi_direct (dinode f)) i) "sfi_direct[i]";
  if (blocklen <=? i) && nz block then
    on_vol (sfs_bfree block);;
    change_inode (fun n => with_direct (arr_set (sfi_direct n) i 0) n)
  else mret tt.

(** The loop over the indirect block from entry [j] on: the entries left and
    whether one was cleared. *)
Fixpoint trunc_indirect (blocklen j : Z) (idbuf : list Z) : M file (list Z * bool) :=
  match idbuf with
  | [] => mret ([], false)
  | b :: idbuf' =>
      let free := (blocklen <? SFS_NDIRECT + j) && nz b in
      (if free then on_vol (sfs_bfree b) else mret tt);;
      '(rest, iddirty) ← trunc_indirect blocklen (j + 1) idbuf';
      mret ((if free then 0 else b) :: rest, free || iddirty)
  end.

(** [DIVROUNDUP(len, SFS_BLOCKSIZE)] in 64-bit signed arithmetic, converted to
    [uint32_t]. *)
Definition trunc_blocklen (len : Z) : Z := u32 (Z.quot (len + SFS_BLOCKSIZE - 1) SFS_BLOCKSIZE).

(** The indirect block. *)
Definition trunc_idblock (blocklen : Z) : M file Z :=
  f ← get;
  let idblock := sfi_indirect (dinode f) in
  let highblock := SFS_NDIRECT + SFS_DBPERIDB - 1 in
  if (blocklen <? highblock) && nz idblock then
    '(result, bs) ← on_vol (sfs_readblock idblock);
    if nz result then mret result
    else
      '(idbuf, iddirty) ← trunc_indirect blocklen 0 (unwords 128 bs);
      let hasnonzero := existsb nz idbuf in
      if negb hasnonzero then
        on_vol (sfs_bfree idblock);;
        change_inode (with_indirect 0);;
        mret 0
      else if (iddirty : bool) then on_vol (sfs_writeblock idblock (words idbuf))
      else mret 0
  else mret 0.

Definition sfs_itrunc (len : Z) : M file Z :=
  let blocklen := trunc_blocklen len in
  on_vol vfs_biglock_acquire;;
  result ← (for_each (seqZ 0 SFS_NDIRECT) (trunc_direct blocklen);; trunc_idblock blocklen);
  if nz result then on_vol vfs_biglock_release;; mret result
  else
    change_inode (with_size (u32 len));;
    on_vol vfs_biglock_release;;
    mret 0.

(** ** File I/O *)

Abbreviation Fio := (M (file * uio)).

Definition on_file {A} (c : M file A) : Fio A := zoom fst (fun f s => (f, snd s)) c.
Definition on_uio {A} (c : M uio A) : Fio A := zoom snd (fun u s => (fst s, u)) c.

(** [uiomove(iobuf + skipstart, len, uio)]: the error code and the buffer. *)
Definition move_iobuf (iobuf : list Z) (skipstart len : Z) : Fio (Z * list Z) :=
  s ← get;
  if uio_rw (snd s) =? Uio.UIO_READ then
    rc ← on_uio (uiomove_out (take (Z.to_nat len) (drop (Z.to_nat skipstart) iobuf)));
    mret (rc, iobuf)
  else
    '(rc, bs) ← on_uio (uiomove_in len);
    mret (rc, take (Z.to_nat skipstart) iobuf ++ bs ++ drop (Z.to_nat skipstart + length bs) iobuf).

Definition sfs_partialio (skipstart len : Z) : Fio Z :=
  s ← get;
  let rw := uio_rw (snd s) in
  let doalloc := rw =? Uio.UIO_WRITE in
  kassert (skipstart + len <=? SFS_BLOCKSIZE) "skipstart + len <= SFS_BLOCKSIZE";;
  kassert vfs_biglock_do_i_hold "vfs_biglock_do_i_hold()";;
  let fileblock := u32 (Z.quot (uio_offset (snd s)) SFS_BLOCKSIZE) in
  '(result, diskblock) ← on_file (sfs_bmap fileblock doalloc);
  if nz result then mret result
  else
    '(result, iobuf) ←
      (if diskblock =? 0 then
         kassert (rw =? Uio.UIO_READ) "uio->uio_rw == UIO_READ";;
         mret (0, replicate 512 0)
       else on_file (on_vol (sfs_readblock diskblock)));
    if nz result then mret result
    else
      '(result, iobuf) ← move_iobuf iobuf skipstart len;
      if nz result then mret result
      else if rw =? Uio.UIO_WRITE then on_file (on_vol (sfs_writeblock diskblock iobuf))
      else mret 0.

Definition sfs_blockio : Fio Z :=
  s ← get;
  let rw := uio_rw (snd s) in
  let doalloc := rw =? Uio.UIO_WRITE in
  let fileblock := u32 (Z.quot (uio_offset (snd s)) SFS_BLOCKSIZE) in
  '(result, diskblock) ← on_file (sfs_bmap fileblock doalloc);
  if nz result then mret result
  else if diskblock =? 0 then
    kassert (rw =? Uio.UIO_READ) "uio->uio_rw == UIO_READ";;
    on_uio (uiomovezeros SFS_BLOCKSIZE)
  else
    let saveoff := uio_offset (snd s) in
    let diskoff := u32 (diskblock * SFS_BLOCKSIZE) in
    on_uio (modify (set_offset diskoff));;
    kassert (SFS_BLOCKSIZE <=? uio_resid (snd s)) "uio->uio_resid >= SFS_BLOCKSIZE";;
    let saveres := uio_resid (snd s) in
    let diskres := SFS_BLOCKSIZE in
    on_uio (modify (set_resid diskres));;
    result ← zoom (fun t => (f_vol (fst t), snd t)) (fun d t => (set_vol (fst d) (fst t), snd d)) sfs_rwblock;
    on_uio (modify (fun u => set_offset (uio_offset u - diskoff + saveoff) u));;
    on_uio (modify (fun u => set_resid (uio_resid u - diskres + saveres) u));;
    mret result.

(** The loop over whole blocks. *)
Fixpoint blocks_loop (nblocks : nat) : Fio Z :=
  match nblocks with
  | O => mret 0
  | S n =>
      result ← sfs_blockio;
      if nz result then mret result else blocks_loop n
  end.

(** The body of [sfs_io] between the check for end of file and the label
    [out]. *)
Definition io_body : Fio Z :=
  s ← get;
  let blkoff := u32 (Z.rem (uio_offset (snd s)) SFS_BLOCKSIZE) in
  result ←
    (if nz blkoff then
       let len := SFS_BLOCKSIZE - blkoff in
       let len := if uio_resid (snd s) <? len then uio_resid (snd s) else len in
       sfs_partialio blkoff len
     else mret 0);
  if nz result then mret result
  else
    s ← get;
    if uio_resid (snd s) =? 0 then mret 0
    else
      kassert (Z.rem (uio_offset (snd s)) SFS_BLOCKSIZE =? 0) "uio->uio_offset % SFS_BLOCKSIZE == 0";;
      result ← blocks_loop (Z.to_nat (uio_resid (snd s) / SFS_BLOCKSIZE));
      if nz result then mret result
      else
        s ← get;
        kassert (uio_resid (snd s) <? SFS_BLOCKSIZE) "uio->uio_resid < SFS_BLOCKSIZE";;
        if 0 <? uio_resid (snd s) then sfs_partialio 0 (uio_resid (snd s)) else mret 0.

(** The part after [out]. *)
Definition io_out (origresid extraresid result : Z) : Fio Z :=
  s ← get;
  let u := snd s in
  (if negb (uio_resid u =? origresid) && (uio_rw u =? Uio.UIO_WRITE) &&
      (sfi_size (dinode (fst s)) <? uio_offset u)
   then on_file (change_inode (with_size (u32 (uio_offset u)))) else mret tt);;
  on_uio (modify (fun u => set_resid (u32 (uio_resid u + extraresid)) u));;
  mret result.

Definition sfs_io : Fio Z :=
  s ← get;
  let u := snd s in
  let origresid := uio_resid u in
  let size := sfi_size (dinode (fst s)) in
  let endpos := uio_offset u + uio_resid u in
  if (uio_rw u =? Uio.UIO_READ) && (size <=? uio_offset u) then mret 0
  else
    extraresid ←
      (if (uio_rw u =? Uio.UIO_READ) && (size <? endpos) then
         let extraresid := u32 (endpos - size) in
         kassert (extraresid <? uio_resid u) "uio->uio_resid > extraresid";;
         on_uio (modify (set_resid (uio_resid u - extraresid)));;
         mret extraresid
       else mret 0);
    result ← io_body;
    io_out origresid extraresid result.

(** ** Metadata

    The error code and, for a read, the data; [data] is what a write stores. *)
Definition sfs_metaio (actualpos : Z) (len : Z) (data : list Z) (rw : Z) : M file (Z * list Z) :=
  kassert vfs_biglock_do_i_hold "vfs_biglock_do_i_hold()";;
  let vnblock := u32 (Z.quot actualpos SFS_BLOCKSIZE) in
  let blockoffset := u32 (Z.rem actualpos SFS_BLOCKSIZE) in
  let doalloc := rw =? Uio.UIO_WRITE in
  '(result, diskblock) ← sfs_bmap vnblock doalloc;
  if nz result then mret (result, [])
  else if diskblock =? 0 then
    kassert (rw =? Uio.UIO_READ) "rw == UIO_READ";;
    mret (0, replicate (Z.to_nat len) 0)
  else
    '(result, metaiobuf) ← on_vol (sfs_readblock diskblock);
    if nz result then mret (result, [])
    else
      _ ← valid (if blockoffset + len <=? SFS_BLOCKSIZE then Some tt else None) "metaiobuf + blockoffset";
      if rw =? Uio.UIO_READ then
        mret (0, take (Z.to_nat len) (drop (Z.to_nat blockoffset) metaiobuf))
      else
        result ← on_vol (sfs_writeblock diskblock
          (take (Z.to_nat blockoffset) metaiobuf ++ data ++ drop (Z.to_nat (blockoffset + len)) metaiobuf));
        if nz result then mret (result, [])
        else
          f ← get;
          let endpos := actualpos + len in
          (if sfi_size (dinode f) <? endpos then change_inode (with_size (u32 endpos)) else mret tt);;
          mret (0, []).

End Code.

(** ** The abstract file *)

(** The disk block of file block [k], 0 when there is none; [B] gives the
    contents of the blocks. *)
Definition ptr (i : sfs_dinode) (B : Z -> list Z) (k : Z) : Z :=
  if k <? 15 then default 0 (arr_get (sfi_direct i) k)
  else if (sfi_indirect i =? 0) || (143 <=? k) then 0
  else default 0 (unwords 128 (B (sfi_indirect i)) !! Z.to_nat (k - 15)).

Definition fbyte (i : sfs_dinode) (B : Z -> list Z) (pos : Z) : Z :=
  let p := ptr i B (pos / 512) in
  if p =? 0 then 0 else default 0 (B p !! Z.to_nat (pos mod 512)).

(** The blocks of a file: used, inside the volume, and mapped once. *)
Record file_ok (i : sfs_dinode) (U : Z -> bool) (B : Z -> list Z) (n : Z) : Prop := {
  fo_wf : dinode_wf i;
  fo_range k : 0 <= k -> ptr i B k <> 0 -> 0 < ptr i B k < n /\ U (ptr i B k) = true /\ ptr i B k <> sfi_indirect i;
  fo_inj k k' : 0 <= k -> 0 <= k' -> ptr i B k <> 0 -> ptr i B k = ptr i B k' -> k = k';
  fo_ind : sfi_indirect i <> 0 -> 0 < sfi_indirect i < n /\ U (sfi_indirect i) = true;
}.

(** [b] is a data block or the indirect block of the file. *)
Definition owned (i : sfs_dinode) (B : Z -> list Z) (b : Z) : Prop :=
  b <> 0 /\ (b = sfi_indirect i \/ exists k, 0 <= k /\ ptr i B k = b).

Lemma ptr_ext i B B' k :
  (sfi_indirect i <> 0 -> B' (sfi_indirect i) = B (sfi_indirect i)) -> ptr i B' k = ptr i B k.
Proof.
  intros HB. unfold ptr. destruct (k <? 15); [done|]. destruct (Z.eqb_spec (sfi_indirect i) 0) as [|Hne]; [done|].
  cbn [orb]. by rewrite HB.
Qed.

Lemma ptr_range i B k : ptr i B k <> 0 -> k < 143.
Proof.
  unfold ptr. destruct (Z.ltb_spec k 15); [lia|]. destruct (sfi_indirect i =? 0); [done|]. cbn [orb].
  destruct (Z.leb_spec 143 k); [done|lia].
Qed.

Lemma ptr_direct i B k : k < 15 -> ptr i B k = default 0 (arr_get (sfi_direct i) k).
Proof. intros Hk. unfold ptr. by rewrite (proj2 (Z.ltb_lt _ _)). Qed.

Lemma ptr_indirect i B k :
  15 <= k < 143 -> sfi_indirect i <> 0 ->
  ptr i B k = default 0 (unwords 128 (B (sfi_indirect i)) !! Z.to_nat (k - 15)).
Proof.
  intros Hk Hi. unfold ptr. rewrite (proj2 (Z.ltb_ge _ _)), (proj2 (Z.eqb_neq _ _) Hi), (proj2 (Z.leb_gt _ _)) by lia. done.
Qed.

Lemma ptr_no_indirect i B k : 15 <= k -> sfi_indirect i = 0 -> ptr i B k = 0.
Proof. intros Hk Hi. unfold ptr. rewrite (proj2 (Z.ltb_ge _ _)), Hi by lia. done. Qed.

Lemma fbyte_ext i i' B B' pos :
  (forall k, ptr i' B' k = ptr i B k) -> (ptr i B (pos / 512) <> 0 -> B' (ptr i B (pos / 512)) = B (ptr i B (pos / 512))) ->
  fbyte i' B' pos = fbyte i B pos.
Proof.
  intros Hp HB. unfold fbyte. rewrite Hp. destruct (Z.eqb_spec (ptr i B (pos / 512)) 0) as [|Hne]; [done|]. by rewrite HB.
Qed.

Section FileProofs.
Context `{HW : LhdhwOk}.
Implicit Types (f : file).

Definition fU f : Z -> bool := used (f_vol f).
Definition fB f : Z -> list Z := blk (f_vol f).
Definition fptr f : Z -> Z := ptr (dinode f) (fB f).
Definition fcontent f : Z -> Z := fbyte (dinode f) (fB f).
Definition fowned f : Z -> Prop := owned (dinode f) (fB f).

(** A file of a mounted volume. *)
Record fok f : Prop := {
  fok_vol : vol_ok (f_vol f);
  fok_file : file_ok (dinode f) (fU f) (fB f) (nblocks (f_vol f));
}.

(** What no file operation does: touch blocks that are in use by somebody else,
    or parts of the inode that are none of its business. *)
Record within f f' : Prop := {
  w_ok : fok f';
  w_sb : sfs_sb (f_vol f') = sfs_sb (f_vol f);
  w_superdirty : sfs_superdirty (f_vol f') = sfs_superdirty (f_vol f);
  w_depth : vfs_biglock_depth (f_vol f') = vfs_biglock_depth (f_vol f);
  w_ino : sv_ino (f_sv f') = sv_ino (f_sv f);
  w_type : sfi_type (dinode f') = sfi_type (dinode f);
  w_link : sfi_linkcount (dinode f') = sfi_linkcount (dinode f);
  w_used x : 0 <= x -> fU f x = true -> fU f' x = true;
  w_foreign x : 0 <= x -> fU f x = true -> ~ fowned f x -> fB f' x = fB f x;
  w_new x : 0 <= x -> fowned f' x -> fowned f x \/ fU f x = false;
  w_dirty : f_sv f' = f_sv f \/ sv_dirty (f_sv f') = true;
  w_kept x : fowned f x -> fowned f' x;
  w_fresh x : 0 <= x -> fU f' x = true -> fU f x = true \/ fowned f' x;
}.

Lemma fok_inode f : fok f -> dinode_wf (dinode f).
Proof. intros []. by apply fok_file0. Qed.

Lemma within_nblocks f f' : within f f' -> nblocks (f_vol f') = nblocks (f_vol f).
Proof. intros []. unfold nblocks. congruence. Qed.

Lemma within_refl f : fok f -> within f f.
Proof. intros Hok. split; try done; intros; by left. Qed.

Lemma within_trans f1 f2 f3 : within f1 f2 -> within f2 f3 -> within f1 f3.
Proof.
  intros W1 W2. pose proof W1 as []. pose proof W2 as [? ? ? ? ? ? ? Hu Hfo Hn Hd Hk Hfr].
  split; try congruence; try done.
  - intros x Hx H1. auto.
  - intros x Hx H1 Hno. rewrite Hfo; auto. intros Ho. destruct (w_new0 x Hx Ho) as [|Hf]; [done|congruence].
  - intros x Hx Ho. destruct (Hn x Hx Ho) as [Ho2|Hf2].
    + by apply w_new0.
    + right. destruct (fU f1 x) eqn:E; [|done]. rewrite w_used0 in Hf2 by done. done.
  - destruct Hd as [->|]; [done|by right].
  - auto.
  - intros x Hx Hux. destruct (Hfr x Hx Hux) as [H2|]; [|by right]. destruct (w_fresh0 x Hx H2); [by left|right; by apply Hk].
Qed.

Lemma owned_range f x : fok f -> fowned f x -> 0 < x < nblocks (f_vol f) /\ fU f x = true.
Proof.
  intros [? []] (Hnz & [->|(k & Hk & Hp)]).
  - by apply fo_ind0.
  - destruct (fo_range0 k Hk) as (? & ? & _); unfold fowned in *; subst; done.
Qed.

Lemma on_vol_run {A} (c : M volume A) f a v' :
  c (f_vol f) = Ret (a, v') -> on_vol c f = Ret (a, set_vol v' f).
Proof. intros Hc. unfold on_vol. by apply zoom_Ret. Qed.

(** Volume operations that leave the blocks of the file alone. *)
Lemma set_vol_within f v' U B :
  fok f -> evolves (f_vol f) v' U B -> (forall x, 0 <= x -> U x = fU f x) ->
  (forall x, 0 <= x -> fU f x = true -> B x = fB f x) ->
  within f (set_vol v' f) /\ (forall k, fptr (set_vol v' f) k = fptr f k) /\
  (forall pos, 0 <= pos -> fcontent (set_vol v' f) pos = fcontent f pos).
Proof.
  intros [Hv Hf] Hev HU HB. pose proof Hev as []. pose proof Hf as [].
  assert (forall k, fptr (set_vol v' f) k = fptr f k) as Hp.
  { intros k. apply ptr_ext. intros Hi. unfold fB. simpl. rewrite ev_blk0. apply HB; [|apply fo_ind0, Hi]. apply fo_ind0 in Hi. lia. }
  assert (fok (set_vol v' f)) as Hok'.
  { split; [done|]. change (dinode (set_vol v' f)) with (dinode f).
    assert (forall x, 0 <= x -> fU f x = true -> fU (set_vol v' f) x = true) as HU'
      by (intros x Hx Hux; unfold fU; simpl; rewrite ev_used0, HU by done; exact Hux).
    rewrite (evolves_nblocks _ _ _ _ Hev : nblocks (f_vol (set_vol v' f)) = _). split; [done|..].
    - intros k Hk. change (ptr (dinode f) (fB (set_vol v' f)) k) with (fptr (set_vol v' f) k). rewrite Hp. intros Hne.
      destruct (fo_range0 k Hk Hne) as (? & ? & ?). split; [done|]. split; [|done]. apply HU'; [unfold fptr; lia|done].
    - intros k k' Hk Hk'. change (ptr (dinode f) (fB (set_vol v' f))) with (fptr (set_vol v' f)). rewrite !Hp. by apply fo_inj0.
    - intros Hi. destruct (fo_ind0 Hi). split; [done|]. apply HU'; [lia|done]. }
  split_and!; [|done|].
  - split; try done; try congruence.
    + intros x Hx H1. unfold fU; simpl. rewrite ev_used0, HU by done. exact H1.
    + intros x Hx H1 _. unfold fB; simpl. rewrite ev_blk0. auto.
    + intros x Hx (Hnz & Ho). left. split; [done|]. destruct Ho as [->|(k & Hk & Hpk)]; [by left|right].
      exists k. split; [done|]. rewrite <- Hpk. symmetry. apply (Hp k).
    + by left.
    + intros x (Hnz & Ho). split; [done|]. destruct Ho as [->|(k & Hk & Hpk)]; [by left|right].
      exists k. split; [done|]. rewrite <- Hpk. apply (Hp k).
    + intros x Hx H1. left. unfold fU in H1; simpl in H1. rewrite ev_used0, HU in H1 by done. exact H1.
  - intros pos Hpos. apply fbyte_ext; [apply Hp|]. intros Hne. unfold fB; simpl. rewrite ev_blk0.
    destruct (fo_range0 (pos / 512) ltac:(lia) Hne) as ([? _] & ? & _). apply HB; [by apply Z.lt_le_incl|done].
Qed.

Lemma check_used_run f b :
  fok f -> b <> 0 -> 0 < b < nblocks (f_vol f) -> fU f b = true -> check_used b f = Ret (tt, f).
Proof.
  intros [Hv _] Hnz Hb Hu. unfold check_used, nz. rewrite (proj2 (Z.eqb_neq _ _) Hnz). cbn [negb].
  destruct (bused_run (f_vol f) b Hv ltac:(lia)) as (r & Hr & Hiff).
  rewrite (bind_run _ _ _ _ _ (on_vol_run _ f _ _ Hr)).
  rewrite (proj2 (Z.eqb_neq _ _)); [by destruct f|]. intros ->. unfold fU in Hu. rewrite (proj1 Hiff) in Hu by done. done.
Qed.

(** A new data block at a place that had none. *)
Lemma attach_data f f' k b :
  fok f -> vol_ok (f_vol f') -> dinode_wf (dinode f') -> sfs_sb (f_vol f') = sfs_sb (f_vol f) ->
  sfs_superdirty (f_vol f') = sfs_superdirty (f_vol f) ->
  vfs_biglock_depth (f_vol f') = vfs_biglock_depth (f_vol f) -> sv_ino (f_sv f') = sv_ino (f_sv f) ->
  sfi_type (dinode f') = sfi_type (dinode f) -> sfi_linkcount (dinode f') = sfi_linkcount (dinode f) ->
  sfi_indirect (dinode f') = sfi_indirect (dinode f) -> (f_sv f' = f_sv f \/ sv_dirty (f_sv f') = true) ->
  0 <= k -> fptr f k = 0 -> 0 < b < nblocks (f_vol f) -> fU f b = false ->
  (forall x, 0 <= x -> fU f' x = upd (fU f) b true x) -> fB f' b = zeros ->
  (forall x, x <> b -> (x = sfi_indirect (dinode f) -> x = 0) -> fB f' x = fB f x) ->
  (forall j, 0 <= j -> fptr f' j = upd (fptr f) k b j) ->
  within f f' /\ forall pos, 0 <= pos -> fcontent f' pos = fcontent f pos.
Proof.
  intros Hok Hv' Hwf Hsb Hsd Hdp Hino Hty Hlk Hind Hdirty Hk Hpk Hb Hub HU Hz HB Hp.
  pose proof Hok as [Hv []].
  assert (forall j, 0 <= j -> fptr f j <> 0 -> fptr f j <> b) as Hnb.
  { intros j Hj Hne E. destruct (fo_range0 j Hj Hne) as (_ & Hu & _). change (fU f (fptr f j) = true) in Hu. congruence. }
  assert (sfi_indirect (dinode f) <> b) as Hib.
  { intros E. destruct fo_ind0 as [_ Hu]; [lia|]. congruence. }
  assert (forall x, 0 <= x -> fU f x = true -> fU f' x = true) as HUm.
  { intros x Hx Hux. rewrite HU by done. unfold upd. by destruct (x =? b). }
  assert (nblocks (f_vol f') = nblocks (f_vol f)) as Hn by (unfold nblocks; congruence).
  assert (fok f') as Hok'.
  { split; [done|]. rewrite Hn. split; [done|..].
    - intros j Hj. change (ptr (dinode f') (fB f') j) with (fptr f' j). rewrite Hp, Hind by done.
      destruct (decide (j = k)) as [->|Hne]; [rewrite upd_eq|rewrite upd_ne by done].
      + intros _. split; [lia|]. split; [|done]. rewrite HU by lia. apply upd_eq.
      + intros Hnz. destruct (fo_range0 j Hj Hnz) as (? & ? & ?). split; [done|]. split; [|done]. apply HUm; [unfold fptr; lia|done].
    - intros j j' Hj Hj'. change (ptr (dinode f') (fB f')) with (fptr f'). rewrite !Hp by done. unfold upd.
      destruct (Z.eqb_spec j k) as [->|], (Z.eqb_spec j' k) as [->|]; [done| | |by apply fo_inj0].
      + intros Hbz Heq. symmetry in Heq. destruct (Hnb j' Hj'); [congruence|done].
      + intros Hnz Heq. by destruct (Hnb j Hj Hnz).
    - rewrite Hind. intros Hi. destruct (fo_ind0 Hi). split; [done|]. apply HUm; [lia|done]. }
  split.
  - split; try done.
    + intros x Hx Hux Hno. apply HB; [intros ->; congruence|]. intros ->.
      destruct (decide (sfi_indirect (dinode f) = 0)); [done|]. destruct Hno. split; [done|by left].
    + intros x Hx (Hnz & Ho). rewrite Hind in Ho. destruct Ho as [->|(j & Hj & Hpj)]; [left; split; [done|by left]|].
      change (fptr f' j = x) in Hpj. rewrite Hp in Hpj by done. unfold upd in Hpj. destruct (Z.eqb_spec j k).
      * subst. by right.
      * left. split; [done|]. right. by exists j.
    + intros x (Hnz & Ho). split; [done|]. rewrite Hind. destruct Ho as [->|(j & Hj & Hpj)]; [by left|right].
      exists j. split; [done|]. change (fptr f' j = x). change (fptr f j = x) in Hpj. rewrite Hp, upd_ne; [done|congruence|done].
    + intros x Hx Hux. rewrite HU in Hux by done. unfold upd in Hux. destruct (Z.eqb_spec x b) as [->|]; [right|by left].
      split; [lia|]. right. exists k. split; [done|]. change (fptr f' k = b). rewrite Hp by done. apply upd_eq.
  - intros pos Hpos. unfold fcontent, fbyte. change (ptr (dinode f') (fB f')) with (fptr f'). change (ptr (dinode f) (fB f)) with (fptr f).
    rewrite Hp by lia. destruct (decide (pos / 512 = k)) as [->|Hne].
    + rewrite upd_eq, Hpk, (proj2 (Z.eqb_neq b 0)), Hz by lia. cbn [Z.eqb].
      unfold zeros. rewrite lookup_replicate_2 by lia. done.
    + rewrite upd_ne by done. destruct (Z.eqb_spec (fptr f (pos / 512)) 0) as [|Hnz]; [done|].
      rewrite HB; [done|by apply Hnb; [lia|]|]. intros E. destruct (fo_range0 (pos / 512) ltac:(lia) Hnz) as (_ & _ & Hni).
      unfold fptr in E. congruence.
Qed.

Lemma zero_words i : unwords 128 zeros !! i = Some 0 \/ unwords 128 zeros !! i = None.
Proof.
  destruct (decide (i < 128)%nat) as [Hi|Hi].
  - left. rewrite unwords_lookup by done. f_equal. unfold zeros. rewrite drop_replicate, take_replicate.
    replace (4 `min` (512 - 4 * i))%nat with 4%nat by lia. done.
  - right. apply lookup_ge_None. rewrite unwords_length. lia.
Qed.

Lemma with_indirect_wf i b : dinode_wf i -> 0 <= b < 2 ^ 32 -> dinode_wf (with_indirect b i).
Proof. intros (?&?&?&?&?&?&?&?) Hb. unfold dinode_wf, with_indirect; simpl. tauto. Qed.

Lemma with_direct_wf i l :
  dinode_wf i -> length l = 15%nat -> Forall (fun x => 0 <= x < 2 ^ 32) l -> dinode_wf (with_direct l i).
Proof. intros (?&?&?&?&?&?&?&?) Hl Hw. unfold dinode_wf, with_direct; simpl. tauto. Qed.

Lemma with_size_wf i n : dinode_wf i -> 0 <= n < 2 ^ 32 -> dinode_wf (with_size n i).
Proof. intros (?&?&?&?&?&?&?&?) Hn. unfold dinode_wf, with_size; simpl. tauto. Qed.

(** A new, zeroed indirect block. *)
Lemma attach_indirect f v' b :
  fok f -> sfi_indirect (dinode f) = 0 -> 0 < b < nblocks (f_vol f) -> fU f b = false ->
  evolves (f_vol f) v' (upd (fU f) b true) (upd (fB f) b zeros) ->
  let f' := MkFile v' (MkSv (with_indirect b (dinode f)) (sv_ino (f_sv f)) true) in
  within f f' /\ (forall k, fptr f' k = fptr f k) /\ forall pos, 0 <= pos -> fcontent f' pos = fcontent f pos.
Proof.
  intros Hok Hi0 Hb Hub Hev f'. pose proof Hok as [Hv []]. pose proof Hev as [].
  assert (forall k, fptr f' k = fptr f k) as Hp.
  { intros k. unfold fptr, fB. destruct (decide (k < 15)).
    - by rewrite !ptr_direct.
    - rewrite (ptr_no_indirect (dinode f)) by (done || lia).
      destruct (decide (k < 143)); [|unfold ptr; rewrite (proj2 (Z.ltb_ge _ _)), (proj2 (Z.leb_le 143 k)), orb_true_r by lia; done].
      rewrite ptr_indirect by (simpl; lia). simpl. rewrite ev_blk0, upd_eq.
      by destruct (zero_words (Z.to_nat (k - 15))) as [-> | ->]. }
  assert (forall x, 0 <= x -> fU f x = true -> fU f' x = true) as HUm.
  { intros x Hx Hux. unfold fU; simpl. rewrite ev_used0 by done. unfold upd. by destruct (x =? b). }
  assert (forall k, 0 <= k -> fptr f k <> 0 -> 0 < fptr f k < nblocks (f_vol f) /\ fU f (fptr f k) = true /\ fptr f k <> b) as Hr.
  { intros k Hk Hnz. destruct (fo_range0 k Hk Hnz) as (? & Hu & _). split; [done|]. split; [done|].
    intros E. change (fU f (fptr f k) = true) in Hu. congruence. }
  assert (nblocks (f_vol f') = nblocks (f_vol f)) as Hn by (by eapply evolves_nblocks).
  pose proof (vol_max _ Hv).
  assert (fok f') as Hok'.
  { split; [done|]. rewrite Hn. split.
    - apply with_indirect_wf; [done|lia].
    - intros k Hk. change (ptr (dinode f') (fB f') k) with (fptr f' k). rewrite Hp. intros Hnz.
      destruct (Hr k Hk Hnz) as (? & ? & ?). split; [done|]. split; [|done]. apply HUm; [lia|done].
    - intros k k' Hk Hk'. change (ptr (dinode f') (fB f')) with (fptr f'). rewrite !Hp. by apply fo_inj0.
    - intros _. split; [done|]. unfold fU; simpl. rewrite ev_used0 by lia. apply upd_eq. }
  split_and!; [|done|].
  - split; try done; try (by right).
    + intros x Hx Hux _. unfold fB; simpl. rewrite ev_blk0, upd_ne; [done|]. intros ->. congruence.
    + intros x Hx (Hnz & [->|(k & Hk & Hpk)]); [by right|]. left. split; [done|]. right. exists k. split; [done|].
      rewrite <- Hpk. symmetry. apply (Hp k).
    + intros x (Hnz & [->|(k & Hk & Hpk)]); [congruence|]. split; [done|]. right. exists k. split; [done|].
      rewrite <- Hpk. apply (Hp k).
    + intros x Hx Hux. unfold fU in Hux; simpl in Hux. rewrite ev_used0 in Hux by done. unfold upd in Hux.
      destruct (Z.eqb_spec x b) as [->|]; [right|by left]. split; [lia|by left].
  - intros pos Hpos. apply fbyte_ext; [apply Hp|]. intros Hnz. unfold fB; simpl. rewrite ev_blk0. apply upd_ne.
    by apply (Hr (pos / 512)); [lia|].
Qed.

Lemma direct_entry f k : fok f -> 0 <= k < 15 -> arr_get (sfi_direct (dinode f)) k = Some (fptr f k).
Proof.
  intros Hok Hk. pose proof (fok_inode f Hok) as (_ & _ & _ & Hl & _).
  destruct (proj2 (arr_get_is_Some (sfi_direct (dinode f)) k)) as [p Hp]; [lia|].
  unfold fptr. rewrite ptr_direct, Hp by lia. done.
Qed.

Lemma direct_range f k : fok f -> 0 <= k -> fptr f k <> 0 -> check_used (fptr f k) f = Ret (tt, f).
Proof.
  intros Hok Hk Hnz. pose proof Hok as [_ []]. destruct (fo_range0 k Hk Hnz) as (? & ? & _). by apply check_used_run.
Qed.

Lemma check_zero f : check_used 0 f = Ret (tt, f).
Proof. done. Qed.

Lemma bmap_direct_read f k :
  fok f -> 0 <= k < 15 -> bmap_direct k false f = Ret ((0, fptr f k), f).
Proof.
  intros Hok Hk. unfold bmap_direct. mrun. rewrite (bind_valid _ _ _ _ _ (direct_entry f k Hok Hk)).
  rewrite andb_false_r. mrun. cbn [nz Z.eqb negb].
  destruct (decide (fptr f k = 0)) as [->|Hnz]; [done|].
  by rewrite (bind_run _ _ _ _ _ (direct_range f k Hok ltac:(lia) Hnz)).
Qed.

(** What [sfs_bmap] guarantees when it may allocate. *)
Definition bmap_post f (k rc p : Z) f' : Prop :=
  within f f' /\ (forall pos, 0 <= pos -> fcontent f' pos = fcontent f pos) /\
  sfi_size (dinode f') = sfi_size (dinode f) /\
  (rc = 0 /\ p = fptr f' k /\ p <> 0 \/ rc = ENOSPC /\ fptr f k = 0 /\ forall x, 0 <= x -> fU f' x = true).

Lemma bmap_direct_alloc f k :
  fok f -> 0 <= k < 15 -> exists rc p f', bmap_direct k true f = Ret ((rc, p), f') /\ bmap_post f k rc p f'.
Proof.
  intros Hok Hk. unfold bmap_direct. mrun. rewrite (bind_valid _ _ _ _ _ (direct_entry f k Hok Hk)).
  rewrite andb_true_r. destruct (Z.eqb_spec (fptr f k) 0) as [Hz|Hnz].
  - pose proof Hok as [Hv Hf]. destruct (balloc_run (f_vol f) Hv) as [(Hrun & Hall)|(b & v' & Hrun & Hb & Hub & Hev)];
      rewrite bind_assoc, (bind_run _ _ _ _ _ (on_vol_run _ f _ _ Hrun)).
    + exists ENOSPC, 0, f. split; [by destruct f|]. split_and!; [by apply within_refl|done|done|]. right. by split.
    + cbn [nz Z.eqb negb]. unfold change_inode. mrun. cbn [nz Z.eqb negb].
      set (f' := MkFile v' (MkSv (with_direct (arr_set (sfi_direct (dinode f)) k b) (dinode f)) (sv_ino (f_sv f)) true)).
      match goal with |- context [MkFile ?a ?s] => change (MkFile a s) with f' end. pose proof (fok_inode f Hok) as Hwf. pose proof Hwf as (_&_&_&Hl&Hw&_). pose proof (vol_max _ Hv).
      assert (forall j, 0 <= j -> fptr f' j = upd (fptr f) k b j) as Hp.
      { intros j Hj. unfold fptr, f', upd; simpl. destruct (decide (j < 15)).
        - rewrite !ptr_direct by done. simpl. destruct (Z.eqb_spec j k) as [->|Hne].
          + by rewrite arr_get_set_eq by lia.
          + by rewrite arr_get_set_ne by lia.
        - rewrite (proj2 (Z.eqb_neq j k)) by lia. unfold ptr; simpl. rewrite (proj2 (Z.ltb_ge j 15)) by lia.
          destruct (Z.eqb_spec (sfi_indirect (dinode f)) 0) as [|Hi]; [done|]. cbn [orb]. unfold fB; simpl.
          rewrite (ev_blk _ _ _ _ Hev), upd_ne; [done|]. destruct (fo_ind _ _ _ _ Hf Hi) as [_ Hu].
          unfold fU in Hu. intros E. rewrite E in Hu. congruence. }
      destruct (attach_data f f' k b) as [Hw' Hc]; try done; try apply Hev; try (by right); [|lia|..].
      * apply with_direct_wf; [done|by rewrite arr_set_length|]. apply Forall_insert; [done|lia].
      * unfold fB, f'; simpl. rewrite (ev_blk _ _ _ _ Hev). apply upd_eq.
      * intros x Hx _. unfold fB, f'; simpl. rewrite (ev_blk _ _ _ _ Hev). by apply upd_ne.
      * assert (fptr f' k = b) as Hpk by (rewrite Hp by lia; apply upd_eq).
        pose proof (direct_range f' k (w_ok _ _ Hw') ltac:(lia) ltac:(lia)) as Hcu. rewrite Hpk in Hcu.
        rewrite (bind_run _ _ _ _ _ Hcu).
        exists 0, b, f'. split; [done|]. split_and!; [done|done|done|]. left. split_and!; [done|done|lia].
  - mrun. cbn [nz Z.eqb negb]. rewrite (bind_run _ _ _ _ _ (direct_range f k Hok ltac:(lia) Hnz)).
    exists 0, (fptr f k), f. split; [done|]. split_and!; [by apply within_refl|done|done|by left].
Qed.

(** The entries of the indirect block. *)
Definition entries f : list Z := unwords 128 (fB f (sfi_indirect (dinode f))).

Lemma fB_block f x : is_block (fB f x).
Proof. apply sector_block. Qed.

Lemma entries_word f : Forall (fun x => 0 <= x < 2 ^ 32) (entries f).
Proof. destruct (fB_block f (sfi_indirect (dinode f))). by apply unwords_word. Qed.

Lemma entries_length f : length (entries f) = 128%nat.
Proof. apply unwords_length. Qed.

Lemma entry_ptr f j :
  sfi_indirect (dinode f) <> 0 -> 0 <= j < 128 -> arr_get (entries f) j = Some (fptr f (15 + j)).
Proof.
  intros Hi Hj. destruct (proj2 (arr_get_is_Some (entries f) j)) as [p Hp]; [rewrite entries_length; lia|].
  rewrite Hp. f_equal. apply arr_get_Some in Hp as [_ Hp]. unfold fptr. rewrite ptr_indirect by (done || lia).
  replace (15 + j - 15) with j by lia. change (p = default 0 (entries f !! Z.to_nat j)). by rewrite Hp.
Qed.

Lemma bmap_idblock_run f :
  fok f -> exists rc f', bmap_idblock f = Ret ((rc, if rc =? 0 then sfi_indirect (dinode f') else 0,
                                                if rc =? 0 then entries f' else []), f') /\
    within f f' /\ (forall k, fptr f' k = fptr f k) /\ (forall pos, 0 <= pos -> fcontent f' pos = fcontent f pos) /\
    sfi_size (dinode f') = sfi_size (dinode f) /\
    (rc = 0 /\ sfi_indirect (dinode f') <> 0 \/ rc = ENOSPC /\ forall x, 0 <= x -> fU f' x = true) /\
    (sfi_indirect (dinode f) <> 0 -> rc = 0 /\ f_sv f' = f_sv f /\ (forall x, 0 <= x -> fU f' x = fU f x) /\ forall x, fB f' x = fB f x).
Proof.
  intros Hok. pose proof Hok as [Hv Hf]. unfold bmap_idblock. mrun.
  destruct (Z.eqb_spec (sfi_indirect (dinode f)) 0) as [Hi|Hi].
  - destruct (balloc_run (f_vol f) Hv) as [(Hrun & Hall)|(b & v' & Hrun & Hb & Hub & Hev)];
      rewrite (bind_run _ _ _ _ _ (on_vol_run _ f _ _ Hrun)).
    + exists ENOSPC, f. split; [by destruct f|]. split_and!; [by apply within_refl|done|done|done|by right|done].
    + cbn [nz Z.eqb negb]. unfold change_inode. mrun.
      destruct (attach_indirect f v' b Hok Hi Hb Hub Hev) as (Hw & Hp & Hc). set (f' := MkFile v' _) in *.
      exists 0, f'. cbn [Z.eqb]. split.
      { match goal with |- mret _ ?s = _ => change s with f' end. unfold entries, fB; simpl. rewrite (ev_blk _ _ _ _ Hev).
        by rewrite upd_eq. }
      split_and!; try done. left. split; [done|]. simpl. lia.
  - destruct (fo_ind _ _ _ _ Hf Hi) as [Hr _].
    destruct (readblock_run (f_vol f) (sfi_indirect (dinode f)) Hv ltac:(lia)) as (v' & Hrun & Hev).
    rewrite (bind_run _ _ _ _ _ (on_vol_run _ f _ _ Hrun)).
    destruct (set_vol_within f v' _ _ Hok Hev) as (Hw & Hp & Hc); [done|done|].
    exists 0, (set_vol v' f). cbn [Z.eqb]. split.
    { unfold entries, fB; simpl. by rewrite (ev_blk _ _ _ _ Hev). }
    split_and!; try done; [by left|]. intros _. split_and!; try done; apply Hev.
Qed.

Lemma bmap_entry_read f j :
  fok f -> sfi_indirect (dinode f) <> 0 -> 0 <= j < 128 ->
  bmap_entry (sfi_indirect (dinode f)) (entries f) j false f = Ret ((0, fptr f (15 + j)), f).
Proof.
  intros Hok Hi Hj. unfold bmap_entry. rewrite (bind_valid _ _ _ _ _ (entry_ptr f j Hi Hj)), andb_false_r. mrun.
  cbn [nz Z.eqb negb]. destruct (decide (fptr f (15 + j) = 0)) as [->|Hnz]; [done|].
  by rewrite (bind_run _ _ _ _ _ (direct_range f (15 + j) Hok ltac:(lia) Hnz)).
Qed.

Lemma bmap_entry_alloc f j :
  fok f -> sfi_indirect (dinode f) <> 0 -> 0 <= j < 128 ->
  exists rc p f', bmap_entry (sfi_indirect (dinode f)) (entries f) j true f = Ret ((rc, p), f') /\
    bmap_post f (15 + j) rc p f'.
Proof.
  intros Hok Hi Hj. unfold bmap_entry. rewrite (bind_valid _ _ _ _ _ (entry_ptr f j Hi Hj)), andb_true_r.
  destruct (Z.eqb_spec (fptr f (15 + j)) 0) as [Hz|Hnz].
  - pose proof Hok as [Hv Hf]. destruct (fo_ind _ _ _ _ Hf Hi) as [Hir Hiu]. pose proof (vol_max _ Hv).
    destruct (balloc_run (f_vol f) Hv) as [(Hrun & Hall)|(b & v1 & Hrun & Hb & Hub & Hev)];
      rewrite bind_assoc, (bind_run _ _ _ _ _ (on_vol_run _ f _ _ Hrun)).
    + exists ENOSPC, 0, f. split; [by destruct f|]. split_and!; [by apply within_refl|done|done|]. right. by split.
    + cbn [nz Z.eqb negb]. mrun. set (buf := arr_set (entries f) j b).
      assert (length buf = 128%nat) as Hbl by (unfold buf; by rewrite arr_set_length, entries_length).
      assert (Forall (fun x => 0 <= x < 2 ^ 32) buf) as Hbw.
      { apply Forall_insert; [apply entries_word|lia]. }
      destruct (writeblock_run v1 (sfi_indirect (dinode f)) (words buf)) as (v2 & Hw2 & Hev2).
      { apply Hev. } { rewrite (evolves_nblocks _ _ _ _ Hev). lia. }
      { split; [by rewrite words_length, Hbl|apply words_bytes]. }
      rewrite (bind_run _ _ _ _ _ (on_vol_run _ (set_vol v1 f) _ _ Hw2)). mrun. cbn [nz Z.eqb negb].
      change (set_vol v2 (set_vol v1 f)) with (set_vol v2 f). set (f' := set_vol v2 f).
      assert (b <> sfi_indirect (dinode f)) as Hbi.
      { intros ->. unfold fU in Hiu. congruence. }
      assert (fB f' (sfi_indirect (dinode f)) = words buf) as Hfi.
      { unfold fB, f'; simpl. rewrite (ev_blk _ _ _ _ Hev2). apply upd_eq. }
      assert (forall x, x <> sfi_indirect (dinode f) -> fB f' x = upd (fB f) b zeros x) as HB.
      { intros x Hx. unfold fB, f'; simpl. rewrite (ev_blk _ _ _ _ Hev2), upd_ne by done. apply Hev. }
      assert (forall i, 0 <= i -> fptr f' i = upd (fptr f) (15 + j) b i) as Hp.
      { intros i Hi'. unfold upd. destruct (decide (i < 15)).
        { rewrite (proj2 (Z.eqb_neq i (15 + j))) by lia. unfold fptr. by rewrite !ptr_direct. }
        destruct (decide (i < 143)).
        - unfold fptr. rewrite ptr_indirect by (done || lia). change (dinode f') with (dinode f). rewrite Hfi.
          pose proof (unwords_words buf [] Hbw) as Ew. rewrite Hbl, app_nil_r in Ew. rewrite Ew. unfold buf, arr_set.
          destruct (Z.eqb_spec i (15 + j)) as [->|Hne].
          + replace (15 + j - 15) with j by lia. rewrite list_lookup_insert_eq by (rewrite entries_length; lia). done.
          + rewrite list_lookup_insert_ne by lia. by rewrite ptr_indirect by (done || lia).
        - rewrite (proj2 (Z.eqb_neq i (15 + j))) by lia. unfold fptr, ptr.
          rewrite (proj2 (Z.ltb_ge i 15)), (proj2 (Z.leb_le 143 i)), !orb_true_r by lia. done. }
      destruct (attach_data f f' (15 + j) b) as [Hw' Hc]; try done; [apply Hev2|apply (fok_inode f Hok)| | | |by left|lia|..].
      * rewrite <- (ev_sb _ _ _ _ Hev). apply Hev2.
      * rewrite <- (ev_superdirty _ _ _ _ Hev). apply Hev2.
      * rewrite <- (ev_depth _ _ _ _ Hev). apply Hev2.
      * intros x Hx. unfold fU, f'; simpl. rewrite (ev_used _ _ _ _ Hev2) by done. by apply Hev.
      * rewrite HB by done. apply upd_eq.
      * intros x Hx Hx0. destruct (decide (x = sfi_indirect (dinode f))) as [->|Hne]; [by destruct Hi; apply Hx0|].
        rewrite HB by done. by apply upd_ne.
      * assert (fptr f' (15 + j) = b) as Hpk by (rewrite Hp by lia; apply upd_eq).
        pose proof (direct_range f' (15 + j) (w_ok _ _ Hw') ltac:(lia) ltac:(lia)) as Hcu. rewrite Hpk in Hcu.
        rewrite (bind_run _ _ _ _ _ Hcu).
        exists 0, b, f'. split; [done|]. split_and!; [done|done|done|]. left. split_and!; [done|done|lia].
  - mrun. cbn [nz Z.eqb negb]. rewrite (bind_run _ _ _ _ _ (direct_range f (15 + j) Hok ltac:(lia) Hnz)).
    exists 0, (fptr f (15 + j)), f. split; [done|]. split_and!; [by apply within_refl|done|done|by left].
Qed.

(** [sfs_bmap] without allocation. *)
Lemma bmap_read f k :
  fok f -> 0 <= k ->
  exists f', sfs_bmap k false f = Ret ((if k <? 143 then 0 else EFBIG, if k <? 143 then fptr f k else 0), f') /\
    within f f' /\ f_sv f' = f_sv f /\ (forall x, 0 <= x -> fU f' x = fU f x) /\ forall x, fB f' x = fB f x.
Proof.
  intros Hok Hk. unfold sfs_bmap, SFS_NDIRECT, SFS_DBPERIDB, SFS_NINDIRECT. rewrite bind_kassert by done.
  destruct (Z.ltb_spec k 15).
  - rewrite (proj2 (Z.ltb_lt k 143)) by lia. exists f. rewrite bmap_direct_read by (done || lia).
    split_and!; try done. by apply within_refl.
  - destruct (Z.leb_spec 1 ((k - 15) / 128)).
    + rewrite (proj2 (Z.ltb_ge k 143)) by lia. exists f. split_and!; try done. by apply within_refl.
    + rewrite (proj2 (Z.ltb_lt k 143)) by lia. mrun. cbn [negb]. rewrite andb_true_r.
      destruct (Z.eqb_spec (sfi_indirect (dinode f)) 0) as [Hi|Hi].
      * exists f. unfold fptr. rewrite ptr_no_indirect by (done || lia). split_and!; try done. by apply within_refl.
      * destruct (bmap_idblock_run f Hok) as (rc & f' & Hrun & Hw & Hp & _ & _ & _ & Hsame).
        destruct (Hsame Hi) as (-> & Hsv & HU & HB). cbn [Z.eqb] in Hrun. rewrite (bind_run _ _ _ _ _ Hrun).
        cbn [nz Z.eqb negb]. rewrite bmap_entry_read; [|apply Hw|unfold dinode; by rewrite Hsv|lia].
        exists f'. rewrite Hp. replace (15 + (k - 15) mod 128) with k by lia. split_and!; done.
Qed.

(** [sfs_bmap] with allocation. *)
Lemma bmap_alloc f k :
  fok f -> 0 <= k ->
  exists rc p f', sfs_bmap k true f = Ret ((rc, p), f') /\
    if k <? 143 then bmap_post f k rc p f' else rc = EFBIG /\ f' = f.
Proof.
  intros Hok Hk. unfold sfs_bmap, SFS_NDIRECT, SFS_DBPERIDB, SFS_NINDIRECT. rewrite bind_kassert by done.
  destruct (Z.ltb_spec k 15).
  - rewrite (proj2 (Z.ltb_lt k 143)) by lia. by apply bmap_direct_alloc.
  - destruct (Z.leb_spec 1 ((k - 15) / 128)).
    + rewrite (proj2 (Z.ltb_ge k 143)) by lia. by eexists _, _, _.
    + rewrite (proj2 (Z.ltb_lt k 143)) by lia. mrun. cbn [negb]. rewrite andb_false_r.
      destruct (bmap_idblock_run f Hok) as (rc & f1 & Hrun & Hw & Hp & Hc & Hsz & Hcase & Hind).
      rewrite (bind_run _ _ _ _ _ Hrun). destruct Hcase as [(-> & Hi)|(-> & Hfull)]; cbn [nz Z.eqb negb ENOSPC].
      * destruct (bmap_entry_alloc f1 ((k - 15) mod 128)) as (rc & p & f2 & Hrun2 & Hw2 & Hc2 & Hsz2 & Hcase2);
          [apply Hw|done|lia|]. exists rc, p, f2. split; [done|]. split_and!.
        -- by eapply within_trans.
        -- intros pos Hpos. by rewrite Hc2, Hc.
        -- congruence.
        -- rewrite Hp in Hcase2. by replace (15 + (k - 15) mod 128) with k in Hcase2 by lia.
      * exists ENOSPC, 0, f1. split; [done|]. split_and!; try done. right. split; [done|]. split; [|done].
        destruct (decide (sfi_indirect (dinode f) = 0)) as [Hz|Hz]; [|by destruct (Hind Hz)].
        unfold fptr, ptr. rewrite (proj2 (Z.ltb_ge k 15)), Hz by lia. done.
Qed.

(** C11 sfs_bmap_spec. For a file of a volume whose disk reports no I/O error (and
    which has at most 2^23 blocks), [sfs_bmap] returns for every block number and
    never panics.  Beyond the 143 blocks a file can have it fails with [EFBIG];
    without allocation it gives the block that is mapped, or 0, and leaves the
    in-memory inode (its dirty flag included), the free map and every block of the
    volume as they are; with allocation it gives the block, or fails with [ENOSPC]
    on a full volume.  The bytes and the size of the file are the same
    before and after in every case, no block in use by anything else changes,
    every block newly taken belongs to the file, and the file stays well-formed:
    its blocks are in use, distinct and inside the volume. *)
Theorem sfs_bmap_spec f k :
  fok f -> 0 <= k ->
  (exists f', sfs_bmap k false f = Ret ((if k <? 143 then 0 else EFBIG, if k <? 143 then fptr f k else 0), f') /\
     within f f' /\ f_sv f' = f_sv f /\ (forall x, 0 <= x -> fU f' x = fU f x) /\ (forall x, fB f' x = fB f x) /\
     forall pos, 0 <= pos -> fcontent f' pos = fcontent f pos) /\
  (exists rc p f', sfs_bmap k true f = Ret ((rc, p), f') /\ within f f' /\ sfi_size (dinode f') = sfi_size (dinode f) /\
     (forall pos, 0 <= pos -> fcontent f' pos = fcontent f pos) /\
     (rc = 0 /\ k < 143 /\ p = fptr f' k /\ p <> 0 \/
      rc = ENOSPC /\ (forall x, 0 <= x -> fU f' x = true) \/ rc = EFBIG /\ 143 <= k /\ f' = f)).
Proof.
  intros Hok Hk. split.
  - destruct (bmap_read f k Hok Hk) as (f' & Hrun & Hw & Hsv & HU & HB). exists f'. split_and!; [done..|].
    intros pos Hpos. unfold fcontent, dinode. rewrite Hsv. apply fbyte_ext; [|done]. intros j. by apply ptr_ext.
  - destruct (bmap_alloc f k Hok Hk) as (rc & p & f' & Hrun & Hpost). exists rc, p, f'. split; [done|].
    destruct (Z.ltb_spec k 143).
    + destruct Hpost as (Hw & Hc & Hsz & [(?&?&?)|(?&_&?)]); split_and!; try done; [by left|by right; left].
    + destruct Hpost as [-> ->]. split_and!; [by apply within_refl|done|done|]. by right; right.
Qed.

(** ** Reading and writing *)

(** The bytes of file block [k]. *)
Definition fblock f (k : Z) : list Z := if fptr f k =? 0 then zeros else fB f (fptr f k).

Lemma fblock_block f k : is_block (fblock f k).
Proof. unfold fblock. destruct (_ =? _); [apply zeros_block|apply fB_block]. Qed.

Lemma fblock_content f k i : 0 <= i < 512 -> fblock f k !! Z.to_nat i = Some (fcontent f (512 * k + i)).
Proof.
  intros Hi. destruct (fblock_block f k) as [Hl _].
  destruct (lookup_lt_is_Some_2 (fblock f k) (Z.to_nat i)) as [x Hx]; [lia|]. rewrite Hx. f_equal.
  unfold fcontent, fbyte. replace ((512 * k + i) / 512) with k by lia. replace ((512 * k + i) mod 512) with i by lia.
  change (ptr (dinode f) (fB f) k) with (fptr f k). unfold fblock in Hx. destruct (fptr f k =? 0).
  - unfold zeros in Hx. by apply lookup_replicate in Hx as [-> _].
  - by rewrite Hx.
Qed.

(** [n] bytes of the file from [pos] on. *)
Definition fbytes f (pos : Z) (n : nat) : list Z := fcontent f <$> seqZ pos (Z.of_nat n).

Lemma fbytes_length f pos n : length (fbytes f pos n) = n.
Proof. unfold fbytes. rewrite length_fmap, length_seqZ. lia. Qed.

Lemma fbytes_app f pos n m : fbytes f pos (n + m) = fbytes f pos n ++ fbytes f (pos + Z.of_nat n) m.
Proof. unfold fbytes. rewrite Nat2Z.inj_add, seqZ_app, fmap_app by lia. done. Qed.

Lemma fbytes_lookup f pos n i : (i < n)%nat -> fbytes f pos n !! i = Some (fcontent f (pos + Z.of_nat i)).
Proof. intros Hi. unfold fbytes. rewrite list_lookup_fmap, lookup_seqZ_lt by lia. done. Qed.

Lemma fbytes_ext f f' pos n :
  (forall x, pos <= x < pos + Z.of_nat n -> fcontent f' x = fcontent f x) -> fbytes f' pos n = fbytes f pos n.
Proof. intros He. unfold fbytes. apply list_fmap_ext. intros i x [-> Hi]%lookup_seqZ. apply He. lia. Qed.

Lemma fblock_slice f k skip len :
  0 <= skip -> 0 <= len -> skip + len <= 512 ->
  take (Z.to_nat len) (drop (Z.to_nat skip) (fblock f k)) = fbytes f (512 * k + skip) (Z.to_nat len).
Proof.
  intros Hs Hl Hle. destruct (fblock_block f k) as [Hlen _]. apply list_eq_same_length with (n := Z.to_nat len);
    [by rewrite fbytes_length|rewrite length_take, length_drop; lia|].
  intros i x y Hi Hx Hy. rewrite lookup_take_lt, lookup_drop in Hx by done. rewrite fbytes_lookup in Hy by done.
  replace (Z.to_nat skip + i)%nat with (Z.to_nat (skip + Z.of_nat i)) in Hx by lia.
  rewrite fblock_content in Hx by lia. simplify_eq. rewrite Z.add_assoc. done.
Qed.

(** Nothing changed but the state of the driver. *)
Definition same f f' : Prop :=
  within f f' /\ f_sv f' = f_sv f /\ (forall x, 0 <= x -> fU f' x = fU f x) /\ forall x, fB f' x = fB f x.

Lemma same_trans f1 f2 f3 : same f1 f2 -> same f2 f3 -> same f1 f3.
Proof.
  intros (W1 & S1 & U1 & B1) (W2 & S2 & U2 & B2). split_and!; [by eapply within_trans|congruence|..]; intros x.
  - intros Hx. by rewrite U2, U1.
  - by rewrite B2, B1.
Qed.

Lemma same_refl f : fok f -> same f f.
Proof. intros Hok. split_and!; try done. by apply within_refl. Qed.

Lemma same_content f f' pos : same f f' -> fcontent f' pos = fcontent f pos.
Proof.
  intros (_ & Hsv & _ & HB). unfold fcontent, dinode. rewrite Hsv. apply fbyte_ext; [|done]. intros j. by apply ptr_ext.
Qed.

Lemma same_fblock f f' k : same f f' -> fblock f' k = fblock f k.
Proof.
  intros (_ & Hsv & _ & HB). unfold fblock, fptr, dinode. rewrite Hsv.
  assert (ptr (sv_i (f_sv f)) (fB f') k = ptr (sv_i (f_sv f)) (fB f) k) as -> by (by apply ptr_ext). by rewrite HB.
Qed.

Lemma vol_same f v' :
  fok f -> evolves (f_vol f) v' (fU f) (fB f) -> same f (set_vol v' f).
Proof.
  intros Hok Hev. destruct (set_vol_within f v' _ _ Hok Hev) as (Hw & _ & _); [done|done|].
  split_and!; [done|done|apply Hev|apply Hev].
Qed.

(** Overwriting the data block of file block [k]. *)
Lemma write_data f v' k data :
  fok f -> 0 <= k -> fptr f k <> 0 -> is_block data ->
  evolves (f_vol f) v' (fU f) (upd (fB f) (fptr f k) data) ->
  within f (set_vol v' f) /\
  forall pos, 0 <= pos -> fcontent (set_vol v' f) pos =
    if pos / 512 =? k then default 0 (data !! Z.to_nat (pos mod 512)) else fcontent f pos.
Proof.
  intros Hok Hk Hnz Hd Hev. pose proof Hok as [Hv Hf]. pose proof Hf as []. destruct (fo_range0 k Hk Hnz) as (Hr & Hu & Hi).
  change (ptr (dinode f) (fB f) k) with (fptr f k) in *.
  set (f' := set_vol v' f).
  assert (forall j, fptr f' j = fptr f j) as Hp.
  { intros j. apply ptr_ext. intros _. unfold fB; simpl. rewrite (ev_blk _ _ _ _ Hev). by apply upd_ne. }
  assert (forall x, fB f' x = upd (fB f) (fptr f k) data x) as HB by (intros x; apply Hev).
  assert (forall x, 0 <= x -> fU f' x = fU f x) as HU by (intros x; apply Hev).
  assert (fok f') as Hok'.
  { split; [apply Hev|]. change (dinode f') with (dinode f).
    rewrite (evolves_nblocks _ _ _ _ Hev : nblocks (f_vol f') = _). split; [done|..].
    - intros j Hj. change (ptr (dinode f) (fB f') j) with (fptr f' j). rewrite Hp. intros Hjz.
      destruct (fo_range0 j Hj Hjz) as (? & ? & ?). split; [done|]. split; [|done]. rewrite HU by (unfold fptr; lia). done.
    - intros j j' Hj Hj'. change (ptr (dinode f) (fB f')) with (fptr f'). rewrite !Hp. by apply fo_inj0.
    - intros Hz. destruct (fo_ind0 Hz). split; [done|]. rewrite HU by lia. done. }
  split.
  - split; try done; try apply Hev.
    + intros x Hx. by rewrite HU.
    + intros x Hx _ Hno. rewrite HB. apply upd_ne. intros ->. destruct Hno. split; [done|]. right. by exists k.
    + intros x Hx (Hxz & Ho). left. split; [done|]. destruct Ho as [->|(j & Hj & Hpj)]; [by left|right].
      exists j. split; [done|]. rewrite <- Hpj. symmetry. apply (Hp j).
    + by left.
    + intros x (Hxz & Ho). split; [done|]. destruct Ho as [->|(j & Hj & Hpj)]; [by left|right].
      exists j. split; [done|]. rewrite <- Hpj. apply (Hp j).
    + intros x Hx H1. left. by rewrite <- HU.
  - intros pos Hpos. unfold fcontent, fbyte. change (ptr (dinode f') (fB f')) with (fptr f').
    change (ptr (dinode f) (fB f)) with (fptr f). rewrite Hp. destruct (Z.eqb_spec (pos / 512) k) as [->|Hne].
    + rewrite (proj2 (Z.eqb_neq _ _) Hnz), HB, upd_eq. done.
    + destruct (Z.eqb_spec (fptr f (pos / 512)) 0) as [|Hpz]; [done|]. rewrite HB, upd_ne; [done|].
      intros E. destruct Hne. by apply fo_inj0; [lia|..].
Qed.

Lemma on_file_run {A} (c : M file A) f u a f' : c f = Ret (a, f') -> on_file c (f, u) = Ret (a, (f', u)).
Proof. intros Hc. unfold on_file, zoom. simpl. by rewrite Hc. Qed.

Lemma on_uio_run {A} (c : M uio A) f u a u' : c u = Ret (a, u') -> on_uio c (f, u) = Ret (a, (f, u')).
Proof. intros Hc. unfold on_uio, zoom. simpl. by rewrite Hc. Qed.

(** The file block of an offset, as the code computes it. *)
Lemma fileblock_of off : 0 <= off < 2 ^ 41 -> u32 (Z.quot off SFS_BLOCKSIZE) = off / 512.
Proof. intros Ho. unfold SFS_BLOCKSIZE. rewrite Z.quot_div_nonneg by lia. apply u32_id. lia. Qed.

Definition is_read u : Prop := uio_rw u = Uio.UIO_READ /\ good u.
Definition is_write u : Prop := uio_rw u = Uio.UIO_WRITE /\ good u /\ Forall (fun b => 0 <= b < 256) (cells u).*1.

Lemma advanced_read k o u u' : advanced k o u u' -> is_read u -> Z.of_nat k <= uio_resid u -> is_read u'.
Proof. intros Ha [Hr Hg] Hk. split; [by destruct Ha as (_ & _ & _ & -> & _)|by eapply advanced_good]. Qed.

Lemma advanced_write k o u u' : advanced k o u u' -> is_write u -> Z.of_nat k <= uio_resid u -> is_write u'.
Proof.
  intros Ha (Hr & Hg & Hb) Hk. split; [by destruct Ha as (_ & _ & _ & -> & _)|]. split; [by eapply advanced_good|].
  destruct Ha as (-> & _). rewrite fmap_drop. by apply Forall_drop.
Qed.

(** [n] bytes of the file have been delivered. *)
Definition delivered (n : nat) f u f' u' : Prop :=
  same f f' /\ advanced n (fbytes f (uio_offset u) n) u u'.

Lemma delivered_trans n m f1 u1 f2 u2 f3 u3 :
  delivered n f1 u1 f2 u2 -> delivered m f2 u2 f3 u3 -> delivered (n + m) f1 u1 f3 u3.
Proof.
  intros [S1 A1] [S2 A2]. split; [by eapply same_trans|]. rewrite fbytes_app.
  pose proof A1 as (_ & Ho & _). rewrite Ho in A2.
  rewrite (fbytes_ext f1 f2) in A2 by (intros x _; by apply same_content). by eapply advanced_trans.
Qed.

Lemma partialio_read f u len :
  fok f -> is_read u -> 0 <= uio_offset u < 512 * 143 -> 0 <= len <= uio_resid u -> uio_offset u mod 512 + len <= 512 ->
  exists f' u', sfs_partialio (uio_offset u mod 512) len (f, u) = Ret (0, (f', u')) /\
    delivered (Z.to_nat len) f u f' u'.
Proof.
  intros Hok [Hrw Hg] Ho Hlen Hskip. unfold sfs_partialio. mrun. cbn [fst snd]. rewrite Hrw, fileblock_of by lia.
  change (Uio.UIO_READ =? Uio.UIO_WRITE) with false. change (Uio.UIO_READ =? Uio.UIO_READ) with true.
  rewrite bind_kassert by (apply Z.leb_le; unfold SFS_BLOCKSIZE; lia). rewrite bind_kassert by done.
  set (k := uio_offset u / 512). destruct (bmap_read f k Hok ltac:(lia)) as (f1 & Hb & Hs1).
  rewrite (bind_run _ _ _ _ _ (on_file_run _ f u _ _ Hb)).
  rewrite (proj2 (Z.ltb_lt k 143)) by lia. cbn [nz Z.eqb negb].
  match goal with |- exists _ _, (mbind ?kk ?c) _ = _ /\ _ =>
    assert (exists f2, c (f1, u) = Ret ((0, fblock f k), (f2, u)) /\ same f f2) as (f2 & Hblk & Hs2) end.
  { unfold fblock. destruct (Z.eqb_spec (fptr f k) 0) as [Hz|Hz].
    - rewrite bind_kassert by done. by exists f1.
    - pose proof Hs1 as (Hw1 & _ & _ & HB1). pose proof Hok as [_ []].
      destruct (fo_range0 k ltac:(lia) Hz) as (Hr & _).
      destruct (readblock_run (f_vol f1) (fptr f k)) as (v2 & Hrb & Hev);
        [apply Hw1|rewrite (within_nblocks _ _ Hw1); change (ptr (dinode f) (fB f) k) with (fptr f k) in Hr; lia|].
      exists (set_vol v2 f1). split.
      + rewrite (on_file_run _ f1 u _ _ (on_vol_run _ f1 _ _ Hrb)). unfold fB in HB1. by rewrite HB1.
      + eapply same_trans; [exact Hs1|]. apply vol_same; [apply Hw1|done]. }
  rewrite (bind_run _ _ _ _ _ Hblk). cbn [nz Z.eqb negb]. unfold move_iobuf. mrun. cbn [snd]. rewrite Hrw.
  change (Uio.UIO_READ =? Uio.UIO_READ) with true. cbv iota.
  rewrite (fblock_slice f k) by lia. replace (512 * k + uio_offset u mod 512) with (uio_offset u) by (unfold k; lia).
  destruct (uiomove_out_run (fbytes f (uio_offset u) (Z.to_nat len)) u Hg) as (u' & Hmv & Hadv & _);
    [rewrite fbytes_length; lia|].
  rewrite bind_assoc, (bind_run _ _ _ _ _ (on_uio_run _ f2 u _ _ Hmv)). mrun. cbn [nz Z.eqb negb].
  exists f2, u'. split; [done|]. split; [done|]. by rewrite fbytes_length in Hadv.
Qed.

Lemma blockio_read f u :
  fok f -> is_read u -> 0 <= uio_offset u < 512 * 143 -> uio_offset u mod 512 = 0 -> 512 <= uio_resid u ->
  exists f' u', sfs_blockio (f, u) = Ret (0, (f', u')) /\ delivered 512 f u f' u'.
Proof.
  intros Hok [Hrw Hg] Ho Hal Hres. unfold sfs_blockio. mrun. cbn [fst snd]. rewrite Hrw, fileblock_of by lia.
  change (Uio.UIO_READ =? Uio.UIO_WRITE) with false. change (Uio.UIO_READ =? Uio.UIO_READ) with true.
  set (k := uio_offset u / 512). destruct (bmap_read f k Hok ltac:(lia)) as (f1 & Hb & Hs1).
  rewrite (bind_run _ _ _ _ _ (on_file_run _ f u _ _ Hb)).
  rewrite (proj2 (Z.ltb_lt k 143)) by lia. cbn [nz Z.eqb negb].
  assert (fblock f k = fbytes f (uio_offset u) 512) as Hfb.
  { pose proof (fblock_slice f k 0 512) as E. rewrite take_ge in E by (rewrite length_drop; destruct (fblock_block f k); lia).
    replace (512 * k + 0) with (uio_offset u) in E by (unfold k; lia). apply E; lia. }
  unfold fblock in Hfb. destruct (Z.eqb_spec (fptr f k) 0) as [Hz|Hz].
  - rewrite bind_kassert by done. unfold uiomovezeros. change (replicate (Z.to_nat SFS_BLOCKSIZE) 0) with zeros.
    destruct (uiomove_out_run zeros u Hg) as (u' & Hmv & Hadv & _); [done|].
    exists f1, u'. split; [by apply on_uio_run|]. split; [done|]. by rewrite <- Hfb.
  - pose proof Hs1 as (Hw1 & _ & _ & HB1). pose proof Hok as [Hv []]. destruct (fo_range0 k ltac:(lia) Hz) as (Hr & _).
    change (ptr (dinode f) (fB f) k) with (fptr f k) in Hr. pose proof (vol_max _ Hv).
    rewrite (bind_run _ _ _ _ _ (on_uio_run _ f1 u _ _ eq_refl)).
    rewrite bind_kassert by (apply Z.leb_le; unfold SFS_BLOCKSIZE; lia).
    rewrite (bind_run _ _ _ _ _ (on_uio_run _ f1 _ _ _ eq_refl)). unfold SFS_BLOCKSIZE. rewrite (u32_id (fptr f k * 512)) by lia.
    set (u1 := set_resid 512 (set_offset (fptr f k * 512) u)).
    destruct (rwblock_read (f_vol f1) u1 (fptr f k)) as (v2 & u2 & Hrb & Hev & (Hc & Hoff & Hre & Hw & Hout));
      [apply Hw1| |done|simpl; lia|done|rewrite (within_nblocks _ _ Hw1); lia|].
    { destruct Hg as (Hc & Hr1 & Hr2). change (cells u1) with (cells u). unfold good. change (cells u1) with (cells u). simpl. split_and!; [done|lia|lia|lia]. }
    erewrite bind_run; [|unfold zoom; simpl fst; simpl snd; rewrite Hrb; reflexivity].
    rewrite (bind_run _ _ _ _ _ (on_uio_run _ _ u2 _ _ eq_refl)).
    rewrite (bind_run _ _ _ _ _ (on_uio_run _ _ _ _ _ eq_refl)).
    eexists _, _. split; [reflexivity|]. cbn [fst snd]. split.
    + eapply same_trans; [exact Hs1|]. apply vol_same; [apply Hw1|done].
    + rewrite <- Hfb. unfold fB in HB1 |- *. rewrite HB1 in Hout. unfold advanced. simpl in *.
      split_and!; [done|rewrite Hoff; lia|rewrite Hre; lia|done|done].
Qed.

(** The bytes [bs] put into [g] at [off]. *)
Definition splice (g : Z -> Z) (off : Z) (bs : list Z) (pos : Z) : Z :=
  if (off <=? pos) && (pos <? off + Z.of_nat (length bs)) then default 0 (bs !! Z.to_nat (pos - off)) else g pos.

Lemma splice_nil g off pos : splice g off [] pos = g pos.
Proof.
  unfold splice. simpl length. destruct (Z.leb_spec off pos), (Z.ltb_spec pos (off + Z.of_nat 0)); done || lia.
Qed.

Lemma splice_app g off bs cs pos :
  splice (splice g off bs) (off + Z.of_nat (length bs)) cs pos = splice g off (bs ++ cs) pos.
Proof.
  unfold splice. rewrite length_app.
  destruct (Z.leb_spec (off + Z.of_nat (length bs)) pos),
    (Z.ltb_spec pos (off + Z.of_nat (length bs) + Z.of_nat (length cs))),
    (Z.leb_spec off pos), (Z.ltb_spec pos (off + Z.of_nat (length bs))),
    (Z.ltb_spec pos (off + Z.of_nat (length bs + length cs))); cbn [andb]; try lia; try done.
  - rewrite lookup_app_r by lia. do 2 f_equal. lia.
  - by rewrite lookup_app_l by lia.
Qed.

Lemma splice_ext g g' off bs pos : g pos = g' pos -> splice g off bs pos = splice g' off bs pos.
Proof. intros He. unfold splice. by destruct (_ && _). Qed.

(** [n] bytes have been written; the size of the file is not yet adjusted. *)
Definition wrote (n : nat) f u f' u' : Prop :=
  within f f' /\ sfi_size (dinode f') = sfi_size (dinode f) /\ advanced n [] u u' /\
  ((0 < n)%nat -> uio_offset u + Z.of_nat n <= 512 * 143) /\
  forall pos, 0 <= pos -> fcontent f' pos = splice (fcontent f) (uio_offset u) (take n (cells u).*1) pos.

Lemma wrote_trans n m f1 u1 f2 u2 f3 u3 :
  is_write u1 -> Z.of_nat n <= uio_resid u1 -> 0 <= uio_offset u1 ->
  wrote n f1 u1 f2 u2 -> wrote m f2 u2 f3 u3 -> wrote (n + m) f1 u1 f3 u3.
Proof.
  intros (_ & (_ & Hr & _) & _) Hn H0 (W1 & S1 & A1 & B1 & C1) (W2 & S2 & A2 & B2 & C2). pose proof A1 as (Hc & Ho & _).
  assert (length (take n (cells u1).*1) = n) as Hln by (rewrite length_take, length_fmap; lia).
  split_and!; [by eapply within_trans|congruence|by apply (advanced_trans n m [] [] u1 u2 u3)| |].
  - destruct m; [rewrite Nat.add_0_r; done|]. intros _. rewrite Ho in B2. lia.
  - intros pos Hpos. rewrite C2, Ho by lia. rewrite <- Hln at 1.
    rewrite (splice_ext _ (splice (fcontent f1) (uio_offset u1) (take n (cells u1).*1))) by (by apply C1).
    rewrite splice_app. f_equal. rewrite Hc, fmap_drop. by rewrite take_take_drop.
Qed.

Lemma wrote_none f u f' :
  within f f' -> sfi_size (dinode f') = sfi_size (dinode f) ->
  (forall pos, 0 <= pos -> fcontent f' pos = fcontent f pos) -> wrote 0 f u f' u.
Proof.
  intros Hw Hs Hc. split_and!; [done|done|apply advanced_refl|lia|]. intros pos Hpos. rewrite take_0, splice_nil. auto.
Qed.

(** The outcome of a write of [want] bytes: all of them, or an error after some. *)
Definition write_post (want : nat) (rc : Z) f u f' u' : Prop :=
  exists n, wrote n f u f' u' /\ (n <= want)%nat /\ (rc = 0 /\ n = want \/ (n < want)%nat /\ (rc = ENOSPC \/ rc = EFBIG)).

(** The bytes of a block after part of it is overwritten. *)
Lemma patch_block f k skip bs pos :
  0 <= skip -> skip + Z.of_nat (length bs) <= 512 -> 0 <= pos -> pos / 512 = k ->
  default 0 ((take (Z.to_nat skip) (fblock f k) ++ bs ++ drop (Z.to_nat skip + length bs) (fblock f k)) !! Z.to_nat (pos mod 512)) =
  splice (fcontent f) (512 * k + skip) bs pos.
Proof.
  intros Hs Hle Hpos Hk. destruct (fblock_block f k) as [Hl _]. unfold splice.
  assert (length (take (Z.to_nat skip) (fblock f k)) = Z.to_nat skip) as Ht by (rewrite length_take; lia).
  assert (pos = 512 * k + pos mod 512) as Hp by lia. set (r := pos mod 512) in *. assert (0 <= r < 512) as Hr by lia.
  destruct (Z.leb_spec (512 * k + skip) pos); cbn [andb].
  - rewrite lookup_app_r by lia. rewrite Ht. destruct (Z.ltb_spec pos (512 * k + skip + Z.of_nat (length bs))).
    + rewrite lookup_app_l by lia. do 2 f_equal. lia.
    + rewrite lookup_app_r by lia. rewrite lookup_drop.
      replace (Z.to_nat skip + length bs + (Z.to_nat r - Z.to_nat skip - length bs))%nat with (Z.to_nat r) by lia.
      rewrite fblock_content by lia. simpl. by rewrite <- Hp.
  - rewrite lookup_app_l by lia. rewrite lookup_take_lt, fblock_content by lia. simpl. by rewrite <- Hp.
Qed.

Lemma patch_is_block f k skip bs :
  0 <= skip -> skip + Z.of_nat (length bs) <= 512 -> Forall (fun b => 0 <= b < 256) bs ->
  is_block (take (Z.to_nat skip) (fblock f k) ++ bs ++ drop (Z.to_nat skip + length bs) (fblock f k)).
Proof.
  intros Hs Hle Hb. destruct (fblock_block f k) as [Hl Hbb]. split.
  - rewrite !length_app, length_take, length_drop. lia.
  - rewrite !Forall_app. split_and!; [by apply Forall_take|done|by apply Forall_drop].
Qed.

(** Overwriting part of file block [k] after [sfs_bmap] has found it. *)
Lemma write_part f f1 v' k skip bs :
  fok f -> within f f1 -> (forall pos, 0 <= pos -> fcontent f1 pos = fcontent f pos) -> 0 <= k -> fptr f1 k <> 0 ->
  0 <= skip -> skip + Z.of_nat (length bs) <= 512 -> Forall (fun b => 0 <= b < 256) bs ->
  evolves (f_vol f1) v' (fU f1) (upd (fB f1) (fptr f1 k)
    (take (Z.to_nat skip) (fblock f1 k) ++ bs ++ drop (Z.to_nat skip + length bs) (fblock f1 k))) ->
  within f (set_vol v' f1) /\
  forall pos, 0 <= pos -> fcontent (set_vol v' f1) pos = splice (fcontent f) (512 * k + skip) bs pos.
Proof.
  intros Hok Hw Hc Hk Hnz Hs Hle Hb Hev.
  destruct (write_data f1 v' k _ (w_ok _ _ Hw) Hk Hnz (patch_is_block f1 k skip bs Hs Hle Hb) Hev) as [Hw' Hc'].
  split; [by eapply within_trans|]. intros pos Hpos. rewrite Hc' by done. destruct (Z.eqb_spec (pos / 512) k) as [E|E].
  - rewrite (patch_block f1 k skip bs pos) by done. apply splice_ext. auto.
  - rewrite Hc by done. unfold splice. destruct (Z.leb_spec (512 * k + skip) pos), (Z.ltb_spec pos (512 * k + skip + Z.of_nat (length bs))); cbn [andb]; try done. lia.
Qed.

Lemma partialio_write f u len :
  fok f -> is_write u -> 0 <= uio_offset u < 2 ^ 41 -> 0 < len <= uio_resid u -> uio_offset u mod 512 + len <= 512 ->
  exists rc f' u', sfs_partialio (uio_offset u mod 512) len (f, u) = Ret (rc, (f', u')) /\
    write_post (Z.to_nat len) rc f u f' u'.
Proof.
  intros Hok (Hrw & Hg & Hby) Ho Hlen Hskip. unfold sfs_partialio. mrun. cbn [fst snd]. rewrite Hrw, fileblock_of by lia.
  change (Uio.UIO_WRITE =? Uio.UIO_WRITE) with true. change (Uio.UIO_WRITE =? Uio.UIO_READ) with false.
  rewrite bind_kassert by (apply Z.leb_le; unfold SFS_BLOCKSIZE; lia). rewrite bind_kassert by done.
  set (k := uio_offset u / 512). destruct (bmap_alloc f k Hok ltac:(lia)) as (rc & p & f1 & Hb & Hpost).
  rewrite (bind_run _ _ _ _ _ (on_file_run _ f u _ _ Hb)). destruct (Z.ltb_spec k 143) as [Hk|Hk]; cycle 1.
  { destruct Hpost as [-> ->]. exists EFBIG, f, u. split; [done|]. exists 0%nat. split_and!; [|lia|right; split; [lia|by right]].
    apply wrote_none; [by apply within_refl|done|done]. }
  destruct Hpost as (Hw1 & Hc1 & Hsz1 & [(-> & -> & Hnz)|(-> & _)]); cycle 1.
  { exists ENOSPC, f1, u. split; [done|]. exists 0%nat. split_and!; [by apply wrote_none|lia|right; split; [lia|by left]]. }
  cbn [nz Z.eqb negb]. rewrite (proj2 (Z.eqb_neq _ _) Hnz).
  pose proof (w_ok _ _ Hw1) as Hok1. pose proof Hok1 as [Hv1 []]. destruct (fo_range0 k ltac:(lia) Hnz) as (Hr & _).
  change (ptr (dinode f1) (fB f1) k) with (fptr f1 k) in Hr.
  destruct (readblock_run (f_vol f1) (fptr f1 k) Hv1 ltac:(lia)) as (v2 & Hrb & Hev2).
  rewrite (bind_run _ _ _ _ _ (on_file_run _ f1 u _ _ (on_vol_run _ f1 _ _ Hrb))). cbn [nz Z.eqb negb].
  unfold move_iobuf. mrun. cbn [snd]. rewrite Hrw. change (Uio.UIO_WRITE =? Uio.UIO_READ) with false. cbv iota.
  destruct (uiomove_in_run len u Hg ltac:(lia)) as (u' & Hmv & Hadv & _).
  rewrite bind_assoc, (bind_run _ _ _ _ _ (on_uio_run _ _ u _ _ Hmv)). mrun. cbn [nz Z.eqb negb].
  change (Uio.UIO_WRITE =? Uio.UIO_WRITE) with true. cbv iota. set (bs := take (Z.to_nat len) (cells u).*1).
  assert (length bs = Z.to_nat len) as Hbl by (destruct Hg as (_ & ? & _); unfold bs; rewrite length_take, length_fmap; lia).
  assert (Forall (fun b => 0 <= b < 256) bs) as Hbb by (by apply Forall_take).
  assert (blk (f_vol f1) (fptr f1 k) = fblock f1 k) as -> by (unfold fblock; by rewrite (proj2 (Z.eqb_neq _ _) Hnz)).
  destruct (writeblock_run v2 (fptr f1 k) (take (Z.to_nat (uio_offset u mod 512)) (fblock f1 k) ++ bs ++
     drop (Z.to_nat (uio_offset u mod 512) + length bs) (fblock f1 k))) as (v3 & Hwb & Hev3).
  { apply Hev2. } { rewrite (evolves_nblocks _ _ _ _ Hev2). lia. } { apply patch_is_block; [lia|lia|done]. }
  rewrite (on_file_run _ (set_vol v2 f1) u' _ _ (on_vol_run _ (set_vol v2 f1) _ _ Hwb)).
  change (set_vol v3 (set_vol v2 f1)) with (set_vol v3 f1).
  destruct (write_part f f1 v3 k (uio_offset u mod 512) bs) as [Hw' Hc']; try done; [lia|lia|lia| |].
  { eapply evolves_ext; [by eapply evolves_trans|apply Hev2|]. intros x. unfold upd. destruct (x =? _); [done|apply Hev2]. }
  exists 0, (set_vol v3 f1), u'. split; [done|]. exists (Z.to_nat len). split_and!; [|lia|by left].
  split_and!; [done|done|done|lia|]. intros pos Hpos. rewrite Hc' by done. unfold bs, k. do 2 f_equal. lia.
Qed.

Lemma blockio_write f u :
  fok f -> is_write u -> 0 <= uio_offset u < 2 ^ 41 -> uio_offset u mod 512 = 0 -> 512 <= uio_resid u ->
  exists rc f' u', sfs_blockio (f, u) = Ret (rc, (f', u')) /\ write_post 512 rc f u f' u'.
Proof.
  intros Hok (Hrw & Hg & Hby) Ho Hal Hres. unfold sfs_blockio. mrun. cbn [fst snd]. rewrite Hrw, fileblock_of by lia.
  change (Uio.UIO_WRITE =? Uio.UIO_WRITE) with true. change (Uio.UIO_WRITE =? Uio.UIO_READ) with false.
  set (k := uio_offset u / 512). destruct (bmap_alloc f k Hok ltac:(lia)) as (rc & p & f1 & Hb & Hpost).
  rewrite (bind_run _ _ _ _ _ (on_file_run _ f u _ _ Hb)). destruct (Z.ltb_spec k 143) as [Hk|Hk]; cycle 1.
  { destruct Hpost as [-> ->]. exists EFBIG, f, u. split; [done|]. exists 0%nat. split_and!; [|lia|right; split; [lia|by right]].
    apply wrote_none; [by apply within_refl|done|done]. }
  destruct Hpost as (Hw1 & Hc1 & Hsz1 & [(-> & -> & Hnz)|(-> & _)]); cycle 1.
  { exists ENOSPC, f1, u. split; [done|]. exists 0%nat. split_and!; [by apply wrote_none|lia|right; split; [lia|by left]]. }
  cbn [nz Z.eqb negb]. rewrite (proj2 (Z.eqb_neq _ _) Hnz).
  pose proof (w_ok _ _ Hw1) as Hok1. pose proof Hok1 as [Hv1 []]. destruct (fo_range0 k ltac:(lia) Hnz) as (Hr & _).
  change (ptr (dinode f1) (fB f1) k) with (fptr f1 k) in Hr. pose proof (vol_max _ Hv1).
  rewrite (bind_run _ _ _ _ _ (on_uio_run _ f1 u _ _ eq_refl)).
  rewrite bind_kassert by (apply Z.leb_le; unfold SFS_BLOCKSIZE; lia).
  rewrite (bind_run _ _ _ _ _ (on_uio_run _ f1 _ _ _ eq_refl)). unfold SFS_BLOCKSIZE. rewrite (u32_id (fptr f1 k * 512)) by lia.
  set (u1 := set_resid 512 (set_offset (fptr f1 k * 512) u)).
  destruct (rwblock_write (f_vol f1) u1 (fptr f1 k)) as (v2 & u2 & Hrb & Hev & (Hc & Hoff & Hre & Hwr & Hout));
    [done| |done|simpl; lia|done|lia|done|].
  { destruct Hg as (Hcb & Hr1 & Hr2). unfold good. change (cells u1) with (cells u). simpl. split_and!; [done|lia|lia|lia]. }
  erewrite bind_run; [|unfold zoom; simpl fst; simpl snd; rewrite Hrb; reflexivity].
  rewrite (bind_run _ _ _ _ _ (on_uio_run _ _ u2 _ _ eq_refl)).
  rewrite (bind_run _ _ _ _ _ (on_uio_run _ _ _ _ _ eq_refl)).
  eexists 0, _, _. split; [reflexivity|]. cbn [fst snd]. exists 512%nat. split_and!; [|lia|by left].
  set (bs := take 512 (cells u).*1). change (take 512 (cells u1).*1) with bs in Hev.
  assert (length bs = 512%nat) as Hbl by (destruct Hg as (_ & ? & _); unfold bs; rewrite length_take, length_fmap; lia).
  destruct (write_part f f1 v2 k 0 bs) as [Hw' Hc']; try done; [lia|lia|by apply Forall_take| |].
  { eapply evolves_ext; [exact Hev|done|]. intros x. unfold upd. destruct (x =? fptr f1 k); [|done].
    destruct (fblock_block f1 k) as [Hfl _]. rewrite drop_ge, app_nil_r by lia. done. }
  split_and!; [done|done| |lia|].
  - unfold advanced. simpl in *. split_and!; [done|rewrite Hoff; lia|rewrite Hre; lia|done|done].
  - intros pos Hpos. rewrite Hc' by done. unfold bs, k. do 2 f_equal. lia.
Qed.

Lemma blocks_read n f u :
  fok f -> is_read u -> 0 <= uio_offset u -> uio_offset u + 512 * Z.of_nat n <= 512 * 143 -> uio_offset u mod 512 = 0 ->
  512 * Z.of_nat n <= uio_resid u ->
  exists f' u', blocks_loop n (f, u) = Ret (0, (f', u')) /\ delivered (512 * n) f u f' u'.
Proof.
  revert f u. induction n as [|n IH]; intros f u Hok Hr Ho Hmax Hal Hres; cbn [blocks_loop].
  - exists f, u. split; [done|]. split; [by apply same_refl|apply advanced_refl].
  - destruct (blockio_read f u) as (f1 & u1 & Hrun & Hd1); [done|done|lia|done|lia|].
    rewrite (bind_run _ _ _ _ _ Hrun). cbn [nz Z.eqb negb]. pose proof Hd1 as [(Hw1 & _) Ha1]. pose proof Ha1 as (_ & Ho1 & Hr1 & _).
    destruct (IH f1 u1) as (f2 & u2 & Hrun2 & Hd2); [apply Hw1|eapply advanced_read; [exact Ha1|done|lia]|lia..|].
    exists f2, u2. split; [done|]. replace (512 * S n)%nat with (512 + 512 * n)%nat by lia. by eapply delivered_trans.
Qed.

Lemma blocks_write n f u :
  fok f -> is_write u -> 0 <= uio_offset u -> uio_offset u + 512 * Z.of_nat n < 2 ^ 41 -> uio_offset u mod 512 = 0 ->
  512 * Z.of_nat n <= uio_resid u ->
  exists rc f' u', blocks_loop n (f, u) = Ret (rc, (f', u')) /\ write_post (512 * n) rc f u f' u'.
Proof.
  revert f u. induction n as [|n IH]; intros f u Hok Hr Ho Hmax Hal Hres; cbn [blocks_loop].
  - exists 0, f, u. split; [done|]. exists 0%nat. split_and!; [|lia|by left]. apply wrote_none; [by apply within_refl|done|done].
  - destruct (blockio_write f u) as (rc & f1 & u1 & Hrun & m & Hw1 & Hm & Hcase); [done|done|lia|done|lia|].
    rewrite (bind_run _ _ _ _ _ Hrun). destruct Hcase as [(-> & ->)|(Hlt & Hrc)]; cycle 1.
    { replace (nz rc) with true by (by destruct Hrc as [->| ->]). exists rc, f1, u1. split; [done|]. exists m. split_and!; [done|lia|]. right. split; [lia|done]. }
    cbn [nz Z.eqb negb]. pose proof Hw1 as (Hwi & _ & Ha1 & _). pose proof Ha1 as (_ & Ho1 & Hr1 & _).
    destruct (IH f1 u1) as (rc & f2 & u2 & Hrun2 & m & Hw2 & Hm2 & Hcase2); [apply Hwi|eapply advanced_write; [exact Ha1|done|lia]|lia..|].
    exists rc, f2, u2. split; [done|]. exists (512 + m)%nat. split_and!; [eapply wrote_trans; [done|lia|done|done|done]|lia|].
    destruct Hcase2 as [(-> & ->)|(? & ?)]; [left; split; [done|lia]|right; split; [lia|done]].
Qed.

Lemma blkoff_of off : 0 <= off -> u32 (Z.rem off SFS_BLOCKSIZE) = off mod 512.
Proof. intros Ho. unfold SFS_BLOCKSIZE. rewrite Z.rem_mod_nonneg by lia. apply u32_id. lia. Qed.

(** The length of the leading partial block. *)
Definition lead (u : uio) : Z :=
  if uio_offset u mod 512 =? 0 then 0 else Z.min (512 - uio_offset u mod 512) (uio_resid u).

Lemma min_if a b : (if a <? b then a else b) = Z.min b a.
Proof. destruct (Z.ltb_spec a b); lia. Qed.

Lemma io_body_read f u :
  fok f -> is_read u -> 0 <= uio_offset u -> uio_offset u + uio_resid u <= 512 * 143 ->
  exists f' u', io_body (f, u) = Ret (0, (f', u')) /\ delivered (Z.to_nat (uio_resid u)) f u f' u'.
Proof.
  intros Hok Hr Ho Hmax. pose proof Hr as [_ (_ & Hres & _)]. unfold io_body. mrun. cbn [fst snd]. rewrite blkoff_of by done.
  match goal with |- exists _ _, (mbind ?kk ?c) _ = _ /\ _ =>
    assert (exists f1 u1, c (f, u) = Ret (0, (f1, u1)) /\ delivered (Z.to_nat (lead u)) f u f1 u1) as (f1 & u1 & Hrun1 & Hd1) end.
  { unfold lead, nz. destruct (Z.eqb_spec (uio_offset u mod 512) 0) as [E|E]; cbn [negb].
    - exists f, u. split; [done|]. split; [by apply same_refl|apply advanced_refl].
    - unfold SFS_BLOCKSIZE. rewrite min_if. apply partialio_read; [done|done|lia|lia|lia]. }
  rewrite (bind_run _ _ _ _ _ Hrun1). cbn [nz Z.eqb negb]. mrun. cbn [snd].
  pose proof Hd1 as [(Hw1 & _) Ha1]. pose proof Ha1 as (_ & Ho1 & Hr1 & _).
  assert (0 <= lead u <= uio_resid u) as Hl by (unfold lead; destruct (_ =? _); lia).
  destruct (Z.eqb_spec (uio_resid u1) 0) as [Hz|Hnz].
  { exists f1, u1. split; [done|]. by replace (Z.to_nat (uio_resid u)) with (Z.to_nat (lead u)) by lia. }
  assert (uio_offset u1 mod 512 = 0) as Hal.
  { rewrite Ho1. unfold lead in *. destruct (Z.eqb_spec (uio_offset u mod 512) 0); [rewrite Z.add_0_r; done|].
    rewrite Z2Nat.id by lia. rewrite Z.min_l in * by lia. lia. }
  rewrite bind_kassert by (unfold SFS_BLOCKSIZE; rewrite Z.rem_mod_nonneg, Hal by lia; done).
  assert (is_read u1) as Hr1' by (eapply advanced_read; [exact Ha1|done|lia]).
  destruct (blocks_read (Z.to_nat (uio_resid u1 / 512)) f1 u1) as (f2 & u2 & Hrun2 & Hd2); [apply Hw1|done|lia|lia|done|lia|].
  unfold SFS_BLOCKSIZE at 1. rewrite (bind_run _ _ _ _ _ Hrun2). cbn [nz Z.eqb negb]. mrun. cbn [snd].
  pose proof Hd2 as [(Hw2 & _) Ha2]. pose proof Ha2 as (_ & Ho2 & Hr2 & _).
  rewrite bind_kassert by (apply Z.ltb_lt; unfold SFS_BLOCKSIZE; lia).
  pose proof (delivered_trans _ _ _ _ _ _ _ _ Hd1 Hd2) as Hd12.
  destruct (Z.ltb_spec 0 (uio_resid u2)) as [Hp|Hp].
  - destruct (partialio_read f2 u2 (uio_resid u2)) as (f3 & u3 & Hrun3 & Hd3).
    { apply Hw2. } { eapply advanced_read; [exact Ha2|done|lia]. } { lia. } { lia. } { rewrite Ho2. lia. }
    assert (uio_offset u2 mod 512 = 0) as Hal2 by (rewrite Ho2; lia). rewrite Hal2 in Hrun3.
    exists f3, u3. split; [done|]. pose proof (delivered_trans _ _ _ _ _ _ _ _ Hd12 Hd3) as Hd.
    match type of Hd with delivered ?n _ _ _ _ => by replace n with (Z.to_nat (uio_resid u)) in Hd by lia end.
  - exists f2, u2. split; [done|].
    match type of Hd12 with delivered ?n _ _ _ _ => by replace n with (Z.to_nat (uio_resid u)) in Hd12 by lia end.
Qed.

Lemma write_post_trans n w rc f1 u1 f2 u2 f3 u3 :
  is_write u1 -> Z.of_nat n <= uio_resid u1 -> 0 <= uio_offset u1 ->
  wrote n f1 u1 f2 u2 -> write_post w rc f2 u2 f3 u3 -> write_post (n + w) rc f1 u1 f3 u3.
Proof.
  intros Hu Hn Ho H1 (m & H2 & Hm & Hcase). exists (n + m)%nat. split_and!; [by eapply wrote_trans|lia|].
  destruct Hcase as [(-> & ->)|(? & ?)]; [by left|right; split; [lia|done]].
Qed.

Lemma write_post_zero w rc f u f' u' : write_post w rc f u f' u' -> rc = 0 -> wrote w f u f' u'.
Proof. intros (n & Hw & _ & [(_ & ->)|(_ & [->| ->])]) Hrc; done. Qed.

Lemma write_post_fail w rc f u f' u' : write_post w rc f u f' u' -> nz rc = true -> forall w', (w <= w')%nat -> write_post w' rc f u f' u'.
Proof.
  intros (n & Hw & Hn & [(-> & _)|(Hlt & Hrc)]) Hz w' Hle; [done|]. exists n. split_and!; [done|lia|]. right. split; [lia|done].
Qed.

Lemma nz_false rc : nz rc = false -> rc = 0.
Proof. unfold nz. destruct (Z.eqb_spec rc 0); done. Qed.

Lemma io_body_write f u :
  fok f -> is_write u -> 0 <= uio_offset u -> uio_offset u + uio_resid u < 2 ^ 41 -> 0 < uio_resid u ->
  exists rc f' u', io_body (f, u) = Ret (rc, (f', u')) /\ write_post (Z.to_nat (uio_resid u)) rc f u f' u'.
Proof.
  intros Hok Hu Ho Hmax Hpos. unfold io_body. mrun. cbn [fst snd]. rewrite blkoff_of by done.
  match goal with |- exists _ _ _, (mbind ?kk ?c) _ = _ /\ _ =>
    assert (exists rc f1 u1, c (f, u) = Ret (rc, (f1, u1)) /\ write_post (Z.to_nat (lead u)) rc f u f1 u1) as (rc & f1 & u1 & Hrun1 & Hp1) end.
  { unfold lead, nz. destruct (Z.eqb_spec (uio_offset u mod 512) 0) as [E|E]; cbn [negb].
    - exists 0, f, u. split; [done|]. exists 0%nat. split_and!; [|lia|by left]. apply wrote_none; [by apply within_refl|done|done].
    - unfold SFS_BLOCKSIZE. rewrite min_if. apply partialio_write; [done|done|lia|lia|lia]. }
  assert (0 <= lead u <= uio_resid u) as Hl by (unfold lead; destruct (_ =? _); lia).
  rewrite (bind_run _ _ _ _ _ Hrun1). destruct (nz rc) eqn:Hrc.
  { exists rc, f1, u1. split; [done|]. eapply write_post_fail; [done|done|lia]. }
  apply nz_false in Hrc as ->. pose proof (write_post_zero _ _ _ _ _ _ Hp1 eq_refl) as Hd1. mrun. cbn [snd].
  pose proof Hd1 as (Hw1 & _ & Ha1 & _). pose proof Ha1 as (_ & Ho1 & Hr1 & _).
  destruct (Z.eqb_spec (uio_resid u1) 0) as [Hz|Hnz].
  { exists 0, f1, u1. split; [done|]. by replace (Z.to_nat (uio_resid u)) with (Z.to_nat (lead u)) by lia. }
  assert (uio_offset u1 mod 512 = 0) as Hal.
  { rewrite Ho1. unfold lead in *. destruct (Z.eqb_spec (uio_offset u mod 512) 0); [rewrite Z.add_0_r; done|].
    rewrite Z2Nat.id by lia. rewrite Z.min_l in * by lia. lia. }
  rewrite bind_kassert by (unfold SFS_BLOCKSIZE; rewrite Z.rem_mod_nonneg, Hal by lia; done).
  assert (is_write u1) as Hu1 by (eapply advanced_write; [exact Ha1|done|lia]). pose proof Hu1 as (_ & (_ & Hres1 & _) & _).
  destruct (blocks_write (Z.to_nat (uio_resid u1 / 512)) f1 u1) as (rc & f2 & u2 & Hrun2 & Hp2); [apply Hw1|done|lia|lia|done|lia|].
  assert (write_post (Z.to_nat (lead u) + 512 * Z.to_nat (uio_resid u1 / 512)) rc f u f2 u2) as Hp12
    by (eapply write_post_trans; [done| |done|exact Hd1|exact Hp2]; lia).
  unfold SFS_BLOCKSIZE at 1. rewrite (bind_run _ _ _ _ _ Hrun2). destruct (nz rc) eqn:Hrc.
  { exists rc, f2, u2. split; [done|]. eapply write_post_fail; [done|done|lia]. }
  apply nz_false in Hrc as ->. pose proof (write_post_zero _ _ _ _ _ _ Hp12 eq_refl) as Hd2. mrun. cbn [snd].
  pose proof Hd2 as (Hw2 & _ & Ha2 & _). pose proof Ha2 as (_ & Ho2 & Hr2 & _).
  rewrite bind_kassert by (apply Z.ltb_lt; unfold SFS_BLOCKSIZE; lia).
  destruct (Z.ltb_spec 0 (uio_resid u2)) as [Hp|Hp].
  - assert (uio_offset u2 = uio_offset u1 + 512 * (uio_resid u1 / 512)) as Ho2' by lia.
    assert (uio_offset u2 mod 512 = 0) as Hal2 by (rewrite Ho2'; lia).
    destruct (partialio_write f2 u2 (uio_resid u2)) as (rc & f3 & u3 & Hrun3 & Hp3).
    { apply Hw2. } { eapply advanced_write; [exact Ha2|done|lia]. } { lia. } { lia. } { lia. }
    rewrite Hal2 in Hrun3. exists rc, f3, u3. split; [done|].
    replace (Z.to_nat (uio_resid u)) with (Z.to_nat (lead u) + 512 * Z.to_nat (uio_resid u1 / 512) + Z.to_nat (uio_resid u2))%nat by lia.
    eapply write_post_trans; [done| |done|exact Hd2|exact Hp3]. lia.
  - exists 0, f2, u2. split; [done|].
    match type of Hp12 with write_post ?n _ _ _ _ _ => by replace n with (Z.to_nat (uio_resid u)) in Hp12 by lia end.
Qed.

(** Setting the size changes neither blocks nor bytes. *)
Lemma resize_within f n :
  fok f -> 0 <= n < 2 ^ 32 ->
  let f' := MkFile (f_vol f) (MkSv (with_size n (dinode f)) (sv_ino (f_sv f)) true) in
  change_inode (with_size n) f = Ret (tt, f') /\ within f f' /\ (forall k, fptr f' k = fptr f k) /\
  forall pos, fcontent f' pos = fcontent f pos.
Proof.
  intros Hok Hn f'. pose proof Hok as [Hv []]. assert (forall k, fptr f' k = fptr f k) as Hp by done.
  split; [done|]. split_and!; [|done|done]. split; try done; try (by right).
  - split; [done|]. split; [by apply with_size_wf|..]; done.
  - intros x Hx Ho. by left.
  - intros x Hx Hu. by left.
Qed.

Lemma sfs_io_read_run f u :
  fok f -> is_read u -> 0 <= uio_offset u -> sfi_size (dinode f) <= 512 * 143 ->
  let n := Z.max 0 (Z.min (uio_resid u) (sfi_size (dinode f) - uio_offset u)) in
  exists f' u', sfs_io (f, u) = Ret (0, (f', u')) /\ same f f' /\
    uio_out u' = uio_out u ++ fbytes f (uio_offset u) (Z.to_nat n) /\
    uio_resid u' = uio_resid u - n /\ uio_offset u' = uio_offset u + n.
Proof.
  intros Hok Hr Ho Hsz n. pose proof Hr as [Hrw Hg]. pose proof Hg as (Hcb & Hres & Hrmax).
  pose proof (fok_inode f Hok) as (Hsr & _). unfold sfs_io. mrun. cbn [fst snd]. rewrite Hrw.
  change (Uio.UIO_READ =? Uio.UIO_READ) with true. cbn [andb].
  destruct (Z.leb_spec (sfi_size (dinode f)) (uio_offset u)) as [He|He].
  { exists f, u. split; [done|]. replace n with 0 by lia. simpl. rewrite app_nil_r. split_and!; [by apply same_refl|done|lia|lia]. }
  assert (exists u1 extra, is_read u1 /\ cells u1 = cells u /\ uio_offset u1 = uio_offset u /\ uio_out u1 = uio_out u /\
    uio_resid u1 = n /\ extra = uio_resid u - n /\
    (if sfi_size (dinode f) <? uio_offset u + uio_resid u
     then kassert (u32 (uio_offset u + uio_resid u - sfi_size (dinode f)) <? uio_resid u) "uio->uio_resid > extraresid";;
          on_uio (modify (set_resid (uio_resid u - u32 (uio_offset u + uio_resid u - sfi_size (dinode f)))));;
          mret (u32 (uio_offset u + uio_resid u - sfi_size (dinode f)))
     else mret 0) (f, u) = Ret (extra, (f, u1))) as (u1 & extra & Hr1 & Hc1 & Ho1 & Hout1 & Hn1 & Hx & Hrun1).
  { destruct (Z.ltb_spec (sfi_size (dinode f)) (uio_offset u + uio_resid u)) as [Hlt|Hge].
    - rewrite u32_id by lia. rewrite bind_kassert by (apply Z.ltb_lt; lia).
      rewrite (bind_run _ _ _ _ _ (on_uio_run _ f u _ _ eq_refl)).
      eexists _, _. split; [|split; [|split; [|split; [|split; [|split; [|reflexivity]]]]]]; try done; simpl; try lia.
      split; [done|]. unfold good. change (cells (set_resid _ u)) with (cells u). simpl. split_and!; [done|lia|lia|lia].
    - exists u, 0. split_and!; try done; lia. }
  rewrite (bind_run _ _ _ _ _ Hrun1).
  destruct (io_body_read f u1) as (f2 & u2 & Hrun2 & Hs2 & (Hc2 & Ho2 & Hr2 & Hw2 & Hout2)); [done|done|lia|lia|].
  rewrite (bind_run _ _ _ _ _ Hrun2). unfold io_out. mrun. cbn [fst snd]. rewrite Hw2.
  destruct Hr1 as [-> _]. change (Uio.UIO_READ =? Uio.UIO_WRITE) with false. rewrite andb_false_r. cbn [andb]. mrun.
  rewrite (bind_run _ _ _ _ _ (on_uio_run _ f2 u2 _ _ eq_refl)).
  eexists f2, _. split; [reflexivity|]. split; [done|]. simpl.
  rewrite Hout2, Hout1, Ho1, Hn1. split; [done|]. rewrite u32_id by lia. lia.
Qed.

(** sfs_read_spec. Reading from a file of a mounted volume at any offset returns
    0 and delivers exactly the bytes of the file from the offset to the end of
    the request or of the file, whichever is first; what is left of the request
    stays in the residue, the offset advances by what was delivered, and file and
    volume are unchanged.  Blocks that were never written read as zeros. *)
Theorem sfs_read_spec f u :
  fok f -> is_read u -> 0 <= uio_offset u -> sfi_size (dinode f) <= 512 * 143 ->
  let n := Z.max 0 (Z.min (uio_resid u) (sfi_size (dinode f) - uio_offset u)) in
  exists f' u', sfs_io (f, u) = Ret (0, (f', u')) /\ same f f' /\
    uio_out u' = uio_out u ++ fbytes f (uio_offset u) (Z.to_nat n) /\
    uio_resid u' = uio_resid u - n /\ uio_offset u' = uio_offset u + n.
Proof. apply sfs_io_read_run. Qed.

Lemma sfs_io_write_run f u :
  fok f -> is_write u -> 0 <= uio_offset u -> uio_offset u + uio_resid u < 2 ^ 41 -> 0 < uio_resid u ->
  sfi_size (dinode f) <= 512 * 143 ->
  exists rc n f' u', sfs_io (f, u) = Ret (rc, (f', u')) /\ within f f' /\
    (rc = 0 /\ Z.of_nat n = uio_resid u \/ (rc = ENOSPC \/ rc = EFBIG) /\ Z.of_nat n < uio_resid u) /\
    uio_resid u' = uio_resid u - Z.of_nat n /\ uio_offset u' = uio_offset u + Z.of_nat n /\
    (forall pos, 0 <= pos -> fcontent f' pos = splice (fcontent f) (uio_offset u) (take n (cells u).*1) pos) /\
    sfi_size (dinode f') = (if bool_decide (n = 0%nat) then sfi_size (dinode f)
                            else Z.max (sfi_size (dinode f)) (uio_offset u + Z.of_nat n)) /\
    sfi_size (dinode f') <= 512 * 143.
Proof.
  intros Hok Hu Ho Hmax Hpos Hsz. pose proof Hu as (Hrw & Hg & _). pose proof Hg as (_ & Hres & Hrmax).
  unfold sfs_io. mrun. cbn [fst snd]. rewrite Hrw. change (Uio.UIO_WRITE =? Uio.UIO_READ) with false. cbn [andb]. mrun.
  destruct (io_body_write f u Hok Hu Ho Hmax Hpos) as (rc & f1 & u1 & Hrun & n & (Hw & Hs & Ha & Hb & Hc) & Hn & Hcase).
  rewrite (bind_run _ _ _ _ _ Hrun). unfold io_out. mrun. cbn [fst snd].
  destruct Ha as (Hc1 & Ho1 & Hr1 & Hw1 & _). rewrite Hw1, Hrw. change (Uio.UIO_WRITE =? Uio.UIO_WRITE) with true. rewrite andb_true_r.
  assert (exists f2, (if negb (uio_resid u1 =? uio_resid u) && (sfi_size (dinode f1) <? uio_offset u1)
     then on_file (change_inode (with_size (u32 (uio_offset u1)))) else mret tt) (f1, u1) = Ret (tt, (f2, u1)) /\
     within f f2 /\ (forall pos, 0 <= pos -> fcontent f2 pos = splice (fcontent f) (uio_offset u) (take n (cells u).*1) pos) /\
     sfi_size (dinode f2) = (if bool_decide (n = 0%nat) then sfi_size (dinode f)
                            else Z.max (sfi_size (dinode f)) (uio_offset u + Z.of_nat n))) as (f2 & Hrun2 & Hw2 & Hc2 & Hs2).
  { destruct (Z.eqb_spec (uio_resid u1) (uio_resid u)) as [E|E]; cbn [negb andb].
    - assert (n = 0%nat) as -> by lia. rewrite bool_decide_true by done. by exists f1.
    - rewrite bool_decide_false by lia. destruct (Z.ltb_spec (sfi_size (dinode f1)) (uio_offset u1)) as [Hlt|Hge].
      + rewrite u32_id by lia. destruct (resize_within f1 (uio_offset u1) (w_ok _ _ Hw) ltac:(lia)) as (Hrun2 & Hw2 & _ & Hc2).
        eexists. split; [by apply on_file_run|]. split; [by eapply within_trans|]. split; [intros pos Hp; rewrite Hc2; auto|]. simpl. lia.
      + exists f1. split_and!; try done. lia. }
  rewrite (bind_run _ _ _ _ _ Hrun2).
  rewrite (bind_run _ _ _ _ _ (on_uio_run _ f2 u1 _ _ eq_refl)).
  eexists rc, n, f2, _. split; [reflexivity|]. simpl. rewrite u32_id by lia. split_and!; try done; try lia.
  rewrite Hs2. case_bool_decide; lia.
Qed.

(** sfs_write_spec. Writing to a file of a mounted volume returns 0 when all
    bytes were written, and otherwise [ENOSPC] or [EFBIG] with the residue saying
    how many were not.  In every case the bytes that were written, and no others,
    are changed in the file, its size grows to include them, and no block that is
    in use by anything else is touched. *)
Theorem sfs_write_spec f u :
  fok f -> is_write u -> 0 <= uio_offset u -> uio_offset u + uio_resid u < 2 ^ 41 -> 0 < uio_resid u ->
  sfi_size (dinode f) <= 512 * 143 ->
  exists rc n f' u', sfs_io (f, u) = Ret (rc, (f', u')) /\ within f f' /\
    (rc = 0 /\ Z.of_nat n = uio_resid u \/ (rc = ENOSPC \/ rc = EFBIG) /\ Z.of_nat n < uio_resid u) /\
    uio_resid u' = uio_resid u - Z.of_nat n /\ uio_offset u' = uio_offset u + Z.of_nat n /\
    (forall pos, 0 <= pos -> fcontent f' pos = splice (fcontent f) (uio_offset u) (take n (cells u).*1) pos) /\
    sfi_size (dinode f') = (if bool_decide (n = 0%nat) then sfi_size (dinode f)
                            else Z.max (sfi_size (dinode f)) (uio_offset u + Z.of_nat n)) /\
    sfi_size (dinode f') <= 512 * 143.
Proof. apply sfs_io_write_run. Qed.

(** C9 sfs_write_read. On a volume of at most 2^23 blocks whose disk reports no I/O
    error, what has been written is read back: after a write of at least one byte
    that returns 0, to offsets below 2^41 of a file of at most 143 blocks, a read
    of as many bytes at the same offset returns 0 and delivers exactly the bytes
    written, across block boundaries, holes and the indirect block.  (When the disk
    fails a write can return 0 although its data are lost, see
    [sfs_write_errors_lost].) *)
Theorem sfs_write_read f u f1 u1 r :
  fok f -> is_write u -> 0 <= uio_offset u -> uio_offset u + uio_resid u < 2 ^ 41 -> 0 < uio_resid u ->
  sfi_size (dinode f) <= 512 * 143 -> sfs_io (f, u) = Ret (0, (f1, u1)) ->
  is_read r -> uio_offset r = uio_offset u -> uio_resid r = uio_resid u ->
  exists f2 r', sfs_io (f1, r) = Ret (0, (f2, r')) /\
    uio_out r' = uio_out r ++ take (Z.to_nat (uio_resid u)) (cells u).*1 /\ uio_resid r' = 0.
Proof.
  intros Hok Hu Ho Hmax Hpos Hsz Hio Hr Hro Hrr.
  destruct (sfs_io_write_run f u) as (rc & n & f' & u' & Hrun & Hw & Hcase & _ & _ & Hc & Hs & Hsz'); try done.
  rewrite Hrun in Hio. apply Ret_inj in Hio as [-> [= -> ->]].
  destruct Hcase as [(_ & Hn)|([|] & _)]; [|done..].
  destruct (sfs_io_read_run f1 r) as (f2 & r' & Hrun2 & _ & Hout & Hre & _); [apply Hw|done|lia|done|].
  rewrite Hs, bool_decide_false in * by lia.
  replace (Z.max 0 (Z.min (uio_resid r) (Z.max (sfi_size (dinode f)) (uio_offset u + Z.of_nat n) - uio_offset r)))
    with (Z.of_nat n) in * by lia.
  exists f2, r'. split; [done|]. split; [|lia]. rewrite Hout. f_equal. rewrite Nat2Z.id.
  replace (Z.to_nat (uio_resid u)) with n by lia. destruct Hu as (_ & (_ & Hres & _) & _).
  apply list_eq_same_length with (n := n); [by rewrite length_take, length_fmap; lia|by rewrite fbytes_length|].
  intros i x y Hi Hx Hy. rewrite fbytes_lookup, Hro, Hc in Hx by lia. unfold splice in Hx.
  rewrite length_take, length_fmap, Nat.min_l in Hx by lia.
  rewrite (proj2 (Z.leb_le _ _)), (proj2 (Z.ltb_lt _ _)) in Hx by lia. cbn [andb] in Hx.
  replace (Z.to_nat (uio_offset u + Z.of_nat i - uio_offset u)) with i in Hx by lia. rewrite Hy in Hx. by simplify_eq.
Qed.

End FileProofs.

(** ** Deciding that a file is well-formed *)

Definition file_check (i : sfs_dinode) (U : Z -> bool) (B : Z -> list Z) (n : Z) : bool :=
  let ps := ptr i B <$> seqZ 0 143 in
  forallb (fun p => (p =? 0) || ((0 <? p) && (p <? n) && U p && negb (p =? sfi_indirect i))) ps &&
  bool_decide (NoDup (filter (fun p => p <> 0) ps)) &&
  ((sfi_indirect i =? 0) || ((0 <? sfi_indirect i) && (sfi_indirect i <? n) && U (sfi_indirect i))).

Lemma NoDup_filter_lookup (l : list Z) i j x :
  NoDup (filter (fun p => p <> 0) l) -> l !! i = Some x -> l !! j = Some x -> x <> 0 -> i = j.
Proof.
  revert i j. induction l as [|y l IH]; intros i j Hn Hi Hj Hx; [done|].
  assert (forall k, l !! k = Some x -> y = x -> False) as Habs.
  { intros k Hk ->. rewrite filter_cons_True in Hn by done. apply NoDup_cons in Hn as [Hn _].
    apply Hn, list_elem_of_filter. split; [done|]. by eapply list_elem_of_lookup_2. }
  destruct i as [|i], j as [|j]; simpl in *; simplify_eq; [done|by destruct (Habs j)|by destruct (Habs i)|].
  f_equal. apply IH; [|done..]. destruct (decide (y = 0)) as [->|Hy].
  - by rewrite filter_cons_False in Hn by (by intros []).
  - rewrite filter_cons_True in Hn by done. by apply NoDup_cons in Hn as [_ Hn].
Qed.

Lemma file_check_ok i U B n : dinode_wf i -> file_check i U B n = true -> file_ok i U B n.
Proof.
  intros Hwf [[Hall Hnd]%andb_prop Hind]%andb_prop. apply bool_decide_eq_true in Hnd. rewrite forallb_forall in Hall.
  assert (forall k, 0 <= k -> ptr i B k <> 0 -> (ptr i B <$> seqZ 0 143) !! Z.to_nat k = Some (ptr i B k)) as Hl.
  { intros k Hk Hz. pose proof (ptr_range _ _ _ Hz). rewrite list_lookup_fmap, lookup_seqZ_lt by lia. simpl. do 2 f_equal. lia. }
  split; [done|..].
  - intros k Hk Hz. specialize (Hall (ptr i B k)). apply orb_prop in Hall as [E|E].
    + by apply Z.eqb_eq in E.
    + rewrite !andb_true_iff, negb_true_iff, Z.eqb_neq, !Z.ltb_lt in E. tauto.
    + apply list_elem_of_In. by eapply list_elem_of_lookup_2, Hl.
  - intros k k' Hk Hk' Hz E. assert (Z.to_nat k = Z.to_nat k'); [|lia].
    apply (NoDup_filter_lookup _ _ _ (ptr i B k) Hnd); [by apply Hl| |done]. rewrite E. apply Hl; congruence.
  - intros Hz. apply orb_prop in Hind as [E|E]; [by apply Z.eqb_eq in E|].
    rewrite !andb_true_iff, !Z.ltb_lt in E. tauto.
Qed.

(** The file of the sample volume: block 0 is disk block 4, blocks 15 and 16 are
    disk blocks 6 and 7 through the indirect block 5, the others are holes. *)
Definition sample_inode : sfs_dinode := Dinode 8704 SFS_TYPE_FILE 1 (4 :: replicate 14 0) 5 (replicate 110 0).

Definition sample_file : file (H := memdisk_hw) := MkFile (sample_volume []) (MkSv sample_inode 3 false).

Lemma sample_inode_wf : dinode_wf sample_inode.
Proof. split_and!; try done; repeat (constructor; [done|]); by constructor. Qed.

Lemma sample_file_ok : fok sample_file.
Proof. split; [apply sample_volume_ok|]. apply file_check_ok; [apply sample_inode_wf|]. vm_compute. reflexivity. Qed.

Lemma sfs_bmap_spec_witness :
  fok sample_file /\ exists f', sfs_bmap 16 false sample_file = Ret ((0, 7), f').
Proof.
  split; [apply sample_file_ok|]. destruct (proj1 (sfs_bmap_spec sample_file 16 sample_file_ok ltac:(lia))) as (f' & Hrun & _).
  assert (fptr sample_file 16 = 7) as E by (vm_compute; reflexivity).
  exists f'. rewrite Hrun, E. reflexivity.
Defined.

Definition sample_read (n off : Z) : uio := uio_kinit (replicate (Z.to_nat n) 0) off Uio.UIO_READ.
Definition sample_write (bs : list Z) (off : Z) : uio := uio_kinit bs off Uio.UIO_WRITE.

Lemma sample_read_ok n off : 0 <= n < 2 ^ 31 -> is_read (sample_read n off).
Proof. intros Hn. split; [done|]. apply kinit_good. rewrite length_replicate. lia. Qed.

Lemma sample_write_ok n b off : 0 <= b < 256 -> (n <= 4096)%nat -> is_write (sample_write (replicate n b) off).
Proof.
  intros Hb Hn. split; [done|]. split; [apply kinit_good; rewrite length_replicate; lia|]. unfold sample_write.
  rewrite kinit_cells. by apply Forall_replicate.
Qed.

(** Block 14 is a hole and the file ends in block 16. *)
Lemma sfs_read_spec_witness :
  exists f' u', sfs_io (sample_file, sample_read 2048 7168) = Ret (0, (f', u')) /\
    uio_out u' = replicate 512 0 ++ replicate 512 2 ++ replicate 512 3 /\ uio_resid u' = 512.
Proof.
  destruct (sfs_read_spec sample_file (sample_read 2048 7168)) as (f' & u' & Hrun & _ & Hout & Hres & _);
    [apply sample_file_ok|apply sample_read_ok; lia|by vm_compute|by vm_compute|].
  exists f', u'. split; [exact Hrun|]. split; [rewrite Hout; vm_compute; reflexivity|rewrite Hres; vm_compute; reflexivity].
Defined.

Lemma sfs_write_spec_witness :
  exists rc f' u', sfs_io (sample_file, sample_write (replicate 600 9) 1000) = Ret (rc, (f', u')) /\ rc = 0 /\
    sfi_size (dinode f') = 8704 /\ fcontent f' 1599 = 9 /\ fcontent f' 1600 = 0.
Proof.
  destruct (sfs_write_spec sample_file (sample_write (replicate 600 9) 1000)) as (rc & n & f' & u' & Hrun & _ & Hcase & _ & _ & Hc & Hs & _);
    [apply sample_file_ok|apply sample_write_ok; lia|by vm_compute|by vm_compute|by vm_compute|by vm_compute|].
  assert (match sfs_io (sample_file, sample_write (replicate 600 9) 1000) with Ret (rc, _) => rc | _ => EIO end = 0) as E by (vm_compute; reflexivity).
  rewrite Hrun in E. subst rc. exists 0, f', u'. split; [exact Hrun|]. split; [reflexivity|]. clear Hrun.
  destruct Hcase as [[_ Hn]|[[E|E] _]]; [|discriminate E|discriminate E].
  assert (n = 600%nat) as -> by (change (Z.of_nat n = 600) in Hn; lia).
  split; [rewrite Hs; vm_compute; reflexivity|]. rewrite !Hc by lia. split; vm_compute; reflexivity.
Defined.

Lemma sfs_write_read_witness :
  match sfs_io (sample_file, sample_write (replicate 600 9) 1000) with
  | Ret (rc, (f1, u1)) => rc = 0 /\ exists f2 r', sfs_io (f1, sample_read 600 1000) = Ret (0, (f2, r')) /\ uio_out r' = replicate 600 9
  | _ => False
  end.
Proof.
  destruct (sfs_io_write_run sample_file (sample_write (replicate 600 9) 1000)) as (rc & n & f1 & u1 & Hrun & _);
    [apply sample_file_ok|apply sample_write_ok; lia|by vm_compute|by vm_compute|by vm_compute|by vm_compute|].
  rewrite Hrun.
  assert (match sfs_io (sample_file, sample_write (replicate 600 9) 1000) with Ret (rc, _) => rc | _ => EIO end = 0) as E by (vm_compute; reflexivity).
  rewrite Hrun in E. subst rc. split; [reflexivity|].
  destruct (sfs_write_read sample_file (sample_write (replicate 600 9) 1000) f1 u1 (sample_read 600 1000)) as (f2 & r' & Hrun2 & Hout & _);
    [apply sample_file_ok|apply sample_write_ok; lia|by vm_compute|by vm_compute|by vm_compute|by vm_compute|exact Hrun|apply sample_read_ok; lia|reflexivity|by vm_compute|].
  exists f2, r'. split; [exact Hrun2|]. rewrite Hout. vm_compute. reflexivity.
Defined.

End File.
