(* ===== verification/SfsTrunc.v ===== *)
(** * Truncation of SFS files: [sfs_itrunc] of [fs/sfs/sfs_bmap.c]

    The definitions are in [SfsFile.v].  The theorem says exactly which blocks a
    truncation releases, and that the file stays well-formed. *)

From S2P Require Import Prelude Copy Stream Lhd Bitmap SfsBlock SfsFile.

Module Trunc.
Import Stream Lhd Layout Blk File.

Section TruncProofs.
Context `{HW : LhdhwOk}.
Implicit Types (f : file).

Lemma with_direct_id i : with_direct (sfi_direct i) i = i.
Proof. by destruct i. Qed.

(** Some blocks have been released: [gone] tells which. *)
Definition released (v v' : volume) (gone : Z -> Prop) : Prop :=
  evolves v v' (used v') (blk v) /\
  forall x, 0 <= x -> used v' x = true <-> used v x = true /\ ~ gone x.

Lemma released_refl v gone : vol_ok v -> (forall x, ~ gone x) -> released v v gone.
Proof. intros Hv Hg. split; [by apply evolves_refl|]. intros x _. specialize (Hg x). tauto. Qed.

Lemma released_trans v1 v2 v3 (g1 g2 g : Z -> Prop) :
  released v1 v2 g1 -> released v2 v3 g2 -> (forall x, g x <-> g1 x \/ g2 x) -> released v1 v3 g.
Proof.
  intros [E1 U1] [E2 U2] Hg. split.
  - eapply evolves_ext; [by eapply evolves_trans|done|]. intros x. apply E1.
  - intros x Hx. rewrite U2, U1, Hg by done. tauto.
Qed.

Lemma released_one v b :
  vol_ok v -> 0 < b < nblocks v -> used v b = true ->
  exists v', sfs_bfree b v = Ret (tt, v') /\ released v v' (eq b).
Proof.
  intros Hv Hb Hu. destruct (bfree_run v b Hv Hb Hu) as (v' & Hrun & Hev). exists v'. split; [done|]. split.
  - eapply evolves_ext; [exact Hev| |done]. intros x Hx. symmetry. by apply Hev.
  - intros x Hx. rewrite (ev_used _ _ _ _ Hev) by done. unfold upd. destruct (Z.eqb_spec x b) as [->|Hne]; [split; [done|by intros [_ []]]|].
    split; [by intros ->|tauto].
Qed.

Lemma released_used v v' gone x : released v v' gone -> 0 <= x -> used v x = true -> ~ gone x -> used v' x = true.
Proof. intros [_ HU] Hx Hu Hg. by apply HU. Qed.

(** The direct blocks [k], ... that are released. *)
Definition gone_direct (d : list Z) (bl k0 k1 x : Z) : Prop :=
  exists k, k0 <= k < k1 /\ bl <= k /\ arr_get d k = Some x /\ x <> 0.

Lemma trunc_direct_step f bl i :
  vol_ok (f_vol f) -> length (sfi_direct (dinode f)) = 15%nat -> 0 <= i < 15 ->
  (forall x, gone_direct (sfi_direct (dinode f)) bl i (i + 1) x -> 0 < x < nblocks (f_vol f) /\ fU f x = true) ->
  exists v' sv', trunc_direct bl i f = Ret (tt, MkFile v' sv') /\
    released (f_vol f) v' (gone_direct (sfi_direct (dinode f)) bl i (i + 1)) /\
    (sv' = f_sv f \/ sv_dirty sv' = true) /\ sv_ino sv' = sv_ino (f_sv f) /\
    sv_i sv' = with_direct (if (bl <=? i) then arr_set (sfi_direct (dinode f)) i 0 else sfi_direct (dinode f)) (dinode f).
Proof.
  intros Hv Hl Hi Hg. unfold trunc_direct. mrun.
  destruct (proj2 (arr_get_is_Some (sfi_direct (dinode f)) i)) as [p Hp]; [lia|].
  rewrite (bind_valid _ _ _ _ _ Hp).
  assert (forall x, gone_direct (sfi_direct (dinode f)) bl i (i + 1) x <-> bl <= i /\ x = p /\ p <> 0) as Hgone.
  { intros x. split.
    - intros (k & Hk & Hb & Hx & Hz). replace k with i in * by lia. rewrite Hp in Hx. simplify_eq. done.
    - intros (Hb & -> & Hz). exists i. split_and!; try done; lia. }
  unfold nz. destruct (Z.leb_spec bl i) as [Hb|Hb], (Z.eqb_spec p 0) as [Hz|Hz]; cbn [negb andb].
  - exists (f_vol f), (f_sv f). subst p. rewrite arr_set_same by done. split; [by destruct f|]. split_and!; [|by left|done|symmetry; apply with_direct_id].
    apply released_refl; [done|]. intros x Hx%Hgone. tauto.
  - destruct (Hg p) as [Hr Hu]; [apply Hgone; done|].
    destruct (released_one (f_vol f) p Hv Hr Hu) as (v' & Hrun & Hrel).
    rewrite (bind_run _ _ _ _ _ (on_vol_run _ f _ _ Hrun)). unfold change_inode, modify. eexists v', _. split; [reflexivity|].
    split_and!; [|by right|done|done]. destruct Hrel as [He HU]. split; [done|]. intros x Hx. rewrite HU, Hgone by done.
    split; intros [H1 H2]; (split; [done|]); [by intros (_ & -> & _); apply H2|by intros <-; apply H2].
  - exists (f_vol f), (f_sv f). split; [by destruct f|]. split_and!; [|by left|done|symmetry; apply with_direct_id].
    apply released_refl; [done|]. intros x Hx%Hgone. lia.
  - exists (f_vol f), (f_sv f). split; [by destruct f|]. split_and!; [|by left|done|symmetry; apply with_direct_id].
    apply released_refl; [done|]. intros x Hx%Hgone. lia.
Qed.

Lemma trunc_direct_loop n f bl i :
  vol_ok (f_vol f) -> length (sfi_direct (dinode f)) = 15%nat -> 0 <= i -> i + Z.of_nat n = 15 ->
  (forall x, gone_direct (sfi_direct (dinode f)) bl i 15 x -> 0 < x < nblocks (f_vol f) /\ fU f x = true) ->
  (forall k k' x, 0 <= k -> arr_get (sfi_direct (dinode f)) k = Some x -> arr_get (sfi_direct (dinode f)) k' = Some x -> x <> 0 -> k = k') ->
  exists v' sv' d', for_each (seqZ i (Z.of_nat n)) (trunc_direct bl) f = Ret (tt, MkFile v' sv') /\
    released (f_vol f) v' (gone_direct (sfi_direct (dinode f)) bl i 15) /\
    (sv' = f_sv f \/ sv_dirty sv' = true) /\ sv_ino sv' = sv_ino (f_sv f) /\
    sv_i sv' = with_direct d' (dinode f) /\ length d' = 15%nat /\
    forall k, 0 <= k < 15 -> arr_get d' k = if (i <=? k) && (bl <=? k) then Some 0 else arr_get (sfi_direct (dinode f)) k.
Proof.
  revert f i. induction n as [|n IH]; intros f i Hv Hl Hi Hn Hg Hinj.
  - exists (f_vol f), (f_sv f), (sfi_direct (dinode f)). split; [by destruct f|].
    split_and!; [|by left|done|symmetry; apply with_direct_id|done|].
    + apply released_refl; [done|]. intros x (k & Hk & _). lia.
    + intros k Hk. by rewrite (proj2 (Z.leb_gt _ _)) by lia.
  - rewrite (seqZ_cons i) by lia. cbn [for_each].
    destruct (trunc_direct_step f bl i Hv Hl ltac:(lia)) as (v1 & sv1 & Hrun1 & Hrel1 & Hd1 & Hino1 & Hi1).
    { intros x (k & Hk & Hrest). apply Hg. exists k. split; [lia|done]. }
    rewrite (bind_run _ _ _ _ _ Hrun1). replace (Z.pred (Z.of_nat (S n))) with (Z.of_nat n) by lia.
    replace (Z.succ i) with (i + 1) by lia.
    set (f1 := MkFile v1 sv1). set (d1 := if bl <=? i then arr_set (sfi_direct (dinode f)) i 0 else sfi_direct (dinode f)) in *.
    assert (sfi_direct (dinode f1) = d1) as Hd1' by (unfold dinode, f1; simpl; by rewrite Hi1).
    assert (length d1 = 15%nat) as Hl1 by (unfold d1; destruct (bl <=? i); [by rewrite arr_set_length|done]).
    assert (forall k, k <> i -> arr_get d1 k = arr_get (sfi_direct (dinode f)) k) as Hk1.
    { intros k Hk. unfold d1. destruct (bl <=? i); [|done]. by rewrite arr_get_set_ne by lia. }
    assert (forall x, gone_direct d1 bl (i + 1) 15 x <-> gone_direct (sfi_direct (dinode f)) bl (i + 1) 15 x) as Hgd.
    { intros x. unfold gone_direct. split; intros (k & Hk & Hb & Hx); exists k; rewrite Hk1 in * by lia; done. }
    destruct (IH f1 (i + 1)) as (v2 & sv2 & d2 & Hrun2 & Hrel2 & Hdr2 & Hino2 & Hi2 & Hl2 & Hk2); [|by rewrite Hd1'|lia|lia| | |].
    + apply Hrel1.
    + intros x. rewrite Hd1', Hgd. intros (k & Hk & Hb & Hx & Hz).
      destruct (Hg x) as [Hr Hu]; [exists k; split_and!; (done || lia)|]. split.
      * rewrite (evolves_nblocks _ _ _ _ (proj1 Hrel1) : nblocks (f_vol f1) = _). done.
      * eapply released_used; [exact Hrel1|lia|done|]. intros (k' & Hk' & _ & Hx' & _).
        assert (k = k') by (apply (Hinj k k' x); (done || lia)). lia.
    + intros k k' x Hk. rewrite Hd1'. intros Hx Hx' Hz.
      destruct (decide (k = i)) as [->|Hne], (decide (k' = i)) as [->|Hne']; [done| | |].
      * unfold d1 in Hx. destruct (Z.leb_spec bl i); [rewrite arr_get_set_eq in Hx by lia; by simplify_eq|].
        rewrite Hk1 in Hx' by done. by apply (Hinj i k' x).
      * unfold d1 in Hx'. destruct (Z.leb_spec bl i); [rewrite arr_get_set_eq in Hx' by lia; by simplify_eq|].
        rewrite Hk1 in Hx by done. by apply (Hinj k i x).
      * rewrite Hk1 in Hx, Hx' by done. by apply (Hinj k k' x).
    + exists v2, sv2, d2. split; [exact Hrun2|]. split_and!; [| |by rewrite Hino2| |done|].
      * rewrite Hd1' in Hrel2. eapply released_trans; [exact Hrel1|exact Hrel2|]. intros x. rewrite Hgd. unfold gone_direct. split.
        -- intros (k & Hk & Hrest). destruct (decide (k = i)); [left|right]; exists k; split; (done || lia).
        -- intros [(k & Hk & Hrest)|(k & Hk & Hrest)]; exists k; split; (done || lia).
      * destruct Hdr2 as [->|]; [exact Hd1|by right].
      * rewrite Hi2. unfold dinode, f1; simpl. by rewrite Hi1.
      * intros k Hk. rewrite Hk2, Hd1' by done. destruct (decide (k = i)) as [->|Hne].
        -- rewrite (proj2 (Z.leb_gt (i + 1) i)), (proj2 (Z.leb_le i i)) by lia. cbn [andb]. unfold d1.
           destruct (bl <=? i); [by apply arr_get_set_eq; lia|done].
        -- rewrite Hk1 by done. destruct (Z.leb_spec (i + 1) k), (Z.leb_spec i k); cbn [andb]; done || lia.
Qed.

(** The entries of the indirect block that are released: the one at index
    [blocklen - 15] is not among them. *)
Definition gone_entry (l : list Z) (bl j x : Z) : Prop :=
  exists i, 0 <= i /\ bl < 15 + j + i /\ arr_get l i = Some x /\ x <> 0.

Definition kept (l : list Z) (bl j : Z) : list Z :=
  imap (fun i b => if bl <? 15 + j + Z.of_nat i then 0 else b) l.

Lemma arr_get_cons (b : Z) l i : 0 < i -> arr_get (b :: l) i = arr_get l (i - 1).
Proof.
  intros Hi. unfold arr_get. rewrite !(proj2 (Z.leb_le _ _)) by lia.
  replace (Z.to_nat i) with (S (Z.to_nat (i - 1))) by lia. done.
Qed.

Lemma gone_cons b l bl j x :
  gone_entry (b :: l) bl j x <-> (bl < 15 + j /\ x = b /\ b <> 0) \/ gone_entry l bl (j + 1) x.
Proof.
  split.
  - intros (i & Hi & Hb & Hx & Hz). destruct (decide (i = 0)) as [->|Hne].
    + left. change (Some b = Some x) in Hx. simplify_eq. split_and!; try done. lia.
    + right. rewrite arr_get_cons in Hx by lia. exists (i - 1). split_and!; try done; lia.
  - intros [(Hb & -> & Hz)|(i & Hi & Hb & Hx & Hz)].
    + exists 0. split_and!; try done; lia.
    + exists (i + 1). rewrite arr_get_cons by lia. replace (i + 1 - 1) with i by lia. split_and!; try done; lia.
Qed.

Lemma kept_cons b l bl j : kept (b :: l) bl j = (if bl <? 15 + j then 0 else b) :: kept l bl (j + 1).
Proof.
  unfold kept. rewrite imap_cons. f_equal.
  - replace (15 + j + Z.of_nat 0) with (15 + j) by lia. done.
  - apply imap_ext. intros i x _. simpl. by replace (15 + j + Z.of_nat (S i)) with (15 + (j + 1) + Z.of_nat i) by lia.
Qed.

Lemma trunc_indirect_run l f bl j :
  vol_ok (f_vol f) ->
  (forall x, gone_entry l bl j x -> 0 < x < nblocks (f_vol f) /\ fU f x = true) ->
  (forall i i' x, arr_get l i = Some x -> arr_get l i' = Some x -> x <> 0 -> i = i') ->
  exists v' d, trunc_indirect bl j l f = Ret ((kept l bl j, d), set_vol v' f) /\
    released (f_vol f) v' (gone_entry l bl j) /\ (d = false -> kept l bl j = l).
Proof.
  revert f j. induction l as [|b l IH]; intros f j Hv Hg Hinj.
  { exists (f_vol f), false. split; [by destruct f|]. split; [|done]. apply released_refl; [done|].
    by intros x (i & Hi & _ & [_ Hx]%arr_get_Some & _). }
  cbn [trunc_indirect]. unfold SFS_NDIRECT, nz.
  assert (forall i i' x, arr_get l i = Some x -> arr_get l i' = Some x -> x <> 0 -> i = i') as Hinj'.
  { intros i i' x Hx Hx' Hz. pose proof Hx as [Hi _]%arr_get_Some. pose proof Hx' as [Hi' _]%arr_get_Some.
    assert (i + 1 = i' + 1); [|lia]. apply (Hinj _ _ x); [..|done]; rewrite arr_get_cons by lia;
      [by replace (i + 1 - 1) with i by lia|by replace (i' + 1 - 1) with i' by lia]. }
  set (go := (bl <? 15 + j) && negb (b =? 0)).
  assert (exists v1, (if go then on_vol (sfs_bfree b) else mret tt) f = Ret (tt, set_vol v1 f) /\
    released (f_vol f) v1 (fun x => bl < 15 + j /\ x = b /\ b <> 0)) as (v1 & Hrun1 & Hrel1).
  { unfold go. destruct (Z.ltb_spec bl (15 + j)) as [Hb|Hb], (Z.eqb_spec b 0) as [Hz|Hz]; cbn [negb andb].
    2:{ destruct (Hg b) as [Hr Hu]; [apply gone_cons; left; split_and!; done|].
        destruct (released_one (f_vol f) b Hv Hr Hu) as (v' & Hrun & [He HU]). exists v'. split; [by apply on_vol_run|].
        split; [done|]. intros x Hx. rewrite HU by done.
        split; intros [H1 H2]; (split; [done|]); [by intros (_ & -> & _); apply H2|by intros <-; apply H2]. }
    all: exists (f_vol f); (split; [by destruct f|]); apply released_refl; [done|]; intros x (? & ? & ?); done || lia. }
  rewrite (bind_run _ _ _ _ _ Hrun1).
  destruct (IH (set_vol v1 f) (j + 1)) as (v2 & d & Hrun2 & Hrel2 & Hd).
  - apply Hrel1.
  - intros x Hx. destruct (Hg x) as [Hr Hu]; [apply gone_cons; by right|]. split.
    + simpl. by rewrite (evolves_nblocks _ _ _ _ (proj1 Hrel1)).
    + eapply released_used; [exact Hrel1|lia|done|]. intros (_ & -> & Hz). destruct Hx as (i & Hi & _ & Hx & _).
      assert (0 = i + 1); [|lia]. apply (Hinj _ _ b); [done| |done]. rewrite arr_get_cons by lia. by replace (i + 1 - 1) with i by lia.
  - done.
  - rewrite (bind_run _ _ _ _ _ Hrun2). exists v2, (go || d).
    assert ((if go then 0 else b) = (if bl <? 15 + j then 0 else b)) as Hgo.
    { unfold go. destruct (bl <? 15 + j); [|done]. destruct (Z.eqb_spec b 0); done. }
    split; [by rewrite Hgo, kept_cons|]. split.
    + eapply released_trans; [exact Hrel1|exact Hrel2|]. intros x. apply gone_cons.
    + intros [Hgf Hdf]%orb_false_iff. rewrite kept_cons, Hd, <- Hgo, Hgf by done. done.
Qed.

(** A well-formed file from which some blocks have been taken. *)
Lemma restrict_ok f f' (keep : Z -> bool) :
  fok f -> vol_ok (f_vol f') -> dinode_wf (dinode f') -> sfs_sb (f_vol f') = sfs_sb (f_vol f) ->
  (sfi_indirect (dinode f') = sfi_indirect (dinode f) \/ sfi_indirect (dinode f') = 0) ->
  (forall k, 0 <= k -> fptr f' k = if keep k then fptr f k else 0) ->
  (forall x, 0 <= x -> fU f' x = true <-> fU f x = true /\ (fowned f x -> fowned f' x)) -> fok f'.
Proof.
  intros Hok Hv Hwf Hsb Hind Hp HU. pose proof Hok as [Hv0 []].
  assert (nblocks (f_vol f') = nblocks (f_vol f)) as Hn by (unfold nblocks; congruence).
  assert (forall k, 0 <= k -> fptr f' k <> 0 -> fptr f' k = fptr f k) as Hk.
  { intros k H0 Hz. rewrite Hp in * by done. by destruct (keep k). }
  split; [done|]. rewrite Hn. split; [done|..].
  - intros k H0 Hz. change (fptr f' k <> 0) in Hz. pose proof (Hk k H0 Hz) as E.
    destruct (fo_range0 k H0) as (Hr & Hu & Hi); [change (fptr f k <> 0); congruence|].
    change (ptr (dinode f) (fB f) k) with (fptr f k) in *. change (ptr (dinode f') (fB f') k) with (fptr f' k).
    rewrite E. split; [done|]. split.
    + apply HU; [lia|]. split; [done|]. intros _. split; [congruence|]. right. exists k. split; [done|]. exact E.
    + destruct Hind as [-> | ->]; [done|congruence].
  - intros k k' H0 H0'. change (fptr f' k <> 0 -> fptr f' k = fptr f' k' -> k = k'). intros Hz E.
    assert (fptr f' k' <> 0) by congruence. rewrite Hk in E by done. rewrite (Hk k') in E by done.
    apply fo_inj0; [done|done| |exact E]. change (fptr f k <> 0). rewrite <- Hk by done. done.
  - intros Hz. destruct Hind as [E|]; [|done]. rewrite E in Hz |- *. destruct (fo_ind0 Hz) as [Hr Hu]. split; [done|].
    apply HU; [lia|]. split; [done|]. intros _. split; [done|]. left. by rewrite E.
Qed.

(** Which file blocks a truncation to [bl] blocks keeps. *)
Definition keeps (bl k : Z) : bool := if k <? 15 then k <? bl else k <=? bl.

Definition dropped f (bl x : Z) : Prop := x <> 0 /\ exists k, 0 <= k /\ fptr f k = x /\ keeps bl k = false.

Lemma dropped_direct f bl x :
  fok f -> gone_direct (sfi_direct (dinode f)) bl 0 15 x <-> x <> 0 /\ exists k, 0 <= k < 15 /\ fptr f k = x /\ keeps bl k = false.
Proof.
  intros Hok. split.
  - intros (k & Hk & Hb & Hx & Hz). rewrite (direct_entry f k Hok Hk) in Hx. simplify_eq. split; [done|].
    exists k. split_and!; try done; try lia. unfold keeps. rewrite (proj2 (Z.ltb_lt k 15)), (proj2 (Z.ltb_ge k bl)) by lia. done.
  - intros (Hz & k & Hk & Hx & Hkeep). exists k. unfold keeps in Hkeep. rewrite (proj2 (Z.ltb_lt k 15)) in Hkeep by lia.
    apply Z.ltb_ge in Hkeep. rewrite (direct_entry f k Hok Hk), Hx. done.
Qed.

Lemma dropped_entry f bl x :
  sfi_indirect (dinode f) <> 0 ->
  gone_entry (entries f) bl 0 x <-> x <> 0 /\ exists k, 15 <= k /\ fptr f k = x /\ keeps bl k = false.
Proof.
  intros Hi. split.
  - intros (i & Hi0 & Hb & Hx & Hz). split; [done|]. exists (15 + i).
    assert (0 <= i < 128) as Hr.
    { destruct (proj1 (arr_get_is_Some (entries f) i)) as [_ Hr]; [by rewrite Hx|]. rewrite entries_length in Hr. lia. }
    rewrite (entry_ptr f i Hi Hr) in Hx. simplify_eq. split_and!; try done; try lia.
    unfold keeps. rewrite (proj2 (Z.ltb_ge (15 + i) 15)), (proj2 (Z.leb_gt (15 + i) bl)) by lia. done.
  - intros (Hz & k & Hk & Hx & Hkeep). pose proof (ptr_range _ _ k ltac:(unfold fptr in Hx; rewrite Hx; done)) as Hlt.
    unfold keeps in Hkeep. rewrite (proj2 (Z.ltb_ge k 15)) in Hkeep by lia. apply Z.leb_gt in Hkeep.
    exists (k - 15). rewrite (entry_ptr f (k - 15) Hi) by lia. replace (15 + (k - 15)) with k by lia. rewrite Hx. split_and!; try done; lia.
Qed.

Lemma dropped_split f bl x :
  dropped f bl x <-> (x <> 0 /\ exists k, 0 <= k < 15 /\ fptr f k = x /\ keeps bl k = false) \/
                     (x <> 0 /\ exists k, 15 <= k /\ fptr f k = x /\ keeps bl k = false).
Proof.
  unfold dropped. split.
  - intros (Hz & k & Hk & Hrest). destruct (decide (k < 15)); [left|right]; (split; [done|]); exists k; split; (done || lia).
  - intros [(Hz & k & Hk & Hrest)|(Hz & k & Hk & Hrest)]; (split; [done|]); exists k; split; (done || lia).
Qed.

(** The indirect block is given up exactly when it was looked at and none of the
    entries kept is in use. *)
Definition no_indirect bl f f' : Prop :=
  sfi_indirect (dinode f') = 0 <->
  sfi_indirect (dinode f) = 0 \/ bl < 142 /\ forall k, 15 <= k <= bl -> fptr f k = 0.

(** What [sfs_itrunc] has done before it sets the size. *)
Record truncated bl f f' : Prop := {
  t_ok : fok f';
  t_ev : evolves (f_vol f) (f_vol f') (fU f') (fB f');
  t_ino : sv_ino (f_sv f') = sv_ino (f_sv f);
  t_type : sfi_type (dinode f') = sfi_type (dinode f);
  t_link : sfi_linkcount (dinode f') = sfi_linkcount (dinode f);
  t_ptr k : 0 <= k -> fptr f' k = if keeps bl k then fptr f k else 0;
  t_used x : 0 <= x -> fU f' x = true <-> fU f x = true /\ (fowned f x -> fowned f' x);
  t_blk x : fB f' x = fB f x \/ x = sfi_indirect (dinode f) /\ x <> 0;
  t_ind : sfi_indirect (dinode f') = sfi_indirect (dinode f) \/ sfi_indirect (dinode f') = 0;
  t_free : no_indirect bl f f';
}.

(** The blocks in use afterwards, in terms of the blocks owned. *)
Lemma owned_kept f f' bl x :
  fok f -> (sfi_indirect (dinode f') = sfi_indirect (dinode f) \/ sfi_indirect (dinode f') = 0) ->
  (forall k, 0 <= k -> fptr f' k = if keeps bl k then fptr f k else 0) ->
  (fowned f x -> fowned f' x) <-> ~ dropped f bl x /\ ~ (x = sfi_indirect (dinode f) /\ x <> 0 /\ sfi_indirect (dinode f') = 0).
Proof.
  intros Hok Hind Hp. pose proof Hok as [_ []].
  assert (forall k, 0 <= k -> fptr f k <> 0 -> fptr f k <> sfi_indirect (dinode f)) as Hni.
  { intros k H0 Hz. by apply fo_range0. }
  assert (forall k y, 0 <= k -> fptr f' k = y -> y <> 0 -> keeps bl k = true /\ fptr f k = y) as Hk'.
  { intros k y H0 Hy Hz. rewrite Hp in Hy by done. by destruct (keeps bl k). }
  split.
  - intros Himp. split.
    + intros (Hz & k & H0 & Hx & Hkeep). destruct Himp as (_ & [Hi|(k' & H0' & Hx')]); [split; [done|]; right; by exists k|..].
      * destruct Hind as [E|E]; [|congruence]. apply (Hni k H0); congruence.
      * change (fptr f' k' = x) in Hx'. destruct (Hk' k' x H0' Hx' Hz) as [Hkk Hpp].
        assert (k = k') by (apply fo_inj0; [done|done|change (fptr f k <> 0); congruence|change (fptr f k = fptr f k'); congruence]). congruence.
    + intros (Hx & Hz & Hi0). destruct Himp as (_ & [Hi|(k' & H0' & Hx')]); [split; [done|by left]|congruence|].
      change (fptr f' k' = x) in Hx'. destruct (Hk' k' x H0' Hx' Hz) as [_ Hpp]. apply (Hni k' H0'); congruence.
  - intros [Hnd Hni'] (Hz & [Hx|(k & H0 & Hx)]); (split; [done|]).
    + left. destruct Hind as [E|E]; [congruence|]. by destruct Hni'.
    + right. exists k. split; [done|]. change (fptr f' k = x). change (fptr f k = x) in Hx. rewrite Hp by done.
      destruct (keeps bl k) eqn:Hkeep; [done|]. destruct Hnd. split; [done|]. by exists k.
Qed.

(** The direct part of the pointers. *)
Lemma ptr_masked f i' B' bl :
  fok f -> (forall k, 0 <= k < 15 -> arr_get (sfi_direct i') k = if (0 <=? k) && (bl <=? k) then Some 0 else arr_get (sfi_direct (dinode f)) k) ->
  forall k, 0 <= k < 15 -> ptr i' B' k = if keeps bl k then fptr f k else 0.
Proof.
  intros Hok Hd k Hk. rewrite ptr_direct, Hd by lia. unfold keeps. rewrite (proj2 (Z.leb_le 0 k)), (proj2 (Z.ltb_lt k 15)) by lia. cbn [andb].
  destruct (Z.leb_spec bl k), (Z.ltb_spec k bl); try lia; [done|]. by rewrite (direct_entry f k Hok Hk).
Qed.

Lemma kept_lookup l bl j i : kept l bl j !! i = (fun b => if bl <? 15 + j + Z.of_nat i then 0 else b) <$> l !! i.
Proof. unfold kept. apply list_lookup_imap. Qed.

Lemma kept_words l bl j : Forall (fun x => 0 <= x < 2 ^ 32) l -> Forall (fun x => 0 <= x < 2 ^ 32) (kept l bl j).
Proof.
  intros Hl. apply Forall_lookup. intros i x Hx. rewrite kept_lookup in Hx. apply fmap_Some in Hx as (b & Hb & ->).
  pose proof (proj1 (Forall_lookup _ _) Hl i b Hb). destruct (_ <? _); simpl in *; lia.
Qed.

Lemma kept_ptr f bl k :
  sfi_indirect (dinode f) <> 0 -> 15 <= k < 143 ->
  default 0 (kept (entries f) bl 0 !! Z.to_nat (k - 15)) = if keeps bl k then fptr f k else 0.
Proof.
  intros Hi Hk. rewrite kept_lookup. pose proof (entry_ptr f (k - 15) Hi ltac:(lia)) as [_ E]%arr_get_Some.
  rewrite E. cbn [fmap option_fmap option_map default]. replace (15 + (k - 15)) with k by lia. unfold keeps.
  rewrite (proj2 (Z.ltb_ge k 15)) by lia. replace (15 + 0 + Z.of_nat (Z.to_nat (k - 15))) with k by lia.
  destruct (Z.ltb_spec bl k), (Z.leb_spec k bl); done || lia.
Qed.

(** The hypotheses of [restrict_ok] from the runs of the two loops. *)
Lemma truncated_intro bl f f' gone :
  fok f -> released (f_vol f) (f_vol f') gone \/ (exists v1, released (f_vol f) v1 gone /\
    exists bs, evolves v1 (f_vol f') (used v1) (upd (blk v1) (sfi_indirect (dinode f)) bs) /\ sfi_indirect (dinode f) <> 0) ->
  (forall x, gone x <-> dropped f bl x \/ (x = sfi_indirect (dinode f) /\ x <> 0 /\ sfi_indirect (dinode f') = 0)) ->
  dinode_wf (dinode f') ->
  (sfi_indirect (dinode f') = sfi_indirect (dinode f) \/ sfi_indirect (dinode f') = 0) -> no_indirect bl f f' ->
  sv_ino (f_sv f') = sv_ino (f_sv f) -> sfi_type (dinode f') = sfi_type (dinode f) ->
  sfi_linkcount (dinode f') = sfi_linkcount (dinode f) ->
  (forall k, 0 <= k -> fptr f' k = if keeps bl k then fptr f k else 0) -> truncated bl f f'.
Proof.
  intros Hok Hrel Hgone Hwf Hind Hfree Hino Hty Hlk Hp.
  assert (evolves (f_vol f) (f_vol f') (fU f') (fB f') /\ (forall x, 0 <= x -> fU f' x = true <-> fU f x = true /\ ~ gone x) /\
    (forall x, fB f' x = fB f x \/ x = sfi_indirect (dinode f) /\ x <> 0)) as (Hev & HU & HB).
  { destruct Hrel as [[He HU]|(v1 & [He HU] & bs & He2 & Hi)].
    - split_and!; [|done|intros x; left; apply He]. eapply evolves_ext; [exact He|done|]. intros x. symmetry. apply He.
    - split_and!.
      + eapply evolves_ext; [by eapply evolves_trans| |]; [intros x Hx; symmetry; by apply He2|intros x; symmetry; by apply He2].
      + intros x Hx. unfold fU. rewrite (ev_used _ _ _ _ He2) by done. by apply HU.
      + intros x. unfold fB. rewrite (ev_blk _ _ _ _ He2). unfold upd. destruct (Z.eqb_spec x (sfi_indirect (dinode f))) as [->|]; [by right|].
        left. apply He. }
  assert (forall x, 0 <= x -> fU f' x = true <-> fU f x = true /\ (fowned f x -> fowned f' x)) as HU'.
  { intros x Hx. rewrite HU, (owned_kept f f' bl x Hok Hind Hp), Hgone by done. tauto. }
  split; try done. eapply restrict_ok; try done; apply Hev.
Qed.

Lemma ptr_beyond f k : 143 <= k -> fptr f k = 0.
Proof. intros Hk. destruct (decide (fptr f k = 0)) as [|Hnz]; [done|]. apply ptr_range in Hnz. lia. Qed.

Lemma nonempty_entry f bl k :
  sfi_indirect (dinode f) <> 0 -> existsb nz (kept (entries f) bl 0) = false -> 15 <= k -> keeps bl k = true -> fptr f k = 0.
Proof.
  intros Hi Hex Hk Hkeep. destruct (decide (fptr f k = 0)) as [|Hnz]; [done|exfalso].
  pose proof (ptr_range _ _ _ Hnz) as Hlt. pose proof (kept_ptr f bl k Hi ltac:(lia)) as E. rewrite Hkeep in E.
  destruct (kept (entries f) bl 0 !! Z.to_nat (k - 15)) as [y|] eqn:Hy; [|simpl in E; congruence]. simpl in E. subst y.
  assert (existsb nz (kept (entries f) bl 0) = true) as Hex'; [|congruence]. apply existsb_exists. exists (fptr f k). split.
  - by eapply list_elem_of_In, list_elem_of_lookup_2.
  - unfold nz. by rewrite (proj2 (Z.eqb_neq _ _) Hnz).
Qed.

Lemma empty_entries f bl :
  sfi_indirect (dinode f) <> 0 -> (forall k, 15 <= k <= bl -> fptr f k = 0) -> existsb nz (kept (entries f) bl 0) = false.
Proof.
  intros Hi Hz. destruct (existsb nz _) eqn:Hex; [|done]. apply existsb_exists in Hex as (x & Hx & Hnz).
  apply list_elem_of_In, list_elem_of_lookup_1 in Hx as [i Hx]. pose proof (lookup_lt_Some _ _ _ Hx) as Hlt.
  unfold kept in Hlt. rewrite length_imap, entries_length in Hlt.
  pose proof (kept_ptr f bl (15 + Z.of_nat i) Hi ltac:(lia)) as E.
  replace (Z.to_nat (15 + Z.of_nat i - 15)) with i in E by lia. rewrite Hx in E. simpl in E. subst x.
  unfold keeps in Hnz. rewrite (proj2 (Z.ltb_ge (15 + Z.of_nat i) 15)) in Hnz by lia.
  destruct (Z.leb_spec (15 + Z.of_nat i) bl); [|done]. rewrite Hz in Hnz by lia. done.
Qed.

(** The state after the loop over the direct blocks, with the inode [sv1], and
    what the rest of the function does to it. *)
Section Indirect.
Variables (f : file) (bl : Z) (v1 : volume) (sv1 : sfs_vnode) (d' : list Z).
Hypothesis Hok : fok f.
Hypothesis Hrel : released (f_vol f) v1 (gone_direct (sfi_direct (dinode f)) bl 0 15).
Hypothesis Hino : sv_ino sv1 = sv_ino (f_sv f).
Hypothesis Hsv : sv_i sv1 = with_direct d' (dinode f).
Hypothesis Hlen : length d' = 15%nat.
Hypothesis Hd : forall k, 0 <= k < 15 -> arr_get d' k = if (0 <=? k) && (bl <=? k) then Some 0 else arr_get (sfi_direct (dinode f)) k.

Let f1 := MkFile v1 sv1.

Lemma f1_wf : dinode_wf (dinode f1).
Proof.
  pose proof (fok_inode f Hok) as Hwf. unfold f1, dinode; simpl. rewrite Hsv.
  apply with_direct_wf; [done|done|]. apply Forall_lookup. intros i x Hx.
  assert (arr_get d' (Z.of_nat i) = Some x) as Ha by (by rewrite arr_get_nat). pose proof (lookup_lt_Some _ _ _ Hx).
  rewrite Hd in Ha by lia. destruct (_ && _); [by simplify_eq|]. apply arr_get_Some in Ha as [_ Ha].
  destruct Hwf as (_&_&_&_&Hw&_). by apply (proj1 (Forall_lookup _ _) Hw _ _ Ha).
Qed.

(** The final states, which keep the inode or drop the indirect block. *)
Lemma finish f' (gone : Z -> Prop) :
  released (f_vol f) (f_vol f') gone \/ (exists v2, released (f_vol f) v2 gone /\
    exists bs, evolves v2 (f_vol f') (used v2) (upd (blk v2) (sfi_indirect (dinode f)) bs) /\ sfi_indirect (dinode f) <> 0) ->
  sv_ino (f_sv f') = sv_ino sv1 ->
  dinode f' = dinode f1 /\ (forall x, gone x <-> dropped f bl x) \/
  dinode f' = with_indirect 0 (dinode f1) /\ sfi_indirect (dinode f) <> 0 /\
    (forall x, gone x <-> dropped f bl x \/ sfi_indirect (dinode f) = x) ->
  no_indirect bl f f' ->
  (forall k, 15 <= k < 143 -> fptr f' k = if keeps bl k then fptr f k else 0) -> truncated bl f f'.
Proof.
  intros Hr Hino' Hcase Hfree Hp15.
  assert (sfi_indirect (dinode f1) = sfi_indirect (dinode f)) as Hi1 by (unfold f1, dinode; simpl; by rewrite Hsv).
  assert (sfi_direct (dinode f') = d') as Hdir.
  { destruct Hcase as [[-> _]|[-> _]]; unfold f1, dinode; simpl; by rewrite Hsv. }
  apply truncated_intro with (gone := gone); [done|done|..].
  - intros x. destruct Hcase as [[-> ->]|[-> [Hnz ->]]].
    + rewrite Hi1. split; [by left|]. intros [|(-> & ? & ?)]; [done|congruence].
    + simpl. split; (intros [|Hx]; [by left|right]); [by subst|symmetry; tauto].
  - destruct Hcase as [[-> _]|[-> _]]; [apply f1_wf|]. apply with_indirect_wf; [apply f1_wf|lia].
  - destruct Hcase as [[-> _]|[-> _]]; [by left|by right].
  - done.
  - congruence.
  - destruct Hcase as [[-> _]|[-> _]]; unfold f1, dinode; simpl; by rewrite Hsv.
  - destruct Hcase as [[-> _]|[-> _]]; unfold f1, dinode; simpl; by rewrite Hsv.
  - intros k Hk. destruct (decide (k < 15)).
    + unfold fptr at 1. apply ptr_masked; [done| |lia]. rewrite Hdir. exact Hd.
    + destruct (decide (k < 143)); [apply Hp15; lia|]. rewrite !ptr_beyond by lia. by destruct (keeps bl k).
Qed.

(** No entry of the indirect block is looked at. *)
Lemma indirect_skip : 142 <= bl \/ sfi_indirect (dinode f) = 0 -> truncated bl f f1.
Proof.
  intros Hcase.
  assert (forall k, 15 <= k -> fptr f k <> 0 -> keeps bl k = true) as Hkeep.
  { intros k Hk Hnz. pose proof (ptr_range _ _ _ Hnz). destruct Hcase as [Hb|Hi].
    - unfold keeps. rewrite (proj2 (Z.ltb_ge k 15)), (proj2 (Z.leb_le k bl)) by lia. done.
    - unfold fptr in Hnz. by rewrite ptr_no_indirect in Hnz by (done || lia). }
  apply finish with (gone := gone_direct (sfi_direct (dinode f)) bl 0 15); [by left|done|..].
  - left. split; [done|]. intros x. rewrite dropped_direct, dropped_split by done. split; [by left|].
    intros [|(Hz & k & Hk & Hx & Hkk)]; [done|]. rewrite (Hkeep k Hk) in Hkk; [done|congruence].
  - unfold no_indirect. replace (sfi_indirect (dinode f1)) with (sfi_indirect (dinode f)) by (unfold f1, dinode; simpl; by rewrite Hsv).
    split; [by left|]. intros [|[? _]]; [done|]. destruct Hcase; [lia|done].
  - intros k Hk. assert (fptr f1 k = fptr f k) as ->.
    { unfold fptr, f1, dinode; simpl. rewrite Hsv. unfold ptr; simpl. rewrite !(proj2 (Z.ltb_ge k 15)) by lia. unfold fB; simpl. by rewrite (ev_blk _ _ _ _ (proj1 Hrel)). }
    destruct (keeps bl k) eqn:E; [done|]. destruct (decide (fptr f k = 0)) as [|Hnz]; [done|]. rewrite Hkeep in E by (done || lia). done.
Qed.

(** The loop over the entries releases the rest of what is dropped. *)
Lemma entries_loop v2 :
  sfi_indirect (dinode f) <> 0 -> released (f_vol f) v2 (gone_direct (sfi_direct (dinode f)) bl 0 15) ->
  exists v3 d, trunc_indirect bl 0 (entries f) (set_vol v2 f1) = Ret ((kept (entries f) bl 0, d), set_vol v3 f1) /\
    released (f_vol f) v3 (dropped f bl) /\ (d = false -> kept (entries f) bl 0 = entries f).
Proof.
  intros Hi Hrel2. pose proof Hok as [_ []].
  destruct (trunc_indirect_run (entries f) (set_vol v2 f1) bl 0) as (v3 & d & Hrun & Hrel3 & Hdirty).
  - apply Hrel2.
  - intros x Hx. apply dropped_entry in Hx as (Hxz & k & Hk & Hpk & _); [|done].
    destruct (fo_range0 k ltac:(lia)) as (Hr & Hu & _); [unfold fptr in Hpk; congruence|].
    change (ptr (dinode f) (fB f) k) with (fptr f k) in Hr, Hu. rewrite Hpk in Hr, Hu. split.
    + simpl. by rewrite (evolves_nblocks _ _ _ _ (proj1 Hrel2)).
    + eapply released_used; [exact Hrel2|lia|done|]. intros (k' & Hk' & _ & Hx' & _).
      rewrite (direct_entry f k' Hok Hk') in Hx'. injection Hx' as Hx'.
      assert (k' = k) by (apply fo_inj0; [lia|lia|change (fptr f k' <> 0); congruence|change (fptr f k' = fptr f k); congruence]). lia.
  - assert (forall j x, arr_get (entries f) j = Some x -> 0 <= j < 128 /\ fptr f (15 + j) = x) as He.
    { intros j x Hj. assert (0 <= j < 128) as Hjr.
      { destruct (proj1 (arr_get_is_Some (entries f) j)) as [? Hr]; [by rewrite Hj|]. rewrite entries_length in Hr. lia. }
      split; [done|]. rewrite (entry_ptr f j Hi Hjr) in Hj. by simplify_eq. }
    intros i i' x Hx Hx' Hxz. destruct (He i x Hx) as [Hir1 Hp1], (He i' x Hx') as [Hir2 Hp2].
    assert (15 + i = 15 + i'); [|lia].
    apply fo_inj0; [lia|lia|change (fptr f (15 + i) <> 0); congruence|change (fptr f (15 + i) = fptr f (15 + i')); congruence].
  - exists v3, d. split; [exact Hrun|]. split; [|exact Hdirty].
    eapply released_trans; [exact Hrel2|exact Hrel3|].
    intros x. rewrite dropped_split, <- (dropped_direct f bl x Hok), <- (dropped_entry f bl x Hi). done.
Qed.

(** The entries left are stored, unless there are none. *)
Lemma entries_store v3 d :
  bl < 142 -> sfi_indirect (dinode f) <> 0 -> released (f_vol f) v3 (dropped f bl) -> (d = false -> kept (entries f) bl 0 = entries f) ->
  exists f', (if negb (existsb nz (kept (entries f) bl 0)) then
                on_vol (sfs_bfree (sfi_indirect (dinode f)));; change_inode (with_indirect 0);; mret 0
              else if d then on_vol (sfs_writeblock (sfi_indirect (dinode f)) (words (kept (entries f) bl 0))) else mret 0)
             (set_vol v3 f1) = Ret (0, f') /\ truncated bl f f'.
Proof.
  intros Hbl Hi Hrel3 Hdirty. pose proof Hok as [_ []]. destruct (fo_ind0 Hi) as [Hir Hiu]. set (buf := kept (entries f) bl 0) in *.
  assert (0 < sfi_indirect (dinode f) < nblocks v3) as Hir3 by (by rewrite (evolves_nblocks _ _ _ _ (proj1 Hrel3))).
  assert (length buf = 128%nat) as Hbl128 by (unfold buf, kept; by rewrite length_imap, entries_length).
  assert (forall f', dinode f' = dinode f1 -> unwords 128 (fB f' (sfi_indirect (dinode f))) = buf ->
    forall k, 15 <= k < 143 -> fptr f' k = if keeps bl k then fptr f k else 0) as Hp15.
  { intros f' E Eb k Hk. assert (sfi_indirect (dinode f') = sfi_indirect (dinode f)) as Ei by (rewrite E; unfold f1, dinode; simpl; by rewrite Hsv).
    unfold fptr at 1. rewrite ptr_indirect by (lia || congruence). rewrite Ei, Eb. by apply kept_ptr. }
  assert (forall f', dinode f' = dinode f1 -> existsb nz buf = true -> no_indirect bl f f') as Hstay.
  { intros f' E Hex. unfold no_indirect. rewrite E. unfold f1, dinode; simpl. rewrite Hsv. split; [by left|]. intros [|[_ Hz]]; [done|].
    unfold buf in Hex. by rewrite (empty_entries f bl Hi Hz) in Hex. }
  destruct (existsb nz buf) eqn:Hex; cbn [negb]; [destruct d|].
  - destruct (writeblock_run v3 (sfi_indirect (dinode f)) (words buf)) as (v4 & Hwb & Hev4); [apply Hrel3|lia| |].
    { split; [by rewrite words_length, Hbl128|apply words_bytes]. }
    exists (set_vol v4 f1). split; [by apply (on_vol_run _ (set_vol v3 f1))|].
    apply finish with (gone := dropped f bl); [right|done|by left|by apply Hstay|].
    + exists v3. split; [done|]. by exists (words buf).
    + apply Hp15; [done|]. unfold fB; simpl. rewrite (ev_blk _ _ _ _ Hev4), upd_eq.
      pose proof (unwords_words buf [] (kept_words _ _ _ (entries_word f))) as Ew. by rewrite Hbl128, app_nil_r in Ew.
  - exists (set_vol v3 f1). split; [done|]. apply finish with (gone := dropped f bl); [by left|done|by left|by apply Hstay|].
    apply Hp15; [done|]. unfold fB; simpl. rewrite (ev_blk _ _ _ _ (proj1 Hrel3)). symmetry. by apply Hdirty.
  - assert (~ dropped f bl (sfi_indirect (dinode f))) as Hnd.
    { intros (_ & k & Hk & Hpk & _). destruct (fo_range0 k Hk) as (_ & _ & Hne); [unfold fptr in Hpk; congruence|]. by apply Hne. }
    destruct (released_one v3 (sfi_indirect (dinode f))) as (v4 & Hfr & Hrel4); [apply Hrel3|done| |].
    { eapply released_used; [exact Hrel3|lia|exact Hiu|exact Hnd]. }
    rewrite (bind_run _ _ _ _ _ (on_vol_run _ (set_vol v3 f1) _ _ Hfr)).
    exists (MkFile v4 (MkSv (with_indirect 0 (dinode f1)) (sv_ino sv1) true)). split; [done|].
    apply finish with (gone := fun x => dropped f bl x \/ sfi_indirect (dinode f) = x); [left|done|by right|split|].
    + by eapply released_trans; [exact Hrel3|exact Hrel4|].
    + intros _. right. split; [done|]. intros k Hk. apply (nonempty_entry f bl k Hi Hex); [lia|].
      unfold keeps. by rewrite (proj2 (Z.ltb_ge k 15)), (proj2 (Z.leb_le k bl)) by lia.
    + done.
    + intros k Hk. unfold fptr at 1. rewrite ptr_no_indirect by (done || lia).
      destruct (keeps bl k) eqn:Hkeep; [|done]. symmetry. by apply (nonempty_entry f bl k); [| |lia|].
Qed.

Lemma indirect_part_run : exists f', trunc_idblock bl f1 = Ret (0, f') /\ truncated bl f f'.
Proof.
  pose proof Hok as [_ []].
  unfold trunc_idblock. mrun. assert (sfi_indirect (dinode f1) = sfi_indirect (dinode f)) as Hi1 by (unfold f1, dinode; simpl; by rewrite Hsv).
  rewrite Hi1. change (SFS_NDIRECT + SFS_DBPERIDB - 1) with 142. unfold nz at 1.
  destruct (Z.ltb_spec bl 142) as [Hlt|Hge], (Z.eqb_spec (sfi_indirect (dinode f)) 0) as [Hz|Hz]; cbn [negb andb].
  2:{ pose proof Hrel as [Hev1 HU1]. destruct (fo_ind0 Hz) as [Hir Hiu].
      destruct (readblock_run v1 (sfi_indirect (dinode f))) as (v2 & Hrb & Hev2).
      { apply Hev1. } { rewrite (evolves_nblocks _ _ _ _ Hev1). lia. }
      rewrite (bind_run _ _ _ _ _ (on_vol_run _ f1 _ _ Hrb)). cbn [nz Z.eqb negb].
      rewrite (ev_blk _ _ _ _ Hev1). change (unwords 128 (blk (f_vol f) (sfi_indirect (dinode f)))) with (entries f).
      destruct (entries_loop v2 Hz) as (v3 & d & Hrun3 & Hrel3 & Hdirty).
      { split.
        - eapply evolves_ext; [by eapply evolves_trans|intros x Hx; symmetry; by apply Hev2|apply Hev1].
        - intros x Hx. rewrite <- HU1 by done. by rewrite (ev_used _ _ _ _ Hev2). }
      rewrite (bind_run _ _ _ _ _ Hrun3). by apply entries_store. }
  all: exists f1; (split; [done|]); apply indirect_skip; (by left) || (by right).
Qed.
End Indirect.

(** The direct blocks, then the indirect block. *)
Lemma trunc_blocks_run f bl :
  fok f -> exists f', (for_each (seqZ 0 SFS_NDIRECT) (trunc_direct bl);; trunc_idblock bl) f = Ret (0, f') /\ truncated bl f f'.
Proof.
  intros Hok. pose proof Hok as [Hv []]. pose proof (fok_inode f Hok) as (_&_&_&Hl&_).
  destruct (trunc_direct_loop 15 f bl 0) as (v1 & sv1 & d' & Hrun & Hrel & _ & Hino & Hi & Hlen & Hd); [done|done|done|done|..].
  - intros x Hx. apply dropped_direct in Hx as (Hz & k & Hk & Hx & _); [|done].
    destruct (fo_range0 k ltac:(lia)) as (Hr & Hu & _); unfold fptr in Hx; subst x; done.
  - assert (forall k x, arr_get (sfi_direct (dinode f)) k = Some x -> 0 <= k /\ fptr f k = x) as He.
    { intros k x Hx. destruct (proj1 (arr_get_is_Some (sfi_direct (dinode f)) k)) as [? Hr]; [by rewrite Hx|].
      split; [done|]. rewrite (direct_entry f k Hok) in Hx by lia. by simplify_eq. }
    intros k k' x _ Hx Hx' Hz. apply He in Hx as [? Hx], Hx' as [? Hx'].
    apply fo_inj0; [done|done|change (fptr f k <> 0); congruence|change (fptr f k = fptr f k'); congruence].
  - change (Z.of_nat 15) with SFS_NDIRECT in Hrun. rewrite (bind_run _ _ _ _ _ Hrun). by eapply indirect_part_run.
Qed.

Lemma trunc_blocklen_len len : 0 <= len < 2 ^ 32 -> trunc_blocklen len = (len + 511) / 512.
Proof.
  intros Hlen. unfold trunc_blocklen, SFS_BLOCKSIZE. replace (len + 512 - 1) with (len + 511) by lia.
  rewrite Z.quot_div_nonneg by lia. apply u32_id. lia.
Qed.

(** A kept block keeps its bytes. *)
Lemma truncated_content bl f f' pos :
  fok f -> truncated bl f f' -> 0 <= pos -> keeps bl (pos / 512) = true -> fcontent f' pos = fcontent f pos.
Proof.
  intros Hok [] Hpos Hk. pose proof Hok as [_ []]. unfold fcontent, fbyte.
  change (ptr (dinode f') (fB f')) with (fptr f'). change (ptr (dinode f) (fB f)) with (fptr f). rewrite t_ptr0, Hk by lia.
  destruct (Z.eqb_spec (fptr f (pos / 512)) 0) as [|Hnz]; [done|].
  destruct (t_blk0 (fptr f (pos / 512))) as [-> | [E _]]; [done|].
  destruct (fo_range0 (pos / 512) ltac:(lia) Hnz) as (_ & _ & Hne). by destruct Hne.
Qed.

Lemma set_depth_fok f d : fok f -> fok (set_vol (set_depth d (f_vol f)) f).
Proof. intros [[] ?]. split; [by split|done]. Qed.

Lemma set_size_fok f n b : fok f -> 0 <= n < 2 ^ 32 -> fok (MkFile (f_vol f) (MkSv (with_size n (dinode f)) (sv_ino (f_sv f)) b)).
Proof. intros [? []] Hn. split; [done|]. split; [by apply with_size_wf|done..]. Qed.

Lemma itrunc_run f len :
  fok f -> 0 <= len < 2 ^ 32 -> 0 <= vfs_biglock_depth (f_vol f) < 2 ^ 32 - 1 ->
  exists f', sfs_itrunc len f = Ret (0, f') /\ fok f' /\
    sfs_sb (f_vol f') = sfs_sb (f_vol f) /\ sfs_superdirty (f_vol f') = sfs_superdirty (f_vol f) /\
    (forall x, fowned f' x -> fowned f x) /\ sfi_size (dinode f') = len /\ sv_dirty (f_sv f') = true /\ sv_ino (f_sv f') = sv_ino (f_sv f) /\
    sfi_type (dinode f') = sfi_type (dinode f) /\ sfi_linkcount (dinode f') = sfi_linkcount (dinode f) /\
    vfs_biglock_depth (f_vol f') = vfs_biglock_depth (f_vol f) /\
    (forall k, 0 <= k -> fptr f' k = if keeps ((len + 511) / 512) k then fptr f k else 0) /\
    (forall x, 0 <= x -> fU f' x = true <-> fU f x = true /\ (fowned f x -> fowned f' x)) /\
    (forall x, ~ fowned f x -> fB f' x = fB f x) /\
    (forall pos, 0 <= pos < len -> fcontent f' pos = fcontent f pos) /\
    (sfi_indirect (dinode f') = sfi_indirect (dinode f) \/ sfi_indirect (dinode f') = 0) /\
    (sfi_indirect (dinode f') = 0 <->
     sfi_indirect (dinode f) = 0 \/ (len + 511) / 512 < 142 /\ forall k, 15 <= k <= (len + 511) / 512 -> fptr f k = 0).
Proof.
  intros Hok Hlen Hdep. set (d := vfs_biglock_depth (f_vol f)) in *.
  set (f1 := set_vol (set_depth (d + 1) (f_vol f)) f).
  assert (fok f1) as Hok1 by (by apply set_depth_fok).
  destruct (trunc_blocks_run f1 ((len + 511) / 512) Hok1) as (f2 & Hrun & Ht).
  set (f3 := MkFile (f_vol f2) (MkSv (with_size len (dinode f2)) (sv_ino (f_sv f2)) true)).
  assert (fok f3) as Hok3 by (apply set_size_fok; [by apply (t_ok _ _ _ Ht)|done]).
  exists (set_vol (set_depth d (f_vol f3)) f3). split.
  - unfold sfs_itrunc. rewrite trunc_blocklen_len by done. 
    rewrite (bind_run _ _ _ _ _ (on_vol_run _ f _ _ (biglock_acquire_run (f_vol f) Hdep))).
    fold f1. rewrite (bind_run _ _ _ _ _ Hrun). cbn [nz Z.eqb negb]. unfold change_inode at 1. rewrite u32_id by done. mrun. fold f3.
    rewrite (bind_run _ _ _ _ _ (on_vol_run _ f3 _ _ (biglock_release_run (f_vol f3) d (ev_depth _ _ _ _ (t_ev _ _ _ Ht)) (proj1 Hdep)))). done.
  - pose proof Ht as []. split; [by apply set_depth_fok|]. split; [by apply (ev_sb _ _ _ _ t_ev0)|]. split; [by apply (ev_superdirty _ _ _ _ t_ev0)|]. split.
    { intros x (Hz & [E|(k & Hk & Hx)]); (split; [done|]).
      - left. destruct t_ind0 as [E'|E']; [by rewrite E|]. change (x = sfi_indirect (dinode f2)) in E. congruence.
      - right. exists k. split; [done|]. change (fptr f2 k = x) in Hx. rewrite t_ptr0 in Hx by done. by destruct (keeps _ k). }
    split_and!; [done|done|done|done|done|done|done|done| | |exact t_ind0|exact t_free0].
    + intros x Ho. destruct (t_blk0 x) as [E|[-> Hz]]; [exact E|]. destruct Ho. split; [done|by left].
    + intros pos Hpos. apply (truncated_content _ f1 f2 pos Hok1 Ht); [lia|]. unfold keeps.
      destruct (pos / 512 <? 15); [apply Z.ltb_lt|apply Z.leb_le]; lia.
Qed.

(** C25 sfs_itrunc_spec. On a volume whose disk reports no I/O error (and which has
    at most 2^23 blocks), truncating (or extending) a file to [len] bytes, with
    0 <= [len] < 2^32, returns 0, sets the size and leaves a well-formed file.  Of
    [bl] = [len] rounded up to blocks, the direct blocks below [bl] and the
    indirect ones up to and including [bl] are kept, all others are given back:
    the free map loses exactly the blocks the file no longer owns.  The indirect
    block itself is given up exactly when [bl] is below 142 (the code looks at it
    only then) and none of its entries that are kept is in use; otherwise it stays.
    The bytes below [len] and the blocks of other files keep their contents, and
    the lock depth is restored. *)
Theorem sfs_itrunc_spec f len :
  fok f -> 0 <= len < 2 ^ 32 -> 0 <= vfs_biglock_depth (f_vol f) < 2 ^ 32 - 1 ->
  exists f', sfs_itrunc len f = Ret (0, f') /\ fok f' /\
    sfi_size (dinode f') = len /\ sv_dirty (f_sv f') = true /\ sv_ino (f_sv f') = sv_ino (f_sv f) /\
    sfi_type (dinode f') = sfi_type (dinode f) /\ sfi_linkcount (dinode f') = sfi_linkcount (dinode f) /\
    vfs_biglock_depth (f_vol f') = vfs_biglock_depth (f_vol f) /\
    (forall k, 0 <= k -> fptr f' k = if keeps ((len + 511) / 512) k then fptr f k else 0) /\
    (forall x, 0 <= x -> fU f' x = true <-> fU f x = true /\ (fowned f x -> fowned f' x)) /\
    (forall x, ~ fowned f x -> fB f' x = fB f x) /\
    (forall pos, 0 <= pos < len -> fcontent f' pos = fcontent f pos) /\
    (sfi_indirect (dinode f') = sfi_indirect (dinode f) \/ sfi_indirect (dinode f') = 0) /\
    (sfi_indirect (dinode f') = 0 <->
     sfi_indirect (dinode f) = 0 \/ (len + 511) / 512 < 142 /\ forall k, 15 <= k <= (len + 511) / 512 -> fptr f k = 0).
Proof.
  intros Hok Hlen Hdep. destruct (itrunc_run f len Hok Hlen Hdep) as (f' & Hrun & Hf & _ & _ & _ & Hrest). by exists f'.
Qed.

End TruncProofs.

(** Fifteen blocks are the direct ones, yet block 15 is kept. *)
Lemma sfs_itrunc_spec_witness :
  exists f', sfs_itrunc 7680 sample_file = Ret (0, f') /\ sfi_size (dinode f') = 7680 /\
    fptr f' 15 = 6 /\ fptr f' 16 = 0 /\ fU f' 6 = true.
Proof.
  destruct (sfs_itrunc_spec sample_file 7680) as (f' & Hrun & Hok & Hs & _ & _ & _ & _ & _ & Hp & HU & _);
    [apply sample_file_ok|lia|split; by vm_compute|].
  exists f'. split; [exact Hrun|]. split; [exact Hs|]. rewrite !Hp by lia.
  assert (fptr f' 15 = 6) as E by (rewrite Hp by lia; vm_compute; reflexivity).
  split; [vm_compute; reflexivity|]. split; [vm_compute; reflexivity|]. apply HU; [lia|]. split; [vm_compute; reflexivity|].
  intros _. split; [discriminate|]. right. exists 15. split; [lia|exact E].
Defined.

End Trunc.
