(* ===== verification/SfsDir.v ===== *)
(** * SFS directories: [fs/sfs/sfs_dir.c]

    A directory is a file of 64-byte slots.  The abstract view is the function
    [slot] from slot numbers to directory entries; a name is a C string, the list
    of bytes up to and including its terminator.  The theorems say what
    searching, linking and unlinking do to the slots, on every branch, and that
    names stay unique. *)

From S2P Require Import Prelude CString Copy Stream Lhd Bitmap SfsBlock SfsFile.

Module Dir.
Import Stream Lhd Layout Blk File Str.

Section Code.
Context `{Lhdhw}.

(** [sizeof(struct sfs_direntry)] *)
Definition SIZEOF_DIRENTRY : Z := 64.

Definition sfs_readdir (slot : Z) : M file (Z * sfs_direntry) :=
  let actualpos := u32 (slot * SIZEOF_DIRENTRY) in
  '(result, bs) ← sfs_metaio actualpos SIZEOF_DIRENTRY [] Uio.UIO_READ;
  mret (result, bytes_direntry bs).

Definition sfs_writedir (slot : Z) (sd : sfs_direntry) : M file Z :=
  kassert (0 <=? slot) "slot>=0";;
  let actualpos := u32 (slot * SIZEOF_DIRENTRY) in
  '(result, _) ← sfs_metaio actualpos SIZEOF_DIRENTRY (direntry_bytes sd) Uio.UIO_WRITE;
  mret result.

Definition sfs_dir_nentries : M file Z :=
  f ← get;
  kassert (sfi_type (dinode f) =? SFS_TYPE_DIR) "sv->sv_i.sfi_type == SFS_TYPE_DIR";;
  let size := sfi_size (dinode f) in
  if negb (size mod SIZEOF_DIRENTRY =? 0) then panic "sfs: directory: Invalid size"
  else mret (s32 (size / SIZEOF_DIRENTRY)).

(** The loop of [sfs_dir_findname]: [n] rounds from slot [i] on; the inode and slot
    found so far and [*emptyslot]. *)
Fixpoint findname_loop (name : list Z) (i : Z) (n : nat) (found : option (Z * Z)) (emptyslot : Z) :
    M file (Z * option (Z * Z) * Z) :=
  match n with
  | O => mret (match found with Some _ => 0 | None => ENOENT end, found, emptyslot)
  | S n' =>
      '(result, tsd) ← sfs_readdir i;
      if nz result then mret (result, found, emptyslot)
      else if sfd_ino tsd =? SFS_NOINO then findname_loop name (i + 1) n' found i
      else
        let sfd_name := <[59%nat := 0]> (sfd_name tsd) in
        cmp ← lift (strcmp sfd_name name);
        if cmp =? 0 then
          kassert (bool_decide (found = None)) "found==0";;
          findname_loop name (i + 1) n' (Some (sfd_ino tsd, i)) emptyslot
        else findname_loop name (i + 1) n' found emptyslot
  end.

(** The error code, the inode and slot found, and the empty slot; [emptyslot] is
    what the caller's variable holds. *)
Definition sfs_dir_findname (name : list Z) (emptyslot : Z) : M file (Z * option (Z * Z) * Z) :=
  nentries ← sfs_dir_nentries;
  findname_loop name 0 (Z.to_nat nentries) None emptyslot.

(** The error code and the slot. *)
Definition sfs_dir_link (name : list Z) (ino : Z) : M file (Z * Z) :=
  '(result, _, emptyslot) ← sfs_dir_findname name (-1);
  if nz result && negb (result =? ENOENT) then mret (result, 0)
  else if result =? 0 then mret (EEXIST, 0)
  else
    len ← lift (strlen name);
    if SFS_NAMELEN <? len + 1 then mret (ENAMETOOLONG, 0)
    else
      emptyslot ← (if emptyslot <? 0 then sfs_dir_nentries else mret emptyslot);
      sd_name ← lift (strcpy (replicate 60 0) name);
      result ← sfs_writedir emptyslot (Direntry ino sd_name);
      mret (result, emptyslot).

Definition sfs_dir_unlink (slot : Z) : M file Z :=
  sfs_writedir slot (Direntry SFS_NOINO (replicate 60 0)).

End Code.

(** ** Metadata I/O *)

Section DirProofs.
Context `{HW : LhdhwOk}.
Implicit Types (f : file).

Lemma metaio_read f pos len :
  fok f -> 0 <= pos < 512 * 143 -> 0 <= len -> pos mod 512 + len <= 512 ->
  exists f', sfs_metaio pos len [] Uio.UIO_READ f = Ret ((0, fbytes f pos (Z.to_nat len)), f') /\ same f f'.
Proof.
  intros Hok Hpos Hlen Hin. unfold sfs_metaio. rewrite bind_kassert by done. rewrite fileblock_of by lia.
  unfold SFS_BLOCKSIZE. rewrite Z.rem_mod_nonneg, (u32_id (pos mod 512)) by lia.
  change (Uio.UIO_READ =? Uio.UIO_WRITE) with false. change (Uio.UIO_READ =? Uio.UIO_READ) with true.
  set (k := pos / 512). destruct (bmap_read f k Hok ltac:(lia)) as (f1 & Hb & Hs1).
  rewrite (bind_run _ _ _ _ _ Hb). rewrite (proj2 (Z.ltb_lt k 143)) by lia. cbn [nz Z.eqb negb].
  assert (512 * k + pos mod 512 = pos) as Epos by (unfold k; lia).
  pose proof (fblock_slice f k (pos mod 512) len ltac:(lia) ltac:(lia) Hin) as Hslice. rewrite Epos in Hslice.
  destruct (Z.eqb_spec (fptr f k) 0) as [Hz|Hz].
  - rewrite bind_kassert by done. exists f1. split; [|done]. rewrite <- Hslice. unfold fblock. rewrite Hz. cbn [Z.eqb].
    unfold zeros. rewrite drop_replicate, take_replicate. by rewrite Nat.min_l by lia.
  - pose proof Hs1 as (Hw1 & _ & _ & HB1). pose proof Hok as [_ []].
    destruct (fo_range0 k ltac:(lia) Hz) as (Hr & _). change (ptr (dinode f) (fB f) k) with (fptr f k) in Hr.
    destruct (readblock_run (f_vol f1) (fptr f k)) as (v2 & Hrb & Hev);
      [apply Hw1|rewrite (within_nblocks _ _ Hw1); lia|].
    rewrite (bind_run _ _ _ _ _ (on_vol_run _ f1 _ _ Hrb)). cbn [nz Z.eqb negb].
    rewrite (proj2 (Z.leb_le _ _)) by lia. erewrite bind_valid by done.
    exists (set_vol v2 f1). split.
    + rewrite <- Hslice. unfold fblock. rewrite (proj2 (Z.eqb_neq _ _) Hz). unfold fB in HB1 |- *. by rewrite HB1.
    + eapply same_trans; [exact Hs1|]. apply vol_same; [apply Hw1|done].
Qed.

(** What a metadata write of [data] at [pos] does: all of it, or nothing to the
    bytes. *)
Definition meta_post f (pos : Z) (data : list Z) (rc : Z) f' : Prop :=
  within f f' /\
  (rc = 0 /\ pos < 512 * 143 /\ (forall p, 0 <= p -> fcontent f' p = splice (fcontent f) pos data p) /\
     sfi_size (dinode f') = Z.max (sfi_size (dinode f)) (pos + Z.of_nat (length data)) \/
   (rc = ENOSPC /\ fptr f (pos / 512) = 0 \/ rc = EFBIG /\ 512 * 143 <= pos) /\ (forall p, 0 <= p -> fcontent f' p = fcontent f p) /\
     sfi_size (dinode f') = sfi_size (dinode f)).

Lemma metaio_write f pos len data :
  fok f -> 0 <= pos < 2 ^ 31 -> Z.of_nat (length data) = len -> pos mod 512 + len <= 512 ->
  Forall (fun b => 0 <= b < 256) data ->
  exists rc f', sfs_metaio pos len data Uio.UIO_WRITE f = Ret ((rc, []), f') /\ meta_post f pos data rc f'.
Proof.
  intros Hok Hpos Hlen Hin Hby. unfold sfs_metaio. rewrite bind_kassert by done. rewrite fileblock_of by lia.
  unfold SFS_BLOCKSIZE. rewrite Z.rem_mod_nonneg, (u32_id (pos mod 512)) by lia.
  change (Uio.UIO_WRITE =? Uio.UIO_WRITE) with true. change (Uio.UIO_WRITE =? Uio.UIO_READ) with false.
  set (k := pos / 512). destruct (bmap_alloc f k Hok ltac:(lia)) as (rc & p & f1 & Hb & Hpost).
  rewrite (bind_run _ _ _ _ _ Hb). destruct (Z.ltb_spec k 143) as [Hk|Hk]; cycle 1.
  { destruct Hpost as [-> ->]. exists EFBIG, f. split; [done|]. split; [by apply within_refl|].
    right. split_and!; [right; split; [done|lia]|done|done]. }
  destruct Hpost as (Hw1 & Hc1 & Hsz1 & [(-> & -> & Hnz)|(-> & Hz & _)]); cycle 1.
  { exists ENOSPC, f1. split; [done|]. split; [done|]. right. split_and!; [left; by split|done|done]. }
  cbn [nz Z.eqb negb]. rewrite (proj2 (Z.eqb_neq _ _) Hnz).
  pose proof (w_ok _ _ Hw1) as Hok1. pose proof Hok1 as [Hv1 []]. destruct (fo_range0 k ltac:(lia) Hnz) as (Hr & _).
  change (ptr (dinode f1) (fB f1) k) with (fptr f1 k) in Hr.
  destruct (readblock_run (f_vol f1) (fptr f1 k) Hv1 ltac:(lia)) as (v2 & Hrb & Hev2).
  rewrite (bind_run _ _ _ _ _ (on_vol_run _ f1 _ _ Hrb)). cbn [nz Z.eqb negb].
  rewrite (proj2 (Z.leb_le _ _)) by lia. erewrite bind_valid by done.
  assert (blk (f_vol f1) (fptr f1 k) = fblock f1 k) as -> by (unfold fblock; by rewrite (proj2 (Z.eqb_neq _ _) Hnz)).
  replace (Z.to_nat (pos mod 512 + len)) with (Z.to_nat (pos mod 512) + length data)%nat by lia.
  destruct (writeblock_run v2 (fptr f1 k) (take (Z.to_nat (pos mod 512)) (fblock f1 k) ++ data ++
     drop (Z.to_nat (pos mod 512) + length data) (fblock f1 k))) as (v3 & Hwb & Hev3).
  { apply Hev2. } { rewrite (evolves_nblocks _ _ _ _ Hev2). lia. } { apply patch_is_block; [lia|lia|done]. }
  rewrite (bind_run _ _ _ _ _ (on_vol_run _ (set_vol v2 f1) _ _ Hwb)). cbn [nz Z.eqb negb].
  change (set_vol v3 (set_vol v2 f1)) with (set_vol v3 f1). mrun.
  destruct (write_part f f1 v3 k (pos mod 512) data) as [Hw' Hc']; try done; [lia|lia|lia| |].
  { eapply evolves_ext; [by eapply evolves_trans|apply Hev2|]. intros x. unfold upd. destruct (x =? _); [done|apply Hev2]. }
  assert (512 * k + pos mod 512 = pos) as Epos by (unfold k; lia). rewrite Epos in Hc'.
  change (sfi_size (dinode (set_vol v3 f1))) with (sfi_size (dinode f1)). rewrite Hsz1.
  destruct (Z.ltb_spec (sfi_size (dinode f)) (pos + len)).
  - rewrite u32_id by lia. destruct (resize_within (set_vol v3 f1) (pos + len) (w_ok _ _ Hw') ltac:(lia)) as (Hrun2 & Hw2 & _ & Hc2).
    rewrite (bind_run _ _ _ _ _ Hrun2). eexists 0, _. split; [reflexivity|]. split; [by eapply within_trans|]. left.
    split_and!; [done|lia| |simpl; lia]. intros q Hq. rewrite Hc2. auto.
  - exists 0, (set_vol v3 f1). split; [done|]. split; [done|]. left. split_and!; [done|lia|done|].
    change (sfi_size (dinode (set_vol v3 f1))) with (sfi_size (dinode f1)). lia.
Qed.

(** ** The abstract directory *)

Definition slot f (i : Z) : sfs_direntry := bytes_direntry (fbytes f (64 * i) 64).
Definition nslots f : Z := sfi_size (dinode f) / 64.

Definition in_use (d : sfs_direntry) : Prop := sfd_ino d <> 0.
Definition ename (d : sfs_direntry) : list Z := cstr (<[59%nat := 0]> (sfd_name d)).

(** Slot [i] of the directory holds the name [nm] for inode [ino]. *)
Definition holds f (nm : list Z) (ino i : Z) : Prop :=
  0 <= i < nslots f /\ in_use (slot f i) /\ ename (slot f i) = nm /\ sfd_ino (slot f i) = ino.

Definition absent f (nm : list Z) : Prop := forall ino i, ~ holds f nm ino i.

Record dir_ok f : Prop := {
  do_fok : fok f;
  do_type : sfi_type (dinode f) = SFS_TYPE_DIR;
  do_size : sfi_size (dinode f) = 64 * nslots f;
  do_max : 0 <= nslots f <= 1144;
  do_unique i j : 0 <= i < nslots f -> 0 <= j < nslots f -> in_use (slot f i) -> in_use (slot f j) ->
    ename (slot f i) = ename (slot f j) -> i = j;
}.

(** A name as it is passed around: a C string of bytes. *)
Definition is_name (name : list Z) : Prop := terminated name /\ Forall (fun c => 0 <= c < 256) name.

Lemma fcontent_byte f pos : 0 <= fcontent f pos < 256.
Proof.
  destruct (fblock_block f (pos / 512)) as [_ Hb]. pose proof (fblock_content f (pos / 512) (pos mod 512) ltac:(lia)) as E.
  replace (512 * (pos / 512) + pos mod 512) with pos in E by lia. by apply (proj1 (Forall_lookup _ _) Hb _ _ E).
Qed.

Lemma fbytes_bytes f pos n : Forall (fun b => 0 <= b < 256) (fbytes f pos n).
Proof. apply Forall_fmap, Forall_true. intros x. apply fcontent_byte. Qed.

Lemma slot_name_length f i : length (sfd_name (slot f i)) = 60%nat.
Proof. unfold slot, bytes_direntry. cbn [sfd_name]. rewrite length_take, length_drop, fbytes_length. lia. Qed.

Lemma slot_name_ok f i : is_name (<[59%nat := 0]> (sfd_name (slot f i))).
Proof.
  pose proof (slot_name_length f i) as Hl. split.
  - unfold terminated. apply (list_elem_of_lookup_2 _ 59). apply list_lookup_insert_eq. lia.
  - apply Forall_insert; [|lia]. unfold slot, bytes_direntry. cbn [sfd_name]. apply Forall_take, Forall_drop, fbytes_bytes.
Qed.

Lemma same_slot f f' i : same f f' -> slot f' i = slot f i.
Proof. intros Hs. unfold slot. apply (f_equal bytes_direntry). apply fbytes_ext. intros x _. by apply same_content. Qed.

Lemma same_dinode f f' : same f f' -> dinode f' = dinode f.
Proof. intros (_ & E & _). unfold dinode. by rewrite E. Qed.

Lemma same_dir f f' : same f f' -> dir_ok f -> dir_ok f'.
Proof.
  intros Hs []. pose proof (same_dinode _ _ Hs) as E. assert (nslots f' = nslots f) as En by (unfold nslots; by rewrite E).
  split; rewrite ?En, ?E; [apply Hs|done|done|done|]. intros i j. rewrite !(same_slot f f') by done. auto.
Qed.

Lemma same_holds f f' nm ino i : same f f' -> holds f' nm ino i <-> holds f nm ino i.
Proof.
  intros Hs. unfold holds, nslots. by rewrite (same_slot f f' i Hs), (same_dinode _ _ Hs).
Qed.

Lemma nentries_run f : dir_ok f -> sfs_dir_nentries f = Ret (nslots f, f).
Proof.
  intros []. unfold sfs_dir_nentries. mrun. rewrite bind_kassert by (by rewrite do_type0). unfold SIZEOF_DIRENTRY.
  rewrite (proj2 (Z.eqb_eq (sfi_size (dinode f) mod 64) 0)) by lia. cbn [negb]. fold (nslots f). by rewrite s32_id by lia.
Qed.

Lemma readdir_run f i :
  fok f -> 0 <= i < 1144 -> exists f', sfs_readdir i f = Ret ((0, slot f i), f') /\ same f f'.
Proof.
  intros Hok Hi. unfold sfs_readdir, SIZEOF_DIRENTRY. rewrite u32_id by lia.
  destruct (metaio_read f (i * 64) 64) as (f' & Hrun & Hs); [done|lia|lia|lia|].
  rewrite (bind_run _ _ _ _ _ Hrun). exists f'. split; [|done]. unfold slot. by replace (64 * i) with (i * 64) by lia.
Qed.

(** What the search has found in the slots below [i]. *)
Definition found_below f (nm : list Z) (i : Z) (found : option (Z * Z)) : Prop :=
  match found with
  | Some (ino, j) => j < i /\ holds f nm ino j
  | None => forall ino j, j < i -> ~ holds f nm ino j
  end.

Definition empty_below f (i e0 e : Z) : Prop :=
  e = e0 /\ (forall j, 0 <= j < i -> in_use (slot f j)) \/ 0 <= e < i /\ ~ in_use (slot f e).

Lemma findname_loop_run n f name i found e0 e :
  dir_ok f -> is_name name -> 0 <= i -> i + Z.of_nat n = nslots f ->
  found_below f (cstr name) i found -> empty_below f i e0 e ->
  exists rc found' e' f', findname_loop name i n found e f = Ret ((rc, found', e'), f') /\ same f f' /\
    found_below f (cstr name) (nslots f) found' /\ empty_below f (nslots f) e0 e' /\
    rc = (match found' with Some _ => 0 | None => ENOENT end).
Proof.
  revert f i found e. induction n as [|n IH]; intros f i found e Hd Hn Hi Hin Hf He; cbn [findname_loop].
  - replace (nslots f) with i by lia. eexists _, found, e, f. split; [reflexivity|]. split; [apply same_refl, Hd|]. split_and!; done.
  - pose proof Hd as []. destruct (readdir_run f i) as (f1 & Hrun & Hs); [done|lia|].
    rewrite (bind_run _ _ _ _ _ Hrun). cbn [nz Z.eqb negb]. unfold SFS_NOINO.
    assert (forall found1 e1, found_below f (cstr name) (i + 1) found1 -> empty_below f (i + 1) e0 e1 ->
      exists rc found' e' f', findname_loop name (i + 1) n found1 e1 f1 = Ret ((rc, found', e'), f') /\ same f f' /\
        found_below f (cstr name) (nslots f) found' /\ empty_below f (nslots f) e0 e' /\
        rc = (match found' with Some _ => 0 | None => ENOENT end)) as Hnext.
    { intros found1 e1 Hf1 He1. assert (nslots f1 = nslots f) as En by (unfold nslots; by rewrite (same_dinode _ _ Hs)).
      assert (forall k fo, found_below f1 (cstr name) k fo <-> found_below f (cstr name) k fo) as Ef.
      { intros k [[ino j]|]; simpl; [by rewrite (same_holds f f1)|].
        split; intros H' ino j Hj Hh; apply (H' ino j Hj); by apply (same_holds f f1). }
      assert (forall k e', empty_below f1 k e0 e' <-> empty_below f k e0 e') as Ee.
      { intros k e'. unfold empty_below. rewrite (same_slot f f1 e' Hs). split; intros [[? Hall]|?]; [left|by right|left|by right];
          (split; [done|]); intros j Hj; specialize (Hall j Hj); by rewrite (same_slot f f1 j Hs) in *. }
      destruct (IH f1 (i + 1) found1 e1) as (rc & fo & e' & f2 & Hr2 & Hs2 & Hf2 & He2 & Hrc); try (by apply Ef); try (by apply Ee);
        [by eapply same_dir|done|lia|lia|].
      exists rc, fo, e', f2. rewrite En in *. split; [exact Hr2|]. split; [by eapply same_trans|]. split; [exact (proj1 (Ef _ _) Hf2)|]. split; [exact (proj1 (Ee _ _) He2)|exact Hrc]. }
    destruct (Z.eqb_spec (sfd_ino (slot f i)) 0) as [Hz|Hz].
    + apply Hnext.
      * destruct found as [[ino j]|]; simpl in *; [split; [lia|apply Hf]|]. intros ino j Hj Hh.
        destruct (decide (j = i)) as [->|]; [by destruct Hh as (_ & Hu & _)|]. by apply (Hf ino j); [lia|].
      * right. split; [lia|]. by intros [].
    + assert (empty_below f (i + 1) e0 e) as He'.
      { destruct He as [[-> Hall]|[? ?]]; [left|right; split; [lia|done]]. split; [done|]. intros j Hj.
        destruct (decide (j = i)) as [->|]; [done|]. apply Hall. lia. }
      destruct Hn as [Hnt Hnb]. destruct (slot_name_ok f i) as [Hst Hsb].
      destruct (strcmp_spec _ name Hst Hnt Hsb Hnb) as [Hcmp Hiff]. rewrite Hcmp. unfold lift. rewrite Hcmp in Hiff.
      erewrite bind_run by done. set (c := lex _ _) in *. destruct (Z.eqb_spec c 0) as [Hc|Hc].
      * assert (ename (slot f i) = cstr name) as Hen by (apply Hiff; by rewrite Hc).
        assert (found = None) as ->.
        { destruct found as [[ino j]|]; [|done]. destruct Hf as (Hj & Hjr & Hju & Hjn & _).
          assert (j = i) by (apply do_unique0; [done|lia|done|done|congruence]). lia. }
        rewrite bind_kassert by done. apply Hnext; [|done]. simpl. split; [lia|]. split_and!; try done; lia.
      * apply Hnext; [|done]. destruct found as [[ino j]|]; simpl in *; [split; [lia|apply Hf]|]. intros ino j Hj Hh.
        destruct (decide (j = i)) as [->|]; [|by apply (Hf ino j); [lia|]]. destruct Hh as (_ & _ & Hen & _).
        apply Hc. assert (Ret c = Ret 0) as E by (by apply Hiff). by injection E.
Qed.

Lemma findname_run f name e0 :
  dir_ok f -> is_name name ->
  exists rc found e f', sfs_dir_findname name e0 f = Ret ((rc, found, e), f') /\ same f f' /\
    found_below f (cstr name) (nslots f) found /\ empty_below f (nslots f) e0 e /\
    rc = (match found with Some _ => 0 | None => ENOENT end).
Proof.
  intros Hd Hn. unfold sfs_dir_findname. rewrite (bind_run _ _ _ _ _ (nentries_run f Hd)). pose proof Hd as [].
  apply findname_loop_run; [done|done|lia|lia| |].
  - intros ino j Hj (Hr & _). lia.
  - left. split; [done|]. intros j Hj. lia.
Qed.

(** ** Changing a slot *)

Definition entry_wf (d : sfs_direntry) : Prop :=
  0 <= sfd_ino d < 2 ^ 32 /\ length (sfd_name d) = 60%nat /\ Forall (fun c => 0 <= c < 256) (sfd_name d).

(** [f'] is [f] with [d] in slot [i]. *)
Definition slot_set f (i : Z) (d : sfs_direntry) f' : Prop :=
  (forall j, 0 <= j -> slot f' j = if j =? i then d else slot f j) /\ nslots f' = Z.max (nslots f) (i + 1) /\
  sfi_size (dinode f') = 64 * nslots f'.

Definition slots_kept f f' : Prop := (forall j, 0 <= j -> slot f' j = slot f j) /\ sfi_size (dinode f') = sfi_size (dinode f).

Lemma splice_slot f f' i d j :
  entry_wf d -> 0 <= i -> 0 <= j ->
  (forall p, 0 <= p -> fcontent f' p = splice (fcontent f) (i * 64) (direntry_bytes d) p) ->
  slot f' j = if j =? i then d else slot f j.
Proof.
  intros (Hi & Hl & Hb) H0 Hj Hc. assert (length (direntry_bytes d) = 64%nat) as Hlen
    by (unfold direntry_bytes; rewrite length_app, be_length; lia).
  unfold slot. destruct (Z.eqb_spec j i) as [->|Hne].
  - rewrite <- (direntry_round_trip d) by done. apply (f_equal bytes_direntry).
    apply list_eq_same_length with (n := 64%nat); [done|by rewrite fbytes_length|].
    intros k x y Hk Hx Hy. rewrite fbytes_lookup, Hc in Hx by lia. unfold splice in Hx.
    rewrite Hlen, (proj2 (Z.leb_le _ _)), (proj2 (Z.ltb_lt _ _)) in Hx by lia. cbn [andb] in Hx.
    replace (Z.to_nat (64 * i + Z.of_nat k - i * 64)) with k in Hx by lia. rewrite Hy in Hx. by injection Hx.
  - apply (f_equal bytes_direntry). apply fbytes_ext. intros x Hx. rewrite Hc by lia. unfold splice. rewrite Hlen.
    destruct (Z.leb_spec (i * 64) x), (Z.ltb_spec x (i * 64 + Z.of_nat 64)); cbn [andb]; done || lia.
Qed.

(** A slot in a hole of the directory is not in use. *)
Lemma hole_slot f i : 0 <= i -> fptr f (i * 64 / 512) = 0 -> ~ in_use (slot f i).
Proof.
  intros Hi Hz. unfold slot. assert (fbytes f (64 * i) 64 = replicate 64 0) as ->; [|by vm_compute].
  apply list_eq. intros j. destruct (decide (j < 64)%nat) as [Hj|Hj]; cycle 1.
  { rewrite !lookup_ge_None_2; [done|rewrite length_replicate; lia|rewrite fbytes_length; lia]. }
  unfold fbytes. rewrite list_lookup_fmap, lookup_seqZ_lt, lookup_replicate_2 by lia. simpl. f_equal.
  unfold fcontent, fbyte. change (ptr (dinode f) (fB f)) with (fptr f). replace ((64 * i + Z.of_nat j) / 512) with (i * 64 / 512) by lia. by rewrite Hz.
Qed.

Lemma writedir_run f i d :
  dir_ok f -> 0 <= i <= nslots f -> entry_wf d ->
  exists rc f', sfs_writedir i d f = Ret (rc, f') /\ within f f' /\
    (rc = 0 /\ i < 1144 /\ slot_set f i d f' \/
     (rc = ENOSPC /\ ~ in_use (slot f i) \/ rc = EFBIG /\ i = 1144) /\ slots_kept f f').
Proof.
  intros [] Hi Hd. pose proof Hd as (Hino & Hl & Hb). unfold sfs_writedir. rewrite bind_kassert by (apply Z.leb_le; lia).
  unfold SIZEOF_DIRENTRY. rewrite u32_id by lia.
  assert (length (direntry_bytes d) = 64%nat) as Hlen by (unfold direntry_bytes; rewrite length_app, be_length; lia).
  destruct (metaio_write f (i * 64) 64 (direntry_bytes d)) as (rc & f' & Hrun & Hw & Hcase); [done|lia|lia|lia| |].
  { unfold direntry_bytes. apply Forall_app. split; [apply be_bytes|done]. }
  rewrite (bind_run _ _ _ _ _ Hrun). exists rc, f'. split; [done|]. split; [done|].
  destruct Hcase as [(-> & Hpm & Hc & Hs)|(Hrc & Hc & Hs)]; [left|right].
  - split; [done|]. split; [lia|]. split; [intros j Hj; by apply splice_slot; [done|lia|done|]|]. unfold nslots in *. rewrite Hlen in Hs. lia.
  - split; [destruct Hrc as [[-> Hz]|[-> ?]]; [left; split; [done|apply hole_slot; [lia|exact Hz]]|right; split; [done|lia]]|]. split; [|done]. intros j Hj. unfold slot.
    apply (f_equal bytes_direntry). apply fbytes_ext. intros x Hx. apply Hc. lia.
Qed.

Lemma slots_kept_dir f f' : dir_ok f -> within f f' -> slots_kept f f' -> dir_ok f'.
Proof.
  intros [] Hw [Hs Hz]. assert (nslots f' = nslots f) as En by (unfold nslots; by rewrite Hz).
  split; rewrite ?En; [apply Hw|by rewrite (w_type _ _ Hw)|by rewrite Hz|done|].
  intros i j Hi Hj. rewrite !Hs by lia. auto.
Qed.

Lemma slot_set_dir f f' i d :
  dir_ok f -> within f f' -> slot_set f i d f' -> 0 <= i <= nslots f -> i < 1144 ->
  (in_use d -> forall j, 0 <= j < nslots f -> j <> i -> in_use (slot f j) -> ename (slot f j) <> ename d) -> dir_ok f'.
Proof.
  intros [] Hw (Hs & Hn & Hz) Hi Hmax Hfresh. split; [apply Hw|by rewrite (w_type _ _ Hw)|done|lia|].
  intros j k Hj Hk. rewrite !Hs by lia. destruct (Z.eqb_spec j i) as [->|Hji], (Z.eqb_spec k i) as [->|Hki]; [done| | |].
  - intros Hu Hu' E. destruct (Hfresh Hu k); [lia|done|done|by symmetry].
  - intros Hu Hu' E. destruct (Hfresh Hu' j); [lia|done|done|done].
  - apply do_unique0; lia.
Qed.

Lemma new_name name :
  is_name name -> (length (cstr name) <= 59)%nat ->
  exists nm, strcpy (replicate 60 0) name = Ret nm /\ forall ino, 0 <= ino < 2 ^ 32 ->
    entry_wf (Direntry ino nm) /\ ename (Direntry ino nm) = cstr name.
Proof.
  intros [Ht Hb] Hl. eexists. split; [by apply strcpy_spec; [|rewrite length_replicate; lia]|]. intros ino Hino.
  rewrite drop_replicate. set (n := length (cstr name)) in *.
  assert (length (cstr name ++ 0 :: replicate (60 - S n) 0) = 60%nat) as Hlen by (rewrite length_app; simpl; rewrite length_replicate; fold n; lia).
  split; [split; [simpl; lia|split; [exact Hlen|]]|].
  - simpl. apply Forall_app. split.
    + destruct (terminated_inv _ Ht) as [rest E]. rewrite E in Hb. by apply Forall_app in Hb as [? _].
    + constructor; [lia|]. apply Forall_replicate. lia.
  - unfold ename. cbn [sfd_name]. rewrite list_insert_id; [apply cstr_app, cstr_clean|].
    destruct (decide (n = 59%nat)) as [E|E].
    + rewrite lookup_app_r by (fold n; lia). fold n. by rewrite E.
    + rewrite lookup_app_r by (fold n; lia). fold n. replace (59 - n)%nat with (S (58 - n)) by lia. simpl.
      apply lookup_replicate_2. lia.
Qed.

Lemma not_in_use_entry : ~ in_use (Direntry SFS_NOINO (replicate 60 0)).
Proof. by intros []. Qed.

(** What [sfs_dir_link] has done when it returns [rc]. *)
Definition linked f (nm : list Z) (ino rc s : Z) f' : Prop :=
  (rc = EEXIST /\ same f f' /\ exists ino' i, holds f nm ino' i) \/
  (rc = ENAMETOOLONG /\ same f f' /\ absent f nm /\ (59 < length nm)%nat) \/
  (absent f nm /\ (length nm <= 59)%nat /\ 0 <= s <= nslots f /\
   (s < nslots f /\ ~ in_use (slot f s) \/ s = nslots f /\ forall j, 0 <= j < nslots f -> in_use (slot f j)) /\
   (rc = 0 /\ nslots f' = Z.max (nslots f) (s + 1) /\ holds f' nm ino s /\ (forall j, 0 <= j -> j <> s -> slot f' j = slot f j) \/
    (rc = ENOSPC \/ rc = EFBIG /\ s = 1144) /\ slots_kept f f')).

Lemma dir_link_run f name ino :
  dir_ok f -> is_name name -> 0 < ino < 2 ^ 32 ->
  exists rc s f', sfs_dir_link name ino f = Ret ((rc, s), f') /\ dir_ok f' /\ within f f' /\ linked f (cstr name) ino rc s f'.
Proof.
  intros Hd Hn Hino. unfold sfs_dir_link. destruct (findname_run f name (-1) Hd Hn) as (rc & found & e & f1 & Hrun & Hs & Hf & He & ->).
  rewrite (bind_run _ _ _ _ _ Hrun). pose proof (same_dir _ _ Hs Hd) as Hd1. pose proof Hs as (Hw1 & _).
  destruct found as [[ino' i]|]; cbn [nz Z.eqb negb ENOENT andb Pos.eqb].
  { exists EEXIST, 0, f1. split; [done|]. split; [done|]. split; [done|]. left. split; [done|]. split; [done|]. exists ino', i. apply Hf. }
  assert (absent f (cstr name)) as Habs.
  { intros ino' i Hh. apply (Hf ino' i); [|done]. destruct Hh as (Hr & _). lia. }
  rewrite strlen_spec by apply Hn. unfold lift at 1. erewrite bind_run by done. unfold SFS_NAMELEN.
  destruct (Z.ltb_spec 60 (Z.of_nat (length (cstr name)) + 1)) as [Hlong|Hshort].
  { exists ENAMETOOLONG, 0, f1. split; [done|]. split; [done|]. split; [done|]. right; left. split; [done|]. split; [done|]. split; [done|lia]. }
  assert (nslots f1 = nslots f) as En by (unfold nslots; by rewrite (same_dinode _ _ Hs)).
  set (s := if e <? 0 then nslots f else e).
  assert (0 <= s <= nslots f /\ (s < nslots f /\ ~ in_use (slot f s) \/ s = nslots f /\ forall j, 0 <= j < nslots f -> in_use (slot f j))) as [Hs0 Hcase].
  { pose proof Hd as []. unfold s. destruct He as [[-> Hall]|[Hr Hu]].
    - change (-1 <? 0) with true. split; [lia|by right].
    - rewrite (proj2 (Z.ltb_ge _ _)) by lia. split; [lia|]. left. split; [lia|done]. }
  rewrite (bind_run _ _ _ s f1) by (unfold s; destruct (e <? 0); [by rewrite nentries_run, En|done]).
  destruct (new_name name Hn ltac:(lia)) as (nm & -> & Hnm). destruct (Hnm ino ltac:(lia)) as [Hwf Hen].
  unfold lift. erewrite bind_run by done.
  destruct (writedir_run f1 s (Direntry ino nm) Hd1) as (rc & f2 & Hrun2 & Hw2 & Hpost); [lia|done|].
  rewrite (bind_run _ _ _ _ _ Hrun2). exists rc, s, f2. split; [done|].
  assert (within f f2) as Hw by (by eapply within_trans).
  assert (forall j, slot f1 j = slot f j) as Hsl by (intros j; by apply same_slot).
  destruct Hpost as [(-> & Hmax & Hset)|(Hrc & Hkept)].
  - split.
    { eapply slot_set_dir; [exact Hd1|done|done|lia|done|]. intros _ j Hj _ Hu Hen'. rewrite Hsl in Hu, Hen'.
      apply (Habs (sfd_ino (slot f j)) j). split; [lia|]. split; [done|]. by rewrite Hen', Hen. }
    split; [done|]. right; right. split; [done|]. split; [lia|]. split; [done|]. split; [done|]. left. pose proof Hset as (Hj & Hns & _).
    split; [done|]. split; [congruence|]. split.
    + split; [lia|]. rewrite Hj, Z.eqb_refl by lia. split; [unfold in_use; simpl; lia|done].
    + intros j H0 Hne. rewrite Hj, (proj2 (Z.eqb_neq _ _) Hne) by done. apply Hsl.
  - split; [by eapply slots_kept_dir|]. split; [done|]. right; right. split; [done|]. split; [lia|]. split; [done|]. split; [done|]. right.
    split; [by destruct Hrc as [[? _]|?]; [left|right]|]. destruct Hkept as [Hk Hz]. split; [intros j H0; by rewrite Hk, Hsl|by rewrite Hz, (same_dinode _ _ Hs)].
Qed.

Lemma dir_unlink_run f i :
  dir_ok f -> 0 <= i < nslots f ->
  exists rc f', sfs_dir_unlink i f = Ret (rc, f') /\ dir_ok f' /\ within f f' /\
    (rc = 0 /\ nslots f' = nslots f /\ ~ in_use (slot f' i) /\ (forall j, 0 <= j -> j <> i -> slot f' j = slot f j) \/
     rc = ENOSPC /\ ~ in_use (slot f i) /\ slots_kept f f').
Proof.
  intros Hd Hi. unfold sfs_dir_unlink. pose proof Hd as [].
  destruct (writedir_run f i (Direntry SFS_NOINO (replicate 60 0)) Hd) as (rc & f' & Hrun & Hw & Hpost); [lia| |].
  { split; [simpl; unfold SFS_NOINO; lia|]. split; [done|]. by apply Forall_replicate. }
  exists rc, f'. split; [done|]. destruct Hpost as [(-> & Hmax & Hset)|(Hrc & Hkept)].
  - split; [by eapply slot_set_dir; [..|intros Hu; by destruct (not_in_use_entry Hu)]; (done || lia)|]. split; [done|]. left. split; [done|].
    destruct Hset as (Hj & Hn & _). split; [lia|]. split; [rewrite Hj, Z.eqb_refl by lia; apply not_in_use_entry|].
    intros j H0 Hne. by rewrite Hj, (proj2 (Z.eqb_neq _ _) Hne).
  - split; [by eapply slots_kept_dir|]. split; [done|]. right. destruct Hrc as [[-> ?]|[_ ?]]; [done|lia].
Qed.

(** sfs_dir_findname_spec. Searching a directory for a name returns 0 with the
    inode and the slot that hold the name, or [ENOENT] when no slot does; the
    directory and the volume are unchanged, and the empty slot handed back, if
    any, is one that is not in use. *)
Theorem sfs_dir_findname_spec f name e0 :
  dir_ok f -> is_name name ->
  exists rc found e f', sfs_dir_findname name e0 f = Ret ((rc, found, e), f') /\ same f f' /\
    (rc = 0 /\ (exists ino i, found = Some (ino, i) /\ holds f (cstr name) ino i) \/
     rc = ENOENT /\ found = None /\ absent f (cstr name)) /\
    empty_below f (nslots f) e0 e.
Proof.
  intros Hd Hn. destruct (findname_run f name e0 Hd Hn) as (rc & found & e & f' & Hrun & Hs & Hf & He & ->).
  exists (match found with Some _ => 0 | None => ENOENT end), found, e, f'. split; [exact Hrun|]. split; [done|]. split; [|done].
  destruct found as [[ino i]|]; [left|right].
  - split; [done|]. exists ino, i. split; [done|apply Hf].
  - split; [done|]. split; [done|]. intros ino i Hh. apply (Hf ino i); [|done]. destruct Hh as (Hr & _). lia.
Qed.

(** sfs_dir_link_spec. Linking a name into a directory: [EEXIST] when some slot
    holds it, [ENAMETOOLONG] when it has more than 59 characters, both without
    effect; otherwise the entry goes into a free slot, or behind the last one when
    there is none, and all other slots keep their contents.  Only a full volume
    ([ENOSPC]) or the 1144 slots of a full directory ([EFBIG]) prevent that, and
    then the slots are unchanged.  In every case names stay unique. *)
Theorem sfs_dir_link_spec f name ino :
  dir_ok f -> is_name name -> 0 < ino < 2 ^ 32 ->
  exists rc s f', sfs_dir_link name ino f = Ret ((rc, s), f') /\ dir_ok f' /\ within f f' /\ linked f (cstr name) ino rc s f'.
Proof. apply dir_link_run. Qed.

(** Names in slots that did not change. *)
Lemma holds_kept f f' s nm ino j :
  (forall j, 0 <= j -> j <> s -> slot f' j = slot f j) -> nslots f <= nslots f' -> j <> s -> holds f nm ino j -> holds f' nm ino j.
Proof. intros Hj Hn Hne (Hr & Hh). split; [lia|]. by rewrite Hj by (done || lia). Qed.

(** The slot a linked entry went into was not in use. *)
Lemma linked_new f nm ino s f' :
  linked f nm ino 0 s f' ->
  absent f nm /\ 0 <= s <= nslots f /\ (forall nm' ino' j, holds f nm' ino' j -> j <> s) /\ nslots f' = Z.max (nslots f) (s + 1) /\
  holds f' nm ino s /\ (forall j, 0 <= j -> j <> s -> slot f' j = slot f j).
Proof.
  intros [(? & _)|[(? & _)|(Ha & _ & Hs & Hfree & [(_ & Hn & Hh & Hj)|([?|[? _]] & _)])]]; try done.
  split; [done|]. split; [done|]. split; [|done]. intros nm' ino' j (Hr & Hu & _) ->. destruct Hfree as [[_ ?]|[? _]]; [done|lia].
Qed.

(** C32 sfs_dir_round_trip. In a well-formed directory (names unique, at most 1144
    slots) of a volume of at most 2^23 blocks whose disk reports no I/O error, a name
    that has been linked, with result 0, to an inode number other than 0 is found with
    that inode; unlinking its slot then returns 0, and after that the name is not found
    any more.  All other names are found in the same slots, for the same inodes, at all
    three points.  (When the disk fails a link
    can return 0 although the entry is not stored, see [sfs_write_errors_lost].) *)
Theorem sfs_dir_round_trip f name ino s f1 :
  dir_ok f -> is_name name -> 0 < ino < 2 ^ 32 ->
  sfs_dir_link name ino f = Ret ((0, s), f1) ->
  exists f2, sfs_dir_unlink s f1 = Ret (0, f2) /\
  (exists e f1', sfs_dir_findname name (-1) f1 = Ret ((0, Some (ino, s), e), f1')) /\
  (exists e f2', sfs_dir_findname name (-1) f2 = Ret ((ENOENT, None, e), f2')) /\
  (forall nm' ino' j, nm' <> cstr name -> (holds f nm' ino' j <-> holds f1 nm' ino' j) /\ (holds f nm' ino' j <-> holds f2 nm' ino' j)).
Proof.
  intros Hd Hn Hino Hlink.
  destruct (dir_link_run f name ino Hd Hn Hino) as (rc & s' & f1' & Hrun & Hd1 & _ & Hl). rewrite Hrun in Hlink.
  apply Ret_inj in Hlink as [[= -> ->] ->]. apply linked_new in Hl as (Habs & Hs & Hfree & Hns & Hh & Hj).
  destruct (dir_unlink_run f1 s Hd1) as (rc & f2' & Hrun2 & Hd2 & _ & Hu); [destruct Hh as (? & _); lia|].
  destruct Hu as [(-> & Hns2 & Hfree2 & Hj2)|(_ & Hnu & _)]; [|by destruct Hh as (_ & Hu & _)].
  exists f2'. rename f2' into f2. split; [exact Hrun2|]. split.
  { destruct (findname_run f1 name (-1) Hd1 Hn) as (rc & found & e & f3 & Hr & _ & Hf & _ & ->). exists e, f3. rewrite Hr.
    destruct found as [[ino' i]|]; [|exfalso; apply (Hf ino s); [destruct Hh as (? & _); lia|done]].
    destruct Hf as (_ & Hi & Hu & Hen & Hino'). destruct Hh as (Hs1 & Hsu & Hsn & Hsi). assert (i = s) as -> by (apply (do_unique _ Hd1); congruence).
    by rewrite <- Hino', Hsi. }
  split.
  { destruct (findname_run f2 name (-1) Hd2 Hn) as (rc & found & e & f3 & Hr & _ & Hf & _ & ->). exists e, f3. rewrite Hr.
    destruct found as [[ino' i]|]; [exfalso|done]. destruct Hf as (_ & Hi & Hu & Hen & _).
    assert (i <> s) as Hne by (intros ->; done). rewrite Hj2 in Hu, Hen by (done || lia). destruct Hh as (Hs1 & Hsu & Hsn & _).
    apply Hne, (do_unique _ Hd1); (congruence || lia). }
  intros nm' ino' j Hne. assert (holds f nm' ino' j <-> holds f1 nm' ino' j) as E1.
  { split; intros Hh'.
    - eapply holds_kept; [exact Hj|lia| |done]. by apply (Hfree nm' ino').
    - destruct (decide (j = s)) as [->|Hjs]; [destruct Hh as (_ & _ & ? & _), Hh' as (_ & _ & ? & _); congruence|].
      destruct Hh' as (Hr & Hh'). rewrite Hj in Hh' by (done || lia). split; [lia|done]. }
  split; [done|]. rewrite E1. split; intros Hh'.
  - eapply holds_kept; [exact Hj2|lia| |done]. intros ->. destruct Hh as (_ & _ & ? & _), Hh' as (_ & _ & ? & _). congruence.
  - destruct (decide (j = s)) as [->|Hjs]; [by destruct Hh' as (_ & ? & _)|].
    destruct Hh' as (Hr & Hh'). rewrite Hj2 in Hh' by (done || lia). split; [lia|done].
Qed.

End DirProofs.

(** ** An empty directory of the sample volume *)

Definition sample_dir : file (H := memdisk_hw) :=
  MkFile (sample_volume []) (MkSv (Dinode 0 SFS_TYPE_DIR 1 (replicate 15 0) 0 (replicate 110 0)) SFS_ROOTDIR_INO false).

(** "ab" *)
Definition name_ab : list Z := [97; 98; 0].

Lemma name_ab_ok : is_name name_ab.
Proof. split; [unfold terminated, name_ab; set_solver|]. repeat (apply Forall_cons; split; [lia|]). done. Qed.

Lemma sample_dir_ok : dir_ok sample_dir.
Proof.
  split.
  - split; [apply sample_volume_ok|]. apply file_check_ok; [|vm_compute; reflexivity].
    split_and!; try done; repeat (constructor; [done|]); by constructor.
  - done.
  - by vm_compute.
  - vm_compute. split; discriminate.
  - intros i j [Hi Hi']. change (nslots sample_dir) with 0 in Hi'. lia.
Qed.

Lemma sfs_dir_findname_spec_witness :
  exists rc found e f', sfs_dir_findname name_ab (-1) sample_dir = Ret ((rc, found, e), f') /\ rc = ENOENT /\ found = None.
Proof.
  destruct (sfs_dir_findname_spec sample_dir name_ab (-1) sample_dir_ok name_ab_ok) as (rc & found & e & f' & Hrun & _ & Hcase & _).
  exists rc, found, e, f'. split; [exact Hrun|]. destruct Hcase as [(_ & ino & i & _ & (Hi & _))|(-> & -> & _)]; [|split; reflexivity].
  change (nslots sample_dir) with 0 in Hi. lia.
Defined.

Lemma sfs_dir_link_spec_witness :
  exists rc s f', sfs_dir_link name_ab 3 sample_dir = Ret ((rc, s), f') /\ dir_ok f' /\ rc = 0 /\ s = 0.
Proof.
  destruct (sfs_dir_link_spec sample_dir name_ab 3 sample_dir_ok name_ab_ok ltac:(lia)) as (rc & s & f' & Hrun & Hd & _).
  exists rc, s, f'. split; [exact Hrun|]. split; [exact Hd|].
  assert (match sfs_dir_link name_ab 3 sample_dir with Ret ((rc, s), _) => rc = 0 /\ s = 0 | _ => False end) as E by (vm_compute; split; reflexivity).
  rewrite Hrun in E. exact E.
Defined.

Lemma sfs_dir_round_trip_witness :
  exists f1 f2, sfs_dir_link name_ab 3 sample_dir = Ret ((0, 0), f1) /\ sfs_dir_unlink 0 f1 = Ret (0, f2) /\
    (exists e f1', sfs_dir_findname name_ab (-1) f1 = Ret ((0, Some (3, 0), e), f1')) /\
    exists e f2', sfs_dir_findname name_ab (-1) f2 = Ret ((ENOENT, None, e), f2').
Proof.
  destruct (dir_link_run sample_dir name_ab 3 sample_dir_ok name_ab_ok ltac:(lia)) as (rc & s & f1 & Hrun & Hd1 & _ & Hl).
  assert (match sfs_dir_link name_ab 3 sample_dir with
          | Ret ((rc, s), _) => rc = 0 /\ s = 0 | _ => False end) as E by (vm_compute; split; reflexivity).
  rewrite Hrun in E. destruct E as (-> & ->).
  destruct (sfs_dir_round_trip sample_dir name_ab 3 0 f1 sample_dir_ok name_ab_ok ltac:(lia) Hrun) as (f2 & Hun & Hf1 & Hf2 & _).
  exists f1, f2. split; [exact Hrun|]. split; [exact Hun|]. split; [exact Hf1|exact Hf2].
Defined.

End Dir.
