(* ===== verification/Vnode.v ===== *)
(** * Vnodes and path operations: [vnode.c] and [vfspath.c]

    [Module Vnode] models the reference counts of [kern/vfs/vnode.c],
    [Module Vfs] the operations on path names of [kern/vfs/vfspath.c].  The file
    systems and the name lookup are used through the classes [Reclaim] and
    [Vfsops].  The theorems say that every path operation gives back the
    references it takes, on every branch. *)

From S2P Require Import Prelude Sync.

Definition VOP_MAGIC : Z := 0xa2b3c4d5.
Definition DEADBEEF : Z := 0xdeadbeef.

(** [struct vnode]; [vn_ops] and [vn_fs] are addresses, 0 for NULL. *)
Record vnode := MkVnode { vn_refcount : Z; vn_ops : Z; vn_fs : Z; vn_data : Z }.

(** [vop_magic] gives the magic number of each operations table. *)
Record vst := Vst { v_sync : sync; v_tab : gmap Z vnode; vop_magic : gmap Z Z }.

Definition set_tab (t : gmap Z vnode) (s : vst) : vst := Vst (v_sync s) t (vop_magic s).
Definition set_v_sync (y : sync) (s : vst) : vst := Vst y (v_tab s) (vop_magic s).

(** [vop_reclaim] of the file system a vnode belongs to. *)
Class Reclaim := { vop_reclaim : Z -> M vst Z }.

Module Vnode.

Definition acquire (v : Z) : M vst unit := zoom v_sync set_v_sync (Spinlock.spinlock_acquire (vn_countlock v)).
Definition release (v : Z) : M vst unit := zoom v_sync set_v_sync (Spinlock.spinlock_release (vn_countlock v)).

Definition deref (v : Z) : M vst vnode := s ← get; valid (v_tab s !! v) "vnode".
Definition store (v : Z) (x : vnode) : M vst unit := modify (fun s => set_tab (<[v := x]> (v_tab s)) s).
Definition with_refcount (n : Z) (x : vnode) : vnode := MkVnode n (vn_ops x) (vn_fs x) (vn_data x).

Definition vnode_init (vn ops fs fsdata : Z) : M vst Z :=
  kassert (negb (vn =? 0)) "vn != NULL";;
  kassert (negb (ops =? 0)) "ops != NULL";;
  store vn (MkVnode 1 ops fs fsdata);;
  zoom v_sync set_v_sync (Spinlock.spinlock_init (vn_countlock vn));;
  mret 0.

Definition vnode_cleanup (vn : Z) : M vst unit :=
  x ← deref vn;
  kassert (vn_refcount x =? 1) "vn->vn_refcount == 1";;
  zoom v_sync set_v_sync (Spinlock.spinlock_cleanup (vn_countlock vn));;
  store vn (MkVnode 0 0 0 0).

Definition vnode_incref (vn : Z) : M vst unit :=
  kassert (negb (vn =? 0)) "vn != NULL";;
  acquire vn;;
  x ← deref vn;
  store vn (with_refcount (s32 (vn_refcount x + 1)) x);;
  release vn.

(** The checks before every [VOP_] call. *)
Definition vnode_check (v : Z) : M vst unit :=
  (if v =? 0 then panic "null vnode" else mret tt);;
  (if v =? DEADBEEF then panic "deadbeef vnode" else mret tt);;
  x ← deref v;
  (if vn_ops x =? 0 then panic "null ops pointer" else mret tt);;
  (if vn_ops x =? DEADBEEF then panic "deadbeef ops pointer" else mret tt);;
  s ← get;
  magic ← valid (vop_magic s !! vn_ops x) "vop_magic";
  (if negb (magic =? VOP_MAGIC) then panic "ops with bad magic number" else mret tt);;
  (if vn_fs x =? DEADBEEF then panic "deadbeef fs pointer" else mret tt);;
  acquire v;;
  x ← deref v;
  (if vn_refcount x <? 0 then panic "negative refcount"
   else if vn_refcount x =? 0 then panic "zero refcount"
   else mret tt);;
  release v.

(** [VOP_X(vn, ...)] is [vnode_check(vn, "x")] and the call through [vn_ops]. *)
Definition VOP {A} (vn : Z) (call : M vst A) : M vst A := vnode_check vn;; call.

(** The part of [vnode_decref] under the lock: whether the last reference is
    going away. *)
Definition decref_count (vn : Z) : M vst bool :=
  kassert (negb (vn =? 0)) "vn != NULL";;
  acquire vn;;
  x ← deref vn;
  kassert (0 <? vn_refcount x) "vn->vn_refcount > 0";;
  (if 1 <? vn_refcount x then store vn (with_refcount (vn_refcount x - 1) x) else mret tt);;
  let destroy := negb (1 <? vn_refcount x) in
  release vn;;
  mret destroy.

Definition vnode_decref `{Reclaim} (vn : Z) : M vst unit :=
  destroy ← decref_count vn;
  if (destroy : bool) then VOP vn (vop_reclaim vn);; mret tt else mret tt.

(** ** Reference counts *)

Definition refs (s : vst) (v : Z) : Z := from_option vn_refcount 0 (v_tab s !! v).

(** A vnode that passes [vnode_check]. *)
Definition vnode_ok (s : vst) (v : Z) (x : vnode) : Prop :=
  v <> 0 /\ v <> DEADBEEF /\ vn_ops x <> 0 /\ vn_ops x <> DEADBEEF /\
  vop_magic s !! vn_ops x = Some VOP_MAGIC /\ vn_fs x <> DEADBEEF /\
  1 <= vn_refcount x < 2 ^ 31 /\ lock_free (vn_countlock v) (v_sync s).

Definition ok (s : vst) : Prop :=
  cpu_ok (y_cpu (v_sync s)) /\ forall v x, v_tab s !! v = Some x -> vnode_ok s v x.

(** [d] is what the counts have changed by. *)
Definition moved (d : Z -> Z) (s s' : vst) : Prop := forall w, refs s' w = refs s w + d w.

Definition none : Z -> Z := fun _ => 0.
Definition one (v : Z) : Z -> Z := fun w => if w =? v then 1 else 0.
Definition opp (d : Z -> Z) : Z -> Z := fun w => - d w.
Definition plus (d e : Z -> Z) : Z -> Z := fun w => d w + e w.

Lemma moved_trans d e s1 s2 s3 : moved d s1 s2 -> moved e s2 s3 -> moved (plus d e) s1 s3.
Proof. intros H1 H2 w. unfold plus. rewrite H2, H1. lia. Qed.

Lemma moved_ext d e s1 s2 : (forall w, d w = e w) -> moved d s1 s2 -> moved e s1 s2.
Proof. intros He H w. by rewrite <- He. Qed.

Lemma moved_refl s : moved none s s.
Proof. intros w. unfold none. lia. Qed.

(** What a file system's [vop_reclaim] does with the last reference. *)
Class ReclaimOk `{Reclaim} : Prop := {
  vop_reclaim_spec s v : ok s -> refs s v = 1 ->
    exists rc s', vop_reclaim v s = Ret (rc, s') /\ ok s' /\ moved (opp (one v)) s s';
}.

Lemma refs_live s v : ok s -> refs s v <> 0 -> exists x, v_tab s !! v = Some x /\ vn_refcount x = refs s v /\ vnode_ok s v x.
Proof.
  intros [_ Hok] Hr. unfold refs in *. destruct (v_tab s !! v) as [x|] eqn:Hv; [|done]. eauto.
Qed.

Lemma refs_nonneg s v : ok s -> 0 <= refs s v.
Proof.
  intros [_ Hok]. unfold refs. destruct (v_tab s !! v) as [x|] eqn:Hv; simpl; [|lia].
  destruct (Hok _ _ Hv) as (? & ? & ? & ? & ? & ? & ? & ?). lia.
Qed.

Definition hold (v : Z) (s : vst) : vst := set_v_sync (held (vn_countlock v) (v_sync s)) s.

Lemma bind_v_acquire {A} v (k : unit -> M vst A) s :
  cpu_ok (y_cpu (v_sync s)) -> lock_free (vn_countlock v) (v_sync s) -> mbind k (acquire v) s = k tt (hold v s).
Proof. intros Hq Hf. apply (bind_run _ _ _ tt). unfold hold. by apply zoom_Ret, acquire_run. Qed.

Lemma bind_v_release {A} v (k : unit -> M vst A) s y :
  cpu_ok (y_cpu y) -> lock_free (vn_countlock v) y -> v_sync s = held (vn_countlock v) y ->
  mbind k (release v) s = k tt (set_v_sync y s).
Proof.
  intros Hq Hf Hs. apply (bind_run _ _ _ tt). unfold release. apply zoom_Ret. rewrite Hs. by apply release_run.
Qed.

Lemma release_final v s y :
  cpu_ok (y_cpu y) -> lock_free (vn_countlock v) y -> v_sync s = held (vn_countlock v) y ->
  release v s = Ret (tt, set_v_sync y s).
Proof. intros Hq Hf Hs. unfold release. apply zoom_Ret. rewrite Hs. by apply release_run. Qed.

(** Changing a count within its range keeps the invariant. *)
Lemma ok_with_refcount s v x n :
  ok s -> v_tab s !! v = Some x -> 1 <= n < 2 ^ 31 ->
  let s' := set_tab (<[v := with_refcount n x]> (v_tab s)) s in
  ok s' /\ moved (fun w => if w =? v then n - vn_refcount x else 0) s s'.
Proof.
  intros [Hq Hok] Hv Hn s'. split.
  - split; [done|]. intros w y. simpl. destruct (decide (v = w)) as [<-|Hne].
    + rewrite lookup_insert_eq. intros [= <-]. destruct (Hok _ _ Hv) as (?&?&?&?&?&?&?&?). split_and!; simpl; (done || lia).
    + rewrite lookup_insert_ne by done. apply Hok.
  - intros w. unfold refs, s'; simpl. destruct (Z.eqb_spec w v) as [->|Hne].
    + rewrite lookup_insert_eq, Hv. simpl. lia.
    + rewrite lookup_insert_ne by done. lia.
Qed.

Lemma incref_run s v :
  ok s -> 0 < refs s v < 2 ^ 31 - 1 ->
  exists s', vnode_incref v s = Ret (tt, s') /\ ok s' /\ moved (one v) s s'.
Proof.
  intros Hok Hr. destruct (refs_live s v Hok ltac:(lia)) as (x & Hv & Hx & (H0 & _ & _ & _ & _ & _ & _ & Hf)).
  unfold vnode_incref. rewrite bind_kassert by (by apply negb_true_iff, Z.eqb_neq).
  rewrite bind_v_acquire by (apply Hok || done). unfold deref, store. mrun.
  rewrite (bind_valid _ _ _ _ x) by done. mrun. rewrite s32_id by lia.
  erewrite release_final; [|apply Hok|exact Hf|reflexivity].
  destruct (ok_with_refcount s v x (vn_refcount x + 1) Hok Hv ltac:(lia)) as [Hok' Hm].
  eexists. split; [reflexivity|]. split; [exact Hok'|].
  eapply moved_ext; [|exact Hm]. intros w. unfold one. destruct (w =? v); lia.
Qed.

(** A live vnode passes the checks. *)
Lemma check_run {A} s v (c : M vst A) : ok s -> refs s v <> 0 -> VOP v c s = c s.
Proof.
  intros Hok Hr. destruct (refs_live s v Hok Hr) as (x & Hv & Hx & (H0 & Hd & Ho & Hod & Hm & Hfs & Hc & Hf)).
  unfold VOP, vnode_check. rewrite (proj2 (Z.eqb_neq _ _) H0), (proj2 (Z.eqb_neq _ _) Hd). mrun.
  unfold deref. mrun. rewrite (bind_valid _ _ _ _ x) by done.
  rewrite (proj2 (Z.eqb_neq _ _) Ho), (proj2 (Z.eqb_neq _ _) Hod). mrun.
  rewrite (bind_valid _ _ _ _ VOP_MAGIC) by done. rewrite Z.eqb_refl. cbn [negb]. mrun.
  rewrite (proj2 (Z.eqb_neq _ _) Hfs). mrun. rewrite bind_v_acquire by (apply Hok || done). mrun.
  rewrite (bind_valid _ _ _ _ x) by done.
  rewrite (proj2 (Z.ltb_ge _ _)), (proj2 (Z.eqb_neq (vn_refcount x) 0)) by lia. mrun.
  erewrite bind_v_release; [|apply Hok|exact Hf|reflexivity]. by destruct s.
Qed.

Lemma vnode_check_ok s v : ok s -> refs s v <> 0 -> vnode_check v s = Ret (tt, s).
Proof.
  intros Hok Hr. pose proof (check_run s v (mret tt) Hok Hr) as E. unfold VOP in E.
  apply bind_Ret_inv in E as ([] & t' & Hrun & E). by injection E as ->.
Qed.

Lemma decref_count_run s v :
  ok s -> 0 < refs s v ->
  (refs s v = 1 /\ decref_count v s = Ret (true, s)) \/
  exists s', 1 < refs s v /\ decref_count v s = Ret (false, s') /\ ok s' /\ moved (opp (one v)) s s'.
Proof.
  intros Hok Hr. destruct (refs_live s v Hok ltac:(lia)) as (x & Hv & Hx & (Hnz & _ & _ & _ & _ & _ & Hc & Hf)).
  unfold decref_count. rewrite bind_kassert by (by apply negb_true_iff, Z.eqb_neq).
  rewrite bind_v_acquire by (apply Hok || done). unfold deref, store. mrun.
  rewrite (bind_valid _ _ _ _ x) by done. rewrite bind_kassert by (apply Z.ltb_lt; lia).
  destruct (Z.ltb_spec 1 (vn_refcount x)) as [Hgt|Hle]; mrun;
    (erewrite bind_v_release; [|apply Hok|exact Hf|reflexivity]); cbn [negb].
  - right. destruct (ok_with_refcount s v x (vn_refcount x - 1) Hok Hv ltac:(lia)) as [Hok' Hm].
    eexists. split; [lia|]. split; [reflexivity|]. split; [exact Hok'|].
    eapply moved_ext; [|exact Hm]. intros w. unfold opp, one. destruct (w =? v); lia.
  - left. split; [lia|]. by replace (set_v_sync (v_sync s) (hold v s)) with s by (by destruct s).
Qed.

Lemma decref_run `{HR : ReclaimOk} s v :
  ok s -> 0 < refs s v ->
  exists s', vnode_decref v s = Ret (tt, s') /\ ok s' /\ moved (opp (one v)) s s'.
Proof.
  intros Hok Hr. unfold vnode_decref. destruct (decref_count_run s v Hok Hr) as [(H1 & Hrun)|(s' & _ & Hrun & Hok' & Hm)];
    rewrite (bind_run _ _ _ _ _ Hrun); [|by exists s'].
  destruct (vop_reclaim_spec s v Hok H1) as (rc & s' & Hrec & Hok' & Hm).
  exists s'. split; [|done]. erewrite bind_run; [done|]. rewrite check_run by (done || lia). exact Hrec.
Qed.

(** [t] with a vnode that has one reference at [v]. *)
Definition with_vnode (v ops fs : Z) (t : vst) : vst :=
  Vst (set_lock (vn_countlock v) SPINLOCK_INITIALIZER (v_sync t)) (<[v := MkVnode 1 ops fs v]> (v_tab t)) (vop_magic t).

Lemma vnode_init_run t v ops fs :
  v <> 0 -> ops <> 0 -> vnode_init v ops fs v t = Ret (0, with_vnode v ops fs t).
Proof.
  intros Hv Ho. unfold vnode_init. rewrite !bind_kassert by (by apply negb_true_iff, Z.eqb_neq). done.
Qed.

Lemma with_vnode_ok t v ops fs :
  ok t -> v_tab t !! v = None -> v <> 0 -> v <> DEADBEEF -> ops <> 0 -> ops <> DEADBEEF ->
  vop_magic t !! ops = Some VOP_MAGIC -> fs <> DEADBEEF ->
  ok (with_vnode v ops fs t) /\ moved (one v) t (with_vnode v ops fs t).
Proof.
  intros [Hc Hok] Hn Hv Hvd Ho Hod Hm Hf. split; [split; [done|]|].
  - intros w x Hw. cbn in Hw. destruct (decide (w = v)) as [->|Hne].
    + rewrite lookup_insert_eq in Hw. injection Hw as <-. split_and!; try done. unfold lock_free. cbn. by rewrite lookup_insert_eq.
    + rewrite lookup_insert_ne in Hw by done. destruct (Hok _ _ Hw) as (?&?&?&?&?&?&?&Hl). split_and!; try done; try lia.
      unfold lock_free in *. cbn. rewrite lookup_insert_ne; [done|]. by intros [= ->].
  - intros w. unfold refs, one. cbn. destruct (Z.eqb_spec w v) as [->|Hne].
    + by rewrite lookup_insert_eq, Hn.
    + rewrite lookup_insert_ne by done. lia.
Qed.

(** A vnode with one reference goes away. *)
Lemma vnode_cleanup_run t v :
  ok t -> refs t v = 1 -> vnode_cleanup v t = Ret (tt, set_tab (<[v := MkVnode 0 0 0 0]> (v_tab t)) t).
Proof.
  intros Hok Hr. destruct (refs_live _ v Hok) as (x & Hx & Hxr & (_&_&_&_&_&_&_&Hl)); [lia|].
  unfold vnode_cleanup, deref. mrun. rewrite (bind_valid _ _ _ _ x) by done. rewrite bind_kassert by (apply Z.eqb_eq; lia).
  erewrite bind_run; [reflexivity|]. rewrite (zoom_Ret v_sync set_v_sync _ t tt (v_sync t)); [by destruct t|].
  unfold Spinlock.spinlock_cleanup. mrun. unfold lock_of. unfold lock_free in Hl. rewrite Hl. rewrite !bind_kassert by done. done.
Qed.

Lemma delete_ok t v : ok t -> refs t v = 1 -> ok (set_tab (delete v (v_tab t)) t) /\ moved (opp (one v)) t (set_tab (delete v (v_tab t)) t).
Proof.
  intros [Hc Hok] Hr. split; [split; [done|]|].
  - intros w x Hw. simpl in Hw. apply lookup_delete_Some in Hw as [_ Hw]. by apply Hok.
  - intros w. unfold refs, opp, one in *. simpl. destruct (Z.eqb_spec w v) as [->|Hne].
    + rewrite lookup_delete_eq. simpl. lia.
    + rewrite lookup_delete_ne by done. lia.
Qed.

(** vnode_refcount. While a vnode is referenced, [vnode_incref] adds one to its
    reference count and [vnode_decref] takes one away (calling the file
    system's [vop_reclaim] for the last one), so that together they restore
    all counts; every vnode stays valid. *)
Theorem vnode_refcount `{HR : ReclaimOk} s v :
  ok s -> 0 < refs s v < 2 ^ 31 - 1 ->
  exists s1 s2, vnode_incref v s = Ret (tt, s1) /\ ok s1 /\ moved (one v) s s1 /\
    vnode_decref v s1 = Ret (tt, s2) /\ ok s2 /\ moved none s s2 /\
    exists s3, vnode_decref v s = Ret (tt, s3) /\ ok s3 /\ moved (opp (one v)) s s3.
Proof.
  intros Hok Hr. destruct (incref_run s v Hok Hr) as (s1 & H1 & Hok1 & Hm1).
  destruct (decref_run s1 v Hok1) as (s2 & H2 & Hok2 & Hm2).
  { rewrite Hm1. unfold one. rewrite Z.eqb_refl. lia. }
  destruct (decref_run s v Hok ltac:(lia)) as (s3 & H3 & Hok3 & Hm3).
  exists s1, s2. split_and!; try done; [|by exists s3].
  eapply moved_ext; [|eapply moved_trans; [exact Hm1|exact Hm2]]. intros w. unfold plus, opp, none. lia.
Qed.

End Vnode.

Module Vfs.
Import Vnode.

Definition O_RDONLY : Z := 0.
Definition O_WRONLY : Z := 1.
Definition O_RDWR : Z := 2.
Definition O_CREAT : Z := 4.
Definition O_EXCL : Z := 8.
Definition O_TRUNC : Z := 16.
Definition O_ACCMODE : Z := 3.

(** Name lookup ([vfslookup.c]) and the operations of the file systems
    ([struct vnode_ops]).  An operation that yields a vnode returns the error
    code and the vnode; [vfs_lookparent] also returns the last component. *)
Class Vfsops := {
  vfs_reclaim :: Reclaim;
  vfs_lookup : string -> M vst (Z * Z);
  vfs_lookparent : string -> M vst (Z * Z * string);
  vop_creat : Z -> string -> bool -> Z -> M vst (Z * Z);
  vop_eachopen : Z -> Z -> M vst Z;
  vop_truncate : Z -> Z -> M vst Z;
  vop_remove : Z -> string -> M vst Z;
  vop_rename : Z -> string -> Z -> string -> M vst Z;
  vop_link : Z -> string -> Z -> M vst Z;
  vop_symlink : Z -> string -> string -> M vst Z;
  vop_readlink : Z -> M vst Z;
  vop_mkdir : Z -> string -> Z -> M vst Z;
  vop_rmdir : Z -> string -> M vst Z;
}.

Section Path.
Context `{Vfsops}.

Definition nz (result : Z) : bool := negb (result =? 0).

(** The part of [vfs_open] that finds or creates the file. *)
Definition open_vnode (path : string) (openflags mode : Z) : M vst (Z * Z) :=
  if nz (Z.land openflags O_CREAT) then
    '(result, dir, name) ← vfs_lookparent path;
    if nz result then mret (result, 0)
    else
      r ← VOP dir (vop_creat dir name (nz (Z.land openflags O_EXCL)) mode);
      vnode_decref dir;;
      mret r
  else vfs_lookup path.

(** The return value and [*ret]. *)
Definition vfs_open (path : string) (openflags mode : Z) : M vst (Z * Z) :=
  let how := Z.land openflags O_ACCMODE in
  let canwrite := (how =? O_WRONLY) || (how =? O_RDWR) in
  if negb ((how =? O_RDONLY) || canwrite) then mret (EINVAL, 0)
  else
    '(result, vn) ← open_vnode path openflags mode;
    if nz result then mret (result, 0)
    else
      kassert (negb (vn =? 0)) "vn != NULL";;
      result ← VOP vn (vop_eachopen vn openflags);
      if nz result then vnode_decref vn;; mret (result, 0)
      else if nz (Z.land openflags O_TRUNC) then
        result ← (if negb canwrite then mret EINVAL else VOP vn (vop_truncate vn 0));
        if nz result then vnode_decref vn;; mret (result, 0)
        else mret (0, vn)
      else mret (0, vn).

Definition vfs_close (vn : Z) : M vst unit := vnode_decref vn.

Definition vfs_remove (path : string) : M vst Z :=
  '(result, dir, name) ← vfs_lookparent path;
  if nz result then mret result
  else
    result ← VOP dir (vop_remove dir name);
    vnode_decref dir;;
    mret result.

Definition vfs_rename (oldpath newpath : string) : M vst Z :=
  '(result, olddir, oldname) ← vfs_lookparent oldpath;
  if nz result then mret result
  else
    '(result, newdir, newname) ← vfs_lookparent newpath;
    if nz result then vnode_decref olddir;; mret result
    else
      xo ← deref olddir;
      xn ← deref newdir;
      if (vn_fs xo =? 0) || (vn_fs xn =? 0) || negb (vn_fs xo =? vn_fs xn) then
        vnode_decref newdir;; vnode_decref olddir;; mret EXDEV
      else
        result ← VOP olddir (vop_rename olddir oldname newdir newname);
        vnode_decref newdir;; vnode_decref olddir;; mret result.

Definition vfs_link (oldpath newpath : string) : M vst Z :=
  '(result, oldfile) ← vfs_lookup oldpath;
  if nz result then mret result
  else
    '(result, newdir, newname) ← vfs_lookparent newpath;
    if nz result then vnode_decref oldfile;; mret result
    else
      xo ← deref oldfile;
      xn ← deref newdir;
      if (vn_fs xo =? 0) || (vn_fs xn =? 0) || negb (vn_fs xo =? vn_fs xn) then
        vnode_decref newdir;; vnode_decref oldfile;; mret EXDEV
      else
        result ← VOP newdir (vop_link newdir newname oldfile);
        vnode_decref newdir;; vnode_decref oldfile;; mret result.

Definition vfs_symlink (contents path : string) : M vst Z :=
  '(result, newdir, newname) ← vfs_lookparent path;
  if nz result then mret result
  else
    result ← VOP newdir (vop_symlink newdir newname contents);
    vnode_decref newdir;;
    mret result.

Definition vfs_readlink (path : string) : M vst Z :=
  '(result, vn) ← vfs_lookup path;
  if nz result then mret result
  else
    result ← VOP vn (vop_readlink vn);
    vnode_decref vn;;
    mret result.

Definition vfs_mkdir (path : string) (mode : Z) : M vst Z :=
  '(result, parent, name) ← vfs_lookparent path;
  if nz result then mret result
  else
    result ← VOP parent (vop_mkdir parent name mode);
    vnode_decref parent;;
    mret result.

Definition vfs_rmdir (path : string) : M vst Z :=
  '(result, parent, name) ← vfs_lookparent path;
  if nz result then mret result
  else
    result ← VOP parent (vop_rmdir parent name);
    vnode_decref parent;;
    mret result.

End Path.

(** ** Balance of references *)

(** An operation that keeps all reference counts. *)
Definition neutral {A} (c : M vst A) : Prop :=
  forall s, ok s -> exists a s', c s = Ret (a, s') /\ ok s' /\ moved none s s'.

(** An operation that gives out one reference when it succeeds and none when it
    fails; [f] extracts the error code and the vnode of its result. *)
Definition gives {A} (f : A -> Z * Z) (c : M vst A) : Prop :=
  forall s, ok s -> exists a s', c s = Ret (a, s') /\ ok s' /\
    ((f a).1 = 0 -> moved (one (f a).2) s s') /\ ((f a).1 <> 0 -> moved none s s').

(** What the path operations rely on: an interface law of the file systems and of
    [vfs_lookup], not a theorem about them.  It asks that every operation returns
    and keeps, or gives out, references as documented, in every state and for every
    vnode.  [VfsLookup.v] proves [lookup_gives] and [lookparent_gives] of
    [vfslookup.c] for a process with a current directory and with room for one more
    reference; SFS satisfies [rename_neutral] only on a disk that does not fail
    ([rename_panics] of [SfsRun.v]).  The theorems of this section say what the
    code of [vfspath.c] adds on top of such an implementation. *)
Class VfsopsOk `{Vfsops} : Prop := {
  reclaim_ok :: ReclaimOk;
  lookup_gives path : gives id (vfs_lookup path);
  lookparent_gives path : gives fst (vfs_lookparent path);
  creat_gives d n e m : gives id (vop_creat d n e m);
  eachopen_neutral v f : neutral (vop_eachopen v f);
  truncate_neutral v l : neutral (vop_truncate v l);
  remove_neutral d n : neutral (vop_remove d n);
  rename_neutral d n d' n' : neutral (vop_rename d n d' n');
  link_neutral d n v : neutral (vop_link d n v);
  symlink_neutral d n c : neutral (vop_symlink d n c);
  readlink_neutral v : neutral (vop_readlink v);
  mkdir_neutral d n m : neutral (vop_mkdir d n m);
  rmdir_neutral d n : neutral (vop_rmdir d n);
}.

(** [does need c eff]: run by a holder of the references [need], [c] returns and
    changes the counts by [eff] of its result. *)
Definition does {A} (need : Z -> Z) (c : M vst A) (eff : A -> Z -> Z) : Prop :=
  forall s, ok s -> (forall w, need w <= refs s w) ->
    exists a s', c s = Ret (a, s') /\ ok s' /\ moved (eff a) s s'.

Lemma does_bind {A B} n (c : M vst A) (k : A -> M vst B) e g :
  does n c e -> (forall a, does (plus n (e a)) (k a) (fun b => plus (g b) (opp (e a)))) ->
  does n (mbind k c) g.
Proof.
  intros Hc Hk s Hok Hn. destruct (Hc s Hok Hn) as (a & s1 & H1 & Hok1 & Hm1).
  destruct (Hk a s1 Hok1) as (b & s2 & H2 & Hok2 & Hm2).
  { intros w. unfold plus. rewrite Hm1. specialize (Hn w). lia. }
  exists b, s2. rewrite (bind_run _ _ _ _ _ H1). split_and!; [done|done|].
  eapply moved_ext; [|exact (moved_trans _ _ _ _ _ Hm1 Hm2)]. intros w. unfold plus, opp. lia.
Qed.

Lemma does_ret {A} n (a : A) e : (forall w, e a w = 0) -> does n (mret a) e.
Proof. intros He s Hok Hn. exists a, s. split_and!; [done|done|]. intros w. rewrite He. lia. Qed.

Lemma does_neutral {A} n (c : M vst A) : neutral c -> does n c (fun _ => none).
Proof. intros Hc s Hok _. exact (Hc s Hok). Qed.

Lemma does_gives {A} n f (c : M vst A) :
  gives f c -> does n c (fun a => if (f a).1 =? 0 then one (f a).2 else none).
Proof.
  intros Hc s Hok _. destruct (Hc s Hok) as (a & s' & Hr & Hok' & H0 & H1). exists a, s'.
  split_and!; [done|done|]. destruct (Z.eqb_spec (f a).1 0); auto.
Qed.

Lemma does_VOP {A} n v (c : M vst A) e : 1 <= n v -> does n c e -> does n (VOP v c) e.
Proof.
  intros Hv Hc s Hok Hn. specialize (Hn v) as Hnv. rewrite check_run by (done || lia). by apply Hc.
Qed.

Lemma does_decref `{ReclaimOk} n v : 1 <= n v -> does n (vnode_decref v) (fun _ => opp (one v)).
Proof.
  intros Hv s Hok Hn. specialize (Hn v). destruct (decref_run s v Hok ltac:(lia)) as (s' & ? & ? & ?). eauto.
Qed.

Lemma does_deref n v : 1 <= n v -> does n (deref v) (fun _ => none).
Proof.
  intros Hv s Hok Hn. specialize (Hn v). destruct (refs_live s v Hok ltac:(lia)) as (x & Hx & _).
  exists x, s. unfold deref. mrun. rewrite Hx. split_and!; [done|done|apply moved_refl].
Qed.

Lemma does_kassert_nz n v why : 1 <= n v -> does n (kassert (negb (v =? 0)) why) (fun _ => none).
Proof.
  intros Hv s Hok Hn. specialize (Hn v). destruct (refs_live s v Hok ltac:(lia)) as (x & Hx & _ & (H0 & _)).
  exists tt, s. rewrite (proj2 (Z.eqb_neq _ _) H0). split_and!; [done|done|apply moved_refl].
Qed.

Lemma does_neutral_iff {A} (c : M vst A) : does none c (fun _ => none) -> neutral c.
Proof. intros Hc s Hok. apply Hc; [done|]. intros w. by apply refs_nonneg. Qed.

#[local] Hint Resolve lookup_gives lookparent_gives creat_gives eachopen_neutral truncate_neutral
  remove_neutral rename_neutral link_neutral symlink_neutral readlink_neutral mkdir_neutral rmdir_neutral : kern.

(** Arithmetic of effects. *)
Ltac eff := intros; unfold plus, opp, none, one, id in *; simpl in *; rewrite ?Z.eqb_refl;
  repeat match goal with H : nz ?r = _ |- _ => unfold nz in H; destruct (Z.eqb_spec r 0); try discriminate H; clear H end;
  simpl in *; repeat case_match; lia.

(** One step of a routine. *)
Ltac step := lazymatch goal with
  | |- does _ (mret _) _ => apply does_ret; eff
  | |- does _ (if ?b then _ else _) _ => destruct b eqn:?
  | |- does _ (let '(_, _) := ?p in _) _ => destruct p; simpl
  | |- does _ (mbind _ _) _ => eapply does_bind; [|intros; cbv beta]
  | |- does _ (VOP _ _) _ => apply does_VOP; [eff|]
  | |- does _ (vnode_decref _) _ => apply does_decref; eff
  | |- does _ (deref _) _ => apply does_deref; eff
  | |- does _ (kassert _ _) _ => apply does_kassert_nz; eff
  | |- does _ _ _ => first [ apply does_gives; solve [eauto with kern] | apply does_neutral; solve [eauto with kern] ]
  end.

Section Balance.
Context `{VfsopsOk}.

Lemma open_does path openflags mode :
  does none (vfs_open path openflags mode) (fun r => if r.1 =? 0 then one r.2 else none).
Proof.
  unfold vfs_open. step; [repeat step|]. step.
  - instantiate (1 := fun r => if r.1 =? 0 then one r.2 else none). unfold open_vnode. repeat step.
  - repeat step; repeat step.
Qed.

(** vfs_open_reference. [vfs_open] always returns; on success the caller has one
    new reference, to the vnode it gets, and nothing else has changed; on any
    error (bad access mode, failed lookup or creation, refused open, refused
    truncation) no reference is left over.  Opening a file that exists
    read-only with [O_TRUNC] fails with [EINVAL]. *)
Theorem vfs_open_reference path openflags mode s :
  ok s -> exists rc vn s', vfs_open path openflags mode s = Ret ((rc, vn), s') /\ ok s' /\
    (rc = 0 -> moved (one vn) s s' /\ Z.land openflags O_ACCMODE <> O_ACCMODE) /\
    (rc <> 0 -> moved none s s') /\
    (Z.land openflags O_ACCMODE = O_RDONLY -> Z.land openflags O_TRUNC <> 0 -> rc <> 0).
Proof.
  intros Hok. destruct (open_does path openflags mode s Hok) as ([rc vn] & s' & Hr & Hok' & Hm).
  { intros w. by apply refs_nonneg. }
  exists rc, vn, s'. simpl in Hm. split_and!; [done|done| | |].
  - intros ->. split; [exact Hm|]. intros Hacc. unfold vfs_open in Hr. rewrite Hacc in Hr. discriminate Hr.
  - intros Hne. by rewrite (proj2 (Z.eqb_neq _ _) Hne) in Hm.
  - intros Hro Htr ->. unfold vfs_open in Hr. rewrite Hro in Hr. cbn [Z.eqb O_RDONLY O_WRONLY O_RDWR orb negb] in Hr.
    apply bind_Ret_inv in Hr as ([r v] & s1 & _ & Hr). destruct (nz r) eqn:Hnz; [by apply Ret_inj in Hr as [[= ->] _]|].
    apply bind_Ret_inv in Hr as (? & s2 & _ & Hr). apply bind_Ret_inv in Hr as (r2 & s3 & _ & Hr).
    destruct (nz r2) eqn:Hnz2.
    { apply bind_Ret_inv in Hr as (? & s4 & _ & Hr). by apply Ret_inj in Hr as [[= ->] _]. }
    unfold nz at 1 in Hr. rewrite (proj2 (Z.eqb_neq _ _) Htr) in Hr. cbn [negb] in Hr. rewrite bind_ret in Hr.
    cbn in Hr. apply bind_Ret_inv in Hr as (? & s4 & _ & Hr). by apply Ret_inj in Hr as [[= ->] _].
Qed.

(** vfs_operations_balanced. Removing, renaming, linking, symbolic linking,
    reading a link and making or removing a directory by path name always
    return and leave every reference count as it was, on success and on every
    error (a failed second lookup, a cross-device rename or link): no vnode
    leaks and none is released too often. *)
Theorem vfs_operations_balanced path path' mode :
  neutral (vfs_remove path) /\ neutral (vfs_rename path path') /\ neutral (vfs_link path path') /\
  neutral (vfs_symlink path path') /\ neutral (vfs_readlink path) /\ neutral (vfs_mkdir path mode) /\
  neutral (vfs_rmdir path).
Proof.
  unfold vfs_remove, vfs_rename, vfs_link, vfs_symlink, vfs_readlink, vfs_mkdir, vfs_rmdir.
  split_and!; apply does_neutral_iff; repeat step.
Qed.

End Balance.

(** ** A file system with one directory and one file *)

Definition SAMPLE_DIR : Z := 0x1000.
Definition SAMPLE_FILE : Z := 0x2000.
Definition SAMPLE_OPS : Z := 0x3000.

(** Take a reference, loading the vnode if it is not in memory. *)
Definition take (v : Z) : M vst (Z * Z) := fun s =>
  match v_tab s !! v with
  | Some x =>
      if vn_refcount x + 1 <? 2 ^ 31
      then Ret ((0, v), set_tab (<[v := with_refcount (vn_refcount x + 1) x]> (v_tab s)) s)
      else Ret ((ENFILE, 0), s)
  | None =>
      Ret ((0, v), Vst (MkSync (y_cpu (v_sync s)) (<[vn_countlock v := SPINLOCK_INITIALIZER]> (y_locks (v_sync s))))
        (<[v := MkVnode 1 SAMPLE_OPS 7 0]> (v_tab s)) (<[SAMPLE_OPS := VOP_MAGIC]> (vop_magic s)))
  end.

#[export] Instance sample_reclaim : Reclaim :=
  {| vop_reclaim := fun v s => Ret (0, set_tab (delete v (v_tab s)) s) |}.

#[export] Instance sample_vfsops : Vfsops := {|
  vfs_lookup path := if String.eqb path "f" then take SAMPLE_FILE else mret (ENOENT, 0);
  vfs_lookparent path := '(rc, v) ← take SAMPLE_DIR; mret (rc, v, path);
  vop_creat _ _ _ _ := take SAMPLE_FILE;
  vop_eachopen _ _ := mret 0;
  vop_truncate _ _ := mret 0;
  vop_remove _ _ := mret 0;
  vop_rename _ _ _ _ := mret 0;
  vop_link _ _ _ := mret 0;
  vop_symlink _ _ _ := mret 0;
  vop_readlink _ := mret 0;
  vop_mkdir _ _ _ := mret 0;
  vop_rmdir _ _ := mret 0;
|}.

Lemma take_gives v : v <> 0 -> v <> DEADBEEF -> gives id (take v).
Proof.
  intros H0 Hd s Hok. unfold take. destruct (v_tab s !! v) as [x|] eqn:Hv.
  - pose proof Hok as [_ Hall]. destruct (Hall _ _ Hv) as (_ & _ & _ & _ & _ & _ & Hc & _).
    destruct (Z.ltb_spec (vn_refcount x + 1) (2 ^ 31)) as [Hlt|Hge].
    + destruct (ok_with_refcount s v x (vn_refcount x + 1) Hok Hv ltac:(lia)) as [Hok' Hm].
      eexists _, _. split; [reflexivity|]. split_and!; [done| |done]. intros _.
      eapply moved_ext; [|exact Hm]. intros w. unfold one, id. simpl. destruct (w =? v); lia.
    + eexists _, _. split; [reflexivity|]. split_and!; [done|done|]. intros _. apply moved_refl.
  - eexists _, _. split; [reflexivity|]. split_and!; [|intros _|done].
    + destruct Hok as [Hq Hall]. split; [done|]. intros w x. simpl. destruct (decide (v = w)) as [<-|Hne].
      * rewrite lookup_insert_eq. intros [= <-]. split_and!; try done; try apply lookup_insert_eq.
      * rewrite lookup_insert_ne by done. intros Hw. destruct (Hall _ _ Hw) as (?&?&?&?&?&?&?&?).
        repeat (split; [done|]). repeat split; simpl; try (done || lia).
        -- destruct (decide (SAMPLE_OPS = vn_ops x)) as [->|]; [apply lookup_insert_eq|by rewrite lookup_insert_ne].
        -- unfold lock_free. simpl. rewrite lookup_insert_ne; [done|congruence].
    + intros w. unfold refs, one, id. simpl. destruct (Z.eqb_spec w v) as [->|Hne].
      * rewrite lookup_insert_eq, Hv. done.
      * rewrite lookup_insert_ne by done. lia.
Qed.

Lemma ret_neutral {A} (a : A) : neutral (mret a).
Proof. intros s Hok. exists a, s. split_and!; [done|done|apply moved_refl]. Qed.

#[export] Instance sample_vfs_ok : VfsopsOk.
Proof.
  split; intros; try apply ret_neutral.
  - split. intros s v [Hq Hall] Hr. eexists _, _. split; [reflexivity|]. split; [split; [done|]|].
    + intros w x Hw. simpl in Hw. apply lookup_delete_Some in Hw as [_ Hw]. exact (Hall _ _ Hw).
    + intros w. unfold refs, opp, one in *. simpl. destruct (Z.eqb_spec w v) as [->|].
      * rewrite lookup_delete_eq. simpl in *. lia.
      * rewrite lookup_delete_ne by done. lia.
  - simpl. destruct (String.eqb path "f"); [by apply take_gives|].
    intros s Hok. eexists _, _. split; [reflexivity|]. split_and!; [done|done|]. intros _. apply moved_refl.
  - intros s Hok. destruct (take_gives SAMPLE_DIR ltac:(done) ltac:(done) s Hok) as ([rc v] & s' & Hr & Ho & H0 & H1).
    exists (rc, v, path), s'. simpl. split_and!; [|done|done|done].
    etrans; [apply (bind_run _ _ _ _ _ Hr)|done].
  - by apply take_gives.
Qed.

Definition sample_vst : vst := Vst (MkSync (Cpu true 0 0 IPL_NONE 0 false true) ∅) ∅ ∅.

Lemma sample_vst_ok : ok sample_vst.
Proof. split; [vm_compute; split_and!; (done || by left)|]. intros v x Hv. discriminate Hv. Qed.

Lemma vfs_open_reference_witness :
  (exists rc vn s', vfs_open "f" O_RDWR 0 sample_vst = Ret ((rc, vn), s') /\ rc = 0 /\ refs s' SAMPLE_FILE = 1) /\
  (exists rc vn s', vfs_open "f" O_TRUNC 0 sample_vst = Ret ((rc, vn), s') /\ rc <> 0 /\ moved none sample_vst s').
Proof.
  split.
  - destruct (vfs_open_reference "f" O_RDWR 0 sample_vst sample_vst_ok) as (rc & vn & s' & Hr & Hok & H0 & _ & _).
    exists rc, vn, s'. split; [exact Hr|]. pose proof Hr as Hr'. vm_compute in Hr'. apply Ret_inj in Hr' as [Hp <-].
    injection Hp as <- <-. split; reflexivity.
  - destruct (vfs_open_reference "f" O_TRUNC 0 sample_vst sample_vst_ok) as (rc & vn & s' & Hr & Hok & _ & H1 & Htr).
    exists rc, vn, s'. assert (rc <> 0) as Hne by (by apply Htr).
    split_and!; [exact Hr|exact Hne|exact (H1 Hne)].
Defined.

Lemma vfs_operations_balanced_witness :
  exists rc s', vfs_rename "a" "b" sample_vst = Ret (rc, s') /\ moved none sample_vst s'.
Proof.
  destruct (vfs_operations_balanced "a" "b" 0) as (_ & Hren & _).
  destruct (Hren sample_vst sample_vst_ok) as (rc & s' & Hr & _ & Hm). exists rc, s'. split; [exact Hr|exact Hm].
Defined.

Lemma vnode_refcount_witness :
  exists s1 s2, vnode_incref SAMPLE_FILE
      (Vst (MkSync (Cpu true 0 0 IPL_NONE 0 false true) {[ vn_countlock SAMPLE_FILE := SPINLOCK_INITIALIZER ]})
         {[ SAMPLE_FILE := MkVnode 1 SAMPLE_OPS 7 0 ]} {[ SAMPLE_OPS := VOP_MAGIC ]}) = Ret (tt, s1) /\
    vnode_decref SAMPLE_FILE s1 = Ret (tt, s2) /\ refs s1 SAMPLE_FILE = 2.
Proof.
  match goal with |- exists s1 s2, vnode_incref ?v ?s = _ /\ _ => destruct (vnode_refcount s v) as (s1 & s2 & H1 & _ & Hm & H2 & _) end.
  - split; [vm_compute; split_and!; (done || by left)|]. intros v x Hv. cbn [v_tab] in Hv. apply lookup_singleton_Some in Hv as [<- <-].
    vm_compute. by split_and!.
  - by vm_compute.
  - exists s1, s2. split_and!; [exact H1|exact H2|]. rewrite Hm. reflexivity.
Defined.

End Vfs.
