(* ===== verification/Proc.v ===== *)
(** * Processes: [proc.c] and [proc_syscalls.c]

    Process structures, the process table that hands out pids, and the system
    calls [_exit], [waitpid], [getpid] and [fork].  The address space of a
    process is destroyed by the virtual memory system of [AddrSpace.v], which
    is run on the embedded [kst].  The theorems describe the allocation of pids
    and the outcomes of the system calls. *)

From S2P Require Import Prelude Sync KState Coremap PageTable Stats Tlb Swapfile AddrSpace Vnode.

Definition OPEN_MAX : Z := 128.
Definition MAX_PROC : Z := 100.

(** [struct proc]; [p_sem] is the count of the semaphore, or None for NULL;
    [p_c1pid] is the field [pid] of option [projectc1].  [fileTable] holds
    indices into the system open file table. *)
Record proc := MkProc {
  p_name : string;
  p_numthreads : Z;
  p_addrspace : option addrspace;
  p_cwd : option Z;
  p_status : Z;
  p_pid : Z;
  p_sem : option Z;
  fileTable : list (option Z);
  p_c1pid : Z;
}.

(** [struct openfile] of [file_syscalls.c] *)
Record openfile := MkOpenfile { of_vn : option Z; of_offset : Z; of_countRef : Z }.

(** The state.  Processes are named by their addresses; [p_lock p] is the lock of
    process [p].  [vnodes] and [vn_magic] are the vnodes in memory and the magic
    numbers of their operations. *)
Record pst := Pst {
  vm : kst;
  procs : gmap Z proc;
  kproc : option Z;
  t_proc : gmap Z (option Z);
  curthread : Z;
  pt_active : Z;
  pt_proc : list (option Z);
  pt_last_i : Z;
  systemFileTable : list openfile;
  vnodes : gmap Z vnode;
  vn_magic : gmap Z Z;
}.

Abbreviation P := (M pst).

Definition set_vm (x : kst) (s : pst) : pst :=
  Pst x (procs s) (kproc s) (t_proc s) (curthread s) (pt_active s) (pt_proc s) (pt_last_i s) (systemFileTable s) (vnodes s) (vn_magic s).
Definition set_procs (x : gmap Z proc) (s : pst) : pst :=
  Pst (vm s) x (kproc s) (t_proc s) (curthread s) (pt_active s) (pt_proc s) (pt_last_i s) (systemFileTable s) (vnodes s) (vn_magic s).
Definition set_kproc (x : option Z) (s : pst) : pst :=
  Pst (vm s) (procs s) x (t_proc s) (curthread s) (pt_active s) (pt_proc s) (pt_last_i s) (systemFileTable s) (vnodes s) (vn_magic s).
Definition set_t_proc (x : gmap Z (option Z)) (s : pst) : pst :=
  Pst (vm s) (procs s) (kproc s) x (curthread s) (pt_active s) (pt_proc s) (pt_last_i s) (systemFileTable s) (vnodes s) (vn_magic s).
Definition set_table (a : Z) (t : list (option Z)) (l : Z) (s : pst) : pst :=
  Pst (vm s) (procs s) (kproc s) (t_proc s) (curthread s) a t l (systemFileTable s) (vnodes s) (vn_magic s).
Definition set_sft (x : list openfile) (s : pst) : pst :=
  Pst (vm s) (procs s) (kproc s) (t_proc s) (curthread s) (pt_active s) (pt_proc s) (pt_last_i s) x (vnodes s) (vn_magic s).
Definition set_vnodes (x : gmap Z vnode) (m : gmap Z Z) (s : pst) : pst :=
  Pst (vm s) (procs s) (kproc s) (t_proc s) (curthread s) (pt_active s) (pt_proc s) (pt_last_i s) (systemFileTable s) x m.

Module Proc.

(** The thread cannot go on by itself. *)
Definition spin {A} : P A := fun _ => Spin.

(** ** Access to the state *)

Definition p_sync (s : pst) : sync := k_sync (vm s).
Definition set_p_sync (y : sync) (s : pst) : pst := set_vm (set_sync y (vm s)) s.

Definition acquire (l : lock_id) : P unit := zoom p_sync set_p_sync (Spinlock.spinlock_acquire l).
Definition release (l : lock_id) : P unit := zoom p_sync set_p_sync (Spinlock.spinlock_release l).

Definition deref (p : Z) : P proc := s ← get; valid (procs s !! p) "proc".
Definition store (p : Z) (x : proc) : P unit := modify (fun s => set_procs (<[p := x]> (procs s)) s).

Definition curproc : P (option Z) :=
  s ← get; valid (t_proc s !! curthread s) "curthread".
Definition the_curproc : P Z := o ← curproc; valid o "curproc".

Definition with_numthreads (n : Z) (x : proc) : proc :=
  MkProc (p_name x) n (p_addrspace x) (p_cwd x) (p_status x) (p_pid x) (p_sem x) (fileTable x) (p_c1pid x).
Definition with_addrspace (a : option addrspace) (x : proc) : proc :=
  MkProc (p_name x) (p_numthreads x) a (p_cwd x) (p_status x) (p_pid x) (p_sem x) (fileTable x) (p_c1pid x).
Definition with_cwd (v : option Z) (x : proc) : proc :=
  MkProc (p_name x) (p_numthreads x) (p_addrspace x) v (p_status x) (p_pid x) (p_sem x) (fileTable x) (p_c1pid x).
Definition with_status (n : Z) (x : proc) : proc :=
  MkProc (p_name x) (p_numthreads x) (p_addrspace x) (p_cwd x) n (p_pid x) (p_sem x) (fileTable x) (p_c1pid x).
Definition with_pid (n : Z) (x : proc) : proc :=
  MkProc (p_name x) (p_numthreads x) (p_addrspace x) (p_cwd x) (p_status x) n (p_sem x) (fileTable x) (p_c1pid x).
Definition with_sem (n : option Z) (x : proc) : proc :=
  MkProc (p_name x) (p_numthreads x) (p_addrspace x) (p_cwd x) (p_status x) (p_pid x) n (fileTable x) (p_c1pid x).
Definition with_files (l : list (option Z)) (x : proc) : proc :=
  MkProc (p_name x) (p_numthreads x) (p_addrspace x) (p_cwd x) (p_status x) (p_pid x) (p_sem x) l (p_c1pid x).

(** A routine of the VM system, run with the current process in [k_cur]. *)
Definition cur_vmproc (s : pst) : option vmproc :=
  t_proc s !! curthread s ≫= fun o => o ≫= fun p => procs s !! p ≫= fun x =>
    Some (Vmproc p (p_c1pid x) (p_addrspace x)).
Definition in_vm {A} (c : K A) : P A :=
  zoom (fun s => set_cur (cur_vmproc s) (vm s))
       (fun k s => set_vm (set_cur (k_cur (vm s)) k) s) c.

(** A routine on vnodes. *)
Definition in_vnode {A} (c : M vst A) : P A :=
  zoom (fun s => Vst (p_sync s) (vnodes s) (vn_magic s))
       (fun v s => set_vnodes (v_tab v) (vop_magic v) (set_p_sync (v_sync v) s)) c.

(** ** The process table *)

Definition proc_search_pid (pid : Z) : P Z :=
  kassert ((0 <=? pid) && (pid <? MAX_PROC)) "pid>=0&&pid<MAX_PROC";;
  s ← get;
  p ← valid (mjoin (arr_get (pt_proc s) pid)) "p->p_pid";
  x ← deref p;
  kassert (p_pid x =? pid) "p->p_pid==pid";;
  mret p.

Definition next_i (i : Z) : Z := if MAX_PROC <? i + 1 then 1 else i + 1.

(** The loop of [proc_init_waitpid]: [Some None] when it ends without a free
    index, [None] when it is cut off. *)
Fixpoint find_free (fuel : nat) (i last_i : Z) (t : list (option Z)) : option (option Z) :=
  if i =? last_i then Some None
  else match fuel with
  | O => None
  | S fuel' =>
      match arr_get t i with
      | Some None => Some (Some i)
      | _ => find_free fuel' (next_i i) last_i t
      end
  end.

(** [sem] is the result of [sem_create(name, 0)].  101 rounds reach every index;
    a loop that goes on longer never ends. *)
Definition proc_init_waitpid (p : Z) (sem : option Z) : P unit :=
  acquire proctable_lock;;
  s ← get;
  x ← deref p;
  store p (with_pid 0 x);;
  match find_free 101 (next_i (pt_last_i s)) (pt_last_i s) (pt_proc s) with
  | None => spin
  | Some found =>
      (match found with
       | Some i =>
           modify (set_table (pt_active s) (arr_set (pt_proc s) i (Some p)) i);;
           store p (with_pid i x)
       | None => mret tt
       end);;
      release proctable_lock;;
      x ← deref p;
      (if p_pid x =? 0 then panic "too many processes. proc table is full" else mret tt);;
      store p (with_sem sem (with_status 0 x))
  end.

(** [sem_destroy] asserts that the semaphore is not NULL. *)
Definition proc_end_waitpid (p : Z) : P unit :=
  acquire proctable_lock;;
  x ← deref p;
  let i := p_pid x in
  kassert ((0 <? i) && (i <=? MAX_PROC)) "i>0 && i<=MAX_PROC";;
  s ← get;
  modify (set_table (pt_active s) (arr_set (pt_proc s) i None) (pt_last_i s));;
  release proctable_lock;;
  kassert (bool_decide (is_Some (p_sem x))) "sem != NULL".

(** ** Creation and destruction *)

(** [mem]: the address the first [kmalloc] returns; [ok]: whether [kstrdup]
    succeeds; [junk]: the block before initialisation. *)
Definition proc_create (mem : option Z) (ok : bool) (sem : option Z) (junk : proc) (name : string) :
    P (option Z) :=
  match mem with
  | None => mret None
  | Some p =>
      if negb ok then mret None
      else
        store p (MkProc name 0 None None (p_status junk) (p_pid junk) (p_sem junk)
                        (fileTable junk) (p_c1pid junk));;
        zoom p_sync set_p_sync (Spinlock.spinlock_init (p_lock p));;
        proc_init_waitpid p sem;;
        x ← deref p;
        store p (with_files (replicate (Z.to_nat OPEN_MAX) None) x);;
        mret (Some p)
  end.

Definition proc_destroy `{Reclaim} (p : Z) : P unit :=
  s ← get;
  kassert (negb (bool_decide (kproc s = Some p))) "proc != kproc";;
  x ← deref p;
  (match p_cwd x with
   | Some v => in_vnode (Vnode.vnode_decref v);; store p (with_cwd None x)
   | None => mret tt
   end);;
  x ← deref p;
  (match p_addrspace x with
   | Some _ =>
       cur ← curproc;
       (if decide (cur = Some p) then
          acquire (p_lock p);;
          x ← deref p;
          store p (with_addrspace None x);;
          release (p_lock p)
        else store p (with_addrspace None x));;
       in_vm As.as_destroy
   | None => mret tt
   end);;
  x ← deref p;
  kassert (p_numthreads x =? 0) "proc->p_numthreads == 0";;
  zoom p_sync set_p_sync (Spinlock.spinlock_cleanup (p_lock p));;
  proc_end_waitpid p;;
  modify (fun s => set_procs (delete p (procs s)) s).

Definition proc_bootstrap (mem : option Z) (ok : bool) (sem : option Z) (junk : proc) : P unit :=
  r ← proc_create mem ok sem junk "[kernel]";
  modify (set_kproc r);;
  (match r with None => panic "proc_create for kproc failed" | Some _ => mret tt end);;
  zoom p_sync set_p_sync (Spinlock.spinlock_init proctable_lock);;
  modify (fun s => set_table 1 (pt_proc s) (pt_last_i s) s).

Definition proc_create_runprogram (mem : option Z) (ok : bool) (sem : option Z) (junk : proc)
    (name : string) : P (option Z) :=
  r ← proc_create mem ok sem junk name;
  match r with
  | None => mret None
  | Some newproc =>
      x ← deref newproc;
      store newproc (with_addrspace None x);;
      cur ← the_curproc;
      acquire (p_lock cur);;
      c ← deref cur;
      (match p_cwd c with
       | Some v =>
           in_vnode (Vnode.vnode_incref v);;
           x ← deref newproc;
           store newproc (with_cwd (Some v) x)
       | None => mret tt
       end);;
      release (p_lock cur);;
      mret (Some newproc)
  end.

Definition proc_addthread (p t : Z) : P Z :=
  s ← get;
  o ← valid (t_proc s !! t) "t";
  kassert (bool_decide (o = None)) "t->t_proc == NULL";;
  acquire (p_lock p);;
  x ← deref p;
  store p (with_numthreads (u32 (p_numthreads x + 1)) x);;
  release (p_lock p);;
  spl ← zoom p_sync set_p_sync Spl.splhigh;
  modify (fun s => set_t_proc (<[t := Some p]> (t_proc s)) s);;
  zoom p_sync set_p_sync (Spl.splx spl);;
  mret 0.

Definition proc_remthread (t : Z) : P unit :=
  s ← get;
  o ← valid (t_proc s !! t) "t";
  kassert (bool_decide (is_Some o)) "proc != NULL";;
  p ← valid o "proc";
  acquire (p_lock p);;
  x ← deref p;
  kassert (0 <? p_numthreads x) "proc->p_numthreads > 0";;
  store p (with_numthreads (p_numthreads x - 1) x);;
  release (p_lock p);;
  spl ← zoom p_sync set_p_sync Spl.splhigh;
  modify (fun s => set_t_proc (<[t := None]> (t_proc s)) s);;
  zoom p_sync set_p_sync (Spl.splx spl);;
  mret tt.

(** [P(proc->p_sem)]: with a count of zero the thread sleeps. *)
Definition sem_P (p : Z) : P unit :=
  x ← deref p;
  match p_sem x with
  | None => panic "sem != NULL"
  | Some n => if n =? 0 then spin else store p (with_sem (Some (n - 1)) x)
  end.

Definition sem_V (p : Z) : P unit :=
  x ← deref p;
  match p_sem x with
  | None => panic "sem != NULL"
  | Some n =>
      store p (with_sem (Some (u32 (n + 1))) x);;
      kassert (0 <? u32 (n + 1)) "sem->sem_count > 0"
  end.

Definition proc_wait `{Reclaim} (p : Z) : P Z :=
  s ← get;
  kassert (negb (bool_decide (kproc s = Some p))) "proc != kproc";;
  sem_P p;;
  x ← deref p;
  proc_destroy p;;
  mret (p_status x).

Definition proc_signal_end (p : Z) : P unit := sem_V p.

(** [openfileIncrRefCount] of [file_syscalls.c]. *)
Definition openfileIncrRefCount (f : Z) : P unit :=
  s ← get;
  o ← valid (arr_get (systemFileTable s) f) "of";
  modify (set_sft (arr_set (systemFileTable s) f
    (MkOpenfile (of_vn o) (of_offset o) (u32 (of_countRef o + 1))))).

Definition proc_file_table_copy (psrc pdest : Z) : P unit :=
  for_each (seqZ 0 OPEN_MAX) (fun fd =>
    xs ← deref psrc;
    slot ← valid (arr_get (fileTable xs) fd) "fileTable[fd]";
    xd ← deref pdest;
    store pdest (with_files (arr_set (fileTable xd) fd slot) xd);;
    match slot with
    | Some f => openfileIncrRefCount f
    | None => mret tt
    end).

(** ** System calls *)

(** [thread_exit] up to the switch to another thread, from which it does not
    return. *)
Definition thread_exit : P unit :=
  t ← gets curthread;
  proc_remthread t;;
  s ← get;
  kassert (bool_decide (t_proc s !! t = Some None)) "cur->t_proc == NULL".

Definition sys__exit (status : Z) : P unit :=
  p ← the_curproc;
  x ← deref p;
  store p (with_status (Z.land status 0xff) x);;
  t ← gets curthread;
  proc_remthread t;;
  proc_signal_end p;;
  thread_exit.

(** The return value and what is stored through [statusp]. *)
Definition sys_waitpid `{Reclaim} (pid : Z) : P (Z * Z) :=
  p ← proc_search_pid pid;
  status ← proc_wait p;
  mret (pid, status).

Definition sys_getpid : P Z :=
  o ← curproc;
  kassert (bool_decide (is_Some o)) "curproc != NULL";;
  p ← valid o "curproc";
  x ← deref p;
  mret (p_pid x).

(** [asok]: whether [as_create] gets its memory; [tfok]: whether the trap frame
    does; [forked]: the result of [thread_fork]. *)
Definition sys_fork `{Reclaim} (mem : option Z) (ok : bool) (sem : option Z) (junk : proc)
    (asok : bool) (asjunk : file_info) (tfok : bool) (forked : Z) : P (Z * option Z) :=
  o ← curproc;
  kassert (bool_decide (is_Some o)) "curproc != NULL";;
  cur ← valid o "curproc";
  c ← deref cur;
  r ← proc_create_runprogram mem ok sem junk (p_name c);
  match r with
  | None => mret (ENOMEM, None)
  | Some newp =>
      c ← deref cur;
      x ← deref newp;
      store newp (with_addrspace (As.as_copy asok asjunk (p_addrspace c)).2 x);;
      if negb asok then proc_destroy newp;; mret (ENOMEM, None)
      else
        proc_file_table_copy newp cur;;
        if negb tfok then proc_destroy newp;; mret (ENOMEM, None)
        else if negb (forked =? 0) then proc_destroy newp;; mret (ENOMEM, None)
        else x ← deref newp; mret (0, Some (p_pid x))
  end.

(** ** Runs *)

Definition ready (ls : list lock_id) (s : pst) : Prop :=
  cpu_ok (y_cpu (p_sync s)) /\ Forall (fun l => lock_free l (p_sync s)) ls.

Definition hold (l : lock_id) (s : pst) : pst := set_p_sync (held l (p_sync s)) s.

Lemma bind_p_acquire {A} l (k : unit -> P A) s :
  cpu_ok (y_cpu (p_sync s)) -> lock_free l (p_sync s) -> mbind k (acquire l) s = k tt (hold l s).
Proof.
  intros Hq Hf. apply (bind_run _ _ _ tt). unfold acquire, hold. by apply zoom_Ret, acquire_run.
Qed.

Lemma bind_p_release {A} l (k : unit -> P A) s y :
  cpu_ok (y_cpu y) -> lock_free l y -> p_sync s = held l y ->
  mbind k (release l) s = k tt (set_p_sync y s).
Proof.
  intros Hq Hf Hs. apply (bind_run _ _ _ tt). unfold release. apply zoom_Ret. rewrite Hs. by apply release_run.
Qed.

Lemma bind_p_deref {A} p (k : proc -> P A) s x :
  procs s !! p = Some x -> mbind k (deref p) s = k x s.
Proof. intros Hx. unfold deref. mrun. by rewrite Hx. Qed.

Lemma spl_round_trip y :
  cpu_ok (y_cpu y) -> t_curspl (y_cpu y) = 0 \/ t_curspl (y_cpu y) = 1 ->
  exists spl y1 r, Spl.splhigh y = Ret (spl, y1) /\ Spl.splx spl y1 = Ret (r, y).
Proof.
  destruct y as [[e c n p h i q] ls]. unfold cpu_ok; simpl. intros (-> & Hn & Hh & ->) Hp.
  unfold Spl.splhigh, Spl.splx, Spl.splraise, Spl.spllower, IPL_HIGH, IPL_NONE.
  unfold mbind, M_bind, kassert, gets, modify, mret, M_ret; simpl.
  destruct Hp as [->| ->]; simpl; [|eexists _, _, _; split; reflexivity].
  unfold set_cpu, with_irq, with_iplhigh, with_curspl.
  destruct (Z.eqb_spec h 0) as [->|]; simpl; eexists _, _, _; (split; [reflexivity|]); simpl;
    unfold mbind, M_bind, kassert, gets, modify, mret, M_ret; simpl; rewrite ?Z.add_simpl_r.
  - done.
  - rewrite (proj2 (Z.eqb_neq _ _)) by done. done.
Qed.

(** *** The process table *)

Lemma next_i_step last i :
  1 <= last <= MAX_PROC -> 1 <= i <= MAX_PROC -> i <> last ->
  1 <= next_i i <= MAX_PROC /\ (last - next_i i) mod 100 = (last - i) mod 100 - 1.
Proof.
  unfold next_i, MAX_PROC. intros Hl Hi Hne. destruct (Z.ltb_spec 100 (i + 1)); lia.
Qed.

Lemma find_free_spec fuel i last t :
  1 <= last <= MAX_PROC -> 1 <= i <= MAX_PROC -> (last - i) mod 100 <= Z.of_nat fuel ->
  match find_free fuel i last t with
  | Some (Some j) => 1 <= j <= MAX_PROC /\ j <> last /\ arr_get t j = Some None /\
      (last - j) mod 100 <= (last - i) mod 100 /\
      forall k, 1 <= k <= MAX_PROC -> (last - j) mod 100 < (last - k) mod 100 <= (last - i) mod 100 ->
        arr_get t k <> Some None
  | Some None => forall k, 1 <= k <= MAX_PROC -> k <> last -> (last - k) mod 100 <= (last - i) mod 100 ->
        arr_get t k <> Some None
  | None => False
  end.
Proof.
  intros Hl. revert i. induction fuel as [|fuel IH]; intros i Hi Hd; cbn [find_free];
    destruct (Z.eqb_spec i last) as [->|Hne];
    try (intros k Hk Hkl Hle; unfold MAX_PROC in *; lia).
  { unfold MAX_PROC in *. lia. }
  destruct (next_i_step last i Hl Hi Hne) as [Hn Hdn].
  assert (arr_get t i <> Some None ->
    match find_free fuel (next_i i) last t with
    | Some (Some j) => 1 <= j <= MAX_PROC /\ j <> last /\ arr_get t j = Some None /\
        (last - j) mod 100 <= (last - i) mod 100 /\
        forall k, 1 <= k <= MAX_PROC -> (last - j) mod 100 < (last - k) mod 100 <= (last - i) mod 100 ->
          arr_get t k <> Some None
    | Some None => forall k, 1 <= k <= MAX_PROC -> k <> last -> (last - k) mod 100 <= (last - i) mod 100 ->
        arr_get t k <> Some None
    | None => False
    end) as Hrec.
  { intros Hocc. specialize (IH (next_i i) Hn ltac:(lia)).
    destruct (find_free fuel (next_i i) last t) as [[j|]|]; [| |done].
    - destruct IH as (Hj & Hjl & Hfree & Hle & Hbet). split_and!; [lia|lia|done|done|lia|].
      intros k Hk Hkd. destruct (decide ((last - k) mod 100 = (last - i) mod 100)).
      + assert (k = i) as -> by (unfold MAX_PROC in *; lia). done.
      + apply Hbet; [done|lia].
    - intros k Hk Hkl Hle. destruct (decide ((last - k) mod 100 = (last - i) mod 100)).
      + assert (k = i) as -> by (unfold MAX_PROC in *; lia). done.
      + apply IH; [done|done|lia]. }
  destruct (arr_get t i) as [[q|]|] eqn:Hg; [by apply Hrec| |by apply Hrec].
  split_and!; [lia|lia|done|done|lia|]. intros k Hk Hkd. lia.
Qed.

(** Every entry of the table names a process that has the index as its pid. *)
Definition tbl_ok (s : pst) : Prop :=
  Z.of_nat (length (pt_proc s)) = MAX_PROC + 1 /\
  forall i p, arr_get (pt_proc s) i = Some (Some p) -> exists x, procs s !! p = Some x /\ p_pid x = i.

(** [p] is not in the table. *)
Definition unregistered (p : Z) (s : pst) : Prop :=
  forall i, arr_get (pt_proc s) i <> Some (Some p).

Lemma init_waitpid_run p sem s x :
  ready [proctable_lock] s -> tbl_ok s -> 1 <= pt_last_i s <= MAX_PROC ->
  procs s !! p = Some x -> unregistered p s ->
  let last := pt_last_i s in
  (proc_init_waitpid p sem s = Panic "too many processes. proc table is full" /\
   forall k, 1 <= k <= MAX_PROC -> k <> last -> exists q, arr_get (pt_proc s) k = Some (Some q)) \/
  exists i s', proc_init_waitpid p sem s = Ret (tt, s') /\
    1 <= i <= MAX_PROC /\ i <> last /\ arr_get (pt_proc s) i = Some None /\
    (forall k, 1 <= k <= MAX_PROC -> (last - i) mod 100 < (last - k) mod 100 ->
       exists q, arr_get (pt_proc s) k = Some (Some q)) /\
    s' = set_procs (<[p := with_sem sem (with_status 0 (with_pid i x))]> (procs s))
           (set_table (pt_active s) (arr_set (pt_proc s) i (Some p)) i s) /\ tbl_ok s'.
Proof.
  intros [Hq [Hf _]%Forall_cons] [Hlen Hok] Hl Hp Hun last. unfold proc_init_waitpid.
  rewrite bind_p_acquire by done. mrun. rewrite (bind_p_deref _ _ _ x) by done. unfold store. mrun.
  change (pt_last_i (hold proctable_lock s)) with last. change (pt_proc (hold proctable_lock s)) with (pt_proc s).
  assert (1 <= next_i last <= MAX_PROC) as Hn by (unfold next_i, MAX_PROC, last in *; destruct (Z.ltb_spec 100 (pt_last_i s + 1)); lia).
  assert (forall k, 1 <= k <= MAX_PROC -> (last - k) mod 100 <= (last - next_i last) mod 100) as Hall.
  { intros k Hk. unfold next_i, MAX_PROC, last in *. destruct (Z.ltb_spec 100 (pt_last_i s + 1)); lia. }
  assert (forall k, 1 <= k <= MAX_PROC -> arr_get (pt_proc s) k <> Some None ->
    exists q, arr_get (pt_proc s) k = Some (Some q)) as Hsome.
  { intros k Hk Hnn. destruct (proj2 (arr_get_is_Some (pt_proc s) k)) as [[q|] Hg];
      [unfold MAX_PROC in *; lia|eauto|congruence]. }
  pose proof (find_free_spec 101 (next_i last) last (pt_proc s) Hl Hn ltac:(lia)) as Hff.
  destruct (find_free 101 (next_i last) last (pt_proc s)) as [[i|]|]; [right|left|done].
  - destruct Hff as (Hi & Hil & Hfree & Hle & Hbet).
    mrun. erewrite bind_p_release; [|exact Hq|exact Hf|reflexivity].
    erewrite bind_p_deref by (simpl; apply lookup_insert_eq). simpl p_pid.
    rewrite (proj2 (Z.eqb_neq i 0)) by lia. mrun. eexists i, _. split; [reflexivity|].
    split_and!; [lia|lia|done|done| | |].
    + intros k Hk Hlt. apply Hsome; [done|]. apply Hbet; [done|]. split; [done|by apply Hall].
    + unfold hold, set_procs, set_table, set_p_sync, set_vm, with_pid, with_sem, with_status; simpl.
      rewrite !insert_insert_eq. by destruct s as [[]].
    + split; simpl; [by rewrite arr_set_length|].
      intros j q. destruct (decide (i = j)) as [<-|Hne].
      * rewrite arr_get_set_eq by (unfold MAX_PROC in *; lia). intros [= <-].
        rewrite lookup_insert_eq. by eexists.
      * rewrite arr_get_set_ne by lia. intros Hg. destruct (Hok _ _ Hg) as (z & Hz & Hpid).
        exists z. assert (p <> q) by (intros <-; by destruct (Hun j)).
        by rewrite !lookup_insert_ne.
  - split.
    + mrun. erewrite bind_p_release; [|exact Hq|exact Hf|reflexivity].
      erewrite bind_p_deref by (simpl; apply lookup_insert_eq). done.
    + intros k Hk Hkl. apply Hsome; [done|]. apply Hff; [done|done|by apply Hall].
Qed.

(** C36 pid_allocation. With a consistent process table, [proc_init_waitpid] gives
    the new process the first free pid after the last one handed out, in
    circular order, registers it under that pid and keeps the table
    consistent (so that pids are unique); it panics exactly when all pids but
    the last one handed out are taken, even if that one is free. *)
Theorem pid_allocation p sem s x :
  ready [proctable_lock] s -> tbl_ok s -> 1 <= pt_last_i s <= MAX_PROC ->
  procs s !! p = Some x -> unregistered p s ->
  let last := pt_last_i s in
  (proc_init_waitpid p sem s = Panic "too many processes. proc table is full" /\
   forall k, 1 <= k <= MAX_PROC -> k <> last -> exists q, arr_get (pt_proc s) k = Some (Some q)) \/
  exists i s', proc_init_waitpid p sem s = Ret (tt, s') /\
    1 <= i <= MAX_PROC /\ i <> last /\ arr_get (pt_proc s) i = Some None /\
    (forall k, 1 <= k <= MAX_PROC -> (last - i) mod 100 < (last - k) mod 100 ->
       exists q, arr_get (pt_proc s) k = Some (Some q)) /\
    s' = set_procs (<[p := with_sem sem (with_status 0 (with_pid i x))]> (procs s))
           (set_table (pt_active s) (arr_set (pt_proc s) i (Some p)) i s) /\ tbl_ok s'.
Proof. apply init_waitpid_run. Qed.

Lemma remthread_run t s p x :
  ready [p_lock p] s -> t_curspl (y_cpu (p_sync s)) = 0 \/ t_curspl (y_cpu (p_sync s)) = 1 ->
  t_proc s !! t = Some (Some p) -> procs s !! p = Some x -> 0 < p_numthreads x ->
  proc_remthread t s =
    Ret (tt, set_t_proc (<[t := None]> (t_proc s))
      (set_procs (<[p := with_numthreads (p_numthreads x - 1) x]> (procs s)) s)).
Proof.
  intros [Hq [Hf _]%Forall_cons] Hspl Ht Hp Hn. unfold proc_remthread. mrun.
  rewrite (bind_valid _ _ _ _ (Some p)) by done. rewrite bind_kassert by (by apply bool_decide_true).
  rewrite (bind_valid _ _ _ _ p) by done. rewrite bind_p_acquire by done.
  rewrite (bind_p_deref _ _ _ x) by done. rewrite bind_kassert by (by apply Z.ltb_lt). unfold store. mrun.
  erewrite bind_p_release; [|exact Hq|exact Hf|reflexivity].
  destruct (spl_round_trip (p_sync s) Hq Hspl) as (spl & y1 & r & H1 & H2).
  erewrite bind_run; [|apply zoom_Ret; exact H1]. mrun.
  erewrite bind_run; [|apply zoom_Ret; exact H2].
  unfold mret, M_ret, hold, set_p_sync, set_t_proc, set_procs, set_vm, p_sync; simpl. by destruct s as [[]].
Qed.

(** exit_panics. [sys__exit] detaches the current thread from its process and
    then calls [thread_exit], which detaches it again and fails its assertion:
    every [_exit] system call of a process panics the kernel. *)
Theorem exit_panics status s p x n :
  ready [p_lock p] s -> t_curspl (y_cpu (p_sync s)) = 0 \/ t_curspl (y_cpu (p_sync s)) = 1 ->
  t_proc s !! curthread s = Some (Some p) -> procs s !! p = Some x ->
  0 < p_numthreads x -> p_sem x = Some n -> 0 <= n < 2 ^ 31 ->
  sys__exit status s = Panic "proc != NULL".
Proof.
  intros [Hq Hfl] Hspl Ht Hp Hn Hsem Hrange. unfold sys__exit, the_curproc, curproc. mrun.
  rewrite (bind_valid _ _ _ _ (Some p)), (bind_valid _ _ _ _ p) by done.
  rewrite (bind_p_deref _ _ _ x) by done. unfold store. mrun. simpl curthread.
  rewrite (bind_run _ _ _ _ _ (remthread_run (curthread s)
    (set_procs (<[p := with_status (Z.land status 255) x]> (procs s)) s) p (with_status (Z.land status 255) x)
    (conj Hq Hfl) Hspl Ht ltac:(simpl; apply lookup_insert_eq) Hn)).
  unfold proc_signal_end, sem_V. mrun. erewrite bind_p_deref by (simpl; apply lookup_insert_eq).
  simpl p_sem. rewrite Hsem. unfold store. mrun. rewrite u32_id by lia.
  rewrite bind_kassert by (apply Z.ltb_lt; lia). unfold thread_exit. mrun. simpl curthread.
  apply bind_panic. unfold proc_remthread. mrun. simpl t_proc.
  rewrite lookup_insert_eq, (bind_valid _ _ _ _ None) by done. done.
Qed.

(** *** Copying file tables *)

Definition bump_refs (f : option Z) (t : list openfile) : list openfile :=
  match f with
  | Some i => match arr_get t i with
              | Some o => arr_set t i (MkOpenfile (of_vn o) (of_offset o) (u32 (of_countRef o + 1)))
              | None => t
              end
  | None => t
  end.

(** With nothing open in the source, the copy empties the destination. *)
Lemma copy_empty fds psrc pdest s xs xd :
  psrc <> pdest -> procs s !! psrc = Some xs -> procs s !! pdest = Some xd ->
  Forall (fun fd => arr_get (fileTable xs) fd = Some None /\ 0 <= fd < Z.of_nat (length (fileTable xd))) fds ->
  exists l, for_each fds (fun fd =>
      xs ← deref psrc;
      slot ← valid (arr_get (fileTable xs) fd) "fileTable[fd]";
      xd ← deref pdest;
      store pdest (with_files (arr_set (fileTable xd) fd slot) xd);;
      match slot with
      | Some f => openfileIncrRefCount f
      | None => mret tt
      end) s = Ret (tt, set_procs (<[pdest := with_files l xd]> (procs s)) s) /\
    length l = length (fileTable xd) /\
    forall i, arr_get l i = if bool_decide (i ∈ fds) then Some None else arr_get (fileTable xd) i.
Proof.
  intros Hne Hs Hd Hall. revert s xd Hs Hd Hall. induction fds as [|fd fds IH]; intros s xd Hs Hd Hall.
  - exists (fileTable xd). split_and!; [|done|].
    + simpl. rewrite insert_id; [by destruct s|]. rewrite Hd. by destruct xd.
    + intros i. rewrite bool_decide_false; [done|apply not_elem_of_nil].
  - apply Forall_cons in Hall as [[Hfd Hr] Hall]. cbn [for_each]. rewrite !bind_assoc.
    rewrite (bind_p_deref _ _ _ xs), bind_assoc, (bind_valid _ _ _ _ None), bind_assoc, (bind_p_deref _ _ _ xd) by done.
    unfold store. mrun.
    destruct (IH (set_procs (<[pdest := with_files (arr_set (fileTable xd) fd None) xd]> (procs s)) s)
                 (with_files (arr_set (fileTable xd) fd None) xd)) as (l & Hrun & Hlen & Hget).
    + simpl. by rewrite lookup_insert_ne.
    + simpl. apply lookup_insert_eq.
    + eapply Forall_impl; [exact Hall|]. intros i [? ?]. simpl. by rewrite arr_set_length.
    + exists l. simpl in Hlen. rewrite arr_set_length in Hlen. split_and!; [|done|].
      * etrans; [exact Hrun|]. unfold set_procs, with_files; simpl. by rewrite insert_insert_eq.
      * intros i. rewrite Hget. simpl. destruct (decide (i = fd)) as [->|Hi].
        -- rewrite arr_get_set_eq by done. rewrite (bool_decide_true (fd ∈ fd :: fds)) by apply list_elem_of_here.
           by destruct (bool_decide _).
        -- rewrite arr_get_set_ne by lia. rewrite (bool_decide_ext (i ∈ fd :: fds) (i ∈ fds)); [done|].
           rewrite elem_of_cons. tauto.
Qed.

(** file_table_copy_empties. [proc_file_table_copy(newp, curproc)], as [sys_fork]
    calls it, copies from the new process, whose table [proc_create] has just
    cleared, to the parent: afterwards the parent has no open file left (and
    the child has none either), and no reference count has changed. *)
Theorem file_table_copy_empties newp cur s xn xc :
  newp <> cur -> procs s !! newp = Some xn -> procs s !! cur = Some xc ->
  fileTable xn = replicate (Z.to_nat OPEN_MAX) None -> Z.of_nat (length (fileTable xc)) = OPEN_MAX ->
  proc_file_table_copy newp cur s =
    Ret (tt, set_procs (<[cur := with_files (replicate (Z.to_nat OPEN_MAX) None) xc]> (procs s)) s).
Proof.
  intros Hne Hn Hc Hf Hl.
  destruct (copy_empty (seqZ 0 OPEN_MAX) newp cur s xn xc Hne Hn Hc) as (l & Hrun & Hlen & Hget).
  { apply Forall_seqZ. intros fd Hfd. split; [|unfold OPEN_MAX in *; lia].
    rewrite Hf. apply arr_get_Some. split; [lia|]. apply lookup_replicate. split; [done|]. unfold OPEN_MAX in *. lia. }
  unfold proc_file_table_copy. rewrite Hrun. do 6 f_equal.
  apply list_eq_same_length with 128%nat; [by rewrite length_replicate|unfold OPEN_MAX in *; lia|].
  intros i a b Hi Ha Hb. specialize (Hget (Z.of_nat i)). rewrite arr_get_nat, Ha, bool_decide_true in Hget.
  - apply lookup_replicate in Hb as [-> _]. congruence.
  - apply elem_of_seqZ. unfold OPEN_MAX. lia.
Qed.

(** pid_limit_mismatch. A process can be given the pid 100 ([MAX_PROC]), but
    [waitpid] on that pid fails the assertion of [proc_search_pid]; on a pid
    below 100 that is not in use [proc_search_pid] dereferences NULL before
    [sys_waitpid] can test for it. *)
Theorem pid_limit_mismatch `{Reclaim} s pid :
  sys_waitpid MAX_PROC s = Panic "pid>=0&&pid<MAX_PROC" /\
  (0 <= pid < MAX_PROC -> arr_get (pt_proc s) pid = Some None -> sys_waitpid pid s = Undef "p->p_pid").
Proof.
  split; [done|]. intros Hp Hg. unfold sys_waitpid, proc_search_pid. mrun.
  rewrite bind_kassert.
  2:{ apply andb_true_iff. rewrite Z.leb_le, Z.ltb_lt. lia. }
  mrun. by rewrite Hg.
Qed.

(** *** A running machine

    Process 1 runs thread 7; it has the pid 1, and pid 3 is taken by process 2. *)
Definition sample_proc (name : string) (pid threads : Z) : proc :=
  MkProc name threads None None 0 pid (Some 0) (replicate (Z.to_nat OPEN_MAX) None) 0.

(** It has the first file of the system table open. *)
Definition sample_sh : proc :=
  with_files (<[3%nat := Some 0]> (replicate (Z.to_nat OPEN_MAX) None)) (sample_proc "sh" 3 0).

Definition sample_pst : pst :=
  Pst sample
    (<[1 := sample_proc "init" 1 1]> (<[2 := sample_sh]> (<[5 := sample_proc "new" 77 0]> ∅)))
    (Some 9) {[ 7 := Some 1 ]} 7 1
    (<[1%nat := Some 1]> (<[3%nat := Some 2]> (replicate 101 None))) 3 [] ∅ ∅.

Lemma sample_pst_ready : ready [proctable_lock; p_lock 1] sample_pst.
Proof. split; [vm_compute; split_and!; (done || by left)|]. repeat constructor; vm_compute; done. Qed.

Lemma sample_tbl_ok : tbl_ok sample_pst.
Proof.
  split; [done|]. intros i p Hg.
  apply arr_get_Some in Hg as [Hi Hg]. cbv [sample_pst pt_proc] in Hg.
  destruct (decide (i = 1)) as [->|]; [vm_compute in Hg; simplify_eq; by eexists|].
  destruct (decide (i = 3)) as [->|]; [vm_compute in Hg; simplify_eq; by eexists|].
  rewrite !list_lookup_insert_ne in Hg by lia. by apply lookup_replicate in Hg as [[=] _].
Qed.

Lemma sample_unregistered : unregistered 5 sample_pst.
Proof.
  intros i Hg. pose proof (proj2 sample_tbl_ok i 5 Hg) as (x & Hx & Hp).
  assert (x = sample_proc "new" 77 0) as -> by (injection Hx; done).
  change (77 = i) in Hp. subst i. discriminate Hg.
Qed.

Lemma sample_spl : t_curspl (y_cpu (p_sync sample_pst)) = 0 \/ t_curspl (y_cpu (p_sync sample_pst)) = 1.
Proof. by left. Qed.

(** The new process gets pid 4, the first one after 3. *)
Lemma pid_allocation_witness :
  exists s', proc_init_waitpid 5 (Some 0) sample_pst = Ret (tt, s') /\
    arr_get (pt_proc s') 4 = Some (Some 5) /\ pt_last_i s' = 4 /\ tbl_ok s'.
Proof.
  destruct (pid_allocation 5 (Some 0) sample_pst (sample_proc "new" 77 0)) as [[Hp _]|(i & s' & Hr & Hi & Hne & Hg & Hb & Hs & Hok)].
  - split; [apply sample_pst_ready|]. constructor; [vm_compute; done|constructor].
  - exact sample_tbl_ok.
  - by vm_compute.
  - reflexivity.
  - exact sample_unregistered.
  - vm_compute in Hp. discriminate Hp.
  - exists s'. split; [exact Hr|].
    assert (i = 4) as ->.
    { destruct (decide (i = 4)) as [|Hi4]; [done|]. destruct (Hb 4) as [q Hq].
      - by vm_compute.
      - change (pt_last_i sample_pst) with 3 in *. unfold MAX_PROC in *. lia.
      - vm_compute in Hq. discriminate Hq. }
    split_and!; [by rewrite Hs|by rewrite Hs|exact Hok].
Defined.

Lemma exit_panics_witness : sys__exit 3 sample_pst = Panic "proc != NULL".
Proof.
  apply (exit_panics 3 sample_pst 1 (sample_proc "init" 1 1) 0).
  - split; [apply sample_pst_ready|]. constructor; [vm_compute; done|constructor].
  - exact sample_spl.
  - reflexivity.
  - reflexivity.
  - reflexivity.
  - reflexivity.
  - by vm_compute.
Defined.

Lemma file_table_copy_empties_witness :
  proc_file_table_copy 5 2 sample_pst =
    Ret (tt, set_procs (<[2 := sample_proc "sh" 3 0]> (procs sample_pst)) sample_pst).
Proof.
  refine (file_table_copy_empties 5 2 sample_pst (sample_proc "new" 77 0) sample_sh _ _ _ _ _);
    [done|reflexivity|reflexivity|reflexivity|reflexivity].
Defined.

Lemma pid_limit_mismatch_witness : sys_waitpid (H := Vfs.sample_reclaim) 2 sample_pst = Undef "p->p_pid".
Proof. apply (pid_limit_mismatch sample_pst 2); by vm_compute. Defined.

End Proc.
