(* ===== verification/Files.v ===== *)
(** * File system calls: [file_syscalls.c]

    [Module Files] models the system open file table and the calls [open],
    [close], [read] and [write].  The state is the process state of
    [Proc.v] with the memory the kernel sees and the console.  Reading and
    writing files goes through the class [Fileio]. *)

From S2P Require Import Prelude Sync KState Vnode Copy Proc.

Definition SYSTEM_OPEN_MAX : Z := 10 * OPEN_MAX.
Definition STDIN_FILENO : Z := 0.
Definition STDOUT_FILENO : Z := 1.
Definition STDERR_FILENO : Z := 2.

(** [con_in] is what will be typed at the console, as values of [getch];
    [con_out] is what was printed, the latest last. *)
Record fsys := Fsys { f_p : pst; f_vas : vas; con_in : list Z; con_out : list Z }.

Abbreviation F := (M fsys).

Definition set_f_p (x : pst) (s : fsys) : fsys := Fsys x (f_vas s) (con_in s) (con_out s).
Definition set_f_vas (x : vas) (s : fsys) : fsys := Fsys (f_p s) x (con_in s) (con_out s).
Definition set_con_in (x : list Z) (s : fsys) : fsys := Fsys (f_p s) (f_vas s) x (con_out s).
Definition set_con_out (x : list Z) (s : fsys) : fsys := Fsys (f_p s) (f_vas s) (con_in s) x.

(** [vop_read] and [vop_write] of the file systems: the error code and the uio
    afterwards. *)
Class Fileio := {
  vop_read_uio : Z -> Uio.uio -> F (Z * Uio.uio);
  vop_write_uio : Z -> Uio.uio -> F (Z * Uio.uio);
}.

#[export] Existing Instances Vfs.vfs_reclaim Vfs.reclaim_ok.

Module Files.

Definition in_p {A} (c : P A) : F A := zoom f_p set_f_p c.
Definition in_vas {A} (c : M vas A) : F A := zoom f_vas set_f_vas c.

(** [curproc->fileTable[fd]]; the outer [option] is the array bound. *)
Definition file_slot (fd : Z) : F (option Z) :=
  p ← in_p Proc.the_curproc;
  x ← in_p (Proc.deref p);
  valid (arr_get (fileTable x) fd) "fileTable[fd]".

Definition set_file_slot (fd : Z) (v : option Z) : F unit :=
  p ← in_p Proc.the_curproc;
  x ← in_p (Proc.deref p);
  in_p (Proc.store p (Proc.with_files (arr_set (fileTable x) fd v) x)).

Definition deref_of (f : Z) : F openfile :=
  s ← get; valid (arr_get (systemFileTable (f_p s)) f) "of".
Definition store_of (f : Z) (o : openfile) : F unit :=
  in_p (modify (fun s => set_sft (arr_set (systemFileTable s) f o) s)).

(** The address space of the current process, by its address; processes do not
    share address spaces. *)
Definition cur_as : F (option Z) :=
  p ← in_p Proc.the_curproc;
  x ← in_p (Proc.deref p);
  mret (p_addrspace x ≫= fun _ => Some p).

Definition user_uio (buf_ptr size offset rw : Z) (space : option Z) : Uio.uio :=
  Uio.MkUio [(buf_ptr, size)] offset size Uio.UIO_USERISPACE rw space.

Section Io.
Context `{Fileio}.

Definition file_read (fd buf_ptr size : Z) : F Z :=
  if (fd <? 0) || (OPEN_MAX <? fd) then mret (-1)
  else
    slot ← file_slot fd;
    match slot with
    | None => mret (-1)
    | Some f =>
        o ← deref_of f;
        match of_vn o with
        | None => mret (-1)
        | Some vn =>
            space ← cur_as;
            in_p (Proc.in_vnode (Vnode.vnode_check vn));;
            '(result, u) ← vop_read_uio vn (user_uio buf_ptr size (of_offset o) Uio.UIO_READ space);
            if negb (result =? 0) then mret result
            else
              o ← deref_of f;
              store_of f (MkOpenfile (of_vn o) (Uio.uio_offset u) (of_countRef o));;
              mret (s32 (size - Uio.uio_resid u))
        end
    end.

Definition file_write (fd buf_ptr size : Z) : F Z :=
  if (fd <? 0) || (OPEN_MAX <? fd) then mret (-1)
  else
    slot ← file_slot fd;
    match slot with
    | None => mret (-1)
    | Some f =>
        o ← deref_of f;
        match of_vn o with
        | None => mret (-1)
        | Some vn =>
            space ← cur_as;
            in_p (Proc.in_vnode (Vnode.vnode_check vn));;
            '(result, u) ← vop_write_uio vn (user_uio buf_ptr size (of_offset o) Uio.UIO_WRITE space);
            if negb (result =? 0) then mret result
            else
              o ← deref_of f;
              store_of f (MkOpenfile (of_vn o) (Uio.uio_offset u) (of_countRef o));;
              let nwrite := s32 (size - Uio.uio_resid u) in
              mret nwrite
        end
    end.

(** [p[i]] for a user pointer the kernel dereferences itself. *)
Definition load_char (a : Z) : F Z :=
  s ← get;
  if Copyinout.faults a (f_vas s) then panic "fatal fault in kernel mode"
  else mret (vmem (f_vas s) a).

Definition store_char (a c : Z) : F unit :=
  s ← get;
  if Copyinout.faults a (f_vas s) then panic "fatal fault in kernel mode"
  else in_vas (modify (Copyinout.set_vmem (fun x => if x =? a then c else vmem (f_vas s) x))).

Definition putch (c : Z) : F unit := modify (fun s => set_con_out (con_out s ++ [c]) s).

(** With nothing typed the thread sleeps. *)
Definition sleep {A} : F A := fun _ => Spin.

Definition getch : F Z :=
  s ← get;
  match con_in s with
  | [] => sleep
  | c :: rest => modify (set_con_in rest);; mret c
  end.

Definition s8 (x : Z) : Z := if u8 x <? 2 ^ 7 then u8 x else u8 x - 2 ^ 8.

Fixpoint putch_loop (p i : Z) (n : nat) : F unit :=
  match n with
  | O => mret tt
  | S n' => c ← load_char (u32 (p + i)); putch c;; putch_loop p (i + 1) n'
  end.

Definition sys_write (fd buf_ptr size : Z) : F Z :=
  if negb (fd =? STDOUT_FILENO) && negb (fd =? STDERR_FILENO) then file_write fd buf_ptr size
  else
    putch_loop buf_ptr 0 (Z.to_nat (s32 size));;
    mret (s32 size).

(** [char] is signed. *)
Fixpoint getch_loop (p i size : Z) (n : nat) : F Z :=
  match n with
  | O => mret size
  | S n' =>
      c ← getch;
      store_char (u32 (p + i)) (u8 c);;
      if s8 c <? 0 then mret i else getch_loop p (i + 1) size n'
  end.

Definition sys_read (fd buf_ptr size : Z) : F Z :=
  if negb (fd =? STDIN_FILENO) then file_read fd buf_ptr size
  else getch_loop buf_ptr 0 (s32 size) (Z.to_nat (s32 size)).

End Io.

Section OpenClose.
Context `{Vfs.Vfsops}.

(** The first element of a list that satisfies [f], from index [i] on. *)
Fixpoint find_index {A} (f : A -> bool) (l : list A) (i : Z) : option Z :=
  match l with
  | [] => None
  | x :: l' => if f x then Some i else find_index f l' (i + 1)
  end.

Definition free_openfile (t : list openfile) : option Z :=
  find_index (fun o => bool_decide (of_vn o = None)) t 0.

(** [for (fd = STDERR_FILENO+1; fd < OPEN_MAX; fd++)] *)
Definition free_fd (t : list (option Z)) : option Z :=
  find_index (fun o => bool_decide (o = None)) (drop 3 t) 3.

(** [path] is the string the user pointer points to.  The return value and what
    is stored through [errp]. *)
Definition sys_open (path : string) (openflags mode : Z) : F (Z * option Z) :=
  '(result, v) ← in_p (Proc.in_vnode (Vfs.vfs_open path openflags mode));
  if negb (result =? 0) then mret (-1, Some ENOENT)
  else
    s ← get;
    r ← (match free_openfile (systemFileTable (f_p s)) with
         | None => mret (inr ENFILE)
         | Some f =>
             store_of f (MkOpenfile (Some v) 0 1);;
             p ← in_p Proc.the_curproc;
             x ← in_p (Proc.deref p);
             match free_fd (fileTable x) with
             | Some fd => set_file_slot fd (Some f);; mret (inl fd)
             | None => mret (inr EMFILE)
             end
         end);
    match r with
    | inl fd => mret (fd, None)
    | inr err => in_p (Proc.in_vnode (Vfs.vfs_close v));; mret (-1, Some err)
    end.

Definition sys_close (fd : Z) : F Z :=
  if (fd <? 0) || (OPEN_MAX <? fd) then mret (-1)
  else
    slot ← file_slot fd;
    match slot with
    | None => mret (-1)
    | Some f =>
        set_file_slot fd None;;
        o ← deref_of f;
        let n := u32 (of_countRef o - 1) in
        store_of f (MkOpenfile (of_vn o) (of_offset o) n);;
        if 0 <? n then mret 0
        else
          store_of f (MkOpenfile None (of_offset o) n);;
          match of_vn o with
          | None => mret (-1)
          | Some vn => in_p (Proc.in_vnode (Vfs.vfs_close vn));; mret 0
          end
    end.

End OpenClose.

(** ** Open and close *)

(** The vnodes as [Vnode.v] sees them, and a state with them replaced. *)
Definition view (s : fsys) : vst := Vst (Proc.p_sync (f_p s)) (vnodes (f_p s)) (vn_magic (f_p s)).
Definition put_view (w : vst) (s : fsys) : fsys :=
  set_f_p (set_vnodes (v_tab w) (vop_magic w) (Proc.set_p_sync (v_sync w) (f_p s))) s.

(** Process [p], with the contents [x], runs the current thread. *)
Definition running (s : fsys) (p : Z) (x : proc) : Prop :=
  t_proc (f_p s) !! curthread (f_p s) = Some (Some p) /\ procs (f_p s) !! p = Some x /\
  Z.of_nat (length (fileTable x)) = OPEN_MAX.

(** The state with new contents of process [p] and of the system table. *)
Definition put_files (p : Z) (x : proc) (l : list (option Z)) (t : list openfile) (s : fsys) : fsys :=
  set_f_p (set_sft t (set_procs (<[p := Proc.with_files l x]> (procs (f_p s))) (f_p s))) s.

Lemma in_vnode_run {A} (c : M vst A) s a w : c (view s) = Ret (a, w) -> in_p (Proc.in_vnode c) s = Ret (a, put_view w s).
Proof. intros Hc. unfold in_p, put_view. apply zoom_Ret. unfold Proc.in_vnode. by erewrite zoom_Ret by exact Hc. Qed.

Lemma curproc_run s p x : running s p x -> in_p Proc.the_curproc s = Ret (p, s).
Proof.
  intros (Ht & _). unfold in_p, Proc.the_curproc, Proc.curproc. destruct s as [q v i o]; simpl in *.
  erewrite zoom_Ret; [reflexivity|]. simpl. mrun. by rewrite (bind_valid _ _ _ _ (Some p)).
Qed.

Lemma deref_run s p x : running s p x -> in_p (Proc.deref p) s = Ret (x, s).
Proof.
  intros (_ & Hp & _). unfold in_p, Proc.deref. destruct s as [q v i o]; simpl in *.
  erewrite zoom_Ret; [reflexivity|]. simpl. mrun. by rewrite Hp.
Qed.

Lemma file_slot_run s p x fd slot :
  running s p x -> arr_get (fileTable x) fd = Some slot -> file_slot fd s = Ret (slot, s).
Proof.
  intros Hr Hg. unfold file_slot.
  rewrite (bind_run _ _ _ _ _ (curproc_run _ _ _ Hr)), (bind_run _ _ _ _ _ (deref_run _ _ _ Hr)). by rewrite Hg.
Qed.

Lemma set_file_slot_run s p x fd slot :
  running s p x ->
  set_file_slot fd slot s = Ret (tt, put_files p x (arr_set (fileTable x) fd slot) (systemFileTable (f_p s)) s).
Proof.
  intros Hr. unfold set_file_slot.
  rewrite (bind_run _ _ _ _ _ (curproc_run _ _ _ Hr)), (bind_run _ _ _ _ _ (deref_run _ _ _ Hr)). by destruct s as [[]].
Qed.

Lemma store_of_run s f o :
  store_of f o s = Ret (tt, set_f_p (set_sft (arr_set (systemFileTable (f_p s)) f o) (f_p s)) s).
Proof. done. Qed.

Lemma find_index_spec {A} (g : A -> bool) l i :
  match find_index g l i with
  | Some j => i <= j < i + Z.of_nat (length l) /\
      (exists x, arr_get l (j - i) = Some x /\ g x = true) /\
      forall k y, k < j - i -> arr_get l k = Some y -> g y = false
  | None => forall k y, arr_get l k = Some y -> g y = false
  end.
Proof.
  revert i. induction l as [|x l IH]; intros i; cbn [find_index].
  - intros k y Hk. apply arr_get_Some in Hk as [_ Hk]. by rewrite lookup_nil in Hk.
  - assert (forall k y, 0 < k -> arr_get (x :: l) k = Some y -> arr_get l (k - 1) = Some y) as Htl.
    { intros k y Hk. rewrite !arr_get_Some. intros [_ Hl]. split; [lia|].
      replace (Z.to_nat k) with (S (Z.to_nat (k - 1))) in Hl by lia. done. }
    destruct (g x) eqn:Hg.
    + split_and!; [lia|simpl; lia| |].
      * exists x. rewrite Z.sub_diag. split; [by apply arr_get_Some|done].
      * intros k y Hk Hl. apply arr_get_Some in Hl. lia.
    + assert (forall k y, k = 0 -> arr_get (x :: l) k = Some y -> g y = false) as Hhd.
      { intros k y -> Hl. apply arr_get_Some in Hl as [_ Hl]. simpl in Hl. congruence. }
      specialize (IH (i + 1)). destruct (find_index g l (i + 1)) as [j|].
      * destruct IH as (Hj & (z & Hz & Hgz) & Hlt). split_and!; [lia|simpl length; lia| |].
        -- exists z. split; [|done]. apply arr_get_Some in Hz as [H0 Hz]. apply arr_get_Some. split; [lia|].
           replace (Z.to_nat (j - i)) with (S (Z.to_nat (j - (i + 1)))) by lia. done.
        -- intros k y Hk Hl. destruct (decide (k = 0)); [by eapply Hhd|].
           assert (0 <= k) by (apply arr_get_Some in Hl; lia). apply (Hlt (k - 1) y); [lia|]. apply Htl; [lia|done].
      * intros k y Hl. destruct (decide (k = 0)); [by eapply Hhd|].
        assert (0 <= k) by (apply arr_get_Some in Hl; lia). apply (IH (k - 1) y). apply Htl; [lia|done].
Qed.

Lemma free_fd_spec t :
  match free_fd t with
  | Some fd => 3 <= fd < Z.of_nat (length t) /\ arr_get t fd = Some None /\
      forall k, 3 <= k < fd -> arr_get t k <> Some None
  | None => forall k, 3 <= k -> arr_get t k <> Some None
  end.
Proof.
  assert (forall k, 0 <= k -> arr_get (drop 3 t) k = arr_get t (k + 3)) as Hd.
  { intros k Hk. unfold arr_get. rewrite !(proj2 (Z.leb_le _ _)) by lia.
    rewrite lookup_drop. f_equal. lia. }
  pose proof (find_index_spec (fun o : option Z => bool_decide (o = None)) (drop 3 t) 3) as Hs.
  unfold free_fd. destruct (find_index _ (drop 3 t) 3) as [fd|].
  - destruct Hs as (Hfd & (y & Hy & Hg) & Hlt). rewrite length_drop in Hfd.
    split_and!; [lia|lia| |].
    + rewrite Hd in Hy by lia. apply bool_decide_eq_true in Hg as ->. by replace (fd - 3 + 3) with fd in Hy by lia.
    + intros k Hk Hn. specialize (Hlt (k - 3) None ltac:(lia)). rewrite Hd in Hlt by lia.
      replace (k - 3 + 3) with k in Hlt by lia. discriminate (Hlt Hn).
  - intros k Hk Hn. specialize (Hs (k - 3) None). rewrite Hd in Hs by lia.
    replace (k - 3 + 3) with k in Hs by lia. discriminate (Hs Hn).
Qed.

Lemma put_files_id p x t s :
  running s p x -> put_files p x (fileTable x) t s = set_f_p (set_sft t (f_p s)) s.
Proof.
  intros (_ & Hp & _). unfold put_files. destruct s as [q v i o]; simpl in *. unfold set_f_p, set_procs; simpl.
  rewrite insert_id; [by destruct q|]. rewrite Hp. by destruct x.
Qed.

Lemma running_put_view w s p x : running (put_view w s) p x <-> running s p x.
Proof. done. Qed.

Section OpenCloseProofs.
Context `{HV : Vfs.VfsopsOk}.

Lemma open_run s p x path flags mode :
  running s p x -> Vnode.ok (view s) ->
  exists r s' w, sys_open path flags mode s = Ret (r, s') /\ Vnode.ok w /\
    (r = (-1, Some ENOENT) /\ s' = put_view w s /\ Vnode.moved Vnode.none (view s) w \/
     r = (-1, Some ENFILE) /\ s' = put_view w s /\ Vnode.moved Vnode.none (view s) w /\
       (forall k o, arr_get (systemFileTable (f_p s)) k = Some o -> of_vn o <> None) \/
     exists f v o, arr_get (systemFileTable (f_p s)) f = Some o /\ of_vn o = None /\
       let t := arr_set (systemFileTable (f_p s)) f (MkOpenfile (Some v) 0 1) in
       ((exists fd, r = (fd, None) /\ 3 <= fd < OPEN_MAX /\ arr_get (fileTable x) fd = Some None /\
           (forall k, 3 <= k < fd -> arr_get (fileTable x) k <> Some None) /\
           s' = put_view w (put_files p x (arr_set (fileTable x) fd (Some f)) t s) /\
           Vnode.moved (Vnode.one v) (view s) w) \/
        (r = (-1, Some EMFILE) /\ (forall k, 3 <= k -> arr_get (fileTable x) k <> Some None) /\
           s' = put_view w (put_files p x (fileTable x) t s) /\
           Vnode.moved Vnode.none (view s) w))).
Proof.
  intros Hrun Hok. destruct (Vfs.open_does path flags mode (view s) Hok) as ([rc v] & w & Ho & Hokw & Hm).
  { intros a. by apply Vnode.refs_nonneg. }
  simpl in Hm. unfold sys_open. rewrite (bind_run _ _ _ _ _ (in_vnode_run _ _ _ _ Ho)).
  destruct (Z.eqb_spec rc 0) as [->|Hrc]; cbn [negb].
  2:{ eexists _, _, w. split; [reflexivity|]. split; [done|]. left. done. }
  assert (exists w2, Vfs.vfs_close v w = Ret (tt, w2) /\ Vnode.ok w2 /\ Vnode.moved Vnode.none (view s) w2) as (w2 & Hc & Hok2 & Hm2).
  { destruct (Vnode.decref_run w v Hokw) as (w2 & Hc & Hok2 & Hm2).
    - rewrite Hm. unfold Vnode.one. rewrite Z.eqb_refl. pose proof (Vnode.refs_nonneg (view s) v Hok). lia.
    - exists w2. split_and!; [exact Hc|done|]. eapply Vnode.moved_ext; [|exact (Vnode.moved_trans _ _ _ _ _ Hm Hm2)].
      intros a. unfold Vnode.plus, Vnode.opp, Vnode.none. lia. }
  assert (forall s1, view s1 = w -> in_p (Proc.in_vnode (Vfs.vfs_close v)) s1 = Ret (tt, put_view w2 s1)) as Hclose.
  { intros s1 Hs1. apply in_vnode_run. by rewrite Hs1. }
  assert (view (put_view w s) = w) as Hvw by (destruct w; by destruct s as [[[]]]).
  rewrite bind_get. change (systemFileTable (f_p (put_view w s))) with (systemFileTable (f_p s)).
  pose proof (find_index_spec (fun o => bool_decide (of_vn o = None)) (systemFileTable (f_p s)) 0) as Hff.
  unfold free_openfile. destruct (find_index _ (systemFileTable (f_p s)) 0) as [f|].
  2:{ mrun. rewrite (bind_run _ _ _ _ _ (Hclose _ Hvw)). eexists _, _, w2. split; [reflexivity|].
      split; [done|]. right; left. split_and!; [done|by destruct s as [[[]]]|done|].
      intros k o Hk Hn. specialize (Hff k o Hk). by rewrite bool_decide_true in Hff. }
  destruct Hff as (Hf & (o & Hfo & Hno) & _). rewrite Z.sub_0_r in Hfo. apply bool_decide_eq_true in Hno.
  rewrite bind_assoc, (bind_run _ _ _ _ _ (store_of_run _ _ _)).
  set (t := arr_set (systemFileTable (f_p s)) f (MkOpenfile (Some v) 0 1)).
  set (s1 := set_f_p _ (put_view w s)). assert (running s1 p x) as Hr1 by exact Hrun.
  rewrite bind_assoc, (bind_run _ _ _ _ _ (curproc_run _ _ _ Hr1)), bind_assoc, (bind_run _ _ _ _ _ (deref_run _ _ _ Hr1)).
  pose proof (free_fd_spec (fileTable x)) as Hfd. destruct (free_fd (fileTable x)) as [fd|].
  - rewrite bind_assoc, (bind_run _ _ _ _ _ (set_file_slot_run _ _ _ _ _ Hr1)). mrun.
    eexists _, _, w. split; [reflexivity|]. split; [done|]. right; right. exists f, v, o. split_and!; [done|done|].
    left. exists fd. destruct Hfd as (Hr & Hn & Hl). destruct Hrun as (_ & _ & Hlen).
    split_and!; [done|lia|lia|done|done| |done]. by destruct s as [[[]]].
  - mrun. rewrite (bind_run _ _ _ _ _ (Hclose s1 ltac:(by destruct w; by destruct s as [[[]]]))). eexists _, _, w2. split; [reflexivity|]. split; [done|].
    right; right. exists f, v, o. split_and!; [done|done|]. right. split_and!; [done|done| |done].
    rewrite put_files_id by done. by destruct s as [[[]]].
Qed.

(** sys_open_outcomes. [sys_open] always returns.  If the path cannot be opened it
    fails with [ENOENT]; if the system table is full, with [ENFILE]; in both
    cases nothing is left changed.  Otherwise it takes a free slot of the
    system table for the vnode, with offset 0 and one reference: if the
    process has a free descriptor from 3 on, the lowest one is pointed to the
    slot and returned; if not, the call fails with [EMFILE] and drops the vnode,
    but the slot still names it: the slot is lost and its pointer dangles. *)
Theorem sys_open_outcomes s p x path flags mode :
  running s p x -> Vnode.ok (view s) ->
  exists r s' w, sys_open path flags mode s = Ret (r, s') /\ Vnode.ok w /\
    (r = (-1, Some ENOENT) /\ s' = put_view w s /\ Vnode.moved Vnode.none (view s) w \/
     r = (-1, Some ENFILE) /\ s' = put_view w s /\ Vnode.moved Vnode.none (view s) w /\
       (forall k o, arr_get (systemFileTable (f_p s)) k = Some o -> of_vn o <> None) \/
     exists f v o, arr_get (systemFileTable (f_p s)) f = Some o /\ of_vn o = None /\
       let t := arr_set (systemFileTable (f_p s)) f (MkOpenfile (Some v) 0 1) in
       ((exists fd, r = (fd, None) /\ 3 <= fd < OPEN_MAX /\ arr_get (fileTable x) fd = Some None /\
           (forall k, 3 <= k < fd -> arr_get (fileTable x) k <> Some None) /\
           s' = put_view w (put_files p x (arr_set (fileTable x) fd (Some f)) t s) /\
           Vnode.moved (Vnode.one v) (view s) w) \/
        (r = (-1, Some EMFILE) /\ (forall k, 3 <= k -> arr_get (fileTable x) k <> Some None) /\
           s' = put_view w (put_files p x (fileTable x) t s) /\
           Vnode.moved Vnode.none (view s) w))).
Proof. apply open_run. Qed.

Lemma close_head s p x fd f o :
  running s p x -> 0 <= fd < OPEN_MAX -> arr_get (fileTable x) fd = Some (Some f) ->
  arr_get (systemFileTable (f_p s)) f = Some o ->
  let n := u32 (of_countRef o - 1) in
  let s1 := put_files p x (arr_set (fileTable x) fd None) (arr_set (systemFileTable (f_p s)) f (MkOpenfile (of_vn o) (of_offset o) n)) s in
  sys_close fd s =
    (if 0 <? n then mret 0
     else store_of f (MkOpenfile None (of_offset o) n);;
          match of_vn o with
          | None => mret (-1)
          | Some vn => in_p (Proc.in_vnode (Vfs.vfs_close vn));; mret 0
          end) s1.
Proof.
  intros Hr Hfd Hg Ho n s1. unfold sys_close.
  rewrite (proj2 (Z.ltb_ge _ _)), (proj2 (Z.ltb_ge _ _)) by lia. cbn [orb].
  rewrite (bind_run _ _ _ _ _ (file_slot_run _ _ _ _ _ Hr Hg)), (bind_run _ _ _ _ _ (set_file_slot_run _ _ _ _ _ Hr)).
  unfold deref_of. mrun. rewrite (bind_valid _ _ _ _ o) by done.
  rewrite (bind_run _ _ _ _ _ (store_of_run _ _ _)). fold n. f_equal.
Qed.

Lemma close_last_run s p x fd f o v :
  running s p x -> Vnode.ok (view s) -> 0 <= fd < OPEN_MAX -> arr_get (fileTable x) fd = Some (Some f) ->
  arr_get (systemFileTable (f_p s)) f = Some o -> of_countRef o = 1 -> of_vn o = Some v -> 0 < Vnode.refs (view s) v ->
  exists w, Vnode.ok w /\ Vnode.moved (Vnode.opp (Vnode.one v)) (view s) w /\
    sys_close fd s = Ret (0, put_view w (put_files p x (arr_set (fileTable x) fd None)
      (arr_set (systemFileTable (f_p s)) f (MkOpenfile None (of_offset o) 0)) s)).
Proof.
  intros Hr Hok Hfd Hg Ho Hc Hv Href. destruct (Vnode.decref_run (view s) v Hok Href) as (w & Hd & Hokw & Hm).
  exists w. split_and!; [done|done|]. rewrite (close_head _ _ _ _ _ _ Hr Hfd Hg Ho). rewrite Hc, Hv. simpl.
  rewrite (bind_run _ _ _ _ _ (store_of_run _ _ _)). erewrite bind_run by (apply in_vnode_run; exact Hd).
  unfold mret, M_ret. do 2 f_equal. unfold put_view, put_files, set_f_p, set_sft; simpl.
  by rewrite arr_set_twice.
Qed.

(** sys_close_spec. [sys_close] on a descriptor of the process: an unused one gives
    -1; a slot with other references loses one and keeps its vnode and offset;
    the last reference empties the slot and drops the vnode.  In the last two
    cases the descriptor becomes free.  The descriptor [OPEN_MAX] passes the
    range test and is an access outside the process's table. *)
Theorem sys_close_spec s p x fd :
  running s p x -> Vnode.ok (view s) ->
  sys_close OPEN_MAX s = Undef "fileTable[fd]" /\
  (0 <= fd < OPEN_MAX -> arr_get (fileTable x) fd = Some None -> sys_close fd s = Ret (-1, s)) /\
  (forall f o, 0 <= fd < OPEN_MAX -> arr_get (fileTable x) fd = Some (Some f) ->
    arr_get (systemFileTable (f_p s)) f = Some o ->
    (1 < of_countRef o < 2 ^ 32 ->
       sys_close fd s = Ret (0, put_files p x (arr_set (fileTable x) fd None)
         (arr_set (systemFileTable (f_p s)) f (MkOpenfile (of_vn o) (of_offset o) (of_countRef o - 1))) s)) /\
    (forall v, of_countRef o = 1 -> of_vn o = Some v -> 0 < Vnode.refs (view s) v ->
       exists w, Vnode.ok w /\ Vnode.moved (Vnode.opp (Vnode.one v)) (view s) w /\
         sys_close fd s = Ret (0, put_view w (put_files p x (arr_set (fileTable x) fd None)
           (arr_set (systemFileTable (f_p s)) f (MkOpenfile None (of_offset o) 0)) s)))).
Proof.
  intros Hr Hok. split_and!.
  - unfold sys_close. cbn [orb Z.ltb OPEN_MAX Z.compare Pos.compare Pos.compare_cont]. apply bind_undef. unfold file_slot.
    rewrite (bind_run _ _ _ _ _ (curproc_run _ _ _ Hr)), (bind_run _ _ _ _ _ (deref_run _ _ _ Hr)).
    destruct Hr as (_ & _ & Hl). by rewrite (proj2 (arr_get_None _ _)) by (right; lia).
  - intros Hfd Hg. unfold sys_close. rewrite (proj2 (Z.ltb_ge _ _)), (proj2 (Z.ltb_ge _ _)) by lia. cbn [orb].
    by rewrite (bind_run _ _ _ _ _ (file_slot_run _ _ _ _ _ Hr Hg)).
  - intros f o Hfd Hg Ho. split.
    + intros Hc. rewrite (close_head _ _ _ _ _ _ Hr Hfd Hg Ho). rewrite u32_id by lia.
      by rewrite (proj2 (Z.ltb_lt _ _)) by lia.
    + intros v Hc Hv Href. by apply close_last_run.
Qed.

(** open_close_round_trip. Closing the descriptor that [sys_open] returned
    succeeds and undoes it: the process has its old file table, every vnode
    its old reference count, the slot of the system table is free again, and
    closing the descriptor a second time fails. *)
Theorem open_close_round_trip s p x path flags mode fd s1 :
  running s p x -> Vnode.ok (view s) -> sys_open path flags mode s = Ret ((fd, None), s1) ->
  exists s2 f o, sys_close fd s1 = Ret (0, s2) /\ procs (f_p s2) = procs (f_p s) /\
    Vnode.ok (view s2) /\ Vnode.moved Vnode.none (view s) (view s2) /\
    arr_get (systemFileTable (f_p s)) f = Some o /\ of_vn o = None /\
    systemFileTable (f_p s2) = arr_set (systemFileTable (f_p s)) f (MkOpenfile None 0 0) /\
    sys_close fd s2 = Ret (-1, s2).
Proof.
  intros Hr Hok Hopen. destruct (open_run s p x path flags mode Hr Hok) as (r & s' & w & Hrun & Hokw & Hcases).
  rewrite Hopen in Hrun. apply Ret_inj in Hrun as [<- <-].
  destruct Hcases as [[[=] _]|[[[=] _]|(f & v & o & Hfo & Hno & [(fd' & [= <-] & Hfd & Hfree & _ & -> & Hm)|[[=] _]])]].
  set (t := arr_set _ f _). set (x1 := Proc.with_files (arr_set (fileTable x) fd (Some f)) x).
  assert (0 <= f < Z.of_nat (length (systemFileTable (f_p s)))) as Hf by (apply arr_get_is_Some; by eexists).
  destruct Hr as (Ht & Hp & Hl).
  assert (view (put_view w (put_files p x (arr_set (fileTable x) fd (Some f)) t s)) = w) as Hvw by (destruct w; by destruct s as [[[]]]).
  destruct (close_last_run (put_view w (put_files p x (arr_set (fileTable x) fd (Some f)) t s)) p x1 fd f
              (MkOpenfile (Some v) 0 1) v) as (w2 & Hokw2 & Hm2 & Hclose).
  - split_and!; [done|simpl; by rewrite lookup_insert_eq|simpl; by rewrite arr_set_length].
  - by rewrite Hvw.
  - lia.
  - simpl. apply arr_get_set_eq. unfold OPEN_MAX in *. lia.
  - simpl. by apply arr_get_set_eq.
  - done.
  - done.
  - rewrite Hvw, Hm. unfold Vnode.one. rewrite Z.eqb_refl. pose proof (Vnode.refs_nonneg _ v Hok). lia.
  - rewrite Hvw in Hm2. eexists _, f, o. split; [exact Hclose|].
    assert (<[p := Proc.with_files (arr_set (fileTable x1) fd None) x1]> (<[p := x1]> (procs (f_p s))) = procs (f_p s)) as Hprocs.
    { rewrite insert_insert_eq. rewrite insert_id; [done|]. rewrite Hp. unfold x1. simpl.
      rewrite arr_set_twice, arr_set_same by done. by destruct x. }
    split_and!.
    + exact Hprocs.
    + destruct w2; exact Hokw2.
    + eapply Vnode.moved_ext; [|exact (Vnode.moved_trans _ _ _ _ _ Hm Hm2)]. intros a. unfold Vnode.plus, Vnode.opp, Vnode.none. lia.
    + done.
    + done.
    + simpl. unfold t. by rewrite arr_set_twice.
    + unfold sys_close. rewrite (proj2 (Z.ltb_ge _ _)), (proj2 (Z.ltb_ge _ _)) by lia. cbn [orb].
      etrans; [eapply bind_run, (file_slot_run _ p x fd None); [|done]|done].
      split_and!; [done| |done]. etrans; [|exact Hp]. f_equal. exact Hprocs.
Qed.

End OpenCloseProofs.

(** ** Reading and writing *)

(** What the calls rely on: an I/O operation leaves the open file table alone and
    accounts for what it transfers. *)
Class FileioOk `{Fileio} : Prop := {
  vop_read_account vn u s rc u' s' :
    vop_read_uio vn u s = Ret ((rc, u'), s') ->
    systemFileTable (f_p s') = systemFileTable (f_p s) /\
    (rc = 0 -> 0 <= Uio.uio_resid u' <= Uio.uio_resid u /\
       Uio.uio_offset u' = Uio.uio_offset u + (Uio.uio_resid u - Uio.uio_resid u'));
  vop_write_account vn u s rc u' s' :
    vop_write_uio vn u s = Ret ((rc, u'), s') ->
    systemFileTable (f_p s') = systemFileTable (f_p s) /\
    (rc = 0 -> 0 <= Uio.uio_resid u' <= Uio.uio_resid u /\
       Uio.uio_offset u' = Uio.uio_offset u + (Uio.uio_resid u - Uio.uio_resid u'));
}.

Lemma check_passes s v : Vnode.ok (view s) -> 0 < Vnode.refs (view s) v ->
  in_p (Proc.in_vnode (Vnode.vnode_check v)) s = Ret (tt, s).
Proof.
  intros Hok Hr. pose proof (Vnode.check_run (view s) v (mret tt) Hok ltac:(lia)) as Hc.
  unfold Vnode.VOP in Hc. apply bind_Ret_inv in Hc as ([] & w & Hc & Hw). apply Ret_inj in Hw as [_ ->].
  rewrite (in_vnode_run _ _ _ _ Hc). by destruct s as [[[]]].
Qed.

Lemma cur_as_run s p x : running s p x -> cur_as s = Ret (p_addrspace x ≫= fun _ => Some p, s).
Proof.
  intros Hr. unfold cur_as. by rewrite (bind_run _ _ _ _ _ (curproc_run _ _ _ Hr)), (bind_run _ _ _ _ _ (deref_run _ _ _ Hr)).
Qed.

(** The open file [o] in slot [f] of the system table, for vnode [v], behind the
    descriptor [fd] of the current process. *)
Definition opened (s : fsys) (p : Z) (x : proc) (fd f : Z) (o : openfile) (v : Z) : Prop :=
  running s p x /\ Vnode.ok (view s) /\ 0 <= fd < OPEN_MAX /\ arr_get (fileTable x) fd = Some (Some f) /\
  arr_get (systemFileTable (f_p s)) f = Some o /\ of_vn o = Some v /\ 0 < Vnode.refs (view s) v.

Definition advance (f n : Z) (o : openfile) (s : fsys) : fsys :=
  set_f_p (set_sft (arr_set (systemFileTable (f_p s)) f (MkOpenfile (of_vn o) (of_offset o + n) (of_countRef o))) (f_p s)) s.

(** Up to the call of the file system. *)
Ltac io_head Ho :=
  let Hr := fresh in let Hok := fresh in let Hfd := fresh in let Hg := fresh in
  let Hof := fresh in let Hv := fresh in let Hrf := fresh in
  destruct Ho as (Hr & Hok & Hfd & Hg & Hof & Hv & Hrf);
  rewrite (proj2 (Z.ltb_ge _ _)), (proj2 (Z.ltb_ge _ _)) by lia; cbn [orb];
  rewrite (bind_run _ _ _ _ _ (file_slot_run _ _ _ _ _ Hr Hg));
  unfold deref_of; mrun; rewrite (bind_valid _ _ _ _ _ Hof), Hv;
  rewrite (bind_run _ _ _ _ _ (cur_as_run _ _ _ Hr)), (bind_run _ _ _ _ _ (check_passes _ _ Hok Hrf)).

Lemma io_tail f o size u u' (s s1 : fsys) :
  0 <= size < 2 ^ 31 -> Uio.uio_resid u = size -> Uio.uio_offset u = of_offset o ->
  arr_get (systemFileTable (f_p s)) f = Some o -> systemFileTable (f_p s1) = systemFileTable (f_p s) ->
  0 <= Uio.uio_resid u' <= Uio.uio_resid u /\
    Uio.uio_offset u' = Uio.uio_offset u + (Uio.uio_resid u - Uio.uio_resid u') ->
  exists n, 0 <= n <= size /\ n = size - Uio.uio_resid u' /\
    (o ← deref_of f;
     store_of f (MkOpenfile (of_vn o) (Uio.uio_offset u') (of_countRef o));;
     mret (s32 (size - Uio.uio_resid u'))) s1 = Ret (n, advance f n o s1).
Proof.
  intros Hs Hru Hou Hof Hsame [Hres Hoff]. exists (size - Uio.uio_resid u'). split_and!; [lia|lia|done|].
  unfold deref_of. mrun. rewrite (bind_valid _ _ _ _ o) by (by rewrite Hsame).
  rewrite (bind_run _ _ _ _ _ (store_of_run _ _ _)). rewrite s32_id by lia.
  unfold advance. rewrite Hoff, Hru, Hou. by do 2 f_equal.
Qed.

(** file_io_spec. Reading from or writing to an open file asks the file system for
    [size] bytes at the file's offset.  If it succeeds, the call returns the
    number of bytes transferred, at most [size], and the offset advances by as
    much; if it fails with an error code, the call returns that code, a
    positive number like a byte count, and the offset stays. *)
Theorem file_io_spec `{FileioOk} s p x fd f o v buf size rc u' s1 :
  opened s p x fd f o v -> 0 <= size < 2 ^ 31 ->
  let space := p_addrspace x ≫= fun _ => Some p in
  (vop_read_uio v (user_uio buf size (of_offset o) Uio.UIO_READ space) s = Ret ((rc, u'), s1) ->
    (rc = 0 -> exists n, 0 <= n <= size /\ n = size - Uio.uio_resid u' /\ file_read fd buf size s = Ret (n, advance f n o s1)) /\
    (rc <> 0 -> file_read fd buf size s = Ret (rc, s1))) /\
  (vop_write_uio v (user_uio buf size (of_offset o) Uio.UIO_WRITE space) s = Ret ((rc, u'), s1) ->
    (rc = 0 -> exists n, 0 <= n <= size /\ n = size - Uio.uio_resid u' /\ file_write fd buf size s = Ret (n, advance f n o s1)) /\
    (rc <> 0 -> file_write fd buf size s = Ret (rc, s1))).
Proof.
  intros Ho Hs space. pose proof Ho as (_ & _ & _ & _ & Hof & _). split; intros Hio.
  - destruct (vop_read_account _ _ _ _ _ _ Hio) as [Hsame Hacc]. unfold file_read. io_head Ho.
    rewrite (bind_run _ _ _ _ _ Hio). split.
    + intros ->. cbn [Z.eqb negb]. by eapply io_tail; eauto.
    + intros Hne. by rewrite (proj2 (Z.eqb_neq _ _) Hne).
  - destruct (vop_write_account _ _ _ _ _ _ Hio) as [Hsame Hacc]. unfold file_write. io_head Ho.
    rewrite (bind_run _ _ _ _ _ Hio). split.
    + intros ->. cbn [Z.eqb negb]. by eapply io_tail; eauto.
    + intros Hne. by rewrite (proj2 (Z.eqb_neq _ _) Hne).
Qed.

(** ** The console *)

Lemma putch_loop_run n p i s :
  0 <= p + i -> p + i + Z.of_nat n <= 2 ^ 32 ->
  (forall j, 0 <= j < Z.of_nat n -> Copyinout.faults (p + i + j) (f_vas s) = false) ->
  putch_loop p i n s = Ret (tt, set_con_out (con_out s ++ mem_read (p + i) (Z.of_nat n) (vmem (f_vas s))) s).
Proof.
  revert i s. induction n as [|n IH]; intros i s H0 Hn Hok; cbn [putch_loop].
  - unfold mem_read. simpl. rewrite app_nil_r. by destruct s.
  - unfold load_char. mrun. rewrite u32_id by lia. rewrite <- (Z.add_0_r (p + i)) at 1. rewrite Hok by lia. mrun.
    unfold putch. mrun. rewrite IH; [|lia|lia|].
    + unfold set_con_out; simpl. do 3 f_equal. rewrite <- app_assoc. f_equal.
      unfold mem_read. rewrite !Nat2Z.id. cbn [seq fmap list_fmap app]. rewrite Z.add_0_r. f_equal.
      rewrite <- fmap_S_seq, <- list_fmap_compose. apply list_fmap_ext. intros k y _. simpl. f_equal. lia.
    + intros j Hj. simpl. replace (p + (i + 1) + j) with (p + i + (j + 1)) by lia. apply Hok. lia.
Qed.

Lemma mem_write_cons a c cs m x :
  mem_write a (c :: cs) m x = mem_write (a + 1) cs (fun y => if y =? a then c else m y) x.
Proof.
  destruct (decide (a <= x < a + Z.of_nat (length (c :: cs)))) as [Hin|Hout].
  - destruct (decide (x = a)) as [->|Hne].
    + rewrite (mem_write_out (a + 1)) by lia. rewrite Z.eqb_refl.
      replace a with (a + Z.of_nat 0) at 2 by lia. by apply mem_write_in.
    + simpl length in Hin. destruct (lookup_lt_is_Some_2 cs (Z.to_nat (x - a - 1))) as [y Hy]; [lia|].
      replace x with (a + Z.of_nat (S (Z.to_nat (x - a - 1)))) at 1 by lia.
      replace x with (a + 1 + Z.of_nat (Z.to_nat (x - a - 1))) at 2 by lia.
      by rewrite (mem_write_in _ _ _ _ y), (mem_write_in _ _ _ _ y).
  - simpl length in *. rewrite !mem_write_out by (simpl length; lia). by rewrite (proj2 (Z.eqb_neq _ _)) by lia.
Qed.

Lemma getch_loop_run `{Fileio} p n rest cs i s :
  USERSPACETOP <= p -> Forall (fun c => 0 <= c < 128) cs -> 0 <= i -> p + i + Z.of_nat (length cs) <= 2 ^ 32 ->
  con_in s = cs ++ rest ->
  exists m, getch_loop p i n (length cs) s = Ret (n, set_con_in rest (set_f_vas (Copyinout.set_vmem m (f_vas s)) s)) /\
    forall a, m a = mem_write (p + i) cs (vmem (f_vas s)) a.
Proof.
  intros Hp. revert i s. induction cs as [|c cs IH]; intros i s Hcs Hi Hle Hin; cbn [getch_loop length].
  - exists (vmem (f_vas s)). split; [destruct s as [? [] ? ?]; simpl in *; by rewrite Hin|].
    intros a. symmetry. apply mem_write_out. simpl. lia.
  - apply Forall_cons in Hcs as [Hc Hcs]. simpl length in Hle. unfold getch. mrun. rewrite Hin. cbn [app]. mrun.
    unfold store_char. mrun. rewrite u32_id by (unfold USERSPACETOP, MIPS_KSEG0 in *; lia). unfold Copyinout.faults.
    rewrite (proj2 (Z.ltb_ge (p + i) _)) by lia. cbn [andb]. rewrite u8_id by lia.
    erewrite bind_run by (apply zoom_Ret; reflexivity). unfold s8. rewrite u8_id by lia.
    rewrite (proj2 (Z.ltb_lt c _)), (proj2 (Z.ltb_ge c 0)) by lia.
    match goal with |- exists m, getch_loop p _ n _ ?s1 = _ /\ _ =>
      destruct (IH (i + 1) s1 Hcs ltac:(lia) ltac:(lia) ltac:(done)) as (m & Hrun & Hm) end.
    exists m. rewrite Hrun. split; [by destruct s as [? [] ? ?]|]. intros a. rewrite Hm, mem_write_cons.
    by replace (p + i + 1) with (p + (i + 1)) by lia.
Qed.

(** console_unchecked. The console calls use the caller's pointer without any
    check.  Writing from an address in the kernel's half succeeds and prints
    the kernel's memory; reading to such an address succeeds and overwrites
    the kernel's memory with what is typed; and a pointer into an unmapped
    user page halts the kernel. *)
Theorem console_unchecked `{Fileio} s p n cs rest :
  0 < n < 2 ^ 31 ->
  (USERSPACETOP <= p -> p + n <= 2 ^ 32 ->
     sys_write STDOUT_FILENO p n s = Ret (n, set_con_out (con_out s ++ mem_read p n (vmem (f_vas s))) s)) /\
  (USERSPACETOP <= p -> p + n <= 2 ^ 32 -> con_in s = cs ++ rest -> Z.of_nat (length cs) = n ->
     Forall (fun c => 0 <= c < 128) cs ->
     exists m, sys_read STDIN_FILENO p n s = Ret (n, set_con_in rest (set_f_vas (Copyinout.set_vmem m (f_vas s)) s)) /\
       forall a, m a = mem_write p cs (vmem (f_vas s)) a) /\
  (0 <= p < USERSPACETOP -> bad (f_vas s) p = true ->
     sys_write STDOUT_FILENO p n s = Panic "fatal fault in kernel mode").
Proof.
  intros Hn. split_and!.
  - intros Hp Hend. unfold sys_write. cbn [Z.eqb STDOUT_FILENO Pos.eqb negb andb]. rewrite s32_id by lia.
    pose proof (putch_loop_run (Z.to_nat n) p 0 s) as Hrun. rewrite Z.add_0_r, Z2Nat.id in Hrun by lia.
    rewrite (bind_run _ _ _ _ _ (Hrun ltac:(unfold USERSPACETOP, MIPS_KSEG0 in *; lia) ltac:(lia)
      ltac:(intros j Hj; unfold Copyinout.faults; by rewrite (proj2 (Z.ltb_ge _ _)) by lia))). done.
  - intros Hp Hend Hin Hlen Hcs. unfold sys_read. cbn [Z.eqb STDIN_FILENO negb]. rewrite s32_id by lia.
    replace (Z.to_nat n) with (length cs) by lia.
    destruct (getch_loop_run p n rest cs 0 s Hp Hcs ltac:(lia) ltac:(lia) Hin) as (m & Hrun & Hm). rewrite Z.add_0_r in Hm. by exists m.
  - intros Hp Hbad. unfold sys_write. cbn [Z.eqb STDOUT_FILENO Pos.eqb negb andb]. rewrite s32_id by lia.
    apply bind_panic. replace (Z.to_nat n) with (S (Z.to_nat (n - 1))) by lia. cbn [putch_loop]. apply bind_panic.
    unfold load_char. mrun. rewrite Z.add_0_r, u32_id by (unfold USERSPACETOP, MIPS_KSEG0 in *; lia).
    unfold Copyinout.faults. by rewrite (proj2 (Z.ltb_lt _ _)), Hbad by lia.
Qed.

(** ** Concrete runs *)

(** A device that reads as zeros and discards what is written. *)
Definition zero_io (store : bool) (u : Uio.uio) : F (Z * Uio.uio) :=
  if Uio.uio_resid u <? 0 then mret (EINVAL, u)
  else
    (if store then
       in_vas (modify (fun m => Copyinout.set_vmem
         (match Uio.uio_iov u with (b, l) :: _ => mem_zero b l (vmem m) | [] => vmem m end) m))
     else mret tt);;
    mret (0, Uio.MkUio (Uio.uio_iov u) (Uio.uio_offset u + Uio.uio_resid u) 0
               (Uio.uio_segflg u) (Uio.uio_rw u) (Uio.uio_space u)).

#[local] Instance zero_fileio : Fileio :=
  { vop_read_uio _ u := zero_io true u; vop_write_uio _ u := zero_io false u }.

Lemma zero_io_account b u s rc u' s' :
  zero_io b u s = Ret ((rc, u'), s') ->
  systemFileTable (f_p s') = systemFileTable (f_p s) /\
  (rc = 0 -> 0 <= Uio.uio_resid u' <= Uio.uio_resid u /\
     Uio.uio_offset u' = Uio.uio_offset u + (Uio.uio_resid u - Uio.uio_resid u')).
Proof.
  unfold zero_io. destruct (Z.ltb_spec (Uio.uio_resid u) 0).
  - intros Hr. apply Ret_inj in Hr as [[= <- <-] <-]. done.
  - destruct b; intros Hr; apply Ret_inj in Hr as [[= <- <-] <-]; (split; [done|]); intros _; simpl; lia.
Qed.

#[local] Instance zero_fileio_ok : FileioOk.
Proof. split; intros *; apply zero_io_account. Qed.

Definition sample_fsys : fsys :=
  Fsys (set_sft (replicate (Z.to_nat SYSTEM_OPEN_MAX) (MkOpenfile None 0 0)) Proc.sample_pst)
    Copyinout.sample_vas [104; 105] [].

Lemma sample_running : running sample_fsys 1 (Proc.sample_proc "init" 1 1).
Proof. by split_and!. Qed.

Lemma sample_vnodes_ok : Vnode.ok (view sample_fsys).
Proof. split; [vm_compute; split_and!; (done || by left)|]. intros v x Hv. discriminate Hv. Qed.

#[local] Existing Instances Vfs.sample_vfsops Vfs.sample_vfs_ok.

(** The state after opening the sample file: descriptor 3 is slot 0. *)
Definition sample_opened : fsys :=
  match sys_open "f" Vfs.O_RDWR 0 sample_fsys with Ret (_, s) => s | _ => sample_fsys end.

Lemma sample_open_run : sys_open "f" Vfs.O_RDWR 0 sample_fsys = Ret ((3, None), sample_opened).
Proof.
  assert (match sys_open "f" Vfs.O_RDWR 0 sample_fsys with Ret (r, _) => r | _ => (0, None) end = (3, None)) as Hr
    by (vm_compute; reflexivity).
  unfold sample_opened. destruct (sys_open _ _ _ _) as [[r s]| | |]; [by subst r|discriminate Hr..].
Qed.

Lemma sys_open_outcomes_witness :
  exists s' w, sys_open "f" Vfs.O_RDWR 0 sample_fsys = Ret ((3, None), s') /\ Vnode.ok w /\
    exists v, Vnode.moved (Vnode.one v) (view sample_fsys) w.
Proof.
  destruct (sys_open_outcomes sample_fsys 1 _ "f" Vfs.O_RDWR 0 sample_running sample_vnodes_ok)
    as (r & s' & w & Hrun & Hok & Hc).
  pose proof Hrun as Hrun'. rewrite sample_open_run in Hrun'. apply Ret_inj in Hrun' as [<- _].
  exists s', w. split_and!; [exact Hrun|exact Hok|].
  destruct Hc as [[[=] _]|[[[=] _]|(f & v & o & _ & _ & [(fd & _ & _ & _ & _ & _ & Hm)|[[=] _]])]].
  exists v. exact Hm.
Defined.

Lemma open_close_round_trip_witness :
  exists s2, sys_close 3 sample_opened = Ret (0, s2) /\ procs (f_p s2) = procs (f_p sample_fsys).
Proof.
  destruct (open_close_round_trip sample_fsys 1 _ "f" Vfs.O_RDWR 0 3 sample_opened sample_running sample_vnodes_ok
    sample_open_run) as (s2 & f & o & Hc & Hp & _).
  exists s2. split; [exact Hc|exact Hp].
Defined.

Definition sample_opened_proc : proc :=
  Proc.with_files (arr_set (replicate (Z.to_nat OPEN_MAX) None) 3 (Some 0)) (Proc.sample_proc "init" 1 1).

Lemma sample_is_opened :
  opened sample_opened 1 sample_opened_proc 3 0 (MkOpenfile (Some Vfs.SAMPLE_FILE) 0 1) Vfs.SAMPLE_FILE.
Proof.
  split_and!; try done.
  destruct (open_run sample_fsys 1 _ "f" Vfs.O_RDWR 0 sample_running sample_vnodes_ok) as (r & s' & w & Hrun & Hok & Hc).
  rewrite sample_open_run in Hrun. apply Ret_inj in Hrun as [<- ->].
  destruct Hc as [[[=] _]|[[[=] _]|(f & v & o & _ & _ & [(fd & _ & _ & _ & _ & -> & Hm)|[[=] _]])]].
  by destruct w.
Qed.

Lemma sys_close_spec_witness :
  sys_close OPEN_MAX sample_opened = Undef "fileTable[fd]" /\
  (exists w, sys_close 3 sample_opened = Ret (0, put_view w (put_files 1 sample_opened_proc
      (arr_set (fileTable sample_opened_proc) 3 None)
      (arr_set (systemFileTable (f_p sample_opened)) 0 (MkOpenfile None 0 0)) sample_opened))).
Proof.
  destruct sample_is_opened as (Hr & Hok & Hfd & Hg & Ho & Hv & Hrf).
  destruct (sys_close_spec sample_opened 1 sample_opened_proc 3 Hr Hok) as (Hu & _ & Hc). split; [exact Hu|].
  destruct (proj2 (Hc 0 _ Hfd Hg Ho) Vfs.SAMPLE_FILE eq_refl Hv Hrf) as (w & _ & _ & Hrun). exists w. exact Hrun.
Defined.

Lemma file_io_spec_witness :
  exists n s1, file_read 3 0x400000 100 sample_opened = Ret (n, advance 0 n (MkOpenfile (Some Vfs.SAMPLE_FILE) 0 1) s1) /\ n = 100.
Proof.
  destruct (vop_read_uio Vfs.SAMPLE_FILE (user_uio 0x400000 100 0 Uio.UIO_READ None) sample_opened) as [[[rc u] s1]| | |] eqn:Hio;
    [|discriminate Hio..].
  destruct (file_io_spec sample_opened 1 sample_opened_proc 3 0 _ Vfs.SAMPLE_FILE 0x400000 100 rc u s1 sample_is_opened ltac:(lia)) as [Hread _].
  destruct (Hread Hio) as [Hok _]. apply Ret_inj in Hio as [[= <- <-] _].
  destruct (Hok eq_refl) as (n & _ & Hn & Hrun). exists n, s1. split; [exact Hrun|exact Hn].
Defined.

Lemma console_unchecked_witness :
  sys_write STDOUT_FILENO 0x80000100 2 sample_fsys = Ret (2, set_con_out [0; 1] sample_fsys) /\
  sys_write STDOUT_FILENO 0x10 2 sample_fsys = Panic "fatal fault in kernel mode".
Proof.
  split.
  - destruct (console_unchecked sample_fsys 0x80000100 2 [104; 105] [] ltac:(lia)) as (Hw & _).
    exact (Hw ltac:(done) ltac:(done)).
  - destruct (console_unchecked sample_fsys 0x10 2 [104; 105] [] ltac:(lia)) as (_ & _ & Hw).
    exact (Hw ltac:(done) ltac:(done)).
Defined.

End Files.
