(* ===== verification/Syscall.v ===== *)
(** * The system call dispatcher: [syscall.c]

    [syscall] of [kern/arch/mips/syscall/syscall.c] with the calls of the
    configuration: [reboot], [__time], [open], [close], [remove], [read],
    [write], [_exit], [waitpid], [getpid] and [fork].  The theorems state the
    return convention and what the caller sees of errors. *)

From S2P Require Import Prelude Sync KState Vnode Copy Proc Files.

(** The registers of [struct trapframe] that a system call uses. *)
Record trapframe := Trapframe {
  tf_v0 : Z; tf_a0 : Z; tf_a1 : Z; tf_a2 : Z; tf_a3 : Z; tf_epc : Z;
}.

(** What [sys_fork] gets from the allocators and the scheduler: the arguments of
    [Proc.sys_fork]. *)
Record fork_env := ForkEnv {
  fe_mem : option Z; fe_ok : bool; fe_sem : option Z; fe_junk : proc;
  fe_asok : bool; fe_asjunk : file_info; fe_tfok : bool; fe_forked : Z;
}.

Module Syscall.
Import Files.

Definition SYS_fork : Z := 0.
Definition SYS__exit : Z := 3.
Definition SYS_waitpid : Z := 4.
Definition SYS_getpid : Z := 5.
Definition SYS_open : Z := 45.
Definition SYS_close : Z := 49.
Definition SYS_read : Z := 50.
Definition SYS_write : Z := 55.
Definition SYS_remove : Z := 68.
Definition SYS___time : Z := 113.
Definition SYS_reboot : Z := 119.

(** [*(int * )p = v] on a user pointer; the machine is big-endian. *)
Definition store_int (p v : Z) : F unit :=
  for_each [0; 1; 2; 3] (fun i => store_char (u32 (p + i)) (u8 (Z.shiftr (u32 v) (24 - 8 * i)))).

Section Dispatch.
Context `{Fileio} `{Vfs.Vfsops}.

(** [halt code] shuts the machine down; [ts] is the address where [gettime] leaves
    its result; [user_string] is the string at a user address. *)
Variables (halt : Z -> F Z) (ts : Z) (user_string : Z -> string) (env : fork_env).

(** [RB_REBOOT], [RB_HALT] and [RB_POWEROFF] are 0, 1 and 2. *)
Definition sys_reboot (code : Z) : F Z :=
  if (code =? 0) || (code =? 1) || (code =? 2) then halt code else mret EINVAL.

Definition sys___time (user_seconds_ptr user_nanoseconds_ptr : Z) : F Z :=
  result ← in_vas (Copyinout.copyout ts user_seconds_ptr 8);
  if negb (result =? 0) then mret result
  else
    result ← in_vas (Copyinout.copyout (ts + 8) user_nanoseconds_ptr 4);
    if negb (result =? 0) then mret result else mret 0.

(** The result of [Proc.sys_waitpid] and the store through [statusp]. *)
Definition waitpid (pid statusp : Z) : F Z :=
  '(r, status) ← in_p (Proc.sys_waitpid pid);
  (if negb (statusp =? 0) then store_int statusp status else mret tt);;
  mret r.

(** [if (retval<0) err = e;] *)
Definition err_if_negative (e retval : Z) : Z * Z := (retval, if retval <? 0 then e else 0).

(** The [switch]: [retval] and [err].  [_exit] does not come back. *)
Definition dispatch (tf : trapframe) : F (Z * Z) :=
  let callno := s32 (tf_v0 tf) in
  let a0 := tf_a0 tf in let a1 := tf_a1 tf in let a2 := tf_a2 tf in
  if callno =? SYS_reboot then err ← sys_reboot (s32 a0); mret (0, err)
  else if callno =? SYS___time then err ← sys___time a0 a1; mret (0, err)
  else if callno =? SYS_open then
    '(retval, err) ← sys_open (user_string a0) (s32 a1) a2; mret (retval, default 0 err)
  else if callno =? SYS_close then
    retval ← sys_close (s32 a0); mret (err_if_negative ENOENT retval)
  else if callno =? SYS_remove then mret (0, 0)
  else if callno =? SYS_write then
    retval ← sys_write (s32 a0) a1 a2; mret (err_if_negative ENOSYS retval)
  else if callno =? SYS_read then
    retval ← sys_read (s32 a0) a1 a2; mret (err_if_negative ENOSYS retval)
  else if callno =? SYS__exit then in_p (Proc.sys__exit (s32 a0));; sleep
  else if callno =? SYS_waitpid then
    retval ← waitpid (s32 a0) a1; mret (err_if_negative ENOSYS retval)
  else if callno =? SYS_getpid then
    retval ← in_p Proc.sys_getpid; mret (err_if_negative ENOSYS retval)
  else if callno =? SYS_fork then
    '(err, retval) ← in_p (Proc.sys_fork (fe_mem env) (fe_ok env) (fe_sem env) (fe_junk env)
        (fe_asok env) (fe_asjunk env) (fe_tfok env) (fe_forked env));
    mret (default 0 retval, err)
  else mret (0, ENOSYS).

Definition the_cpu (s : fsys) : cpu := y_cpu (Proc.p_sync (f_p s)).

Definition check_spl : F unit :=
  s ← get;
  kassert (t_curspl (the_cpu s) =? 0) "curthread->t_curspl == 0";;
  kassert (t_iplhigh_count (the_cpu s) =? 0) "curthread->t_iplhigh_count == 0".

Definition finish (tf : trapframe) (r : Z * Z) : trapframe :=
  let '(retval, err) := r in
  let '(v0, a3) := if negb (err =? 0) then (u32 err, 1) else (u32 retval, 0) in
  Trapframe v0 (tf_a0 tf) (tf_a1 tf) (tf_a2 tf) a3 (u32 (tf_epc tf + 4)).

Definition syscall (tf : trapframe) : F trapframe :=
  check_spl;;
  r ← dispatch tf;
  check_spl;;
  mret (finish tf r).

End Dispatch.

(** [enter_forked_process]: the child's registers. *)
Definition enter_forked_process (tf : trapframe) : trapframe :=
  Trapframe 0 (tf_a0 tf) (tf_a1 tf) (tf_a2 tf) 0 (u32 (tf_epc tf + 4)).

Section DispatchProofs.
Context `{Fileio} `{Vfs.Vfsops}.
Variables (halt : Z -> F Z) (ts : Z) (user_string : Z -> string) (env : fork_env).

(** Thread state at system call entry. *)
Definition at_entry (s : fsys) : Prop := t_curspl (the_cpu s) = 0 /\ t_iplhigh_count (the_cpu s) = 0.

Lemma check_spl_run {A} (k : unit -> F A) s : at_entry s -> mbind k check_spl s = k tt s.
Proof. intros [H1 H2]. unfold check_spl. mrun. by rewrite !bind_kassert by (by apply Z.eqb_eq). Qed.

Lemma syscall_run tf s r s' :
  at_entry s -> dispatch halt ts user_string env tf s = Ret (r, s') -> at_entry s' ->
  syscall halt ts user_string env tf s = Ret (finish tf r, s').
Proof.
  intros He Hd He'. unfold syscall. rewrite check_spl_run by done.
  rewrite (bind_run _ _ _ _ _ Hd). by rewrite check_spl_run.
Qed.

(** syscall_convention. Whenever a system call comes back to its caller, the
    program counter has moved past the instruction, the argument registers are
    unchanged, [a3] is 0 with a result in [v0] or 1 with a nonzero error number
    there, no priority level is left raised; and on the way out of [fork] the
    child sees what the parent sees, with the result 0. *)
Theorem syscall_convention tf s tf' s' :
  syscall halt ts user_string env tf s = Ret (tf', s') ->
  tf_epc tf' = u32 (tf_epc tf + 4) /\ tf_a0 tf' = tf_a0 tf /\ tf_a1 tf' = tf_a1 tf /\ tf_a2 tf' = tf_a2 tf /\
  at_entry s /\ at_entry s' /\
  (exists retval err, dispatch halt ts user_string env tf s = Ret ((retval, err), s') /\
     (err = 0 /\ tf_a3 tf' = 0 /\ tf_v0 tf' = u32 retval \/ err <> 0 /\ tf_a3 tf' = 1 /\ tf_v0 tf' = u32 err)) /\
  enter_forked_process tf = Trapframe 0 (tf_a0 tf') (tf_a1 tf') (tf_a2 tf') 0 (tf_epc tf').
Proof.
  assert (forall u v, check_spl u = Ret (tt, v) -> v = u /\ at_entry u) as Hchk.
  { intros u v. unfold check_spl, at_entry, the_cpu. mrun. unfold mbind, M_bind, kassert.
    destruct (Z.eqb_spec (t_curspl (y_cpu (Proc.p_sync (f_p u)))) 0); [|done].
    destruct (Z.eqb_spec (t_iplhigh_count (y_cpu (Proc.p_sync (f_p u)))) 0); [|done].
    intros Hr. apply Ret_inj in Hr as [_ <-]. done. }
  unfold syscall. intros Hr. apply bind_Ret_inv in Hr as ([] & s0 & [-> He]%Hchk & Hr).
  apply bind_Ret_inv in Hr as ([retval err] & s1 & Hd & Hr). apply bind_Ret_inv in Hr as ([] & s2 & [-> He']%Hchk & Hr).
  apply Ret_inj in Hr as [<- <-]. unfold finish, enter_forked_process.
  destruct (Z.eqb_spec err 0) as [->|Hne]; cbn [negb]; simpl; split_and!; try done; try apply He; try apply He';
    exists retval; eexists; (split; [exact Hd|]); auto.
Qed.

(** syscall_unknown. A system call number the kernel does not handle fails with
    [ENOSYS] and changes nothing. *)
Theorem syscall_unknown tf s :
  at_entry s ->
  s32 (tf_v0 tf) ∉ [SYS_reboot; SYS___time; SYS_open; SYS_close; SYS_remove; SYS_write; SYS_read; SYS__exit; SYS_waitpid; SYS_getpid; SYS_fork] ->
  syscall halt ts user_string env tf s =
    Ret (Trapframe ENOSYS (tf_a0 tf) (tf_a1 tf) (tf_a2 tf) 1 (u32 (tf_epc tf + 4)), s).
Proof.
  intros He Hno. rewrite (syscall_run tf s (0, ENOSYS) s He); [done| |done]. unfold dispatch.
  repeat match goal with |- context [s32 (tf_v0 tf) =? ?n] =>
    rewrite (proj2 (Z.eqb_neq (s32 (tf_v0 tf)) n)) by (intros Heq; apply Hno; rewrite Heq; set_solver) end. done.
Qed.

(** io_error_as_success. When the file system refuses a [read] with a positive error
    number, the caller is told that the call succeeded ([a3] is 0) and that as
    many bytes as the error number were read. *)
Theorem io_error_as_success tf s s1 p x f o v rc u' :
  at_entry s -> at_entry s1 -> s32 (tf_v0 tf) = SYS_read -> s32 (tf_a0 tf) <> STDIN_FILENO ->
  opened s p x (s32 (tf_a0 tf)) f o v -> 0 < rc < 2 ^ 31 ->
  vop_read_uio v (user_uio (tf_a1 tf) (tf_a2 tf) (of_offset o) Uio.UIO_READ (p_addrspace x ≫= fun _ => Some p)) s
    = Ret ((rc, u'), s1) ->
  syscall halt ts user_string env tf s =
    Ret (Trapframe rc (tf_a0 tf) (tf_a1 tf) (tf_a2 tf) 0 (u32 (tf_epc tf + 4)), s1).
Proof.
  intros He He1 Hno Hfd Ho Hrc Hio. rewrite (syscall_run tf s (rc, 0) s1 He); [| |done].
  { unfold finish. cbn [Z.eqb negb]. by rewrite u32_id by lia. }
  unfold dispatch. rewrite Hno. cbn [Z.eqb SYS_read SYS_reboot SYS___time SYS_open SYS_close SYS_remove SYS_write Pos.eqb].
  unfold sys_read. rewrite (proj2 (Z.eqb_neq _ _) Hfd). cbn [negb].
  assert (file_read (s32 (tf_a0 tf)) (tf_a1 tf) (tf_a2 tf) s = Ret (rc, s1)) as Hr.
  { unfold file_read. io_head Ho. rewrite (bind_run _ _ _ _ _ Hio). by rewrite (proj2 (Z.eqb_neq rc 0)) by lia. }
  rewrite (bind_run _ _ _ _ _ Hr). unfold err_if_negative. by rewrite (proj2 (Z.ltb_ge _ _)) by lia.
Qed.

End DispatchProofs.

(** ** Concrete runs *)

(** A disk on which every operation fails with [EIO]. *)
#[local] Instance broken_disk : Fileio :=
  { vop_read_uio _ u := mret (EIO, u); vop_write_uio _ u := mret (EIO, u) }.
#[local] Existing Instances Vfs.sample_vfsops Vfs.sample_vfs_ok.

Definition sample_env : fork_env :=
  ForkEnv None true (Some 0) (Proc.sample_proc "junk" 0 0) true (FileInfo 0 0 0 0 0) true 0.
Definition no_halt (code : Z) : F Z := panic "reboot operation failed".

Definition unknown_call : trapframe := Trapframe 99 0 0 0 0 0x400000.

Lemma sample_at_entry : at_entry sample_fsys.
Proof. by split. Qed.

Lemma syscall_unknown_witness :
  syscall no_halt 0x80000000 (fun _ => "f") sample_env unknown_call sample_fsys =
    Ret (Trapframe ENOSYS 0 0 0 1 0x400004, sample_fsys).
Proof.
  refine (syscall_unknown no_halt 0x80000000 (fun _ => "f") sample_env unknown_call sample_fsys sample_at_entry _).
  rewrite !not_elem_of_cons. split_and!; (done || apply not_elem_of_nil).
Defined.

Lemma syscall_convention_witness :
  exists tf' s', syscall no_halt 0x80000000 (fun _ => "f") sample_env unknown_call sample_fsys = Ret (tf', s') /\
    tf_epc tf' = 0x400004.
Proof.
  destruct (syscall no_halt 0x80000000 (fun _ => "f") sample_env unknown_call sample_fsys) as [[tf' s']| | |] eqn:Hr;
    [|discriminate Hr..].
  exists tf', s'. split; [reflexivity|]. exact (proj1 (syscall_convention _ _ _ _ _ _ _ _ Hr)).
Defined.

Lemma sample_opened_at_entry : at_entry sample_opened.
Proof. by split. Qed.

(** [read(3, 0x400000, 100)] *)
Definition read_call : trapframe := Trapframe SYS_read 3 0x400000 100 0 0x400000.

Lemma io_error_as_success_witness :
  syscall no_halt 0x80000000 (fun _ => "f") sample_env read_call sample_opened =
    Ret (Trapframe EIO 3 0x400000 100 0 0x400004, sample_opened).
Proof.
  refine (io_error_as_success no_halt 0x80000000 (fun _ => "f") sample_env read_call sample_opened sample_opened
    1 sample_opened_proc 0 (MkOpenfile (Some Vfs.SAMPLE_FILE) 0 1) Vfs.SAMPLE_FILE EIO _
    sample_opened_at_entry sample_opened_at_entry eq_refl _ sample_is_opened _ _).
  - done.
  - done.
  - reflexivity.
Defined.

End Syscall.
