(* ===== verification/LoadElf.v ===== *)
(** * Starting programs: [loadelf.c] and [runprogram.c]

    [load_elf] reads the headers of an executable and defines the regions of the
    address space; [runprogram] builds the address space around it.  Headers
    are decoded from the bytes of the file (big-endian).  Loading a segment into
    user memory goes through [read_user], the file system's transfer to a user
    address. *)

From S2P Require Import Prelude Sync KState Swapfile AddrSpace.

Definition ET_EXEC : Z := 2.
Definition EM_MACHINE : Z := 8.
Definition EV_CURRENT : Z := 1.
Definition PT_NULL : Z := 0.
Definition PT_LOAD : Z := 1.
Definition PT_PHDR : Z := 6.
Definition PT_MIPS_REGINFO : Z := 0x70000000.
Definition PF_R : Z := 4.
Definition PF_W : Z := 2.
Definition PF_X : Z := 1.

(** [Elf32_Ehdr], less the fields the kernel ignores. *)
Record ehdr := Ehdr {
  e_ident : list Z;
  e_type : Z; e_machine : Z; e_version : Z; e_entry : Z; e_phoff : Z;
  e_phentsize : Z; e_phnum : Z;
}.

(** [Elf32_Phdr] *)
Record phdr := Phdr {
  p_type : Z; p_offset : Z; p_vaddr : Z; p_paddr : Z;
  p_filesz : Z; p_memsz : Z; p_flags : Z; p_align : Z;
}.

Module LoadElf.
Import As.

Definition SIZEOF_EHDR : Z := 52.
Definition SIZEOF_PHDR : Z := 32.

(** ** Headers as bytes *)

Definition byte_at (bs : list Z) (i : nat) : Z := default 0 (bs !! i).
Definition be16 (bs : list Z) (i : nat) : Z := byte_at bs i * 256 + byte_at bs (i + 1).
Definition be32 (bs : list Z) (i : nat) : Z := be16 bs i * 65536 + be16 bs (i + 2).

Definition ehdr_of (bs : list Z) : ehdr :=
  Ehdr (take 16 bs) (be16 bs 16) (be16 bs 18) (be32 bs 20) (be32 bs 24) (be32 bs 28) (be16 bs 42) (be16 bs 44).

Definition phdr_of (bs : list Z) : phdr :=
  Phdr (be32 bs 0) (be32 bs 4) (be32 bs 8) (be32 bs 12) (be32 bs 16) (be32 bs 20) (be32 bs 24) (be32 bs 28).

Definition header_ok (eh : ehdr) : bool :=
  let id := byte_at (e_ident eh) in
  (id 0%nat =? 0x7f) && (id 1%nat =? 69) && (id 2%nat =? 76) && (id 3%nat =? 70) &&
  (id 4%nat =? 1) && (id 5%nat =? 2) && (id 6%nat =? EV_CURRENT) &&
  (e_version eh =? EV_CURRENT) && (e_type eh =? ET_EXEC) && (e_machine eh =? EM_MACHINE).

(** ** The loader *)

(** The current address space, which [as] points to. *)
Definition set_as (a : addrspace) (s : kst) : kst :=
  set_cur ((fun p => Vmproc (vp_id p) (vp_pid p) (Some a)) <$> k_cur s) s.

Section Loader.
Context `{Vnops}.

(** [read_user v offset vaddr memsize filesize executable]: [VOP_READ] of [filesize]
    bytes to the user address [vaddr]; the error code and [uio_resid]. *)
Variable read_user : Z -> Z -> Z -> Z -> Z -> bool -> K (Z * Z).

Definition load_segment (v offset vaddr memsize filesize is_executable : Z) : K Z :=
  let filesize := if memsize <? filesize then memsize else filesize in
  '(result, resid) ← read_user v offset vaddr memsize filesize (negb (is_executable =? 0));
  if negb (result =? 0) then mret result
  else if negb (resid =? 0) then mret ENOEXEC
  else mret result.

(** A header read with [uio_kinit] and [VOP_READ] of [len] bytes. *)
Definition read_header (v len offset : Z) : K (Z + list Z) :=
  '(result, bs) ← Swap.vn_read v offset len;
  if negb (result =? 0) then mret (inl result)
  else if negb (len - Z.of_nat (length bs) =? 0) then mret (inl ENOEXEC)
  else mret (inr bs).

Definition ph_position (eh : ehdr) (i : Z) : Z := u32 (e_phoff eh + i * e_phentsize eh).

(** The body shared by the two loops: header [i], [None] to skip it. *)
Definition read_phdr (v : Z) (eh : ehdr) (i : Z) : K (Z + option phdr) :=
  r ← read_header v SIZEOF_PHDR (ph_position eh i);
  match r with
  | inl err => mret (inl err)
  | inr bs =>
      let ph := phdr_of bs in
      if (p_type ph =? PT_NULL) || (p_type ph =? PT_PHDR) || (p_type ph =? PT_MIPS_REGINFO)
      then mret (inr None)
      else if p_type ph =? PT_LOAD then mret (inr (Some ph))
      else mret (inl ENOEXEC)
  end.

(** The first loop, from header [i] on with [n] headers left. *)
Fixpoint define_segments (v : Z) (eh : ehdr) (i : Z) (n : nat) : K Z :=
  match n with
  | O => mret 0
  | S n' =>
      r ← read_phdr v eh i;
      match r with
      | inl err => mret err
      | inr None => define_segments v eh (i + 1) n'
      | inr (Some ph) =>
          a ← Swap.deref_as;
          '(result, a') ← as_define_region a (p_vaddr ph) (p_memsz ph) (p_offset ph)
             (Z.land (p_flags ph) PF_R) (Z.land (p_flags ph) PF_W) (Z.land (p_flags ph) PF_X);
          modify (set_as a');;
          if negb (result =? 0) then mret result else define_segments v eh (i + 1) n'
      end
  end.

(** The second loop. *)
Fixpoint load_segments (v : Z) (eh : ehdr) (i : Z) (n : nat) : K Z :=
  match n with
  | O => mret 0
  | S n' =>
      r ← read_phdr v eh i;
      match r with
      | inl err => mret err
      | inr None => load_segments v eh (i + 1) n'
      | inr (Some ph) =>
          result ← load_segment v (p_offset ph) (p_vaddr ph) (p_memsz ph) (p_filesz ph)
                     (Z.land (p_flags ph) PF_X);
          if negb (result =? 0) then mret result else load_segments v eh (i + 1) n'
      end
  end.

(** The return value and [*entrypoint]. *)
Definition load_elf (v : Z) : K (Z * option Z) :=
  proc_getas;;
  r ← read_header v SIZEOF_EHDR 0;
  match r with
  | inl err => mret (err, None)
  | inr bs =>
      let eh := ehdr_of bs in
      if negb (header_ok eh) then mret (ENOEXEC, None)
      else
        result ← define_segments v eh 0 (Z.to_nat (e_phnum eh));
        if negb (result =? 0) then mret (result, None)
        else
          a ← Swap.deref_as;
          let result := as_prepare_load a in
          if negb (result =? 0) then mret (result, None)
          else
            result ← load_segments v eh 0 (Z.to_nat (e_phnum eh));
            if negb (result =? 0) then mret (result, None)
            else
              a ← Swap.deref_as;
              let result := as_complete_load a in
              if negb (result =? 0) then mret (result, None)
              else mret (0, Some (e_entry eh))
  end.

(** [opened]: the error or vnode of [vfs_open]; [close]: [vfs_close]; [ok] and
    [junk]: whether [as_create] gets memory, and what is in it.  The result is
    an error code, or the entry point and stack pointer that user mode is
    entered with. *)
Definition runprogram (opened : Z + Z) (close : Z -> K unit) (ok : bool) (junk : file_info) :
    K (Z + Z * Z) :=
  match opened with
  | inl result => mret (inl result)
  | inr v =>
      old ← proc_getas;
      kassert (bool_decide (old = None)) "proc_getas() == NULL";;
      match as_create ok junk with
      | None => close v;; mret (inl ENOMEM)
      | Some a =>
          proc_setas (Some a);;
          as_activate;;
          a ← Swap.deref_as;
          let fi := as_fi a in
          modify (set_as (Addrspace (as_vbase1 a) (as_npages1 a) (as_vbase2 a) (as_npages2 a)
            (as_stackpbase a) (allocated_pages a)
            (FileInfo (code_offset fi) (code_sz fi) (data_offset fi) (data_sz fi) v)));;
          '(result, entry) ← load_elf v;
          if negb (result =? 0) then mret (inl result)
          else
            a ← Swap.deref_as;
            let '(result, stackptr) := as_define_stack a in
            if negb (result =? 0) then mret (inl result)
            else
              entrypoint ← valid entry "entrypoint";
              mret (inr (entrypoint, stackptr))
      end
  end.

End Loader.

(** ** Decoding *)

Definition bytes16 (x : Z) : list Z := [x / 256 mod 256; x mod 256].
Definition bytes32 (x : Z) : list Z := bytes16 (x / 65536) ++ bytes16 (x mod 65536).

Definition phdr_bytes (ph : phdr) : list Z :=
  bytes32 (p_type ph) ++ bytes32 (p_offset ph) ++ bytes32 (p_vaddr ph) ++ bytes32 (p_paddr ph) ++
  bytes32 (p_filesz ph) ++ bytes32 (p_memsz ph) ++ bytes32 (p_flags ph) ++ bytes32 (p_align ph).

Definition phdr_fields (ph : phdr) : list Z :=
  [p_type ph; p_offset ph; p_vaddr ph; p_paddr ph; p_filesz ph; p_memsz ph; p_flags ph; p_align ph].

Lemma byte_at_app pre bs k : byte_at (pre ++ bs) (length pre + k) = byte_at bs k.
Proof. unfold byte_at. rewrite lookup_app_r by lia. do 2 f_equal. lia. Qed.

Lemma be32_bytes pre x post : 0 <= x < 2 ^ 32 -> be32 (pre ++ bytes32 x ++ post) (length pre) = x.
Proof.
  intros Hx. unfold be32, be16.
  rewrite <- (Nat.add_0_r (length pre)) at 1. rewrite <- !Nat.add_assoc, !byte_at_app.
  unfold byte_at, bytes32, bytes16. simpl. lia.
Qed.

Lemma phdr_of_bytes ph :
  Forall (fun x => 0 <= x < 2 ^ 32) (phdr_fields ph) -> phdr_of (phdr_bytes ph) = ph.
Proof.
  intros Hf. unfold phdr_fields in Hf. rewrite !Forall_cons in Hf.
  destruct Hf as (H0 & H1 & H2 & H3 & H4 & H5 & H6 & H7 & _).
  destruct ph as [a b c d e f g h]; simpl in *. unfold phdr_of, phdr_bytes; simpl p_type; simpl p_offset; simpl p_vaddr;
    simpl p_paddr; simpl p_filesz; simpl p_memsz; simpl p_flags; simpl p_align. f_equal.
  - exact (be32_bytes [] a _ H0).
  - exact (be32_bytes (bytes32 a) b _ H1).
  - exact (be32_bytes (bytes32 a ++ bytes32 b) c _ H2).
  - exact (be32_bytes (bytes32 a ++ bytes32 b ++ bytes32 c) d _ H3).
  - exact (be32_bytes (bytes32 a ++ bytes32 b ++ bytes32 c ++ bytes32 d) e _ H4).
  - exact (be32_bytes (bytes32 a ++ bytes32 b ++ bytes32 c ++ bytes32 d ++ bytes32 e) f _ H5).
  - exact (be32_bytes (bytes32 a ++ bytes32 b ++ bytes32 c ++ bytes32 d ++ bytes32 e ++ bytes32 f) g _ H6).
  - exact (be32_bytes (bytes32 a ++ bytes32 b ++ bytes32 c ++ bytes32 d ++ bytes32 e ++ bytes32 f ++ bytes32 g) h [] H7).
Qed.

(** ** The loops, on the list of headers in the file *)

Definition skipped (ph : phdr) : bool :=
  (p_type ph =? PT_NULL) || (p_type ph =? PT_PHDR) || (p_type ph =? PT_MIPS_REGINFO).
Definition loadable (ph : phdr) : bool := p_type ph =? PT_LOAD.

(** Header types the loader accepts, with fields of 32 bits. *)
Definition known (ph : phdr) : Prop :=
  (skipped ph = true \/ loadable ph = true) /\ Forall (fun x => 0 <= x < 2 ^ 32) (phdr_fields ph).

Definition to_load (phs : list phdr) : list phdr := filter (fun ph => loadable ph = true) phs.

(** The current address space. *)
Definition current (s : kst) (a : addrspace) : Prop := exists p, k_cur s = Some p /\ vp_addrspace p = Some a.

Section LoaderProofs.
Context `{Vnops}.

(** File [f] holds the headers [phs] from index [i] on. *)
Definition holds (f : vfile) (eh : ehdr) (i : Z) (phs : list phdr) : Prop :=
  forall k ph, phs !! k = Some ph ->
    vop_read f (ph_position eh (i + Z.of_nat k)) SIZEOF_PHDR = (0, phdr_bytes ph).

Lemma holds_cons f eh i ph phs :
  holds f eh i (ph :: phs) -> vop_read f (ph_position eh i) SIZEOF_PHDR = (0, phdr_bytes ph) /\ holds f eh (i + 1) phs.
Proof.
  intros Hh. split.
  - specialize (Hh 0%nat ph eq_refl). by rewrite Z.add_0_r in Hh.
  - intros k q Hk. specialize (Hh (S k) q Hk). by replace (i + 1 + Z.of_nat k) with (i + Z.of_nat (S k)) by lia.
Qed.

Lemma read_header_run v len off s f bs :
  Swap.opened s v f -> vop_read f off len = (0, bs) -> Z.of_nat (length bs) = len ->
  read_header v len off s = Ret (inr bs, s).
Proof.
  intros Hv Hr Hl. unfold read_header. rewrite (bind_run _ _ _ _ _ (Swap.vn_read_run _ _ _ _ _ Hv)), Hr. cbn [Z.eqb negb]. by rewrite Hl, Z.sub_diag.
Qed.

Lemma read_phdr_run v eh i s f ph phs :
  Swap.opened s v f -> holds f eh i (ph :: phs) -> known ph ->
  read_phdr v eh i s = Ret (inr (if skipped ph then None else Some ph), s).
Proof.
  intros Hv Hh [Ht Hf]. apply holds_cons in Hh as [Hr _]. unfold read_phdr.
  rewrite (bind_run _ _ _ _ _ (read_header_run _ _ _ _ _ _ Hv Hr ltac:(done))), (phdr_of_bytes ph Hf).
  unfold skipped, loadable in *. destruct (_ || _ || _); [done|]. destruct Ht as [[=]|Ht]. by rewrite Ht.
Qed.

Definition region_of (a : addrspace) (ph : phdr) : K (Z * addrspace) :=
  as_define_region a (p_vaddr ph) (p_memsz ph) (p_offset ph)
    (Z.land (p_flags ph) PF_R) (Z.land (p_flags ph) PF_W) (Z.land (p_flags ph) PF_X).

(** Define a region for each segment of a list. *)
Fixpoint define_all (ls : list phdr) : K Z :=
  match ls with
  | [] => mret 0
  | ph :: ls' =>
      a ← Swap.deref_as;
      '(result, a') ← region_of a ph;
      modify (set_as a');;
      if negb (result =? 0) then mret result else define_all ls'
  end.

Lemma bind_ext {A B} (c : K A) (k k' : A -> K B) s :
  (forall a s', c s = Ret (a, s') -> k a s' = k' a s') -> mbind k c s = mbind k' c s.
Proof. unfold mbind, M_bind. destruct (c s) as [[a s']| | |]; auto. Qed.

Lemma region_of_state a ph s r s' : region_of a ph s = Ret (r, s') -> s' = s.
Proof.
  unfold region_of, as_define_region. intros Hr. apply bind_Ret_inv in Hr as ([] & s1 & Hc & Hr).
  apply Ret_inj in Hr as [_ <-]. unfold vm_can_sleep in Hc. mrun_in Hc.
  destruct (cpu_exists _); [|by apply Ret_inj in Hc as [_ <-]].
  apply bind_Ret_inv in Hc as ([] & s2 & Hc1 & Hc2). unfold kassert in Hc1, Hc2.
  destruct (_ =? 0); [|done]. apply Ret_inj in Hc1 as [_ <-]. destruct (negb _); [|done].
  by apply Ret_inj in Hc2 as [_ <-].
Qed.

Lemma deref_as_state s a s' : Swap.deref_as s = Ret (a, s') -> s' = s.
Proof.
  unfold Swap.deref_as. mrun. unfold mbind, M_bind, valid.
  destruct (k_cur s) as [p|]; [|done]. destruct (vp_addrspace p); [|done]. intros Hr. by apply Ret_inj in Hr as [_ <-].
Qed.

(** The loop over the headers in the file is the loop over the loadable ones. *)
Lemma define_segments_refines v eh f phs i s :
  Swap.opened s v f -> holds f eh i phs -> Forall known phs ->
  define_segments v eh i (length phs) s = define_all (to_load phs) s.
Proof.
  revert i s. induction phs as [|ph phs IH]; intros i s Hv Hh Hk; [done|].
  apply Forall_cons in Hk as [Hph Hk]. cbn [length define_segments].
  rewrite (bind_run _ _ _ _ _ (read_phdr_run _ _ _ _ _ _ _ Hv Hh Hph)).
  apply holds_cons in Hh as [_ Hh]. unfold to_load. rewrite filter_cons.
  destruct Hph as [Ht _]. destruct (skipped ph) eqn:Hs.
  - rewrite decide_False; [by apply IH|]. unfold skipped, loadable, PT_NULL, PT_PHDR, PT_MIPS_REGINFO, PT_LOAD in *.
    rewrite Z.eqb_eq. intros Hl. by rewrite Hl in Hs.
  - destruct Ht as [|Ht]; [done|]. rewrite decide_True by done. cbn [define_all].
    apply bind_ext. intros a s1 ->%deref_as_state. apply bind_ext. intros [r a'] s1 Hr.
    apply region_of_state in Hr as ->. mrun. destruct (negb (r =? 0)); [done|]. by apply IH.
Qed.

(** The part of an address space that says what is mapped where. *)
Definition layout (a : addrspace) : list Z :=
  [as_vbase1 a; as_npages1 a; as_vbase2 a; as_npages2 a; code_offset (as_fi a); code_sz (as_fi a);
   data_offset (as_fi a); data_sz (as_fi a); fi_v (as_fi a)].

(** A transfer to user memory that succeeds, and keeps the layout (the faults it
    takes can allocate frames). *)
Definition reads (read_user : Z -> Z -> Z -> Z -> Z -> bool -> K (Z * Z)) : Prop :=
  forall v off va memsz filesz ex s a, current s a ->
    exists s' a', read_user v off va memsz filesz ex s = Ret ((0, 0), s') /\
      current s' a' /\ layout a' = layout a /\ k_vnodes s' = k_vnodes s /\ k_sync s' = k_sync s.

Lemma opened_same s s' v f : k_vnodes s' = k_vnodes s -> k_sync s' = k_sync s -> Swap.opened s v f -> Swap.opened s' v f.
Proof. unfold Swap.opened, can_sleep. by intros -> ->. Qed.

Lemma load_segments_run read_user v eh f phs i s a :
  reads read_user -> current s a -> Swap.opened s v f -> holds f eh i phs -> Forall known phs ->
  exists s' a', load_segments read_user v eh i (length phs) s = Ret (0, s') /\
    current s' a' /\ layout a' = layout a /\ k_vnodes s' = k_vnodes s.
Proof.
  intros Hread. revert i s a. induction phs as [|ph phs IH]; intros i s a Ha Hv Hh Hk; [by exists s, a|].
  apply Forall_cons in Hk as [Hph Hk]. cbn [length load_segments].
  rewrite (bind_run _ _ _ _ _ (read_phdr_run _ _ _ _ _ _ _ Hv Hh Hph)).
  apply holds_cons in Hh as [_ Hh]. destruct (skipped ph); [by apply IH|].
  unfold load_segment.
  match goal with |- context [read_user ?v ?o ?va ?m ?fs ?ex] =>
    destruct (Hread v o va m fs ex s a Ha) as (s1 & a1 & Hr & Ha1 & Hl1 & Hv1 & Hs1) end.
  rewrite bind_assoc, (bind_run _ _ _ _ _ Hr). cbn [Z.eqb negb]. mrun. cbn [Z.eqb negb].
  destruct (IH (i + 1) s1 a1) as (s2 & a2 & Hr2 & Ha2 & Hl2 & Hv2); [done|by apply (opened_same s)|done|done|].
  exists s2, a2. split_and!; [done|done|congruence|congruence].
Qed.

Lemma deref_as_run s a : current s a -> Swap.deref_as s = Ret (a, s).
Proof.
  intros (p & Hp & Ha). unfold Swap.deref_as. mrun. rewrite (bind_valid _ _ _ _ p) by done. by rewrite Ha.
Qed.

Lemma current_set_as s a a' : current s a -> current (set_as a' s) a'.
Proof. intros (p & Hp & _). unfold current, set_as. simpl. rewrite Hp. simpl. by eexists. Qed.

(** The segment's range leaves the pages of the 32-bit address space alone, and
    does not start in page 0. *)
Definition placed (ph : phdr) : Prop :=
  PAGE_SIZE <= p_vaddr ph /\ 0 <= p_memsz ph /\ p_vaddr ph + p_memsz ph + 2 * PAGE_SIZE < 2 ^ 32.

Definition page_base (ph : phdr) : Z := p_vaddr ph - p_vaddr ph mod PAGE_SIZE.
Definition page_count (ph : phdr) : Z := region_pages (p_vaddr ph mod PAGE_SIZE) (p_memsz ph).

Lemma define_all_app ls ls' s :
  define_all (ls ++ ls') s = (result ← define_all ls; if negb (result =? 0) then mret result else define_all ls') s.
Proof.
  revert s. induction ls as [|ph ls IH]; intros s; cbn [define_all app]; [done|].
  rewrite bind_assoc. apply bind_ext. intros a s1 _. rewrite bind_assoc. apply bind_ext. intros [r a'] s2 _.
  mrun. destruct (negb (r =? 0)) eqn:Hr; [|apply IH]. mrun. by rewrite Hr.
Qed.

(** Two segments become the two regions. *)
Lemma define_two s a c d :
  can_sleep s -> current s a -> as_vbase1 a = 0 -> as_vbase2 a = 0 -> placed c -> placed d ->
  exists s' a', define_all [c; d] s = Ret (0, s') /\ current s' a' /\ k_vnodes s' = k_vnodes s /\ k_sync s' = k_sync s /\
    as_vbase1 a' = page_base c /\ as_npages1 a' = page_count c /\ as_vbase2 a' = page_base d /\ as_npages2 a' = page_count d /\
    code_offset (as_fi a') = p_offset c /\ code_sz (as_fi a') = p_memsz c /\
    data_offset (as_fi a') = p_offset d /\ data_sz (as_fi a') = p_memsz d.
Proof.
  intros Hs Ha Hv1 Hv2 (Hc1 & Hc2 & Hc3) (Hd1 & Hd2 & Hd3). cbn [define_all].
  rewrite (bind_run _ _ _ _ _ (deref_as_run _ _ Ha)).
  destruct (define_region_run s a (p_vaddr c) (p_memsz c) (p_offset c) (Z.land (p_flags c) PF_R) (Z.land (p_flags c) PF_W)
    (Z.land (p_flags c) PF_X) Hs ltac:(plia) Hc2 Hc3) as (rc & a1 & Hr1 & _ & _ & _ & Hcase).
  rewrite Hv1, Z.eqb_refl in Hcase. destruct Hcase as (-> & Hb1 & Hn1 & Ho1 & Hz1 & Hb2 & Hn2).
  unfold region_of. rewrite (bind_run _ _ _ _ _ Hr1). mrun. cbn [Z.eqb negb].
  pose proof (current_set_as s a a1 Ha) as Ha1. rewrite (bind_run _ _ _ _ _ (deref_as_run _ _ Ha1)).
  destruct (define_region_run (set_as a1 s) a1 (p_vaddr d) (p_memsz d) (p_offset d) (Z.land (p_flags d) PF_R)
    (Z.land (p_flags d) PF_W) (Z.land (p_flags d) PF_X) Hs ltac:(plia) Hd2 Hd3) as (rc & a2 & Hr2 & _ & _ & _ & Hcase).
  rewrite (proj2 (Z.eqb_neq (as_vbase1 a1) 0)) in Hcase by (rewrite Hb1; plia).
  rewrite Hb2, Hv2, Z.eqb_refl in Hcase. destruct Hcase as (-> & Hb2' & Hn2' & Ho2 & Hz2 & Hb1' & Hn1').
  assert (code_offset (as_fi a2) = code_offset (as_fi a1) /\ code_sz (as_fi a2) = code_sz (as_fi a1)) as [Hco Hcz].
  { unfold as_define_region in Hr2. rewrite (bind_run _ _ _ _ _ (vm_can_sleep_run (set_as a1 s) Hs)) in Hr2.
    apply Ret_inj in Hr2 as [Hr2 _]. rewrite (proj2 (Z.eqb_neq (as_vbase1 a1) 0)), Hb2, Hv2, Z.eqb_refl in Hr2 by (rewrite Hb1; plia).
    injection Hr2 as <-. done. }
  rewrite (bind_run _ _ _ _ _ Hr2). mrun. cbn [Z.eqb negb].
  eexists _, a2. split; [reflexivity|]. split; [exact (current_set_as _ _ a2 Ha1)|].
  unfold page_base, page_count. split_and!; try done; congruence.
Qed.

(** The current process [p] can take its own lock and sleep. *)
Definition can_run (s : kst) (p : vmproc) : Prop :=
  quiet s /\ free (p_lock (vp_id p)) s /\ can_sleep s /\ k_cur s = Some p.

(** An executable file: a valid header followed by the program headers [phs]. *)
Definition executable (f : vfile) (bs : list Z) (phs : list phdr) : Prop :=
  vop_read f 0 SIZEOF_EHDR = (0, bs) /\ Z.of_nat (length bs) = SIZEOF_EHDR /\ header_ok (ehdr_of bs) = true /\
  Z.of_nat (length phs) = e_phnum (ehdr_of bs) /\ holds f (ehdr_of bs) 0 phs /\ Forall known phs.

Lemma load_elf_head read_user s p v f bs phs :
  can_run s p -> Swap.opened s v f -> executable f bs phs ->
  load_elf read_user v s =
    (result ← define_all (to_load phs);
     if negb (result =? 0) then mret (result, None)
     else
       a ← Swap.deref_as;
       let result := as_prepare_load a in
       if negb (result =? 0) then mret (result, None)
       else
         result ← load_segments read_user v (ehdr_of bs) 0 (length phs);
         if negb (result =? 0) then mret (result, None)
         else
           a ← Swap.deref_as;
           let result := as_complete_load a in
           if negb (result =? 0) then mret (result, None) else mret (0, Some (e_entry (ehdr_of bs)))) s.
Proof.
  intros (Hq & Hf & Hs & Hp) Hv (Hr & Hl & Hok & Hn & Hh & Hk). unfold load_elf.
  rewrite (bind_run _ _ _ _ _ (proc_getas_run s p Hq Hf Hp)).
  rewrite (bind_run _ _ _ _ _ (read_header_run _ _ _ _ _ _ Hv Hr Hl)), Hok. cbn [negb].
  rewrite <- Hn, Nat2Z.id. unfold mbind at 1 7, M_bind.
  by rewrite (define_segments_refines v (ehdr_of bs) f phs 0 s Hv Hh Hk).
Qed.

(** load_elf_layout. For an executable whose program headers include exactly two
    loadable segments, placed within the 32-bit address space and not in page
    0, [load_elf] succeeds with the entry point of the header, and the current
    address space has the first segment as its code region and the second as
    its data region: base page, number of pages and file offset are those of
    the segment, and the size to read from the file is the segment's size in
    memory. *)
Theorem load_elf_layout read_user s p a v f bs phs c d :
  reads read_user -> can_run s p -> vp_addrspace p = Some a -> as_vbase1 a = 0 -> as_vbase2 a = 0 ->
  Swap.opened s v f -> executable f bs phs -> to_load phs = [c; d] -> placed c -> placed d ->
  exists s' a', load_elf read_user v s = Ret ((0, Some (e_entry (ehdr_of bs))), s') /\ current s' a' /\
    as_vbase1 a' = page_base c /\ as_npages1 a' = page_count c /\ as_vbase2 a' = page_base d /\ as_npages2 a' = page_count d /\
    code_offset (as_fi a') = p_offset c /\ code_sz (as_fi a') = p_memsz c /\
    data_offset (as_fi a') = p_offset d /\ data_sz (as_fi a') = p_memsz d.
Proof.
  intros Hread Hcr Ha Hv1 Hv2 Hv Hex Hl Hpc Hpd. pose proof Hcr as (_ & _ & Hs & Hp).
  rewrite (load_elf_head _ _ _ _ _ _ _ Hcr Hv Hex), Hl.
  destruct (define_two s a c d Hs ltac:(by exists p) Hv1 Hv2 Hpc Hpd)
    as (s1 & a1 & Hd & Ha1 & Hvn & Hsy & H1 & H2 & H3 & H4 & H5 & H6 & H7 & H8).
  rewrite (bind_run _ _ _ _ _ Hd). cbn [Z.eqb negb]. rewrite (bind_run _ _ _ _ _ (deref_as_run _ _ Ha1)). cbv zeta.
  cbn [as_prepare_load Z.eqb negb]. destruct Hex as (_ & _ & _ & _ & Hh & Hk).
  destruct (load_segments_run read_user v (ehdr_of bs) f phs 0 s1 a1 Hread Ha1 ltac:(by apply (opened_same s)) Hh Hk)
    as (s2 & a2 & Hld & Ha2 & Hlay & _).
  rewrite (bind_run _ _ _ _ _ Hld). cbn [Z.eqb negb]. rewrite (bind_run _ _ _ _ _ (deref_as_run _ _ Ha2)).
  injection Hlay as L1 L2 L3 L4 L5 L6 L7 L8 L9. exists s2, a2. split_and!; [done|done|congruence..].
Qed.

(** load_elf_rejects. [load_elf] refuses a file it cannot read, a truncated header, a
    file that is not a 32-bit big-endian MIPS executable (all before anything
    is changed), and an executable with more than two loadable segments, with
    [ENOSYS]. *)
Theorem load_elf_rejects read_user s p v f :
  can_run s p -> Swap.opened s v f ->
  (forall rc bs, vop_read f 0 SIZEOF_EHDR = (rc, bs) ->
     (rc <> 0 -> load_elf read_user v s = Ret ((rc, None), s)) /\
     (rc = 0 -> Z.of_nat (length bs) <> SIZEOF_EHDR -> load_elf read_user v s = Ret ((ENOEXEC, None), s)) /\
     (rc = 0 -> Z.of_nat (length bs) = SIZEOF_EHDR -> header_ok (ehdr_of bs) = false ->
        load_elf read_user v s = Ret ((ENOEXEC, None), s))) /\
  (forall a bs phs c d e rest, vp_addrspace p = Some a -> as_vbase1 a = 0 -> as_vbase2 a = 0 ->
     executable f bs phs -> to_load phs = c :: d :: e :: rest -> placed c -> placed d -> placed e ->
     exists s', load_elf read_user v s = Ret ((ENOSYS, None), s')).
Proof.
  intros Hcr Hv. pose proof Hcr as (Hq & Hf & Hs & Hp). split.
  - intros rc bs Hr. unfold load_elf. rewrite (bind_run _ _ _ _ _ (proc_getas_run s p Hq Hf Hp)).
    unfold read_header. rewrite bind_assoc, (bind_run _ _ _ _ _ (Swap.vn_read_run _ _ _ _ _ Hv)), Hr. split_and!.
    + intros Hne. by rewrite (proj2 (Z.eqb_neq _ _) Hne).
    + intros -> Hl. cbn [Z.eqb negb]. by rewrite (proj2 (Z.eqb_neq (SIZEOF_EHDR - _) 0)) by lia.
    + intros -> Hl Hbad. cbn [Z.eqb negb]. rewrite Hl, Z.sub_diag. cbn [Z.eqb negb]. mrun. by rewrite Hbad.
  - intros a bs phs c d e rest Ha Hv1 Hv2 Hex Hl Hpc Hpd (He1 & He2 & He3).
    rewrite (load_elf_head _ _ _ _ _ _ _ Hcr Hv Hex), Hl.
    destruct (define_two s a c d Hs ltac:(by exists p) Hv1 Hv2 Hpc Hpd)
      as (s1 & a1 & Hd & Ha1 & Hvn & Hsy & H1 & H2 & H3 & H4 & _).
    assert (exists s', define_all (c :: d :: e :: rest) s = Ret (ENOSYS, s')) as [s' Hall].
    { assert (can_sleep s1) as Hs1 by (unfold can_sleep in *; by rewrite Hsy).
      destruct (define_region_run s1 a1 (p_vaddr e) (p_memsz e) (p_offset e) (Z.land (p_flags e) PF_R)
        (Z.land (p_flags e) PF_W) (Z.land (p_flags e) PF_X) Hs1 ltac:(plia) He2 He3) as (rc & a2 & Hr2 & _ & _ & _ & Hcase).
      destruct Hpc as (Hc1 & _), Hpd as (Hd1 & _).
      rewrite (proj2 (Z.eqb_neq (as_vbase1 a1) 0)), (proj2 (Z.eqb_neq (as_vbase2 a1) 0)) in Hcase
        by (rewrite ?H1, ?H3; unfold page_base; plia).
      destruct Hcase as [-> ->]. eexists.
      change (c :: d :: e :: rest) with ([c; d] ++ e :: rest). rewrite define_all_app.
      rewrite (bind_run _ _ _ _ _ Hd). cbn [Z.eqb negb define_all].
      rewrite (bind_run _ _ _ _ _ (deref_as_run _ _ Ha1)). unfold region_of. rewrite (bind_run _ _ _ _ _ Hr2). done. }
    exists s'. rewrite (bind_run _ _ _ _ _ Hall). done.
Qed.

End LoaderProofs.

(** ** A small executable *)

Definition sample_phdrs : list phdr :=
  [Phdr PT_MIPS_REGINFO 148 0x400000 0x400000 24 24 4 4;
   Phdr PT_LOAD 0 0x400000 0x400000 0x1200 0x1200 5 0x1000;
   Phdr PT_LOAD 0x2000 0x10000000 0x10000000 0x100 0x2100 6 0x1000].

(** The magic bytes, an executable for MIPS with the entry point 0x400100 and
    [n] headers from offset 52 on. *)
Definition sample_ehdr (n : Z) : list Z :=
  [0x7f; 69; 76; 70; 1; 2; 1; 0; 0; 0; 0; 0; 0; 0; 0; 0] ++ bytes16 2 ++ bytes16 8 ++ bytes32 1 ++
  bytes32 0x400100 ++ bytes32 52 ++ bytes32 0 ++ bytes32 0 ++ bytes16 52 ++ bytes16 32 ++ bytes16 n ++
  bytes16 0 ++ bytes16 0 ++ bytes16 0.

Definition sample_bytes (phs : list phdr) : list Z :=
  sample_ehdr (Z.of_nat (length phs)) ++ concat (phdr_bytes <$> phs).

Definition sample_exe (phs : list phdr) : vfile :=
  Vfile 0x3000 (fun x => default 0 (sample_bytes phs !! Z.to_nat x)).

Definition sample_space : addrspace := Addrspace 0 0 0 0 0 0 (FileInfo 0 0 0 0 5).
Definition sample_loader (f : vfile) : kst :=
  set_vnodes {[ 5 := f ]} (set_cur (Some (Vmproc 1 7 (Some sample_space))) sample).

(** A transfer that stores nothing. *)
Definition no_store (v off va memsz filesz : Z) (ex : bool) : K (Z * Z) := mret (0, 0).

Lemma no_store_reads : reads no_store.
Proof. intros v off va memsz filesz ex s a Ha. by exists s, a. Qed.

Lemma sample_opened f : Swap.opened (sample_loader f) 5 f.
Proof. by split. Qed.

Lemma sample_can_run f : can_run (sample_loader f) (Vmproc 1 7 (Some sample_space)).
Proof. split_and!; try done; vm_compute; split_and!; (done || by left). Qed.

Lemma sample_executable : executable (sample_exe sample_phdrs) (sample_ehdr 3) sample_phdrs.
Proof.
  split_and!; [by vm_compute|done|by vm_compute|done| |].
  - intros k ph Hk. destruct k as [|[|[|k]]]; simpl in Hk; [injection Hk as <-..|done]; by vm_compute.
  - repeat apply Forall_cons_2; try apply Forall_nil_2; (split; [vm_compute; auto|repeat constructor; done]).
Qed.

Lemma load_elf_layout_witness :
  exists s' a', load_elf no_store 5 (sample_loader (sample_exe sample_phdrs)) = Ret ((0, Some 0x400100), s') /\ current s' a' /\
    as_vbase1 a' = 0x400000 /\ as_npages1 a' = 2 /\ data_sz (as_fi a') = 0x2100.
Proof.
  destruct (load_elf_layout no_store (sample_loader (sample_exe sample_phdrs)) (Vmproc 1 7 (Some sample_space)) sample_space 5
    (sample_exe sample_phdrs) (sample_ehdr 3) sample_phdrs
    (Phdr PT_LOAD 0 0x400000 0x400000 0x1200 0x1200 5 0x1000) (Phdr PT_LOAD 0x2000 0x10000000 0x10000000 0x100 0x2100 6 0x1000)
    no_store_reads (sample_can_run _) eq_refl eq_refl eq_refl (sample_opened _) sample_executable eq_refl
    ltac:(by vm_compute) ltac:(by vm_compute)) as (s' & a' & Hr & Ha & H1 & H2 & _ & _ & _ & _ & _ & H8).
  exists s', a'. split_and!; [exact Hr|exact Ha|exact H1|exact H2|exact H8].
Defined.

Definition empty_file : vfile := Vfile 0 (fun _ => 0).

Lemma load_elf_rejects_witness :
  load_elf no_store 5 (sample_loader empty_file) = Ret ((ENOEXEC, None), sample_loader empty_file).
Proof.
  destruct (load_elf_rejects no_store (sample_loader empty_file) (Vmproc 1 7 (Some sample_space)) 5 empty_file
    (sample_can_run _) (sample_opened _)) as [Hr _].
  apply (proj1 (proj2 (Hr 0 [] eq_refl)) eq_refl). done.
Defined.

End LoadElf.
