(* ===== verification/Threads.v ===== *)
(** * Thread lists and semaphores: [threadlist.c], [synch.c]

    [Module ThreadList] models the doubly linked lists of
    [kern/thread/threadlist.c] with their two sentinel nodes, on a store of
    nodes; the theorems say that the operations are those of a list.  [Module
    Sem] is a step relation for any number of threads calling [P] and [V] of
    [kern/thread/synch.c] on one semaphore with its wait channel. *)

From S2P Require Import Prelude.

(** A node is the head or the tail of a list, or the node inside a thread. *)
Inductive node := Head (tl : Z) | Tail (tl : Z) | Listnode (t : Z).

#[export] Instance node_eq_dec : EqDecision node.
Proof. solve_decision. Defined.

#[export] Instance node_countable : Countable node.
Proof.
  refine (inj_countable'
    (fun n => match n with Head t => (0, t) | Tail t => (1, t) | Listnode t => (2, t) end)
    (fun c => match c with (0, t) => Head t | (1, t) => Tail t | (_, t) => Listnode t end) _).
  by intros [].
Defined.

(** [struct threadlistnode] *)
Record threadlistnode := Tln { tln_prev : option node; tln_next : option node; tln_self : option Z }.

Record tls := Tls { tnodes : gmap node threadlistnode; tl_count : gmap Z Z }.

Abbreviation T := (M tls).

Module ThreadList.

Definition deref (n : node) : T threadlistnode := s ← get; valid (tnodes s !! n) "node".
Definition store (n : node) (x : threadlistnode) : T unit :=
  modify (fun s => Tls (<[n := x]> (tnodes s)) (tl_count s)).
Definition ptr (o : option node) : T node := valid o "NULL".

Definition with_prev (p : option node) (x : threadlistnode) : threadlistnode := Tln p (tln_next x) (tln_self x).
Definition with_next (p : option node) (x : threadlistnode) : threadlistnode := Tln (tln_prev x) p (tln_self x).

Definition set_prev (n : node) (p : option node) : T unit := x ← deref n; store n (with_prev p x).
Definition set_next (n : node) (p : option node) : T unit := x ← deref n; store n (with_next p x).

Definition get_count (tl : Z) : T Z := s ← get; valid (tl_count s !! tl) "tl".
Definition set_count (tl c : Z) : T unit := modify (fun s => Tls (tnodes s) (<[tl := c]> (tl_count s))).

(** A thread is identified by a nonzero address. *)
Definition threadlistnode_init (tln : node) (t : Z) : T unit :=
  kassert (negb (t =? 0)) "t != NULL";;
  store tln (Tln None None (Some t)).

Definition threadlistnode_cleanup (tln : node) : T unit :=
  x ← deref tln;
  kassert (bool_decide (tln_next x = None)) "tln->tln_next == NULL";;
  kassert (bool_decide (tln_prev x = None)) "tln->tln_prev == NULL";;
  kassert (bool_decide (is_Some (tln_self x))) "tln->tln_self != NULL".

Definition threadlist_init (tl : Z) : T unit :=
  store (Head tl) (Tln None (Some (Tail tl)) None);;
  store (Tail tl) (Tln (Some (Head tl)) None None);;
  set_count tl 0.

Definition threadlist_isempty (tl : Z) : T bool := c ← get_count tl; mret (c =? 0).

Definition threadlist_cleanup (tl : Z) : T unit :=
  e ← threadlist_isempty tl;
  kassert e "threadlist_isempty(tl)";;
  c ← get_count tl;
  kassert (c =? 0) "tl->tl_count == 0".

Definition threadlist_insertafternode (onlist : node) (t : Z) : T unit :=
  let addee := Listnode t in
  set_prev addee (Some onlist);;
  o ← deref onlist;
  set_next addee (tln_next o);;
  a ← deref addee;
  p ← ptr (tln_prev a);
  set_next p (Some addee);;
  a ← deref addee;
  n ← ptr (tln_next a);
  set_prev n (Some addee).

Definition threadlist_insertbeforenode (t : Z) (onlist : node) : T unit :=
  let addee := Listnode t in
  o ← deref onlist;
  set_prev addee (tln_prev o);;
  set_next addee (Some onlist);;
  a ← deref addee;
  p ← ptr (tln_prev a);
  set_next p (Some addee);;
  a ← deref addee;
  n ← ptr (tln_next a);
  set_prev n (Some addee).

Definition threadlist_removenode (tln : node) : T unit :=
  x ← deref tln;
  p ← ptr (tln_prev x);
  set_next p (tln_next x);;
  x ← deref tln;
  n ← ptr (tln_next x);
  set_prev n (tln_prev x);;
  set_prev tln None;;
  set_next tln None.

Definition count_by (tl d : Z) : T unit := c ← get_count tl; set_count tl (u32 (c + d)).

Definition threadlist_addhead (tl t : Z) : T unit :=
  threadlist_insertafternode (Head tl) t;; count_by tl 1.

Definition threadlist_addtail (tl t : Z) : T unit :=
  threadlist_insertbeforenode t (Tail tl);; count_by tl 1.

Definition threadlist_remhead (tl : Z) : T (option Z) :=
  h ← deref (Head tl);
  tln ← ptr (tln_next h);
  x ← deref tln;
  match tln_next x with
  | None => mret None
  | Some _ =>
      threadlist_removenode tln;;
      count_by tl (-1);;
      x ← deref tln;
      mret (tln_self x)
  end.

Definition threadlist_remtail (tl : Z) : T (option Z) :=
  h ← deref (Tail tl);
  tln ← ptr (tln_prev h);
  x ← deref tln;
  match tln_prev x with
  | None => mret None
  | Some _ =>
      threadlist_removenode tln;;
      count_by tl (-1);;
      x ← deref tln;
      mret (tln_self x)
  end.

Definition threadlist_insertafter (tl onlist addee : Z) : T unit :=
  threadlist_insertafternode (Listnode onlist) addee;; count_by tl 1.

Definition threadlist_insertbefore (tl addee onlist : Z) : T unit :=
  threadlist_insertbeforenode addee (Listnode onlist);; count_by tl 1.

Definition threadlist_remove (tl t : Z) : T unit :=
  threadlist_removenode (Listnode t);; count_by tl (-1).

(** ** Chains of nodes *)

Definition owner (n : node) : option Z := match n with Listnode t => Some t | _ => None end.

Definition first (ns : list node) (q : option node) : option node :=
  match ns with n :: _ => Some n | [] => q end.
Fixpoint final (p : option node) (ns : list node) : option node :=
  match ns with [] => p | n :: ns' => final (Some n) ns' end.

(** The nodes [ns] are linked in both directions, after [p] and before [q]. *)
Fixpoint dll (m : gmap node threadlistnode) (p : option node) (ns : list node) (q : option node) : Prop :=
  match ns with
  | [] => True
  | n :: ns' => m !! n = Some (Tln p (first ns' q) (owner n)) /\ dll m (Some n) ns' q
  end.

Lemma dll_app m p xs ys q :
  dll m p (xs ++ ys) q <-> dll m p xs (first ys q) /\ dll m (final p xs) ys q.
Proof.
  revert p. induction xs as [|x xs IH]; intros p; cbn [app dll final]; [tauto|].
  rewrite IH. destruct xs; simpl; tauto.
Qed.

Lemma dll_frame m m' p ns q :
  (forall n, n ∈ ns -> m' !! n = m !! n) -> dll m p ns q -> dll m' p ns q.
Proof.
  revert p. induction ns as [|n ns IH]; intros p Hm; cbn [dll]; [done|]. intros [Hn Hns]. split.
  - rewrite Hm by apply list_elem_of_here. exact Hn.
  - apply IH; [|done]. intros k Hk. apply Hm. by apply list_elem_of_further.
Qed.

Lemma bind_node {A} n (k : threadlistnode -> T A) s x :
  tnodes s !! n = Some x -> mbind k (deref n) s = k x s.
Proof. intros Hn. unfold deref. mrun. by rewrite (bind_valid _ _ _ _ x). Qed.

Definition upd (n : node) (x : threadlistnode) (s : tls) : tls := Tls (<[n := x]> (tnodes s)) (tl_count s).

Lemma set_prev_run n p s x : tnodes s !! n = Some x -> set_prev n p s = Ret (tt, upd n (with_prev p x) s).
Proof. intros Hn. unfold set_prev. by rewrite (bind_node _ _ _ x). Qed.

Lemma set_next_run n p s x : tnodes s !! n = Some x -> set_next n p s = Ret (tt, upd n (with_next p x) s).
Proof. intros Hn. unfold set_next. by rewrite (bind_node _ _ _ x). Qed.

Lemma bind_ptr {A} n (k : node -> T A) s : mbind k (ptr (Some n)) s = k n s.
Proof. done. Qed.

(** Look a node up through updates of other nodes. *)
Ltac look := cbn [upd tnodes]; repeat (rewrite lookup_insert_eq || rewrite lookup_insert_ne by done); done.

(** Step over reads and writes of nodes whose contents are known. *)
Ltac nrun := repeat first
  [ mrun1; cbv beta
  | progress cbn [with_prev with_next tln_prev tln_next tln_self]
  | rewrite bind_ptr
  | erewrite bind_node by look
  | erewrite (bind_run (set_prev _ _)) by (apply set_prev_run; look)
  | erewrite (bind_run (set_next _ _)) by (apply set_next_run; look) ].

(** [t] is linked in between [a] and [b]. *)
Definition inserted (a b : node) (xa xb : threadlistnode) (t : Z) (s : tls) : tls :=
  upd b (with_prev (Some (Listnode t)) xb) (upd a (with_next (Some (Listnode t)) xa)
    (upd (Listnode t) (Tln (Some a) (Some b) (Some t)) s)).

Lemma insertafter_run a b xa xb xt t s :
  tnodes s !! a = Some xa -> tln_next xa = Some b -> tnodes s !! b = Some xb ->
  tnodes s !! Listnode t = Some xt -> tln_self xt = Some t ->
  a <> b -> a <> Listnode t -> b <> Listnode t ->
  exists s', threadlist_insertafternode a t s = Ret (tt, s') /\ tl_count s' = tl_count s /\
    forall n, tnodes s' !! n = tnodes (inserted a b xa xb t s) !! n.
Proof.
  intros Ha Hab Hb Ht Hself Hne Hat Hbt. destruct xt as [pt nt st]; simpl in Hself; subst st.
  destruct xa as [pa na sa]; simpl in Hab; subst na.
  unfold threadlist_insertafternode. nrun. eexists. split; [apply set_prev_run; look|]. split; [done|].
  intros n. unfold inserted. cbn [upd tnodes]. rewrite !lookup_insert. by repeat case_decide; simplify_eq/=.
Qed.

Lemma insertbefore_run a b xa xb xt t s :
  tnodes s !! a = Some xa -> tnodes s !! b = Some xb -> tln_prev xb = Some a ->
  tnodes s !! Listnode t = Some xt -> tln_self xt = Some t ->
  a <> b -> a <> Listnode t -> b <> Listnode t ->
  exists s', threadlist_insertbeforenode t b s = Ret (tt, s') /\ tl_count s' = tl_count s /\
    forall n, tnodes s' !! n = tnodes (inserted a b xa xb t s) !! n.
Proof.
  intros Ha Hb Hab Ht Hself Hne Hat Hbt. destruct xt as [pt nt st]; simpl in Hself; subst st.
  destruct xb as [pb nb sb]; simpl in Hab; subst pb.
  unfold threadlist_insertbeforenode. nrun. eexists. split; [apply set_prev_run; look|]. split; [done|].
  intros n. unfold inserted. cbn [upd tnodes]. rewrite !lookup_insert. by repeat case_decide; simplify_eq/=.
Qed.

Lemma removenode_run a n b xa xb xn s :
  tnodes s !! a = Some xa -> tnodes s !! b = Some xb -> tnodes s !! n = Some xn ->
  tln_prev xn = Some a -> tln_next xn = Some b -> a <> b -> a <> n -> b <> n ->
  exists s', threadlist_removenode n s = Ret (tt, s') /\ tl_count s' = tl_count s /\
    forall k, tnodes s' !! k = tnodes (upd n (Tln None None (tln_self xn)) (upd b (with_prev (Some a) xb)
      (upd a (with_next (Some b) xa) s))) !! k.
Proof.
  intros Ha Hb Hn Hp Hnx Hab Han Hbn. destruct xn as [pn nn sn]; simpl in *; subst pn nn.
  unfold threadlist_removenode. nrun. eexists. split; [apply set_next_run; look|]. split; [done|].
  intros k. cbn [upd tnodes]. rewrite !lookup_insert. by repeat case_decide; simplify_eq/=.
Qed.

Lemma dll_middle m xs a b ys :
  dll m None (xs ++ a :: b :: ys) None <->
  dll m None xs (Some a) /\ m !! a = Some (Tln (final None xs) (Some b) (owner a)) /\
  m !! b = Some (Tln (Some a) (first ys None) (owner b)) /\ dll m (Some b) ys None.
Proof. rewrite dll_app. simpl. tauto. Qed.

Lemma middle_distinct (xs : list node) a b ys :
  NoDup (xs ++ a :: b :: ys) ->
  a <> b /\ (forall n, n ∈ xs -> n <> a /\ n <> b) /\ (forall n, n ∈ ys -> n <> a /\ n <> b).
Proof.
  intros (Hxs & Hd & Hab)%NoDup_app. apply NoDup_cons in Hab as [Ha [Hb Hys]%NoDup_cons].
  split_and!.
  - intros ->. apply Ha, list_elem_of_here.
  - intros n Hn. split; intros ->; apply (Hd _ Hn); rewrite !elem_of_cons; auto.
  - intros n Hn. split; intros ->; [apply Ha|apply Hb; done]. by apply list_elem_of_further.
Qed.

Lemma dll_insert s s' xs a b ys xa xb t :
  dll (tnodes s) None (xs ++ a :: b :: ys) None -> NoDup (xs ++ a :: b :: ys) ->
  Listnode t ∉ xs ++ a :: b :: ys -> tnodes s !! a = Some xa -> tnodes s !! b = Some xb ->
  (forall n, tnodes s' !! n = tnodes (inserted a b xa xb t s) !! n) ->
  dll (tnodes s') None (xs ++ a :: Listnode t :: b :: ys) None.
Proof.
  intros Hdll Hnd Hfresh Ha Hb Hs'. apply dll_middle in Hdll as (Hxs & Ha' & Hb' & Hys).
  destruct (middle_distinct _ _ _ _ Hnd) as (Hab & Hdx & Hdy).
  rewrite not_elem_of_app, !not_elem_of_cons in Hfresh. destruct Hfresh as (Htx & Hta & Htb & Hty).
  rewrite Ha in Ha'. rewrite Hb in Hb'. simplify_eq. apply dll_middle. split_and!.
  - eapply dll_frame; [|exact Hxs]. intros n Hn. destruct (Hdx n Hn). rewrite Hs'. unfold inserted. cbn [upd tnodes].
    rewrite !lookup_insert_ne by (done || by intros <-). done.
  - rewrite Hs'. unfold inserted. cbn [upd tnodes]. rewrite lookup_insert_ne by done. by rewrite lookup_insert_eq.
  - rewrite Hs'. unfold inserted. cbn [upd tnodes]. rewrite !lookup_insert_ne by done. by rewrite lookup_insert_eq.
  - split.
    + rewrite Hs'. unfold inserted. cbn [upd tnodes]. by rewrite lookup_insert_eq.
    + eapply dll_frame; [|exact Hys]. intros n Hn. destruct (Hdy n Hn). rewrite Hs'. unfold inserted. cbn [upd tnodes].
      rewrite !lookup_insert_ne by (done || by intros <-). done.
Qed.

Lemma dll_delete s s' xs a n b ys xa xb xn :
  dll (tnodes s) None (xs ++ a :: n :: b :: ys) None -> NoDup (xs ++ a :: n :: b :: ys) ->
  tnodes s !! a = Some xa -> tnodes s !! b = Some xb ->
  (forall k, tnodes s' !! k = tnodes (upd n xn (upd b (with_prev (Some a) xb) (upd a (with_next (Some b) xa) s))) !! k) ->
  dll (tnodes s') None (xs ++ a :: b :: ys) None.
Proof.
  intros Hdll Hnd Ha Hb Hs'. apply dll_middle in Hdll as (Hxs & Ha' & Hn' & Hb' & Hys).
  destruct (middle_distinct _ _ _ _ Hnd) as (Han & Hdx & Hdy).
  destruct (middle_distinct (xs ++ [a]) n b ys) as (Hnb & Hdx' & Hdy'); [by rewrite <- app_assoc|].
  assert (a <> b) as Hab by (apply (Hdx' a); apply elem_of_app; right; apply list_elem_of_here).
  rewrite Ha in Ha'. rewrite Hb in Hb'. simplify_eq. apply dll_middle. split_and!.
  - eapply dll_frame; [|exact Hxs]. intros k Hk. destruct (Hdx k Hk).
    destruct (Hdx' k) as [_ Hkb]; [by apply elem_of_app; left|].
    rewrite Hs'. cbn [upd tnodes]. by rewrite !lookup_insert_ne by done.
  - rewrite Hs'. cbn [upd tnodes]. rewrite !lookup_insert_ne by done. by rewrite lookup_insert_eq.
  - rewrite Hs'. cbn [upd tnodes]. rewrite lookup_insert_ne by done. by rewrite lookup_insert_eq.
  - eapply dll_frame; [|exact Hys]. intros k Hk. destruct (Hdy' k Hk).
    assert (k <> a) by (apply (Hdy k); by apply list_elem_of_further).
    rewrite Hs'. cbn [upd tnodes]. by rewrite !lookup_insert_ne by done.
Qed.

(** ** Lists of threads *)

Definition nodes_of (tl : Z) (l : list Z) : list node := Head tl :: (Listnode <$> l) ++ [Tail tl].

(** The list [tl] holds the threads [l], in this order. *)
Definition rep (tl : Z) (l : list Z) (s : tls) : Prop :=
  NoDup l /\ dll (tnodes s) None (nodes_of tl l) None /\
  tl_count s !! tl = Some (Z.of_nat (length l)) /\ Z.of_nat (length l) < 2 ^ 32.

(** The node of thread [t] is initialised and on no list. *)
Definition detached (t : Z) (s : tls) : Prop := tnodes s !! Listnode t = Some (Tln None None (Some t)).

(** Nodes other than those of the list and of thread [t], and the counts of other
    lists, are as before. *)
Definition elsewhere (tl : Z) (l : list Z) (t : Z) (s s' : tls) : Prop :=
  (forall n, n ∉ nodes_of tl l -> n <> Listnode t -> tnodes s' !! n = tnodes s !! n) /\
  (forall tl', tl' <> tl -> tl_count s' !! tl' = tl_count s !! tl').

Lemma nodes_of_NoDup tl l : NoDup l -> NoDup (nodes_of tl l).
Proof.
  intros Hl. unfold nodes_of. apply NoDup_cons. split.
  - rewrite elem_of_app, list_elem_of_fmap, list_elem_of_singleton. by intros [(x & ? & _)|?].
  - apply NoDup_app. split_and!.
    + by apply NoDup_fmap_2; [intros x y [= ->]|].
    + intros n (x & -> & _)%list_elem_of_fmap. by rewrite list_elem_of_singleton.
    + apply NoDup_singleton.
Qed.

Lemma elem_of_nodes_of tl l t : Listnode t ∈ nodes_of tl l <-> t ∈ l.
Proof.
  unfold nodes_of. rewrite elem_of_cons, elem_of_app, list_elem_of_singleton, list_elem_of_fmap. split.
  - intros [?|[(x & [= ->] & ?)|?]]; done.
  - intros Ht. right; left. by exists t.
Qed.

Lemma dll_lookup m p ns q n :
  dll m p ns q -> n ∈ ns -> exists a b, m !! n = Some (Tln a b (owner n)) /\ (p <> None -> a <> None).
Proof.
  revert p. induction ns as [|k ns IH]; intros p; cbn [dll]; [by intros _ ?%not_elem_of_nil|].
  intros [Hk Hns] [->|Hn]%elem_of_cons; [by eauto|].
  destruct (IH _ Hns Hn) as (a & b & Hab & Hp). exists a, b. split; [done|]. intros _. by apply Hp.
Qed.

(** A thread on a list is not detached. *)
Lemma detached_not_in tl l t s : rep tl l s -> detached t s -> t ∉ l.
Proof.
  intros (_ & Hd & _) Ht Hin. unfold nodes_of in Hd. cbn [dll] in Hd. destruct Hd as [_ Hd].
  destruct (dll_lookup _ _ _ _ (Listnode t) Hd) as (a & b & Hab & Ha).
  - apply elem_of_app. left. apply list_elem_of_fmap. by exists t.
  - unfold detached in Ht. rewrite Ht in Hab. simplify_eq. by apply Ha.
Qed.

Lemma count_by_run tl d c s :
  tl_count s !! tl = Some c -> 0 <= c + d < 2 ^ 32 ->
  count_by tl d s = Ret (tt, Tls (tnodes s) (<[tl := c + d]> (tl_count s))).
Proof.
  intros Hc Hd. unfold count_by, get_count. mrun. rewrite (bind_valid _ _ _ _ c) by done. by rewrite u32_id.
Qed.

Lemma insert_rep tl l l' t s xs a b ys c :
  rep tl l s -> detached t s -> Z.of_nat (length l) + 1 < 2 ^ 32 ->
  nodes_of tl l = xs ++ a :: b :: ys -> nodes_of tl l' = xs ++ a :: Listnode t :: b :: ys -> l' ≡ₚ t :: l ->
  c = threadlist_insertafternode a t \/ c = threadlist_insertbeforenode t b ->
  exists s', (c;; count_by tl 1) s = Ret (tt, s') /\ rep tl l' s' /\ elsewhere tl l t s s'.
Proof.
  intros Hrep Ht Hlen Hl Hl' Hperm Hc. pose proof (detached_not_in _ _ _ _ Hrep Ht) as Hin.
  destruct Hrep as (Hnd & Hdll & Hcnt & _).
  assert (Listnode t ∉ nodes_of tl l) as Hfresh by (by rewrite elem_of_nodes_of).
  pose proof (nodes_of_NoDup tl l Hnd) as Hnds. rewrite Hl in Hdll, Hnds, Hfresh.
  pose proof Hdll as (_ & Ha & Hb & _)%dll_middle. destruct (middle_distinct _ _ _ _ Hnds) as (Hab & _).
  assert (a <> Listnode t /\ b <> Listnode t) as [Hat Hbt].
  { rewrite not_elem_of_app, !not_elem_of_cons in Hfresh. destruct Hfresh as (_ & ? & ? & _). by split. }
  assert (exists s1, c s = Ret (tt, s1) /\ tl_count s1 = tl_count s /\
    forall n, tnodes s1 !! n = tnodes (inserted a b (Tln (final None xs) (Some b) (owner a))
      (Tln (Some a) (first ys None) (owner b)) t s) !! n) as (s1 & Hrun & Hc1 & Hs1).
  { destruct Hc as [-> | ->]; [eapply insertafter_run|eapply insertbefore_run]; eauto. }
  assert (tl_count s1 !! tl = Some (Z.of_nat (length l))) as Hcnt1 by (by rewrite Hc1).
  eexists. split; [rewrite (bind_run _ _ _ _ _ Hrun); by apply count_by_run with (1 := Hcnt1); lia|].
  split; [split_and!|split].
  - rewrite Hperm. by apply NoDup_cons.
  - rewrite Hl'. by eapply dll_insert.
  - simpl. rewrite lookup_insert_eq, Hperm. simpl. f_equal. lia.
  - rewrite Hperm. simpl length. lia.
  - intros n Hn Hnt. simpl. rewrite Hs1. unfold inserted. cbn [upd tnodes].
    rewrite Hl, not_elem_of_app, !not_elem_of_cons in Hn. destruct Hn as (_ & ? & ? & _).
    by rewrite !lookup_insert_ne by done.
  - intros tl' Hne. simpl. by rewrite lookup_insert_ne, Hc1.
Qed.

Lemma delete_rep tl l l' t s xs a b ys :
  rep tl l s -> nodes_of tl l = xs ++ a :: Listnode t :: b :: ys -> nodes_of tl l' = xs ++ a :: b :: ys ->
  l ≡ₚ t :: l' ->
  exists s1 s', threadlist_removenode (Listnode t) s = Ret (tt, s1) /\ count_by tl (-1) s1 = Ret (tt, s') /\
    rep tl l' s' /\ detached t s' /\ elsewhere tl l t s s'.
Proof.
  intros (Hnd & Hdll & Hcnt & Hlen) Hl Hl' Hperm.
  pose proof (nodes_of_NoDup tl l Hnd) as Hnds. rewrite Hl in Hdll, Hnds.
  pose proof Hdll as (_ & Ha & Hn & Hb & _)%dll_middle. destruct (middle_distinct _ _ _ _ Hnds) as (Han & _).
  destruct (middle_distinct (xs ++ [a]) (Listnode t) b ys) as (Hnb & Hdx & _); [by rewrite <- app_assoc|].
  assert (a <> b) as Hab by (apply (Hdx a); apply elem_of_app; right; apply list_elem_of_here).
  destruct (removenode_run a (Listnode t) b _ _ _ s Ha Hb Hn) as (s1 & Hrun & Hc1 & Hs1); [done..|].
  assert (tl_count s1 !! tl = Some (Z.of_nat (length l))) as Hcnt1 by (by rewrite Hc1).
  rewrite Hperm in Hcnt1, Hlen, Hnd. simpl length in Hcnt1, Hlen.
  eexists s1, _. split; [done|]. split; [apply count_by_run with (1 := Hcnt1); lia|].
  split; [split_and!|split; [|split]].
  - by apply NoDup_cons in Hnd as [_ ?].
  - rewrite Hl'. by eapply dll_delete.
  - simpl. rewrite lookup_insert_eq. f_equal. lia.
  - lia.
  - unfold detached. simpl. rewrite Hs1. cbn [upd tnodes]. by rewrite lookup_insert_eq.
  - intros k Hk Hkt. simpl. rewrite Hs1. cbn [upd tnodes].
    rewrite Hl, not_elem_of_app, !not_elem_of_cons in Hk. destruct Hk as (_ & ? & _ & ? & _).
    by rewrite !lookup_insert_ne by done.
  - intros tl' Hne. simpl. by rewrite lookup_insert_ne, Hc1.
Qed.

(** Where the nodes of a list are cut. *)
Lemma nodes_of_front tl l : exists b ys, nodes_of tl l = [] ++ Head tl :: b :: ys /\
  forall t, nodes_of tl (t :: l) = [] ++ Head tl :: Listnode t :: b :: ys.
Proof. unfold nodes_of. destruct l as [|x l]; eexists _, _; simpl; (split; [reflexivity|done]). Qed.

Lemma nodes_of_back tl l : exists xs a, nodes_of tl l = xs ++ a :: Tail tl :: [] /\
  forall t, nodes_of tl (l ++ [t]) = xs ++ a :: Listnode t :: Tail tl :: [].
Proof.
  destruct l as [|x l _] using rev_ind.
  - by exists [], (Head tl).
  - exists (Head tl :: (Listnode <$> l)), (Listnode x). unfold nodes_of. split.
    + rewrite fmap_app. simpl. by rewrite <- app_assoc.
    + intros t. rewrite !fmap_app. simpl. by rewrite <- !app_assoc.
Qed.

Lemma nodes_of_middle tl l1 o l2 : exists xs a b ys,
  nodes_of tl (l1 ++ o :: l2) = xs ++ a :: Listnode o :: b :: ys /\
  nodes_of tl (l1 ++ l2) = xs ++ a :: b :: ys /\
  (forall t, nodes_of tl (l1 ++ o :: t :: l2) = xs ++ a :: Listnode o :: Listnode t :: b :: ys) /\
  (forall t, nodes_of tl (l1 ++ t :: o :: l2) = xs ++ a :: Listnode t :: Listnode o :: b :: ys).
Proof.
  assert (exists xs a, Head tl :: (Listnode <$> l1) = xs ++ [a]) as (xs & a & Hxs).
  { destruct l1 as [|x l1 _] using rev_ind; [by exists [], (Head tl)|].
    exists (Head tl :: (Listnode <$> l1)), (Listnode x). by rewrite fmap_app. }
  assert (exists b ys, (Listnode <$> l2) ++ [Tail tl] = b :: ys) as (b & ys & Hys)
    by (destruct l2; simpl; eauto).
  exists xs, a, b, ys.
  assert (forall m, nodes_of tl (l1 ++ m ++ l2) = xs ++ a :: (Listnode <$> m) ++ b :: ys) as Hm.
  { intros m. unfold nodes_of. rewrite !fmap_app, <- !app_assoc, Hys.
    change (Head tl :: (Listnode <$> l1) ++ (Listnode <$> m) ++ b :: ys)
      with ((Head tl :: (Listnode <$> l1)) ++ (Listnode <$> m) ++ b :: ys).
    by rewrite Hxs, <- app_assoc. }
  split_and!; [exact (Hm [o])|exact (Hm [])|intros t; exact (Hm [o; t])|intros t; exact (Hm [t; o])].
Qed.

(** threadlist_insert_spec. The four insertions put a detached thread at the front,
    at the back, after or before a thread of the list, keep the links in both
    directions and the count, and change no other list. *)
Theorem threadlist_insert_spec tl l t s :
  rep tl l s -> detached t s -> Z.of_nat (length l) + 1 < 2 ^ 32 ->
  (exists s', threadlist_addhead tl t s = Ret (tt, s') /\ rep tl (t :: l) s' /\ elsewhere tl l t s s') /\
  (exists s', threadlist_addtail tl t s = Ret (tt, s') /\ rep tl (l ++ [t]) s' /\ elsewhere tl l t s s') /\
  (forall l1 o l2, l = l1 ++ o :: l2 ->
     (exists s', threadlist_insertafter tl o t s = Ret (tt, s') /\ rep tl (l1 ++ o :: t :: l2) s' /\ elsewhere tl l t s s') /\
     (exists s', threadlist_insertbefore tl t o s = Ret (tt, s') /\ rep tl (l1 ++ t :: o :: l2) s' /\ elsewhere tl l t s s')).
Proof.
  intros Hrep Ht Hlen. split_and!.
  - destruct (nodes_of_front tl l) as (b & ys & H1 & H2).
    eapply insert_rep; [done|done|done|exact H1|exact (H2 t)|done|by left].
  - destruct (nodes_of_back tl l) as (xs & a & H1 & H2).
    eapply insert_rep; [done|done|done|exact H1|exact (H2 t)|by rewrite Permutation_app_comm|by right].
  - intros l1 o l2 ->. destruct (nodes_of_middle tl l1 o l2) as (xs & a & b & ys & H1 & _ & H3 & H4). split.
    + eapply (insert_rep _ _ _ _ _ (xs ++ [a]) (Listnode o) b ys); [done|done|done| | | |by left].
      * by rewrite H1, <- app_assoc.
      * by rewrite H3, <- app_assoc.
      * change (l1 ++ o :: t :: l2) with (l1 ++ [o] ++ t :: l2). rewrite (app_assoc l1 [o]).
        rewrite <- Permutation_middle. by rewrite <- app_assoc.
    + eapply (insert_rep _ _ _ _ _ xs a (Listnode o) (b :: ys)); [done|done|done|exact H1|exact (H4 t)| |by right].
      by rewrite <- Permutation_middle.
Qed.

(** C37 threadlist_remove_spec. On a list whose nodes and pointers hold the distinct
    threads [l] in order ([rep], with fewer than 2^32 threads, so that the count
    does not wrap): [threadlist_isempty] tells whether [l] is empty; removing from
    the empty list gives NULL and changes nothing; [threadlist_remhead],
    [threadlist_remtail] and [threadlist_remove] take out the first, the last and
    the given thread, which is detached (both its pointers NULL), and leave a
    well-formed list of the other threads in the same order.  The nodes of other
    lists and their counts do not change. *)
Theorem threadlist_remove_spec tl l s :
  rep tl l s ->
  threadlist_isempty tl s = Ret (bool_decide (l = []), s) /\
  (l = [] -> threadlist_remhead tl s = Ret (None, s) /\ threadlist_remtail tl s = Ret (None, s)) /\
  (forall t l', l = t :: l' -> exists s', threadlist_remhead tl s = Ret (Some t, s') /\
     rep tl l' s' /\ detached t s' /\ elsewhere tl l t s s') /\
  (forall t l', l = l' ++ [t] -> exists s', threadlist_remtail tl s = Ret (Some t, s') /\
     rep tl l' s' /\ detached t s' /\ elsewhere tl l t s s') /\
  (forall l1 t l2, l = l1 ++ t :: l2 -> exists s', threadlist_remove tl t s = Ret (tt, s') /\
     rep tl (l1 ++ l2) s' /\ detached t s' /\ elsewhere tl l t s s').
Proof.
  intros Hrep. split_and!.
  - destruct Hrep as (_ & _ & Hc & _). unfold threadlist_isempty, get_count. mrun.
    rewrite (bind_valid _ _ _ _ _ Hc). destruct l; [done|]. by rewrite bool_decide_false.
  - intros ->. destruct Hrep as (_ & (Hh & Ht & _) & _). simpl in Hh, Ht.
    unfold threadlist_remhead, threadlist_remtail.
    split; rewrite ?(bind_node _ _ _ _ Hh), ?(bind_node _ _ _ _ Ht); cbn [tln_next tln_prev];
      rewrite bind_ptr, ?(bind_node _ _ _ _ Hh), ?(bind_node _ _ _ _ Ht); done.
  - intros t l' ->. destruct (nodes_of_front tl l') as (b & ys & H1 & H2).
    destruct (delete_rep tl (t :: l') l' t s _ _ _ _ Hrep (H2 t) H1 ltac:(done)) as (s1 & s' & Hr & Hc & Hrep' & Hd & He).
    exists s'. split_and!; [|done..]. destruct Hrep as (_ & Hdll & _). rewrite H2 in Hdll.
    destruct Hdll as (Hh & Ht & _). unfold threadlist_remhead. rewrite (bind_node _ _ _ _ Hh). cbn [first tln_next].
    rewrite bind_ptr, (bind_node _ _ _ _ Ht). cbn [first tln_next].
    rewrite (bind_run _ _ _ _ _ Hr), (bind_run _ _ _ _ _ Hc), (bind_node _ _ _ _ Hd). done.
  - intros t l' ->. destruct (nodes_of_back tl l') as (xs & a & H1 & H2).
    destruct (delete_rep tl (l' ++ [t]) l' t s _ _ _ _ Hrep (H2 t) H1 ltac:(by rewrite Permutation_app_comm))
      as (s1 & s' & Hr & Hc & Hrep' & Hd & He).
    exists s'. split_and!; [|done..]. destruct Hrep as (_ & Hdll & _). rewrite H2 in Hdll.
    apply dll_middle in Hdll as (_ & _ & Ht & Htl & _). unfold threadlist_remtail. rewrite (bind_node _ _ _ _ Htl). cbn [tln_prev].
    rewrite bind_ptr, (bind_node _ _ _ _ Ht). cbn [tln_prev].
    rewrite (bind_run _ _ _ _ _ Hr), (bind_run _ _ _ _ _ Hc), (bind_node _ _ _ _ Hd). done.
  - intros l1 t l2 ->. destruct (nodes_of_middle tl l1 t l2) as (xs & a & b & ys & H1 & H2 & _).
    destruct (delete_rep tl _ (l1 ++ l2) t s _ _ _ _ Hrep H1 H2 ltac:(by rewrite <- Permutation_middle))
      as (s1 & s' & Hr & Hc & Hrep' & Hd & He).
    exists s'. split_and!; [|done..]. unfold threadlist_remove. by rewrite (bind_run _ _ _ _ _ Hr).
Qed.

Lemma init_rep tl s : exists s', threadlist_init tl s = Ret (tt, s') /\ rep tl [] s'.
Proof.
  eexists. split; [reflexivity|]. split_and!; [apply NoDup_nil_2| |simpl; by rewrite lookup_insert_eq|done].
  cbn. rewrite lookup_insert_ne, !lookup_insert_eq by done. done.
Qed.

(** Threads 11 and 12, and the list 1 holding thread 11. *)
Definition sample_tls : tls :=
  match (threadlistnode_init (Listnode 11) 11;; threadlistnode_init (Listnode 12) 12;;
         threadlist_init 1;; threadlist_addtail 1 11) (Tls ∅ ∅) with
  | Ret (_, s) => s | _ => Tls ∅ ∅
  end.

Lemma sample_tls_rep : rep 1 [11] sample_tls.
Proof. split_and!; [apply NoDup_singleton|vm_compute; by split_and!|by vm_compute|by vm_compute]. Qed.

Lemma threadlist_insert_spec_witness :
  exists s', threadlist_addtail 1 12 sample_tls = Ret (tt, s') /\ rep 1 [11; 12] s'.
Proof.
  destruct (threadlist_insert_spec 1 [11] 12 sample_tls sample_tls_rep) as (_ & (s' & Hr & Hrep & _) & _);
    [by vm_compute|by vm_compute|].
  exists s'. split; [exact Hr|exact Hrep].
Defined.

(** The three removals from a list of one thread, and the test for emptiness. *)
Lemma threadlist_remove_spec_witness :
  threadlist_isempty 1 sample_tls = Ret (false, sample_tls) /\
  (exists s', threadlist_remhead 1 sample_tls = Ret (Some 11, s') /\ rep 1 [] s' /\ detached 11 s') /\
  (exists s', threadlist_remtail 1 sample_tls = Ret (Some 11, s') /\ rep 1 [] s') /\
  (exists s', threadlist_remove 1 11 sample_tls = Ret (tt, s') /\ rep 1 [] s').
Proof.
  destruct (threadlist_remove_spec 1 [11] sample_tls sample_tls_rep) as (He & _ & Hh & Ht & Hr).
  destruct (Hh 11 [] eq_refl) as (s1 & H1 & R1 & D1 & _).
  destruct (Ht 11 [] eq_refl) as (s2 & H2 & R2 & _).
  destruct (Hr [] 11 [] eq_refl) as (s3 & H3 & R3 & _).
  split_and!; [exact He|exists s1; by split_and!|exists s2; by split|exists s3; by split].
Defined.

End ThreadList.

(** ** Semaphores

    Each step is one critical section under [sem_lock], whose mutual exclusion
    is the subject of [Sync.v]; the wait channel is a list of threads with the
    operations above.  A thread in [P] that has slept runs again, after
    [wchan_wakeone], with the test of its loop. *)
Module Sem.

Record semaphore := Semaphore {
  sem_count : Z;
  wc_threads : list Z;   (* asleep on the wait channel *)
  woken : list Z;        (* made runnable, still in [P] *)
  posted : Z;            (* calls of [V] *)
  taken : Z;             (* calls of [P] that have returned *)
}.

(** [wchan_wakeone]: the first sleeper becomes runnable. *)
Definition wchan_wakeone (s : semaphore) : semaphore :=
  match wc_threads s with
  | [] => s
  | t :: ts => Semaphore (sem_count s) ts (woken s ++ [t]) (posted s) (taken s)
  end.

(** The critical section of [P] from the test of the loop on: [None] when the
    thread goes to sleep. *)
Definition P_section (t : Z) (s : semaphore) : option semaphore :=
  if sem_count s =? 0 then None
  else Some (Semaphore (sem_count s - 1) (wc_threads s) (woken s) (posted s) (taken s + 1)).

Definition P_sleep (t : Z) (s : semaphore) : semaphore :=
  Semaphore (sem_count s) (wc_threads s ++ [t]) (woken s) (posted s) (taken s).

Definition V_section (s : semaphore) : outcome semaphore :=
  let n := u32 (sem_count s + 1) in
  if 0 <? n then Ret (wchan_wakeone (Semaphore n (wc_threads s) (woken s) (posted s + 1) (taken s)))
  else Panic "sem->sem_count > 0".

Definition without (t : Z) (s : semaphore) : semaphore :=
  Semaphore (sem_count s) (wc_threads s) (filter (fun u => u <> t) (woken s)) (posted s) (taken s).

Inductive sem_step : semaphore -> semaphore -> Prop :=
| step_P t s s' :
    t ∉ wc_threads s -> t ∉ woken s -> P_section t s = Some s' -> sem_step s s'
| step_P_sleep t s :
    t ∉ wc_threads s -> t ∉ woken s -> P_section t s = None -> sem_step s (P_sleep t s)
| step_again t s s' :
    t ∈ woken s -> P_section t (without t s) = Some s' -> sem_step s s'
| step_again_sleep t s :
    t ∈ woken s -> P_section t (without t s) = None -> sem_step s (P_sleep t (without t s))
| step_V s s' : V_section s = Ret s' -> sem_step s s'.

Definition sem_create (initial_count : Z) : semaphore := Semaphore initial_count [] [] 0 0.

Definition sem_inv (initial : Z) (s : semaphore) : Prop :=
  0 <= sem_count s < 2 ^ 32 /\ sem_count s = initial + posted s - taken s /\
  NoDup (wc_threads s ++ woken s) /\
  (wc_threads s <> [] -> sem_count s <= Z.of_nat (length (woken s))).

Lemma filter_ne t (l : list Z) : t ∉ l -> filter (fun u : Z => u <> t) l = l.
Proof.
  induction l as [|u l IH]; [done|]. rewrite not_elem_of_cons. intros [Hu Hl].
  rewrite filter_cons_True by done. by rewrite IH.
Qed.

Lemma filter_out t (l : list Z) : NoDup l -> t ∈ l ->
  exists l1 l2, l = l1 ++ t :: l2 /\ filter (fun u : Z => u <> t) l = l1 ++ l2.
Proof.
  intros Hnd (l1 & l2 & ->)%list_elem_of_split. exists l1, l2. split; [done|].
  apply NoDup_app in Hnd as (_ & Hd & [Ht _]%NoDup_cons).
  rewrite filter_app, filter_cons_False by (by intros H). rewrite !filter_ne; [done|done|].
  intros Hin. apply (Hd _ Hin), list_elem_of_here.
Qed.

(** A woken thread that leaves the set of woken threads. *)
Lemma without_inv initial t s :
  sem_inv initial s -> t ∈ woken s ->
  NoDup (wc_threads s ++ woken (without t s)) /\ (t ∉ wc_threads s) /\ (t ∉ woken (without t s)) /\
  Z.of_nat (length (woken s)) = Z.of_nat (length (woken (without t s))) + 1.
Proof.
  intros (_ & _ & Hnd & _) Ht. pose proof Hnd as (_ & Hdis & Hw)%NoDup_app.
  destruct (filter_out t (woken s) Hw Ht) as (l1 & l2 & Hl & Hf). unfold without. cbn [woken]. rewrite Hf.
  assert (NoDup (wc_threads s ++ t :: l1 ++ l2)) as Hnd2.
  { rewrite Hl in Hnd. by rewrite (Permutation_middle l1 l2 t). }
  apply NoDup_app in Hnd2 as (H1 & H2 & [H3 H4]%NoDup_cons). split_and!.
  - apply NoDup_app. split_and!; [done| |done]. intros x Hx Hx'. apply (H2 x Hx). by apply list_elem_of_further.
  - intros Hin. apply (H2 t Hin), list_elem_of_here.
  - done.
  - rewrite Hl, !length_app. simpl. lia.
Qed.

Lemma sem_inv_step initial s s' : sem_inv initial s -> sem_step s s' -> sem_inv initial s'.
Proof.
  intros Hinv Hstep. pose proof Hinv as (Hc & Heq & Hnd & Hw). destruct Hstep as [t s s' Ht1 Ht2 HP|t s Ht1 Ht2 HP|t s s' Ht HP|t s Ht HP|s s' HV].
  - unfold P_section in HP. destruct (Z.eqb_spec (sem_count s) 0); [done|]. injection HP as <-.
    split_and!; simpl; try done; try lia; intros Hne; specialize (Hw Hne); lia.
  - unfold P_section in HP. destruct (Z.eqb_spec (sem_count s) 0) as [H0|]; [|done].
    split_and!; simpl; try done; try lia. rewrite <- app_assoc. simpl.
    apply NoDup_app in Hnd as (H1 & H2 & H3). apply NoDup_app. split_and!; [done| |by apply NoDup_cons].
    intros x Hx [->|Hx']%elem_of_cons; [done|by apply (H2 x)].
  - destruct (without_inv _ _ _ Hinv Ht) as (Hnd' & _ & _ & Hlen). unfold P_section in HP. cbn [without sem_count] in HP.
    destruct (Z.eqb_spec (sem_count s) 0); [done|]. injection HP as <-.
    split_and!; simpl; try done; try lia; intros Hne; specialize (Hw Hne); simpl in Hlen; lia.
  - destruct (without_inv _ _ _ Hinv Ht) as (Hnd' & Ht1 & Ht2 & Hlen). unfold P_section in HP. cbn [without sem_count] in HP.
    destruct (Z.eqb_spec (sem_count s) 0) as [H0|]; [|done].
    split_and!; simpl in *; try done; try lia. rewrite <- app_assoc. simpl.
    apply NoDup_app in Hnd' as (H1 & H2 & H3). apply NoDup_app. split_and!; [done| |by apply NoDup_cons].
    intros x Hx [->|Hx']%elem_of_cons; [done|by apply (H2 x)].
  - unfold V_section in HV. destruct (Z.ltb_spec 0 (u32 (sem_count s + 1))) as [Hpos|]; [|done]. injection HV as <-.
    assert (u32 (sem_count s + 1) = sem_count s + 1) as Hu.
    { destruct (decide (sem_count s + 1 < 2 ^ 32)); [by apply u32_id; lia|].
      unfold u32 in Hpos. replace (sem_count s + 1) with (2 ^ 32) in Hpos by lia. rewrite Z.mod_same in Hpos; lia. }
    rewrite Hu. unfold wchan_wakeone; cbn [wc_threads]. pose proof (u32_range (sem_count s + 1)).
    destruct (wc_threads s) as [|t ts] eqn:Hts; [split_and!; simpl; rewrite ?Hts; try done; lia|].
    split_and!; simpl; try lia.
    + rewrite app_assoc. rewrite <- Permutation_cons_append. exact Hnd.
    + intros Hne. specialize (Hw ltac:(done)). rewrite length_app. simpl. lia.
Qed.

Lemma sem_inv_reachable initial s :
  0 <= initial < 2 ^ 32 -> rtc sem_step (sem_create initial) s -> sem_inv initial s.
Proof.
  intros Hi Hr. remember (sem_create initial) as s0 eqn:Hs0.
  assert (sem_inv initial s0) as H0.
  { subst. split_and!; simpl; try lia; [apply NoDup_nil_2|done]. }
  clear Hs0. induction Hr as [|s0 s1 s2 Hst _ IH]; [done|]. apply IH. by eapply sem_inv_step.
Qed.

(** C40 semaphore_invariant. However threads call [P] and [V] on a semaphore, at every
    moment the count is the initial count plus the calls of [V] minus the calls
    of [P] that have returned, never negative; no thread is on the wait channel
    twice; and no wakeup is lost: while a thread sleeps and the count is
    positive, at least as many threads as the count are awake in [P]. *)
Theorem semaphore_invariant initial s :
  0 <= initial < 2 ^ 32 -> rtc sem_step (sem_create initial) s ->
  0 <= sem_count s /\ sem_count s + taken s = initial + posted s /\ NoDup (wc_threads s) /\
  (wc_threads s <> [] -> 0 < sem_count s -> exists t, t ∈ woken s) /\
  (wc_threads s <> [] -> sem_count s <= Z.of_nat (length (woken s))).
Proof.
  intros Hi Hr. destruct (sem_inv_reachable _ _ Hi Hr) as (Hc & Heq & Hnd & Hw).
  split_and!; [lia|lia|by apply NoDup_app in Hnd as [? _]| |done].
  intros Hne Hpos. specialize (Hw Hne). destruct (woken s) as [|t ts]; [simpl in Hw; lia|]. exists t. apply list_elem_of_here.
Qed.

(** Two threads sleep, one call of [V]. *)
Definition sample_sem : semaphore := Semaphore 1 [2] [1] 1 0.

Lemma sample_sem_reachable : rtc sem_step (sem_create 0) sample_sem.
Proof.
  eapply rtc_l; [apply (step_P_sleep 1); [apply not_elem_of_nil|apply not_elem_of_nil|reflexivity]|].
  eapply rtc_l; [apply (step_P_sleep 2); [by apply (not_elem_of_cons (A:=Z)); split; [|apply not_elem_of_nil]|apply not_elem_of_nil|reflexivity]|].
  eapply rtc_l; [apply step_V; reflexivity|]. apply rtc_refl.
Qed.

Lemma semaphore_invariant_witness :
  sem_count sample_sem + taken sample_sem = 0 + posted sample_sem /\ exists t, t ∈ woken sample_sem.
Proof.
  destruct (semaphore_invariant 0 sample_sem ltac:(lia) sample_sem_reachable) as (_ & Heq & _ & Hw & _).
  split; [exact Heq|]. apply Hw; by vm_compute.
Defined.

End Sem.
