(* ===== verification/SfsFs.v ===== *)
(** * The SFS file system: [sfs_inode.c] and [sfs_vnops.c]

    On top of files and directories: the table of vnodes in memory, loading and
    reclaiming inodes, and the vnode operations.  The vnodes are those of [Vnode.v]; a [struct sfs_vnode] starts with
    its [struct vnode], so that both have the same address. *)

From S2P Require Import Prelude Sync Vnode CString Copy Stream Lhd Bitmap SfsBlock SfsFile SfsDir.

Module Sfs.
Import Stream Lhd Layout Blk File Dir Str.

(** The tables of operations; [vn_ops] of a vnode is the address of one. *)
Definition sfs_fileops : Z := 0x80200000.
Definition sfs_dirops : Z := 0x80200100.

Definition S_IFREG : Z := 4096.
Definition S_IFDIR : Z := 8192.

Section Code.
Context `{Lhdhw}.

(** [struct sfs_fs] with the vnodes in memory.  [s_fs] is the address of
    [sfs_absfs]; [s_svs] has the [struct sfs_vnode]s; [sfs_vnodes] lists the
    elements of the vnode array, whose operations are those of [Lib.v];
    [s_mem] has the results of the [kmalloc] calls to come, 0 for NULL, and
    [s_room] whether the array can be extended. *)
Record sfs := MkSfs {
  s_vol : volume;
  s_vst : vst;
  s_fs : Z;
  s_svs : gmap Z sfs_vnode;
  sfs_vnodes : list Z;
  s_mem : list Z;
  s_room : list bool;
}.

Definition set_s_vol (v : volume) (s : sfs) : sfs :=
  MkSfs v (s_vst s) (s_fs s) (s_svs s) (sfs_vnodes s) (s_mem s) (s_room s).
Definition set_s_vst (t : vst) (s : sfs) : sfs :=
  MkSfs (s_vol s) t (s_fs s) (s_svs s) (sfs_vnodes s) (s_mem s) (s_room s).
Definition set_s_svs (m : gmap Z sfs_vnode) (s : sfs) : sfs :=
  MkSfs (s_vol s) (s_vst s) (s_fs s) m (sfs_vnodes s) (s_mem s) (s_room s).
Definition set_vnodes (l : list Z) (s : sfs) : sfs :=
  MkSfs (s_vol s) (s_vst s) (s_fs s) (s_svs s) l (s_mem s) (s_room s).
Definition set_mem (l : list Z) (s : sfs) : sfs :=
  MkSfs (s_vol s) (s_vst s) (s_fs s) (s_svs s) (sfs_vnodes s) l (s_room s).
Definition set_room (l : list bool) (s : sfs) : sfs :=
  MkSfs (s_vol s) (s_vst s) (s_fs s) (s_svs s) (sfs_vnodes s) (s_mem s) l.

Definition in_vol {A} (c : M volume A) : M sfs A := zoom s_vol set_s_vol c.
Definition in_vst {A} (c : M vst A) : M sfs A := zoom s_vst set_s_vst c.

Definition get_sv (v : Z) : M sfs sfs_vnode := s ← get; valid (s_svs s !! v) "sv".

(** A routine for the file of the vnode at [v]. *)
Definition in_file {A} (v : Z) (c : M file A) : M sfs A :=
  s ← get;
  sv ← get_sv v;
  zoom (fun s => MkFile (s_vol s) sv) (fun f s => set_s_svs (<[v := f_sv f]> (s_svs s)) (set_s_vol (f_vol f) s)) c.

Definition biglock_acquire : M sfs unit := in_vol vfs_biglock_acquire.
Definition biglock_release : M sfs unit := in_vol vfs_biglock_release.

(** [sv->sv_i.field = ...; sv->sv_dirty = true;] *)
Definition change_sv (v : Z) (g : sfs_dinode -> sfs_dinode) : M sfs unit := in_file v (change_inode g).

Definition with_linkcount (n : Z) (i : sfs_dinode) : sfs_dinode :=
  Dinode (sfi_size i) (sfi_type i) n (sfi_direct i) (sfi_indirect i) (sfi_waste i).
Definition with_type (t : Z) (i : sfs_dinode) : sfs_dinode :=
  Dinode (sfi_size i) t (sfi_linkcount i) (sfi_direct i) (sfi_indirect i) (sfi_waste i).

(** [sfi_linkcount++] and [sfi_linkcount--] of a 16-bit field. *)
Definition link_up (i : sfs_dinode) : sfs_dinode := with_linkcount (u16 (sfi_linkcount i + 1)) i.
Definition link_down (i : sfs_dinode) : sfs_dinode := with_linkcount (u16 (sfi_linkcount i - 1)) i.

Definition kmalloc : M sfs Z :=
  s ← get;
  match s_mem s with
  | [] => mret 0
  | p :: rest => modify (set_mem rest);; mret p
  end.

Definition vnodearray_add (v : Z) : M sfs Z :=
  s ← get;
  match s_room s with
  | true :: rest => modify (fun s => set_vnodes (sfs_vnodes s ++ [v]) (set_room rest s));; mret 0
  | false :: rest => modify (set_room rest);; mret ENOMEM
  | [] => mret ENOMEM
  end.

(** ** [sfs_inode.c] *)

Definition sfs_sync_inode : M file Z :=
  f ← get;
  if sv_dirty (f_sv f) then
    result ← on_vol (sfs_writeblock (sv_ino (f_sv f)) (dinode_bytes (dinode f)));
    if nz result then mret result
    else
      modify (fun f => MkFile (f_vol f) (MkSv (dinode f) (sv_ino (f_sv f)) false));;
      mret 0
  else mret 0.

(** The index of the vnode in the table; [ix == num] is [None]. *)
Fixpoint find_vnode (v : Z) (l : list Z) (i : nat) : option nat :=
  match l with
  | [] => None
  | w :: l' => if w =? v then Some i else find_vnode v l' (S i)
  end.

(** [kfree(sv)] *)
Definition kfree_sv (v : Z) : M sfs unit :=
  modify (fun s => set_s_svs (delete v (s_svs s)) (set_s_vst (set_tab (delete v (v_tab (s_vst s))) (s_vst s)) s)).

(** After the reference count has been found to be 1. *)
Definition reclaim_body (v : Z) : M sfs Z :=
  sv ← get_sv v;
  result ← (if sfi_linkcount (sv_i sv) =? 0 then in_file v (sfs_itrunc 0) else mret 0);
  if nz result then biglock_release;; mret result
  else
    result ← in_file v sfs_sync_inode;
    if nz result then biglock_release;; mret result
    else
      sv ← get_sv v;
      (if sfi_linkcount (sv_i sv) =? 0 then in_vol (sfs_bfree (sv_ino sv)) else mret tt);;
      s ← get;
      match find_vnode v (sfs_vnodes s) 0 with
      | None => panic "sfs: reclaim vnode not in vnode pool"
      | Some ix =>
          modify (fun s => set_vnodes (delete ix (sfs_vnodes s)) s);;
          in_vst (Vnode.vnode_cleanup v);;
          biglock_release;;
          kfree_sv v;;
          mret 0
      end.

Definition sfs_reclaim (v : Z) : M sfs Z :=
  biglock_acquire;;
  in_vst (Vnode.acquire v);;
  x ← in_vst (Vnode.deref v);
  if negb (vn_refcount x =? 1) then
    kassert (1 <? vn_refcount x) "v->vn_refcount>1";;
    in_vst (Vnode.store v (Vnode.with_refcount (vn_refcount x - 1) x));;
    in_vst (Vnode.release v);;
    biglock_release;;
    mret EBUSY
  else
    in_vst (Vnode.release v);;
    reclaim_body v.

(** [VOP_DECREF]: [vnode_decref] with [sfs_reclaim] as [vop_reclaim]. *)
Definition sfs_decref (v : Z) : M sfs unit :=
  destroy ← in_vst (Vnode.decref_count v);
  if (destroy : bool) then in_vst (Vnode.vnode_check v);; sfs_reclaim v;; mret tt else mret tt.

(** The search of the vnode table. *)
Fixpoint search_vnodes (ino : Z) (l : list Z) : M sfs (option Z) :=
  match l with
  | [] => mret None
  | v :: l' =>
      sv ← get_sv v;
      r ← in_vol (sfs_bused (sv_ino sv));
      if r =? 0 then panic "sfs: Found inode in unallocated block"
      else if sv_ino sv =? ino then mret (Some v)
      else search_vnodes ino l'
  end.

(** The inode read from block [ino], with the type forced. *)
Definition fresh_inode (bs : list Z) (forcetype : Z) : M sfs (sfs_dinode * bool) :=
  let i := bytes_dinode bs in
  if negb (forcetype =? SFS_TYPE_INVAL) then
    kassert (sfi_type i =? SFS_TYPE_INVAL) "sv->sv_i.sfi_type == SFS_TYPE_INVAL";;
    mret (with_type (u16 forcetype) i, true)
  else mret (i, false).

(** [switch (sv->sv_i.sfi_type)] *)
Definition ops_of_type (t : Z) : M sfs Z :=
  if t =? SFS_TYPE_FILE then mret sfs_fileops
  else if t =? SFS_TYPE_DIR then mret sfs_dirops
  else panic "sfs: loadvnode: Invalid inode type".

(** The error code and [*ret]. *)
Definition sfs_loadvnode (ino forcetype : Z) : M sfs (Z * Z) :=
  s ← get;
  found ← search_vnodes ino (sfs_vnodes s);
  match found with
  | Some v =>
      kassert (forcetype =? SFS_TYPE_INVAL) "forcetype==SFS_TYPE_INVAL";;
      in_vst (Vnode.vnode_incref v);;
      mret (0, v)
  | None =>
      v ← kmalloc;
      if v =? 0 then mret (ENOMEM, 0)
      else
        r ← in_vol (sfs_bused ino);
        if r =? 0 then panic "sfs: Tried to load inode from unallocated block"
        else
          '(result, bs) ← in_vol (sfs_readblock ino);
          if nz result then mret (result, 0)
          else
            '(i, dirty) ← fresh_inode bs forcetype;
            ops ← ops_of_type (sfi_type i);
            result ← in_vst (Vnode.vnode_init v ops (s_fs s) v);
            if nz result then mret (result, 0)
            else
              modify (fun s => set_s_svs (<[v := MkSv i ino dirty]> (s_svs s)) s);;
              result ← vnodearray_add v;
              if nz result then in_vst (Vnode.vnode_cleanup v);; kfree_sv v;; mret (result, 0)
              else mret (0, v)
  end.

Definition sfs_makeobj (type : Z) : M sfs (Z * Z) :=
  '(result, ino) ← in_vol sfs_balloc;
  if nz result then mret (result, 0)
  else
    '(result, v) ← sfs_loadvnode ino type;
    (if nz result then in_vol (sfs_bfree ino) else mret tt);;
    mret (result, v).

Definition sfs_getroot : M sfs (Z * Z) :=
  biglock_acquire;;
  '(result, v) ← sfs_loadvnode SFS_ROOTDIR_INO SFS_TYPE_INVAL;
  if nz result then biglock_release;; mret (result, 0)
  else
    sv ← get_sv v;
    if negb (sfi_type (sv_i sv) =? SFS_TYPE_DIR) then biglock_release;; mret (EINVAL, 0)
    else biglock_release;; mret (0, v).

(** [sfs_lookonce] of [sfs_dir.c]: the error code, [*ret] and [*slot]. *)
Definition sfs_lookonce (v : Z) (name : list Z) : M sfs (Z * Z * Z) :=
  '(result, found, _) ← in_file v (sfs_dir_findname name (-1));
  if nz result then mret (result, 0, 0)
  else
    '(ino, slot) ← valid found "ino";
    '(result, w) ← sfs_loadvnode ino SFS_TYPE_INVAL;
    if nz result then mret (result, 0, 0)
    else
      sw ← get_sv w;
      if sfi_linkcount (sv_i sw) =? 0 then panic "sfs: name has linkcount 0"
      else mret (0, w, slot).

(** ** [sfs_vnops.c] *)

Definition sfs_eachopen (v openflags : Z) : M sfs Z := mret 0.

Definition sfs_eachopendir (v openflags : Z) : M sfs Z :=
  if negb (Z.land openflags Vfs.O_ACCMODE =? Vfs.O_RDONLY) then mret EISDIR
  else if negb (Z.land openflags 32 =? 0) then mret EISDIR
  else mret 0.

(** [sfs_io] with the vnode at [v]. *)
Definition file_io (v : Z) : M (sfs * uio) Z :=
  s ← get;
  sv ← valid (s_svs (fst s) !! v) "sv";
  zoom (fun s => (MkFile (s_vol (fst s)) sv, snd s))
    (fun fu s => (set_s_svs (<[v := f_sv (fst fu)]> (s_svs (fst s))) (set_s_vol (f_vol (fst fu)) (fst s)), snd fu)) sfs_io.

Definition in_sfs {A} (c : M sfs A) : M (sfs * uio) A := zoom fst (fun a s => (a, snd s)) c.

Definition sfs_read (v : Z) : M (sfs * uio) Z :=
  s ← get;
  kassert (uio_rw (snd s) =? Uio.UIO_READ) "uio->uio_rw==UIO_READ";;
  in_sfs biglock_acquire;;
  result ← file_io v;
  in_sfs biglock_release;;
  mret result.

Definition sfs_write (v : Z) : M (sfs * uio) Z :=
  s ← get;
  kassert (uio_rw (snd s) =? Uio.UIO_WRITE) "uio->uio_rw==UIO_WRITE";;
  in_sfs biglock_acquire;;
  result ← file_io v;
  in_sfs biglock_release;;
  mret result.

Definition sfs_ioctl (v op : Z) : M sfs Z := mret EINVAL.

(** The error code and [*ret]. *)
Definition sfs_gettype (v : Z) : M sfs (Z * Z) :=
  sv ← get_sv v;
  biglock_acquire;;
  if sfi_type (sv_i sv) =? SFS_TYPE_FILE then biglock_release;; mret (0, S_IFREG)
  else if sfi_type (sv_i sv) =? SFS_TYPE_DIR then biglock_release;; mret (0, S_IFDIR)
  else panic "sfs: gettype: Invalid inode type".

Record stat := Stat { st_mode : Z; st_size : Z; st_nlink : Z; st_blocks : Z }.

Definition sfs_stat (v : Z) : M sfs (Z * stat) :=
  in_vst (Vnode.vnode_check v);;
  '(result, mode) ← sfs_gettype v;
  if nz result then mret (result, Stat mode 0 0 0)
  else
    sv ← get_sv v;
    mret (0, Stat mode (sfi_size (sv_i sv)) (sfi_linkcount (sv_i sv)) 0).

Definition sfs_isseekable (v : Z) : bool := true.

Definition sfs_fsync (v : Z) : M sfs Z :=
  biglock_acquire;;
  result ← in_file v sfs_sync_inode;
  biglock_release;;
  mret result.

Definition sfs_mmap (v : Z) : M sfs Z := mret ENOSYS.

Definition sfs_truncate (v len : Z) : M sfs Z := in_file v (sfs_itrunc len).

Definition sfs_namefile (v : Z) : M sfs Z :=
  sv ← get_sv v;
  kassert (sv_ino sv =? SFS_ROOTDIR_INO) "sv->sv_ino == SFS_ROOTDIR_INO";;
  mret 0.

Definition sfs_creat (v : Z) (name : list Z) (excl : bool) (mode : Z) : M sfs (Z * Z) :=
  biglock_acquire;;
  '(result, found, _) ← in_file v (sfs_dir_findname name (-1));
  if nz result && negb (result =? ENOENT) then biglock_release;; mret (result, 0)
  else if (result =? 0) && excl then biglock_release;; mret (EEXIST, 0)
  else if result =? 0 then
    '(ino, _) ← valid found "ino";
    '(result, newguy) ← sfs_loadvnode ino SFS_TYPE_INVAL;
    biglock_release;;
    mret (if nz result then (result, 0) else (0, newguy))
  else
    '(result, newguy) ← sfs_makeobj SFS_TYPE_FILE;
    if nz result then biglock_release;; mret (result, 0)
    else
      sn ← get_sv newguy;
      '(result, _) ← in_file v (sfs_dir_link name (sv_ino sn));
      if nz result then sfs_decref newguy;; biglock_release;; mret (result, 0)
      else
        change_sv newguy link_up;;
        biglock_release;;
        mret (0, newguy).

Definition sfs_link (dir : Z) (name : list Z) (f : Z) : M sfs Z :=
  xf ← in_vst (Vnode.deref f);
  xd ← in_vst (Vnode.deref dir);
  kassert (vn_fs xf =? vn_fs xd) "file->vn_fs == dir->vn_fs";;
  biglock_acquire;;
  sf ← get_sv f;
  if sfi_type (sv_i sf) =? SFS_TYPE_DIR then biglock_release;; mret EINVAL
  else
    '(result, _) ← in_file dir (sfs_dir_link name (sv_ino sf));
    if nz result then biglock_release;; mret result
    else
      change_sv f link_up;;
      biglock_release;;
      mret 0.

Definition sfs_remove (dir : Z) (name : list Z) : M sfs Z :=
  biglock_acquire;;
  '(result, victim, slot) ← sfs_lookonce dir name;
  if nz result then biglock_release;; mret result
  else
    result ← in_file dir (sfs_dir_unlink slot);
    (if result =? 0 then
       sv ← get_sv victim;
       kassert (0 <? sfi_linkcount (sv_i sv)) "victim->sv_i.sfi_linkcount > 0";;
       change_sv victim link_down
     else mret tt);;
    sfs_decref victim;;
    biglock_release;;
    mret result.

Definition sfs_rename (d1 : Z) (n1 : list Z) (d2 : Z) (n2 : list Z) : M sfs Z :=
  biglock_acquire;;
  kassert (d1 =? d2) "d1==d2";;
  sv ← get_sv d1;
  kassert (sv_ino sv =? SFS_ROOTDIR_INO) "sv->sv_ino == SFS_ROOTDIR_INO";;
  '(result, g1, slot1) ← sfs_lookonce d1 n1;
  if nz result then biglock_release;; mret result
  else
    sg ← get_sv g1;
    kassert (sfi_type (sv_i sg) =? SFS_TYPE_FILE) "g1->sv_i.sfi_type == SFS_TYPE_FILE";;
    '(result, slot2) ← in_file d1 (sfs_dir_link n2 (sv_ino sg));
    if nz result then sfs_decref g1;; biglock_release;; mret result
    else
      change_sv g1 link_up;;
      result ← in_file d1 (sfs_dir_unlink slot1);
      if nz result then
        result2 ← in_file d1 (sfs_dir_unlink slot2);
        if nz result2 then panic "sfs: rename: Cannot recover"
        else
          sg ← get_sv g1;
          modify (fun s => set_s_svs (<[g1 := MkSv (link_down (sv_i sg)) (sv_ino sg) (sv_dirty sg)]> (s_svs s)) s);;
          sfs_decref g1;; biglock_release;; mret result
      else
        sg ← get_sv g1;
        kassert (0 <? sfi_linkcount (sv_i sg)) "g1->sv_i.sfi_linkcount>0";;
        change_sv g1 link_down;;
        sfs_decref g1;;
        biglock_release;;
        mret 0.

(** The error code, [*ret] and [buf]; [buf] has room for [buflen] bytes. *)
Definition sfs_lookparent (v : Z) (path buf : list Z) : M sfs (Z * Z * list Z) :=
  biglock_acquire;;
  sv ← get_sv v;
  if negb (sfi_type (sv_i sv) =? SFS_TYPE_DIR) then biglock_release;; mret (ENOTDIR, 0, buf)
  else
    len ← lift (strlen path);
    if Z.of_nat (length buf) <? len + 1 then biglock_release;; mret (ENAMETOOLONG, 0, buf)
    else
      buf ← lift (strcpy buf path);
      in_vst (Vnode.vnode_incref v);;
      biglock_release;;
      mret (0, v, buf).

Definition sfs_lookup (v : Z) (path : list Z) : M sfs (Z * Z) :=
  biglock_acquire;;
  sv ← get_sv v;
  if negb (sfi_type (sv_i sv) =? SFS_TYPE_DIR) then biglock_release;; mret (ENOTDIR, 0)
  else
    '(result, final, _) ← sfs_lookonce v path;
    biglock_release;;
    mret (if nz result then (result, 0) else (0, final)).

(** Vnode operations that change nothing. *)
Lemma in_vst_skip {A} (c : M Vnode.vst A) s a : c (s_vst s) = Ret (a, s_vst s) -> in_vst c s = Ret (a, s).
Proof. intros Hc. unfold in_vst, zoom. rewrite Hc. by destruct s. Qed.

(** A vnode whose inode has been written back. *)
Definition clean (sv : sfs_vnode) : sfs_vnode := MkSv (sv_i sv) (sv_ino sv) false.

End Code.

End Sfs.
