(* ===== verification/SfsMount.v ===== *)
(** * Mounting, syncing and unmounting SFS: [fs/sfs/sfs_fsops.c]

    [Module Mount] models the file-system level operations on the state of
    [SfsFs.v]: writing the vnodes, the free block bitmap and the superblock back
    to the disk, reading them in, and creating and destroying the [struct sfs_fs].
    The theorems: after a sync the disk holds everything that was in memory, and
    mounting a volume that was synced gives the volume back. *)

From S2P Require Import Prelude Sync Vnode CString Copy Stream Lhd Bitmap SfsBlock SfsFile SfsDir SfsFs.

Module Mount.
Import Stream Lhd Layout Blk File Str Sfs.

Section Code.
Context `{Lhdhw}.

(** [ptr = freemapdata + j*SFS_BLOCKSIZE]: the 512 bytes of the bitmap at [ptr]. *)
Definition slice (j : nat) (data : list Z) : option (list Z) :=
  if bool_decide (512 * j + 512 <= length data)%nat then Some (take 512 (drop (512 * j) data)) else None.

Definition splice (j : nat) (bs data : list Z) : list Z :=
  take (512 * j) data ++ bs ++ drop (512 * j + length bs) data.

(** The rounds [j], ..., [j + n - 1] of the loop over the freemap blocks. *)
Fixpoint freemapio_from (n j : nat) (rw : Z) : M volume Z :=
  match n with
  | O => mret 0
  | S n' =>
      v ← get;
      let freemapdata := Bitmap.bitmap_getdata (sfs_freemap v) in
      ptr ← valid (slice j freemapdata) "freemapdata[j*SFS_BLOCKSIZE]";
      result ← (if rw =? Uio.UIO_READ then
                  '(result, bs) ← sfs_readblock (u32 (SFS_FREEMAP_START + Z.of_nat j));
                  modify (fun v => set_freemap (Bitmap.MkBitmap (Bitmap.nbits (sfs_freemap v))
                                                  (splice j bs (Bitmap.v (sfs_freemap v)))) v);;
                  mret result
                else sfs_writeblock (u32 (SFS_FREEMAP_START + Z.of_nat j)) ptr);
      if nz result then mret result else freemapio_from n' (S j) rw
  end.

Definition sfs_freemapio (rw : Z) : M volume Z :=
  n ← gets nblocks;
  freemapio_from (Z.to_nat (SFS_FREEMAPBLOCKS n)) 0 rw.

(** [VOP_FSYNC] of every vnode; the results are not looked at. *)
Fixpoint sync_vnodes (l : list Z) : M sfs unit :=
  match l with
  | [] => mret tt
  | v :: l' => in_vst (Vnode.vnode_check v);; sfs_fsync v;; sync_vnodes l'
  end.

Definition sfs_sync_vnodes : M sfs Z :=
  vs ← gets sfs_vnodes;
  sync_vnodes vs;;
  mret 0.

Definition sfs_sync_freemap : M volume Z :=
  dirty ← gets sfs_freemapdirty;
  if dirty : bool then
    result ← sfs_freemapio Uio.UIO_WRITE;
    if nz result then mret result
    else modify (set_freemapdirty false);; mret 0
  else mret 0.

Definition sfs_sync_superblock : M volume Z :=
  v ← get;
  if sfs_superdirty v then
    result ← sfs_writeblock SFS_SUPER_BLOCK (superblock_bytes (sfs_sb v));
    if nz result then mret result
    else modify (set_superdirty false);; mret 0
  else mret 0.

Definition sfs_sync : M sfs Z :=
  biglock_acquire;;
  result ← sfs_sync_vnodes;
  if nz result then biglock_release;; mret result
  else
    result ← in_vol sfs_sync_freemap;
    if nz result then biglock_release;; mret result
    else
      result ← in_vol sfs_sync_superblock;
      if nz result then biglock_release;; mret result
      else biglock_release;; mret 0.

(** The bytes of [sfs_sb.sb_volname]. *)
Definition sfs_getvolname : M sfs (list Z) :=
  biglock_acquire;;
  s ← get;
  let ret := sb_volname (sfs_sb (s_vol s)) in
  biglock_release;;
  mret ret.

(** ** Mounting

    The pointers of a [struct sfs_fs] that are NULL for some of its life:
    [m_device] is [sfs_device != NULL] and [m_freemap] is [sfs_freemap != NULL];
    [m_live] says that the structure has been allocated and not freed.  The disk
    itself is always [sfs_device] of the volume. *)
Record mount := MkMount { m_sfs : sfs; m_device : bool; m_freemap : bool; m_live : bool }.

Definition set_m_sfs (s : sfs) (m : mount) : mount := MkMount s (m_device m) (m_freemap m) (m_live m).
Definition set_m_device (b : bool) (m : mount) : mount := MkMount (m_sfs m) b (m_freemap m) (m_live m).
Definition set_m_freemap (b : bool) (m : mount) : mount := MkMount (m_sfs m) (m_device m) b (m_live m).
Definition set_m_live (b : bool) (m : mount) : mount := MkMount (m_sfs m) (m_device m) (m_freemap m) b.

Definition on_sfs {A} (c : M sfs A) : M mount A := zoom m_sfs set_m_sfs c.
Definition on_volume {A} (c : M volume A) : M mount A := on_sfs (in_vol c).

(** [bitmap_destroy], [vnodearray_destroy] and [kfree]. *)
Definition sfs_fs_destroy : M mount unit :=
  modify (set_m_freemap false);;
  m ← get;
  kassert (bool_decide (sfs_vnodes (m_sfs m) = [])) "a->num == 0";;
  kassert (negb (m_device m)) "sfs->sfs_device == NULL";;
  modify (set_m_live false).

Definition sfs_unmount : M mount Z :=
  on_sfs biglock_acquire;;
  m ← get;
  if bool_decide (0 < length (sfs_vnodes (m_sfs m)))%nat then on_sfs biglock_release;; mret EBUSY
  else
    kassert (negb (sfs_superdirty (s_vol (m_sfs m)))) "sfs->sfs_superdirty == false";;
    kassert (negb (sfs_freemapdirty (s_vol (m_sfs m)))) "sfs->sfs_freemapdirty == false";;
    modify (set_m_device false);;
    sfs_fs_destroy;;
    on_sfs biglock_release;;
    mret 0.

(** Whether a structure was created.  The superblock and the vnodes that are in
    the state before are whatever the memory holds. *)
Definition sfs_fs_create : M mount bool :=
  p ← on_sfs kmalloc;
  if p =? 0 then mret false
  else
    modify (set_m_live true);;
    on_volume (modify (set_superdirty false));;
    modify (set_m_device false);;
    q ← on_sfs kmalloc;
    if q =? 0 then modify (set_m_live false);; mret false
    else
      on_sfs (modify (fun s => MkSfs (s_vol s) (s_vst s) p (s_svs s) [] (s_mem s) (s_room s)));;
      modify (set_m_freemap false);;
      on_volume (modify (set_freemapdirty false));;
      mret true.

Definition set_sb (sb : sfs_superblock) (v : volume) : volume :=
  MkVolume (sfs_device v) sb (sfs_superdirty v) (sfs_freemap v) (sfs_freemapdirty v) (vfs_biglock_depth v).

(** [sb_volname[sizeof(sb_volname)-1] = 0] *)
Definition terminate (sb : sfs_superblock) : sfs_superblock :=
  Superblock (sb_magic sb) (sb_nblocks sb) (arr_set (sb_volname sb) (SFS_VOLNAME_SIZE - 1) 0) (sb_reserved sb).

(** The error exits after [sfs_fs_create]. *)
Definition abandon (result : Z) : M mount Z :=
  modify (set_m_device false);;
  sfs_fs_destroy;;
  on_sfs biglock_release;;
  mret result.

(** [bitmap_create], whose two [kmalloc] calls are answered by [ok1] and [ok2]. *)
Definition create_freemap (ok1 ok2 : bool) (nbits : Z) : M mount bool :=
  r ← lift (Bitmap.bitmap_create ok1 ok2 nbits);
  match r with
  | None => mret false
  | Some b => on_volume (modify (set_freemap b));; modify (set_m_freemap true);; mret true
  end.

(** The part of [sfs_domount] that reads the volume. *)
Definition load_volume (ok1 ok2 : bool) : M mount Z :=
  '(result, bs) ← on_volume (sfs_readblock SFS_SUPER_BLOCK);
  on_volume (modify (set_sb (bytes_superblock bs)));;
  if nz result then abandon result
  else
    m ← get;
    let sb := sfs_sb (s_vol (m_sfs m)) in
    if negb (sb_magic sb =? SFS_MAGIC) then abandon EINVAL
    else
      on_volume (modify (set_sb (terminate sb)));;
      ok ← create_freemap ok1 ok2 (SFS_FREEMAPBITS (sb_nblocks sb));
      if negb ok then abandon ENOMEM
      else
        result ← on_volume (sfs_freemapio Uio.UIO_READ);
        if nz result then abandon result
        else on_sfs biglock_release;; mret 0.

Definition sfs_domount (d_blocksize : Z) (ok1 ok2 : bool) : M mount Z :=
  on_sfs biglock_acquire;;
  if negb (d_blocksize =? SFS_BLOCKSIZE) then on_sfs biglock_release;; mret ENXIO
  else
    created ← sfs_fs_create;
    if negb created then on_sfs biglock_release;; mret ENOMEM
    else
      modify (set_m_device true);;
      load_volume ok1 ok2.

End Code.

(** ** Block I/O on a disk without faults, whatever the rest of the structure *)
Section Devices.
Context `{HW : LhdhwOk}.

(** The driver [l'] is ready, and its disk has the contents [B]. *)
Definition holds (l l' : lhd) (B : Z -> list Z) : Prop :=
  ready l' /\ healthy (lh_hw l') /\ d_blocks l' = d_blocks l /\ forall x, sector (lh_hw l') x = B x.

Definition sound (l : lhd) : Prop := ready l /\ healthy (lh_hw l).

Lemma holds_sound l l' B : holds l l' B -> sound l'.
Proof. intros (? & ? & _). by split. Qed.

Lemma read_dev v b :
  sound (sfs_device v) -> 0 <= b < d_blocks (sfs_device v) ->
  exists l, sfs_readblock b v = Ret ((0, blk v b), set_device l v) /\ holds (sfs_device v) l (blk v).
Proof.
  intros [Hr Hh] Hb. destruct (readblock_dev v b Hr Hb) as (rc & bs & l & Hrun & (Hr' & Hd & Hh' & Hs) & [[-> ->]|[_ []]]); [|done].
  exists l. split; [done|]. split_and!; auto.
Qed.

Lemma write_dev v b data :
  sound (sfs_device v) -> 0 <= b < d_blocks (sfs_device v) -> is_block data ->
  exists l, sfs_writeblock b data v = Ret (0, set_device l v) /\ holds (sfs_device v) l (upd (blk v) b data).
Proof.
  intros [Hr Hh] Hb [Hl Hby]. unfold sfs_writeblock. rewrite bind_kassert by (by rewrite Hl). set (u := uio_kinit _ _ _).
  destruct (lhd_io_one_write (sfs_device v) u b) as (rc & l' & u' & Hrun & _ & _ & Hr' & Hd & Hh' & Hs & Hcase);
    [done|apply kinit_good; lia|done|unfold u, SFS_BLOCKSIZE; simpl; lia|unfold u; simpl; lia|lia|unfold u; by rewrite kinit_cells|].
  destruct Hcase as [[-> Hw]|[_ []]]; [|done].
  rewrite (bind_run _ _ _ _ _ (with_uio_run _ _ _ _ _ _ (rwblock_run _ _ _ _ _ (retry_once 10 _ _ _ _ Hrun)))).
  exists l'. split; [reflexivity|]. split_and!; auto. intros x. unfold upd. destruct (Z.eqb_spec x b) as [->|Hne]; [|by apply Hs].
  rewrite Hw. unfold u. rewrite kinit_cells. apply take_ge. lia.
Qed.

(** ** The free block bitmap on disk *)

Definition nfm (v : volume) : nat := Z.to_nat (SFS_FREEMAPBLOCKS (nblocks v)).

(** Block [x] of the bitmap [data], which starts at block 2. *)
Definition map_block (data : list Z) (x : Z) : list Z := take 512 (drop (512 * Z.to_nat (x - 2)) data).

Definition in_map (n : nat) (x : Z) : Prop := 2 <= x < 2 + Z.of_nat n.
#[global] Instance in_map_dec n x : Decision (in_map n x).
Proof. unfold in_map. apply _. Defined.

(** Contents [B] with the blocks of the bitmap replaced. *)
Definition with_map (n : nat) (data : list Z) (B : Z -> list Z) (x : Z) : list Z :=
  if decide (in_map n x) then map_block data x else B x.

Lemma map_block_block data n x :
  length data = (512 * n)%nat -> Forall byte data -> in_map n x -> is_block (map_block data x).
Proof.
  intros Hl Hb [Hx1 Hx2]. unfold map_block. split.
  - rewrite length_take, length_drop. lia.
  - by apply Forall_take, Forall_drop.
Qed.

Lemma slice_some data j : (512 * j + 512 <= length data)%nat -> slice j data = Some (map_block data (2 + Z.of_nat j)).
Proof.
  intros Hj. unfold slice, map_block. rewrite bool_decide_eq_true_2 by done. do 3 f_equal. lia.
Qed.

Lemma freemapio_write n j v :
  sound (sfs_device v) -> length (Bitmap.v (sfs_freemap v)) = (512 * (j + n))%nat -> Forall byte (Bitmap.v (sfs_freemap v)) ->
  2 + Z.of_nat (j + n) <= d_blocks (sfs_device v) < 2 ^ 31 ->
  exists l, freemapio_from n j Uio.UIO_WRITE v = Ret (0, set_device l v) /\
    holds (sfs_device v) l (fun x => if decide (2 + Z.of_nat j <= x < 2 + Z.of_nat (j + n)) then map_block (Bitmap.v (sfs_freemap v)) x else blk v x).
Proof.
  revert j v. induction n as [|n IH]; intros j v Hs Hl Hb Hd; cbn [freemapio_from].
  - exists (sfs_device v). split; [by destruct v|]. destruct Hs. split_and!; try done. intros x. by rewrite decide_False by lia.
  - mrun. unfold Bitmap.bitmap_getdata. rewrite (bind_valid _ _ _ _ _ (slice_some (Bitmap.v (sfs_freemap v)) j ltac:(lia))).
    change (Uio.UIO_WRITE =? Uio.UIO_READ) with false. cbv iota. unfold SFS_FREEMAP_START. rewrite u32_id by lia.
    destruct (write_dev v (2 + Z.of_nat j) (map_block (Bitmap.v (sfs_freemap v)) (2 + Z.of_nat j))) as (l & Hrun & Hh);
      [done|lia|apply (map_block_block _ (j + S n)); [done..|unfold in_map; lia]|].
    rewrite (bind_run _ _ _ _ _ Hrun). unfold nz. cbn [Z.eqb negb].
    destruct (IH (S j) (set_device l v)) as (l2 & Hrun2 & Hh2);
      [by eapply holds_sound|cbn; rewrite Hl; f_equal; lia|done|cbn; destruct Hh as (_ & _ & -> & _); lia|].
    rewrite Hrun2. exists l2. split; [done|]. destruct Hh as (_ & _ & Hd1 & HB), Hh2 as (? & ? & Hd2 & HB2).
    split_and!; try done; [cbn in Hd2; congruence|]. intros x. rewrite HB2. cbn [set_device sfs_freemap].
    unfold blk at 1. cbn [set_device sfs_device]. rewrite HB. unfold upd.
    destruct (Z.eqb_spec x (2 + Z.of_nat j)) as [->|Hne].
    + rewrite decide_False, decide_True by lia. done.
    + destruct (decide (2 + Z.of_nat (S j) <= x < _)) as [|]; [rewrite decide_True by lia; done|].
      rewrite decide_False by lia. done.
Qed.

Lemma freemapio_write_run v :
  sound (sfs_device v) -> length (Bitmap.v (sfs_freemap v)) = (512 * nfm v)%nat -> Forall byte (Bitmap.v (sfs_freemap v)) ->
  2 + Z.of_nat (nfm v) <= d_blocks (sfs_device v) < 2 ^ 31 ->
  exists l, sfs_freemapio Uio.UIO_WRITE v = Ret (0, set_device l v) /\
    holds (sfs_device v) l (with_map (nfm v) (Bitmap.v (sfs_freemap v)) (blk v)).
Proof.
  intros Hs Hl Hb Hd. unfold sfs_freemapio. mrun.
  destruct (freemapio_write (nfm v) 0 v Hs Hl Hb Hd) as (l & Hrun & Hr & Hh & Hdd & HB). exists l. split; [done|].
  by split_and!.
Qed.

(** Reading: the bitmap becomes the concatenation of the blocks. *)
Lemma freemapio_read n j v data :
  sound (sfs_device v) -> length (Bitmap.v (sfs_freemap v)) = (512 * (j + n))%nat -> length data = (512 * (j + n))%nat ->
  take (512 * j) (Bitmap.v (sfs_freemap v)) = take (512 * j) data ->
  (forall x, in_map (j + n) x -> blk v x = map_block data x) ->
  2 + Z.of_nat (j + n) <= d_blocks (sfs_device v) < 2 ^ 31 ->
  exists l, freemapio_from n j Uio.UIO_READ v =
      Ret (0, set_freemap (Bitmap.MkBitmap (Bitmap.nbits (sfs_freemap v)) data) (set_device l v)) /\
    holds (sfs_device v) l (blk v).
Proof.
  revert j v. induction n as [|n IH]; intros j v Hs Hl Hld Ht HB Hd; cbn [freemapio_from].
  - exists (sfs_device v). rewrite !take_ge in Ht by lia. subst data. split; [by destruct v as [? ? ? [] ? ?]|].
    destruct Hs. by split_and!.
  - mrun. unfold Bitmap.bitmap_getdata. rewrite (bind_valid _ _ _ _ _ (slice_some (Bitmap.v (sfs_freemap v)) j ltac:(lia))).
    change (Uio.UIO_READ =? Uio.UIO_READ) with true. cbv iota. unfold SFS_FREEMAP_START. rewrite u32_id by lia.
    destruct (read_dev v (2 + Z.of_nat j) Hs) as (l & Hrun & Hh); [lia|]. mrun.
    rewrite (bind_run _ _ _ _ _ Hrun). mrun. unfold nz. cbn [Z.eqb negb].
    rewrite HB by (unfold in_map; lia). set (data' := splice _ _ _).
    assert (data' = take (512 * S j) data ++ drop (512 * S j) (Bitmap.v (sfs_freemap v))) as Hdata'.
    { unfold data', splice. cbn [set_device sfs_freemap]. unfold map_block. rewrite length_take, length_drop.
      replace (Z.to_nat (2 + Z.of_nat j - 2)) with j by lia. rewrite Nat.min_l by lia. rewrite Ht.
      replace (512 * j + 512)%nat with (512 * S j)%nat by lia. rewrite app_assoc. f_equal.
      replace (512 * S j)%nat with (512 * j + 512)%nat by lia. apply take_take_drop. }
    destruct (IH (S j) (set_freemap (Bitmap.MkBitmap (Bitmap.nbits (sfs_freemap v)) data') (set_device l v))) as (l2 & Hrun2 & Hh2).
    + cbn. by eapply holds_sound.
    + cbn [set_freemap sfs_freemap Bitmap.v]. rewrite Hdata', length_app, length_take, length_drop. lia.
    + rewrite Hld. f_equal; lia.
    + cbn [set_freemap sfs_freemap Bitmap.v]. rewrite Hdata', take_app_le by (rewrite length_take; lia).
      by rewrite take_take, Nat.min_id.
    + intros x Hx. unfold blk. cbn. destruct Hh as (_ & _ & _ & HB'). rewrite HB'. apply HB. unfold in_map in *. lia.
    + cbn. destruct Hh as (_ & _ & -> & _). lia.
    + cbn [set_freemap sfs_freemap Bitmap.nbits set_device] in Hrun2 |- *. rewrite Hrun2. exists l2. split; [done|].
      destruct Hh as (_ & _ & Hd1 & HB1), Hh2 as (? & ? & Hd2 & HB2). split_and!; try done; [cbn in Hd2; congruence|].
      intros x. rewrite HB2. unfold blk at 1. cbn. apply HB1.
Qed.

End Devices.

(** ** Syncing *)
Section Sync.
Context `{HW : LhdhwOk}.

(** [s] with the disk [l] and the vnodes [m]. *)
Definition put (l : lhd) (m : gmap Z sfs_vnode) (s : sfs) : sfs :=
  MkSfs (set_device l (s_vol s)) (s_vst s) (s_fs s) m (sfs_vnodes s) (s_mem s) (s_room s).

Definition dev (s : sfs) : lhd := sfs_device (s_vol s).

(** The inode numbers of the vnodes in [l]. *)
Definition inos (m : gmap Z sfs_vnode) (l : list Z) : list Z := omap (fun v => sv_ino <$> m !! v) l.

(** A vnode that can be written back: it passes [vnode_check], and its inode has a
    block of its own on the disk. *)
Definition vnode_live (s : sfs) (v : Z) : Prop :=
  Vnode.refs (s_vst s) v <> 0 /\
  exists sv, s_svs s !! v = Some sv /\ dinode_wf (sv_i sv) /\ 0 <= sv_ino sv < d_blocks (dev s).

(** What is not dirty is on the disk. *)
Definition on_disk (B : Z -> list Z) (sv : sfs_vnode) : Prop := B (sv_ino sv) = dinode_bytes (sv_i sv).

Lemma sync_inode_run vol sv :
  sound (sfs_device vol) -> dinode_wf (sv_i sv) -> 0 <= sv_ino sv < d_blocks (sfs_device vol) ->
  (sv_dirty sv = false -> on_disk (blk vol) sv) ->
  exists l, sfs_sync_inode (MkFile vol sv) = Ret (0, MkFile (set_device l vol) (clean sv)) /\
    holds (sfs_device vol) l (upd (blk vol) (sv_ino sv) (dinode_bytes (sv_i sv))).
Proof.
  intros Hs Hwf Hi Hd. unfold sfs_sync_inode. mrun. cbn [f_sv]. destruct sv as [i ino dirty]. simpl in *. destruct dirty.
  - destruct (write_dev vol ino (dinode_bytes i)) as (l & Hrun & Hh); [done|done|by apply dinode_bytes_block|].
    exists l. split; [|done].
    rewrite (bind_run _ _ _ _ _ (zoom_Ret f_vol set_vol _ (MkFile vol (MkSv i ino true)) _ _ Hrun)). done.
  - exists (sfs_device vol). split; [by destruct vol|]. destruct Hs. split_and!; try done.
    intros x. unfold upd. destruct (Z.eqb_spec x ino) as [->|]; [|done]. by apply Hd.
Qed.

(** The big lock around an operation that leaves its depth alone. *)
Lemma sfs_fsync_run s v sv :
  sound (dev s) -> 0 <= vfs_biglock_depth (s_vol s) < 2 ^ 32 - 1 -> s_svs s !! v = Some sv ->
  dinode_wf (sv_i sv) -> 0 <= sv_ino sv < d_blocks (dev s) -> (sv_dirty sv = false -> on_disk (blk (s_vol s)) sv) ->
  exists l, sfs_fsync v s = Ret (0, put l (<[v := clean sv]> (s_svs s)) s) /\
    holds (dev s) l (upd (blk (s_vol s)) (sv_ino sv) (dinode_bytes (sv_i sv))).
Proof.
  intros Hs Hd Hv Hwf Hi Hc. destruct s as [vol t fs svs vns mem room]. simpl in *. unfold dev in *. simpl in *.
  unfold sfs_fsync, biglock_acquire, biglock_release, in_vol.
  rewrite (bind_run _ _ _ _ _ (zoom_Ret s_vol set_s_vol _ (MkSfs vol t fs svs vns mem room) _ _ (biglock_acquire_run _ Hd))).
  set (vol1 := set_depth _ vol). unfold set_s_vol. cbn [s_vst s_fs s_svs sfs_vnodes s_mem s_room].
  destruct (sync_inode_run vol1 sv) as (l & Hrun & Hh); [done..|]. exists l. split; [|done].
  unfold in_file, get_sv. mrun. rewrite (bind_valid _ _ _ _ sv) by done.
  match goal with |- mbind _ (zoom ?g ?p ?c) ?s = _ => rewrite (bind_run _ _ _ _ _ (zoom_Ret g p c s _ _ Hrun)) end.
  unfold set_s_vol, set_s_svs. cbn [s_vol s_vst s_fs s_svs sfs_vnodes s_mem s_room f_vol f_sv].
  match goal with |- mbind _ (zoom ?g ?p ?c) ?s = _ =>
    rewrite (bind_run _ _ _ _ _ (zoom_Ret g p c s _ _ (biglock_release_run (g s) (vfs_biglock_depth vol) eq_refl ltac:(lia)))) end.
  unfold put, set_s_vol. cbn. reflexivity.
Qed.

(** The vnodes of [l] after they have been synced. *)
Fixpoint clean_all (l : list Z) (m : gmap Z sfs_vnode) : gmap Z sfs_vnode :=
  match l with [] => m | v :: l' => clean_all l' (alter clean v m) end.

Lemma alter_clean v (m : gmap Z sfs_vnode) sv : m !! v = Some sv -> alter clean v m = <[v := clean sv]> m.
Proof.
  intros Hv. apply map_eq. intros w. destruct (decide (w = v)) as [->|].
  - by rewrite lookup_alter_eq, Hv, lookup_insert_eq.
  - by rewrite lookup_alter_ne, lookup_insert_ne.
Qed.

Lemma sync_vnodes_run l s :
  Vnode.ok (s_vst s) -> sound (dev s) -> 0 <= vfs_biglock_depth (s_vol s) < 2 ^ 32 - 1 ->
  Forall (vnode_live s) l -> NoDup l -> NoDup (inos (s_svs s) l) ->
  (forall v sv, v ∈ l -> s_svs s !! v = Some sv -> sv_dirty sv = false -> on_disk (blk (s_vol s)) sv) ->
  exists d, sync_vnodes l s = Ret (tt, put d (clean_all l (s_svs s)) s) /\ sound d /\ d_blocks d = d_blocks (dev s) /\
    (forall v sv, v ∈ l -> s_svs s !! v = Some sv -> on_disk (sector (lh_hw d)) sv) /\
    (forall x, x ∉ inos (s_svs s) l -> sector (lh_hw d) x = blk (s_vol s) x).
Proof.
  revert s. induction l as [|v l IH]; intros s Hok Hs Hd Hl Hnd Hni Hdisk; cbn [sync_vnodes].
  - exists (dev s). split; [by destruct s as [[] ? ? ? ? ? ?]|]. split; [done|]. split; [done|]. split; [|done]. intros v sv Hv. by apply not_elem_of_nil in Hv.
  - apply Forall_cons in Hl as [(Hr & sv & Hv & Hwf & Hi) Hl]. apply NoDup_cons in Hnd as [Hnv Hnd].
    assert (inos (s_svs s) (v :: l) = sv_ino sv :: inos (s_svs s) l) as Hino by (unfold inos; simpl; by rewrite Hv).
    rewrite Hino in Hni |- *. apply NoDup_cons in Hni as [Hnino Hni].
    rewrite (bind_run _ _ _ _ _ (in_vst_skip _ _ _ (Vnode.vnode_check_ok _ _ Hok Hr))).
    destruct (sfs_fsync_run s v sv) as (d & Hrun & Hh); try done; [by intros; eapply Hdisk; [left|..]|].
    rewrite (bind_run _ _ _ _ _ Hrun). destruct Hh as (Hrd & Hhl & Hdd & HB).
    set (s1 := put d (<[v := clean sv]> (s_svs s)) s).
    assert (forall w, w ∈ l -> s_svs s1 !! w = s_svs s !! w) as Hsame.
    { intros w Hw. cbn. apply lookup_insert_ne. by intros ->. }
    assert (inos (s_svs s1) l = inos (s_svs s) l) as Hinos.
    { unfold inos. clear -Hsame. induction l as [|w l IH]; [done|]. cbn [omap list_omap].
      rewrite Hsame by left. rewrite IH; [done|]. intros; apply Hsame; by right. }
    assert (forall w sw, w ∈ l -> s_svs s !! w = Some sw -> sv_ino sw <> sv_ino sv) as Hother.
    { intros w sw Hw Hsw E. apply Hnino. rewrite <- E. unfold inos. apply list_elem_of_omap. exists w. split; [done|]. by rewrite Hsw. }
    destruct (IH s1) as (d2 & Hrun2 & Hs2 & Hdd2 & Hin & Hout); try done.
    + apply Forall_forall. intros w Hw. destruct (proj1 (Forall_forall _ _) Hl w Hw) as (Hrw & sw & Hsw & Hww & Hiw).
      split; [done|]. exists sw. rewrite Hsame by done. split; [done|]. split; [done|]. unfold dev in *. cbn. by rewrite Hdd.
    + by rewrite Hinos.
    + intros w sw Hw Hsw Hdw. rewrite Hsame in Hsw by done. unfold on_disk, blk. cbn. rewrite HB, upd_ne by eauto.
      apply (Hdisk w); [by right|done..].
    + rewrite Hrun2. exists d2. rewrite Hinos in Hout. split; [|split; [done|]].
      { unfold put. cbn. by rewrite (alter_clean _ _ _ Hv). }
      split; [unfold dev in *; cbn in *; congruence|]. split.
      * intros w sw [->|Hw]%elem_of_cons Hsw.
        -- assert (sw = sv) as -> by congruence. unfold on_disk. rewrite Hout by done. unfold blk. cbn. by rewrite HB, upd_eq.
        -- apply (Hin w); [done|]. by rewrite Hsame.
      * intros x [Hx1 Hx2]%not_elem_of_cons. rewrite Hout by done. unfold blk. cbn. by rewrite HB, upd_ne.
Qed.

Lemma sync_freemap_run v :
  sound (sfs_device v) -> length (Bitmap.v (sfs_freemap v)) = (512 * nfm v)%nat -> Forall byte (Bitmap.v (sfs_freemap v)) ->
  2 + Z.of_nat (nfm v) <= d_blocks (sfs_device v) < 2 ^ 31 ->
  (sfs_freemapdirty v = false -> forall x, in_map (nfm v) x -> blk v x = map_block (Bitmap.v (sfs_freemap v)) x) ->
  exists l, sfs_sync_freemap v = Ret (0, set_freemapdirty false (set_device l v)) /\
    holds (sfs_device v) l (with_map (nfm v) (Bitmap.v (sfs_freemap v)) (blk v)).
Proof.
  intros Hs Hl Hb Hd Hc. unfold sfs_sync_freemap. mrun. destruct (sfs_freemapdirty v) eqn:Hdirty.
  - destruct (freemapio_write_run v Hs Hl Hb Hd) as (l & Hrun & Hh). rewrite (bind_run _ _ _ _ _ Hrun). by exists l.
  - exists (sfs_device v). split; [destruct v; cbn in *; by subst|]. destruct Hs. split_and!; try done.
    intros x. unfold with_map. destruct (decide (in_map (nfm v) x)); [by apply Hc|done].
Qed.

Lemma sync_superblock_run v :
  sound (sfs_device v) -> superblock_wf (sfs_sb v) -> 0 < d_blocks (sfs_device v) ->
  (sfs_superdirty v = false -> blk v 0 = superblock_bytes (sfs_sb v)) ->
  exists l, sfs_sync_superblock v = Ret (0, set_superdirty false (set_device l v)) /\
    holds (sfs_device v) l (upd (blk v) 0 (superblock_bytes (sfs_sb v))).
Proof.
  intros Hs Hsb Hd Hc. unfold sfs_sync_superblock. mrun. destruct (sfs_superdirty v) eqn:Hdirty.
  - destruct (write_dev v 0 (superblock_bytes (sfs_sb v))) as (l & Hrun & Hh); [done|lia|by apply superblock_bytes_block|].
    unfold SFS_SUPER_BLOCK. rewrite (bind_run _ _ _ _ _ Hrun). by exists l.
  - exists (sfs_device v). split; [destruct v; cbn in *; by subst|]. destruct Hs. split_and!; try done.
    intros x. unfold upd. destruct (Z.eqb_spec x 0) as [->|]; [by apply Hc|done].
Qed.

(** A mounted file system: the vnodes in memory have inode blocks of their own
    that lie outside of the superblock and the bitmap. *)
Record fs_ok (s : sfs) : Prop := {
  fs_vst : Vnode.ok (s_vst s);
  fs_sound : sound (dev s);
  fs_depth : 0 <= vfs_biglock_depth (s_vol s) < 2 ^ 32 - 2;
  fs_sb : superblock_wf (sfs_sb (s_vol s));
  fs_size : 2 + Z.of_nat (nfm (s_vol s)) <= nblocks (s_vol s) <= d_blocks (dev s);
  fs_map : length (Bitmap.v (sfs_freemap (s_vol s))) = (512 * nfm (s_vol s))%nat;
  fs_bytes : Forall byte (Bitmap.v (sfs_freemap (s_vol s)));
  fs_nodup : NoDup (sfs_vnodes s);
  fs_inos : NoDup (inos (s_svs s) (sfs_vnodes s));
  fs_live : Forall (vnode_live s) (sfs_vnodes s);
  fs_place x : x ∈ inos (s_svs s) (sfs_vnodes s) -> x <> 0 /\ ~ in_map (nfm (s_vol s)) x;
}.

(** What is not marked dirty is on the disk [d]. *)
Record stored (s : sfs) (B : Z -> list Z) (vd md sd : bool) : Prop := {
  st_vnodes v sv : v ∈ sfs_vnodes s -> s_svs s !! v = Some sv -> vd || negb (sv_dirty sv) = true -> on_disk B sv;
  st_map x : md || negb (sfs_freemapdirty (s_vol s)) = true -> in_map (nfm (s_vol s)) x -> B x = map_block (Bitmap.v (sfs_freemap (s_vol s))) x;
  st_super : sd || negb (sfs_superdirty (s_vol s)) = true -> B 0 = superblock_bytes (sfs_sb (s_vol s));
}.
Definition coherent (s : sfs) : Prop := stored s (blk (s_vol s)) false false false.

(** [s] with the disk [d] and nothing dirty. *)
Definition synced (d : lhd) (s : sfs) : sfs :=
  let v := s_vol s in
  MkSfs (MkVolume d (sfs_sb v) false (sfs_freemap v) false (vfs_biglock_depth v)) (s_vst s) (s_fs s)
    (clean_all (sfs_vnodes s) (s_svs s)) (sfs_vnodes s) (s_mem s) (s_room s).

Lemma in_vol_bind {A B} (c : M volume A) (k : A -> M sfs B) s a v :
  c (s_vol s) = Ret (a, v) -> mbind k (in_vol c) s = k a (set_s_vol v s).
Proof. intros Hc. by rewrite (bind_run _ _ _ _ _ (zoom_Ret s_vol set_s_vol c s a v Hc)). Qed.

Lemma dev_blocks (d : lhd) : sound d -> d_blocks d < 2 ^ 31.
Proof. intros [(_ & _ & -> & _) _]. pose proof (hw_nsect_range (lh_hw d)). lia. Qed.

Lemma sync_run s :
  fs_ok s -> coherent s ->
  exists d, sfs_sync s = Ret (0, synced d s) /\ sound d /\ d_blocks d = d_blocks (dev s) /\
    stored s (sector (lh_hw d)) true true true /\
    (forall x, x <> 0 -> ~ in_map (nfm (s_vol s)) x -> x ∉ inos (s_svs s) (sfs_vnodes s) -> sector (lh_hw d) x = blk (s_vol s) x).
Proof.
  intros [Hvst Hs Hdep Hsb Hsz Hm Hby Hnd Hni Hl Hpl] [Hcv Hcm Hcs]. pose proof (dev_blocks _ Hs) as Hmax.
  unfold sfs_sync, biglock_acquire, biglock_release.
  rewrite (in_vol_bind _ _ s _ _ (biglock_acquire_run (s_vol s) ltac:(lia))). set (s1 := set_s_vol _ s).
  unfold sfs_sync_vnodes. mrun.
  destruct (sync_vnodes_run (sfs_vnodes s1) s1) as (d1 & Hrun1 & Hs1 & Hd1 & Hin & Hout); try done; [cbn; lia|by intros v sv Hv Hsv Hc; apply (Hcv v); [..|by rewrite Hc]|].
  rewrite (bind_run _ _ _ _ _ Hrun1). mrun. unfold nz. cbn [Z.eqb negb].
  set (s2 := put d1 _ s1). set (nm := nfm (s_vol s)) in *.
  destruct (sync_freemap_run (s_vol s2)) as (d2 & Hrun2 & Hr2 & Hh2 & Hd2 & HB2);
    [exact Hs1|exact Hm|exact Hby|change (2 + Z.of_nat nm <= d_blocks d1 < 2 ^ 31); rewrite Hd1; unfold dev in *; cbn; lia| |].
  { intros Hc x Hx. change (sector (lh_hw d1) x = map_block (Bitmap.v (sfs_freemap (s_vol s))) x). rewrite Hout.
    - apply Hcm; [by cbn in Hc; rewrite Hc|exact Hx].
    - intros Hxi. by apply Hpl in Hxi as [_ []]. }
  rewrite (in_vol_bind _ _ s2 _ _ Hrun2). cbn [Z.eqb negb]. set (s3 := set_s_vol _ s2).
  assert (sector (lh_hw d2) 0 = blk (s_vol s) 0) as H0.
  { rewrite HB2. unfold with_map. rewrite decide_False by (unfold in_map; lia). change (sector (lh_hw d1) 0 = blk (s_vol s) 0).
    rewrite Hout; [done|]. intros Hxi. by apply Hpl in Hxi as [[] _]. }
  destruct (sync_superblock_run (s_vol s3)) as (d3 & Hrun3 & Hr3 & Hh3 & Hd3 & HB3);
    [done|exact Hsb|change (0 < d_blocks d2); rewrite Hd2; change (0 < d_blocks d1); rewrite Hd1; unfold dev in *; cbn; lia| |].
  { intros Hc. change (sector (lh_hw d2) 0 = superblock_bytes (sfs_sb (s_vol s))). rewrite H0. apply Hcs. cbn in Hc. by rewrite Hc. }
  rewrite (in_vol_bind _ _ s3 _ _ Hrun3). cbn [Z.eqb negb]. set (s4 := set_s_vol _ s3).
  rewrite (in_vol_bind _ _ s4 _ _ (biglock_release_run (s_vol s4) (vfs_biglock_depth (s_vol s)) eq_refl ltac:(lia))).
  assert (forall x, x <> 0 -> ~ in_map nm x -> sector (lh_hw d3) x = sector (lh_hw d1) x) as H31.
  { intros x Hx Hxm. rewrite HB3, upd_ne by done. change (sector (lh_hw d2) x = sector (lh_hw d1) x). rewrite HB2.
    unfold with_map. by rewrite decide_False. }
  exists d3. split; [reflexivity|]. split; [by split|].
  split; [rewrite Hd3; change (d_blocks d2 = d_blocks (dev s)); by rewrite Hd2|]. split; [split|].
  - intros v sv Hv Hsv _. unfold on_disk. destruct (Hpl (sv_ino sv)) as [Hx Hxm].
    { unfold inos. apply list_elem_of_omap. exists v. split; [done|]. by rewrite Hsv. }
    rewrite H31 by done. by apply (Hin v).
  - intros x _ Hx. rewrite HB3, upd_ne by (unfold in_map in Hx; lia). change (sector (lh_hw d2) x = map_block (Bitmap.v (sfs_freemap (s_vol s))) x).
    rewrite HB2. unfold with_map. by rewrite decide_True.
  - intros _. by rewrite HB3, upd_eq.
  - intros x Hx Hxm Hxi. rewrite H31 by done. by apply Hout.
Qed.

End Sync.

(** ** Mounting *)
Section Mounting.
Context `{HW : LhdhwOk}.

Definition mvol (m : mount) : volume := s_vol (m_sfs m).

Lemma on_volume_bind {A B} (c : M volume A) (k : A -> M mount B) m a v :
  c (mvol m) = Ret (a, v) -> mbind k (on_volume c) m = k a (set_m_sfs (set_s_vol v (m_sfs m)) m).
Proof. intros Hc. unfold on_volume, on_sfs, in_vol. by rewrite (bind_run _ _ _ _ _ (zoom_Ret m_sfs set_m_sfs _ m a _ (zoom_Ret s_vol set_s_vol c (m_sfs m) a v Hc))). Qed.

Lemma on_sfs_bind {A B} (c : M sfs A) (k : A -> M mount B) m a s :
  c (m_sfs m) = Ret (a, s) -> mbind k (on_sfs c) m = k a (set_m_sfs s m).
Proof. intros Hc. by rewrite (bind_run _ _ _ _ _ (zoom_Ret m_sfs set_m_sfs c m a s Hc)). Qed.

Lemma acquire_bind {B} (k : unit -> M mount B) m :
  0 <= vfs_biglock_depth (mvol m) < 2 ^ 32 - 1 ->
  mbind k (on_sfs biglock_acquire) m = k tt (set_m_sfs (set_s_vol (set_depth (vfs_biglock_depth (mvol m) + 1) (mvol m)) (m_sfs m)) m).
Proof. intros Hd. apply (on_volume_bind vfs_biglock_acquire). by apply biglock_acquire_run. Qed.

Lemma release_bind {B} (k : unit -> M mount B) m d :
  vfs_biglock_depth (mvol m) = d + 1 -> 0 <= d ->
  mbind k (on_sfs biglock_release) m = k tt (set_m_sfs (set_s_vol (set_depth d (mvol m)) (m_sfs m)) m).
Proof. intros Hd Hr. apply (on_volume_bind vfs_biglock_release). by apply biglock_release_run. Qed.

(** The mount state with the given fields; the table of vnodes is empty. *)
Definition mounting (m : mount) (l : lhd) (sb : sfs_superblock) (f : Bitmap.bitmap) (depth fs : Z) (mem : list Z)
    (device freemap live : bool) : mount :=
  let s := m_sfs m in
  MkMount (MkSfs (MkVolume l sb false f false depth) (s_vst s) fs (s_svs s) [] mem (s_room s)) device freemap live.

(** What every path through [sfs_domount] after [sfs_fs_create] leaves. *)
Lemma fs_create_run m p q rest :
  s_mem (m_sfs m) = p :: q :: rest -> p <> 0 -> q <> 0 ->
  sfs_fs_create m = Ret (true, mounting m (sfs_device (mvol m)) (sfs_sb (mvol m)) (sfs_freemap (mvol m))
                                 (vfs_biglock_depth (mvol m)) p rest false false true).
Proof.
  destruct m as [[v t fs svs vns mem room] dv fm lv]. cbn. intros -> Hp Hq. unfold sfs_fs_create.
  rewrite (on_sfs_bind _ _ _ p (MkSfs v t fs svs vns (q :: rest) room)) by done. rewrite (proj2 (Z.eqb_neq _ _) Hp). mrun.
  rewrite (on_volume_bind _ _ _ tt _ eq_refl). mrun.
  rewrite (on_sfs_bind _ _ _ q (MkSfs (set_superdirty false v) t fs svs vns rest room)) by done. rewrite (proj2 (Z.eqb_neq _ _) Hq).
  rewrite (on_sfs_bind _ _ _ tt _ eq_refl). mrun. rewrite (on_volume_bind _ _ _ tt _ eq_refl). done.
Qed.

Lemma abandon_run m rc l sb f d fs mem fm :
  0 <= d -> abandon rc (mounting m l sb f (d + 1) fs mem true fm true) =
    Ret (rc, mounting m l sb f d fs mem false false false).
Proof.
  intros Hd. unfold abandon, sfs_fs_destroy. mrun. rewrite bind_kassert by done. mrun. rewrite bind_kassert by done. mrun.
  by rewrite (release_bind _ _ d).
Qed.

Lemma SFS_FREEMAPBITS_eq n : 0 <= n < 2 ^ 32 - 4096 -> SFS_FREEMAPBITS n = (n + 4095) / 4096 * 4096.
Proof.
  intros Hn. unfold SFS_FREEMAPBITS, SFS_ROUNDUP, SFS_BITSPERBLOCK, SFS_BLOCKSIZE.
  rewrite (u32_id (n + _)), (u32_id (n + _ - 1)), u32_id by lia. f_equal. f_equal. lia.
Qed.

(** The contents of the disk agree with a superblock and a bitmap. *)
Definition formatted (B : Z -> list Z) (sb : sfs_superblock) (data : list Z) : Prop :=
  let n := Z.to_nat (SFS_FREEMAPBLOCKS (sb_nblocks sb)) in
  B 0 = superblock_bytes sb /\ length data = (512 * n)%nat /\ forall x, in_map n x -> B x = map_block data x.

(** [bitmap_create] for a volume of [n] blocks. *)
Lemma create_freemap_run m n :
  0 <= n < 2 ^ 31 - 4096 ->
  exists b, create_freemap true true (SFS_FREEMAPBITS n) m =
      Ret (true, set_m_freemap true (set_m_sfs (set_s_vol (set_freemap b (mvol m)) (m_sfs m)) m)) /\
    Bitmap.nbits b = SFS_FREEMAPBITS n /\ length (Bitmap.v b) = (512 * Z.to_nat (SFS_FREEMAPBLOCKS n))%nat.
Proof.
  intros Hn. pose proof (SFS_FREEMAPBITS_eq n ltac:(lia)) as Hbits.
  assert (SFS_FREEMAPBLOCKS n = (n + 4095) / 4096) as Hblks
    by (unfold SFS_FREEMAPBLOCKS; rewrite Hbits; change SFS_BITSPERBLOCK with 4096; apply Z.div_mul; lia).
  destruct (Bitmap.create_run (SFS_FREEMAPBITS n)) as (b & Hb & (_ & Hbl & _ & _) & Hbn & _); [lia|].
  exists b. split; [|split; [done|rewrite Hbn in Hbl; lia]].
  unfold create_freemap. rewrite Hb. erewrite bind_run by reflexivity. cbv iota.
  by rewrite (on_volume_bind _ _ _ tt _ eq_refl).
Qed.

(** The state when [load_volume] starts, in the shape the paths leave it. *)
Lemma load_volume_run m l sb0 f d fs mem sb data :
  sound l -> 0 <= d -> superblock_wf sb -> sb_magic sb = SFS_MAGIC -> formatted (sector (lh_hw l)) sb data ->
  sb_nblocks sb < 2 ^ 31 - 4096 -> 2 + SFS_FREEMAPBLOCKS (sb_nblocks sb) <= d_blocks l ->
  exists l', load_volume true true (mounting m l sb0 f (d + 1) fs mem true false true) =
      Ret (0, mounting m l' (terminate sb) (Bitmap.MkBitmap (SFS_FREEMAPBITS (sb_nblocks sb)) data) d fs mem true true true) /\
    holds l l' (sector (lh_hw l)).
Proof.
  intros Hs Hd Hsb Hmag (H0 & Hlen & Hmap) Hn Hfit. pose proof Hsb as (_ & Hnb & _). pose proof (dev_blocks l Hs).
  unfold load_volume. set (m2 := mounting _ _ _ _ _ _ _ _ _ _).
  assert (0 <= SFS_FREEMAPBLOCKS (sb_nblocks sb)) by (apply Z.div_pos; [apply u32_range|done]).
  destruct (read_dev (mvol m2) 0 Hs) as (l1 & Hrun1 & Hr1 & Hh1 & Hd1 & HB1); [change (0 <= 0 < d_blocks l); lia|].
  unfold SFS_SUPER_BLOCK. rewrite (on_volume_bind _ _ _ _ _ Hrun1).
  assert (blk (mvol m2) 0 = superblock_bytes sb) as -> by exact H0.
  rewrite (on_volume_bind _ _ _ tt _ eq_refl). unfold nz. cbn [Z.eqb negb]. mrun.
  match goal with |- context [sfs_sb (s_vol (m_sfs ?x))] => set (m3 := x) end.
  assert (sfs_sb (s_vol (m_sfs m3)) = sb) as -> by (apply superblock_round_trip; exact Hsb).
  rewrite Hmag. change (negb (SFS_MAGIC =? SFS_MAGIC)) with false. cbv iota.
  rewrite (on_volume_bind _ _ _ tt _ eq_refl).
  destruct (create_freemap_run (set_m_sfs (set_s_vol (set_sb (terminate sb) (mvol m3)) (m_sfs m3)) m3) (sb_nblocks sb))
    as (b & Hb & Hbn & Hbl); [lia|].
  rewrite (bind_run _ _ _ _ _ Hb). cbn [negb].
  match goal with |- context [mbind _ (on_volume _) ?x] => set (m4 := x) end.
  destruct (freemapio_read (Z.to_nat (SFS_FREEMAPBLOCKS (sb_nblocks sb))) 0 (mvol m4) data) as (l2 & Hrun2 & Hr2 & Hh2 & Hd2 & HB2);
    [by split|exact Hbl|exact Hlen|done|by intros x Hx; unfold blk; cbn; rewrite HB1; apply Hmap|cbn; rewrite Hd1; cbn; lia|].
  assert (sfs_freemapio Uio.UIO_READ (mvol m4) = Ret (0, set_freemap (Bitmap.MkBitmap (Bitmap.nbits (sfs_freemap (mvol m4))) data) (set_device l2 (mvol m4)))) as Hio by exact Hrun2.
  rewrite (on_volume_bind _ _ _ _ _ Hio). cbn [Z.eqb negb]. rewrite (release_bind _ _ d) by done.
  exists l2. split; [|split_and!; [done..|cbn in Hd2; rewrite Hd2, Hd1; done|intros x; rewrite HB2; unfold blk; cbn; apply HB1]].
  unfold mounting. cbn. by rewrite Hbn.
Qed.

Lemma domount_run m p q rest sb data :
  let l := sfs_device (mvol m) in
  sound l -> 0 <= vfs_biglock_depth (mvol m) < 2 ^ 32 - 1 ->
  s_mem (m_sfs m) = p :: q :: rest -> p <> 0 -> q <> 0 ->
  superblock_wf sb -> sb_magic sb = SFS_MAGIC -> formatted (blk (mvol m)) sb data -> sb_nblocks sb < 2 ^ 31 - 4096 ->
  2 + SFS_FREEMAPBLOCKS (sb_nblocks sb) <= d_blocks l ->
  exists l', sfs_domount 512 true true m =
      Ret (0, mounting m l' (terminate sb) (Bitmap.MkBitmap (SFS_FREEMAPBITS (sb_nblocks sb)) data)
                (vfs_biglock_depth (mvol m)) p rest true true true) /\
    holds l l' (blk (mvol m)).
Proof.
  intros l Hs Hd Hmem Hp Hq Hsb Hmag Hf Hn Hfit. unfold sfs_domount. rewrite acquire_bind by done.
  set (m1 := set_m_sfs _ m). change (negb (512 =? SFS_BLOCKSIZE)) with false. cbv iota.
  rewrite (bind_run _ _ _ _ _ (fs_create_run m1 p q rest Hmem Hp Hq)). cbn [negb]. mrun.
  apply (load_volume_run m l (sfs_sb (mvol m)) (sfs_freemap (mvol m))); try done. lia.
Qed.

(** ** Whatever the disk does *)

Lemma freemapio_read_any n j v :
  ready (sfs_device v) -> length (Bitmap.v (sfs_freemap v)) = (512 * (j + n))%nat ->
  2 + Z.of_nat (j + n) <= d_blocks (sfs_device v) < 2 ^ 31 ->
  exists rc b l, freemapio_from n j Uio.UIO_READ v = Ret (rc, set_freemap b (set_device l v)) /\
    same_disk (sfs_device v) l /\ (rc = 0 \/ rc = EIO /\ ~ healthy (lh_hw (sfs_device v))).
Proof.
  revert j v. induction n as [|n IH]; intros j v Hr Hl Hd; cbn [freemapio_from].
  - exists 0, (sfs_freemap v), (sfs_device v). split; [by destruct v|]. split; [by apply same_disk_refl|by left].
  - mrun. unfold Bitmap.bitmap_getdata. rewrite (bind_valid _ _ _ _ _ (slice_some (Bitmap.v (sfs_freemap v)) j ltac:(lia))).
    change (Uio.UIO_READ =? Uio.UIO_READ) with true. cbv iota. unfold SFS_FREEMAP_START. rewrite u32_id by lia.
    destruct (readblock_dev v (2 + Z.of_nat j) Hr ltac:(lia)) as (rc & bs & l & Hrun & Hsame & Hcase). mrun.
    rewrite (bind_run _ _ _ _ _ Hrun). mrun. unfold nz. set (b := Bitmap.MkBitmap _ _).
    destruct Hcase as [[-> ->]|[-> Hnh]]; cbn [Z.eqb negb].
    + pose proof (sector_block (lh_hw (sfs_device v)) (2 + Z.of_nat j)) as [Hlb _].
      pose proof Hsame as (Hr1 & Hd1 & _ & _).
      destruct (IH (S j) (set_freemap b (set_device l v))) as (rc & b' & l2 & Hrun2 & Hsame2 & Hcase2).
      * done.
      * cbn. unfold splice. rewrite !length_app, length_take, length_drop. change (length (blk v (2 + Z.of_nat j))) with (length (sector (lh_hw (sfs_device v)) (2 + Z.of_nat j))).
        rewrite Hlb. lia.
      * cbn. rewrite Hd1. lia.
      * exists rc, b', l2. split; [exact Hrun2|]. split; [by eapply same_disk_trans|].
        destruct Hcase2 as [->|[-> Hnh]]; [by left|right]. split; [done|]. intros Hh. apply Hnh. cbn. by apply Hsame.
    + exists EIO, b, l. split; [done|]. split; [done|]. by right.
Qed.

(** The kernel's copy of the superblock. *)
Definition disk_superblock (m : mount) : sfs_superblock := bytes_superblock (blk (mvol m) 0).

(** The outcome of [sfs_domount] with result [rc]: the disk is as it was, the
    big lock is given back and only a successful mount leaves a structure. *)
Definition mount_outcome (m m' : mount) (rc : Z) : Prop :=
  same_disk (sfs_device (mvol m)) (sfs_device (mvol m')) /\ vfs_biglock_depth (mvol m') = vfs_biglock_depth (mvol m) /\
  m_live m' = (rc =? 0).

Lemma create_any m :
  m_live m = false ->
  (exists m', sfs_fs_create m = Ret (false, m') /\ m_live m' = false /\ sfs_device (mvol m') = sfs_device (mvol m) /\
     vfs_biglock_depth (mvol m') = vfs_biglock_depth (mvol m)) \/
  exists p rest, sfs_fs_create m = Ret (true, mounting m (sfs_device (mvol m)) (sfs_sb (mvol m)) (sfs_freemap (mvol m))
                                 (vfs_biglock_depth (mvol m)) p rest false false true).
Proof.
  intros Hlive. destruct (s_mem (m_sfs m)) as [|p mem] eqn:Hmem; [left|destruct (Z.eqb_spec p 0) as [->|Hp]; [left|]].
  1,2: destruct m as [[v t fs svs vns mm room] dv fm lv]; cbn in *; subst; eexists; split; [reflexivity|done].
  destruct mem as [|q rest]; [left|destruct (Z.eqb_spec q 0) as [->|Hq]; [left|right]].
  3: exists p, rest; by apply (fs_create_run m p q rest).
  1,2: destruct m as [[v t fs svs vns mm room] dv fm lv]; cbn in *; subst; unfold sfs_fs_create;
    unfold kmalloc, on_sfs, zoom, mbind, M_bind, get, modify, gets; cbn; rewrite (proj2 (Z.eqb_neq _ _) Hp); cbn;
    eexists; split; [reflexivity|done].
Qed.

Lemma load_volume_any ok1 ok2 m l sb0 f d fs mem :
  let sb := bytes_superblock (sector (lh_hw l) 0) in
  ready l -> 0 <= d -> 0 <= sb_nblocks sb < 2 ^ 31 - 4096 -> 2 + SFS_FREEMAPBLOCKS (sb_nblocks sb) <= d_blocks l ->
  exists rc m', load_volume ok1 ok2 (mounting m l sb0 f (d + 1) fs mem true false true) = Ret (rc, m') /\
    same_disk l (sfs_device (mvol m')) /\ vfs_biglock_depth (mvol m') = d /\ m_live m' = (rc =? 0) /\
    (rc = 0 /\ sb_magic sb = SFS_MAGIC \/ rc = EINVAL /\ sb_magic sb <> SFS_MAGIC \/
     rc = ENOMEM /\ ok1 && ok2 = false \/ rc = EIO /\ ~ healthy (lh_hw l)).
Proof.
  intros sb Hr Hd Hn Hfit. assert (d_blocks l < 2 ^ 31) as Hmax by (pose proof Hr as (_ & _ & -> & _); pose proof (hw_nsect_range (lh_hw l)); lia).
  assert (0 <= SFS_FREEMAPBLOCKS (sb_nblocks sb)) by (apply Z.div_pos; [apply u32_range|done]).
  unfold load_volume. set (m2 := mounting _ _ _ _ _ _ _ _ _ _).
  destruct (readblock_dev (mvol m2) 0 Hr) as (rc & bs & l1 & Hrun1 & Hsame & Hcase); [change (0 <= 0 < d_blocks l); lia|].
  unfold SFS_SUPER_BLOCK. rewrite (on_volume_bind _ _ _ _ _ Hrun1). rewrite (on_volume_bind _ _ _ tt _ eq_refl). unfold nz.
  change (set_m_sfs _ _) with (mounting m l1 (bytes_superblock bs) f (d + 1) fs mem true false true).
  destruct Hcase as [[-> ->]|[-> Hnh]]; cbn [Z.eqb negb].
  2:{ exists EIO. eexists. split; [by apply abandon_run|]. cbn. split; [done|]. split; [done|]. split; [done|]. auto. }
  mrun. change (sfs_sb _) with sb. destruct (Z.eqb_spec (sb_magic sb) SFS_MAGIC) as [Hm|Hm]; cbn [negb].
  2:{ exists EINVAL. eexists. split; [by apply abandon_run|]. cbn. split; [done|]. split; [done|]. split; [done|]. auto. }
  rewrite (on_volume_bind _ _ _ tt _ eq_refl).
  change (set_m_sfs _ _) with (mounting m l1 (terminate sb) f (d + 1) fs mem true false true).
  destruct (ok1 && ok2) eqn:Hok.
  2:{ rewrite (bind_run _ _ _ false (mounting m l1 (terminate sb) f (d + 1) fs mem true false true));
        [|unfold create_freemap, Bitmap.bitmap_create; by destruct ok1, ok2]. cbn [negb].
      exists ENOMEM. eexists. split; [by apply abandon_run|]. cbn. split; [done|]. split; [done|]. split; [done|]. auto. }
  apply andb_true_iff in Hok as [-> ->].
  destruct (create_freemap_run (mounting m l1 (terminate sb) f (d + 1) fs mem true false true) (sb_nblocks sb) Hn) as (b & Hb & Hbn & Hbl).
  rewrite (bind_run _ _ _ _ _ Hb). cbn [negb].
  change (set_m_freemap _ _) with (mounting m l1 (terminate sb) b (d + 1) fs mem true true true). set (m4 := mounting _ _ _ _ _ _ _ _ _ _).
  pose proof Hsame as (Hr1 & Hd1 & Hh1 & _).
  destruct (freemapio_read_any (Z.to_nat (SFS_FREEMAPBLOCKS (sb_nblocks sb))) 0 (mvol m4)) as (rc & b' & l2 & Hrun2 & Hsame2 & Hcase2);
    [done|exact Hbl|change (d_blocks l1 = d_blocks l) in Hd1;
       change (2 + Z.of_nat (Z.to_nat (SFS_FREEMAPBLOCKS (sb_nblocks sb))) <= d_blocks l1 < 2 ^ 31); lia|].
  assert (sfs_freemapio Uio.UIO_READ (mvol m4) = Ret (rc, set_freemap b' (set_device l2 (mvol m4)))) as Hio by exact Hrun2.
  rewrite (on_volume_bind _ _ _ _ _ Hio).
  change (set_m_sfs _ _) with (mounting m l2 (terminate sb) b' (d + 1) fs mem true true true).
  assert (same_disk l l2) by (by eapply same_disk_trans).
  destruct Hcase2 as [->|[-> Hnh]]; cbn [Z.eqb negb].
  - exists 0. eexists. rewrite (release_bind _ _ d) by done. split; [reflexivity|]. cbn. split; [done|]. split; [done|]. split; [done|]. auto.
  - exists EIO. eexists. split; [by apply abandon_run|]. cbn. split; [done|]. split; [done|]. split; [done|]. right; right; right. split; [done|].
    intros Hh. by apply Hnh, Hh1.
Qed.

End Mounting.

(** ** The contract *)
Section Contract.
Context `{HW : LhdhwOk}.

(** sfs_sync_spec. On a disk without faults [sfs_sync] of a mounted file system
    returns 0 and nothing is dirty afterwards; the disk then holds the inode of
    every vnode in memory, the free block bitmap and the superblock, no other
    block has changed, and nothing else in memory has. *)
Theorem sfs_sync_spec s :
  fs_ok s -> coherent s ->
  exists d, sfs_sync s = Ret (0, synced d s) /\ sound d /\ d_blocks d = d_blocks (dev s) /\
    stored s (sector (lh_hw d)) true true true /\
    (forall x, x <> 0 -> ~ in_map (nfm (s_vol s)) x -> x ∉ inos (s_svs s) (sfs_vnodes s) -> sector (lh_hw d) x = blk (s_vol s) x).
Proof. apply sync_run. Qed.

(** A superblock that [sfs_domount] takes as it is. *)
Definition mountable (sb : sfs_superblock) : Prop :=
  sb_magic sb = SFS_MAGIC /\ terminate sb = sb /\ sb_nblocks sb < 2 ^ 31 - 4096.

(** C13 sfs_remount. On a disk that reports no I/O error, a file system that was
    synced, and whose disk is then mounted again, is the same file system: the
    mount succeeds, the superblock and the free block bitmap are those that were in
    memory, every inode that was in memory is decoded from its block as it was,
    every other block has its contents, and the new volume satisfies the invariant
    of the block layer if the old one did.  The superblock has the magic number, a
    terminated volume name and fewer than 2^31 - 4096 blocks, no more than the
    device has; what is not marked dirty is on the disk, the bitmap has the length
    that belongs to the volume, and the two allocations of the mount succeed.
    (When a write fails [sfs_sync] can return 0 with the data lost, see
    [sfs_write_errors_lost].) *)
Theorem sfs_remount s :
  fs_ok s -> coherent s -> mountable (sfs_sb (s_vol s)) ->
  Bitmap.nbits (sfs_freemap (s_vol s)) = SFS_FREEMAPBITS (nblocks (s_vol s)) ->
  exists d, sfs_sync s = Ret (0, synced d s) /\
    forall m p q rest, sfs_device (mvol m) = d -> 0 <= vfs_biglock_depth (mvol m) < 2 ^ 32 - 1 ->
      s_mem (m_sfs m) = p :: q :: rest -> p <> 0 -> q <> 0 ->
      exists m', sfs_domount 512 true true m = Ret (0, m') /\ m_live m' = true /\ sfs_vnodes (m_sfs m') = [] /\
        sfs_sb (mvol m') = sfs_sb (s_vol s) /\ sfs_freemap (mvol m') = sfs_freemap (s_vol s) /\
        (forall v sv, v ∈ sfs_vnodes s -> s_svs s !! v = Some sv -> bytes_dinode (blk (mvol m') (sv_ino sv)) = sv_i sv) /\
        (forall x, x <> 0 -> ~ in_map (nfm (s_vol s)) x -> x ∉ inos (s_svs s) (sfs_vnodes s) -> blk (mvol m') x = blk (s_vol s) x) /\
        (vol_ok (s_vol s) -> vol_ok (mvol m')).
Proof.
  intros Hok Hco (Hmag & Hterm & Hmax) Hbits. destruct (sync_run s Hok Hco) as (d & Hrun & Hs & Hd & [Hv Hm Hsb] & Hrest).
  exists d. split; [done|]. intros m p q rest Hdev Hdep Hmem Hp Hq. pose proof Hok as [_ _ _ Hsbw Hsz Hml _ _ _ Hlive _].
  unfold dev, nfm, nblocks in *.
  assert (0 <= SFS_FREEMAPBLOCKS (sb_nblocks (sfs_sb (s_vol s)))) by (apply Z.div_pos; [apply u32_range|done]).
  destruct (domount_run m p q rest (sfs_sb (s_vol s)) (Bitmap.v (sfs_freemap (s_vol s)))) as (l' & Hmount & Hr' & Hh' & Hd' & HB');
    rewrite ?Hdev; try done.
  - unfold formatted, blk. rewrite Hdev. split; [by apply Hsb|]. split; [done|]. intros x Hx. by apply Hm.
  - lia.
  - rewrite Hmount. eexists. split; [reflexivity|]. unfold blk in *. rewrite Hdev in *. cbn.
    do 2 (split; [done|]). split; [by rewrite Hterm|]. split; [rewrite <- Hbits; by destruct (sfs_freemap _)|].
    split; [|split].
    + intros v sv Hin Hsv. rewrite HB'. destruct (proj1 (Forall_forall _ _) Hlive v Hin) as (_ & sv' & Hsv' & Hwf & _).
      assert (sv' = sv) as -> by congruence. specialize (Hv v sv Hin Hsv eq_refl). unfold on_disk in Hv. rewrite Hv. by apply dinode_round_trip.
    + intros x Hx Hxm Hxi. rewrite HB'. by apply Hrest.
    + intros [_ _ Hwf Hvs Hvd Hvm Ht Hu]. unfold nblocks, used in *. split; unfold nblocks, used; cbn; rewrite ?Hterm; try done.
      all: first [by rewrite Hd', Hd|rewrite <- Hbits; by destruct (sfs_freemap _)].
Qed.

(** sfs_domount_spec. Whatever the disk does, [sfs_domount] returns when the
    bitmap that the superblock announces lies on the disk: [ENXIO] exactly for a
    device with another sector size, [ENOMEM], [EINVAL] only for a wrong magic
    number, [EIO] only when the medium fails, or 0.  The disk is unchanged, the
    big lock is as before, and a structure is left exactly by a successful
    mount. *)
Theorem sfs_domount_spec m d_blocksize ok1 ok2 :
  let l := sfs_device (mvol m) in
  let sb := disk_superblock m in
  ready l -> 0 <= vfs_biglock_depth (mvol m) < 2 ^ 32 - 1 -> m_live m = false ->
  0 <= sb_nblocks sb < 2 ^ 31 - 4096 -> 2 + SFS_FREEMAPBLOCKS (sb_nblocks sb) <= d_blocks l ->
  exists rc m', sfs_domount d_blocksize ok1 ok2 m = Ret (rc, m') /\ mount_outcome m m' rc /\
    (rc = ENXIO <-> d_blocksize <> 512) /\
    (rc = 0 /\ sb_magic sb = SFS_MAGIC \/ rc = ENXIO \/ rc = ENOMEM \/
     rc = EINVAL /\ sb_magic sb <> SFS_MAGIC \/ rc = EIO /\ ~ healthy (lh_hw l)).
Proof.
  intros l sb Hr Hd Hlive Hn Hfit. unfold sfs_domount. rewrite acquire_bind by done. set (m1 := set_m_sfs _ m).
  unfold SFS_BLOCKSIZE. destruct (Z.eqb_spec d_blocksize 512) as [Hbs|Hbs]; cbn [negb].
  2:{ exists ENXIO. eexists. rewrite (release_bind _ _ (vfs_biglock_depth (mvol m))) by (done || lia). split; [reflexivity|].
      split; [split_and!; [by apply same_disk_refl|done|by cbn; rewrite Hlive]|]. split; [done|]. auto. }
  destruct (create_any m1 Hlive) as [(m' & Hrun & Hl' & Hdev & Hdep)|(p & rest & Hrun)];
    rewrite (bind_run _ _ _ _ _ Hrun); cbn [negb].
  - exists ENOMEM. eexists. rewrite (release_bind _ _ (vfs_biglock_depth (mvol m))) by (done || lia). split; [reflexivity|].
    split; [split_and!; [cbn; rewrite Hdev; by apply same_disk_refl|done|by cbn; rewrite Hl']|]. split; [done|]. auto.
  - mrun. destruct (load_volume_any ok1 ok2 m l (sfs_sb (mvol m)) (sfs_freemap (mvol m)) (vfs_biglock_depth (mvol m)) p rest)
      as (rc & m' & Hload & Hsame & Hdep & Hlv & Hcase); [done|lia|exact Hn|exact Hfit|].
    exists rc, m'. split; [exact Hload|]. split; [by split_and!|]. unfold sb, disk_superblock, blk, l in *.
    destruct Hcase as [[-> ?]|[[-> ?]|[[-> ?]|[-> ?]]]]; (split; [done|]); auto 6.
Qed.

(** sfs_unmount_spec. [sfs_unmount] of a file system with nothing dirty fails
    with [EBUSY], changing nothing, while a vnode is in memory, and otherwise
    returns 0 and frees the structure; with something dirty and no vnode it panics.
    The disk is not touched. *)
Theorem sfs_unmount_spec m :
  m_live m = true -> 0 <= vfs_biglock_depth (mvol m) < 2 ^ 32 - 1 ->
  (sfs_vnodes (m_sfs m) <> [] -> sfs_unmount m = Ret (EBUSY, m)) /\
  (sfs_vnodes (m_sfs m) = [] -> sfs_superdirty (mvol m) = false -> sfs_freemapdirty (mvol m) = false ->
   sfs_unmount m = Ret (0, MkMount (m_sfs m) false false false)) /\
  (sfs_vnodes (m_sfs m) = [] -> sfs_superdirty (mvol m) || sfs_freemapdirty (mvol m) = true ->
   exists why, sfs_unmount m = Panic why).
Proof.
  destruct m as [[[l sb sd f fd dep] t fs svs vns mem room] dv fm lv]. cbn. intros -> Hd.
  unfold sfs_unmount. rewrite acquire_bind by done. mrun. cbn [m_sfs set_m_sfs set_s_vol sfs_vnodes].
  split_and!.
  - intros Hvs. destruct vns as [|v vns]; [done|]. rewrite bool_decide_eq_true_2 by (simpl; lia).
    by rewrite (release_bind _ _ dep) by (done || lia).
  - intros -> -> ->. rewrite bool_decide_eq_false_2 by (simpl; lia). rewrite !bind_kassert by done. mrun.
    unfold sfs_fs_destroy. mrun. rewrite bind_kassert by done. mrun. rewrite bind_kassert by done. mrun.
    by rewrite (release_bind _ _ dep) by (done || lia).
  - intros -> Hdirty. rewrite bool_decide_eq_false_2 by (simpl; lia). cbn. destruct sd; [by eexists|]. cbn in Hdirty. subst fd. by eexists.
Qed.

End Contract.

(** ** A small file system

    The volume of [SfsBlock.v], dirty, with the vnode of the root directory in
    memory. *)
Module Samples.

Definition ROOT : Z := 0x80300000.

Definition sample_inode : sfs_dinode := Dinode 0 SFS_TYPE_DIR 1 (replicate 15 0) 0 (replicate 110 0).

Definition sample_vst : Vnode.vst :=
  Vst (MkSync (Cpu true 0 0 IPL_NONE 0 false true) {[ vn_countlock ROOT := SPINLOCK_INITIALIZER ]})
    {[ ROOT := MkVnode 1 sfs_dirops 7 ROOT ]} {[ sfs_dirops := VOP_MAGIC ]}.

Definition sample_sfs : sfs (H := memdisk_hw) :=
  MkSfs (set_superdirty true (set_freemapdirty true (sample_volume []))) sample_vst 7
    {[ ROOT := MkSv sample_inode 1 true ]} [ROOT] [] [].

Lemma mounted_vst_ok : Vnode.ok sample_vst.
Proof.
  split; [vm_compute; split_and!; (done || by left)|]. intros v x Hv. cbn [v_tab sample_vst] in Hv.
  apply lookup_singleton_Some in Hv as [<- <-]. vm_compute. by split_and!.
Qed.

Lemma root_sample_wf : dinode_wf sample_inode.
Proof. split_and!; try done; apply Forall_replicate; simpl; lia. Qed.

Lemma sample_sfs_ok : fs_ok sample_sfs.
Proof.
  split; try done.
  - apply mounted_vst_ok.
  - split; [apply sample_volume_ready|by constructor].
  - split_and!; try done; apply Forall_replicate; simpl; lia.
  - change (Forall byte ([255] ++ replicate 7 0 ++ replicate 504 255)). rewrite !Forall_app. split_and!; [by constructor|apply Forall_replicate; simpl; lia|apply Forall_replicate; simpl; lia].
  - by apply NoDup_singleton.
  - change (inos _ _) with [1]. apply NoDup_singleton.
  - constructor; [|done]. split; [done|]. exists (MkSv sample_inode 1 true). split; [done|]. split; [apply root_sample_wf|done].
  - intros x Hx. change (x ∈ [1]) in Hx. apply list_elem_of_singleton in Hx as ->. split; [done|]. unfold in_map. lia.
Qed.

Lemma sample_sfs_coherent : coherent sample_sfs.
Proof.
  split; try done. intros v sv Hv Hsv Hd. apply list_elem_of_singleton in Hv as ->. change (Some (MkSv sample_inode 1 true) = Some sv) in Hsv.
  injection Hsv as <-. discriminate Hd.
Qed.

Lemma sfs_sync_spec_witness :
  exists d, sfs_sync sample_sfs = Ret (0, synced d sample_sfs) /\ on_disk (sector (lh_hw d)) (MkSv sample_inode 1 true).
Proof.
  destruct (sfs_sync_spec sample_sfs sample_sfs_ok sample_sfs_coherent) as (d & Hrun & _ & _ & [Hv _ _] & _).
  exists d. split; [exact Hrun|]. apply (Hv ROOT); [left|reflexivity|reflexivity].
Defined.

Definition sample_mount (d : lhd) : mount :=
  MkMount (MkSfs (MkVolume d (Superblock 0 0 [] []) true (Bitmap.MkBitmap 0 []) true 0) sample_vst 0 ∅ [3] [5; 6] []) false false false.

Lemma sfs_remount_witness :
  exists d m', sfs_sync sample_sfs = Ret (0, synced d sample_sfs) /\
    sfs_domount 512 true true (sample_mount d) = Ret (0, m') /\ sfs_freemap (mvol m') = sample_freemap /\
    bytes_dinode (blk (mvol m') 1) = sample_inode /\ vol_ok (mvol m').
Proof.
  destruct (sfs_remount sample_sfs sample_sfs_ok sample_sfs_coherent) as (d & Hrun & Hmount).
  - split_and!; [done|by vm_compute|done].
  - by vm_compute.
  - destruct (Hmount (sample_mount d) 5 6 []) as (m' & Hm & _ & _ & _ & Hf & Hi & _ & Hok);
      [reflexivity|split; [discriminate|reflexivity]|reflexivity|discriminate|discriminate|].
    exists d, m'. split; [exact Hrun|]. split; [exact Hm|]. split; [exact Hf|]. split; [apply (Hi ROOT (MkSv sample_inode 1 true)); [left|reflexivity]|].
    apply Hok. clear. destruct sample_volume_ok. by split.
Defined.

(** The disk of [sample_volume] has no superblock; the mount is refused. *)
Lemma sfs_domount_spec_witness :
  exists rc m', sfs_domount 512 true true (sample_mount (sfs_device (sample_volume []))) = Ret (rc, m') /\ rc = EINVAL /\ m_live m' = false.
Proof.
  destruct (sfs_domount_spec (sample_mount (sfs_device (sample_volume []))) 512 true true) as (rc & m' & Hrun & (_ & _ & Hl) & _ & Hcase);
    [apply sample_volume_ready|done|done|by vm_compute|by vm_compute|].
  exists rc, m'. split; [exact Hrun|].
  assert (match sfs_domount 512 true true (sample_mount (sfs_device (sample_volume []))) with Ret (rc, _) => rc | _ => 0 end = EINVAL) as E by (by vm_compute).
  rewrite Hrun in E. subst rc. split; [reflexivity|exact Hl].
Defined.

Lemma sfs_unmount_spec_witness :
  sfs_unmount (MkMount sample_sfs true true true) = Ret (EBUSY, MkMount sample_sfs true true true).
Proof. apply (sfs_unmount_spec (MkMount sample_sfs true true true)); [done|done|discriminate]. Defined.

(** A superblock that claims [n] blocks, on a disk of 64. *)
Definition oversized (n : Z) : mount :=
  sample_mount (MkLhd (H := memdisk_hw)
    (Memdisk 64 {[ 0 := superblock_bytes (Superblock SFS_MAGIC n (replicate 32 0) (replicate 118 0)) ]} [])
    (replicate 512 0) 0 0 0 1 0 64).

Definition mount_panics (n : Z) : bool :=
  match sfs_domount 512 true true (oversized n) with Panic _ => true | _ => false end.

(** oversized_volume_panics. A volume whose superblock claims more blocks than
    the device has is mounted with a warning while its bitmap still lies on the
    device; when the bitmap does not, the mount panics instead of failing. *)
Theorem oversized_volume_panics :
  mount_panics (63 * 4096) = true /\ mount_panics (62 * 4096) = false.
Proof. split; by vm_compute. Qed.

(** huge_volume_mounts. For a claim of at least 2^32-4095 blocks the size of the
    bitmap wraps around to 0: the mount succeeds with an empty bitmap, and the
    first lookup of the root directory reads outside of it. *)
Theorem huge_volume_mounts :
  match sfs_domount 512 true true (oversized 0xfffff001) with
  | Ret (rc, m) => rc = 0 /\ Bitmap.v (sfs_freemap (mvol m)) = [] /\
      match sfs_getroot (set_mem [9] (m_sfs m)) with Undef _ => True | _ => False end
  | _ => False
  end.
Proof. vm_compute. split_and!; reflexivity || exact I. Qed.

End Samples.

End Mount.
