(* ===== verification/SfsInv.v ===== *)
(** * SFS as a whole: its invariant and the vnode operations

    [fs_inv] relates the state of a mounted file system to the inodes it stores:
    the inodes in memory and on disk, the blocks each of them owns and the names
    in the root directory.  Every block marked in the free map belongs to an inode or
    is one of those that [Reserved] names (such as the superblock and the free map), so a
    block that is not given back breaks the invariant.  The theorems say that loading and reclaiming vnodes
    and the operations on names keep it, and what they do to the names, the link
    counts and the contents of the files. *)

From S2P Require Import Prelude Sync Vnode CString Copy Stream Lhd Bitmap SfsBlock SfsFile SfsTrunc SfsDir SfsFs.

Module Inv.
Import Stream Lhd Layout Blk File Trunc Dir Str Sfs.

(** The blocks of a volume that are in use without belonging to an inode: the
    superblock, the blocks of the free map and what was already lost when the
    volume was mounted.  The set is the same as long as the volume is mounted, so
    that every block an operation takes must end up in an inode and every block
    it takes from one must be given back. *)
Class Reserved := reserved : Z -> Prop.

(** One block more, which an operation has taken and not yet given to an inode. *)
Definition with_block (b : Z) (R : Reserved) : Reserved := fun x => R x \/ x = b.

Section Statement.
Context `{HW : LhdhwOk} {Rsv : Reserved}.
Implicit Types (s : sfs) (f : file) (i : sfs_dinode) (I : gmap Z sfs_dinode).

(** What an operation on a file leaves alone: the blocks in use that the file
    does not own.  Truncation is confined but not [within]. *)
Record confined f f' : Prop := {
  c_ok : fok f';
  c_sb : sfs_sb (f_vol f') = sfs_sb (f_vol f);
  c_superdirty : sfs_superdirty (f_vol f') = sfs_superdirty (f_vol f);
  c_depth : vfs_biglock_depth (f_vol f') = vfs_biglock_depth (f_vol f);
  c_ino : sv_ino (f_sv f') = sv_ino (f_sv f);
  c_type : sfi_type (dinode f') = sfi_type (dinode f);
  c_used x : 0 <= x -> fU f x = true -> ~ fowned f x -> fU f' x = true;
  c_foreign x : 0 <= x -> fU f x = true -> ~ fowned f x -> fB f' x = fB f x;
  c_new x : 0 <= x -> fowned f' x -> fowned f x \/ fU f x = false;
  c_dirty : f_sv f' = f_sv f \/ sv_dirty (f_sv f') = true;
  c_kept x : fowned f x -> fU f' x = true -> fowned f' x;
  c_fresh x : 0 <= x -> fU f' x = true -> fU f x = true \/ fowned f' x;
}.

Lemma within_confined f f' : within f f' -> confined f f'.
Proof. intros []. split; auto. Qed.

(** ** The invariant *)

(** Vnode [v] is in the table and stands for [sv]. *)
Definition in_table s (v : Z) (sv : sfs_vnode) : Prop := v ∈ sfs_vnodes s /\ s_svs s !! v = Some sv.

(** The blocks of the inode numbered [ino]: its own is in use, so are those it
    maps, and nobody else owns any of them. *)
Record inode_ok (v : volume) I (ino : Z) i : Prop := {
  io_range : 0 < ino < nblocks v;
  io_used : used v ino = true;
  io_type : sfi_type i = SFS_TYPE_FILE \/ sfi_type i = SFS_TYPE_DIR;
  io_file : file_ok i (used v) (blk v) (nblocks v);
  io_sep ino' i' b : I !! ino' = Some i' -> ino' <> ino -> owned i (blk v) b -> ~ owned i' (blk v) b;
  io_alone b : owned i (blk v) b -> I !! b = None;
}.

(** Block [x] is the block of an inode of [I] or one that such an inode maps. *)
Definition taken (v : volume) I (x : Z) : Prop :=
  is_Some (I !! x) \/ exists ino i, I !! ino = Some i /\ owned i (blk v) x.

Lemma taken_ext (v v' : volume) I x :
  (forall ino i, I !! ino = Some i -> owned i (blk v') x <-> owned i (blk v) x) -> taken v' I x <-> taken v I x.
Proof.
  intros Ho. unfold taken. split; (intros [?|(ino & i & Hi & Hx)]; [by left|right; exists ino, i; split; [done|by apply (Ho ino)]]).
Qed.

(** The results of [kmalloc] to come are addresses where no vnode lives. *)
Definition fresh_mem s : Prop :=
  NoDup (filter (fun p => p <> 0) (s_mem s)) /\
  forall p, p ∈ s_mem s -> p <> 0 -> p <> DEADBEEF /\ v_tab (s_vst s) !! p = None /\ s_svs s !! p = None.

Record fs_inv s I : Prop := {
  iv_vol : vol_ok (s_vol s);
  iv_vst : Vnode.ok (s_vst s);
  iv_fileops : vop_magic (s_vst s) !! sfs_fileops = Some VOP_MAGIC;
  iv_dirops : vop_magic (s_vst s) !! sfs_dirops = Some VOP_MAGIC;
  iv_fs : s_fs s <> DEADBEEF;
  iv_mem : fresh_mem s;
  iv_nodup : NoDup (sfs_vnodes s);
  iv_table v : v ∈ sfs_vnodes s -> 0 < Vnode.refs (s_vst s) v /\ exists sv, s_svs s !! v = Some sv /\ I !! sv_ino sv = Some (sv_i sv);
  iv_unique v w sv sw : in_table s v sv -> in_table s w sw -> sv_ino sv = sv_ino sw -> v = w;
  iv_inode ino i : I !! ino = Some i -> inode_ok (s_vol s) I ino i;
  iv_disk ino i : I !! ino = Some i -> (forall v sv, in_table s v sv -> sv_ino sv = ino -> sv_dirty sv = false) ->
    blk (s_vol s) ino = dinode_bytes i;
  iv_lost x : 0 <= x < nblocks (s_vol s) -> used (s_vol s) x = true -> reserved x \/ taken (s_vol s) I x;
  iv_reserved x : 0 <= x < nblocks (s_vol s) -> reserved x -> used (s_vol s) x = true /\ ~ taken (s_vol s) I x;
}.

End Statement.

Section Invariant.
Context `{HW : LhdhwOk} {Rsv : Reserved}.
Implicit Types (s : sfs) (f : file) (i : sfs_dinode) (I : gmap Z sfs_dinode).

(** The file behind a vnode. *)
Definition file_of s (sv : sfs_vnode) : file := MkFile (s_vol s) sv.

Lemma table_inode s I v sv : fs_inv s I -> in_table s v sv -> I !! sv_ino sv = Some (sv_i sv).
Proof. intros [] [Hv Hsv]. destruct (iv_table0 v Hv) as (_ & sv' & Hsv' & HI). congruence. Qed.

Lemma table_fok s I v sv : fs_inv s I -> in_table s v sv -> fok (file_of s sv).
Proof. intros Hi Ht. split; [apply Hi|]. by eapply io_file, iv_inode, table_inode. Qed.

(** Another inode, after blocks that it does not own have changed. *)
Lemma inode_frame (v v' : volume) I ino i :
  inode_ok v I ino i -> nblocks v' = nblocks v ->
  (forall x, 0 < x < nblocks v -> used v x = true -> x = ino \/ owned i (blk v) x -> used v' x = true /\ blk v' x = blk v x) ->
  (forall k, ptr i (blk v') k = ptr i (blk v) k) /\ (forall b, owned i (blk v') b <-> owned i (blk v) b) /\
  (forall pos, 0 <= pos -> fbyte i (blk v') pos = fbyte i (blk v) pos) /\
  used v' ino = true /\ blk v' ino = blk v ino /\ file_ok i (used v') (blk v') (nblocks v').
Proof.
  intros [Hr Hu _ [Hwf Hfr Hinj Hind] _ _] Hn Hk.
  assert (forall k, ptr i (blk v') k = ptr i (blk v) k) as Hp.
  { intros k. apply ptr_ext. intros Hz. destruct (Hind Hz) as [Hir Hiu]. apply Hk; [done..|]. right. split; [done|by left]. }
  assert (forall b, owned i (blk v') b <-> owned i (blk v) b) as Ho.
  { intros b. unfold owned. by setoid_rewrite Hp. }
  assert (forall k, 0 <= k -> ptr i (blk v) k <> 0 -> used v' (ptr i (blk v) k) = true /\ blk v' (ptr i (blk v) k) = blk v (ptr i (blk v) k)) as Hpk.
  { intros k H0 Hz. destruct (Hfr k H0 Hz) as (Hpr & Hpu & _). apply Hk; [done..|]. right. split; [done|]. right. by exists k. }
  split; [done|]. split; [done|]. split; [|split; [by apply Hk; auto|split; [by apply Hk; auto|]]].
  - intros pos Hpos. apply fbyte_ext; [done|]. intros Hz. apply Hpk; [lia|done].
  - rewrite Hn. split; [done|..].
    + intros k H0. rewrite Hp. intros Hz. destruct (Hfr k H0 Hz) as (? & _ & ?). split; [done|]. split; [by apply Hpk|done].
    + intros k k' H0 H0'. rewrite !Hp. auto.
    + intros Hz. destruct (Hind Hz) as [? ?]. split; [done|]. apply Hk; [done..|]. right. split; [done|by left].
Qed.

(** ** An operation on one file *)

Definition put_file s (v : Z) f : sfs := set_s_svs (<[v := f_sv f]> (s_svs s)) (set_s_vol (f_vol f) s).

Lemma in_file_run {A} s v sv (c : M file A) a f' :
  s_svs s !! v = Some sv -> c (file_of s sv) = Ret (a, f') -> in_file v c s = Ret (a, put_file s v f').
Proof.
  intros Hv Hc. unfold in_file, get_sv. mrun. rewrite (bind_valid _ _ _ _ sv) by done. unfold zoom.
  change (MkFile (s_vol s) sv) with (file_of s sv). by rewrite Hc.
Qed.

Lemma put_table s v f w sw :
  in_table (put_file s v f) w sw <-> (w = v /\ v ∈ sfs_vnodes s /\ sw = f_sv f \/ w <> v /\ in_table s w sw).
Proof.
  unfold in_table, put_file. cbn. destruct (decide (w = v)) as [->|Hne].
  - rewrite lookup_insert_eq. split; [intros [? [= <-]]; by left|by intros [(_ & ? & ->)|[[] _]]].
  - rewrite lookup_insert_ne by done. split; [intros ?; by right|by intros [[]|[_ ?]]].
Qed.

(** Every other inode keeps its blocks. *)
Lemma confined_others s I v sv f' ino i :
  fs_inv s I -> in_table s v sv -> confined (file_of s sv) f' -> I !! ino = Some i -> ino <> sv_ino sv ->
  (forall b, owned i (blk (f_vol f')) b <-> owned i (blk (s_vol s)) b) /\
  (forall pos, 0 <= pos -> fbyte i (blk (f_vol f')) pos = fbyte i (blk (s_vol s)) pos) /\
  used (f_vol f') ino = true /\ blk (f_vol f') ino = blk (s_vol s) ino /\
  file_ok i (used (f_vol f')) (blk (f_vol f')) (nblocks (f_vol f')).
Proof.
  intros Hi Ht Hc Hino Hne. pose proof (table_inode _ _ _ _ Hi Ht) as Hv. pose proof (iv_inode _ _ Hi _ _ Hino) as Hok.
  pose proof (iv_inode _ _ Hi _ _ Hv) as Hokv.
  assert (nblocks (f_vol f') = nblocks (s_vol s)) as Hn by (unfold nblocks; by rewrite (c_sb _ _ Hc)).
  destruct (inode_frame (s_vol s) (f_vol f') I ino i Hok Hn) as (_ & Ho & Hb & Hu & HB & Hf); [|by split_and!].
  intros x Hx Hux Hcase. assert (~ fowned (file_of s sv) x) as Hno.
  { intros Hox. destruct Hcase as [->|Hoi].
    - pose proof (io_alone _ _ _ _ Hokv _ Hox). congruence.
    - by apply (io_sep _ _ _ _ Hokv _ _ _ Hino Hne Hox). }
  split; [apply (c_used _ _ Hc); [lia|done|done]|apply (c_foreign _ _ Hc); [lia|done|done]].
Qed.

Lemma owned_used s I ino i b :
  fs_inv s I -> I !! ino = Some i -> owned i (blk (s_vol s)) b -> 0 < b < nblocks (s_vol s) /\ used (s_vol s) b = true.
Proof.
  intros Hi Hino Hb. apply (owned_range (MkFile (s_vol s) (MkSv i ino false))); [|exact Hb].
  split; [apply Hi|]. by eapply io_file, iv_inode.
Qed.

Lemma taken_used s I x : fs_inv s I -> taken (s_vol s) I x -> 0 < x < nblocks (s_vol s) /\ used (s_vol s) x = true.
Proof. intros Hi [[i Hx]|(ino & i & Hino & Ho)]; [split; apply (iv_inode _ _ Hi _ _ Hx)|by apply (owned_used s I ino i)]. Qed.

(** The free map is exact: a block is marked exactly when it has an owner. *)
Lemma used_exact s I x :
  fs_inv s I -> 0 <= x < nblocks (s_vol s) -> used (s_vol s) x = true <-> reserved x \/ taken (s_vol s) I x.
Proof. intros Hi Hx. split; [by apply Hi|]. intros [?|?]; [by apply (iv_reserved _ _ Hi)|by apply (taken_used s I)]. Qed.

(** So a block that an inode had and none has any more is free again. *)
Lemma freed_block s s' I I' x :
  fs_inv s I -> fs_inv s' I' -> sfs_sb (s_vol s') = sfs_sb (s_vol s) ->
  taken (s_vol s) I x -> ~ taken (s_vol s') I' x -> used (s_vol s') x = false.
Proof.
  intros Hi Hi' Hsb Hx Hx'. destruct (taken_used s I x Hi Hx) as [Hr _].
  assert (nblocks (s_vol s') = nblocks (s_vol s)) as Hn by (unfold nblocks; by rewrite Hsb).
  destruct (used (s_vol s') x) eqn:Hu; [|done]. apply (used_exact s' I' x Hi') in Hu as [Hr'|?]; [|done|lia].
  by destruct (iv_reserved _ _ Hi x ltac:(lia) Hr') as [_ []].
Qed.

(** A block that the changed file owns is not owned by another inode. *)
Lemma confined_new s I v sv f' ino i b :
  fs_inv s I -> in_table s v sv -> confined (file_of s sv) f' -> I !! ino = Some i -> ino <> sv_ino sv ->
  fowned f' b -> b <> ino /\ ~ owned i (blk (s_vol s)) b.
Proof.
  intros Hi Ht Hc Hino Hne Hob. pose proof (iv_inode _ _ Hi _ _ (table_inode _ _ _ _ Hi Ht)) as Hokv.
  destruct (c_new _ _ Hc b) as [Hold|Hfree]; [destruct (owned_range f' b (c_ok _ _ Hc) Hob); lia|exact Hob|..].
  - split; [intros ->; pose proof (io_alone _ _ _ _ Hokv _ Hold); congruence|]. by apply (io_sep _ _ _ _ Hokv _ _ _ Hino Hne Hold).
  - change (used (s_vol s) b = false) in Hfree. split.
    + intros ->. pose proof (io_used _ _ _ _ (iv_inode _ _ Hi _ _ Hino)). congruence.
    + intros Hoi. destruct (owned_used _ _ _ _ _ Hi Hino Hoi). congruence.
Qed.

Lemma confined_self s I v sv f' :
  fs_inv s I -> in_table s v sv -> confined (file_of s sv) f' ->
  inode_ok (f_vol f') (<[sv_ino sv := dinode f']> I) (sv_ino sv) (dinode f').
Proof.
  intros Hi Ht Hc. pose proof (table_inode _ _ _ _ Hi Ht) as Hv. pose proof (iv_inode _ _ Hi _ _ Hv) as Hokv.
  assert (nblocks (f_vol f') = nblocks (s_vol s)) as Hn by (unfold nblocks; by rewrite (c_sb _ _ Hc)).
  pose proof (io_range _ _ _ _ Hokv) as Hvr. pose proof (io_used _ _ _ _ Hokv) as Hvu. split.
  - by rewrite Hn.
  - apply (c_used _ _ Hc); [lia|done|]. intros Hox. pose proof (io_alone _ _ _ _ Hokv _ Hox). congruence.
  - rewrite (c_type _ _ Hc). apply Hokv.
  - apply Hc.
  - intros ino' i' b Hino' Hne' Hob Hob'. rewrite lookup_insert_ne in Hino' by done.
    destruct (confined_others _ _ _ _ _ _ _ Hi Ht Hc Hino' Hne') as (Ho & _). apply (proj1 (Ho b)) in Hob'.
    by apply (confined_new _ _ _ _ _ _ _ _ Hi Ht Hc Hino' Hne' Hob).
  - intros b Hob. destruct (decide (b = sv_ino sv)) as [->|Hbne].
    { destruct (c_new _ _ Hc (sv_ino sv)) as [Ho|Hfree]; [lia|exact Hob|..].
      - pose proof (io_alone _ _ _ _ Hokv _ Ho). congruence.
      - change (used (s_vol s) (sv_ino sv) = false) in Hfree. congruence. }
    rewrite lookup_insert_ne by done. destruct (I !! b) as [i'|] eqn:Eb; [|done].
    by destruct (confined_new _ _ _ _ _ _ _ b Hi Ht Hc Eb Hbne Hob) as [[] _].
Qed.

Lemma confined_other s I v sv f' ino i :
  fs_inv s I -> in_table s v sv -> confined (file_of s sv) f' -> I !! ino = Some i -> ino <> sv_ino sv ->
  inode_ok (f_vol f') (<[sv_ino sv := dinode f']> I) ino i.
Proof.
  intros Hi Ht Hc Hino Hne. pose proof (iv_inode _ _ Hi _ _ Hino) as Hok.
  assert (nblocks (f_vol f') = nblocks (s_vol s)) as Hn by (unfold nblocks; by rewrite (c_sb _ _ Hc)).
  destruct (confined_others _ _ _ _ _ _ _ Hi Ht Hc Hino Hne) as (Ho & _ & Hu & _ & Hf). split; [rewrite Hn; apply Hok|done|apply Hok|done|..].
  - intros ino' i' b Hino' Hne' Hob Hob'. apply (proj1 (Ho b)) in Hob. destruct (decide (ino' = sv_ino sv)) as [->|Hne2].
    + rewrite lookup_insert_eq in Hino'. injection Hino' as <-.
      by destruct (confined_new _ _ _ _ _ _ _ b Hi Ht Hc Hino Hne Hob') as [_ []].
    + rewrite lookup_insert_ne in Hino' by done.
      destruct (confined_others _ _ _ _ _ _ _ Hi Ht Hc Hino' Hne2) as (Ho' & _). apply (proj1 (Ho' b)) in Hob'.
      by apply (io_sep _ _ _ _ Hok _ _ _ Hino' Hne' Hob).
  - intros b Hob. apply (proj1 (Ho b)) in Hob. pose proof (io_alone _ _ _ _ Hok _ Hob) as Hb. rewrite lookup_insert_ne; [done|].
    intros <-. rewrite (table_inode _ _ _ _ Hi Ht) in Hb. done.
Qed.

(** No block is lost: those the file had are still its own or free. *)
Lemma confined_lost s I v sv f' x :
  fs_inv s I -> in_table s v sv -> confined (file_of s sv) f' -> 0 <= x < nblocks (f_vol f') -> used (f_vol f') x = true ->
  reserved x \/ taken (f_vol f') (<[sv_ino sv := dinode f']> I) x.
Proof.
  intros Hi Ht Hc Hx Hu. assert (nblocks (f_vol f') = nblocks (s_vol s)) as Hn by (unfold nblocks; by rewrite (c_sb _ _ Hc)).
  assert (fowned f' x -> taken (f_vol f') (<[sv_ino sv := dinode f']> I) x) as Hnew.
  { intros Ho. right. exists (sv_ino sv), (dinode f'). by rewrite lookup_insert_eq. }
  destruct (c_fresh _ _ Hc x) as [Hold|]; [lia|exact Hu| |by right; apply Hnew].
  destruct (iv_lost _ _ Hi x) as [|[[i Hxi]|(ino & i & Hino & Ho)]]; [lia|exact Hold|by left|right..].
  - left. destruct (decide (x = sv_ino sv)) as [->|]; [by rewrite lookup_insert_eq|rewrite lookup_insert_ne by done; by exists i].
  - destruct (decide (ino = sv_ino sv)) as [->|Hne].
    + apply Hnew, (c_kept _ _ Hc); [|exact Hu]. rewrite (table_inode _ _ _ _ Hi Ht) in Hino. injection Hino as <-. exact Ho.
    + right. exists ino, i. rewrite lookup_insert_ne by done. split; [done|].
      by apply (confined_others _ _ _ _ _ _ _ Hi Ht Hc Hino Hne).
Qed.

Lemma confined_reserved s I v sv f' x :
  fs_inv s I -> in_table s v sv -> confined (file_of s sv) f' -> 0 <= x < nblocks (f_vol f') -> reserved x ->
  used (f_vol f') x = true /\ ~ taken (f_vol f') (<[sv_ino sv := dinode f']> I) x.
Proof.
  intros Hi Ht Hc Hx Hr. assert (nblocks (f_vol f') = nblocks (s_vol s)) as Hn by (unfold nblocks; by rewrite (c_sb _ _ Hc)).
  destruct (iv_reserved _ _ Hi x) as [Hu Hnt]; [lia|done|]. pose proof (table_inode _ _ _ _ Hi Ht) as Hv. split.
  - apply (c_used _ _ Hc); [lia|done|]. intros Ho. apply Hnt. right. by exists (sv_ino sv), (sv_i sv).
  - intros [[i Hxi]|(ino & i & Hino & Ho)].
    + apply Hnt. left. destruct (decide (x = sv_ino sv)) as [->|]; [by rewrite Hv|]. rewrite lookup_insert_ne in Hxi by done. by exists i.
    + destruct (decide (ino = sv_ino sv)) as [->|Hne].
      * rewrite lookup_insert_eq in Hino. injection Hino as <-. destruct (c_new _ _ Hc x) as [Ho'|Hf]; [lia|exact Ho|..].
        -- apply Hnt. right. by exists (sv_ino sv), (sv_i sv).
        -- change (used (s_vol s) x = false) in Hf. congruence.
      * rewrite lookup_insert_ne in Hino by done. apply Hnt. right. exists ino, i. split; [done|].
        by apply (confined_others _ _ _ _ _ _ _ Hi Ht Hc Hino Hne).
Qed.

Lemma put_file_inv s I v sv f' :
  fs_inv s I -> in_table s v sv -> confined (file_of s sv) f' ->
  fs_inv (put_file s v f') (<[sv_ino sv := dinode f']> I).
Proof.
  intros Hi Ht Hc. pose proof Hi as []. pose proof Hc as [Hfok _ _ _ Hcino _ _ Hcf _ Hcd _ _].
  pose proof (iv_inode0 _ _ (table_inode _ _ _ _ Hi Ht)) as Hokv.
  assert (forall w sw, in_table s w sw -> w <> v -> sv_ino sw <> sv_ino sv) as Hothers.
  { intros w sw Hw Hne E. apply Hne. by eapply iv_unique0. }
  split; cbn [put_file set_s_svs set_s_vol s_vol s_vst s_fs s_svs sfs_vnodes s_mem s_room]; try done.
  - apply Hfok.
  - destruct iv_mem0 as [Hnd Hfr]. split; [done|]. intros p Hp Hz. destruct (Hfr p Hp Hz) as (? & ? & ?). split; [done|]. split; [done|].
    cbn. rewrite lookup_insert_ne; [done|]. intros ->. destruct Ht as [_ Hsv]. congruence.
  - intros w Hw. destruct (iv_table0 w Hw) as (Hrw & sw & Hsw & HIw). split; [done|]. destruct (decide (w = v)) as [->|Hne].
    + exists (f_sv f'). rewrite lookup_insert_eq, Hcino. split; [done|]. by rewrite lookup_insert_eq.
    + exists sw. rewrite lookup_insert_ne by done. split; [done|]. rewrite lookup_insert_ne; [done|].
      intros E. apply (Hothers w sw); [by split|done|done].
  - intros w1 w2 s1 s2 H1 H2 E. apply put_table in H1 as [(-> & _ & ->)|[Hw1 H1]], H2 as [(-> & _ & ->)|[Hw2 H2]]; [done|..].
    + destruct (Hothers _ _ H2 Hw2). by rewrite <- E, Hcino.
    + destruct (Hothers _ _ H1 Hw1). by rewrite E, Hcino.
    + by eapply iv_unique0.
  - intros ino i Hino. destruct (decide (ino = sv_ino sv)) as [->|Hne].
    + rewrite lookup_insert_eq in Hino. injection Hino as <-. by eapply confined_self.
    + rewrite lookup_insert_ne in Hino by done. by eapply confined_other.
  - intros ino i Hino Hclean. destruct (decide (ino = sv_ino sv)) as [->|Hne].
    + rewrite lookup_insert_eq in Hino. injection Hino as <-.
      assert (sv_dirty (f_sv f') = false) as Hd. { apply (Hclean v); [apply put_table; left; split_and!; [done|apply Ht|done]|done]. }
      destruct Hcd as [E|]; [|congruence]. change (f_sv (file_of s sv)) with sv in E. unfold dinode. rewrite E.
      transitivity (blk (s_vol s) (sv_ino sv)).
      * pose proof (io_range _ _ _ _ Hokv). apply Hcf; [lia|apply Hokv|]. intros Hox. pose proof (io_alone _ _ _ _ Hokv _ Hox) as HN.
        by rewrite (table_inode _ _ _ _ Hi Ht) in HN.
      * apply iv_disk0; [by eapply table_inode|]. intros w sw Hw Eino. assert (w = v) as -> by (by eapply iv_unique0).
        destruct Ht as [_ Hsv], Hw as [_ Hsw]. congruence.
    + rewrite lookup_insert_ne in Hino by done. destruct (confined_others _ _ _ _ _ _ _ Hi Ht Hc Hino Hne) as (_ & _ & _ & -> & _).
      apply iv_disk0; [done|]. intros w sw Hw E. apply (Hclean w); [|done]. apply put_table. right. split; [|done].
      intros ->. destruct Ht as [_ Hsv], Hw as [_ Hsw]. congruence.
  - intros x. by apply (confined_lost s I v sv f').
  - intros x. by apply (confined_reserved s I v sv f').
Qed.

(** Reference counting leaves the tables of operations alone. *)
Definition magic_kept {A} (c : M Vnode.vst A) : Prop := forall t a t', c t = Ret (a, t') -> vop_magic t' = vop_magic t.

Lemma magic_bind {A B} (c : M Vnode.vst A) (k : A -> M Vnode.vst B) :
  magic_kept c -> (forall a, magic_kept (k a)) -> magic_kept (mbind k c).
Proof. intros Hc Hk t b t' (a & t1 & H1 & H2)%bind_Ret_inv. by rewrite (Hk a _ _ _ H2), (Hc _ _ _ H1). Qed.

Lemma magic_sync (c : M sync unit) : magic_kept (zoom v_sync Vnode.set_v_sync c).
Proof. intros t a t'. unfold zoom. destruct (c (v_sync t)) as [[[] y]| | |]; [by intros [= _ <-]|done..]. Qed.

Lemma magic_kassert b why : magic_kept (kassert b why).
Proof. intros t a t'. unfold kassert. destruct b; [by intros [= _ <-]|done]. Qed.

Lemma magic_deref v : magic_kept (Vnode.deref v).
Proof.
  intros t a t' (x & t1 & H1 & H2)%bind_Ret_inv. injection H1 as <- <-. unfold valid in H2. destruct (v_tab t !! v); [by injection H2 as _ <-|done].
Qed.

Lemma magic_store v x : magic_kept (Vnode.store v x).
Proof. intros t a t'. unfold Vnode.store, modify. by intros [= _ <-]. Qed.

Lemma magic_ret {A} (a : A) : magic_kept (mret a).
Proof. intros t x t'. unfold mret, M_ret. by intros [= _ <-]. Qed.

Lemma incref_magic v : magic_kept (Vnode.vnode_incref v).
Proof.
  unfold Vnode.vnode_incref, Vnode.acquire, Vnode.release.
  repeat (apply magic_bind; [first [apply magic_kassert|apply magic_sync|apply magic_deref|apply magic_store]|intros ?]).
  apply magic_sync.
Qed.

Lemma decref_magic v : magic_kept (Vnode.decref_count v).
Proof.
  unfold Vnode.decref_count, Vnode.acquire, Vnode.release.
  repeat (apply magic_bind; [first [apply magic_kassert|apply magic_sync|apply magic_deref|destruct (1 <? _); [apply magic_store|apply magic_ret]]|intros ?]).
  apply magic_ret.
Qed.

(** ** Operations on the volume and the lock *)

End Invariant.

Section Volume.
Context `{HW : LhdhwOk} {R0 Rsv : Reserved}.
Implicit Types (s : sfs) (f : file) (i : sfs_dinode) (I : gmap Z sfs_dinode).

(** Blocks that no inode of [I] needs may change. *)
Lemma vol_inv s I v' U B :
  fs_inv (Rsv := R0) s I -> evolves (s_vol s) v' U B ->
  (forall ino i x, I !! ino = Some i -> x = ino \/ owned i (blk (s_vol s)) x -> U x = true /\ B x = blk (s_vol s) x) ->
  (forall x, 0 <= x < nblocks (s_vol s) -> U x = true -> reserved x \/ taken (s_vol s) I x) ->
  (forall x, 0 <= x < nblocks (s_vol s) -> reserved x -> U x = true /\ ~ taken (s_vol s) I x) ->
  fs_inv (set_s_vol v' s) I /\
  (forall ino i pos, I !! ino = Some i -> 0 <= pos -> fbyte i (blk v') pos = fbyte i (blk (s_vol s)) pos).
Proof.
  intros Hi Hev Hk Hlost Hres. pose proof Hev as [Hok' _ _ _ Hu HB]. pose proof (evolves_nblocks _ _ _ _ Hev) as Hn.
  assert (forall ino i, I !! ino = Some i -> (forall b, owned i (blk v') b <-> owned i (blk (s_vol s)) b) /\
    (forall pos, 0 <= pos -> fbyte i (blk v') pos = fbyte i (blk (s_vol s)) pos) /\
    used v' ino = true /\ blk v' ino = blk (s_vol s) ino /\ file_ok i (used v') (blk v') (nblocks v')) as Hfr.
  { intros ino i Hino. destruct (inode_frame (s_vol s) v' I ino i (iv_inode _ _ Hi _ _ Hino) Hn) as (_ & Hrest); [|done].
    intros x Hx _ Hcase. rewrite Hu, HB by lia. by eapply Hk. }
  split; [|intros ino i pos Hino Hpos; destruct (Hfr ino i Hino) as (_ & Hb & _); by apply Hb]. pose proof Hi as [].
  split; cbn [set_s_vol s_vol s_vst s_fs s_svs sfs_vnodes s_mem s_room]; try done.
  - intros ino i Hino. destruct (Hfr _ _ Hino) as (Ho & _ & Hui & _ & Hf). pose proof (iv_inode0 _ _ Hino) as Hio.
    split; [rewrite Hn; apply Hio|done|apply Hio|done|..].
    + intros ino' i' b Hino' Hne Hob Hob'. destruct (Hfr _ _ Hino') as (Ho' & _).
      exact (io_sep _ _ _ _ Hio _ _ b Hino' Hne (proj1 (Ho b) Hob) (proj1 (Ho' b) Hob')).
    + intros b Hob. exact (io_alone _ _ _ _ Hio b (proj1 (Ho b) Hob)).
  - intros ino i Hino Hcl. destruct (Hfr _ _ Hino) as (_ & _ & _ & -> & _). by apply iv_disk0.
  - intros x Hx Hux. rewrite (taken_ext (s_vol s) v' I x) by (intros ino i Hino; apply (Hfr _ _ Hino)).
    rewrite Hn in Hx. rewrite Hu in Hux by lia. by apply Hlost.
  - intros x Hx Hr. rewrite (taken_ext (s_vol s) v' I x) by (intros ino i Hino; apply (Hfr _ _ Hino)).
    rewrite Hn in Hx. rewrite Hu by lia. by apply Hres.
Qed.

End Volume.

Section Operations.
Context `{HW : LhdhwOk} {Rsv : Reserved}.
Implicit Types (s : sfs) (f : file) (i : sfs_dinode) (I : gmap Z sfs_dinode).

(** Reading leaves every block as it is. *)
Lemma vol_inv_same s I v' :
  fs_inv s I -> evolves (s_vol s) v' (used (s_vol s)) (blk (s_vol s)) -> fs_inv (set_s_vol v' s) I.
Proof.
  intros Hi Hev. apply (vol_inv (R0 := Rsv) s I v' _ _ Hi Hev); [|apply Hi..]. intros ino i x Hino [->|Ho]; (split; [|done]).
  - apply (iv_inode _ _ Hi _ _ Hino).
  - by apply (owned_used _ _ _ _ _ Hi Hino Ho).
Qed.

(** A free block is taken, and is not yet in an inode. *)
Lemma vol_inv_alloc s I v' b :
  fs_inv s I -> 0 <= b -> used (s_vol s) b = false ->
  evolves (s_vol s) v' (upd (used (s_vol s)) b true) (upd (blk (s_vol s)) b zeros) ->
  fs_inv (Rsv := with_block b Rsv) (set_s_vol v' s) I /\
  (forall ino i pos, I !! ino = Some i -> 0 <= pos -> fbyte i (blk v') pos = fbyte i (blk (s_vol s)) pos).
Proof.
  intros Hi Hb Hf Hev.
  assert (forall ino i x, I !! ino = Some i -> x = ino \/ owned i (blk (s_vol s)) x -> used (s_vol s) x = true) as Hux.
  { intros ino i x Hino [->|Ho]; [apply (iv_inode _ _ Hi _ _ Hino)|by apply (owned_used _ _ _ _ _ Hi Hino Ho)]. }
  assert (~ taken (s_vol s) I b) as Hnb.
  { intros [[i Hbi]|(ino & i & Hino & Ho)]; [rewrite (Hux b i b) in Hf; auto|rewrite (Hux ino i b) in Hf; auto]; done. }
  apply (vol_inv (R0 := Rsv) s I v' _ _ Hi Hev).
  - intros ino i x Hino Hx. pose proof (Hux _ _ _ Hino Hx) as Hu. assert (x <> b) by congruence. by rewrite !upd_ne.
  - intros x Hx Hu. unfold upd in Hu. destruct (Z.eqb_spec x b) as [->|]; [by left; right|].
    destruct (iv_lost _ _ Hi x Hx Hu); [by left; left|by right].
  - intros x Hx [Hr| ->]; [|by rewrite upd_eq]. destruct (iv_reserved _ _ Hi x Hx Hr) as [Hu Hnt].
    split; [|done]. rewrite upd_ne; [done|congruence].
Qed.

Definition depth s : Z := vfs_biglock_depth (s_vol s).
Definition at_depth (d : Z) s : sfs := set_s_vol (set_depth d (s_vol s)) s.

Lemma depth_inv s I d : fs_inv s I -> fs_inv (at_depth d s) I.
Proof.
  intros []. split; cbn [at_depth set_s_vol s_vol s_vst s_fs s_svs sfs_vnodes s_mem s_room]; try done; [by destruct iv_vol0|].
  intros ino i Hino. by destruct (iv_inode0 _ _ Hino).
Qed.

Lemma biglock_acquire_s s : 0 <= depth s < 2 ^ 32 - 1 -> biglock_acquire s = Ret (tt, at_depth (depth s + 1) s).
Proof. intros Hd. apply (zoom_Ret s_vol set_s_vol). by apply biglock_acquire_run. Qed.

Lemma biglock_release_s s d : depth s = d + 1 -> 0 <= d -> biglock_release s = Ret (tt, at_depth d s).
Proof. intros Hd Hr. apply (zoom_Ret s_vol set_s_vol). by apply biglock_release_run. Qed.

(** ** Vnodes in memory *)

Lemma in_vol_pure {A} (c : M volume A) s a : c (s_vol s) = Ret (a, s_vol s) -> in_vol c s = Ret (a, s).
Proof. intros Hc. unfold in_vol. rewrite (zoom_Ret _ set_s_vol _ _ _ _ Hc). by destruct s. Qed.

Lemma bused_s s I ino i :
  fs_inv s I -> I !! ino = Some i -> exists r, in_vol (sfs_bused ino) s = Ret (r, s) /\ (r =? 0) = false.
Proof.
  intros Hi Hino. pose proof (iv_inode _ _ Hi _ _ Hino) as [Hr Hu _ _ _ _].
  destruct (bused_run (s_vol s) ino (iv_vol _ _ Hi)) as (r & Hrun & Hz); [lia|].
  exists r. split; [by apply in_vol_pure|]. apply Z.eqb_neq. intros E. apply Hz in E. congruence.
Qed.

Lemma search_vnodes_run s I l ino :
  fs_inv s I -> (forall v, v ∈ l -> v ∈ sfs_vnodes s) ->
  exists r, search_vnodes ino l s = Ret (r, s) /\
    match r with
    | Some v => exists sv, in_table s v sv /\ sv_ino sv = ino
    | None => forall v sv, v ∈ l -> s_svs s !! v = Some sv -> sv_ino sv <> ino
    end.
Proof.
  intros Hi. induction l as [|v l IH]; intros Hl; cbn [search_vnodes].
  - exists None. split; [done|]. intros v sv Hv. by apply not_elem_of_nil in Hv.
  - assert (v ∈ sfs_vnodes s) as Hv by (apply Hl; left). destruct (iv_table _ _ Hi v Hv) as (_ & sv & Hsv & HI).
    unfold get_sv. mrun. rewrite (bind_valid _ _ _ _ sv) by done.
    destruct (bused_s _ _ _ _ Hi HI) as (r & Hb & Hr). rewrite (bind_run _ _ _ _ _ Hb), Hr.
    destruct (Z.eqb_spec (sv_ino sv) ino) as [E|Hne].
    + exists (Some v). split; [done|]. exists sv. by repeat split.
    + destruct IH as (r' & Hrun & Hpost); [intros w Hw; apply Hl; by right|]. exists r'. split; [done|].
      destruct r' as [w|]; [done|]. intros w sw [->|Hw]%elem_of_cons Hsw; [congruence|by apply (Hpost w)].
Qed.

(** [s] with the vnode [sv] loaded at [v]. *)
Definition added s (v : Z) (sv : sfs_vnode) (ops : Z) (room : list bool) : sfs :=
  MkSfs (s_vol s) (Vnode.with_vnode v ops (s_fs s) (s_vst s)) (s_fs s) (<[v := sv]> (s_svs s)) (sfs_vnodes s ++ [v]) (s_mem s) room.

Definition sfs_ops (ops : Z) : Prop := ops = sfs_fileops \/ ops = sfs_dirops.

Lemma added_in_table s v sv ops room w sw :
  v ∉ sfs_vnodes s -> in_table (added s v sv ops room) w sw <-> (w = v /\ sw = sv \/ in_table s w sw).
Proof.
  intros Hv. unfold in_table. cbn. rewrite elem_of_app, list_elem_of_singleton. destruct (decide (w = v)) as [->|Hne].
  - rewrite lookup_insert_eq. split; [intros [_ [= <-]]; by left|]. intros [[_ ->]|[? _]]; [by split; [right|]|done].
  - rewrite lookup_insert_ne by done. split; [intros [[?|?] ?]; [by right|done]|]. intros [[? _]|[? ?]]; [done|by split; [left|]].
Qed.

End Operations.

Section Added.
Context `{HW : LhdhwOk} {R0 Rsv : Reserved}.
Implicit Types (s : sfs) (f : file) (i : sfs_dinode) (I : gmap Z sfs_dinode).

(** The inodes may grow by the one that is loaded. *)
Lemma added_inv s I I' v sv ops room :
  fs_inv (Rsv := R0) s I -> v <> 0 -> v <> DEADBEEF -> v_tab (s_vst s) !! v = None -> s_svs s !! v = None -> v ∉ s_mem s -> sfs_ops ops ->
  (forall ino i, I !! ino = Some i -> I' !! ino = Some i) -> I' !! sv_ino sv = Some (sv_i sv) ->
  (forall w sw, in_table s w sw -> sv_ino sw <> sv_ino sv) ->
  (forall ino i, I' !! ino = Some i -> inode_ok (s_vol s) I' ino i) ->
  (forall ino i, I' !! ino = Some i -> ino = sv_ino sv /\ sv_dirty sv = true \/ I !! ino = Some i) ->
  (forall x, 0 <= x < nblocks (s_vol s) -> used (s_vol s) x = true -> reserved x \/ taken (s_vol s) I' x) ->
  (forall x, 0 <= x < nblocks (s_vol s) -> reserved x -> used (s_vol s) x = true /\ ~ taken (s_vol s) I' x) ->
  fs_inv (added s v sv ops room) I' /\ Vnode.moved (Vnode.one v) (s_vst s) (s_vst (added s v sv ops room)).
Proof.
  intros Hi Hv Hvd Htab Hsvs Hmem Hops Hsub Hsv Hother Hok Hnew Hlost Hres. pose proof Hi as [].
  assert (v ∉ sfs_vnodes s) as Hnv. { intros Hin. destruct (iv_table0 _ Hin) as (_ & ? & ? & _). congruence. }
  destruct (Vnode.with_vnode_ok (s_vst s) v ops (s_fs s)) as [Hvok Hmoved]; try done; [by destruct Hops as [-> | ->]..|].
  split; [|done]. split; cbn [added s_vol s_vst s_fs s_svs sfs_vnodes s_mem s_room]; try done.
  - destruct iv_mem0 as [Hnd Hfr]. split; [done|]. intros p Hp Hz. destruct (Hfr p Hp Hz) as (? & ? & ?). split; [done|].
    cbn. rewrite !lookup_insert_ne by (by intros ->). done.
  - apply NoDup_app. split; [done|]. split; [|apply NoDup_singleton]. intros w Hw Hw'%list_elem_of_singleton. by subst.
  - intros w [Hw|Hw%list_elem_of_singleton]%elem_of_app.
    + destruct (iv_table0 w Hw) as (Hr & sw & Hsw & HI). split.
      * rewrite Hmoved. unfold Vnode.one. destruct (w =? v); lia.
      * exists sw. rewrite lookup_insert_ne by (by intros ->). split; [done|]. by apply Hsub.
    + subst w. split.
      * rewrite Hmoved. unfold Vnode.one. rewrite Z.eqb_refl. pose proof (Vnode.refs_nonneg _ v iv_vst0). lia.
      * exists sv. by rewrite lookup_insert_eq.
  - intros w1 w2 s1 s2 H1 H2 E. apply added_in_table in H1 as [[-> ->]|H1], H2 as [[-> ->]|H2]; try done.
    + by destruct (Hother _ _ H2).
    + by destruct (Hother _ _ H1).
    + by eapply iv_unique0.
  - intros ino i Hino Hcl. destruct (Hnew _ _ Hino) as [[-> Hd]|HI].
    + rewrite (Hcl v sv) in Hd; [done|apply added_in_table; [done|by left]|done].
    + apply iv_disk0; [done|]. intros w sw Hw. intros E. apply (Hcl w sw); [|done]. apply added_in_table; [done|by right].
Qed.

End Added.

Section Vnodes.
Context `{HW : LhdhwOk} {Rsv : Reserved}.
Implicit Types (s : sfs) (f : file) (i : sfs_dinode) (I : gmap Z sfs_dinode).

(** [s] after a load that failed for want of memory: only unused memory and the
    state of the driver differ. *)
Definition not_loaded s s' I : Prop :=
  fs_inv s' I /\ (forall w sw, in_table s' w sw <-> in_table s w sw) /\ Vnode.moved Vnode.none (s_vst s) (s_vst s') /\
  evolves (s_vol s) (s_vol s') (used (s_vol s)) (blk (s_vol s)).

Lemma set_mem_inv s I p rest : fs_inv s I -> s_mem s = p :: rest -> fs_inv (set_mem rest s) I.
Proof.
  intros [] E. split; try done. destruct iv_mem0 as [Hnd Hfr]. rewrite E in *. split.
  - cbn [set_mem s_mem]. rewrite filter_cons in Hnd. destruct (decide (p <> 0)); [by apply NoDup_cons in Hnd as [_ ?]|done].
  - intros q Hq. apply Hfr. by right.
Qed.

Lemma kmalloc_run s I :
  fs_inv s I ->
  kmalloc s = Ret (0, s) \/
  exists v rest, s_mem s = v :: rest /\ kmalloc s = Ret (v, set_mem rest s) /\ fs_inv (set_mem rest s) I /\
    (v <> 0 -> v <> DEADBEEF /\ v_tab (s_vst s) !! v = None /\ s_svs s !! v = None /\ v ∉ rest).
Proof.
  intros Hi. unfold kmalloc. mrun. destruct (s_mem s) as [|v rest] eqn:Em; [by left|right]. exists v, rest.
  split; [done|]. split; [done|]. split; [by eapply set_mem_inv|]. intros Hv. destruct (iv_mem _ _ Hi) as [Hnd Hfr]. rewrite Em in *.
  destruct (Hfr v ltac:(left) Hv) as (? & ? & ?). split_and!; try done. intros Hin. rewrite filter_cons, decide_True in Hnd by done.
  apply NoDup_cons in Hnd as [Hnin _]. apply Hnin, list_elem_of_filter. done.
Qed.

(** The new vnode is torn down again. *)
Lemma cleanup_new_run s v sv ops room I :
  fs_inv s I -> v_tab (s_vst s) !! v = None -> s_svs s !! v = None ->
  exists s', (in_vst (Vnode.vnode_cleanup v);; kfree_sv v)
      (MkSfs (s_vol s) (Vnode.with_vnode v ops (s_fs s) (s_vst s)) (s_fs s) (<[v := sv]> (s_svs s)) (sfs_vnodes s) (s_mem s) room) = Ret (tt, s') /\
    fs_inv s' I /\ s_vol s' = s_vol s /\ (forall w sw, in_table s' w sw <-> in_table s w sw) /\
    Vnode.moved Vnode.none (s_vst s) (s_vst s').
Proof.
  intros Hi Ht Hs. pose proof Hi as [].
  set (t' := Vst (set_lock (vn_countlock v) SPINLOCK_INITIALIZER (v_sync (s_vst s))) (v_tab (s_vst s)) (vop_magic (s_vst s))).
  exists (MkSfs (s_vol s) t' (s_fs s) (s_svs s) (sfs_vnodes s) (s_mem s) room). split.
  - erewrite bind_run.
    2:{ apply (zoom_Ret s_vst set_s_vst). unfold Vnode.vnode_cleanup, Vnode.deref. mrun. cbn [s_vst Vnode.with_vnode v_tab].
        rewrite (bind_valid _ _ _ _ _ (lookup_insert_eq _ _ _)). rewrite bind_kassert by done.
        erewrite bind_run; [reflexivity|]. apply (zoom_Ret v_sync Vnode.set_v_sync). unfold Spinlock.spinlock_cleanup. mrun.
        unfold lock_of, set_lock. cbn. rewrite lookup_insert_eq. cbn. rewrite bind_kassert by done. done. }
    unfold kfree_sv, modify. do 2 f_equal. unfold set_s_svs, set_s_vst, set_tab, t', Vnode.with_vnode, Vnode.set_v_sync. cbn.
    rewrite !delete_insert_eq, !delete_id by done. done.
  - assert (Vnode.ok t') as Hok'.
    { destruct iv_vst0 as [Hc Hok]. split; [done|]. intros w x Hw. cbn in Hw. destruct (Hok _ _ Hw) as (?&?&?&?&?&?&?&Hl).
      split_and!; try done; try lia. unfold lock_free in *. cbn. rewrite lookup_insert_ne; [done|]. intros [= ->]. congruence. }
    split; [|split; [done|split; [done|intros w; unfold Vnode.none; by rewrite Z.add_0_r]]].
    split; try done.
Qed.

Lemma ops_of_type_run s t :
  t = SFS_TYPE_FILE \/ t = SFS_TYPE_DIR -> exists ops, ops_of_type t s = Ret (ops, s) /\ sfs_ops ops.
Proof. unfold ops_of_type, sfs_ops. intros [-> | ->]; eexists; (split; [reflexivity|]); auto. Qed.

(** The inode that [sfs_loadvnode] makes of the bytes of its block. *)
Definition forced (forcetype : Z) (bs : list Z) : sfs_dinode :=
  if forcetype =? SFS_TYPE_INVAL then bytes_dinode bs else with_type (u16 forcetype) (bytes_dinode bs).

Lemma fresh_inode_run s bs ft :
  (ft <> SFS_TYPE_INVAL -> sfi_type (bytes_dinode bs) = SFS_TYPE_INVAL) ->
  fresh_inode bs ft s = Ret ((forced ft bs, negb (ft =? SFS_TYPE_INVAL)), s).
Proof.
  intros Hft. unfold fresh_inode, forced. destruct (Z.eqb_spec ft SFS_TYPE_INVAL) as [|Hne]; cbn [negb]; [done|].
  rewrite bind_kassert by (by rewrite Hft). done.
Qed.

(** An inode that is not in memory. *)
Lemma load_miss s I ino ft :
  fs_inv s I -> 0 < ino < nblocks (s_vol s) -> used (s_vol s) ino = true ->
  (forall w sw, in_table s w sw -> sv_ino sw <> ino) ->
  (ft <> SFS_TYPE_INVAL -> sfi_type (bytes_dinode (blk (s_vol s) ino)) = SFS_TYPE_INVAL) ->
  let i := forced ft (blk (s_vol s) ino) in
  sfi_type i = SFS_TYPE_FILE \/ sfi_type i = SFS_TYPE_DIR ->
  exists rc v s', sfs_loadvnode ino ft s = Ret ((rc, v), s') /\
    (rc = ENOMEM /\ not_loaded s s' I \/
     rc = 0 /\ exists s1 ops room, s' = added s1 v (MkSv i ino (negb (ft =? SFS_TYPE_INVAL))) ops room /\ fs_inv s1 I /\
       evolves (s_vol s) (s_vol s1) (used (s_vol s)) (blk (s_vol s)) /\ s_vst s1 = s_vst s /\
       s_svs s1 = s_svs s /\ sfs_vnodes s1 = sfs_vnodes s /\ v <> 0 /\ v <> DEADBEEF /\
       v_tab (s_vst s) !! v = None /\ s_svs s !! v = None /\ ~ v ∈ s_mem s1 /\ sfs_ops ops).
Proof.
  intros Hi Hr Hu Hno Hft i Hty. unfold sfs_loadvnode. mrun.
  destruct (search_vnodes_run s I (sfs_vnodes s) ino Hi) as (r & Hs & Hpost); [done|]. rewrite (bind_run _ _ _ _ _ Hs).
  destruct r as [v|]; [destruct Hpost as (sv & Ht & E); by destruct (Hno _ _ Ht)|clear Hpost].
  assert (not_loaded s s I) as Hsame by (split_and!; [done|done|apply Vnode.moved_refl|apply evolves_refl, Hi]).
  destruct (kmalloc_run s I Hi) as [Hk|(v & rest & Em & Hk & Hi0 & Hv)]; rewrite (bind_run _ _ _ _ _ Hk).
  { exists ENOMEM, 0, s. split; [done|]. by left. }
  set (s0 := set_mem rest s) in *.
  assert (evolves (s_vol s) (s_vol s0) (used (s_vol s)) (blk (s_vol s))) as Hev0 by apply evolves_refl, Hi.
  destruct (Z.eqb_spec v 0) as [->|Hvz].
  { exists ENOMEM, 0, s0. split; [done|]. left. split; [done|]. split; [done|]. split; [done|]. split; [apply Vnode.moved_refl|done]. }
  destruct (Hv Hvz) as (Hvd & Htab & Hsvs & Hrest). clear Hv.
  destruct (bused_run (s_vol s0) ino (iv_vol _ _ Hi0)) as (r & Hb & Hrz); [change (0 <= ino < nblocks (s_vol s)); lia|].
  rewrite (bind_run _ _ _ _ _ (in_vol_pure _ _ _ Hb)).
  rewrite (proj2 (Z.eqb_neq r 0)) by (intros E; apply Hrz in E; change (used (s_vol s) ino = false) in E; congruence).
  destruct (readblock_run (s_vol s0) ino (iv_vol _ _ Hi0)) as (v1 & Hrd & Hev); [change (0 <= ino < nblocks (s_vol s)); lia|].
  rewrite (bind_run _ _ _ _ _ (zoom_Ret s_vol set_s_vol _ s0 _ _ Hrd)). change (blk (s_vol s0) ino) with (blk (s_vol s) ino).
  cbn [nz Z.eqb negb]. pose proof (vol_inv_same s0 I v1 Hi0 Hev) as Hi1. set (s1 := set_s_vol v1 s0) in *.
  rewrite (bind_run _ _ _ _ _ (fresh_inode_run s1 _ ft Hft)). fold i.
  destruct (ops_of_type_run s1 (sfi_type i) Hty) as (ops & Hops & Ho). rewrite (bind_run _ _ _ _ _ Hops).
  assert (ops <> 0) as Hoz by (by destruct Ho as [-> | ->]).
  rewrite (bind_run _ _ _ _ _ (zoom_Ret s_vst set_s_vst _ s1 _ _ (Vnode.vnode_init_run (s_vst s1) v ops (s_fs s) Hvz Hoz))).
  cbn [nz Z.eqb negb]. mrun. set (sv := MkSv i ino _).
  set (torn room := MkSfs (s_vol s1) (Vnode.with_vnode v ops (s_fs s1) (s_vst s1)) (s_fs s1) (<[v := sv]> (s_svs s1)) (sfs_vnodes s1) (s_mem s1) room).
  assert (forall room, exists s', (in_vst (Vnode.vnode_cleanup v);; kfree_sv v;; mret (ENOMEM, 0)) (torn room) = Ret ((ENOMEM, 0), s') /\
    not_loaded s s' I) as Hfail.
  { intros room. destruct (cleanup_new_run s1 v sv ops room I Hi1 Htab Hsvs) as (s' & Hrun & Hi' & Hvol & Htb & Hmv).
    apply bind_Ret_inv in Hrun as ([] & s2 & Hr1 & Hr2). exists s'. split; [by rewrite (bind_run _ _ _ _ _ Hr1), (bind_run _ _ _ _ _ Hr2)|].
    split; [done|]. split; [done|]. split; [done|]. rewrite Hvol. done. }
  change (set_s_svs _ _) with (torn (s_room s1)). unfold vnodearray_add. mrun. cbn [s_room torn].
  destruct (s_room s1) as [|[|] room]; mrun; cbn [nz ENOMEM Z.eqb negb].
  - destruct (Hfail []) as (s' & Hrun & Hnl). exists ENOMEM, 0, s'. split; [exact Hrun|]. by left.
  - exists 0, v, (added s1 v sv ops room). split; [done|]. right. split; [done|]. exists s1, ops, room. by split_and!.
  - destruct (Hfail room) as (s' & Hrun & Hnl). exists ENOMEM, 0, s'. split; [exact Hrun|]. by left.
Qed.

(** Reference counts may move as long as the vnodes in the table keep one. *)
Lemma vst_inv s I t' d :
  fs_inv s I -> Vnode.ok t' -> Vnode.moved d (s_vst s) t' -> vop_magic t' = vop_magic (s_vst s) ->
  (forall v, v ∈ sfs_vnodes s -> 0 < Vnode.refs t' v) -> (forall p, v_tab (s_vst s) !! p = None -> d p = 0) ->
  fs_inv (set_s_vst t' s) I.
Proof.
  intros [] Hok Hm Hmag Hpos Hd. split; cbn [set_s_vst s_vol s_vst s_fs s_svs sfs_vnodes s_mem s_room]; try done; [by rewrite Hmag..| |].
  - destruct iv_mem0 as [Hnd Hfr]. split; [done|]. intros p Hp Hz. destruct (Hfr p Hp Hz) as (? & Ht & ?). split; [done|]. split; [|done].
    cbn. specialize (Hm p). rewrite (Hd p Ht) in Hm. unfold Vnode.refs at 2 in Hm. rewrite Ht in Hm. cbn in Hm.
    destruct (v_tab t' !! p) as [x|] eqn:Ex; [|done]. destruct Hok as [_ Hok]. destruct (Hok _ _ Ex) as (_&_&_&_&_&_&?&_).
    unfold Vnode.refs in Hm. rewrite Ex in Hm. cbn in Hm. lia.
  - intros v Hv. split; [by apply Hpos|by apply iv_table0].
Qed.

(** What [sfs_loadvnode] of inode [ino] has done when it returns [rc] and [v]. *)
Definition loads s s' I (ino rc v : Z) : Prop :=
  fs_inv s' I /\ evolves (s_vol s) (s_vol s') (used (s_vol s)) (blk (s_vol s)) /\
  (rc = ENOMEM /\ Vnode.moved Vnode.none (s_vst s) (s_vst s') /\ (forall w sw, in_table s' w sw <-> in_table s w sw) \/
   rc = 0 /\ Vnode.moved (Vnode.one v) (s_vst s) (s_vst s') /\
   exists sv, sv_ino sv = ino /\ (in_table s v sv \/ Vnode.refs (s_vst s) v = 0) /\
     forall w sw, in_table s' w sw <-> (w = v /\ sw = sv \/ in_table s w sw)).

Definition counts_ok s : Prop := forall v, Vnode.refs (s_vst s) v < 2 ^ 31 - 1.

Lemma loadvnode_run s I ino i :
  fs_inv s I -> counts_ok s -> I !! ino = Some i ->
  exists rc v s', sfs_loadvnode ino SFS_TYPE_INVAL s = Ret ((rc, v), s') /\ loads s s' I ino rc v.
Proof.
  intros Hi Hc Hino. pose proof (iv_inode _ _ Hi _ _ Hino) as Hio.
  destruct (search_vnodes_run s I (sfs_vnodes s) ino Hi) as (r & Hs & Hpost); [done|]. destruct r as [v|].
  - destruct Hpost as (sv & Ht & E). unfold sfs_loadvnode. mrun. rewrite (bind_run _ _ _ _ _ Hs), bind_kassert by done.
    destruct (iv_table _ _ Hi v (proj1 Ht)) as [Hpos _].
    destruct (Vnode.incref_run (s_vst s) v (iv_vst _ _ Hi)) as (t' & Hrun & Hok & Hm); [split; [done|apply Hc]|].
    rewrite (bind_run _ _ _ _ _ (zoom_Ret s_vst set_s_vst _ s _ _ Hrun)). exists 0, v, (set_s_vst t' s). split; [done|]. split.
    + eapply vst_inv; [done|done|exact Hm|by eapply incref_magic|..].
      * intros w Hw. rewrite Hm. destruct (iv_table _ _ Hi w Hw) as [? _]. unfold Vnode.one. destruct (w =? v); lia.
      * intros p Hp. unfold Vnode.one. destruct (Z.eqb_spec p v) as [->|]; [|done]. unfold Vnode.refs in Hpos. rewrite Hp in Hpos. cbn in Hpos. lia.
    + split; [apply evolves_refl, Hi|]. right. split; [done|]. split; [done|]. exists sv. split; [done|]. split; [by left|].
      intros w sw. split; [by right|]. by intros [[-> ->]|?].
  - assert (forall w sw, in_table s w sw -> sv_ino sw <> ino) as Hno by (intros w sw [? ?]; by apply (Hpost w)).
    assert (blk (s_vol s) ino = dinode_bytes i) as Hblk.
    { apply (iv_disk _ _ Hi); [done|]. intros w sw Hw E. by destruct (Hno _ _ Hw). }
    pose proof (dinode_round_trip i (fo_wf _ _ _ _ (io_file _ _ _ _ Hio))) as Hrt.
    destruct (load_miss s I ino SFS_TYPE_INVAL) as (rc & v & s' & Hrun & Hcase); [done|apply Hio|apply Hio|done|done| |].
    { unfold forced. cbn [Z.eqb SFS_TYPE_INVAL]. rewrite Hblk, Hrt. apply Hio. }
    exists rc, v, s'. split; [done|].
    destruct Hcase as [[-> (Hi' & Htb & Hmv & Hev)]|(-> & s1 & ops & room & -> & Hi1 & Hev & Hvst & Hsvs & Hvn & Hv0 & Hvd & Htab & Hnsv & Hmem & Hops)].
    { split; [done|]. split; [done|]. by left. }
    unfold forced in *. cbn [Z.eqb SFS_TYPE_INVAL negb] in *. rewrite Hblk, Hrt in *.
    assert (forall w sw, in_table s1 w sw <-> in_table s w sw) as Htb by (intros w sw; unfold in_table; by rewrite Hsvs, Hvn).
    destruct (added_inv (R0 := Rsv) s1 I I v (MkSv i ino false) ops room) as [Hi' Hm]; try done.
    + by rewrite Hvst.
    + by rewrite Hsvs.
    + intros w sw Hw%Htb. by apply (Hno w).
    + intros ino' i' Hi'. by apply (iv_inode _ _ Hi1).
    + intros ino' i' Hi'. by right.
    + apply (iv_lost _ _ Hi1).
    + apply (iv_reserved _ _ Hi1).
    + split; [done|]. split; [done|]. right. split; [done|]. rewrite Hvst in Hm. split; [done|]. exists (MkSv i ino false). split; [done|].
      split; [right; unfold Vnode.refs; by rewrite Htab|].
      intros w sw. rewrite added_in_table, Htb; [done|]. intros Hin. destruct (iv_table _ _ Hi1 _ Hin) as (_ & ? & Hs' & _). congruence.
Qed.

(** ** Writing an inode back *)

Lemma sync_inode_s s I v sv :
  fs_inv s I -> in_table s v sv ->
  exists v', in_file v sfs_sync_inode s = Ret (0, put_file s v (MkFile v' (clean sv))) /\
    evolves (s_vol s) v' (used (s_vol s)) (upd (blk (s_vol s)) (sv_ino sv) (dinode_bytes (sv_i sv))).
Proof.
  intros Hi Ht. pose proof (table_inode _ _ _ _ Hi Ht) as HI. pose proof (iv_inode _ _ Hi _ _ HI) as Hio.
  pose proof (io_range _ _ _ _ Hio) as Hr. destruct sv as [i ino dirty]. cbn [sv_i sv_ino] in *. destruct dirty.
  - destruct (writeblock_run (s_vol s) ino (dinode_bytes i)) as (v' & Hw & Hev); [apply Hi|lia|apply dinode_bytes_block, Hio|].
    exists v'. split; [|done]. apply (in_file_run s v (MkSv i ino true)); [apply Ht|]. unfold sfs_sync_inode. mrun.
    cbn [file_of f_sv sv_dirty]. by rewrite (bind_run _ _ _ _ _ (on_vol_run _ (file_of s (MkSv i ino true)) _ _ Hw)).
  - exists (s_vol s). split; [by apply (in_file_run s v (MkSv i ino false)); [apply Ht|]|].
    eapply evolves_ext; [apply evolves_refl, Hi|done|]. intros x. unfold upd. destruct (Z.eqb_spec x ino) as [->|]; [|done].
    apply (iv_disk _ _ Hi); [done|]. intros w sw Hw E. assert (w = v) as -> by (by eapply (iv_unique _ _ Hi)).
    destruct Ht as [_ Hsv], Hw as [_ Hsw]. rewrite Hsv in Hsw. by injection Hsw as <-.
Qed.

Lemma sync_inode_inv s I v sv v' :
  fs_inv s I -> in_table s v sv ->
  evolves (s_vol s) v' (used (s_vol s)) (upd (blk (s_vol s)) (sv_ino sv) (dinode_bytes (sv_i sv))) ->
  fs_inv (put_file s v (MkFile v' (clean sv))) I /\
  (forall ino i pos, I !! ino = Some i -> 0 <= pos -> fbyte i (blk v') pos = fbyte i (blk (s_vol s)) pos).
Proof.
  intros Hi Ht Hev. pose proof Hev as [Hok' _ _ _ Hu HB]. pose proof (evolves_nblocks _ _ _ _ Hev) as Hn.
  pose proof (table_inode _ _ _ _ Hi Ht) as HIv.
  assert (forall ino i b, I !! ino = Some i -> owned i (blk (s_vol s)) b -> b <> sv_ino sv) as Hnot.
  { intros ino i b Hino Hob ->. pose proof (io_alone _ _ _ _ (iv_inode _ _ Hi _ _ Hino) _ Hob). congruence. }
  assert (forall ino i, I !! ino = Some i -> (forall b, owned i (blk v') b <-> owned i (blk (s_vol s)) b) /\
    (forall pos, 0 <= pos -> fbyte i (blk v') pos = fbyte i (blk (s_vol s)) pos) /\ file_ok i (used v') (blk v') (nblocks v')) as Hfr.
  { intros ino i Hino. pose proof (iv_inode _ _ Hi _ _ Hino) as Hio.
    assert (forall b, owned i (blk (s_vol s)) b -> blk v' b = blk (s_vol s) b) as Hbo.
    { intros b Hob. rewrite HB, upd_ne; [done|by eapply Hnot]. }
    pose proof (io_file _ _ _ _ Hio) as [Hwf Hfr Hinj Hind].
    assert (forall k, ptr i (blk v') k = ptr i (blk (s_vol s)) k) as Hp.
    { intros k. apply ptr_ext. intros Hz. apply Hbo. split; [done|by left]. }
    split; [intros b; unfold owned; by setoid_rewrite Hp|]. split.
    - intros pos Hpos. apply fbyte_ext; [done|]. intros Hz. apply Hbo. split; [done|]. right. exists (pos / 512). split; [lia|done].
    - rewrite Hn. split; [done|..].
      + intros k H0. rewrite Hp. intros Hz. destruct (Hfr k H0 Hz) as (? & ? & ?). split; [done|]. split; [|done]. rewrite Hu by lia. done.
      + intros k k' H0 H0'. rewrite !Hp. auto.
      + intros Hz. destruct (Hind Hz) as [? ?]. split; [done|]. rewrite Hu by lia. done. }
  split; [|intros ino i pos Hino Hpos; destruct (Hfr ino i Hino) as (_ & Hb & _); by apply Hb]. pose proof Hi as [].
  split; cbn [put_file set_s_svs set_s_vol s_vol s_vst s_fs s_svs sfs_vnodes s_mem s_room f_vol f_sv]; try done.
  - destruct iv_mem0 as [Hnd Hm]. split; [done|]. intros p Hp Hz. destruct (Hm p Hp Hz) as (? & ? & ?). split; [done|]. split; [done|].
    cbn. rewrite lookup_insert_ne; [done|]. intros ->. destruct Ht as [_ Hsv]. congruence.
  - intros w Hw. destruct (iv_table0 w Hw) as (Hrw & sw & Hsw & HIw). split; [done|]. destruct (decide (w = v)) as [->|Hne].
    + exists (clean sv). by rewrite lookup_insert_eq.
    + exists sw. by rewrite lookup_insert_ne.
  - intros w1 w2 s1 s2 H1 H2 E. apply put_table in H1 as [(-> & _ & ->)|[Hw1 H1]], H2 as [(-> & _ & ->)|[Hw2 H2]]; [done|..].
    + destruct Hw2. by eapply iv_unique0.
    + destruct Hw1. by eapply iv_unique0.
    + by eapply iv_unique0.
  - intros ino i Hino. destruct (Hfr _ _ Hino) as (Ho & _ & Hf). pose proof (iv_inode0 _ _ Hino) as Hio.
    split; [rewrite Hn; apply Hio|rewrite Hu by (destruct Hio; lia); apply Hio|apply Hio|done|..].
    + intros ino' i' b Hino' Hne Hob Hob'. destruct (Hfr _ _ Hino') as (Ho' & _).
      exact (io_sep _ _ _ _ Hio _ _ b Hino' Hne (proj1 (Ho b) Hob) (proj1 (Ho' b) Hob')).
    + intros b Hob. exact (io_alone _ _ _ _ Hio b (proj1 (Ho b) Hob)).
  - intros ino i Hino Hcl. rewrite HB. unfold upd. destruct (Z.eqb_spec ino (sv_ino sv)) as [->|Hne]; [congruence|].
    apply iv_disk0; [done|]. intros w sw Hw E. apply (Hcl w); [|done]. apply put_table. right. split; [|done].
    intros ->. destruct Ht as [_ Hsv], Hw as [_ Hsw]. congruence.
  - intros x Hx Hux. rewrite (taken_ext (s_vol s) v' I x) by (intros ino i Hino; apply (Hfr _ _ Hino)).
    rewrite Hn in Hx. rewrite Hu in Hux by lia. by apply iv_lost0.
  - intros x Hx Hr. rewrite (taken_ext (s_vol s) v' I x) by (intros ino i Hino; apply (Hfr _ _ Hino)).
    rewrite Hn in Hx. rewrite Hu by lia. by apply iv_reserved0.
Qed.

(** ** Giving a vnode back *)

(** [s] without the vnode [v], at index [ix] of the table. *)
Definition removed s (v : Z) (ix : nat) : sfs :=
  MkSfs (s_vol s) (set_tab (delete v (v_tab (s_vst s))) (s_vst s)) (s_fs s) (delete v (s_svs s)) (delete ix (sfs_vnodes s)) (s_mem s) (s_room s).

Lemma find_vnode_spec v l (n : nat) :
  match find_vnode v l n with Some k => exists j, k = (n + j)%nat /\ l !! j = Some v | None => v ∉ l end.
Proof.
  revert n. induction l as [|w l IH]; intros n; cbn [find_vnode]; [apply not_elem_of_nil|].
  destruct (Z.eqb_spec w v) as [->|Hne]; [exists 0%nat; split; [lia|done]|].
  specialize (IH (S n)). destruct (find_vnode v l (S n)) as [k|].
  - destruct IH as (j & -> & Hj). exists (S j). split; [lia|done].
  - rewrite not_elem_of_cons. by split.
Qed.

Lemma elem_of_delete (l : list Z) ix v w :
  NoDup l -> l !! ix = Some v -> w ∈ delete ix l <-> w <> v /\ w ∈ l.
Proof.
  intros Hnd Hix. pose proof (delete_Permutation _ _ _ Hix) as P. remember (delete ix l) as d eqn:Ed. clear Ed.
  rewrite P in Hnd. rewrite P. apply NoDup_cons in Hnd as [Hn _]. rewrite elem_of_cons. split.
  - intros Hw. split; [by intros ->|by right].
  - by intros [Hne [?|?]].
Qed.

Lemma removed_in_table s v ix w sw :
  NoDup (sfs_vnodes s) -> sfs_vnodes s !! ix = Some v ->
  in_table (removed s v ix) w sw <-> w <> v /\ in_table s w sw.
Proof.
  intros Hnd Hix. unfold in_table. cbn. rewrite (elem_of_delete _ _ v) by done. destruct (decide (w = v)) as [->|Hne]; [tauto|]. rewrite lookup_delete_ne by done. tauto.
Qed.

Lemma removed_inv s I v sv ix :
  fs_inv s I -> in_table s v sv -> sv_dirty sv = false -> Vnode.refs (s_vst s) v = 1 -> sfs_vnodes s !! ix = Some v ->
  fs_inv (removed s v ix) I /\ Vnode.moved (Vnode.opp (Vnode.one v)) (s_vst s) (s_vst (removed s v ix)).
Proof.
  intros Hi Ht Hd Hr Hix. pose proof Hi as []. pose proof (removed_in_table s v ix) as Htab.
  assert (forall w, w ∈ delete ix (sfs_vnodes s) -> w <> v /\ w ∈ sfs_vnodes s) as Hsub.
  { intros w. by rewrite (elem_of_delete _ _ v). }
  split.
  - split; cbn [removed s_vol s_vst s_fs s_svs sfs_vnodes s_mem s_room]; try done.
    + destruct iv_vst0 as [Hc Hok]. split; [done|]. intros w x Hw. cbn in Hw. apply lookup_delete_Some in Hw as [_ Hw]. by apply Hok in Hw.
    + destruct iv_mem0 as [Hnd Hm]. split; [done|]. intros p Hp Hz. destruct (Hm p Hp Hz) as (? & ? & ?). cbn.
      rewrite !lookup_delete_None. auto.
    + rewrite (delete_Permutation _ _ _ Hix) in iv_nodup0. by apply NoDup_cons in iv_nodup0 as [_ ?].
    + intros w Hw. destruct (Hsub w Hw) as [Hne Hin]. destruct (iv_table0 w Hin) as (? & sw & ? & ?). split.
      * unfold Vnode.refs in *. cbn. by rewrite lookup_delete_ne.
      * exists sw. by rewrite lookup_delete_ne.
    + intros w1 w2 s1 s2 [_ H1]%Htab [_ H2]%Htab; try done. by eapply iv_unique0.
    + intros ino i Hino Hcl. apply iv_disk0; [done|]. intros w sw Hw E. destruct (decide (w = v)) as [->|Hne].
      * destruct Ht as [_ Hsv], Hw as [_ Hsw]. congruence.
      * apply (Hcl w); [|done]. by apply Htab.
  - intros w. unfold Vnode.opp, Vnode.one, Vnode.refs in *. cbn. destruct (Z.eqb_spec w v) as [->|Hne].
    + rewrite lookup_delete_eq, Hr. done.
    + rewrite lookup_delete_ne by done. lia.
Qed.

(** An inode that is neither in memory nor maps any block is forgotten; its own
    block is still marked. *)
Lemma forget_inv s I ino i :
  fs_inv s I -> I !! ino = Some i -> (forall b, ~ owned i (blk (s_vol s)) b) ->
  (forall w sw, in_table s w sw -> sv_ino sw <> ino) -> fs_inv (Rsv := with_block ino Rsv) s (delete ino I).
Proof.
  intros Hi Hino Hempty Hno. pose proof Hi as []. split; try done.
  - intros w Hw. destruct (iv_table0 w Hw) as (? & sw & Hsw & HI). split; [done|]. exists sw. split; [done|].
    rewrite lookup_delete_ne; [done|]. intros E. by apply (Hno w sw).
  - intros ino' i' [Hne HI]%lookup_delete_Some. destruct (iv_inode0 _ _ HI) as [? ? ? ? Hsep Hal]. split; try done.
    + intros ino2 i2 b [_ H2]%lookup_delete_Some. by apply Hsep.
    + intros b Hob. rewrite lookup_delete_None. right. by apply Hal.
  - intros ino' i' [Hne HI]%lookup_delete_Some. by apply iv_disk0.
  - intros x Hx Hu. destruct (iv_lost0 x Hx Hu) as [Hr|[[i' Hxi]|(ino' & i' & HI & Ho)]]; [by left; left|..].
    + destruct (decide (x = ino)) as [->|Hne]; [by left; right|]. right; left. rewrite lookup_delete_ne by done. by exists i'.
    + right; right. exists ino', i'. split; [|done]. rewrite lookup_delete_ne; [done|]. intros ->. rewrite Hino in HI. injection HI as <-.
      by apply (Hempty x).
  - intros x Hx [Hr| ->].
    + destruct (iv_reserved0 x Hx Hr) as [Hu Hnt]. split; [done|]. intros [[i' [_ Hxi]%lookup_delete_Some]|(ino' & i' & [_ HI]%lookup_delete_Some & Ho)];
        apply Hnt; [left; by exists i'|right; by exists ino', i'].
    + split; [apply (iv_inode0 _ _ Hino)|]. intros [[i' [Hne _]%lookup_delete_Some]|(ino' & i' & [_ HI]%lookup_delete_Some & Ho)]; [done|].
      pose proof (io_alone _ _ _ _ (iv_inode0 _ _ HI) _ Ho). congruence.
Qed.

(** Then the block is freed. *)
Lemma freed_inv s I ino i v' :
  fs_inv s I -> I !! ino = Some i -> (forall b, ~ owned i (blk (s_vol s)) b) ->
  (forall w sw, in_table s w sw -> sv_ino sw <> ino) ->
  evolves (s_vol s) v' (upd (used (s_vol s)) ino false) (blk (s_vol s)) ->
  fs_inv (set_s_vol v' s) (delete ino I) /\
  (forall ino' i' pos, delete ino I !! ino' = Some i' -> 0 <= pos -> fbyte i' (blk v') pos = fbyte i' (blk (s_vol s)) pos).
Proof.
  intros Hi Hino Hempty Hno Hev. pose proof (forget_inv s I ino i Hi Hino Hempty Hno) as Hi'.
  apply (vol_inv (R0 := with_block ino Rsv) s (delete ino I) v' _ _ Hi' Hev).
  - intros ino' i' x [Hne HI]%lookup_delete_Some Hx. split; [|done].
    assert (x <> ino) as Hxne. { destruct Hx as [->|Hob]; [done|]. intros ->. pose proof (io_alone _ _ _ _ (iv_inode _ _ Hi _ _ HI) _ Hob). congruence. }
    rewrite upd_ne by done. destruct Hx as [->|Hob]; [apply (iv_inode _ _ Hi _ _ HI)|]. by destruct (owned_used _ _ _ _ _ Hi HI Hob).
  - intros x Hx Hu. unfold upd in Hu. destruct (Z.eqb_spec x ino) as [->|Hne]; [done|].
    destruct (iv_lost _ _ Hi' x Hx Hu) as [[?|?]|?]; [by left|done|by right].
  - intros x Hx Hr. destruct (iv_reserved _ _ Hi' x Hx (or_introl Hr)) as [Hu Hnt]. split; [|done]. rewrite upd_ne; [done|]. intros ->.
    destruct (iv_reserved _ _ Hi ino Hx Hr) as [_ []]. left. by exists i.
Qed.

Lemma itrunc_confined f len :
  fok f -> 0 <= len < 2 ^ 32 -> 0 <= vfs_biglock_depth (f_vol f) < 2 ^ 32 - 1 ->
  exists f', sfs_itrunc len f = Ret (0, f') /\ confined f f' /\ sfi_linkcount (dinode f') = sfi_linkcount (dinode f) /\
    (len = 0 -> (forall b, ~ fowned f' b) /\ forall b, 0 <= b -> fowned f b \/ fU f b = false -> fU f' b = false).
Proof.
  intros Hok Hlen Hd. destruct (itrunc_run f len Hok) as (f' & Hrun & Hf' & Hsb & Hsd & Hown & _ & Hdirty & Hino & Hty & Hl & Hdep & Hp & Hu & HB & _ & _ & Hind); [done|done|].
  exists f'. split; [done|]. split; [|split; [done|]]; cycle 1.
  { intros ->. assert (forall b, ~ fowned f' b) as Hempty.
    2:{ split; [exact Hempty|]. intros b Hb Hcase. destruct (fU f' b) eqn:E; [|done]. apply (Hu b Hb) in E as [E Ho].
        destruct Hcase as [Hf|Hf]; [by destruct (Hempty b (Ho Hf))|congruence]. }
    intros b [Hz [->|(k & Hk & E)]].
    - apply Hz, Hind. right. split; [lia|]. intros k ?. lia.
    - change (fptr f' k = b) in E. rewrite Hp in E by done. unfold keeps in E.
      destruct (Z.ltb_spec k 15); [destruct (Z.ltb_spec k ((0 + 511) / 512))|destruct (Z.leb_spec k ((0 + 511) / 512))]; congruence || lia. }
  split; try done.
  - intros x Hx Hux Hno. apply Hu; [done|]. by split.
  - intros x _ _ Hno. by apply HB.
  - intros x Hx Ho. left. by apply Hown.
  - by right.
  - intros x Ho Hux. apply (Hu x); [|exact Hux|exact Ho]. destruct (owned_range f x Hok Ho). lia.
  - intros x Hx Hux. left. by apply (Hu x).
Qed.

(** Taking the vnode out of the table and freeing it. *)
Definition drop_vnode (v : Z) : M sfs Z :=
  s ← get;
  match find_vnode v (sfs_vnodes s) 0 with
  | None => panic "sfs: reclaim vnode not in vnode pool"
  | Some ix =>
      modify (fun s => set_vnodes (delete ix (sfs_vnodes s)) s);;
      in_vst (Vnode.vnode_cleanup v);;
      biglock_release;;
      kfree_sv v;;
      mret 0
  end.

Lemma drop_vnode_run s v d :
  Vnode.ok (s_vst s) -> v ∈ sfs_vnodes s -> Vnode.refs (s_vst s) v = 1 -> depth s = d + 1 -> 0 <= d ->
  exists ix, sfs_vnodes s !! ix = Some v /\ drop_vnode v s = Ret (0, at_depth d (removed s v ix)).
Proof.
  intros Hok Hin Hr Hd Hd0. unfold drop_vnode. mrun. pose proof (find_vnode_spec v (sfs_vnodes s) 0) as Hf.
  destruct (find_vnode v (sfs_vnodes s) 0) as [k|]; [|done]. destruct Hf as (j & -> & Hj). exists j. split; [done|].
  mrun. destruct (Vnode.refs_live _ v Hok) as (x & Hx & Hxr & (_&_&_&_&_&_&_&Hl)); [lia|].
  set (s1 := set_vnodes _ s).
  assert (Vnode.vnode_cleanup v (s_vst s1) = Ret (tt, set_tab (<[v := MkVnode 0 0 0 0]> (v_tab (s_vst s))) (s_vst s))) as Hc.
  { unfold Vnode.vnode_cleanup, Vnode.deref. mrun. change (s_vst s1) with (s_vst s). rewrite (bind_valid _ _ _ _ x) by done.
    rewrite bind_kassert by (apply Z.eqb_eq; lia). erewrite bind_run; [reflexivity|].
    rewrite (zoom_Ret v_sync Vnode.set_v_sync _ (s_vst s) tt (v_sync (s_vst s))); [by destruct (s_vst s)|].
    unfold Spinlock.spinlock_cleanup. mrun. unfold lock_of. unfold lock_free in Hl. rewrite Hl. rewrite !bind_kassert by done. done. }
  rewrite (bind_run _ _ _ _ _ (zoom_Ret s_vst set_s_vst _ s1 _ _ Hc)).
  rewrite (bind_run _ _ _ _ _ (biglock_release_s (set_s_vst _ s1) d Hd Hd0)). unfold kfree_sv. mrun.
  unfold at_depth, removed, set_s_svs, set_s_vst, set_s_vol, set_tab, s1, set_vnodes. cbn. by rewrite delete_insert_eq.
Qed.

(** What giving back the last reference to [v] has done. *)
Record reclaimed s s' I (v : Z) (sv : sfs_vnode) : Prop := {
  rc_inv : fs_inv s' (if sfi_linkcount (sv_i sv) =? 0 then delete (sv_ino sv) I else I);
  rc_table w sw : in_table s' w sw <-> w <> v /\ in_table s w sw;
  rc_refs : Vnode.moved (Vnode.opp (Vnode.one v)) (s_vst s) (s_vst s');
  rc_sb : sfs_sb (s_vol s') = sfs_sb (s_vol s);
  rc_content ino i pos : I !! ino = Some i -> ino <> sv_ino sv \/ sfi_linkcount (sv_i sv) <> 0 -> 0 <= pos ->
    fbyte i (blk (s_vol s')) pos = fbyte i (blk (s_vol s)) pos;
  rc_freed b : sfi_linkcount (sv_i sv) = 0 -> 0 <= b ->
    b = sv_ino sv \/ owned (sv_i sv) (blk (s_vol s)) b \/ used (s_vol s) b = false -> used (s_vol s') b = false;
}.

(** The truncation of an inode without names. *)
Lemma reclaim_trunc s I v sv :
  fs_inv s I -> in_table s v sv -> 0 <= depth s < 2 ^ 32 - 1 ->
  exists s1 sv1 I1, (if sfi_linkcount (sv_i sv) =? 0 then in_file v (sfs_itrunc 0) else mret 0) s = Ret (0, s1) /\
    fs_inv s1 I1 /\ in_table s1 v sv1 /\ sv_ino sv1 = sv_ino sv /\ sfi_linkcount (sv_i sv1) = sfi_linkcount (sv_i sv) /\
    s_vst s1 = s_vst s /\ depth s1 = depth s /\ sfs_sb (s_vol s1) = sfs_sb (s_vol s) /\
    (forall w sw, w <> v -> in_table s1 w sw <-> in_table s w sw) /\
    delete (sv_ino sv) I1 = delete (sv_ino sv) I /\ (sfi_linkcount (sv_i sv) <> 0 -> I1 = I) /\
    (sfi_linkcount (sv_i sv) = 0 -> (forall b, ~ owned (sv_i sv1) (blk (s_vol s1)) b) /\
       forall b, 0 <= b -> owned (sv_i sv) (blk (s_vol s)) b \/ used (s_vol s) b = false -> used (s_vol s1) b = false) /\
    (forall ino i pos, I !! ino = Some i -> ino <> sv_ino sv \/ sfi_linkcount (sv_i sv) <> 0 -> 0 <= pos ->
       I1 !! ino = Some i /\ fbyte i (blk (s_vol s1)) pos = fbyte i (blk (s_vol s)) pos).
Proof.
  intros Hi Ht Hd. destruct (Z.eqb_spec (sfi_linkcount (sv_i sv)) 0) as [Hl|Hl].
  - destruct (itrunc_confined (file_of s sv) 0) as (f1 & Hrun & Hc & Hlk & Hempty); [by eapply table_fok|lia|done|].
    exists (put_file s v f1), (f_sv f1), (<[sv_ino sv := dinode f1]> I).
    split; [apply (in_file_run s v sv); [apply Ht|done]|]. split; [by apply put_file_inv|]. split; [apply put_table; left; split; [done|split; [apply Ht|done]]|].
    split; [exact (c_ino _ _ Hc)|]. split; [exact Hlk|]. split; [done|]. split; [exact (c_depth _ _ Hc)|]. split; [exact (c_sb _ _ Hc)|]. split; [|split; [|split; [done|split; [intros _; by apply Hempty|]]]].
    + intros w sw Hne. rewrite put_table. split; [by intros [[? _]|[_ ?]]|by right].
    + by rewrite delete_insert_eq.
    + intros ino i pos Hino [Hne|?] Hpos; [|done]. rewrite lookup_insert_ne by done. split; [done|].
      destruct (confined_others _ _ _ _ _ _ _ Hi Ht Hc Hino Hne) as (_ & Hb & _). by apply Hb.
  - exists s, sv, I. by split_and!.
Qed.

(** The rest: the block of an inode without names is freed. *)
Lemma reclaim_end s I v sv d :
  (sfi_linkcount (sv_i sv) = 0 -> forall b, ~ owned (sv_i sv) (blk (s_vol s)) b) ->
  fs_inv s I -> in_table s v sv -> sv_dirty sv = false -> Vnode.refs (s_vst s) v = 1 -> depth s = d + 1 -> 0 <= d ->
  exists s', ((if sfi_linkcount (sv_i sv) =? 0 then in_vol (sfs_bfree (sv_ino sv)) else mret tt);; drop_vnode v) s = Ret (0, s') /\
    reclaimed s s' I v sv /\ depth s' = d.
Proof.
  intros Hempty Hi Ht Hcl Hr Hd Hd0.
  assert (forall ix, sfs_vnodes s !! ix = Some v ->
    fs_inv (removed s v ix) I /\ Vnode.moved (Vnode.opp (Vnode.one v)) (s_vst s) (s_vst (removed s v ix)) /\
    forall w sw, in_table (removed s v ix) w sw <-> w <> v /\ in_table s w sw) as Hrem.
  { intros ix Hix. destruct (removed_inv s I v sv ix Hi Ht Hcl Hr Hix) as [Hi3 Hm3].
    split; [done|]. split; [done|]. intros w sw. by rewrite removed_in_table by (apply Hi || done). }
  destruct (Z.eqb_spec (sfi_linkcount (sv_i sv)) 0) as [Hl|Hl].
  - pose proof (table_inode _ _ _ _ Hi Ht) as HI. pose proof (iv_inode _ _ Hi _ _ HI) as Hio.
    destruct (bfree_run (s_vol s) (sv_ino sv)) as (v3 & Hfree & Hev3); [apply Hi|apply Hio|apply Hio|].
    rewrite (bind_run _ _ _ _ _ (zoom_Ret s_vol set_s_vol _ s _ _ Hfree)). set (s3 := set_s_vol v3 s).
    pose proof Hev3 as [_ Hsb3 _ Hdep3 _ _].
    destruct (drop_vnode_run s3 v d) as (ix & Hix & Hdrop); [apply Hi|apply Ht|exact Hr| |lia|].
    { unfold depth in *. change (vfs_biglock_depth v3 = d + 1). by rewrite Hdep3. }
    rewrite Hdrop. destruct (Hrem ix Hix) as (Hi3 & Hm3 & Htab3).
    destruct (freed_inv (removed s v ix) I (sv_ino sv) (sv_i sv) v3 Hi3 HI) as [Hi4 Hc4]; [exact (Hempty Hl)| |exact Hev3|].
    { intros w sw [Hne Hw]%Htab3 E. apply Hne. by eapply (iv_unique _ _ Hi). }
    eexists. split; [reflexivity|]. split; [|done]. split; [|exact Htab3|exact Hm3|exact Hsb3| |].
    + rewrite (proj2 (Z.eqb_eq _ _) Hl). by apply (depth_inv (set_s_vol v3 (removed s v ix))).
    + intros ino i pos Hino [Hne|?] Hpos; [|contradiction]. apply (Hc4 ino i pos); [by rewrite lookup_delete_ne|exact Hpos].
    + intros b _ Hb Hcase. change (used v3 b = false). rewrite (ev_used _ _ _ _ Hev3) by done. unfold upd.
      destruct (Z.eqb_spec b (sv_ino sv)); [done|]. destruct Hcase as [|[Ho|]]; [done|by destruct (Hempty Hl b)|done].
  - mrun. destruct (drop_vnode_run s v d) as (ix & Hix & Hdrop); [apply Hi|apply Ht|exact Hr|exact Hd|lia|].
    rewrite Hdrop. destruct (Hrem ix Hix) as (Hi3 & Hm3 & Htab3). eexists. split; [reflexivity|]. split; [|done].
    split; [|exact Htab3|exact Hm3|done|done|done]. rewrite (proj2 (Z.eqb_neq _ _) Hl). by apply depth_inv.
Qed.

Lemma reclaim_body_run s I v sv d :
  fs_inv s I -> in_table s v sv -> Vnode.refs (s_vst s) v = 1 -> depth s = d + 1 -> 0 <= d < 2 ^ 32 - 2 ->
  exists s', reclaim_body v s = Ret (0, s') /\ reclaimed s s' I v sv /\ depth s' = d.
Proof.
  intros Hi Ht Hr Hd Hd0. unfold reclaim_body, get_sv. mrun. rewrite (bind_valid _ _ _ _ sv) by apply Ht.
  destruct (reclaim_trunc s I v sv Hi Ht) as (s1 & sv1 & I1 & Hrun1 & Hi1 & Ht1 & Hino1 & Hlk1 & Hvst1 & Hd1 & Hsb1 & Htab1 & HI1 & HIe & Hempty & Hc1); [lia|].
  rewrite (bind_run _ _ _ _ _ Hrun1). cbn [nz Z.eqb negb].
  destruct (sync_inode_s s1 I1 v sv1 Hi1 Ht1) as (v2 & Hrun2 & Hev2). rewrite (bind_run _ _ _ _ _ Hrun2). cbn [nz Z.eqb negb].
  destruct (sync_inode_inv s1 I1 v sv1 v2 Hi1 Ht1 Hev2) as [Hi2 Hc2]. set (s2 := put_file s1 v _) in *. mrun.
  assert (in_table s2 v (clean sv1)) as Ht2 by (apply put_table; left; split; [done|split; [apply Ht1|done]]).
  rewrite (bind_valid _ _ _ _ (clean sv1)) by apply Ht2. pose proof Hev2 as [_ Hsb2 _ Hdep2 _ _].
  assert (sfi_linkcount (sv_i (clean sv1)) = 0 -> forall b, ~ owned (sv_i (clean sv1)) (blk (s_vol s2)) b) as Hempty2.
  { cbn [clean sv_i]. rewrite Hlk1. intros Hl b Hb. apply (proj1 (Hempty Hl) b). revert Hb. unfold owned. change (s_vol s2) with v2.
    assert (sfi_indirect (sv_i sv1) = 0) as Hz.
    { destruct (decide (sfi_indirect (sv_i sv1) = 0)); [done|]. destruct (proj1 (Hempty Hl) (sfi_indirect (sv_i sv1))). split; [done|by left]. }
    by setoid_rewrite (fun k => ptr_ext (sv_i sv1) (blk (s_vol s1)) (blk v2) k (fun H => False_ind _ (H Hz))). }
  destruct (reclaim_end s2 I1 v (clean sv1) d Hempty2 Hi2 Ht2 eq_refl) as (s' & Hrun & [Ri Rt Rr Rs Rc Rf] & Hd');
    [by change (s_vst s2) with (s_vst s1); rewrite Hvst1|unfold depth in *; change (vfs_biglock_depth v2 = d + 1); by rewrite Hdep2, Hd1|lia|].
  exists s'. split; [exact Hrun|]. split; [|done]. cbn [clean sv_i sv_ino] in *. rewrite Hlk1, Hino1 in *. split.
  - destruct (Z.eqb_spec (sfi_linkcount (sv_i sv)) 0) as [Hl|Hl]; [by rewrite HI1 in Ri|by rewrite (HIe Hl) in Ri].
  - intros w sw. rewrite Rt. unfold s2. split; intros [Hne Hw]; (split; [done|]).
    + apply put_table in Hw as [[? _]|[_ Hw]]; [done|]. by apply Htab1.
    + apply put_table. right. split; [done|]. by apply Htab1.
  - by rewrite <- Hvst1.
  - rewrite Rs. change (sfs_sb v2 = sfs_sb (s_vol s)). by rewrite Hsb2.
  - intros ino i pos Hino Hor Hpos. destruct (Hc1 ino i pos Hino Hor Hpos) as [HIi Hb].
    rewrite (Rc ino i pos HIi Hor Hpos), <- Hb. exact (Hc2 ino i pos HIi Hpos).
  - intros b Hl Hb Hcase. apply (Rf b Hl Hb). destruct Hcase as [|Hcase]; [by left|right; right].
    change (used v2 b = false). rewrite (ev_used _ _ _ _ Hev2) by done. by apply (proj2 (Hempty Hl)).
Qed.

(** [sfs_reclaim] when nobody has taken a reference since the decision. *)
Lemma sfs_reclaim_run s I v sv :
  fs_inv s I -> in_table s v sv -> Vnode.refs (s_vst s) v = 1 -> 0 <= depth s < 2 ^ 32 - 3 ->
  exists s', sfs_reclaim v s = Ret (0, s') /\ depth s' = depth s /\ reclaimed s s' I v sv.
Proof.
  intros Hi Ht H1 Hd. destruct (Vnode.refs_live _ v (iv_vst _ _ Hi)) as (x & Hx & Hxr & (_&_&_&_&_&_&_&Hl)); [lia|].
  unfold sfs_reclaim. rewrite (bind_run _ _ _ _ _ (biglock_acquire_s s ltac:(lia))). set (s1 := at_depth _ s).
  set (s2 := set_s_vst (Vnode.hold v (s_vst s)) s1).
  assert (in_vst (Vnode.acquire v) s1 = Ret (tt, s2)) as Hacq
    by (apply (zoom_Ret s_vst set_s_vst), (zoom_Ret v_sync Vnode.set_v_sync), acquire_run; [apply (iv_vst _ _ Hi)|done]).
  rewrite (bind_run _ _ _ _ _ Hacq). rewrite (bind_run _ _ _ x s2).
  2:{ apply in_vst_skip. unfold Vnode.deref. mrun. unfold valid. change (v_tab (s_vst s2)) with (v_tab (s_vst s)). by rewrite Hx. }
  rewrite Hxr, H1. cbn [Z.eqb negb Pos.eqb].
  assert (in_vst (Vnode.release v) s2 = Ret (tt, s1)) as Hrel.
  { unfold in_vst. erewrite (zoom_Ret s_vst set_s_vst);
      [|eapply Vnode.release_final; [apply (iv_vst _ _ Hi)|exact Hl|reflexivity]]. by destruct s as [? [] ? ? ? ? ?]. }
  rewrite (bind_run _ _ _ _ _ Hrel).
  destruct (reclaim_body_run s1 I v sv (depth s)) as (s' & Hrc & Hrec & Hd'); [by apply depth_inv|exact Ht|exact H1|done|lia|].
  exists s'. split; [done|]. split; [done|]. by destruct Hrec.
Qed.

(** [VOP_DECREF]: the last reference reclaims the vnode, another one only counts. *)
Lemma sfs_decref_run s I v sv :
  fs_inv s I -> in_table s v sv -> 0 <= depth s < 2 ^ 32 - 3 ->
  exists s', sfs_decref v s = Ret (tt, s') /\ depth s' = depth s /\
    (Vnode.refs (s_vst s) v = 1 /\ reclaimed s s' I v sv \/
     1 < Vnode.refs (s_vst s) v /\ fs_inv s' I /\ s_vol s' = s_vol s /\ Vnode.moved (Vnode.opp (Vnode.one v)) (s_vst s) (s_vst s') /\
     forall w sw, in_table s' w sw <-> in_table s w sw).
Proof.
  intros Hi Ht Hd. destruct (iv_table _ _ Hi v (proj1 Ht)) as [Hpos _]. unfold sfs_decref.
  destruct (Vnode.decref_count_run (s_vst s) v (iv_vst _ _ Hi) Hpos) as [[H1 Hrun]|(t' & H1 & Hrun & Hok & Hm)].
  - rewrite (bind_run _ _ _ _ _ (in_vst_skip _ _ _ Hrun)).
    rewrite (bind_run _ _ _ _ _ (in_vst_skip _ _ _ (Vnode.vnode_check_ok (s_vst s) v (iv_vst _ _ Hi) ltac:(lia)))).
    destruct (sfs_reclaim_run s I v sv Hi Ht H1 Hd) as (s' & Hrc & Hd' & Hrec).
    rewrite (bind_run _ _ _ _ _ Hrc). exists s'. split; [done|]. split; [done|]. by left.
  - rewrite (bind_run _ _ _ _ _ (zoom_Ret s_vst set_s_vst _ s _ _ Hrun)). exists (set_s_vst t' s). split; [done|]. split; [done|].
    right. split; [done|]. split; [|done]. eapply vst_inv; [done|done|exact Hm|by eapply decref_magic|..].
    + intros w Hw. rewrite Hm. destruct (iv_table _ _ Hi w Hw) as [? _]. unfold Vnode.opp, Vnode.one. destruct (Z.eqb_spec w v) as [->|]; lia.
    + intros p Hp. unfold Vnode.opp, Vnode.one. destruct (Z.eqb_spec p v) as [->|]; [|done]. unfold Vnode.refs in Hpos. rewrite Hp in Hpos. cbn in Hpos. lia.
Qed.

End Vnodes.

End Inv.
