(* ===== verification/SfsNames.v ===== *)
(** * SFS: the root directory and the operations on names

    [fs_names] extends the invariant of [SfsInv.v] by the root directory: every
    entry names a file that exists, and the link count of a file is the number of
    its entries.  The theorems give the effect of [sfs_lookup], [sfs_creat],
    [sfs_link], [sfs_remove] and [sfs_rename] on the names, the link counts and
    the contents of the files. *)

From S2P Require Import Prelude Sync Vnode CString Copy Stream Lhd Bitmap SfsBlock SfsFile SfsTrunc SfsDir SfsFs SfsInv.

Module Names.
Import Stream Lhd Layout Blk File Trunc Dir Str Sfs Inv.

(** ** Counting *)
Section Count.
Context {A : Type} `{EqDecision A}.

Definition count (P : A -> bool) (l : list A) : Z := Z.of_nat (length (filter (fun x => P x = true) l)).

Lemma count_cons P x l : count P (x :: l) = (if P x then 1 else 0) + count P l.
Proof. unfold count. rewrite filter_cons. destruct (P x); [rewrite decide_True by done|rewrite decide_False by done]; cbn; lia. Qed.

Lemma count_ext P Q l : (forall x, x ∈ l -> P x = Q x) -> count P l = count Q l.
Proof.
  induction l as [|x l IH]; intros HPQ; [done|]. rewrite !count_cons, (HPQ x), IH; [done| |left]. intros y Hy. apply HPQ. by right.
Qed.

(** The predicates differ at one element. *)
Lemma count_at P Q l x :
  NoDup l -> x ∈ l -> (forall y, y <> x -> P y = Q y) ->
  count Q l = count P l - (if P x then 1 else 0) + (if Q x then 1 else 0).
Proof.
  induction l as [|y l IH]; intros Hnd Hx HPQ; [by apply not_elem_of_nil in Hx|]. apply NoDup_cons in Hnd as [Hn Hnd]. rewrite !count_cons.
  destruct (decide (y = x)) as [->|Hne].
  - rewrite (count_ext P Q l); [lia|]. intros z Hz. apply HPQ. by intros ->.
  - apply elem_of_cons in Hx as [?|Hx]; [congruence|]. rewrite IH, (HPQ y) by done. lia.
Qed.

Lemma count_pos P l : 0 < count P l <-> exists x, x ∈ l /\ P x = true.
Proof.
  unfold count. split.
  - intros Hp. destruct (filter (fun x => P x = true) l) as [|x r] eqn:E; [cbn in Hp; lia|]. exists x.
    assert (x ∈ filter (fun x => P x = true) l) as Hx by (rewrite E; left). by apply list_elem_of_filter in Hx as [? ?].
  - intros (x & Hx & HP). assert (x ∈ filter (fun x => P x = true) l) as Hf by (by apply list_elem_of_filter).
    destruct (filter (fun x => P x = true) l); [by apply not_elem_of_nil in Hf|cbn; lia].
Qed.

Lemma count_range P l : 0 <= count P l <= Z.of_nat (length l).
Proof. unfold count. pose proof (length_filter (fun x => P x = true) l). lia. Qed.
End Count.

Section Directory.
Context `{HW : LhdhwOk} {Rsv : Reserved}.
Implicit Types (s : sfs) (f : file) (i : sfs_dinode) (I : gmap Z sfs_dinode) (nm : list Z).

(** ** The root directory *)

Definition dirfile s i : file := MkFile (s_vol s) (MkSv i SFS_ROOTDIR_INO false).

(** Slot [k] of [f] names inode [x]. *)
Definition names_slot f (x k : Z) : bool :=
  (k <? nslots f) && negb (sfd_ino (slot f k) =? 0) && (sfd_ino (slot f k) =? x).

(** The number of names of inode [x]; a directory has at most 1144 slots. *)
Definition links f (x : Z) : Z := count (names_slot f x) (seqZ 0 1144).

(** [nm] is the name of inode [ino]. *)
Definition name_at s I nm (ino : Z) : Prop := exists i k, I !! SFS_ROOTDIR_INO = Some i /\ holds (dirfile s i) nm ino k.

(** The invariant; [d ino] is by how much the names of inode [ino] exceed its link
    count, 0 except in the middle of an operation. *)
Record fs_names s I (d : Z -> Z) : Prop := {
  fn_inv : fs_inv s I;
  fn_root i : I !! SFS_ROOTDIR_INO = Some i -> dir_ok (dirfile s i) /\ sfi_linkcount i <> 0;
  fn_has_root : is_Some (I !! SFS_ROOTDIR_INO);
  fn_entry nm ino : name_at s I nm ino -> ino <> SFS_ROOTDIR_INO /\ exists i, I !! ino = Some i /\ sfi_type i = SFS_TYPE_FILE;
  fn_links ino i r : I !! ino = Some i -> ino <> SFS_ROOTDIR_INO -> I !! SFS_ROOTDIR_INO = Some r ->
    sfi_linkcount i + d ino = links (dirfile s r) ino;
  fn_open ino i : I !! ino = Some i -> sfi_linkcount i = 0 -> exists v sv, in_table s v sv /\ sv_ino sv = ino;
}.

(** The contents of the files of [I] are the same in both states. *)
Definition kept_contents s s' I : Prop :=
  forall ino i pos, I !! ino = Some i -> 0 <= pos -> fbyte i (blk (s_vol s')) pos = fbyte i (blk (s_vol s)) pos.

Lemma kept_trans s1 s2 s3 I : kept_contents s1 s2 I -> kept_contents s2 s3 I -> kept_contents s1 s3 I.
Proof. intros H1 H2 ino i pos Hi Hp. by rewrite (H2 ino i pos Hi Hp), (H1 ino i pos Hi Hp). Qed.

Lemma slot_ext s s' i k :
  (forall pos, 0 <= pos -> fbyte i (blk (s_vol s')) pos = fbyte i (blk (s_vol s)) pos) -> 0 <= k ->
  slot (dirfile s' i) k = slot (dirfile s i) k.
Proof.
  intros Hb Hk. unfold slot. rewrite (fbytes_ext (dirfile s i) (dirfile s' i) (64 * k) 64); [reflexivity|].
  intros x Hx. apply (Hb x). lia.
Qed.

(** A file is a directory through its inode and its volume only. *)
Lemma slot_root f s i k : f_vol f = s_vol s -> dinode f = i -> slot f k = slot (dirfile s i) k.
Proof. destruct f as [v [i' ino dt]]. cbn. intros -> <-. reflexivity. Qed.

(** From here on slots and bytes are compared by the lemmas above only. *)
#[local] Opaque slot fbyte blk used.


Lemma holds_ext s s' i nm ino k :
  (forall pos, 0 <= pos -> fbyte i (blk (s_vol s')) pos = fbyte i (blk (s_vol s)) pos) ->
  holds (dirfile s' i) nm ino k <-> holds (dirfile s i) nm ino k.
Proof.
  intros Hb. unfold holds. change (nslots (dirfile s' i)) with (nslots (dirfile s i)).
  split; intros (Hr & Hrest); (split; [done|]); [rewrite (slot_ext s s') in Hrest by (done || lia)|rewrite (slot_ext s s') by (done || lia)]; done.
Qed.

Lemma links_ext s s' i x :
  (forall pos, 0 <= pos -> fbyte i (blk (s_vol s')) pos = fbyte i (blk (s_vol s)) pos) ->
  links (dirfile s' i) x = links (dirfile s i) x.
Proof.
  intros Hb. apply count_ext. intros k Hk%elem_of_seqZ. unfold names_slot. rewrite (slot_ext s s') by (done || lia). done.
Qed.

Lemma dir_ok_ext s s' i :
  fok (dirfile s' i) -> (forall pos, 0 <= pos -> fbyte i (blk (s_vol s')) pos = fbyte i (blk (s_vol s)) pos) ->
  dir_ok (dirfile s i) -> dir_ok (dirfile s' i).
Proof.
  intros Hf Hb []. split; [exact Hf|exact do_type0|exact do_size0|exact do_max0|]. intros a b Ha Hb'. rewrite !(slot_ext s s') by (done || lia). by apply do_unique0.
Qed.

(** A name is an entry, and the other way round. *)
Lemma links_pos s i x :
  dir_ok (dirfile s i) -> x <> 0 -> 0 < links (dirfile s i) x <-> exists nm k, holds (dirfile s i) nm x k.
Proof.
  intros Hd Hx. unfold links. rewrite count_pos. split.
  - intros (k & Hk%elem_of_seqZ & Hn). unfold names_slot in Hn. apply andb_true_iff in Hn as [[Hk' Hu]%andb_true_iff E%Z.eqb_eq].
    apply Z.ltb_lt in Hk'. apply negb_true_iff, Z.eqb_neq in Hu. exists (ename (slot (dirfile s i) k)), k. split; [lia|]. by split.
  - intros (nm & k & Hk & Hu & _ & E). exists k. split; [apply elem_of_seqZ; destruct Hd; lia|]. unfold names_slot.
    rewrite (proj2 (Z.ltb_lt _ _)), (proj2 (Z.eqb_neq _ _) Hu), E, Z.eqb_refl by lia. done.
Qed.

Lemma holds_root f s i nm ino k : f_vol f = s_vol s -> dinode f = i -> holds f nm ino k <-> holds (dirfile s i) nm ino k.
Proof. intros Hv Hi. unfold holds, nslots. rewrite (slot_root f s i k Hv Hi), Hi. reflexivity. Qed.

Lemma dir_ok_root f s i : f_vol f = s_vol s -> dinode f = i -> dir_ok f <-> dir_ok (dirfile s i).
Proof.
  destruct f as [v [i' ino dt]]. cbn. intros -> <-. split; intros [[] Ht Hs Hm Hu];
    (split; [split; assumption|exact Ht|exact Hs|exact Hm|]); intros a b;
    [rewrite <- !(slot_root (MkFile (s_vol s) (MkSv i' ino dt)) s i') by reflexivity
    |rewrite !(slot_root (MkFile (s_vol s) (MkSv i' ino dt)) s i') by reflexivity]; apply Hu.
Qed.

Lemma links_root f s i x : f_vol f = s_vol s -> dinode f = i -> links f x = links (dirfile s i) x.
Proof.
  intros Hv Hi. apply count_ext. intros k _. unfold names_slot, nslots. by rewrite (slot_root f s i k Hv Hi), Hi.
Qed.

#[local] Opaque links.

(** ** Steps that do not touch the directory *)

(** Files without names may go, and with them their vnodes. *)
Lemma names_drop s s' I I' d :
  fs_names s I d -> fs_inv s' I' -> I' !! SFS_ROOTDIR_INO = I !! SFS_ROOTDIR_INO ->
  (forall ino i, I' !! ino = Some i -> I !! ino = Some i) ->
  (forall ino i r, I !! ino = Some i -> I !! SFS_ROOTDIR_INO = Some r -> 0 < links (dirfile s r) ino -> I' !! ino = Some i) ->
  kept_contents s s' I' ->
  (forall v sv, in_table s v sv -> sfi_linkcount (sv_i sv) = 0 -> I' !! sv_ino sv = Some (sv_i sv) ->
     exists v' sv', in_table s' v' sv' /\ sv_ino sv' = sv_ino sv) ->
  fs_names s' I' d /\ forall nm ino, name_at s' I' nm ino <-> name_at s I nm ino.
Proof.
  intros [Hi Hroot Hhas Hent Hlk Hop] Hi' HR Hsub Hnamed Hk Htab.
  assert (forall nm ino, name_at s' I' nm ino <-> name_at s I nm ino) as Hn.
  { intros nm ino. unfold name_at. rewrite HR.
    pose proof (fun i (Hr : I !! SFS_ROOTDIR_INO = Some i) k => holds_ext s s' i nm ino k (fun pos => Hk _ _ pos (eq_trans HR Hr))) as Hx.
    split; intros (i & k & Hr & Hh); exists i, k; (split; [exact Hr|]); [exact (proj1 (Hx i Hr k) Hh)|exact (proj2 (Hx i Hr k) Hh)]. }
  split; [|exact Hn]. split; [exact Hi'| |by rewrite HR|..].
  - intros i Hr. pose proof Hr as Hr'. rewrite HR in Hr. destruct (Hroot i Hr) as [Hd Hl]. split; [|exact Hl].
    apply (dir_ok_ext s); [|exact (fun pos => Hk _ _ pos Hr')|exact Hd]. split; [apply Hi'|]. apply (iv_inode _ _ Hi' _ _ Hr').
  - intros nm ino Hna. apply Hn in Hna. destruct (Hent nm ino Hna) as (Hne & i & Hino & Hty). split; [exact Hne|]. exists i. split; [|exact Hty].
    destruct Hna as (r & k & Hr & Hh). apply (Hnamed ino i r Hino Hr), links_pos; [by apply Hroot| |by exists nm, k].
    pose proof (io_range _ _ _ _ (iv_inode _ _ Hi _ _ Hino)). lia.
  - intros ino i r Hino Hne Hr. rewrite HR in Hr. rewrite (links_ext s s' r ino (fun pos => Hk _ _ pos (eq_trans HR Hr))).
    apply (Hlk ino i r); [by apply Hsub|exact Hne|exact Hr].
  - intros ino i Hino Hl. pose proof (Hsub _ _ Hino) as Hino'. destruct (Hop ino i Hino' Hl) as (v & sv & Ht & <-).
    pose proof (table_inode _ _ _ _ Hi Ht) as E. rewrite Hino' in E. injection E as ->. by apply (Htab v sv).
Qed.

(** The files are the same, and no vnode of an unnamed file has gone. *)
Lemma names_step s s' I d :
  fs_names s I d -> fs_inv s' I -> kept_contents s s' I ->
  (forall v sv, in_table s v sv -> exists v' sv', in_table s' v' sv' /\ sv_ino sv' = sv_ino sv) ->
  fs_names s' I d /\ forall nm ino, name_at s' I nm ino <-> name_at s I nm ino.
Proof. intros Hn Hi' Hk Htab. apply (names_drop s s' I I d Hn Hi'); [reflexivity|trivial|trivial|exact Hk|]. intros v sv Hv _ _. exact (Htab v sv Hv). Qed.

(** A step after which the files, the names and the vnodes are the same. *)
Record quiet s s' I (d : Z -> Z) : Prop := {
  q_names : fs_names s' I d;
  q_same nm ino : name_at s' I nm ino <-> name_at s I nm ino;
  q_content : kept_contents s s' I;
  q_depth : depth s' = depth s;
  q_sb : sfs_sb (s_vol s') = sfs_sb (s_vol s);
}.

Lemma quiet_trans s1 s2 s3 I d : quiet s1 s2 I d -> quiet s2 s3 I d -> quiet s1 s3 I d.
Proof.
  intros [_ S1 K1 D1 B1] [N2 S2 K2 D2 B2]. split; [exact N2| |exact (kept_trans _ _ _ _ K1 K2)|congruence|congruence].
  intros nm ino. rewrite (S2 nm ino). apply S1.
Qed.

(** The vnode of the root directory. *)
Definition is_root s I (v : Z) (sv : sfs_vnode) : Prop := in_table s v sv /\ sv_ino sv = SFS_ROOTDIR_INO.

Lemma root_inode s I d v sv : fs_names s I d -> is_root s I v sv -> I !! SFS_ROOTDIR_INO = Some (sv_i sv).
Proof. intros [] [Ht <-]. by apply (table_inode _ _ _ _ fn_inv0 Ht). Qed.

Lemma root_dir s I d v sv : fs_names s I d -> is_root s I v sv -> dir_ok (file_of s sv).
Proof.
  intros Hn Hr. apply (dir_ok_root _ s (sv_i sv)); [reflexivity|reflexivity|].
  by apply (fn_root _ _ _ Hn _ (root_inode _ _ _ _ _ Hn Hr)).
Qed.

(** A read-only operation on a file. *)
Lemma same_step s I d v sv f' :
  fs_names s I d -> in_table s v sv -> same (file_of s sv) f' ->
  quiet s (put_file s v f') I d /\ s_vst (put_file s v f') = s_vst s /\
  forall w sw, in_table (put_file s v f') w sw <-> in_table s w sw.
Proof.
  intros Hn Ht Hs. pose proof Hs as (Hw & Hsv & _ & HB). cbn [file_of f_sv] in Hsv.
  assert (confined (file_of s sv) f') as Hc by (by apply within_confined).
  pose proof (put_file_inv s I v sv f' (fn_inv _ _ _ Hn) Ht Hc) as Hi.
  assert (dinode f' = sv_i sv) as Hd by (unfold dinode; by rewrite Hsv).
  rewrite Hd, insert_id in Hi by (by apply (table_inode _ _ _ _ (fn_inv _ _ _ Hn) Ht)).
  assert (forall w sw, in_table (put_file s v f') w sw <-> in_table s w sw) as Htab.
  { intros w sw. rewrite put_table, Hsv. split.
    - intros [(-> & _ & ->)|[_ ?]]; assumption.
    - intros Hw'. destruct (decide (w = v)) as [->|Hne]; [left|by right].
      split; [done|]. split; [apply Ht|]. destruct Hw' as [_ E], Ht as [_ E']. congruence. }
  assert (kept_contents s (put_file s v f') I) as Hk.
  { intros ino i pos Hino Hpos. assert (forall x, blk (f_vol f') x = blk (s_vol s) x) as HB' by exact HB.
    apply fbyte_ext; [|intros _; apply HB']. intros k. apply ptr_ext. intros _. apply HB'. }
  destruct (names_step s (put_file s v f') I d Hn Hi Hk) as [Hn' Hsame].
  { intros w sw Hw'. exists w, sw. split; [|reflexivity]. by apply Htab. }
  split; [|split; [reflexivity|exact Htab]]. split; [exact Hn'|exact Hsame|exact Hk|exact (w_depth _ _ Hw)|exact (w_sb _ _ Hw)].
Qed.

Lemma find_step s I d v sv name :
  fs_names s I d -> is_root s I v sv -> is_name name ->
  exists rc found e s', in_file v (sfs_dir_findname name (-1)) s = Ret ((rc, found, e), s') /\ quiet s s' I d /\
    (forall x, blk (s_vol s') x = blk (s_vol s) x) /\ s_vst s' = s_vst s /\ (forall w sw, in_table s' w sw <-> in_table s w sw) /\
    (rc = 0 /\ (exists ino k, found = Some (ino, k) /\ holds (file_of s sv) (cstr name) ino k) \/
     rc = ENOENT /\ found = None /\ forall ino, ~ name_at s I (cstr name) ino).
Proof.
  intros Hn Hr Hnm. pose proof (root_dir _ _ _ _ _ Hn Hr) as Hd. pose proof (root_inode _ _ _ _ _ Hn Hr) as Hri.
  destruct (findname_run (file_of s sv) name (-1) Hd Hnm) as (rc & found & e & f' & Hrun & Hs & Hf & _ & ->).
  destruct (same_step s I d v sv f' Hn (proj1 Hr) Hs) as (Hq & Hv & Htab).
  eexists _, found, e, (put_file s v f'). split; [apply (in_file_run s v sv); [apply Hr|exact Hrun]|].
  split; [exact Hq|]. split; [apply Hs|]. split; [exact Hv|]. split; [exact Htab|]. destruct found as [[ino k]|]; [left|right].
  - split; [reflexivity|]. exists ino, k. split; [reflexivity|apply Hf].
  - split; [reflexivity|]. split; [reflexivity|]. intros ino (i & k & Hi & Hh). rewrite Hri in Hi. injection Hi as <-.
    apply (Hf ino k); [exact (proj2 (proj1 Hh))|]. by apply (holds_root _ s (sv_i sv)).
Qed.

(** ** Loading and looking up *)

Lemma blk_kept s s' I : (forall x, blk (s_vol s') x = blk (s_vol s) x) -> kept_contents s s' I.
Proof.
  intros HB ino i pos _ _. apply fbyte_ext; [|intros _; apply HB]. intros k. apply ptr_ext. intros _. apply HB.
Qed.

Lemma load_step s I d ino i :
  fs_names s I d -> counts_ok s -> I !! ino = Some i ->
  exists rc v s', sfs_loadvnode ino SFS_TYPE_INVAL s = Ret ((rc, v), s') /\ quiet s s' I d /\ (forall x, blk (s_vol s') x = blk (s_vol s) x) /\
    (rc = ENOMEM /\ Vnode.moved Vnode.none (s_vst s) (s_vst s') /\ (forall w sw, in_table s' w sw <-> in_table s w sw) \/
     rc = 0 /\ Vnode.moved (Vnode.one v) (s_vst s) (s_vst s') /\
     exists sv, sv_ino sv = ino /\ (in_table s v sv \/ Vnode.refs (s_vst s) v = 0) /\
       forall w sw, in_table s' w sw <-> (w = v /\ sw = sv \/ in_table s w sw)).
Proof.
  intros Hn Hc Hino. destruct (loadvnode_run s I ino i (fn_inv _ _ _ Hn) Hc Hino) as (rc & v & s' & Hrun & Hi & Hev & Hcase).
  exists rc, v, s'. split; [exact Hrun|]. pose proof Hev as [_ Hsb _ Hdep _ HB]. split; [|split; [exact HB|exact Hcase]].
  assert (kept_contents s s' I) as Hk by (by apply blk_kept).
  destruct (names_step s s' I d Hn Hi Hk) as [Hn' Hsame].
  { intros w sw Hw. exists w, sw. split; [|reflexivity].
    destruct Hcase as [(_ & _ & Htab)|(_ & _ & sv & _ & _ & Htab)]; apply Htab; [exact Hw|right; exact Hw]. }
  split; [exact Hn'|exact Hsame|exact Hk|exact Hdep|exact Hsb].
Qed.

(** A file that has a name has a link. *)
Lemma named_link s I nm ino i :
  fs_names s I Vnode.none -> name_at s I nm ino -> I !! ino = Some i -> 0 < sfi_linkcount i.
Proof.
  intros Hn Hna Hi. destruct (fn_entry _ _ _ Hn nm ino Hna) as [Hne _]. destruct Hna as (r & k & Hr & Hh).
  pose proof (fn_links _ _ _ Hn ino i r Hi Hne Hr) as Hl. unfold Vnode.none in Hl.
  assert (0 < links (dirfile s r) ino); [|lia]. apply links_pos.
  - by apply (fn_root _ _ _ Hn).
  - pose proof (iv_inode _ _ (fn_inv _ _ _ Hn) _ _ Hi) as Hio. pose proof (io_range _ _ _ _ Hio). lia.
  - by exists nm, k.
Qed.

(** What a lookup of [nm] hands back. *)
Definition looked_up s s' I nm (rc w : Z) (slot : Z) : Prop :=
  (rc = ENOENT /\ Vnode.moved Vnode.none (s_vst s) (s_vst s') /\ (forall x sx, in_table s' x sx <-> in_table s x sx) /\
   forall ino, ~ name_at s I nm ino) \/
  (rc = ENOMEM /\ Vnode.moved Vnode.none (s_vst s) (s_vst s') /\ forall x sx, in_table s' x sx <-> in_table s x sx) \/
  (rc = 0 /\ Vnode.moved (Vnode.one w) (s_vst s) (s_vst s') /\
   exists sw r, I !! SFS_ROOTDIR_INO = Some r /\ holds (dirfile s r) nm (sv_ino sw) slot /\
     (in_table s w sw \/ Vnode.refs (s_vst s) w = 0) /\
     forall x sx, in_table s' x sx <-> (x = w /\ sx = sw \/ in_table s x sx)).

Lemma lookonce_step s I v sv name :
  fs_names s I Vnode.none -> counts_ok s -> is_root s I v sv -> is_name name ->
  exists rc w k s', sfs_lookonce v name s = Ret ((rc, w, k), s') /\ quiet s s' I Vnode.none /\ looked_up s s' I (cstr name) rc w k /\
    forall x, blk (s_vol s') x = blk (s_vol s) x.
Proof.
  intros Hn Hc Hr Hnm. pose proof (root_inode _ _ _ _ _ Hn Hr) as Hri. unfold sfs_lookonce.
  destruct (find_step s I Vnode.none v sv name Hn Hr Hnm) as (rc & found & e & s1 & Hrun & Hq1 & HB1 & Hv1 & Ht1 & Hcase).
  rewrite (bind_run _ _ _ _ _ Hrun). destruct Hcase as [(-> & ino & k & -> & Hh)|(-> & -> & Hno)]; cbn [nz Z.eqb negb ENOENT].
  2:{ exists ENOENT, 0, 0, s1. split; [reflexivity|]. split; [exact Hq1|]. split; [|exact HB1]. left. rewrite Hv1.
      split; [reflexivity|]. split; [apply Vnode.moved_refl|]. split; [exact Ht1|exact Hno]. }
  assert (forall s2, (forall x, blk (s_vol s2) x = blk (s_vol s1) x) -> forall x, blk (s_vol s2) x = blk (s_vol s) x) as HB
    by (intros s2 H2 x; rewrite (H2 x); apply HB1).
  rewrite (bind_valid _ _ _ _ (ino, k)) by reflexivity. apply (holds_root (file_of s sv) s (sv_i sv)) in Hh; [|reflexivity|reflexivity].
  assert (name_at s I (cstr name) ino) as Hna by (by exists (sv_i sv), k).
  destruct (fn_entry _ _ _ Hn _ _ Hna) as (_ & i & Hino & _).
  destruct (load_step s1 I Vnode.none ino i (q_names _ _ _ _ Hq1)) as (rc & w & s2 & Hrun2 & Hq2 & HB2 & Hcase); [intros x; rewrite Hv1; apply Hc|exact Hino|].
  rewrite (bind_run _ _ _ _ _ Hrun2). pose proof (quiet_trans _ _ _ _ _ Hq1 Hq2) as Hq. rewrite Hv1 in Hcase.
  destruct Hcase as [(-> & Hm & Ht2)|(-> & Hm & sw & Hino2 & Hold & Ht2)]; cbn [nz Z.eqb negb ENOMEM].
  { exists ENOMEM, 0, 0, s2. split; [reflexivity|]. split; [exact Hq|]. split; [|exact (HB s2 HB2)]. right; left. split; [reflexivity|]. split; [exact Hm|].
    intros x sx. rewrite (Ht2 x sx). apply Ht1. }
  assert (in_table s2 w sw) as Hw by (apply Ht2; by left).
  unfold get_sv. mrun. rewrite (bind_valid _ _ _ _ sw) by apply Hw.
  pose proof (table_inode _ _ _ _ (fn_inv _ _ _ (q_names _ _ _ _ Hq)) Hw) as Hwi. rewrite Hino2 in Hwi.
  pose proof (named_link s2 I (cstr name) ino (sv_i sw) (q_names _ _ _ _ Hq) (proj2 (q_same _ _ _ _ Hq _ _) Hna) Hwi) as Hl.
  rewrite (proj2 (Z.eqb_neq (sfi_linkcount (sv_i sw)) 0)) by lia.
  exists 0, w, k, s2. split; [reflexivity|]. split; [exact Hq|]. split; [|exact (HB s2 HB2)]. right; right. split; [reflexivity|]. split; [exact Hm|].
  exists sw, (sv_i sv). split; [exact Hri|]. split; [by rewrite Hino2|].
  split; [by destruct Hold as [Ho|Ho]; [left; apply Ht1|right]|]. intros x sx. rewrite (Ht2 x sx), (Ht1 x sx). reflexivity.
Qed.

(** The big lock is held during the operation. *)
Lemma at_depth_step s I d n :
  fs_names s I d -> fs_names (at_depth n s) I d /\ kept_contents s (at_depth n s) I /\
  forall nm ino, name_at (at_depth n s) I nm ino <-> name_at s I nm ino.
Proof.
  intros Hn. assert (kept_contents s (at_depth n s) I) as Hk by (apply blk_kept; reflexivity).
  destruct (names_step s (at_depth n s) I d Hn) as [Hn' Hs]; [apply depth_inv, Hn|exact Hk| |].
  - intros v sv Hv. exists v, sv. split; [exact Hv|reflexivity].
  - split; [exact Hn'|]. split; [exact Hk|exact Hs].
Qed.

Lemma quiet_bracket s s2 I d n :
  fs_names s I d -> quiet (at_depth n s) s2 I d -> quiet s (at_depth (depth s) s2) I d.
Proof.
  intros Hn [N2 S2 K2 D2 B2]. destruct (at_depth_step s I d n Hn) as (_ & K1 & S1).
  destruct (at_depth_step s2 I d (depth s) N2) as (N3 & K3 & S3).
  split; [exact N3| |exact (kept_trans _ _ _ _ K1 (kept_trans _ _ _ _ K2 K3))|reflexivity|exact B2].
  intros nm ino. rewrite (S3 nm ino), (S2 nm ino). apply S1.
Qed.

Lemma lookup_run s I v sv path :
  fs_names s I Vnode.none -> counts_ok s -> is_root s I v sv -> is_name path -> 0 <= depth s < 2 ^ 32 - 1 ->
  exists rc w k s', sfs_lookup v path s = Ret ((rc, w), s') /\ quiet s s' I Vnode.none /\ looked_up s s' I (cstr path) rc w k.
Proof.
  intros Hn Hc Hr Hp Hd. unfold sfs_lookup. rewrite (bind_run _ _ _ _ _ (biglock_acquire_s s Hd)). set (s1 := at_depth _ s).
  destruct (at_depth_step s I Vnode.none (depth s + 1) Hn) as (Hn1 & K1 & S1).
  unfold get_sv. mrun. rewrite (bind_valid _ _ _ _ sv) by apply Hr.
  assert (sfi_type (sv_i sv) = SFS_TYPE_DIR) as Hty by (destruct (root_dir _ _ _ _ _ Hn Hr) as [_ Ht _ _ _]; exact Ht).
  rewrite Hty. change (negb (SFS_TYPE_DIR =? SFS_TYPE_DIR)) with false. cbv iota.
  destruct (lookonce_step s1 I v sv path Hn1 Hc Hr Hp) as (rc & w & k & s2 & Hrun & Hq & Hl & _).
  rewrite (bind_run _ _ _ _ _ Hrun).
  rewrite (bind_run _ _ _ _ _ (biglock_release_s s2 (depth s) (q_depth _ _ _ _ Hq) (proj1 Hd))).
  assert (looked_up s (at_depth (depth s) s2) I (cstr path) rc w k) as Hl'.
  { destruct Hl as [(-> & Hm & Ht & Hno)|[(-> & Hm & Ht)|(-> & Hm & sw & r & Hri & Hh & Hold & Ht)]].
    - left. split; [reflexivity|]. split; [exact Hm|]. split; [exact Ht|]. intros ino Hna. apply (Hno ino). by apply S1.
    - right; left. split; [reflexivity|]. split; [exact Hm|exact Ht].
    - right; right. split; [reflexivity|]. split; [exact Hm|]. exists sw, r. split; [exact Hri|]. split; [|split; [exact Hold|exact Ht]].
      apply (holds_ext s s1); [|exact Hh]. intros pos. apply (K1 _ _ _ Hri). }
  eexists rc, (if nz rc then 0 else w), k, _. split; [by destruct (nz rc) eqn:E; [|unfold nz in E; destruct (Z.eqb_spec rc 0) as [->|]]|].
  split; [by apply (quiet_bracket s s2 I Vnode.none (depth s + 1))|].
  destruct Hl' as [Hl'|[Hl'|(-> & Hl')]]; [by left|by right; left|by right; right].
Qed.

(** sfs_lookup_spec. A lookup in the root directory of a consistent file system
    returns a referenced vnode of the inode that has the name, [ENOENT] when no
    inode has it, or [ENOMEM]; no file, no name and no other reference count
    changes, and the file system stays consistent. *)
Theorem sfs_lookup_spec s I v sv path :
  fs_names s I Vnode.none -> counts_ok s -> is_root s I v sv -> is_name path -> 0 <= depth s < 2 ^ 32 - 1 ->
  exists rc w k s', sfs_lookup v path s = Ret ((rc, w), s') /\ quiet s s' I Vnode.none /\ looked_up s s' I (cstr path) rc w k.
Proof. exact (lookup_run s I v sv path). Qed.

(** ** Giving a reference back *)

(** The inodes after a reference to [v] has been given back. *)
Definition after_decref s I (v : Z) (sv : sfs_vnode) : gmap Z sfs_dinode :=
  if (Vnode.refs (s_vst s) v =? 1) && (sfi_linkcount (sv_i sv) =? 0) then delete (sv_ino sv) I else I.

Lemma decref_step s I d v sv :
  fs_names s I d -> in_table s v sv -> d (sv_ino sv) = 0 -> 0 <= depth s < 2 ^ 32 - 3 ->
  let I' := after_decref s I v sv in
  exists s', sfs_decref v s = Ret (tt, s') /\ quiet s s' I' d /\ Vnode.moved (Vnode.opp (Vnode.one v)) (s_vst s) (s_vst s') /\
    (forall w sw, in_table s' w sw -> in_table s w sw) /\ (forall w sw, w <> v -> in_table s w sw -> in_table s' w sw) /\
    (Vnode.refs (s_vst s) v <> 1 -> in_table s' v sv) /\ (forall nm ino, name_at s' I' nm ino <-> name_at s I nm ino) /\
    (Vnode.refs (s_vst s) v = 1 -> sfi_linkcount (sv_i sv) = 0 -> forall b, 0 <= b ->
       b = sv_ino sv \/ owned (sv_i sv) (blk (s_vol s)) b -> used (s_vol s') b = false).
Proof.
  intros Hn Ht Hd0 Hd I'. pose proof (fn_inv _ _ _ Hn) as Hi.
  destruct (sfs_decref_run s I v sv Hi Ht Hd) as (s' & Hrun & Hdep & Hcase). exists s'. split; [exact Hrun|].
  unfold I', after_decref. destruct Hcase as [[H1 [Ri Rt Rm Rs Rc Rf]]|(H1 & Hi' & Hvol & Hm & Htab)].
  - rewrite H1. cbn [Z.eqb Pos.eqb andb]. set (I2 := if _ =? 0 then _ else _) in *.
    assert (kept_contents s s' I2) as Hk.
    { intros ino i pos Hino Hpos. unfold I2 in Hino. destruct (Z.eqb_spec (sfi_linkcount (sv_i sv)) 0) as [Hl|Hl].
      - apply lookup_delete_Some in Hino as [Hne Hino]. apply (Rc ino i pos Hino); [by left; intros ->|exact Hpos].
      - apply (Rc ino i pos Hino); [by right|exact Hpos]. }
    destruct (names_drop s s' I I2 d Hn Ri) as [Hn' Hsame].
    + unfold I2. destruct (Z.eqb_spec (sfi_linkcount (sv_i sv)) 0) as [Hl|Hl]; [|reflexivity]. apply lookup_delete_ne. intros E.
      pose proof (table_inode _ _ _ _ Hi Ht) as HI. rewrite E in HI. by destruct (fn_root _ _ _ Hn _ HI) as [_ []].
    + intros ino i. unfold I2. destruct (_ =? 0); [|trivial]. by intros [_ ?]%lookup_delete_Some.
    + intros ino i r Hino Hr Hlk. unfold I2. destruct (Z.eqb_spec (sfi_linkcount (sv_i sv)) 0) as [Hl|Hl]; [|exact Hino].
      rewrite lookup_delete_ne; [exact Hino|]. intros <-. pose proof (table_inode _ _ _ _ Hi Ht) as HI. rewrite HI in Hino. injection Hino as <-.
      assert (sv_ino sv <> SFS_ROOTDIR_INO) as Hne. { intros E. rewrite E in HI. by destruct (fn_root _ _ _ Hn _ HI) as [_ []]. }
      pose proof (fn_links _ _ _ Hn _ _ _ HI Hne Hr). lia.
    + exact Hk.
    + intros w sw Hw Hl HI2. exists w, sw. split; [|reflexivity]. apply Rt. split; [|exact Hw]. intros ->.
      destruct Ht as [_ E], Hw as [_ E']. rewrite E in E'. injection E' as <-. unfold I2 in HI2. rewrite Hl in HI2. cbn in HI2.
      by rewrite lookup_delete_eq in HI2.
    + split; [split; [exact Hn'| |exact Hk|exact Hdep|exact Rs]|].
      { intros nm ino. rewrite (Hsame nm ino). unfold name_at. unfold I2. destruct (Z.eqb_spec (sfi_linkcount (sv_i sv)) 0) as [Hl|Hl]; [|reflexivity].
        rewrite lookup_delete_ne; [reflexivity|]. intros E.
        pose proof (table_inode _ _ _ _ Hi Ht) as HI. rewrite E in HI. by destruct (fn_root _ _ _ Hn _ HI) as [_ []]. }
      split; [exact Rm|]. split; [intros w sw Hw; by apply Rt in Hw as [_ ?]|]. split; [intros w sw Hne Hw; by apply Rt|].
      split; [done|]. split; [exact Hsame|]. intros _ Hl b Hb Hcase. apply (Rf b Hl Hb). destruct Hcase; [by left|by right; left].
  - rewrite (proj2 (Z.eqb_neq (Vnode.refs (s_vst s) v) 1)) by lia. cbn [andb].
    assert (kept_contents s s' I) as Hk by (apply blk_kept; by rewrite Hvol).
    destruct (names_step s s' I d Hn Hi' Hk) as [Hn' Hsame].
    { intros w sw Hw. exists w, sw. split; [by apply Htab|reflexivity]. }
    split; [split; [exact Hn'|exact Hsame|exact Hk|exact Hdep|by rewrite Hvol]|]. split; [exact Hm|].
    split; [intros w sw; apply Htab|]. split; [intros w sw _; apply Htab|]. split; [intros _; by apply Htab|]. split; [exact Hsame|]. lia.
Qed.

(** ** Changing a link count *)

Lemma ptr_linkcount n i B k : ptr (with_linkcount n i) B k = ptr i B k.
Proof. reflexivity. Qed.

Lemma relink_confined s I v sv n :
  fs_inv s I -> in_table s v sv -> 0 <= n < 2 ^ 16 ->
  let f' := MkFile (s_vol s) (MkSv (with_linkcount n (sv_i sv)) (sv_ino sv) true) in confined (file_of s sv) f'.
Proof.
  intros Hi Ht Hl f'. pose proof (table_fok _ _ _ _ Hi Ht) as [Hv [(W1&W2&W3&W4&W5&W6&W7&W8) Hr Hj Hind]].
  assert (fok f') as Hok.
  { split; [exact Hv|]. split; [|exact Hr|exact Hj|exact Hind]. exact (conj W1 (conj W2 (conj Hl (conj W4 (conj W5 (conj W6 (conj W7 W8))))))). }
  split; [exact Hok|reflexivity|reflexivity|reflexivity|reflexivity|reflexivity|tauto|reflexivity|left; assumption|right; reflexivity|trivial|left; assumption].
Qed.

(** [I] with the link count of inode [ino] set to [n]. *)
Definition relinked I (ino : Z) i (n : Z) : gmap Z sfs_dinode := <[ino := with_linkcount n i]> I.

(** A change of one file other than the root directory. *)
Lemma file_step s I d v sv f' :
  fs_names s I d -> in_table s v sv -> sv_ino sv <> SFS_ROOTDIR_INO -> confined (file_of s sv) f' ->
  let s' := put_file s v f' in
  let I' := <[sv_ino sv := dinode f']> I in
  fs_names s' I' (fun x => if x =? sv_ino sv then d x + (sfi_linkcount (sv_i sv) - sfi_linkcount (dinode f')) else d x) /\
  (forall nm ino, name_at s' I' nm ino <-> name_at s I nm ino) /\
  (forall x i pos, I !! x = Some i -> x <> sv_ino sv -> 0 <= pos -> fbyte i (blk (s_vol s')) pos = fbyte i (blk (s_vol s)) pos).
Proof.
  intros Hn Ht Hne Hc s' I'. pose proof (fn_inv _ _ _ Hn) as Hi. pose proof (table_inode _ _ _ _ Hi Ht) as HI.
  assert (fs_inv s' I') as Hi' by (by apply (put_file_inv s I v sv)).
  assert (forall x, x <> sv_ino sv -> I' !! x = I !! x) as HO by (intros x Hx; apply lookup_insert_ne; by symmetry).
  assert (I' !! SFS_ROOTDIR_INO = I !! SFS_ROOTDIR_INO) as HR by (apply HO; by symmetry).
  assert (forall x i pos, I !! x = Some i -> x <> sv_ino sv -> 0 <= pos -> fbyte i (blk (s_vol s')) pos = fbyte i (blk (s_vol s)) pos) as Hk.
  { intros x i pos Hx Hxne. by destruct (confined_others s I v sv f' x i Hi Ht Hc Hx Hxne) as (_ & Hb & _); apply Hb. }
  assert (forall r, I !! SFS_ROOTDIR_INO = Some r -> forall pos, 0 <= pos -> fbyte r (blk (s_vol s')) pos = fbyte r (blk (s_vol s)) pos) as Hkr
    by (intros r Hr pos; apply (Hk _ r pos Hr); by symmetry).
  assert (forall nm ino, name_at s' I' nm ino <-> name_at s I nm ino) as Hsame.
  { intros nm ino. unfold name_at. rewrite HR. split; intros (r & k & Hr & Hh); exists r, k; (split; [exact Hr|]);
      [exact (proj1 (holds_ext s s' r nm ino k (Hkr r Hr)) Hh)|exact (proj2 (holds_ext s s' r nm ino k (Hkr r Hr)) Hh)]. }
  split; [|split; [exact Hsame|exact Hk]]. destruct Hn as [_ Hroot Hhas Hent Hlk Hop]. split.
  - exact Hi'.
  - intros i Hr. pose proof Hr as Hr'. rewrite HR in Hr'. destruct (Hroot i Hr') as [Hd Hl]. split; [|exact Hl].
    apply (dir_ok_ext s); [|exact (Hkr i Hr')|exact Hd]. split; [apply Hi'|]. apply (iv_inode _ _ Hi' _ _ Hr).
  - by rewrite HR.
  - intros nm ino Hna. apply Hsame in Hna. destruct (Hent nm ino Hna) as (Hne' & i & Hino & Hty). split; [exact Hne'|].
    destruct (decide (ino = sv_ino sv)) as [->|Hd].
    + exists (dinode f'). split; [apply lookup_insert_eq|]. rewrite HI in Hino. injection Hino as <-. by rewrite (c_type _ _ Hc).
    + exists i. split; [by rewrite (HO ino Hd)|exact Hty].
  - intros ino i r Hino Hne' Hr. rewrite HR in Hr. rewrite (links_ext s s' r ino (Hkr r Hr)).
    destruct (Z.eqb_spec ino (sv_ino sv)) as [->|Hd].
    + unfold I' in Hino. rewrite lookup_insert_eq in Hino. injection Hino as <-. rewrite <- (Hlk _ _ r HI Hne Hr). lia.
    + apply (Hlk ino i r); [by rewrite <- (HO ino Hd)|exact Hne'|exact Hr].
  - intros ino i Hino Hl0. destruct (decide (ino = sv_ino sv)) as [->|Hd].
    + exists v, (f_sv f'). split; [apply put_table; left; split; [reflexivity|]; split; [apply Ht|reflexivity]|exact (c_ino _ _ Hc)].
    + rewrite (HO ino Hd) in Hino. destruct (Hop ino i Hino Hl0) as (w & sw & Hw & <-). exists w, sw. split; [|reflexivity]. apply put_table. right.
      split; [|exact Hw]. intros ->. destruct Ht as [_ E], Hw as [_ E']. congruence.
Qed.

Lemma relink_step s I d v sv n g :
  fs_names s I d -> in_table s v sv -> sv_ino sv <> SFS_ROOTDIR_INO -> 0 <= n < 2 ^ 16 -> g (sv_i sv) = with_linkcount n (sv_i sv) ->
  let s' := put_file s v (MkFile (s_vol s) (MkSv (with_linkcount n (sv_i sv)) (sv_ino sv) true)) in
  let I' := relinked I (sv_ino sv) (sv_i sv) n in
  change_sv v g s = Ret (tt, s') /\
  fs_names s' I' (fun x => if x =? sv_ino sv then d x + (sfi_linkcount (sv_i sv) - n) else d x) /\
  forall nm ino, name_at s' I' nm ino <-> name_at s I nm ino.
Proof.
  intros Hn Ht Hne Hl Hg s' I'.
  destruct (file_step s I d v sv _ Hn Ht Hne (relink_confined s I v sv n (fn_inv _ _ _ Hn) Ht Hl)) as (Hn' & Hs & _).
  split; [|split; [exact Hn'|exact Hs]]. unfold change_sv. apply (in_file_run s v sv); [apply Ht|]. rewrite <- Hg. reflexivity.
Qed.

(** ** Changing a slot of the root directory *)

(** The slots other than [k] are the same, and there is none beyond. *)
Definition slot_step f f' (k : Z) : Prop :=
  0 <= k <= nslots f /\ nslots f' = Z.max (nslots f) (k + 1) /\ forall j, 0 <= j -> j <> k -> slot f' j = slot f j.

Lemma names_slot_step f f' k x j : slot_step f f' k -> 0 <= j -> j <> k -> names_slot f' x j = names_slot f x j.
Proof.
  intros (Hk & Hn & Hs) Hj Hne. unfold names_slot. rewrite (Hs j Hj Hne), Hn.
  destruct (Z.ltb_spec j (nslots f)), (Z.ltb_spec j (Z.max (nslots f) (k + 1))); [reflexivity|lia|lia|reflexivity].
Qed.

Lemma links_step f f' k x :
  slot_step f f' k -> nslots f' <= 1144 ->
  links f' x = links f x - (if names_slot f x k then 1 else 0) + (if names_slot f' x k then 1 else 0).
Proof.
  intros Hs Hm. pose proof Hs as (Hk & Hn & _). Transparent links. unfold links.
  rewrite (count_ext (names_slot f' x) (fun j => if j =? k then names_slot f' x k else names_slot f x j)).
  - rewrite (count_at (names_slot f x) _ _ k); [by rewrite Z.eqb_refl|apply NoDup_seqZ|apply elem_of_seqZ; lia|].
    intros j Hne. by rewrite (proj2 (Z.eqb_neq _ _) Hne).
  - intros j Hj%elem_of_seqZ. destruct (Z.eqb_spec j k) as [->|Hne]; [reflexivity|]. apply (names_slot_step f f' k); [exact Hs|lia|exact Hne].
Qed.

(** All slots are the same. *)
Definition same_slots f f' : Prop := nslots f' = nslots f /\ forall j, 0 <= j -> slot f' j = slot f j.

Lemma same_slots_links f f' x : same_slots f f' -> links f' x = links f x.
Proof. intros [Hn Hs]. apply count_ext. intros j Hj%elem_of_seqZ. unfold names_slot. rewrite Hs, Hn by lia. reflexivity. Qed.

Lemma same_slots_holds f f' nm x j : same_slots f f' -> holds f' nm x j <-> holds f nm x j.
Proof. intros [Hn Hs]. unfold holds. rewrite Hn. split; intros (Hj & Hu); (split; [exact Hj|]); [rewrite Hs in Hu by lia|rewrite Hs by lia]; exact Hu. Qed.

#[local] Opaque links.

Lemma holds_step f f' k nm x j :
  slot_step f f' k -> j <> k -> holds f' nm x j <-> holds f nm x j.
Proof.
  intros (Hk & Hn & Hs) Hne. unfold holds. rewrite Hn. split; intros (Hj & Hu).
  - rewrite (Hs j) in Hu by lia. split; [lia|exact Hu].
  - rewrite (Hs j) by lia. split; [lia|exact Hu].
Qed.

(** A slot is used for a new name. *)
Lemma slot_taken f f' k nm ino :
  slot_step f f' k -> nslots f' <= 1144 -> (k < nslots f -> ~ in_use (slot f k)) -> holds f' nm ino k ->
  (forall x, links f' x = links f x + (if x =? ino then 1 else 0)) /\
  (forall nm' x j, holds f' nm' x j <-> (j = k /\ nm' = nm /\ x = ino \/ holds f nm' x j)).
Proof.
  intros Hst Hm Hfree Hh. pose proof Hh as (Hk & Hu & Hen & Hio).
  assert (forall x, names_slot f x k = false) as Hno.
  { intros x. unfold names_slot. destruct (Z.ltb_spec k (nslots f)) as [Hlt|]; [|reflexivity]. cbn [andb].
    destruct (Z.eqb_spec (sfd_ino (slot f k)) 0) as [|Hz]; [reflexivity|]. by destruct (Hfree Hlt). }
  split.
  - intros x. rewrite (links_step f f' k x Hst Hm), Hno. unfold names_slot. rewrite (proj2 (Z.ltb_lt _ _)) by lia.
    rewrite (proj2 (Z.eqb_neq _ _) Hu). rewrite Hio. cbn [andb negb]. rewrite (Z.eqb_sym ino x). destruct (x =? ino); lia.
  - intros nm' x j. destruct (decide (j = k)) as [->|Hne].
    + split.
      * intros (_ & _ & <- & <-). left. by split.
      * intros [(_ & -> & ->)|(Hj & Hu' & _)]; [exact Hh|]. by destruct (Hfree (proj2 Hj)).
    + rewrite (holds_step f f' k nm' x j Hst Hne). split; [by right|]. intros [[? _]|?]; [contradiction|assumption].
Qed.

(** What changing the root directory leaves alone. *)
Record dstep s s' I I' (v : Z) : Prop := {
  ds_inodes x : x <> SFS_ROOTDIR_INO -> I' !! x = I !! x;
  ds_content x i pos : x <> SFS_ROOTDIR_INO -> I !! x = Some i -> 0 <= pos -> fbyte i (blk (s_vol s')) pos = fbyte i (blk (s_vol s)) pos;
  ds_vst : s_vst s' = s_vst s;
  ds_depth : depth s' = depth s;
  ds_sb : sfs_sb (s_vol s') = sfs_sb (s_vol s);
  ds_table w sw : w <> v -> in_table s' w sw <-> in_table s w sw;
  ds_root : exists sv', is_root s' I' v sv';
  ds_owned x i b : x <> SFS_ROOTDIR_INO -> I !! x = Some i -> owned i (blk (s_vol s')) b <-> owned i (blk (s_vol s)) b;
}.

Lemma dir_change s I d d' v sv f' :
  fs_names s I d -> is_root s I v sv -> within (file_of s sv) f' -> dir_ok f' ->
  (forall nm x k, holds f' nm x k -> x <> SFS_ROOTDIR_INO /\ exists i, I !! x = Some i /\ sfi_type i = SFS_TYPE_FILE) ->
  (forall x i, I !! x = Some i -> x <> SFS_ROOTDIR_INO -> sfi_linkcount i + d' x = links f' x) ->
  let s' := put_file s v f' in let I' := <[SFS_ROOTDIR_INO := dinode f']> I in
  fs_names s' I' d' /\ dstep s s' I I' v /\ forall nm x, name_at s' I' nm x <-> exists k, holds f' nm x k.
Proof.
  intros Hn Hr Hw Hdir Hent Hlk s' I'. pose proof (fn_inv _ _ _ Hn) as Hi. pose proof Hr as [Ht Hino].
  pose proof (root_inode _ _ _ _ _ Hn Hr) as HR. pose proof (within_confined _ _ Hw) as Hc.
  assert (fs_inv s' I') as Hi' by (unfold I'; rewrite <- Hino; by apply put_file_inv).
  assert (forall nm x k, holds f' nm x k <-> holds (dirfile s' (dinode f')) nm x k) as Hh by (intros; by apply holds_root).
  assert (forall nm x, name_at s' I' nm x <-> exists k, holds f' nm x k) as Hname.
  { intros nm x. unfold name_at, I'. rewrite lookup_insert_eq. split.
    - intros (i & k & [= <-] & Hx). exists k. by apply Hh.
    - intros (k & Hx). exists (dinode f'), k. split; [reflexivity|]. by apply Hh. }
  split; [|split; [|exact Hname]].
  - split.
    + exact Hi'.
    + intros i Hri. unfold I' in Hri. rewrite lookup_insert_eq in Hri. injection Hri as <-. split.
      * by apply (dir_ok_root f' s' (dinode f')).
      * rewrite (w_link _ _ Hw). by apply (fn_root _ _ _ Hn).
    + unfold I'. rewrite lookup_insert_eq. by eexists.
    + intros nm x (k & Hx)%Hname. destruct (Hent nm x k Hx) as (Hne & i & Hi2 & Hty). split; [exact Hne|]. exists i.
      split; [|exact Hty]. unfold I'. by rewrite lookup_insert_ne.
    + intros x i r Hx Hne Hri. unfold I' in Hx, Hri. rewrite lookup_insert_eq in Hri. injection Hri as <-. rewrite lookup_insert_ne in Hx by done.
      rewrite (Hlk x i Hx Hne). by apply links_root.
    + intros x i Hx Hl. destruct (decide (x = SFS_ROOTDIR_INO)) as [->|Hne].
      * unfold I' in Hx. rewrite lookup_insert_eq in Hx. injection Hx as <-. rewrite (w_link _ _ Hw) in Hl.
        by destruct (fn_root _ _ _ Hn _ HR) as [_ []].
      * unfold I' in Hx. rewrite lookup_insert_ne in Hx by done. destruct (fn_open _ _ _ Hn x i Hx Hl) as (w & sw & Hw' & <-).
        exists w, sw. split; [|reflexivity]. apply put_table. right. split; [|exact Hw'].
        intros ->. destruct Ht as [_ E], Hw' as [_ E']. congruence.
  - split.
    + intros x Hne. unfold I'. by rewrite lookup_insert_ne.
    + intros x i pos Hne Hx Hpos. destruct (confined_others _ _ _ _ _ _ _ Hi Ht Hc Hx) as (_ & Hb & _); [by rewrite Hino|]. by apply Hb.
    + reflexivity.
    + exact (w_depth _ _ Hw).
    + exact (w_sb _ _ Hw).
    + intros w sw Hne. unfold s'. rewrite put_table. split; [intros [[? _]|[_ ?]]; [contradiction|assumption]|by right].
    + exists (f_sv f'). split; [|by rewrite (w_ino _ _ Hw)]. apply put_table. left. split; [reflexivity|]. split; [apply Ht|reflexivity].
    + intros x i b Hne Hx. apply (confined_others _ _ _ _ _ _ _ Hi Ht Hc Hx). by rewrite Hino.
Qed.

(** The invariant, read off the vnode of the root directory. *)
Lemma root_names s I d v sv nm x :
  fs_names s I d -> is_root s I v sv -> name_at s I nm x <-> exists j, holds (file_of s sv) nm x j.
Proof.
  intros Hn Hr. unfold name_at. rewrite (root_inode _ _ _ _ _ Hn Hr). split.
  - intros (r & j & [= <-] & Hh). exists j. by apply (holds_root _ s (sv_i sv)).
  - intros (j & Hh). exists (sv_i sv), j. split; [reflexivity|]. by apply (holds_root (file_of s sv) s (sv_i sv)).
Qed.

Lemma root_entry s I d v sv nm x j :
  fs_names s I d -> is_root s I v sv -> holds (file_of s sv) nm x j ->
  x <> SFS_ROOTDIR_INO /\ exists i, I !! x = Some i /\ sfi_type i = SFS_TYPE_FILE.
Proof. intros Hn Hr Hh. apply (fn_entry _ _ _ Hn nm). apply (root_names _ _ _ _ _ _ _ Hn Hr). by exists j. Qed.

Lemma root_links s I d v sv x i :
  fs_names s I d -> is_root s I v sv -> I !! x = Some i -> x <> SFS_ROOTDIR_INO -> sfi_linkcount i + d x = links (file_of s sv) x.
Proof.
  intros Hn Hr Hx Hne. rewrite (links_root _ s (sv_i sv)) by reflexivity.
  exact (fn_links _ _ _ Hn x i _ Hx Hne (root_inode _ _ _ _ _ Hn Hr)).
Qed.

(** An operation on the directory that leaves the slots as they were. *)
Lemma dir_kept s I d v sv f' :
  fs_names s I d -> is_root s I v sv -> within (file_of s sv) f' -> dir_ok f' -> same_slots (file_of s sv) f' ->
  let s' := put_file s v f' in let I' := <[SFS_ROOTDIR_INO := dinode f']> I in
  fs_names s' I' d /\ dstep s s' I I' v /\ forall nm x, name_at s' I' nm x <-> name_at s I nm x.
Proof.
  intros Hn Hr Hw Hd Hs s' I'.
  destruct (dir_change s I d d v sv f' Hn Hr Hw Hd) as (Hn' & Hds & Hname).
  - intros nm x k Hh. apply (same_slots_holds _ _ _ _ _ Hs) in Hh. by apply (root_entry _ _ _ _ _ _ _ _ Hn Hr Hh).
  - intros x i Hx Hne. rewrite (same_slots_links _ _ _ Hs). by apply (root_links _ _ _ _ _ _ _ Hn Hr).
  - split; [exact Hn'|]. split; [exact Hds|]. intros nm x. unfold s', I'. rewrite (Hname nm x), (root_names s I d v sv nm x Hn Hr).
    split; intros (j & Hh); exists j; by apply (same_slots_holds _ _ _ _ _ Hs).
Qed.

(** The error codes of [sfs_dir_link]. *)
Definition link_error s I nm (rc : Z) : Prop :=
  rc = EEXIST /\ (exists ino, name_at s I nm ino) \/ rc = ENAMETOOLONG /\ (59 < length nm)%nat \/ rc = ENOSPC \/ rc = EFBIG.

Lemma link_error_nz s I nm rc : link_error s I nm rc -> rc <> 0.
Proof. intros [[-> _]|[[-> _]|[-> | ->]]]; discriminate. Qed.

Lemma same_same_slots f f' : same f f' -> same_slots f f'.
Proof. intros Hs. split; [unfold nslots; by rewrite (same_dinode _ _ Hs)|intros j _; by apply same_slot]. Qed.

Lemma link_step s I d v sv name ino i :
  fs_names s I d -> is_root s I v sv -> is_name name -> I !! ino = Some i -> sfi_type i = SFS_TYPE_FILE -> ino <> SFS_ROOTDIR_INO ->
  exists rc k s' I', in_file v (sfs_dir_link name ino) s = Ret ((rc, k), s') /\ dstep s s' I I' v /\
    (rc = 0 /\ fs_names s' I' (fun x => d x + (if x =? ino then 1 else 0)) /\ (forall x, ~ name_at s I (cstr name) x) /\
     (exists sv', is_root s' I' v sv' /\ forall nm x j, holds (file_of s sv) nm x j -> holds (file_of s' sv') nm x j) /\
     (forall nm x, name_at s' I' nm x <-> (nm = cstr name /\ x = ino \/ name_at s I nm x)) \/
     link_error s I (cstr name) rc /\ fs_names s' I' d /\ forall nm x, name_at s' I' nm x <-> name_at s I nm x).
Proof.
  intros Hn Hr Hnm Hino Hty Hne. pose proof (root_dir _ _ _ _ _ Hn Hr) as Hd.
  pose proof (iv_inode _ _ (fn_inv _ _ _ Hn) _ _ Hino) as Hio. pose proof (io_range _ _ _ _ Hio) as Hrange.
  pose proof (vol_max _ (iv_vol _ _ (fn_inv _ _ _ Hn))) as Hmax.
  destruct (dir_link_run (file_of s sv) name ino Hd Hnm) as (rc & k & f' & Hrun & Hd' & Hw & Hl); [lia|].
  exists rc, k, (put_file s v f'), (<[SFS_ROOTDIR_INO := dinode f']> I).
  split; [apply (in_file_run s v sv); [apply Hr|exact Hrun]|].
  pose proof (fun Hs => dir_kept s I d v sv f' Hn Hr Hw Hd' Hs) as Hkept.
  destruct Hl as [(-> & Hs & ino' & j & Hh)|[(-> & Hs & _ & Hlen)|(Habs & Hlen & Hk & Hfree & [(-> & Hns & Hh & Hsl)|[Hrc [Hsl Hsz]]])]].
  - destruct (Hkept (same_same_slots _ _ Hs)) as (Hn' & Hds & Hname). split; [exact Hds|]. right. split; [|by split].
    left. split; [reflexivity|]. exists ino'. apply (root_names _ _ _ _ _ _ _ Hn Hr). by exists j.
  - destruct (Hkept (same_same_slots _ _ Hs)) as (Hn' & Hds & Hname). split; [exact Hds|]. right. split; [|by split].
    right; left. split; [reflexivity|exact Hlen].
  - assert (slot_step (file_of s sv) f' k) as Hst by (split; [exact Hk|split; [exact Hns|exact Hsl]]).
    destruct (slot_taken (file_of s sv) f' k (cstr name) ino Hst) as [Hlk Hhold]; [apply Hd'| |exact Hh|].
    { intros Hlt. destruct Hfree as [[_ Hf]|[E _]]; [exact Hf|lia]. }
    destruct (dir_change s I d (fun x => d x + (if x =? ino then 1 else 0)) v sv f' Hn Hr Hw Hd') as (Hn' & Hds & Hname).
    + intros nm x j [(_ & _ & ->)|Hx]%Hhold; [|by apply (root_entry _ _ _ _ _ _ _ _ Hn Hr Hx)]. split; [exact Hne|]. by exists i.
    + intros x ix Hx Hxne. rewrite (Hlk x), <- (root_links _ _ _ _ _ _ _ Hn Hr Hx Hxne). lia.
    + split; [exact Hds|]. left. split; [reflexivity|]. split; [exact Hn'|]. split; [|split].
      * intros x Hx. apply (root_names _ _ _ _ _ _ _ Hn Hr) in Hx as (j & Hx). exact (Habs x j Hx).
      * exists (f_sv f'). split.
        -- split; [|rewrite (w_ino _ _ Hw); apply Hr]. apply put_table. left. split; [reflexivity|]. split; [apply Hr|reflexivity].
        -- intros nm x j Hx. destruct f' as [vol' sv']. apply Hhold. right. exact Hx.
      * intros nm x. rewrite (Hname nm x), (root_names s I d v sv nm x Hn Hr). split.
        -- intros (j & [(_ & -> & ->)|Hx]%Hhold); [by left|right; by exists j].
        -- intros [[-> ->]|(j & Hx)]; [by exists k|]. exists j. apply Hhold. by right.
  - destruct Hkept as (Hn' & Hds & Hname); [split; [unfold nslots; by rewrite Hsz|exact Hsl]|]. split; [exact Hds|]. right. split; [|by split].
    right; right. destruct Hrc as [->|[-> _]]; [by left|by right].
Qed.

Lemma unlink_step s I d v sv nm ino k :
  fs_names s I d -> is_root s I v sv -> holds (file_of s sv) nm ino k ->
  exists s' I', in_file v (sfs_dir_unlink k) s = Ret (0, s') /\ dstep s s' I I' v /\
    fs_names s' I' (fun x => d x - (if x =? ino then 1 else 0)) /\
    (forall nm' x, name_at s' I' nm' x <-> nm' <> nm /\ name_at s I nm' x).
Proof.
  intros Hn Hr Hh. pose proof (root_dir _ _ _ _ _ Hn Hr) as Hd. pose proof Hh as (Hk & Hu & Hen & Hio).
  destruct (dir_unlink_run (file_of s sv) k Hd Hk) as (rc & f' & Hrun & Hd' & Hw & Hcase).
  destruct Hcase as [(-> & Hns & Hfree & Hsl)|(_ & Hno & _)]; [|contradiction].
  exists (put_file s v f'), (<[SFS_ROOTDIR_INO := dinode f']> I).
  split; [apply (in_file_run s v sv); [apply Hr|exact Hrun]|].
  - assert (slot_step (file_of s sv) f' k) as Hst by (split; [lia|split; [lia|exact Hsl]]).
    assert (forall x, names_slot f' x k = false) as Hno.
    { intros x. unfold names_slot. destruct (Z.eqb_spec (sfd_ino (slot f' k)) 0) as [|Hz]; [by rewrite andb_false_r|]. by destruct Hfree. }
    assert (forall nm' x j, holds f' nm' x j <-> j <> k /\ holds (file_of s sv) nm' x j) as Hhold.
    { intros nm' x j. destruct (decide (j = k)) as [->|Hne].
      - split; [intros (_ & Hu' & _); by destruct Hfree|by intros [[] _]].
      - rewrite (holds_step _ _ _ nm' x j Hst Hne). split; [by split|by intros [_ ?]]. }
    destruct (dir_change s I d (fun x => d x - (if x =? ino then 1 else 0)) v sv f' Hn Hr Hw Hd') as (Hn' & Hds & Hname).
    + intros nm' x j [_ Hx]%Hhold. by apply (root_entry _ _ _ _ _ _ _ _ Hn Hr Hx).
    + intros x ix Hx Hxne. rewrite (links_step _ _ k x Hst) by apply Hd'. rewrite Hno, <- (root_links _ _ _ _ _ _ _ Hn Hr Hx Hxne).
      unfold names_slot. rewrite (proj2 (Z.ltb_lt _ _)) by lia. rewrite (proj2 (Z.eqb_neq _ _) Hu), Hio. cbn [andb negb].
      rewrite (Z.eqb_sym ino x). destruct (x =? ino); lia.
    + split; [exact Hds|]. split; [exact Hn'|].
      intros nm' x. rewrite (Hname nm' x), (root_names s I d v sv nm' x Hn Hr). split.
      * intros (j & [Hne Hx]%Hhold). split; [|by exists j]. intros ->. apply Hne. destruct Hx as (Hj & Hju & Hje & _).
        apply (do_unique _ Hd); [exact Hj|exact Hk|exact Hju|exact Hu|congruence].
      * intros [Hne (j & Hx)]. exists j. apply Hhold. split; [|exact Hx]. intros ->. apply Hne. destruct Hx as (_ & _ & <- & _). exact Hen.
Qed.

(** ** Creating an inode *)

(** The inode of a new file. *)
Definition new_inode : sfs_dinode := Dinode 0 SFS_TYPE_FILE 0 (replicate 15 0) 0 (replicate 110 0).

Lemma forced_new : forced SFS_TYPE_FILE zeros = new_inode.
Proof. vm_compute. reflexivity. Qed.

Lemma new_inode_ptr B k : ptr new_inode B k = 0.
Proof.
  unfold ptr. destruct (k <? 15); [|reflexivity]. cbn [sfi_direct new_inode]. unfold arr_get. destruct (0 <=? k); [|reflexivity].
  destruct (_ !! _) as [x|] eqn:E; [|reflexivity]. by apply lookup_replicate in E as [-> _].
Qed.

Lemma new_inode_owns B b : ~ owned new_inode B b.
Proof. intros [Hz [E|(k & _ & E)]]; [done|]. rewrite new_inode_ptr in E. congruence. Qed.

(** A block that was free is not owned by any inode after it has been written. *)
Lemma free_not_owned s I (v' : volume) b ino i :
  fs_inv s I -> used (s_vol s) b = false -> (forall x, x <> b -> blk v' x = blk (s_vol s) x) -> I !! ino = Some i ->
  ~ owned i (blk v') b /\ forall x, owned i (blk v') x <-> owned i (blk (s_vol s)) x.
Proof.
  intros Hi Hf HB Hino.
  assert (forall x, owned i (blk (s_vol s)) x -> x <> b) as Hno.
  { intros x Ho ->. destruct (owned_used _ _ _ _ _ Hi Hino Ho). congruence. }
  assert (forall k, ptr i (blk v') k = ptr i (blk (s_vol s)) k) as Hp.
  { intros k. apply ptr_ext. intros Hz. apply HB, Hno. split; [exact Hz|by left]. }
  assert (forall x, owned i (blk v') x <-> owned i (blk (s_vol s)) x) as Ho by (intros x; unfold owned; by setoid_rewrite Hp).
  split; [|exact Ho]. intros Hb. exact (Hno b (proj1 (Ho b) Hb) eq_refl).
Qed.

Lemma new_inode_inv s I b :
  (forall ino i, I !! ino = Some i -> inode_ok (s_vol s) I ino i) -> 0 < b < nblocks (s_vol s) -> used (s_vol s) b = true -> I !! b = None ->
  (forall ino i, I !! ino = Some i -> ~ owned i (blk (s_vol s)) b) ->
  forall ino i, <[b := new_inode]> I !! ino = Some i -> inode_ok (s_vol s) (<[b := new_inode]> I) ino i.
Proof.
  intros Hi Hr Hu HI Hno ino i Hino. destruct (decide (ino = b)) as [->|Hne].
  - rewrite lookup_insert_eq in Hino. injection Hino as <-. split; [exact Hr|exact Hu|by left| | |].
    + split; [|intros k _ Hz; by rewrite new_inode_ptr in Hz|intros k k' _ _ Hz; by rewrite new_inode_ptr in Hz|intros Hz; done].
      split_and!; try done; apply Forall_replicate; simpl; lia.
    + intros ino' i' x _ _ Ho. by destruct (new_inode_owns _ _ Ho).
    + intros x Ho. by destruct (new_inode_owns _ _ Ho).
  - rewrite lookup_insert_ne in Hino by done. destruct (Hi _ _ Hino) as [? ? ? ? Hsep Hal]. split; [assumption..| |].
    + intros ino' i' x Hino' Hne' Ho. destruct (decide (ino' = b)) as [->|Hne2].
      * rewrite lookup_insert_eq in Hino'. injection Hino' as <-. apply new_inode_owns.
      * rewrite lookup_insert_ne in Hino' by done. by apply (Hsep ino' i').
    + intros x Ho. rewrite lookup_insert_ne; [by apply Hal|]. intros <-. by apply (Hno ino i).
Qed.

(** The new inode has its own block and no other. *)
Lemma new_taken (v : volume) I b x : I !! b = None -> taken v (<[b := new_inode]> I) x <-> x = b \/ taken v I x.
Proof.
  intros HI. unfold taken. split.
  - intros [[i [[-> _]|[Hne Hx]]%lookup_insert_Some]|(ino & i & [[-> <-]|[Hne Hino]]%lookup_insert_Some & Ho)].
    + by left.
    + right; left. by exists i.
    + by destruct (new_inode_owns _ _ Ho).
    + right; right. by exists ino, i.
  - intros [->|[[i Hx]|(ino & i & Hino & Ho)]].
    + left. by rewrite lookup_insert_eq.
    + left. rewrite lookup_insert_ne; [by exists i|congruence].
    + right. exists ino, i. rewrite lookup_insert_ne; [done|congruence].
Qed.

Lemma names_new s s' I b d :
  fs_names s I d -> fs_inv s' (<[b := new_inode]> I) -> I !! b = None -> d b = 0 -> kept_contents s s' I ->
  (forall v sv, in_table s v sv -> in_table s' v sv) -> (exists v sv, in_table s' v sv /\ sv_ino sv = b) ->
  fs_names s' (<[b := new_inode]> I) d /\ forall nm x, name_at s' (<[b := new_inode]> I) nm x <-> name_at s I nm x.
Proof.
  intros [Hi Hroot Hhas Hent Hlk Hop] Hi' Hb Hd Hk Htab Hnew.
  assert (b <> SFS_ROOTDIR_INO) as Hbr. { intros ->. rewrite Hb in Hhas. by destruct Hhas. }
  assert (<[b := new_inode]> I !! SFS_ROOTDIR_INO = I !! SFS_ROOTDIR_INO) as HR by (by apply lookup_insert_ne).
  assert (forall nm ino, name_at s' (<[b := new_inode]> I) nm ino <-> name_at s I nm ino) as Hn.
  { intros nm ino. unfold name_at. rewrite HR.
    pose proof (fun i (Hr : I !! SFS_ROOTDIR_INO = Some i) k => holds_ext s s' i nm ino k (fun pos => Hk _ _ pos Hr)) as Hx.
    split; intros (i & k & Hr & Hh); exists i, k; (split; [exact Hr|]); [exact (proj1 (Hx i Hr k) Hh)|exact (proj2 (Hx i Hr k) Hh)]. }
  split; [|exact Hn]. split; [exact Hi'| |by rewrite HR|..].
  - intros i Hr. pose proof Hr as Hr'. rewrite HR in Hr. destruct (Hroot i Hr) as [Hdir Hl]. split; [|exact Hl].
    apply (dir_ok_ext s); [|exact (fun pos => Hk _ _ pos Hr)|exact Hdir]. split; [apply Hi'|]. apply (iv_inode _ _ Hi' _ _ Hr').
  - intros nm ino Hna. apply Hn in Hna. destruct (Hent nm ino Hna) as (Hne & i & Hino & Hty). split; [exact Hne|]. exists i.
    split; [|exact Hty]. rewrite lookup_insert_ne; [exact Hino|]. intros <-. congruence.
  - intros ino i r Hino Hne Hr. rewrite HR in Hr. rewrite (links_ext s s' r ino (fun pos => Hk _ _ pos Hr)).
    destruct (decide (ino = b)) as [->|Hneb].
    + rewrite lookup_insert_eq in Hino. injection Hino as <-. rewrite Hd. cbn [new_inode sfi_linkcount].
      destruct (decide (0 < links (dirfile s r) b)) as [Hpos|Hz].
      * apply links_pos in Hpos as (nm & k & Hh); [|by apply Hroot|].
        -- destruct (Hent nm b) as (_ & i & Hbi & _); [by exists r, k|]. congruence.
        -- assert (<[b := new_inode]> I !! b = Some new_inode) as E by apply lookup_insert_eq. pose proof (io_range _ _ _ _ (iv_inode _ _ Hi' _ _ E)). lia.
      * Transparent links. unfold links in *. pose proof (count_range (names_slot (dirfile s r) b) (seqZ 0 1144)). lia.
    + rewrite lookup_insert_ne in Hino by congruence. by apply (Hlk ino i r).
  - intros ino i Hino Hl. destruct (decide (ino = b)) as [->|Hneb]; [exact Hnew|]. rewrite lookup_insert_ne in Hino by congruence.
    destruct (Hop ino i Hino Hl) as (v & sv & Ht & <-). exists v, sv. split; [by apply Htab|reflexivity].
Qed.

#[local] Opaque links.

(** What [sfs_makeobj] has done: a new inode numbered [b] with the vnode [w]. *)
Record made s s' I (d : Z -> Z) (w b : Z) (sw : sfs_vnode) : Prop := {
  mk_new : I !! b = None;
  mk_sv : sv_ino sw = b /\ sv_i sw = new_inode;
  mk_names : fs_names s' (<[b := new_inode]> I) d;
  mk_same nm x : name_at s' (<[b := new_inode]> I) nm x <-> name_at s I nm x;
  mk_content : kept_contents s s' I;
  mk_depth : depth s' = depth s;
  mk_sb : sfs_sb (s_vol s') = sfs_sb (s_vol s);
  mk_refs : Vnode.moved (Vnode.one w) (s_vst s) (s_vst s') /\ Vnode.refs (s_vst s) w = 0;
  mk_table x sx : in_table s' x sx <-> (x = w /\ sx = sw \/ in_table s x sx);
}.

(** The block of an inode that could not be loaded is given back. *)
Lemma unmake_step s s1 s2 I d b v1 :
  fs_names s I d -> used (s_vol s) b = false -> 0 < b < nblocks (s_vol s) -> I !! b = None ->
  s1 = set_s_vol v1 s -> evolves (s_vol s) v1 (upd (used (s_vol s)) b true) (upd (blk (s_vol s)) b zeros) -> not_loaded (Rsv := with_block b Rsv) s1 s2 I ->
  exists s', in_vol (sfs_bfree b) s2 = Ret (tt, s') /\ quiet s s' I d /\ Vnode.moved Vnode.none (s_vst s) (s_vst s') /\
    forall w sw, in_table s' w sw <-> in_table s w sw.
Proof.
  intros Hn Hf Hb HI -> Hev1 (Hi2 & Ht2 & Hm2 & Hev2).
  pose proof Hev1 as [_ Hsb1 _ Hdp1 Hu1 HB1]. pose proof Hev2 as [_ Hsb2 _ Hdp2 Hu2 HB2].
  change (s_vol (set_s_vol v1 s)) with v1 in *.
  assert (forall x, blk (s_vol s2) x = upd (blk (s_vol s)) b zeros x) as HB by (intros x; by rewrite (HB2 x), (HB1 x)).
  destruct (bfree_run (s_vol s2) b) as (v3 & Hrun & Hev3); [apply Hi2| |rewrite (Hu2 b), (Hu1 b) by lia; apply upd_eq|].
  { rewrite (evolves_nblocks _ _ _ _ Hev2), (evolves_nblocks _ _ _ _ Hev1). exact Hb. }
  exists (set_s_vol v3 s2). split; [exact (zoom_Ret s_vol set_s_vol _ s2 _ _ Hrun)|].
  assert (forall ino i, I !! ino = Some i -> ~ owned i (blk (s_vol s2)) b /\ forall x, owned i (blk (s_vol s2)) x <-> owned i (blk (s_vol s)) x) as Hfree.
  { intros ino i Hino. apply (free_not_owned s I (s_vol s2) b ino i (fn_inv _ _ _ Hn) Hf); [|exact Hino].
    intros x Hx. by rewrite (HB x), upd_ne. }
  destruct (vol_inv (R0 := with_block b Rsv) s2 I v3 _ _ Hi2 Hev3) as [Hi3 Hc3].
  { intros ino i x Hino Hx. assert (x <> b) as Hxb.
    { intros ->. destruct Hx as [<-|Ho]; [congruence|]. by destruct (Hfree ino i Hino) as [[] _]. }
    rewrite upd_ne by exact Hxb. split; [|reflexivity]. destruct Hx as [->|Ho]; [apply (iv_inode _ _ Hi2 _ _ Hino)|].
    by apply (owned_used _ _ _ _ _ Hi2 Hino Ho). }
  { intros x Hx Hu. unfold upd in Hu. destruct (Z.eqb_spec x b) as [->|Hne]; [done|].
    destruct (iv_lost _ _ Hi2 x Hx Hu) as [[?|?]|?]; [by left|done|by right]. }
  { intros x Hx Hr. destruct (iv_reserved _ _ Hi2 x Hx (or_introl Hr)) as [Hu Hnt]. split; [|exact Hnt]. rewrite upd_ne; [exact Hu|].
    intros ->. destruct (iv_reserved _ _ (fn_inv _ _ _ Hn) b) as [Hu' _]; [lia|exact Hr|congruence]. }
  assert (kept_contents s (set_s_vol v3 s2) I) as Hk.
  { intros ino i pos Hino Hpos. change (s_vol (set_s_vol v3 s2)) with v3. rewrite (Hc3 ino i pos Hino Hpos). destruct (Hfree ino i Hino) as [Hno Ho].
    apply fbyte_ext.
    - intros k. apply ptr_ext. intros Hz. rewrite (HB _), upd_ne; [reflexivity|]. intros E. apply Hno, Ho. rewrite <- E. split; [exact Hz|by left].
    - intros Hz. rewrite (HB _), upd_ne; [reflexivity|]. intros E. apply Hno, Ho. rewrite <- E. split; [exact Hz|]. right.
      exists (pos / 512). split; [apply Z.div_pos; lia|reflexivity]. }
  assert (forall w sw, in_table (set_s_vol v3 s2) w sw <-> in_table s w sw) as Htab by (intros w sw; exact (Ht2 w sw)).
  destruct (names_step s (set_s_vol v3 s2) I d Hn Hi3 Hk) as [Hn' Hsame].
  { intros w sw Hw. exists w, sw. split; [by apply Htab|reflexivity]. }
  split; [|split; [exact Hm2|exact Htab]]. split; [exact Hn'|exact Hsame|exact Hk| |].
  - unfold depth. change (vfs_biglock_depth v3 = vfs_biglock_depth (s_vol s)). rewrite (ev_depth _ _ _ _ Hev3), Hdp2. exact Hdp1.
  - change (sfs_sb v3 = sfs_sb (s_vol s)). rewrite (ev_sb _ _ _ _ Hev3), Hsb2. exact Hsb1.
Qed.

Lemma makeobj_step s I d :
  fs_names s I d -> (forall x, I !! x = None -> d x = 0) ->
  exists rc w s', sfs_makeobj SFS_TYPE_FILE s = Ret ((rc, w), s') /\
    ((rc = ENOSPC \/ rc = ENOMEM) /\ quiet s s' I d /\ Vnode.moved Vnode.none (s_vst s) (s_vst s') /\
     (forall x sx, in_table s' x sx <-> in_table s x sx) \/
     rc = 0 /\ exists b sw, made s s' I d w b sw).
Proof.
  intros Hn Hd. pose proof (fn_inv _ _ _ Hn) as Hi. unfold sfs_makeobj.
  destruct (balloc_run (s_vol s) (iv_vol _ _ Hi)) as [(Hrun & _)|(b & v1 & Hrun & Hb & Hf & Hev)].
  { rewrite (bind_run _ _ _ _ _ (in_vol_pure _ _ _ Hrun)). cbn [nz ENOSPC Z.eqb negb]. exists ENOSPC, 0, s. split; [reflexivity|]. left.
    split; [by left|]. split; [split; [exact Hn|reflexivity|intros ? ? ? _ _; reflexivity|reflexivity|reflexivity]|].
    split; [apply Vnode.moved_refl|reflexivity]. }
  rewrite (bind_run _ _ _ _ _ (zoom_Ret s_vol set_s_vol _ s _ _ Hrun)). cbn [nz Z.eqb negb].
  pose proof Hev as [Hok1 Hsb1 _ Hdp1 Hu1 HB1].
  assert (I !! b = None) as HI. { destruct (I !! b) as [i|] eqn:E; [|reflexivity]. pose proof (io_used _ _ _ _ (iv_inode _ _ Hi _ _ E)). congruence. }
  destruct (vol_inv_alloc s I v1 b Hi ltac:(lia) Hf Hev) as [Hi1 Hk1].
  set (s1 := set_s_vol v1 s) in *.
  assert (blk (s_vol s1) b = zeros) as Hz by (change (blk v1 b = zeros); rewrite (HB1 b); apply upd_eq).
  destruct (load_miss (Rsv := with_block b Rsv) s1 I b SFS_TYPE_FILE Hi1) as (rc & w & s2 & Hload & Hcase).
  { change (0 < b < nblocks v1). by rewrite (evolves_nblocks _ _ _ _ Hev). }
  { change (used v1 b = true). rewrite (Hu1 b) by lia. apply upd_eq. }
  { intros x sx Hx E. pose proof (table_inode _ _ _ _ Hi1 Hx). congruence. }
  { intros _. rewrite Hz. by vm_compute. }
  { rewrite Hz, forced_new. by left. }
  rewrite (bind_run _ _ _ _ _ Hload). rewrite Hz, forced_new in Hcase.
  destruct Hcase as [[-> Hnl]|(-> & s3 & ops & room & -> & Hi3 & Hev3 & Hvst & Hsvs & Hvn & Hw0 & Hwd & Htab & Hnsv & Hmem & Hops)].
  { cbn [nz ENOMEM Z.eqb negb]. destruct (unmake_step s s1 s2 I d b v1 Hn Hf Hb HI eq_refl Hev Hnl) as (s' & Hfree & Hq & Hm & Ht).
    rewrite (bind_run _ _ _ _ _ Hfree). exists ENOMEM, w, s'. split; [reflexivity|]. left. split; [by right|]. by split. }
  cbn [nz Z.eqb negb]. mrun. set (sw := MkSv new_inode b _) in *. exists 0, w, (added s3 w sw ops room). split; [reflexivity|]. right. split; [reflexivity|].
  exists b, sw. pose proof Hev3 as [_ Hsb3 _ Hdp3 Hu3 HB3].
  assert (forall x sx, in_table s3 x sx <-> in_table s x sx) as Ht3 by (intros x sx; unfold in_table; by rewrite Hsvs, Hvn).
  assert (w ∉ sfs_vnodes s3) as Hnw. { intros Hin. destruct (iv_table _ _ Hi3 _ Hin) as (_ & ? & E & _). rewrite Hsvs in E. congruence. }
  assert (forall ino i, I !! ino = Some i -> ~ owned i (blk (s_vol s3)) b) as Hno.
  { intros ino i Hino. apply (free_not_owned s I (s_vol s3) b ino i Hi Hf); [|exact Hino]. intros x Hx. rewrite (HB3 x).
    change (blk v1 x = blk (s_vol s) x). by rewrite (HB1 x), upd_ne. }
  destruct (added_inv (R0 := with_block b Rsv) s3 I (<[b := new_inode]> I) w sw ops room Hi3 Hw0 Hwd) as [Hi' Hm].
  - by rewrite Hvst.
  - by rewrite Hsvs.
  - exact Hmem.
  - exact Hops.
  - intros ino i Hino. rewrite lookup_insert_ne; [exact Hino|]. intros <-. congruence.
  - apply lookup_insert_eq.
  - intros x sx Hx E. apply Ht3 in Hx. pose proof (table_inode _ _ _ _ Hi Hx) as E'. rewrite E in E'. cbn [sw sv_ino] in E'. congruence.
  - apply new_inode_inv; [apply Hi3| |rewrite (Hu3 b) by lia; change (used v1 b = true); rewrite (Hu1 b) by lia; apply upd_eq|exact HI|exact Hno].
    rewrite (evolves_nblocks _ _ _ _ Hev3). change (0 < b < nblocks v1). by rewrite (evolves_nblocks _ _ _ _ Hev).
  - intros ino i Hino. destruct (decide (ino = b)) as [->|Hne]; [left; by split|right]. by rewrite lookup_insert_ne in Hino.
  - intros x Hx Hu. rewrite (new_taken (s_vol s3) I b x HI). destruct (iv_lost _ _ Hi3 x Hx Hu) as [[?|?]|?]; [by left|by right; left|by right; right].
  - intros x Hx Hr. rewrite (new_taken (s_vol s3) I b x HI). destruct (iv_reserved _ _ Hi3 x Hx (or_introl Hr)) as [Hu Hnt].
    split; [exact Hu|]. intros [->|?]; [|done]. destruct (iv_reserved _ _ Hi b) as [Hu' _]; [lia|exact Hr|congruence].
  - rewrite Hvst in Hm. change (Vnode.moved (Vnode.one w) (s_vst s) (s_vst (added s3 w sw ops room))) in Hm.
    assert (kept_contents s (added s3 w sw ops room) I) as Hk.
    { intros ino i pos Hino Hpos. rewrite <- (Hk1 ino i pos Hino Hpos). apply (blk_kept s1 s3 I HB3 ino i pos Hino Hpos). }
    assert (forall x sx, in_table (added s3 w sw ops room) x sx <-> (x = w /\ sx = sw \/ in_table s x sx)) as Htb.
    { intros x sx. rewrite (added_in_table s3 w sw ops room x sx Hnw), (Ht3 x sx). reflexivity. }
    destruct (names_new s (added s3 w sw ops room) I b d Hn Hi' HI (Hd b HI) Hk) as [Hn' Hsame].
    { intros x sx Hx. apply Htb. by right. }
    { exists w, sw. split; [apply Htb; by left|reflexivity]. }
    split; [exact HI|by split|exact Hn'|exact Hsame|exact Hk| | |split; [exact Hm|]|exact Htb].
    + unfold depth. change (vfs_biglock_depth (s_vol s3) = vfs_biglock_depth (s_vol s)). rewrite Hdp3. exact Hdp1.
    + change (sfs_sb (s_vol s3) = sfs_sb (s_vol s)). rewrite Hsb3. exact Hsb1.
    + unfold Vnode.refs. change (s_vst s1) with (s_vst s) in Htab. by rewrite Htab.
Qed.

(** ** The operations *)

(** The files of [I] are files of [I'] with the same inode and contents. *)
Definition files_kept s s' I I' : Prop :=
  forall x i, x <> SFS_ROOTDIR_INO -> I !! x = Some i ->
    I' !! x = Some i /\ forall pos, 0 <= pos -> fbyte i (blk (s_vol s')) pos = fbyte i (blk (s_vol s)) pos.

Lemma files_kept_trans s1 s2 s3 I1 I2 I3 : files_kept s1 s2 I1 I2 -> files_kept s2 s3 I2 I3 -> files_kept s1 s3 I1 I3.
Proof.
  intros H1 H2 x i Hne Hx. destruct (H1 x i Hne Hx) as [Hx2 Hb1], (H2 x i Hne Hx2) as [Hx3 Hb2].
  split; [exact Hx3|]. intros pos Hpos. by rewrite (Hb2 pos Hpos), (Hb1 pos Hpos).
Qed.

Lemma kept_files s s' I : kept_contents s s' I -> files_kept s s' I I.
Proof. intros Hk x i _ Hx. split; [exact Hx|]. intros pos. exact (Hk x i pos Hx). Qed.

Lemma dstep_files s s' I I' v : dstep s s' I I' v -> files_kept s s' I I'.
Proof. intros [Hi Hc _ _ _ _ _ _] x i Hne Hx. split; [by rewrite (Hi x Hne)|]. intros pos. exact (Hc x i pos Hne Hx). Qed.

Lemma made_files s s' I d w b sw : made s s' I d w b sw -> files_kept s s' I (<[b := new_inode]> I).
Proof.
  intros [Hb _ _ _ Hk _ _ _ _] x i _ Hx. split; [|intros pos; exact (Hk x i pos Hx)]. rewrite lookup_insert_ne; [exact Hx|]. intros <-. congruence.
Qed.

Lemma names_ext s I d d' : (forall x, d x = d' x) -> fs_names s I d -> fs_names s I d'.
Proof. intros Hd []. split; try assumption. intros ino i r Hi Hne Hr. rewrite <- Hd. by apply fn_links0. Qed.

Lemma moved_plus_none d t1 t2 t3 : Vnode.moved Vnode.none t1 t2 -> Vnode.moved d t2 t3 -> Vnode.moved d t1 t3.
Proof. intros H1 H2 w. rewrite (H2 w), (H1 w). unfold Vnode.none. lia. Qed.

Lemma at_depth_files s I n : files_kept s (at_depth n s) I I.
Proof. apply kept_files, blk_kept. reflexivity. Qed.

(** How [sfs_creat] of [nm] ends. *)
Inductive creat_result s s' I I' (nm : list Z) (excl : bool) (w : Z) : Z -> Prop :=
| creat_opened sw :
    excl = false -> name_at s I nm (sv_ino sw) -> in_table s' w sw -> I' = I -> Vnode.moved (Vnode.one w) (s_vst s) (s_vst s') ->
    (forall nm' x, name_at s' I' nm' x <-> name_at s I nm' x) -> creat_result s s' I I' nm excl w 0
| creat_new sw :
    (forall x, ~ name_at s I nm x) -> I !! sv_ino sw = None -> in_table s' w sw -> sv_i sw = with_linkcount 1 new_inode ->
    Vnode.moved (Vnode.one w) (s_vst s) (s_vst s') ->
    (forall nm' x, name_at s' I' nm' x <-> (nm' = nm /\ x = sv_ino sw \/ name_at s I nm' x)) -> creat_result s s' I I' nm excl w 0
| creat_failed rc :
    rc = EEXIST /\ excl = true /\ (exists x, name_at s I nm x) \/ rc = ENAMETOOLONG /\ (59 < length nm)%nat \/
    rc = ENOSPC \/ rc = EFBIG \/ rc = ENOMEM ->
    (forall x i, x <> SFS_ROOTDIR_INO -> I' !! x = Some i -> I !! x = Some i) -> Vnode.moved Vnode.none (s_vst s) (s_vst s') ->
    (forall nm' x, name_at s' I' nm' x <-> name_at s I nm' x) -> creat_result s s' I I' nm excl w rc.

Lemma made_root s s' I d w b sw v sv :
  fs_names s I d -> made s s' I d w b sw -> is_root s I v sv -> is_root s' (<[b := new_inode]> I) v sv /\ w <> v /\ b <> SFS_ROOTDIR_INO.
Proof.
  intros Hn Hm [Ht Hino]. assert (in_table s' v sv) as Ht' by (apply (mk_table _ _ _ _ _ _ _ Hm); by right).
  assert (b <> SFS_ROOTDIR_INO) as Hb. { intros ->. pose proof (mk_new _ _ _ _ _ _ _ Hm) as E. rewrite (root_inode s I d v sv Hn (conj Ht Hino)) in E. discriminate. }
  split; [by split|]. split; [|exact Hb]. intros ->. apply Hb. destruct (mk_sv _ _ _ _ _ _ _ Hm) as [<- _].
  assert (in_table s' v sw) as [_ E] by (apply (mk_table _ _ _ _ _ _ _ Hm); by left). destruct Ht' as [_ E']. rewrite E in E'. injection E' as ->. exact Hino.
Qed.

(** What every operation on names keeps. *)
Record names_op s s' I I' (v : Z) : Prop := {
  no_names : fs_names s' I' Vnode.none;
  no_sb : sfs_sb (s_vol s') = sfs_sb (s_vol s);
  no_depth : depth s' = depth s;
  no_root : exists sv, is_root s' I' v sv;
}.

(** The new inode gets its name, or goes again. *)
Lemma name_new_step s s2 I v sv name w b sw excl :
  fs_names s I Vnode.none -> is_root s I v sv -> is_name name -> (forall x, ~ name_at s I (cstr name) x) -> 0 <= depth s < 2 ^ 32 - 3 ->
  made s s2 I Vnode.none w b sw ->
  exists rc k s3, in_file v (sfs_dir_link name b) s2 = Ret ((rc, k), s3) /\ depth s3 = depth s /\
    exists s' I', (if nz rc then sfs_decref w s3 else change_sv w link_up s3) = Ret (tt, s') /\ names_op s s' I I' v /\
      files_kept s s' I I' /\ creat_result s s' I I' (cstr name) excl w rc.
Proof.
  intros Hn Hr Hnm Hno Hd Hm. destruct (made_root _ _ _ _ _ _ _ _ _ Hn Hm Hr) as (Hr2 & Hwv & Hbr).
  pose proof (made_files _ _ _ _ _ _ _ Hm) as Hk2. destruct Hm as [Hb [Hswb Hswi] Hn2 Hs2 _ Hd2 Hsb2 [Hm2 Hw0] Ht2].
  assert (in_table s2 w sw) as Hw2 by (apply Ht2; by left).
  destruct (link_step s2 (<[b := new_inode]> I) Vnode.none v sv name b new_inode Hn2 Hr2 Hnm) as (rc & k & s3 & I3 & Hrun & Hds & Hcase);
    [apply lookup_insert_eq|reflexivity|exact Hbr|].
  exists rc, k, s3. split; [exact Hrun|]. split; [rewrite (ds_depth _ _ _ _ _ Hds); exact Hd2|].
  pose proof (files_kept_trans _ _ _ _ _ _ Hk2 (dstep_files _ _ _ _ _ Hds)) as Hk3.
  destruct Hds as [Hi3 _ Hv3 Hd3 Hsb3 Ht3 (sv3 & Hr3 & Hr3') _]. assert (in_table s3 w sw) as Hw3 by (by apply Ht3).
  assert (I3 !! b = Some new_inode) as Hb3 by (rewrite (Hi3 b Hbr); apply lookup_insert_eq).
  destruct Hcase as [(-> & Hn3 & _ & _ & Hname)|(Herr & Hn3 & Hname)].
  - cbn [nz Z.eqb negb]. destruct (relink_step s3 I3 _ w sw 1 link_up Hn3 Hw3) as (Hrun4 & Hn4 & Hname4); [by rewrite Hswb|lia|by rewrite Hswi|].
    eexists _, (relinked I3 (sv_ino sw) (sv_i sw) 1). split; [exact Hrun4|]. set (s4 := put_file _ _ _) in *. set (I4 := relinked _ _ _ _) in *. split; [|split].
    + split; [|change (sfs_sb (s_vol s3) = sfs_sb (s_vol s)); by rewrite Hsb3|change (depth s3 = depth s); by rewrite Hd3|].
      2:{ exists sv3. split; [|exact Hr3']. apply put_table. right. split; [by symmetry|exact Hr3]. }
      eapply names_ext; [|exact Hn4]. intros x. cbv beta. rewrite Hswb, Hswi. unfold Vnode.none. cbn [new_inode sfi_linkcount]. destruct (x =? b); lia.
    + intros x i Hne Hx. destruct (Hk3 x i Hne Hx) as [Hx3 Hb']. split; [|exact Hb']. unfold I4, relinked. rewrite lookup_insert_ne; [exact Hx3|].
      rewrite Hswb. intros <-. congruence.
    + apply (creat_new _ _ _ _ _ _ _ (MkSv (with_linkcount 1 (sv_i sw)) b true)); [exact Hno|exact Hb| |by rewrite Hswi| |].
      * apply put_table. left. split; [reflexivity|]. split; [apply Hw3|by rewrite Hswb].
      * change (s_vst s4) with (s_vst s3). rewrite Hv3. exact Hm2.
      * intros nm' x. rewrite (Hname4 nm' x), (Hname nm' x), (Hs2 nm' x). reflexivity.
  - pose proof (link_error_nz _ _ _ _ Herr) as Hnz. unfold nz. rewrite (proj2 (Z.eqb_neq rc 0) Hnz). cbn [negb].
    destruct (decref_step s3 I3 Vnode.none w sw Hn3 Hw3 eq_refl) as (s4 & Hrun4 & Hq & Hm4 & _ & Hkeep & _ & Hname4 & _); [rewrite Hd3, Hd2; exact Hd|].
    assert (Vnode.refs (s_vst s3) w = 1) as H1. { rewrite Hv3, (Hm2 w), Hw0. unfold Vnode.one. by rewrite Z.eqb_refl. }
    assert (after_decref s3 I3 w sw = delete b I3) as HI4 by (unfold after_decref; by rewrite H1, Hswi, Hswb).
    rewrite HI4 in Hq, Hname4. exists s4, (delete b I3). split; [exact Hrun4|]. destruct Hq as [Hn4 _ Hk4 Hd4 Hsb4]. split; [|split].
    + split; [exact Hn4|by rewrite Hsb4, Hsb3|by rewrite Hd4, Hd3|]. exists sv3. split; [|exact Hr3']. apply Hkeep; [by symmetry|exact Hr3].
    + intros x i Hne Hx. destruct (Hk3 x i Hne Hx) as [Hx3 Hb'].
      assert (delete b I3 !! x = Some i) as Hx4 by (rewrite lookup_delete_ne; [exact Hx3|]; intros <-; congruence). split; [exact Hx4|].
      intros pos Hpos. rewrite (Hk4 x i pos Hx4 Hpos). by apply Hb'.
    + apply creat_failed.
      * destruct Herr as [[_ (x & Hx)]|[[-> Hlen]|[-> | ->]]]; [|right; left; by split|right; right; by left|right; right; right; by left].
        apply Hs2 in Hx. by destruct (Hno x).
      * intros x i Hne [Hbx Hx]%lookup_delete_Some. rewrite (Hi3 x Hne), lookup_insert_ne in Hx by exact Hbx. exact Hx.
      * intros x. rewrite (Hm4 x), Hv3, (Hm2 x). unfold Vnode.opp, Vnode.none. lia.
      * intros nm' x. rewrite (Hname4 nm' x), (Hname nm' x), (Hs2 nm' x). reflexivity.
Qed.

(** [sfs_creat] from [s] to [s']. *)
Definition created s s' I I' (v : Z) nm excl w rc : Prop := names_op s s' I I' v /\ files_kept s s' I I' /\ creat_result s s' I I' nm excl w rc.

(** The result of a creation does not depend on how the names are stored. *)
Lemma creat_result_ext s s' t t' I I' nm excl w rc :
  s_vst t = s_vst s -> s_vst t' = s_vst s' -> (forall x sx, in_table t' x sx <-> in_table s' x sx) ->
  (forall nm x, name_at t I nm x <-> name_at s I nm x) -> (forall nm x, name_at t' I' nm x <-> name_at s' I' nm x) ->
  creat_result s s' I I' nm excl w rc -> creat_result t t' I I' nm excl w rc.
Proof.
  intros Hv Hv' Ht Hn Hn' Hc.
  assert (forall d, Vnode.moved d (s_vst s) (s_vst s') -> Vnode.moved d (s_vst t) (s_vst t')) as Hm by (intros d; by rewrite Hv, Hv').
  destruct Hc as [sw He Ha Hw HI Hmv Hs|sw Ha Hb Hw Hi Hmv Hs|rc He Hi Hmv Hs].
  - apply (creat_opened _ _ _ _ _ _ _ sw); [exact He|by apply Hn|by apply Ht|exact HI|by apply Hm|]. intros nm' x. rewrite (Hn' nm' x), (Hn nm' x). apply Hs.
  - apply (creat_new _ _ _ _ _ _ _ sw); [intros x Hx; exact (Ha x (proj1 (Hn nm x) Hx))|exact Hb|by apply Ht|exact Hi|by apply Hm|].
    intros nm' x. rewrite (Hn' nm' x), (Hn nm' x). apply Hs.
  - apply creat_failed; [|exact Hi|by apply Hm|intros nm' x; rewrite (Hn' nm' x), (Hn nm' x); apply Hs].
    destruct He as [(-> & Hx & x & Ha)|He]; [|by right]. left. split; [reflexivity|]. split; [exact Hx|]. exists x. by apply Hn.
Qed.

Lemma created_quiet s1 s2 s3 I I' v nm excl w rc :
  quiet s1 s2 I Vnode.none -> s_vst s2 = s_vst s1 -> created s2 s3 I I' v nm excl w rc -> created s1 s3 I I' v nm excl w rc.
Proof.
  intros [_ Hs Hk Hd Hb] Hv ([Hn3 Hb3 Hd3 Hr3] & Hk3 & Hc). split; [split; [exact Hn3|congruence|congruence|exact Hr3]|].
  split; [exact (files_kept_trans _ _ _ _ _ _ (kept_files _ _ _ Hk) Hk3)|].
  apply (creat_result_ext s2 s3 s1 s3); [by symmetry|reflexivity|reflexivity| |reflexivity|exact Hc]. intros nm' x. symmetry. apply Hs.
Qed.

(** The operation is bracketed by taking and releasing the big lock. *)
Lemma names_op_bracket s s2 I I' v n :
  names_op (at_depth n s) s2 I I' v -> names_op s (at_depth (depth s) s2) I I' v /\
  (forall nm x, name_at (at_depth (depth s) s2) I' nm x <-> name_at s2 I' nm x).
Proof.
  intros [Hn Hb Hd Hr]. destruct (at_depth_step s2 I' Vnode.none (depth s) Hn) as (Hn' & _ & Hs). split; [|exact Hs]. by split.
Qed.

Lemma files_kept_bracket s s2 I I' n m : files_kept (at_depth n s) s2 I I' -> files_kept s (at_depth m s2) I I'.
Proof. intros Hk. apply (files_kept_trans _ _ _ _ _ _ (at_depth_files s I n)), (files_kept_trans _ _ _ _ _ _ Hk), at_depth_files. Qed.

Lemma created_bracket s s2 I I' v n nm excl w rc :
  fs_names s I Vnode.none -> created (at_depth n s) s2 I I' v nm excl w rc -> created s (at_depth (depth s) s2) I I' v nm excl w rc.
Proof.
  intros Hn (Hop & Hk & Hc). destruct (names_op_bracket _ _ _ _ _ _ Hop) as [Hop' Hs']. destruct (at_depth_step s I Vnode.none n Hn) as (_ & _ & Hs).
  split; [exact Hop'|]. split; [exact (files_kept_bracket _ _ _ _ _ _ Hk)|].
  apply (creat_result_ext (at_depth n s) s2); [reflexivity|reflexivity|reflexivity| |exact Hs'|exact Hc]. intros nm' x. symmetry. apply Hs.
Qed.

Lemma quiet_op s s' I v : quiet s s' I Vnode.none -> (exists sv, is_root s' I v sv) -> names_op s s' I I v /\ files_kept s s' I I.
Proof. intros [Hn _ Hk Hd Hb] Hr. split; [by split|by apply kept_files]. Qed.

(** A quiet step that leaves the counts alone is a failed creation. *)
Lemma created_failed s s' I v nm excl w rc :
  quiet s s' I Vnode.none -> (exists sv, is_root s' I v sv) -> Vnode.moved Vnode.none (s_vst s) (s_vst s') ->
  rc = EEXIST /\ excl = true /\ (exists x, name_at s I nm x) \/ rc = ENAMETOOLONG /\ (59 < length nm)%nat \/
  rc = ENOSPC \/ rc = EFBIG \/ rc = ENOMEM -> created s s' I I v nm excl w rc.
Proof.
  intros Hq Hr Hm Hrc. destruct (quiet_op _ _ _ _ Hq Hr) as [Hop Hk]. split; [exact Hop|]. split; [exact Hk|].
  apply creat_failed; [exact Hrc|intros x i _ Hx; exact Hx|exact Hm|apply Hq].
Qed.

Lemma creat_run s I v sv name excl mode :
  fs_names s I Vnode.none -> counts_ok s -> is_root s I v sv -> is_name name -> 0 <= depth s < 2 ^ 32 - 4 ->
  exists rc w s' I', sfs_creat v name excl mode s = Ret ((rc, w), s') /\ created s s' I I' v (cstr name) excl w rc.
Proof.
  intros Hn Hc Hr Hnm Hd. unfold sfs_creat. rewrite (bind_run _ _ _ _ _ (biglock_acquire_s s ltac:(lia))). set (s1 := at_depth _ s).
  destruct (at_depth_step s I Vnode.none (depth s + 1) Hn) as (Hn1 & _ & _). fold s1 in Hn1.
  assert (forall rc w s2 I', created s1 s2 I I' v (cstr name) excl w rc ->
    biglock_release s2 = Ret (tt, at_depth (depth s) s2) /\ created s (at_depth (depth s) s2) I I' v (cstr name) excl w rc) as Hend.
  { intros rc w s2 I' Hcr. split; [|exact (created_bracket _ _ _ _ _ _ _ _ _ _ Hn Hcr)].
    apply biglock_release_s; [exact (no_depth _ _ _ _ _ (proj1 Hcr))|lia]. }
  destruct (find_step s1 I Vnode.none v sv name Hn1 Hr Hnm) as (rc & found & e & s2 & Hrun & Hq2 & _ & Hv2 & Ht2 & Hcase).
  rewrite (bind_run _ _ _ _ _ Hrun). pose proof (q_names _ _ _ _ Hq2) as Hn2.
  assert (is_root s2 I v sv) as Hr2 by (split; [apply Ht2|]; apply Hr).
  destruct Hcase as [(-> & ino & k & -> & Hh)|(-> & -> & Hno)]; cbn [nz Z.eqb negb andb ENOENT Pos.eqb].
  - assert (name_at s1 I (cstr name) ino) as Hna by (apply (root_names _ _ _ _ _ _ _ Hn1 Hr); by exists k). destruct excl.
    { destruct (Hend EEXIST 0 s2 I) as [Hrel Hcr].
      { apply created_failed; [exact Hq2|exact (ex_intro _ sv Hr2)|rewrite Hv2; apply Vnode.moved_refl|]. left. split; [reflexivity|]. split; [reflexivity|by exists ino]. }
      rewrite (bind_run _ _ _ _ _ Hrel). by eexists EEXIST, 0, _, _. }
    rewrite (bind_valid _ _ _ _ (ino, k)) by reflexivity.
    destruct (fn_entry _ _ _ Hn1 _ _ Hna) as (_ & i & Hino & _).
    destruct (load_step s2 I Vnode.none ino i Hn2) as (rc & w & s3 & Hrun3 & Hq3 & _ & Hcase3); [intros x; rewrite Hv2; apply Hc|exact Hino|].
    rewrite (bind_run _ _ _ _ _ Hrun3). pose proof (quiet_trans _ _ _ _ _ Hq2 Hq3) as Hq. rewrite Hv2 in Hcase3.
    assert (exists sv, is_root s3 I v sv) as Hr3.
    { exists sv. split; [|apply Hr]. destruct Hcase3 as [(_ & _ & Ht3)|(_ & _ & sw & _ & _ & Ht3)]; apply Ht3; [|right]; apply Hr2. }
    destruct Hcase3 as [(-> & Hm & _)|(-> & Hm & sw & <- & _ & Ht3)]; cbn [nz Z.eqb negb ENOMEM].
    { destruct (Hend ENOMEM 0 s3 I) as [Hrel Hcr]; [apply created_failed; [exact Hq|exact Hr3|exact Hm|by right; right; right; right]|].
      rewrite (bind_run _ _ _ _ _ Hrel). by eexists ENOMEM, 0, _, _. }
    destruct (Hend 0 w s3 I) as [Hrel Hcr].
    { destruct (quiet_op _ _ _ _ Hq Hr3) as [Hop Hk]. split; [exact Hop|]. split; [exact Hk|].
      apply (creat_opened _ _ _ _ _ _ _ sw); [reflexivity|exact Hna|apply Ht3; by left|reflexivity|exact Hm|apply Hq]. }
    rewrite (bind_run _ _ _ _ _ Hrel). by eexists 0, w, _, _.
  - destruct (makeobj_step s2 I Vnode.none Hn2) as (rc & w & s3 & Hrun3 & Hcase3); [reflexivity|]. rewrite (bind_run _ _ _ _ _ Hrun3).
    assert (forall x, ~ name_at s2 I (cstr name) x) as Hno2 by (intros x Hx; exact (Hno x (proj1 (q_same _ _ _ _ Hq2 _ x) Hx))).
    destruct Hcase3 as [(Hrc & Hq3 & Hm & Ht3)|(-> & b & sw & Hmk)].
    { assert (nz rc = true) as -> by (by destruct Hrc as [-> | ->]). rewrite Hv2 in Hm.
      destruct (Hend rc 0 s3 I) as [Hrel Hcr].
      { apply created_failed; [exact (quiet_trans _ _ _ _ _ Hq2 Hq3)|exists sv; split; [apply Ht3|]; apply Hr2|exact Hm|]. destruct Hrc as [-> | ->]; right; right; [by left|by right; right]. }
      rewrite (bind_run _ _ _ _ _ Hrel). by eexists rc, 0, _, _. }
    cbn [nz Z.eqb negb]. unfold get_sv. mrun. rewrite (bind_valid _ _ _ _ sw) by (apply (mk_table _ _ _ _ _ _ _ Hmk); by left).
    rewrite (proj1 (mk_sv _ _ _ _ _ _ _ Hmk)).
    destruct (name_new_step s2 s3 I v sv name w b sw excl Hn2 Hr2 Hnm Hno2) as (rc & k & s4 & Hrun4 & _ & s5 & I' & Hrun5 & Hop & Hk & Hcr); [|exact Hmk|].
    { rewrite (q_depth _ _ _ _ Hq2). change (depth s1) with (depth s + 1). lia. }
    rewrite (bind_run _ _ _ _ _ Hrun4).
    destruct (Hend rc w s5 I') as [Hrel Hcr']; [apply (created_quiet s1 s2); [exact Hq2|exact Hv2|by split]|].
    destruct (nz rc) eqn:Enz; rewrite (bind_run _ _ _ _ _ Hrun5), (bind_run _ _ _ _ _ Hrel).
    + eexists rc, 0, _, I'. split; [reflexivity|]. destruct Hcr' as (A & B & C). split; [exact A|]. split; [exact B|].
      inversion C; subst; [discriminate|discriminate|]. by apply creat_failed.
    + eexists 0, w, _, I'. split; [reflexivity|]. unfold nz in Enz. destruct (Z.eqb_spec rc 0) as [->|]; [exact Hcr'|discriminate].
Qed.

(** C20 sfs_creat_spec. On a volume of at most 2^23 blocks whose disk reports no I/O error (and with
    reference counts below 2^31 - 1), [sfs_creat] in the
    root directory of a consistent file system returns a referenced vnode of the
    file that has the name (unless the creation is exclusive), or of a new empty
    file with one link that now has it; otherwise it fails with [EEXIST]
    (exclusive, name taken), [ENAMETOOLONG], [ENOSPC], [EFBIG] or [ENOMEM], and no
    inode is new.  In every case the file system stays consistent, the other files,
    names and reference counts are as before, and the free map marks exactly the
    blocks of the inodes and the reserved ones: the block taken for an inode that
    could not be made is free again. *)
Theorem sfs_creat_spec s I v sv name excl mode :
  fs_names s I Vnode.none -> counts_ok s -> is_root s I v sv -> is_name name -> 0 <= depth s < 2 ^ 32 - 4 ->
  exists rc w s' I', sfs_creat v name excl mode s = Ret ((rc, w), s') /\ created s s' I I' v (cstr name) excl w rc /\
    forall x, 0 <= x < nblocks (s_vol s') -> used (s_vol s') x = true <-> reserved x \/ taken (s_vol s') I' x.
Proof.
  intros Hn Hc Hr Hnm Hd. destruct (creat_run s I v sv name excl mode Hn Hc Hr Hnm Hd) as (rc & w & s' & I' & Hrun & Hcr).
  exists rc, w, s', I'. split; [exact Hrun|]. split; [exact Hcr|]. intros x. apply used_exact, (no_names _ _ _ _ _ (proj1 Hcr)).
Qed.

Lemma names_op_trans s1 s2 s3 I1 I2 I3 v : names_op s1 s2 I1 I2 v -> names_op s2 s3 I2 I3 v -> names_op s1 s3 I1 I3 v.
Proof. intros [_ B1 D1 _] [N B2 D2 R2]. split; [exact N|congruence|congruence|exact R2]. Qed.

Lemma looked_up_root s s' I nm rc w k v sv : is_root s I v sv -> looked_up s s' I nm rc w k -> exists sv, is_root s' I v sv.
Proof.
  intros [Ht Hi] Hl. exists sv. split; [|exact Hi].
  destruct Hl as [(_ & _ & Htab & _)|[(_ & _ & Htab)|(_ & _ & sw & r & _ & _ & _ & Htab)]]; apply Htab; [exact Ht|exact Ht|right; exact Ht].
Qed.

(** ** Removing a name *)

(** The inodes and contents other than those of [ino] and of the root directory. *)
Definition others_kept s s' I I' (ino : Z) : Prop :=
  forall x, x <> SFS_ROOTDIR_INO -> x <> ino ->
    I' !! x = I !! x /\ forall i pos, I !! x = Some i -> 0 <= pos -> fbyte i (blk (s_vol s')) pos = fbyte i (blk (s_vol s)) pos.

(** The inode [i], numbered [ino], after it has lost a name: it goes with its last
    link, and its block and those it maps are free, unless it is still open. *)
Definition lost_name s s' I' (ino : Z) i (opened : Prop) : Prop :=
  (sfi_linkcount i = 1 -> ~ opened -> I' !! ino = None /\
     forall b, 0 <= b -> b = ino \/ owned i (blk (s_vol s)) b -> used (s_vol s') b = false) /\
  (sfi_linkcount i <> 1 \/ opened -> I' !! ino = Some (with_linkcount (sfi_linkcount i - 1) i) /\
     forall pos, 0 <= pos -> fbyte i (blk (s_vol s')) pos = fbyte i (blk (s_vol s)) pos).

Definition is_open s (ino : Z) : Prop := exists v sv, in_table s v sv /\ sv_ino sv = ino.

Inductive remove_result s s' I I' (nm : list Z) : Z -> Prop :=
| remove_done ino i :
    name_at s I nm ino -> I !! ino = Some i -> (forall nm' x, name_at s' I' nm' x <-> nm' <> nm /\ name_at s I nm' x) ->
    lost_name s s' I' ino i (is_open s ino) -> others_kept s s' I I' ino -> remove_result s s' I I' nm 0
| remove_failed rc :
    rc = ENOENT /\ (forall x, ~ name_at s I nm x) \/ rc = ENOMEM ->
    (forall nm' x, name_at s' I' nm' x <-> name_at s I nm' x) -> others_kept s s' I I' SFS_ROOTDIR_INO -> remove_result s s' I I' nm rc.

Lemma link_down_run i : 0 < sfi_linkcount i < 2 ^ 16 -> link_down i = with_linkcount (sfi_linkcount i - 1) i.
Proof. intros Hl. unfold link_down, u16. by rewrite Z.mod_small by lia. Qed.

Lemma linkcount_range s I v sv : fs_inv s I -> in_table s v sv -> 0 <= sfi_linkcount (sv_i sv) < 2 ^ 16.
Proof. intros Hi Ht. pose proof (table_fok _ _ _ _ Hi Ht) as [_ [(_ & _ & Hl & _) _ _ _]]. exact Hl. Qed.

(** The slot is cleared, and the link and the reference are given back. *)
Lemma drop_name_step s I v sv w sw nm k :
  fs_names s I Vnode.none -> is_root s I v sv -> in_table s w sw -> holds (file_of s sv) nm (sv_ino sw) k -> 0 <= depth s < 2 ^ 32 - 3 ->
  exists s1 s2 s' I', in_file v (sfs_dir_unlink k) s = Ret (0, s1) /\
    (forall msg, (x ← get_sv w; kassert (0 <? sfi_linkcount (sv_i x)) msg;; change_sv w link_down) s1 = Ret (tt, s2)) /\
    sfs_decref w s2 = Ret (tt, s') /\ names_op s s' I I' v /\ Vnode.moved (Vnode.opp (Vnode.one w)) (s_vst s) (s_vst s') /\
    (forall nm' x, name_at s' I' nm' x <-> nm' <> nm /\ name_at s I nm' x) /\
    lost_name s s' I' (sv_ino sw) (sv_i sw) (Vnode.refs (s_vst s) w <> 1) /\ others_kept s s' I I' (sv_ino sw).
Proof.
  intros Hn Hr Hw Hh Hd. assert (name_at s I nm (sv_ino sw)) as Hna by (apply (root_names _ _ _ _ _ _ _ Hn Hr); by exists k).
  destruct (fn_entry _ _ _ Hn _ _ Hna) as [Hne _]. pose proof (table_inode _ _ _ _ (fn_inv _ _ _ Hn) Hw) as HI.
  pose proof (named_link _ _ _ _ _ Hn Hna HI) as Hl. pose proof (linkcount_range _ _ _ _ (fn_inv _ _ _ Hn) Hw) as Hlr.
  assert (w <> v) as Hwv. { intros ->. destruct Hr as [[_ E] Er], Hw as [_ E']. rewrite E in E'. injection E' as ->. contradiction. }
  destruct (unlink_step s I Vnode.none v sv nm (sv_ino sw) k Hn Hr Hh) as (s1 & I1 & Hrun & Hds & Hn1 & Hs1).
  destruct Hds as [Hi1 Hc1 Hv1 Hd1 Hsb1 Ht1 (sv1 & Hr1 & Hr1') Ho1]. assert (in_table s1 w sw) as Hw1 by (by apply Ht1).
  exists s1.
  - set (n := sfi_linkcount (sv_i sw) - 1).
    destruct (relink_step s1 I1 _ w sw n link_down Hn1 Hw1 Hne) as (Hrun2 & Hn2 & Hs2); [lia|apply link_down_run; lia|].
    set (sw2 := MkSv (with_linkcount n (sv_i sw)) (sv_ino sw) true) in *. set (s2 := put_file _ _ _) in *. set (I2 := relinked _ _ _ _) in *.
    assert (fs_names s2 I2 Vnode.none) as Hn2'.
    { eapply names_ext; [|exact Hn2]. intros x. cbv beta. unfold Vnode.none, n. destruct (x =? sv_ino sw); lia. }
    assert (in_table s2 w sw2) as Hw2 by (apply put_table; left; split; [reflexivity|]; split; [apply Hw1|reflexivity]).
    destruct (decref_step s2 I2 Vnode.none w sw2 Hn2' Hw2 eq_refl) as (s3 & Hrun3 & Hq & Hm3 & _ & Hkeep & _ & Hs3 & Hfreed).
    { change (depth s2) with (depth s1). rewrite Hd1. exact Hd. }
    exists s2, s3, (after_decref s2 I2 w sw2). split; [exact Hrun|]. split.
    { intros msg. unfold get_sv. mrun. rewrite (bind_valid _ _ _ _ sw) by apply Hw1. rewrite bind_kassert by (apply Z.ltb_lt; exact Hl). exact Hrun2. }
    split; [exact Hrun3|]. destruct Hq as [Hn3 _ Hk3 Hd3 Hsb3].
    split; [split; [exact Hn3|rewrite Hsb3; exact Hsb1|rewrite Hd3; exact Hd1|]|].
    { exists sv1. split; [|exact Hr1']. apply Hkeep; [by symmetry|]. apply put_table. right. split; [by symmetry|exact Hr1]. }
    change (s_vst s2) with (s_vst s1) in Hm3. split; [rewrite <- Hv1; exact Hm3|].
    split; [intros nm' x; rewrite (Hs3 nm' x), (Hs2 nm' x); apply Hs1|].
    assert (forall x, x <> sv_ino sw -> x <> SFS_ROOTDIR_INO -> after_decref s2 I2 w sw2 !! x = I !! x) as Hothers.
    { intros x Hx Hxr. rewrite <- (Hi1 x Hxr). unfold after_decref. destruct (_ && _); [rewrite lookup_delete_ne by (by symmetry)|]; by apply lookup_insert_ne. }
    unfold after_decref in *. change (Vnode.refs (s_vst s2) w) with (Vnode.refs (s_vst s1) w) in *. rewrite Hv1 in *.
    change (sfi_linkcount (sv_i sw2)) with n in *. split; [split|].
    + intros El Ho. destruct (Z.eqb_spec (Vnode.refs (s_vst s) w) 1) as [Er|Er]; [|by destruct Ho].
      destruct (Z.eqb_spec n 0) as [En|E0]; [|unfold n in E0; lia]. split; [apply lookup_delete_eq|].
      intros b Hb Hcase. apply (Hfreed Er En b Hb). destruct Hcase as [->|Hown]; [by left|right]. exact (proj2 (Ho1 _ _ b Hne HI) Hown).
    + intros Hlive. destruct ((Vnode.refs (s_vst s) w =? 1) && (n =? 0)) eqn:E.
      { apply andb_true_iff in E as [Er%Z.eqb_eq En%Z.eqb_eq]. exfalso. destruct Hlive as [H1|H1]; [unfold n in En; lia|contradiction]. }
      assert (I2 !! sv_ino sw = Some (with_linkcount n (sv_i sw))) as HI2 by apply lookup_insert_eq. split; [exact HI2|].
      intros pos Hpos. rewrite <- (Hc1 _ _ _ Hne HI Hpos). exact (Hk3 _ _ pos HI2 Hpos).
    + intros x Hxr Hx. split; [by apply Hothers|]. intros i pos Hix Hpos. rewrite <- (Hc1 _ _ _ Hxr Hix Hpos).
      apply (Hk3 x i pos); [|exact Hpos]. by rewrite (Hothers x Hx Hxr).
Qed.

(** A loaded vnode was open before exactly if it had references. *)
Lemma open_refs s s' I w sw :
  fs_inv s I -> fs_inv s' I -> in_table s w sw \/ Vnode.refs (s_vst s) w = 0 ->
  (forall x sx, in_table s' x sx <-> (x = w /\ sx = sw \/ in_table s x sx)) -> Vnode.refs (s_vst s) w <> 0 <-> is_open s (sv_ino sw).
Proof.
  intros Hi Hi' Hold Htab. split.
  - intros Hne. destruct Hold as [Hw|]; [by exists w, sw|contradiction].
  - intros (v & sv & Hv & E). assert (v = w) as ->.
    { apply (iv_unique _ _ Hi' v w sv sw); [apply Htab; by right|apply Htab; by left|exact E]. }
    destruct (iv_table _ _ Hi w (proj1 Hv)) as [Hpos _]. lia.
Qed.

Lemma others_kept_of s0 s s' t I I' ino :
  kept_contents s0 s I -> (forall x i pos, I' !! x = Some i -> 0 <= pos -> fbyte i (blk (s_vol t)) pos = fbyte i (blk (s_vol s')) pos) ->
  others_kept s s' I I' ino -> others_kept s0 t I I' ino.
Proof.
  intros Hk Hk' Ho x Hr Hx. destruct (Ho x Hr Hx) as [HI Hc]. split; [exact HI|]. intros i pos Hi Hpos.
  rewrite (Hk' x i pos (eq_trans HI Hi) Hpos), (Hc i pos Hi Hpos). by apply (Hk x i pos).
Qed.

Lemma owned_blk i B B' b : (forall x, B x = B' x) -> owned i B b <-> owned i B' b.
Proof. intros HB. unfold owned. by setoid_rewrite (fun k => ptr_ext i B' B k (fun _ => HB _)). Qed.

Lemma remove_result_ext s s' t t' I I' nm rc :
  kept_contents t s I -> kept_contents s' t' I' -> (forall x, is_open t x <-> is_open s x) ->
  (forall x, blk (s_vol t) x = blk (s_vol s) x) -> (forall x, used (s_vol t') x = used (s_vol s') x) ->
  (forall nm x, name_at t I nm x <-> name_at s I nm x) -> (forall nm x, name_at t' I' nm x <-> name_at s' I' nm x) ->
  remove_result s s' I I' nm rc -> remove_result t t' I I' nm rc.
Proof.
  intros Hk Hk' Hopen HB HU Hn Hn' Hr. destruct Hr as [ino i Ha Hi Hs [Hl1 Hl2] Hoth|rc He Hs Hoth].
  - apply (remove_done _ _ _ _ _ ino i); [by apply Hn|exact Hi| | |exact (others_kept_of _ _ _ _ _ _ _ Hk Hk' Hoth)].
    + intros nm' x. rewrite (Hn' nm' x), (Hn nm' x). apply Hs.
    + split.
      * intros E Ho. destruct (Hl1 E) as [HI Hf]; [intros Ho'; by apply Ho, Hopen|]. split; [exact HI|].
        intros b Hb Hcase. rewrite HU. apply (Hf b Hb). by rewrite <- (owned_blk i _ _ b HB).
      * intros Ho. destruct Hl2 as [Hi' Hc]; [destruct Ho as [|Ho]; [by left|right; by apply Hopen]|]. split; [exact Hi'|].
        intros pos Hpos. rewrite <- (Hk _ _ pos Hi Hpos), <- (Hc pos Hpos). exact (Hk' _ _ pos Hi' Hpos).
  - apply remove_failed; [|intros nm' x; rewrite (Hn' nm' x), (Hn nm' x); apply Hs|exact (others_kept_of _ _ _ _ _ _ _ Hk Hk' Hoth)].
    destruct He as [[-> Hno]|He]; [left; split; [reflexivity|]|by right]. intros x Hx. exact (Hno x (proj1 (Hn nm x) Hx)).
Qed.

Lemma quiet_refl s I d : fs_names s I d -> quiet s s I d.
Proof. intros Hn. split; [exact Hn|reflexivity|intros ? ? ? _ _; reflexivity|reflexivity|reflexivity]. Qed.

Lemma remove_failed_quiet s s' I nm rc :
  quiet s s' I Vnode.none -> rc = ENOENT /\ (forall x, ~ name_at s I nm x) \/ rc = ENOMEM -> remove_result s s' I I nm rc.
Proof.
  intros Hq Hrc. apply remove_failed; [exact Hrc|apply Hq|]. intros x _ _. split; [reflexivity|]. intros i pos Hi. exact (q_content _ _ _ _ Hq x i pos Hi).
Qed.

Lemma remove_run s I v sv name :
  fs_names s I Vnode.none -> counts_ok s -> is_root s I v sv -> is_name name -> 0 <= depth s < 2 ^ 32 - 4 ->
  exists rc s' I', sfs_remove v name s = Ret (rc, s') /\ names_op s s' I I' v /\ Vnode.moved Vnode.none (s_vst s) (s_vst s') /\
    remove_result s s' I I' (cstr name) rc.
Proof.
  intros Hn Hc Hr Hnm Hd. unfold sfs_remove. rewrite (bind_run _ _ _ _ _ (biglock_acquire_s s ltac:(lia))). set (s1 := at_depth _ s).
  destruct (at_depth_step s I Vnode.none (depth s + 1) Hn) as (Hn1 & Hk1 & Hs1). fold s1 in Hn1, Hk1, Hs1.
  assert (forall rc s2 I', names_op s1 s2 I I' v -> remove_result s1 s2 I I' (cstr name) rc ->
    biglock_release s2 = Ret (tt, at_depth (depth s) s2) /\ names_op s (at_depth (depth s) s2) I I' v /\
    remove_result s (at_depth (depth s) s2) I I' (cstr name) rc) as Hend.
  { intros rc s2 I' Hop Hres. split; [apply biglock_release_s; [exact (no_depth _ _ _ _ _ Hop)|lia]|].
    destruct (names_op_bracket _ _ _ _ _ _ Hop) as [Hop' Hs']. split; [exact Hop'|].
    apply (remove_result_ext s1 s2); [exact Hk1|apply blk_kept; reflexivity|reflexivity|reflexivity|reflexivity|symmetry; apply Hs1|exact Hs'|exact Hres]. }
  destruct (lookonce_step s1 I v sv name Hn1 Hc Hr Hnm) as (rc & w & k & s2 & Hrun & Hq & Hl & HB2). rewrite (bind_run _ _ _ _ _ Hrun).
  destruct (quiet_op _ _ _ v Hq (looked_up_root _ _ _ _ _ _ _ _ _ Hr Hl)) as [Hop _].
  assert (rc <> 0 -> rc = ENOENT /\ (forall x, ~ name_at s1 I (cstr name) x) \/ rc = ENOMEM) as Hfail.
  { intros Hz. destruct Hl as [(-> & _ & _ & Hno)|[(-> & _)|(-> & _)]]; [left; by split|by right|contradiction]. }
  destruct (nz rc) eqn:Enz.
  { assert (rc <> 0) as Hz by (by destruct Hl as [(-> & _)|[(-> & _)|(-> & _)]]).
    destruct (Hend rc s2 I Hop (remove_failed_quiet _ _ _ _ _ Hq (Hfail Hz))) as (Hrel & Hop' & Hres).
    rewrite (bind_run _ _ _ _ _ Hrel). eexists rc, _, I. split; [reflexivity|]. split; [exact Hop'|]. split; [|exact Hres].
    change (s_vst (at_depth (depth s) s2)) with (s_vst s2). by destruct Hl as [(_ & Hm & _)|[(_ & Hm & _)|(-> & _)]]. }
  destruct Hl as [(-> & _)|[(-> & _)|(-> & Hm & sw & r & Hri & Hh & Hold & Ht2)]]; [discriminate|discriminate|]. clear Hfail Enz.
  pose proof (q_names _ _ _ _ Hq) as Hn2. assert (in_table s2 w sw) as Hw2 by (apply Ht2; by left).
  assert (is_root s2 I v sv) as Hr2 by (split; [apply Ht2; right|]; apply Hr).
  assert (I !! SFS_ROOTDIR_INO = Some (sv_i sv)) as Hri' by (exact (root_inode _ _ _ _ _ Hn1 Hr)). rewrite Hri in Hri'. injection Hri' as ->.
  assert (name_at s1 I (cstr name) (sv_ino sw)) as Hna by (by exists (sv_i sv), k).
  destruct (drop_name_step s2 I v sv w sw (cstr name) k Hn2 Hr2 Hw2) as (s3 & s4 & s5 & I' & Hrun3 & Hrun4 & Hrun5 & Hop5 & Hm5 & Hs5 & [Hl1 Hl2] & Hoth).
  { apply (holds_root (file_of s2 sv) s2 (sv_i sv)); [reflexivity|reflexivity|]. apply (holds_ext s1 s2); [|exact Hh]. intros pos. exact (q_content _ _ _ _ Hq _ _ pos Hri). }
  { rewrite (q_depth _ _ _ _ Hq). change (depth s1) with (depth s + 1). lia. }
  assert (names_op s1 s5 I I' v) as Hop15 by (exact (names_op_trans _ _ _ _ _ _ _ Hop Hop5)).
  pose proof (open_refs s1 s2 I w sw (fn_inv _ _ _ Hn1) (fn_inv _ _ _ Hn2) Hold Ht2) as Hopen.
  assert (remove_result s1 s5 I I' (cstr name) 0) as Hres.
  { apply (remove_done _ _ _ _ _ (sv_ino sw) (sv_i sw)); [exact Hna|exact (table_inode _ _ _ _ (fn_inv _ _ _ Hn2) Hw2)| | |].
      + intros nm' x. rewrite (Hs5 nm' x), (q_same _ _ _ _ Hq nm' x). reflexivity.
      + assert (Vnode.refs (s_vst s2) w <> 1 <-> is_open s1 (sv_ino sw)) as Ho.
        { rewrite <- Hopen, (Hm w). unfold Vnode.one. rewrite Z.eqb_refl. lia. }
        split.
        { intros E Hno. destruct (Hl1 E) as [HI' Hf]; [intros Hc1; by apply Hno, Ho|]. split; [exact HI'|].
          intros b Hb Hcase. apply (Hf b Hb). by rewrite (owned_blk _ _ _ b HB2). }
        intros Hkeep. destruct Hl2 as [HI' Hby]; [destruct Hkeep as [|Ho']; [by left|right; by apply Ho]|]. split; [exact HI'|].
        intros pos Hpos. rewrite (Hby pos Hpos). exact (q_content _ _ _ _ Hq _ _ pos (table_inode _ _ _ _ (fn_inv _ _ _ Hn2) Hw2) Hpos).
      + exact (others_kept_of s1 s2 s5 s5 I I' _ (q_content _ _ _ _ Hq) (fun _ _ _ _ _ => eq_refl) Hoth). }
  destruct (Hend 0 s5 I' Hop15 Hres) as (Hrel & Hop' & Hres').
  rewrite (bind_run _ _ _ _ _ Hrun3). cbn [Z.eqb]. rewrite (bind_run _ _ _ _ _ (Hrun4 _)), (bind_run _ _ _ _ _ Hrun5), (bind_run _ _ _ _ _ Hrel).
  eexists 0, _, I'. split; [reflexivity|]. split; [exact Hop'|]. split; [|exact Hres'].
  intros x. change (s_vst (at_depth (depth s) s5)) with (s_vst s5). rewrite (Hm5 x), (Hm x). unfold Vnode.opp, Vnode.none.
  change (s_vst s1) with (s_vst s). lia.
Qed.


(** ** Adding a name to a file *)

(** The number of names bounds the link count. *)
Lemma linkcount_bound s I ino i : fs_names s I Vnode.none -> I !! ino = Some i -> ino <> SFS_ROOTDIR_INO -> sfi_linkcount i <= 1144.
Proof.
  intros Hn Hi Hne. destruct (fn_has_root _ _ _ Hn) as [r Hr]. pose proof (fn_links _ _ _ Hn ino i r Hi Hne Hr) as Hl. unfold Vnode.none in Hl.
  Transparent links. unfold links in Hl. pose proof (count_range (names_slot (dirfile s r) ino) (seqZ 0 1144)) as Hc. rewrite length_seqZ in Hc. lia.
Qed.
#[local] Opaque links.

Lemma link_up_run i : 0 <= sfi_linkcount i < 2 ^ 16 - 1 -> link_up i = with_linkcount (sfi_linkcount i + 1) i.
Proof. intros Hl. unfold link_up, u16. by rewrite Z.mod_small by lia. Qed.

(** What stays the same while a name is added or not. *)
Record add_frame s s' I I' (v w : Z) : Prop := {
  af_op : names_op s s' I I' v;
  af_vst : s_vst s' = s_vst s;
  af_table x sx : x <> v -> x <> w -> in_table s' x sx <-> in_table s x sx;
}.

(** The entry is made and the link counted, or nothing happens. *)
Lemma add_name_step s I v sv w sw name :
  fs_names s I Vnode.none -> is_root s I v sv -> in_table s w sw -> is_name name -> sfi_type (sv_i sw) = SFS_TYPE_FILE ->
  exists rc k s1, in_file v (sfs_dir_link name (sv_ino sw)) s = Ret ((rc, k), s1) /\
    (rc = 0 /\ (forall x, ~ name_at s I (cstr name) x) /\
       (exists s' I', change_sv w link_up s1 = Ret (tt, s') /\ add_frame s s' I I' v w /\
          let i' := with_linkcount (sfi_linkcount (sv_i sw) + 1) (sv_i sw) in
          I' !! sv_ino sw = Some i' /\ in_table s' w (MkSv i' (sv_ino sw) true) /\
          (forall pos, 0 <= pos -> fbyte i' (blk (s_vol s')) pos = fbyte (sv_i sw) (blk (s_vol s)) pos) /\
          others_kept s s' I I' (sv_ino sw) /\
          (exists sv', is_root s' I' v sv' /\ forall nm x j, holds (file_of s sv) nm x j -> holds (file_of s' sv') nm x j) /\
          (forall nm x, name_at s' I' nm x <-> (nm = cstr name /\ x = sv_ino sw \/ name_at s I nm x))) \/
     link_error s I (cstr name) rc /\
       exists I1, add_frame s s1 I I1 v w /\ in_table s1 w sw /\ others_kept s s1 I I1 SFS_ROOTDIR_INO /\
         forall nm x, name_at s1 I1 nm x <-> name_at s I nm x).
Proof.
  intros Hn Hr Hw Hnm Hty. pose proof (table_inode _ _ _ _ (fn_inv _ _ _ Hn) Hw) as HI.
  assert (sv_ino sw <> SFS_ROOTDIR_INO) as Hne.
  { intros E. rewrite E in HI. destruct (fn_root _ _ _ Hn _ HI) as [[_ Hd _ _ _] _]. change (sfi_type (sv_i sw) = SFS_TYPE_DIR) in Hd. rewrite Hty in Hd. discriminate Hd. }
  assert (w <> v) as Hwv. { intros ->. destruct Hr as [[_ E] Er], Hw as [_ E']. rewrite E in E'. injection E' as ->. contradiction. }
  pose proof (linkcount_bound _ _ _ _ Hn HI Hne) as Hl. pose proof (linkcount_range _ _ _ _ (fn_inv _ _ _ Hn) Hw) as Hlr.
  destruct (link_step s I Vnode.none v sv name (sv_ino sw) (sv_i sw) Hn Hr Hnm HI Hty Hne) as (rc & k & s1 & I1 & Hrun & Hds & Hcase).
  destruct Hds as [Hi1 Hc1 Hv1 Hd1 Hsb1 Ht1 Hroot1 _]. assert (in_table s1 w sw) as Hw1 by (by apply Ht1).
  exists rc, k, s1. split; [exact Hrun|]. destruct Hcase as [(-> & Hn1 & Hno & (sv1 & [Hr1 Hr1'] & Hh1) & Hs1)|(He & Hn1 & Hs1)]; [left|right].
  - split; [reflexivity|]. split; [exact Hno|]. set (n := sfi_linkcount (sv_i sw) + 1).
    destruct (relink_step s1 I1 _ w sw n link_up Hn1 Hw1 Hne) as (Hrun2 & Hn2 & Hs2); [lia|apply link_up_run; lia|].
    eexists _, (relinked I1 (sv_ino sw) (sv_i sw) n). split; [exact Hrun2|]. set (s2 := put_file _ _ _) in *. set (I2 := relinked _ _ _ _) in *.
    assert (fs_names s2 I2 Vnode.none) as Hn2'.
    { eapply names_ext; [|exact Hn2]. intros x. cbv beta. unfold Vnode.none, n. destruct (x =? sv_ino sw); lia. }
    split; [|split; [apply lookup_insert_eq|split; [|split; [|split; [|split]]]]].
    + split; [split; [exact Hn2'|exact Hsb1|exact Hd1|]|exact Hv1|].
      { exists sv1. split; [|exact Hr1']. apply put_table. right. split; [by symmetry|exact Hr1]. }
      intros x sx Hxv Hxw. unfold s2. rewrite put_table, <- (Ht1 x sx Hxv). split; [|by right].
      intros [[? _]|[_ ?]]; [contradiction|assumption].
    + apply put_table. left. split; [reflexivity|]. split; [apply Hw1|reflexivity].
    + intros pos Hpos. exact (Hc1 _ _ pos Hne HI Hpos).
    + intros x Hxr Hx. split; [unfold I2, relinked; rewrite lookup_insert_ne by (by symmetry); by apply Hi1|]. intros i pos Hix Hpos. exact (Hc1 _ _ pos Hxr Hix Hpos).
    + exists sv1. split; [|exact Hh1]. split; [|exact Hr1']. apply put_table. right. split; [by symmetry|exact Hr1].
    + intros nm x. rewrite (Hs2 nm x). apply Hs1.
  - split; [exact He|]. exists I1. split; [split; [by split|exact Hv1|]|].
    + intros x sx Hxv _. by apply Ht1.
    + split; [exact Hw1|]. split; [|exact Hs1]. intros x Hxr _. split; [by apply Hi1|]. intros i pos Hix Hpos. exact (Hc1 _ _ pos Hxr Hix Hpos).
Qed.

Inductive link_result s s' I I' (nm : list Z) (ino : Z) i : Z -> Prop :=
| link_done :
    (forall x, ~ name_at s I nm x) -> (forall nm' x, name_at s' I' nm' x <-> (nm' = nm /\ x = ino \/ name_at s I nm' x)) ->
    I' !! ino = Some (with_linkcount (sfi_linkcount i + 1) i) ->
    (forall pos, 0 <= pos -> fbyte (with_linkcount (sfi_linkcount i + 1) i) (blk (s_vol s')) pos = fbyte i (blk (s_vol s)) pos) ->
    others_kept s s' I I' ino -> link_result s s' I I' nm ino i 0
| link_failed rc :
    rc = EINVAL /\ sfi_type i = SFS_TYPE_DIR \/ link_error s I nm rc ->
    (forall nm' x, name_at s' I' nm' x <-> name_at s I nm' x) -> others_kept s s' I I' SFS_ROOTDIR_INO -> link_result s s' I I' nm ino i rc.

Lemma others_kept_bracket s s2 I I' ino n m : others_kept (at_depth n s) s2 I I' ino -> others_kept s (at_depth m s2) I I' ino.
Proof. intros Ho. exact Ho. Qed.

Lemma link_error_ext s t I nm rc : (forall nm x, name_at t I nm x <-> name_at s I nm x) -> link_error s I nm rc -> link_error t I nm rc.
Proof. intros Hn [[-> [x Hx]]|He]; [|by right]. left. split; [reflexivity|]. exists x. by apply Hn. Qed.

Lemma others_kept_refl s I ino : others_kept s s I I ino.
Proof. intros x _ _. split; reflexivity. Qed.

Lemma link_run s I v sv w sw name xv xw :
  fs_names s I Vnode.none -> is_root s I v sv -> in_table s w sw -> is_name name -> 0 <= depth s < 2 ^ 32 - 1 ->
  v_tab (s_vst s) !! v = Some xv -> v_tab (s_vst s) !! w = Some xw -> vn_fs xw = vn_fs xv ->
  exists rc s' I', sfs_link v name w s = Ret (rc, s') /\ names_op s s' I I' v /\ s_vst s' = s_vst s /\
    link_result s s' I I' (cstr name) (sv_ino sw) (sv_i sw) rc.
Proof.
  intros Hn Hr Hw Hnm Hd Hxv Hxw Hfs. unfold sfs_link.
  assert (forall p x, v_tab (s_vst s) !! p = Some x -> in_vst (Vnode.deref p) s = Ret (x, s)) as Hderef.
  { intros p x Hx. apply in_vst_skip. unfold Vnode.deref. mrun. by rewrite Hx. }
  rewrite (bind_run _ _ _ _ _ (Hderef _ _ Hxw)), (bind_run _ _ _ _ _ (Hderef _ _ Hxv)), bind_kassert by (by apply Z.eqb_eq).
  rewrite (bind_run _ _ _ _ _ (biglock_acquire_s s Hd)). set (s1 := at_depth _ s).
  destruct (at_depth_step s I Vnode.none (depth s + 1) Hn) as (Hn1 & Hk1 & Hs1). fold s1 in Hn1, Hk1, Hs1.
  assert (forall s2 I', names_op s1 s2 I I' v -> biglock_release s2 = Ret (tt, at_depth (depth s) s2) /\ names_op s (at_depth (depth s) s2) I I' v /\
    forall nm x, name_at (at_depth (depth s) s2) I' nm x <-> name_at s2 I' nm x) as Hend.
  { intros s2 I' Hop. split; [apply biglock_release_s; [exact (no_depth _ _ _ _ _ Hop)|lia]|]. by apply (names_op_bracket s s2 I I' v (depth s + 1)). }
  unfold get_sv. mrun. rewrite (bind_valid _ _ _ _ sw) by apply Hw.
  destruct (Z.eqb_spec (sfi_type (sv_i sw)) SFS_TYPE_DIR) as [Hty|Hty].
  { destruct (Hend s1 I) as (Hrel & Hop & Hs2); [split; [exact Hn1|reflexivity|reflexivity|by exists sv]|]. rewrite (bind_run _ _ _ _ _ Hrel). eexists EINVAL, _, I. split; [reflexivity|].
    split; [exact Hop|]. split; [reflexivity|]. apply link_failed; [left; by split| |apply others_kept_bracket with (n := depth s + 1), others_kept_refl].
    intros nm x. rewrite (Hs2 nm x). apply Hs1. }
  assert (sfi_type (sv_i sw) = SFS_TYPE_FILE) as Hty'.
  { pose proof (iv_inode _ _ (fn_inv _ _ _ Hn) _ _ (table_inode _ _ _ _ (fn_inv _ _ _ Hn) Hw)) as Hio. by destruct (io_type _ _ _ _ Hio). }
  destruct (add_name_step s1 I v sv w sw name Hn1 Hr Hw Hnm Hty') as (rc & k & s2 & Hrun2 & Hcase). rewrite (bind_run _ _ _ _ _ Hrun2).
  destruct Hcase as [(-> & Hno & s3 & I' & Hrun3 & [Hop Hv _] & HI' & _ & Hby & Hoth & _ & Hs3)|(He & I' & [Hop Hv _] & _ & Hoth & Hs2)].
  - cbn [nz Z.eqb negb]. rewrite (bind_run _ _ _ _ _ Hrun3). destruct (Hend s3 I' Hop) as (Hrel & Hop' & Hs4). rewrite (bind_run _ _ _ _ _ Hrel).
    eexists 0, _, I'. split; [reflexivity|]. split; [exact Hop'|]. split; [exact Hv|]. apply link_done; [| |exact HI'|exact Hby|exact (others_kept_bracket _ _ _ _ _ _ _ Hoth)].
    + intros x Hx. exact (Hno x (proj2 (Hs1 _ x) Hx)).
    + intros nm x. rewrite (Hs4 nm x), (Hs3 nm x), (Hs1 nm x). reflexivity.
  - unfold nz. rewrite (proj2 (Z.eqb_neq rc 0) (link_error_nz _ _ _ _ He)). cbn [negb].
    destruct (Hend s2 I' Hop) as (Hrel & Hop' & Hs4). rewrite (bind_run _ _ _ _ _ Hrel).
    eexists rc, _, I'. split; [reflexivity|]. split; [exact Hop'|]. split; [exact Hv|].
    apply link_failed; [right; refine (link_error_ext s1 s _ _ _ _ He); intros nm x; symmetry; apply Hs1| |exact (others_kept_bracket _ _ _ _ _ _ _ Hoth)].
    intros nm x. rewrite (Hs4 nm x), (Hs2 nm x), (Hs1 nm x). reflexivity.
Qed.

(** sfs_link_spec. [sfs_link] gives an open file of a consistent file system one
    more name in the root directory and counts it; linking a directory fails with
    [EINVAL], a taken name with [EEXIST], and [ENAMETOOLONG], [ENOSPC] and [EFBIG]
    are the other errors, none of which changes a name or a file.  The 16-bit link
    count never overflows, because a directory has at most 1144 slots. *)
Theorem sfs_link_spec s I v sv w sw name xv xw :
  fs_names s I Vnode.none -> is_root s I v sv -> in_table s w sw -> is_name name -> 0 <= depth s < 2 ^ 32 - 1 ->
  v_tab (s_vst s) !! v = Some xv -> v_tab (s_vst s) !! w = Some xw -> vn_fs xw = vn_fs xv ->
  exists rc s' I', sfs_link v name w s = Ret (rc, s') /\ names_op s s' I I' v /\ s_vst s' = s_vst s /\
    link_result s s' I I' (cstr name) (sv_ino sw) (sv_i sw) rc.
Proof. exact (link_run s I v sv w sw name xv xw). Qed.

(** ** Renaming *)

#[local] Transparent fbyte.
Lemma fbyte_linkcount n i B pos : fbyte (with_linkcount n i) B pos = fbyte i B pos.
Proof. reflexivity. Qed.
#[local] Opaque fbyte.

Lemma linkcount_back i n : with_linkcount (sfi_linkcount i) (with_linkcount n i) = i.
Proof. by destruct i. Qed.

Lemma get_sv_run s v sv : s_svs s !! v = Some sv -> get_sv v s = Ret (sv, s).
Proof. intros E. unfold get_sv. mrun. by rewrite E. Qed.

(** The second name is made, then the first one goes. *)
Lemma move_name_step s I v sv w sw nm1 k1 n2 :
  fs_names s I Vnode.none -> is_root s I v sv -> in_table s w sw -> holds (file_of s sv) nm1 (sv_ino sw) k1 -> is_name n2 ->
  sfi_type (sv_i sw) = SFS_TYPE_FILE -> 0 <= depth s < 2 ^ 32 - 3 ->
  exists rc k2 s1, in_file v (sfs_dir_link n2 (sv_ino sw)) s = Ret ((rc, k2), s1) /\
    exists s' I', names_op s s' I I' v /\ Vnode.moved (Vnode.opp (Vnode.one w)) (s_vst s) (s_vst s') /\ others_kept s s' I I' SFS_ROOTDIR_INO /\
    (rc = 0 /\ (forall x, ~ name_at s I (cstr n2) x) /\
       (exists s2 s3 s4, change_sv w link_up s1 = Ret (tt, s2) /\ in_file v (sfs_dir_unlink k1) s2 = Ret (0, s3) /\
          (forall msg, (x ← get_sv w; kassert (0 <? sfi_linkcount (sv_i x)) msg;; change_sv w link_down) s3 = Ret (tt, s4)) /\
          sfs_decref w s4 = Ret (tt, s')) /\
       (forall nm x, name_at s' I' nm x <-> (nm = cstr n2 /\ x = sv_ino sw \/ nm <> nm1 /\ name_at s I nm x)) \/
     link_error s I (cstr n2) rc /\ sfs_decref w s1 = Ret (tt, s') /\ forall nm x, name_at s' I' nm x <-> name_at s I nm x).
Proof.
  intros Hn Hr Hw Hh Hnm Hty Hd. pose proof (table_inode _ _ _ _ (fn_inv _ _ _ Hn) Hw) as HI.
  assert (name_at s I nm1 (sv_ino sw)) as Hna by (apply (root_names _ _ _ _ _ _ _ Hn Hr); by exists k1).
  pose proof (named_link _ _ _ _ _ Hn Hna HI) as Hl.
  destruct (add_name_step s I v sv w sw n2 Hn Hr Hw Hnm Hty) as (rc & k2 & s1 & Hrun & Hcase). exists rc, k2, s1. split; [exact Hrun|].
  destruct Hcase as [(-> & Hno & s2 & I2 & Hrun2 & [Hop Hv _] & HI2 & Hw2 & Hby & Hoth & (sv2 & Hr2 & Hh2) & Hs2)|(He & I1 & [Hop Hv _] & Hw1 & Hoth & Hs1)].
  - set (i2 := with_linkcount _ _) in *. cbv zeta in HI2, Hw2, Hby.
    destruct (drop_name_step s2 I2 v sv2 w (MkSv i2 (sv_ino sw) true) nm1 k1 (no_names _ _ _ _ _ Hop) Hr2 Hw2 (Hh2 _ _ _ Hh))
      as (s3 & s4 & s5 & I5 & Hrun3 & Hrun4 & Hrun5 & Hop5 & Hm5 & Hs5 & [_ Hkeep] & Hoth5); [rewrite (no_depth _ _ _ _ _ Hop); exact Hd|].
    exists s5, I5. split; [exact (names_op_trans _ _ _ _ _ _ _ Hop Hop5)|]. split; [rewrite <- Hv; exact Hm5|]. cbn [sv_i sv_ino] in Hkeep, Hoth5.
    destruct Hkeep as [HI5 Hby5]; [left; unfold i2; cbn [with_linkcount sfi_linkcount]; lia|].
    replace (with_linkcount (sfi_linkcount i2 - 1) i2) with (sv_i sw) in HI5
      by (unfold i2; cbn [with_linkcount sfi_linkcount]; rewrite Z.add_simpl_r; symmetry; apply linkcount_back).
    split.
    + intros x Hx _. destruct (decide (x = sv_ino sw)) as [->|Hne].
      * split; [by rewrite HI5, HI|]. intros i pos Hi Hpos. rewrite HI in Hi. injection Hi as <-. rewrite <- (Hby pos Hpos), <- (Hby5 pos Hpos).
        symmetry. apply fbyte_linkcount.
      * destruct (Hoth x Hx Hne) as [E1 C1], (Hoth5 x Hx Hne) as [E2 C2]. split; [congruence|]. intros i pos Hi Hpos.
        rewrite <- (C1 i pos Hi Hpos). apply (C2 i pos); [congruence|exact Hpos].
    + left. split; [reflexivity|]. split; [exact Hno|]. split; [exists s2, s3, s4; split; [exact Hrun2|]; split; [exact Hrun3|]; by split|].
      intros nm x. rewrite (Hs5 nm x), (Hs2 nm x). split.
      * intros [Hne [[-> ->]|Hx]]; [by left|right; by split].
      * intros [[-> ->]|[Hne Hx]]; [|split; [exact Hne|by right]]. split; [|by left]. intros E. apply (Hno (sv_ino sw)). by rewrite E.
  - pose proof (no_names _ _ _ _ _ Hop) as Hn1.
    destruct (decref_step s1 I1 Vnode.none w sw Hn1 Hw1 eq_refl) as (s3 & Hrun3 & Hq & Hm3 & _ & Hkeep & _ & Hs3 & _); [rewrite (no_depth _ _ _ _ _ Hop); exact Hd|].
    assert (after_decref s1 I1 w sw = I1) as EI by (unfold after_decref; rewrite (proj2 (Z.eqb_neq (sfi_linkcount (sv_i sw)) 0)) by lia; by rewrite andb_false_r).
    rewrite EI in Hq, Hs3. destruct (no_root _ _ _ _ _ Hop) as (sv1 & Hr1 & Hr1').
    destruct (quiet_op _ _ _ v Hq) as [Hop3 _].
    { exists sv1. split; [|exact Hr1']. apply Hkeep; [|exact Hr1]. intros <-. destruct Hr1 as [_ E], Hw1 as [_ E']. rewrite E in E'. injection E' as ->.
      by destruct (fn_entry _ _ _ Hn _ _ Hna) as [[] _]. }
    exists s3, I1. split; [exact (names_op_trans _ _ _ _ _ _ _ Hop Hop3)|].
    split; [rewrite <- Hv; exact Hm3|]. split.
    + intros x Hx Hx'. destruct (Hoth x Hx Hx') as [E1 C1]. split; [exact E1|]. intros i pos Hi Hpos. rewrite <- (C1 i pos Hi Hpos).
      apply (q_content _ _ _ _ Hq x i pos); [congruence|exact Hpos].
    + right. split; [exact He|]. split; [exact Hrun3|]. intros nm x. rewrite (Hs3 nm x). apply Hs1.
Qed.

Inductive rename_result s s' I I' (nm1 nm2 : list Z) : Z -> Prop :=
| rename_done ino :
    name_at s I nm1 ino -> (forall x, ~ name_at s I nm2 x) ->
    (forall nm x, name_at s' I' nm x <-> (nm = nm2 /\ x = ino \/ nm <> nm1 /\ name_at s I nm x)) -> rename_result s s' I I' nm1 nm2 0
| rename_failed rc :
    rc = ENOENT /\ (forall x, ~ name_at s I nm1 x) \/ rc = ENOMEM \/ link_error s I nm2 rc ->
    (forall nm x, name_at s' I' nm x <-> name_at s I nm x) -> rename_result s s' I I' nm1 nm2 rc.

Lemma rename_result_ext s s' t t' I I' nm1 nm2 rc :
  (forall nm x, name_at t I nm x <-> name_at s I nm x) -> (forall nm x, name_at t' I' nm x <-> name_at s' I' nm x) ->
  rename_result s s' I I' nm1 nm2 rc -> rename_result t t' I I' nm1 nm2 rc.
Proof.
  intros Hn Hn' Hr. destruct Hr as [ino Ha Hno Hs|rc He Hs].
  - apply (rename_done _ _ _ _ _ _ ino); [exact (proj2 (Hn _ _) Ha)|intros x Hx; exact (Hno x (proj1 (Hn _ x) Hx))|].
    intros nm x. rewrite (Hn' nm x), (Hn nm x). apply Hs.
  - apply rename_failed; [|intros nm x; rewrite (Hn' nm x), (Hn nm x); apply Hs].
    destruct He as [[-> Hno]|[->|He]]; [left; split; [reflexivity|intros x Hx; exact (Hno x (proj1 (Hn _ x) Hx))]|by right; left|].
    right; right. exact (link_error_ext s t I nm2 rc Hn He).
Qed.

Lemma rename_run s I v sv n1 n2 :
  fs_names s I Vnode.none -> counts_ok s -> is_root s I v sv -> is_name n1 -> is_name n2 -> 0 <= depth s < 2 ^ 32 - 4 ->
  exists rc s' I', sfs_rename v n1 v n2 s = Ret (rc, s') /\ names_op s s' I I' v /\ Vnode.moved Vnode.none (s_vst s) (s_vst s') /\
    others_kept s s' I I' SFS_ROOTDIR_INO /\ rename_result s s' I I' (cstr n1) (cstr n2) rc.
Proof.
  intros Hn Hc Hr Hnm1 Hnm2 Hd. unfold sfs_rename. rewrite (bind_run _ _ _ _ _ (biglock_acquire_s s ltac:(lia))). set (s1 := at_depth _ s).
  destruct (at_depth_step s I Vnode.none (depth s + 1) Hn) as (Hn1 & Hk1 & Hs1). fold s1 in Hn1, Hk1, Hs1.
  assert (forall rc s2 I', names_op s1 s2 I I' v -> rename_result s1 s2 I I' (cstr n1) (cstr n2) rc ->
    biglock_release s2 = Ret (tt, at_depth (depth s) s2) /\ names_op s (at_depth (depth s) s2) I I' v /\
    rename_result s (at_depth (depth s) s2) I I' (cstr n1) (cstr n2) rc) as Hend.
  { intros rc s2 I' Hop Hres. split; [apply biglock_release_s; [exact (no_depth _ _ _ _ _ Hop)|lia]|].
    destruct (names_op_bracket _ _ _ _ _ _ Hop) as [Hop' Hs']. split; [exact Hop'|].
    apply (rename_result_ext s1 s2); [symmetry; apply Hs1|exact Hs'|exact Hres]. }
  rewrite bind_kassert by apply Z.eqb_refl. rewrite (bind_run _ _ _ _ _ (get_sv_run s1 v sv (proj2 (proj1 Hr)))).
  rewrite bind_kassert by (apply Z.eqb_eq, Hr).
  destruct (lookonce_step s1 I v sv n1 Hn1 Hc Hr Hnm1) as (rc & w & k & s2 & Hrun & Hq & Hl & _). rewrite (bind_run _ _ _ _ _ Hrun).
  destruct (quiet_op _ _ _ v Hq (looked_up_root _ _ _ _ _ _ _ _ _ Hr Hl)) as [Hop _].
  destruct Hl as [(-> & Hm & _ & Hno)|[(-> & Hm & _)|(-> & Hm & sw & r & Hri & Hh & _ & Ht2)]].
  1,2: cbn [nz Z.eqb negb ENOENT ENOMEM]; match goal with |- context [mret ?rc] => destruct (Hend rc s2 I Hop) as (Hrel & Hop' & Hres) end;
    [apply rename_failed; [auto|apply Hq]|]; rewrite (bind_run _ _ _ _ _ Hrel); eexists _, _, I; (split; [reflexivity|]);
    (split; [exact Hop'|]); (split; [exact Hm|]); (split; [|exact Hres]); intros x _ _; (split; [reflexivity|]); intros i pos Hi;
    exact (q_content _ _ _ _ Hq x i pos Hi).
  cbn [nz Z.eqb negb]. assert (in_table s2 w sw) as Hw2 by (apply Ht2; by left). pose proof (q_names _ _ _ _ Hq) as Hn2.
  assert (is_root s2 I v sv) as Hr2 by (split; [apply Ht2; right|]; apply Hr).
  assert (I !! SFS_ROOTDIR_INO = Some (sv_i sv)) as Hri' by (exact (root_inode _ _ _ _ _ Hn1 Hr)). rewrite Hri in Hri'. injection Hri' as ->.
  assert (name_at s1 I (cstr n1) (sv_ino sw)) as Hna by (by exists (sv_i sv), k).
  pose proof (table_inode _ _ _ _ (fn_inv _ _ _ Hn2) Hw2) as HI.
  assert (sfi_type (sv_i sw) = SFS_TYPE_FILE) as Hty. { destruct (fn_entry _ _ _ Hn1 _ _ Hna) as (_ & i & Hi & Hty). rewrite HI in Hi. by injection Hi as ->. }
  rewrite (bind_run _ _ _ _ _ (get_sv_run s2 w sw (proj2 Hw2))), bind_kassert by (by rewrite Hty).
  destruct (move_name_step s2 I v sv w sw (cstr n1) k n2 Hn2 Hr2 Hw2) as (rc & k2 & s3 & Hrun3 & s' & I' & Hop' & Hm' & Hoth & Hcase); [|exact Hnm2|exact Hty| |].
  { apply (holds_root (file_of s2 sv) s2 (sv_i sv)); [reflexivity|reflexivity|]. apply (holds_ext s1 s2); [|exact Hh]. intros pos. exact (q_content _ _ _ _ Hq _ _ pos Hri). }
  { rewrite (q_depth _ _ _ _ Hq). change (depth s1) with (depth s + 1). lia. }
  assert (rename_result s1 s' I I' (cstr n1) (cstr n2) rc) as Hres.
  { apply (rename_result_ext s2 s'); [symmetry; apply (q_same _ _ _ _ Hq)|reflexivity|].
    destruct Hcase as [(-> & Hno & _ & Hs')|(He & _ & Hs')]; [|apply rename_failed; [by right; right|exact Hs']].
    apply (rename_done _ _ _ _ _ _ (sv_ino sw)); [exact (proj2 (q_same _ _ _ _ Hq _ _) Hna)|exact Hno|exact Hs']. }
  destruct (Hend rc s' I' (names_op_trans _ _ _ _ _ _ _ Hop Hop') Hres) as (Hrel & Hop'' & Hres').
  rewrite (bind_run _ _ _ _ _ Hrun3). exists rc, (at_depth (depth s) s'), I'. split.
  { destruct Hcase as [(-> & _ & (t1 & t2 & t3 & R1 & R2 & R3 & R4) & _)|(He & R & _)].
    - cbn [nz Z.eqb negb]. rewrite (bind_run _ _ _ _ _ R1), (bind_run _ _ _ _ _ R2). cbn [nz Z.eqb negb].
      specialize (R3 "g1->sv_i.sfi_linkcount>0"%string). apply bind_Ret_inv in R3 as (x & t4 & G1 & G2). rewrite (bind_run _ _ _ _ _ G1).
      apply bind_Ret_inv in G2 as (u & t5 & G2 & G3). rewrite (bind_run _ _ _ _ _ G2), (bind_run _ _ _ _ _ G3), (bind_run _ _ _ _ _ R4), (bind_run _ _ _ _ _ Hrel). reflexivity.
    - unfold nz. rewrite (proj2 (Z.eqb_neq rc 0) (link_error_nz _ _ _ _ He)). cbn [negb]. rewrite (bind_run _ _ _ _ _ R), (bind_run _ _ _ _ _ Hrel). reflexivity. }
  split; [exact Hop''|]. split; [|split; [|exact Hres']].
  - intros x. change (s_vst (at_depth (depth s) s')) with (s_vst s'). rewrite (Hm' x), (Hm x). unfold Vnode.opp, Vnode.none. change (s_vst s1) with (s_vst s). lia.
  - apply others_kept_bracket with (n := depth s + 1). exact (others_kept_of s1 s2 s' s' I I' _ (q_content _ _ _ _ Hq) (fun _ _ _ _ _ => eq_refl) Hoth).
Qed.


End Directory.

End Names.
