(* ===== verification/SfsRun.v ===== *)
(** * SFS: sequences of operations

    A client that holds the root directory runs any sequence of operations on
    names and files.  [sfs_reachable] shows that the file system stays consistent, that
    the free map marks exactly the reserved blocks and those that an inode owns, and
    that no allowed operation panics, reads undefined data or hangs, on a disk that
    reports no error; [rename_panics] runs a renaming on a disk that fails. *)

From S2P Require Import Prelude Sync Vnode CString Copy Stream UioStream Lhd Bitmap SfsBlock SfsFile SfsTrunc SfsDir SfsFs SfsInv SfsNames.

Module Run.
Import Stream Lhd Layout Blk File Trunc Dir Str Sfs Inv Names.

Section Sequences.
Context `{HW : LhdhwOk} {Rsv : Reserved}.
Implicit Types (s : sfs) (I : gmap Z sfs_dinode) (u : uio).

(** ** Files *)

(** The file system is consistent and its root directory is vnode [v]. *)
Definition consistent s I (v : Z) : Prop := fs_names s I Vnode.none /\ exists sv, is_root s I v sv.

(** An open file other than the root directory. *)
Definition open_file s (w : Z) (sw : sfs_vnode) : Prop := in_table s w sw /\ sv_ino sw <> SFS_ROOTDIR_INO.

Lemma open_not_root s I v sv w sw : is_root s I v sv -> open_file s w sw -> w <> v.
Proof. intros [[_ E] Er] [[_ E'] Hne] ->. rewrite E in E'. injection E' as ->. contradiction. Qed.

(** One file changes, and keeps its link count. *)
Lemma change_consistent s I v w sw f' :
  consistent s I v -> open_file s w sw -> confined (file_of s sw) f' -> sfi_linkcount (dinode f') = sfi_linkcount (sv_i sw) ->
  consistent (put_file s w f') (<[sv_ino sw := dinode f']> I) v /\
  (forall nm x, name_at (put_file s w f') (<[sv_ino sw := dinode f']> I) nm x <-> name_at s I nm x) /\
  others_kept s (put_file s w f') I (<[sv_ino sw := dinode f']> I) (sv_ino sw).
Proof.
  intros [Hn [sv Hr]] Hw Hc Hl. pose proof (open_not_root _ _ _ _ _ _ Hr Hw) as Hwv. destruct Hw as [Ht Hne].
  destruct (file_step s I Vnode.none w sw f' Hn Ht Hne Hc) as (Hn' & Hs & Hk). split; [split|split; [exact Hs|]].
  - eapply names_ext; [|exact Hn']. intros x. cbv beta. rewrite Hl. unfold Vnode.none. destruct (x =? _); lia.
  - exists sv. destruct Hr as [Hr Hri]. split; [|exact Hri]. apply put_table. right. split; [by symmetry|exact Hr].
  - intros x Hx Hxne. split; [apply lookup_insert_ne; by symmetry|]. intros i pos Hi Hpos. exact (Hk x i pos Hi Hxne Hpos).
Qed.

Lemma at_depth_consistent s I v n : consistent s I v -> consistent (at_depth n s) I v.
Proof. intros [Hn Hr]. destruct (at_depth_step s I Vnode.none n Hn) as (Hn' & _ & _). split; [exact Hn'|exact Hr]. Qed.

(** The vnode-level routines around [sfs_io]. *)
Lemma file_io_run s u w sw rc f' u' :
  s_svs s !! w = Some sw -> sfs_io (file_of s sw, u) = Ret (rc, (f', u')) -> file_io w (s, u) = Ret (rc, (put_file s w f', u')).
Proof. intros E Hrun. unfold file_io. mrun. cbn [fst]. rewrite (bind_valid _ _ _ _ sw E). unfold zoom. cbn [fst snd]. change (MkFile (s_vol s) sw) with (file_of s sw). rewrite Hrun. reflexivity. Qed.

Lemma in_sfs_run {A} (c : M sfs A) s u (a : A) s' : c s = Ret (a, s') -> in_sfs c (s, u) = Ret (a, (s', u)).
Proof. intros Hc. unfold in_sfs, zoom. cbn [fst snd]. by rewrite Hc. Qed.

Lemma write_run s I v w sw u :
  consistent s I v -> open_file s w sw -> is_write u -> 0 <= uio_offset u -> uio_offset u + uio_resid u < 2 ^ 41 -> 0 < uio_resid u ->
  sfi_size (sv_i sw) <= 512 * 143 -> 0 <= depth s < 2 ^ 32 - 1 ->
  exists rc n i' s' u', sfs_write w (s, u) = Ret (rc, (s', u')) /\ consistent s' (<[sv_ino sw := i']> I) v /\ depth s' = depth s /\
    (rc = 0 /\ Z.of_nat n = uio_resid u \/ (rc = ENOSPC \/ rc = EFBIG) /\ Z.of_nat n < uio_resid u) /\
    uio_resid u' = uio_resid u - Z.of_nat n /\
    (forall pos, 0 <= pos -> fbyte i' (blk (s_vol s')) pos = splice (fbyte (sv_i sw) (blk (s_vol s))) (uio_offset u) (take n (cells u).*1) pos) /\
    sfi_size i' = (if bool_decide (n = 0%nat) then sfi_size (sv_i sw) else Z.max (sfi_size (sv_i sw)) (uio_offset u + Z.of_nat n)) /\
    (forall nm x, name_at s' (<[sv_ino sw := i']> I) nm x <-> name_at s I nm x) /\
    others_kept s s' I (<[sv_ino sw := i']> I) (sv_ino sw) /\ s_vst s' = s_vst s.
Proof.
  intros Hc Hw Hu Ho Hmax Hpos Hsz Hd. unfold sfs_write. mrun. cbn [snd].
  rewrite bind_kassert by (apply Z.eqb_eq, Hu). set (s1 := at_depth (depth s + 1) s).
  rewrite (bind_run _ _ _ _ _ (in_sfs_run _ s u _ _ (biglock_acquire_s s Hd))). fold s1.
  pose proof (at_depth_consistent _ _ _ (depth s + 1) Hc) as Hc1. fold s1 in Hc1.
  destruct (sfs_io_write_run (file_of s1 sw) u) as (rc & n & f' & u' & Hrun & Hwi & Hcase & Hres & _ & Hby & Hsize & _);
    [exact (table_fok s1 I w sw (fn_inv _ _ _ (proj1 Hc1)) (proj1 Hw))|exact Hu|exact Ho|exact Hmax|exact Hpos|exact Hsz|].
  rewrite (bind_run _ _ _ _ _ (file_io_run s1 u w sw rc f' u' (proj2 (proj1 Hw)) Hrun)).
  destruct (change_consistent s1 I v w sw f' Hc1 Hw (within_confined _ _ Hwi) (w_link _ _ Hwi)) as (Hc2 & Hs2 & Hk2).
  set (s2 := put_file s1 w f') in *.
  rewrite (bind_run _ _ _ _ _ (in_sfs_run _ s2 u' _ _ (biglock_release_s s2 (depth s) (w_depth _ _ Hwi) (proj1 Hd)))).
  exists rc, n, (dinode f'), (at_depth (depth s) s2), u'. split; [reflexivity|]. split; [by apply at_depth_consistent|]. split; [reflexivity|].
  split; [exact Hcase|]. split; [exact Hres|]. split; [exact Hby|]. split; [exact Hsize|]. split; [|split; [exact Hk2|reflexivity]].
  intros nm x. destruct (at_depth_step s2 _ Vnode.none (depth s) (proj1 Hc2)) as (_ & _ & E). rewrite (E nm x), (Hs2 nm x).
  by destruct (at_depth_step s I Vnode.none (depth s + 1) (proj1 Hc)) as (_ & _ & E1).
Qed.


Lemma truncate_run s I v w sw len :
  consistent s I v -> open_file s w sw -> 0 <= len < 2 ^ 32 -> 0 <= depth s < 2 ^ 32 - 1 ->
  exists i' s', sfs_truncate w len s = Ret (0, s') /\ consistent s' (<[sv_ino sw := i']> I) v /\ depth s' = depth s /\ s_vst s' = s_vst s /\
    sfi_size i' = len /\ (forall pos, 0 <= pos < len -> fbyte i' (blk (s_vol s')) pos = fbyte (sv_i sw) (blk (s_vol s)) pos) /\
    (forall nm x, name_at s' (<[sv_ino sw := i']> I) nm x <-> name_at s I nm x) /\ others_kept s s' I (<[sv_ino sw := i']> I) (sv_ino sw).
Proof.
  intros Hc Hw Hlen Hd. pose proof (table_fok s I w sw (fn_inv _ _ _ (proj1 Hc)) (proj1 Hw)) as Hok.
  destruct (itrunc_confined (file_of s sw) len Hok Hlen Hd) as (f' & Hrun & Hcf & Hl & _).
  destruct (itrunc_run (file_of s sw) len Hok Hlen Hd) as (f2 & Hrun2 & _ & _ & _ & _ & Hsz & _ & _ & _ & _ & _ & _ & _ & _ & Hby & _).
  rewrite Hrun in Hrun2. injection Hrun2 as <-.
  destruct (change_consistent s I v w sw f' Hc Hw Hcf Hl) as (Hc' & Hs & Hk).
  exists (dinode f'), (put_file s w f'). split; [apply (in_file_run s w sw); [apply Hw|exact Hrun]|]. split; [exact Hc'|].
  split; [exact (c_depth _ _ Hcf)|]. split; [reflexivity|]. split; [exact Hsz|]. split; [exact Hby|]. split; [exact Hs|exact Hk].
Qed.

Lemma fsync_run s I v w sw :
  consistent s I v -> in_table s w sw -> 0 <= depth s < 2 ^ 32 - 1 ->
  exists s', sfs_fsync w s = Ret (0, s') /\ consistent s' I v /\ depth s' = depth s /\ s_vst s' = s_vst s /\
    blk (s_vol s') (sv_ino sw) = dinode_bytes (sv_i sw) /\ (forall nm x, name_at s' I nm x <-> name_at s I nm x) /\ kept_contents s s' I.
Proof.
  intros [Hn [sv Hr]] Hw Hd. unfold sfs_fsync. rewrite (bind_run _ _ _ _ _ (biglock_acquire_s s Hd)). set (s1 := at_depth _ s).
  destruct (at_depth_step s I Vnode.none (depth s + 1) Hn) as (Hn1 & Hk1 & Hs1). fold s1 in Hn1, Hk1, Hs1.
  destruct (sync_inode_s s1 I w sw (fn_inv _ _ _ Hn1) Hw) as (v' & Hrun & Hev). rewrite (bind_run _ _ _ _ _ Hrun).
  destruct (sync_inode_inv s1 I w sw v' (fn_inv _ _ _ Hn1) Hw Hev) as [Hi2 Hk2]. set (s2 := put_file s1 w _) in *.
  assert (forall x sx, in_table s1 x sx -> in_table s2 x (if x =? w then clean sx else sx)) as Htab.
  { intros x sx Hx. apply put_table. destruct (Z.eqb_spec x w) as [->|Hne]; [left|by right]. split; [reflexivity|]. split; [apply Hx|].
    destruct Hx as [_ E], Hw as [_ E']. change (s_svs s1) with (s_svs s) in E. rewrite E' in E. by injection E as <-. }
  destruct (names_step s1 s2 I Vnode.none Hn1 Hi2) as [Hn2 Hs2].
  { intros ino i pos. exact (Hk2 ino i pos). }
  { intros x sx Hx. exists x. eexists. split; [exact (Htab x sx Hx)|]. by destruct (x =? w). }
  assert (depth s2 = depth s + 1) as Hd2 by exact (ev_depth _ _ _ _ Hev).
  rewrite (bind_run _ _ _ _ _ (biglock_release_s s2 (depth s) Hd2 (proj1 Hd))). exists (at_depth (depth s) s2). split; [reflexivity|].
  split; [|split; [reflexivity|split; [reflexivity|split; [|split]]]].
  - apply at_depth_consistent. split; [exact Hn2|]. eexists. split; [exact (Htab v sv (proj1 Hr))|]. destruct Hr as [_ <-]. by destruct (v =? w).
  - change (blk v' (sv_ino sw) = dinode_bytes (sv_i sw)). rewrite (ev_blk _ _ _ _ Hev). apply upd_eq.
  - intros nm x. destruct (at_depth_step s2 I Vnode.none (depth s) Hn2) as (_ & _ & E). rewrite (E nm x), (Hs2 nm x). apply Hs1.
  - intros ino i pos Hi Hpos. exact (Hk2 ino i pos Hi Hpos).
Qed.

Lemma close_run s I v w sw :
  consistent s I v -> open_file s w sw -> 0 <= depth s < 2 ^ 32 - 3 ->
  exists s', sfs_decref w s = Ret (tt, s') /\ consistent s' (after_decref s I w sw) v /\ depth s' = depth s /\
    Vnode.moved (Vnode.opp (Vnode.one w)) (s_vst s) (s_vst s') /\
    (forall nm x, name_at s' (after_decref s I w sw) nm x <-> name_at s I nm x) /\ kept_contents s s' (after_decref s I w sw).
Proof.
  intros [Hn [sv Hr]] Hw Hd. pose proof (open_not_root _ _ _ _ _ _ Hr Hw) as Hwv.
  destruct (decref_step s I Vnode.none w sw Hn (proj1 Hw) eq_refl Hd) as (s' & Hrun & [Hn' _ Hk Hdp _] & Hm & _ & Hkeep & _ & Hs & _).
  exists s'. split; [exact Hrun|]. split; [split; [exact Hn'|]|split; [exact Hdp|split; [exact Hm|split; [exact Hs|exact Hk]]]].
  exists sv. split; [|apply Hr]. apply Hkeep; [by symmetry|apply Hr].
Qed.

(** ** Operations *)

Inductive op :=
| Lookup (path : list Z)
| Creat (name : list Z) (excl : bool) (mode : Z)
| Link (name : list Z) (w : Z)
| Remove (name : list Z)
| Rename (name1 name2 : list Z)
| Write (w : Z) (u : uio)
| Truncate (w len : Z)
| Fsync (w : Z)
| Close (w : Z).

(** An operation that also moves data, from or to [u]. *)
Definition with_uio {A} (u : uio) (c : M (sfs * uio) A) : M sfs A := fun s =>
  match c (s, u) with
  | Ret (a, (s', _)) => Ret (a, s')
  | Panic why => Panic why
  | Undef why => Undef why
  | Spin => Spin
  end.

(** The operations on names are on the directory [v]. *)
Definition exec (v : Z) (o : op) : M sfs Z :=
  match o with
  | Lookup path => '(rc, _) ← sfs_lookup v path; mret rc
  | Creat name excl mode => '(rc, _) ← sfs_creat v name excl mode; mret rc
  | Link name w => sfs_link v name w
  | Remove name => sfs_remove v name
  | Rename name1 name2 => sfs_rename v name1 v name2
  | Write w u => with_uio u (sfs_write w)
  | Truncate w len => sfs_truncate w len
  | Fsync w => sfs_fsync w
  | Close w => sfs_decref w;; mret 0
  end.

(** What the caller answers for: strings are terminated, vnodes are open files that
    it holds, and [vfs_link] has compared the file systems; reference counts have
    not reached the limit of an [int]. *)
Definition allowed s (v : Z) (o : op) : Prop :=
  counts_ok s /\
  match o with
  | Lookup name | Creat name _ _ | Remove name => is_name name
  | Rename name1 name2 => is_name name1 /\ is_name name2
  | Link name w => is_name name /\ (exists sw, in_table s w sw) /\
      exists xv xw, v_tab (s_vst s) !! v = Some xv /\ v_tab (s_vst s) !! w = Some xw /\ vn_fs xw = vn_fs xv
  | Write w u => is_write u /\ 0 <= uio_offset u /\ uio_offset u + uio_resid u < 2 ^ 41 /\ 0 < uio_resid u /\
      exists sw, open_file s w sw /\ sfi_size (sv_i sw) <= 512 * 143
  | Truncate w len => 0 <= len < 2 ^ 32 /\ exists sw, open_file s w sw
  | Fsync w => exists sw, in_table s w sw
  | Close w => exists sw, open_file s w sw
  end.

Lemma exec_run s I v o :
  consistent s I v -> 0 <= depth s < 2 ^ 32 - 4 -> allowed s v o ->
  exists rc s' I', exec v o s = Ret (rc, s') /\ consistent s' I' v /\ depth s' = depth s.
Proof.
  intros Hc Hd [Hcnt Ha]. pose proof Hc as [Hn [sv Hr]].
  assert (forall s' I', names_op s s' I I' v -> consistent s' I' v /\ depth s' = depth s) as Hop by (intros s' I' [A _ B C]; by split).
  destruct o as [path|name excl mode|name w|name|n1 n2|w u|w len|w|w]; cbn [exec].
  - destruct (lookup_run s I v sv path Hn Hcnt Hr Ha ltac:(lia)) as (rc & w & k & s' & Hrun & Hq & Hl). rewrite (bind_run _ _ _ _ _ Hrun).
    exists rc, s', I. split; [reflexivity|]. split; [split; [apply Hq|exact (looked_up_root _ _ _ _ _ _ _ _ _ Hr Hl)]|apply Hq].
  - destruct (creat_run s I v sv name excl mode Hn Hcnt Hr Ha Hd) as (rc & w & s' & I' & Hrun & Ho & _). rewrite (bind_run _ _ _ _ _ Hrun).
    exists rc, s', I'. split; [reflexivity|exact (Hop _ _ Ho)].
  - destruct Ha as (Hnm & (sw & Hw) & xv & xw & Hxv & Hxw & Hfs).
    destruct (link_run s I v sv w sw name xv xw Hn Hr Hw Hnm ltac:(lia) Hxv Hxw Hfs) as (rc & s' & I' & Hrun & Ho & _).
    exists rc, s', I'. split; [exact Hrun|exact (Hop _ _ Ho)].
  - destruct (remove_run s I v sv name Hn Hcnt Hr Ha Hd) as (rc & s' & I' & Hrun & Ho & _). exists rc, s', I'. split; [exact Hrun|exact (Hop _ _ Ho)].
  - destruct (rename_run s I v sv n1 n2 Hn Hcnt Hr (proj1 Ha) (proj2 Ha) Hd) as (rc & s' & I' & Hrun & Ho & _).
    exists rc, s', I'. split; [exact Hrun|exact (Hop _ _ Ho)].
  - destruct Ha as (Hu & Ho & Hmax & Hpos & sw & Hw & Hsz).
    destruct (write_run s I v w sw u Hc Hw Hu Ho Hmax Hpos Hsz ltac:(lia)) as (rc & n & i' & s' & u' & Hrun & Hc' & Hd' & _).
    exists rc, s', (<[sv_ino sw := i']> I). unfold with_uio. rewrite Hrun. split; [reflexivity|]. split; [exact Hc'|exact Hd'].
  - destruct Ha as (Hlen & sw & Hw). destruct (truncate_run s I v w sw len Hc Hw Hlen ltac:(lia)) as (i' & s' & Hrun & Hc' & Hd' & _).
    exists 0, s', (<[sv_ino sw := i']> I). split; [exact Hrun|]. split; [exact Hc'|exact Hd'].
  - destruct Ha as [sw Hw]. destruct (fsync_run s I v w sw Hc Hw ltac:(lia)) as (s' & Hrun & Hc' & Hd' & _).
    exists 0, s', I. split; [exact Hrun|]. split; [exact Hc'|exact Hd'].
  - destruct Ha as [sw Hw]. destruct (close_run s I v w sw Hc Hw ltac:(lia)) as (s' & Hrun & Hc' & Hd' & _). rewrite (bind_run _ _ _ _ _ Hrun).
    exists 0, s', (after_decref s I w sw). split; [reflexivity|]. split; [exact Hc'|exact Hd'].
Qed.

(** One allowed operation, whatever it returns. *)
Inductive step (v : Z) : sfs -> sfs -> Prop :=
| step_op s s' o rc : allowed s v o -> exec v o s = Ret (rc, s') -> step v s s'.

(** C2 sfs_reachable. On a volume of at most 2^23 blocks whose disk reports no I/O
    error, from a consistent file system whose root directory is held, every state
    that a sequence of lookups, creations, links, removals, renamings, writes,
    truncations, syncs and closes can reach is consistent: blocks have one owner,
    link counts are the numbers of names, names are unique and the root directory
    is intact; the free map marks exactly the blocks that belong to an inode and
    those that were reserved at the start, so no block is ever lost; and in every
    such state each allowed operation returns.  (With an I/O error [sfs_rename]
    can reach a panic, see [rename_panics].) *)
Theorem sfs_reachable s0 I0 s v :
  consistent s0 I0 v -> 0 <= depth s0 < 2 ^ 32 - 4 -> rtc (step v) s0 s ->
  (exists I, consistent s I v /\
     forall x, 0 <= x < nblocks (s_vol s) -> used (s_vol s) x = true <-> reserved x \/ taken (s_vol s) I x) /\
  depth s = depth s0 /\
  forall o, allowed s v o -> exists rc s', exec v o s = Ret (rc, s').
Proof.
  intros Hc Hd Hrtc.
  assert ((exists I, consistent s I v) /\ depth s = depth s0) as [[I HI] Hdep].
  { revert I0 Hc Hd. induction Hrtc as [s|s s1 s2 Hstep _ IH]; intros I0 Hc Hd; [by split; [exists I0|]|].
    destruct Hstep as [s s1 o rc Ha Hrun]. destruct (exec_run s I0 v o Hc Hd Ha) as (rc' & s' & I' & Hrun' & Hc' & Hd').
    rewrite Hrun in Hrun'. injection Hrun' as -> ->. destruct (IH I' Hc') as [HI Hdep]; [by rewrite Hd'|]. split; [exact HI|congruence]. }
  split; [exists I; split; [exact HI|intros x; by apply used_exact, HI]|]. split; [exact Hdep|]. intros o Ha.
  destruct (exec_run s I v o HI) as (rc & s' & I' & Hrun & _); [by rewrite Hdep|exact Ha|]. by exists rc, s'.
Qed.

(** ** A new file system *)

(** The inode of an empty root directory, as [mksfs] writes it. *)
Record empty_root (i : sfs_dinode) : Prop := {
  er_wf : dinode_wf i;
  er_type : sfi_type i = SFS_TYPE_DIR;
  er_size : sfi_size i = 0;
  er_link : sfi_linkcount i <> 0;
  er_direct : sfi_direct i = replicate 15 0;
  er_indirect : sfi_indirect i = 0;
}.

(** Nothing is loaded and the only inode is that of the root directory. *)
Record fresh_fs s (i : sfs_dinode) : Prop := {
  ff_vol : vol_ok (s_vol s);
  ff_vst : Vnode.ok (s_vst s);
  ff_ops : vop_magic (s_vst s) !! sfs_fileops = Some VOP_MAGIC /\ vop_magic (s_vst s) !! sfs_dirops = Some VOP_MAGIC;
  ff_fs : s_fs s <> DEADBEEF;
  ff_mem : fresh_mem s;
  ff_table : sfs_vnodes s = [];
  ff_used : used (s_vol s) SFS_ROOTDIR_INO = true;
  ff_disk : blk (s_vol s) SFS_ROOTDIR_INO = dinode_bytes i;
  ff_root : empty_root i;
  ff_reserved x : reserved x <-> used (s_vol s) x = true /\ x <> SFS_ROOTDIR_INO;
}.

Lemma empty_root_ptr i B k : empty_root i -> ptr i B k = 0.
Proof.
  intros [_ _ _ _ Hd Hi]. unfold ptr. rewrite Hi, Hd. destruct (k <? 15); [|reflexivity].
  unfold arr_get. destruct (0 <=? k); [|reflexivity]. destruct (_ !! _) as [x|] eqn:E; [|reflexivity]. by apply lookup_replicate in E as [-> _].
Qed.

Lemma empty_root_owns i B b : empty_root i -> ~ owned i B b.
Proof. intros He [Hz [E|(k & _ & E)]]; [rewrite (er_indirect _ He) in E; congruence|]. rewrite (empty_root_ptr i B k He) in E. congruence. Qed.

Lemma fresh_names s i : fresh_fs s i -> fs_names s {[ SFS_ROOTDIR_INO := i ]} Vnode.none.
Proof.
  intros [Hv Ht [Ho1 Ho2] Hfs Hm Htab Hu Hd He Hrs].
  assert (forall v sv, ~ in_table s v sv) as Hno by (intros v sv [Hin _]; rewrite Htab in Hin; by apply not_elem_of_nil in Hin).
  assert (file_ok i (used (s_vol s)) (blk (s_vol s)) (nblocks (s_vol s))) as Hf.
  { split; [apply He| | |]; [intros k _ Hz; by rewrite empty_root_ptr in Hz|intros k k' _ _ Hz; by rewrite empty_root_ptr in Hz|].
    intros Hz. by destruct Hz; apply He. }
  assert (dir_ok (dirfile s i)) as Hdir.
  { assert (nslots (dirfile s i) = 0) as E by (unfold nslots; change (sfi_size i / 64 = 0); by rewrite (er_size _ He)).
    split; [by split|apply He|rewrite E; exact (er_size _ He)|lia|]. intros a b Ha. lia. }
  assert (forall nm x k, ~ holds (dirfile s i) nm x k) as Hnone.
  { intros nm x k (Hk & _). unfold nslots in Hk. change (sfi_size (dinode (dirfile s i))) with (sfi_size i) in Hk. rewrite (er_size _ He) in Hk. change (0 / 64) with 0 in Hk. lia. }
  assert (fs_inv s {[ SFS_ROOTDIR_INO := i ]}) as Hi.
  { split; try assumption.
    - rewrite Htab. constructor.
    - intros v Hin. rewrite Htab in Hin. by apply not_elem_of_nil in Hin.
    - intros v w sv sw H1. by destruct (Hno v sv).
    - intros ino j Hj. apply lookup_singleton_Some in Hj as [<- <-]. split; [|exact Hu|right; apply He|exact Hf| |].
      + destruct (vol_size _ Hv). unfold SFS_ROOTDIR_INO. lia.
      + intros ino' i' b _ _ Hob. by destruct (empty_root_owns _ _ _ He Hob).
      + intros b Hob. by destruct (empty_root_owns _ _ _ He Hob).
    - intros ino j Hj _. apply lookup_singleton_Some in Hj as [<- <-]. exact Hd.
    - intros x _ Hx. destruct (decide (x = SFS_ROOTDIR_INO)) as [->|Hne]; [right; left|left; by apply Hrs].
      rewrite lookup_singleton_eq. by eexists.
    - intros x _ [Hx Hne]%Hrs. split; [exact Hx|]. intros [[j [E _]%lookup_singleton_Some]|(ino & j & Hj & Ho)]; [by destruct Hne|].
      apply lookup_singleton_Some in Hj as [_ <-]. by destruct (empty_root_owns _ _ _ He Ho). }
  split; [exact Hi| | | | |].
  - intros r Hr. apply lookup_singleton_Some in Hr as [_ <-]. split; [exact Hdir|apply He].
  - rewrite lookup_singleton_eq. by eexists.
  - intros nm ino (r & k & Hr & Hh). apply lookup_singleton_Some in Hr as [_ <-]. by destruct (Hnone nm ino k).
  - intros ino j r Hj Hne. apply lookup_singleton_Some in Hj as [<- _]. contradiction.
  - intros ino j Hj Hl. apply lookup_singleton_Some in Hj as [_ <-]. by destruct (er_link _ He).
Qed.

(** [FSOP_GETROOT] hands out the root directory. *)
Lemma getroot_run s I :
  fs_names s I Vnode.none -> counts_ok s -> 0 <= depth s < 2 ^ 32 - 1 ->
  exists rc v s', sfs_getroot s = Ret ((rc, v), s') /\ quiet s s' I Vnode.none /\
    (rc = ENOMEM /\ Vnode.moved Vnode.none (s_vst s) (s_vst s') \/
     rc = 0 /\ consistent s' I v /\ Vnode.moved (Vnode.one v) (s_vst s) (s_vst s')).
Proof.
  intros Hn Hc Hd. unfold sfs_getroot. rewrite (bind_run _ _ _ _ _ (biglock_acquire_s s Hd)). set (s1 := at_depth _ s).
  destruct (at_depth_step s I Vnode.none (depth s + 1) Hn) as (Hn1 & _ & _). fold s1 in Hn1. destruct (fn_has_root _ _ _ Hn) as [r Hr].
  destruct (load_step s1 I Vnode.none SFS_ROOTDIR_INO r Hn1 Hc Hr) as (rc & v & s2 & Hrun & Hq & _ & Hcase). rewrite (bind_run _ _ _ _ _ Hrun).
  pose proof (biglock_release_s s2 (depth s) (q_depth _ _ _ _ Hq) (proj1 Hd)) as Hrel.
  pose proof (quiet_bracket s s2 I Vnode.none (depth s + 1) Hn Hq) as Hq'.
  destruct Hcase as [(-> & Hm & _)|(-> & Hm & sv & Hino & _ & Ht)].
  { cbn [nz ENOMEM Z.eqb negb]. rewrite (bind_run _ _ _ _ _ Hrel). eexists ENOMEM, 0, _. split; [reflexivity|]. split; [exact Hq'|]. left. by split. }
  assert (in_table s2 v sv) as Hv by (apply Ht; by left).
  cbn [nz Z.eqb negb]. rewrite (bind_run _ _ _ _ _ (get_sv_run s2 v sv (proj2 Hv))).
  assert (is_root s2 I v sv) as Hroot by (by split).
  assert (sfi_type (sv_i sv) = SFS_TYPE_DIR) as Hty by (destruct (root_dir _ _ _ _ _ (q_names _ _ _ _ Hq) Hroot) as [_ E _ _ _]; exact E).
  rewrite Hty. change (negb (SFS_TYPE_DIR =? SFS_TYPE_DIR)) with false. cbv iota. rewrite (bind_run _ _ _ _ _ Hrel).
  eexists 0, v, _. split; [reflexivity|]. split; [exact Hq'|]. right. split; [reflexivity|]. split; [|exact Hm].
  split; [apply Hq'|]. by exists sv.
Qed.

End Sequences.

(** ** Examples *)
Module Samples.

Definition root_inode0 : sfs_dinode := Dinode 0 SFS_TYPE_DIR 1 (replicate 15 0) 0 (replicate 110 0).

(** A volume of 64 blocks, the first 8 of them in use, with an empty root directory. *)
Definition new_volume : volume (H := memdisk_hw) :=
  MkVolume (MkLhd (H := memdisk_hw) (Memdisk 64 {[ 1 := dinode_bytes root_inode0 ]} []) (replicate 512 0) 0 0 0 1 0 64)
    (Superblock SFS_MAGIC 64 (replicate 32 0) (replicate 118 0)) false sample_freemap false 0.

Definition new_vst : Vnode.vst :=
  Vst (MkSync (Cpu true 0 0 IPL_NONE 0 false true) ∅) ∅ {[ sfs_dirops := VOP_MAGIC; sfs_fileops := VOP_MAGIC ]}.

(** Addresses for five vnodes. *)
Definition new_sfs : sfs (H := memdisk_hw) :=
  MkSfs new_volume new_vst 7 ∅ [] [0x80300000; 0x80300100; 0x80300200; 0x80300300; 0x80300400] [true; true; true; true; true].

(** The other blocks in use are reserved. *)
#[local] Instance new_reserved : Reserved := fun x => used new_volume x = true /\ x <> SFS_ROOTDIR_INO.

Lemma new_volume_ok : vol_ok new_volume.
Proof. destruct sample_volume_ok as [_ A B C D E F G]. split; [|exact A|exact B|exact C|exact D|exact E|exact F|exact G]. split_and!; try done. split; [done|]. by apply Forall_replicate. Qed.

Lemma new_sfs_fresh : fresh_fs new_sfs root_inode0.
Proof.
  split; [apply new_volume_ok| |split; by vm_compute|by vm_compute| |reflexivity|by vm_compute|by vm_compute| |done].
  - split; [vm_compute; split_and!; (done || by left)|]. intros v x Hv. cbn [v_tab new_sfs s_vst new_vst] in Hv. by rewrite lookup_empty in Hv.
  - split; [apply (bool_decide_unpack _); by vm_compute|]. intros p Hp _. cbn [s_mem new_sfs] in Hp.
    repeat (apply elem_of_cons in Hp as [->|Hp]; [by vm_compute|]). by apply not_elem_of_nil in Hp.
  - split; try done. split_and!; try done; apply Forall_replicate; simpl; lia.
Qed.

Definition ROOT : Z := 0x80300000.
Definition run_all (l : list op) : M (sfs (H := memdisk_hw)) (list Z) :=
  fold_right (fun o k => rc ← exec ROOT o; rcs ← k; mret (rc :: rcs)) (mret []) l.

(** The results of the operations [l] after the root directory has been opened. *)
Definition results (l : list op) : option (list Z) :=
  match sfs_getroot new_sfs with
  | Ret ((0, v), s) => match run_all l s with Ret (rcs, _) => Some rcs | _ => None end
  | _ => None
  end.

Definition a_name : list Z := [97; 0].
Definition b_name : list Z := [98; 0].

(** Creating, renaming and removing, with the errors. *)
Example new_results :
  results [Lookup a_name; Creat a_name true 0; Creat a_name true 0; Lookup a_name; Rename a_name b_name; Lookup a_name;
           Truncate 0x80300100 100; Fsync 0x80300100; Remove b_name; Remove b_name; Close 0x80300100]
  = Some [ENOENT; 0; EEXIST; 0; 0; ENOENT; 0; 0; 0; ENOENT; 0].
Proof. vm_compute. reflexivity. Qed.

Lemma counts_small s s' (d : Z -> Z) : counts_ok s -> (forall x, Vnode.refs (s_vst s) x <= 1) -> (forall x, d x <= 1) -> Vnode.moved d (s_vst s) (s_vst s') -> counts_ok s'.
Proof. intros _ Hs Hd Hm x. rewrite (Hm x). specialize (Hs x). specialize (Hd x). lia. Qed.

Lemma one_small w x : Vnode.one w x <= 1.
Proof. unfold Vnode.one. destruct (x =? w); lia. Qed.

(** The root directory is open. *)
Lemma opened : exists s I, sfs_getroot new_sfs = Ret ((0, ROOT), s) /\ consistent s I ROOT /\ depth s = 0 /\ (forall nm x, ~ name_at s I nm x) /\
  forall x, Vnode.refs (s_vst s) x <= 1.
Proof.
  pose proof (fresh_names _ _ new_sfs_fresh) as Hn. assert (forall x, Vnode.refs (s_vst new_sfs) x = 0) as H0 by (intros x; unfold Vnode.refs; cbn; by rewrite lookup_empty).
  destruct (getroot_run new_sfs _ Hn) as (rc & v & s & Hrun & Hq & Hcase); [intros x; rewrite H0; lia|by vm_compute|].
  assert (match sfs_getroot new_sfs with Ret ((rc, v), _) => (rc, v) | _ => (1, 0) end = (0, ROOT)) as E by (by vm_compute).
  rewrite Hrun in E. injection E as -> ->. destruct Hcase as [[E _]|(_ & Hc & Hm)]; [discriminate E|].
  exists s, {[ SFS_ROOTDIR_INO := root_inode0 ]}. split; [exact Hrun|]. split; [exact Hc|]. split; [rewrite (q_depth _ _ _ _ Hq); by vm_compute|]. split.
  - intros nm x Hx. apply (q_same _ _ _ _ Hq) in Hx. destruct (fn_entry _ _ _ Hn nm x Hx) as (Hne & i & Hi & _).
    apply lookup_singleton_Some in Hi as [E _]. exact (Hne (eq_sym E)).
  - intros x. rewrite (Hm x), H0. apply one_small.
Qed.

Lemma a_name_ok : is_name a_name.
Proof. split; [right; left|]. repeat constructor; lia. Qed.

Lemma b_name_ok : is_name b_name.
Proof. split; [right; left|]. repeat constructor; lia. Qed.

(** The result of [k] on the new file system with its root directory open, and
    after the file [a] has been created. *)
Definition from_root {A} (k : M (sfs (H := memdisk_hw)) A) : option A :=
  match sfs_getroot new_sfs with
  | Ret (_, s) => match k s with Ret (a, _) => Some a | _ => None end
  | _ => None
  end.

Definition create_a {A} (k : M (sfs (H := memdisk_hw)) A) : M (sfs (H := memdisk_hw)) A := sfs_creat ROOT a_name true 0;; k.

Lemma from_root_run {A} (k : M sfs A) r s a s' : sfs_getroot new_sfs = Ret (r, s) -> k s = Ret (a, s') -> from_root k = Some a.
Proof. intros H1 H2. unfold from_root. by rewrite H1, H2. Qed.

Lemma lookup_value : from_root ('(rc, _) ← sfs_lookup ROOT a_name; mret rc) = Some ENOENT.
Proof. by vm_compute. Qed.

Lemma creat_value : from_root ('(rc, _) ← sfs_creat ROOT a_name true 0; mret rc) = Some 0.
Proof. by vm_compute. Qed.

Lemma sfs_lookup_spec_witness : exists s w s', sfs_lookup ROOT a_name s = Ret ((ENOENT, w), s').
Proof.
  destruct opened as (s & I & Hrun & [Hn [sv Hr]] & Hd & Hnone & Hc). exists s.
  destruct (sfs_lookup_spec s I ROOT sv a_name Hn) as (rc & w & k & s' & Hrun' & _ & Hl); [intros x; specialize (Hc x); lia|exact Hr|exact a_name_ok|lia|].
  assert (Some rc = Some ENOENT) as E. { rewrite <- lookup_value. symmetry. apply (from_root_run _ _ s rc s' Hrun). by rewrite (bind_run _ _ _ _ _ Hrun'). }
  injection E as ->. by exists w, s'.
Defined.

Lemma sfs_creat_spec_witness : exists s w s' I', sfs_creat ROOT a_name true 0 s = Ret ((0, w), s') /\ exists ino, name_at s' I' [97] ino.
Proof.
  destruct opened as (s & I & Hrun & [Hn [sv Hr]] & Hd & Hnone & Hc). exists s.
  destruct (sfs_creat_spec s I ROOT sv a_name true 0 Hn) as (rc & w & s' & I' & Hrun' & (_ & _ & Hres) & _); [intros x; specialize (Hc x); lia|exact Hr|exact a_name_ok|lia|].
  assert (Some rc = Some 0) as E. { rewrite <- creat_value. symmetry. apply (from_root_run _ _ s rc s' Hrun). by rewrite (bind_run _ _ _ _ _ Hrun'). }
  injection E as ->. exists w, s', I'. split; [exact Hrun'|]. inversion Hres as [sw He|sw Hno HI Ht Hi Hm Hs|rc He]; [discriminate He| |].
  - exists (sv_ino sw). apply Hs. left. by split.
  - destruct He as [[E _]|[[E _]|[E|[E|E]]]]; discriminate E.
Defined.

(** The root directory is open and has the name [a]. *)
Lemma created_a : exists s0 w s I ino, sfs_getroot new_sfs = Ret ((0, ROOT), s0) /\ sfs_creat ROOT a_name true 0 s0 = Ret ((0, w), s) /\ 
  consistent s I ROOT /\ depth s = 0 /\ name_at s I [97] ino /\ counts_ok s.
Proof.
  destruct opened as (s & I & Hrun & [Hn [sv Hr]] & Hd & Hnone & Hc).
  destruct (creat_run s I ROOT sv a_name true 0 Hn) as (rc & w & s' & I' & Hrun' & Hop & _ & Hres); [intros x; specialize (Hc x); lia|exact Hr|exact a_name_ok|lia|].
  assert (Some rc = Some 0) as E. { rewrite <- creat_value. symmetry. apply (from_root_run _ _ s rc s' Hrun). by rewrite (bind_run _ _ _ _ _ Hrun'). }
  injection E as ->.
  inversion Hres as [sw He|sw Hno HI Ht Hi Hm Hs|rc He]; [discriminate He| |destruct He as [[E _]|[[E _]|[E|[E|E]]]]; discriminate E].
  exists s, w, s', I', (sv_ino sw). split; [exact Hrun|]. split; [exact Hrun'|]. destruct Hop as [Hn' _ Hd' Hr']. split; [by split|].
  split; [by rewrite Hd', Hd|]. split; [apply Hs; left; by split|].
  - intros x. rewrite (Hm x). specialize (Hc x). pose proof (one_small w x). lia.
Qed.

Lemma remove_value : from_root (create_a (sfs_remove ROOT a_name)) = Some 0.
Proof. by vm_compute. Qed.

Lemma rename_value : from_root (create_a (sfs_rename ROOT a_name ROOT b_name)) = Some 0.
Proof. by vm_compute. Qed.

Lemma create_a_run {A} (k : M sfs A) s w s1 a s2 :
  sfs_creat ROOT a_name true 0 s = Ret ((0, w), s1) -> k s1 = Ret (a, s2) -> create_a k s = Ret (a, s2).
Proof. intros H1 H2. unfold create_a. by rewrite (bind_run _ _ _ _ _ H1). Qed.



(** [s] on a disk that fails from the [n]th operation on. *)
Definition failing (n : nat) (s : sfs (H := memdisk_hw)) : sfs (H := memdisk_hw) :=
  let l := sfs_device (s_vol s) in
  let d := lh_hw l in
  set_s_vol (set_device (MkLhd (H := memdisk_hw) (Memdisk (md_nsect d) (md_data d) (replicate n false ++ replicate 100 true)) (lh_buf l)
    (lh_reg_sect l) (lh_reg_stat l) (lh_result l) (lh_clear l) (lh_done l) (d_blocks l)) (s_vol s)) s.

(** Renaming [a] on a disk that fails from the fourth operation on: the old entry
    cannot be removed, nor can the new one be taken back. *)
Definition rename_failing (n : nat) : option string :=
  match sfs_getroot new_sfs with
  | Ret (_, s) =>
      match sfs_creat ROOT a_name true 0 s with
      | Ret (_, s) => match sfs_rename ROOT a_name ROOT b_name (failing n s) with Panic why => Some why | _ => None end
      | _ => None
      end
  | _ => None
  end.

Lemma rename_panics : rename_failing 3 = Some "sfs: rename: Cannot recover"%string.
Proof. vm_compute. reflexivity. Qed.

(** A name for a file that has one; the vnodes are those of one file system. *)
Lemma link_value :
  from_root (create_a (s ← get; mret ((fun x => vn_fs x) <$> (v_tab (s_vst s) !! ROOT), (fun x => vn_fs x) <$> (v_tab (s_vst s) !! 0x80300100))))
  = Some (Some 7, Some 7) /\
  from_root ('(_, w) ← sfs_creat ROOT a_name true 0; mret w) = Some 0x80300100 /\ from_root (create_a (sfs_link ROOT b_name 0x80300100)) = Some 0.
Proof. split_and!; by vm_compute. Qed.

Lemma sfs_link_spec_witness :
  exists s I w s' I' ino, name_at s I [97] ino /\ sfs_link ROOT b_name w s = Ret (0, s') /\ name_at s' I' [98] ino.
Proof.
  destruct opened as (s0 & I0 & Hrun & [Hn0 [sv0 Hr0]] & Hd0 & Hnone & Hc0). destruct link_value as (V1 & V2 & V3).
  destruct (creat_run s0 I0 ROOT sv0 a_name true 0 Hn0) as (rc & w & s & I & Hcr & [Hn _ Hd [sv Hr]] & _ & Hres);
    [intros x; specialize (Hc0 x); lia|exact Hr0|exact a_name_ok|lia|].
  assert (Some rc = Some 0) as E. { rewrite <- creat_value. symmetry. apply (from_root_run _ _ s0 rc s Hrun). by rewrite (bind_run _ _ _ _ _ Hcr). }
  injection E as ->. assert (Some w = Some 0x80300100) as E. { rewrite <- V2. symmetry. apply (from_root_run _ _ s0 w s Hrun). by rewrite (bind_run _ _ _ _ _ Hcr). }
  injection E as ->.
  inversion Hres as [sw He|sw Hno HI Ht Hi Hm Hs|rc He]; [discriminate He| |destruct He as [[E _]|[[E _]|[E|[E|E]]]]; discriminate E].
  assert (name_at s I [97] (sv_ino sw)) as Hna by (apply Hs; left; by split).
  rewrite (from_root_run _ _ s0 _ s Hrun (create_a_run _ _ _ _ _ _ Hcr eq_refl)) in V1.
  destruct (v_tab (s_vst s) !! ROOT) as [xv|] eqn:Exv; [|discriminate V1]. destruct (v_tab (s_vst s) !! 0x80300100) as [xw|] eqn:Exw; [|discriminate V1].
  destruct (sfs_link_spec s I ROOT sv 0x80300100 sw b_name xv xw Hn Hr Ht b_name_ok) as (rc & s' & I' & Hrun' & _ & _ & Hres'); [lia|exact Exv|exact Exw|cbn in V1; congruence|].
  assert (Some rc = Some 0) as E. { rewrite <- V3. symmetry. apply (from_root_run _ _ s0 rc s' Hrun). exact (create_a_run _ _ _ _ _ _ Hcr Hrun'). }
  injection E as ->. exists s, I, 0x80300100, s', I', (sv_ino sw). split; [exact Hna|]. split; [exact Hrun'|].
  inversion Hres' as [_ Hs' _ _ _|rc He _ _]; [apply Hs'; left; by split|]. destruct He as [[E _]|[[E _]|[[E _]|[E|E]]]]; discriminate E.
Defined.

(** Creating [a] is a step, after which removing it returns. *)
Lemma sfs_reachable_witness :
  exists s I s', consistent s I ROOT /\ rtc (step ROOT) s s' /\ exists rc s'', exec ROOT (Remove a_name) s' = Ret (rc, s'').
Proof.
  destruct opened as (s & I & Hrun & Hcon & Hd & _ & Hc). pose proof Hcon as [Hn [sv Hr]]. exists s, I.
  assert (allowed s ROOT (Creat a_name true 0)) as Ha by (split; [intros x; specialize (Hc x); lia|exact a_name_ok]).
  destruct created_a as (s0 & w & s1 & I1 & ino & Hrun0 & Hcr & _ & _ & _ & Hc1). rewrite Hrun in Hrun0. injection Hrun0 as <-.
  assert (rtc (step ROOT) s s1) as Hrtc.
  { apply rtc_once, (step_op ROOT s s1 (Creat a_name true 0) 0 Ha). cbn [exec]. by rewrite (bind_run _ _ _ _ _ Hcr). }
  exists s1. split; [exact Hcon|]. split; [exact Hrtc|].
  destruct (sfs_reachable s I s1 ROOT Hcon) as (_ & _ & Hall); [lia|exact Hrtc|]. apply Hall. split; [exact Hc1|exact a_name_ok].
Defined.

End Samples.

End Run.
