(* ===== verification/Printf.v ===== *)
(** * Formatted output: [common/libc/printf]

    [Module Printf] models [__printf.c], the state machine that reads a format one
    character at a time and sends text to a callback, and [snprintf.c].  An
    [int], a [long], a [size_t] and a pointer have 32 bits, a [long long] has 64.
    The arguments are a list: taking one of the wrong type, or one too many, is
    undefined.  The theorems say that the output is the text that the format
    denotes, that a number is converted without leaving its buffer, and that
    [snprintf] stores as much of the text as fits. *)

From S2P Require Import Prelude CString.

Module Printf.
Import Str.

(** An argument: a word, two words, or a pointer to a string. *)
Inductive arg := Word (w : Z) | Dword (w : Z) | Chars (s : option (list Z)).

Inductive intsize := INTSZ | LONGSZ | LLONGSZ | SIZETSZ.

#[export] Instance intsize_eq_dec : EqDecision intsize.
Proof. solve_decision. Defined.

(** [PF]: [client] is what the callback works on. *)
Record PF {C : Type} := MkPF {
  client : C;
  ap : list arg;
  charcount : Z;
  in_pct : bool;
  size : intsize;
  num : Z;
  sign : Z;
  spacing : Z;
  rightspc : bool;
  fillchar : Z;
  base : Z;
  baseprefix : bool;
  altformat : bool;
}.
Arguments PF : clear implicits.

(** [sizeof(long long) * CHAR_BIT / 3 + 2] *)
Definition NUMBER_BUF_SIZE : Z := 8 * 8 / 3 + 2.

Definition NULL_TEXT : list Z := [40; 110; 117; 108; 108; 41; 0].
Definition MODIFIERS : list Z := [35; 45; 108; 122; 48; 49; 50; 51; 52; 53; 54; 55; 56; 57; 0].
Definition INTEGERS : list Z := [100; 111; 117; 112; 120; 0].
Definition HEX_DIGITS : list Z := [48; 49; 50; 51; 52; 53; 54; 55; 56; 57; 97; 98; 99; 100; 101; 102; 0].

Definition s64 (x : Z) : Z := if u64 x <? 2 ^ 63 then u64 x else u64 x - 2 ^ 64.

Section Code.
Context {C : Type} (sendfunc : list Z -> M C unit).
Implicit Types (pf : PF C).

Definition set_client (c : C) pf : PF C :=
  MkPF C c (ap pf) (charcount pf) (in_pct pf) (size pf) (num pf) (sign pf) (spacing pf) (rightspc pf) (fillchar pf) (base pf) (baseprefix pf) (altformat pf).
Definition set_ap (l : list arg) pf : PF C :=
  MkPF C (client pf) l (charcount pf) (in_pct pf) (size pf) (num pf) (sign pf) (spacing pf) (rightspc pf) (fillchar pf) (base pf) (baseprefix pf) (altformat pf).
Definition set_charcount (n : Z) pf : PF C :=
  MkPF C (client pf) (ap pf) n (in_pct pf) (size pf) (num pf) (sign pf) (spacing pf) (rightspc pf) (fillchar pf) (base pf) (baseprefix pf) (altformat pf).
Definition set_in_pct (b : bool) pf : PF C :=
  MkPF C (client pf) (ap pf) (charcount pf) b (size pf) (num pf) (sign pf) (spacing pf) (rightspc pf) (fillchar pf) (base pf) (baseprefix pf) (altformat pf).
Definition set_size (z : intsize) pf : PF C :=
  MkPF C (client pf) (ap pf) (charcount pf) (in_pct pf) z (num pf) (sign pf) (spacing pf) (rightspc pf) (fillchar pf) (base pf) (baseprefix pf) (altformat pf).
Definition set_num (sg n : Z) pf : PF C :=
  MkPF C (client pf) (ap pf) (charcount pf) (in_pct pf) (size pf) n sg (spacing pf) (rightspc pf) (fillchar pf) (base pf) (baseprefix pf) (altformat pf).
Definition set_spacing (n : Z) pf : PF C :=
  MkPF C (client pf) (ap pf) (charcount pf) (in_pct pf) (size pf) (num pf) (sign pf) n (rightspc pf) (fillchar pf) (base pf) (baseprefix pf) (altformat pf).
Definition set_rightspc (b : bool) pf : PF C :=
  MkPF C (client pf) (ap pf) (charcount pf) (in_pct pf) (size pf) (num pf) (sign pf) (spacing pf) b (fillchar pf) (base pf) (baseprefix pf) (altformat pf).
Definition set_fillchar (c : Z) pf : PF C :=
  MkPF C (client pf) (ap pf) (charcount pf) (in_pct pf) (size pf) (num pf) (sign pf) (spacing pf) (rightspc pf) c (base pf) (baseprefix pf) (altformat pf).
Definition set_base (n : Z) (b : bool) pf : PF C :=
  MkPF C (client pf) (ap pf) (charcount pf) (in_pct pf) (size pf) (num pf) (sign pf) (spacing pf) (rightspc pf) (fillchar pf) n b (altformat pf).
Definition set_altformat (b : bool) pf : PF C :=
  MkPF C (client pf) (ap pf) (charcount pf) (in_pct pf) (size pf) (num pf) (sign pf) (spacing pf) (rightspc pf) (fillchar pf) (base pf) (baseprefix pf) b.

(** [txt] is the [len] bytes that are sent. *)
Definition __pf_print (txt : list Z) : M (PF C) unit :=
  zoom client set_client (sendfunc txt);;
  modify (fun pf => set_charcount (s32 (charcount pf + Z.of_nat (length txt))) pf).

Definition __pf_endfield : M (PF C) unit :=
  modify (fun pf => MkPF C (client pf) (ap pf) (charcount pf) false INTSZ 0 0 0 false 32 0 false false).

Definition __pf_modifier (ch : Z) : M (PF C) unit :=
  if ch =? 35 then modify (set_altformat true)
  else if ch =? 45 then modify (set_rightspc true)
  else if ch =? 108 then modify (fun pf => set_size (if bool_decide (size pf = LONGSZ) then LLONGSZ else LONGSZ) pf)
  else if ch =? 122 then modify (set_size SIZETSZ)
  else if ch =? 48 then
    modify (fun pf => if 0 <? spacing pf then set_spacing (s32 (spacing pf * 10)) pf else set_fillchar 48 pf)
  else
    kassert ((48 <? ch) && (ch <=? 57)) "ch>'0' && ch<='9'";;
    modify (fun pf => set_spacing (s32 (s32 (spacing pf * 10) + (ch - 48))) pf).

(** [va_arg] for a type of one word, of two words, and for [const char *]. *)
Definition va_word : M (PF C) Z :=
  pf ← get;
  match ap pf with Word w :: rest => modify (set_ap rest);; mret w | _ => undef "va_arg" end.
Definition va_dword : M (PF C) Z :=
  pf ← get;
  match ap pf with Dword w :: rest => modify (set_ap rest);; mret w | _ => undef "va_arg" end.
Definition va_chars : M (PF C) (option (list Z)) :=
  pf ← get;
  match ap pf with Chars s :: rest => modify (set_ap rest);; mret s | _ => undef "va_arg" end.

Definition __pf_getnum (ch : Z) : M (PF C) unit :=
  if ch =? 112 then w ← va_word; modify (fun pf => set_num (sign pf) (u32 w) pf)
  else if ch =? 100 then
    pf ← get;
    signednum ← (match size pf with
                 | LLONGSZ => w ← va_dword; mret (s64 w)
                 | _ => w ← va_word; mret (s32 w)
                 end);
    if signednum <? 0 then modify (set_num (-1) (u64 (- signednum)))
    else modify (fun pf => set_num (sign pf) signednum pf)
  else
    pf ← get;
    n ← (match size pf with
         | LLONGSZ => w ← va_dword; mret (u64 w)
         | _ => w ← va_word; mret (u32 w)
         end);
    modify (fun pf => set_num (sign pf) n pf).

Definition __pf_setbase (ch : Z) : M (PF C) unit :=
  modify (fun pf =>
    set_base (if (ch =? 100) || (ch =? 117) then 10 else if (ch =? 120) || (ch =? 112) then 16 else if ch =? 111 then 8 else base pf)
      (if altformat pf || (ch =? 112) then true else baseprefix pf) pf).

Definition __pf_fill (spc : Z) : M (PF C) unit :=
  pf ← get;
  for_each (replicate (Z.to_nat spc) (u8 (fillchar pf))) (fun f => __pf_print [f]).

(** Sends the string of [s]. *)
Definition print_str (s : list Z) : M (PF C) unit :=
  n ← lift (strlen s);
  __pf_print (take (Z.to_nat n) s).

Definition __pf_printstuff (prefix prefix2 stuff : list Z) : M (PF C) unit :=
  n1 ← lift (strlen prefix);
  n2 ← lift (strlen prefix2);
  n3 ← lift (strlen stuff);
  let len := s32 (n1 + n2 + n3) in
  pf ← get;
  let spc := if len <? spacing pf then spacing pf - len else 0 in
  (if (0 <? spc) && negb (rightspc pf) && negb (fillchar pf =? 48) then __pf_fill spc else mret tt);;
  print_str prefix;;
  print_str prefix2;;
  (if (0 <? spc) && negb (rightspc pf) && (fillchar pf =? 48) then __pf_fill spc else mret tt);;
  print_str stuff;;
  (if (0 <? spc) && rightspc pf then __pf_fill spc else mret tt).

(** The digits of [xnum], from right to left; [x] is the index of the next one. *)
Fixpoint digit_loop (fuel : nat) (b : Z) (buf : list Z) (x xnum : Z) : outcome (list Z * Z) :=
  match fuel with
  | O => Undef "out of fuel"
  | S fuel' =>
      if b =? 0 then Undef "xnum % pf->base"
      else
        match arr_get HEX_DIGITS (xnum mod b), arr_get buf x with
        | Some d, Some _ =>
            let buf := arr_set buf x d in
            if 0 <? xnum / b then digit_loop fuel' b buf (x - 1) (xnum / b) else Ret (buf, x - 1)
        | None, _ => Undef "digits[xnum % pf->base]"
        | _, None => Undef "*x"
        end
  end.

(** What the buffer holds at first does not matter. *)
Definition __pf_printnum : M (PF C) unit :=
  pf ← get;
  let buf := arr_set (replicate (Z.to_nat NUMBER_BUF_SIZE) 170) (NUMBER_BUF_SIZE - 1) 0 in
  '(buf, x) ← lift (digit_loop 64 (base pf) buf (NUMBER_BUF_SIZE - 2) (num pf));
  let bprefix := if baseprefix pf && (base pf =? 16) then [48; 120; 0]
                 else if baseprefix pf && (base pf =? 8) then [48; 0] else [0] in
  let sprefix := if negb (sign pf =? 0) then [45; 0] else [0] in
  __pf_printstuff sprefix bprefix (drop (Z.to_nat (x + 1)) buf).

Definition strchr_found (s : list Z) (ch : Z) : M (PF C) bool := o ← lift (strchr s ch); mret (bool_decide (o <> None)).

Definition __pf_send (ch : Z) : M (PF C) unit :=
  kassert (negb (ch =? 0)) "ch!=0";;
  pf ← get;
  if negb (in_pct pf) && negb (ch =? 37) then __pf_print [ch]
  else if negb (in_pct pf) then modify (set_in_pct true)
  else
    is_mod ← strchr_found MODIFIERS ch;
    if is_mod : bool then __pf_modifier ch
    else
      is_int ← strchr_found INTEGERS ch;
      if is_int : bool then __pf_getnum ch;; __pf_setbase ch;; __pf_printnum;; __pf_endfield
      else if ch =? 115 then
        str ← va_chars;
        __pf_printstuff [0] [0] (default NULL_TEXT str);;
        __pf_endfield
      else
        x0 ← (if ch =? 99 then w ← va_word; mret (u8 w) else mret ch);
        __pf_printstuff [0] [0] [x0; 0];;
        __pf_endfield.

(** [for (i=0; format[i]; i++) __pf_send(&pf, format[i])] *)
Fixpoint format_loop (format : list Z) : M (PF C) unit :=
  match format with
  | [] => undef "format[i]"
  | ch :: format' => if ch =? 0 then mret tt else __pf_send ch;; format_loop format'
  end.

(** The callback's state is the state of the caller. *)
Definition __vprintf (format : list Z) (args : list arg) : M C Z := fun c =>
  match (__pf_endfield;; format_loop format) (MkPF C c args 0 false INTSZ 0 0 0 false 0 0 false false) with
  | Ret (_, pf) => Ret (charcount pf, client pf)
  | Panic w => Panic w
  | Undef w => Undef w
  | Spin => Spin
  end.

End Code.

(** ** [snprintf.c] *)

Record SNP := MkSNP { buf : list Z; buflen : Z; bufpos : Z }.

(** [snp->buf[i] = c] *)
Definition put (i c : Z) : M SNP unit :=
  s ← get;
  valid (arr_get (buf s) i) "snp->buf[snp->bufpos]";;
  modify (fun s => MkSNP (arr_set (buf s) i c) (buflen s) (bufpos s)).

Definition __snprintf_send (data : list Z) : M SNP unit :=
  for_each data (fun c =>
    s ← get;
    if bufpos s <? buflen s then
      put (bufpos s) c;;
      modify (fun s => MkSNP (buf s) (buflen s) (u32 (bufpos s + 1)))
    else mret tt).

(** The number of characters and the buffer. *)
Definition vsnprintf (b : list Z) (len : Z) (fmt : list Z) (args : list arg) : outcome (Z * list Z) :=
  match (chars ← __vprintf __snprintf_send fmt args;
         s ← get;
         (if 0 <? len then put (bufpos s) 0 else mret tt);;
         mret chars) (MkSNP b (if len =? 0 then 0 else len - 1) 0) with
  | Ret (chars, s) => Ret (chars, buf s)
  | Panic w => Panic w
  | Undef w => Undef w
  | Spin => Spin
  end.

Definition snprintf : list Z -> Z -> list Z -> list arg -> outcome (Z * list Z) := vsnprintf.

(** ** What a format denotes *)

Inductive piece := Lit (c : Z) | Field (mods : list Z) (conv : Z).

Definition is_mod (c : Z) : bool := bool_decide (c ∈ cstr MODIFIERS).
Definition is_int (c : Z) : bool := bool_decide (c ∈ cstr INTEGERS).

(** Literal characters, and fields: modifiers, then the conversion.  [st] holds the
    modifiers read so far inside a field; a field that is not finished is dropped. *)
Fixpoint pieces (st : option (list Z)) (fmt : list Z) : list piece :=
  match fmt with
  | [] => []
  | c :: fmt' =>
      match st with
      | None => if c =? 37 then pieces (Some []) fmt' else Lit c :: pieces None fmt'
      | Some ms => if is_mod c then pieces (Some (ms ++ [c])) fmt' else Field ms c :: pieces None fmt'
      end
  end.

Definition is_digit (c : Z) : Prop := 48 <= c <= 57.
Definition digits_in (ms : list Z) : list Z := filter is_digit ms.

Definition width (ms : list Z) : Z := foldl (fun v c => 10 * v + (c - 48)) 0 (digits_in ms).
Definition zero_pad (ms : list Z) : bool := bool_decide (head (digits_in ms) = Some 48).
Definition left_align (ms : list Z) : bool := bool_decide (45 ∈ ms).
Definition alternate (ms : list Z) : bool := bool_decide (35 ∈ ms).
Definition next_size (z : intsize) (c : Z) : intsize :=
  if c =? 108 then (if bool_decide (z = LONGSZ) then LLONGSZ else LONGSZ) else if c =? 122 then SIZETSZ else z.
Definition size_of (ms : list Z) : intsize := foldl next_size INTSZ ms.

Definition fill_of (ms : list Z) : Z := if zero_pad ms then 48 else 32.

(** [body] after [pre], padded to the width [w]: on the right, between the two with
    zeros, or on the left. *)
Definition justify (right : bool) (fill w : Z) (pre body : list Z) : list Z :=
  let padding := replicate (Z.to_nat (w - Z.of_nat (length (pre ++ body)))) fill in
  if right then pre ++ body ++ padding
  else if fill =? 48 then pre ++ padding ++ body
  else padding ++ pre ++ body.

Definition field_text (ms pre body : list Z) : list Z := justify (left_align ms) (fill_of ms) (width ms) pre body.

Definition digit_char (d : Z) : Z := if d <? 10 then 48 + d else 87 + d.

(** The [k] last digits of [n], without leading zeros. *)
Fixpoint numeral (k : nat) (b n : Z) : list Z :=
  match k with
  | O => []
  | S k' => (if n <? b then [] else numeral k' b (n / b)) ++ [digit_char (n mod b)]
  end.

(** Enough for 64 bits in base 8. *)
Definition MAX_DIGITS : nat := 22.

Definition base_of (conv : Z) : Z := if (conv =? 100) || (conv =? 117) then 10 else if conv =? 111 then 8 else 16.

Definition base_prefix (ms : list Z) (conv : Z) : list Z :=
  if alternate ms || (conv =? 112) then (if base_of conv =? 16 then [48; 120] else if base_of conv =? 8 then [48] else []) else [].

(** The value of an integer argument. *)
Definition int_value (ll : bool) (conv w : Z) : Z :=
  if conv =? 100 then (if ll then s64 w else s32 w) else (if ll then u64 w else u32 w).

Definition wide (ms : list Z) (conv : Z) : bool := bool_decide (size_of ms = LLONGSZ) && negb (conv =? 112).

Definition render_int (ms : list Z) (conv v : Z) : list Z :=
  field_text ms ((if v <? 0 then [45] else []) ++ base_prefix ms conv) (numeral MAX_DIGITS (base_of conv) (Z.abs v)).

(** The text of a field, and the arguments that are left. *)
Definition render_field (ms : list Z) (conv : Z) (args : list arg) : option (list Z * list arg) :=
  if is_int conv then
    match args with
    | Word w :: rest => if wide ms conv then None else Some (render_int ms conv (int_value false conv w), rest)
    | Dword w :: rest => if wide ms conv then Some (render_int ms conv (int_value true conv w), rest) else None
    | _ => None
    end
  else if conv =? 115 then
    match args with Chars s :: rest => Some (field_text ms [] (cstr (default NULL_TEXT s)), rest) | _ => None end
  else if conv =? 99 then
    match args with Word w :: rest => Some (field_text ms [] (cstr [u8 w; 0]), rest) | _ => None end
  else Some (field_text ms [] [conv], args).

Fixpoint render (l : list piece) (args : list arg) : option (list Z) :=
  match l with
  | [] => Some []
  | Lit c :: l' => (fun out => c :: out) <$> render l' args
  | Field ms conv :: l' =>
      match render_field ms conv args with
      | Some (t, args') => (fun out => t ++ out) <$> render l' args'
      | None => None
      end
  end.

Definition printf_text (fmt : list Z) (args : list arg) : option (list Z) := render (pieces None (cstr fmt)) args.

(** Bytes, field widths within [int], and no [%X], which the manual documents as
    uppercase hexadecimal and the code does not implement ([printf_upper_hex]). *)
Fixpoint format_ok (st : option (list Z)) (fmt : list Z) : bool :=
  match fmt with
  | [] => true
  | c :: fmt' =>
      (c <? 256) && (0 <? c) &&
      match st with
      | None => format_ok (if c =? 37 then Some [] else None) fmt'
      | Some ms => if is_mod c then (width (ms ++ [c]) <? 2 ^ 31) && format_ok (Some (ms ++ [c])) fmt' else negb (c =? 88) && format_ok None fmt'
      end
  end.

(** A string ends, and its length is within [int]. *)
Definition arg_ok (a : arg) : Prop :=
  match a with Chars (Some s) => terminated s /\ Z.of_nat (length (cstr s)) < 2 ^ 31 | _ => True end.

(** ** The digits of a number *)

Section Digits.

Lemma hex_digit d : 0 <= d < 16 -> arr_get HEX_DIGITS d = Some (digit_char d).
Proof.
  intros Hd. assert (d ∈ seqZ 0 16) as Hin by (apply elem_of_seqZ; lia). clear Hd. revert d Hin. apply Forall_forall. repeat constructor.
Qed.

Lemma numeral_length k b n : (1 <= length (numeral (S k) b n) <= S k)%nat.
Proof.
  revert n. induction k as [|k IH]; intros n; cbn [numeral]; rewrite length_app; [destruct (n <? b); cbn; lia|].
  destruct (n <? b); [cbn; lia|]. specialize (IH (n / b)). cbn [numeral] in IH. cbn [length]. lia.
Qed.

Lemma numeral_S k b n : numeral (S k) b n = (if n <? b then [] else numeral k b (n / b)) ++ [digit_char (n mod b)].
Proof. reflexivity. Qed.

Lemma one_digit (l : list Z) x c : 0 <= x < Z.of_nat (length l) ->
  Ret (arr_set l x c, x - 1) = Ret (take (Z.to_nat (x + 1) - length ([] ++ [c])) l ++ ([] ++ [c]) ++ drop (Z.to_nat (x + 1)) l, x - Z.of_nat (length ([] ++ [c]))).
Proof.
  intros Hx. unfold arr_set. rewrite insert_take_drop by lia. replace (Z.to_nat (x + 1)) with (S (Z.to_nat x)) by lia.
  cbn [app length]. by replace (S (Z.to_nat x) - 1)%nat with (Z.to_nat x) by lia.
Qed.

Lemma digit_loop_run k fuel b l x n :
  2 <= b <= 16 -> 0 <= n < b ^ Z.of_nat (S k) -> (k < fuel)%nat -> Z.of_nat k <= x < Z.of_nat (length l) ->
  let d := numeral (S k) b n in
  digit_loop fuel b l x n = Ret (take (Z.to_nat (x + 1) - length d) l ++ d ++ drop (Z.to_nat (x + 1)) l, x - Z.of_nat (length d)).
Proof.
  intros Hb. revert fuel l x n. induction k as [|k IH]; intros fuel l x n Hn Hf Hx d; (destruct fuel as [|fuel]; [lia|]);
    cbn [digit_loop]; rewrite (proj2 (Z.eqb_neq b 0)) by lia;
    pose proof (Z.mod_pos_bound n b ltac:(lia)) as Hmod; rewrite (hex_digit (n mod b)) by lia;
    destruct (proj2 (arr_get_is_Some l x) ltac:(lia)) as [y ->].
  - assert (n < b) as Hlt by (rewrite Z.pow_1_r in Hn; lia). rewrite Z.div_small by lia. change (0 <? 0) with false. cbv iota. unfold d. cbn [numeral].
    rewrite (proj2 (Z.ltb_lt n b) Hlt). apply one_digit. lia.
  - unfold d. rewrite numeral_S. set (dc := digit_char (n mod b)). destruct (Z.ltb_spec n b) as [Hlt|Hge].
    + rewrite Z.div_small by lia. change (0 <? 0) with false. cbv iota. apply one_digit. lia.
    + assert (0 < n / b) as Hq by (apply Z.div_str_pos; lia). rewrite (proj2 (Z.ltb_lt 0 (n / b)) Hq).
      rewrite Nat2Z.inj_succ, Z.pow_succ_r in Hn by lia.
      rewrite (IH fuel (arr_set l x dc) (x - 1) (n / b)); [|split; [lia|apply Z.div_lt_upper_bound; lia]|lia|rewrite arr_set_length; lia].
      pose proof (numeral_length k b (n / b)) as Hlen. set (d' := numeral (S k) b (n / b)) in *.
      unfold arr_set. replace (Z.to_nat (x - 1 + 1)) with (Z.to_nat x) by lia. replace (Z.to_nat (x + 1)) with (S (Z.to_nat x)) by lia.
      rewrite insert_take_drop by lia. rewrite length_app. cbn [length]. f_equal. f_equal.
      * rewrite take_app_le by (rewrite length_take; lia). rewrite take_take. rewrite drop_app_ge by (rewrite length_take; lia).
        rewrite length_take. replace (Z.to_nat x - Z.to_nat x `min` length l)%nat with 0%nat by lia. cbn [drop]. rewrite <- app_assoc. cbn [app].
        f_equal. f_equal. fold d'. lia.
      * fold d'. lia.
Qed.

End Digits.

(** ** The state machine *)

Section Run.
(** The callback appends to what it has received. *)
Context {C : Type} (sendfunc : list Z -> M C unit) (feed : list Z -> C -> C) (c0 : C).
Hypothesis send_feed : forall out l, sendfunc l (feed out c0) = Ret (tt, feed l (feed out c0)).
Hypothesis feed_nil : forall c, feed [] c = c.
Hypothesis feed_app : forall a b c, feed (a ++ b) c = feed b (feed a c).
Implicit Types (pf : PF C) (out : list Z) (a : list arg) (ms : list Z).

(** The text so far is [out]. *)
Definition sent out pf : PF C := set_client (feed out c0) (set_charcount (s32 (Z.of_nat (length out))) pf).

Lemma s32_add x y : s32 (s32 x + y) = s32 (x + y).
Proof.
  assert (forall u v, u mod 2 ^ 32 = v mod 2 ^ 32 -> s32 u = s32 v) as Hext by (intros u v E; unfold s32; by rewrite E).
  apply Hext. unfold s32. destruct (x mod 2 ^ 32 <? 2 ^ 31).
  - by rewrite Zplus_mod_idemp_l.
  - replace (x mod 2 ^ 32 - 2 ^ 32 + y) with (x mod 2 ^ 32 + y + (-1) * 2 ^ 32) by lia. rewrite Z_mod_plus_full. by rewrite Zplus_mod_idemp_l.
Qed.

Lemma print_run t out pf : __pf_print sendfunc t (sent out pf) = Ret (tt, sent (out ++ t) pf).
Proof.
  unfold __pf_print. erewrite bind_run by (apply zoom_Ret, send_feed). unfold modify, sent. cbn. rewrite feed_app, length_app.
  by rewrite s32_add, Nat2Z.inj_add.
Qed.

Lemma fill_run k out pf : 0 <= fillchar pf < 256 ->
  __pf_fill sendfunc k (sent out pf) = Ret (tt, sent (out ++ replicate (Z.to_nat k) (fillchar pf)) pf).
Proof.
  intros Hf. unfold __pf_fill. mrun. change (fillchar (sent out pf)) with (fillchar pf). unfold u8. rewrite Z.mod_small by exact Hf.
  generalize (Z.to_nat k) as n. intros n. revert out. induction n as [|n IH]; intros out; cbn [replicate for_each]; [by rewrite app_nil_r|].
  rewrite (bind_run _ _ _ _ _ (print_run [fillchar pf] out pf)), IH. do 3 f_equal. by rewrite <- app_assoc.
Qed.

Lemma strlen_lift {T} (x : list Z) (s : T) : terminated x -> lift (strlen x) s = Ret (Z.of_nat (length (cstr x)), s).
Proof. intros Hx. unfold lift. by rewrite strlen_spec. Qed.

Lemma print_str_run x out pf : terminated x -> print_str sendfunc x (sent out pf) = Ret (tt, sent (out ++ cstr x) pf).
Proof.
  intros Hx. unfold print_str. rewrite (bind_run _ _ _ _ _ (strlen_lift x _ Hx)), Nat2Z.id. destruct (terminated_inv x Hx) as [r E].
  rewrite E at 2. rewrite take_app_length. apply print_run.
Qed.

Lemma printstuff_run p1 p2 x out pf :
  terminated p1 -> terminated p2 -> terminated x -> Z.of_nat (length (cstr p1 ++ cstr p2 ++ cstr x)) < 2 ^ 31 -> 0 <= fillchar pf < 256 ->
  __pf_printstuff sendfunc p1 p2 x (sent out pf) =
  Ret (tt, sent (out ++ justify (rightspc pf) (fillchar pf) (spacing pf) (cstr p1 ++ cstr p2) (cstr x)) pf).
Proof.
  intros H1 H2 Hx Hlen Hf. unfold __pf_printstuff.
  rewrite (bind_run _ _ _ _ _ (strlen_lift p1 _ H1)), (bind_run _ _ _ _ _ (strlen_lift p2 _ H2)), (bind_run _ _ _ _ _ (strlen_lift x _ Hx)). mrun.
  rewrite !length_app in Hlen. rewrite s32_id by lia. set (len := _ + _ + _).
  change (spacing (sent out pf)) with (spacing pf). change (rightspc (sent out pf)) with (rightspc pf). change (fillchar (sent out pf)) with (fillchar pf).
  set (spc := if len <? spacing pf then _ else 0). unfold justify. rewrite !length_app.
  assert (Z.to_nat (spacing pf - Z.of_nat (length (cstr p1) + length (cstr p2) + length (cstr x))) = Z.to_nat spc) as ->.
  { unfold spc, len. destruct (Z.ltb_spec (Z.of_nat (length (cstr p1)) + Z.of_nat (length (cstr p2)) + Z.of_nat (length (cstr x))) (spacing pf)); lia. }
  assert (0 <= spc) as Hspc by (unfold spc; destruct (Z.ltb_spec len (spacing pf)); lia).
  assert (forall (b : bool) o, (if (0 <? spc) && b then __pf_fill sendfunc spc else mret tt) (sent o pf) =
    Ret (tt, sent (o ++ if b then replicate (Z.to_nat spc) (fillchar pf) else []) pf)) as Hfill.
  { intros b o. destruct (Z.ltb_spec 0 spc), b; cbn [andb]; rewrite ?app_nil_r; try done; [by apply fill_run|].
    replace (Z.to_nat spc) with 0%nat by lia. by rewrite app_nil_r. }
  rewrite <- !andb_assoc. rewrite (bind_run _ _ _ _ _ (Hfill _ _)), (bind_run _ _ _ _ _ (print_str_run p1 _ pf H1)), (bind_run _ _ _ _ _ (print_str_run p2 _ pf H2)).
  rewrite (bind_run _ _ _ _ _ (Hfill _ _)), (bind_run _ _ _ _ _ (print_str_run x _ pf Hx)), Hfill. do 3 f_equal.
  destruct (rightspc pf), (fillchar pf =? 48); cbn [negb andb]; by rewrite ?app_nil_r, <- ?app_assoc, ?app_nil_r.
Qed.

(** Between fields, and inside one after [ms]. *)
Definition outside out a : PF C := sent out (MkPF C c0 a 0 false INTSZ 0 0 0 false 32 0 false false).
Definition inside ms out a : PF C :=
  sent out (MkPF C c0 a 0 true (size_of ms) 0 0 (width ms) (left_align ms) (fill_of ms) 0 false (alternate ms)).

Lemma found_run s ch pf : terminated s -> 0 < ch < 256 -> @strchr_found C s ch pf = Ret (bool_decide (ch ∈ cstr s), pf).
Proof.
  intros Hs Hc. unfold strchr_found, strchr, lift. unfold u8. rewrite Z.mod_small by lia.
  destruct (strchr_from_spec 0 s ch Hs ltac:(lia)) as (o & E & Ho). mrun. unfold mbind, M_bind. rewrite E. unfold mret, M_ret. do 2 f_equal.
  destruct o as [j|].
  - destruct Ho as (k & _ & Hk & _). rewrite (bool_decide_eq_true_2 (ch ∈ cstr s)); [done|]. apply list_elem_of_lookup_2 in Hk. apply elem_of_app in Hk as [|Hk]; [done|].
    apply list_elem_of_singleton in Hk. lia.
  - rewrite (bool_decide_eq_false_2 (ch ∈ cstr s)); [done|]. intros Hin. apply Ho. apply elem_of_app. by left.
Qed.

(** *** Modifiers *)

Lemma digits_in_snoc ms c : digits_in (ms ++ [c]) = digits_in ms ++ (if decide (is_digit c) then [c] else []).
Proof. unfold digits_in. by rewrite filter_app. Qed.

Lemma width_snoc ms c : width (ms ++ [c]) = if decide (is_digit c) then 10 * width ms + (c - 48) else width ms.
Proof. unfold width. rewrite digits_in_snoc. destruct (decide _); [by rewrite foldl_snoc|by rewrite app_nil_r]. Qed.

Lemma width_nonneg ms : 0 <= width ms.
Proof. induction ms as [|c ms IH] using rev_ind; [done|]. rewrite width_snoc. destruct (decide (is_digit c)) as [[? ?]|]; lia. Qed.

Lemma width_zero ms : width ms = 0 -> Forall (fun c => c = 48) (digits_in ms).
Proof.
  induction ms as [|c ms IH] using rev_ind; [constructor|]. rewrite width_snoc, digits_in_snoc. pose proof (width_nonneg ms).
  destruct (decide (is_digit c)) as [[? ?]|]; intros E; [|rewrite app_nil_r; by apply IH]. apply Forall_app. split; [apply IH; lia|]. repeat constructor. lia.
Qed.

Lemma flag_snoc ms c d : bool_decide (d ∈ ms ++ [c]) = if c =? d then true else bool_decide (d ∈ ms).
Proof.
  destruct (Z.eqb_spec c d) as [->|Hn].
  - apply bool_decide_eq_true_2, elem_of_app. right. left.
  - apply bool_decide_ext. rewrite elem_of_app, list_elem_of_singleton. split; [intros [?|?]; [done|congruence]|by left].
Qed.

Lemma zero_pad_snoc ms c : zero_pad (ms ++ [c]) = if (c =? 48) && (width ms =? 0) then true else zero_pad ms.
Proof.
  unfold zero_pad. rewrite digits_in_snoc. destruct (Z.eqb_spec c 48) as [->|Hc]; cbn [andb].
  - rewrite decide_True by (unfold is_digit; lia). destruct (Z.eqb_spec (width ms) 0) as [Hw|Hw].
    + apply width_zero in Hw. destruct (digits_in ms); [done|]. apply Forall_inv in Hw. subst. done.
    + destruct (digits_in ms) eqn:E; [|done]. unfold width in Hw. by rewrite E in Hw.
  - destruct (decide (is_digit c)); [|by rewrite app_nil_r]. destruct (digits_in ms); [|done]. cbn. apply bool_decide_ext. naive_solver.
Qed.

Lemma mod_cases c : is_mod c = true -> c = 35 \/ c = 45 \/ c = 108 \/ c = 122 \/ c = 48 \/ 49 <= c <= 57.
Proof.
  intros Hc. apply bool_decide_eq_true in Hc. cbn in Hc. repeat (apply elem_of_cons in Hc as [->|Hc]; [lia|]). by apply not_elem_of_nil in Hc.
Qed.

Lemma modifier_run ms c out a :
  is_mod c = true -> width (ms ++ [c]) < 2 ^ 31 -> __pf_modifier c (inside ms out a) = Ret (tt, inside (ms ++ [c]) out a).
Proof.
  intros Hm Hw. pose proof (width_nonneg ms) as H0. unfold inside, size_of, left_align, alternate, fill_of.
  rewrite width_snoc in Hw. rewrite width_snoc, foldl_snoc, !flag_snoc, zero_pad_snoc. unfold __pf_modifier, next_size.
  destruct (mod_cases c Hm) as [->|[->|[->|[->|[->|Hc]]]]]; [done|done|done|done| |].
  - rewrite decide_True in Hw by (unfold is_digit; lia). rewrite decide_True by (unfold is_digit; lia). replace (10 * width ms + (48 - 48)) with (width ms * 10) in * by lia.
    cbn [Z.eqb Pos.eqb andb]. unfold modify. cbn [spacing sent set_client set_charcount]. destruct (Z.ltb_spec 0 (width ms)).
    + rewrite (proj2 (Z.eqb_neq _ 0)) by lia. by rewrite (s32_id (width ms * 10)) by lia.
    + rewrite (proj2 (Z.eqb_eq _ 0)) by lia. by replace (width ms * 10) with (width ms) by lia.
  - rewrite decide_True in Hw by (unfold is_digit; lia). rewrite decide_True by (unfold is_digit; lia).
    repeat (rewrite (proj2 (Z.eqb_neq c _)) by lia). cbn [andb]. rewrite bind_kassert by lia. unfold modify, set_spacing. cbn [spacing sent set_client set_charcount].
    rewrite (s32_id (width ms * 10)) by lia. rewrite s32_id by lia. by replace (10 * width ms + (c - 48)) with (width ms * 10 + (c - 48)) by lia.
Qed.

(** *** Numbers *)

Lemma digit_char_bounds d : 0 <= d < 16 -> 48 <= digit_char d < 128.
Proof. intros Hd. unfold digit_char. destruct (Z.ltb_spec d 10); lia. Qed.

Lemma numeral_clean k b n : 2 <= b <= 16 -> clean (numeral k b n).
Proof.
  intros Hb. revert n. induction k as [|k IH]; intros n; [constructor|]. rewrite numeral_S. apply Forall_app. split; [destruct (n <? b); [constructor|apply IH]|].
  repeat constructor. pose proof (Z.mod_pos_bound n b ltac:(lia)). pose proof (digit_char_bounds (n mod b) ltac:(lia)). lia.
Qed.

Lemma number_fits b n : 8 <= b -> n < 2 ^ 64 -> n < b ^ Z.of_nat MAX_DIGITS.
Proof. intros Hb Hn. pose proof (Z.pow_le_mono_l 8 b (Z.of_nat MAX_DIGITS) ltac:(lia)). change (8 ^ Z.of_nat MAX_DIGITS) with 73786976294838206464 in *. lia. Qed.

Definition sign_text (sg : Z) : list Z := if sg =? 0 then [] else [45].
Definition prefix_text (bp : bool) (b : Z) : list Z := if bp && (b =? 16) then [48; 120] else if bp && (b =? 8) then [48] else [].

Lemma printnum_run out pf :
  8 <= base pf <= 16 -> 0 <= num pf < 2 ^ 64 -> 0 <= fillchar pf < 256 ->
  __pf_printnum sendfunc (sent out pf) =
  Ret (tt, sent (out ++ justify (rightspc pf) (fillchar pf) (spacing pf) (sign_text (sign pf) ++ prefix_text (baseprefix pf) (base pf))
                         (numeral MAX_DIGITS (base pf) (num pf))) pf).
Proof.
  intros Hb Hn Hf. unfold __pf_printnum. mrun.
  change (base (sent out pf)) with (base pf). change (num (sent out pf)) with (num pf). change (sign (sent out pf)) with (sign pf).
  change (baseprefix (sent out pf)) with (baseprefix pf). change (NUMBER_BUF_SIZE - 2) with 21. change (NUMBER_BUF_SIZE - 1) with 22.
  set (l := arr_set _ 22 0). pose proof (digit_loop_run 21 64 (base pf) l 21 (num pf) ltac:(lia)) as Hloop.
  change (Z.of_nat 22) with (Z.of_nat MAX_DIGITS) in Hloop. pose proof (number_fits (base pf) (num pf) ltac:(lia) ltac:(lia)) as Hfit.
  specialize (Hloop ltac:(lia) ltac:(lia) ltac:(split; [lia|done])). cbv zeta in Hloop.
  pose proof (numeral_length 21 (base pf) (num pf)) as Hlen. pose proof (numeral_clean MAX_DIGITS (base pf) (num pf) ltac:(lia)) as Hclean.
  change (numeral 22 (base pf) (num pf)) with (numeral MAX_DIGITS (base pf) (num pf)) in *. set (d := numeral MAX_DIGITS _ _) in *.
  rewrite Hloop. cbn [lift]. rewrite (bind_run _ _ _ _ _ (eq_refl (Ret (_, sent out pf)))). cbv beta iota.
  assert (drop (Z.to_nat (21 - Z.of_nat (length d) + 1)) (take (Z.to_nat (21 + 1) - length d) l ++ d ++ drop (Z.to_nat (21 + 1)) l) = d ++ [0]) as ->.
  { replace (Z.to_nat (21 - Z.of_nat (length d) + 1)) with (Z.to_nat (21 + 1) - length d)%nat by (unfold MAX_DIGITS in Hlen; lia).
    rewrite drop_app_length'; [done|]. rewrite length_take. unfold l. rewrite arr_set_length, length_replicate. change (Z.to_nat NUMBER_BUF_SIZE) with 23%nat. lia. }
  assert (cstr (d ++ [0]) = d) as Hcd by (by apply (cstr_app d [])).
  rewrite printstuff_run; [|..].
  - rewrite Hcd. unfold sign_text, prefix_text. by destruct (sign pf =? 0), (baseprefix pf && (base pf =? 16)), (baseprefix pf && (base pf =? 8)).
  - unfold terminated. destruct (negb _); [right; left|left].
  - unfold terminated. destruct (baseprefix pf && (base pf =? 16)); [right; right; left|]. destruct (baseprefix pf && (base pf =? 8)); [right; left|left].
  - unfold terminated. apply elem_of_app. right. left.
  - rewrite Hcd, !length_app. unfold MAX_DIGITS in Hlen.
    assert (Z.of_nat (length (cstr (if negb (sign pf =? 0) then [45; 0] else [0]))) <= 1) by (destruct (negb _); cbn; lia).
    assert (Z.of_nat (length (cstr (if baseprefix pf && (base pf =? 16) then [48; 120; 0] else if baseprefix pf && (base pf =? 8) then [48; 0] else [0]))) <= 2)
      by (destruct (baseprefix pf && (base pf =? 16)), (baseprefix pf && (base pf =? 8)); cbn; lia).
    lia.
  - exact Hf.
Qed.

Lemma endfield_run out pf : __pf_endfield (sent out pf) = Ret (tt, outside out (ap pf)).
Proof. reflexivity. Qed.

Lemma fill_of_bounds ms : 0 <= fill_of ms < 256.
Proof. unfold fill_of. destruct (zero_pad ms); lia. Qed.

(** A string, or a character, in a field. *)
Lemma stuff_field ms out a x :
  terminated x -> Z.of_nat (length (cstr x)) < 2 ^ 31 ->
  (__pf_printstuff sendfunc [0] [0] x;; __pf_endfield) (inside ms out a) = Ret (tt, outside (out ++ field_text ms [] (cstr x)) a).
Proof.
  intros Hx Hl. unfold inside. set (pf := MkPF _ _ _ _ _ _ _ _ _ _ _ _ _ _).
  erewrite bind_run; [apply (endfield_run _ pf)|]. rewrite printstuff_run; [reflexivity|left|left|done|done|apply fill_of_bounds].
Qed.

(** The state after the argument of an integer conversion has been fetched. *)
Definition fetched ms (v : Z) out a : PF C :=
  sent out (MkPF C c0 a 0 true (size_of ms) (Z.abs v) (if v <? 0 then -1 else 0) (width ms) (left_align ms) (fill_of ms) 0 false (alternate ms)).

Lemma llong_range w : - 2 ^ 63 <= s64 w < 2 ^ 63.
Proof. unfold s64, u64. pose proof (Z.mod_pos_bound w (2 ^ 64) ltac:(lia)). destruct (Z.ltb_spec (w mod 2 ^ 64) (2 ^ 63)); lia. Qed.

Lemma int_range w : - 2 ^ 31 <= s32 w < 2 ^ 31.
Proof. unfold s32. pose proof (Z.mod_pos_bound w (2 ^ 32) ltac:(lia)). destruct (Z.ltb_spec (w mod 2 ^ 32) (2 ^ 31)); lia. Qed.

(** [va_arg] for the size that the modifiers ask for. *)
Lemma fetch_run ms out w rest (f g : Z -> Z) :
  (match size_of ms with
   | LLONGSZ => x ← va_dword; mret (f x)
   | _ => x ← va_word; mret (g x)
   end) (inside ms out ((if bool_decide (size_of ms = LLONGSZ) then Dword w else Word w) :: rest)) =
  Ret (if bool_decide (size_of ms = LLONGSZ) then f w else g w, inside ms out rest).
Proof. unfold inside. generalize (size_of ms) as z. by intros []. Qed.

Lemma getnum_run ms conv out a w rest :
  a = (if wide ms conv then Dword w else Word w) :: rest ->
  __pf_getnum conv (inside ms out a) = Ret (tt, fetched ms (int_value (wide ms conv) conv w) out rest).
Proof.
  intros ->. unfold __pf_getnum, int_value, wide, fetched. destruct (Z.eqb_spec conv 112) as [->|Hp].
  - rewrite andb_false_r. cbn [negb andb Z.eqb Pos.eqb]. unfold va_word. mrun. pose proof (Z.mod_pos_bound w (2 ^ 32) ltac:(lia)) as Hu. fold (u32 w) in Hu.
    cbn [ap inside sent set_client set_charcount]. mrun. unfold modify. rewrite (proj2 (Z.ltb_ge (u32 w) 0)), Z.abs_eq by lia. reflexivity.
  - cbn [negb]. rewrite andb_true_r. destruct (Z.eqb_spec conv 100) as [->|Hd].
    + mrun. change (size (inside ms out _)) with (size_of ms). rewrite (bind_run _ _ _ _ _ (fetch_run ms out w rest s64 s32)).
      pose proof (llong_range w) as H64. pose proof (int_range w) as H32. set (x := if bool_decide _ then s64 w else s32 w).
      assert (- 2 ^ 63 <= x < 2 ^ 63) as Hx by (unfold x; destruct (bool_decide _); lia). destruct (Z.ltb_spec x 0).
      * rewrite u64_id by lia. by rewrite Z.abs_neq by lia.
      * by rewrite Z.abs_eq by lia.
    + mrun. change (size (inside ms out _)) with (size_of ms). rewrite (bind_run _ _ _ _ _ (fetch_run ms out w rest u64 u32)).
      pose proof (Z.mod_pos_bound w (2 ^ 32) ltac:(lia)) as H32. pose proof (Z.mod_pos_bound w (2 ^ 64) ltac:(lia)) as H64. fold (u32 w) in H32. fold (u64 w) in H64.
      set (x := if bool_decide _ then u64 w else u32 w). assert (0 <= x) as Hx by (unfold x; destruct (bool_decide _); lia).
      rewrite (proj2 (Z.ltb_ge x 0)), Z.abs_eq by lia. reflexivity.
Qed.

Lemma int_cases c : is_int c = true -> c = 100 \/ c = 111 \/ c = 117 \/ c = 112 \/ c = 120.
Proof.
  intros Hc. apply bool_decide_eq_true in Hc. cbn in Hc. repeat (apply elem_of_cons in Hc as [->|Hc]; [lia|]). by apply not_elem_of_nil in Hc.
Qed.

Lemma int_value_range ll conv w : - 2 ^ 63 <= int_value ll conv w < 2 ^ 64.
Proof.
  unfold int_value. pose proof (llong_range w). pose proof (int_range w). pose proof (Z.mod_pos_bound w (2 ^ 32) ltac:(lia)). pose proof (Z.mod_pos_bound w (2 ^ 64) ltac:(lia)).
  unfold u32, u64. destruct (conv =? 100), ll; lia.
Qed.

Lemma int_field ms conv out a w rest :
  is_int conv = true -> a = (if wide ms conv then Dword w else Word w) :: rest ->
  (__pf_getnum conv;; __pf_setbase conv;; __pf_printnum sendfunc;; __pf_endfield) (inside ms out a) =
  Ret (tt, outside (out ++ render_int ms conv (int_value (wide ms conv) conv w)) rest).
Proof.
  intros Hc Ha. rewrite (bind_run _ _ _ _ _ (getnum_run ms conv out a w rest Ha)). unfold __pf_setbase. mrun.
  pose proof (int_value_range (wide ms conv) conv w) as Hv. set (v := int_value _ _ _) in *. unfold fetched.
  set (pf := MkPF _ _ _ _ _ _ _ _ _ _ _ _ _ _).
  match goal with |- context [mbind _ (__pf_printnum sendfunc) ?st] => assert (st = sent out (set_base (base_of conv) (alternate ms || (conv =? 112)) pf)) as -> end.
  { unfold set_base, sent, base_of. cbn. destruct (int_cases conv Hc) as [->|[->|[->|[->| ->]]]]; cbn; by destruct (alternate ms). }
  assert (8 <= base_of conv <= 16) as Hb by (unfold base_of; destruct ((conv =? 100) || (conv =? 117)), (conv =? 111); lia).
  rewrite (bind_run _ _ _ _ _ (printnum_run out (set_base (base_of conv) (alternate ms || (conv =? 112)) pf) Hb ltac:(cbn [num set_base pf]; lia) (fill_of_bounds ms))).
  rewrite endfield_run. cbn [rightspc fillchar spacing sign baseprefix base num ap set_base pf].
  assert (sign_text (if v <? 0 then -1 else 0) = if v <? 0 then [45] else []) as -> by (by destruct (v <? 0)).
  assert (prefix_text (alternate ms || (conv =? 112)) (base_of conv) = base_prefix ms conv) as ->; [|reflexivity].
  unfold prefix_text, base_prefix. by destruct (alternate ms || _), (base_of conv =? 16), (base_of conv =? 8).
Qed.

(** *** The format *)

Lemma send_field ms ch out a t a' :
  0 < ch < 256 -> is_mod ch = false -> Forall arg_ok a -> render_field ms ch a = Some (t, a') ->
  __pf_send sendfunc ch (inside ms out a) = Ret (tt, outside (out ++ t) a') /\ Forall arg_ok a'.
Proof.
  intros Hc Hm Ha Hr. unfold __pf_send. rewrite bind_kassert by (apply negb_true_iff, Z.eqb_neq; lia). mrun.
  change (in_pct (inside ms out a)) with true. cbn [negb andb].
  assert (terminated MODIFIERS /\ terminated INTEGERS) as [TM TI] by (split; by apply list_elem_of_In; cbn; auto 20).
  rewrite (bind_run _ _ _ _ _ (found_run MODIFIERS ch _ TM Hc)). fold (is_mod ch). rewrite Hm, (bind_run _ _ _ _ _ (found_run INTEGERS ch _ TI Hc)).
  fold (is_int ch). unfold render_field in Hr. destruct (is_int ch) eqn:Ei.
  - destruct a as [|[w|w|x] rest]; try done; destruct (wide ms ch) eqn:Ew; try done; injection Hr as <- <-;
      (split; [|by apply Forall_cons in Ha as [_ ?]]); rewrite (int_field ms ch out _ w rest Ei) by (by rewrite Ew); by rewrite Ew.
  - destruct (Z.eqb_spec ch 115) as [->|Hs].
    + destruct a as [|[w|w|x] rest]; try done. injection Hr as <- <-. apply Forall_cons in Ha as [Hx Ha]. split; [|done].
      unfold va_chars. mrun. cbn [ap inside sent set_client set_charcount]. mrun. change (set_ap rest (inside ms out _)) with (inside ms out rest).
      destruct x as [x|]; cbn [default]; [destruct Hx; by apply stuff_field|]. apply stuff_field; [by apply list_elem_of_In; cbn; auto 20|done].
    + destruct (Z.eqb_spec ch 99) as [->|Hcc].
      * destruct a as [|[w|w|x] rest]; try done. injection Hr as <- <-. apply Forall_cons in Ha as [Hx Ha]. split; [|done].
        unfold va_word. mrun. cbn [ap inside sent set_client set_charcount]. mrun. change (set_ap rest (inside ms out _)) with (inside ms out rest).
        apply stuff_field; [right; left|]. cbn. destruct (u8 w =? 0); cbn; lia.
      * injection Hr as <- <-. split; [|done]. mrun. rewrite (stuff_field ms out a [ch; 0]); [|right; left|].
        -- cbn [cstr]. by rewrite (proj2 (Z.eqb_neq ch 0)) by lia.
        -- cbn. destruct (ch =? 0); cbn; lia.
Qed.

Definition at_state (st : option (list Z)) out a : PF C := match st with None => outside out a | Some ms => inside ms out a end.

Lemma format_run fmt st out a t :
  terminated fmt -> format_ok st (cstr fmt) = true -> Forall arg_ok a -> render (pieces st (cstr fmt)) a = Some t ->
  exists st' a', format_loop sendfunc fmt (at_state st out a) = Ret (tt, at_state st' (out ++ t) a').
Proof.
  revert st out a t. induction fmt as [|c fmt IH]; intros st out a t Ht Hf Ha Hr; [by apply elem_of_nil in Ht|]. cbn [format_loop cstr] in *.
  apply terminated_cons in Ht. destruct (Z.eqb_spec c 0) as [->|Hc].
  { injection Hr as <-. exists st, a. by rewrite app_nil_r. }
  destruct Ht as [|Ht]; [done|]. cbn [format_ok pieces] in *. apply andb_true_iff in Hf as [Hb Hf]. assert (0 < c < 256) as Hcr by lia.
  destruct st as [ms|]; cbn [at_state].
  - destruct (is_mod c) eqn:Em.
    + apply andb_true_iff in Hf as [Hw Hf]. apply Z.ltb_lt in Hw. destruct (IH (Some (ms ++ [c])) out a t Ht Hf Ha Hr) as (st' & a' & Hrun). exists st', a'. rewrite <- Hrun.
      refine (bind_run _ (fun _ => format_loop sendfunc fmt) _ tt _ _). unfold __pf_send. rewrite bind_kassert by (apply negb_true_iff, Z.eqb_neq; lia). mrun.
      change (in_pct (inside ms out a)) with true. cbn [negb andb].
      rewrite (bind_run _ _ _ _ _ (found_run MODIFIERS c _ ltac:(by apply list_elem_of_In; cbn; auto 20) Hcr)). fold (is_mod c). rewrite Em. by apply modifier_run.
    + apply andb_true_iff in Hf as [_ Hf]. cbn [render] in Hr. destruct (render_field ms c a) as [[x a1]|] eqn:Ef; [|done].
      destruct (render (pieces None (cstr fmt)) a1) as [t'|] eqn:Er; [|done]. injection Hr as <-.
      destruct (send_field ms c out a x a1 Hcr Em Ha Ef) as [Hsend Ha1]. rewrite (bind_run _ _ _ _ _ Hsend).
      destruct (IH None (out ++ x) a1 t' Ht Hf Ha1 Er) as (st' & a' & Hrun). exists st', a'. by rewrite app_assoc.
  - destruct (Z.eqb_spec c 37) as [->|Hp].
    + destruct (IH (Some []) out a t Ht Hf Ha Hr) as (st' & a' & Hrun). exists st', a'. rewrite <- Hrun. by refine (bind_run _ (fun _ => format_loop sendfunc fmt) _ tt _ _).
    + cbn [render] in Hr. destruct (render (pieces None (cstr fmt)) a) as [t'|] eqn:Er; [|done]. injection Hr as <-.
      destruct (IH None (out ++ [c]) a t' Ht Hf Ha Er) as (st' & a' & Hrun). exists st', a'. rewrite <- app_assoc in Hrun. cbn [app] in Hrun. rewrite <- Hrun.
      refine (bind_run _ (fun _ => format_loop sendfunc fmt) _ tt _ _). unfold __pf_send. rewrite bind_kassert by (apply negb_true_iff, Z.eqb_neq; lia). mrun.
      rewrite (proj2 (Z.eqb_neq c 37) Hp). exact (print_run [c] out _).
Qed.

Lemma vprintf_run fmt args t :
  terminated fmt -> format_ok None (cstr fmt) = true -> Forall arg_ok args -> printf_text fmt args = Some t ->
  __vprintf sendfunc fmt args c0 = Ret (s32 (Z.of_nat (length t)), feed t c0).
Proof.
  intros Ht Hf Ha Hr. destruct (format_run fmt None [] args t Ht Hf Ha Hr) as (st' & a' & Hrun). unfold __vprintf.
  assert ((__pf_endfield;; format_loop sendfunc fmt) (MkPF C c0 args 0 false INTSZ 0 0 0 false 0 0 false false) = Ret (tt, at_state st' t a')) as ->.
  { change (at_state st' ([] ++ t) a') with (at_state st' t a') in Hrun. rewrite <- Hrun. unfold __pf_endfield. mrun. cbn [at_state]. unfold outside, sent.
    by rewrite feed_nil. }
  by destruct st'.
Qed.

End Run.

(** ** [snprintf] *)

(** What the buffer holds after [l] has been sent. *)
Definition stored (l : list Z) (s : SNP) : SNP :=
  foldl (fun s c => if bufpos s <? buflen s then MkSNP (arr_set (buf s) (bufpos s) c) (buflen s) (u32 (bufpos s + 1)) else s) s l.

Definition snp_ok (s : SNP) : Prop := 0 <= bufpos s <= buflen s /\ buflen s <= Z.of_nat (length (buf s)) /\ buflen s < 2 ^ 32 - 1.

Lemma send_run l s : snp_ok s -> __snprintf_send l s = Ret (tt, stored l s) /\ snp_ok (stored l s).
Proof.
  revert s. induction l as [|c l IH]; intros s Hs; [done|]. unfold __snprintf_send. cbn [for_each stored foldl]. pose proof Hs as (H1 & H2 & H3).
  destruct (Z.ltb_spec (bufpos s) (buflen s)) as [Hlt|Hge].
  - set (s1 := MkSNP _ _ _). assert (snp_ok s1) as Hs1.
    { unfold snp_ok, s1. cbn. rewrite arr_set_length, u32_id by lia. lia. }
    destruct (IH s1 Hs1) as [Hrun Hok]. split; [|exact Hok]. fold (stored l s1). rewrite <- Hrun. mrun. rewrite (proj2 (Z.ltb_lt _ _) Hlt). unfold put. mrun.
    destruct (proj2 (arr_get_is_Some (buf s) (bufpos s)) ltac:(lia)) as [y Hy]. rewrite (bind_valid _ _ _ _ y) by done. by mrun.
  - destruct (IH s Hs) as [Hrun Hok]. split; [|exact Hok]. fold (stored l s). rewrite <- Hrun. mrun. by rewrite (proj2 (Z.ltb_ge _ _) Hge).
Qed.

Lemma stored_app a b s : stored (a ++ b) s = stored b (stored a s).
Proof. apply foldl_app. Qed.

(** As many characters as fit, from the position on. *)
Lemma stored_text l s : snp_ok s ->
  let k := Nat.min (length l) (Z.to_nat (buflen s - bufpos s)) in
  stored l s = MkSNP (take (Z.to_nat (bufpos s)) (buf s) ++ take k l ++ drop (Z.to_nat (bufpos s) + k) (buf s)) (buflen s) (bufpos s + Z.of_nat k).
Proof.
  revert s. induction l as [|c l IH]; intros s Hs; pose proof Hs as (H1 & H2 & H3).
  - cbn. rewrite Nat.add_0_r, take_drop, Z.add_0_r. by destruct s.
  - cbn [stored foldl]. destruct (Z.ltb_spec (bufpos s) (buflen s)) as [Hlt|Hge].
    + set (s1 := MkSNP _ _ _). assert (snp_ok s1) as Hs1.
      { unfold snp_ok, s1. cbn. rewrite arr_set_length, u32_id by lia. lia. }
      fold (stored l s1). rewrite (IH s1 Hs1). unfold s1. cbn [buf buflen bufpos]. rewrite u32_id by lia. cbn [length].
      set (k := Nat.min (length l) _). assert (Nat.min (S (length l)) (Z.to_nat (buflen s - bufpos s)) = S k) as -> by lia. cbn [take].
      replace (Z.to_nat (bufpos s + 1)) with (S (Z.to_nat (bufpos s))) by lia. unfold arr_set. rewrite insert_take_drop by lia.
      f_equal; [|lia]. rewrite take_app_ge, drop_app_ge by (rewrite length_take; lia). rewrite length_take.
      replace (S (Z.to_nat (bufpos s)) - Z.to_nat (bufpos s) `min` length (buf s))%nat with 1%nat by lia.
      replace (S (Z.to_nat (bufpos s)) + k - Z.to_nat (bufpos s) `min` length (buf s))%nat with (S k) by lia. cbn [take drop].
      rewrite drop_drop, <- app_assoc. cbn [app]. by replace (Z.to_nat (bufpos s) + S k)%nat with (S (Z.to_nat (bufpos s)) + k)%nat by lia.
    + fold (stored l s). rewrite (IH s Hs). replace (Z.to_nat (buflen s - bufpos s)) with 0%nat by lia. by rewrite !Nat.min_0_r.
Qed.

Lemma snprintf_run b len fmt args text :
  0 <= len <= Z.of_nat (length b) -> len < 2 ^ 32 -> terminated fmt -> format_ok None (cstr fmt) = true -> Forall arg_ok args ->
  printf_text fmt args = Some text ->
  snprintf b len fmt args =
  Ret (s32 (Z.of_nat (length text)),
       if len =? 0 then b
       else let stored := take (Z.to_nat (len - 1)) text in stored ++ 0 :: drop (S (length stored)) b).
Proof.
  intros Hl Hmax Ht Hf Ha Htext. unfold snprintf, vsnprintf. set (s0 := MkSNP b _ 0).
  assert (snp_ok s0) as Hs0 by (unfold snp_ok, s0; cbn; destruct (Z.eqb_spec len 0); lia).
  assert (forall out, snp_ok (stored out s0)) as Hok by (intros out; by apply send_run).
  rewrite (bind_run _ _ _ _ _ (vprintf_run __snprintf_send stored s0 (fun out l => proj1 (send_run l _ (Hok out)))
    (fun c => eq_refl) stored_app fmt args text Ht Hf Ha Htext)).
  mrun. rewrite (stored_text text s0 Hs0). unfold s0. cbn [buf buflen bufpos]. rewrite Z.sub_0_r. change (Z.to_nat 0) with 0%nat. cbn [take app Nat.add].
  destruct (Z.eqb_spec len 0) as [->|Hn].
  - change (Z.to_nat 0) with 0%nat. rewrite Nat.min_0_r. reflexivity.
  - rewrite (proj2 (Z.ltb_lt 0 len)) by lia. set (k := Nat.min _ _). assert (length (take k text) = k) as Hk by (rewrite length_take; lia).
    assert (take (Z.to_nat (len - 1)) text = take k text) as ->.
    { destruct (decide (length text <= Z.to_nat (len - 1))%nat) as [Hle|Hgt].
      - rewrite !take_ge; [done|lia|lia].
      - f_equal. lia. }
    unfold put. mrun. cbn [buf].
    destruct (proj2 (arr_get_is_Some (take k text ++ drop k b) (0 + Z.of_nat k)) ltac:(rewrite length_app, Hk, length_drop; lia)) as [y Hy].
    rewrite (bind_valid _ _ _ _ y) by done. mrun. unfold mret, M_ret. cbn [buf]. do 2 f_equal. unfold arr_set.
    rewrite Z.add_0_l, Nat2Z.id, take_0. cbn [app]. rewrite insert_app_r_alt by (rewrite Hk; lia). rewrite Hk, Nat.sub_diag. f_equal.
    destruct (drop k b) as [|z r] eqn:E; [apply (f_equal length) in E; rewrite length_drop in E; cbn in E; lia|].
    cbn. f_equal. rewrite (drop_S b z k) in E; [by injection E|]. 
    rewrite <- (Nat.add_0_r k), <- lookup_drop, E. done.
Qed.


(** ** Theorems *)

(** C17 vprintf_reference. For a callback that keeps what it is sent, one format string
    produces exactly the text it denotes: the literal characters, and for each
    field its prefix, its digits or string, and the padding, on the side and with
    the character that the modifiers select; the result is the length of the
    text, as an [int].  No character is lost at the end of a field, and no
    conversion leaves its buffer.  Formats with the documented conversion [%X] are
    excluded: the code does not implement it ([printf_upper_hex]). *)
Theorem vprintf_reference {C} (sendfunc : list Z -> M C unit) (feed : list Z -> C -> C) c0 fmt args text :
  (forall out l, sendfunc l (feed out c0) = Ret (tt, feed l (feed out c0))) -> (forall c, feed [] c = c) ->
  (forall a b c, feed (a ++ b) c = feed b (feed a c)) ->
  terminated fmt -> format_ok None (cstr fmt) = true -> Forall arg_ok args -> printf_text fmt args = Some text ->
  __vprintf sendfunc fmt args c0 = Ret (s32 (Z.of_nat (length text)), feed text c0).
Proof. intros Hs Hn Ha. by apply vprintf_run. Qed.

(** C38 snprintf_spec. [snprintf] formats into any buffer of at least [len] bytes
    without writing past [len]: the buffer holds as much of the text that the
    format denotes as fits in [len - 1] bytes, a terminator, and what it held
    before from there on; with length 0 nothing is written, not even a terminator.
    The result is the length of the whole text, stored or not.  Formats with [%X] are
    excluded, as in [vprintf_reference]. *)
Theorem snprintf_spec b len fmt args text :
  0 <= len <= Z.of_nat (length b) -> len < 2 ^ 32 -> terminated fmt -> format_ok None (cstr fmt) = true -> Forall arg_ok args ->
  printf_text fmt args = Some text ->
  snprintf b len fmt args =
  Ret (s32 (Z.of_nat (length text)),
       if len =? 0 then b
       else let stored := take (Z.to_nat (len - 1)) text in stored ++ 0 :: drop (S (length stored)) b).
Proof. apply snprintf_run. Qed.

(** printf_upper_hex. [%X], documented as uppercase hexadecimal, prints the letter X
    and consumes no argument: for the argument 255 the text is X and not FF, and the
    next field prints the 255. *)
Theorem printf_upper_hex :
  snprintf (replicate 8 0) 8 [37; 88; 0] [Word 255] = Ret (1, [88; 0; 0; 0; 0; 0; 0; 0]) /\
  snprintf (replicate 8 0) 8 [37; 88; 37; 117; 0] [Word 255; Word 7] = Ret (4, [88; 50; 53; 53; 0; 0; 0; 0]).
Proof. split; vm_compute; reflexivity. Qed.

(** snprintf_length_zero. With length 0 nothing is stored, and with a short buffer the
    result counts characters that were not stored. *)
Theorem snprintf_length_zero :
  snprintf [170] 0 [97; 98; 99; 0] [] = Ret (3, [170]) /\ snprintf [170; 170] 2 [97; 98; 99; 0] [] = Ret (3, [97; 0]).
Proof. split; vm_compute; reflexivity. Qed.

(** *** Numerals *)

Definition digit_val (c : Z) : Z := if c <? 58 then c - 48 else c - 87.

Definition numeral_val (b : Z) (l : list Z) : Z := foldl (fun v c => b * v + digit_val c) 0 l.

Lemma digit_val_char d : 0 <= d < 16 -> digit_val (digit_char d) = d.
Proof. intros Hd. unfold digit_val, digit_char. destruct (Z.ltb_spec d 10); [destruct (Z.ltb_spec (48 + d) 58)|destruct (Z.ltb_spec (87 + d) 58)]; lia. Qed.

Lemma numeral_val_run k b n : 2 <= b <= 16 -> 0 <= n < b ^ Z.of_nat (S k) -> numeral_val b (numeral (S k) b n) = n.
Proof.
  intros Hb. revert n. induction k as [|k IH]; intros n Hn; rewrite numeral_S; unfold numeral_val; rewrite foldl_snoc;
    pose proof (Z.mod_pos_bound n b ltac:(lia)) as Hm; rewrite digit_val_char by lia.
  - rewrite Z.pow_1_r in Hn. rewrite (proj2 (Z.ltb_lt n b)) by lia. cbn. rewrite Z.mod_small by lia. lia.
  - rewrite Nat2Z.inj_succ, Z.pow_succ_r in Hn by lia. destruct (Z.ltb_spec n b) as [Hlt|Hge].
    + cbn. rewrite Z.mod_small by lia. lia.
    + fold (numeral_val b (numeral (S k) b (n / b))). rewrite IH; [|split; [apply Z.div_pos; lia|apply Z.div_lt_upper_bound; lia]]. pose proof (Z.div_mod n b ltac:(lia)). lia.
Qed.

Lemma numeral_head k b n : 2 <= b <= 16 -> 0 < n < b ^ Z.of_nat (S k) -> head (numeral (S k) b n) <> Some 48.
Proof.
  intros Hb. revert n. induction k as [|k IH]; intros n Hn; rewrite numeral_S.
  - rewrite Z.pow_1_r in Hn. rewrite (proj2 (Z.ltb_lt n b)), Z.mod_small by lia. cbn. unfold digit_char. destruct (n <? 10); intros [= E]; lia.
  - rewrite Nat2Z.inj_succ, Z.pow_succ_r in Hn by lia. destruct (Z.ltb_spec n b) as [Hlt|Hge].
    + rewrite Z.mod_small by lia. cbn. unfold digit_char. destruct (n <? 10); intros [= E]; lia.
    + assert (0 < n / b < b ^ Z.of_nat (S k)) as Hq by (split; [apply Z.div_str_pos; lia|apply Z.div_lt_upper_bound; lia]).
      specialize (IH (n / b) Hq). pose proof (numeral_length k b (n / b)) as Hl. destruct (numeral (S k) b (n / b)); [cbn in Hl; lia|exact IH].
Qed.

Lemma numeral_short j k b n : 2 <= b -> n < b ^ Z.of_nat (S j) -> (j <= k)%nat -> (length (numeral (S k) b n) <= S j)%nat.
Proof.
  intros Hb. revert k n. induction j as [|j IH]; intros k n Hn Hk; rewrite numeral_S, length_app; cbn [length].
  - rewrite Z.pow_1_r in Hn. rewrite (proj2 (Z.ltb_lt n b)) by lia. cbn. lia.
  - destruct (Z.ltb_spec n b) as [Hlt|Hge]; [cbn; lia|]. destruct k as [|k]; [lia|].
    rewrite Nat2Z.inj_succ, Z.pow_succ_r in Hn by lia. specialize (IH k (n / b) ltac:(apply Z.div_lt_upper_bound; lia) ltac:(lia)). lia.
Qed.

(** C29 number_conversion_exact. The digits that a 64-bit number is converted to, in base
    8, 10 or 16, fill the buffer at most exactly, denote the number, and have
    no leading zero unless the number is 0. *)
Theorem number_conversion_exact b n :
  8 <= b <= 16 -> 0 <= n < 2 ^ 64 ->
  let digits := numeral MAX_DIGITS b n in
  let buf := arr_set (replicate (Z.to_nat NUMBER_BUF_SIZE) 170) (NUMBER_BUF_SIZE - 1) 0 in
  (exists l x, digit_loop 64 b buf (NUMBER_BUF_SIZE - 2) n = Ret (l, x) /\ cstr (drop (Z.to_nat (x + 1)) l) = digits /\ -1 <= x) /\
  numeral_val b digits = n /\ (n <> 0 -> head digits <> Some 48).
Proof.
  intros Hb Hn digits l. pose proof (number_fits b n ltac:(lia) ltac:(lia)) as Hfit. split.
  - pose proof (digit_loop_run 21 64 b l 21 n ltac:(lia) ltac:(change (Z.of_nat 22) with (Z.of_nat MAX_DIGITS); lia) ltac:(lia) ltac:(split; [lia|done])) as Hloop.
    cbv zeta in Hloop. change (numeral 22 b n) with digits in Hloop. pose proof (numeral_length 21 b n) as Hlen. change (numeral 22 b n) with digits in Hlen.
    do 2 eexists. split; [exact Hloop|]. split; [|lia].
    replace (Z.to_nat (21 - Z.of_nat (length digits) + 1)) with (Z.to_nat (21 + 1) - length digits)%nat by lia. rewrite drop_app_length'.
    + apply (cstr_app digits []). apply numeral_clean. lia.
    + rewrite length_take. unfold l. rewrite arr_set_length, length_replicate. change (Z.to_nat NUMBER_BUF_SIZE) with 23%nat. lia.
  - split; [apply numeral_val_run|intros H0; apply numeral_head]; change (Z.of_nat 22) with (Z.of_nat MAX_DIGITS); lia.
Qed.

(** *** Printing and reading *)

Lemma decimal_digits k n : 0 <= n -> exists ds, numeral k 10 n = (fun d => 48 + d) <$> ds /\ Forall digit ds.
Proof.
  revert n. induction k as [|k IH]; intros n Hn; [by exists []|]. rewrite numeral_S. pose proof (Z.mod_pos_bound n 10 ltac:(lia)) as Hm.
  assert (digit_char (n mod 10) = 48 + n mod 10) as Ed by (unfold digit_char; by rewrite (proj2 (Z.ltb_lt _ _)) by lia). rewrite Ed.
  destruct (n <? 10); [exists [n mod 10]; split; [done|repeat constructor; lia]|].
  destruct (IH (n / 10) ltac:(apply Z.div_pos; lia)) as (ds & -> & Hds). exists (ds ++ [n mod 10]). rewrite fmap_app. split; [done|].
  apply Forall_app. split; [done|]. repeat constructor; lia.
Qed.

Lemma decimal_value ds : Forall digit ds -> numeral_val 10 ((fun d => 48 + d) <$> ds) = value 0 ds.
Proof.
  intros Hd. unfold numeral_val, value. generalize 0 as v. induction Hd as [|d ds Hd _ IH]; intros v; [done|]. cbn [fmap list_fmap foldl]. rewrite IH.
  do 2 f_equal. unfold digit_val, digit in *. rewrite (proj2 (Z.ltb_lt _ _)) by lia. lia.
Qed.

Definition PERCENT_D : list Z := [37; 100; 0].

Lemma percent_d_text w : printf_text PERCENT_D [Word w] = Some ((if s32 w <? 0 then [45] else []) ++ numeral MAX_DIGITS 10 (Z.abs (s32 w))).
Proof.
  change (printf_text PERCENT_D [Word w]) with (Some (render_int [] 100 (int_value false 100 w) ++ [])). rewrite app_nil_r. f_equal.
  change (int_value false 100 w) with (s32 w). unfold render_int, field_text, justify. change (base_prefix [] 100) with (@nil Z). change (base_of 100) with 10.
  change (left_align []) with false. change (fill_of []) with 32. change (width []) with 0. cbn [Z.eqb Pos.eqb]. rewrite app_nil_r.
  by replace (Z.to_nat _) with 0%nat by lia.
Qed.

(** C28 snprintf_atoi. Reading back with [atoi] what [snprintf] prints with ["%d"] gives the
    number again, for every [int], the smallest included, in a buffer of
    12 bytes or more. *)
Theorem snprintf_atoi b len w :
  12 <= len <= Z.of_nat (length b) -> len < 2 ^ 32 ->
  exists chars b', snprintf b len PERCENT_D [Word w] = Ret (chars, b') /\ atoi b' = Ret (s32 w) /\ chars = Z.of_nat (length (cstr b')).
Proof.
  intros Hl Hmax. pose proof (int_range w) as Hr. set (v := s32 w) in *. pose proof (percent_d_text w) as Htext. fold v in Htext.
  pose proof (snprintf_run b len PERCENT_D [Word w] _ ltac:(lia) Hmax ltac:(apply list_elem_of_In; cbn; auto) ltac:(reflexivity)
    ltac:(repeat constructor) Htext) as Hrun.
  destruct (decimal_digits MAX_DIGITS (Z.abs v) ltac:(lia)) as (ds & Ed & Hds).
  pose proof (numeral_short 9 21 10 (Z.abs v) ltac:(lia) ltac:(change (10 ^ Z.of_nat 10) with 10000000000; lia) ltac:(lia)) as Hshort.
  pose proof (numeral_val_run 21 10 (Z.abs v) ltac:(lia) ltac:(change (10 ^ Z.of_nat 22) with 10000000000000000000000; lia)) as Hval.
  pose proof (numeral_length 21 10 (Z.abs v)) as Hlen. change (numeral 22 10 (Z.abs v)) with (numeral MAX_DIGITS 10 (Z.abs v)) in *.
  rewrite Ed in *. rewrite decimal_value in Hval by done. rewrite length_fmap in *.
  set (text := (if v <? 0 then [45] else []) ++ _) in *.
  assert (length text <= 11)%nat as Ht by (unfold text; rewrite length_app, length_fmap; destruct (v <? 0); cbn; lia).
  rewrite (proj2 (Z.eqb_neq len 0)) in Hrun by lia. cbv zeta in Hrun. rewrite take_ge in Hrun by lia. do 2 eexists. split; [exact Hrun|].
  assert (clean text) as Hclean.
  { apply Forall_app. split; [destruct (v <? 0); by repeat constructor|]. apply Forall_fmap. eapply Forall_impl; [exact Hds|]. unfold digit. intros d Hd. cbn. lia. }
  split; [|rewrite cstr_app by done; by rewrite s32_id by lia].
  assert (ds <> []) as Hne by (intros ->; cbn in Hlen; lia).
  unfold text. rewrite <- app_assoc. destruct (Z.ltb_spec v 0) as [Hneg|Hpos].
  - cbn [app]. unfold atoi. cbn [skip_blanks]. change ((45 =? 32) || (45 =? 9)) with false. cbv iota. change (45 =? 45) with true. cbn [orb].
    rewrite atoi_digits_spec by (done || lia). rewrite Hval. f_equal. rewrite s32_u32. replace (- Z.abs v) with v by lia. apply s32_id. lia.
  - cbn [app]. etransitivity; [apply (atoi_spec [] false ds); [constructor|done|done|lia]|]. f_equal. lia.
Qed.

(** left_align_zero_fill. The flag [-] does not override [0]: a left-aligned field with a
    leading zero is padded with zeros on the right. *)
Theorem left_align_zero_fill : snprintf (replicate 8 170) 8 [37; 45; 48; 53; 100; 0] [Word 42] = Ret (5, [52; 50; 48; 48; 48; 0; 170; 170]).
Proof. reflexivity. Qed.

(** *** Witnesses *)

Lemma vprintf_reference_witness :
  __vprintf (fun l => modify (fun c => c ++ l)) [120; 61; 37; 48; 53; 120; 33; 0] [Word 255] [] = Ret (8, [120; 61; 48; 48; 48; 102; 102; 33]).
Proof.
  apply (vprintf_reference (fun l => modify (fun c => c ++ l)) (fun l c => c ++ l) [] [120; 61; 37; 48; 53; 120; 33; 0] [Word 255] [120; 61; 48; 48; 48; 102; 102; 33]).
  - done.
  - intros c. apply app_nil_r.
  - intros a b c. apply app_assoc.
  - apply list_elem_of_In. cbn. auto 20.
  - reflexivity.
  - repeat constructor.
  - reflexivity.
Defined.

Lemma snprintf_spec_witness : snprintf (replicate 8 170) 4 [37; 117; 0] [Word 123456] = Ret (6, [49; 50; 51; 0; 170; 170; 170; 170]).
Proof.
  rewrite (snprintf_spec (replicate 8 170) 4 [37; 117; 0] [Word 123456] [49; 50; 51; 52; 53; 54]); [reflexivity|cbn; lia|lia| |reflexivity|repeat constructor|reflexivity].
  apply list_elem_of_In. cbn. auto 20.
Defined.

Lemma number_conversion_exact_witness : numeral_val 8 (numeral MAX_DIGITS 8 (2 ^ 64 - 1)) = 2 ^ 64 - 1 /\ length (numeral MAX_DIGITS 8 (2 ^ 64 - 1)) = 22%nat.
Proof. split; [|reflexivity]. apply (number_conversion_exact 8 (2 ^ 64 - 1)); lia. Defined.

Lemma snprintf_atoi_witness :
  exists chars b', snprintf (replicate 16 170) 12 PERCENT_D [Word (2 ^ 31)] = Ret (chars, b') /\ atoi b' = Ret (- 2 ^ 31) /\ chars = Z.of_nat (length (cstr b')).
Proof. apply (snprintf_atoi (replicate 16 170) 12 (2 ^ 31)); [cbn; lia|lia]. Defined.

End Printf.
