(* ===== verification/VfsList.v ===== *)
(** * The table of named devices and mounted file systems

    Models [kern/vfs/vfslist.c], [kern/vfs/device.c] and [kern/vfs/devnull.c].  The
    operations of the file systems are the class [Fsops]: they work on the vnodes
    and on a state of their own. *)

From S2P Require Import Prelude Sync Vnode CString Copy Stream.

Module VfsList.
Import Str.

(** ** State *)

(** [struct device]; [d_ops] and [d_data] are pointers. *)
Record device := MkDevice { d_ops : Z; d_blocks : Z; d_blocksize : Z; d_devnumber : Z; d_data : Z }.

(** [struct knowndev]: strings are the bytes of their objects, pointers are addresses. *)
Record knowndev := MkKd { kd_name : list Z; kd_rawname : option (list Z); kd_device : Z; kd_vnode : Z; kd_fs : Z }.

Definition with_fs (fs : Z) (kd : knowndev) : knowndev := MkKd (kd_name kd) (kd_rawname kd) (kd_device kd) (kd_vnode kd) fs.

(** A placeholder for [kd_fs] for devices used as swap. *)
Definition SWAP_FS : Z := 2 ^ 32 - 1.

Definition S_IFDIR : Z := 8192.
Definition S_IFCHR : Z := 24576.
Definition S_IFBLK : Z := 28672.

Definition O_APPEND : Z := 32.

(** The operations of the file systems and of the device drivers.  [fsop_getvolname]
    gives the name, or [None] for a null pointer; [fsop_getroot], [vop_lookup] and
    [vop_gettype] give the error code and [*ret]; [vop_lookparent] also gives [buf]. *)
Class Fsops := {
  world : Type;
  fsop_sync : Z -> M (vst * world) Z;
  fsop_getvolname : Z -> M (vst * world) (option (list Z));
  fsop_getroot : Z -> M (vst * world) (Z * Z);
  fsop_unmount : Z -> M (vst * world) Z;
  vop_reclaim : Z -> M (vst * world) Z;
  vop_lookup : Z -> list Z -> M (vst * world) (Z * Z);
  vop_lookparent : Z -> list Z -> list Z -> M (vst * world) (Z * Z * list Z);
  vop_gettype : Z -> M (vst * world) (Z * Z);
  vop_namefile : Z -> Stream.uio -> M (vst * world) (Z * Stream.uio);
  devop_eachopen : Z -> Z -> M (vst * world) Z;
  devop_io : Z -> Uio.uio -> M (vst * world) (Z * Uio.uio);
  devop_ioctl : Z -> Z -> Z -> M (vst * world) Z;
}.

Section Code.
Context `{Fsops}.

(** [p_cwd] is that of the current process, [curproc]. *)
Record vfs := MkVfs {
  f_vst : vst;
  f_world : world;
  vfs_biglock_depth : Z;
  knowndevs : list knowndev;
  devices : gmap Z device;
  bootfs_vnode : Z;
  curproc : Z;
  p_cwd : Z;
}.

Definition set_fs (x : vst * world) (s : vfs) : vfs :=
  MkVfs (fst x) (snd x) (vfs_biglock_depth s) (knowndevs s) (devices s) (bootfs_vnode s) (curproc s) (p_cwd s).
Definition set_depth (d : Z) (s : vfs) : vfs :=
  MkVfs (f_vst s) (f_world s) d (knowndevs s) (devices s) (bootfs_vnode s) (curproc s) (p_cwd s).
Definition set_knowndevs (l : list knowndev) (s : vfs) : vfs :=
  MkVfs (f_vst s) (f_world s) (vfs_biglock_depth s) l (devices s) (bootfs_vnode s) (curproc s) (p_cwd s).
Definition set_devices (m : gmap Z device) (s : vfs) : vfs :=
  MkVfs (f_vst s) (f_world s) (vfs_biglock_depth s) (knowndevs s) m (bootfs_vnode s) (curproc s) (p_cwd s).
Definition set_bootfs (v : Z) (s : vfs) : vfs :=
  MkVfs (f_vst s) (f_world s) (vfs_biglock_depth s) (knowndevs s) (devices s) v (curproc s) (p_cwd s).
Definition set_cwd (v : Z) (s : vfs) : vfs :=
  MkVfs (f_vst s) (f_world s) (vfs_biglock_depth s) (knowndevs s) (devices s) (bootfs_vnode s) (curproc s) v.
Definition set_vst (t : vst) (s : vfs) : vfs := set_fs (t, f_world s) s.

Definition in_fs {A} (c : M (vst * world) A) : M vfs A := zoom (fun s => (f_vst s, f_world s)) set_fs c.
Definition in_vst {A} (c : M vst A) : M vfs A := zoom f_vst set_vst c.

Definition nz (result : Z) : bool := negb (result =? 0).

(** [__VOP]: the checks before every call through a vnode. *)
Definition VOP {A} (vn : Z) (call : M (vst * world) A) : M vfs A := in_vst (Vnode.vnode_check vn);; in_fs call.

Definition VOP_INCREF (vn : Z) : M vfs unit := in_vst (Vnode.vnode_incref vn).

Definition VOP_DECREF (vn : Z) : M vfs unit :=
  last ← in_vst (Vnode.decref_count vn);
  if last : bool then VOP vn (vop_reclaim vn);; mret tt else mret tt.

(** ** The big lock; without option synch only its depth has an effect *)

Definition vfs_biglock_acquire : M vfs unit := modify (fun s => set_depth (u32 (vfs_biglock_depth s + 1)) s).

Definition vfs_biglock_release : M vfs unit :=
  s ← get;
  kassert (0 <? vfs_biglock_depth s) "vfs_biglock_depth > 0";;
  modify (fun s => set_depth (u32 (vfs_biglock_depth s - 1)) s).

Definition vfs_biglock_do_i_hold : bool := true.

(** ** Strings *)

Definition streq (a b : list Z) : M vfs bool := r ← lift (strcmp a b); mret (r =? 0).

Definition samestring (a b : option (list Z)) : M vfs bool :=
  match a, b with
  | Some a, Some b => streq a b
  | _, _ => mret false
  end.

(** [a || b] *)
Definition por (a b : M vfs bool) : M vfs bool := x ← a; if x : bool then mret true else b.

Definition samestring3 (a b c d : option (list Z)) : M vfs bool :=
  por (samestring a b) (por (samestring a c) (samestring a d)).

(** [FSOP_GETVOLNAME] of a device that has a file system. *)
Definition has_fs (kd : knowndev) : bool := negb (kd_fs kd =? 0) && negb (kd_fs kd =? SWAP_FS).

(** ** Finding a device *)

Definition hand_out (kd : knowndev) : M vfs (Z * Z) :=
  kassert (negb (kd_device kd =? 0)) "kd->kd_device != NULL";;
  VOP_INCREF (kd_vnode kd);;
  mret (0, kd_vnode kd).

(** One turn of the loop of [vfs_getroot]: a result, or on to the next device. *)
Definition try_device (kd : knowndev) (devname : list Z) : M vfs (option (Z * Z)) :=
  found ← (if has_fs kd then
             volname ← in_fs (fsop_getvolname (kd_fs kd));
             hit ← por (streq (kd_name kd) devname) (samestring volname (Some devname));
             if hit : bool then r ← in_fs (fsop_getroot (kd_fs kd)); mret (Some r) else mret None
           else
             match kd_rawname kd with
             | Some _ => hit ← streq (kd_name kd) devname; mret (if hit : bool then Some (ENXIO, 0) else None)
             | None => mret None
             end);
  match found with
  | Some r => mret (Some r)
  | None =>
      hit ← streq (kd_name kd) devname;
      if hit : bool then
        kassert (kd_fs kd =? 0) "kd->kd_fs==NULL";;
        kassert (bool_decide (kd_rawname kd = None)) "kd->kd_rawname==NULL";;
        r ← hand_out kd;
        mret (Some r)
      else
        hit ← samestring (kd_rawname kd) (Some devname);
        if hit : bool then r ← hand_out kd; mret (Some r) else mret None
  end.

Fixpoint getroot_loop (l : list knowndev) (devname : list Z) : M vfs (Z * Z) :=
  match l with
  | [] => mret (ENODEV, 0)
  | kd :: l' =>
      found ← try_device kd devname;
      match found with
      | Some r => mret r
      | None => getroot_loop l' devname
      end
  end.

Definition vfs_getroot (devname : list Z) : M vfs (Z * Z) :=
  kassert vfs_biglock_do_i_hold "vfs_biglock_do_i_hold()";;
  s ← get;
  getroot_loop (knowndevs s) devname.

Definition vfs_getdevname (fs : Z) : M vfs (option (list Z)) :=
  kassert (negb (fs =? 0)) "fs != NULL";;
  kassert vfs_biglock_do_i_hold "vfs_biglock_do_i_hold()";;
  s ← get;
  mret (kd_name <$> head (filter (fun kd => kd_fs kd = fs) (knowndevs s))).

(** ** Syncing *)

Definition vfs_sync : M vfs Z :=
  vfs_biglock_acquire;;
  s ← get;
  for_each (knowndevs s) (fun kd => if has_fs kd then in_fs (fsop_sync (kd_fs kd));; mret tt else mret tt);;
  vfs_biglock_release;;
  mret 0.

(** ** Adding a device *)

Fixpoint badnames_loop (l : list knowndev) (n1 n2 n3 : option (list Z)) : M vfs bool :=
  match l with
  | [] => mret false
  | kd :: l' =>
      hit ← (if has_fs kd then volname ← in_fs (fsop_getvolname (kd_fs kd)); samestring3 volname n1 n2 n3 else mret false);
      if hit : bool then mret true
      else
        hit ← por (samestring3 (kd_rawname kd) n1 n2 n3) (samestring3 (Some (kd_name kd)) n1 n2 n3);
        if hit : bool then mret true else badnames_loop l' n1 n2 n3
  end.

Definition badnames (n1 n2 n3 : option (list Z)) : M vfs bool :=
  kassert vfs_biglock_do_i_hold "vfs_biglock_do_i_hold()";;
  s ← get;
  badnames_loop (knowndevs s) n1 n2 n3.

(** The address of [dev_vnode_ops]. *)
Definition dev_vnode_ops : Z := 0x80210000.

(** [v] is what [kmalloc] returned. *)
Definition dev_create_vnode (v dev : Z) : M vfs Z :=
  if v =? 0 then mret 0
  else
    result ← in_vst (Vnode.vnode_init v dev_vnode_ops 0 dev);
    if nz result then panic "While creating vnode for device: vnode_init" else mret v.

(** [vnode_cleanup] and [kfree]. *)
Definition dev_uncreate_vnode (vn : Z) : M vfs unit :=
  x ← in_vst (Vnode.deref vn);
  kassert (vn_ops x =? dev_vnode_ops) "vn->vn_ops == &dev_vnode_ops";;
  in_vst (Vnode.vnode_cleanup vn);;
  modify (fun s => set_vst (set_tab (delete vn (v_tab (f_vst s))) (f_vst s)) s).

(** [dev->d_devnumber = n] *)
Definition set_devnumber (dev n : Z) : M vfs unit :=
  s ← get;
  d ← valid (devices s !! dev) "dev";
  modify (set_devices (<[dev := MkDevice (d_ops d) (d_blocks d) (d_blocksize d) n (d_data d)]> (devices s))).

(** The results of the allocations that [vfs_doadd] makes, in order: the name, the
    raw name, the vnode (its address), the entry and the room in the array. *)
Record memory := Memory { ok_name : bool; ok_rawname : bool; a_vnode : Z; ok_kd : bool; ok_room : bool }.

Definition RAW : list Z := [114; 97; 119; 0].

(** The string in an object of its own; [ok] is whether [kmalloc] succeeds. *)
Definition kstrdup (ok : bool) (s : list Z) : M vfs (option (list Z)) :=
  n ← lift (strlen s);
  if ok then z ← lift (strcpy (replicate (Z.to_nat (n + 1)) 0) s); mret (Some z) else mret None.

Definition mkrawname (ok : bool) (name : list Z) : M vfs (option (list Z)) :=
  n ← lift (strlen name);
  if ok then
    s ← lift (strcpy (replicate (Z.to_nat (n + 4)) 0) name);
    s ← lift (strcat s RAW);
    mret (Some s)
  else mret None.

(** The code at [fail]: the vnode is destroyed, the rest is [kfree]. *)
Definition doadd_fail (vnode result : Z) : M vfs Z :=
  (if negb (vnode =? 0) then dev_uncreate_vnode vnode else mret tt);;
  vfs_biglock_release;;
  mret result.

Definition vfs_doadd (m : memory) (dname : list Z) (mountable : bool) (dev fs : Z) : M vfs Z :=
  vfs_biglock_acquire;;
  name ← kstrdup (ok_name m) dname;
  match name with
  | None => doadd_fail 0 ENOMEM
  | Some name =>
      rawname ← (if mountable then mkrawname (ok_rawname m) name else mret None);
      if mountable && bool_decide (rawname = None) then doadd_fail 0 ENOMEM
      else
        vnode ← dev_create_vnode (a_vnode m) dev;
        if vnode =? 0 then doadd_fail 0 ENOMEM
        else if negb (ok_kd m) then doadd_fail vnode ENOMEM
        else
          let kd := MkKd name rawname dev vnode fs in
          volname ← (if negb (fs =? 0) then in_fs (fsop_getvolname fs) else mret None);
          bad ← badnames (Some name) rawname volname;
          if bad : bool then doadd_fail vnode EEXIST
          else if negb (ok_room m) then doadd_fail vnode ENOMEM
          else
            s ← get;
            modify (fun s => set_knowndevs (knowndevs s ++ [kd]) s);;
            (if negb (dev =? 0) then set_devnumber dev (u32 (Z.of_nat (length (knowndevs s)) + 1)) else mret tt);;
            vfs_biglock_release;;
            mret 0
  end.

Definition vfs_adddev (m : memory) (devname : list Z) (dev : Z) (mountable : bool) : M vfs Z := vfs_doadd m devname mountable dev 0.

Definition vfs_addfs (m : memory) (devname : list Z) (fs : Z) : M vfs Z := vfs_doadd m devname false 0 fs.

(** ** Mounting *)

(** The index of a mountable device. *)
Fixpoint findmount_loop (i : Z) (l : list knowndev) (devname : list Z) : M vfs (option Z) :=
  match l with
  | [] => mret None
  | kd :: l' =>
      match kd_rawname kd with
      | None => findmount_loop (i + 1) l' devname
      | Some _ =>
          hit ← streq devname (kd_name kd);
          if hit : bool then mret (Some i) else findmount_loop (i + 1) l' devname
      end
  end.

Definition findmount (devname : list Z) : M vfs (option Z) :=
  kassert vfs_biglock_do_i_hold "vfs_biglock_do_i_hold()";;
  s ← get;
  findmount_loop 0 (knowndevs s) devname.

Definition get_kd (i : Z) : M vfs knowndev := s ← get; valid (arr_get (knowndevs s) i) "kd".

(** [kd->kd_fs = fs] *)
Definition put_fs (i fs : Z) : M vfs unit :=
  modify (fun s => match arr_get (knowndevs s) i with
                   | Some kd => set_knowndevs (arr_set (knowndevs s) i (with_fs fs kd)) s
                   | None => s
                   end).

Definition check_mountable (kd : knowndev) : M vfs unit :=
  kassert (bool_decide (kd_rawname kd <> None)) "kd->kd_rawname != NULL";;
  kassert (negb (kd_device kd =? 0)) "kd->kd_device != NULL".

(** [mountfunc] gives the error code and [fs]; the message is not modelled. *)
Definition vfs_mount (devname : list Z) (mountfunc : Z -> M (vst * world) (Z * Z)) : M vfs Z :=
  vfs_biglock_acquire;;
  r ← findmount devname;
  match r with
  | None => vfs_biglock_release;; mret ENODEV
  | Some i =>
      kd ← get_kd i;
      if negb (kd_fs kd =? 0) then vfs_biglock_release;; mret EBUSY
      else
        check_mountable kd;;
        '(result, fs) ← in_fs (mountfunc (kd_device kd));
        if nz result then vfs_biglock_release;; mret result
        else
          kassert (negb (fs =? 0)) "fs != NULL";;
          kassert (negb (fs =? SWAP_FS)) "fs != SWAP_FS";;
          put_fs i fs;;
          in_fs (fsop_getvolname fs);;
          vfs_biglock_release;;
          mret 0
  end.

(** [devname] without a trailing colon; [ok] is whether [kstrdup] succeeds. *)
Definition strip_colon (ok : bool) (devname : list Z) : M vfs (option (list Z)) :=
  len ← lift (strlen devname);
  if (0 <? len) && bool_decide (arr_get devname (len - 1) = Some 58) then
    myname ← kstrdup ok devname;
    mret ((fun s => arr_set s (len - 1) 0) <$> myname)
  else mret (Some devname).

(** The error code and [*ret]. *)
Definition vfs_swapon (ok : bool) (devname : list Z) : M vfs (Z * Z) :=
  name ← strip_colon ok devname;
  match name with
  | None => mret (ENOMEM, 0)
  | Some devname =>
      vfs_biglock_acquire;;
      r ← findmount devname;
      match r with
      | None => vfs_biglock_release;; mret (ENODEV, 0)
      | Some i =>
          kd ← get_kd i;
          if negb (kd_fs kd =? 0) then vfs_biglock_release;; mret (EBUSY, 0)
          else
            check_mountable kd;;
            put_fs i SWAP_FS;;
            VOP_INCREF (kd_vnode kd);;
            vfs_biglock_release;;
            mret (0, kd_vnode kd)
      end
  end.

Definition vfs_unmount (devname : list Z) : M vfs Z :=
  vfs_biglock_acquire;;
  r ← findmount devname;
  match r with
  | None => vfs_biglock_release;; mret ENODEV
  | Some i =>
      kd ← get_kd i;
      if (kd_fs kd =? 0) || (kd_fs kd =? SWAP_FS) then vfs_biglock_release;; mret EINVAL
      else
        check_mountable kd;;
        result ← in_fs (fsop_sync (kd_fs kd));
        if nz result then vfs_biglock_release;; mret result
        else
          result ← in_fs (fsop_unmount (kd_fs kd));
          if nz result then vfs_biglock_release;; mret result
          else put_fs i 0;; vfs_biglock_release;; mret 0
  end.

Definition vfs_swapoff (devname : list Z) : M vfs Z :=
  vfs_biglock_acquire;;
  r ← findmount devname;
  match r with
  | None => vfs_biglock_release;; mret ENODEV
  | Some i =>
      kd ← get_kd i;
      if negb (kd_fs kd =? SWAP_FS) then vfs_biglock_release;; mret EINVAL
      else put_fs i 0;; vfs_biglock_release;; mret 0
  end.

(** One turn of the loop of [vfs_unmountall]. *)
Definition unmount_one (i : Z) : M vfs unit :=
  kd ← get_kd i;
  match kd_rawname kd with
  | None => mret tt
  | Some _ =>
      if kd_fs kd =? 0 then mret tt
      else if kd_fs kd =? SWAP_FS then put_fs i 0
      else
        result ← in_fs (fsop_sync (kd_fs kd));
        again ← (if nz result then in_fs (fsop_sync (kd_fs kd)) else mret 0);
        if nz again then mret tt
        else
          result ← in_fs (fsop_unmount (kd_fs kd));
          if nz result then mret tt else put_fs i 0
  end.

Definition vfs_unmountall : M vfs Z :=
  vfs_biglock_acquire;;
  s ← get;
  for_each (seqZ 0 (Z.of_nat (length (knowndevs s)))) unmount_one;;
  vfs_biglock_release;;
  mret 0.

(** ** [device.c] *)

(** The device of a vnode. *)
Definition get_device (v : Z) : M vfs (Z * device) :=
  x ← in_vst (Vnode.deref v);
  s ← get;
  d ← valid (devices s !! vn_data x) "v->vn_data";
  mret (vn_data x, d).

Definition dev_eachopen (v flags : Z) : M vfs Z :=
  '(a, _) ← get_device v;
  if nz (Z.land flags (Z.lor (Z.lor Vfs.O_CREAT Vfs.O_TRUNC) (Z.lor Vfs.O_EXCL O_APPEND))) then mret EINVAL
  else in_fs (devop_eachopen a flags).

Definition dev_reclaim (v : Z) : M vfs Z := mret 0.

(** [pos] is an [off_t]; the sizes are converted to that type. *)
Definition dev_tryseek (d : device) (pos : Z) : Z :=
  if 0 <? d_blocks d then
    if nz (Z.rem pos (d_blocksize d)) then EINVAL
    else if d_blocks d <=? Z.quot pos (d_blocksize d) then EINVAL
    else 0
  else 0.

Definition dev_io (rw v : Z) (u : Uio.uio) : M vfs (Z * Uio.uio) :=
  '(a, d) ← get_device v;
  let result := dev_tryseek d (Uio.uio_offset u) in
  if nz result then mret (result, u)
  else
    kassert (Uio.uio_rw u =? rw) "uio->uio_rw";;
    in_fs (devop_io a u).

Definition dev_read : Z -> Uio.uio -> M vfs (Z * Uio.uio) := dev_io Uio.UIO_READ.
Definition dev_write : Z -> Uio.uio -> M vfs (Z * Uio.uio) := dev_io Uio.UIO_WRITE.

Definition dev_ioctl (v op data : Z) : M vfs Z := '(a, _) ← get_device v; in_fs (devop_ioctl a op data).

(** The error code and [*ret]. *)
Definition dev_gettype (v : Z) : M vfs (Z * Z) :=
  '(_, d) ← get_device v;
  mret (0, if 0 <? d_blocks d then S_IFBLK else S_IFCHR).

Record stat := Stat { st_size : Z; st_mode : Z; st_nlink : Z; st_blocks : Z; st_dev : Z; st_rdev : Z; st_blksize : Z }.

(** The size is a product of 32-bit numbers. *)
Definition dev_stat (v : Z) : M vfs (Z * stat) :=
  '(_, d) ← get_device v;
  let size := if 0 <? d_blocks d then u32 (d_blocks d * d_blocksize d) else 0 in
  let blksize := if 0 <? d_blocks d then d_blocksize d else 0 in
  in_vst (Vnode.vnode_check v);;
  '(result, mode) ← dev_gettype v;
  if nz result then mret (result, Stat size mode 0 0 0 0 blksize)
  else mret (0, Stat size (Z.lor mode 384) 1 (d_blocks d) 0 (d_devnumber d) blksize).

Definition dev_isseekable (v : Z) : M vfs bool := '(_, d) ← get_device v; mret (negb (d_blocks d =? 0)).

Definition null_fsync (v : Z) : M vfs Z := mret 0.

Definition dev_mmap (v : Z) : M vfs Z := mret ENOSYS.

Definition dev_truncate (v len : Z) : M vfs Z :=
  '(_, d) ← get_device v;
  mret (if (0 <? d_blocks d) && (u32 (d_blocks d * d_blocksize d) =? len) then 0 else EINVAL).

Definition dev_namefile (v : Z) : M vfs Z := mret 0.

Definition dev_lookup (dir : Z) (pathname : list Z) : M vfs (Z * Z) :=
  n ← lift (strlen pathname);
  if 0 <? n then mret (ENOENT, 0)
  else VOP_INCREF dir;; mret (0, dir).

(** ** [devnull.c] *)

Definition nullopen (dev openflags : Z) : Z := 0.

Definition nullio (dev : Z) (u : Uio.uio) : Z * Uio.uio :=
  (0, if Uio.uio_rw u =? Uio.UIO_WRITE
      then Uio.MkUio (Uio.uio_iov u) (Uio.uio_offset u) 0 (Uio.uio_segflg u) (Uio.uio_rw u) (Uio.uio_space u)
      else u).

Definition nullioctl (dev op data : Z) : Z := EINVAL.

(** The address of [null_devops]. *)
Definition null_devops : Z := 0x80210100.

Definition NULL_NAME : list Z := [110; 117; 108; 108; 0].

(** [a] is what [kmalloc] returned for the device. *)
Definition devnull_create (a : Z) (m : memory) : M vfs unit :=
  if a =? 0 then panic "Could not add null device: out of memory"
  else
    modify (fun s => set_devices (<[a := MkDevice null_devops 0 1 0 0]> (devices s)) s);;
    result ← vfs_adddev m NULL_NAME a false;
    if nz result then panic "Could not add null device" else mret tt.

(** [ok1] and [ok2] are whether the array and the lock could be created. *)
Definition vfs_bootstrap (ok1 ok2 : bool) (a : Z) (m : memory) (semfs_bootstrap : M vfs unit) : M vfs unit :=
  if negb ok1 then panic "vfs: Could not create knowndevs array"
  else
    modify (set_knowndevs []);;
    if negb ok2 then panic "vfs: Could not create vfs big lock"
    else
      modify (set_depth 0);;
      devnull_create a m;;
      semfs_bootstrap.

End Code.

(** ** What the operations of a file system guarantee *)

Section Laws.
Context `{HF : Fsops}.

(** The vnodes are valid, the lock of process [p] is free, and the table of device
    operations is in place. *)
Definition vok (p : Z) (t : vst) : Prop :=
  Vnode.ok t /\ lock_free (p_lock p) (v_sync t) /\ vop_magic t !! dev_vnode_ops = Some VOP_MAGIC.

(** Every reference count can grow by [k]. *)
Definition roomy (k : Z) (t : vst) : Prop := forall v, Vnode.refs t v < 2 ^ 31 - k.

Definition is_string (s : list Z) : Prop := terminated s /\ Forall (fun c => 0 <= c < 256) s.

(** The vnode of a device belongs to no file system; it is reclaimed by doing nothing. *)
Definition is_dev (t : vst) (v : Z) : bool := match v_tab t !! v with Some x => vn_fs x =? 0 | None => false end.

(** A device stays a device, and a vnode that is new belongs to a file system. *)
Definition kept (t t' : vst) : Prop := forall v, is_Some (v_tab t' !! v) -> is_dev t' v = is_dev t v.

(** [c] returns and changes the counts by [d] of its result. *)
Definition moves {A} (p : Z) (c : M (vst * world) A) (d : A -> Z -> Z) : Prop :=
  forall t w, vok p t -> roomy 1 t -> exists a t' w', c (t, w) = Ret (a, (t', w')) /\ vok p t' /\ Vnode.moved (d a) t t' /\ kept t t'.

Definition one_if (r : Z * Z) : Z -> Z := if fst r =? 0 then Vnode.one (snd r) else Vnode.none.

(** The documented behaviour: [fsop_getroot], [vop_lookup] and [vop_lookparent] give a
    reference with a vnode, the others leave the counts alone; a name is a
    constant string; a directory belongs to a file system.  This is the contract of
    a file system in [fs.h] and [vnode.h], assumed here.  SFS keeps it except on one
    path: [sfs_getroot] returns [EINVAL], for a root inode of the wrong type, without
    giving back the reference that [sfs_loadvnode] took ([sfs_inode.c], lines 310 to
    314), so the theorems below speak of SFS volumes whose root is a directory. *)
Class FsopsOk := {
  sync_ok p fs : moves p (fsop_sync fs) (fun _ => Vnode.none);
  unmount_ok p fs : moves p (fsop_unmount fs) (fun _ => Vnode.none);
  getroot_ok p fs : moves p (fsop_getroot fs) one_if;
  directory_ok v t w t' w' : vop_gettype v (t, w) = Ret ((0, S_IFDIR), (t', w')) -> is_dev t' v = false;
  namefile_ok p v u : moves p (vop_namefile v u) (fun _ => Vnode.none);
  gettype_ok p v : moves p (vop_gettype v) (fun _ => Vnode.none);
  volname : Z -> world -> option (list Z);
  volname_ok fs w n : volname fs w = Some n -> is_string n;
  getvolname_ok fs t w : fsop_getvolname fs (t, w) = Ret (volname fs w, (t, w));
  lookup_ok p v path t w : vok p t -> roomy 1 t -> 0 < Vnode.refs t v -> is_string path ->
    exists r t' w', vop_lookup v path (t, w) = Ret (r, (t', w')) /\ vok p t' /\ Vnode.moved (one_if r) t t' /\ kept t t';
  lookparent_ok p v path buf t w : vok p t -> roomy 1 t -> 0 < Vnode.refs t v -> is_string path ->
    exists r buf' t' w', vop_lookparent v path buf (t, w) = Ret ((r, buf'), (t', w')) /\ vok p t' /\ Vnode.moved (one_if r) t t' /\ kept t t';
  reclaim_ok p v t w : vok p t -> Vnode.refs t v = 1 -> is_dev t v = false ->
    exists rc t' w', vop_reclaim v (t, w) = Ret (rc, (t', w')) /\ vok p t' /\ Vnode.moved (Vnode.opp (Vnode.one v)) t t' /\ kept t t';
}.

End Laws.

Section Runs.
Context `{HF : FsopsOk}.
Implicit Types (s : vfs) (kd : knowndev) (t : vst).

Lemma in_fs_run {A} (c : M (vst * world) A) s a t' w' :
  c (f_vst s, f_world s) = Ret (a, (t', w')) -> in_fs c s = Ret (a, set_fs (t', w') s).
Proof. intros Hc. unfold in_fs, zoom. by rewrite Hc. Qed.

Lemma in_vst_run {A} (c : M vst A) s a t' : c (f_vst s) = Ret (a, t') -> in_vst c s = Ret (a, set_vst t' s).
Proof. intros Hc. unfold in_vst, zoom. by rewrite Hc. Qed.

Lemma set_fs_id s : set_fs (f_vst s, f_world s) s = s.
Proof. by destruct s. Qed.

Lemma set_vst_id s : set_vst (f_vst s) s = s.
Proof. by destruct s. Qed.

(** *** Reference counts *)

Lemma kept_refcount t v x n : v_tab t !! v = Some x -> kept t (set_tab (<[v := Vnode.with_refcount n x]> (v_tab t)) t).
Proof.
  intros Hv w _. unfold is_dev. cbn. destruct (decide (w = v)) as [->|Hne]; [by rewrite lookup_insert_eq, Hv|by rewrite lookup_insert_ne].
Qed.

(** [vnode_incref] changes the count and nothing else. *)
Lemma incref_vok p t v : vok p t -> 0 < Vnode.refs t v < 2 ^ 31 - 1 ->
  exists t', Vnode.vnode_incref v t = Ret (tt, t') /\ vok p t' /\ Vnode.moved (Vnode.one v) t t' /\ kept t t'.
Proof.
  intros (Hok & Hp & Hm) Hr. destruct (Vnode.refs_live t v Hok ltac:(lia)) as (x & Hv & Hx & (H0 & _ & _ & _ & _ & _ & _ & Hf)).
  destruct (Vnode.ok_with_refcount t v x (vn_refcount x + 1) Hok Hv ltac:(lia)) as [Hok' Hmv].
  eexists. split; [|split; [split; [exact Hok'|]|split; [|by apply kept_refcount]]].
  - unfold Vnode.vnode_incref. rewrite bind_kassert by (by apply negb_true_iff, Z.eqb_neq).
    rewrite Vnode.bind_v_acquire by (apply Hok || done). unfold Vnode.deref, Vnode.store. mrun.
    rewrite (bind_valid _ _ _ _ x) by done. mrun. rewrite s32_id by lia.
    erewrite Vnode.release_final; [reflexivity|apply Hok|exact Hf|reflexivity].
  - by split.
  - eapply Vnode.moved_ext; [|exact Hmv]. intros w. unfold Vnode.one. destruct (w =? v); lia.
Qed.

Lemma decref_vok p t v : vok p t -> 0 < Vnode.refs t v ->
  (Vnode.refs t v = 1 /\ Vnode.decref_count v t = Ret (true, t)) \/
  exists t', Vnode.decref_count v t = Ret (false, t') /\ vok p t' /\ Vnode.moved (Vnode.opp (Vnode.one v)) t t' /\ kept t t'.
Proof.
  intros (Hok & Hp & Hm) Hr. destruct (Vnode.decref_count_run t v Hok Hr) as [[H1 Hrun]|(t' & Hgt & Hrun & Hok' & Hmv)]; [by left|right].
  destruct (Vnode.refs_live t v Hok ltac:(lia)) as (x & Hv & Hx & (H0 & _ & _ & _ & _ & _ & _ & Hf)). pose proof Hrun as Hst.
  unfold Vnode.decref_count in Hst. rewrite bind_kassert in Hst by (by apply negb_true_iff, Z.eqb_neq).
  rewrite Vnode.bind_v_acquire in Hst by (apply Hok || done). unfold Vnode.deref, Vnode.store in Hst. mrun_in Hst.
  rewrite (bind_valid _ _ _ _ x) in Hst by done. rewrite bind_kassert in Hst by (apply Z.ltb_lt; lia).
  rewrite (proj2 (Z.ltb_lt 1 (vn_refcount x))) in Hst by lia. mrun_in Hst.
  erewrite Vnode.bind_v_release in Hst; [|apply Hok|exact Hf|reflexivity]. injection Hst as E.
  exists t'. split; [exact Hrun|]. split; [split; [exact Hok'|by rewrite <- E]|]. split; [exact Hmv|]. rewrite <- E. exact (kept_refcount t v x _ Hv).
Qed.

Lemma incref_s s v : vok (curproc s) (f_vst s) -> 0 < Vnode.refs (f_vst s) v < 2 ^ 31 - 1 ->
  exists t', VOP_INCREF v s = Ret (tt, set_vst t' s) /\ vok (curproc s) t' /\ Vnode.moved (Vnode.one v) (f_vst s) t' /\ kept (f_vst s) t'.
Proof.
  intros Hv Hr. destruct (incref_vok _ _ v Hv Hr) as (t' & Hrun & Hv' & Hm). exists t'. split; [by apply in_vst_run|]. by split.
Qed.

Lemma decref_s s v : vok (curproc s) (f_vst s) -> (if is_dev (f_vst s) v then 1 else 0) < Vnode.refs (f_vst s) v ->
  exists t' w', VOP_DECREF v s = Ret (tt, set_fs (t', w') s) /\ vok (curproc s) t' /\ Vnode.moved (Vnode.opp (Vnode.one v)) (f_vst s) t' /\ kept (f_vst s) t'.
Proof.
  intros Hv Hr. unfold VOP_DECREF. destruct (decref_vok _ _ v Hv ltac:(destruct (is_dev _ v); lia)) as [[H1 Hrun]|(t' & Hrun & Hv' & Hm)];
    rewrite (bind_run _ _ _ _ _ (in_vst_run _ _ _ _ Hrun)).
  - rewrite set_vst_id. destruct (reclaim_ok (curproc s) v (f_vst s) (f_world s) Hv H1 ltac:(destruct (is_dev _ v); [lia|done])) as (rc & t' & w' & Hrec & Hv' & Hm).
    exists t', w'. split; [|by split]. unfold VOP. mrun.
    rewrite (bind_run _ _ _ _ _ (in_vst_run _ s _ _ (Vnode.vnode_check_ok _ v (proj1 Hv) ltac:(lia)))), set_vst_id.
    by rewrite (bind_run _ _ _ _ _ (in_fs_run _ s _ _ _ Hrec)).
  - exists t', (f_world s). split; [reflexivity|]. by split.
Qed.

Lemma fs_moves {A} (c : M (vst * world) A) d s :
  moves (curproc s) c d -> vok (curproc s) (f_vst s) -> roomy 1 (f_vst s) ->
  exists a t' w', in_fs c s = Ret (a, set_fs (t', w') s) /\ vok (curproc s) t' /\ Vnode.moved (d a) (f_vst s) t' /\ kept (f_vst s) t'.
Proof.
  intros Hc Hv Hr. destruct (Hc _ (f_world s) Hv Hr) as (a & t' & w' & Hrun & Hv' & Hm). exists a, t', w'. split; [by apply in_fs_run|]. by split.
Qed.

Lemma roomy_less k k' t : roomy k t -> k' <= k -> roomy k' t.
Proof. intros Hr Hk v. specialize (Hr v). lia. Qed.

Lemma roomy_moved k d t t' : roomy k t -> Vnode.moved d t t' -> (forall v, d v <= 0) -> roomy k t'.
Proof. intros Hr Hm Hd v. rewrite (Hm v). specialize (Hr v). specialize (Hd v). lia. Qed.

(** *** Strings *)

Lemma streq_run s a b : is_string a -> is_string b -> streq a b s = Ret (bool_decide (cstr a = cstr b), s).
Proof.
  intros [Ta Ba] [Tb Bb]. destruct (strcmp_spec a b Ta Tb Ba Bb) as [E Heq]. unfold streq, lift. mrun. unfold mbind, M_bind.
  rewrite E. unfold mret, M_ret. do 2 f_equal. destruct (Z.eqb_spec (lex (cstr a) (cstr b)) 0) as [Hz|Hz].
  - rewrite E, Hz in Heq. symmetry. apply bool_decide_eq_true. by apply Heq.
  - symmetry. apply bool_decide_eq_false. intros Hab. apply Hz. apply Heq in Hab. rewrite E in Hab. by injection Hab.
Qed.

Definition same (a b : option (list Z)) : bool :=
  match a, b with Some a, Some b => bool_decide (cstr a = cstr b) | _, _ => false end.

Definition opt_string (a : option (list Z)) : Prop := forall x, a = Some x -> is_string x.

Lemma samestring_run s a b : opt_string a -> opt_string b -> samestring a b s = Ret (same a b, s).
Proof. intros Ha Hb. destruct a as [a|], b as [b|]; try reflexivity. apply streq_run; [by apply Ha|by apply Hb]. Qed.

Lemma por_run (a b : M vfs bool) s x y : a s = Ret (x, s) -> b s = Ret (y, s) -> por a b s = Ret (x || y, s).
Proof. intros Ha Hb. unfold por. rewrite (bind_run _ _ _ _ _ Ha). by destruct x. Qed.

Lemma samestring3_run s a b c d :
  opt_string a -> opt_string b -> opt_string c -> opt_string d -> samestring3 a b c d s = Ret (same a b || (same a c || same a d), s).
Proof. intros. unfold samestring3. apply por_run; [by apply samestring_run|]. apply por_run; by apply samestring_run. Qed.

End Runs.

(** ** The device table *)
Section Table.
Context `{HF : FsopsOk}.
Implicit Types (s : vfs) (kd : knowndev) (t : vst) (l : list knowndev).

Definition RAW_SUFFIX : list Z := [114; 97; 119].

(** A device that can be mounted has a raw name and a device; one that cannot is a
    device without a file system, or a file system. *)
Record kd_ok kd : Prop := {
  kn_name : is_string (kd_name kd);
  kn_raw r : kd_rawname kd = Some r -> is_string r /\ cstr r = cstr (kd_name kd) ++ RAW_SUFFIX;
  kn_device : is_Some (kd_rawname kd) \/ kd_fs kd = 0 -> kd_device kd <> 0;
  kn_swap : kd_fs kd = SWAP_FS -> is_Some (kd_rawname kd);
}.

(** The names that belong to a device for good. *)
Definition names kd : list (list Z) := cstr (kd_name kd) :: from_option (fun r => [cstr r]) [] (kd_rawname kd).

(** Names are unique and the vnodes of the devices are referenced. *)
Record table_ok l t : Prop := {
  tb_kd : Forall kd_ok l;
  tb_unique : NoDup (mbind names l);
  tb_live kd : kd ∈ l -> 0 < Vnode.refs t (kd_vnode kd);
}.

Definition sound s : Prop := table_ok (knowndevs s) (f_vst s) /\ vok (curproc s) (f_vst s).

Lemma kd_raw_string kd : kd_ok kd -> opt_string (kd_rawname kd).
Proof. intros [_ Hr _ _] r E. by apply Hr. Qed.

(** *** Finding a device *)

Inductive answer := Root | NoFs | Self.

(** What [kd] is for the name [dev]. *)
Definition answers (w : world) (dev : list Z) kd : option (answer * knowndev) :=
  let named := bool_decide (cstr (kd_name kd) = dev) in
  let raw := bool_decide (cstr <$> kd_rawname kd = Some dev) in
  if has_fs kd then
    if named || bool_decide (cstr <$> volname (kd_fs kd) w = Some dev) then Some (Root, kd)
    else if raw then Some (Self, kd) else None
  else if named then Some (match kd_rawname kd with Some _ => NoFs | None => Self end, kd)
  else if raw then Some (Self, kd) else None.

(** The first device that answers to the name. *)
Definition resolve (w : world) l (dev : list Z) : option (answer * knowndev) := head (omap (answers w dev) l).

Lemma same_raw a dev : same a (Some dev) = bool_decide (cstr <$> a = Some (cstr dev)).
Proof.
  destruct a as [a|]; cbn [same fmap option_fmap option_map]; [|reflexivity]. destruct (decide (cstr a = cstr dev)) as [->|Hne].
  - by rewrite !bool_decide_eq_true_2.
  - rewrite !bool_decide_eq_false_2; [done| |done]. by intros [= ?].
Qed.

(** What [vfs_getroot] does with an answer. *)
Definition respond (r : option (answer * knowndev)) : M vfs (option (Z * Z)) :=
  match r with
  | None => mret None
  | Some (NoFs, _) => mret (Some (ENXIO, 0))
  | Some (Self, kd) => VOP_INCREF (kd_vnode kd);; mret (Some (0, kd_vnode kd))
  | Some (Root, kd) => r ← in_fs (fsop_getroot (kd_fs kd)); mret (Some r)
  end.

Lemma try_device_run s kd devname :
  kd_ok kd -> is_string devname -> try_device kd devname s = respond (answers (f_world s) (cstr devname) kd) s.
Proof.
  intros Hk Hd. pose proof Hk as [Hn Hr Hdev Hsw]. pose proof (kd_raw_string _ Hk) as Hro. unfold try_device, answers.
  assert (opt_string (Some devname)) as Hod by (by intros x [= <-]).
  assert (forall fs, opt_string (volname fs (f_world s))) as Hvo by (intros fs n E; by apply (volname_ok fs (f_world s))).
  pose proof (streq_run s (kd_name kd) devname Hn Hd) as Hname. destruct (has_fs kd) eqn:Hf.
  - rewrite bind_assoc, (bind_run _ _ _ _ _ (in_fs_run _ s _ _ _ (getvolname_ok (kd_fs kd) (f_vst s) (f_world s)))), set_fs_id, bind_assoc.
    rewrite (bind_run _ _ _ _ _ (por_run _ _ s _ _ Hname (samestring_run s _ _ (Hvo (kd_fs kd)) Hod))), same_raw.
    destruct (bool_decide (cstr (kd_name kd) = cstr devname)) eqn:En; cbn [orb].
    { cbn [respond]. by rewrite bind_assoc. }
    destruct (bool_decide (cstr <$> volname _ _ = _)); cbn [respond]; [by rewrite bind_assoc|]. mrun. rewrite (bind_run _ _ _ _ _ Hname).
    rewrite (bind_run _ _ _ _ _ (samestring_run s _ _ Hro Hod)), same_raw. destruct (bool_decide (cstr <$> kd_rawname kd = _)) eqn:Er; [|done].
    unfold hand_out. rewrite bind_assoc, bind_kassert; [by mrun|]. apply negb_true_iff, Z.eqb_neq, Hdev. left.
    apply bool_decide_eq_true in Er. by destruct (kd_rawname kd).
  - destruct (kd_rawname kd) as [r|] eqn:Er.
    + rewrite bind_assoc, (bind_run _ _ _ _ _ Hname). mrun. destruct (bool_decide (cstr (kd_name kd) = cstr devname)) eqn:En; [done|].
      rewrite (bind_run _ _ _ _ _ Hname). rewrite (bind_run _ _ _ _ _ (samestring_run s (Some r) _ Hro Hod)), same_raw.
      destruct (bool_decide (cstr <$> Some r = _)); [|done]. unfold hand_out. rewrite bind_assoc, bind_kassert; [by mrun|].
      apply negb_true_iff, Z.eqb_neq, Hdev. by left.
    + mrun. rewrite (bind_run _ _ _ _ _ Hname). destruct (bool_decide (cstr (kd_name kd) = cstr devname)).
      * assert (kd_fs kd = 0) as Hz.
        { unfold has_fs in Hf. destruct (Z.eqb_spec (kd_fs kd) 0) as [|]; [done|]. destruct (Z.eqb_spec (kd_fs kd) SWAP_FS) as [E|]; [|done].
          by destruct (Hsw E). }
        rewrite !bind_kassert by (by rewrite ?Hz). unfold hand_out. rewrite bind_assoc, bind_kassert; [by mrun|].
        apply negb_true_iff, Z.eqb_neq, Hdev. by right.
      * rewrite (bind_run _ _ _ _ _ (samestring_run s None _ ltac:(done) Hod)). cbn [same]. reflexivity.
Qed.

Lemma getroot_loop_run s l devname :
  Forall kd_ok l -> is_string devname ->
  getroot_loop l devname s = (r ← respond (resolve (f_world s) l (cstr devname)); mret (default (ENODEV, 0) r)) s.
Proof.
  intros Hl Hd. induction l as [|kd l IH]; cbn [getroot_loop].
  - unfold resolve. cbn. reflexivity.
  - apply Forall_cons in Hl as [Hk Hl]. unfold resolve. cbn [omap list_omap].
    unfold mbind, M_bind. rewrite (try_device_run s kd devname Hk Hd).
    destruct (answers (f_world s) (cstr devname) kd) as [[[] kd']|] eqn:Ea; cbn [head respond].
    + unfold mbind, M_bind. by destruct (in_fs _ s) as [[? ?]| | |].
    + reflexivity.
    + unfold mbind, M_bind. by destruct (VOP_INCREF _ s) as [[? ?]| | |].
    + unfold mret, M_ret. rewrite IH by done. reflexivity.
Qed.

Lemma vfs_getroot_run s devname :
  sound s -> is_string devname -> roomy 1 (f_vst s) ->
  match resolve (f_world s) (knowndevs s) (cstr devname) with
  | None => vfs_getroot devname s = Ret ((ENODEV, 0), s)
  | Some (NoFs, kd) => vfs_getroot devname s = Ret ((ENXIO, 0), s)
  | Some (Self, kd) => exists t', vfs_getroot devname s = Ret ((0, kd_vnode kd), set_vst t' s) /\
      vok (curproc s) t' /\ Vnode.moved (Vnode.one (kd_vnode kd)) (f_vst s) t' /\ kept (f_vst s) t'
  | Some (Root, kd) => exists r t' w', vfs_getroot devname s = Ret (r, set_fs (t', w') s) /\
      in_fs (fsop_getroot (kd_fs kd)) s = Ret (r, set_fs (t', w') s) /\ vok (curproc s) t' /\ Vnode.moved (one_if r) (f_vst s) t' /\ kept (f_vst s) t'
  end.
Proof.
  intros [[Hk _ Hlive] Hv] Hd Hr. unfold vfs_getroot. rewrite bind_kassert by done. mrun. rewrite (getroot_loop_run s _ devname Hk Hd).
  destruct (resolve _ _ _) as [[[] kd]|] eqn:E; cbn [respond]; [| | |reflexivity].
  - destruct (fs_moves _ _ s (getroot_ok _ (kd_fs kd)) Hv Hr) as (r & t' & w' & Hrun & Hv' & Hm). exists r, t', w'.
    rewrite bind_assoc, (bind_run _ _ _ _ _ Hrun). by mrun.
  - reflexivity.
  - assert (kd ∈ knowndevs s) as Hin.
    { unfold resolve in E. destruct (omap _ _) as [|a rest] eqn:Eo; [done|]. injection E as ->.
      assert ((Self, kd) ∈ omap (answers (f_world s) (cstr devname)) (knowndevs s)) as Hin by (rewrite Eo; left).
      apply list_elem_of_omap in Hin as (kd' & Hin & Ea). unfold answers in Ea.
      assert (kd' = kd) as -> by (repeat (case_match; try congruence)). exact Hin. }
    destruct (incref_s s (kd_vnode kd) Hv) as (t' & Hrun & Hv' & Hm); [specialize (Hlive _ Hin); specialize (Hr (kd_vnode kd)); lia|].
    exists t'. rewrite bind_assoc, (bind_run _ _ _ _ _ Hrun). by mrun.
Qed.

(** *** Adding a device *)

Definition hits (a : option (list Z)) (new : list (option (list Z))) : bool := existsb (same a) new.

(** [kd] has one of the names, or the volume mounted on it does. *)
Definition clash (w : world) (new : list (option (list Z))) kd : bool :=
  (has_fs kd && hits (volname (kd_fs kd) w) new) || (hits (kd_rawname kd) new || hits (Some (kd_name kd)) new).

Lemma badnames_loop_run s l n1 n2 n3 :
  Forall kd_ok l -> opt_string n1 -> opt_string n2 -> opt_string n3 ->
  badnames_loop l n1 n2 n3 s = Ret (existsb (clash (f_world s) [n1; n2; n3]) l, s).
Proof.
  intros Hl H1 H2 H3. induction l as [|kd l IH]; [done|]. apply Forall_cons in Hl as [Hk Hl]. cbn [badnames_loop existsb].
  assert (forall a, opt_string a -> samestring3 a n1 n2 n3 s = Ret (hits a [n1; n2; n3], s)) as H3s.
  { intros a Ha. rewrite samestring3_run by done. unfold hits. cbn [existsb]. by rewrite orb_false_r. }
  assert ((if has_fs kd then volname ← in_fs (fsop_getvolname (kd_fs kd)); samestring3 volname n1 n2 n3 else mret false) s =
    Ret (has_fs kd && hits (volname (kd_fs kd) (f_world s)) [n1; n2; n3], s)) as Hvol.
  { destruct (has_fs kd); [|done].
    rewrite (bind_run _ _ _ _ _ (in_fs_run _ s _ _ _ (getvolname_ok (kd_fs kd) (f_vst s) (f_world s)))), set_fs_id.
    apply H3s. intros n E. by apply (volname_ok (kd_fs kd) (f_world s)). }
  rewrite (bind_run _ _ _ _ _ Hvol). unfold clash at 1. destruct (_ && _); [done|]. cbn [orb].
  rewrite (bind_run _ _ _ _ _ (por_run _ _ s _ _ (H3s _ (kd_raw_string _ Hk)) (H3s (Some (kd_name kd)) ltac:(intros x [= <-]; apply Hk)))).
  destruct (_ || _); [done|]. by apply IH.
Qed.

Lemma hits_false a new n : hits a new = false -> Some n ∈ new -> cstr <$> a <> Some (cstr n).
Proof.
  intros Hh Hin E. assert (hits a new = true); [|congruence]. apply existsb_exists. exists (Some n). split; [by apply list_elem_of_In|].
  destruct a as [a|]; [|done]. injection E as E. by apply bool_decide_eq_true_2.
Qed.

(** Without a clash the new names are new. *)
Lemma clash_names w new l n :
  existsb (clash w new) l = false -> Some n ∈ new -> cstr n ∉ mbind names l.
Proof.
  intros Hc Hin Hn. apply list_elem_of_bind in Hn as (kd & Hn & Hkd). assert (clash w new kd = false) as Hk.
  { destruct (clash w new kd) eqn:E; [|done]. assert (existsb (clash w new) l = true); [|congruence]. apply existsb_exists. exists kd. split; [by apply list_elem_of_In|done]. }
  unfold clash in Hk. apply orb_false_iff in Hk as [_ [Hraw Hname]%orb_false_iff]. unfold names in Hn. apply elem_of_cons in Hn as [E|Hn].
  - apply (hits_false _ _ n Hname Hin). simpl. by rewrite E.
  - destruct (kd_rawname kd) as [r|]; [|by apply not_elem_of_nil in Hn]. apply list_elem_of_singleton in Hn. apply (hits_false _ _ n Hraw Hin). simpl. by rewrite Hn.
Qed.

(** *** Copies of strings *)

Lemma strlen_string x : is_string x -> strlen x = Ret (Z.of_nat (length (cstr x))).
Proof. intros [Hx _]. by apply strlen_spec. Qed.

Lemma cstr_bytes x : is_string x -> Forall (fun c => 0 <= c < 256) (cstr x).
Proof. intros [Ht Hb]. destruct (terminated_inv x Ht) as [r E]. rewrite E in Hb. by apply Forall_app in Hb as [? _]. Qed.

Lemma string_of (x : list Z) n : clean x -> Forall (fun c => 0 <= c < 256) x -> is_string (x ++ 0 :: replicate n 0) /\ cstr (x ++ 0 :: replicate n 0) = x.
Proof.
  intros Hc Hb. split; [split|by apply cstr_app].
  - apply elem_of_app. right. left.
  - apply Forall_app. split; [done|]. constructor; [lia|]. apply Forall_replicate. lia.
Qed.

Lemma lift_run {S A} (o : outcome A) (a : A) (s : S) : o = Ret a -> lift o s = Ret (a, s).
Proof. intros ->. reflexivity. Qed.

Lemma kstrdup_run s ok x : is_string x ->
  kstrdup ok x s = Ret (if ok then Some (cstr x ++ [0]) else None, s).
Proof.
  intros Hx. unfold kstrdup. rewrite (bind_run _ _ _ _ _ (lift_run _ _ s (strlen_string x Hx))). destruct ok; [|reflexivity].
  assert (strcpy (replicate (Z.to_nat (Z.of_nat (length (cstr x)) + 1)) 0) x = Ret (cstr x ++ [0])) as Hcpy.
  { rewrite strcpy_spec; [|apply Hx|rewrite length_replicate; lia]. rewrite drop_replicate. do 3 f_equal. replace (_ - _)%nat with 0%nat by lia. reflexivity. }
  by rewrite (bind_run _ _ _ _ _ (lift_run _ _ s Hcpy)).
Qed.

Lemma mkrawname_run s ok x : is_string x -> mkrawname ok x s = Ret (if ok then Some (cstr x ++ RAW) else None, s).
Proof.
  intros Hx. pose proof (cstr_clean x) as Hc. pose proof (cstr_bytes x Hx) as Hb. unfold mkrawname.
  rewrite (bind_run _ _ _ _ _ (lift_run _ _ s (strlen_string x Hx))). destruct ok; [|reflexivity].
  assert (strcpy (replicate (Z.to_nat (Z.of_nat (length (cstr x)) + 4)) 0) x = Ret (cstr x ++ 0 :: replicate 3 0)) as Hcpy.
  { rewrite strcpy_spec; [|apply Hx|rewrite length_replicate; lia]. rewrite drop_replicate. do 4 f_equal. lia. }
  rewrite (bind_run _ _ _ _ _ (lift_run _ _ s Hcpy)). destruct (string_of (cstr x) 3 Hc Hb) as [Hs3 Hc3].
  assert (strcat (cstr x ++ 0 :: replicate 3 0) RAW = Ret (cstr x ++ RAW)) as Hcat.
  { unfold strcat. rewrite (strlen_string _ Hs3), Hc3, Nat2Z.id, drop_app_length, take_app_length. reflexivity. }
  by rewrite (bind_run _ _ _ _ _ (lift_run _ _ s Hcat)).
Qed.

Lemma acquire_s s : 0 <= vfs_biglock_depth s < 2 ^ 32 - 1 -> vfs_biglock_acquire s = Ret (tt, set_depth (vfs_biglock_depth s + 1) s).
Proof. intros Hd. unfold vfs_biglock_acquire, modify. by rewrite u32_id by lia. Qed.

Lemma release_s s d : vfs_biglock_depth s = d + 1 -> 0 <= d < 2 ^ 32 - 1 -> vfs_biglock_release s = Ret (tt, set_depth d s).
Proof.
  intros E Hd. unfold vfs_biglock_release. mrun. rewrite bind_kassert by (apply Z.ltb_lt; lia). unfold modify.
  rewrite u32_id by lia. do 3 f_equal. lia.
Qed.

(** *** The vnode of a device *)

Definition dev_vnode (v dev : Z) t : vst :=
  Vst (set_lock (vn_countlock v) SPINLOCK_INITIALIZER (v_sync t)) (<[v := MkVnode 1 dev_vnode_ops 0 dev]> (v_tab t)) (vop_magic t).

Definition fresh_addr (v : Z) t : Prop := v <> 0 -> v <> DEADBEEF /\ v_tab t !! v = None.

Lemma dev_create_run s v dev : v <> 0 -> dev_create_vnode v dev s = Ret (v, set_vst (dev_vnode v dev (f_vst s)) s).
Proof.
  intros Hv. unfold dev_create_vnode. rewrite (proj2 (Z.eqb_neq v 0) Hv).
  assert (Vnode.vnode_init v dev_vnode_ops 0 dev (f_vst s) = Ret (0, dev_vnode v dev (f_vst s))) as Hi
    by (unfold Vnode.vnode_init; rewrite !bind_kassert by (by apply negb_true_iff, Z.eqb_neq); done).
  by rewrite (bind_run _ _ _ _ _ (in_vst_run _ s _ _ Hi)).
Qed.

Lemma dev_vnode_vok p v dev t : vok p t -> v <> 0 -> fresh_addr v t ->
  vok p (dev_vnode v dev t) /\ Vnode.moved (Vnode.one v) t (dev_vnode v dev t).
Proof.
  intros ([Hc Hok] & Hp & Hm) Hv Hf. destruct (Hf Hv) as [Hvd Hn]. split; [split; [split; [done|]|split; [|done]]|].
  - intros w x Hw. cbn in Hw. destruct (decide (w = v)) as [->|Hne].
    + rewrite lookup_insert_eq in Hw. injection Hw as <-. split_and!; try done. unfold lock_free. cbn. by rewrite lookup_insert_eq.
    + rewrite lookup_insert_ne in Hw by done. destruct (Hok _ _ Hw) as (?&?&?&?&?&?&?&Hl). split_and!; try done; try lia.
      unfold lock_free in *. cbn. rewrite lookup_insert_ne; [done|]. by intros [= ->].
  - unfold lock_free in *. cbn. by rewrite lookup_insert_ne.
  - intros w. unfold Vnode.refs, Vnode.one. cbn. destruct (Z.eqb_spec w v) as [->|Hne].
    + by rewrite lookup_insert_eq, Hn.
    + rewrite lookup_insert_ne by done. lia.
Qed.

(** Creating and destroying the vnode leaves a lock behind, nothing else. *)
Lemma dev_uncreate_run s p v dev t :
  vok p t -> v <> 0 -> fresh_addr v t -> f_vst s = dev_vnode v dev t ->
  exists t', dev_uncreate_vnode v s = Ret (tt, set_vst t' s) /\ vok p t' /\ Vnode.moved Vnode.none t t'.
Proof.
  intros ([Hc Hok] & Hp & Hm) Hv Hf Es. destruct (Hf Hv) as [Hvd Hn].
  exists (Vst (set_lock (vn_countlock v) SPINLOCK_INITIALIZER (v_sync t)) (v_tab t) (vop_magic t)). split.
  - unfold dev_uncreate_vnode.
    assert (Vnode.deref v (f_vst s) = Ret (MkVnode 1 dev_vnode_ops 0 dev, f_vst s)) as Hd
      by (rewrite Es; unfold Vnode.deref; mrun; cbn [v_tab dev_vnode]; by rewrite lookup_insert_eq).
    rewrite (bind_run _ _ _ _ _ (in_vst_run _ s _ _ Hd)), set_vst_id, bind_kassert by done.
    assert (Vnode.vnode_cleanup v (f_vst s) = Ret (tt, Vst (v_sync (dev_vnode v dev t)) (<[v := MkVnode 0 0 0 0]> (v_tab t)) (vop_magic t))) as Hcl.
    { unfold Vnode.vnode_cleanup. rewrite (bind_run _ _ _ _ _ Hd), bind_kassert by done. rewrite Es.
      erewrite bind_run; [|apply (zoom_Ret v_sync set_v_sync); unfold Spinlock.spinlock_cleanup; mrun;
        unfold lock_of, set_lock; cbn; rewrite lookup_insert_eq; cbn; rewrite bind_kassert by done; reflexivity].
      unfold Vnode.store, modify, set_tab. cbn. by rewrite insert_insert_eq. }
    rewrite (bind_run _ _ _ _ _ (in_vst_run _ s _ _ Hcl)). unfold modify, set_vst, set_tab, set_fs. cbn. by rewrite delete_insert_eq, delete_id.
  - split; [split; [split; [done|]|split; [|done]]|intros w; unfold Vnode.none; by rewrite Z.add_0_r].
    + intros w x Hw. cbn in Hw. destruct (Hok _ _ Hw) as (?&?&?&?&?&?&?&Hl). split_and!; try done; try lia.
      unfold lock_free in *. cbn. rewrite lookup_insert_ne; [done|]. intros [= ->]. congruence.
    + unfold lock_free in *. cbn. by rewrite lookup_insert_ne.
Qed.

(** *** [vfs_doadd] *)

(** [s] with new vnodes, file systems, entries and devices. *)
Definition upd s t (w : world) l (dv : gmap Z device) : vfs :=
  MkVfs t w (vfs_biglock_depth s) l dv (bootfs_vnode s) (curproc s) (p_cwd s).

Definition depth_ok s : Prop := 0 <= vfs_biglock_depth s < 2 ^ 32 - 2.

(** The name, the raw name and the name of the volume that an entry would have. *)
Definition new_names (w : world) (dname : list Z) (mountable : bool) (fs : Z) : list (option (list Z)) :=
  [Some (cstr dname ++ [0]); if mountable then Some (cstr dname ++ RAW) else None; if fs =? 0 then None else volname fs w].

Definition doadd_result (m : memory) (w : world) l (dname : list Z) (mountable : bool) (fs : Z) : Z :=
  if negb (ok_name m) || (mountable && negb (ok_rawname m)) || (a_vnode m =? 0) || negb (ok_kd m) then ENOMEM
  else if existsb (clash w (new_names w dname mountable fs)) l then EEXIST
  else if negb (ok_room m) then ENOMEM else 0.

(** The entry that [vfs_doadd] adds, and the devices with its number. *)
Definition new_kd (m : memory) (dname : list Z) (mountable : bool) (dev fs : Z) : knowndev :=
  MkKd (cstr dname ++ [0]) (if mountable then Some (cstr dname ++ RAW) else None) dev (a_vnode m) fs.

Definition numbered l (dev : Z) (dv : gmap Z device) : gmap Z device :=
  if dev =? 0 then dv
  else match dv !! dev with
       | Some d => <[dev := MkDevice (d_ops d) (d_blocks d) (d_blocksize d) (u32 (Z.of_nat (length l) + 1)) (d_data d)]> dv
       | None => dv
       end.

(** What a driver or a file system passes. *)
Record doadd_args s (m : memory) (mountable : bool) (dev fs : Z) : Prop := {
  da_fresh : fresh_addr (a_vnode m) (f_vst s);
  da_fs : fs <> SWAP_FS;
  da_dev : mountable = true \/ fs = 0 -> dev <> 0;
  da_known : dev <> 0 -> is_Some (devices s !! dev);
}.

Lemma fail_run s p d v dev t result :
  vfs_biglock_depth s = d + 1 -> 0 <= d < 2 ^ 32 - 1 ->
  vok p t -> v <> 0 -> fresh_addr v t -> f_vst s = dev_vnode v dev t ->
  exists t', doadd_fail v result s = Ret (result, set_depth d (set_vst t' s)) /\ vok p t' /\ Vnode.moved Vnode.none t t'.
Proof.
  intros Hd Hr Hv Hn Hf E. destruct (dev_uncreate_run s p v dev t Hv Hn Hf E) as (t' & Hrun & Hv' & Hm). exists t'. split; [|by split].
  unfold doadd_fail. rewrite (proj2 (Z.eqb_neq v 0) Hn). cbn [negb]. rewrite (bind_run _ _ _ _ _ Hrun).
  by rewrite (bind_run _ _ _ _ _ (release_s (set_vst t' s) d Hd Hr)).
Qed.

Lemma fail0_run s d result : vfs_biglock_depth s = d + 1 -> 0 <= d < 2 ^ 32 - 1 -> doadd_fail 0 result s = Ret (result, set_depth d s).
Proof. intros Hd Hr. unfold doadd_fail. cbn. mrun. by rewrite (bind_run _ _ _ _ _ (release_s s d Hd Hr)). Qed.

Lemma new_name_string dname : is_string dname -> is_string (cstr dname ++ [0]) /\ cstr (cstr dname ++ [0]) = cstr dname.
Proof. intros Hd. apply (string_of (cstr dname) 0); [apply cstr_clean|by apply cstr_bytes]. Qed.

Lemma new_raw_string dname : is_string dname -> is_string (cstr dname ++ RAW) /\ cstr (cstr dname ++ RAW) = cstr dname ++ RAW_SUFFIX.
Proof.
  intros Hd. change RAW with (RAW_SUFFIX ++ 0 :: replicate 0 0). rewrite app_assoc. apply string_of.
  - apply Forall_app. split; [apply cstr_clean|]. by repeat constructor.
  - apply Forall_app. split; [by apply cstr_bytes|]. repeat constructor; lia.
Qed.

Lemma new_kd_ok s m dname mountable dev fs :
  is_string dname -> doadd_args s m mountable dev fs -> kd_ok (new_kd m dname mountable dev fs).
Proof.
  intros Hd [_ Hfs Hdev _]. destruct (new_name_string _ Hd) as [Hs Hc], (new_raw_string _ Hd) as [Hrs Hrc]. split; cbn.
  - exact Hs.
  - intros r E. destruct mountable; [|done]. injection E as <-. by rewrite Hc, Hrc.
  - intros [Hm|Hz]; apply Hdev; [left|by right]. destruct mountable; [done|by destruct Hm].
  - done.
Qed.

Lemma vok_table l t t' : table_ok l t -> (forall v, Vnode.refs t v <= Vnode.refs t' v) -> table_ok l t'.
Proof. intros [Hk Hu Hl] Hm. split; [done|done|]. intros kd Hin. specialize (Hl kd Hin). specialize (Hm (kd_vnode kd)). lia. Qed.

Lemma moved_none_le t t' v : Vnode.moved Vnode.none t t' -> Vnode.refs t v <= Vnode.refs t' v.
Proof. intros Hm. rewrite (Hm v). unfold Vnode.none. lia. Qed.

(** The new entry keeps the names unique. *)
Lemma table_add l t t' w m dname mountable dev fs s :
  table_ok l t -> is_string dname -> doadd_args s m mountable dev fs ->
  existsb (clash w (new_names w dname mountable fs)) l = false ->
  0 < Vnode.refs t' (a_vnode m) -> (forall v, Vnode.refs t v <= Vnode.refs t' v) ->
  table_ok (l ++ [new_kd m dname mountable dev fs]) t'.
Proof.
  intros [Hk Hu Hl] Hd Ha Hc Hv Hm. destruct (new_name_string _ Hd) as [Hs Hcs], (new_raw_string _ Hd) as [Hrs Hrc]. split.
  - apply Forall_app. split; [done|]. constructor; [by apply (new_kd_ok s)|constructor].
  - rewrite bind_app. cbn [mbind list_bind]. rewrite app_nil_r. apply NoDup_app. split; [done|]. split.
    + intros n Hn Hin. unfold names in Hin. cbn [new_kd kd_name kd_rawname] in Hin. apply elem_of_cons in Hin as [->|Hin].
      * apply (clash_names w _ l (cstr dname ++ [0]) Hc); [left|done].
      * destruct mountable; [|by apply not_elem_of_nil in Hin]. apply list_elem_of_singleton in Hin as ->.
        apply (clash_names w _ l (cstr dname ++ RAW) Hc); [right; left|done].
    + unfold names. cbn [new_kd kd_name kd_rawname]. destruct mountable; cbn [from_option]; [|by apply NoDup_singleton].
      apply NoDup_cons. split; [|apply NoDup_singleton]. rewrite list_elem_of_singleton, Hcs, Hrc. intros E.
      apply (f_equal length) in E. rewrite length_app in E. cbn in E. lia.
  - intros kd Hin. apply elem_of_app in Hin as [Hin|Hin%list_elem_of_singleton]; [|by subst].
    specialize (Hl kd Hin). specialize (Hm (kd_vnode kd)). lia.
Qed.

(** Either the entry is added, with its vnode and its number, or nothing changes. *)
Definition doadd_state s t (m : memory) (dname : list Z) (mountable : bool) (dev fs : Z) : vfs :=
  if doadd_result m (f_world s) (knowndevs s) dname mountable fs =? 0
  then upd s t (f_world s) (knowndevs s ++ [new_kd m dname mountable dev fs]) (numbered (knowndevs s) dev (devices s))
  else set_vst t s.

Lemma numbered_run s dev : (dev <> 0 -> is_Some (devices s !! dev)) ->
  forall s1, devices s1 = devices s ->
  (if negb (dev =? 0) then set_devnumber dev (u32 (Z.of_nat (length (knowndevs s)) + 1)) else mret tt) s1 =
  Ret (tt, set_devices (numbered (knowndevs s) dev (devices s)) s1).
Proof.
  intros Hd s1 E. unfold numbered. destruct (Z.eqb_spec dev 0) as [->|Hn]; cbn [negb].
  - rewrite <- E. by destruct s1.
  - destruct (Hd Hn) as [d Hdev]. unfold set_devnumber. mrun. rewrite E. rewrite (bind_valid _ _ _ _ d) by done. by rewrite Hdev.
Qed.

Lemma doadd_run s m dname mountable dev fs :
  sound s -> depth_ok s -> is_string dname -> doadd_args s m mountable dev fs ->
  let r := doadd_result m (f_world s) (knowndevs s) dname mountable fs in
  exists t', vfs_doadd m dname mountable dev fs s = Ret (r, doadd_state s t' m dname mountable dev fs) /\
    vok (curproc s) t' /\ Vnode.moved (if r =? 0 then Vnode.one (a_vnode m) else Vnode.none) (f_vst s) t'.
Proof.
  intros [Ht Hv] Hd Hs Ha r. pose proof (new_name_string _ Hs) as [Hns Hnc]. unfold vfs_doadd.
  rewrite (bind_run _ _ _ _ _ (acquire_s s ltac:(unfold depth_ok in Hd; lia))). set (s1 := set_depth _ s).
  assert (vfs_biglock_depth s1 = vfs_biglock_depth s + 1) as Hd1 by done. assert (0 <= vfs_biglock_depth s < 2 ^ 32 - 1) as Hdr by (unfold depth_ok in Hd; lia).
  assert (forall x, set_depth (vfs_biglock_depth s) (set_vst x s1) = set_vst x s) as Hback by (by destruct s).
  rewrite (bind_run _ _ _ _ _ (kstrdup_run s1 (ok_name m) dname Hs)).
  assert (forall r', r = r' -> r' <> 0 -> forall o t', o = Ret (r', set_vst t' s) -> vok (curproc s) t' -> Vnode.moved Vnode.none (f_vst s) t' ->
    exists t', o = Ret (r, doadd_state s t' m dname mountable dev fs) /\ vok (curproc s) t' /\
      Vnode.moved (if r =? 0 then Vnode.one (a_vnode m) else Vnode.none) (f_vst s) t') as Hfail.
  { intros r' Er Hn o t' Eo Hv' Hm. exists t'. unfold doadd_state. fold r. rewrite Er, (proj2 (Z.eqb_neq r' 0) Hn). by split. }
  assert (forall r', r = r' -> r' <> 0 -> exists t', doadd_fail 0 r' s1 = Ret (r, doadd_state s t' m dname mountable dev fs) /\ vok (curproc s) t' /\
      Vnode.moved (if r =? 0 then Vnode.one (a_vnode m) else Vnode.none) (f_vst s) t') as Hfail0.
  { intros r' Er Hn. apply (Hfail r' Er Hn _ (f_vst s)); [|done|intros v; unfold Vnode.none; lia].
    rewrite (fail0_run s1 _ r' Hd1 Hdr). by destruct s. }
  unfold r, doadd_result in *. destruct (ok_name m) eqn:Ename; cbn [negb orb]; [|by apply Hfail0].
  assert ((if mountable then mkrawname (ok_rawname m) (cstr dname ++ [0]) else mret None) s1 =
    Ret (if mountable && ok_rawname m then Some (cstr dname ++ RAW) else None, s1)) as Hraw
    by (destruct mountable; [rewrite mkrawname_run by done; by rewrite Hnc|done]).
  rewrite (bind_run _ _ _ _ _ Hraw). clear Hraw.
  assert (mountable && bool_decide ((if mountable && ok_rawname m then Some (cstr dname ++ RAW) else None) = None) = mountable && negb (ok_rawname m)) as ->
    by (by destruct mountable, (ok_rawname m)).
  destruct (mountable && negb (ok_rawname m)) eqn:Emr; cbn [orb]; [by apply Hfail0|].
  assert ((if mountable && ok_rawname m then Some (cstr dname ++ RAW) else None) = if mountable then Some (cstr dname ++ RAW) else None) as ->
    by (destruct mountable, (ok_rawname m); done).
  destruct (Z.eqb_spec (a_vnode m) 0) as [E0|Hn0]; cbn [orb].
  { unfold dev_create_vnode. rewrite E0. mrun. by apply Hfail0. }
  rewrite (bind_run _ _ _ _ _ (dev_create_run s1 (a_vnode m) dev Hn0)), (proj2 (Z.eqb_neq _ 0) Hn0).
  set (s2 := set_vst _ s1). pose proof (da_fresh _ _ _ _ _ Ha) as Hf.
  assert (forall r', r = r' -> r' <> 0 -> exists t', doadd_fail (a_vnode m) r' s2 = Ret (r, doadd_state s t' m dname mountable dev fs) /\ vok (curproc s) t' /\
      Vnode.moved (if r =? 0 then Vnode.one (a_vnode m) else Vnode.none) (f_vst s) t') as Hfail1.
  { intros r' Er Hn. destruct (fail_run s2 (curproc s) (vfs_biglock_depth s) (a_vnode m) dev (f_vst s) r' ltac:(done) Hdr Hv Hn0 Hf ltac:(done)) as (t' & Hrun & Hv' & Hm).
    apply (Hfail r' Er Hn _ t'); [|done|done]. rewrite Hrun. by destruct s. }
  clear Hfail Hfail0. destruct (ok_kd m) eqn:Ekd; cbn [negb orb]; [|by apply Hfail1].
  assert ((if negb (fs =? 0) then in_fs (fsop_getvolname fs) else mret None) s2 = Ret (if fs =? 0 then None else volname fs (f_world s), s2)) as Hvol.
  { destruct (fs =? 0); cbn [negb]; [done|]. rewrite (in_fs_run _ s2 _ _ _ (getvolname_ok fs (f_vst s2) (f_world s2))). by rewrite set_fs_id. }
  rewrite (bind_run _ _ _ _ _ Hvol). clear Hvol.
  assert (badnames (Some (cstr dname ++ [0])) (if mountable then Some (cstr dname ++ RAW) else None) (if fs =? 0 then None else volname fs (f_world s)) s2 =
    Ret (existsb (clash (f_world s) (new_names (f_world s) dname mountable fs)) (knowndevs s), s2)) as Hbad.
  { unfold badnames. rewrite bind_kassert by done. mrun.
    rewrite (badnames_loop_run s2); [reflexivity|apply Ht|by intros x [= <-]| |].
    - intros x E. destruct mountable; [|done]. injection E as <-. by apply new_raw_string.
    - intros x E. destruct (fs =? 0); [done|]. by apply (volname_ok fs (f_world s)). }
  rewrite (bind_run _ _ _ _ _ Hbad). clear Hbad. destruct (existsb _ _) eqn:Ec; [by apply Hfail1|].
  destruct (ok_room m) eqn:Eroom; cbn [negb]; [|by apply Hfail1].
  exists (dev_vnode (a_vnode m) dev (f_vst s)). destruct (dev_vnode_vok (curproc s) (a_vnode m) dev (f_vst s) Hv Hn0 Hf) as [Hv' Hm'].
  split; [|by split]. mrun.
  rewrite (bind_run _ _ _ _ _ (numbered_run s dev (da_known _ _ _ _ _ Ha) (set_knowndevs (knowndevs s2 ++ [new_kd m dname mountable dev fs]) s2) eq_refl)).
  erewrite bind_run by (apply (release_s _ (vfs_biglock_depth s)); [reflexivity|exact Hdr]).
  unfold doadd_state, doadd_result. rewrite Ename, Emr, Ekd, (proj2 (Z.eqb_neq _ 0) Hn0), Ec, Eroom. by destruct s.
Qed.

Lemma doadd_sound s m dname mountable dev fs t' :
  sound s -> is_string dname -> doadd_args s m mountable dev fs -> vok (curproc s) t' ->
  Vnode.moved (if doadd_result m (f_world s) (knowndevs s) dname mountable fs =? 0 then Vnode.one (a_vnode m) else Vnode.none) (f_vst s) t' ->
  sound (doadd_state s t' m dname mountable dev fs).
Proof.
  intros [Ht Hv] Hs Ha Hv' Hm. unfold doadd_state. destruct (doadd_result _ _ _ _ _ _ =? 0) eqn:E; split; try exact Hv'; cbn.
  - apply Z.eqb_eq in E. unfold doadd_result in E. destruct (_ || _ || _ || _) eqn:E1; [done|]. destruct (existsb _ _) eqn:Ec; [done|].
    apply orb_false_iff in E1 as [[_ E1]%orb_false_iff _]. apply Z.eqb_neq in E1.
    assert (forall v, Vnode.refs (f_vst s) v <= Vnode.refs t' v) as Hle by (intros v; rewrite (Hm v); unfold Vnode.one; destruct (v =? a_vnode m); lia).
    apply (table_add _ (f_vst s) _ (f_world s) _ _ _ _ _ s); try done.
    rewrite (Hm (a_vnode m)). unfold Vnode.one. rewrite Z.eqb_refl. pose proof (Vnode.refs_nonneg (f_vst s) (a_vnode m) (proj1 Hv)). lia.
  - apply (vok_table _ (f_vst s)); [done|]. intros v. by apply moved_none_le.
Qed.

(** *** The entry of a device that can be mounted *)

Definition mountable_as (dev : list Z) kd : Prop := is_Some (kd_rawname kd) /\ cstr (kd_name kd) = dev.

#[global] Instance mountable_as_dec dev kd : Decision (mountable_as dev kd).
Proof. apply and_dec; [apply _|apply _]. Defined.

Lemma findmount_loop_run s i l devname :
  Forall kd_ok l -> is_string devname ->
  findmount_loop i l devname s = Ret ((fun x => i + Z.of_nat (fst x)) <$> list_find (mountable_as (cstr devname)) l, s).
Proof.
  intros Hl Hd. revert i. induction l as [|kd l IH]; intros i; [done|]. apply Forall_cons in Hl as [Hk Hl]. cbn [findmount_loop list_find].
  destruct (kd_rawname kd) as [r|] eqn:Er.
  - rewrite (bind_run _ _ _ _ _ (streq_run s devname (kd_name kd) Hd (kn_name _ Hk))). destruct (decide (mountable_as _ kd)) as [[_ E]|Hn].
    + rewrite bool_decide_eq_true_2 by done. cbn. by rewrite Z.add_0_r.
    + rewrite bool_decide_eq_false_2 by (intros E; apply Hn; split; [by rewrite Er|done]). rewrite IH by done.
      destruct (list_find _ l) as [[j y]|]; [|done]. cbn. do 3 f_equal. lia.
  - destruct (decide (mountable_as _ kd)) as [[[? E] _]|_]; [congruence|]. rewrite IH by done.
    destruct (list_find _ l) as [[j y]|]; [|done]. cbn. do 3 f_equal. lia.
Qed.

Definition slot l (devname : list Z) : option (nat * knowndev) := list_find (mountable_as (cstr devname)) l.

Lemma findmount_run s devname : sound s -> is_string devname -> 
  findmount devname s = Ret ((fun x => Z.of_nat (fst x)) <$> slot (knowndevs s) devname, s).
Proof.
  intros [[Hk _ _] _] Hd. unfold findmount. rewrite bind_kassert by done. mrun. rewrite findmount_loop_run by done.
  unfold slot. by destruct (list_find _ _) as [[]|].
Qed.

Lemma slot_kd s devname n kd : sound s -> slot (knowndevs s) devname = Some (n, kd) ->
  knowndevs s !! n = Some kd /\ kd_ok kd /\ is_Some (kd_rawname kd) /\ kd_device kd <> 0 /\ 0 < Vnode.refs (f_vst s) (kd_vnode kd).
Proof.
  intros [[Hk _ Hl] _] E. apply list_find_Some in E as (Hn & [Hr _] & _). split; [done|]. pose proof (proj1 (Forall_lookup _ _) Hk n kd Hn) as Hkd.
  split; [done|]. split; [done|]. split; [apply Hkd; by left|]. apply Hl. by apply list_elem_of_lookup_2 in Hn.
Qed.

Lemma check_mountable_run s kd : is_Some (kd_rawname kd) -> kd_device kd <> 0 -> check_mountable kd s = Ret (tt, s).
Proof.
  intros [r E] Hd. unfold check_mountable. rewrite bind_kassert by (apply bool_decide_eq_true_2; by rewrite E).
  unfold kassert. by rewrite (proj2 (Z.eqb_neq _ 0) Hd).
Qed.

Lemma get_kd_run s n kd : knowndevs s !! n = Some kd -> get_kd (Z.of_nat n) s = Ret (kd, s).
Proof. intros E. unfold get_kd. mrun. by rewrite arr_get_nat, E. Qed.

(** [kd], the entry at [n], with another file system. *)
Definition set_slot l (n : nat) kd (fs : Z) : list knowndev := <[n := with_fs fs kd]> l.

Lemma put_fs_run s n kd fs : knowndevs s !! n = Some kd -> put_fs (Z.of_nat n) fs s = Ret (tt, set_knowndevs (set_slot (knowndevs s) n kd fs) s).
Proof. intros E. unfold put_fs, modify. rewrite arr_get_nat, E. unfold arr_set, set_slot. by rewrite Nat2Z.id. Qed.

Lemma names_set_slot l n kd fs : l !! n = Some kd -> mbind names (set_slot l n kd fs) = mbind names l.
Proof.
  unfold set_slot. revert n. induction l as [|x l IH]; intros [|n] E; try done.
  - by injection E as ->.
  - cbn [mbind list_bind insert list_insert]. f_equal. by apply IH.
Qed.

Lemma table_slot l t t' n kd fs :
  table_ok l t -> l !! n = Some kd -> is_Some (kd_rawname kd) -> (forall v, Vnode.refs t v <= Vnode.refs t' v) -> table_ok (set_slot l n kd fs) t'.
Proof.
  intros [Hk Hu Hl] E Hr Hm. pose proof (proj1 (Forall_lookup _ _) Hk n kd E) as [Hn Hraw Hdev Hsw].
  assert (forall k, k ∈ set_slot l n kd fs -> k = with_fs fs kd \/ k ∈ l) as Hin.
  { intros k [j Hj]%list_elem_of_lookup. unfold set_slot in Hj. apply list_lookup_insert_Some in Hj as [(_ & <- & _)|(_ & Hj)]; [by left|right].
    by apply list_elem_of_lookup_2 in Hj. }
  split.
  - apply Forall_forall. intros k [->|Hin']%Hin; [|by apply (proj1 (Forall_forall _ _) Hk)]. split; cbn; [done|done| |done].
    intros _. apply Hdev. by left.
  - by rewrite names_set_slot.
  - intros k Hk'. assert (exists k', k' ∈ l /\ kd_vnode k' = kd_vnode k) as (k' & Hk1 & <-).
    { apply Hin in Hk' as [->|Hk']; [|by exists k]. exists kd. split; [by apply list_elem_of_lookup_2 in E|done]. }
    specialize (Hl k' Hk1). specialize (Hm (kd_vnode k')). lia.
Qed.

(** *** Mounting *)

(** Leaving with a result. *)
Lemma leave_run {A} (a : A) s0 s t w l dv :
  depth_ok s0 -> s = set_depth (vfs_biglock_depth s0 + 1) (upd s0 t w l dv) ->
  (vfs_biglock_release;; mret a) s = Ret (a, upd s0 t w l dv).
Proof.
  intros Hd ->. unfold depth_ok in Hd. erewrite bind_run by (apply (release_s _ (vfs_biglock_depth s0)); [reflexivity|lia]). reflexivity.
Qed.

Lemma upd_id s : upd s (f_vst s) (f_world s) (knowndevs s) (devices s) = s.
Proof. by destruct s. Qed.

Lemma leave_same {A} (a : A) s : depth_ok s -> (vfs_biglock_release;; mret a) (set_depth (vfs_biglock_depth s + 1) s) = Ret (a, s).
Proof.
  intros Hd. rewrite (leave_run a s _ (f_vst s) (f_world s) (knowndevs s) (devices s) Hd); [by rewrite upd_id|]. by rewrite upd_id.
Qed.

Definition mount_ok (mountfunc : Z -> M (vst * world) (Z * Z)) : Prop :=
  forall p d t w, vok p t -> roomy 1 t -> exists result fs t' w', mountfunc d (t, w) = Ret ((result, fs), (t', w')) /\
    vok p t' /\ Vnode.moved Vnode.none t t' /\ (result = 0 -> fs <> 0 /\ fs <> SWAP_FS).

Lemma sound_locked s d : sound s -> sound (set_depth d s).
Proof. by destruct s. Qed.

Lemma mount_run s devname mountfunc :
  sound s -> depth_ok s -> is_string devname -> mount_ok mountfunc -> roomy 1 (f_vst s) ->
  match slot (knowndevs s) devname with
  | None => vfs_mount devname mountfunc s = Ret (ENODEV, s)
  | Some (n, kd) =>
      if kd_fs kd =? 0 then
        exists result fs t' w', in_fs (mountfunc (kd_device kd)) s = Ret ((result, fs), set_fs (t', w') s) /\
          vfs_mount devname mountfunc s =
            Ret (result, upd s t' w' (if result =? 0 then set_slot (knowndevs s) n kd fs else knowndevs s) (devices s)) /\
          vok (curproc s) t' /\ Vnode.moved Vnode.none (f_vst s) t' /\ (result = 0 -> fs <> 0 /\ fs <> SWAP_FS)
      else vfs_mount devname mountfunc s = Ret (EBUSY, s)
  end.
Proof.
  intros Hs Hd Hn Hmf Hr. unfold depth_ok in Hd. unfold vfs_mount. rewrite (bind_run _ _ _ _ _ (acquire_s s ltac:(lia))).
  rewrite (bind_run _ _ _ _ _ (findmount_run _ devname (sound_locked s _ Hs) Hn)). cbn [knowndevs set_depth].
  destruct (slot _ _) as [[n kd]|] eqn:E; cbn [fmap option_fmap option_map]; [|by apply leave_same].
  destruct (slot_kd s devname n kd Hs E) as (El & _ & Hraw & Hdev & _). cbn [fst].
  rewrite (bind_run _ _ _ _ _ (get_kd_run (set_depth _ s) n kd El)). destruct (kd_fs kd =? 0); cbn [negb]; [|by apply leave_same].
  rewrite (bind_run _ _ _ _ _ (check_mountable_run _ kd Hraw Hdev)).
  destruct (Hmf (curproc s) (kd_device kd) (f_vst s) (f_world s) (proj2 Hs) Hr) as (result & fs & t' & w' & Hrun & Hv' & Hm & Hfs).
  exists result, fs, t', w'. split; [by apply in_fs_run|]. split; [|by split].
  rewrite (bind_run _ _ _ _ _ (in_fs_run _ (set_depth _ s) _ _ _ Hrun)). unfold nz. destruct (Z.eqb_spec result 0) as [->|Hnz]; cbn [negb].
  - destruct (Hfs eq_refl) as [H0 Hsw]. rewrite !bind_kassert by (by apply negb_true_iff, Z.eqb_neq).
    rewrite (bind_run _ _ _ _ _ (put_fs_run (set_fs (t', w') (set_depth _ s)) n kd fs El)).
    erewrite bind_run by (apply in_fs_run, getvolname_ok). by apply leave_run.
  - by apply leave_run.
Qed.

Lemma unmount_run s devname :
  sound s -> depth_ok s -> is_string devname -> roomy 1 (f_vst s) ->
  match slot (knowndevs s) devname with
  | None => vfs_unmount devname s = Ret (ENODEV, s)
  | Some (n, kd) =>
      if has_fs kd then
        exists result t' w', vfs_unmount devname s =
            Ret (result, upd s t' w' (if result =? 0 then set_slot (knowndevs s) n kd 0 else knowndevs s) (devices s)) /\
          vok (curproc s) t' /\ Vnode.moved Vnode.none (f_vst s) t'
      else vfs_unmount devname s = Ret (EINVAL, s)
  end.
Proof.
  intros Hs Hd Hn Hr. pose proof Hd as Hd'. unfold depth_ok in Hd'. unfold vfs_unmount. rewrite (bind_run _ _ _ _ _ (acquire_s s ltac:(lia))).
  rewrite (bind_run _ _ _ _ _ (findmount_run _ devname (sound_locked s _ Hs) Hn)). cbn [knowndevs set_depth].
  destruct (slot _ _) as [[n kd]|] eqn:E; cbn [fmap option_fmap option_map]; [|by apply leave_same].
  destruct (slot_kd s devname n kd Hs E) as (El & _ & Hraw & Hdev & _). cbn [fst].
  rewrite (bind_run _ _ _ _ _ (get_kd_run (set_depth _ s) n kd El)). unfold has_fs. rewrite <- negb_orb.
  destruct (_ || _); cbn [negb]; [by apply leave_same|]. rewrite (bind_run _ _ _ _ _ (check_mountable_run _ kd Hraw Hdev)).
  set (s1 := set_depth _ s).
  destruct (fs_moves _ _ s1 (sync_ok _ (kd_fs kd)) (proj2 Hs) Hr) as (r1 & t1 & w1 & Hrun1 & Hv1 & Hm1 & _). rewrite (bind_run _ _ _ _ _ Hrun1).
  unfold nz. destruct (Z.eqb_spec r1 0) as [->|Hnz]; cbn [negb].
  - assert (roomy 1 t1) as Hr1 by (apply (roomy_moved _ _ _ _ Hr Hm1); intros v; unfold Vnode.none; lia).
    destruct (fs_moves _ _ (set_fs (t1, w1) s1) (unmount_ok _ (kd_fs kd)) Hv1 Hr1) as (r2 & t2 & w2 & Hrun2 & Hv2 & Hm2 & _).
    rewrite (bind_run _ _ _ _ _ Hrun2). exists r2, t2, w2. split; [|split; [done|by apply (Vnode.moved_trans _ _ _ _ _ Hm1 Hm2)]].
    destruct (Z.eqb_spec r2 0) as [->|Hnz]; cbn [negb].
    + rewrite (bind_run _ _ _ _ _ (put_fs_run (set_fs (t2, w2) (set_fs (t1, w1) s1)) n kd 0 El)). by apply leave_run.
    + by apply leave_run.
  - exists r1, t1, w1. rewrite (proj2 (Z.eqb_neq r1 0) Hnz). split; [|by split]. by apply leave_run.
Qed.

Lemma swapoff_run s devname :
  sound s -> depth_ok s -> is_string devname ->
  vfs_swapoff devname s =
  match slot (knowndevs s) devname with
  | None => Ret (ENODEV, s)
  | Some (n, kd) =>
      if kd_fs kd =? SWAP_FS then Ret (0, set_knowndevs (set_slot (knowndevs s) n kd 0) s) else Ret (EINVAL, s)
  end.
Proof.
  intros Hs Hd Hn. pose proof Hd as Hd'. unfold depth_ok in Hd'. unfold vfs_swapoff. rewrite (bind_run _ _ _ _ _ (acquire_s s ltac:(lia))).
  rewrite (bind_run _ _ _ _ _ (findmount_run _ devname (sound_locked s _ Hs) Hn)). cbn [knowndevs set_depth].
  destruct (slot _ _) as [[n kd]|] eqn:E; cbn [fmap option_fmap option_map]; [|by apply leave_same].
  destruct (slot_kd s devname n kd Hs E) as (El & _). cbn [fst].
  rewrite (bind_run _ _ _ _ _ (get_kd_run (set_depth _ s) n kd El)). destruct (kd_fs kd =? SWAP_FS); cbn [negb]; [|by apply leave_same].
  rewrite (bind_run _ _ _ _ _ (put_fs_run (set_depth _ s) n kd 0 El)). 
  rewrite (leave_run 0 s _ (f_vst s) (f_world s) (set_slot (knowndevs s) n kd 0) (devices s) Hd); [done|done].
Qed.

(** [devname] up to a trailing colon. *)
Definition COLON : Z := 58.

Definition without_colon (x : list Z) : list Z := if bool_decide (last x = Some COLON) then take (length x - 1) x else x.

Lemma strip_colon_run s ok devname : is_string devname ->
  exists n, strip_colon ok devname s = Ret (if bool_decide (last (cstr devname) = Some COLON) && negb ok then None else Some n, s) /\
    is_string n /\ cstr n = without_colon (cstr devname).
Proof.
  intros Hs. unfold strip_colon, without_colon. rewrite (bind_run _ _ _ _ _ (lift_run _ _ s (strlen_string devname Hs))).
  assert ((0 <? Z.of_nat (length (cstr devname))) && bool_decide (arr_get devname (Z.of_nat (length (cstr devname)) - 1) = Some 58) =
    bool_decide (last (cstr devname) = Some COLON)) as ->.
  { destruct (terminated_inv devname (proj1 Hs)) as [r Er]. rewrite last_lookup. destruct (cstr devname) as [|c x] eqn:Ec.
    - by rewrite bool_decide_eq_false_2.
    - rewrite (proj2 (Z.ltb_lt _ _)) by (cbn; lia). cbn [andb]. replace (Z.of_nat (length (c :: x)) - 1) with (Z.of_nat (pred (length (c :: x)))) by (cbn; lia).
      rewrite arr_get_nat, Er, lookup_app_l by (cbn; lia). reflexivity. }
  destruct (bool_decide (last (cstr devname) = Some COLON)) eqn:Eb; [|by exists devname]. cbn [andb].
  apply bool_decide_eq_true in Eb. rewrite (bind_run _ _ _ _ _ (kstrdup_run s ok devname Hs)).
  pose proof (cstr_clean devname) as Hc. pose proof (cstr_bytes devname Hs) as Hb. set (k := (length (cstr devname) - 1)%nat).
  assert (0 < length (cstr devname))%nat as Hpos by (destruct (cstr devname); [done|cbn; lia]).
  exists (take k (cstr devname) ++ 0 :: replicate 1 0).
  destruct (string_of (take k (cstr devname)) 1) as [Hs' Hc']; [by apply Forall_take|by apply Forall_take|]. split; [|by split].
  destruct ok; [|done]. cbn [fmap option_fmap option_map negb]. unfold arr_set, mret, M_ret. do 3 f_equal.
  replace (Z.to_nat (Z.of_nat (length (cstr devname)) - 1)) with k by (unfold k; lia). rewrite insert_app_l by (unfold k; lia).
  rewrite insert_take_drop by (unfold k; lia). rewrite drop_ge by (unfold k; lia). by rewrite <- app_assoc.
Qed.

Lemma swapon_run s ok devname :
  sound s -> depth_ok s -> is_string devname -> roomy 1 (f_vst s) ->
  if bool_decide (last (cstr devname) = Some COLON) && negb ok then vfs_swapon ok devname s = Ret ((ENOMEM, 0), s)
  else match list_find (mountable_as (without_colon (cstr devname))) (knowndevs s) with
       | None => vfs_swapon ok devname s = Ret ((ENODEV, 0), s)
       | Some (n, kd) =>
           if kd_fs kd =? 0 then
             exists t', vfs_swapon ok devname s =
               Ret ((0, kd_vnode kd), upd s t' (f_world s) (set_slot (knowndevs s) n kd SWAP_FS) (devices s)) /\
               vok (curproc s) t' /\ Vnode.moved (Vnode.one (kd_vnode kd)) (f_vst s) t'
           else vfs_swapon ok devname s = Ret ((EBUSY, 0), s)
       end.
Proof.
  intros Hs Hd Hn Hr. pose proof Hd as Hd'. unfold depth_ok in Hd'. unfold vfs_swapon.
  destruct (strip_colon_run s ok devname Hn) as (nm & Hrun & Hnm & <-). rewrite (bind_run _ _ _ _ _ Hrun). destruct (_ && _); [reflexivity|].
  rewrite (bind_run _ _ _ _ _ (acquire_s s ltac:(lia))).
  rewrite (bind_run _ _ _ _ _ (findmount_run _ nm (sound_locked s _ Hs) Hnm)). cbn [knowndevs set_depth]. fold (slot (knowndevs s) nm).
  destruct (slot _ _) as [[n kd]|] eqn:E; cbn [fmap option_fmap option_map]; [|by apply leave_same].
  destruct (slot_kd s nm n kd Hs E) as (El & _ & Hraw & Hdev & Hlive). cbn [fst].
  rewrite (bind_run _ _ _ _ _ (get_kd_run (set_depth _ s) n kd El)). destruct (kd_fs kd =? 0); cbn [negb]; [|by apply leave_same].
  rewrite (bind_run _ _ _ _ _ (check_mountable_run _ kd Hraw Hdev)), (bind_run _ _ _ _ _ (put_fs_run (set_depth _ s) n kd SWAP_FS El)).
  set (s2 := set_knowndevs _ _).
  destruct (incref_s s2 (kd_vnode kd) (proj2 Hs)) as (t' & Hi & Hv' & Hm & _); [specialize (Hr (kd_vnode kd)); cbn; lia|].
  exists t'. split; [|by split]. rewrite (bind_run _ _ _ _ _ Hi). by apply leave_run.
Qed.

(** *** Loops over the table *)

(** [c] changes neither the counts nor, apart from the file systems, the state. *)
Definition quiet s0 s : Prop :=
  exists t w, s = set_fs (t, w) s0 /\ vok (curproc s0) t /\ Vnode.moved Vnode.none (f_vst s0) t.

Lemma moved_none_trans t0 t1 t2 : Vnode.moved Vnode.none t0 t1 -> Vnode.moved Vnode.none t1 t2 -> Vnode.moved Vnode.none t0 t2.
Proof. intros H1 H2 v. rewrite (H2 v), (H1 v). unfold Vnode.none. lia. Qed.

Lemma quiet_fs_refl s : vok (curproc s) (f_vst s) -> quiet s s.
Proof. intros Hv. exists (f_vst s), (f_world s). split; [by destruct s|]. split; [done|]. intros v. unfold Vnode.none. lia. Qed.

Lemma quiet_fs {A} (c : M (vst * world) A) s0 s :
  moves (curproc s0) c (fun _ => Vnode.none) -> roomy 1 (f_vst s0) -> quiet s0 s -> exists a s', in_fs c s = Ret (a, s') /\ quiet s0 s'.
Proof.
  intros Hc Hr (t & w & -> & Hv & Hm).
  assert (roomy 1 t) as Hr' by (apply (roomy_moved _ _ _ _ Hr Hm); intros v; unfold Vnode.none; lia).
  destruct (fs_moves c _ (set_fs (t, w) s0) Hc Hv Hr') as (a & t' & w' & Hrun & Hv' & Hm' & _). exists a, (set_fs (t', w') s0). split; [exact Hrun|].
  exists t', w'. split; [done|]. split; [done|]. by apply (moved_none_trans _ t).
Qed.

Lemma vfs_sync_run s :
  sound s -> depth_ok s -> roomy 1 (f_vst s) -> exists s', vfs_sync s = Ret (0, s') /\ quiet s s'.
Proof.
  intros Hs Hd Hr. pose proof Hd as Hd'. unfold depth_ok in Hd'. unfold vfs_sync. rewrite (bind_run _ _ _ _ _ (acquire_s s ltac:(lia))). mrun.
  set (s1 := set_depth _ s). change (knowndevs s1) with (knowndevs s).
  assert (forall l s2, quiet s1 s2 -> exists s3, for_each l (fun kd => if has_fs kd then in_fs (fsop_sync (kd_fs kd));; mret tt else mret tt) s2 = Ret (tt, s3) /\ quiet s1 s3) as Hloop.
  { induction l as [|kd l IH]; intros s2 Hq; cbn [for_each]; [by exists s2|]. destruct (has_fs kd); [|mrun; by apply IH].
    destruct (quiet_fs _ s1 s2 (sync_ok _ (kd_fs kd)) Hr Hq) as (a & s3 & Hrun & Hq3). rewrite bind_assoc, (bind_run _ _ _ _ _ Hrun). mrun. by apply IH. }
  destruct (Hloop (knowndevs s) s1 (quiet_fs_refl s1 (proj2 Hs))) as (s3 & Hrun & (t & w & -> & Hv & Hm)). rewrite (bind_run _ _ _ _ _ Hrun).
  exists (set_fs (t, w) s). split; [by apply leave_run|]. exists t, w. by split.
Qed.

(** [s] is [s0] after some file systems have been unmounted. *)
Definition dropped l0 l : Prop :=
  Forall2 (fun kd0 kd => kd = kd0 \/ is_Some (kd_rawname kd0) /\ kd_fs kd0 <> 0 /\ kd = with_fs 0 kd0) l0 l.

Definition unmounting s0 s : Prop :=
  exists t w l, s = upd s0 t w l (devices s0) /\ vok (curproc s0) t /\ Vnode.moved Vnode.none (f_vst s0) t /\ dropped (knowndevs s0) l.

Lemma dropped_refl l : dropped l l.
Proof. apply Forall2_same_length_lookup_2; [done|]. intros i x y Hx Hy. left. congruence. Qed.

Lemma dropped_slot l0 l n kd : dropped l0 l -> l !! n = Some kd -> is_Some (kd_rawname kd) -> kd_fs kd <> 0 -> dropped l0 (set_slot l n kd 0).
Proof.
  intros Hd E Hr Hf. destruct (Forall2_lookup_r _ _ _ _ _ Hd E) as (kd0 & E0 & Hk).
  rewrite <- (list_insert_id l0 n kd0 E0). apply Forall2_insert; [done|]. right. destruct Hk as [->|(_ & _ & ->)]; [done|by cbn in Hf].
Qed.

Lemma dropped_table l0 l t t' : table_ok l0 t -> dropped l0 l -> (forall v, Vnode.refs t v <= Vnode.refs t' v) -> table_ok l t'.
Proof.
  intros [Hk Hu Hl] Hd Hm. split.
  - clear Hu Hl. induction Hd as [|kd0 kd l0 l Hkd Hd IH]; [done|]. apply Forall_cons in Hk as [Hk Hks]. constructor; [|by apply IH].
    destruct Hkd as [->|(Hr & _ & ->)]; [done|]. destruct Hk as [H1 H2 H3 H4]. split; cbn; [done|done| |done]. intros _. apply H3. by left.
  - replace (mbind names l) with (mbind names l0); [done|]. clear Hu Hl Hk. induction Hd as [|kd0 kd l0 l Hkd Hd IH]; [done|]. cbn [mbind list_bind].
    f_equal; [|done]. by destruct Hkd as [->|(_ & _ & ->)].
  - intros kd [n E]%list_elem_of_lookup. destruct (Forall2_lookup_r _ _ _ _ _ Hd E) as (kd0 & E0 & Hkd).
    assert (kd_vnode kd = kd_vnode kd0) as -> by (by destruct Hkd as [->|(_ & _ & ->)]).
    specialize (Hl kd0 ltac:(by apply list_elem_of_lookup_2 in E0)). specialize (Hm (kd_vnode kd0)). lia.
Qed.

Lemma unmounting_fs {A} (c : M (vst * world) A) s0 s :
  moves (curproc s0) c (fun _ => Vnode.none) -> roomy 1 (f_vst s0) -> unmounting s0 s ->
  exists a s', in_fs c s = Ret (a, s') /\ unmounting s0 s' /\ knowndevs s' = knowndevs s.
Proof.
  intros Hc Hr (t & w & l & -> & Hv & Hm & Hd).
  assert (roomy 1 t) as Hr' by (apply (roomy_moved _ _ _ _ Hr Hm); intros v; unfold Vnode.none; lia).
  destruct (fs_moves c _ (upd s0 t w l (devices s0)) Hc Hv Hr') as (a & t' & w' & Hrun & Hv' & Hm' & _).
  exists a, (upd s0 t' w' l (devices s0)). split; [exact Hrun|]. split; [|done].
  exists t', w', l. split; [done|]. split; [done|]. split; [by apply (moved_none_trans _ t)|done].
Qed.

Lemma unmounting_put s0 s n kd : unmounting s0 s -> knowndevs s !! n = Some kd -> is_Some (kd_rawname kd) -> kd_fs kd <> 0 ->
  exists s', put_fs (Z.of_nat n) 0 s = Ret (tt, s') /\ unmounting s0 s'.
Proof.
  intros (t & w & l & -> & Hv & Hm & Hd) E Hr Hf. rewrite (put_fs_run _ n kd 0 E).
  exists (upd s0 t w (set_slot l n kd 0) (devices s0)). split; [done|]. exists t, w, (set_slot l n kd 0). split_and!; try done. by apply dropped_slot.
Qed.

Lemma unmounting_length s0 s : unmounting s0 s -> length (knowndevs s) = length (knowndevs s0).
Proof. intros (t & w & l & -> & _ & _ & Hd). symmetry. exact (Forall2_length _ _ _ Hd). Qed.

Lemma unmount_one_run s0 s (n : nat) :
  roomy 1 (f_vst s0) -> unmounting s0 s -> (n < length (knowndevs s0))%nat ->
  exists s', unmount_one (Z.of_nat n) s = Ret (tt, s') /\ unmounting s0 s'.
Proof.
  intros Hr Hu Hn. rewrite <- (unmounting_length s0 s Hu) in Hn. destruct (lookup_lt_is_Some_2 _ _ Hn) as [kd E].
  unfold unmount_one. rewrite (bind_run _ _ _ _ _ (get_kd_run s n kd E)). destruct (kd_rawname kd) as [r|] eqn:Eraw; [|by exists s].
  destruct (Z.eqb_spec (kd_fs kd) 0) as [|Hf]; [by exists s|]. assert (is_Some (kd_rawname kd)) as Hraw by (by rewrite Eraw).
  destruct (kd_fs kd =? SWAP_FS); [by apply (unmounting_put s0 s n kd)|].
  destruct (unmounting_fs _ s0 s (sync_ok _ (kd_fs kd)) Hr Hu) as (r1 & s1 & Hrun1 & Hu1 & E1). rewrite (bind_run _ _ _ _ _ Hrun1).
  assert (exists r2 s2, (if nz r1 then in_fs (fsop_sync (kd_fs kd)) else mret 0) s1 = Ret (r2, s2) /\ unmounting s0 s2 /\ knowndevs s2 = knowndevs s) as (r2 & s2 & Hrun2 & Hu2 & E2).
  { destruct (nz r1); [|by exists 0, s1]. destruct (unmounting_fs _ s0 s1 (sync_ok _ (kd_fs kd)) Hr Hu1) as (r2 & s2 & Hrun2 & Hu2 & E2).
    exists r2, s2. split; [done|]. split; [done|]. by rewrite E2. }
  rewrite (bind_run _ _ _ _ _ Hrun2). destruct (nz r2); [by exists s2|].
  destruct (unmounting_fs _ s0 s2 (unmount_ok _ (kd_fs kd)) Hr Hu2) as (r3 & s3 & Hrun3 & Hu3 & E3). rewrite (bind_run _ _ _ _ _ Hrun3).
  destruct (nz r3); [by exists s3|]. apply (unmounting_put s0 s3 n kd); [done|by rewrite E3, E2|done|done].
Qed.

Lemma unmountall_run s :
  sound s -> depth_ok s -> roomy 1 (f_vst s) -> exists s', vfs_unmountall s = Ret (0, s') /\ unmounting s s'.
Proof.
  intros Hs Hd Hr. pose proof Hd as Hd'. unfold depth_ok in Hd'. unfold vfs_unmountall. rewrite (bind_run _ _ _ _ _ (acquire_s s ltac:(lia))). mrun.
  set (s1 := set_depth _ s). change (knowndevs s1) with (knowndevs s).
  assert (forall (ixs : list Z) s2, Forall (fun i => 0 <= i < Z.of_nat (length (knowndevs s))) ixs -> unmounting s1 s2 ->
    exists s3, for_each ixs unmount_one s2 = Ret (tt, s3) /\ unmounting s1 s3) as Hloop.
  { induction ixs as [|i ixs IH]; intros s2 Hl Hu; cbn [for_each]; [by exists s2|]. apply Forall_cons in Hl as [Hi Hl].
    destruct (unmount_one_run s1 s2 (Z.to_nat i) Hr Hu) as (s3 & Hrun & Hu3); [unfold s1; cbn; lia|]. rewrite Z2Nat.id in Hrun by lia.
    rewrite (bind_run _ _ _ _ _ Hrun). by apply IH. }
  assert (unmounting s1 s1) as H1.
  { exists (f_vst s), (f_world s), (knowndevs s). split; [by destruct s|]. split; [apply Hs|]. split; [intros v; change (f_vst s1) with (f_vst s); unfold Vnode.none; lia|apply dropped_refl]. }
  destruct (Hloop (seqZ 0 (Z.of_nat (length (knowndevs s)))) s1) as (s3 & Hrun & (t & w & l & -> & Hv & Hm & Hdr)); [|done|].
  { apply Forall_forall. intros i Hi. apply elem_of_seqZ in Hi. lia. }
  rewrite (bind_run _ _ _ _ _ Hrun). exists (upd s t w l (devices s)). split; [by apply leave_run|]. exists t, w, l. by split.
Qed.

(** *** Sequences of operations *)

(** The calls that drivers, file systems and the kernel make.  [Driver] is a driver
    that fills in its [struct device]. *)
Inductive request :=
  | Driver (a : Z) (d : device)
  | Adddev (m : memory) (name : list Z) (dev : Z) (mountable : bool)
  | Addfs (m : memory) (name : list Z) (fs : Z)
  | Mount (name : list Z) (mountfunc : Z -> M (vst * world) (Z * Z))
  | Unmount (name : list Z)
  | Swapon (ok : bool) (name : list Z)
  | Swapoff (name : list Z)
  | Sync
  | Unmountall
  | Getroot (name : list Z).

Definition exec (q : request) : M vfs Z :=
  match q with
  | Driver a d => modify (fun s => set_devices (<[a := d]> (devices s)) s);; mret 0
  | Adddev m name dev mountable => vfs_adddev m name dev mountable
  | Addfs m name fs => vfs_addfs m name fs
  | Mount name mountfunc => vfs_mount name mountfunc
  | Unmount name => vfs_unmount name
  | Swapon ok name => r ← vfs_swapon ok name; mret (fst r)
  | Swapoff name => vfs_swapoff name
  | Sync => vfs_sync
  | Unmountall => vfs_unmountall
  | Getroot name => r ← vfs_getroot name; mret (fst r)
  end.

(** What a caller must respect. *)
Definition allowed s (q : request) : Prop :=
  roomy 1 (f_vst s) /\
  match q with
  | Driver a d => True
  | Adddev m name dev mountable => is_string name /\ doadd_args s m mountable dev 0
  | Addfs m name fs => is_string name /\ doadd_args s m false 0 fs
  | Mount name mountfunc => is_string name /\ mount_ok mountfunc
  | Unmount name | Swapon _ name | Swapoff name | Getroot name => is_string name
  | Sync | Unmountall => True
  end.

(** From the state that [vfs_bootstrap] begins with. *)
Inductive reachable : vfs -> Prop :=
  | reach_boot s : vok (curproc s) (f_vst s) -> knowndevs s = [] -> vfs_biglock_depth s = 0 -> reachable s
  | reach_step s q r s' : reachable s -> allowed s q -> exec q s = Ret (r, s') -> reachable s'.

Definition stable s : Prop := sound s /\ vfs_biglock_depth s = 0.

Lemma stable_upd s t w l dv : stable s -> vok (curproc s) t -> table_ok l t -> stable (upd s t w l dv).
Proof. intros [[_ _] Hd] Hv Ht. split; [|exact Hd]. by split. Qed.

Lemma stable_fs s t w d : stable s -> vok (curproc s) t -> Vnode.moved d (f_vst s) t -> (forall v, 0 <= d v) -> stable (set_fs (t, w) s).
Proof.
  intros [[Ht Hv] Hd] Hv' Hm H0. split; [|exact Hd]. split; [|exact Hv']. apply (vok_table _ (f_vst s)); [done|]. intros v. pose proof (Hm v) as E. specialize (H0 v). cbn. lia.
Qed.

Lemma one_nonneg v w : 0 <= Vnode.one v w.
Proof. unfold Vnode.one. destruct (w =? v); lia. Qed.

Lemma one_if_nonneg r w : 0 <= one_if r w.
Proof. unfold one_if. destruct (fst r =? 0); [apply one_nonneg|unfold Vnode.none; lia]. Qed.

Lemma moved_le d t t' v : Vnode.moved d t t' -> (forall w, 0 <= d w) -> Vnode.refs t v <= Vnode.refs t' v.
Proof. intros Hm H0. rewrite (Hm v). specialize (H0 v). lia. Qed.

Lemma exec_add s m name mountable dev fs :
  stable s -> is_string name -> doadd_args s m mountable dev fs -> exists r s', vfs_doadd m name mountable dev fs s = Ret (r, s') /\ stable s'.
Proof.
  intros [Hs Hd] Hn Ha. destruct (doadd_run s m name mountable dev fs Hs ltac:(unfold depth_ok; lia) Hn Ha) as (t' & Hrun & Hv' & Hm).
  do 2 eexists. split; [exact Hrun|]. split; [by apply doadd_sound|]. unfold doadd_state. by destruct (_ =? 0).
Qed.

Lemma exec_mount s name mountfunc :
  stable s -> roomy 1 (f_vst s) -> is_string name -> mount_ok mountfunc -> exists r s', vfs_mount name mountfunc s = Ret (r, s') /\ stable s'.
Proof.
  intros Hst Hr Hn Hmf. pose proof Hst as [Hs Hd].
  pose proof (mount_run s name mountfunc Hs ltac:(unfold depth_ok; lia) Hn Hmf Hr) as Hrun. destruct (slot _ _) as [[n kd]|] eqn:E; [|by do 2 eexists].
  destruct (slot_kd s name n kd Hs E) as (El & _ & Hraw & _). destruct (kd_fs kd =? 0); [|by do 2 eexists].
  destruct Hrun as (result & fs & t' & w' & _ & Hrun & Hv' & Hm & _). do 2 eexists. split; [exact Hrun|]. apply stable_upd; [done|done|].
  assert (forall v, Vnode.refs (f_vst s) v <= Vnode.refs t' v) as Hle by (intros v; by apply moved_none_le).
  destruct (result =? 0); [by apply (table_slot _ (f_vst s)); try apply Hs|by apply (vok_table _ (f_vst s)); try apply Hs].
Qed.

Lemma exec_unmount s name :
  stable s -> roomy 1 (f_vst s) -> is_string name -> exists r s', vfs_unmount name s = Ret (r, s') /\ stable s'.
Proof.
  intros Hst Hr Hn. pose proof Hst as [Hs Hd].
  pose proof (unmount_run s name Hs ltac:(unfold depth_ok; lia) Hn Hr) as Hrun. destruct (slot _ _) as [[n kd]|] eqn:E; [|by do 2 eexists].
  destruct (slot_kd s name n kd Hs E) as (El & _ & Hraw & _). destruct (has_fs kd); [|by do 2 eexists].
  destruct Hrun as (result & t' & w' & Hrun & Hv' & Hm). do 2 eexists. split; [exact Hrun|]. apply stable_upd; [done|done|].
  assert (forall v, Vnode.refs (f_vst s) v <= Vnode.refs t' v) as Hle by (intros v; by apply moved_none_le).
  destruct (result =? 0); [by apply (table_slot _ (f_vst s)); try apply Hs|by apply (vok_table _ (f_vst s)); try apply Hs].
Qed.

Lemma exec_swapon s ok name :
  stable s -> roomy 1 (f_vst s) -> is_string name -> exists r s', vfs_swapon ok name s = Ret (r, s') /\ stable s'.
Proof.
  intros Hst Hr Hn. pose proof Hst as [Hs Hd].
  pose proof (swapon_run s ok name Hs ltac:(unfold depth_ok; lia) Hn Hr) as Hrun. destruct (_ && _); [by do 2 eexists|].
  destruct (list_find _ _) as [[n kd]|] eqn:E; [|by do 2 eexists]. apply list_find_Some in E as (El & [Hraw _] & _).
  destruct (kd_fs kd =? 0); [|by do 2 eexists]. destruct Hrun as (t' & Hrun & Hv' & Hm). do 2 eexists. split; [exact Hrun|].
  apply stable_upd; [done|done|]. apply (table_slot _ (f_vst s)); [apply Hs|done|done|]. intros v. apply (moved_le _ _ _ v Hm), one_nonneg.
Qed.

Lemma exec_swapoff s name : stable s -> is_string name -> exists r s', vfs_swapoff name s = Ret (r, s') /\ stable s'.
Proof.
  intros Hst Hn. pose proof Hst as [Hs Hd]. rewrite (swapoff_run s name Hs ltac:(unfold depth_ok; lia) Hn).
  destruct (slot _ _) as [[n kd]|] eqn:E; [|by do 2 eexists]. destruct (slot_kd s name n kd Hs E) as (El & _ & Hraw & _).
  destruct (_ =? _); [|by do 2 eexists]. do 2 eexists. split; [reflexivity|].
  apply (stable_upd s (f_vst s) (f_world s) _ (devices s)); [done|apply Hs|]. apply (table_slot _ (f_vst s)); [apply Hs|done|done|done].
Qed.

Lemma exec_getroot s name : stable s -> roomy 1 (f_vst s) -> is_string name -> exists r s', vfs_getroot name s = Ret (r, s') /\ stable s'.
Proof.
  intros Hst Hr Hn. pose proof Hst as [Hs Hd]. pose proof (vfs_getroot_run s name Hs Hn Hr) as Hrun. destruct (resolve _ _ _) as [[[] kd]|].
  - destruct Hrun as (r & t' & w' & Hrun & _ & Hv' & Hm & _). do 2 eexists. split; [exact Hrun|]. apply (stable_fs s t' w' (one_if r)); try done. apply one_if_nonneg.
  - by do 2 eexists.
  - destruct Hrun as (t' & Hrun & Hv' & Hm & _). do 2 eexists. split; [exact Hrun|]. apply (stable_fs s t' (f_world s) _ Hst Hv' Hm). apply one_nonneg.
  - by do 2 eexists.
Qed.

Lemma exec_req_run s q : stable s -> allowed s q -> exists r s', exec q s = Ret (r, s') /\ stable s'.
Proof.
  intros Hst [Hr Hq]. pose proof Hst as [Hs Hd]. assert (depth_ok s) as Hdo by (unfold depth_ok; lia). destruct q; cbn [exec].
  - do 2 eexists. split; [by mrun|]. done.
  - destruct Hq. by apply exec_add.
  - destruct Hq. by apply exec_add.
  - destruct Hq. by apply exec_mount.
  - by apply exec_unmount.
  - destruct (exec_swapon s ok name Hst Hr Hq) as (r & s' & Hrun & Hst'). rewrite (bind_run _ _ _ _ _ Hrun). by do 2 eexists.
  - by apply exec_swapoff.
  - destruct (vfs_sync_run s Hs Hdo Hr) as (s' & Hrun & t & w & -> & Hv & Hm). do 2 eexists. split; [exact Hrun|].
    apply (stable_fs s t w _ Hst Hv Hm). done.
  - destruct (unmountall_run s Hs Hdo Hr) as (s' & Hrun & t & w & l & -> & Hv & Hm & Hdr). do 2 eexists. split; [exact Hrun|].
    apply stable_upd; [done|done|]. apply (dropped_table _ _ _ _ (proj1 Hs) Hdr). intros v. by apply moved_none_le.
  - destruct (exec_getroot s name Hst Hr Hq) as (r & s' & Hrun & Hst'). rewrite (bind_run _ _ _ _ _ Hrun). by do 2 eexists.
Qed.

Lemma reachable_stable s : reachable s -> stable s.
Proof.
  induction 1 as [s Hv Hk Hd|s q r s' _ IH Ha Hrun].
  - split; [|done]. split; [|done]. rewrite Hk. split; [done|by constructor|]. intros kd Hin. by apply not_elem_of_nil in Hin.
  - destruct (exec_req_run s q IH Ha) as (r' & s1 & Hrun' & Hst). rewrite Hrun in Hrun'. by injection Hrun' as <- <-.
Qed.

(** *** What a name means *)

(** No volume other than the one on [kd] has this name. *)
Definition no_volume (w : world) (dev : list Z) kd l : Prop :=
  forall kd', kd' ∈ l -> has_fs kd' = true -> cstr <$> volname (kd_fs kd') w = Some dev -> kd' = kd.

Lemma answers_names w dev kd : is_Some (answers w dev kd) -> dev ∈ names kd \/ (has_fs kd = true /\ cstr <$> volname (kd_fs kd) w = Some dev).
Proof.
  unfold answers, names. intros Ha. destruct (decide (cstr (kd_name kd) = dev)) as [<-|Hn]; [left; left|]. rewrite (bool_decide_eq_false_2 _ Hn) in Ha. cbn [orb] in Ha.
  destruct (decide (cstr <$> kd_rawname kd = Some dev)) as [Hr|Hr].
  { left. right. destruct (kd_rawname kd) as [r|]; [|done]. injection Hr as <-. left. }
  rewrite (bool_decide_eq_false_2 _ Hr) in Ha. destruct (has_fs kd); [|by destruct Ha]. right. split; [done|].
  case_bool_decide; [done|by destruct Ha].
Qed.

(** A name of a device finds that device. *)
Lemma resolve_named w l t n kd dev :
  table_ok l t -> l !! n = Some kd -> dev ∈ names kd -> no_volume w dev kd l -> is_Some (answers w dev kd) -> resolve w l dev = answers w dev kd.
Proof.
  intros [_ Hu _] E Hin Hvol Hans. apply list_elem_of_split_length in E as (l1 & l2 & -> & _). unfold resolve. rewrite omap_app. cbn [omap list_omap].
  rewrite bind_app in Hu. cbn [mbind list_bind] in Hu. apply NoDup_app in Hu as (_ & Hd1 & _).
  replace (omap (answers w dev) l1) with (@nil (answer * knowndev)); [by destruct Hans as [x ->]|]. symmetry.
  assert (forall kd', kd' ∈ l1 -> answers w dev kd' = None) as Hnone.
  { intros kd' Hin'. destruct (answers w dev kd') eqn:E; [|done]. exfalso.
    assert (dev ∈ names kd') as Hn.
    { destruct (answers_names w dev kd') as [|[Hf Hv]]; [by rewrite E|done|]. rewrite (Hvol kd'); [done| |done|done]. apply elem_of_app. by left. }
    apply (Hd1 dev); [apply list_elem_of_bind; by exists kd'|]. apply elem_of_app. by left. }
  clear - Hnone. induction l1 as [|x l1 IH]; [done|]. cbn. rewrite (Hnone x) by left. apply IH. intros kd' Hin. apply Hnone. by right.
Qed.

Lemma slot_set l devname n kd fs : slot l devname = Some (n, kd) -> slot (set_slot l n kd fs) devname = Some (n, with_fs fs kd).
Proof.
  unfold slot, set_slot. intros (El & Hm & Hbefore)%list_find_Some. apply list_find_Some. split; [|split].
  - apply list_lookup_insert_eq. by apply lookup_lt_Some in El.
  - exact Hm.
  - intros j y Hy Hlt. rewrite list_lookup_insert_ne in Hy by lia. by apply (Hbefore j).
Qed.

Lemma set_slot_back l n kd fs : l !! n = Some kd -> kd_fs kd = 0 -> set_slot (set_slot l n kd fs) n (with_fs fs kd) 0 = l.
Proof. intros El H0. unfold set_slot. rewrite list_insert_insert_eq. destruct kd. cbn in *. subst. by apply list_insert_id. Qed.

(** *** Theorems *)

(** C6 device_table_reachable. Whatever drivers, file systems and the kernel do with the
    table of devices, in any order and with any allocation failing: no two
    entries share a name or a raw name, every device keeps the reference of its
    vnode, and the next operation returns, so that no assertion of the table
    fails, with the big lock released. *)
Theorem device_table_reachable s :
  reachable s ->
  NoDup (mbind names (knowndevs s)) /\
  (forall kd, kd ∈ knowndevs s -> kd_ok kd /\ 0 < Vnode.refs (f_vst s) (kd_vnode kd)) /\
  vfs_biglock_depth s = 0 /\
  forall q, allowed s q -> exists r s', exec q s = Ret (r, s') /\ vfs_biglock_depth s' = 0.
Proof.
  intros Hr. pose proof (reachable_stable s Hr) as Hst. pose proof Hst as [[[Hk Hu Hl] _] Hd]. split; [done|]. split.
  - intros kd Hin. split; [by apply (proj1 (Forall_forall _ _) Hk)|by apply Hl].
  - split; [done|]. intros q Ha. destruct (exec_req_run s q Hst Ha) as (r & s' & Hrun & [_ Hd']). by exists r, s'.
Qed.

(** vfs_getroot_spec. A device name is resolved to the first entry of the table that
    answers to it: the root of its file system for the name of the device or of
    the volume, [ENXIO] for a mountable device without a file system, and the
    vnode of the device, with one more reference, for its raw name or the name of
    a device that cannot be mounted; otherwise the result is [ENODEV]. *)
Theorem vfs_getroot_spec s devname :
  sound s -> is_string devname -> roomy 1 (f_vst s) ->
  match resolve (f_world s) (knowndevs s) (cstr devname) with
  | None => vfs_getroot devname s = Ret ((ENODEV, 0), s)
  | Some (NoFs, kd) => vfs_getroot devname s = Ret ((ENXIO, 0), s)
  | Some (Self, kd) => exists t', vfs_getroot devname s = Ret ((0, kd_vnode kd), set_vst t' s) /\
      vok (curproc s) t' /\ Vnode.moved (Vnode.one (kd_vnode kd)) (f_vst s) t'
  | Some (Root, kd) => exists r t' w', vfs_getroot devname s = Ret (r, set_fs (t', w') s) /\
      in_fs (fsop_getroot (kd_fs kd)) s = Ret (r, set_fs (t', w') s) /\ vok (curproc s) t' /\ Vnode.moved (one_if r) (f_vst s) t'
  end.
Proof.
  intros Hs Hn Hr. pose proof (vfs_getroot_run s devname Hs Hn Hr) as Hrun. destruct (resolve _ _ _) as [[[] kd]|]; [| | |exact Hrun].
  - destruct Hrun as (r & t' & w' & H1 & H2 & H3 & H4 & _). by exists r, t', w'.
  - exact Hrun.
  - destruct Hrun as (t' & H1 & H2 & H3 & _). by exists t'.
Qed.

(** C31 vfs_doadd_spec. Adding a device or a file system either appends its entry, with the
    raw name, a vnode with one reference and the next device number, or fails and
    leaves the table, the devices and every count as they were: [EEXIST] exactly
    when one of its names is that of an entry or of a mounted volume, [ENOMEM] when
    an allocation fails. *)
Theorem vfs_doadd_spec s m dname mountable dev fs :
  sound s -> depth_ok s -> is_string dname -> doadd_args s m mountable dev fs ->
  let r := doadd_result m (f_world s) (knowndevs s) dname mountable fs in
  exists s', vfs_doadd m dname mountable dev fs s = Ret (r, s') /\ sound s' /\ vfs_biglock_depth s' = vfs_biglock_depth s /\
    if r =? 0 then
      knowndevs s' = knowndevs s ++ [new_kd m dname mountable dev fs] /\ devices s' = numbered (knowndevs s) dev (devices s) /\
      Vnode.moved (Vnode.one (a_vnode m)) (f_vst s) (f_vst s')
    else knowndevs s' = knowndevs s /\ devices s' = devices s /\ Vnode.moved Vnode.none (f_vst s) (f_vst s').
Proof.
  intros Hs Hd Hn Ha r. destruct (doadd_run s m dname mountable dev fs Hs Hd Hn Ha) as (t' & Hrun & Hv' & Hm). fold r in Hrun, Hm.
  eexists. split; [exact Hrun|]. split; [by apply doadd_sound|]. unfold doadd_state. fold r. by destruct (r =? 0).
Qed.

(** C30 mount_round_trip. Mounting on a free device calls the file system once and stores
    what it returns, or changes nothing.  While it is mounted, a second mount is
    refused with [EBUSY] and the name of the device leads to the root of the
    volume, provided no other volume has that name; after a successful unmount
    the table is what it was. *)
Theorem mount_round_trip s devname mountfunc n kd :
  stable s -> allowed s (Mount devname mountfunc) -> slot (knowndevs s) devname = Some (n, kd) -> kd_fs kd = 0 ->
  exists result fs t w s1, in_fs (mountfunc (kd_device kd)) s = Ret ((result, fs), set_fs (t, w) s) /\
    vfs_mount devname mountfunc s = Ret (result, s1) /\
    if result =? 0 then
      knowndevs s1 = set_slot (knowndevs s) n kd fs /\
      vfs_mount devname mountfunc s1 = Ret (EBUSY, s1) /\
      (no_volume w (cstr devname) (with_fs fs kd) (knowndevs s1) -> vfs_getroot devname s1 = in_fs (fsop_getroot fs) s1) /\
      exists r s2, vfs_unmount devname s1 = Ret (r, s2) /\ knowndevs s2 = (if r =? 0 then knowndevs s else knowndevs s1)
    else knowndevs s1 = knowndevs s.
Proof.
  intros Hst [Hr [Hn Hmf]] E H0. pose proof Hst as [Hs Hd]. assert (depth_ok s) as Hdo by (unfold depth_ok; lia).
  destruct (slot_kd s devname n kd Hs E) as (El & _ & Hraw & _).
  pose proof (mount_run s devname mountfunc Hs Hdo Hn Hmf Hr) as Hrun. rewrite E in Hrun. rewrite (proj2 (Z.eqb_eq _ 0) H0) in Hrun.
  destruct Hrun as (result & fs & t' & w' & Hfs & Hrun & Hv' & Hm & Hok). exists result, fs, t', w'. eexists. split; [exact Hfs|]. split; [exact Hrun|].
  destruct (Z.eqb_spec result 0) as [->|Hne]; [|done]. destruct (Hok eq_refl) as [Hfs0 Hfsw].
  set (s1 := upd s t' w' (set_slot (knowndevs s) n kd fs) (devices s)).
  assert (stable s1) as [Hs1 Hd1].
  { apply stable_upd; [done|done|]. apply (table_slot _ (f_vst s)); [apply Hs|done|done|]. intros v. by apply moved_none_le. }
  assert (roomy 1 (f_vst s1)) as Hr1 by (apply (roomy_moved _ _ _ _ Hr Hm); done). assert (depth_ok s1) as Hdo1 by exact Hdo.
  pose proof (slot_set _ _ _ _ fs E) as E1. change (set_slot (knowndevs s) n kd fs) with (knowndevs s1) in E1 at 1.
  assert (has_fs (with_fs fs kd) = true) as Hhas by (unfold has_fs; cbn; by rewrite (proj2 (Z.eqb_neq fs 0) Hfs0), (proj2 (Z.eqb_neq fs SWAP_FS) Hfsw)).
  split; [done|]. split; [|split].
  - pose proof (mount_run s1 devname mountfunc Hs1 Hdo1 Hn Hmf Hr1) as Hrun1. rewrite E1 in Hrun1. cbn [with_fs kd_fs] in Hrun1.
    by rewrite (proj2 (Z.eqb_neq fs 0) Hfs0) in Hrun1.
  - intros Hnv. pose proof E1 as (El1 & [_ Hnm] & _)%list_find_Some.
    assert (answers w' (cstr devname) (with_fs fs kd) = Some (Root, with_fs fs kd)) as Hans
      by (unfold answers; rewrite Hhas; by rewrite (bool_decide_eq_true_2 _ Hnm)).
    pose proof (vfs_getroot_run s1 devname Hs1 Hn Hr1) as Hg. change (f_world s1) with w' in Hg.
    rewrite (resolve_named w' _ _ n (with_fs fs kd) _ (proj1 Hs1) El1), Hans in Hg; [|rewrite <- Hnm; left|exact Hnv|by rewrite Hans].
    destruct Hg as (r & t2 & w2 & -> & Hg & _). symmetry. exact Hg.
  - pose proof (unmount_run s1 devname Hs1 Hdo1 Hn Hr1) as Hu. rewrite E1, Hhas in Hu. destruct Hu as (r & t2 & w2 & Hu & _ & _).
    exists r. eexists. split; [exact Hu|]. cbn [knowndevs upd]. destruct (r =? 0); [|done]. by apply set_slot_back.
Qed.

End Table.

(** ** A concrete file system *)
Module Sample.

Definition ROOT : Z := 0x80040000.
Definition DIROPS : Z := 0x80220000.
Definition VOLUME : Z := 0x80050000.

Definition LHD0 : list Z := [108; 104; 100; 48; 0].
Definition LHD1 : list Z := [108; 104; 100; 49; 0].
Definition LHD0RAW : list Z := [108; 104; 100; 48; 114; 97; 119; 0].
Definition VOL : list Z := [118; 111; 108; 0].

(** One directory, in a volume called [vol], or [lhd1] when the world is [true]. *)
Definition hand_vnode (v : Z) : M (vst * bool) (Z * Z) := fun x =>
  match v_tab (fst x) !! v with
  | Some _ => match Vnode.vnode_incref v (fst x) with
              | Ret (_, t) => Ret ((0, v), (t, snd x))
              | _ => Ret ((EIO, 0), x)
              end
  | None => Ret ((EIO, 0), x)
  end.

#[export] Instance fsops : Fsops := {|
  world := bool;
  fsop_sync fs := mret 0;
  fsop_getvolname fs := x ← get; mret (Some (if snd x : bool then LHD1 else VOL));
  fsop_getroot fs := x ← get; if is_dev (fst x) ROOT then mret (EIO, 0) else hand_vnode ROOT;
  fsop_unmount fs := mret 0;
  vop_reclaim v := modify (fun x => (set_tab (delete v (v_tab (fst x))) (fst x), snd x));; mret 0;
  vop_lookup v path := mret (ENOENT, 0);
  vop_lookparent v path buf := '(r, d) ← hand_vnode v; mret (r, d, path);
  vop_gettype v := x ← get; mret (0, if is_dev (fst x) v then S_IFBLK else S_IFDIR);
  vop_namefile v u := mret (0, u);
  devop_eachopen d flags := mret 0;
  devop_io d u := mret (0, u);
  devop_ioctl d op data := mret EINVAL;
|}.

Lemma kept_refl t : kept t t.
Proof. by intros v _. Qed.

Lemma hand_vnode_ok p v t w : vok p t -> roomy 1 t ->
  exists r t', hand_vnode v (t, w) = Ret (r, (t', w)) /\ vok p t' /\ Vnode.moved (one_if r) t t' /\ kept t t'.
Proof.
  intros Hv Hr. unfold hand_vnode. cbn [fst snd]. destruct (v_tab t !! v) as [x|] eqn:E.
  - destruct (incref_vok p t v Hv) as (t' & -> & Hv' & Hm & Hk).
    { specialize (Hr v). destruct (proj2 (proj1 Hv) v x E) as (_ & _ & _ & _ & _ & _ & Hc & _). unfold Vnode.refs in *. rewrite E in *. cbn in *. lia. }
    exists (0, v), t'. by split.
  - exists (EIO, 0), t. split; [done|]. split; [done|]. split; [intros u; unfold one_if, Vnode.none; cbn; lia|apply kept_refl].
Qed.

Lemma moves_ret {A} p (a : A) : moves p (mret a) (fun _ => Vnode.none).
Proof. intros t w Hv _. exists a, t, w. split; [done|]. split; [done|]. split; [intros v; unfold Vnode.none; lia|apply kept_refl]. Qed.

Lemma name_string (w : bool) : is_string (if w then LHD1 else VOL).
Proof. unfold is_string. destruct w; (split; [apply list_elem_of_In; cbn; auto 10|repeat constructor; lia]). Qed.

#[export] Instance fsops_ok : FsopsOk (HF := fsops).
Proof.
  refine {| volname := fun fs (w : @world fsops) => Some (if w : bool then LHD1 else VOL) |}.
  - intros p fs. apply moves_ret.
  - intros p fs. apply moves_ret.
  - intros p fs t w Hv Hr. cbn [fsop_getroot fsops]. mrun. cbn [fst]. destruct (is_dev t ROOT).
    + exists (EIO, 0), t, w. split; [done|]. split; [done|]. split; [intros u; unfold one_if, Vnode.none; cbn; lia|apply kept_refl].
    + destruct (hand_vnode_ok p ROOT t w Hv Hr) as (r & t' & Hrun & H2). exists r, t', w. by split.
  - intros v t w t' w'. cbn [vop_gettype fsops]. mrun. cbn [fst]. destruct (is_dev t v) eqn:Ed; [done|]. by intros [= <- <-].
  - intros p v u. apply moves_ret.
  - intros p v t w Hv Hr. cbn [vop_gettype fsops]. mrun. do 3 eexists. split; [reflexivity|]. split; [done|]. split; [intros u; unfold Vnode.none; lia|apply kept_refl].
  - intros fs w n [= <-]. apply name_string.
  - done.
  - intros p v path t w Hv Hr Hl Hs. exists (ENOENT, 0), t, w. split; [done|]. split; [done|]. split; [intros u; unfold one_if, Vnode.none; cbn; lia|apply kept_refl].
  - intros p v path buf t w Hv Hr Hl Hs. cbn [vop_lookparent fsops]. destruct (hand_vnode_ok p v t w Hv Hr) as (r & t' & Hrun & H2).
    rewrite (bind_run _ _ _ _ _ Hrun). exists r, path, t', w. split; [by destruct r|done].
  - intros p v t w ([Hc Hok] & Hp & Hm) H1 Hd. exists 0, (set_tab (delete v (v_tab t)) t), w. split; [done|]. split; [split; [split; [done|]|by split]|split].
    + intros u x Hx. cbn in Hx. apply lookup_delete_Some in Hx as [_ Hx]. by apply Hok in Hx.
    + intros u. unfold Vnode.opp, Vnode.one, Vnode.refs in *. cbn. destruct (Z.eqb_spec u v) as [->|Hne].
      * rewrite lookup_delete_eq, H1. done.
      * rewrite lookup_delete_ne by done. lia.
    + intros u [x' Hx']. cbn in Hx'. unfold is_dev. cbn. rewrite Hx'. apply lookup_delete_Some in Hx' as [_ Hx']. by rewrite Hx'.
Defined.

(** *** Two disks *)

Definition boot : vfs :=
  MkVfs (Vst (MkSync (Cpu true 0 0 IPL_NONE 0 false true)
               {[ vn_countlock ROOT := SPINLOCK_INITIALIZER; p_lock 0x80030000 := SPINLOCK_INITIALIZER ]})
          {[ ROOT := MkVnode 1 DIROPS VOLUME 0 ]} {[ DIROPS := VOP_MAGIC; dev_vnode_ops := VOP_MAGIC ]})
    false 0 [] ∅ 0 0x80030000 0.

Definition disk : device := MkDevice 0x80220100 5000 512 0 0.
Definition mem (v : Z) : memory := Memory true true v true true.

(** Mounting gives the volume the name [lhd1] or [vol]. *)
Definition mount_as (lhd1 : bool) (d : Z) : M (vst * world) (Z * Z) := modify (fun x => (fst x, lhd1));; mret (0, VOLUME).

Definition run (q : request) (s : vfs) : vfs := match exec q s with Ret (_, s') => s' | _ => s end.

Definition add_disks : list request :=
  [Driver 0x80060000 (MkDevice null_devops 0 1 0 0); Adddev (mem 0x80070000) NULL_NAME 0x80060000 false;
   Driver 0x80060100 disk; Adddev (mem 0x80070100) LHD0 0x80060100 true;
   Driver 0x80060200 disk; Adddev (mem 0x80070200) LHD1 0x80060200 true].

Definition disks : vfs := fold_left (fun s q => run q s) add_disks boot.

(** [allowed], for requests whose checks can be evaluated. *)
Definition can_grow (s : vfs) : bool := bool_decide (map_Forall (fun _ x => vn_refcount x < 2 ^ 31 - 1) (v_tab (f_vst s))).

Lemma can_grow_roomy s : can_grow s = true -> roomy 1 (f_vst s).
Proof.
  intros Hb v. apply bool_decide_eq_true in Hb. unfold Vnode.refs. destruct (v_tab (f_vst s) !! v) as [x|] eqn:E; [|done]. by apply Hb in E.
Qed.

Lemma boot_vok : vok (curproc boot) (f_vst boot).
Proof.
  split; [split; [by vm_compute|]|by vm_compute]. intros v x Hx. cbn [v_tab f_vst boot] in Hx. apply lookup_singleton_Some in Hx as [<- <-].
  split_and!; try done; by vm_compute.
Qed.

Lemma ascii_string (s : list Z) : existsb (Z.eqb 0) s = true -> forallb (fun c => (0 <=? c) && (c <? 256)) s = true -> is_string s.
Proof.
  intros Hz Hb. split.
  - apply existsb_exists in Hz as (x & Hin & E). apply Z.eqb_eq in E. subst. by apply list_elem_of_In.
  - apply Forall_forall. intros c Hin. assert (In c s) as Hin' by (by apply list_elem_of_In). apply (proj1 (forallb_forall _ _) Hb) in Hin'. lia.
Qed.

Lemma mount_as_ok b : mount_ok (mount_as b).
Proof.
  intros p d t w Hv Hr. exists 0, VOLUME, t, b. split; [done|]. split; [done|]. split; [intros v; unfold Vnode.none; lia|]. done.
Qed.

Lemma adddev_allowed s v name dev mountable :
  can_grow s = true -> is_string name -> v <> 0 -> v <> DEADBEEF -> v_tab (f_vst s) !! v = None ->
  dev <> 0 -> is_Some (devices s !! dev) -> allowed s (Adddev (mem v) name dev mountable).
Proof.
  intros Hg Hs Hv0 Hvd Hf Hd0 Hd. split; [by apply can_grow_roomy|]. split; [done|]. split; [by intros _|done|done|done].
Qed.

Definition returns {A} (o : outcome A) : bool := match o with Ret _ => true | _ => false end.

Lemma reach_run s q : reachable s -> allowed s q -> returns (exec q s) = true -> reachable (run q s).
Proof. intros Hs Ha Hr. unfold run. destruct (exec q s) as [[r s']| | |] eqn:E; try done. by apply (reach_step s q r s'). Qed.

Lemma reach_driver s a d : reachable s -> can_grow s = true -> reachable (run (Driver a d) s).
Proof. intros Hs Hg. apply reach_run; [done|split; [by apply can_grow_roomy|done]|done]. Qed.

Lemma reach_adddev s v name dev mountable :
  reachable s -> can_grow s = true -> is_string name ->
  (v =? 0) || (v =? DEADBEEF) || bool_decide (is_Some (v_tab (f_vst s) !! v)) || (dev =? 0) = false ->
  bool_decide (is_Some (devices s !! dev)) = true ->
  returns (exec (Adddev (mem v) name dev mountable) s) = true -> reachable (run (Adddev (mem v) name dev mountable) s).
Proof.
  intros Hs Hg Hn Hb Hd Hr. apply reach_run; [done| |done]. apply orb_false_iff in Hb as [[[H1 H2]%orb_false_iff H3]%orb_false_iff H4].
  apply bool_decide_eq_false in H3. apply adddev_allowed; try done; try (by apply Z.eqb_neq).
  - by apply eq_None_not_Some.
  - by apply bool_decide_eq_true in Hd.
Qed.

Lemma disks_reachable : reachable disks.
Proof.
  assert (reachable boot) as H0 by (apply reach_boot; [exact boot_vok|done|done]).
  unfold disks, add_disks. cbn [fold_left].
  repeat first [exact H0 | apply reach_driver; [|vm_compute; reflexivity]
    | apply reach_adddev; [|vm_compute; reflexivity|apply ascii_string; vm_compute; reflexivity|vm_compute; reflexivity..]].
Qed.

Lemma disks_table : (fun kd => (cstr (kd_name kd), kd_device kd, kd_fs kd)) <$> knowndevs disks =
  [([110; 117; 108; 108], 0x80060000, 0); ([108; 104; 100; 48], 0x80060100, 0); ([108; 104; 100; 49], 0x80060200, 0)].
Proof. vm_compute. reflexivity. Qed.

(** *** Witnesses *)

Lemma device_table_reachable_witness :
  length (knowndevs disks) = 3%nat /\ NoDup (mbind names (knowndevs disks)) /\
  exists r s', exec (Mount LHD0 (mount_as false)) disks = Ret (r, s') /\ vfs_biglock_depth s' = 0.
Proof.
  destruct (device_table_reachable disks disks_reachable) as (Hu & _ & _ & Hex). split; [by vm_compute|]. split; [exact Hu|]. apply Hex.
  split; [apply can_grow_roomy; by vm_compute|]. split; [apply ascii_string; by vm_compute|apply mount_as_ok].
Defined.

Lemma disks_sound : sound disks.
Proof. apply reachable_stable, disks_reachable. Qed.

Lemma vfs_getroot_spec_witness :
  vfs_getroot LHD0 disks = Ret ((ENXIO, 0), disks) /\
  exists t', vfs_getroot LHD0RAW disks = Ret ((0, 0x80070100), set_vst t' disks) /\ Vnode.refs t' 0x80070100 = 2.
Proof.
  pose proof (can_grow_roomy disks ltac:(by vm_compute)) as Hr.
  pose proof (vfs_getroot_spec disks LHD0 disks_sound ltac:(apply ascii_string; by vm_compute) Hr) as H1.
  pose proof (vfs_getroot_spec disks LHD0RAW disks_sound ltac:(apply ascii_string; by vm_compute) Hr) as H2.
  split; [exact H1|]. destruct H2 as (t' & Hrun & _ & Hm). exists t'. split; [exact Hrun|]. rewrite (Hm 0x80070100). by vm_compute.
Defined.

Lemma vfs_doadd_spec_witness :
  exists s', vfs_doadd (mem 0x80070300) LHD0RAW false 0x80060100 0 disks = Ret (EEXIST, s') /\ knowndevs s' = knowndevs disks.
Proof.
  destruct (vfs_doadd_spec disks (mem 0x80070300) LHD0RAW false 0x80060100 0) as (s' & Hrun & _ & _ & Hk & _).
  - exact disks_sound.
  - by vm_compute.
  - apply ascii_string; by vm_compute.
  - split; [intros _; split; [done|by vm_compute]|done|done|intros _; vm_compute; by eexists].
  - exists s'. split; [exact Hrun|exact Hk].
Defined.

(** The results of mounting and unmounting, and the file systems in between. *)
Definition there_and_back (b : bool) (s : vfs) : option (Z * list Z * Z) :=
  match vfs_mount LHD0 (mount_as b) s with
  | Ret (r1, s1) => match vfs_unmount LHD0 s1 with Ret (r2, _) => Some (r1, kd_fs <$> knowndevs s1, r2) | _ => None end
  | _ => None
  end.

Lemma there_and_back_inv b s r1 s1 x :
  vfs_mount LHD0 (mount_as b) s = Ret (r1, s1) -> there_and_back b s = Some x ->
  exists r2 s2, vfs_unmount LHD0 s1 = Ret (r2, s2) /\ x = (r1, kd_fs <$> knowndevs s1, r2).
Proof. intros Hm. unfold there_and_back. rewrite Hm. destruct (vfs_unmount LHD0 s1) as [[r2 s2]| | |]; try done. intros [= <-]. by exists r2, s2. Qed.

Lemma there_and_back_disks : there_and_back false disks = Some (0, [0; VOLUME; 0], 0).
Proof. vm_compute. reflexivity. Qed.

Definition first_disk : knowndev := default (MkKd [] None 0 0 0) (knowndevs disks !! 1%nat).

Lemma first_disk_slot : slot (knowndevs disks) LHD0 = Some (1%nat, first_disk).
Proof. vm_compute. reflexivity. Qed.

Lemma first_disk_free : kd_fs first_disk = 0.
Proof. vm_compute. reflexivity. Qed.

Lemma mount_disk_allowed b : allowed disks (Mount LHD0 (mount_as b)).
Proof.
  split; [apply can_grow_roomy; vm_compute; reflexivity|]. split; [apply ascii_string; vm_compute; reflexivity|apply mount_as_ok].
Qed.

Lemma disks_stable : stable disks.
Proof. apply reachable_stable, disks_reachable. Qed.

Lemma mount_round_trip_witness :
  exists s1 s2, vfs_mount LHD0 (mount_as false) disks = Ret (0, s1) /\ kd_fs <$> knowndevs s1 = [0; VOLUME; 0] /\
    vfs_unmount LHD0 s1 = Ret (0, s2) /\ knowndevs s2 = knowndevs disks.
Proof.
  destruct (mount_round_trip disks LHD0 (mount_as false) 1 first_disk disks_stable (mount_disk_allowed false) first_disk_slot first_disk_free)
    as (result & fs & t & w & s1 & _ & Hrun & Hres).
  destruct (there_and_back_inv false disks result s1 _ Hrun there_and_back_disks) as (r & s2 & Hu & E). injection E as Hres0 Hk Hr0. subst result r.
  rewrite Z.eqb_refl in Hres. destruct Hres as (_ & _ & _ & r' & s2' & Hu' & Hk2). rewrite Hu in Hu'. injection Hu' as <- <-. rewrite Z.eqb_refl in Hk2.
  exists s1, s2. split; [exact Hrun|]. split; [symmetry; exact Hk|]. split; [exact Hu|exact Hk2].
Defined.

Definition value_of {A S} (o : outcome (A * S)) : option A := match o with Ret (a, _) => Some a | _ => None end.

(** volname_shadows_device. [vfs_mount] does not compare the name of the volume with the names
    in the table: a volume called [lhd1] on the first disk takes the name of the
    second disk, whose own file system can then be mounted but not reached. *)
Theorem volname_shadows_device :
  value_of ((r1 ← vfs_mount LHD0 (mount_as true);
             r2 ← vfs_mount LHD1 (mount_as true);
             s ← get;
             mret (r1, r2, (fun x => (fst x, cstr (kd_name (snd x)))) <$> resolve (f_world s) (knowndevs s) (cstr LHD1))) disks) =
  Some (0, 0, Some (Root, cstr LHD0)).
Proof. vm_compute. reflexivity. Qed.

(** dev_tryseek_negative. The check of a position on a block device accepts a negative one
    that is a multiple of the block size. *)
Theorem dev_tryseek_negative : dev_tryseek disk (-512) = 0.
Proof. reflexivity. Qed.

(** dev_size_wraps. The size of a device of 4 GB is reported as 0, and truncating it to its
    real size is refused. *)
Theorem dev_size_wraps :
  let big := set_devices (<[0x80060100 := MkDevice 0x80220100 8388608 512 2 0]> (devices disks)) disks in
  value_of (('(r, st) ← dev_stat 0x80070100; c ← dev_truncate 0x80070100 (8388608 * 512); mret (r, st_size st, st_blocks st, c)) big) =
  Some (0, 0, 8388608, EINVAL).
Proof. vm_compute. reflexivity. Qed.

End Sample.

End VfsList.
