(* ===== verification/VfsLookup.v ===== *)
(** * Path names and the current directory

    Models [kern/vfs/vfslookup.c] and [kern/vfs/vfscwd.c] on top of the device table of
    [VfsList.v].  A [char *] is a buffer and an index into it: [getdevice] writes
    a terminator into the buffer it parses. *)

From S2P Require Import Prelude Sync Vnode CString Stream Printf VfsList.

Module VfsLookup.
Import Str VfsList.

Section Code.
Context `{Fsops}.

(** ** The current directory *)

Definition p_acquire (p : Z) : M vfs unit := in_vst (zoom v_sync set_v_sync (Spinlock.spinlock_acquire (p_lock p))).
Definition p_release (p : Z) : M vfs unit := in_vst (zoom v_sync set_v_sync (Spinlock.spinlock_release (p_lock p))).

(** The error code and [*ret]. *)
Definition vfs_getcurdir : M vfs (Z * Z) :=
  s ← get;
  p_acquire (curproc s);;
  r ← (if negb (p_cwd s =? 0) then VOP_INCREF (p_cwd s);; mret (0, p_cwd s) else mret (ENOENT, 0));
  p_release (curproc s);;
  mret r.

(** [old = curproc->p_cwd; curproc->p_cwd = dir] under the lock, then the reference
    to [old] is dropped. *)
Definition change_cwd (dir : Z) : M vfs unit :=
  s ← get;
  p_acquire (curproc s);;
  modify (set_cwd dir);;
  p_release (curproc s);;
  if negb (p_cwd s =? 0) then VOP_DECREF (p_cwd s) else mret tt.

Definition vfs_setcurdir (dir : Z) : M vfs Z :=
  '(result, vtype) ← VOP dir (vop_gettype dir);
  if nz result then mret result
  else if negb (vtype =? S_IFDIR) then mret ENOTDIR
  else VOP_INCREF dir;; change_cwd dir;; mret 0.

Definition vfs_clearcurdir : M vfs Z := change_cwd 0;; mret 0.

(** ** Parsing *)

(** [for (i=0; path[i]; i++)]: the first slash and the first colon, whichever comes
    first; the other is -1. *)
Fixpoint scan (path : list Z) (i : Z) : outcome (Z * Z) :=
  match path with
  | [] => Undef "path[i]"
  | c :: path' =>
      if c =? 0 then Ret (-1, -1)
      else if c =? 58 then Ret (-1, i)
      else if c =? 47 then Ret (i, -1)
      else scan path' (i + 1)
  end.

(** [while (path[k+1]=='/') k++], where [path] is what follows [k]. *)
Fixpoint skip_slashes (path : list Z) (k : Z) : outcome Z :=
  match path with
  | [] => Undef "path[k+1]"
  | c :: path' => if c =? 47 then skip_slashes path' (k + 1) else Ret k
  end.

(** [while (path[k+1]=='/') k++; subpath = path+k+1] *)
Definition subpath_at (path : list Z) (k : Z) : M vfs Z :=
  k ← lift (skip_slashes (drop (Z.to_nat (k + 1)) path) k);
  mret (k + 1).

(** What [getdevice] returns: the error code, [*startvn], the buffer and the index of
    [*subpath]. *)
Record parsed := Parsed { result : Z; startvn : Z; pathbuf : list Z; subpath : Z }.

Definition root_of_current : M vfs (Z * Z) :=
  '(result, vn) ← vfs_getcurdir;
  if nz result then mret (result, 0)
  else
    x ← in_vst (Vnode.deref vn);
    kassert (negb (vn_fs x =? 0)) "vn->vn_fs!=NULL";;
    r ← in_fs (fsop_getroot (vn_fs x));
    VOP_DECREF vn;;
    mret r.

Definition root_of_boot : M vfs (Z * Z) :=
  s ← get;
  if bootfs_vnode s =? 0 then mret (ENOENT, 0)
  else VOP_INCREF (bootfs_vnode s);; mret (0, bootfs_vnode s).

Definition getdevice (path : list Z) : M vfs parsed :=
  kassert vfs_biglock_do_i_hold "vfs_biglock_do_i_hold()";;
  '(slash, colon) ← lift (scan path 0);
  if (colon <? 0) && negb (slash =? 0) then
    '(rc, v) ← vfs_getcurdir;
    mret (Parsed rc v path 0)
  else if 0 <? colon then
    let path := arr_set path colon 0 in
    sub ← subpath_at path colon;
    '(rc, v) ← vfs_getroot path;
    mret (Parsed rc v path sub)
  else
    kassert ((colon =? 0) || (slash =? 0)) "colon==0 || slash==0";;
    c ← valid (arr_get path 0) "path[0]";
    '(rc, v) ← (if c =? 47 then root_of_boot
                else kassert (c =? 58) "path[0]==':'";; root_of_current);
    if nz rc then mret (Parsed rc v path 0)
    else
      sub ← subpath_at path 0;
      mret (Parsed 0 v path sub).

(** ** Lookup *)

(** The error code, [*retval] and the path buffer. *)
Definition vfs_lookup (path : list Z) : M vfs (Z * Z * list Z) :=
  vfs_biglock_acquire;;
  p ← getdevice path;
  if nz (result p) then vfs_biglock_release;; mret (result p, 0, pathbuf p)
  else
    let path := drop (Z.to_nat (subpath p)) (pathbuf p) in
    n ← lift (strlen path);
    if n =? 0 then vfs_biglock_release;; mret (0, startvn p, pathbuf p)
    else
      '(rc, v) ← VOP (startvn p) (vop_lookup (startvn p) path);
      VOP_DECREF (startvn p);;
      vfs_biglock_release;;
      mret (rc, v, pathbuf p).

(** The error code, [*retval], the path buffer and [buf]. *)
Definition vfs_lookparent (path buf : list Z) : M vfs (Z * Z * list Z * list Z) :=
  vfs_biglock_acquire;;
  p ← getdevice path;
  if nz (result p) then vfs_biglock_release;; mret (result p, 0, pathbuf p, buf)
  else
    let path := drop (Z.to_nat (subpath p)) (pathbuf p) in
    n ← lift (strlen path);
    '(rc, v, buf) ← (if n =? 0 then mret (EINVAL, 0, buf) else VOP (startvn p) (vop_lookparent (startvn p) path buf));
    VOP_DECREF (startvn p);;
    vfs_biglock_release;;
    mret (rc, v, pathbuf p, buf).

Definition vfs_chdir (path : list Z) : M vfs Z :=
  '(result, vn, _) ← vfs_lookup path;
  if nz result then mret result
  else
    result ← vfs_setcurdir vn;
    VOP_DECREF vn;;
    mret result.

(** The error code and the uio. *)
Definition vfs_getcwd (u : Stream.uio) : M vfs (Z * Stream.uio) :=
  kassert (Stream.uio_rw u =? Copy.Uio.UIO_READ) "uio->uio_rw==UIO_READ";;
  '(result, cwd) ← vfs_getcurdir;
  if nz result then mret (result, u)
  else
    x ← in_vst (Vnode.deref cwd);
    kassert (negb (vn_fs x =? 0)) "cwd->vn_fs != NULL";;
    name ← in_fs (fsop_getvolname (vn_fs x));
    name ← (match name with
            | Some _ => mret name
            | None => vfs_biglock_acquire;; name ← vfs_getdevname (vn_fs x); vfs_biglock_release;; mret name
            end);
    match name with
    | None => panic "name != NULL"
    | Some name =>
        n ← lift (strlen name);
        '(result, u) ← lift (Stream.uiomove_out (take (Z.to_nat n) name) u);
        r ← (if nz result then mret (result, u)
             else
               '(result, u) ← lift (Stream.uiomove_out [58] u);
               if nz result then mret (result, u) else VOP cwd (vop_namefile cwd u));
        VOP_DECREF cwd;;
        mret r
    end.

(** ** The boot file system *)

Definition change_bootfs (newvn : Z) : M vfs unit :=
  s ← get;
  modify (set_bootfs newvn);;
  if negb (bootfs_vnode s =? 0) then VOP_DECREF (bootfs_vnode s) else mret tt.

Definition NAME_MAX : Z := 255.
Definition PERCENT_S : list Z := [37; 115; 0].
Definition COLON_STR : list Z := [58; 0].

(** [tmp] is what the local buffer holds at first. *)
Definition vfs_setbootfs (tmp fsname : list Z) : M vfs Z :=
  vfs_biglock_acquire;;
  '(_, tmp) ← lift (Printf.snprintf tmp (Z.of_nat (length tmp) - 1) PERCENT_S [Printf.Chars (Some fsname)]);
  s ← lift (strchr tmp 58);
  bad ← (match s with
         | Some i => n ← lift (strlen (drop (Z.to_nat i) tmp)); mret (0 <? n)
         | None => mret false
         end);
  if bad : bool then vfs_biglock_release;; mret EINVAL
  else
    tmp ← (match s with Some _ => mret tmp | None => lift (strcat tmp COLON_STR) end);
    result ← vfs_chdir tmp;
    if nz result then vfs_biglock_release;; mret result
    else
      '(result, newguy) ← vfs_getcurdir;
      if nz result then vfs_biglock_release;; mret result
      else
        change_bootfs newguy;;
        vfs_biglock_release;;
        mret 0.

Definition vfs_clearbootfs : M vfs unit :=
  vfs_biglock_acquire;;
  change_bootfs 0;;
  vfs_biglock_release.

End Code.

(** ** What a path means *)

Definition is_sep (c : Z) : bool := (c =? 58) || (c =? 47).

(** The part before the first colon or slash, and the rest. *)
Fixpoint split_path (x : list Z) : list Z * list Z :=
  match x with
  | [] => ([], [])
  | c :: x' => if is_sep c then ([], x) else let '(pre, rest) := split_path x' in (c :: pre, rest)
  end.

Fixpoint strip (x : list Z) : list Z :=
  match x with
  | c :: x' => if c =? 47 then strip x' else x
  | [] => []
  end.

Inductive form :=
  | Relative (p : list Z)          (* from the current directory *)
  | OnDevice (dev p : list Z)      (* [dev:p] *)
  | Absolute (p : list Z)          (* [/p], on the boot file system *)
  | OnCurrent (p : list Z).        (* [:p], on the current file system *)

Definition parse (x : list Z) : form :=
  match split_path x with
  | (_, []) => Relative x
  | ([], c :: rest) => if c =? 58 then OnCurrent (strip rest) else Absolute (strip rest)
  | (pre, c :: rest) => if c =? 58 then OnDevice pre (strip rest) else Relative x
  end.

Definition rest_of (f : form) : list Z := match f with Relative p | OnDevice _ p | Absolute p | OnCurrent p => p end.

Definition start `{Fsops} (f : form) : M vfs (Z * Z) :=
  match f with
  | Relative _ => vfs_getcurdir
  | OnDevice dev _ => vfs_getroot (dev ++ [0])
  | Absolute _ => root_of_boot
  | OnCurrent _ => root_of_current
  end.

Lemma split_path_app x : fst (split_path x) ++ snd (split_path x) = x.
Proof. induction x as [|c x IH]; [done|]. cbn. destruct (is_sep c); [done|]. destruct (split_path x). cbn in *. by f_equal. Qed.

Lemma split_path_sep x c rest : snd (split_path x) = c :: rest -> is_sep c = true.
Proof. induction x as [|d x IH]; [done|]. cbn. destruct (is_sep d) eqn:E; [by intros [= <- _]|]. destruct (split_path x). done. Qed.

Lemma split_path_pre x : Forall (fun c => is_sep c = false) (fst (split_path x)).
Proof. induction x as [|c x IH]; [constructor|]. cbn. destruct (is_sep c) eqn:E; [constructor|]. destruct (split_path x). cbn in *. by constructor. Qed.

Lemma scan_run x r i : clean x ->
  scan (x ++ 0 :: r) i =
  Ret (let n := i + Z.of_nat (length (fst (split_path x))) in
       match snd (split_path x) with [] => (-1, -1) | c :: _ => if c =? 58 then (-1, n) else (n, -1) end).
Proof.
  intros Hc. revert i. induction Hc as [|c x H0 Hc IH]; intros i; [done|]. cbn [app scan split_path].
  rewrite (proj2 (Z.eqb_neq c 0) H0). unfold is_sep. destruct (Z.eqb_spec c 58) as [->|H58]; cbn [orb].
  - cbn. do 2 f_equal. lia.
  - destruct (Z.eqb_spec c 47) as [->|H47].
    + cbn. do 2 f_equal. lia.
    + rewrite IH. destruct (split_path x) as [pre rest]. cbn [fst snd length]. rewrite Nat2Z.inj_succ.
      by replace (i + 1 + Z.of_nat (length pre)) with (i + Z.succ (Z.of_nat (length pre))) by lia.
Qed.

Lemma strip_suffix x : exists n, strip x = drop n x /\ (n <= length x)%nat.
Proof. induction x as [|c x (n & E & Hn)]; [by exists 0%nat|]. cbn. destruct (c =? 47); [exists (S n)|exists 0%nat]; cbn; split; (done || lia). Qed.

Lemma strip_clean x : clean x -> clean (strip x).
Proof. intros Hc. destruct (strip_suffix x) as (n & -> & _). by apply Forall_drop. Qed.

Lemma skip_run x r k : skip_slashes (x ++ 0 :: r) k = Ret (k + Z.of_nat (length x - length (strip x))).
Proof.
  revert k. induction x as [|c x IH]; intros k; cbn [app skip_slashes strip length].
  - cbn. f_equal. lia.
  - destruct (c =? 47); [|cbn [length]; f_equal; lia]. rewrite IH. f_equal. destruct (strip_suffix x) as (n & -> & Hn). rewrite length_drop. lia.
Qed.

Lemma drop_strip x : drop (length x - length (strip x)) x = strip x.
Proof.
  destruct (strip_suffix x) as (n & E & Hn). rewrite E at 1 2. rewrite length_drop. replace (length x - (length x - n))%nat with n by lia. done.
Qed.

(** The subpath behind [k]. *)
Lemma subpath_run `{Fsops} (s : vfs) pre y r :
  let path := pre ++ y ++ 0 :: r in let k := Z.of_nat (length pre) - 1 in
  exists sub, subpath_at path k s = Ret (sub, s) /\ drop (Z.to_nat sub) path = strip y ++ 0 :: r.
Proof.
  intros path k. unfold subpath_at. replace (Z.to_nat (k + 1)) with (length pre) by (unfold k; lia).
  unfold path at 1. rewrite drop_app_length. rewrite (bind_run _ _ _ _ _ (lift_run _ _ s (skip_run y r k))). eexists. split; [reflexivity|].
  unfold k. replace (Z.to_nat _) with (length pre + (length y - length (strip y)))%nat by lia. unfold path.
  rewrite <- drop_drop, drop_app_length. destruct (strip_suffix y) as (n & E & Hn). rewrite drop_app_le by lia. by rewrite drop_strip.
Qed.

Section Home.
Context `{HF : FsopsOk}.
Implicit Types (s : vfs) (t : vst) (v : Z).

(** ** Who holds references *)

(** The references held by the current directory and by the boot file system. *)
Definition here (a v : Z) : Z := if negb (v =? 0) && (v =? a) then 1 else 0.
Definition owned s v : Z := here (p_cwd s) v + here (bootfs_vnode s) v.

(** The references that others hold. *)
Definition others s v : Z := Vnode.refs (f_vst s) v - owned s v.

(** The current directory and the boot directory belong to file systems and are
    referenced; the vnodes without a file system are those of the devices. *)
Record home s : Prop := {
  hm_sound : sound s;
  hm_depth : 0 <= vfs_biglock_depth s;
  hm_dev kd : kd ∈ knowndevs s -> is_dev (f_vst s) (kd_vnode kd) = true;
  hm_listed v : is_dev (f_vst s) v = true -> exists kd, kd ∈ knowndevs s /\ kd_vnode kd = v;
  hm_cwd : p_cwd s <> 0 -> is_dev (f_vst s) (p_cwd s) = false;
  hm_boot : bootfs_vnode s <> 0 -> is_dev (f_vst s) (bootfs_vnode s) = false;
  hm_refs v : owned s v <= Vnode.refs (f_vst s) v;
}.

Lemma refs_exists t v : 0 < Vnode.refs t v -> is_Some (v_tab t !! v).
Proof. unfold Vnode.refs. by destruct (v_tab t !! v). Qed.

Lemma is_dev_exists t v : is_dev t v = true -> is_Some (v_tab t !! v).
Proof. unfold is_dev. by destruct (v_tab t !! v). Qed.

Lemma here_bounds a v : 0 <= here a v <= 1.
Proof. unfold here. destruct (_ && _); lia. Qed.

Lemma here_self a : a <> 0 -> here a a = 1.
Proof. intros Hn. unfold here. by rewrite (proj2 (Z.eqb_neq a 0) Hn), Z.eqb_refl. Qed.

Lemma here_zero v : here 0 v = 0.
Proof. unfold here. by destruct (v =? 0). Qed.

Lemma here_one a v : a <> 0 -> here a v = Vnode.one a v.
Proof. intros Hn. unfold here, Vnode.one. destruct (Z.eqb_spec v a) as [->|]; [by rewrite (proj2 (Z.eqb_neq a 0) Hn)|by rewrite andb_false_r]. Qed.

Lemma owned_nonneg s v : 0 <= owned s v.
Proof. unfold owned. pose proof (here_bounds (p_cwd s) v). pose proof (here_bounds (bootfs_vnode s) v). lia. Qed.

Lemma owned_cwd s : p_cwd s <> 0 -> 1 <= owned s (p_cwd s).
Proof. intros Hn. unfold owned. rewrite (here_self _ Hn). pose proof (here_bounds (bootfs_vnode s) (p_cwd s)). lia. Qed.

Lemma owned_boot s : bootfs_vnode s <> 0 -> 1 <= owned s (bootfs_vnode s).
Proof. intros Hn. unfold owned. rewrite (here_self _ Hn). pose proof (here_bounds (p_cwd s) (bootfs_vnode s)). lia. Qed.

(** A device is referenced by the table. *)
Lemma dev_live s v : home s -> is_dev (f_vst s) v = true -> 0 < Vnode.refs (f_vst s) v.
Proof. intros Hh Hd. destruct (hm_listed s Hh v Hd) as (kd & Hin & <-). by apply (hm_sound s Hh). Qed.

(** What keeps the owned references and the devices keeps [home]. *)
Lemma home_fs s t w :
  home s -> vok (curproc s) t -> kept (f_vst s) t ->
  (forall v, owned s v <= Vnode.refs t v) -> (forall v, is_dev (f_vst s) v = true -> 0 < Vnode.refs t v) -> home (set_fs (t, w) s).
Proof.
  intros Hh Hv Hk Ho Hd. pose proof (hm_sound s Hh) as [[Hkd Hu _] _].
  assert (forall v, 0 < Vnode.refs t v -> is_dev t v = is_dev (f_vst s) v) as Hsame by (intros v Hr; by apply Hk, refs_exists).
  split; cbn.
  - split; [|exact Hv]. split; [done|done|]. intros kd Hin. by apply Hd, (hm_dev s Hh).
  - apply Hh.
  - intros kd Hin. pose proof (hm_dev s Hh kd Hin) as Hdev. rewrite Hsame by (by apply Hd). exact Hdev.
  - intros v Hdev. apply (hm_listed s Hh). by rewrite <- (Hk v (is_dev_exists _ _ Hdev)).
  - intros Hn. rewrite Hsame; [by apply Hh|]. pose proof (Ho (p_cwd s)). pose proof (owned_cwd s Hn). lia.
  - intros Hn. rewrite Hsame; [by apply Hh|]. pose proof (Ho (bootfs_vnode s)). pose proof (owned_boot s Hn). lia.
  - exact Ho.
Qed.

Lemma home_grow s t w d :
  home s -> vok (curproc s) t -> kept (f_vst s) t -> Vnode.moved d (f_vst s) t -> (forall v, 0 <= d v) -> home (set_fs (t, w) s).
Proof.
  intros Hh Hv Hk Hm Hd. apply home_fs; try done; intros v; specialize (Hm v); specialize (Hd v).
  - pose proof (hm_refs s Hh v). lia.
  - intros Hdev. pose proof (dev_live s v Hh Hdev). lia.
Qed.

(** Dropping a reference that others hold. *)
Lemma home_decref s v :
  home s -> 0 < others s v -> (is_dev (f_vst s) v = true -> 1 < Vnode.refs (f_vst s) v) ->
  exists t w, VOP_DECREF v s = Ret (tt, set_fs (t, w) s) /\ home (set_fs (t, w) s) /\
    Vnode.moved (Vnode.opp (Vnode.one v)) (f_vst s) t /\ kept (f_vst s) t.
Proof.
  intros Hh Ho Hd. unfold others in Ho. pose proof (owned_nonneg s v) as Hon.
  destruct (decref_s s v (proj2 (hm_sound s Hh)) ltac:(destruct (is_dev (f_vst s) v); [by apply Hd|lia])) as (t & w & Hrun & Hv & Hm & Hk).
  exists t, w. split; [exact Hrun|]. split; [|by split]. apply home_fs; try done; intros u; specialize (Hm u); unfold Vnode.opp, Vnode.one in Hm.
  - pose proof (hm_refs s Hh u). destruct (Z.eqb_spec u v); [subst|]; lia.
  - intros Hdev. pose proof (dev_live s u Hh Hdev). destruct (Z.eqb_spec u v); [subst; specialize (Hd Hdev)|]; lia.
Qed.

(** ** Where a lookup begins *)

(** [c] gives a vnode with a reference, or an error. *)
Definition starts (c : M vfs (Z * Z)) s : Prop :=
  exists r t w, c s = Ret (r, set_fs (t, w) s) /\ vok (curproc s) t /\ Vnode.moved (one_if r) (f_vst s) t /\ kept (f_vst s) t.

Lemma starts_same s : home s -> forall e, e <> 0 -> starts (mret (e, 0)) s.
Proof.
  intros Hh e He. exists (e, 0), (f_vst s), (f_world s). split; [by rewrite set_fs_id|]. split; [apply Hh|].
  split; [intros v; unfold one_if, Vnode.none; cbn; rewrite (proj2 (Z.eqb_neq e 0) He); lia|]. by intros v _.
Qed.

Lemma starts_incref s v : home s -> roomy 1 (f_vst s) -> 0 < Vnode.refs (f_vst s) v -> starts (VOP_INCREF v;; mret (0, v)) s.
Proof.
  intros Hh Hr Hv. destruct (incref_s s v (proj2 (hm_sound s Hh)) ltac:(specialize (Hr v); lia)) as (t & Hrun & Hv' & Hm & Hk).
  exists (0, v), t, (f_world s). rewrite (bind_run _ _ _ _ _ Hrun). split; [reflexivity|]. split; [done|]. by split.
Qed.

Lemma starts_getroot s devname : home s -> roomy 1 (f_vst s) -> is_string devname -> starts (vfs_getroot devname) s.
Proof.
  intros Hh Hr Hn. pose proof (vfs_getroot_run s devname (hm_sound s Hh) Hn Hr) as Hrun. destruct (resolve _ _ _) as [[[] kd]|].
  - destruct Hrun as (r & t & w & Hrun & Hfs & Hv & Hm & Hk). exists r, t, w. split; [exact Hrun|]. split; [done|]. by split.
  - destruct (starts_same s Hh ENXIO ltac:(done)) as (r & t & w & E & H2). exists r, t, w. split; [rewrite Hrun; exact E|exact H2].
  - destruct Hrun as (t & Hrun & Hv & Hm & Hk). exists (0, kd_vnode kd), t, (f_world s). split; [exact Hrun|]. split; [done|]. by split.
  - destruct (starts_same s Hh ENODEV ltac:(done)) as (r & t & w & E & H2). exists r, t, w. split; [rewrite Hrun; exact E|exact H2].
Qed.

Lemma starts_boot s : home s -> roomy 1 (f_vst s) -> starts root_of_boot s.
Proof.
  intros Hh Hr. unfold starts, root_of_boot. mrun. destruct (Z.eqb_spec (bootfs_vnode s) 0) as [_|Hn]; [by apply (starts_same s Hh)|].
  apply starts_incref; [done|done|]. pose proof (hm_refs s Hh (bootfs_vnode s)). pose proof (owned_boot s Hn). lia.
Qed.

(** *** The current directory *)

Lemma acquire_p s : vok (curproc s) (f_vst s) ->
  p_acquire (curproc s) s = Ret (tt, set_vst (set_v_sync (held (p_lock (curproc s)) (v_sync (f_vst s))) (f_vst s)) s).
Proof. intros ([Hc _] & Hp & _). unfold p_acquire. apply in_vst_run, zoom_Ret. by apply acquire_run. Qed.

Lemma release_p s t y p : cpu_ok (y_cpu y) -> lock_free (p_lock p) y -> v_sync t = held (p_lock p) y ->
  p_release p (set_vst t s) = Ret (tt, set_vst (set_v_sync y t) s).
Proof.
  intros Hc Hf E. unfold p_release. rewrite (in_vst_run _ (set_vst t s) tt (set_v_sync y t)); [done|]. apply zoom_Ret. cbn. rewrite E. by apply release_run.
Qed.

Lemma incref_exact t v x : Vnode.ok t -> v_tab t !! v = Some x -> vn_refcount x < 2 ^ 31 - 1 ->
  Vnode.vnode_incref v t = Ret (tt, set_tab (<[v := Vnode.with_refcount (vn_refcount x + 1) x]> (v_tab t)) t).
Proof.
  intros Hok Hv Hx. pose proof (proj2 Hok v x Hv) as (H0 & _ & _ & _ & _ & _ & Hc & Hf).
  unfold Vnode.vnode_incref. rewrite bind_kassert by (by apply negb_true_iff, Z.eqb_neq).
  rewrite Vnode.bind_v_acquire by (apply Hok || done). unfold Vnode.deref, Vnode.store. mrun.
  rewrite (bind_valid _ _ _ _ x) by done. mrun. rewrite s32_id by lia.
  by erewrite Vnode.release_final; [|apply Hok|exact Hf|reflexivity].
Qed.

Lemma held_ok p t : Vnode.ok t -> Vnode.ok (set_v_sync (held (p_lock p) (v_sync t)) t).
Proof.
  intros [Hc Hok]. split; [by apply cpu_ok_held|]. intros v x Hx. destruct (Hok v x Hx) as (?&?&?&?&?&?&?&?). split_and!; try done; try lia.
  by apply lock_free_held.
Qed.

(** The lock makes no difference on one processor. *)
Lemma getcurdir_run s : home s -> roomy 1 (f_vst s) ->
  vfs_getcurdir s = (if p_cwd s =? 0 then mret (ENOENT, 0) else VOP_INCREF (p_cwd s);; mret (0, p_cwd s)) s.
Proof.
  intros Hh Hr. pose proof (proj2 (hm_sound s Hh)) as Hv. pose proof Hv as (Hok & Hp & _). unfold vfs_getcurdir. mrun.
  rewrite (bind_run _ _ _ _ _ (acquire_p s Hv)). set (t1 := set_v_sync _ _). destruct (Z.eqb_spec (p_cwd s) 0) as [_|Hn]; cbn [negb].
  - mrun. erewrite bind_run by (apply (release_p s t1 (v_sync (f_vst s))); [apply Hok|exact Hp|reflexivity]). by destruct s as [[] ? ? ? ? ? ? ?].
  - pose proof (hm_refs s Hh (p_cwd s)) as Ho. pose proof (owned_cwd s Hn). destruct (refs_exists (f_vst s) (p_cwd s) ltac:(lia)) as [x Hx].
    assert (vn_refcount x < 2 ^ 31 - 1) as Hlt by (specialize (Hr (p_cwd s)); unfold Vnode.refs in Hr; rewrite Hx in Hr; cbn in Hr; lia).
    mrun. unfold VOP_INCREF.
    rewrite (bind_run _ _ _ _ _ (in_vst_run _ (set_vst t1 s) _ _ (incref_exact t1 (p_cwd s) x (held_ok _ _ Hok) Hx Hlt))). mrun.
    rewrite (bind_run _ _ _ _ _ (in_vst_run _ s _ _ (incref_exact (f_vst s) (p_cwd s) x Hok Hx Hlt))).
    match goal with |- context [set_vst ?t2 (set_vst t1 s)] => change (set_vst t2 (set_vst t1 s)) with (set_vst t2 s); pose (t3 := t2) end.
    erewrite bind_run by (apply (release_p s t3 (v_sync (f_vst s))); [apply Hok|exact Hp|reflexivity]). by destruct s as [[] ? ? ? ? ? ? ?].
Qed.

Lemma starts_getcurdir s : home s -> roomy 1 (f_vst s) -> starts vfs_getcurdir s.
Proof.
  intros Hh Hr. unfold starts. rewrite (getcurdir_run s Hh Hr). destruct (Z.eqb_spec (p_cwd s) 0) as [_|Hn]; [by apply (starts_same s Hh)|].
  apply starts_incref; [done|done|]. pose proof (hm_refs s Hh (p_cwd s)). pose proof (owned_cwd s Hn). lia.
Qed.

Lemma dev_kept_trans t1 t2 t3 : kept t1 t2 -> kept t2 t3 -> (forall v, is_dev t1 v = true -> is_Some (v_tab t2 !! v)) -> kept t1 t3.
Proof.
  intros H1 H2 Hd v Hv. rewrite (H2 v Hv). destruct (v_tab t2 !! v) as [x|] eqn:E; [by apply H1; rewrite E|].
  destruct (is_dev t1 v) eqn:Ed; [|unfold is_dev; by rewrite E]. destruct (Hd v Ed). congruence.
Qed.

Lemma home_kept_trans s t2 t3 d : home s -> Vnode.moved d (f_vst s) t2 -> (forall v, 0 <= d v) -> kept (f_vst s) t2 -> kept t2 t3 -> kept (f_vst s) t3.
Proof.
  intros Hh Hm Hd H1 H2. apply (dev_kept_trans _ t2); [done|done|]. intros v Hv. apply refs_exists. rewrite (Hm v). pose proof (dev_live s v Hh Hv). specialize (Hd v). lia.
Qed.

Lemma roomy_one_if k r t t' : roomy (k + 1) t -> Vnode.moved (one_if r) t t' -> roomy k t'.
Proof. intros Hr Hm v. rewrite (Hm v). specialize (Hr v). unfold one_if, Vnode.one, Vnode.none. destruct (_ =? 0); [destruct (_ =? _)|]; lia. Qed.

(** A vnode that was just handed out, in the state with its reference. *)
Lemma drop_start s v t :
  home s -> Vnode.moved (Vnode.one v) (f_vst s) t -> vok (curproc s) t -> kept (f_vst s) t ->
  forall t2 w2 d, Vnode.moved d t t2 -> (forall u, 0 <= d u) -> vok (curproc s) t2 -> kept t t2 ->
  exists t3 w3, VOP_DECREF v (set_fs (t2, w2) s) = Ret (tt, set_fs (t3, w3) s) /\ vok (curproc s) t3 /\ Vnode.moved d (f_vst s) t3 /\ kept (f_vst s) t3.
Proof.
  intros Hh Hm Hv Hk t2 w2 d Hm2 Hd Hv2 Hk2.
  pose (w := f_world s).
  assert (home (set_fs (t, w) s)) as Hh1 by (apply (home_grow s t w (Vnode.one v)); try done; apply one_nonneg).
  assert (home (set_fs (t2, w2) s)) as Hh2.
  { change (set_fs (t2, w2) s) with (set_fs (t2, w2) (set_fs (t, w) s)). by apply (home_grow (set_fs (t, w) s) t2 w2 d). }
  pose proof (Hm v) as Em. unfold Vnode.one in Em. rewrite Z.eqb_refl in Em. specialize (Hd v) as Hdv. pose proof (Hm2 v) as Em2.
  assert (owned (set_fs (t2, w2) s) v = owned s v) as Eo by reflexivity. pose proof (hm_refs s Hh v) as Ho.
  destruct (home_decref (set_fs (t2, w2) s) v Hh2) as (t3 & w3 & Hrun & Hh3 & Hm3 & Hk3).
  - unfold others. rewrite Eo. cbn. lia.
  - cbn. intros Hdev. assert (is_dev (f_vst s) v = true) as Hdev0.
    { rewrite <- (Hk v), <- (Hk2 v); [done|by apply is_dev_exists|apply refs_exists]. pose proof (Vnode.refs_nonneg (f_vst s) v (proj1 (proj2 (hm_sound s Hh)))). lia. }
    pose proof (dev_live s v Hh Hdev0). lia.
  - exists t3, w3. split; [exact Hrun|]. split; [apply Hh3|]. cbn in Hm3, Hk3. split.
    + intros u. specialize (Hm3 u). rewrite (Hm2 u), (Hm u) in Hm3. unfold Vnode.opp in Hm3. lia.
    + apply (home_kept_trans s t2 t3 (Vnode.plus (Vnode.one v) d) Hh); [by apply (Vnode.moved_trans _ _ _ t)| | |exact Hk3].
      * intros u. unfold Vnode.plus. pose proof (one_nonneg v u). specialize (Hd u). lia.
      * apply (home_kept_trans s t t2 (Vnode.one v)); try done. apply one_nonneg.
Qed.

Lemma starts_current s : home s -> roomy 2 (f_vst s) -> starts root_of_current s.
Proof.
  intros Hh Hr. assert (roomy 1 (f_vst s)) as Hr1 by (apply (roomy_less 2); [done|lia]). unfold starts, root_of_current.
  pose proof (getcurdir_run s Hh Hr1) as Hcur. destruct (Z.eqb_spec (p_cwd s) 0) as [_|Hn].
  { rewrite (bind_run _ _ _ _ _ Hcur). by apply (starts_same s Hh). }
  pose proof (hm_refs s Hh (p_cwd s)) as Ho. pose proof (owned_cwd s Hn) as Ho1.
  destruct (incref_s s (p_cwd s) (proj2 (hm_sound s Hh)) ltac:(specialize (Hr1 (p_cwd s)); lia)) as (t & Hrun & Hv & Hm & Hk).
  rewrite (bind_run _ _ _ _ _ Hrun) in Hcur. rewrite (bind_run _ _ _ _ _ Hcur). cbn [nz negb Z.eqb].
  assert (0 < Vnode.refs t (p_cwd s)) as Hlive by (rewrite (Hm (p_cwd s)); unfold Vnode.one; rewrite Z.eqb_refl; lia).
  destruct (refs_exists t (p_cwd s) Hlive) as [x Hx].
  assert (Vnode.deref (p_cwd s) t = Ret (x, t)) as Hd by (unfold Vnode.deref; mrun; by rewrite Hx).
  rewrite (bind_run _ _ _ _ _ (in_vst_run _ (set_vst t s) _ _ Hd)). change (set_vst t (set_vst t s)) with (set_vst t s).
  assert (is_dev t (p_cwd s) = false) as Hnd by (rewrite (Hk _ (refs_exists _ _ Hlive)); by apply Hh).
  unfold is_dev in Hnd. rewrite Hx in Hnd. rewrite bind_kassert by (by rewrite Hnd).
  assert (roomy 1 t) as Hr2 by (apply (roomy_one_if 1 (0, p_cwd s) (f_vst s)); [exact Hr|exact Hm]).
  destruct (fs_moves _ _ (set_vst t s) (getroot_ok _ (vn_fs x)) Hv Hr2) as (r & t2 & w2 & Hroot & Hv2 & Hm2 & Hk2).
  rewrite (bind_run _ _ _ _ _ Hroot). change (set_fs (t2, w2) (set_vst t s)) with (set_fs (t2, w2) s).
  destruct (drop_start s (p_cwd s) t Hh Hm Hv Hk t2 w2 (one_if r) Hm2 (one_if_nonneg r) Hv2 Hk2) as (t3 & w3 & Hdrop & Hv3 & Hm3 & Hk3).
  rewrite (bind_run _ _ _ _ _ Hdrop). exists r, t3, w3. by split.
Qed.

Lemma starts_form s f : home s -> roomy 2 (f_vst s) -> (forall d p, f = OnDevice d p -> is_string (d ++ [0])) -> starts (start f) s.
Proof.
  intros Hh Hr Hd. assert (roomy 1 (f_vst s)) as Hr1 by (apply (roomy_less 2); [done|lia]). destruct f as [p|d p|p|p]; cbn [start].
  - by apply starts_getcurdir.
  - apply starts_getroot; [done|done|by apply (Hd d p)].
  - by apply starts_boot.
  - by apply starts_current.
Qed.

(** *** [getdevice] *)

(** Only the characters of the name matter. *)
Lemma getroot_cstr s a b : sound s -> is_string a -> is_string b -> cstr a = cstr b -> vfs_getroot a s = vfs_getroot b s.
Proof.
  intros [[Hk _ _] _] Ha Hb E. unfold vfs_getroot. rewrite !bind_kassert by done. mrun.
  by rewrite (getroot_loop_run s _ a Hk Ha), (getroot_loop_run s _ b Hk Hb), E.
Qed.

(** [c] begins where [f] says, with the rest of [f] as the subpath. *)
Definition begins (c : M vfs parsed) (f : form) s : Prop :=
  exists r t w p, start f s = Ret (r, set_fs (t, w) s) /\ c s = Ret (p, set_fs (t, w) s) /\
    (vok (curproc s) t /\ Vnode.moved (one_if r) (f_vst s) t /\ kept (f_vst s) t) /\
    (result p, startvn p) = r /\
    (fst r = 0 -> let sub := drop (Z.to_nat (subpath p)) (pathbuf p) in is_string sub /\ cstr sub = rest_of f).

Definition bytes (x : list Z) : Prop := Forall (fun c => 0 <= c < 256) x.

Lemma string_tail y r : clean y -> bytes y -> bytes r -> is_string (y ++ 0 :: r) /\ cstr (y ++ 0 :: r) = y.
Proof.
  intros Hy Hby Hbr. split; [split|by apply cstr_app].
  - apply elem_of_app. right. left.
  - apply Forall_app. split; [done|]. constructor; [lia|done].
Qed.

Lemma begins_relative s x r : home s -> roomy 1 (f_vst s) -> clean x -> bytes x -> bytes r ->
  begins ('(rc, v) ← vfs_getcurdir; mret (Parsed rc v (x ++ 0 :: r) 0)) (Relative x) s.
Proof.
  intros Hh Hr Hc Hb Hbr. destruct (starts_getcurdir s Hh Hr) as ([rc v] & t & w & Hrun & Hok). exists (rc, v), t, w.
  rewrite (bind_run _ _ _ _ _ Hrun). eexists. split; [exact Hrun|]. split; [reflexivity|]. split; [exact Hok|]. split; [reflexivity|]. intros _. by apply string_tail.
Qed.

Lemma begins_device s pre y r : home s -> roomy 1 (f_vst s) -> clean pre -> bytes pre -> clean y -> bytes y -> bytes r ->
  let path := pre ++ 0 :: y ++ 0 :: r in
  begins (sub ← subpath_at path (Z.of_nat (length pre)); '(rc, v) ← vfs_getroot path; mret (Parsed rc v path sub)) (OnDevice pre (strip y)) s.
Proof.
  intros Hh Hr Hcp Hbp Hc Hb Hbr path. destruct (subpath_run s (pre ++ [0]) y r) as (sub & Hsub & Hdrop).
  rewrite length_app, <- app_assoc in Hsub. rewrite <- app_assoc in Hdrop. cbn [length app] in Hsub, Hdrop. fold path in Hsub, Hdrop.
  replace (Z.of_nat (length pre + 1) - 1) with (Z.of_nat (length pre)) in Hsub by lia.
  destruct (string_tail pre (y ++ 0 :: r) Hcp Hbp) as [Hps Hpc]; [apply Forall_app; split; [done|by constructor]|].
  destruct (string_tail pre [] Hcp Hbp ltac:(constructor)) as [Hds Hdc].
  pose proof (starts_getroot s (pre ++ [0]) Hh Hr Hds) as ([rc v] & t & w & Hrun & Hok). exists (rc, v), t, w. eexists. split; [exact Hrun|].
  assert (vfs_getroot path s = Ret ((rc, v), set_fs (t, w) s)) as Hroot by (rewrite <- Hrun; apply getroot_cstr; [apply Hh|done|done|by rewrite Hdc]).
  rewrite (bind_run _ _ _ _ _ Hsub), (bind_run _ _ _ _ _ Hroot). split; [reflexivity|]. split; [exact Hok|]. split; [reflexivity|]. intros _. cbn [subpath pathbuf].
  rewrite Hdrop. apply string_tail; [by apply strip_clean| |done]. destruct (strip_suffix y) as (n & -> & _). by apply Forall_drop.
Qed.

(** [/path] and [:path]. *)
Lemma begins_root s (c : Z) y r f st : home s -> clean y -> bytes y -> bytes r ->
  starts st s -> start f = st -> rest_of f = strip y ->
  let path := c :: y ++ 0 :: r in
  begins ('(rc, v) ← st; if nz rc then mret (Parsed rc v path 0) else sub ← subpath_at path 0; mret (Parsed 0 v path sub)) f s.
Proof.
  intros Hh Hc Hb Hbr ([rc v] & t & w & Hrun & Hok) Hf Hrest path. exists (rc, v), t, w. rewrite Hf, (bind_run _ _ _ _ _ Hrun).
  unfold nz. destruct (Z.eqb_spec rc 0) as [->|Hn]; cbn [negb].
  - destruct (subpath_run (set_fs (t, w) s) [c] y r) as (sub & Hsub & Hdrop). cbn [length app] in Hsub, Hdrop. change (Z.of_nat 1 - 1) with 0 in Hsub.
    fold path in Hsub, Hdrop. eexists. rewrite (bind_run _ _ _ _ _ Hsub). split; [done|]. split; [reflexivity|]. split; [exact Hok|]. split; [reflexivity|].
    intros _. cbn [subpath pathbuf]. rewrite Hdrop, Hrest. apply string_tail; [by apply strip_clean| |done]. destruct (strip_suffix y) as (n & -> & _). by apply Forall_drop.
  - eexists. split; [done|]. split; [reflexivity|]. split; [exact Hok|]. split; [reflexivity|]. intros E. by cbn in E.
Qed.

Lemma getdevice_run s path : home s -> roomy 2 (f_vst s) -> is_string path -> begins (getdevice path) (parse (cstr path)) s.
Proof.
  intros Hh Hr Hs. assert (roomy 1 (f_vst s)) as Hr1 by (apply (roomy_less 2); [done|lia]).
  destruct (terminated_inv path (proj1 Hs)) as [r E]. pose proof (cstr_clean path) as Hc. pose proof (cstr_bytes path Hs) as Hb.
  set (x := cstr path) in *. assert (bytes r) as Hbr.
  { destruct Hs as [_ Hs]. rewrite E in Hs. apply Forall_app in Hs as [_ Hs]. by apply Forall_cons in Hs as [_ ?]. }
  unfold begins, getdevice. rewrite bind_kassert by done. rewrite E, (bind_run _ _ _ _ _ (lift_run _ _ s (scan_run x r 0 Hc))).
  pose proof (split_path_app x) as Hsplit. pose proof (split_path_sep x) as Hsep. unfold parse.
  destruct (split_path x) as [pre rest]. cbn [fst snd] in *. rewrite Z.add_0_l. destruct rest as [|c rest].
  { destruct pre; by apply begins_relative. }
  specialize (Hsep c rest eq_refl). unfold is_sep in Hsep. rewrite <- Hsplit in Hc, Hb. apply Forall_app in Hc as [Hcp [_ Hc]%Forall_cons].
  apply Forall_app in Hb as [Hbp [_ Hb]%Forall_cons]. destruct (Z.eqb_spec c 58) as [->|H58].
  - destruct pre as [|d pre].
    + cbn [app] in Hsplit. rewrite <- Hsplit. change (Z.of_nat (length [])) with 0. cbn [Z.ltb Z.compare andb Z.eqb orb app]. rewrite bind_kassert by done.
      rewrite (bind_valid _ _ _ _ 58) by done. cbn [Z.eqb Pos.eqb]. rewrite bind_assoc, bind_kassert by done.
      apply (begins_root s 58 rest r (OnCurrent (strip rest)) root_of_current); try done. by apply starts_current.
    + set (pre' := d :: pre) in *. rewrite (proj2 (Z.ltb_ge (Z.of_nat (length pre')) 0)) by lia. rewrite (proj2 (Z.ltb_lt 0 (Z.of_nat (length pre')))) by (cbn; lia). cbn [andb].
      assert (arr_set (x ++ 0 :: r) (Z.of_nat (length pre')) 0 = pre' ++ 0 :: rest ++ 0 :: r) as ->.
      { rewrite <- Hsplit, <- app_assoc. unfold arr_set. rewrite Nat2Z.id, insert_app_r_alt, Nat.sub_diag by lia. done. }
      by apply begins_device.
  - assert (c = 47) as -> by (destruct (Z.eqb_spec c 47); [done|done]). destruct pre as [|d pre].
    + cbn [app] in Hsplit. rewrite <- Hsplit. change (Z.of_nat (length [])) with 0. cbn [Z.ltb Z.compare andb Z.eqb orb app negb]. rewrite bind_kassert by done.
      rewrite (bind_valid _ _ _ _ 47) by done. cbn [Z.eqb Pos.eqb].
      apply (begins_root s 47 rest r (Absolute (strip rest)) root_of_boot); try done. by apply starts_boot.
    + rewrite (proj2 (Z.eqb_neq _ 0)) by (cbn; lia). cbn [Z.ltb Z.compare negb andb]. apply begins_relative; try done; rewrite <- Hsplit; apply Forall_app; (split; [done|by constructor]).
Qed.

(** ** Lookup *)

Definition shallow s : Prop := vfs_biglock_depth s < 2 ^ 31.

Lemma home_set_depth s d : home s -> 0 <= d -> home (set_depth d s).
Proof. intros [H1 H2 H3 H4 H5 H6 H7] Hd. by split. Qed.

Lemma enter_run s : home s -> shallow s ->
  vfs_biglock_acquire s = Ret (tt, set_depth (vfs_biglock_depth s + 1) s) /\ home (set_depth (vfs_biglock_depth s + 1) s).
Proof.
  intros Hh Hs. unfold shallow in Hs. pose proof (hm_depth s Hh). split; [apply acquire_s; lia|]. apply home_set_depth; [done|lia].
Qed.

Lemma exit_run {A} (a : A) s t w : home s -> shallow s ->
  (vfs_biglock_release;; mret a) (set_fs (t, w) (set_depth (vfs_biglock_depth s + 1) s)) = Ret (a, set_fs (t, w) s).
Proof.
  intros Hh Hs. unfold shallow in Hs. pose proof (hm_depth s Hh).
  erewrite bind_run by (apply (release_s _ (vfs_biglock_depth s)); [reflexivity|lia]). by destruct s.
Qed.

(** The effect of a lookup with the result [r]. *)
Definition looked s (r : Z * Z) t : Prop := vok (curproc s) t /\ Vnode.moved (one_if r) (f_vst s) t /\ kept (f_vst s) t.

Lemma home_looked s r t w : home s -> looked s r t -> home (set_fs (t, w) s).
Proof. intros Hh (Hv & Hm & Hk). apply (home_grow s t w (one_if r)); try done. apply one_if_nonneg. Qed.

Lemma vop_run {A} (c : M (vst * world) A) v s a t w :
  Vnode.ok (f_vst s) -> 0 < Vnode.refs (f_vst s) v -> c (f_vst s, f_world s) = Ret (a, (t, w)) -> VOP v c s = Ret (a, set_fs (t, w) s).
Proof.
  intros Hok Hr Hc. unfold VOP. rewrite (bind_run _ _ _ _ _ (in_vst_run _ s _ _ (Vnode.vnode_check_ok _ v Hok ltac:(lia)))), set_vst_id. by apply in_fs_run.
Qed.

(** The part of a lookup between the two ends of the lock. *)
Lemma start_live s r t : home s -> looked s r t -> fst r = 0 -> 0 < Vnode.refs t (snd r).
Proof.
  intros Hh (Hv & Hm & _) E. rewrite (Hm (snd r)). unfold one_if, Vnode.one. rewrite E, !Z.eqb_refl.
  pose proof (Vnode.refs_nonneg (f_vst s) (snd r) (proj1 (proj2 (hm_sound s Hh)))). lia.
Qed.

Lemma cstr_nil_length (x : list Z) : (Z.of_nat (length x) =? 0) = bool_decide (x = []).
Proof. by destruct x. Qed.

Lemma path_lookup_run s path :
  home s -> shallow s -> roomy 2 (f_vst s) -> is_string path ->
  let f := parse (cstr path) in let s1 := set_depth (vfs_biglock_depth s + 1) s in
  exists r0 t0 w0 r buf t w, start f s1 = Ret (r0, set_fs (t0, w0) s1) /\ vfs_lookup path s = Ret ((r, buf), set_fs (t, w) s) /\ looked s r t /\
    (fst r0 <> 0 -> fst r = fst r0) /\ (fst r0 = 0 -> rest_of f = [] -> r = r0).
Proof.
  intros Hh Hsh Hr Hp f s1. destruct (enter_run s Hh Hsh) as [Hacq Hh1]. fold s1 in Hacq, Hh1.
  destruct (getdevice_run s1 path Hh1 Hr Hp) as ([rc v] & t & w & p & Hst & Hdev & Hok & Hpr & Hsub). fold f in Hst, Hsub. injection Hpr as Erc Ev.
  exists (rc, v), t, w. unfold vfs_lookup. rewrite (bind_run _ _ _ _ _ Hacq), (bind_run _ _ _ _ _ Hdev), Erc, Ev. unfold nz.
  destruct (Z.eqb_spec rc 0) as [->|Hn]; cbn [negb fst snd] in *.
  - destruct (Hsub eq_refl) as [Hss Hsc]. set (sub := drop _ _) in *.
    rewrite (bind_run _ _ _ _ _ (lift_run _ _ _ (strlen_string sub Hss))), cstr_nil_length, Hsc. destruct (bool_decide_reflect (rest_of f = [])) as [Er|Er].
    + exists (0, v), (pathbuf p), t, w. split; [exact Hst|]. split; [by apply exit_run|]. by split.
    + pose proof Hok as (Hv & Hm & Hk). pose proof (start_live s1 (0, v) t Hh1 Hok eq_refl) as Hlive. cbn [snd] in Hlive.
      assert (roomy 1 t) as Hr1 by (apply (roomy_one_if 1 (0, v) (f_vst s)); [exact Hr|exact Hm]).
      destruct (lookup_ok (curproc s) v sub t w Hv Hr1 Hlive Hss) as ([rc2 v2] & t2 & w2 & Hl & Hv2 & Hm2 & Hk2).
      rewrite (bind_run _ _ _ _ _ (vop_run _ v (set_fs (t, w) s1) _ t2 w2 (proj1 Hv) Hlive Hl)).
      destruct (drop_start s1 v t Hh1 Hm Hv Hk t2 w2 _ Hm2 (one_if_nonneg _) Hv2 Hk2) as (t3 & w3 & Hd & Hok3).
      change (set_fs (t2, w2) (set_fs (t, w) s1)) with (set_fs (t2, w2) s1). rewrite (bind_run _ _ _ _ _ Hd).
      exists (rc2, v2), (pathbuf p), t3, w3. split; [exact Hst|]. split; [by apply exit_run|]. by split.
  - exists (rc, 0), (pathbuf p), t, w. split; [exact Hst|]. split; [by apply exit_run|]. split; [|done].
    destruct Hok as (Hv & Hm & Hk). split; [done|]. split; [|done]. unfold one_if in *. cbn [fst] in *. by rewrite (proj2 (Z.eqb_neq rc 0) Hn) in *.
Qed.

Lemma lookparent_run s path buf :
  home s -> shallow s -> roomy 2 (f_vst s) -> is_string path ->
  let f := parse (cstr path) in let s1 := set_depth (vfs_biglock_depth s + 1) s in
  exists r0 t0 w0 r pbuf buf' t w, start f s1 = Ret (r0, set_fs (t0, w0) s1) /\
    vfs_lookparent path buf s = Ret ((r, pbuf, buf'), set_fs (t, w) s) /\ looked s r t /\
    (fst r0 <> 0 -> fst r = fst r0) /\ (fst r0 = 0 -> rest_of f = [] -> fst r = EINVAL).
Proof.
  intros Hh Hsh Hr Hp f s1. destruct (enter_run s Hh Hsh) as [Hacq Hh1]. fold s1 in Hacq, Hh1.
  destruct (getdevice_run s1 path Hh1 Hr Hp) as ([rc v] & t & w & p & Hst & Hdev & Hok & Hpr & Hsub). fold f in Hst, Hsub. injection Hpr as Erc Ev.
  exists (rc, v), t, w. unfold vfs_lookparent. rewrite (bind_run _ _ _ _ _ Hacq), (bind_run _ _ _ _ _ Hdev), Erc, Ev. unfold nz.
  destruct (Z.eqb_spec rc 0) as [->|Hn]; cbn [negb fst snd] in *.
  - destruct (Hsub eq_refl) as [Hss Hsc]. set (sub := drop _ _) in *. pose proof Hok as (Hv & Hm & Hk).
    rewrite (bind_run _ _ _ _ _ (lift_run _ _ _ (strlen_string sub Hss))), cstr_nil_length, Hsc.
    pose proof (start_live s1 (0, v) t Hh1 Hok eq_refl) as Hlive. cbn [snd] in Hlive.
    assert (roomy 1 t) as Hr1 by (apply (roomy_one_if 1 (0, v) (f_vst s)); [exact Hr|exact Hm]).
    assert (exists r2 b2 t2 w2, (if bool_decide (rest_of f = []) then mret (EINVAL, 0, buf) else VOP v (vop_lookparent v sub buf)) (set_fs (t, w) s1) =
      Ret ((r2, b2), set_fs (t2, w2) s1) /\ vok (curproc s) t2 /\ Vnode.moved (one_if r2) t t2 /\ kept t t2 /\ (rest_of f = [] -> fst r2 = EINVAL)) as (r2 & b2 & t2 & w2 & Hl & Hv2 & Hm2 & Hk2 & He).
    { destruct (bool_decide_reflect (rest_of f = [])) as [Er|Er].
      - exists (EINVAL, 0), buf, t, w. split; [done|]. split; [done|]. split; [intros u; unfold one_if, Vnode.none; cbn; lia|]. split; [by intros u _|done].
      - destruct (lookparent_ok (curproc s) v sub buf t w Hv Hr1 Hlive Hss) as (r2 & b2 & t2 & w2 & Hl & Hv2 & Hm2 & Hk2). exists r2, b2, t2, w2.
        split; [exact (vop_run _ v (set_fs (t, w) s1) _ t2 w2 (proj1 Hv) Hlive Hl)|]. by split. }
    rewrite (bind_run _ _ _ _ _ Hl). destruct r2 as [rc2 v2].
    destruct (drop_start s1 v t Hh1 Hm Hv Hk t2 w2 _ Hm2 (one_if_nonneg _) Hv2 Hk2) as (t3 & w3 & Hd & Hok3). rewrite (bind_run _ _ _ _ _ Hd).
    exists (rc2, v2), (pathbuf p), b2, t3, w3. split; [exact Hst|]. split; [by apply exit_run|]. by split.
  - exists (rc, 0), (pathbuf p), buf, t, w. split; [exact Hst|]. split; [by apply exit_run|]. split; [|done].
    destruct Hok as (Hv & Hm & Hk). split; [done|]. split; [|done]. unfold one_if in *. cbn [fst] in *. by rewrite (proj2 (Z.eqb_neq rc 0) Hn) in *.
Qed.

(** ** Changing directories *)

(** The fields that do not concern directories. *)
Definition frame s s' : Prop :=
  knowndevs s' = knowndevs s /\ devices s' = devices s /\ vfs_biglock_depth s' = vfs_biglock_depth s /\ curproc s' = curproc s.

Lemma others_nonneg s v : home s -> 0 <= others s v.
Proof. intros Hh. unfold others. pose proof (hm_refs s Hh v). lia. Qed.

Lemma owned_dev s v : home s -> is_dev (f_vst s) v = true -> owned s v = 0.
Proof.
  intros Hh Hd. unfold owned, here. destruct (Z.eqb_spec v 0) as [->|Hn]; [done|]. cbn [negb andb].
  destruct (Z.eqb_spec v (p_cwd s)) as [->|_]; [by rewrite (hm_cwd s Hh Hn) in Hd|].
  destruct (Z.eqb_spec v (bootfs_vnode s)) as [->|_]; [by rewrite (hm_boot s Hh Hn) in Hd|]. done.
Qed.

(** The table is one of the others. *)
Lemma others_dev s v : home s -> is_dev (f_vst s) v = true -> 1 <= others s v.
Proof. intros Hh Hd. unfold others. rewrite (owned_dev s v Hh Hd). pose proof (dev_live s v Hh Hd). lia. Qed.

Lemma home_set_cwd s dir : home s -> (dir <> 0 -> is_dev (f_vst s) dir = false /\ 1 <= others s dir) ->
  home (set_cwd dir s) /\ forall v, others (set_cwd dir s) v = others s v - here dir v + here (p_cwd s) v.
Proof.
  intros Hh Hd. assert (forall v, others (set_cwd dir s) v = others s v - here dir v + here (p_cwd s) v) as Ho by (intros v; unfold others, owned; cbn; lia).
  split; [|done]. pose proof Hh as [H1 H2 H3 H4 H5 H6 H7]. split; cbn; try done.
  - intros Hn. by apply Hd.
  - intros v. specialize (Ho v). unfold others in Ho. cbn in Ho. pose proof (here_bounds (p_cwd s) v). pose proof (others_nonneg s v Hh) as Hv. unfold others in Hv.
    unfold here in Ho at 1. destruct (negb (v =? 0) && (v =? dir)) eqn:E; [|lia]. apply andb_true_iff in E as [E1 E2]. apply Z.eqb_eq in E2. subst v.
    apply negb_true_iff, Z.eqb_neq in E1. destruct (Hd E1) as [_ H8]. unfold others in H8. lia.
Qed.

Lemma home_set_boot s dir : home s -> (dir <> 0 -> is_dev (f_vst s) dir = false /\ 1 <= others s dir) ->
  home (set_bootfs dir s) /\ forall v, others (set_bootfs dir s) v = others s v - here dir v + here (bootfs_vnode s) v.
Proof.
  intros Hh Hd. assert (forall v, others (set_bootfs dir s) v = others s v - here dir v + here (bootfs_vnode s) v) as Ho by (intros v; unfold others, owned; cbn; lia).
  split; [|done]. pose proof Hh as [H1 H2 H3 H4 H5 H6 H7]. split; cbn; try done.
  - intros Hn. by apply Hd.
  - intros v. specialize (Ho v). unfold others in Ho. cbn in Ho. pose proof (here_bounds (bootfs_vnode s) v). pose proof (others_nonneg s v Hh) as Hv. unfold others in Hv.
    unfold here in Ho at 1. destruct (negb (v =? 0) && (v =? dir)) eqn:E; [|lia]. apply andb_true_iff in E as [E1 E2]. apply Z.eqb_eq in E2. subst v.
    apply negb_true_iff, Z.eqb_neq in E1. destruct (Hd E1) as [_ H8]. unfold others in H8. lia.
Qed.

(** Dropping the reference of the directory that has been replaced. *)
Lemma drop_old s old : home s -> (old <> 0 -> is_dev (f_vst s) old = false /\ 1 <= others s old) ->
  exists t w, (if negb (old =? 0) then VOP_DECREF old else mret tt) s = Ret (tt, set_fs (t, w) s) /\ home (set_fs (t, w) s) /\
    forall v, others (set_fs (t, w) s) v = others s v - here old v.
Proof.
  intros Hh Ho. destruct (Z.eqb_spec old 0) as [->|Hn]; cbn [negb].
  - exists (f_vst s), (f_world s). rewrite set_fs_id. split; [done|]. split; [done|]. intros v. rewrite here_zero. lia.
  - destruct (Ho Hn) as [Hd H1]. destruct (home_decref s old Hh ltac:(lia) ltac:(by rewrite Hd)) as (t & w & Hrun & Hh' & Hm & _).
    exists t, w. split; [exact Hrun|]. split; [done|]. intros v. unfold others. change (owned (set_fs (t, w) s) v) with (owned s v). cbn. rewrite (Hm v), (here_one old v Hn).
    unfold Vnode.opp. lia.
Qed.

Lemma change_cwd_run s dir : home s -> (dir <> 0 -> is_dev (f_vst s) dir = false /\ 1 <= others s dir) ->
  exists t w, change_cwd dir s = Ret (tt, set_fs (t, w) (set_cwd dir s)) /\ home (set_fs (t, w) (set_cwd dir s)) /\
    forall v, others (set_fs (t, w) (set_cwd dir s)) v = others s v - here dir v.
Proof.
  intros Hh Hd. destruct (home_set_cwd s dir Hh Hd) as [Hh2 Ho2]. pose proof (proj2 (hm_sound s Hh)) as Hv. pose proof Hv as (Hok & Hp & _).
  unfold change_cwd. mrun. rewrite (bind_run _ _ _ _ _ (acquire_p s Hv)). mrun. set (t1 := set_v_sync _ _).
  change (set_cwd dir (set_vst t1 s)) with (set_vst t1 (set_cwd dir s)).
  erewrite bind_run by (apply (release_p (set_cwd dir s) t1 (v_sync (f_vst s))); [apply Hok|exact Hp|reflexivity]).
  assert (set_vst (set_v_sync (v_sync (f_vst s)) t1) (set_cwd dir s) = set_cwd dir s) as -> by (by destruct s as [[] ? ? ? ? ? ? ?]).
  destruct (drop_old (set_cwd dir s) (p_cwd s) Hh2) as (t & w & Hrun & Hh3 & Ho3).
  - intros Hn. split; [by apply (hm_cwd s Hh)|]. rewrite Ho2, (here_self _ Hn). pose proof (others_nonneg s (p_cwd s) Hh).
    destruct (Z.eqb_spec (p_cwd s) dir) as [E|E].
    + subst dir. destruct (Hd Hn). rewrite (here_self _ Hn). lia.
    + unfold here. rewrite (proj2 (Z.eqb_neq _ _) E), andb_false_r. lia.
  - exists t, w. split; [exact Hrun|]. split; [done|]. intros v. rewrite Ho3, Ho2. lia.
Qed.

(** The references that others hold change by [d], the table not at all. *)
Definition settled s s' (d : Z -> Z) : Prop := home s' /\ frame s s' /\ forall v, others s' v = others s v + d v.

Lemma settled_looked s r t w : home s -> looked s r t -> settled s (set_fs (t, w) s) (one_if r).
Proof.
  intros Hh Hl. split; [by apply (home_looked s r)|]. split; [done|]. destruct Hl as (_ & Hm & _). intros v. unfold others.
  change (owned (set_fs (t, w) s) v) with (owned s v). cbn. rewrite (Hm v). lia.
Qed.

Lemma settled_trans s1 s2 s3 d e f : settled s1 s2 d -> settled s2 s3 e -> (forall v, f v = d v + e v) -> settled s1 s3 f.
Proof.
  intros (_ & (A1 & A2 & A3 & A4) & Ho) (Hh & (B1 & B2 & B3 & B4) & Ho') Hf. split; [done|]. split; [split_and!; congruence|].
  intros v. rewrite Ho', Ho, Hf. lia.
Qed.

(** At most two more references. *)
Lemma settled_roomy k s s' d : home s -> settled s s' d -> (forall v, d v <= 1) -> roomy k (f_vst s) -> roomy (k - 3) (f_vst s').
Proof.
  intros Hh (_ & _ & Ho) Hd Hr v. specialize (Ho v). specialize (Hd v). specialize (Hr v). unfold others in Ho.
  pose proof (owned_nonneg s v). assert (owned s' v <= 2) by (unfold owned; pose proof (here_bounds (p_cwd s') v); pose proof (here_bounds (bootfs_vnode s') v); lia). lia.
Qed.

Lemma setcurdir_run s dir :
  home s -> roomy 1 (f_vst s) -> 0 < Vnode.refs (f_vst s) dir -> dir <> 0 ->
  exists rc s', vfs_setcurdir dir s = Ret (rc, s') /\ settled s s' Vnode.none /\ bootfs_vnode s' = bootfs_vnode s /\
    p_cwd s' = if rc =? 0 then dir else p_cwd s.
Proof.
  intros Hh Hr Hl Hn. pose proof (proj2 (hm_sound s Hh)) as Hv.
  destruct (gettype_ok (curproc s) dir _ (f_world s) Hv Hr) as ([rc ty] & t & w & Hrun & Hv1 & Hm & Hk). unfold vfs_setcurdir.
  rewrite (bind_run _ _ _ _ _ (vop_run _ dir s _ t w (proj1 Hv) Hl Hrun)).
  assert (settled s (set_fs (t, w) s) Vnode.none) as Hs1 by (apply (settled_looked s (1, 0)); [done|by split]).
  unfold nz. destruct (Z.eqb_spec rc 0) as [->|Hrc]; cbn [negb].
  2: { exists rc, (set_fs (t, w) s). rewrite (proj2 (Z.eqb_neq rc 0) Hrc). by split. }
  destruct (Z.eqb_spec ty S_IFDIR) as [->|Hty]; cbn [negb]; [|by exists ENOTDIR, (set_fs (t, w) s)].
  pose proof (directory_ok dir (f_vst s) (f_world s) t w Hrun) as Hnd. pose proof Hs1 as (Hh1 & _ & _).
  assert (0 < Vnode.refs t dir) as Hl1 by (rewrite (Hm dir); unfold Vnode.none; lia).
  assert (roomy 1 t) as Hr1 by (apply (roomy_moved _ _ _ _ Hr Hm); done).
  destruct (incref_s (set_fs (t, w) s) dir Hv1 ltac:(specialize (Hr1 dir); cbn; lia)) as (t2 & Hi & Hok2). cbn in Hok2. rewrite (bind_run _ _ _ _ _ Hi).
  set (s2 := set_vst t2 (set_fs (t, w) s)). assert (settled (set_fs (t, w) s) s2 (Vnode.one dir)) as Hs2 by (by apply (settled_looked (set_fs (t, w) s) (0, dir))).
  pose proof Hs2 as (Hh2 & _ & Ho2). destruct (change_cwd_run s2 dir Hh2) as (t3 & w3 & Hc & Hh3 & Ho3).
  - intros _. split; [|rewrite Ho2; unfold Vnode.one; rewrite Z.eqb_refl; pose proof (others_nonneg (set_fs (t, w) s) dir Hh1); lia].
    destruct Hok2 as (_ & Hm2 & Hk2). cbn. rewrite (Hk2 dir); [done|]. apply refs_exists. rewrite (Hm2 dir). pose proof (one_nonneg dir dir). lia.
  - rewrite (bind_run _ _ _ _ _ Hc). eexists 0, _. split; [reflexivity|]. split; [|done].
    apply (settled_trans s (set_fs (t, w) s) _ Vnode.none Vnode.none _ Hs1); [|done]. split; [done|]. split; [done|].
    intros v. rewrite Ho3, Ho2, (here_one dir v Hn). unfold Vnode.none. lia.
Qed.

Lemma clearcurdir_run s : home s -> exists s', vfs_clearcurdir s = Ret (0, s') /\ settled s s' Vnode.none /\ p_cwd s' = 0 /\ bootfs_vnode s' = bootfs_vnode s.
Proof.
  intros Hh. unfold vfs_clearcurdir. destruct (change_cwd_run s 0 Hh ltac:(done)) as (t & w & Hc & Hh' & Ho). rewrite (bind_run _ _ _ _ _ Hc).
  eexists. split; [reflexivity|]. split; [|done]. split; [done|]. split; [done|]. intros v. rewrite Ho, here_zero. unfold Vnode.none. lia.
Qed.

(** Dropping a reference that the caller holds. *)
Lemma drop_run s0 s v :
  home s0 -> settled s0 s (Vnode.one v) ->
  exists t w, VOP_DECREF v s = Ret (tt, set_fs (t, w) s) /\ settled s0 (set_fs (t, w) s) Vnode.none.
Proof.
  intros Hh0 Hs. pose proof Hs as (Hh & (Ek & _ & _ & _) & Ho). pose proof (Ho v) as Ev. unfold Vnode.one in Ev. rewrite Z.eqb_refl in Ev. pose proof (others_nonneg s0 v Hh0).
  destruct (home_decref s v Hh ltac:(lia)) as (t & w & Hrun & Hh' & Hm & _).
  - intros Hd. destruct (hm_listed s Hh v Hd) as (kd & Hin & <-). rewrite Ek in Hin. pose proof (others_dev s0 _ Hh0 (hm_dev s0 Hh0 kd Hin)).
    unfold others at 1 in Ev. pose proof (owned_nonneg s (kd_vnode kd)). lia.
  - exists t, w. split; [exact Hrun|]. apply (settled_trans s0 s _ (Vnode.one v) (Vnode.opp (Vnode.one v)) _ Hs).
    + split; [done|]. split; [done|]. intros u. unfold others. change (owned (set_fs (t, w) s) u) with (owned s u). cbn. rewrite (Hm u). lia.
    + intros u. unfold Vnode.none, Vnode.opp. lia.
Qed.

Lemma one_le v w : Vnode.one v w <= 1.
Proof. unfold Vnode.one. destruct (w =? v); lia. Qed.

Lemma chdir_run s path :
  home s -> shallow s -> roomy 5 (f_vst s) -> is_string path ->
  exists rc s', vfs_chdir path s = Ret (rc, s') /\ settled s s' Vnode.none /\ bootfs_vnode s' = bootfs_vnode s /\
    (rc <> 0 -> p_cwd s' = p_cwd s) /\ (rc = 0 -> p_cwd s' <> 0 /\ exists buf s1, vfs_lookup path s = Ret ((0, p_cwd s', buf), s1)).
Proof.
  intros Hh Hsh Hr Hp. destruct (path_lookup_run s path Hh Hsh (roomy_less _ 2 _ Hr ltac:(lia)) Hp) as (r0 & t0 & w0 & [rc v] & buf & t & w & _ & Hrun & Hl & _).
  unfold vfs_chdir. rewrite (bind_run _ _ _ _ _ Hrun). pose proof (settled_looked s (rc, v) t w Hh Hl) as Hs1. unfold nz.
  destruct (Z.eqb_spec rc 0) as [->|Hrc]; cbn [negb].
  2: { exists rc, (set_fs (t, w) s). unfold one_if in Hs1. cbn [fst] in Hs1. rewrite (proj2 (Z.eqb_neq rc 0) Hrc) in Hs1. by split. }
  change (one_if (0, v)) with (Vnode.one v) in Hs1. pose proof Hs1 as (Hh1 & _ & _).
  assert (0 < Vnode.refs t v) as Hlive by (by apply (start_live s (0, v))).
  assert (v <> 0) as Hv0. { destruct (refs_exists t v Hlive) as [x Hx]. destruct Hl as ([Hok _] & _). by destruct (proj2 Hok v x Hx). }
  assert (roomy 1 t) as Hr1 by (apply (roomy_less 2); [apply (settled_roomy 5 s _ _ Hh Hs1 (one_le v) Hr)|lia]).
  destruct (setcurdir_run (set_fs (t, w) s) v Hh1 Hr1 Hlive Hv0) as (rc2 & s2 & Hset & Hs2 & Hb2 & Hc2). rewrite (bind_run _ _ _ _ _ Hset).
  assert (settled s s2 (Vnode.one v)) as Hs3 by (apply (settled_trans s _ s2 _ _ _ Hs1 Hs2); intros u; unfold Vnode.none; lia).
  destruct (drop_run s s2 v Hh Hs3) as (t3 & w3 & Hd & Hs4). rewrite (bind_run _ _ _ _ _ Hd). eexists rc2, _. split; [reflexivity|]. split; [done|]. split; [done|]. cbn [p_cwd set_fs] in *.
  split.
  - intros Hn. by rewrite (proj2 (Z.eqb_neq rc2 0) Hn) in Hc2.
  - intros ->. rewrite Z.eqb_refl in Hc2. rewrite Hc2. split; [done|]. by exists buf, (set_fs (t, w) s).
Qed.

Lemma change_bootfs_run s dir : home s -> (dir <> 0 -> is_dev (f_vst s) dir = false /\ 1 <= others s dir) ->
  exists s', change_bootfs dir s = Ret (tt, s') /\ settled s s' (Vnode.opp (here dir)) /\ bootfs_vnode s' = dir /\ p_cwd s' = p_cwd s.
Proof.
  intros Hh Hd. destruct (home_set_boot s dir Hh Hd) as [Hh2 Ho2]. unfold change_bootfs. mrun.
  destruct (drop_old (set_bootfs dir s) (bootfs_vnode s) Hh2) as (t & w & Hrun & Hh3 & Ho3).
  - intros Hn. split; [by apply (hm_boot s Hh)|]. rewrite Ho2, (here_self _ Hn). pose proof (others_nonneg s (bootfs_vnode s) Hh).
    destruct (Z.eqb_spec (bootfs_vnode s) dir) as [E|E].
    + subst dir. destruct (Hd Hn). rewrite (here_self _ Hn). lia.
    + unfold here. rewrite (proj2 (Z.eqb_neq _ _) E), andb_false_r. lia.
  - eexists. split; [exact Hrun|]. split; [|done]. split; [done|]. split; [done|]. intros v. rewrite Ho3, Ho2. unfold Vnode.opp. lia.
Qed.

(** ** The boot file system *)

Lemma percent_s_text x : Printf.printf_text PERCENT_S [Printf.Chars (Some x)] = Some (cstr x).
Proof.
  change (Printf.printf_text PERCENT_S [Printf.Chars (Some x)]) with (Some (Printf.field_text [] [] (cstr x) ++ [])). rewrite app_nil_r. f_equal.
  unfold Printf.field_text, Printf.justify. change (Printf.left_align []) with false. change (Printf.fill_of []) with 32. change (Printf.width []) with 0.
  cbn [Z.eqb Pos.eqb app]. by replace (Z.to_nat _) with 0%nat by lia.
Qed.

(** What fits in the buffer, the name of the file system. *)
Definition boot_name (fsname : list Z) : list Z := take 254 (cstr fsname).

Lemma print_name tmp fsname :
  is_string fsname -> Z.of_nat (length (cstr fsname)) < 2 ^ 31 -> length tmp = 256%nat -> bytes tmp ->
  exists n r, Printf.snprintf tmp (Z.of_nat (length tmp) - 1) PERCENT_S [Printf.Chars (Some fsname)] = Ret (n, boot_name fsname ++ 0 :: r) /\
    bytes r /\ (length (boot_name fsname) + S (length r) = 256)%nat.
Proof.
  intros Hs Hl Ht Hb. pose proof (Printf.snprintf_run tmp (Z.of_nat (length tmp) - 1) PERCENT_S [Printf.Chars (Some fsname)] _ ltac:(lia) ltac:(lia)
    ltac:(right; right; left) eq_refl ltac:(repeat constructor; [apply Hs|exact Hl]) (percent_s_text fsname)) as Hrun.
  rewrite Ht in *. change (Z.of_nat 256 - 1 =? 0) with false in Hrun. change (Z.to_nat (Z.of_nat 256 - 1 - 1)) with 254%nat in Hrun. fold (boot_name fsname) in Hrun.
  do 2 eexists. split; [exact Hrun|]. split; [by apply Forall_drop|]. rewrite length_drop, Ht. unfold boot_name. rewrite length_take. lia.
Qed.

Lemma boot_name_ok fsname : is_string fsname -> clean (boot_name fsname) /\ bytes (boot_name fsname).
Proof. intros Hs. split; apply Forall_take; [apply cstr_clean|by apply cstr_bytes]. Qed.

Lemma find_colon (x r : list Z) (s : vfs) : clean x -> exists o, @lift vfs _ (strchr (x ++ 0 :: r) 58) s = Ret (o, s) /\
  match o with
  | Some i => 58 ∈ x /\ exists y, drop (Z.to_nat i) (x ++ 0 :: r) = 58 :: y ++ 0 :: r /\ clean y
  | None => 58 ∉ x
  end.
Proof.
  intros Hc. assert (terminated (x ++ 0 :: r)) as Ht by (apply elem_of_app; right; left).
  destruct (strchr_from_spec 0 (x ++ 0 :: r) 58 Ht ltac:(lia)) as (o & E & Ho). exists o. split; [unfold lift, strchr; change (u8 58) with 58; by rewrite E|].
  rewrite cstr_app in Ho by done. destruct o as [j|]; [|intros Hin; apply Ho, elem_of_app; by left].
  destruct Ho as (k & -> & Hk & _). rewrite Z.add_0_l, Nat2Z.id. assert (x !! k = Some 58) as Hx.
  { apply lookup_app_Some in Hk as [Hk|[_ Hk]]; [done|]. apply list_lookup_singleton_Some in Hk as [_ Hk]. done. }
  split; [by apply list_elem_of_lookup_2 in Hx|]. exists (drop (S k) x). split; [|by apply Forall_drop].
  rewrite drop_app_le by (apply lookup_lt_Some in Hx; lia). by rewrite (drop_S _ 58 k Hx).
Qed.

Lemma add_colon (x r : list Z) : clean x -> (0 < length r)%nat -> strcat (x ++ 0 :: r) COLON_STR = Ret ((x ++ [58]) ++ 0 :: drop 1 r).
Proof.
  intros Hc Hr. unfold strcat. rewrite strlen_spec by (apply elem_of_app; right; left). rewrite cstr_app by done. rewrite Nat2Z.id, drop_app_length, take_app_length.
  destruct r as [|a r]; [cbn in Hr; lia|]. cbn. by rewrite <- app_assoc.
Qed.

(** Releasing the lock after the directories have changed. *)
Lemma leave_settled s s' (e : Z) : home s -> shallow s -> settled (set_depth (vfs_biglock_depth s + 1) s) s' Vnode.none ->
  exists s'', (vfs_biglock_release;; mret e) s' = Ret (e, s'') /\ settled s s'' Vnode.none /\ p_cwd s'' = p_cwd s' /\ bootfs_vnode s'' = bootfs_vnode s'.
Proof.
  intros Hh Hsh (Hh' & (F1 & F2 & F3 & F4) & Ho'). pose proof (hm_depth s Hh). unfold shallow in Hsh. exists (set_depth (vfs_biglock_depth s) s').
  erewrite bind_run by (apply (release_s s' (vfs_biglock_depth s)); [rewrite F3; reflexivity|lia]). split; [done|]. split; [|done].
  split; [by apply home_set_depth|]. split; [by split_and!|]. exact Ho'.
Qed.

(** The current directory becomes the boot directory. *)
Lemma adopt_run s : home s -> roomy 1 (f_vst s) -> p_cwd s <> 0 ->
  exists s1 s2, vfs_getcurdir s = Ret ((0, p_cwd s), s1) /\ change_bootfs (p_cwd s) s1 = Ret (tt, s2) /\
    settled s s2 Vnode.none /\ bootfs_vnode s2 = p_cwd s /\ p_cwd s2 = p_cwd s.
Proof.
  intros Hh Hr Hcwd. pose proof (getcurdir_run s Hh Hr) as Hcur. rewrite (proj2 (Z.eqb_neq (p_cwd s) 0) Hcwd) in Hcur.
  pose proof (hm_refs s Hh (p_cwd s)) as Hrf. pose proof (owned_cwd s Hcwd) as How.
  destruct (incref_s s (p_cwd s) (proj2 (hm_sound s Hh)) ltac:(specialize (Hr (p_cwd s)); lia)) as (t & Hi & Hok).
  rewrite (bind_run _ _ _ _ _ Hi) in Hcur. set (s1 := set_vst t s) in *.
  assert (settled s s1 (Vnode.one (p_cwd s))) as Hs1 by (by apply (settled_looked s (0, p_cwd s))).
  pose proof Hs1 as (Hh1 & _ & Ho1). destruct (change_bootfs_run s1 (p_cwd s) Hh1) as (s2 & Hcb & Hs2 & Hb & Hc).
  - intros _. split; [apply (hm_cwd s1 Hh1 Hcwd)|]. rewrite Ho1. unfold Vnode.one. rewrite Z.eqb_refl. pose proof (others_nonneg s (p_cwd s) Hh). lia.
  - exists s1, s2. split; [exact Hcur|]. split; [exact Hcb|]. split; [|by split]. apply (settled_trans s s1 s2 _ _ _ Hs1 Hs2).
    intros v. unfold Vnode.none, Vnode.opp. rewrite (here_one _ v Hcwd). lia.
Qed.

Lemma setbootfs_run s tmp fsname :
  home s -> vfs_biglock_depth s < 2 ^ 31 - 1 -> roomy 8 (f_vst s) -> is_string fsname -> Z.of_nat (length (cstr fsname)) < 2 ^ 31 ->
  length tmp = 256%nat -> bytes tmp ->
  if bool_decide (58 ∈ boot_name fsname) then vfs_setbootfs tmp fsname s = Ret (EINVAL, s)
  else exists rc s', vfs_setbootfs tmp fsname s = Ret (rc, s') /\ settled s s' Vnode.none /\
    if rc =? 0 then p_cwd s' <> 0 /\ bootfs_vnode s' = p_cwd s' /\
      exists r s1 s2 p, vfs_lookup (boot_name fsname ++ [58] ++ 0 :: r) s1 = Ret ((0, p_cwd s', p), s2) /\ s1 = set_depth (vfs_biglock_depth s + 1) s
    else p_cwd s' = p_cwd s /\ bootfs_vnode s' = bootfs_vnode s.
Proof.
  intros Hh Hd Hr Hs Hl Ht Hb. destruct (enter_run s Hh ltac:(unfold shallow; lia)) as [Hacq Hh1]. set (s1 := set_depth _ s) in *.
  destruct (print_name tmp fsname Hs Hl Ht Hb) as (n & r & Hpr & Hbr & Hlen). destruct (boot_name_ok fsname Hs) as [Hc Hbn]. set (x := boot_name fsname) in *.
  unfold vfs_setbootfs. rewrite (bind_run _ _ _ _ _ Hacq), (bind_run _ _ _ _ _ (lift_run _ _ s1 Hpr)).
  destruct (find_colon x r s1 Hc) as (o & Ho & Hcol). rewrite (bind_run _ _ _ _ _ Ho).
  assert (forall e : Z, (vfs_biglock_release;; mret e) s1 = Ret (e, s)) as Hexit.
  { intros e. pose proof (exit_run e s (f_vst s) (f_world s) Hh ltac:(unfold shallow; lia)) as E. rewrite !set_fs_id in E. exact E. }
  destruct o as [i|].
  - destruct Hcol as [Hin (y & Hdrop & Hy)]. rewrite bool_decide_eq_true_2 by done. rewrite Hdrop.
    rewrite bind_assoc. erewrite bind_run by (apply lift_run, strlen_spec; right; apply elem_of_app; right; left). mrun.
    change (58 :: y ++ 0 :: r) with ((58 :: y) ++ 0 :: r). rewrite (cstr_app (58 :: y) r) by (by constructor). rewrite (proj2 (Z.ltb_lt 0 _)) by (cbn; lia). apply Hexit.
  - rewrite bool_decide_eq_false_2 by done. mrun. rewrite (bind_run _ _ _ _ _ (lift_run _ _ s1 (add_colon x r Hc ltac:(unfold x, boot_name in Hlen; rewrite length_take in Hlen; lia)))).
    set (path := (x ++ [58]) ++ 0 :: drop 1 r).
    assert (is_string path) as Hpath.
    { apply string_tail; [apply Forall_app; split; [done|by repeat constructor]|apply Forall_app; split; [done|repeat constructor; lia]|by apply Forall_drop]. }
    destruct (chdir_run s1 path Hh1 ltac:(unfold shallow, s1; cbn; lia) (roomy_less _ 5 _ Hr ltac:(lia)) Hpath) as (rc & s2 & Hch & Hs2 & Hb2 & Hc2 & Hok2).
    rewrite (bind_run _ _ _ _ _ Hch). unfold nz.
    destruct (Z.eqb_spec rc 0) as [->|Hrc]; cbn [negb].
    2: { destruct (leave_settled s s2 rc Hh ltac:(unfold shallow; lia) Hs2) as (s'' & Hrel & Hs'' & Ec & Eb). exists rc, s''. split; [exact Hrel|]. split; [done|].
         rewrite (proj2 (Z.eqb_neq rc 0) Hrc), Ec, Eb, Hb2. split; [by apply Hc2|done]. }
    destruct (Hok2 eq_refl) as [Hcwd (buf & s3 & Hlook)]. pose proof Hs2 as (Hh2 & F2 & Ho2).
    assert (roomy 1 (f_vst s2)) as Hr2 by (apply (roomy_less 5); [apply (settled_roomy 8 s1 _ _ Hh1 Hs2); [intros v; unfold Vnode.none; lia|exact Hr]|lia]).
    destruct (adopt_run s2 Hh2 Hr2 Hcwd) as (s4 & s5 & Hcur & Hcb & Hs5 & Hb5 & Hc5). rewrite (bind_run _ _ _ _ _ Hcur). cbn [Z.eqb negb].
    rewrite (bind_run _ _ _ _ _ Hcb). assert (settled s1 s5 Vnode.none) as Hs15 by (by apply (settled_trans s1 s2 s5 _ _ _ Hs2 Hs5)).
    destruct (leave_settled s s5 0 Hh ltac:(unfold shallow; lia) Hs15) as (s'' & Hrel & Hs'' & Ec & Eb). exists 0, s''. split; [exact Hrel|]. split; [done|].
    rewrite Z.eqb_refl, Ec, Eb, Hb5, Hc5. split; [done|]. split; [done|]. exists (drop 1 r), s1, s3, buf. split; [|done]. etransitivity; [|exact Hlook]. unfold path. by rewrite <- app_assoc.
Qed.

Lemma clearbootfs_run s : home s -> shallow s -> exists s', vfs_clearbootfs s = Ret (tt, s') /\ settled s s' Vnode.none /\ bootfs_vnode s' = 0 /\ p_cwd s' = p_cwd s.
Proof.
  intros Hh Hsh. destruct (enter_run s Hh Hsh) as [Hacq Hh1]. unfold vfs_clearbootfs. rewrite (bind_run _ _ _ _ _ Hacq).
  destruct (change_bootfs_run (set_depth (vfs_biglock_depth s + 1) s) 0 Hh1 ltac:(done)) as (s' & Hrun & (Hh' & (F1 & F2 & F3 & F4) & Ho) & Hb & Hc). rewrite (bind_run _ _ _ _ _ Hrun).
  pose proof (hm_depth s Hh). unfold shallow in Hsh. exists (set_depth (vfs_biglock_depth s) s'). split; [apply release_s; [rewrite F3; reflexivity|lia]|]. split; [|by split].
  split; [by apply home_set_depth|]. split; [by split_and!|]. intros v. etransitivity; [exact (Ho v)|]. unfold Vnode.opp, Vnode.none. by rewrite here_zero.
Qed.

(** ** The name of the current directory *)

(** The name of a volume, or that of the device it is on. *)
Definition fs_name s (fs : Z) : option (list Z) :=
  match volname fs (f_world s) with
  | Some n => Some n
  | None => kd_name <$> head (filter (fun kd => kd_fs kd = fs) (knowndevs s))
  end.

Lemma fs_name_string s fs n : home s -> fs_name s fs = Some n -> is_string n.
Proof.
  intros Hh. unfold fs_name. destruct (volname fs (f_world s)) eqn:E; [intros [= <-]; by apply (volname_ok fs (f_world s))|].
  destruct (filter _ _) as [|kd l] eqn:Ef; [done|]. intros [= <-]. assert (kd ∈ knowndevs s) as Hin.
  { assert (kd ∈ filter (fun kd => kd_fs kd = fs) (knowndevs s)) as Hin by (rewrite Ef; left). by apply list_elem_of_filter in Hin as [_ ?]. }
  apply kn_name. by apply (proj1 (Forall_forall _ _) (tb_kd _ _ (proj1 (hm_sound s Hh)))).
Qed.

Lemma name_run s fs n : home s -> shallow s -> fs <> 0 -> fs_name s fs = Some n ->
  (name ← in_fs (fsop_getvolname fs);
   match name with
   | Some _ => mret name
   | None => vfs_biglock_acquire;; name ← vfs_getdevname fs; vfs_biglock_release;; mret name
   end) s = Ret (Some n, s).
Proof.
  intros Hh Hsh H0 Hn. unfold fs_name in Hn.
  rewrite (bind_run _ _ _ _ _ (in_fs_run _ s _ _ _ (getvolname_ok fs (f_vst s) (f_world s)))), set_fs_id.
  destruct (volname fs (f_world s)) as [x|]; [by injection Hn as ->|]. destruct (enter_run s Hh Hsh) as [Hacq _]. rewrite (bind_run _ _ _ _ _ Hacq).
  unfold vfs_getdevname. rewrite bind_assoc, bind_kassert by (by apply negb_true_iff, Z.eqb_neq). rewrite bind_assoc, bind_kassert by done. mrun. cbn [knowndevs set_depth].
  rewrite Hn. pose proof (exit_run (Some n) s (f_vst s) (f_world s) Hh Hsh) as E. by rewrite !set_fs_id in E.
Qed.

Lemma take_string n : is_string n -> take (Z.to_nat (Z.of_nat (length (cstr n)))) n = cstr n.
Proof. intros [Hn _]. destruct (terminated_inv n Hn) as [r E]. rewrite Nat2Z.id. rewrite E at 2. by rewrite take_app_length. Qed.

Lemma getcwd_run s u n :
  home s -> shallow s -> roomy 2 (f_vst s) -> p_cwd s <> 0 -> Stream.uio_rw u = Copy.Uio.UIO_READ -> Stream.good u ->
  (forall x, v_tab (f_vst s) !! p_cwd s = Some x -> fs_name s (vn_fs x) = Some n) ->
  Z.of_nat (length (cstr n)) + 1 <= Stream.uio_resid u ->
  exists u1 t1 r t2 w2 t w, Stream.advanced (length (cstr n) + 1) (cstr n ++ [58]) u u1 /\
    vop_namefile (p_cwd s) u1 (t1, f_world s) = Ret (r, (t2, w2)) /\ Vnode.moved (Vnode.one (p_cwd s)) (f_vst s) t1 /\
    vfs_getcwd u s = Ret (r, set_fs (t, w) s) /\ settled s (set_fs (t, w) s) Vnode.none.
Proof.
  intros Hh Hsh Hr Hcwd Hrw Hg Hname Hres. assert (roomy 1 (f_vst s)) as Hr1 by (apply (roomy_less 2); [done|lia]).
  unfold vfs_getcwd. rewrite bind_kassert by (by apply Z.eqb_eq). pose proof (getcurdir_run s Hh Hr1) as Hcur. rewrite (proj2 (Z.eqb_neq _ 0) Hcwd) in Hcur.
  pose proof (hm_refs s Hh (p_cwd s)) as Hrf. pose proof (owned_cwd s Hcwd) as How. destruct (refs_exists (f_vst s) (p_cwd s) ltac:(lia)) as [x Hx].
  destruct (incref_s s (p_cwd s) (proj2 (hm_sound s Hh)) ltac:(specialize (Hr1 (p_cwd s)); lia)) as (t1 & Hi & Hok1).
  rewrite (bind_run _ _ _ _ _ Hi) in Hcur. rewrite (bind_run _ _ _ _ _ Hcur). cbn [nz Z.eqb negb]. set (s1 := set_vst t1 s) in *.
  assert (settled s s1 (Vnode.one (p_cwd s))) as Hs1 by (by apply (settled_looked s (0, p_cwd s))). pose proof Hs1 as (Hh1 & _ & _).
  assert (v_tab t1 !! p_cwd s = Some (Vnode.with_refcount (vn_refcount x + 1) x)) as Hx1.
  { assert (vn_refcount x < 2 ^ 31 - 1) as Hlt by (specialize (Hr1 (p_cwd s)); unfold Vnode.refs in Hr1; rewrite Hx in Hr1; cbn in Hr1; lia).
    pose proof (in_vst_run _ s _ _ (incref_exact (f_vst s) (p_cwd s) x (proj1 (proj2 (hm_sound s Hh))) Hx Hlt)) as Hi'. unfold VOP_INCREF in Hi. rewrite Hi' in Hi.
    injection Hi as E. change t1 with (f_vst (set_vst t1 s)). rewrite <- E. cbn. by rewrite lookup_insert_eq. }
  assert (Vnode.deref (p_cwd s) t1 = Ret (Vnode.with_refcount (vn_refcount x + 1) x, t1)) as Hd by (unfold Vnode.deref; mrun; by rewrite Hx1).
  rewrite (bind_run _ _ _ _ _ (in_vst_run _ s1 _ _ Hd)). change (set_vst t1 s1) with s1. cbn [vn_fs Vnode.with_refcount].
  assert (vn_fs x <> 0) as Hfs0 by (pose proof (hm_cwd s Hh Hcwd) as Hnd; unfold is_dev in Hnd; rewrite Hx in Hnd; by apply Z.eqb_neq).
  rewrite bind_kassert by (by apply negb_true_iff, Z.eqb_neq). specialize (Hname x Hx).
  pose proof (name_run s1 (vn_fs x) n Hh1 Hsh Hfs0 Hname) as Hnr. rewrite <- bind_assoc, (bind_run _ _ _ _ _ Hnr). clear Hnr.
  pose proof (fs_name_string s _ n Hh Hname) as Hns. rewrite (bind_run _ _ _ _ _ (lift_run _ _ s1 (strlen_string n Hns))), (take_string n Hns).
  destruct (Stream.uiomove_out_run (cstr n) u Hg ltac:(lia)) as (u0 & Hu0 & Ha0 & Hg0). rewrite (bind_run _ _ _ _ _ (lift_run _ _ s1 Hu0)). cbn [nz Z.eqb negb].
  destruct (Stream.uiomove_out_run [58] u0 Hg0) as (u1 & Hu1 & Ha1 & Hg1). { destruct Ha0 as (_ & _ & E & _). rewrite E. cbn. lia. }
  rewrite bind_assoc, (bind_run _ _ _ _ _ (lift_run _ _ s1 Hu1)). cbn [nz Z.eqb negb]. destruct Hok1 as (Hv1 & Hm1 & Hk1).
  assert (0 < Vnode.refs t1 (p_cwd s)) as Hl1 by (rewrite (Hm1 (p_cwd s)); pose proof (one_nonneg (p_cwd s) (p_cwd s)); lia).
  assert (roomy 1 t1) as Hrt by (apply (roomy_one_if 1 (0, p_cwd s) (f_vst s)); [exact Hr|exact Hm1]).
  destruct (namefile_ok (curproc s) (p_cwd s) u1 t1 (f_world s) Hv1 Hrt) as (r & t2 & w2 & Hnf & Hok2).
  rewrite (bind_run _ _ _ _ _ (vop_run _ (p_cwd s) s1 _ t2 w2 (proj1 Hv1) Hl1 Hnf)).
  assert (settled s1 (set_fs (t2, w2) s1) Vnode.none) as Hs2 by (by apply (settled_looked s1 (1, 0))).
  assert (settled s (set_fs (t2, w2) s1) (Vnode.one (p_cwd s))) as Hs3 by (apply (settled_trans s s1 _ _ _ _ Hs1 Hs2); intros v; unfold Vnode.none; lia).
  destruct (drop_run s _ (p_cwd s) Hh Hs3) as (t & w & Hdr & Hs4). rewrite (bind_run _ _ _ _ _ Hdr).
  exists u1, t1, r, t2, w2, t, w. split; [exact (Stream.advanced_trans _ _ _ _ _ _ _ Ha0 Ha1)|]. split; [exact Hnf|]. split; [exact Hm1|]. split; [reflexivity|exact Hs4].
Qed.

(** ** Sequences of operations *)

Inductive dir_op :=
  | Lookup (path : list Z)
  | Lookparent (path buf : list Z)
  | Setcurdir (dir : Z)
  | Clearcurdir
  | Chdir (path : list Z)
  | Setbootfs (tmp fsname : list Z)
  | Clearbootfs.

(** The error code and the vnode handed out. *)
Definition exec_dir (q : dir_op) : M vfs (Z * Z) :=
  match q with
  | Lookup path => '(rc, v, _) ← vfs_lookup path; mret (rc, v)
  | Lookparent path buf => '(rc, v, _, _) ← vfs_lookparent path buf; mret (rc, v)
  | Setcurdir dir => rc ← vfs_setcurdir dir; mret (rc, 0)
  | Clearcurdir => rc ← vfs_clearcurdir; mret (rc, 0)
  | Chdir path => rc ← vfs_chdir path; mret (rc, 0)
  | Setbootfs tmp fsname => rc ← vfs_setbootfs tmp fsname; mret (rc, 0)
  | Clearbootfs => vfs_clearbootfs;; mret (0, 0)
  end.

Definition hands_out (q : dir_op) : bool := match q with Lookup _ | Lookparent _ _ => true | _ => false end.

Definition dir_allowed s (q : dir_op) : Prop :=
  roomy 8 (f_vst s) /\
  match q with
  | Lookup path | Lookparent path _ | Chdir path => is_string path
  | Setcurdir dir => 0 < Vnode.refs (f_vst s) dir /\ dir <> 0
  | Setbootfs tmp fsname => length tmp = 256%nat /\ bytes tmp /\ is_string fsname /\ Z.of_nat (length (cstr fsname)) < 2 ^ 31
  | Clearcurdir | Clearbootfs => True
  end.

Definition given (q : dir_op) (r : Z * Z) : Z -> Z := if hands_out q then one_if r else Vnode.none.

Lemma settled_refl s : home s -> settled s s Vnode.none.
Proof. intros Hh. split; [done|]. split; [done|]. intros v. unfold Vnode.none. lia. Qed.

Lemma dir_step s q : home s -> vfs_biglock_depth s < 2 ^ 31 - 1 -> dir_allowed s q ->
  exists r s', exec_dir q s = Ret (r, s') /\ settled s s' (given q r).
Proof.
  intros Hh Hd [Hr Hq]. assert (shallow s) as Hsh by (unfold shallow; lia). unfold given. destruct q; cbn [exec_dir hands_out].
  - destruct (path_lookup_run s path Hh Hsh (roomy_less _ 2 _ Hr ltac:(lia)) Hq) as (r0 & t0 & w0 & [rc v] & pb & t & w & _ & Hrun & Hl & _).
    rewrite (bind_run _ _ _ _ _ Hrun). eexists (rc, v), _. split; [reflexivity|]. by apply settled_looked.
  - destruct (lookparent_run s path buf Hh Hsh (roomy_less _ 2 _ Hr ltac:(lia)) Hq) as (r0 & t0 & w0 & [rc v] & pb & b2 & t & w & _ & Hrun & Hl & _).
    rewrite (bind_run _ _ _ _ _ Hrun). eexists (rc, v), _. split; [reflexivity|]. by apply settled_looked.
  - destruct Hq as [Hl Hn]. destruct (setcurdir_run s dir Hh (roomy_less _ 1 _ Hr ltac:(lia)) Hl Hn) as (rc & s' & Hrun & Hs & _).
    rewrite (bind_run _ _ _ _ _ Hrun). by eexists _, s'.
  - destruct (clearcurdir_run s Hh) as (s' & Hrun & Hs & _). rewrite (bind_run _ _ _ _ _ Hrun). by eexists _, s'.
  - destruct (chdir_run s path Hh Hsh (roomy_less _ 5 _ Hr ltac:(lia)) Hq) as (rc & s' & Hrun & Hs & _). rewrite (bind_run _ _ _ _ _ Hrun). by eexists _, s'.
  - destruct Hq as (Hl & Hb & Hs & Hn). pose proof (setbootfs_run s tmp fsname Hh Hd Hr Hs Hn Hl Hb) as Hrun. destruct (bool_decide _).
    + rewrite (bind_run _ _ _ _ _ Hrun). eexists _, s. split; [reflexivity|by apply settled_refl].
    + destruct Hrun as (rc & s' & Hrun & Hs' & _). rewrite (bind_run _ _ _ _ _ Hrun). by eexists _, s'.
  - destruct (clearbootfs_run s Hh Hsh) as (s' & Hrun & Hs & _). rewrite (bind_run _ _ _ _ _ Hrun). by eexists _, s'.
Qed.

(** From [s] to [s'] by operations that handed out the vnodes [hs]. *)
Inductive walk s : list Z -> vfs -> Prop :=
  | walk_nil : walk s [] s
  | walk_step hs s1 q r s2 : walk s hs s1 -> dir_allowed s1 q -> exec_dir q s1 = Ret (r, s2) ->
      walk s (if hands_out q && (fst r =? 0) then snd r :: hs else hs) s2.

Definition times v (hs : list Z) : Z := Z.of_nat (length (filter (fun h => h = v) hs)).

Lemma given_times q r hs v : times v (if hands_out q && (fst r =? 0) then snd r :: hs else hs) = times v hs + given q r v.
Proof.
  unfold given, one_if, times, Vnode.none, Vnode.one. destruct (hands_out q); cbn [andb]; [|lia]. destruct (fst r =? 0); [|lia].
  rewrite filter_cons. destruct (Z.eqb_spec v (snd r)) as [->|Hn]; [rewrite decide_True by done; cbn; lia|rewrite decide_False by congruence; lia].
Qed.

Lemma walk_settled s hs s' : home s -> vfs_biglock_depth s = 0 -> walk s hs s' -> settled s s' (fun v => times v hs).
Proof.
  intros Hh Hd. induction 1 as [|hs s1 q r s2 _ IH Ha Hrun].
  - apply settled_refl in Hh as (H1 & H2 & H3). split; [done|]. split; [done|]. intros v. change (times v []) with 0. lia.
  - pose proof IH as (Hh1 & (_ & _ & Hd1 & _) & _). destruct (dir_step s1 q Hh1 ltac:(lia) Ha) as (r' & s2' & Hrun' & Hs). rewrite Hrun in Hrun'. injection Hrun' as <- <-.
    apply (settled_trans s s1 s2 _ _ _ IH Hs). intros v. apply given_times.
Qed.

(** ** Theorems *)

(** C8 directory_references. Looking up paths, changing the current directory and
    choosing the boot file system, in any order: every operation returns, no
    assertion fails, the current directory and the boot directory always belong
    to a file system and are held, and each count is exactly the references
    that others held, those that the lookups handed out, and one for each of
    the two directories. *)
Theorem directory_references s hs s' :
  home s -> vfs_biglock_depth s = 0 -> walk s hs s' ->
  home s' /\ knowndevs s' = knowndevs s /\ vfs_biglock_depth s' = 0 /\
  (forall v, Vnode.refs (f_vst s') v = others s v + times v hs + here (p_cwd s') v + here (bootfs_vnode s') v) /\
  forall q, dir_allowed s' q -> exists r s2, exec_dir q s' = Ret (r, s2).
Proof.
  intros Hh Hd Hw. pose proof (walk_settled s hs s' Hh Hd Hw) as (Hh' & (Hk & _ & Hd' & _) & Ho). split; [done|]. split; [done|]. split; [lia|]. split.
  - intros v. specialize (Ho v). unfold others at 1, owned in Ho. lia.
  - intros q Ha. destruct (dir_step s' q Hh' ltac:(lia) Ha) as (r & s2 & Hrun & _). by exists r, s2.
Qed.

(** C18 getdevice_reference. The loops of [getdevice], which write a terminator into the path,
    agree with the meaning of a path: [dev:path] begins at the root of the
    device, [/path] at the boot directory, [:path] at the root of the current file
    system and anything else at the current directory, and what is left to look
    up is the rest without its leading slashes. *)
Theorem getdevice_reference s path :
  home s -> roomy 2 (f_vst s) -> is_string path ->
  exists r s' p, start (parse (cstr path)) s = Ret (r, s') /\ getdevice path s = Ret (p, s') /\ (result p, startvn p) = r /\
    (fst r = 0 -> cstr (drop (Z.to_nat (subpath p)) (pathbuf p)) = rest_of (parse (cstr path))).
Proof.
  intros Hh Hr Hp. destruct (getdevice_run s path Hh Hr Hp) as (r & t & w & p & Hst & Hdev & _ & Hpr & Hsub). exists r, (set_fs (t, w) s), p.
  split; [done|]. split; [done|]. split; [done|]. intros E. by apply Hsub.
Qed.

(** vfs_lookup_spec. A lookup that succeeds adds one reference, to the vnode it returns,
    and one that fails adds none; nothing else is left behind.  An error at the
    start of the path is the result, and a path with nothing after its start
    gives the start itself. *)
Theorem vfs_lookup_spec s path :
  home s -> shallow s -> roomy 2 (f_vst s) -> is_string path ->
  let f := parse (cstr path) in let s1 := set_depth (vfs_biglock_depth s + 1) s in
  exists r0 s2 r buf t w, start f s1 = Ret (r0, s2) /\ vfs_lookup path s = Ret ((r, buf), set_fs (t, w) s) /\
    Vnode.moved (one_if r) (f_vst s) t /\ (fst r0 <> 0 -> fst r = fst r0) /\ (fst r0 = 0 -> rest_of f = [] -> r = r0).
Proof.
  intros Hh Hsh Hr Hp f s1. destruct (path_lookup_run s path Hh Hsh Hr Hp) as (r0 & t0 & w0 & r & buf & t & w & H1 & H2 & (_ & H3 & _) & H4 & H5).
  by exists r0, (set_fs (t0, w0) s1), r, buf, t, w.
Qed.

(** vfs_setbootfs_spec. [vfs_setbootfs] refuses every name with a colon, also one that ends in
    it, and changes nothing; otherwise it looks up the name with a colon
    appended, and on success that directory is both the current and the boot
    directory; on failure both are as before. *)
Theorem vfs_setbootfs_spec s tmp fsname :
  home s -> vfs_biglock_depth s = 0 -> dir_allowed s (Setbootfs tmp fsname) ->
  if bool_decide (58 ∈ boot_name fsname) then vfs_setbootfs tmp fsname s = Ret (EINVAL, s)
  else exists rc s', vfs_setbootfs tmp fsname s = Ret (rc, s') /\
    if rc =? 0 then p_cwd s' <> 0 /\ bootfs_vnode s' = p_cwd s' /\
      exists r s2 p, vfs_lookup (boot_name fsname ++ [58] ++ 0 :: r) (set_depth 1 s) = Ret ((0, p_cwd s', p), s2)
    else p_cwd s' = p_cwd s /\ bootfs_vnode s' = bootfs_vnode s.
Proof.
  intros Hh Hd (Hr & Hl & Hb & Hs & Hn). pose proof (setbootfs_run s tmp fsname Hh ltac:(lia) Hr Hs Hn Hl Hb) as Hrun. destruct (bool_decide _); [exact Hrun|].
  destruct Hrun as (rc & s' & Hrun & _ & Hres). exists rc, s'. split; [exact Hrun|]. destruct (rc =? 0); [|exact Hres].
  destruct Hres as (H1 & H2 & r & s1 & s2 & p & Hlook & ->). rewrite Hd in Hlook. split; [done|]. split; [done|]. by exists r, s2, p.
Qed.

(** vfs_getcwd_spec. [vfs_getcwd] writes the name of the volume of the current
    directory, or of the device when it has none, then a colon, then what the
    file system writes as the path, and leaves every count as it was. *)
Theorem vfs_getcwd_spec s u n :
  home s -> shallow s -> roomy 2 (f_vst s) -> p_cwd s <> 0 -> Stream.uio_rw u = Copy.Uio.UIO_READ -> Stream.good u ->
  (forall x, v_tab (f_vst s) !! p_cwd s = Some x -> fs_name s (vn_fs x) = Some n) ->
  Z.of_nat (length (cstr n)) + 1 <= Stream.uio_resid u ->
  exists u1 t1 r t2 w2 t w, Stream.advanced (length (cstr n) + 1) (cstr n ++ [58]) u u1 /\
    vop_namefile (p_cwd s) u1 (t1, f_world s) = Ret (r, (t2, w2)) /\
    vfs_getcwd u s = Ret (r, set_fs (t, w) s) /\ forall v, Vnode.refs t v = Vnode.refs (f_vst s) v.
Proof.
  intros Hh Hsh Hr Hc Hrw Hg Hn Hres. destruct (getcwd_run s u n Hh Hsh Hr Hc Hrw Hg Hn Hres) as (u1 & t1 & r & t2 & w2 & t & w & H1 & H2 & _ & H3 & _ & _ & H4).
  exists u1, t1, r, t2, w2, t, w. split; [done|]. split; [done|]. split; [done|]. intros v. specialize (H4 v). unfold others in H4.
  change (owned (set_fs (t, w) s) v) with (owned s v) in H4. unfold Vnode.none in H4. cbn in H4. lia.
Qed.

End Home.

(** ** The sample file system, mounted *)
Module LookupSample.
Import Sample.

Definition mounted : vfs := run (Mount LHD0 (mount_as false)) disks.

Lemma mounted_reachable : reachable mounted.
Proof. apply reach_run; [exact disks_reachable|apply mount_disk_allowed|vm_compute; reflexivity]. Qed.

(** [home], for states without directories whose vnodes can be enumerated. *)
Definition devs_listed (s : vfs) : bool :=
  forallb (fun kd => is_dev (f_vst s) (kd_vnode kd)) (knowndevs s) &&
  bool_decide (map_Forall (fun v x => vn_fs x <> 0 \/ v ∈ kd_vnode <$> knowndevs s) (v_tab (f_vst s))) &&
  (p_cwd s =? 0) && (bootfs_vnode s =? 0) && (vfs_biglock_depth s =? 0).

Lemma devs_listed_home s : sound s -> devs_listed s = true -> home s.
Proof.
  intros Hs Hb. unfold devs_listed in Hb. apply andb_true_iff in Hb as [[[[H1 H2]%andb_true_iff H3]%andb_true_iff H4]%andb_true_iff H5].
  apply bool_decide_eq_true in H2. apply Z.eqb_eq in H3, H4, H5. split; [done|lia| | |done|done|].
  - intros kd Hin. apply (proj1 (forallb_forall _ _) H1). by apply list_elem_of_In.
  - intros v Hd. unfold is_dev in Hd. destruct (v_tab (f_vst s) !! v) as [x|] eqn:E; [|done]. apply Z.eqb_eq in Hd. destruct (H2 v x E) as [|Hin]; [done|].
    apply list_elem_of_fmap in Hin as (kd & -> & Hin). by exists kd.
  - intros v. unfold owned. rewrite H3, H4, !here_zero. pose proof (Vnode.refs_nonneg (f_vst s) v (proj1 (proj2 Hs))). lia.
Qed.

Lemma mounted_home : home mounted.
Proof. apply devs_listed_home; [apply reachable_stable, mounted_reachable|vm_compute; reflexivity]. Qed.

Definition VOL_COLON : list Z := [118; 111; 108; 58; 0].
Definition SLASHES : list Z := [47; 47; 0].

Definition dir_run (q : dir_op) (s : vfs) : vfs := match exec_dir q s with Ret (_, s') => s' | _ => s end.
Definition dir_result (q : dir_op) (s : vfs) : option (Z * Z) := value_of (exec_dir q s).

Lemma walk_run s0 hs s q r : walk s0 hs s -> dir_allowed s q -> dir_result q s = Some r ->
  walk s0 (if hands_out q && (fst r =? 0) then snd r :: hs else hs) (dir_run q s).
Proof.
  intros Hw Ha Hr. unfold dir_result, dir_run in *. destruct (exec_dir q s) as [[r' s']| | |] eqn:E; try done. injection Hr as ->. by apply (walk_step s0 hs s q r s').
Qed.

Definition can_grow8 (s : vfs) : bool := bool_decide (map_Forall (fun _ x => vn_refcount x < 2 ^ 31 - 8) (v_tab (f_vst s))).

Lemma can_grow8_roomy s : can_grow8 s = true -> roomy 8 (f_vst s).
Proof.
  intros Hb v. apply bool_decide_eq_true in Hb. unfold Vnode.refs. destruct (v_tab (f_vst s) !! v) as [x|] eqn:E; [|done]. by apply Hb in E.
Qed.

Definition after_chdir : vfs := dir_run (Chdir VOL_COLON) mounted.
Definition tmp_buf : list Z := replicate 256 170.
Definition after_boot : vfs := dir_run (Setbootfs tmp_buf LHD0) after_chdir.
Definition after_lookup : vfs := dir_run (Lookup SLASHES) after_boot.

Lemma vol_colon_string : is_string VOL_COLON.
Proof. apply ascii_string; vm_compute; reflexivity. Qed.

Lemma slashes_string : is_string SLASHES.
Proof. apply ascii_string; vm_compute; reflexivity. Qed.

Lemma lhd0_string : is_string LHD0.
Proof. apply ascii_string; vm_compute; reflexivity. Qed.

Lemma setbootfs_allowed s : can_grow8 s = true -> dir_allowed s (Setbootfs tmp_buf LHD0).
Proof.
  intros Hg. split; [by apply can_grow8_roomy|]. split; [done|]. split; [apply Forall_replicate; lia|]. split; [exact lhd0_string|done].
Qed.

Lemma sample_walk : walk mounted [ROOT] after_lookup.
Proof.
  apply (walk_run mounted [] after_boot (Lookup SLASHES) (0, ROOT)); [|split; [apply can_grow8_roomy; vm_compute; reflexivity|exact slashes_string]|vm_compute; reflexivity].
  apply (walk_run mounted [] after_chdir (Setbootfs tmp_buf LHD0) (0, 0)); [|apply setbootfs_allowed; vm_compute; reflexivity|vm_compute; reflexivity].
  apply (walk_run mounted [] mounted (Chdir VOL_COLON) (0, 0)); [apply walk_nil|split; [apply can_grow8_roomy; vm_compute; reflexivity|exact vol_colon_string]|vm_compute; reflexivity].
Qed.

Lemma mounted_depth : vfs_biglock_depth mounted = 0.
Proof. vm_compute. reflexivity. Qed.

Lemma sample_others : others mounted ROOT = 1 /\ p_cwd after_lookup = ROOT /\ bootfs_vnode after_lookup = ROOT.
Proof. split_and!; vm_compute; reflexivity. Qed.

Lemma directory_references_witness : Vnode.refs (f_vst after_lookup) ROOT = 4 /\ home after_lookup.
Proof.
  destruct (directory_references mounted [ROOT] after_lookup mounted_home mounted_depth sample_walk) as (Hh & _ & _ & Hr & _). split; [|exact Hh].
  rewrite (Hr ROOT). destruct sample_others as (E1 & E2 & E3). rewrite E1, E2, E3. reflexivity.
Defined.

Lemma mounted_roomy : roomy 8 (f_vst mounted).
Proof. apply can_grow8_roomy. vm_compute. reflexivity. Qed.

Lemma getdevice_reference_witness :
  exists r s' p, start (OnDevice [118; 111; 108] []) mounted = Ret (r, s') /\ getdevice VOL_COLON mounted = Ret (p, s') /\ (result p, startvn p) = r /\
    (fst r = 0 -> cstr (drop (Z.to_nat (subpath p)) (pathbuf p)) = []).
Proof. exact (getdevice_reference mounted VOL_COLON mounted_home (roomy_less 8 2 _ mounted_roomy ltac:(lia)) vol_colon_string). Defined.

Lemma mounted_shallow : shallow mounted.
Proof. unfold shallow. rewrite mounted_depth. lia. Qed.

Lemma lookup_result : dir_result (Lookup VOL_COLON) mounted = Some (0, ROOT).
Proof. vm_compute. reflexivity. Qed.

Lemma dir_result_lookup path s r buf s' x : vfs_lookup path s = Ret ((r, buf), s') -> dir_result (Lookup path) s = Some x -> r = x.
Proof. intros Hrun. unfold dir_result. cbn [exec_dir]. rewrite (bind_run _ _ _ _ _ Hrun). destruct r. by intros [= <-]. Qed.

Lemma vfs_lookup_spec_witness : exists buf t w, vfs_lookup VOL_COLON mounted = Ret ((0, ROOT, buf), set_fs (t, w) mounted) /\ Vnode.moved (Vnode.one ROOT) (f_vst mounted) t.
Proof.
  destruct (vfs_lookup_spec mounted VOL_COLON mounted_home mounted_shallow (roomy_less 8 2 _ mounted_roomy ltac:(lia)) vol_colon_string)
    as (r0 & s2 & r & buf & t & w & _ & Hrun & Hm & _).
  pose proof (dir_result_lookup _ _ _ _ _ _ Hrun lookup_result) as ->. exists buf, t, w. split; [exact Hrun|exact Hm].
Defined.

Lemma boot_name_lhd0 : bool_decide (58 ∈ boot_name LHD0) = false.
Proof. vm_compute. reflexivity. Qed.

Lemma mounted_allowed : dir_allowed mounted (Setbootfs tmp_buf LHD0).
Proof. apply setbootfs_allowed. vm_compute. reflexivity. Qed.

Lemma vfs_setbootfs_spec_witness :
  exists rc s', vfs_setbootfs tmp_buf LHD0 mounted = Ret (rc, s') /\ (rc = 0 -> bootfs_vnode s' = p_cwd s' /\ p_cwd s' <> 0).
Proof.
  pose proof (vfs_setbootfs_spec mounted tmp_buf LHD0 mounted_home mounted_depth mounted_allowed) as Hrun. rewrite boot_name_lhd0 in Hrun.
  destruct Hrun as (rc & s' & Hrun & Hres). exists rc, s'. split; [exact Hrun|]. intros ->. rewrite Z.eqb_refl in Hres. destruct Hres as (H1 & H2 & _). by split.
Defined.

(** *** The name of the current directory *)

Definition cwd_uio : Stream.uio := Stream.uio_kinit (replicate 16 0) 0 Copy.Uio.UIO_READ.

Lemma cwd_uio_good : Stream.good cwd_uio.
Proof. split_and!; [|by vm_compute..]. unfold cwd_uio, Stream.cells, Stream.uio_kinit. cbn [Stream.uio_iov concat]. rewrite app_nil_r. apply Forall_fmap, Forall_replicate. done. Qed.

Lemma chdir_home : home after_chdir.
Proof.
  apply (walk_settled mounted [] after_chdir mounted_home mounted_depth).
  apply (walk_run mounted [] mounted (Chdir VOL_COLON) (0, 0)); [apply walk_nil|split; [apply can_grow8_roomy; vm_compute; reflexivity|exact vol_colon_string]|vm_compute; reflexivity].
Qed.

Lemma chdir_facts : vfs_biglock_depth after_chdir = 0 /\ p_cwd after_chdir = ROOT /\ can_grow8 after_chdir = true /\ f_world after_chdir = false.
Proof. split_and!; vm_compute; reflexivity. Qed.

Lemma sample_namefile v u t w r t' w' : vop_namefile v u (t, w) = Ret (r, (t', w')) -> r = (0, u).
Proof. by intros [= <- _ _]. Qed.

Lemma vfs_getcwd_spec_witness :
  exists r t w, vfs_getcwd cwd_uio after_chdir = Ret (r, set_fs (t, w) after_chdir) /\ Stream.uio_out (snd r) = [118; 111; 108; 58].
Proof.
  destruct chdir_facts as (Hd & Hc & Hg & Hw).
  destruct (vfs_getcwd_spec after_chdir cwd_uio VOL chdir_home) as (u1 & t1 & r & t2 & w2 & t & w & Ha & Hn & Hrun & _).
  - unfold shallow. rewrite Hd. lia.
  - exact (roomy_less 8 2 _ (can_grow8_roomy _ Hg) ltac:(lia)).
  - rewrite Hc. done.
  - reflexivity.
  - exact cwd_uio_good.
  - intros x _. unfold fs_name. rewrite Hw. reflexivity.
  - cbn. lia.
  - exists r, t, w. split; [exact Hrun|]. rewrite (sample_namefile _ _ _ _ _ _ _ Hn). destruct Ha as (_ & _ & _ & _ & Ho). cbn [snd]. rewrite Ho. reflexivity.
Defined.

End LookupSample.

End VfsLookup.
