(* ===== verification/Sched.v ===== *)
(** * The scheduler: [thread.c] and [clock.c] on several CPUs

    [Module Sched] models [kern/thread/thread.c] and [kern/thread/clock.c]: the
    threads, the CPUs with their run queues and zombie lists, the wait channels,
    thread migration and interprocessor interrupts.

    Several CPUs run at the same time.  A step of the model is one critical section:
    what a CPU does between acquiring and releasing a run queue lock (or the lock of a
    wait channel) is one step, and the steps of different CPUs interleave in any order.
    [thread_consider_migration] takes the locks of all run queues one after the other,
    so it is many steps, and the field [c_doing] says where the CPU is in it; the same
    holds for [wchan_wakeall], which makes the threads it took off the channel runnable
    one by one.  A thread is its address; the queues are lists of threads (that the
    linked lists of [threadlist.c] are such lists is proved in [Threads.v]).

    [inv] is the invariant: each thread is in exactly one place, the fields of the
    thread agree with that place, and the thread whose stack a CPU uses belongs to that
    CPU, also while the CPU is idle.  [sched_reachable] shows that every interleaving
    keeps it and fails no assertion on threads and lists, [no_shared_stack] that two CPUs never use the same
    stack, [no_lost_wakeup] that a CPU that waits for an interrupt with threads in its
    queue has one pending, and [yield_round_robin] that every ready thread gets its
    turn.

    The stack guard words are fields of the thread ([t_guard]) that [thread_checkstack]
    compares; no step overwrites them, so a thread that overruns its stack is outside of
    the model.  [thread_exit] is two steps, since interrupts are on between
    [proc_remthread] and [splhigh].  [as_activate] only records for which process it was
    called; what it does to the TLB, where it can panic, is in [AddrSpace.v] and
    [Tlb.v].

    Not modelled here: the assembly that saves and restores registers, the names of
    threads and the interrupt levels (in [Sync.v]). *)

From stdpp Require Import base gmap list strings.
From S2P Require Import Prelude KState Coremap PageTable.

Module Sched.

(** ** Data *)

Inductive threadstate_t := S_RUN | S_READY | S_SLEEP | S_ZOMBIE.

#[export] Instance threadstate_eq_dec : EqDecision threadstate_t.
Proof. solve_decision. Defined.

(** [struct thread]; a CPU is its [c_number].  [t_guard] are the four words at the
    bottom of its stack, and [t_exiting] says that the thread is in [thread_exit]
    behind its call of [proc_remthread]. *)
Record thread := MkThread {
  t_wchan_name : option string;
  t_state : threadstate_t;
  t_stack : Z;
  t_cpu : option nat;
  t_proc : Z;
  t_iplhigh_count : Z;
  t_guard : list Z;
  t_exiting : bool }.

(** What a CPU is doing: running the code of its thread (or the idle loop), a part of
    [thread_consider_migration] with its local variables, the [thread_yield] at the end
    of [hardclock], or the second loop of [wchan_wakeall] with its private list. *)
Inductive activity :=
  | Thread
  | Count (numcpus i : nat) (my_count total_count : Z)
  | Collect (numcpus : nat) (i : Z) (to_send one_share : Z) (victims : list Z)
  | Send (numcpus i : nat) (to_send one_share : Z) (victims : list Z)
  | Yield
  | Wake (l : list Z).

(** [struct cpu]; [c_waiting] is set while the processor is stopped in [cpu_idle],
    [c_halted] after [cpu_halt]; [c_activated] is the process for which [as_activate]
    was called last. *)
Record cpu := MkCpu {
  c_curthread : Z;
  c_zombies : list Z;
  c_hardclocks : Z;
  c_isidle : bool;
  c_runqueue : list Z;
  c_ipi_pending : Z;
  c_shootdown : list Z;
  c_waiting : bool;
  c_halted : bool;
  c_doing : activity;
  c_activated : Z }.

(** [struct wchan] *)
Record wchan := MkWchan { wc_name : string; wc_threads : list Z }.

Record sched := MkSched {
  threads : gmap Z thread;
  allcpus : list cpu;
  wchans : gmap Z wchan;
  lbolt : Z;
  vm : kst }.

Definition with_state (x : threadstate_t) (t : thread) : thread :=
  MkThread (t_wchan_name t) x (t_stack t) (t_cpu t) (t_proc t) (t_iplhigh_count t) (t_guard t) (t_exiting t).
Definition with_wchan_name (x : option string) (t : thread) : thread :=
  MkThread x (t_state t) (t_stack t) (t_cpu t) (t_proc t) (t_iplhigh_count t) (t_guard t) (t_exiting t).
Definition with_stack (x : Z) (t : thread) : thread :=
  MkThread (t_wchan_name t) (t_state t) x (t_cpu t) (t_proc t) (t_iplhigh_count t) (t_guard t) (t_exiting t).
Definition with_cpu (x : option nat) (t : thread) : thread :=
  MkThread (t_wchan_name t) (t_state t) (t_stack t) x (t_proc t) (t_iplhigh_count t) (t_guard t) (t_exiting t).
Definition with_proc (x : Z) (t : thread) : thread :=
  MkThread (t_wchan_name t) (t_state t) (t_stack t) (t_cpu t) x (t_iplhigh_count t) (t_guard t) (t_exiting t).
Definition with_iplhigh (x : Z) (t : thread) : thread :=
  MkThread (t_wchan_name t) (t_state t) (t_stack t) (t_cpu t) (t_proc t) x (t_guard t) (t_exiting t).
Definition with_guard (x : list Z) (t : thread) : thread :=
  MkThread (t_wchan_name t) (t_state t) (t_stack t) (t_cpu t) (t_proc t) (t_iplhigh_count t) x (t_exiting t).
Definition with_exiting (x : bool) (t : thread) : thread :=
  MkThread (t_wchan_name t) (t_state t) (t_stack t) (t_cpu t) (t_proc t) (t_iplhigh_count t) (t_guard t) x.

Definition with_curthread (x : Z) (k : cpu) : cpu :=
  MkCpu x (c_zombies k) (c_hardclocks k) (c_isidle k) (c_runqueue k) (c_ipi_pending k) (c_shootdown k) (c_waiting k) (c_halted k) (c_doing k) (c_activated k).
Definition with_zombies (x : list Z) (k : cpu) : cpu :=
  MkCpu (c_curthread k) x (c_hardclocks k) (c_isidle k) (c_runqueue k) (c_ipi_pending k) (c_shootdown k) (c_waiting k) (c_halted k) (c_doing k) (c_activated k).
Definition with_hardclocks (x : Z) (k : cpu) : cpu :=
  MkCpu (c_curthread k) (c_zombies k) x (c_isidle k) (c_runqueue k) (c_ipi_pending k) (c_shootdown k) (c_waiting k) (c_halted k) (c_doing k) (c_activated k).
Definition with_isidle (x : bool) (k : cpu) : cpu :=
  MkCpu (c_curthread k) (c_zombies k) (c_hardclocks k) x (c_runqueue k) (c_ipi_pending k) (c_shootdown k) (c_waiting k) (c_halted k) (c_doing k) (c_activated k).
Definition with_runqueue (x : list Z) (k : cpu) : cpu :=
  MkCpu (c_curthread k) (c_zombies k) (c_hardclocks k) (c_isidle k) x (c_ipi_pending k) (c_shootdown k) (c_waiting k) (c_halted k) (c_doing k) (c_activated k).
Definition with_ipi (x : Z) (k : cpu) : cpu :=
  MkCpu (c_curthread k) (c_zombies k) (c_hardclocks k) (c_isidle k) (c_runqueue k) x (c_shootdown k) (c_waiting k) (c_halted k) (c_doing k) (c_activated k).
Definition with_shootdown (x : list Z) (k : cpu) : cpu :=
  MkCpu (c_curthread k) (c_zombies k) (c_hardclocks k) (c_isidle k) (c_runqueue k) (c_ipi_pending k) x (c_waiting k) (c_halted k) (c_doing k) (c_activated k).
Definition with_waiting (x : bool) (k : cpu) : cpu :=
  MkCpu (c_curthread k) (c_zombies k) (c_hardclocks k) (c_isidle k) (c_runqueue k) (c_ipi_pending k) (c_shootdown k) x (c_halted k) (c_doing k) (c_activated k).
Definition with_halted (x : bool) (k : cpu) : cpu :=
  MkCpu (c_curthread k) (c_zombies k) (c_hardclocks k) (c_isidle k) (c_runqueue k) (c_ipi_pending k) (c_shootdown k) (c_waiting k) x (c_doing k) (c_activated k).
Definition with_doing (x : activity) (k : cpu) : cpu :=
  MkCpu (c_curthread k) (c_zombies k) (c_hardclocks k) (c_isidle k) (c_runqueue k) (c_ipi_pending k) (c_shootdown k) (c_waiting k) (c_halted k) x (c_activated k).
Definition with_activated (x : Z) (k : cpu) : cpu :=
  MkCpu (c_curthread k) (c_zombies k) (c_hardclocks k) (c_isidle k) (c_runqueue k) (c_ipi_pending k) (c_shootdown k) (c_waiting k) (c_halted k) (c_doing k) x.

Definition set_threads (x : gmap Z thread) (s : sched) : sched := MkSched x (allcpus s) (wchans s) (lbolt s) (vm s).
Definition set_cpus (x : list cpu) (s : sched) : sched := MkSched (threads s) x (wchans s) (lbolt s) (vm s).
Definition set_wchans (x : gmap Z wchan) (s : sched) : sched := MkSched (threads s) (allcpus s) x (lbolt s) (vm s).
Definition set_lbolt (x : Z) (s : sched) : sched := MkSched (threads s) (allcpus s) (wchans s) x (vm s).
Definition set_vm (x : kst) (s : sched) : sched := MkSched (threads s) (allcpus s) (wchans s) (lbolt s) x.

Definition the_cpu (c : nat) : M sched cpu := s ← get; valid (allcpus s !! c) "cpu".
Definition the_thread (t : Z) : M sched thread := s ← get; valid (threads s !! t) "thread".
Definition the_wchan (w : Z) : M sched wchan := s ← get; valid (wchans s !! w) "wchan".
Definition on_cpu (c : nat) (f : cpu -> cpu) : M sched unit := modify (fun s => set_cpus (alter f c (allcpus s)) s).
Definition on_thread (t : Z) (f : thread -> thread) : M sched unit := modify (fun s => set_threads (alter f t (threads s)) s).
Definition on_wchan (w : Z) (f : list Z -> list Z) : M sched unit :=
  modify (fun s => set_wchans (alter (fun x => MkWchan (wc_name x) (f (wc_threads x))) w (wchans s)) s).

Definition addtail (t : Z) (k : cpu) : cpu := with_runqueue (c_runqueue k ++ [t]) k.

Definition IPI_PANIC : Z := 0.
Definition IPI_OFFLINE : Z := 1.
Definition IPI_UNIDLE : Z := 2.
Definition IPI_TLBSHOOTDOWN : Z := 3.
Definition TLBSHOOTDOWN_MAX : nat := 16.
Definition MIGRATE_HARDCLOCKS : Z := 16.
Definition SCHEDULE_HARDCLOCKS : Z := 4.

(** ** Interprocessor interrupts.  [mainbus_send_ipi] raises the interrupt line of the
    target, which is asserted as long as [c_ipi_pending] is not 0. *)

Definition ipi_send (target : nat) (code : Z) : M sched unit :=
  kassert ((0 <=? code) && (code <? 32)) "code >= 0 && code < 32";;
  k ← the_cpu target;
  on_cpu target (with_ipi (Z.lor (c_ipi_pending k) (2 ^ code))).

Fixpoint broadcast_from (n i c : nat) (code : Z) : M sched unit :=
  match n with
  | O => mret tt
  | S n' => (if Nat.eqb i c then mret tt else ipi_send i code);; broadcast_from n' (S i) c code
  end.

Definition ipi_broadcast (c : nat) (code : Z) : M sched unit := s ← get; broadcast_from (length (allcpus s)) 0 c code.

Definition ipi_tlbshootdown (target : nat) (mapping : Z) : M sched unit :=
  k ← the_cpu target;
  if Nat.eqb (length (c_shootdown k)) TLBSHOOTDOWN_MAX then panic "ipi_tlbshootdown: Too many shootdowns queued"
  else
    on_cpu target (fun k => with_shootdown (c_shootdown k ++ [mapping]) k);;
    on_cpu target (with_ipi (Z.lor (c_ipi_pending k) (2 ^ IPI_TLBSHOOTDOWN))).

(** [cpu_halt] does not return. *)
Definition interprocessor_interrupt (c : nat) : M sched unit :=
  k ← the_cpu c;
  let bits := c_ipi_pending k in
  if Z.testbit bits IPI_PANIC || Z.testbit bits IPI_OFFLINE then on_cpu c (with_halted true)
  else
    (if Z.testbit bits IPI_TLBSHOOTDOWN
     then for_each (c_shootdown k) (fun _ => panic "vm tried to do tlb shootdown?!");; on_cpu c (with_shootdown [])
     else mret tt);;
    on_cpu c (with_ipi 0).

Definition thread_shutdown (c : nat) : M sched unit := ipi_broadcast c IPI_OFFLINE.

Definition thread_panic (c : nat) : M sched unit := ipi_broadcast c IPI_PANIC;; on_cpu c (with_runqueue []).

(** ** Threads *)

Definition THREAD_STACK_MAGIC : Z := 0xbaadf00d.
Definition guard_band : list Z := replicate 4 THREAD_STACK_MAGIC.

Definition thread_checkstack_init (t : Z) : M sched unit := on_thread t (with_guard guard_band).

(** The four assertions, one for each word. *)
Definition thread_checkstack (t : Z) : M sched unit :=
  th ← the_thread t;
  if t_stack th =? 0 then mret tt
  else kassert (bool_decide (t_guard th = guard_band)) "((uint32_t*)thread->t_stack)[i] == THREAD_STACK_MAGIC".

(** [a] is the memory for the thread (0 for NULL), [ok] whether its name gets memory. *)
Definition thread_create (a : Z) (ok : bool) : M sched Z :=
  if (a =? 0) || negb ok then mret 0
  else
    modify (fun s => set_threads (<[a := MkThread (Some "NEW") S_READY 0 None 0 1 [] false]> (threads s)) s);;
    mret a.

Definition thread_destroy (c : nat) (t : Z) : M sched unit :=
  k ← the_cpu c;
  kassert (negb (t =? c_curthread k)) "thread != curthread";;
  th ← the_thread t;
  kassert (bool_decide (t_state th <> S_RUN)) "thread->t_state != S_RUN";;
  kassert (t_proc th =? 0) "thread->t_proc == NULL";;
  modify (fun s => set_threads (delete t (threads s)) s).

Fixpoint exorcise_from (zs : list Z) (c : nat) : M sched unit :=
  match zs with
  | [] => mret tt
  | z :: zs' =>
      on_cpu c (with_zombies zs');;
      k ← the_cpu c;
      kassert (negb (z =? c_curthread k)) "z != curthread";;
      th ← the_thread z;
      kassert (bool_decide (t_state th = S_ZOMBIE)) "z->t_state == S_ZOMBIE";;
      thread_destroy c z;;
      exorcise_from zs' c
  end.

Definition exorcise (c : nat) : M sched unit := k ← the_cpu c; exorcise_from (c_zombies k) c.

Definition thread_make_runnable (c : nat) (target : Z) : M sched unit :=
  th ← the_thread target;
  targetcpu ← valid (t_cpu th) "targetcpu";
  k ← the_cpu targetcpu;
  on_thread target (with_state S_READY);;
  on_cpu targetcpu (addtail target);;
  if c_isidle k && negb (Nat.eqb targetcpu c) then ipi_send targetcpu IPI_UNIDLE else mret tt.

(** The result, and the new thread in the state.  [a], [ok], [stack] are what the
    allocations return, [added] is the result of [proc_addthread]. *)
Definition thread_fork (c : nat) (a : Z) (ok : bool) (stack proc added : Z) : M sched Z :=
  newthread ← thread_create a ok;
  if newthread =? 0 then mret ENOMEM
  else
    on_thread newthread (with_stack stack);;
    if stack =? 0 then thread_destroy c newthread;; mret ENOMEM
    else
      thread_checkstack_init newthread;;
      k ← the_cpu c;
      cur ← the_thread (c_curthread k);
      on_thread newthread (with_cpu (t_cpu cur));;
      let proc := if proc =? 0 then t_proc cur else proc in
      if negb (added =? 0) then thread_destroy c newthread;; mret added
      else
        on_thread newthread (with_proc proc);;
        th ← the_thread newthread;
        on_thread newthread (with_iplhigh (t_iplhigh_count th + 1));;
        thread_make_runnable c newthread;;
        mret 0.

(** [as_activate] makes the address space of the current process the one that the
    processor sees; what it does to the TLB is in [AddrSpace.v] and [Tlb.v]. *)
Definition as_activate (c : nat) : M sched unit :=
  k ← the_cpu c;
  th ← the_thread (c_curthread k);
  on_cpu c (with_activated (t_proc th)).

(** The end of [thread_switch], in the context of the new thread, which is also the
    beginning of [thread_startup]. *)
Definition resume (c : nat) : M sched unit :=
  k ← the_cpu c;
  on_thread (c_curthread k) (fun th => with_state S_RUN (with_wchan_name None th));;
  as_activate c;;
  exorcise c.

(** One turn of the loop of [thread_switch]; without a thread the CPU waits in
    [cpu_idle], and the next turn comes after an interrupt. *)
Definition pick (c : nat) : M sched unit :=
  k ← the_cpu c;
  match c_runqueue k with
  | [] => on_cpu c (with_waiting true)
  | next :: q =>
      on_cpu c (fun k => with_curthread next (with_isidle false (with_runqueue q k)));;
      resume c
  end.

(** The switch on [newstate]. *)
Definition put_away (c : nat) (newstate : threadstate_t) (wc cur : Z) : M sched unit :=
  match newstate with
  | S_RUN => panic "Illegal S_RUN in thread_switch"
  | S_READY => thread_make_runnable c cur
  | S_SLEEP =>
      w ← the_wchan wc;
      on_thread cur (with_wchan_name (Some (wc_name w)));;
      on_wchan wc (fun l => l ++ [cur])
  | S_ZOMBIE =>
      on_thread cur (with_wchan_name (Some "ZOMBIE"));;
      on_cpu c (fun k => with_zombies (c_zombies k ++ [cur]) k)
  end.

Definition is_nil {A} (l : list A) : bool := match l with [] => true | _ => false end.

Definition thread_switch (c : nat) (newstate : threadstate_t) (wc : Z) : M sched unit :=
  k ← the_cpu c;
  if c_isidle k then mret tt
  else
    thread_checkstack (c_curthread k);;
    if bool_decide (newstate = S_READY) && is_nil (c_runqueue k) then mret tt
    else
      put_away c newstate wc (c_curthread k);;
      on_thread (c_curthread k) (with_state newstate);;
      on_cpu c (with_isidle true);;
      pick c.

(** [proc_remthread] checks and clears [t_proc] (the process side is in [Proc.v]). *)
Definition proc_remthread (t : Z) : M sched unit :=
  th ← the_thread t;
  kassert (negb (t_proc th =? 0)) "proc != NULL";;
  on_thread t (with_proc 0).

(** Up to [splhigh].  Interrupts are on until then, so that other steps of the CPU can
    come in between, a preemption and a migration of the thread among them;
    [thread_exit_end] is the rest. *)
Definition thread_exit (c : nat) : M sched unit :=
  k ← the_cpu c;
  proc_remthread (c_curthread k);;
  th ← the_thread (c_curthread k);
  kassert (t_proc th =? 0) "cur->t_proc == NULL";;
  thread_checkstack (c_curthread k);;
  on_thread (c_curthread k) (with_exiting true).

Definition thread_exit_end (c : nat) : M sched unit := thread_switch c S_ZOMBIE 0.

Definition thread_yield (c : nat) : M sched unit := thread_switch c S_READY 0.

Definition schedule (c : nat) : M sched unit := mret tt.

(** ** CPUs *)

Definition new_cpu (cur : Z) : cpu := MkCpu cur [] 0 false [] 0 [] false false Thread 0.

(** [a], [ok], [stack]: the memory for the first thread, its name and its stack; [added]
    is the result of [proc_addthread]. *)
Definition cpu_create (a : Z) (ok : bool) (stack kproc added : Z) : M sched nat :=
  s ← get;
  let c := length (allcpus s) in
  newthread ← thread_create a ok;
  if newthread =? 0 then panic "cpu_create: thread_create failed"
  else
    modify (fun s => set_cpus (allcpus s ++ [new_cpu newthread]) s);;
    on_thread newthread (with_cpu (Some c));;
    (if Nat.eqb c 0 then mret tt
     else if stack =? 0 then panic "cpu_create: couldn't allocate stack"
     else on_thread newthread (with_stack stack);; thread_checkstack_init newthread);;
    if negb (added =? 0) then panic "cpu_create: proc_addthread"
    else on_thread newthread (with_proc kproc);; mret c.

Definition thread_bootstrap (a : Z) (ok : bool) (kproc added : Z) : M sched unit :=
  modify (set_cpus []);;
  c ← cpu_create a ok 0 kproc added;
  k ← the_cpu c;
  th ← the_thread (c_curthread k);
  kassert (negb (t_proc th =? 0)) "curthread->t_proc != NULL";;
  kassert (t_proc th =? kproc) "curthread->t_proc == kproc".

(** ** Wait channels *)

Definition wchan_create (a : Z) (name : string) : M sched Z :=
  if a =? 0 then mret 0
  else modify (fun s => set_wchans (<[a := MkWchan name []]> (wchans s)) s);; mret a.

Definition wchan_destroy (w : Z) : M sched unit :=
  x ← the_wchan w;
  kassert (is_nil (wc_threads x)) "threadlist_isempty(tl)";;
  modify (fun s => set_wchans (delete w (wchans s)) s).

(** The context of a caller: whether it is an interrupt handler, whether it holds the
    spinlock of the channel, and how many spinlocks its CPU holds. *)
Record context := Context { t_in_interrupt : bool; holds_lk : bool; c_spinlocks : Z }.

Definition wchan_sleep (x : context) (c : nat) (w : Z) : M sched unit :=
  kassert (negb (t_in_interrupt x)) "!curthread->t_in_interrupt";;
  kassert (holds_lk x) "spinlock_do_i_hold(lk)";;
  kassert (c_spinlocks x =? 1) "curcpu->c_spinlocks == 1";;
  thread_switch c S_SLEEP w.

Definition wchan_wakeone (x : context) (c : nat) (w : Z) : M sched unit :=
  kassert (holds_lk x) "spinlock_do_i_hold(lk)";;
  wc ← the_wchan w;
  match wc_threads wc with
  | [] => mret tt
  | target :: rest => on_wchan w (fun _ => rest);; thread_make_runnable c target
  end.

(** The first loop; [wakeall_next] is one turn of the second one. *)
Definition wchan_wakeall (x : context) (c : nat) (w : Z) : M sched unit :=
  kassert (holds_lk x) "spinlock_do_i_hold(lk)";;
  wc ← the_wchan w;
  on_wchan w (fun _ => []);;
  on_cpu c (with_doing (Wake (wc_threads wc))).

Definition wakeall_next (c : nat) : M sched unit :=
  k ← the_cpu c;
  match c_doing k with
  | Wake [] => on_cpu c (with_doing Thread)
  | Wake (target :: l) => on_cpu c (with_doing (Wake l));; thread_make_runnable c target
  | _ => undef "not in wchan_wakeall"
  end.

Definition wchan_isempty (x : context) (w : Z) : M sched bool :=
  kassert (holds_lk x) "spinlock_do_i_hold(lk)";;
  wc ← the_wchan w;
  mret (is_nil (wc_threads wc)).

(** ** Migration *)

Definition DIVROUNDUP (a b : Z) : Z := u32 (a + b - 1) / b.

Definition tl_count (k : cpu) : Z := u32 (Z.of_nat (length (c_runqueue k))).

(** [for (i=0; i<to_send; i++)]: from the tail of the run queue to the head of the list. *)
Fixpoint collect_loop (fuel c : nat) : M sched unit :=
  k ← the_cpu c;
  match c_doing k with
  | Collect numcpus i to_send one_share victims =>
      if i <? to_send then
        match fuel with
        | O => undef "out of fuel"
        | S fuel' =>
            t ← valid (last (c_runqueue k)) "t";
            on_cpu c (fun k => with_doing (Collect numcpus (i + 1) to_send one_share (t :: victims))
                                          (with_runqueue (removelast (c_runqueue k)) k));;
            collect_loop fuel' c
        end
      else on_cpu c (with_doing (Send numcpus 0 to_send one_share victims))
  | _ => undef "not in thread_consider_migration"
  end.

(** The inner loop for CPU [i]; [CPU c] is the one that sends.  Each turn decrements
    [to_send]. *)
Fixpoint send_loop (fuel c i : nat) : M sched unit :=
  k ← the_cpu i;
  me ← the_cpu c;
  match c_doing me with
  | Send numcpus j to_send one_share victims =>
      if (tl_count k <? one_share) && (0 <? to_send) then
        match fuel, victims with
        | O, _ => undef "out of fuel"
        | _, [] => undef "t"
        | S fuel', t :: vs =>
            (if t =? c_curthread me
             then on_cpu c (with_doing (Send numcpus j (to_send - 1) one_share (vs ++ [t])))
             else
               on_cpu c (with_doing (Send numcpus j (to_send - 1) one_share vs));;
               on_thread t (with_cpu (Some i));;
               on_cpu i (addtail t);;
               if c_isidle k then ipi_send i IPI_UNIDLE else mret tt);;
            send_loop fuel' c i
        end
      else on_cpu c (with_doing (Send numcpus (S j) to_send one_share victims))
  | _ => undef "not in thread_consider_migration"
  end.

(** The next critical section of [thread_consider_migration] on CPU [c].  Each turn of
    the inner loops counts up to [to_send] or down from it, which bounds their fuel. *)
Definition migrate (c : nat) : M sched unit :=
  k ← the_cpu c;
  match c_doing k with
  | Count numcpus i my_count total_count =>
      if Nat.ltb i numcpus then
        ci ← the_cpu i;
        on_cpu c (with_doing (Count numcpus (S i) (if Nat.eqb i c then tl_count ci else my_count)
                                    (u32 (total_count + tl_count ci))))
      else
        let one_share := DIVROUNDUP total_count (Z.of_nat numcpus) in
        on_cpu c (with_doing (if my_count <? one_share then Yield
                              else Collect numcpus 0 (u32 (my_count - one_share)) one_share []))
  | Collect _ _ to_send _ _ => collect_loop (Z.to_nat to_send) c
  | Send numcpus i to_send one_share victims =>
      if Nat.ltb i numcpus && (0 <? to_send) then
        if Nat.eqb i c then on_cpu c (with_doing (Send numcpus (S i) to_send one_share victims))
        else send_loop (Z.to_nat to_send) c i
      else
        on_cpu c (fun k => with_doing Yield (with_runqueue (c_runqueue k ++ victims) k))
  | _ => undef "not in thread_consider_migration"
  end.

Definition thread_consider_migration (c : nat) : M sched unit :=
  s ← get;
  on_cpu c (with_doing (Count (length (allcpus s)) 0 0 0)).

(** ** The clock *)

(** Up to the critical sections of [thread_consider_migration]; [hardclock_end] is the
    rest. *)
Definition hardclock (c : nat) : M sched unit :=
  zoom vm set_vm Pt.lru_update_cnt;;
  on_cpu c (fun k => with_hardclocks (u32 (c_hardclocks k + 1)) k);;
  k ← the_cpu c;
  if c_hardclocks k mod MIGRATE_HARDCLOCKS =? 0 then thread_consider_migration c
  else on_cpu c (with_doing Yield).

Definition hardclock_end (c : nat) : M sched unit :=
  k ← the_cpu c;
  on_cpu c (with_doing Thread);;
  (if c_hardclocks k mod SCHEDULE_HARDCLOCKS =? 0 then schedule c else mret tt);;
  thread_yield c.

Definition hardclock_bootstrap (a : Z) : M sched unit :=
  w ← wchan_create a "lbolt";
  modify (set_lbolt w);;
  if w =? 0 then panic "Couldn't create lbolt" else mret tt.

(** The handler takes the lock of the channel itself. *)
Definition timerclock (c : nat) : M sched unit :=
  s ← get;
  wchan_wakeall (Context true true 1) c (lbolt s).

(** ** The machine *)

(** An interrupt on CPU [c] ends its wait in [cpu_idle]. *)
Definition interrupt (c : nat) : M sched unit := on_cpu c (with_waiting false).

Inductive event :=
  | EYield (c : nat)
  | EExit (c : nat)
  | EExitEnd (c : nat)
  | EFork (c : nat) (a : Z) (ok : bool) (stack proc added : Z)
  | ESleep (x : context) (c : nat) (w : Z)
  | EWakeone (x : context) (c : nat) (w : Z)
  | EWakeall (x : context) (c : nat) (w : Z)
  | EWakenext (c : nat)
  | EPick (c : nat)
  | EHardclock (c : nat)
  | EMigrate (c : nat)
  | EHardclockEnd (c : nat)
  | ETimer (c : nat)
  | EIpi (c : nat)
  | EShutdown (c : nat)
  | ECpu (c : nat) (a : Z) (ok : bool) (stack kproc added : Z)
  | EChannel (c : nat) (a : Z) (name : string)
  | EUnchannel (c : nat) (w : Z).

Definition actor (e : event) : nat :=
  match e with
  | EYield c | EExit c | EExitEnd c | EFork c _ _ _ _ _ | ESleep _ c _ | EWakeone _ c _ | EWakeall _ c _ | EWakenext c | EPick c
  | EHardclock c | EMigrate c | EHardclockEnd c | ETimer c | EIpi c | EShutdown c | ECpu c _ _ _ _ _
  | EChannel c _ _ | EUnchannel c _ => c
  end.

Definition ignore {A} (m : M sched A) : M sched unit := m;; mret tt.

Definition exec (e : event) : M sched unit :=
  match e with
  | EYield c => thread_yield c
  | EExit c => thread_exit c
  | EExitEnd c => thread_exit_end c
  | EFork c a ok stack proc added => ignore (thread_fork c a ok stack proc added)
  | ESleep x c w => wchan_sleep x c w
  | EWakeone x c w => interrupt c;; wchan_wakeone x c w
  | EWakeall x c w => interrupt c;; wchan_wakeall x c w
  | EWakenext c => wakeall_next c
  | EPick c => pick c
  | EHardclock c => interrupt c;; hardclock c
  | EMigrate c => migrate c
  | EHardclockEnd c => hardclock_end c
  | ETimer c => interrupt c;; timerclock c
  | EIpi c => interrupt c;; interprocessor_interrupt c
  | EShutdown c => thread_shutdown c
  | ECpu c a ok stack kproc added => ignore (cpu_create a ok stack kproc added)
  | EChannel c a name => ignore (wchan_create a name)
  | EUnchannel c w => wchan_destroy w
  end.

Definition free (a : Z) (s : sched) : Prop := a <> 0 -> threads s !! a = None.

(** The CPU runs the code of its thread, which is not in the last part of
    [thread_exit] (or is there). *)
Definition in_thread (s : sched) (k : cpu) (exiting : bool) : Prop :=
  c_isidle k = false /\ exists th, threads s !! c_curthread k = Some th /\ t_exiting th = exiting.

(** The callers of [wchan_sleep] that its assertions accept. *)
Definition may_sleep (x : context) : Prop := t_in_interrupt x = false /\ holds_lk x = true /\ c_spinlocks x = 1.

(** When an event can happen: the idle loop runs no thread code, it only takes
    interrupts, and a CPU finishes what it is doing with interrupts off.  The callers of
    the routines of the wait channels hold the lock of the channel; those that sleep
    hold no other spinlock and are not interrupt handlers. *)
Definition allowed (s : sched) (e : event) : Prop :=
  exists k, allcpus s !! actor e = Some k /\ c_halted k = false /\
  match e with
  | EWakenext _ => exists l, c_doing k = Wake l
  | EMigrate _ => match c_doing k with Count _ _ _ _ | Collect _ _ _ _ _ | Send _ _ _ _ _ => True | _ => False end
  | EHardclockEnd _ => c_doing k = Yield
  | _ => c_doing k = Thread
  end /\
  match e with
  | EExit _ => in_thread s k false
  | EExitEnd _ => in_thread s k true
  | EYield _ | EShutdown _ => c_isidle k = false
  | EFork _ a _ _ _ _ => in_thread s k false /\ free a s
  | ESleep x _ w => in_thread s k false /\ may_sleep x /\ is_Some (wchans s !! w)
  | EWakeone x _ w | EWakeall x _ w => holds_lk x = true /\ is_Some (wchans s !! w)
  | EPick _ => c_isidle k = true /\ c_waiting k = false
  | EHardclock _ => exists x, Pt.lru_update_cnt (vm s) = Ret (tt, x)
  | ETimer _ => is_Some (wchans s !! lbolt s)
  | ECpu _ a ok stack kproc added => c_isidle k = false /\ a <> 0 /\ ok = true /\ free a s /\ stack <> 0 /\ kproc <> 0 /\ added = 0
  | EChannel _ a _ => c_isidle k = false /\ wchans s !! a = None
  | EUnchannel _ w => c_isidle k = false /\ exists x, wchans s !! w = Some x /\ wc_threads x = []
  | _ => True
  end.

(** A machine that has booted: one CPU with its first thread, and the channel of the
    clock. *)
Definition booted (s : sched) : Prop :=
  exists v a w kproc s1,
    a <> 0 /\ kproc <> 0 /\
    thread_bootstrap a true kproc 0 (MkSched ∅ [] ∅ 0 v) = Ret (tt, s1) /\ hardclock_bootstrap w s1 = Ret (tt, s).

Inductive reachable : sched -> Prop :=
  | reach_boot s : booted s -> reachable s
  | reach_step s e s' : reachable s -> allowed s e -> exec e s = Ret (tt, s') -> reachable s'.

(** ** Running operations *)

Lemma wp_cpu c s k (Q : cpu -> sched -> Prop) : allcpus s !! c = Some k -> Q k s -> wp (the_cpu c) s Q.
Proof. intros. apply wp_bind, wp_get. by eapply wp_valid. Qed.

Lemma wp_thread t s th (Q : thread -> sched -> Prop) : threads s !! t = Some th -> Q th s -> wp (the_thread t) s Q.
Proof. intros. apply wp_bind, wp_get. by eapply wp_valid. Qed.

Lemma wp_wchan w s x (Q : wchan -> sched -> Prop) : wchans s !! w = Some x -> Q x s -> wp (the_wchan w) s Q.
Proof. intros. apply wp_bind, wp_get. by eapply wp_valid. Qed.

(** The state after an update of one CPU, thread or channel. *)
Definition put_cpu (c : nat) (k : cpu) (s : sched) : sched := set_cpus (<[c := k]> (allcpus s)) s.
Definition put_thread (t : Z) (th : thread) (s : sched) : sched := set_threads (<[t := th]> (threads s)) s.
Definition put_wchan (w : Z) (x : wchan) (s : sched) : sched := set_wchans (<[w := x]> (wchans s)) s.

Lemma alter_put {A} (f : A -> A) (l : list A) i x : l !! i = Some x -> alter f i l = <[i := f x]> l.
Proof.
  intros Hi. apply list_eq. intros j. destruct (decide (i = j)) as [<-|Hne].
  - rewrite list_lookup_alter_eq, Hi, list_lookup_insert_eq; [done|]. by eapply lookup_lt_Some.
  - by rewrite list_lookup_alter_ne, list_lookup_insert_ne.
Qed.

Lemma alter_put_map {A} (f : A -> A) (m : gmap Z A) i x : m !! i = Some x -> alter f i m = <[i := f x]> m.
Proof.
  intros Hi. apply map_eq. intros j. destruct (decide (i = j)) as [<-|Hne].
  - by rewrite lookup_alter_eq, Hi, lookup_insert_eq.
  - by rewrite lookup_alter_ne, lookup_insert_ne.
Qed.

Lemma wp_on_cpu c f s k (Q : unit -> sched -> Prop) : allcpus s !! c = Some k -> Q tt (put_cpu c (f k) s) -> wp (on_cpu c f) s Q.
Proof. intros Hk HQ. apply wp_modify. by rewrite (alter_put _ _ _ _ Hk). Qed.

Lemma wp_on_thread t f s th (Q : unit -> sched -> Prop) :
  threads s !! t = Some th -> Q tt (put_thread t (f th) s) -> wp (on_thread t f) s Q.
Proof. intros Ht HQ. apply wp_modify. by rewrite (alter_put_map _ _ _ _ Ht). Qed.

Lemma wp_on_wchan w f s x (Q : unit -> sched -> Prop) :
  wchans s !! w = Some x -> Q tt (put_wchan w (MkWchan (wc_name x) (f (wc_threads x))) s) -> wp (on_wchan w f) s Q.
Proof. intros Hw HQ. apply wp_modify. by rewrite (alter_put_map _ _ _ _ Hw). Qed.

(** One step of the program: the rule of its first command. *)
Ltac step :=
  lazymatch goal with
  | |- wp (mbind _ _) _ _ => apply wp_bind; step
  | |- wp (on_cpu _ _) _ _ => eapply wp_on_cpu
  | |- wp (on_thread _ _) _ _ => eapply wp_on_thread
  | |- wp (on_wchan _ _) _ _ => eapply wp_on_wchan
  | |- wp (the_cpu _) _ _ => eapply wp_cpu
  | |- wp (the_thread _) _ _ => eapply wp_thread
  | |- wp (the_wchan _) _ _ => eapply wp_wchan
  | |- _ => wp_step
  end; cbv beta.

(** ** Places *)

(** Where a thread can be: running on a CPU, in a run queue, on its way to another CPU,
    taken off a channel by [wchan_wakeall], dead, or asleep on a channel. *)
Inductive place := Run (c : nat) | Queue (c : nat) | Victim (c : nat) | Woken (c : nat) | Zombie (c : nat) | Chan (w : Z).

#[export] Instance place_eq_dec : EqDecision place.
Proof. solve_decision. Defined.

Definition running (k : cpu) : list Z := if c_isidle k then [] else [c_curthread k].
Definition victims (a : activity) : list Z := match a with Collect _ _ _ _ vs | Send _ _ _ _ vs => vs | _ => [] end.
Definition woken (a : activity) : list Z := match a with Wake l => l | _ => [] end.

Definition of_cpu (s : sched) (c : nat) (f : cpu -> list Z) : list Z := from_option f [] (allcpus s !! c).

Definition members (s : sched) (p : place) : list Z :=
  match p with
  | Run c => of_cpu s c running
  | Queue c => of_cpu s c c_runqueue
  | Victim c => of_cpu s c (fun k => victims (c_doing k))
  | Woken c => of_cpu s c (fun k => woken (c_doing k))
  | Zombie c => of_cpu s c c_zombies
  | Chan w => from_option wc_threads [] (wchans s !! w)
  end.

(** No thread is twice in a place or in two places. *)
Definition placed (m : place -> list Z) : Prop :=
  (forall p, NoDup (m p)) /\ forall p q t, t ∈ m p -> t ∈ m q -> p = q.

(** A thread that is not dead: its stack, if it has one of its own, has its guard band,
    and it belongs to a process until it has left it in [thread_exit]. *)
Definition attached (th : thread) : Prop :=
  (t_stack th = 0 \/ t_guard th = guard_band) /\ (if t_exiting th then t_proc th = 0 else t_proc th <> 0).

(** The fields of a thread in a place.  The first thread of a CPU is marked ready until
    it has been switched to once. *)
Definition fits (th : thread) (p : place) : Prop :=
  match p with
  | Run c => (t_state th = S_RUN \/ t_state th = S_READY) /\ t_cpu th = Some c /\ attached th
  | Queue c | Victim c => t_state th = S_READY /\ t_cpu th = Some c /\ attached th
  | Woken _ | Chan _ => t_state th = S_SLEEP /\ attached th
  | Zombie c => t_state th = S_ZOMBIE /\ t_cpu th = Some c /\ t_proc th = 0
  end.

Definition on_some_cpu (s : sched) (th : thread) : Prop := exists c, t_cpu th = Some c /\ (c < length (allcpus s))%nat.

(** Where a CPU is in [thread_consider_migration]. *)
Definition doing_ok (n : nat) (k : cpu) : Prop :=
  match c_doing k with
  | Count numcpus i my _ => (numcpus <= n)%nat /\ 0 <= my <= Z.of_nat (length (c_runqueue k))
  | Collect numcpus i to_send _ vs =>
      (numcpus <= n)%nat /\ 0 <= i <= to_send /\ i = Z.of_nat (length vs) /\ to_send - i <= Z.of_nat (length (c_runqueue k))
  | Send numcpus _ to_send _ vs => (numcpus <= n)%nat /\ 0 <= to_send <= Z.of_nat (length vs)
  | _ => True
  end.

(** A CPU that waits has nothing to run, or an interrupt is pending. *)
Definition wakes (k : cpu) : Prop :=
  c_waiting k = true -> c_isidle k = true /\ c_doing k = Thread /\ (c_runqueue k = [] \/ Z.testbit (c_ipi_pending k) IPI_UNIDLE = true).

Definition owns (s : sched) (c : nat) (k : cpu) : Prop :=
  exists th, threads s !! c_curthread k = Some th /\ t_cpu th = Some c.

Record cpu_ok (s : sched) (c : nat) (k : cpu) : Prop := {
  ok_cur : owns s c k;
  ok_doing : doing_ok (length (allcpus s)) k;
  ok_wakes : wakes k;
  ok_shootdown : c_shootdown k = [] }.

Record inv (s : sched) : Prop := {
  inv_placed : placed (members s);
  inv_fits : forall p t, t ∈ members s p -> exists th, threads s !! t = Some th /\ fits th p /\ on_some_cpu s th;
  inv_known : forall t, is_Some (threads s !! t) -> exists p, t ∈ members s p;
  inv_cpus : forall c k, allcpus s !! c = Some k -> cpu_ok s c k }.

(** ** Lookups *)

Section Lookups.
Implicit Types (s : sched) (k : cpu) (c : nat) (t w : Z).

Lemma cpu_here c k s : (c < length (allcpus s))%nat -> allcpus (put_cpu c k s) !! c = Some k.
Proof. intros. by apply list_lookup_insert_eq. Qed.

Lemma cpu_known c k s : allcpus s !! c = Some k -> (c < length (allcpus s))%nat.
Proof. apply lookup_lt_Some. Qed.

Lemma cpu_put c k s k0 c' :
  allcpus s !! c = Some k0 -> allcpus (put_cpu c k s) !! c' = if decide (c = c') then Some k else allcpus s !! c'.
Proof.
  intros H%cpu_known. case_decide as Hc; [subst c'; by apply cpu_here|]. by apply list_lookup_insert_ne.
Qed.

Lemma cpu_put_same c k s k0 : allcpus s !! c = Some k0 -> allcpus (put_cpu c k s) !! c = Some k.
Proof. intros H%cpu_known. by apply cpu_here. Qed.

Lemma thread_put t th s t' : threads (put_thread t th s) !! t' = if decide (t = t') then Some th else threads s !! t'.
Proof. apply lookup_insert. Qed.

Lemma thread_put_same t th s : threads (put_thread t th s) !! t = Some th.
Proof. apply lookup_insert_eq. Qed.

Lemma put_cpu_twice c k k' s : put_cpu c k (put_cpu c k' s) = put_cpu c k s.
Proof. unfold put_cpu, set_cpus. simpl. by rewrite list_insert_insert_eq. Qed.

Lemma put_thread_twice t th th' s : put_thread t th (put_thread t th' s) = put_thread t th s.
Proof. unfold put_thread, set_threads. simpl. by rewrite insert_insert_eq. Qed.

Lemma put_swap c k t th s : put_cpu c k (put_thread t th s) = put_thread t th (put_cpu c k s).
Proof. done. Qed.

Lemma length_put_cpu c k s : length (allcpus (put_cpu c k s)) = length (allcpus s).
Proof. apply length_insert. Qed.

(** The CPU of a place and what it has there. *)
Definition at_cpu (p : place) : option nat :=
  match p with Run c | Queue c | Victim c | Woken c | Zombie c => Some c | Chan _ => None end.

Definition view (k : cpu) (p : place) : list Z :=
  match p with
  | Run _ => running k
  | Queue _ => c_runqueue k
  | Victim _ => victims (c_doing k)
  | Woken _ => woken (c_doing k)
  | Zombie _ => c_zombies k
  | Chan _ => []
  end.

Lemma members_put_cpu c k s k0 p :
  allcpus s !! c = Some k0 -> members (put_cpu c k s) p = if decide (at_cpu p = Some c) then view k p else members s p.
Proof.
  intros Hk. destruct p as [d|d|d|d|d|w]; simpl; unfold of_cpu; try rewrite (cpu_put _ _ _ _ _ Hk);
    repeat case_decide; simplify_eq; done.
Qed.

Lemma members_view s p c k : at_cpu p = Some c -> allcpus s !! c = Some k -> members s p = view k p.
Proof. intros Hp Hk. destruct p; simplify_eq/=; unfold of_cpu; by rewrite Hk. Qed.

Lemma members_put_wchan w x s p : members (put_wchan w x s) p = if decide (p = Chan w) then wc_threads x else members s p.
Proof.
  destruct p as [d|d|d|d|d|w']; unfold put_wchan; simpl; try rewrite lookup_insert; repeat case_decide; simplify_eq; done.
Qed.

Lemma members_chan s w x : wchans s !! w = Some x -> members s (Chan w) = wc_threads x.
Proof. simpl. by intros ->. Qed.

Lemma members_known s p t : t ∈ members s p -> forall c, at_cpu p = Some c -> exists k, allcpus s !! c = Some k /\ t ∈ view k p.
Proof.
  intros Ht c Hc. destruct p; simplify_eq/=; unfold of_cpu in Ht;
    destruct (allcpus s !! c) as [k|]; simpl in Ht; try (by apply elem_of_nil in Ht); by exists k.
Qed.

End Lookups.

(** ** Moving threads *)

Lemma placed_move m m' p q l :
  placed m -> p <> q -> m p ≡ₚ l ++ m' p -> m' q ≡ₚ l ++ m q -> (forall r, r <> p -> r <> q -> m' r = m r) -> placed m'.
Proof.
  intros [Hnd Hone] Hpq Hp Hq Hr.
  assert (Hold : forall r t, t ∈ m' r -> t ∈ m r \/ (r = q /\ t ∈ l)).
  { intros r t. destruct (decide (r = q)) as [->|]; [rewrite Hq; set_solver|].
    destruct (decide (r = p)) as [->|]; [rewrite Hp; set_solver|]. rewrite (Hr r); auto. }
  assert (Hndp := Hnd p). rewrite Hp in Hndp. apply NoDup_app in Hndp as (Hl & Hlp & Hndp).
  assert (Hin : forall t, t ∈ l -> t ∈ m p) by (intros t; rewrite Hp; set_solver).
  split.
  - intros r. destruct (decide (r = q)) as [->|].
    + rewrite Hq. apply NoDup_app. split; [done|]. split; [|apply Hnd].
      intros t Ht Htq. apply Hpq. eauto.
    + destruct (decide (r = p)) as [->|]; [done|]. rewrite (Hr r); auto.
  - intros r r' t Ht Ht'.
    destruct (Hold _ _ Ht) as [H1|[-> H1]], (Hold _ _ Ht') as [H2|[-> H2]]; eauto.
    + destruct (decide (r = p)) as [->|]; [by destruct (Hlp t H2)|].
      exfalso. eauto.
    + destruct (decide (r' = p)) as [->|]; [by destruct (Hlp t H1)|].
      exfalso. eauto.
Qed.

Lemma sched_move s s' p q l :
  inv s -> p <> q -> members s p ≡ₚ l ++ members s' p -> members s' q ≡ₚ l ++ members s q ->
  (forall r, r <> p -> r <> q -> members s' r = members s r) ->
  length (allcpus s') = length (allcpus s) ->
  (forall t, t ∉ l -> threads s' !! t = threads s !! t) ->
  (forall t th, t ∈ l -> threads s !! t = Some th -> fits th p -> on_some_cpu s th ->
     exists th', threads s' !! t = Some th' /\ fits th' q /\ on_some_cpu s th') ->
  (forall c k, allcpus s' !! c = Some k -> cpu_ok s' c k) -> inv s'.
Proof.
  intros Hs Hpq Hp Hq Hr Hlen Hkeep Hnew Hcpus.
  assert (Hin : forall t, t ∈ l -> t ∈ members s p) by (intros t; rewrite Hp; set_solver).
  assert (Hcpu : forall th, on_some_cpu s th -> on_some_cpu s' th).
  { intros th (c & ? & ?). exists c. by rewrite Hlen. }
  assert (Hout : forall t, is_Some (threads s' !! t) <-> is_Some (threads s !! t)).
  { intros t. destruct (decide (t ∈ l)) as [Hl|]; [|by rewrite Hkeep].
    destruct (inv_fits _ Hs _ _ (Hin _ Hl)) as (th & Hth & Hf & Ho).
    destruct (Hnew _ _ Hl Hth Hf Ho) as (th' & Hth' & _). rewrite Hth, Hth'. by split; eexists. }
  split.
  - by apply (placed_move (members s) _ p q l); [apply Hs|..].
  - intros r t Ht. destruct (decide (t ∈ l)) as [Hl|Hl].
    + destruct (inv_fits _ Hs _ _ (Hin _ Hl)) as (th & Hth & Hf & Ho).
      destruct (Hnew _ _ Hl Hth Hf Ho) as (th' & Hth' & Hf' & Ho').
      assert (placed (members s')) as [_ Hone] by (by apply (placed_move (members s) _ p q l); [apply Hs|..]).
      assert (r = q) as -> by (apply (Hone r q t Ht); rewrite Hq; set_solver).
      exists th'. auto.
    + assert (t ∈ members s r) as Hold.
      { destruct (decide (r = q)) as [->|]; [rewrite Hq in Ht; set_solver|].
        destruct (decide (r = p)) as [->|]; [rewrite Hp; set_solver|]. rewrite <- (Hr r); auto. }
      destruct (inv_fits _ Hs _ _ Hold) as (th & Hth & Hf & Ho). exists th. rewrite Hkeep; auto.
  - intros t Ht. destruct (inv_known _ Hs t) as [r Hrt]; [by apply Hout|].
    destruct (decide (r = p)) as [->|Hrp].
    + rewrite Hp in Hrt. apply elem_of_app in Hrt as [Hl|Hl]; [|by exists p]. exists q. rewrite Hq. set_solver.
    + exists r. destruct (decide (r = q)) as [->|]; [rewrite Hq; set_solver|]. by rewrite (Hr r).
  - done.
Qed.

(** ** Keeping the CPUs *)

Section Moves.
Implicit Types (s : sched) (k : cpu) (c : nat) (t w : Z) (th : thread).

(** The threads keep their CPU. *)
Definition keeps s s' : Prop :=
  forall t th, threads s !! t = Some th -> exists th', threads s' !! t = Some th' /\ t_cpu th' = t_cpu th.

Lemma keeps_owns s s' c k : keeps s s' -> owns s c k -> owns s' c k.
Proof. intros Hk (th & Hth & Hc). destruct (Hk _ _ Hth) as (th' & Hth' & Hc'). exists th'. by rewrite Hc'. Qed.

Lemma keeps_same s s' : threads s' = threads s -> keeps s s'.
Proof. intros He t th Ht. exists th. by rewrite He. Qed.

Lemma keeps_put s s' t th th' :
  threads s !! t = Some th -> threads s' = <[t := th']> (threads s) -> t_cpu th' = t_cpu th -> keeps s s'.
Proof.
  intros Ht He Hc t1 th1 H1. rewrite He, lookup_insert. case_decide as Heq; [|by exists th1].
  subst t1. exists th'. split; [done|]. congruence.
Qed.

Lemma cpus_put s s' c k' :
  inv s -> allcpus s' = <[c := k']> (allcpus s) ->
  (forall c1 k1, c1 <> c -> allcpus s !! c1 = Some k1 -> owns s c1 k1 -> owns s' c1 k1) ->
  cpu_ok s' c k' -> forall c1 k1, allcpus s' !! c1 = Some k1 -> cpu_ok s' c1 k1.
Proof.
  intros Hs He Hown Hok c1 k1 H1. rewrite He in H1. apply list_lookup_insert_Some in H1 as [(-> & -> & _)|[Hne H1]]; [done|].
  destruct (inv_cpus _ Hs _ _ H1) as [Ho Hd Hw Hsh]. split; [by eauto| |done..].
  by rewrite He, length_insert.
Qed.

Lemma members_put_thread t th s p : members (put_thread t th s) p = members s p.
Proof. by destruct p. Qed.

(** A CPU changes without moving a thread. *)
Lemma inv_same s c k k' :
  inv s -> allcpus s !! c = Some k -> (forall r, at_cpu r = Some c -> view k' r ≡ₚ view k r) ->
  (owns s c k -> owns s c k') -> (doing_ok (length (allcpus s)) k -> doing_ok (length (allcpus s)) k') -> (wakes k -> wakes k') ->
  c_shootdown k' = c_shootdown k -> inv (put_cpu c k' s).
Proof.
  intros Hs Hk Hv Hown Hdo Hw Hsh.
  assert (Hm : forall r, members (put_cpu c k' s) r ≡ₚ members s r).
  { intros r. rewrite (members_put_cpu _ _ _ _ _ Hk). case_decide as Hr; [|done]. by rewrite (members_view _ _ _ _ Hr Hk), Hv. }
  split.
  - destruct (inv_placed _ Hs) as [Hnd Hone]. split; [intros p; by rewrite Hm|].
    intros p q t. rewrite !Hm. apply Hone.
  - intros p t. rewrite Hm. intros (th & ? & ? & c1 & ? & ?)%(inv_fits _ Hs). exists th. split_and!; [done..|].
    exists c1. by rewrite length_put_cpu.
  - intros t Ht. destruct (inv_known _ Hs t Ht) as [p Hp]. exists p. by rewrite Hm.
  - apply (cpus_put s _ c k'); [done..|]. destruct (inv_cpus _ Hs _ _ Hk) as [Ho Hd1 Hw1 Hs1].
    split; [by apply Hown|rewrite length_put_cpu; auto|auto|congruence].
Qed.

(** Threads move inside a CPU. *)
Lemma inv_inside s c k k' p q l m :
  inv s -> allcpus s !! c = Some k -> at_cpu p = Some c -> at_cpu q = Some c -> p <> q ->
  view k p ≡ₚ l ++ view k' p -> view k' q ≡ₚ l ++ view k q ->
  (forall r, r <> p -> r <> q -> at_cpu r = Some c -> view k' r = view k r) ->
  (forall t, t ∉ l -> m !! t = threads s !! t) ->
  (forall t th, t ∈ l -> threads s !! t = Some th -> fits th p ->
     exists th', m !! t = Some th' /\ fits th' q /\ t_cpu th' = t_cpu th) ->
  cpu_ok (set_threads m (put_cpu c k' s)) c k' -> inv (set_threads m (put_cpu c k' s)).
Proof.
  intros Hs Hk Hp Hq Hpq Hvp Hvq Hr Hkeep Hnew Hok. set (s' := set_threads m (put_cpu c k' s)) in *.
  assert (Hm : forall r, members s' r = if decide (at_cpu r = Some c) then view k' r else members s r).
  { intros r. rewrite <- (members_put_cpu _ _ _ _ _ Hk). by destruct r. }
  assert (Hmk : forall r, at_cpu r = Some c -> members s r = view k r) by (intros r Hrc; by apply (members_view _ _ c)).
  assert (Hl : forall t, t ∈ l -> t ∈ members s p) by (intros t Ht; rewrite (Hmk p Hp), Hvp; apply elem_of_app; auto).
  assert (Hkeeps : keeps s s').
  { intros t th Ht. destruct (decide (t ∈ l)) as [Htl|Htl]; [|exists th; simpl; by rewrite Hkeep].
    destruct (inv_fits _ Hs _ _ (Hl _ Htl)) as (th0 & Hth0 & Hf & _). simplify_eq.
    destruct (Hnew _ _ Htl Ht Hf) as (th' & ? & ? & ?). by exists th'. }
  apply (sched_move s s' p q l); [done|done|..].
  - rewrite Hm, decide_True, Hmk; done.
  - rewrite Hm, decide_True, Hmk; done.
  - intros r H1 H2. rewrite Hm. case_decide as Hrc; [|done]. by rewrite Hmk, Hr.
  - apply length_put_cpu.
  - done.
  - intros t th Ht Hth Hf (c1 & Hc1 & Hlt). destruct (Hnew _ _ Ht Hth Hf) as (th' & ? & ? & He).
    exists th'. split_and!; [done..|]. exists c1. by rewrite He.
  - apply (cpus_put s s' c k'); [done|done| |done]. intros. by apply (keeps_owns s).
Qed.

End Moves.

(** ** Running and dying *)

Section Switch.
Implicit Types (s : sched) (k : cpu) (c : nat) (t w z : Z) (th : thread).

Lemma inv_death s c k z zs :
  inv s -> allcpus s !! c = Some k -> c_isidle k = false -> c_zombies k = z :: zs ->
  inv (set_threads (delete z (threads s)) (put_cpu c (with_zombies zs k) s)).
Proof.
  intros Hs Hk Hid Hz. set (s' := set_threads _ _).
  assert (Hzp : z ∈ members s (Zombie c)) by (rewrite (members_view _ _ c k) by done; simpl; rewrite Hz; set_solver).
  destruct (inv_fits _ Hs _ _ Hzp) as (th & Hth & (Hst & Hcpu & Hpr) & _).
  destruct (inv_placed _ Hs) as [Hnd Hone].
  assert (Hm : forall r, members s' r = if decide (r = Zombie c) then zs else members s r).
  { intros r. assert (members s' r = members (put_cpu c (with_zombies zs k) s) r) as -> by (by destruct r).
    rewrite (members_put_cpu _ _ _ _ _ Hk). destruct (decide (at_cpu r = Some c)) as [Hr|Hr].
    - rewrite (members_view _ _ _ _ Hr Hk). destruct r; simplify_eq/=; repeat case_decide; simplify_eq; done.
    - case_decide; simplify_eq/=; done. }
  assert (Hnz : NoDup (z :: zs)) by (rewrite <- Hz; specialize (Hnd (Zombie c)); by rewrite (members_view _ _ c k) in Hnd).
  assert (Hin : forall r t, t ∈ members s' r -> t ∈ members s r /\ t <> z).
  { intros r t. rewrite Hm. case_decide as Hr.
    - subst r. intros Ht. rewrite (members_view _ _ c k) by done. simpl. rewrite Hz. split; [set_solver|].
      intros ->. by apply NoDup_cons in Hnz as [? _].
    - intros Ht. split; [done|]. intros ->. by destruct Hr; eapply Hone. }
  split.
  - split.
    + intros r. rewrite Hm. case_decide; [by apply NoDup_cons in Hnz as [_ ?]|apply Hnd].
    + intros p q t [? _]%Hin [? _]%Hin. eauto.
  - intros p t [Ht Hne]%Hin. destruct (inv_fits _ Hs _ _ Ht) as (th1 & H1 & Hf & c1 & Hc1 & Hl).
    exists th1. simpl. rewrite lookup_delete_ne by done. split_and!; [done..|]. exists c1. simpl. by rewrite length_insert.
  - intros t. simpl. intros Ht. destruct (decide (t = z)) as [->|Hne]; [rewrite lookup_delete_eq in Ht; by destruct Ht|].
    rewrite lookup_delete_ne in Ht by done. destruct (inv_known _ Hs t Ht) as [p Hp]. exists p. rewrite Hm.
    case_decide; [subst p|done]. rewrite (members_view _ _ c k) in Hp by done. simpl in Hp. rewrite Hz in Hp. set_solver.
  - assert (Hcurz : c_curthread k <> z).
    { intros He. assert (Run c = Zombie c) as [=]. apply (Hone _ _ z); [|done]. rewrite (members_view _ _ c k) by done.
      simpl. unfold running. rewrite Hid. set_solver. }
    assert (Hown : forall c1 k1, allcpus s !! c1 = Some k1 -> owns s c1 k1 -> owns s' c1 k1).
    { intros c1 k1 H1 (th1 & Ht1 & Hc1). exists th1. split; [|done]. simpl. apply lookup_delete_Some. split; [|done].
      intros He. simplify_eq. }
    apply (cpus_put s s' c (with_zombies zs k)); [done|done| |].
    + intros. by apply Hown.
    + destruct (inv_cpus _ Hs _ _ Hk) as [Ho Hd Hw Hsh]. split; [|simpl; by rewrite length_insert|done..].
      destruct (Hown _ _ Hk Ho) as (th1 & ? & ?). by exists th1.
Qed.

Lemma exorcise_from_inv zs : forall s c k,
  inv s -> allcpus s !! c = Some k -> c_isidle k = false -> c_zombies k = zs ->
  wp (exorcise_from zs c) s (fun _ s' => inv s' /\ allcpus s' = <[c := with_zombies [] k]> (allcpus s) /\ wchans s' = wchans s).
Proof.
  induction zs as [|z zs IH]; intros s c k Hs Hk Hid Hz.
  { apply wp_ret. split_and!; [done| |done]. symmetry. apply list_insert_id. rewrite Hk. by destruct k; simplify_eq/=. }
  assert (Hzp : z ∈ members s (Zombie c)) by (rewrite (members_view _ _ c k) by done; simpl; rewrite Hz; set_solver).
  destruct (inv_fits _ Hs _ _ Hzp) as (th & Hth & (Hst & Hcpu & Hpr) & _).
  assert (Hcurz : z <> c_curthread k).
  { intros ->. assert (Run c = Zombie c) as [=]. eapply (inv_placed _ Hs); [|done]. rewrite (members_view _ _ c k) by done.
    simpl. unfold running. rewrite Hid. set_solver. }
  assert (Hdead := inv_death _ _ _ _ _ Hs Hk Hid Hz).
  simpl. step; [done|]. step; [by apply (cpu_put_same _ _ _ k)|]. step; [simpl; lia|]. step; [done|]. step; [by rewrite Hst|].
  apply wp_bind. unfold thread_destroy. step; [by apply (cpu_put_same _ _ _ k)|]. step; [simpl; lia|]. step; [done|].
  step; [by rewrite Hst|]. step; [simpl; lia|]. step.
  eapply wp_mono; [apply (IH _ c (with_zombies zs k)); [done| |done..]|].
  - simpl. by apply list_lookup_insert_eq, (cpu_known _ k).
  - simpl. intros _ s' (? & Hcpus & ?). split_and!; [done| |done]. rewrite Hcpus. by rewrite list_insert_insert_eq.
Qed.

(** The next thread starts to run. *)
Lemma inv_run s c k next q th p :
  inv s -> allcpus s !! c = Some k -> c_isidle k = true -> c_waiting k = false -> c_doing k = Thread -> c_runqueue k = next :: q ->
  threads s !! next = Some th ->
  inv (put_thread next (with_state S_RUN (with_wchan_name None th))
         (put_cpu c (with_activated p (with_curthread next (with_isidle false (with_runqueue q k)))) s)).
Proof.
  intros Hs Hk Hid Hwait Hdo Hq Hth.
  assert (Hin : next ∈ members s (Queue c)) by (rewrite (members_view _ _ c k) by done; simpl; rewrite Hq; set_solver).
  destruct (inv_fits _ Hs _ _ Hin) as (th0 & Hth0 & (Hst & Hcpu & Hpr) & _). simplify_eq.
  apply (inv_inside s c k _ (Queue c) (Run c) [next]); try done.
  - simpl. by rewrite Hq.
  - simpl. unfold running. simpl. by rewrite Hid.
  - intros [] ??; simpl; intros; simplify_eq/=; done.
  - intros t Ht. apply lookup_insert_ne. set_solver.
  - intros t th1 ->%list_elem_of_singleton Ht Hf. simplify_eq. rewrite lookup_insert_eq. eexists. split_and!; [done| |done].
    simpl. by split; [left|].
  - destruct (inv_cpus _ Hs _ _ Hk) as [Ho Hd Hw Hsh]. split; [| |unfold wakes; simpl; congruence|done].
    + eexists. simpl. rewrite lookup_insert_eq. done.
    + unfold doing_ok. simpl. by rewrite Hdo.
Qed.

(** The CPU after it has switched to the head of its queue, a thread of process [p]. *)
Definition switched (p next : Z) (q : list Z) (k : cpu) : cpu :=
  with_zombies [] (with_activated p (with_curthread next (with_isidle false (with_runqueue q k)))).

(** One turn of the loop of [thread_switch]. *)
Lemma pick_run s c k :
  inv s -> allcpus s !! c = Some k -> c_isidle k = true -> c_waiting k = false -> c_doing k = Thread ->
  wp (pick c) s (fun _ s' => inv s' /\
    forall next q, c_runqueue k = next :: q -> exists p, allcpus s' = <[c := switched p next q k]> (allcpus s)).
Proof.
  intros Hs Hk Hid Hwait Hdo. unfold pick. step; [done|]. destruct (c_runqueue k) as [|next q] eqn:Hq.
  - step; [done|]. split; [|done]. apply (inv_same s c k); try done.
    intros _ _. simpl. rewrite Hid, Hdo, Hq. auto.
  - assert (Hin : next ∈ members s (Queue c)) by (rewrite (members_view _ _ c k) by done; simpl; rewrite Hq; set_solver).
    destruct (inv_fits _ Hs _ _ Hin) as (th & Hth & _).
    step; [done|]. unfold resume. step; [by apply (cpu_put_same _ _ _ k)|]. step; [done|].
    apply wp_bind. unfold as_activate. step; [by apply (cpu_put_same _ _ _ k)|]. step; [apply thread_put_same|].
    step; [by apply (cpu_put_same _ _ _ k)|]. rewrite put_swap, put_cpu_twice.
    unfold exorcise. step; [by apply (cpu_put_same _ _ _ k)|].
    eapply wp_mono; [apply exorcise_from_inv; [by apply inv_run|by apply (cpu_put_same _ _ _ k)|done..]|].
    intros ? s' (? & Hcpus & _). split; [done|]. intros next' q' [= <- <-]. eexists. rewrite Hcpus. simpl. by rewrite list_insert_insert_eq.
Qed.

Lemma pick_inv s c k :
  inv s -> allcpus s !! c = Some k -> c_isidle k = true -> c_waiting k = false -> c_doing k = Thread ->
  wp (pick c) s (fun _ s' => inv s').
Proof. intros. eapply wp_mono; [by apply (pick_run s c k)|]. by intros ? s' [? _]. Qed.

End Switch.

Section Leave.
Implicit Types (s : sched) (k : cpu) (c : nat) (t w z : Z) (th : thread).

Lemma awake s c k : inv s -> allcpus s !! c = Some k -> c_isidle k = false -> c_waiting k = false.
Proof.
  intros Hs Hk Hid. destruct (inv_cpus _ Hs _ _ Hk) as [_ _ Hw _]. destruct (c_waiting k) eqn:He; [|done].
  destruct (Hw He) as (? & _). congruence.
Qed.

(** The current thread of a CPU that is not idle. *)
Lemma current s c k :
  inv s -> allcpus s !! c = Some k -> c_isidle k = false -> exists th, threads s !! c_curthread k = Some th /\ fits th (Run c).
Proof.
  intros Hs Hk Hid. assert (Hin : c_curthread k ∈ members s (Run c)).
  { rewrite (members_view _ _ c k) by done. simpl. unfold running. rewrite Hid. set_solver. }
  destruct (inv_fits _ Hs _ _ Hin) as (th & ? & ? & _). by exists th.
Qed.

Lemma wp_checkstack s t th (Q : unit -> sched -> Prop) :
  threads s !! t = Some th -> attached th -> Q tt s -> wp (thread_checkstack t) s Q.
Proof.
  intros Ht [Hg _] HQ. unfold thread_checkstack. step; [done|]. destruct (Z.eqb_spec (t_stack th) 0); [by step|].
  destruct Hg as [|Hg]; [done|]. step; [by rewrite Hg|done].
Qed.

(** A thread changes where it is. *)
Lemma inv_thread s t th th' :
  inv s -> threads s !! t = Some th -> (forall p, t ∈ members s p -> fits th p -> fits th' p) -> t_cpu th' = t_cpu th ->
  inv (put_thread t th' s).
Proof.
  intros Hs Ht Hf Hc. destruct Hs as [[Hnd Hone] Hfits Hknown Hcpus]. split.
  - split; [intros p; by rewrite members_put_thread|]. intros p q x. rewrite !members_put_thread. apply Hone.
  - intros p x. rewrite members_put_thread. intros Hx. destruct (Hfits p x Hx) as (thx & Hthx & Hfx & c1 & Hc1 & Hl).
    rewrite thread_put. case_decide as He; [subst x|by exists thx; split_and!; [..|exists c1]].
    simplify_eq. exists th'. split_and!; [done|by apply Hf|]. exists c1. by rewrite Hc.
  - intros x Hx. destruct (Hknown x) as [p Hp]; [|by exists p; rewrite members_put_thread].
    rewrite thread_put in Hx. by case_decide; simplify_eq.
  - intros c k Hk. destruct (Hcpus c k Hk) as [Ho Hd Hw Hsh]. split; [|done..].
    eapply keeps_owns; [|exact Ho]. by apply (keeps_put s _ t th th').
Qed.

(** The current thread leaves its CPU for a place of the same CPU. *)
Lemma inv_leave s c k k' q th' th :
  inv s -> allcpus s !! c = Some k -> c_isidle k = false -> c_doing k = Thread -> threads s !! c_curthread k = Some th ->
  at_cpu q = Some c -> q <> Run c ->
  view k' q ≡ₚ c_curthread k :: view k q -> (forall r, r <> Run c -> r <> q -> at_cpu r = Some c -> view k' r = view k r) ->
  c_isidle k' = true -> c_doing k' = Thread -> c_waiting k' = false -> c_curthread k' = c_curthread k -> c_shootdown k' = c_shootdown k ->
  fits th' q -> t_cpu th' = t_cpu th ->
  inv (put_thread (c_curthread k) th' (put_cpu c k' s)).
Proof.
  intros Hs Hk Hid Hdo Hth Hq Hne Hvq Hr Hid' Hdo' Hw' Hc' Hsh' Hf' Hcpu'.
  apply (inv_inside s c k _ (Run c) q [c_curthread k]); try done.
  - simpl. unfold running. by rewrite Hid, Hid'.
  - intros t Ht. apply lookup_insert_ne. set_solver.
  - intros t th1 ->%list_elem_of_singleton Ht Hf. simplify_eq. rewrite lookup_insert_eq. by eexists.
  - destruct (inv_cpus _ Hs _ _ Hk) as [(th1 & Ho & Hoc) Hd Hw Hsh]. simplify_eq. split.
    + exists th'. simpl. rewrite Hc', lookup_insert_eq. split; [done|]. congruence.
    + unfold doing_ok. by rewrite Hdo'.
    + unfold wakes. congruence.
    + congruence.
Qed.

Lemma yield_run s c k :
  inv s -> allcpus s !! c = Some k -> c_doing k = Thread ->
  wp (thread_yield c) s (fun _ s' => inv s' /\
    (c_isidle k = false -> forall next q, c_runqueue k = next :: q ->
       exists p, allcpus s' !! c = Some (switched p next (q ++ [c_curthread k]) k))).
Proof.
  intros Hs Hk Hdo. unfold thread_yield, thread_switch. step; [done|]. destruct (c_isidle k) eqn:Hid; [by step|].
  destruct (current _ _ _ Hs Hk Hid) as (th & Hth & Hf & Hcpu & Hpr).
  apply wp_bind. apply (wp_checkstack s _ th); [done|done|].
  rewrite bool_decide_true by done. destruct (c_runqueue k) as [|x q] eqn:Hq; simpl; [by step|].
  apply wp_bind. unfold thread_make_runnable. step; [done|]. step; [done|]. step; [done|]. step; [done|]. step; [done|].
  rewrite Hid. simpl. step. step; [apply thread_put_same|]. step; [apply (cpu_put_same _ _ _ k Hk)|].
  rewrite !put_swap, put_cpu_twice, put_thread_twice.
  eapply wp_mono; [eapply pick_run; [|apply (cpu_put_same _ _ _ k Hk)|done|by apply (awake s c k)|done]|].
  - apply (inv_leave s c k _ (Queue c) _ th); try done.
    + simpl. by rewrite Permutation_app_comm.
    + intros [] ??; simpl; intros; simplify_eq/=; done.
    + by apply (awake s c k).
  - intros ? s' [? Hc]. split; [done|]. intros _ next q' [= <- <-].
    destruct (Hc x (q ++ [c_curthread k])) as [p Hp]; [simpl; by rewrite Hq|]. exists p. rewrite Hp.
    rewrite list_lookup_insert_eq; [done|]. simpl. rewrite length_insert. by eauto using cpu_known.
Qed.

Lemma yield_inv s c k :
  inv s -> allcpus s !! c = Some k -> c_doing k = Thread -> wp (thread_yield c) s (fun _ s' => inv s').
Proof. intros. eapply wp_mono; [by apply (yield_run s c k)|]. by intros ? s' [? _]. Qed.

(** The first part of [thread_exit]: the thread leaves its process and runs on. *)
Lemma exit_inv s c k :
  inv s -> allcpus s !! c = Some k -> in_thread s k false -> wp (thread_exit c) s (fun _ s' => inv s').
Proof.
  intros Hs Hk [Hid (th0 & Hth0 & Hex)]. destruct (current _ _ _ Hs Hk Hid) as (th & Hth & Hf & Hcpu & Hg & Hpr).
  rewrite Hth in Hth0. injection Hth0 as <-. rewrite Hex in Hpr.
  unfold thread_exit. step; [done|]. apply wp_bind. unfold proc_remthread. step; [done|]. step; [lia|]. step; [done|].
  step; [apply thread_put_same|]. step; [done|]. apply wp_bind. unfold thread_checkstack. step; [apply thread_put_same|].
  assert (Hfin : inv (put_thread (c_curthread k) (with_exiting true (with_proc 0 th)) s)).
  { apply (inv_thread s _ th); [done|done| |done]. intros p Hp _.
    assert (p = Run c) as ->.
    { apply (inv_placed _ Hs) with (t := c_curthread k); [done|]. rewrite (members_view _ _ c k) by done. simpl. unfold running. rewrite Hid. set_solver. }
    split; [done|]. split; [done|]. split; [exact Hg|done]. }
  assert (Hend : wp (on_thread (c_curthread k) (with_exiting true)) (put_thread (c_curthread k) (with_proc 0 th) s) (fun _ s' => inv s'))
    by (step; [apply thread_put_same|by rewrite put_thread_twice]).
  change (t_stack (with_proc 0 th)) with (t_stack th). destruct (Z.eqb_spec (t_stack th) 0); [by step|].
  destruct Hg as [|Hg]; [done|]. step; [simpl; by rewrite Hg|exact Hend].
Qed.

(** The second part, after any number of other steps. *)
Lemma exit_end_inv s c k :
  inv s -> allcpus s !! c = Some k -> c_doing k = Thread -> in_thread s k true -> wp (thread_exit_end c) s (fun _ s' => inv s').
Proof.
  intros Hs Hk Hdo [Hid (th0 & Hth0 & Hex)]. destruct (current _ _ _ Hs Hk Hid) as (th & Hth & Hf & Hcpu & Hatt).
  rewrite Hth in Hth0. injection Hth0 as <-. pose proof Hatt as [Hg Hpr]. rewrite Hex in Hpr.
  unfold thread_exit_end, thread_switch. step; [done|]. rewrite Hid. apply wp_bind. apply (wp_checkstack s _ th); [done|done|].
  simpl. apply wp_bind. step; [done|]. step; [done|]. step; [apply thread_put_same|].
  step; [apply (cpu_put_same _ _ _ k Hk)|].
  rewrite !put_swap, put_cpu_twice, !put_thread_twice.
  eapply pick_inv; [|apply (cpu_put_same _ _ _ k Hk)|done|by apply (awake s c k)|done].
  apply (inv_leave s c k _ (Zombie c) _ th); try done.
  - simpl. by rewrite Permutation_app_comm.
  - intros [] ??; simpl; intros; simplify_eq/=; done.
  - by apply (awake s c k).
Qed.

Lemma sleep_inv s c k w :
  inv s -> allcpus s !! c = Some k -> c_doing k = Thread -> c_isidle k = false -> is_Some (wchans s !! w) ->
  wp (thread_switch c S_SLEEP w) s (fun _ s' => inv s').
Proof.
  intros Hs Hk Hdo Hid [x Hx]. destruct (current _ _ _ Hs Hk Hid) as (th & Hth & Hf & Hcpu & Hpr).
  unfold thread_switch. step; [done|]. rewrite Hid. apply wp_bind. apply (wp_checkstack s _ th); [done|done|].
  simpl. apply wp_bind. step; [done|]. step; [done|]. step; [done|].
  step; [apply thread_put_same|]. step; [done|].
  eapply pick_inv; [|apply (cpu_put_same _ _ _ k); done|done|by apply (awake s c k)|done].
  set (s' := put_cpu _ _ _).
  assert (Ht : threads s' = <[c_curthread k := with_state S_SLEEP (with_wchan_name (Some (wc_name x)) th)]> (threads s)).
  { simpl. by rewrite insert_insert_eq. }
  assert (Hm : forall r, members s' r = if decide (r = Chan w) then wc_threads x ++ [c_curthread k]
                                        else if decide (r = Run c) then [] else members s r).
  { intros r. unfold s'. erewrite (members_put_cpu _ _ _ k) by done. case_decide as Hr.
    - rewrite !decide_False by (destruct r; simplify_eq/=; try done). rewrite (members_view _ _ _ _ Hr Hk).
      destruct r; simplify_eq/=; repeat case_decide; simplify_eq; done.
    - rewrite members_put_thread, members_put_wchan. case_decide; [done|]. rewrite members_put_thread.
      case_decide; simplify_eq/=; done. }
  apply (sched_move s s' (Run c) (Chan w) [c_curthread k]); [done|done|..].
  - rewrite Hm, (members_view _ _ c k) by done. simpl. unfold running. by rewrite Hid, decide_True.
  - rewrite Hm, (members_chan _ _ x Hx), decide_True by done. by rewrite Permutation_app_comm.
  - intros r H1 H2. by rewrite Hm, !decide_False.
  - unfold s'. by rewrite length_put_cpu.
  - intros t H1. rewrite Ht. apply lookup_insert_ne. set_solver.
  - intros t th1 ->%list_elem_of_singleton H1 _ (c1 & Hc1 & Hl). simplify_eq. rewrite Ht, lookup_insert_eq.
    eexists. split_and!; [done..|]. by exists c.
  - assert (Hkeep : keeps s s') by (by apply (keeps_put _ _ _ th _ Hth Ht)).
    apply (cpus_put s s' c (with_isidle true k)); [done|done| |].
    + intros. by apply (keeps_owns s).
    + destruct (inv_cpus _ Hs _ _ Hk) as [Ho Hd Hw Hsh].
      split; [by apply (keeps_owns s s' c k) in Ho|by unfold s'; rewrite length_put_cpu|unfold wakes; simpl; intros He|done].
      by rewrite (awake s c k) in He.
Qed.

End Leave.

(** ** Threads in hand *)

(** Thread [t] has been taken out of its place. *)
Record adrift (t : Z) (s : sched) : Prop := {
  ad_placed : placed (members s);
  ad_fits : forall p t', t' ∈ members s p -> exists th, threads s !! t' = Some th /\ fits th p /\ on_some_cpu s th;
  ad_known : forall t', is_Some (threads s !! t') -> t' = t \/ exists p, t' ∈ members s p;
  ad_out : forall p, t ∉ members s p;
  ad_cpus : forall c k, allcpus s !! c = Some k -> cpu_ok s c k }.

(** The CPU [tc] after [thread_make_runnable] on CPU [c]. *)
Definition queued (c : nat) (t : Z) (tc : nat) (k : cpu) : cpu :=
  if c_isidle k && negb (Nat.eqb tc c) then with_ipi (Z.lor (c_ipi_pending k) (2 ^ IPI_UNIDLE)) (addtail t k) else addtail t k.

Section Drift.
Implicit Types (s : sched) (k : cpu) (c : nat) (t w z : Z) (th : thread).

Lemma queued_view c t tc k r : view (queued c t tc k) r = match r with Queue _ => c_runqueue k ++ [t] | _ => view k r end.
Proof. unfold queued. by case_match; destruct r. Qed.

Lemma queued_curthread c t tc k : c_curthread (queued c t tc k) = c_curthread k.
Proof. unfold queued. by case_match. Qed.

Lemma queued_shootdown c t tc k : c_shootdown (queued c t tc k) = c_shootdown k.
Proof. unfold queued. by case_match. Qed.

Lemma queued_doing c t tc k n : doing_ok n k -> doing_ok n (queued c t tc k).
Proof.
  unfold doing_ok, queued. destruct (c_isidle k && _); simpl; destruct (c_doing k); rewrite ?length_app; simpl; intuition lia.
Qed.

Lemma testbit_ipi x code : 0 <= code -> Z.testbit (Z.lor x (2 ^ code)) code = true.
Proof. intros. rewrite testbit_lor by done. rewrite Z.eqb_refl. by rewrite orb_true_r. Qed.

(** A CPU that waits gets an interrupt with its thread. *)
Lemma queued_wakes c t tc k : (tc = c -> c_waiting k = false) -> wakes k -> wakes (queued c t tc k).
Proof.
  intros Hme Hw. unfold queued, wakes. destruct (Nat.eqb_spec tc c) as [->|Hne].
  - rewrite andb_false_r. simpl. rewrite Hme by done. done.
  - rewrite andb_true_r. destruct (c_isidle k) eqn:Hid; simpl; intros (? & ? & _)%Hw; [|congruence].
    split_and!; [done..|]. right. by apply (testbit_ipi (c_ipi_pending k) IPI_UNIDLE).
Qed.

Lemma inv_drop s t th th' tc k k' :
  adrift t s -> threads s !! t = Some th -> allcpus s !! tc = Some k ->
  (forall r, view k' r = match r with Queue _ => c_runqueue k ++ [t] | _ => view k r end) ->
  c_curthread k' = c_curthread k -> doing_ok (length (allcpus s)) k' -> wakes k' -> c_shootdown k' = [] ->
  t_state th' = S_READY -> t_cpu th' = Some tc -> attached th' ->
  (t_cpu th' = t_cpu th \/ forall c1 k1, allcpus s !! c1 = Some k1 -> c_curthread k1 <> t) ->
  inv (put_thread t th' (put_cpu tc k' s)).
Proof.
  intros [[Hnd Hone] Hfits Hknown Hout Hcpus] Hth Hk Hv Hcur Hdo Hw Hsh Hst Hcpu Hpr Hown.
  set (s' := put_thread t th' (put_cpu tc k' s)).
  assert (Hm : forall r, members s' r = if decide (r = Queue tc) then members s (Queue tc) ++ [t] else members s r).
  { intros r. unfold s'. rewrite members_put_thread, (members_put_cpu _ _ _ _ _ Hk). rewrite Hv.
    case_decide as Hr.
    - rewrite (members_view s r tc k), (members_view s (Queue tc) tc k) by done.
      destruct r; simplify_eq/=; repeat case_decide; simplify_eq; done.
    - case_decide; simplify_eq/=; done. }
  assert (Hin : forall r x, x ∈ members s' r -> x ∈ members s r \/ (r = Queue tc /\ x = t)).
  { intros r x. rewrite Hm. case_decide; subst; set_solver. }
  assert (Hlen : length (allcpus s') = length (allcpus s)) by apply length_put_cpu.
  assert (Hon : forall th1, on_some_cpu s th1 -> on_some_cpu s' th1).
  { intros th1 (c1 & ? & ?). exists c1. by rewrite Hlen. }
  split.
  - split.
    + intros r. rewrite Hm. case_decide; [|apply Hnd]. apply NoDup_app. split; [apply Hnd|]. split; [|apply NoDup_singleton].
      intros x Hx ->%list_elem_of_singleton. by apply (Hout (Queue tc)).
    + intros p q x [Hp|[-> ->]]%Hin [Hq|[-> Hx]]%Hin; subst; [by eauto|by destruct (Hout p)|by destruct (Hout q)|done].
  - intros r x Hx. destruct (Hin _ _ Hx) as [Hr|[-> ->]].
    + destruct (Hfits _ _ Hr) as (th1 & H1 & Hf1 & Hon1). exists th1. unfold s'. rewrite thread_put.
      rewrite decide_False by (intros ->; by destruct (Hout r)). split_and!; [done..|]. by apply Hon.
    + exists th'. unfold s'. rewrite thread_put_same. split_and!; [done..|]. apply Hon. exists tc. by eauto using cpu_known.
  - intros x Hx. destruct (decide (x = t)) as [->|Hne]; [exists (Queue tc); rewrite Hm, decide_True; set_solver|].
    unfold s' in Hx. rewrite thread_put, decide_False in Hx by done. destruct (Hknown _ Hx) as [->|[p Hp]]; [done|].
    exists p. rewrite Hm. case_decide; [subst p; set_solver|done].
  - assert (Hkeep : forall c1 k1, allcpus s !! c1 = Some k1 -> owns s' c1 k1).
    { intros c1 k1 H1. destruct (ok_cur _ _ _ (Hcpus _ _ H1)) as (th1 & Ht1 & Hc1). unfold owns, s'. rewrite thread_put.
      case_decide as He; [|by exists th1]. subst t. exists th'. split; [done|].
      destruct Hown as [->|Hown]; [congruence|]. by destruct (Hown _ _ H1). }
    intros c1 k1 H1. unfold s' in H1. simpl in H1. apply list_lookup_insert_Some in H1 as [(<- & <- & _)|[Hne H1]].
    + destruct (Hcpus _ _ Hk) as [Ho Hd Hw1 Hs1]. split; [|by rewrite Hlen|done..].
      destruct (Hkeep _ _ Hk) as (th1 & ? & ?). exists th1. by rewrite Hcur.
    + destruct (Hcpus _ _ H1) as [Ho Hd Hw1 Hs1]. split; [by apply Hkeep|by rewrite Hlen|done..].
Qed.

Lemma make_runnable_inv s c t th tc k :
  adrift t s -> threads s !! t = Some th -> t_cpu th = Some tc -> attached th -> allcpus s !! tc = Some k ->
  (tc = c -> c_waiting k = false) -> wp (thread_make_runnable c t) s (fun _ s' => inv s').
Proof.
  intros Had Hth Hcpu Hpr Hk Hme. unfold thread_make_runnable. step; [done|]. step; [done|]. step; [done|]. step; [done|]. step; [done|].
  destruct (ad_cpus _ _ Had _ _ Hk) as [Ho Hd Hw Hsh].
  assert (Hfin : inv (put_thread t (with_state S_READY th) (put_cpu tc (queued c t tc k) s))).
  { apply (inv_drop s t th _ tc k); [done..| | | | | |done|done|done|by left].
    - apply queued_view.
    - apply queued_curthread.
    - by apply queued_doing.
    - by apply queued_wakes.
    - by rewrite queued_shootdown. }
  unfold queued in Hfin. destruct (c_isidle k && negb (Nat.eqb tc c)).
  - unfold ipi_send. step; [done|]. step; [apply (cpu_put_same _ _ _ k Hk)|]. step; [apply (cpu_put_same _ _ _ k Hk)|].
    by rewrite !put_swap, put_cpu_twice.
  - step. by rewrite put_swap.
Qed.

(** Taking a thread out of its place. *)
Lemma take_out s s' p t rest :
  inv s -> threads s' = threads s -> length (allcpus s') = length (allcpus s) -> members s p = t :: rest ->
  (forall r, members s' r = if decide (r = p) then rest else members s r) ->
  (forall c k, allcpus s' !! c = Some k -> cpu_ok s' c k) -> adrift t s'.
Proof.
  intros Hs Ht Hlen Hp Hm Hcpus. destruct (inv_placed _ Hs) as [Hnd Hone].
  assert (Hndp := Hnd p). rewrite Hp in Hndp. apply NoDup_cons in Hndp as [Hnot Hrest].
  assert (Hin : forall r x, x ∈ members s' r -> x ∈ members s r).
  { intros r x. rewrite Hm. case_decide; [subst r; rewrite Hp; set_solver|done]. }
  split; [split| | | |done].
  - intros r. rewrite Hm. case_decide; [done|apply Hnd].
  - intros r r' x ?%Hin ?%Hin. eauto.
  - intros r x (th & ? & ? & c1 & ? & ?)%Hin%(inv_fits _ Hs). exists th. rewrite Ht. split_and!; [done..|]. exists c1. by rewrite Hlen.
  - intros x Hx. rewrite Ht in Hx. destruct (inv_known _ Hs x Hx) as [r Hr]. destruct (decide (r = p)) as [->|Hne].
    + rewrite Hp in Hr. apply elem_of_cons in Hr as [->|Hr]; [by left|]. right. exists p. by rewrite Hm, decide_True.
    + right. exists r. by rewrite Hm, decide_False.
  - intros r Hr. destruct (decide (r = p)) as [->|Hne].
    + rewrite Hm, decide_True in Hr; done.
    + apply Hne. apply (Hone _ _ t); [by apply Hin|]. rewrite Hp. set_solver.
Qed.

End Drift.

(** ** Waking, forking, creating *)

Section Wakeups.
Implicit Types (s : sched) (k : cpu) (c : nat) (t w z : Z) (th : thread).

(** A channel changes. *)
Lemma cpus_wchan s w x : inv s -> forall c k, allcpus (put_wchan w x s) !! c = Some k -> cpu_ok (put_wchan w x s) c k.
Proof. intros Hs c k Hk. by destruct (inv_cpus _ Hs c k Hk). Qed.

Lemma interrupt_inv s c k :
  inv s -> allcpus s !! c = Some k ->
  wp (interrupt c) s (fun _ s' => s' = put_cpu c (with_waiting false k) s /\ inv s').
Proof.
  intros Hs Hk. unfold interrupt. step; [done|]. split; [done|]. by apply (inv_same s c k).
Qed.

Lemma wakeone_inv s c k w x :
  inv s -> allcpus s !! c = Some k -> c_waiting k = false -> holds_lk x = true -> is_Some (wchans s !! w) ->
  wp (wchan_wakeone x c w) s (fun _ s' => inv s').
Proof.
  intros Hs Hk Hwait Hx [wc Hw]. unfold wchan_wakeone. step; [done|]. step; [done|].
  destruct (wc_threads wc) as [|t rest] eqn:Hl; [by step|]. step; [done|].
  assert (Hp : members s (Chan w) = t :: rest) by (by rewrite (members_chan _ _ _ Hw)).
  destruct (inv_fits _ Hs (Chan w) t) as (th & Hth & (Hst & Hpr) & tc & Hcpu & Hlt); [rewrite Hp; set_solver|].
  apply lookup_lt_is_Some in Hlt as [ktc Htc].
  apply (make_runnable_inv _ c t th tc ktc); try done.
  - apply (take_out s _ (Chan w) t rest); try done.
    + intros r. by rewrite members_put_wchan.
    + by apply cpus_wchan.
  - intros ->. congruence.
Qed.

Lemma wakenext_inv s c k l :
  inv s -> allcpus s !! c = Some k -> c_doing k = Wake l -> wp (wakeall_next c) s (fun _ s' => inv s').
Proof.
  intros Hs Hk Hdo. unfold wakeall_next. step; [done|]. rewrite Hdo.
  assert (Hawake : c_waiting k = false).
  { destruct (inv_cpus _ Hs _ _ Hk) as [_ _ Hw _]. destruct (c_waiting k) eqn:He; [|done]. destruct (Hw He) as (_ & ? & _). congruence. }
  destruct l as [|t rest]; (step; [done|]).
  - apply (inv_same s c k); try done.
    + intros []; simpl; rewrite ?Hdo; done.
    + unfold wakes. simpl. congruence.
  - assert (Hp : members s (Woken c) = t :: rest) by (rewrite (members_view _ _ c k) by done; simpl; by rewrite Hdo).
    destruct (inv_fits _ Hs (Woken c) t) as (th & Hth & (Hst & Hpr) & tc & Hcpu & Hlt); [rewrite Hp; set_solver|].
    apply lookup_lt_is_Some in Hlt as [ktc Htc].
    assert (Hcpus := inv_cpus _ Hs).
    eapply (make_runnable_inv _ c t th tc (if decide (c = tc) then with_doing (Wake rest) k else ktc)); try done.
    + apply (take_out s _ (Woken c) t rest); try done.
      * apply length_put_cpu.
      * intros r. rewrite (members_put_cpu _ _ _ _ _ Hk). case_decide as Hr.
        -- rewrite (members_view _ _ _ _ Hr Hk). destruct r; simplify_eq/=; repeat case_decide; simplify_eq; rewrite ?Hdo; done.
        -- case_decide; simplify_eq/=; done.
      * apply (cpus_put s _ c (with_doing (Wake rest) k)); [done|done|done|].
        destruct (Hcpus _ _ Hk) as [Ho Hd Hw Hsh]. split; [done|done| |done]. unfold wakes. simpl. congruence.
    + rewrite (cpu_put _ _ _ _ _ Hk). by case_decide.
    + intros ->. by rewrite decide_True.
Qed.

Lemma wakeall_inv s c k w x :
  inv s -> allcpus s !! c = Some k -> c_waiting k = false -> c_doing k = Thread -> holds_lk x = true -> is_Some (wchans s !! w) ->
  wp (wchan_wakeall x c w) s (fun _ s' => inv s').
Proof.
  intros Hs Hk Hwait Hdo Hx [wc Hw]. unfold wchan_wakeall. step; [done|]. step; [done|]. step; [done|]. step; [done|].
  set (s' := put_cpu _ _ _).
  assert (Hm : forall r, members s' r = if decide (r = Chan w) then []
                                        else if decide (r = Woken c) then wc_threads wc else members s r).
  { intros r. unfold s'. erewrite (members_put_cpu _ _ _ k) by done. rewrite members_put_wchan. case_decide as Hr.
    - rewrite (members_view _ _ _ _ Hr Hk). destruct r; simplify_eq/=; repeat case_decide; simplify_eq; rewrite ?Hdo; done.
    - repeat case_decide; simplify_eq/=; done. }
  assert (Hwoken : members s (Woken c) = []) by (rewrite (members_view _ _ c k) by done; simpl; by rewrite Hdo).
  apply (sched_move s s' (Chan w) (Woken c) (wc_threads wc)); [done|done|..].
  - rewrite Hm, decide_True, (members_chan _ _ _ Hw) by done. by rewrite app_nil_r.
  - rewrite Hm, decide_False, decide_True, Hwoken by done. by rewrite app_nil_r.
  - intros r H1 H2. by rewrite Hm, !decide_False.
  - unfold s'. by rewrite length_put_cpu.
  - done.
  - intros t th _ Hth Hf Ho. by exists th.
  - apply (cpus_put s s' c (with_doing (Wake (wc_threads wc)) k)); [done|done|done|].
    destruct (inv_cpus _ Hs _ _ Hk) as [Ho Hd Hwk Hsh]. split; [done|done| |done]. unfold wakes. simpl. congruence.
Qed.

(** A new thread, not yet anywhere. *)
Lemma adrift_new s a th : inv s -> threads s !! a = None -> adrift a (put_thread a th s).
Proof.
  intros Hs Ha.
  assert (Hnot : forall p, a ∉ members s p).
  { intros p (th1 & H1 & _)%(inv_fits _ Hs). congruence. }
  split.
  - destruct (inv_placed _ Hs) as [Hnd Hone]. split.
    + intros p. rewrite members_put_thread. apply Hnd.
    + intros p q t. rewrite !members_put_thread. apply Hone.
  - intros p t. rewrite members_put_thread. intros Ht. destruct (inv_fits _ Hs _ _ Ht) as (th1 & H1 & Hf & Ho).
    exists th1. rewrite thread_put, decide_False by (intros ->; by destruct (Hnot p)). done.
  - intros t. rewrite thread_put. case_decide; [auto|]. intros Ht. right. destruct (inv_known _ Hs t Ht) as [p Hp].
    exists p. by rewrite members_put_thread.
  - intros p. by rewrite members_put_thread.
  - intros c k Hk. destruct (inv_cpus _ Hs c k Hk) as [(th1 & Ho & Hc) Hd Hw Hsh]. split; [|done..].
    exists th1. rewrite thread_put, decide_False; [done|]. intros ->. congruence.
Qed.

Lemma discard_inv s c k a th :
  inv s -> allcpus s !! c = Some k -> threads s !! a = None -> t_state th = S_READY -> t_proc th = 0 ->
  wp (thread_destroy c a) (put_thread a th s) (fun _ s' => inv s').
Proof.
  intros Hs Hk Ha Hst Hpr. destruct (ok_cur _ _ _ (inv_cpus _ Hs c k Hk)) as (th1 & Ho & _).
  unfold thread_destroy. step; [done|]. step; [apply negb_true_iff, Z.eqb_neq; congruence|]. step; [apply thread_put_same|].
  step; [by rewrite Hst|]. step; [by rewrite Hpr|]. step.
  assert (Hback : set_threads (delete a (threads (put_thread a th s))) (put_thread a th s) = s); [|by rewrite Hback].
  unfold put_thread, set_threads. simpl. rewrite delete_insert_id by done. by destruct s.
Qed.

Lemma fork_inv s c k a ok stack proc added :
  inv s -> allcpus s !! c = Some k -> in_thread s k false -> free a s -> wp (thread_fork c a ok stack proc added) s (fun _ s' => inv s').
Proof.
  intros Hs Hk [Hid (th0 & Hth0 & Hex)] Hfree. destruct (current _ _ _ Hs Hk Hid) as (cur & Hcur & _ & Hcpu & _ & Hpr).
  rewrite Hcur in Hth0. injection Hth0 as <-. rewrite Hex in Hpr.
  unfold thread_fork, thread_create. apply wp_bind. destruct ((a =? 0) || negb ok) eqn:Ha; [step; simpl; by step|].
  assert (a <> 0) as Hne by lia. specialize (Hfree Hne).
  assert (Hneq : c_curthread k <> a) by congruence.
  step. step. replace (a =? 0) with false by lia. fold (put_thread a (MkThread (Some "NEW") S_READY 0 None 0 1 [] false) s).
  step; [apply thread_put_same|]. rewrite put_thread_twice. case_match.
  { apply wp_bind. eapply wp_mono; [by apply (discard_inv s c k)|]. intros ? s' Hs'. by step. }
  apply wp_bind. unfold thread_checkstack_init. step; [apply thread_put_same|]. rewrite put_thread_twice.
  step; [done|]. step; [by rewrite thread_put, decide_False|]. step; [apply thread_put_same|]. rewrite put_thread_twice. case_match.
  { apply wp_bind. eapply wp_mono; [by apply (discard_inv s c k)|]. intros ? s' Hs'. by step. }
  step; [apply thread_put_same|]. rewrite put_thread_twice. step; [apply thread_put_same|]. step; [apply thread_put_same|].
  rewrite put_thread_twice. apply wp_bind.
  eapply wp_mono; [eapply (make_runnable_inv _ c a _ c k); [by apply adrift_new|apply thread_put_same|done| |done|]|].
  - split; [by right|]. simpl. case_match; lia.
  - intros _. by apply (awake s c k).
  - intros ? s' Hs'. by step.
Qed.

End Wakeups.

(** ** Migration *)

Section Migration.
Implicit Types (s : sched) (k me : cpu) (c i : nat) (t w z : Z) (th : thread).

Lemma busy_awake s c k : inv s -> allcpus s !! c = Some k -> c_doing k <> Thread -> c_waiting k = false.
Proof.
  intros Hs Hk Hdo. destruct (inv_cpus _ Hs _ _ Hk) as [_ _ Hw _]. destruct (c_waiting k) eqn:He; [|done].
  by destruct (Hw He) as (_ & ? & _).
Qed.

Lemma u32_le x : 0 <= x -> 0 <= u32 x <= x.
Proof. intros. unfold u32. split; [by apply Z.mod_pos_bound|]. by apply Z.mod_le. Qed.

Lemma tl_count_le k : 0 <= tl_count k <= Z.of_nat (length (c_runqueue k)).
Proof. apply u32_le. lia. Qed.

(** The local variables change, no thread moves. *)
Lemma inv_doing s c k a :
  inv s -> allcpus s !! c = Some k -> c_doing k <> Thread ->
  victims a ≡ₚ victims (c_doing k) -> woken a = woken (c_doing k) -> doing_ok (length (allcpus s)) (with_doing a k) ->
  inv (put_cpu c (with_doing a k) s).
Proof.
  intros Hs Hk Hdo Hv Hw Hok. apply (inv_same s c k); try done.
  - intros []; simpl; intros; rewrite ?Hw; done.
  - unfold wakes. simpl. by rewrite (busy_awake _ _ _ Hs Hk Hdo).
Qed.

Lemma collect_loop_inv fuel : forall s c k numcpus (i : Z) to_send one_share vs,
  inv s -> allcpus s !! c = Some k -> c_doing k = Collect numcpus i to_send one_share vs -> to_send - i <= Z.of_nat fuel ->
  wp (collect_loop fuel c) s (fun _ s' => inv s').
Proof.
  induction fuel as [|fuel IH]; intros s c k numcpus i to_send one_share vs Hs Hk Hdo Hfuel;
    destruct (inv_cpus _ Hs _ _ Hk) as [Ho Hd Hw Hsh]; assert (Hd1 := Hd); unfold doing_ok in Hd; rewrite Hdo in Hd;
    destruct Hd as (Hn & Hi & Hlen & Hq); simpl; (step; [done|]); rewrite Hdo.
  { replace (i <? to_send) with false by lia. step; [done|]. apply inv_doing; rewrite ?Hdo; try done. unfold doing_ok. simpl. lia. }
  destruct (i <? to_send) eqn:Hlt; [|step; [done|]; apply inv_doing; rewrite ?Hdo; try done; unfold doing_ok; simpl; lia].
  destruct (last (c_runqueue k)) as [t|] eqn:Hlast; [|apply last_None in Hlast; rewrite Hlast in Hq; simpl in Hq; lia].
  step; [done|]. step; [done|]. apply last_Some in Hlast as [q Hlast].
  set (k' := with_doing _ _).
  assert (Hrem : removelast (c_runqueue k) = q) by (by rewrite Hlast, removelast_last).
  eapply (IH _ c k'); [|by apply (cpu_put_same _ _ _ k)|done|lia].
  apply (inv_inside s c k k' (Queue c) (Victim c) [t] (threads s)); try done.
  - simpl. by rewrite Hrem, Hlast, Permutation_app_comm.
  - simpl. by rewrite Hdo.
  - intros [] ??; simpl; intros; simplify_eq/=; by rewrite ?Hdo.
  - intros t1 th _ Hth Hf. by exists th.
  - split; [done| | |done].
    + unfold doing_ok. simpl. rewrite Hrem, length_insert. rewrite Hlast, length_app in Hq. simpl in *. lia.
    + unfold wakes. simpl. rewrite (busy_awake _ _ _ Hs Hk); [done|congruence].
Qed.

Lemma send_loop_inv fuel : forall s c me i numcpus j to_send one_share vs,
  inv s -> allcpus s !! c = Some me -> c_doing me = Send numcpus j to_send one_share vs -> i <> c -> (i < length (allcpus s))%nat ->
  to_send <= Z.of_nat fuel -> wp (send_loop fuel c i) s (fun _ s' => inv s').
Proof.
  induction fuel as [|fuel IH]; intros s c me i numcpus j to_send one_share vs Hs Hme Hdo Hne Hi Hfuel;
    destruct (inv_cpus _ Hs _ _ Hme) as [Ho Hd Hw Hsh]; unfold doing_ok in Hd; rewrite Hdo in Hd;
    destruct Hd as (Hn & Hts); apply lookup_lt_is_Some in Hi as [k Hk]; simpl; (step; [done|]); (step; [done|]); rewrite Hdo;
    (destruct ((tl_count k <? one_share) && (0 <? to_send)) eqn:Hgo;
      [|step; [done|]; apply inv_doing; rewrite ?Hdo; try done; unfold doing_ok; simpl; lia]); [lia|].
  assert (Hawake : c_waiting me = false) by (apply (busy_awake _ _ _ Hs Hme); congruence).
  destruct vs as [|t vs]; [simpl in Hts; lia|]. apply wp_bind.
  destruct (t =? c_curthread me) eqn:Hcur.
  { step; [done|]. eapply (IH _ c (with_doing _ me)); [|by apply (cpu_put_same _ _ _ me)|done|done| |lia].
    - apply inv_doing; rewrite ?Hdo; try done; [simpl; by rewrite Permutation_app_comm|].
      unfold doing_ok. simpl in *. rewrite length_app. simpl. lia.
    - rewrite length_put_cpu. by eauto using cpu_known. }
  set (me' := with_doing (Send numcpus j (to_send - 1) one_share vs) me).
  assert (Hp : members s (Victim c) = t :: vs) by (rewrite (members_view _ _ c me) by done; simpl; by rewrite Hdo).
  destruct (inv_fits _ Hs (Victim c) t) as (th & Hth & (Hst & Hcpu & Hpr) & _); [rewrite Hp; set_solver|].
  assert (Had : adrift t (put_cpu c me' s)).
  { apply (take_out s _ (Victim c) t vs); try done.
    - apply length_put_cpu.
    - intros r. rewrite (members_put_cpu _ _ _ _ _ Hme). case_decide as Hr.
      + rewrite (members_view _ _ _ _ Hr Hme). destruct r; simplify_eq/=; repeat case_decide; simplify_eq; rewrite ?Hdo; done.
      + case_decide; simplify_eq/=; done.
    - apply (cpus_put s _ c me'); [done|done|done|]. split; [done| |unfold wakes; simpl; congruence|done].
      unfold doing_ok. simpl in *. rewrite length_insert. lia. }
  assert (Hk' : allcpus (put_cpu c me' s) !! i = Some k) by (rewrite (cpu_put _ _ _ _ _ Hme); by rewrite decide_False).
  assert (Hdrop : inv (put_thread t (with_cpu (Some i) th) (put_cpu i (queued c t i k) (put_cpu c me' s)))).
  { destruct (inv_cpus _ Hs _ _ Hk) as [Ho1 Hd1 Hw1 Hsh1].
    apply (inv_drop _ t th _ i k); [done..| | | | | |done|done|done|right].
    - apply queued_view.
    - apply queued_curthread.
    - apply queued_doing. by rewrite length_put_cpu.
    - by apply queued_wakes.
    - by rewrite queued_shootdown.
    - intros c1 k1. rewrite (cpu_put _ _ _ _ _ Hme). case_decide as Hc1; intros H1 He; simplify_eq/=; [lia|].
      destruct (ok_cur _ _ _ (inv_cpus _ Hs _ _ H1)) as (th1 & ? & ?). congruence. }
  assert (Hnext : forall s', s' = put_thread t (with_cpu (Some i) th) (put_cpu i (queued c t i k) (put_cpu c me' s)) ->
                    wp (send_loop fuel c i) s' (fun _ s' => inv s')).
  { intros s' ->. eapply (IH _ c me' i); [done| |done|done| |lia].
    - simpl. rewrite list_lookup_insert_ne by done. by apply (cpu_put_same _ _ _ me).
    - simpl. rewrite !length_insert. by eauto using cpu_known. }
  unfold queued in Hnext. replace (Nat.eqb i c) with false in Hnext by (symmetry; by apply Nat.eqb_neq).
  rewrite andb_true_r in Hnext.
  step; [done|]. step; [done|]. step; [done|]. destruct (c_isidle k).
  - unfold ipi_send. step; [done|]. step; [apply (cpu_put_same _ _ _ k Hk')|]. step; [apply (cpu_put_same _ _ _ k Hk')|].
    apply Hnext. by rewrite !put_swap, put_cpu_twice.
  - step. by apply Hnext.
Qed.

Lemma migrate_inv s c k :
  inv s -> allcpus s !! c = Some k ->
  match c_doing k with Count _ _ _ _ | Collect _ _ _ _ _ | Send _ _ _ _ _ => True | _ => False end ->
  wp (migrate c) s (fun _ s' => inv s').
Proof.
  intros Hs Hk Hdo. unfold migrate. step; [done|].
  destruct (inv_cpus _ Hs _ _ Hk) as [Ho Hd Hw Hsh]. unfold doing_ok in Hd.
  destruct (c_doing k) as [|numcpus i my total|numcpus i to_send share vs|numcpus i to_send share vs| |] eqn:Hd1; try done.
  - destruct (Nat.ltb_spec i numcpus) as [Hi|Hi].
    + destruct (lookup_lt_is_Some_2 (allcpus s) i) as [ci Hci]; [lia|]. step; [done|]. step; [done|].
      apply inv_doing; rewrite ?Hd1; try done. unfold doing_ok. simpl.
      destruct (Nat.eqb_spec i c) as [->|]; [|lia]. simplify_eq. split; [lia|]. apply tl_count_le.
    + step; [done|]. set (share := DIVROUNDUP _ _). assert (0 <= share).
      { unfold share, DIVROUNDUP. assert (Hu := u32_range (total + Z.of_nat numcpus - 1)).
        destruct numcpus; [by rewrite Z.div_0_r|]. apply Z.div_pos; lia. }
      apply inv_doing; rewrite ?Hd1; try done; destruct (my <? share) eqn:Hlt; try done.
      unfold doing_ok. simpl. assert (Hu := u32_le (my - share)). lia.
  - apply (collect_loop_inv _ s c k numcpus i to_send share vs); try done. lia.
  - destruct (Nat.ltb i numcpus && (0 <? to_send)) eqn:Hgo.
    + destruct (Nat.eqb_spec i c) as [->|Hne].
      * step; [done|]. apply inv_doing; rewrite ?Hd1; done.
      * apply andb_true_iff in Hgo as [Hgo _]. apply Nat.ltb_lt in Hgo.
        apply (send_loop_inv _ s c k i numcpus i to_send share vs); try done; lia.
    + step; [done|]. set (k' := with_doing _ _).
      apply (inv_inside s c k k' (Victim c) (Queue c) vs (threads s)); try done.
      * simpl. by rewrite Hd1, app_nil_r.
      * simpl. by rewrite Permutation_app_comm.
      * intros [] ??; simpl; intros; simplify_eq/=; by rewrite ?Hd1.
      * intros t th _ Hth Hf. by exists th.
      * split; [done|done| |done]. unfold wakes. simpl. rewrite (busy_awake _ _ _ Hs Hk); [done|congruence].
Qed.

End Migration.

(** ** Interrupts and new CPUs *)

Section Interrupts.
Implicit Types (s : sched) (k : cpu) (c i : nat) (t w a : Z) (th : thread).

Lemma lor_keeps_unidle x code : 0 <= code -> Z.testbit x IPI_UNIDLE = true -> Z.testbit (Z.lor x (2 ^ code)) IPI_UNIDLE = true.
Proof. intros Hc Hx. rewrite testbit_lor by done. by rewrite Hx. Qed.

Lemma ipi_send_inv s i k code :
  inv s -> allcpus s !! i = Some k -> 0 <= code < 32 ->
  wp (ipi_send i code) s (fun _ s' => inv s' /\ length (allcpus s') = length (allcpus s)).
Proof.
  intros Hs Hk Hc. unfold ipi_send. step; [lia|]. step; [done|]. step; [done|]. split; [|apply length_put_cpu].
  apply (inv_same s i k); try done. intros Hw (H1 & H2 & H3)%Hw. split_and!; [done..|].
  destruct H3 as [H3|H3]; [by left|right]. apply (lor_keeps_unidle (c_ipi_pending k) code); [lia|done].
Qed.

Lemma broadcast_inv n : forall s i c code,
  inv s -> (i + n <= length (allcpus s))%nat -> 0 <= code < 32 -> wp (broadcast_from n i c code) s (fun _ s' => inv s').
Proof.
  induction n as [|n IH]; intros s i c code Hs Hn Hc; simpl; [by step|]. apply wp_bind.
  destruct (Nat.eqb i c).
  - step. apply IH; [done|lia|done].
  - destruct (lookup_lt_is_Some_2 (allcpus s) i) as [k Hk]; [lia|].
    eapply wp_mono; [by apply (ipi_send_inv s i k)|]. intros ? s' [? ?]. apply IH; [done|lia|done].
Qed.

Lemma ipi_inv s c k :
  inv s -> allcpus s !! c = Some k -> c_waiting k = false -> wp (interprocessor_interrupt c) s (fun _ s' => inv s').
Proof.
  intros Hs Hk Hwait. unfold interprocessor_interrupt. step; [done|].
  destruct (inv_cpus _ Hs _ _ Hk) as [Ho Hd Hw Hsh]. destruct (_ || _).
  { step; [done|]. by apply (inv_same s c k). }
  assert (Hfin : inv (put_cpu c (with_ipi 0 k) s)).
  { apply (inv_same s c k); try done. unfold wakes. simpl. congruence. }
  apply wp_bind. destruct (Z.testbit _ _).
  - rewrite Hsh. simpl. step. step; [done|]. step; [by apply (cpu_put_same _ _ _ k)|]. rewrite put_cpu_twice.
    replace (with_ipi 0 (with_shootdown [] k)) with (with_ipi 0 k); [done|]. destruct k; simplify_eq/=. done.
  - step. step; [done|]. done.
Qed.

Lemma hardclock_inv s c k v :
  inv s -> allcpus s !! c = Some k -> c_waiting k = false -> c_doing k = Thread -> Pt.lru_update_cnt (vm s) = Ret (tt, v) ->
  wp (hardclock c) s (fun _ s' => inv s').
Proof.
  intros Hs Hk Hwait Hdo Hv. unfold hardclock. apply wp_bind. exists tt, (set_vm v s).
  split; [by apply (zoom_Ret vm set_vm _ s tt v)|].
  assert (Hs1 : inv (set_vm v s)).
  { destruct Hs as [H1 H2 H3 H4]. split; [done..|]. intros c1 k1 Hk1. by destruct (H4 c1 k1 Hk1). }
  step; [done|]. set (k1 := with_hardclocks _ k). step; [by apply (cpu_put_same _ _ _ k)|].
  assert (Hgoal : forall (a : activity), victims a = [] -> woken a = [] -> doing_ok (length (allcpus s)) (with_doing a k1) ->
            inv (put_cpu c (with_doing a k1) (set_vm v s))).
  { intros a Hva Hwa Hok. apply (inv_same (set_vm v s) c k); try done.
    - intros []; simpl; intros; rewrite ?Hdo, ?Hva, ?Hwa; done.
    - unfold wakes. simpl. congruence. }
  destruct (_ =? 0).
  - unfold thread_consider_migration. step. step; [by apply (cpu_put_same _ _ _ k)|]. rewrite put_cpu_twice. apply Hgoal; [done..|].
    unfold doing_ok. simpl. rewrite length_insert. lia.
  - step; [by apply (cpu_put_same _ _ _ k)|]. rewrite put_cpu_twice. by apply Hgoal.
Qed.

Lemma hardclock_end_inv s c k :
  inv s -> allcpus s !! c = Some k -> c_doing k = Yield -> wp (hardclock_end c) s (fun _ s' => inv s').
Proof.
  intros Hs Hk Hdo. unfold hardclock_end. step; [done|]. step; [done|]. apply wp_bind.
  assert (Hy : wp (thread_yield c) (put_cpu c (with_doing Thread k) s) (fun _ s' => inv s')).
  { eapply yield_inv; [|by apply (cpu_put_same _ _ _ k)|done]. apply (inv_same s c k); try done.
    - intros []; simpl; rewrite ?Hdo; done.
    - unfold wakes. simpl. rewrite (busy_awake _ _ _ Hs Hk); congruence. }
  destruct (_ =? 0); [unfold schedule|]; step; done.
Qed.

Lemma inv_new_cpu s a th :
  inv s -> threads s !! a = None -> t_state th = S_READY -> t_cpu th = Some (length (allcpus s)) -> attached th ->
  inv (put_thread a th (set_cpus (allcpus s ++ [new_cpu a]) s)).
Proof.
  intros Hs Ha Hst Hcpu Hpr. set (n := length (allcpus s)) in *. set (s' := put_thread _ _ _).
  assert (Hnone : allcpus s !! n = None) by (apply lookup_ge_None_2; lia).
  assert (Hlk : forall c, allcpus s' !! c = if decide (c = n) then Some (new_cpu a) else allcpus s !! c).
  { intros c. simpl. case_decide as Hc; [subst c; by apply list_lookup_middle|].
    destruct (decide (c < n)%nat); [by apply lookup_app_l|].
    rewrite lookup_ge_None_2, (lookup_ge_None_2 (allcpus s)); [done|lia|]. rewrite length_app. simpl. fold n. lia. }
  assert (Hm : forall r, members s' r = if decide (r = Run n) then [a] else members s r).
  { intros [c|c|c|c|c|w]; try done; unfold members, of_cpu; rewrite Hlk; repeat case_decide; simplify_eq; rewrite ?Hnone; done. }
  assert (Hnot : forall p, a ∉ members s p).
  { intros p (th1 & H1 & _)%(inv_fits _ Hs). congruence. }
  assert (Hrun : members s (Run n) = []) by (simpl; unfold of_cpu; by rewrite Hnone).
  assert (Hlen : length (allcpus s') = S n) by (simpl; rewrite length_app; simpl; fold n; lia).
  assert (Hth : forall t, t <> a -> threads s' !! t = threads s !! t) by (intros; simpl; by apply lookup_insert_ne).
  destruct (inv_placed _ Hs) as [Hnd Hone]. split.
  - split.
    + intros r. rewrite Hm. case_decide; [apply NoDup_singleton|apply Hnd].
    + intros p q t. rewrite !Hm. repeat case_decide; subst; [done|set_solver..|apply Hone].
  - intros p t. rewrite Hm. case_decide.
    + intros ->%list_elem_of_singleton. exists th. unfold s'. rewrite thread_put_same. split_and!; [done| |exists n].
      * subst p. simpl. auto.
      * split; [done|]. fold s'. lia.
    + intros Ht. destruct (inv_fits _ Hs _ _ Ht) as (th1 & H1 & Hf & c1 & Hc1 & Hl). exists th1.
      rewrite Hth by (intros ->; by destruct (Hnot p)). split_and!; [done..|]. exists c1. split; [done|]. rewrite Hlen. fold n in Hl. lia.
  - intros t Ht. destruct (decide (t = a)) as [->|Hne]; [exists (Run n); rewrite Hm, decide_True; set_solver|].
    rewrite Hth in Ht by done. destruct (inv_known _ Hs t Ht) as [p Hp]. exists p. rewrite Hm. case_decide; [subst p; rewrite Hrun in Hp; by apply elem_of_nil in Hp|done].
  - intros c k. rewrite Hlk. case_decide as Hc.
    + intros [= <-]. subst c. split; [|done..]. exists th. unfold s'. by rewrite thread_put_same.
    + intros Hk. destruct (inv_cpus _ Hs _ _ Hk) as [(th1 & H1 & Hc1) Hd Hw Hsh]. split; [| |done..].
      * exists th1. rewrite Hth; [done|]. intros He. congruence.
      * rewrite Hlen. fold n in Hd. unfold doing_ok in *. destruct (c_doing k); [done|lia|lia|lia|done|done].
Qed.

Lemma cpu_create_inv s a stack kproc :
  inv s -> a <> 0 -> threads s !! a = None -> (length (allcpus s) = 0%nat \/ stack <> 0) -> kproc <> 0 ->
  wp (cpu_create a true stack kproc 0) s (fun c s' => inv s' /\ c = length (allcpus s) /\ allcpus s' = allcpus s ++ [new_cpu a] /\
    (exists th, threads s' !! a = Some th /\ t_proc th = kproc) /\ wchans s' = wchans s).
Proof.
  intros Hs Ha Hfree Hstack Hpr. unfold cpu_create, thread_create. step. apply wp_bind. replace (a =? 0) with false by lia. simpl.
  step. step. replace (a =? 0) with false by lia. step.
  match goal with |- wp _ ?x _ => change x with (put_thread a (MkThread (Some "NEW") S_READY 0 None 0 1 [] false) (set_cpus (allcpus s ++ [new_cpu a]) s)) end.
  step; [apply thread_put_same|]. rewrite put_thread_twice. apply wp_bind.
  assert (Hfin : forall x, t_state x = S_READY -> t_cpu x = Some (length (allcpus s)) -> (t_stack x = 0 \/ t_guard x = guard_band) -> t_exiting x = false ->
            wp (on_thread a (with_proc kproc);; mret (length (allcpus s))) (put_thread a x (set_cpus (allcpus s ++ [new_cpu a]) s))
              (fun c s' => inv s' /\ c = length (allcpus s) /\ allcpus s' = allcpus s ++ [new_cpu a] /\
                (exists th, threads s' !! a = Some th /\ t_proc th = kproc) /\ wchans s' = wchans s)).
  { intros x Hx Hxc Hxg Hxe. step; [apply thread_put_same|]. rewrite put_thread_twice. step. split_and!; [|done|done| |done].
    - apply inv_new_cpu; try done. split; [done|]. simpl. by rewrite Hxe.
    - eexists. by rewrite thread_put_same. }
  destruct (Nat.eqb_spec (length (allcpus s)) 0) as [|Hne]; [step; apply Hfin; auto|].
  replace (stack =? 0) with false by lia. step; [apply thread_put_same|]. rewrite put_thread_twice.
  unfold thread_checkstack_init. step; [apply thread_put_same|]. rewrite put_thread_twice. apply Hfin; auto.
Qed.

(** Channels without threads come and go. *)
Lemma inv_chan s x :
  inv s -> (forall w, from_option wc_threads [] (x !! w) = from_option wc_threads [] (wchans s !! w)) -> inv (set_wchans x s).
Proof.
  intros Hs Hx. assert (Hm : forall r, members (set_wchans x s) r = members s r) by (intros []; try done; apply Hx).
  destruct Hs as [[H1 H1'] H2 H3 H4]. split; [split| | |].
  - intros p. rewrite Hm. apply H1.
  - intros p q t. rewrite !Hm. apply H1'.
  - intros p t. rewrite Hm. intros Ht. by destruct (H2 p t Ht) as (th & ? & ? & ?); exists th.
  - intros t Ht. destruct (H3 t Ht) as [p Hp]. exists p. by rewrite Hm.
  - intros c k Hk. by destruct (H4 c k Hk).
Qed.

Lemma wchan_create_inv s a name : inv s -> wchans s !! a = None -> wp (wchan_create a name) s (fun _ s' => inv s').
Proof.
  intros Hs Ha. unfold wchan_create. case_match; [by step|]. step. step. apply inv_chan; [done|]. intros w.
  rewrite lookup_insert. case_decide; [subst w; by rewrite Ha|done].
Qed.

Lemma wchan_destroy_inv s w x : inv s -> wchans s !! w = Some x -> wc_threads x = [] -> wp (wchan_destroy w) s (fun _ s' => inv s').
Proof.
  intros Hs Hw Hx. unfold wchan_destroy. step; [done|]. step; [by rewrite Hx|]. step. apply inv_chan; [done|]. intros w'.
  destruct (decide (w = w')) as [<-|]; [by rewrite lookup_delete_eq, Hw|by rewrite lookup_delete_ne].
Qed.

End Interrupts.

(** ** Every interleaving *)

Section Reachable.
Implicit Types (s : sched) (k : cpu) (c : nat) (t w a : Z) (e : event).

Lemma ignore_inv {A} (m : M sched A) s : wp m s (fun _ s' => inv s') -> wp (ignore m) s (fun _ s' => inv s').
Proof. intros H. apply wp_bind. eapply wp_mono; [done|]. intros ? s' ?. by step. Qed.

Lemma exec_inv s e : inv s -> allowed s e -> wp (exec e) s (fun _ s' => inv s').
Proof.
  intros Hs (k & Hk & Hhalt & Hdo & Hal).
  assert (Hint : forall m : M sched unit,
    (forall s1, inv s1 -> s1 = put_cpu (actor e) (with_waiting false k) s -> wp m s1 (fun _ s' => inv s')) ->
    wp (interrupt (actor e);; m) s (fun _ s' => inv s')).
  { intros m Hm. apply wp_bind. eapply wp_mono; [by apply (interrupt_inv s _ k)|]. intros ? s1 [-> ?]. by apply Hm. }
  assert (Hk1 := cpu_put_same _ (with_waiting false k) s k Hk).
  destruct e; simpl in *.
  - by apply (yield_inv s c k).
  - by apply (exit_inv s c k).
  - by apply (exit_end_inv s c k).
  - destruct Hal as [? ?]. apply ignore_inv. by apply (fork_inv s c k).
  - destruct Hal as ([Hid _] & (H1 & H2 & H3) & Hw). unfold wchan_sleep.
    step; [by rewrite H1|]. step; [done|]. step; [by rewrite H3|]. by apply (sleep_inv s c k).
  - destruct Hal as [? ?]. apply Hint. intros s1 Hs1 ->. by apply (wakeone_inv _ c (with_waiting false k)).
  - destruct Hal as [? ?]. apply Hint. intros s1 Hs1 ->. by apply (wakeall_inv _ c (with_waiting false k)).
  - destruct Hdo as [l Hdo]. by apply (wakenext_inv s c k l).
  - destruct Hal as [? ?]. by apply (pick_inv s c k).
  - destruct Hal as [v Hv]. apply Hint. intros s1 Hs1 ->. by apply (hardclock_inv _ c (with_waiting false k) v).
  - by apply (migrate_inv s c k).
  - by apply (hardclock_end_inv s c k).
  - apply Hint. intros s1 Hs1 ->. unfold timerclock. step. by apply (wakeall_inv _ c (with_waiting false k)).
  - apply Hint. intros s1 Hs1 ->. by apply (ipi_inv _ c (with_waiting false k)).
  - unfold thread_shutdown, ipi_broadcast. step. by apply broadcast_inv.
  - destruct Hal as (_ & Ha & -> & Hfree & Hst & Hpr & ->). apply ignore_inv.
    eapply wp_mono; [apply cpu_create_inv; [done|done|by apply Hfree|by right|done]|]. by intros ? s' [? _].
  - destruct Hal as [_ Ha]. apply ignore_inv. by apply wchan_create_inv.
  - destruct Hal as (_ & x & ? & ?). by apply (wchan_destroy_inv s w x).
Qed.

Lemma inv_empty v : inv (MkSched ∅ [] ∅ 0 v).
Proof.
  assert (Hm : forall p, members (MkSched ∅ [] ∅ 0 v) p = []) by (by intros []).
  split.
  - split; [intros p; rewrite Hm; apply NoDup_nil_2|]. intros p q t. rewrite Hm. by intros ?%elem_of_nil.
  - intros p t. rewrite Hm. by intros ?%elem_of_nil.
  - intros t [th Ht]. done.
  - done.
Qed.

Lemma booted_inv s : booted s -> inv s.
Proof.
  intros (v & a & w & kproc & s1 & Ha & Hpr & H1 & H2).
  assert (Hinv : inv s1 /\ wchans s1 = ∅).
  { eapply (wp_Ret _ _ (fun _ s1 => inv s1 /\ wchans s1 = ∅)); [|exact H1]. unfold thread_bootstrap. step. apply wp_bind.
    eapply wp_mono; [by apply cpu_create_inv; [apply (inv_empty v)|..]; auto|].
    intros c s2 (Hs2 & -> & Hcpus & (th & Hth & Hp) & Hw). simpl in *.
    step; [by rewrite Hcpus|]. step; [done|]. step; [lia|]. step; [lia|done]. }
  destruct Hinv as [Hs1 Hw1]. destruct (Z.eqb_spec w 0) as [->|Hne]; [done|].
  eapply (wp_Ret _ _ (fun _ s => inv s)); [|exact H2].
  assert (Hc := wchan_create_inv s1 w "lbolt" Hs1 ltac:(by rewrite Hw1)). unfold hardclock_bootstrap. apply wp_bind.
  revert Hc. unfold wchan_create. replace (w =? 0) with false by lia. intros Hc.
  step. step. step. replace (w =? 0) with false by lia. step.
  eapply wp_Ret in Hc; [|done]. destruct Hc as [G1 G2 G3 G4]. split; [done..|]. intros c k Hk. by destruct (G4 c k Hk).
Qed.

Lemma sched_inv_reached s : reachable s -> inv s.
Proof.
  induction 1 as [s Hb|s e s' _ IH Hal Hex]; [by apply booted_inv|]. eapply (wp_Ret _ s (fun _ s => inv s)); [|exact Hex].
  by apply exec_inv.
Qed.

(** Other callers of [wchan_sleep] fail one of its assertions. *)
Lemma sleep_panics s x c w : ~ may_sleep x -> exists why, wchan_sleep x c w s = Panic why.
Proof.
  intros Hx. unfold wchan_sleep. destruct x as [[] [] n]; simpl; try (by eexists).
  unfold mbind, M_bind, kassert. simpl. destruct (Z.eqb_spec n 1) as [->|]; [by destruct Hx|by eexists].
Qed.

Lemma owner s c k t : inv s -> allcpus s !! c = Some k -> t = c_curthread k -> exists th, threads s !! t = Some th /\ t_cpu th = Some c.
Proof. intros Hs Hk ->. exact (ok_cur _ _ _ (inv_cpus _ Hs _ _ Hk)). Qed.

(** [n] times [thread_yield] on CPU [c]. *)
Fixpoint yields (n : nat) (c : nat) : M sched unit := match n with O => mret tt | S n' => thread_yield c;; yields n' c end.

Lemma yields_run l1 : forall s c k t l2,
  inv s -> allcpus s !! c = Some k -> c_isidle k = false -> c_doing k = Thread -> c_runqueue k = l1 ++ t :: l2 ->
  wp (yields (S (length l1)) c) s (fun _ s' => exists k', allcpus s' !! c = Some k' /\ c_curthread k' = t /\
    c_runqueue k' = l2 ++ c_curthread k :: l1 /\ c_isidle k' = false).
Proof.
  induction l1 as [|x l1 IH]; intros s c k t l2 Hs Hk Hid Hdo Hq; simpl; apply wp_bind;
    (eapply wp_mono; [by apply (yield_run s c k)|]); intros ? s1 [Hs1 Hnext].
  - step. destruct (Hnext Hid _ _ Hq) as [p Hp]. by eexists.
  - destruct (Hnext Hid _ _ Hq) as [p Hp]. eapply wp_mono; [apply (IH s1 c _ t (l2 ++ [c_curthread k]) Hs1 Hp); [done|done|]|].
    + simpl. by rewrite <- app_assoc.
    + intros ? s2 (k' & H1 & H2 & H3 & H4). exists k'. split_and!; [done|done| |done]. rewrite H3. simpl. by rewrite <- app_assoc.
Qed.

End Reachable.

(** ** Properties *)

Section Properties.
Implicit Types (s : sched) (k : cpu) (c : nat) (t : Z) (e : event).

(** C3 sched_reachable. In every state reachable by any interleaving of the steps of
    any number of CPUs, [inv] holds: each thread is in exactly one place (running, in a
    run queue, between two CPUs, taken off a channel by [wchan_wakeall], dead or asleep
    on one channel), its state, CPU, process and stack guard agree with it, also if
    preempted inside [thread_exit], and a waiting CPU with something to run has an
    interrupt pending.  Every step that [allowed] permits returns: no assertion on
    threads, stacks, processes and lists in [thread.c] fails and no list is empty where
    a thread is taken from it.  A caller of [wchan_sleep] that is an interrupt handler,
    does not hold the channel's lock or holds another spinlock (as [swap_out] does)
    panics; [allowed] excludes it.  Also conditions: threads leave their process in
    [thread_exit] only (not as [sys__exit] does, see [exit_panics]), [lru_update_cnt]
    returns, memory for a new CPU.  What [as_activate] does to the TLB (it can panic,
    [reset_tlb_pid_different_panics]) is not part of it. *)
Theorem sched_reachable s :
  reachable s ->
  inv s /\ (forall e, allowed s e -> exists s', exec e s = Ret (tt, s')) /\
  (forall x c w, ~ may_sleep x -> exists why, exec (ESleep x c w) s = Panic why).
Proof.
  intros Hs%sched_inv_reached. split; [done|]. split.
  - intros e He. destruct (exec_inv _ _ Hs He) as ([] & s' & Hr & _). by exists s'.
  - intros x c w Hx. by apply sleep_panics.
Qed.

(** C4 no_shared_stack. Two CPUs never use the stack of the same thread, and no other
    CPU can get at it: the current thread of a CPU, also of an idle one whose thread sleeps, has
    been woken up or is dead, is not the current thread of another CPU and is in no other
    CPU's run queue, zombie list or list of threads to migrate. *)
Theorem no_shared_stack s c1 c2 k1 k2 :
  reachable s -> c1 <> c2 -> allcpus s !! c1 = Some k1 -> allcpus s !! c2 = Some k2 ->
  c_curthread k1 <> c_curthread k2 /\ (c_curthread k1 ∉ c_runqueue k2) /\ (c_curthread k1 ∉ c_zombies k2) /\
  (c_curthread k1 ∉ victims (c_doing k2)).
Proof.
  intros Hs%sched_inv_reached Hne H1 H2.
  assert (Hcpu : forall th, threads s !! c_curthread k1 = Some th -> t_cpu th = Some c2 -> False).
  { intros th Ht Hc. destruct (owner _ _ _ _ Hs H1 eq_refl) as (th1 & ? & ?). congruence. }
  assert (Hmem : forall p, at_cpu p = Some c2 -> (forall th, fits th p -> t_cpu th = Some c2) -> c_curthread k1 ∉ view k2 p).
  { intros p Hp Hf Hin. rewrite <- (members_view s p c2 k2 Hp H2) in Hin. destruct (inv_fits _ Hs _ _ Hin) as (th & Ht & Hfit & _).
    exact (Hcpu th Ht (Hf _ Hfit)). }
  split_and!.
  - intros He. destruct (owner _ _ _ _ Hs H2 He) as (th & Ht & Hc). exact (Hcpu th Ht Hc).
  - apply (Hmem (Queue c2)); [done|]. by intros th (_ & ? & _).
  - apply (Hmem (Zombie c2)); [done|]. by intros th (_ & ? & _).
  - apply (Hmem (Victim c2)); [done|]. by intros th (_ & ? & _).
Qed.

(** C15 no_lost_wakeup. A CPU that is stopped in [cpu_idle] while its run queue holds a
    thread has an interprocessor interrupt pending, whoever queued the thread; unless the interrupt
    is a request to halt, the CPU handles it and then runs the first thread of the
    queue. *)
Theorem no_lost_wakeup s c k t q :
  reachable s -> allcpus s !! c = Some k -> c_waiting k = true -> c_runqueue k = t :: q ->
  Z.testbit (c_ipi_pending k) IPI_PANIC = false -> Z.testbit (c_ipi_pending k) IPI_OFFLINE = false ->
  Z.testbit (c_ipi_pending k) IPI_UNIDLE = true /\
  exists s1 s2 k2, exec (EIpi c) s = Ret (tt, s1) /\ exec (EPick c) s1 = Ret (tt, s2) /\
    allcpus s2 !! c = Some k2 /\ c_curthread k2 = t /\ c_runqueue k2 = q /\ c_isidle k2 = false.
Proof.
  intros Hs%sched_inv_reached Hk Hwait Hq Hp Ho. destruct (inv_cpus _ Hs _ _ Hk) as [Hown Hd Hw Hsh].
  destruct (Hw Hwait) as (Hid & Hdo & [He|Hbit]); [congruence|]. split; [done|].
  set (k1 := with_ipi 0 (with_shootdown [] (with_waiting false k))).
  assert (Hipi : exec (EIpi c) s = Ret (tt, put_cpu c k1 s)).
  { assert (Hwp : wp (exec (EIpi c)) s (fun _ s' => s' = put_cpu c k1 s)).
    { simpl. unfold interrupt. step; [done|]. unfold interprocessor_interrupt. step; [by apply (cpu_put_same _ _ _ k)|].
      change (c_ipi_pending (with_waiting false k)) with (c_ipi_pending k). rewrite Hp, Ho. simpl orb. cbv iota. apply wp_bind.
      assert (Hsame : with_shootdown [] (with_waiting false k) = with_waiting false k) by (destruct k; by simplify_eq/=).
      unfold k1. rewrite Hsame. destruct (Z.testbit _ IPI_TLBSHOOTDOWN).
      - change (c_shootdown (with_waiting false k)) with (c_shootdown k). rewrite Hsh. simpl for_each. step. step; [by apply (cpu_put_same _ _ _ k)|].
        rewrite put_cpu_twice, Hsame. step; [by apply (cpu_put_same _ _ _ k)|]. by rewrite put_cpu_twice.
      - step. step; [by apply (cpu_put_same _ _ _ k)|]. by rewrite put_cpu_twice. }
    destruct Hwp as ([] & s1 & Hr & ->). done. }
  assert (Hs1 : inv (put_cpu c k1 s)).
  { by apply (inv_same s c k). }
  destruct (pick_run _ c k1 Hs1 (cpu_put_same _ _ _ k Hk) Hid eq_refl Hdo) as ([] & s2 & Hr & _ & Hc).
  destruct (Hc t q Hq) as [p Hpc]. exists (put_cpu c k1 s), s2, (switched p t q k1). split_and!; [done|exact Hr| |done..]. rewrite Hpc.
  apply list_lookup_insert_eq. rewrite length_put_cpu. by eauto using cpu_known.
Qed.

(** C34 yield_round_robin. The scheduler is round robin: when the current thread of a CPU
    and those after it keep yielding, the thread at position [n] of the run queue runs after
    [n+1] calls, and the queue then holds the threads behind it, the thread that ran
    first, and the threads that were ahead, in this order. *)
Theorem yield_round_robin s c k l1 t l2 :
  reachable s -> allcpus s !! c = Some k -> c_isidle k = false -> c_doing k = Thread -> c_runqueue k = l1 ++ t :: l2 ->
  exists s' k', yields (S (length l1)) c s = Ret (tt, s') /\ allcpus s' !! c = Some k' /\ c_curthread k' = t /\
    c_runqueue k' = l2 ++ c_curthread k :: l1 /\ c_isidle k' = false.
Proof.
  intros Hs%sched_inv_reached Hk Hid Hdo Hq. destruct (yields_run l1 s c k t l2 Hs Hk Hid Hdo Hq) as ([] & s' & Hr & k' & Hk').
  by exists s', k'.
Qed.

End Properties.

(** ** A machine with two CPUs *)

Module SchedSample.

(** A kernel before its page table exists. *)
Definition vm0 : kst := Coremap.Cm.sample_boot.

Definition run_boot (a w kproc : Z) : sched :=
  match thread_bootstrap a true kproc 0 (MkSched ∅ [] ∅ 0 vm0) with
  | Ret (_, s) => match hardclock_bootstrap w s with Ret (_, s') => s' | _ => s end
  | _ => MkSched ∅ [] ∅ 0 vm0
  end.

Definition boot : sched := run_boot 0x80001000 0x80002000 0x80003000.

Definition run (e : event) (s : sched) : sched := match exec e s with Ret (_, s') => s' | _ => s end.

Lemma run_ret e s : is_ret (exec e s) = true -> exec e s = Ret (tt, run e s).
Proof. unfold run. by destruct (exec e s) as [[[] s']| | |]. Qed.

Lemma boot_reachable : reachable boot.
Proof.
  apply reach_boot. exists vm0, 0x80001000, 0x80002000, 0x80003000.
  exists (match thread_bootstrap 0x80001000 true 0x80003000 0 (MkSched ∅ [] ∅ 0 vm0) with Ret (_, s) => s | _ => boot end).
  split_and!; [lia|lia|vm_compute; reflexivity|vm_compute; reflexivity].
Qed.

Lemma run_reachable s e : reachable s -> allowed s e -> is_ret (exec e s) = true -> reachable (run e s).
Proof. intros. by eapply reach_step, run_ret. Qed.

Definition CHANNEL : Z := 0x80006000.
Definition SECOND : Z := 0x80004000.

(** The second CPU, a channel, the first thread of the second CPU asleep on it, and
    woken up by the first CPU. *)
Definition caller : context := Context false true 1.
Definition s1 : sched := run (ECpu 0 SECOND true 0x80005000 0x80003000 0) boot.
Definition s2 : sched := run (EChannel 0 CHANNEL "disk") s1.
Definition s3 : sched := run (ESleep caller 1 CHANNEL) s2.
Definition s4 : sched := run (EWakeone caller 0 CHANNEL) s3.

(** Two more threads on the first CPU. *)
Definition f1 : sched := run (EFork 0 0x80010000 true 0x80011000 0 0) boot.
Definition f2 : sched := run (EFork 0 0x80020000 true 0x80021000 0 0) f1.

Lemma s1_reachable : reachable s1.
Proof.
  apply run_reachable; [apply boot_reachable| |vm_compute; reflexivity].
  eexists. split; [vm_compute; reflexivity|]. split_and!; try (vm_compute; reflexivity); try done.
Qed.

Lemma s2_reachable : reachable s2.
Proof.
  apply run_reachable; [apply s1_reachable| |vm_compute; reflexivity].
  eexists. split; [vm_compute; reflexivity|]. split_and!; vm_compute; reflexivity.
Qed.

(** The thread that runs is not in [thread_exit]; the caller may sleep. *)
Ltac in_code := split; [vm_compute; reflexivity|eexists; split; vm_compute; reflexivity].

Lemma s3_reachable : reachable s3.
Proof.
  apply run_reachable; [apply s2_reachable| |vm_compute; reflexivity].
  eexists. split; [vm_compute; reflexivity|]. split; [vm_compute; reflexivity|]. split; [vm_compute; reflexivity|].
  split; [in_code|]. split; [by split_and!|]. eexists. vm_compute. reflexivity.
Qed.

Lemma s4_reachable : reachable s4.
Proof.
  apply run_reachable; [apply s3_reachable| |vm_compute; reflexivity].
  eexists. split; [vm_compute; reflexivity|]. split; [vm_compute; reflexivity|]. split; [vm_compute; reflexivity|].
  split; [done|]. eexists. vm_compute. reflexivity.
Qed.

Lemma f2_reachable : reachable f2.
Proof.
  apply run_reachable; [apply run_reachable; [apply boot_reachable| |vm_compute; reflexivity]| |vm_compute; reflexivity];
    (eexists; split; [vm_compute; reflexivity|]; split; [vm_compute; reflexivity|]; split; [vm_compute; reflexivity|];
     split; [in_code|intros _; vm_compute; reflexivity]).
Qed.

(** A thread that is preempted in the middle of [thread_exit], runs again and dies. *)
Definition e1 : sched := run (EExit 0) f2.
Definition e2 : sched := run (EYield 0) e1.
Definition e3 : sched := run (EYield 0) (run (EYield 0) e2).
Definition e4 : sched := run (EExitEnd 0) e3.

Lemma exit_preempted :
  (t_proc <$> threads e2 !! 0x80001000) = Some 0 /\ (t_exiting <$> threads e2 !! 0x80001000) = Some true /\
  (c_curthread <$> allcpus e2 !! 0%nat) = Some 0x80010000 /\ (c_curthread <$> allcpus e3 !! 0%nat) = Some 0x80001000 /\
  threads e4 !! 0x80001000 = None.
Proof. split_and!; vm_compute; reflexivity. Qed.

(** The CPUs of the two states. *)
Definition cpu_at (s : sched) (c : nat) : cpu := default (new_cpu 0) (allcpus s !! c).

Lemma s4_cpus : allcpus s4 !! 0%nat = Some (cpu_at s4 0) /\ allcpus s4 !! 1%nat = Some (cpu_at s4 1).
Proof. split; vm_compute; reflexivity. Qed.

Lemma f2_cpu : allcpus f2 !! 0%nat = Some (cpu_at f2 0).
Proof. vm_compute. reflexivity. Qed.

Lemma s4_second : c_waiting (cpu_at s4 1) = true /\ c_runqueue (cpu_at s4 1) = [SECOND] /\ c_ipi_pending (cpu_at s4 1) = 4 /\
  c_halted (cpu_at s4 1) = false /\ c_doing (cpu_at s4 1) = Thread.
Proof. split_and!; vm_compute; reflexivity. Qed.

Lemma f2_first : c_isidle (cpu_at f2 0) = false /\ c_doing (cpu_at f2 0) = Thread /\ c_runqueue (cpu_at f2 0) = [0x80010000; 0x80020000].
Proof. split_and!; vm_compute; reflexivity. Qed.

Lemma sched_reachable_witness : reachable s4 /\ exists s', exec (EIpi 1) s4 = Ret (tt, s').
Proof.
  split; [apply s4_reachable|]. apply (proj1 (proj2 (sched_reachable s4 s4_reachable))). destruct s4_second as (_ & _ & _ & ? & ?).
  exists (cpu_at s4 1). split; [apply s4_cpus|]. auto.
Defined.

Lemma no_shared_stack_witness : reachable s4 /\ c_curthread (cpu_at s4 0) <> c_curthread (cpu_at s4 1).
Proof.
  split; [apply s4_reachable|].
  apply (no_shared_stack s4 0 1 (cpu_at s4 0) (cpu_at s4 1) s4_reachable); [done|apply s4_cpus|apply s4_cpus].
Defined.

Lemma no_lost_wakeup_witness : c_waiting (cpu_at s4 1) = true /\ Z.testbit (c_ipi_pending (cpu_at s4 1)) IPI_UNIDLE = true.
Proof.
  destruct s4_second as (Hw & Hq & Hp & _). split; [exact Hw|].
  apply (no_lost_wakeup s4 1 (cpu_at s4 1) SECOND [] s4_reachable); [apply s4_cpus|exact Hw|exact Hq|by rewrite Hp|by rewrite Hp].
Defined.

Lemma yield_round_robin_witness : exists s' k', yields 2 0 f2 = Ret (tt, s') /\ allcpus s' !! 0%nat = Some k' /\ c_curthread k' = 0x80020000.
Proof.
  destruct f2_first as (Hid & Hdo & Hq).
  destruct (yield_round_robin f2 0 (cpu_at f2 0) [0x80010000] 0x80020000 [] f2_reachable f2_cpu Hid Hdo Hq) as (s' & k' & H1 & H2 & H3 & _).
  exists s', k'. exact (conj H1 (conj H2 H3)).
Defined.

End SchedSample.

End Sched.
