(* ===== verification/Semfs.v ===== *)
(** * The semaphore file system: [kern/fs/semfs]

    [Module Semfs] models [semfs_obj.c], [semfs_vnops.c] and [semfs_fsops.c]: a flat
    directory of semaphores that user programs open as files; reading is P, writing is V.
    A semaphore object lives in the table [semfs_sems] as long as it is in the directory
    or has a vnode; vnodes come and go with their reference counts ([Vnode.v]).

    Sleep locks and condition variables are empty in this configuration, so [cv_wait]
    returns at once and a reader that needs more than the count spins: the outcome
    [Spin].  Whether the allocations succeed, and the addresses of new vnodes, are
    arguments.

    [semfs_ok] is the invariant of the directory, the table of semaphores and the table of
    vnodes; [semfs_reachable] shows that every sequence of operations keeps it. *)

From stdpp Require Import base gmap list strings.
From S2P Require Import Prelude Sync CString Vnode VfsList.
Import Str VfsList.

Module Semfs.

(** ** Data *)

(** [struct semfs_sem], without its lock and condition variable *)
Record semfs_sem := MkSem { sems_count : Z; sems_hasvnode : bool; sems_linked : bool }.

(** [struct semfs_direntry] *)
Record semfs_direntry := MkDent { semd_name : list Z; semd_semnum : Z }.

(** [struct semfs]; [semv_semnum] is that field of the vnodes of this file system, which
    are at the same address as their [struct semfs_vnode]. *)
Record semfs := MkSemfs {
  s_vst : vst;
  semv_semnum : gmap Z Z;
  semfs_vnodes : list Z;
  semfs_sems : list (option semfs_sem);
  semfs_dents : list (option semfs_direntry) }.

Definition SEMFS_ROOTDIR : Z := 0xffffffff.

(** The addresses of the operation tables and of the file system. *)
Definition semfs_dirops : Z := 0x80230000.
Definition semfs_semops : Z := 0x80230100.
Definition semfs_fs : Z := 0x80230200.

Definition set_s_vst (t : vst) (s : semfs) : semfs := MkSemfs t (semv_semnum s) (semfs_vnodes s) (semfs_sems s) (semfs_dents s).
Definition set_semnums (m : gmap Z Z) (s : semfs) : semfs := MkSemfs (s_vst s) m (semfs_vnodes s) (semfs_sems s) (semfs_dents s).
Definition set_vnodes (l : list Z) (s : semfs) : semfs := MkSemfs (s_vst s) (semv_semnum s) l (semfs_sems s) (semfs_dents s).
Definition set_sems (l : list (option semfs_sem)) (s : semfs) : semfs := MkSemfs (s_vst s) (semv_semnum s) (semfs_vnodes s) l (semfs_dents s).
Definition set_dents (l : list (option semfs_direntry)) (s : semfs) : semfs := MkSemfs (s_vst s) (semv_semnum s) (semfs_vnodes s) (semfs_sems s) l.

Definition with_count (n : Z) (x : semfs_sem) : semfs_sem := MkSem n (sems_hasvnode x) (sems_linked x).
Definition with_hasvnode (b : bool) (x : semfs_sem) : semfs_sem := MkSem (sems_count x) b (sems_linked x).
Definition with_linked (b : bool) (x : semfs_sem) : semfs_sem := MkSem (sems_count x) (sems_hasvnode x) b.

Definition in_vst {A} (c : M vst A) : M semfs A := zoom s_vst set_s_vst c.

(** [semv->semv_semnum] *)
Definition get_semnum (v : Z) : M semfs Z := s ← get; valid (semv_semnum s !! v) "semv".

(** [semfs_semarray_set(semfs_sems, i, x)] *)
Definition put_sem (i : Z) (x : option semfs_sem) : M semfs unit := modify (fun s => set_sems (arr_set (semfs_sems s) i x) s).
Definition put_dent (i : Z) (x : option semfs_direntry) : M semfs unit := modify (fun s => set_dents (arr_set (semfs_dents s) i x) s).

(** [!strcmp(a, b)] *)
Definition same_name (a b : list Z) : M semfs bool := r ← lift (strcmp a b); mret (r =? 0).

Definition DOT : list Z := [46; 0].
Definition DOTDOT : list Z := [46; 46; 0].

Definition is_dot (name : list Z) : M semfs bool :=
  x ← same_name name DOT;
  if x : bool then mret true else same_name name DOTDOT.

(** What the allocations of an operation return: whether the semaphore, room in its
    table, the directory entry and room in the directory are available, the address of
    a new vnode (0 for NULL) and whether the table of vnodes has room. *)
Record memory := Memory { ok_sem : bool; ok_table : bool; ok_dent : bool; ok_dir : bool; a_vnode : Z; ok_vnodes : bool }.

(** ** Objects: [semfs_obj.c] *)

Definition semfs_sem_create (ok : bool) : M semfs (option semfs_sem) := mret (if ok then Some (MkSem 0 false false) else None).

(** The index of the first [NULL]. *)
Fixpoint first_null {A} (l : list (option A)) (i : Z) : option Z :=
  match l with
  | [] => None
  | None :: _ => Some i
  | Some _ :: l' => first_null l' (i + 1)
  end.

(** The error code and [*ret]. *)
Definition semfs_sem_insert (room : bool) (sem : semfs_sem) : M semfs (Z * Z) :=
  s ← get;
  let num := Z.of_nat (length (semfs_sems s)) in
  if num =? SEMFS_ROOTDIR then mret (ENOSPC, 0)
  else
    match first_null (semfs_sems s) 0 with
    | Some i => put_sem i (Some sem);; mret (0, i)
    | None =>
        if room then modify (fun s => set_sems (semfs_sems s ++ [Some sem]) s);; mret (0, num)
        else mret (ENOMEM, 0)
    end.

Definition semfs_direntry_create (ok : bool) (name : list Z) (semnum : Z) : M semfs (option semfs_direntry) :=
  if ok then n ← lift (strlen name); mret (Some (MkDent (take (Z.to_nat n) name ++ [0]) semnum)) else mret None.

(** ** Semaphores: [semfs_vnops.c] *)

(** [semfs_semarray_get], whose result the callers dereference. *)
Definition semfs_getsembynum (semnum : Z) : M semfs semfs_sem :=
  s ← get;
  o ← valid (arr_get (semfs_sems s) semnum) "semfs_sems";
  valid o "sem".

Definition semfs_getsem (v : Z) : M semfs semfs_sem := n ← get_semnum v; semfs_getsembynum n.

(** [cv_signal] and [cv_broadcast], without the option [synch]. *)
Definition cv_signal : M semfs unit := mret tt.
Definition cv_broadcast : M semfs unit := mret tt.

Definition semfs_wakeup (sem : semfs_sem) (newcount : Z) : M semfs unit :=
  if (0 <? sems_count sem) || (newcount =? 0) then mret tt
  else if newcount =? 1 then cv_signal
  else cv_broadcast.

Lemma wakeup_run s sem newcount : semfs_wakeup sem newcount s = Ret (tt, s).
Proof. unfold semfs_wakeup. by repeat case_match. Qed.

Definition semfs_eachopen (v openflags : Z) : M semfs Z :=
  n ← get_semnum v;
  if n =? SEMFS_ROOTDIR then
    if negb (Z.land openflags Vfs.O_ACCMODE =? Vfs.O_RDONLY) then mret EISDIR
    else if negb (Z.land openflags O_APPEND =? 0) then mret EISDIR
    else mret 0
  else mret 0.

Definition semfs_ioctl (v op data : Z) : M semfs Z := mret EINVAL.

Definition S_IFREG : Z := 4096.

Definition semfs_gettype (v : Z) : M semfs (Z * Z) :=
  n ← get_semnum v;
  mret (0, if n =? SEMFS_ROOTDIR then S_IFDIR else S_IFREG).

Definition semfs_isseekable (v : Z) : M semfs bool := n ← get_semnum v; mret (n =? SEMFS_ROOTDIR).

Definition semfs_fsync (v : Z) : M semfs Z := mret 0.

(** [st_size], [st_nlink], [st_mode] and [st_ino]; the other fields are 0. *)
Definition semfs_semstat (v : Z) : M semfs (Z * Z * Z * Z) :=
  n ← get_semnum v;
  sem ← semfs_getsem v;
  mret (sems_count sem, if sems_linked sem then 1 else 0, Z.lor S_IFREG 438, n).

(** [uio_offset] and [uio_resid]. *)
Record uio := Uio { uio_offset : Z; uio_resid : Z }.

Definition advance (n : Z) (u : uio) : uio := Uio (uio_offset u + n) (uio_resid u - n).

(** A wait that only another thread can end. *)
Definition spin {A} : M semfs A := fun _ => Spin.

(** One turn of the loop takes what there is; when that is not enough the next turns
    find the count 0 until another thread changes it. *)
Definition semfs_read (v : Z) (u : uio) : M semfs (Z * uio) :=
  n ← get_semnum v;
  sem ← semfs_getsem v;
  if uio_resid u =? 0 then mret (0, u)
  else
    let consume := Z.min (uio_resid u) (sems_count sem) in
    put_sem n (Some (with_count (sems_count sem - consume) sem));;
    if uio_resid u - consume =? 0 then mret (0, advance consume u) else spin.

Definition semfs_write (v : Z) (u : uio) : M semfs (Z * uio) :=
  n ← get_semnum v;
  sem ← semfs_getsem v;
  if uio_resid u =? 0 then mret (0, u)
  else
    let newcount := u32 (sems_count sem + uio_resid u) in
    if newcount <? sems_count sem then mret (EFBIG, u)
    else
      semfs_wakeup sem newcount;;
      put_sem n (Some (with_count newcount sem));;
      mret (0, advance (uio_resid u) u).

Definition semfs_truncate (v len : Z) : M semfs Z :=
  if len <? 0 then mret EINVAL
  else if 2 ^ 32 - 1 <? len then mret EFBIG
  else
    n ← get_semnum v;
    sem ← semfs_getsem v;
    semfs_wakeup sem (u32 len);;
    put_sem n (Some (with_count (u32 len) sem));;
    mret 0.

(** ** Vnodes *)

(** [vnode_cleanup] and [kfree]. *)
Definition semfs_vnode_destroy (v : Z) : M semfs unit :=
  in_vst (Vnode.vnode_cleanup v);;
  in_vst (modify (fun t => set_tab (delete v (v_tab t)) t));;
  modify (fun s => set_semnums (delete v (semv_semnum s)) s).

(** [a] is what [kmalloc] returns. *)
Definition semfs_vnode_create (a semnum : Z) : M semfs Z :=
  if a =? 0 then mret 0
  else
    modify (fun s => set_semnums (<[a := semnum]> (semv_semnum s)) s);;
    result ← in_vst (Vnode.vnode_init a (if semnum =? SEMFS_ROOTDIR then semfs_dirops else semfs_semops) semfs_fs a);
    kassert (result =? 0) "result == 0";;
    mret a.

(** The loop over the vnodes. *)
Fixpoint find_vnode (semnum : Z) (l : list Z) : M semfs (option Z) :=
  match l with
  | [] => mret None
  | v :: l' =>
      n ← get_semnum v;
      if n =? semnum then mret (Some v) else find_vnode semnum l'
  end.

(** [semfs_semarray_get] and [KASSERT(sem != NULL)]. *)
Definition checked_sem (semnum : Z) : M semfs semfs_sem :=
  s ← get;
  o ← valid (arr_get (semfs_sems s) semnum) "semfs_sems";
  match o with Some sem => mret sem | None => panic "sem != NULL" end.

(** The error code and [*ret]. *)
Definition semfs_getvnode (a : Z) (room : bool) (semnum : Z) : M semfs (Z * Z) :=
  s ← get;
  o ← find_vnode semnum (semfs_vnodes s);
  match o with
  | Some v => in_vst (Vnode.vnode_incref v);; mret (0, v)
  | None =>
      semv ← semfs_vnode_create a semnum;
      if semv =? 0 then mret (ENOMEM, 0)
      else if negb room then semfs_vnode_destroy semv;; mret (ENOMEM, 0)
      else
        modify (fun s => set_vnodes (semfs_vnodes s ++ [semv]) s);;
        (if negb (semnum =? SEMFS_ROOTDIR) then
           sem ← checked_sem semnum;
           kassert (negb (sems_hasvnode sem)) "sem->sems_hasvnode == false";;
           put_sem semnum (Some (with_hasvnode true sem))
         else mret tt);;
        mret (0, semv)
  end.

(** The index of [v] in the table of vnodes. *)
Fixpoint index_of (v : Z) (l : list Z) (i : nat) : option nat :=
  match l with
  | [] => None
  | w :: l' => if w =? v then Some i else index_of v l' (S i)
  end.

(** [semfs_sem_destroy] frees the semaphore, whose only pointer was in the table. *)
Definition semfs_reclaim (v : Z) : M semfs Z :=
  n ← get_semnum v;
  in_vst (Vnode.acquire v);;
  x ← in_vst (Vnode.deref v);
  if 1 <? vn_refcount x then
    in_vst (Vnode.store v (Vnode.with_refcount (vn_refcount x - 1) x));;
    in_vst (Vnode.release v);;
    mret EBUSY
  else
    in_vst (Vnode.release v);;
    s ← get;
    (match index_of v (semfs_vnodes s) 0 with
     | Some i => modify (fun s => set_vnodes (delete i (semfs_vnodes s)) s)
     | None => mret tt
     end);;
    (if negb (n =? SEMFS_ROOTDIR) then
       sem ← semfs_getsembynum n;
       kassert (sems_hasvnode sem) "sem->sems_hasvnode";;
       put_sem n (if sems_linked sem then Some (with_hasvnode false sem) else None)
     else mret tt);;
    semfs_vnode_destroy v;;
    mret 0.

(** [VOP_DECREF]: [vnode_decref] with [semfs_reclaim] as [vop_reclaim]. *)
Definition semfs_decref (v : Z) : M semfs unit :=
  destroy ← in_vst (Vnode.decref_count v);
  if (destroy : bool) then in_vst (Vnode.vnode_check v);; semfs_reclaim v;; mret tt else mret tt.

(** ** The directory *)

(** The loops of [semfs_creat], [semfs_remove] and [semfs_lookup]: the index and the
    entry with the name. *)
Fixpoint find_dent (name : list Z) (l : list (option semfs_direntry)) (i : Z) : M semfs (option (Z * semfs_direntry)) :=
  match l with
  | [] => mret None
  | None :: l' => find_dent name l' (i + 1)
  | Some d :: l' =>
      hit ← same_name (semd_name d) name;
      if hit : bool then mret (Some (i, d)) else find_dent name l' (i + 1)
  end.

(** The error code, and [*resultvn] if it has been set. *)
Definition semfs_creat (m : memory) (name : list Z) (excl : bool) : M semfs (Z * option Z) :=
  dot ← is_dot name;
  if dot : bool then mret (EEXIST, None)
  else
    s ← get;
    hit ← find_dent name (semfs_dents s) 0;
    match hit with
    | Some (_, d) =>
        if excl then mret (EEXIST, None)
        else
          '(result, v) ← semfs_getvnode (a_vnode m) (ok_vnodes m) (semd_semnum d);
          mret (result, if result =? 0 then Some v else None)
    | None =>
        sem ← semfs_sem_create (ok_sem m);
        match sem with
        | None => mret (ENOMEM, None)
        | Some sem =>
            '(result, semnum) ← semfs_sem_insert (ok_table m) sem;
            if negb (result =? 0) then mret (result, None)
            else
              dent ← semfs_direntry_create (ok_dent m) name semnum;
              match dent with
              | None => put_sem semnum None;; mret (result, None)
              | Some dent =>
                  let empty := first_null (semfs_dents s) 0 in
                  if bool_decide (empty = None) && negb (ok_dir m) then put_sem semnum None;; mret (ENOMEM, None)
                  else
                    let slot := default (Z.of_nat (length (semfs_dents s))) empty in
                    (match empty with
                     | Some i => put_dent i (Some dent)
                     | None => modify (fun s => set_dents (semfs_dents s ++ [Some dent]) s)
                     end);;
                    '(result, v) ← semfs_getvnode (a_vnode m) (ok_vnodes m) semnum;
                    if negb (result =? 0) then put_dent slot None;; put_sem semnum None;; mret (result, None)
                    else
                      sem ← semfs_getsembynum semnum;
                      put_sem semnum (Some (with_linked true sem));;
                      mret (0, Some v)
              end
        end
    end.

Definition semfs_remove (name : list Z) : M semfs Z :=
  dot ← is_dot name;
  if dot : bool then mret EINVAL
  else
    s ← get;
    hit ← find_dent name (semfs_dents s) 0;
    match hit with
    | None => mret ENOENT
    | Some (i, d) =>
        sem ← semfs_getsembynum (semd_semnum d);
        kassert (sems_linked sem) "sem->sems_linked";;
        put_sem (semd_semnum d) (if sems_hasvnode sem then Some (with_linked false sem) else None);;
        put_dent i None;;
        mret 0
    end.

(** The error code and [*resultvn]. *)
Definition semfs_lookup (m : memory) (dirvn : Z) (path : list Z) : M semfs (Z * Z) :=
  dot ← is_dot path;
  if dot : bool then in_vst (Vnode.vnode_incref dirvn);; mret (0, dirvn)
  else
    s ← get;
    hit ← find_dent path (semfs_dents s) 0;
    match hit with
    | None => mret (ENOENT, 0)
    | Some (_, d) => semfs_getvnode (a_vnode m) (ok_vnodes m) (semd_semnum d)
    end.

(** The error code, [*resultdirvn] and the name that is copied. *)
Definition semfs_lookparent (dirvn : Z) (path : list Z) (bufmax : Z) : M semfs (Z * Z * list Z) :=
  n ← lift (strlen path);
  if bufmax <? n + 1 then mret (ENAMETOOLONG, 0, [])
  else
    in_vst (Vnode.vnode_incref dirvn);;
    mret (0, dirvn, take (Z.to_nat n) path ++ [0]).

(** The bytes offered to [uiomove]; an entry that has been removed is [NULL]. *)
Definition semfs_getdirentry (offset : Z) : M semfs (list Z) :=
  kassert (0 <=? offset) "uio->uio_offset >= 0";;
  s ← get;
  let pos := u32 offset in
  if Z.of_nat (length (semfs_dents s)) <=? pos then mret []
  else
    o ← valid (arr_get (semfs_dents s) pos) "semfs_dents";
    dent ← valid o "dent";
    n ← lift (strlen (semd_name dent));
    mret (take (Z.to_nat n) (semd_name dent)).

(** [st_size], [st_mode], [st_nlink] and [st_ino]. *)
Definition semfs_dirstat : M semfs (Z * Z * Z * Z) :=
  s ← get;
  mret (Z.of_nat (length (semfs_dents s)), Z.lor S_IFDIR 1777, 2, SEMFS_ROOTDIR).

Definition semfs_namefile (v : Z) : M semfs Z := mret 0.

(** ** The file system: [semfs_fsops.c] *)

Definition semfs_sync : M semfs Z := mret 0.

Definition semfs_getvolname : list Z := [115; 101; 109; 0].

(** The error code and [*ret]. *)
Definition semfs_getroot (a : Z) (room : bool) : M semfs (Z * Z) :=
  '(result, vn) ← semfs_getvnode a room SEMFS_ROOTDIR;
  if negb (result =? 0) then mret (result, 0) else mret (0, vn).

(** [semfs_destroy] dereferences every slot of both tables. *)
Definition semfs_destroy : M semfs unit :=
  s ← get;
  for_each (semfs_sems s) (fun o => sem ← valid o "sem"; mret tt);;
  modify (set_sems []);;
  for_each (semfs_dents s) (fun o => dent ← valid o "dent"; mret tt);;
  modify (set_dents []).

Definition semfs_unmount : M semfs Z :=
  s ← get;
  if (0 <? Z.of_nat (length (semfs_vnodes s))) then mret EBUSY
  else semfs_destroy;; mret 0.

(** The semaphore file system is attached to the device table at boot. *)
Definition semfs_bootstrap `{Fsops} (ok : bool) (m : VfsList.memory) : M vfs unit :=
  if negb ok then panic "Out of memory creating semfs"
  else
    result ← vfs_addfs m semfs_getvolname semfs_fs;
    if VfsList.nz result then panic "Attaching semfs" else mret tt.

(** The empty file system; [ok] says whether all its parts get memory. *)
Definition semfs_create (ok : bool) (t : vst) : option semfs := if ok then Some (MkSemfs t ∅ [] [] []) else None.

(** ** The invariant *)

(** A function changed at one point. *)
Definition upd {A} (f : Z -> A) (n : Z) (x : A) : Z -> A := fun m => if decide (m = n) then x else f m.

Lemma upd_same {A} (f : Z -> A) n x : upd f n x n = x.
Proof. unfold upd. by case_decide. Qed.

Lemma upd_other {A} (f : Z -> A) n x m : m <> n -> upd f n x m = f m.
Proof. unfold upd. by case_decide. Qed.

(** The semaphores [sem], the directory [dent] and the vnodes [num] agree: a semaphore
    has a vnode or a name and says which, vnodes and names are for semaphores that exist,
    and no semaphore has two vnodes or two names.  Semaphore [x] may be new: it has not
    been marked as linked. *)
Record shape (x : Z) (sem : Z -> option semfs_sem) (dent : Z -> option semfs_direntry) (num : gmap Z Z) : Prop := {
  sh_has n y : sem n = Some y -> sems_hasvnode y = true <-> exists v, num !! v = Some n;
  sh_link n y : sem n = Some y -> n <> x -> sems_linked y = true <-> exists i d, dent i = Some d /\ semd_semnum d = n;
  sh_kept n y : sem n = Some y -> n <> x -> sems_linked y = true \/ sems_hasvnode y = true;
  sh_new y : sem x = Some y -> sems_linked y = false;
  sh_vsem v n : num !! v = Some n -> n <> SEMFS_ROOTDIR -> is_Some (sem n);
  sh_num v w n : num !! v = Some n -> num !! w = Some n -> v = w;
  sh_dent i d : dent i = Some d -> is_string (semd_name d) /\ is_Some (sem (semd_semnum d));
  sh_names i j d e : dent i = Some d -> dent j = Some e ->
    cstr (semd_name d) = cstr (semd_name e) \/ semd_semnum d = semd_semnum e -> i = j;
  sh_count n y : sem n = Some y -> 0 <= sems_count y < 2 ^ 32;
  sh_root : sem SEMFS_ROOTDIR = None;
  sh_neg n : n < 0 -> sem n = None }.

Section Shape.
Implicit Types (sem : Z -> option semfs_sem) (dent : Z -> option semfs_direntry) (num : gmap Z Z) (n v i x : Z).

Lemma shape_ext x sem sem' dent dent' num :
  shape x sem dent num -> (forall n, sem' n = sem n) -> (forall i, dent' i = dent i) -> shape x sem' dent' num.
Proof.
  intros [] Hs Hd. split; intros *; rewrite ?Hs, ?Hd; eauto.
  intros Hy Hn. rewrite (sh_link0 _ _ Hy Hn). by setoid_rewrite Hd.
Qed.

Ltac at_point n m :=
  let Heq := fresh "Heq" in
  destruct (decide (m = n)) as [Heq|?];
    [tryif is_var m then (revert Heq; intros ->) else first [revert Heq; intros <- | rewrite Heq in *]; rewrite ?upd_same in *|rewrite ?upd_other in * by done].

(** A new semaphore. *)
Lemma shape_insert sem dent num n :
  shape (-1) sem dent num -> sem n = None -> n <> SEMFS_ROOTDIR -> 0 <= n ->
  shape n (upd sem n (Some (MkSem 0 false false))) dent num /\ forall i d, dent i = Some d -> semd_semnum d <> n.
Proof.
  intros [] Hn Hroot Hpos.
  assert (Hno : forall v, num !! v <> Some n).
  { intros v Hv. destruct (sh_vsem0 _ _ Hv Hroot). congruence. }
  assert (Hnod : forall i d, dent i = Some d -> semd_semnum d <> n).
  { intros i d Hd He. destruct (sh_dent0 _ _ Hd) as [_ [y Hy]]. congruence. }
  split; [|done]. split; try done.
  - intros m y. at_point n m; [|apply sh_has0]. intros [= <-]. simpl. split; [done|]. intros [v Hv]. by destruct (Hno v).
  - intros m y Hy Hm. rewrite upd_other in Hy by done. apply sh_link0; [done|]. intros ->. by rewrite sh_neg0 in Hy.
  - intros m y Hy Hm. rewrite upd_other in Hy by done. apply (sh_kept0 m); [done|]. intros ->. by rewrite sh_neg0 in Hy.
  - intros y. rewrite upd_same. by intros [= <-].
  - intros v m Hv Hm. at_point n m; [done|]. by apply (sh_vsem0 v).
  - intros i d Hd. destruct (sh_dent0 _ _ Hd) as [? ?]. split; [done|]. at_point n (semd_semnum d); done.
  - intros m y. at_point n m; [by intros [= <-]|apply sh_count0].
  - by rewrite upd_other.
  - intros m Hm. rewrite upd_other by lia. by apply sh_neg0.
Qed.

(** The new semaphore goes away again. *)
Lemma shape_uninsert sem dent num n :
  shape n sem dent num -> (forall i d, dent i = Some d -> semd_semnum d <> n) -> (forall v, num !! v <> Some n) ->
  shape (-1) (upd sem n None) dent num.
Proof.
  intros [] Hnod Hno. split; try done.
  - intros m y. at_point n m; [done|apply sh_has0].
  - intros m y. at_point n m; [done|]. intros Hy _. by apply sh_link0.
  - intros m y. at_point n m; [done|]. intros Hy _. by apply (sh_kept0 m).
  - intros y. at_point n (-1); [done|]. by rewrite sh_neg0.
  - intros v m Hv Hm. rewrite upd_other; [by apply (sh_vsem0 v)|]. intros ->. by destruct (Hno v).
  - intros i d Hd. destruct (sh_dent0 _ _ Hd) as [? ?]. split; [done|]. rewrite upd_other; [done|]. by eapply Hnod.
  - intros m y. at_point n m; [done|apply sh_count0].
  - at_point n SEMFS_ROOTDIR; done.
  - intros m Hm. at_point n m; [done|]. by apply sh_neg0.
Qed.

(** A name for the new semaphore. *)
Lemma shape_name sem dent num n i d :
  shape n sem dent num -> is_Some (sem n) -> dent i = None -> is_string (semd_name d) -> semd_semnum d = n ->
  (forall j e, dent j = Some e -> semd_semnum e <> n /\ cstr (semd_name e) <> cstr (semd_name d)) ->
  shape n sem (upd dent i (Some d)) num.
Proof.
  intros [] Hn Hi Hstr Hd Hnew. split; try done.
  - intros m y Hy Hm. rewrite (sh_link0 _ _ Hy Hm). split; intros (j & e & He & Hem).
    + exists j, e. at_point i j; [congruence|done].
    + exists j, e. at_point i j; [|done]. injection He as <-. congruence.
  - intros j e. at_point i j; [|apply sh_dent0]. intros [= <-]. by rewrite Hd.
  - intros j k e f. at_point i j; at_point i k; try done.
    + intros [= <-] Hf Heq. destruct (Hnew _ _ Hf). destruct Heq; congruence.
    + intros He [= <-] Heq. destruct (Hnew _ _ He). destruct Heq; congruence.
    + apply sh_names0.
Qed.

(** The name of the new semaphore goes away again. *)
Lemma shape_unname sem dent num n i d :
  shape n sem dent num -> dent i = Some d -> semd_semnum d = n ->
  shape n sem (upd dent i None) num /\ forall j e, upd dent i None j = Some e -> semd_semnum e <> n.
Proof.
  intros [] Hi Hd. split; [split; try done|].
  - intros m y Hy Hm. rewrite (sh_link0 _ _ Hy Hm). split; intros (j & e & He & Hem); exists j, e; (at_point i j; [congruence|done]).
  - intros j e. at_point i j; [done|apply sh_dent0].
  - intros j k e f. at_point i j; [done|]. at_point i k; [done|]. apply sh_names0.
  - intros j e. at_point i j; [done|]. intros He Hem. destruct (sh_names0 i j d e Hi He); [right; congruence|]. congruence.
Qed.

(** The new semaphore, with its name and its vnode, is linked. *)
Lemma shape_linked sem dent num n y i d :
  shape n sem dent num -> sem n = Some y -> dent i = Some d -> semd_semnum d = n -> shape (-1) (upd sem n (Some (with_linked true y))) dent num.
Proof.
  intros [] Hy Hi Hd. split; try done.
  - intros m z. at_point n m; [|apply sh_has0]. intros [= <-]. by apply (sh_has0 n y).
  - intros m z. at_point n m; [|intros Hz _; by apply sh_link0]. intros [= <-] _. split; [|done]. intros _. by exists i, d.
  - intros m z. at_point n m; [intros [= <-] _; by left|]. intros Hz _. by apply (sh_kept0 m).
  - intros z. at_point n (-1); [|by rewrite sh_neg0]. by rewrite sh_neg0 in Hy.
  - intros v m Hv Hm. at_point n m; [done|]. by apply (sh_vsem0 v).
  - intros j e He. destruct (sh_dent0 _ _ He) as [? ?]. split; [done|]. at_point n (semd_semnum e); done.
  - intros m z. at_point n m; [|apply sh_count0]. intros [= <-]. by apply (sh_count0 n y).
  - at_point n SEMFS_ROOTDIR; [congruence|done].
  - intros m Hm. at_point n m; [by rewrite sh_neg0 in Hy|by apply sh_neg0].
Qed.

(** A vnode for a semaphore, or for the directory. *)
Lemma shape_vnode x sem dent num n v :
  shape x sem dent num -> num !! v = None -> (forall w, num !! w <> Some n) -> (n = SEMFS_ROOTDIR \/ is_Some (sem n)) ->
  shape x (fun m => if decide (m = n) then with_hasvnode true <$> sem n else sem m) dent (<[v := n]> num).
Proof.
  intros [] Hv Hno Hn.
  assert (Hc : forall m z, (if decide (m = n) then with_hasvnode true <$> sem n else sem m) = Some z ->
                exists y, sem m = Some y /\ (z = y /\ m <> n \/ z = with_hasvnode true y /\ m = n)).
  { intros m z. case_decide; [subst m|eauto]. intros (y & -> & Hy)%fmap_Some. eauto. }
  assert (Hs : forall m, is_Some (sem m) -> is_Some (if decide (m = n) then with_hasvnode true <$> sem n else sem m)).
  { intros m. case_decide; [subst m; by rewrite fmap_is_Some|done]. }
  split; try done.
  - intros m z (y & Hy & [[-> Hne]|[-> ->]])%Hc.
    + rewrite (sh_has0 _ _ Hy). split; intros [w Hw]; exists w.
      * rewrite lookup_insert_ne; [done|]. intros ->. congruence.
      * apply lookup_insert_Some in Hw as [[_ ?]|[_ ?]]; [congruence|done].
    + simpl. split; [|done]. intros _. exists v. apply lookup_insert_eq.
  - intros m z (y & Hy & [[-> Hne]|[-> ->]])%Hc; by apply (sh_link0 _ y).
  - intros m z (y & Hy & [[-> Hne]|[-> ->]])%Hc Hm; [by apply (sh_kept0 m)|by right].
  - intros z (y & Hy & [[-> Hne]|[-> ->]])%Hc; by apply (sh_new0 y).
  - intros w m Hw Hm. apply Hs. apply lookup_insert_Some in Hw as [[_ ->]|[_ Hw]]; [by destruct Hn|by apply (sh_vsem0 w)].
  - intros w1 w2 m H1 H2. apply lookup_insert_Some in H1 as [[? ?]|[? H1]], H2 as [[? ?]|[? H2]]; subst; try done.
    + by destruct (Hno w2).
    + by destruct (Hno w1).
    + by apply (sh_num0 _ _ m).
  - intros i d Hd. destruct (sh_dent0 _ _ Hd) as [? ?]. split; [done|]. by apply Hs.
  - intros m z (y & Hy & [[-> Hne]|[-> ->]])%Hc; exact (sh_count0 _ y Hy).
  - case_decide; [|done]. subst n. by rewrite sh_root0.
  - intros m Hm. case_decide; [subst m; by rewrite sh_neg0|by apply sh_neg0].
Qed.

(** The vnode of a semaphore, or of the directory, goes away. *)
Lemma shape_reclaim sem dent num n v :
  shape (-1) sem dent num -> num !! v = Some n ->
  shape (-1) (fun m => if decide (m = n) then y ← sem n; if sems_linked y then Some (with_hasvnode false y) else None else sem m) dent (delete v num).
Proof.
  intros [] Hv. set (sem' := fun m => _).
  assert (Hc : forall m z, sem' m = Some z ->
                exists y, sem m = Some y /\ (z = y /\ m <> n \/ z = with_hasvnode false y /\ m = n /\ sems_linked y = true)).
  { intros m z. unfold sem'. case_decide; [subst m|eauto]. destruct (sem n) as [y|]; simpl; [|done].
    destruct (sems_linked y) eqn:Hl; [|done]. intros [= <-]. exists y. auto. }
  assert (Hdel : forall w m, delete v num !! w = Some m -> num !! w = Some m /\ m <> n).
  { intros w m [Hne Hw]%lookup_delete_Some. split; [done|]. intros ->. by destruct Hne; apply (sh_num0 _ _ n). }
  split; try done.
  - intros m z (y & Hy & [[-> Hne]|(-> & -> & Hl)])%Hc.
    + rewrite (sh_has0 _ _ Hy). split; intros [w Hw]; exists w; [|by apply lookup_delete_Some in Hw as [_ ?]].
      apply lookup_delete_Some. split; [|done]. intros ->. congruence.
    + simpl. split; [done|]. intros [w Hw]. by destruct (Hdel _ _ Hw).
  - intros m z (y & Hy & [[-> Hne]|(-> & -> & Hl)])%Hc Hm; [by apply sh_link0|]. simpl. by apply (sh_link0 n y).
  - intros m z (y & Hy & [[-> Hne]|(-> & -> & Hl)])%Hc Hm; [by apply (sh_kept0 m)|by left].
  - intros z (y & Hy & _)%Hc. by rewrite sh_neg0 in Hy.
  - intros w m [Hw Hne]%Hdel Hm. unfold sem'. rewrite decide_False by done. by apply (sh_vsem0 w).
  - intros w1 w2 m [H1 _]%Hdel [H2 _]%Hdel. by apply (sh_num0 _ _ m).
  - intros i d Hd. destruct (sh_dent0 _ _ Hd) as [? [y Hy]]. split; [done|]. unfold sem'. case_decide as He; [|by rewrite Hy].
    rewrite He in Hy. rewrite Hy. simpl. rewrite (proj2 (sh_link0 n y Hy ltac:(intros ->; by rewrite sh_neg0 in Hy))); [done|]. by exists i, d.
  - intros m z (y & Hy & [[-> Hne]|(-> & -> & Hl)])%Hc; exact (sh_count0 _ y Hy).
  - unfold sem'. case_decide; [|done]. subst n. by rewrite sh_root0.
  - intros m Hm. unfold sem'. case_decide; [subst m; by rewrite sh_neg0|by apply sh_neg0].
Qed.

(** A name is removed; the semaphore stays while it has a vnode. *)
Lemma shape_remove sem dent num i d y :
  shape (-1) sem dent num -> dent i = Some d -> sem (semd_semnum d) = Some y ->
  shape (-1) (upd sem (semd_semnum d) (if sems_hasvnode y then Some (with_linked false y) else None)) (upd dent i None) num.
Proof.
  intros [] Hi Hy. set (n := semd_semnum d) in *.
  assert (Hc : forall m z, upd sem n (if sems_hasvnode y then Some (with_linked false y) else None) m = Some z ->
                (z = with_linked false y /\ m = n /\ sems_hasvnode y = true) \/ (sem m = Some z /\ m <> n)).
  { intros m z. unfold upd. case_decide; [|auto]. destruct (sems_hasvnode y) eqn:Hv; [|done]. intros [= <-]. auto. }
  assert (Hd : forall j e, upd dent i None j = Some e -> dent j = Some e /\ semd_semnum e <> n).
  { intros j e. unfold upd. case_decide; [done|]. intros He. split; [done|]. intros Hen. destruct (sh_names0 i j d e Hi He); [|done].
    right. by rewrite Hen. }
  split; try done.
  - intros m z [(-> & -> & Hv)|[Hz Hne]]%Hc; [by apply (sh_has0 n y)|by apply sh_has0].
  - intros m z [(-> & -> & Hv)|[Hz Hne]]%Hc Hm.
    + simpl. split; [done|]. intros (j & e & He & Hen). by destruct (Hd _ _ He).
    + rewrite (sh_link0 _ _ Hz Hm). split; intros (j & e & He & Hen); exists j, e.
      * rewrite upd_other; [done|]. intros ->. assert (e = d) as -> by congruence. by apply Hne.
      * by destruct (Hd _ _ He).
  - intros m z [(-> & -> & Hv)|[Hz Hne]]%Hc Hm; [by right|by apply (sh_kept0 m)].
  - intros z [(-> & _ & Hv)|[Hz Hne]]%Hc; [done|by rewrite sh_neg0 in Hz].
  - intros v m Hv Hm. at_point n m; [|by apply (sh_vsem0 v)]. rewrite (proj2 (sh_has0 n y Hy)); [done|]. by exists v.
  - intros j e [He Hne]%Hd. destruct (sh_dent0 _ _ He) as [? ?]. by rewrite upd_other.
  - intros j k e f [He _]%Hd [Hf _]%Hd. by apply sh_names0.
  - intros m z [(-> & -> & Hv)|[Hz Hne]]%Hc; [by apply (sh_count0 n y)|by apply (sh_count0 m)].
  - rewrite upd_other; [done|]. intros He. rewrite He in sh_root0. congruence.
  - intros m Hm. at_point n m; [by rewrite sh_neg0 in Hy|by apply sh_neg0].
Qed.

(** The count changes. *)
Lemma shape_count sem dent num n y c :
  shape (-1) sem dent num -> sem n = Some y -> 0 <= c < 2 ^ 32 -> shape (-1) (upd sem n (Some (with_count c y))) dent num.
Proof.
  intros [] Hy Hc. split; try done.
  - intros m z. at_point n m; [|apply sh_has0]. intros [= <-]. by apply (sh_has0 n y).
  - intros m z. at_point n m; [|apply sh_link0]. intros [= <-]. by apply (sh_link0 n y).
  - intros m z. at_point n m; [|apply sh_kept0]. intros [= <-]. by apply (sh_kept0 n y).
  - intros z. at_point n (-1); [by rewrite sh_neg0 in Hy|by rewrite sh_neg0].
  - intros v m Hv Hm. at_point n m; [done|]. by apply (sh_vsem0 v).
  - intros i d Hd. destruct (sh_dent0 _ _ Hd) as [? ?]. split; [done|]. at_point n (semd_semnum d); done.
  - intros m z. at_point n m; [|apply sh_count0]. by intros [= <-].
  - at_point n SEMFS_ROOTDIR; [congruence|done].
  - intros m Hm. at_point n m; [by rewrite sh_neg0 in Hy|by apply sh_neg0].
Qed.

End Shape.

(** ** Slots of the tables *)

Section Slots.
Context {A : Type}.
Implicit Types (l : list (option A)) (n i : Z).

Definition slot l n : option A := default None (arr_get l n).

Lemma slot_Some l n x : slot l n = Some x -> arr_get l n = Some (Some x) /\ 0 <= n < Z.of_nat (length l).
Proof.
  unfold slot. destruct (arr_get l n) as [o|] eqn:Hg; simpl; [|done]. intros ->. split; [done|].
  apply arr_get_is_Some. by eexists.
Qed.

Lemma slot_out l n : ~ (0 <= n < Z.of_nat (length l)) -> slot l n = None.
Proof.
  intros Hn. unfold slot. destruct (arr_get l n) as [o|] eqn:Hg; [|done]. destruct Hn. apply arr_get_is_Some. by eexists.
Qed.

Lemma slot_put l n x m : 0 <= n < Z.of_nat (length l) -> slot (arr_set l n x) m = upd (slot l) n x m.
Proof.
  intros Hn. unfold upd, slot. case_decide as Hm; [subst m; by rewrite arr_get_set_eq|].
  by rewrite arr_get_set_ne by lia.
Qed.

Lemma slot_app l x m : slot (l ++ [x]) m = upd (slot l) (Z.of_nat (length l)) x m.
Proof.
  unfold upd, slot. case_decide as Hm.
  - subst m. rewrite arr_get_nat. by rewrite list_lookup_middle.
  - unfold arr_get. destruct (0 <=? m) eqn:H0; [|done]. destruct (decide (m < Z.of_nat (length l))) as [Hlt|Hge].
    + by rewrite lookup_app_l by lia.
    + rewrite !lookup_ge_None_2; [done|lia|]. rewrite length_app. simpl. lia.
Qed.

Lemma first_null_spec l : forall i j, first_null l i = Some j -> i <= j < i + Z.of_nat (length l) /\ slot l (j - i) = None.
Proof.
  induction l as [|[x|] l IH]; intros i j; simpl; [done| |].
  - intros Hj. destruct (IH _ _ Hj) as [Hr Hs]. split; [lia|]. unfold slot, arr_get in *.
    replace (0 <=? j - i) with true by lia. replace (0 <=? j - (i + 1)) with true in Hs by lia.
    by replace (Z.to_nat (j - i)) with (S (Z.to_nat (j - (i + 1)))) by lia.
  - intros [= <-]. split; [lia|]. unfold slot. by replace (i - i) with 0 by lia.
Qed.

End Slots.

(** ** The invariant of the file system *)

Record semfs_inv (x : Z) (s : semfs) : Prop := {
  si_shape : shape x (slot (semfs_sems s)) (slot (semfs_dents s)) (semv_semnum s);
  si_vst : Vnode.ok (s_vst s);
  si_dirops : vop_magic (s_vst s) !! semfs_dirops = Some VOP_MAGIC;
  si_semops : vop_magic (s_vst s) !! semfs_semops = Some VOP_MAGIC;
  si_nodup : NoDup (semfs_vnodes s);
  si_vnodes v : v ∈ semfs_vnodes s <-> is_Some (semv_semnum s !! v);
  si_live v : v ∈ semfs_vnodes s -> 1 <= Vnode.refs (s_vst s) v;
  si_size : Z.of_nat (length (semfs_sems s)) <= SEMFS_ROOTDIR }.

Definition semfs_ok (s : semfs) : Prop := semfs_inv (-1) s.

(** Memory that is not in use. *)
Definition fresh (a : Z) (s : semfs) : Prop := a <> 0 -> a <> DEADBEEF /\ v_tab (s_vst s) !! a = None.

Definition roomy_refs (s : semfs) : Prop := forall v, Vnode.refs (s_vst s) v < 2 ^ 31 - 1.

Section Operations.
Implicit Types (s : semfs) (v n x : Z) (y : semfs_sem) (d : semfs_direntry).

Lemma num_live x s v n : semfs_inv x s -> semv_semnum s !! v = Some n -> v ∈ semfs_vnodes s /\ 1 <= Vnode.refs (s_vst s) v.
Proof. intros Hs Hv. assert (v ∈ semfs_vnodes s) by (apply (si_vnodes _ _ Hs); by eexists). split; [done|]. by apply (si_live _ _ Hs). Qed.

Lemma fresh_num x s a : semfs_inv x s -> fresh a s -> a <> 0 -> semv_semnum s !! a = None.
Proof.
  intros Hs Hf Ha. destruct (Hf Ha) as [_ Hn]. destruct (semv_semnum s !! a) as [n|] eqn:He; [|done].
  destruct (num_live _ _ _ _ Hs He) as [_ Hr]. unfold Vnode.refs in Hr. by rewrite Hn in Hr.
Qed.

Lemma wp_getsem s n y (Q : semfs_sem -> semfs -> Prop) : slot (semfs_sems s) n = Some y -> Q y s -> wp (semfs_getsembynum n) s Q.
Proof.
  intros Hy HQ. destruct (slot_Some _ _ _ Hy) as [Hg _]. unfold semfs_getsembynum. wp_step. wp_step; [done|]. wp_step; done.
Qed.

Lemma wp_checked_sem s n y (Q : semfs_sem -> semfs -> Prop) : slot (semfs_sems s) n = Some y -> Q y s -> wp (checked_sem n) s Q.
Proof. intros Hy HQ. destruct (slot_Some _ _ _ Hy) as [Hg _]. unfold checked_sem. wp_step. wp_step; [done|]. by apply wp_ret. Qed.

Lemma wp_semnum s v n (Q : Z -> semfs -> Prop) : semv_semnum s !! v = Some n -> Q n s -> wp (get_semnum v) s Q.
Proof. intros Hv HQ. unfold get_semnum. wp_step. wp_step; done. Qed.

Lemma wp_find_vnode s n l :
  (forall v, v ∈ l -> is_Some (semv_semnum s !! v)) ->
  wp (find_vnode n l) s (fun o s' => s' = s /\
    match o with Some v => v ∈ l /\ semv_semnum s !! v = Some n | None => forall v, v ∈ l -> semv_semnum s !! v <> Some n end).
Proof.
  induction l as [|v l IH]; intros Hl; simpl.
  - wp_step. split; [done|]. intros v Hv. by apply elem_of_nil in Hv.
  - destruct (Hl v) as [m Hm]; [set_solver|]. apply wp_bind. eapply wp_semnum; [done|]. destruct (Z.eqb_spec m n) as [->|Hne].
    + wp_step. split; [done|]. split; [set_solver|done].
    + eapply wp_mono; [apply IH; set_solver|]. intros [w|] s' [-> Hw]; (split; [done|]).
      * destruct Hw. split; [set_solver|done].
      * intros w [->|Hin]%elem_of_cons; [congruence|by apply Hw].
Qed.

(** A semaphore gets another value. *)
Lemma inv_sems x x' s sems' :
  semfs_inv x s -> shape x' (slot sems') (slot (semfs_dents s)) (semv_semnum s) -> Z.of_nat (length sems') <= SEMFS_ROOTDIR ->
  semfs_inv x' (set_sems sems' s).
Proof. intros [] Hsh Hlen. by split. Qed.

Lemma inv_put_sem x x' s n o :
  semfs_inv x s -> is_Some (slot (semfs_sems s) n) ->
  shape x' (upd (slot (semfs_sems s)) n o) (slot (semfs_dents s)) (semv_semnum s) ->
  semfs_inv x' (set_sems (arr_set (semfs_sems s) n o) s).
Proof.
  intros Hs [y Hy] Hsh. apply (inv_sems x); [done| |rewrite arr_set_length; apply Hs].
  eapply shape_ext; [exact Hsh| |done]. intros m. apply slot_put. by destruct (slot_Some _ _ _ Hy).
Qed.

(** The vnodes change their counts only. *)
Lemma inv_vst x s t (f : Z -> Z) :
  semfs_inv x s -> Vnode.ok t -> vop_magic t = vop_magic (s_vst s) -> Vnode.moved f (s_vst s) t ->
  (forall v, v ∈ semfs_vnodes s -> 1 <= Vnode.refs (s_vst s) v + f v) -> semfs_inv x (set_s_vst t s).
Proof.
  intros [] Ht Hm Hmv Hd. split; simpl; try done; [by rewrite Hm|by rewrite Hm|]. intros v Hv. rewrite Hmv. by apply Hd.
Qed.

End Operations.

(** ** Vnodes come and go *)

Section Vnodes.
Implicit Types (s : semfs) (v n x a : Z) (y : semfs_sem).

(** [vnode_incref] and the counting part of [vnode_decref], with what they leave alone. *)
Lemma incref_kept t v :
  Vnode.ok t -> 0 < Vnode.refs t v < 2 ^ 31 - 1 ->
  exists t', Vnode.vnode_incref v t = Ret (tt, t') /\ Vnode.ok t' /\ Vnode.moved (Vnode.one v) t t' /\ vop_magic t' = vop_magic t.
Proof.
  intros Hok Hr. destruct (Vnode.incref_run t v Hok Hr) as (t' & Hrun & Hok' & Hm). exists t'. split_and!; [done..|].
  destruct (Vnode.refs_live t v Hok) as (x & Hx & _ & (H0 & _ & _ & _ & _ & _ & _ & Hf)); [lia|].
  unfold Vnode.vnode_incref in Hrun. rewrite bind_kassert in Hrun by (by apply negb_true_iff, Z.eqb_neq).
  rewrite Vnode.bind_v_acquire in Hrun by (apply Hok || done). unfold Vnode.deref, Vnode.store in Hrun. mrun_in Hrun.
  rewrite (bind_valid _ _ _ _ x) in Hrun by done. mrun_in Hrun.
  erewrite Vnode.release_final in Hrun; [|apply Hok|exact Hf|reflexivity]. by injection Hrun as <-.
Qed.

Lemma decref_kept t v :
  Vnode.ok t -> 0 < Vnode.refs t v ->
  (Vnode.refs t v = 1 /\ Vnode.decref_count v t = Ret (true, t)) \/
  exists t', 1 < Vnode.refs t v /\ Vnode.decref_count v t = Ret (false, t') /\ Vnode.ok t' /\ Vnode.moved (Vnode.opp (Vnode.one v)) t t' /\
    vop_magic t' = vop_magic t.
Proof.
  intros Hok Hr. destruct (Vnode.decref_count_run t v Hok Hr) as [[H1 Hrun]|(t' & Hgt & Hrun & Hok' & Hm)]; [by left|right].
  exists t'. split_and!; [done..|].
  destruct (Vnode.refs_live t v Hok) as (x & Hx & Hxr & (H0 & _ & _ & _ & _ & _ & _ & Hf)); [lia|].
  unfold Vnode.decref_count in Hrun. rewrite bind_kassert in Hrun by (by apply negb_true_iff, Z.eqb_neq).
  rewrite Vnode.bind_v_acquire in Hrun by (apply Hok || done). unfold Vnode.deref, Vnode.store in Hrun. mrun_in Hrun.
  rewrite (bind_valid _ _ _ _ x) in Hrun by done. rewrite bind_kassert in Hrun by (apply Z.ltb_lt; lia).
  rewrite (proj2 (Z.ltb_lt 1 (vn_refcount x))) in Hrun by lia. mrun_in Hrun.
  erewrite Vnode.bind_v_release in Hrun; [|apply Hok|exact Hf|reflexivity]. by injection Hrun as <-.
Qed.

(** [semfs_vnode_destroy] of a vnode with one reference. *)
Lemma destroy_run s v :
  Vnode.ok (s_vst s) -> Vnode.refs (s_vst s) v = 1 ->
  semfs_vnode_destroy v s = Ret (tt, set_semnums (delete v (semv_semnum s)) (set_s_vst (set_tab (delete v (v_tab (s_vst s))) (s_vst s)) s)).
Proof.
  intros Hok Hr. unfold semfs_vnode_destroy, in_vst.
  rewrite (bind_run _ _ _ _ _ (zoom_Ret s_vst set_s_vst _ s _ _ (Vnode.vnode_cleanup_run _ v Hok Hr))).
  erewrite bind_run; [|apply (zoom_Ret s_vst set_s_vst); reflexivity]. unfold modify. do 2 f_equal.
  unfold set_semnums, set_s_vst, set_tab. simpl. by rewrite delete_insert_eq.
Qed.

Definition ops_of n : Z := if n =? SEMFS_ROOTDIR then semfs_dirops else semfs_semops.

(** The state with a vnode for [n] at [a], not yet in the table. *)
Definition with_new a n s : semfs := set_semnums (<[a := n]> (semv_semnum s)) (set_s_vst (Vnode.with_vnode a (ops_of n) semfs_fs (s_vst s)) s).

Lemma new_ok x s a n : semfs_inv x s -> fresh a s -> a <> 0 ->
  Vnode.ok (s_vst (with_new a n s)) /\ Vnode.moved (Vnode.one a) (s_vst s) (s_vst (with_new a n s)) /\ Vnode.refs (s_vst (with_new a n s)) a = 1.
Proof.
  intros Hs Hf Ha. destruct (Hf Ha) as [Hd Hn].
  assert (Hops : ops_of n <> 0 /\ ops_of n <> DEADBEEF /\ vop_magic (s_vst s) !! ops_of n = Some VOP_MAGIC).
  { unfold ops_of. destruct (n =? SEMFS_ROOTDIR); (split_and!; [done|done|apply Hs]). }
  destruct Hops as (? & ? & ?). destruct (Vnode.with_vnode_ok (s_vst s) a (ops_of n) semfs_fs) as [Hok Hm]; try done; [apply Hs|].
  split_and!; [done|done|]. unfold Vnode.refs. simpl. by rewrite lookup_insert_eq.
Qed.

Lemma wp_vnode_create s a n (Q : Z -> semfs -> Prop) : a <> 0 -> Q a (with_new a n s) -> wp (semfs_vnode_create a n) s Q.
Proof.
  intros Ha HQ. unfold semfs_vnode_create. replace (a =? 0) with false by lia. wp_step. apply wp_bind. unfold in_vst.
  eapply wp_zoom; [apply Vnode.vnode_init_run; [done|]; by destruct (n =? SEMFS_ROOTDIR)|]. wp_step; [done|]. by wp_step.
Qed.

(** What [semfs_getvnode] does. *)
Definition got x s n (r : Z * Z) s' : Prop :=
  semfs_inv x s' /\ semfs_dents s' = semfs_dents s /\
  (fst r = 0 /\ semv_semnum s' !! snd r = Some n /\ Vnode.moved (Vnode.one (snd r)) (s_vst s) (s_vst s') /\
     (forall m, m <> n -> slot (semfs_sems s') m = slot (semfs_sems s) m) /\ (is_Some (slot (semfs_sems s) n) -> is_Some (slot (semfs_sems s') n)) \/
   fst r <> 0 /\ semv_semnum s' = semv_semnum s /\ semfs_sems s' = semfs_sems s /\ Vnode.moved Vnode.none (s_vst s) (s_vst s')).

Lemma getvnode_new x s a n :
  semfs_inv x s -> fresh a s -> a <> 0 -> (n = SEMFS_ROOTDIR \/ is_Some (slot (semfs_sems s) n)) ->
  (forall v, semv_semnum s !! v <> Some n) ->
  wp (modify (fun s => set_vnodes (semfs_vnodes s ++ [a]) s);;
      (if negb (n =? SEMFS_ROOTDIR) then
         sem ← checked_sem n;
         kassert (negb (sems_hasvnode sem)) "sem->sems_hasvnode == false";;
         put_sem n (Some (with_hasvnode true sem))
       else mret tt);;
      mret (0, a)) (with_new a n s) (got x s n).
Proof.
  intros Hs Hf Ha Hn Hno. assert (Hfa := fresh_num _ _ _ Hs Hf Ha).
  destruct (new_ok x s a n Hs Hf Ha) as (Hok & Hm & Hr). pose proof (si_shape _ _ Hs) as Hsh.
  assert (Hna : a ∉ semfs_vnodes s) by (rewrite (si_vnodes _ _ Hs), Hfa; by intros [? ?]).
  assert (Hfin : forall sems', (forall m, slot sems' m = if decide (m = n) then with_hasvnode true <$> slot (semfs_sems s) n else slot (semfs_sems s) m) ->
            length sems' = length (semfs_sems s) ->
            got x s n (0, a) (set_sems sems' (set_vnodes (semfs_vnodes s ++ [a]) (with_new a n s)))).
  { intros sems' Hsl Hlen. split; [|split; [done|left]].
    - split; simpl; try (by destruct Hs).
      + eapply shape_ext; [by apply (shape_vnode x _ _ _ n a Hsh)|exact Hsl|done].
      + apply NoDup_app. split; [apply Hs|]. split; [|apply NoDup_singleton]. intros v Hv ->%list_elem_of_singleton. done.
      + intros v. rewrite elem_of_app, list_elem_of_singleton, lookup_insert_is_Some, (si_vnodes _ _ Hs).
        destruct (decide (v = a)); naive_solver.
      + intros v [Hv| ->%list_elem_of_singleton]%elem_of_app; [|unfold with_new in Hr; simpl in Hr; lia].
        specialize (Hm v). simpl in Hm. rewrite Hm. pose proof (si_live _ _ Hs v Hv). unfold Vnode.one. case_match; lia.
      + rewrite Hlen. apply Hs.
    - simpl. split_and!; [done|apply lookup_insert_eq|done| |].
      + intros m Hne. by rewrite Hsl, decide_False.
      + rewrite Hsl, decide_True by done. by rewrite fmap_is_Some. }
  wp_step. apply wp_bind. destruct (Z.eqb_spec n SEMFS_ROOTDIR) as [->|Hne]; simpl.
  - wp_step. wp_step. apply (Hfin (semfs_sems s)); [|done]. intros m. case_decide; [|done]. subst m. by rewrite (sh_root _ _ _ _ Hsh).
  - destruct Hn as [|[y Hy]]; [done|]. apply wp_bind. eapply wp_checked_sem; [exact Hy|].
    assert (Hhas : sems_hasvnode y = false).
    { destruct (sems_hasvnode y) eqn:He; [|done]. apply (sh_has _ _ _ _ Hsh _ _ Hy) in He as [v Hv]. by destruct (Hno v). }
    wp_step; [by rewrite Hhas|]. unfold put_sem. wp_step. wp_step.
    apply (Hfin (arr_set (semfs_sems s) n (Some (with_hasvnode true y)))); [|apply arr_set_length].
    intros m. rewrite slot_put by (by destruct (slot_Some _ _ _ Hy)). unfold upd. case_decide; [|done]. by rewrite Hy.
Qed.

Lemma getvnode_wp x s a room n :
  semfs_inv x s -> fresh a s -> roomy_refs s -> (n = SEMFS_ROOTDIR \/ is_Some (slot (semfs_sems s) n)) ->
  wp (semfs_getvnode a room n) s (got x s n).
Proof.
  intros Hs Hf Hroom Hn. unfold semfs_getvnode. wp_step. apply wp_bind.
  eapply wp_mono; [apply wp_find_vnode; intros v Hv; by apply (si_vnodes _ _ Hs)|]. intros [v|] s1 [-> Hv].
  - destruct Hv as [Hin Hv]. destruct (num_live _ _ _ _ Hs Hv) as [_ Hr]. specialize (Hroom v).
    destruct (incref_kept (s_vst s) v (si_vst _ _ Hs) ltac:(lia)) as (t & Hrun & Hok & Hm & Hmag).
    apply wp_bind. unfold in_vst. eapply wp_zoom; [exact Hrun|]. wp_step. split; [|split; [done|left]].
    + apply (inv_vst x s t (Vnode.one v)); try done. intros w Hw. pose proof (si_live _ _ Hs w Hw). unfold Vnode.one. case_match; lia.
    + by split_and!.
  - assert (Hno : forall w, semv_semnum s !! w <> Some n).
    { intros w Hw. apply (Hv w); [|done]. by apply (num_live x s w n). }
    apply wp_bind. destruct (decide (a = 0)) as [->|Ha].
    { unfold semfs_vnode_create. apply wp_ret. apply wp_ret. split; [done|split; [done|right]]. split_and!; [done..|].
      intros w. unfold Vnode.none. lia. }
    apply wp_vnode_create; [done|]. replace (a =? 0) with false by lia. destruct room; simpl.
    + by apply getvnode_new.
    + destruct (new_ok x s a n Hs Hf Ha) as (Hok & Hm & Hr). apply wp_bind. eapply wp_run; [by apply destroy_run|]. wp_step.
      destruct (Vnode.delete_ok _ _ Hok Hr) as [Hok' Hm'].
      assert (Hsame : set_semnums (delete a (semv_semnum (with_new a n s)))
                (set_s_vst (set_tab (delete a (v_tab (s_vst (with_new a n s)))) (s_vst (with_new a n s))) (with_new a n s)) =
              set_s_vst (set_tab (delete a (v_tab (s_vst (with_new a n s)))) (s_vst (with_new a n s))) s).
      { unfold with_new, set_semnums, set_s_vst. simpl. by rewrite (delete_insert_id _ _ _ (fresh_num _ _ _ Hs Hf Ha)). }
      rewrite Hsame. assert (Hnone : Vnode.moved Vnode.none (s_vst s) (set_tab (delete a (v_tab (s_vst (with_new a n s)))) (s_vst (with_new a n s)))).
      { intros w. rewrite (Hm' w), (Hm w). unfold Vnode.opp, Vnode.none. lia. }
      split; [|split; [done|right; by split_and!]]. apply (inv_vst x s _ Vnode.none); try done.
      intros w Hw. pose proof (si_live _ _ Hs w Hw). unfold Vnode.none. lia.
Qed.

End Vnodes.

(** ** Giving back a reference *)

Section Reclaim.
Implicit Types (s : semfs) (v n x a : Z) (y : semfs_sem).

Lemma acquire_kept t v : Vnode.ok t -> Vnode.refs t v <> 0 -> Vnode.acquire v t = Ret (tt, Vnode.hold v t).
Proof.
  intros Hok Hr. destruct (Vnode.refs_live t v Hok Hr) as (x & _ & _ & (_ & _ & _ & _ & _ & _ & _ & Hf)).
  unfold Vnode.hold. apply zoom_Ret. apply acquire_run; [apply Hok|done].
Qed.

Lemma release_kept t v : Vnode.ok t -> Vnode.refs t v <> 0 -> Vnode.release v (Vnode.hold v t) = Ret (tt, t).
Proof.
  intros Hok Hr. destruct (Vnode.refs_live t v Hok Hr) as (x & _ & _ & (_ & _ & _ & _ & _ & _ & _ & Hf)).
  rewrite (Vnode.release_final v _ (v_sync t)); [by destruct t|apply Hok|done|done].
Qed.

Lemma index_of_spec v l : forall i, v ∈ l -> exists j, index_of v l i = Some (i + j)%nat /\ l !! j = Some v.
Proof.
  induction l as [|w l IH]; intros i Hin; [by apply elem_of_nil in Hin|]. simpl. destruct (Z.eqb_spec w v) as [->|Hne].
  - exists 0%nat. by rewrite Nat.add_0_r.
  - destruct (IH (S i)) as (j & Hj & Hl); [set_solver|]. exists (S j). by rewrite Hj, Nat.add_succ_comm.
Qed.

(** [v] and what it stands for are gone. *)
Definition reclaimed s v n sems' j : semfs :=
  set_semnums (delete v (semv_semnum s))
    (set_s_vst (set_tab (delete v (v_tab (s_vst s))) (s_vst s)) (set_sems sems' (set_vnodes (delete j (semfs_vnodes s)) s))).

Lemma reclaimed_inv s v n sems' j :
  semfs_ok s -> semv_semnum s !! v = Some n -> Vnode.refs (s_vst s) v = 1 -> semfs_vnodes s !! j = Some v ->
  (forall m, slot sems' m = if decide (m = n) then y ← slot (semfs_sems s) n; if sems_linked y then Some (with_hasvnode false y) else None
                            else slot (semfs_sems s) m) ->
  length sems' = length (semfs_sems s) -> semfs_ok (reclaimed s v n sems' j).
Proof.
  intros Hs Hv Hr Hj Hsl Hlen. destruct (Vnode.delete_ok _ _ (si_vst _ _ Hs) Hr) as [Hok Hm].
  assert (Hmem : forall w, w ∈ delete j (semfs_vnodes s) <-> w ∈ semfs_vnodes s /\ w <> v).
  { intros w. pose proof (delete_Permutation _ _ _ Hj) as Hp. assert (Hnd := si_nodup _ _ Hs). rewrite Hp in Hnd.
    apply NoDup_cons in Hnd as [Hnot _].
    assert (Hiff : w ∈ semfs_vnodes s <-> w ∈ v :: delete j (semfs_vnodes s)) by (by rewrite Hp at 1).
    rewrite Hiff, elem_of_cons. split; [|intros [[->|?] ?]; done].
    intros Hw. split; [by right|]. intros ->. done. }
  split; simpl; try (by destruct Hs).
  - eapply shape_ext; [exact (shape_reclaim _ _ _ n v (si_shape _ _ Hs) Hv)|exact Hsl|done].
  - assert (Hnd := si_nodup _ _ Hs). rewrite (delete_Permutation _ _ _ Hj) in Hnd. by apply NoDup_cons in Hnd as [_ ?].
  - intros w. rewrite Hmem, (si_vnodes _ _ Hs), lookup_delete_is_Some. naive_solver.
  - intros w [Hw Hne]%Hmem. rewrite (Hm w). pose proof (si_live _ _ Hs w Hw). unfold Vnode.opp, Vnode.one. case_match; lia.
  - rewrite Hlen. apply Hs.
Qed.

Lemma reclaim_wp s v n :
  semfs_ok s -> semv_semnum s !! v = Some n -> Vnode.refs (s_vst s) v = 1 ->
  wp (semfs_reclaim v) s (fun r s' => semfs_ok s' /\ Vnode.moved (Vnode.opp (Vnode.one v)) (s_vst s) (s_vst s')).
Proof.
  intros Hs Hv Hr. pose proof (si_vst _ _ Hs) as Hok. pose proof (si_shape _ _ Hs) as Hsh.
  destruct (num_live _ _ _ _ Hs Hv) as [Hin _]. destruct (index_of_spec v _ 0 Hin) as (j & Hix & Hj). simpl in Hix.
  destruct (Vnode.refs_live _ v Hok) as (z & Hz & Hzr & _); [lia|].
  unfold semfs_reclaim. apply wp_bind. eapply wp_semnum; [exact Hv|]. apply wp_bind. unfold in_vst.
  eapply wp_zoom; [apply acquire_kept; [done|lia]|]. apply wp_bind.
  eapply (wp_zoom _ _ _ _ z); [unfold Vnode.deref; mrun; simpl; by rewrite Hz|].
  replace (1 <? vn_refcount z) with false by lia. apply wp_bind.
  eapply (wp_zoom _ _ _ _ tt (s_vst s)); [apply release_kept; [done|lia]|].
  match goal with |- wp _ ?st _ => replace st with s by (by destruct s as [[] ? ? ? ?]) end.
  wp_step. rewrite Hix. apply wp_bind. wp_step. apply wp_bind.
  assert (Hfin : forall sems', (forall m, slot sems' m = if decide (m = n) then y ← slot (semfs_sems s) n; if sems_linked y then Some (with_hasvnode false y) else None
                            else slot (semfs_sems s) m) -> length sems' = length (semfs_sems s) ->
            wp (semfs_vnode_destroy v;; mret 0) (set_sems sems' (set_vnodes (delete j (semfs_vnodes s)) s))
              (fun _ s' => semfs_ok s' /\ Vnode.moved (Vnode.opp (Vnode.one v)) (s_vst s) (s_vst s'))).
  { intros sems' Hsl Hlen. apply wp_bind. eapply wp_run; [by apply destroy_run|]. wp_step. split.
    - by apply (reclaimed_inv s v n sems' j).
    - by apply Vnode.delete_ok. }
  destruct (Z.eqb_spec n SEMFS_ROOTDIR) as [->|Hne]; simpl.
  - wp_step. apply (Hfin (semfs_sems s)); [|done]. intros m. case_decide; [|done]. subst m. by rewrite (sh_root _ _ _ _ Hsh).
  - destruct (sh_vsem _ _ _ _ Hsh _ _ Hv Hne) as [y Hy]. apply wp_bind. eapply wp_getsem; [exact Hy|].
    wp_step; [apply (sh_has _ _ _ _ Hsh _ _ Hy); by exists v|]. unfold put_sem. wp_step.
    apply (Hfin (arr_set (semfs_sems s) n _)); [|apply arr_set_length].
    intros m. rewrite slot_put by (by destruct (slot_Some _ _ _ Hy)). unfold upd. case_decide; [|done]. by rewrite Hy.
Qed.

Lemma decref_wp s v n :
  semfs_ok s -> semv_semnum s !! v = Some n ->
  wp (semfs_decref v) s (fun _ s' => semfs_ok s' /\ Vnode.moved (Vnode.opp (Vnode.one v)) (s_vst s) (s_vst s')).
Proof.
  intros Hs Hv. pose proof (si_vst _ _ Hs) as Hok. destruct (num_live _ _ _ _ Hs Hv) as [Hin Hr].
  unfold semfs_decref. apply wp_bind. unfold in_vst at 1.
  destruct (decref_kept (s_vst s) v Hok) as [[H1 Hrun]|(t & Hgt & Hrun & Hokt & Hm & Hmag)]; [lia|..]; (eapply wp_zoom; [exact Hrun|]).
  - replace (set_s_vst (s_vst s) s) with s by (by destruct s). apply wp_bind. unfold in_vst.
    eapply wp_zoom; [apply Vnode.vnode_check_ok; [done|lia]|]. replace (set_s_vst (s_vst s) s) with s by (by destruct s).
    apply wp_bind. eapply wp_mono; [by apply (reclaim_wp s v n)|]. intros r s' Hs'. by wp_step.
  - apply wp_ret. split; [|done]. apply (inv_vst (-1) s t (Vnode.opp (Vnode.one v))); try done.
    intros w Hw. pose proof (si_live _ _ Hs w Hw). unfold Vnode.opp, Vnode.one. destruct (Z.eqb_spec w v); subst; lia.
Qed.

End Reclaim.

(** ** Names *)

Section Names.
Implicit Types (s : semfs) (v n x a i : Z) (y : semfs_sem) (d : semfs_direntry) (name : list Z).

Lemma same_name_run s (a b : list Z) : is_string a -> is_string b -> same_name a b s = Ret (bool_decide (cstr a = cstr b), s).
Proof.
  intros [Ta Ba] [Tb Bb]. destruct (strcmp_spec a b Ta Tb Ba Bb) as [E Heq]. unfold same_name, lift, mbind, M_bind.
  rewrite E. unfold mret, M_ret. do 2 f_equal. destruct (Z.eqb_spec (lex (cstr a) (cstr b)) 0) as [Hz|Hz].
  - rewrite E, Hz in Heq. symmetry. apply bool_decide_eq_true. by apply Heq.
  - symmetry. apply bool_decide_eq_false. intros Hab. apply Hz. apply Heq in Hab. rewrite E in Hab. by injection Hab.
Qed.

Definition dotted name : bool := bool_decide (cstr name = cstr DOT) || bool_decide (cstr name = cstr DOTDOT).

Lemma dot_strings : is_string DOT /\ is_string DOTDOT.
Proof. split; (split; [unfold terminated, DOT, DOTDOT; set_solver|repeat constructor; lia]). Qed.

Lemma is_dot_run s name : is_string name -> is_dot name s = Ret (dotted name, s).
Proof.
  intros Hn. destruct dot_strings as [H1 H2]. unfold is_dot, dotted.
  rewrite (bind_run _ _ _ _ _ (same_name_run s _ _ Hn H1)). destruct (bool_decide _); [done|]. by apply same_name_run.
Qed.

Lemma wp_find_dent s name l : forall i,
  is_string name -> (forall j d, slot l j = Some d -> is_string (semd_name d)) ->
  wp (find_dent name l i) s (fun o s' => s' = s /\
    match o with
    | Some (j, d) => slot l (j - i) = Some d /\ cstr (semd_name d) = cstr name
    | None => forall j d, slot l j = Some d -> cstr (semd_name d) <> cstr name
    end).
Proof.
  induction l as [|o l IH]; intros i Hn Hl; simpl.
  { wp_step. split; [done|]. intros j d. by rewrite slot_out by (simpl; lia). }
  assert (Hshift : forall j, 0 <= j -> slot (o :: l) (j + 1) = slot l j).
  { intros j Hj. unfold slot, arr_get. replace (0 <=? j + 1) with true by lia. replace (0 <=? j) with true by lia.
    by replace (Z.to_nat (j + 1)) with (S (Z.to_nat j)) by lia. }
  assert (Hl' : forall j d, slot l j = Some d -> is_string (semd_name d)).
  { intros j d Hj. destruct (slot_Some _ _ _ Hj) as [_ Hr]. apply (Hl (j + 1)). by rewrite Hshift by lia. }
  assert (Hrest : (forall d, o = Some d -> cstr (semd_name d) <> cstr name) ->
            wp (find_dent name l (i + 1)) s (fun o' s' => s' = s /\
              match o' with
              | Some (j, d) => slot (o :: l) (j - i) = Some d /\ cstr (semd_name d) = cstr name
              | None => forall j d, slot (o :: l) j = Some d -> cstr (semd_name d) <> cstr name
              end)).
  { intros Ho. eapply wp_mono; [by apply IH|]. intros [[j d]|] s' [-> Hr]; (split; [done|]).
    - destruct Hr as [Hr ?]. split; [|done]. destruct (slot_Some _ _ _ Hr) as [_ Hb].
      replace (j - i) with (j - (i + 1) + 1) by lia. by rewrite Hshift by lia.
    - intros j d Hj. destruct (slot_Some _ _ _ Hj) as [_ Hb]. destruct (decide (j = 0)) as [->|Hne].
      + apply Ho. exact Hj.
      + apply (Hr (j - 1)). rewrite <- Hshift by lia. by replace (j - 1 + 1) with j by lia. }
  destruct o as [d|]; [|by apply Hrest].
  assert (Hd : is_string (semd_name d)) by (by apply (Hl 0)).
  apply wp_bind. eapply wp_run; [by apply same_name_run|]. destruct (bool_decide (cstr (semd_name d) = cstr name)) eqn:He.
  - apply bool_decide_eq_true in He. wp_step. split; [done|]. by replace (i - i) with 0 by lia.
  - apply bool_decide_eq_false in He. apply Hrest. by intros ? [= <-].
Qed.

Lemma dents_strings x s : semfs_inv x s -> forall j d, slot (semfs_dents s) j = Some d -> is_string (semd_name d).
Proof. intros Hs j d Hd. by destruct (sh_dent _ _ _ _ (si_shape _ _ Hs) _ _ Hd). Qed.

(** [kstrdup] of a name. *)
Lemma copy_string name : is_string name ->
  exists k, strlen name = Ret k /\ is_string (take (Z.to_nat k) name ++ [0]) /\ cstr (take (Z.to_nat k) name ++ [0]) = cstr name.
Proof.
  intros Hn. exists (Z.of_nat (length (cstr name))). split; [by apply strlen_string|]. rewrite Nat2Z.id.
  destruct (terminated_inv name (proj1 Hn)) as [r E]. 
  assert (take (length (cstr name)) name = cstr name) as -> by (rewrite E at 2; by rewrite take_app_length).
  exact (string_of (cstr name) 0 (cstr_clean name) (cstr_bytes name Hn)).
Qed.

End Names.

(** ** The operations keep the invariant *)

Section Directory.
Implicit Types (s : semfs) (v n x a i : Z) (y : semfs_sem) (d : semfs_direntry) (name : list Z).

Lemma inv_tables x x' s sems' dents' :
  semfs_inv x s -> shape x' (slot sems') (slot dents') (semv_semnum s) -> Z.of_nat (length sems') <= SEMFS_ROOTDIR ->
  semfs_inv x' (set_dents dents' (set_sems sems' s)).
Proof. intros [] Hsh Hlen. by split. Qed.

Lemma ok_not_new s n y : semfs_ok s -> slot (semfs_sems s) n = Some y -> n <> -1.
Proof. intros Hs Hy ->. by rewrite (sh_neg _ _ _ _ (si_shape _ _ Hs)) in Hy. Qed.

Lemma remove_wp s name :
  semfs_ok s -> is_string name -> wp (semfs_remove name) s (fun r s' => semfs_ok s' /\ s_vst s' = s_vst s).
Proof.
  intros Hs Hn. unfold semfs_remove. apply wp_bind. eapply wp_run; [by apply is_dot_run|]. destruct (dotted name); [by wp_step|].
  wp_step. apply wp_bind. eapply wp_mono; [apply wp_find_dent; [done|by apply (dents_strings (-1))]|].
  intros [[i d]|] s1 [-> Hi]; [|by wp_step]. destruct Hi as [Hi _]. rewrite Z.sub_0_r in Hi.
  destruct (sh_dent _ _ _ _ (si_shape _ _ Hs) _ _ Hi) as [_ [y Hy]].
  apply wp_bind. eapply wp_getsem; [exact Hy|].
  wp_step; [apply (sh_link _ _ _ _ (si_shape _ _ Hs) _ _ Hy (ok_not_new _ _ _ Hs Hy)); by exists i, d|].
  unfold put_sem, put_dent. wp_step. wp_step. wp_step. split; [|done].
  pose proof (shape_remove _ _ _ _ _ _ (si_shape _ _ Hs) Hi Hy) as Hsh.
  apply (inv_tables (-1)); [done| |rewrite arr_set_length; apply Hs].
  eapply shape_ext; [exact Hsh|intros m; apply slot_put; by destruct (slot_Some _ _ _ Hy)|].
  intros m. apply slot_put. by destruct (slot_Some _ _ _ Hi).
Qed.

(** A vnode is handed out on success. *)
Definition handed s (r : Z * Z) s' : Prop :=
  semfs_ok s' /\ (fst r = 0 -> is_Some (semv_semnum s' !! snd r)) /\
  Vnode.moved (if fst r =? 0 then Vnode.one (snd r) else Vnode.none) (s_vst s) (s_vst s').

Lemma got_handed s n r s' : got (-1) s n r s' -> handed s r s'.
Proof.
  intros (Hs' & _ & [(H0 & Hn & Hm & _)|(H0 & _ & _ & Hm)]); (split; [done|]).
  - rewrite H0, Z.eqb_refl. split; [intros _; by eexists|done].
  - replace (fst r =? 0) with false by lia. done.
Qed.

Lemma incref_wp s v n (Q : unit -> semfs -> Prop) :
  semfs_ok s -> roomy_refs s -> semv_semnum s !! v = Some n -> (forall s', handed s (0, v) s' -> Q tt s') ->
  wp (in_vst (Vnode.vnode_incref v)) s Q.
Proof.
  intros Hs Hroom Hv HQ. destruct (num_live _ _ _ _ Hs Hv) as [_ Hr]. specialize (Hroom v).
  destruct (incref_kept (s_vst s) v (si_vst _ _ Hs) ltac:(lia)) as (t & Hrun & Hok & Hm & Hmag).
  unfold in_vst. eapply wp_zoom; [exact Hrun|]. apply HQ. split; [|split; [intros _; by exists n|done]].
  apply (inv_vst (-1) s t (Vnode.one v)); try done. intros w Hw. pose proof (si_live _ _ Hs w Hw). unfold Vnode.one. case_match; lia.
Qed.

Lemma lookup_wp s m dirvn path :
  semfs_ok s -> roomy_refs s -> fresh (a_vnode m) s -> is_string path -> is_Some (semv_semnum s !! dirvn) ->
  wp (semfs_lookup m dirvn path) s (handed s).
Proof.
  intros Hs Hroom Hf Hn [k Hk]. unfold semfs_lookup. apply wp_bind. eapply wp_run; [by apply is_dot_run|]. destruct (dotted path).
  { apply wp_bind. eapply incref_wp; [done..|]. intros s' Hs'. by wp_step. }
  wp_step. apply wp_bind. eapply wp_mono; [apply wp_find_dent; [done|by apply (dents_strings (-1))]|].
  intros [[i d]|] s1 [-> Hi].
  - destruct Hi as [Hi _]. destruct (sh_dent _ _ _ _ (si_shape _ _ Hs) _ _ Hi) as [_ Hy].
    eapply wp_mono; [apply (getvnode_wp (-1)); auto|]. intros r s' Hg. by eapply got_handed.
  - wp_step. split; [done|]. split; [done|]. intros w. unfold Vnode.none. simpl. lia.
Qed.

Lemma lookparent_wp s dirvn path bufmax :
  semfs_ok s -> roomy_refs s -> is_string path -> is_Some (semv_semnum s !! dirvn) ->
  wp (semfs_lookparent dirvn path bufmax) s (fun r s' => handed s (fst r) s').
Proof.
  intros Hs Hroom Hn [k Hk]. unfold semfs_lookparent. apply wp_bind.
  eapply wp_run; [apply lift_run, (strlen_string path Hn)|]. case_match.
  - wp_step. split; [done|]. split; [done|]. intros w. unfold Vnode.none. simpl. lia.
  - apply wp_bind. eapply incref_wp; [done..|]. intros s' Hs'. by wp_step.
Qed.

Lemma getroot_wp s a room : semfs_ok s -> roomy_refs s -> fresh a s -> wp (semfs_getroot a room) s (handed s).
Proof.
  intros Hs Hroom Hf. unfold semfs_getroot. apply wp_bind. eapply wp_mono; [apply (getvnode_wp (-1)); auto|].
  intros [r v] s' Hg%got_handed. destruct (Z.eqb_spec r 0) as [->|Hr]; simpl; wp_step; [done|].
  destruct Hg as (? & ? & Hm). split; [done|]. split; [done|]. simpl in *. by replace (r =? 0) with false in * by lia.
Qed.

(** Reading, writing and truncating change a count. *)
Lemma count_inv s v n y c :
  semfs_ok s -> slot (semfs_sems s) n = Some y -> 0 <= c < 2 ^ 32 -> semfs_ok (set_sems (arr_set (semfs_sems s) n (Some (with_count c y))) s).
Proof.
  intros Hs Hy Hc. apply (inv_put_sem (-1)); [done|by eexists|]. apply shape_count; [apply Hs|done|done].
Qed.

Lemma wp_sem_of s v n y (Q : semfs_sem -> semfs -> Prop) :
  semv_semnum s !! v = Some n -> slot (semfs_sems s) n = Some y -> Q y s -> wp (semfs_getsem v) s Q.
Proof. intros Hv Hy HQ. unfold semfs_getsem. apply wp_bind. eapply wp_semnum; [exact Hv|]. by eapply wp_getsem. Qed.

Lemma sem_of s v n : semfs_ok s -> semv_semnum s !! v = Some n -> n <> SEMFS_ROOTDIR ->
  exists y, slot (semfs_sems s) n = Some y /\ 0 <= sems_count y < 2 ^ 32.
Proof.
  intros Hs Hv Hn. destruct (sh_vsem _ _ _ _ (si_shape _ _ Hs) _ _ Hv Hn) as [y Hy]. exists y. split; [done|].
  by apply (sh_count _ _ _ _ (si_shape _ _ Hs) n).
Qed.

Lemma semnum_run s v n : semv_semnum s !! v = Some n -> get_semnum v s = Ret (n, s).
Proof. intros Hv. unfold get_semnum. mrun. by rewrite Hv. Qed.

Lemma getsem_run s v n y : semv_semnum s !! v = Some n -> slot (semfs_sems s) n = Some y -> semfs_getsem v s = Ret (y, s).
Proof. intros Hv Hy. by destruct (wp_sem_of s v n y (fun r s' => r = y /\ s' = s) Hv Hy) as (r & s' & Hr & -> & ->). Qed.

(** [semfs_read]: all that is asked for, or a wait. *)
Lemma read_run s v n y u :
  semv_semnum s !! v = Some n -> slot (semfs_sems s) n = Some y -> 0 <= uio_resid u -> 0 <= sems_count y ->
  semfs_read v u s =
    if sems_count y <? uio_resid u then Spin
    else Ret ((0, advance (uio_resid u) u),
              if uio_resid u =? 0 then s else set_sems (arr_set (semfs_sems s) n (Some (with_count (sems_count y - uio_resid u) y))) s).
Proof.
  intros Hv Hy Hu Hc. unfold semfs_read.
  rewrite (bind_run _ _ _ _ _ (semnum_run s v n Hv)), (bind_run _ _ _ _ _ (getsem_run s v n y Hv Hy)). destruct (Z.eqb_spec (uio_resid u) 0) as [Hz|Hz].
  - replace (sems_count y <? uio_resid u) with false by lia. unfold mret, M_ret. do 3 f_equal. unfold advance. rewrite Hz. by destruct u as [o r]; simpl in *; f_equal; lia.
  - unfold put_sem. mrun. destruct (Z.ltb_spec (sems_count y) (uio_resid u)).
    + by replace (uio_resid u - Z.min (uio_resid u) (sems_count y) =? 0) with false by lia.
    + rewrite Z.min_l by lia. rewrite Z.sub_diag. done.
Qed.

Lemma write_wp s v n u :
  semfs_ok s -> semv_semnum s !! v = Some n -> n <> SEMFS_ROOTDIR -> 0 <= uio_resid u < 2 ^ 32 ->
  wp (semfs_write v u) s (fun r s' => semfs_ok s' /\ s_vst s' = s_vst s).
Proof.
  intros Hs Hv Hn Hu. destruct (sem_of s v n Hs Hv Hn) as (y & Hy & Hc). unfold semfs_write. apply wp_bind. eapply wp_semnum; [exact Hv|].
  apply wp_bind. eapply wp_sem_of; [exact Hv|exact Hy|]. case_match; [by wp_step|]. case_match; [by wp_step|].
  apply wp_bind. eapply wp_run; [apply wakeup_run|]. unfold put_sem. wp_step. wp_step. split; [|done]. apply count_inv; [done..|]. apply u32_range.
Qed.

Lemma truncate_wp s v n len :
  semfs_ok s -> semv_semnum s !! v = Some n -> n <> SEMFS_ROOTDIR ->
  wp (semfs_truncate v len) s (fun r s' => semfs_ok s' /\ s_vst s' = s_vst s).
Proof.
  intros Hs Hv Hn. destruct (sem_of s v n Hs Hv Hn) as (y & Hy & Hc). unfold semfs_truncate.
  case_match; [by wp_step|]. case_match; [by wp_step|]. apply wp_bind. eapply wp_semnum; [exact Hv|].
  apply wp_bind. eapply wp_sem_of; [exact Hv|exact Hy|].
  apply wp_bind. eapply wp_run; [apply wakeup_run|]. unfold put_sem. wp_step. wp_step. split; [|done]. apply count_inv; [done..|]. apply u32_range.
Qed.

(** *** Creating a semaphore *)

Definition new_sem : semfs_sem := MkSem 0 false false.

Lemma none_moved (t : vst) : Vnode.moved Vnode.none t t.
Proof. intros w. unfold Vnode.none. lia. Qed.

(** [n] has been given to a new semaphore. *)
Definition inserted s n s' : Prop :=
  semfs_inv n s' /\ slot (semfs_sems s') n = Some new_sem /\ semfs_dents s' = semfs_dents s /\ s_vst s' = s_vst s /\
  (forall i d, slot (semfs_dents s') i = Some d -> semd_semnum d <> n) /\ forall v, semv_semnum s' !! v <> Some n.

Lemma inserted_intro s n sems' :
  semfs_ok s -> slot (semfs_sems s) n = None -> 0 <= n < SEMFS_ROOTDIR ->
  (forall m, slot sems' m = upd (slot (semfs_sems s)) n (Some new_sem) m) -> Z.of_nat (length sems') <= SEMFS_ROOTDIR ->
  inserted s n (set_sems sems' s).
Proof.
  intros Hs Hn Hr Hsl Hlen. destruct (shape_insert _ _ _ n (si_shape _ _ Hs) Hn) as [Hsh Hno]; [lia..|].
  split_and!; [|simpl; by rewrite Hsl, upd_same|done|done|done|].
  - apply (inv_sems (-1)); [done| |done]. by eapply shape_ext.
  - intros v Hv. destruct (sh_vsem _ _ _ _ (si_shape _ _ Hs) _ _ Hv) as [? ?]; [lia|]. congruence.
Qed.

Lemma insert_wp s room :
  semfs_ok s ->
  wp (semfs_sem_insert room new_sem) s (fun r s' => fst r <> 0 /\ s' = s \/ fst r = 0 /\ inserted s (snd r) s').
Proof.
  intros Hs. pose proof (si_size _ _ Hs) as Hsize. unfold semfs_sem_insert. wp_step.
  destruct (Z.eqb_spec (Z.of_nat (length (semfs_sems s))) SEMFS_ROOTDIR) as [|Hne]; [wp_step; by left|].
  destruct (first_null (semfs_sems s) 0) as [i|] eqn:Hf.
  - destruct (first_null_spec _ _ _ Hf) as [Hi Hnone]. rewrite Z.sub_0_r in Hnone. unfold put_sem. wp_step. wp_step. right. split; [done|].
    apply inserted_intro; [done|done|simpl; lia|intros m; apply slot_put; simpl; lia|by rewrite arr_set_length].
  - destruct room; [|wp_step; by left]. wp_step. wp_step. right. split; [done|].
    apply inserted_intro; [done|apply slot_out; simpl; lia|simpl; lia|intros m; apply slot_app|rewrite length_app; simpl; lia].
Qed.

Lemma uninsert_ok s n :
  semfs_inv n s -> is_Some (slot (semfs_sems s) n) -> (forall i d, slot (semfs_dents s) i = Some d -> semd_semnum d <> n) ->
  (forall v, semv_semnum s !! v <> Some n) -> semfs_ok (set_sems (arr_set (semfs_sems s) n None) s).
Proof. intros Hs Hn Hd Hv. apply (inv_put_sem n); [done..|]. by apply shape_uninsert; [apply Hs|..]. Qed.

(** The room for a directory entry. *)
Lemma dent_slot (dents : list (option semfs_direntry)) d :
  let i := default (Z.of_nat (length dents)) (first_null dents 0) in
  let dents' := match first_null dents 0 with Some i => arr_set dents i (Some d) | None => dents ++ [Some d] end in
  slot dents i = None /\ (forall m, slot dents' m = upd (slot dents) i (Some d) m) /\ 0 <= i < Z.of_nat (length dents').
Proof.
  destruct (first_null dents 0) as [i|] eqn:Hf; simpl.
  - destruct (first_null_spec _ _ _ Hf) as [Hi Hnone]. rewrite Z.sub_0_r in Hnone. split_and!; [done| |lia|rewrite arr_set_length; lia].
    intros m. apply slot_put. lia.
  - split_and!; [apply slot_out; lia|intros m; apply slot_app|lia|rewrite length_app; simpl; lia].
Qed.

(** The entry [d] for the new semaphore [n] is at [i]. *)
Definition entered n i d s : Prop :=
  semfs_inv n s /\ is_Some (slot (semfs_sems s) n) /\ slot (semfs_dents s) i = Some d /\ semd_semnum d = n /\ forall v, semv_semnum s !! v <> Some n.

Lemma enter_dent s n s1 d :
  inserted s n s1 -> is_string (semd_name d) -> semd_semnum d = n ->
  (forall j e, slot (semfs_dents s) j = Some e -> cstr (semd_name e) <> cstr (semd_name d)) ->
  entered n (default (Z.of_nat (length (semfs_dents s))) (first_null (semfs_dents s) 0)) d
    (set_dents (match first_null (semfs_dents s) 0 with Some i => arr_set (semfs_dents s1) i (Some d) | None => semfs_dents s1 ++ [Some d] end) s1).
Proof.
  intros (Hs1 & Hn & Hd & Hv & Hno & Hnv) Hstr Hdn Hnew. rewrite Hd. destruct (dent_slot (semfs_dents s) d) as (Hi & Hsl & Hr).
  pose proof (si_shape _ _ Hs1) as Hsh. rewrite Hd in Hsh, Hno. split_and!; [|by eexists|simpl; by rewrite Hsl, upd_same|done|done].
  destruct Hs1. split; try done. simpl. eapply shape_ext; [|done|exact Hsl].
  eapply shape_name; [exact Hsh|by eexists|done..|]. intros j e He. split; [by eapply Hno|by eapply Hnew].
Qed.

(** The entry of a semaphore that got no vnode goes away, and the semaphore with it. *)
Lemma unenter_ok n i d s : entered n i d s ->
  semfs_ok (set_sems (arr_set (semfs_sems s) n None) (set_dents (arr_set (semfs_dents s) i None) s)).
Proof.
  intros (Hs & Hn & Hi & Hd & Hv). destruct (slot_Some _ _ _ Hi) as [_ Hr].
  destruct (shape_unname _ _ _ _ _ _ (si_shape _ _ Hs) Hi Hd) as [Hsh Hno].
  assert (Hsl : forall m, slot (arr_set (semfs_dents s) i None) m = upd (slot (semfs_dents s)) i None m) by (intros m; by apply slot_put).
  apply (uninsert_ok (set_dents (arr_set (semfs_dents s) i None) s) n); [|done| |done].
  - destruct Hs. split; try done. simpl. by eapply shape_ext.
  - intros j e He. simpl in He. rewrite Hsl in He. by eapply Hno.
Qed.

(** What [semfs_creat] does: a vnode on success, and nothing that stays on failure. *)
Definition created (m : memory) s (r : Z * option Z) s' : Prop :=
  match snd r with
  | Some v => fst r = 0 /\ handed s (0, v) s'
  | None => semfs_ok s' /\ Vnode.moved Vnode.none (s_vst s) (s_vst s') /\ (fst r = 0 -> ok_dent m = false)
  end.

(** The last part, from the call of [semfs_getvnode]. *)
Lemma creat_vnode_wp m s s1 n i d :
  entered n i d s1 -> s_vst s1 = s_vst s -> fresh (a_vnode m) s -> roomy_refs s ->
  wp ('(result, v) ← semfs_getvnode (a_vnode m) (ok_vnodes m) n;
      if negb (result =? 0) then put_dent i None;; put_sem n None;; mret (result, None)
      else sem ← semfs_getsembynum n; put_sem n (Some (with_linked true sem));; mret (0, Some v)) s1 (created m s).
Proof.
  intros He Hv Hf Hroom. destruct He as (Hs1 & Hn & Hi & Hd & Hno). unfold fresh, roomy_refs in *. rewrite <- Hv in *.
  apply wp_bind. eapply wp_mono; [by apply (getvnode_wp n); auto|].
  intros [r v] s2 (Hs2 & Hdents & [(H0 & Hnum & Hm & _ & Hsem)|(H0 & Hnum & Hsems & Hm)]); simpl in *.
  - subst r. simpl. destruct (Hsem Hn) as [y Hy]. apply wp_bind. eapply wp_getsem; [exact Hy|]. unfold put_sem. wp_step. wp_step.
    split; [done|]. split; [|split; [intros _; by exists n|simpl; by rewrite <- Hv]]. apply (inv_put_sem n); [done|by eexists|].
    eapply shape_linked; [apply Hs2|done|by rewrite Hdents|done].
  - replace (r =? 0) with false by lia. simpl. unfold put_dent, put_sem. wp_step. wp_step. wp_step. split_and!; [|simpl; by rewrite <- Hv|done].
    apply (unenter_ok n i d s2). split_and!; [done|by rewrite Hsems|by rewrite Hdents|done|by rewrite Hnum].
Qed.

Lemma creat_wp m s name excl :
  semfs_ok s -> roomy_refs s -> fresh (a_vnode m) s -> is_string name -> wp (semfs_creat m name excl) s (created m s).
Proof.
  intros Hs Hroom Hf Hn. assert (Hfail : forall e, e <> 0 -> created m s (e, None) s) by (intros e He; split_and!; [done|apply none_moved|done]).
  unfold semfs_creat. apply wp_bind. eapply wp_run; [by apply is_dot_run|]. destruct (dotted name); [wp_step; by apply Hfail|].
  wp_step. apply wp_bind. eapply wp_mono; [apply wp_find_dent; [done|by apply (dents_strings (-1))]|].
  intros [[i d]|] s1 [-> Hi].
  { destruct Hi as [Hi _]. destruct (sh_dent _ _ _ _ (si_shape _ _ Hs) _ _ Hi) as [_ Hy]. destruct excl; [wp_step; by apply Hfail|].
    apply wp_bind. eapply wp_mono; [apply (getvnode_wp (-1)); auto|]. intros [r v] s' (Hok & Hv & Hm)%got_handed. apply wp_ret.
    simpl in *. unfold created. destruct (Z.eqb_spec r 0); subst; simpl; split_and!; try done; split_and!; auto. }
  unfold semfs_sem_create. wp_step. destruct (ok_sem m); [|wp_step; by apply Hfail].
  apply wp_bind. eapply wp_mono; [by apply insert_wp|].
  intros [r n] s1 [[H0 ->]|[H0 Hins]]; simpl in H0; [replace (r =? 0) with false by lia; apply wp_ret; by apply Hfail|]. subst r. simpl.
  pose proof Hins as (Hs1 & Hnew & Hd1 & Hv1 & Hno1 & Hnv1). simpl in *.
  assert (Hundo : forall e, (e = 0 -> ok_dent m = false) -> created m s (e, None) (set_sems (arr_set (semfs_sems s1) n None) s1)).
  { intros e He. split_and!; [by apply uninsert_ok|simpl; rewrite Hv1; apply none_moved|done]. }
  unfold semfs_direntry_create. destruct (ok_dent m) eqn:Hdent; [|wp_step; unfold put_sem; wp_step; wp_step; by apply Hundo].
  destruct (copy_string name Hn) as (k & Hk & Hstr & Hcs). apply wp_bind. apply wp_bind. eapply wp_run; [by apply lift_run|]. wp_step.
  set (d := MkDent _ n).
  assert (Hent := enter_dent s n s1 d Hins Hstr eq_refl ltac:(intros j e; simpl; rewrite Hcs; apply Hi)).
  destruct (first_null (semfs_dents s) 0) as [j|] eqn:Hfn; simpl in *.
  - apply wp_bind. unfold put_dent at 1. apply wp_modify. by eapply creat_vnode_wp.
  - destruct (ok_dir m); simpl; [|unfold put_sem; wp_step; wp_step; by apply Hundo]. wp_step. by eapply creat_vnode_wp.
Qed.

End Directory.

(** ** Every sequence of operations *)

Inductive request :=
  | Creat (m : memory) (name : list Z) (excl : bool)
  | Remove (name : list Z)
  | Lookup (m : memory) (dirvn : Z) (path : list Z)
  | Lookparent (dirvn : Z) (path : list Z) (bufmax : Z)
  | Getroot (a : Z) (room : bool)
  | Incref (v : Z)
  | Decref (v : Z)
  | Read (v : Z) (u : uio)
  | Write (v : Z) (u : uio)
  | Truncate (v len : Z)
  | Getdirentry (offset : Z)
  | Unmount.

Definition perform (q : request) : M semfs unit :=
  match q with
  | Creat m name excl => semfs_creat m name excl;; mret tt
  | Remove name => semfs_remove name;; mret tt
  | Lookup m dirvn path => semfs_lookup m dirvn path;; mret tt
  | Lookparent dirvn path bufmax => semfs_lookparent dirvn path bufmax;; mret tt
  | Getroot a room => semfs_getroot a room;; mret tt
  | Incref v => in_vst (Vnode.vnode_incref v)
  | Decref v => semfs_decref v
  | Read v u => semfs_read v u;; mret tt
  | Write v u => semfs_write v u;; mret tt
  | Truncate v len => semfs_truncate v len;; mret tt
  | Getdirentry offset => semfs_getdirentry offset;; mret tt
  | Unmount => semfs_unmount;; mret tt
  end.

(** [v] is the vnode of a semaphore. *)
Definition sem_vnode (v : Z) (s : semfs) : Prop := exists n, semv_semnum s !! v = Some n /\ n <> SEMFS_ROOTDIR.

(** What callers guarantee: names are strings, vnodes are ones they have a reference to,
    and there are fewer than 2^31 - 1 references to each. *)
Definition allowed (q : request) (s : semfs) : Prop :=
  match q with
  | Creat m name _ => roomy_refs s /\ fresh (a_vnode m) s /\ is_string name
  | Remove name => is_string name
  | Lookup m dirvn path => roomy_refs s /\ fresh (a_vnode m) s /\ is_string path /\ is_Some (semv_semnum s !! dirvn)
  | Lookparent dirvn path _ => roomy_refs s /\ is_string path /\ is_Some (semv_semnum s !! dirvn)
  | Getroot a _ => roomy_refs s /\ fresh a s
  | Incref v => roomy_refs s /\ is_Some (semv_semnum s !! v)
  | Decref v => is_Some (semv_semnum s !! v)
  | Read v u | Write v u => sem_vnode v s /\ 0 <= uio_resid u < 2 ^ 32
  | Truncate v _ => sem_vnode v s
  | Getdirentry offset => 0 <= offset
  | Unmount => True
  end.

Inductive reachable : semfs -> Prop :=
  | reach_create t s :
      Vnode.ok t -> vop_magic t !! semfs_dirops = Some VOP_MAGIC -> vop_magic t !! semfs_semops = Some VOP_MAGIC ->
      semfs_create true t = Some s -> reachable s
  | reach_step s q s' : reachable s -> q <> Unmount -> allowed q s -> perform q s = Ret (tt, s') -> reachable s'.

Section Reachable.
Implicit Types (s : semfs) (q : request).

Lemma create_ok t s :
  Vnode.ok t -> vop_magic t !! semfs_dirops = Some VOP_MAGIC -> vop_magic t !! semfs_semops = Some VOP_MAGIC ->
  semfs_create true t = Some s -> semfs_ok s.
Proof.
  intros Ht H1 H2 [= <-]. assert (Hnil : forall (A : Type) i, slot (@nil (option A)) i = None) by (intros A i; apply slot_out; simpl; lia).
  split; simpl; try done.
  - split; intros *; rewrite ?Hnil, ?lookup_empty; done.
  - apply NoDup_nil_2.
  - intros v. rewrite lookup_empty. split; [by intros ?%elem_of_nil|by intros [? ?]].
  - by intros v ?%elem_of_nil.
Qed.

(** A read waits for as long as there is less than it asks for. *)
Definition waits q s : Prop :=
  exists v u n y, q = Read v u /\ semv_semnum s !! v = Some n /\ slot (semfs_sems s) n = Some y /\ sems_count y < uio_resid u.

(** The slot of a removed entry or of a semaphore that is gone is dereferenced. *)
Definition removed q s : Prop :=
  match q with
  | Getdirentry offset => u32 offset < Z.of_nat (length (semfs_dents s)) /\ slot (semfs_dents s) (u32 offset) = None
  | Unmount => semfs_vnodes s = [] /\ (None ∈ semfs_sems s \/ None ∈ semfs_dents s)
  | _ => False
  end.

Lemma each_slot {A} (l : list (option A)) why s :
  let c := for_each l (fun o => x ← valid o why; mret tt) in c s = Ret (tt, s) \/ c s = Undef why /\ None ∈ l.
Proof.
  induction l as [|[x|] l IH]; cbn [for_each]; [by left| |].
  - cbv zeta. mrun. destruct IH as [IH|[IH Hin]]; [by left|right]. split; [done|]. apply elem_of_cons. by right.
  - right. split; [done|]. apply elem_of_cons. by left.
Qed.

Lemma unmount_cases s : (exists r s', semfs_unmount s = Ret (r, s')) \/ (exists why, semfs_unmount s = Undef why) /\ removed Unmount s.
Proof.
  unfold semfs_unmount, removed. mrun. destruct (semfs_vnodes s) as [|v l]; simpl; [|left; by eexists _, _].
  assert ((exists s', semfs_destroy s = Ret (tt, s')) \/ (exists why, semfs_destroy s = Undef why) /\ (None ∈ semfs_sems s \/ None ∈ semfs_dents s)) as Hd.
  { unfold semfs_destroy. mrun. destruct (each_slot (semfs_sems s) "sem" s) as [E|[E Hin]].
    - rewrite (bind_run _ _ _ _ _ E). mrun. destruct (each_slot (semfs_dents s) "dent" (set_sems [] s)) as [E2|[E2 Hin]].
      + rewrite (bind_run _ _ _ _ _ E2). left. by eexists.
      + right. split; [|by right]. eexists. unfold mbind at 1, M_bind at 1. by rewrite E2.
    - right. split; [|by left]. eexists. unfold mbind at 1, M_bind at 1. by rewrite E. }
  destruct Hd as [[s' E]|[[why E] Hin]].
  - left. rewrite (bind_run _ _ _ _ _ E). by eexists _, _.
  - right. split; [|done]. exists why. unfold mbind at 1, M_bind at 1. by rewrite E.
Qed.

Lemma getdirentry_cases s offset : semfs_ok s -> 0 <= offset ->
  wp (semfs_getdirentry offset) s (fun _ s' => s' = s) \/ semfs_getdirentry offset s = Undef "dent" /\ removed (Getdirentry offset) s.
Proof.
  intros Hs Ho. unfold semfs_getdirentry, removed. pose proof (u32_range offset) as Hr.
  destruct (Z.leb_spec (Z.of_nat (length (semfs_dents s))) (u32 offset)) as [Hle|Hlt].
  { left. wp_step; [lia|]. wp_step. rewrite (proj2 (Z.leb_le _ _)) by lia. by wp_step. }
  destruct (slot (semfs_dents s) (u32 offset)) as [d|] eqn:Hd.
  - left. destruct (slot_Some _ _ _ Hd) as [Hg _]. wp_step; [lia|]. wp_step. rewrite (proj2 (Z.leb_gt _ _)) by lia.
    wp_step; [exact Hg|]. wp_step; [done|]. apply wp_bind.
    eapply wp_run; [apply lift_run, strlen_string; by eapply (dents_strings (-1))|]. by wp_step.
  - right. split; [|done]. rewrite bind_kassert by lia. mrun. rewrite (proj2 (Z.leb_gt _ _)) by lia.
    destruct (proj2 (arr_get_is_Some (semfs_dents s) (u32 offset))) as [o Hg]; [lia|]. unfold slot in Hd. rewrite Hg in Hd. simpl in Hd.
    subst o. by rewrite (bind_valid _ _ _ _ _ Hg).
Qed.

Lemma wp_drop {A} (c : M semfs A) s (P : semfs -> Prop) : wp c s (fun _ s' => P s') -> wp (c;; mret tt) s (fun _ s' => P s').
Proof. intros Hc. apply wp_bind. eapply wp_mono; [exact Hc|]. intros r s' Hp. by wp_step. Qed.

Lemma perform_wp q s : semfs_ok s -> allowed q s ->
  wp (perform q) s (fun _ s' => q <> Unmount -> semfs_ok s') \/ (perform q s = Spin /\ waits q s) \/
  (exists why, perform q s = Undef why) /\ removed q s.
Proof.
  intros Hs. destruct q as [m name excl|name|m dirvn path|dirvn path bufmax|a room|v|v|v u|v u|v len|offset|]; simpl.
  - intros (Hr & Hf & Hn). left. apply wp_drop. eapply wp_mono; [by apply creat_wp|]. intros [r [v|]] s'; [by intros (_ & ? & _)|by intros (? & _)].
  - intros Hn. left. apply wp_drop. eapply wp_mono; [by apply remove_wp|]. by intros r s' [? _].
  - intros (Hr & Hf & Hn & Hd). left. apply wp_drop. eapply wp_mono; [by apply lookup_wp|]. by intros r s' [? _].
  - intros (Hr & Hn & Hd). left. apply wp_drop. eapply wp_mono; [by apply lookparent_wp|]. by intros r s' [? _].
  - intros (Hr & Hf). left. apply wp_drop. eapply wp_mono; [by apply getroot_wp|]. by intros r s' [? _].
  - intros (Hr & n & Hv). left. eapply incref_wp; [done..|]. by intros s' [? _].
  - intros [n Hv]. left. eapply wp_mono; [by eapply decref_wp|]. by intros r s' [? _].
  - intros [(n & Hv & Hn) Hu]. destruct (sem_of s v n Hs Hv Hn) as (y & Hy & Hc).
    pose proof (read_run s v n y u Hv Hy ltac:(lia) ltac:(lia)) as Hrun. destruct (Z.ltb_spec (sems_count y) (uio_resid u)) as [Hlt|Hge].
    + right. left. split; [unfold mbind, M_bind; by rewrite Hrun|]. by exists v, u, n, y.
    + left. apply wp_drop. eapply wp_run; [exact Hrun|]. intros _. case_match; [done|]. by apply count_inv; [done..|lia].
  - intros [(n & Hv & Hn) Hu]. left. apply wp_drop. eapply wp_mono; [by eapply write_wp|]. by intros r s' [? _].
  - intros (n & Hv & Hn). left. apply wp_drop. eapply wp_mono; [by eapply truncate_wp|]. by intros r s' [? _].
  - intros Ho. destruct (getdirentry_cases s offset Hs Ho) as [Hw|[E Hrm]].
    + left. apply wp_drop. eapply wp_mono; [exact Hw|]. by intros r s' ->.
    + right. right. split; [|exact Hrm]. eexists. unfold mbind, M_bind. by rewrite E.
  - intros _. destruct (unmount_cases s) as [(r & s' & E)|[[why E] Hrm]].
    + left. apply wp_drop. by eapply wp_run; [exact E|].
    + right. right. split; [|exact Hrm]. exists why. unfold mbind at 1, M_bind at 1. by rewrite E.
Qed.

(** C7 semfs_reachable.  In every state that the operations of the semaphore file system
    (creating, removing, looking up, handing out the root, reference counting, reading,
    writing, truncating and reading the directory) can reach from an empty one, the three
    tables agree: a vnode or a name always stands for a semaphore that exists, a
    semaphore exists only while it has a vnode or a name and its [sems_hasvnode] and
    [sems_linked] say which, no semaphore has two vnodes or two names, names are distinct,
    and every vnode in the table is referenced.  Each of these operations, and unmounting,
    returns, however its allocations turn out, with three exceptions: a read that asks for
    more than the count waits; reading the directory at the slot of a removed entry, and
    unmounting when a slot of either table is empty, dereference a null pointer. *)
Theorem semfs_reachable s :
  reachable s ->
  semfs_ok s /\
  forall q, allowed q s ->
    (exists s', perform q s = Ret (tt, s')) \/ (perform q s = Spin /\ waits q s) \/ (exists why, perform q s = Undef why) /\ removed q s.
Proof.
  intros Hreach. assert (Hok : semfs_ok s).
  { induction Hreach as [t s Ht H1 H2 Hc|s q s' _ IH Hq Ha Hrun]; [by eapply create_ok|].
    destruct (perform_wp q s IH Ha) as [(r & s2 & Hr & Hs2)|[[Hr _]|[[why Hr] _]]]; rewrite Hrun in Hr; [|done..].
    apply Ret_inj in Hr as [_ <-]. by apply Hs2. }
  split; [done|]. intros q Ha. destruct (perform_wp q s Hok Ha) as [([] & s' & Hr & _)|Hr]; [left; by exists s'|by right].
Qed.

(** *** Counting *)

(** V by [k] and then P by [k]: the count is what it was. *)
Lemma write_read_run s v n y k off :
  semv_semnum s !! v = Some n -> slot (semfs_sems s) n = Some y -> 0 <= sems_count y -> 0 < k -> sems_count y + k < 2 ^ 32 ->
  exists s', semfs_write v (Uio off k) s = Ret ((0, Uio (off + k) 0), s') /\
    semfs_read v (Uio off k) s' = Ret ((0, Uio (off + k) 0), s).
Proof.
  intros Hv Hy Hc Hk Hb. exists (set_sems (arr_set (semfs_sems s) n (Some (with_count (sems_count y + k) y))) s).
  destruct (slot_Some _ _ _ Hy) as [Hg Hr].
  assert (Hw : semfs_write v (Uio off k) s = Ret ((0, Uio (off + k) 0), set_sems (arr_set (semfs_sems s) n (Some (with_count (sems_count y + k) y))) s)).
  { unfold semfs_write. rewrite (bind_run _ _ _ _ _ (semnum_run s v n Hv)), (bind_run _ _ _ _ _ (getsem_run s v n y Hv Hy)). simpl.
    replace (k =? 0) with false by lia. unfold u32. rewrite Z.mod_small by lia. replace (sems_count y + k <? sems_count y) with false by lia.
    rewrite (bind_run _ _ _ _ _ (wakeup_run _ _ _)). unfold put_sem. mrun. unfold advance. simpl. by rewrite Z.sub_diag. }
  split; [done|].
  rewrite (read_run _ v n (with_count (sems_count y + k) y)); [|done|simpl; by rewrite slot_put, upd_same by done|simpl; lia|simpl; lia].
  simpl. replace (sems_count y + k <? k) with false by lia. replace (k =? 0) with false by lia.
  unfold advance, set_sems. simpl. rewrite Z.sub_diag, arr_set_twice. unfold with_count. simpl.
  replace (sems_count y + k - k) with (sems_count y) by lia. rewrite arr_set_same; [by destruct s|]. rewrite Hg. by destruct y.
Qed.

(** *** What the code does not do *)

(** [semfs_creat] reports success without a vnode when there is no memory for the
    directory entry: the result of the insertion is still 0. *)
Theorem semfs_creat_no_dent s m name excl :
  semfs_ok s -> is_string name -> dotted name = false -> (forall j d, slot (semfs_dents s) j = Some d -> cstr (semd_name d) <> cstr name) ->
  ok_sem m = true -> ok_table m = true -> Z.of_nat (length (semfs_sems s)) < SEMFS_ROOTDIR -> ok_dent m = false ->
  exists s', semfs_creat m name excl s = Ret ((0, None), s').
Proof.
  intros Hs Hn Hdot Hnew H1 H2 Hsize H3. cut (wp (semfs_creat m name excl) s (fun r _ => r = (0, None))).
  { intros (r & s' & Hr & ->). by exists s'. }
  unfold semfs_creat. apply wp_bind. eapply wp_run; [by apply is_dot_run|]. rewrite Hdot. wp_step. apply wp_bind.
  eapply wp_mono; [apply wp_find_dent; [done|by apply (dents_strings (-1))]|].
  intros [[i d]|] s1 [-> Hi]; [destruct Hi as [Hi He]; by destruct (Hnew _ _ Hi)|].
  unfold semfs_sem_create, semfs_sem_insert. rewrite H1, H2. wp_step. apply wp_bind. wp_step.
  replace (Z.of_nat (length (semfs_sems s)) =? SEMFS_ROOTDIR) with false by (symmetry; apply Z.eqb_neq; lia).
  unfold semfs_direntry_create. rewrite H3.
  destruct (first_null (semfs_sems s) 0); [unfold put_sem at 1|]; wp_step; wp_step; simpl; wp_step; unfold put_sem; wp_step; by wp_step.
Qed.

(** Reading the directory at an entry that has been removed is undefined. *)
Theorem semfs_getdirentry_removed s i :
  0 <= i < Z.of_nat (length (semfs_dents s)) -> i < 2 ^ 32 -> slot (semfs_dents s) i = None -> semfs_getdirentry i s = Undef "dent".
Proof.
  intros Hi Hb Hnone. unfold semfs_getdirentry. rewrite bind_kassert by lia. mrun. unfold u32. rewrite Z.mod_small by lia.
  replace (Z.of_nat (length (semfs_dents s)) <=? i) with false by lia.
  unfold slot in Hnone. destruct (arr_get (semfs_dents s) i) as [o|] eqn:Hg.
  - simpl in Hnone. by subst o.
  - apply not_eq_None_Some in Hg; [done|]. by apply arr_get_is_Some.
Qed.

End Reachable.

End Semfs.
(** ** Samples *)

Module SemfsSample.
Import Semfs.

Definition boot_vst : vst :=
  Vst (MkSync (Cpu true 0 0 IPL_NONE 0 false true) ∅) ∅ {[ semfs_dirops := VOP_MAGIC; semfs_semops := VOP_MAGIC ]}.

Definition boot : semfs := MkSemfs boot_vst ∅ [] [] [].

Definition plenty (a : Z) : memory := Memory true true true true a true.

Definition a_name : list Z := [97; 0].
Definition V1 : Z := 0x80300000.

Definition after (c : M semfs unit) (s : semfs) : semfs := match c s with Ret (_, s') => s' | _ => s end.

(** The semaphore [a] has been created and is open. *)
Definition opened : semfs := Eval vm_compute in after (perform (Creat (plenty V1) a_name true)) boot.

Lemma a_name_string : is_string a_name.
Proof. split; [unfold terminated, a_name; set_solver|repeat constructor; lia]. Qed.

Lemma boot_vst_ok : Vnode.ok boot_vst.
Proof. split; [vm_compute; split_and!; (done || by left)|]. intros v x Hv. cbn [v_tab boot_vst] in Hv. by rewrite lookup_empty in Hv. Qed.

Lemma opened_reachable : reachable opened.
Proof.
  apply (reach_step boot (Creat (plenty V1) a_name true)).
  - by apply (reach_create boot_vst); [apply boot_vst_ok|..].
  - done.
  - split_and!; [|done|apply a_name_string]. intros v. unfold Vnode.refs. cbn [s_vst boot v_tab boot_vst]. by rewrite lookup_empty.
  - vm_compute. reflexivity.
Qed.

(** Removing the semaphore and giving the vnode back both go through. *)
Lemma semfs_reachable_witness :
  reachable opened /\ semfs_ok opened /\ (exists s', perform (Decref V1) opened = Ret (tt, s')).
Proof.
  split; [apply opened_reachable|]. destruct (semfs_reachable opened opened_reachable) as [Hok Hrun]. split; [exact Hok|].
  destruct (Hrun (Decref V1)) as [Hs|[[Hs _]|[[why Hs] _]]]; [by eexists|exact Hs|discriminate Hs|discriminate Hs].
Defined.

(** P of an empty semaphore waits; after V by 3, P by 2 leaves 1; the unlinked
    semaphore goes away with its vnode. *)
Example opened_waits : semfs_read V1 (Uio 0 1) opened = Spin.
Proof. vm_compute. reflexivity. Qed.

Example opened_counts :
  semfs_sems (after (perform (Write V1 (Uio 0 3));; perform (Read V1 (Uio 0 2))) opened) = [Some (MkSem 1 true true)].
Proof. vm_compute. reflexivity. Qed.

Example opened_unlinked :
  semfs_sems (after (perform (Remove a_name)) opened) = [Some (MkSem 0 true false)] /\
  semfs_sems (after (perform (Remove a_name);; perform (Decref V1)) opened) = [None].
Proof. vm_compute. done. Qed.

(** Unmounting after that dereferences the empty slot. *)
Theorem semfs_unmount_removed : (perform (Remove a_name);; perform (Decref V1);; semfs_unmount) opened = Undef "sem".
Proof. vm_compute. reflexivity. Qed.

(** The offset of a directory read counts bytes of names, but is used as an index: after
    the two bytes of the first name the second of two entries is skipped. *)
Theorem semfs_getdirentry_offset :
  let s := after (perform (Creat (plenty V1) [97; 98; 0] true);; perform (Creat (plenty 0x80300100) [99; 0] true)) boot in
  semfs_getdirentry 0 s = Ret ([97; 98], s) /\ semfs_getdirentry 2 s = Ret ([], s).
Proof. vm_compute. done. Qed.

(** The mode of the directory is decimal 1777 and not octal 1777, which is 1023. *)
Theorem semfs_dirstat_mode :
  exists mode, semfs_dirstat boot = Ret ((0, mode, 2, SEMFS_ROOTDIR), boot) /\ mode <> Z.lor S_IFDIR 1023.
Proof. exists (Z.lor S_IFDIR 1777). by split. Qed.

End SemfsSample.
